(* ===== verification/_CoqProject ===== *)
-Q . S2P
Prelude.v
ApsFrame.v
NwkFrame.v
ZclWire.v
MacFrame.v
Flash.v
FlashWrite.v
Crc.v
NvRecord.v
NvScan.v
NvSafety.v
NvReplace.v
Journal.v
Counter.v
Timebase.v
Epoch.v
NoiseHealth.v
BlockCipher.v
Mmo.v
Ccm.v
Association.v
Candidates.v
Parent.v
Security.v
MacTx.v
ZclAttributes.v
ZclWrite.v
ZclDispatch.v
ZclIdentify.v
EdWire.v
CounterService.v
SecurityKeys.v
KeyView.v
KeyLife.v
KeyWrites.v
KeyCalls.v
KeyLive.v
KeyStore.v
KeyReceive.v
KeyEvents.v
KeyHistory.v
ZclTemperature.v
Zdo.v
