(* ===== verification/Prelude.v ===== *)
(** * cc2530-zigbee: a verification development (root file)

    The program is a Zigbee end device for the CC2530, an 8051 system on chip, written in C.
    Its library (src/src and src/include) is a stack: register drivers; storage and counters
    over the flash; cryptography over the AES engine; the IEEE 802.15.4 MAC; the NWK and APS
    wire syntax with its protection; joining; and the ZCL application layer.  This development
    translates the parts of that stack that are logic over data, in the base profile (none of
    the CC2530_... build options, unless a file makes an option a variable), and proves them
    correct against definitions that do not follow the code.

    ** How the code is represented

    An unsigned integer of width w is a [Z], with the wrap-around of every cast and every
    narrowing assignment written out ([u8], [u16], [u32] below).  A buffer is a list of octets
    with [rd] and [wr] for an access by index.  An out-parameter is a component of the result,
    [None] when the call leaves it alone; a pointer that may be null is an [option] or, for one
    that is only written, a flag.  A static or caller-owned record is a [Record] passed in and
    returned.  A chain of early returns is [if! guard return result ;; rest].  What lies below
    the C code is a class: [FlashDevice] (Flash.v) for the flash reader and command executor,
    [BlockCipher] (BlockCipher.v) for the AES engine, each with a concrete instance that the
    witnesses run on; a device may fail on any call.  [Journal] (Journal.v) is the interface
    between the record journal and its client Counter.v; [CounterService]
    (CounterService.v) is the interface between the counters and the key store, with Counter.v
    over any journal as its instance.

    ** The files and the code they model

    - Prelude.v: notation, integers, octet lists, automation.
    - ApsFrame.v, NwkFrame.v: aps_frame.c, nwk_frame.c.  Headers, decoder, encoder; what is
      emitted is read back, and what is accepted is emitted again.
    - MacFrame.v: mac_frame.c.  The same for all four MAC frame types and the two receive
      profiles.
    - ZclWire.v: zcl_frame.c, zcl_value.c.
    - Flash.v, FlashWrite.v: the device class; flash_write.c.  No word is programmed twice
      between erases, whatever fails.
    - Crc.v, NvRecord.v, NvScan.v, NvSafety.v, NvReplace.v: nv_record.c.  The CRC tables are
      polynomial division; a scan is a function of the page; a load returns the selected
      record; a replacement is durable when it reports success, and leaves the old record or the
      new one when it is cut off at any point; wear is bounded.
    - Journal.v, Counter.v: the interface of the journal, its instance, and
      security_counter.c.  The counter values handed out strictly increase over every history
      of calls, resets and losses of supply.
    - Timebase.v, Epoch.v: timebase.c, mac_epoch.c.  Deadlines and the symbol count agree with
      unbounded time across the wraps of the hardware counters.
    - NoiseHealth.v: noise_health.c.  The incremental tests equal their definition on the
      whole history.
    - BlockCipher.v, Mmo.v, Ccm.v: the cipher class; zigbee_mmo.c, zigbee_key_hash.c;
      ccm_star.c.  The hash, the install-code check and CCM* equal their definitions; nothing is
      delivered without authentication.
    - Association.v: mac_association.c.  One response window: its outcome is justified by one
      event of the window, and it ends.
    - Candidates.v, Parent.v: nwk_beacon.c, nwk_candidates.c, nwk_parent.c.  The table refines
      a list of live candidates; the selected parent is the newest and best, best by link cost,
      and by tree depth first on a table marked for rejoining (recovery build), which the header
      of nwk_parent.c excludes.
    - Security.v: zigbee_security.c.  EdWire.v: ed_wire.c.  Frame protection: sealed frames
      open to the original, opened frames are the protection of what is delivered; the packet
      codec of the end device.
    - MacTx.v: mac_tx.c.  One transmission with CSMA-CA and retries refines a specification in
      unbounded time, acknowledges soundly, and terminates.
    - CounterService.v: what the counters promise an owner that keeps its record in their payload,
      and the proof that security_counter.c keeps that promise.
    - SecurityKeys.v: security_keys.c, every public operation.  KeyView.v, KeyLife.v: the record
      as fields, and the life cycle of an end device (associated, keyed, verified, left,
      rejoining) as a step relation that keeps records valid.  KeyWrites.v, KeyCalls.v,
      KeyLive.v: every write of the code is a step; the parts of a call; the record that a state
      stands for.  KeyStore.v, KeyReceive.v, KeyEvents.v: the calls.  KeyHistory.v:
      histories of calls and losses of supply, and the theorems: the stored record always
      passes the check of the code (if no provisioned install code derives a zero link key, which
      the code does not test: [key_zero_link_refused]), every call refines the life cycle,
      delivered network frames are not delivered again.
    - ZclAttributes.v, ZclWrite.v, ZclDispatch.v, ZclIdentify.v: zcl_attributes.c,
      zcl_write.c, zcl_dispatch.c, zcl_identify.c.  A client that parses the responses reads
      the attributes; writes are judged record by record and applied all or nothing where
      asked; discovery lists; the identify time is that of true time.
    - ZclTemperature.v: zcl_temperature.c.  Reporting of one attribute: its clock is true time
      across wraps, a report goes out exactly when it is due, and Configure Reporting is judged
      record by record.
    - Zdo.v: zdo_node.c, zdo_srv.c.  The node descriptor codec reads back what it emits; the
      server is the reaction of its specification to the parsed request, and no server answers
      an answer.

    ** How the parts are composed

    SecurityKeys.v calls EdWire.v, Mmo.v and the counter class; EdWire.v and Security.v call the
    codecs and Ccm.v; Ccm.v and Mmo.v call the cipher class;
    Counter.v calls the journal class, whose instance is NvReplace.v over NvRecord.v over
    FlashWrite.v over the device class; Association.v, Candidates.v and MacTx.v decode with
    MacFrame.v; ZclIdentify.v and ZclTemperature.v call ZclDispatch.v, which calls ZclWrite.v and ZclAttributes.v
    over ZclWire.v; Zdo.v takes the header of ApsFrame.v.  Each file's theorems use the theorems of the files it calls, never their
    bodies again where a lemma states them.

    ** Bounds and fuel

    Loops whose counter is bounded by the data are structural on a [nat] made from that bound
    (octets left, records left, pages, table slots), so they need no further argument.  Where
    the code itself counts work down (the association window, the transmission context) the
    count is the code's, and termination is a theorem about it: mac_association_terminates,
    mac_tx_terminates.  Histories (calls, resets, interrupted writes) are lists of any length.

    ** Not modelled

    Register drivers (clock, DMA, interrupts, flash and AES engines, radio FIFO, receiver,
    transmitter, AUTOACK, noise capture): sequences of accesses to hardware whose behaviour is
    not part of the repository; the classes above state what is relied on.  The
    MAC procedures that own the radio (scan, poll, join), the joining procedure above them and
    the transaction owner: compositions over those drivers; the protocol contexts they drive
    (Association.v, MacTx.v, Candidates.v, SecurityKeys.v) are modelled here.  The Basic
    cluster and the sensor application are clients of the modelled parts, and the ZDO runtime
    of the transaction owner; Zdo.v has the single fixed endpoint (not CC2530_ZDO_DESCRIPTORS).  Of security_keys.c the options
    CC2530_PARENT_RECOVERY, CC2530_ROUTER_JOIN, CC2530_REPLAY_POLICY_C and CC2530_DEFAULT_TC_KEY.
    The workspace options (CC2530_MAC_LINK_WORKSPACE and its relatives) only move private
    buffers into shared memory and check admission to it.  Wiping of private buffers is not a
    value: the model keeps them local and no octet of them is read by a later call.  Test
    fixtures, smoke images, boards, examples and tools are outside the library. *)
From Stdlib Require Export ZArith Lia Bool.
From stdpp Require Export base list list_numbers numbers option.

#[global] Open Scope Z_scope.

(** ** Notation of the development

    C functions of this code base are written as chains of early returns.
    [if! c return e ;; k] is that chain: when the guard [c] holds the call
    returns [e], otherwise it goes on with [k]. *)
Declare Scope c_scope.
Delimit Scope c_scope with c.
Notation "'if!' c 'return' e ;; k" := (if c then e else k)
  (at level 10, c at level 99, e at level 99, k at level 200,
   format "'if!'  c  'return'  e  ;; '//' k") : c_scope.
#[global] Open Scope c_scope.

(** ** Machine integers

    A C unsigned integer is a [Z]; a cast wraps it around at its width. *)
Definition u8 (x : Z) : Z := x mod 256.
Definition u16 (x : Z) : Z := x mod 65536.
Definition u32 (x : Z) : Z := x mod 4294967296.

Definition is_u8 (x : Z) : Prop := 0 <= x < 256.
Definition is_u16 (x : Z) : Prop := 0 <= x < 65536.
Definition is_u32 (x : Z) : Prop := 0 <= x < 4294967296.

#[export] Instance is_u8_dec x : Decision (is_u8 x).
Proof. unfold is_u8. apply _. Defined.
#[export] Instance is_u16_dec x : Decision (is_u16 x).
Proof. unfold is_u16. apply _. Defined.
#[export] Instance is_u32_dec x : Decision (is_u32 x).
Proof. unfold is_u32. apply _. Defined.

(** [has f m] is the C test [f & m] used as a truth value. *)
Definition has (f m : Z) : bool := negb (Z.land f m =? 0).

(** ** Byte buffers

    A buffer is the list of its octets.  [rd] reads one octet (a read out of
    range is undefined in C and 0 here: the locality theorems of the codecs show
    that no result depends on one), [wr] writes one, [slice] is the span
    a [memcpy] reads, [blit] the byte loop that writes a span. *)
Abbreviation bytes := (list Z).
Definition is_bytes (b : bytes) : Prop := Forall is_u8 b.
#[export] Instance is_bytes_dec b : Decision (is_bytes b).
Proof. unfold is_bytes. apply _. Defined.

Definition rd (b : bytes) (i : Z) : Z := default 0 (b !! Z.to_nat i).
Definition wr (b : bytes) (i v : Z) : bytes := <[Z.to_nat i := v]> b.
Definition slice (b : bytes) (i n : Z) : bytes := take (Z.to_nat n) (drop (Z.to_nat i) b).
Fixpoint blit (dst : bytes) (pos : Z) (src : bytes) : bytes :=
  match src with
  | [] => dst
  | v :: rest => blit (wr dst pos v) (pos + 1) rest
  end.
Definition blen (b : bytes) : Z := Z.of_nat (length b).

Definition read_le16 (b : bytes) (i : Z) : Z :=
  Z.lor (rd b i) (Z.shiftl (rd b (i + 1)) 8).
Definition write_le16 (b : bytes) (i v : Z) : bytes :=
  wr (wr b i (u8 v)) (i + 1) (u8 (Z.shiftr v 8)).

(** ** Automation *)
Create HintDb zb discriminated.

Ltac unfold_width := unfold is_u8, is_u16, is_u32 in *.
Ltac width := unfold_width; unfold u8, u16, u32 in *; Z.div_mod_to_equations; lia.

(** [concrete] discharges a decidable fact about concrete values by evaluation. *)
Ltac concrete :=
  first [ vm_compute; done
        | refine (bool_decide_unpack _ _); vm_compute; exact I
        | vm_compute; intuition done ].

(** Case analysis on the guards of a chain of early returns. *)
Ltac guards :=
  repeat match goal with
  | H : context [if ?b then _ else _] |- _ =>
      lazymatch type of b with bool => destruct b eqn:?; simplify_eq H || idtac end
  | |- context [if ?b then _ else _] => destruct b eqn:?
  end.

(** ** Record update

    [r <| f := v |>] is the record [r] with its field [f] set to [v], for every record type
    that lists its fields in an instance of [Fields]. *)
Class Fields (R : Type) := rebuild : R → R.
Class Update {R T : Type} (f : R → T) := update : (T → T) → R → R.
Arguments update {R T f U} / _ _ : rename.
Ltac solve_update :=
  lazymatch goal with |- @Update ?R ?T ?f =>
    let whole := eval hnf in (@rebuild R _) in
    let abstracted := eval pattern f in whole in
    lazymatch abstracted with ?g f =>
      let r := eval cbv beta in (λ (u : T → T) (r : R), g (λ x, u (f x)) r) in exact r end
  end.
#[export] Hint Extern 0 (Update _) => solve_update : typeclass_instances.
Notation "r <| f := v |>" := (update (f := f) (λ _, v) r)
  (at level 12, left associativity, f at level 9, v at level 200,
   format "r  <| f  :=  v |>") : c_scope.
Ltac fields := cbn [update].
(** [proj] reads a field through the updates above it, and leaves the updates folded. *)
Ltac proj_in t :=
  match t with context [?f (@update ?R ?T ?g ?U ?u ?r)] =>
    first
      [ change (f (@update R T g U u r)) with (f r)
      | let v := eval cbv beta in (u (g r)) in change (f (@update R T g U u r)) with v ]
  end.
Ltac proj := repeat match goal with |- ?G => proj_in G end.

(** ** Casts and bit fields *)
Lemma u8_range x : is_u8 (u8 x). Proof. unfold u8. width. Qed.
Lemma u16_range x : is_u16 (u16 x). Proof. unfold u16. width. Qed.
Lemma u32_range x : is_u32 (u32 x). Proof. unfold u32. width. Qed.
Lemma u8_id x : is_u8 x → u8 x = x.
Proof. intros. unfold u8. apply Z.mod_small. width. Qed.
Lemma u16_id x : is_u16 x → u16 x = x.
Proof. intros. unfold u16. apply Z.mod_small. width. Qed.
Lemma u32_id x : is_u32 x → u32 x = x.
Proof. intros. unfold u32. apply Z.mod_small. width. Qed.

(** A decidable fact of one octet (or of one 16-bit word) is proved by
    evaluating it on all of them. *)
Fixpoint forall_from (n : nat) (i : Z) (P : Z → bool) : bool :=
  match n with O => true | S n => P i && forall_from n (i + 1) P end.
Lemma forall_from_spec n i P :
  forall_from n i P = true → ∀ x, i <= x < i + Z.of_nat n → P x = true.
Proof.
  revert i; induction n as [|n IH]; intros i H x Hx; [lia|]. simpl in H.
  apply andb_true_iff in H as [H1 H2].
  destruct (decide (x = i)) as [->|]; [done|]. apply (IH (i + 1)); [done|lia].
Qed.
Lemma forall_u8 (P : Z → bool) :
  forall_from 256 0 P = true → ∀ x, is_u8 x → P x = true.
Proof. intros H x Hx. apply (forall_from_spec _ _ _ H). exact Hx. Qed.
Lemma forall_u16 (P : Z → bool) :
  forall_from (Z.to_nat 65536) 0 P = true → ∀ x, is_u16 x → P x = true.
Proof.
  intros H x Hx. apply (forall_from_spec _ _ _ H). rewrite Z2Nat.id by done. exact Hx.
Qed.
(** [by_u8 x] proves an equation (of integers or of booleans) about one octet
    [x], [by_u16 x] one about a 16-bit word, by evaluating every case. *)
Ltac by_all L x Hx :=
  pattern x;
  lazymatch goal with |- ?P x =>
    let f := eval cbv beta in (λ y : Z, ltac:(let t := eval cbv beta in (P y) in
      lazymatch t with
      | ?l = ?r :> Z => exact (Z.eqb l r)
      | ?l = ?r :> bool => exact (Bool.eqb l r)
      end)) in
    first [apply Z.eqb_eq | apply Bool.eqb_prop];
    apply (L f); [vm_compute; reflexivity | exact Hx]
  end.
Ltac by_u8 x := match goal with Hx : is_u8 x |- _ => by_all forall_u8 x Hx end.
Ltac by_u16 x := match goal with Hx : is_u16 x |- _ => by_all forall_u16 x Hx end.

Lemma lor_shift8 a b : is_u8 a → 0 <= b → Z.lor a (Z.shiftl b 8) = a + 256 * b.
Proof.
  intros Ha Hb. symmetry.
  assert (Z.land a (Z.shiftl b 8) = 0) as Hc;
    [|pose proof (Z.add_lor_land a (Z.shiftl b 8)) as E; rewrite Hc in E;
      rewrite Z.shiftl_mul_pow2 in * by lia; lia].
  apply Z.bits_inj'. intros n Hn. rewrite Z.land_spec, Z.bits_0, Z.shiftl_spec by lia.
  destruct (decide (n < 8)).
  - rewrite (Z.testbit_neg_r b) by lia. apply andb_false_r.
  - rewrite <- (u8_id a), <- (Z.mod_pow2_bits_high a 8 n) by (done || lia).
    unfold u8. change 256 with (2 ^ 8). rewrite !Z.mod_pow2_bits_high by lia. done.
Qed.

Lemma u16_bytes v : is_u16 v → u8 v + 256 * u8 (Z.shiftr v 8) = v.
Proof. intros. rewrite Z.shiftr_div_pow2 by lia. change (2 ^ 8) with 256. width. Qed.

(** Masking keeps a value within the mask. *)
Lemma land_range x m : 0 <= x → 0 <= m → 0 <= Z.land x m <= m.
Proof.
  intros Hx Hm. split; [apply Z.land_nonneg; by right|].
  rewrite <- (Z2N.id x), <- (Z2N.id m), <- N2Z.inj_land by done.
  apply N2Z.inj_le, N.land_le_r.
Qed.
Lemma is_u8_land x m : 0 <= x → 0 <= m < 256 → is_u8 (Z.land x m).
Proof. intros. pose proof (land_range x m). width. Qed.
Lemma is_u16_land x m : 0 <= x → 0 <= m < 65536 → is_u16 (Z.land x m).
Proof. intros. pose proof (land_range x m). width. Qed.

(** ** Buffer lemmas *)
Lemma blen_nonneg b : 0 <= blen b. Proof. unfold blen. lia. Qed.
Lemma blen_app a b : blen (a ++ b) = blen a + blen b.
Proof. unfold blen. rewrite length_app. lia. Qed.
Lemma blen_cons x b : blen (x :: b) = blen b + 1.
Proof. unfold blen. simpl. lia. Qed.
Lemma blen_nil : blen [] = 0. Proof. done. Qed.

Lemma rd_0 x b : rd (x :: b) 0 = x. Proof. done. Qed.
Lemma rd_cons x b i : 0 < i → rd (x :: b) i = rd b (i - 1).
Proof.
  intros. unfold rd. replace (Z.to_nat i) with (S (Z.to_nat (i - 1))) by lia. done.
Qed.
Lemma rd_app_l a b i : 0 <= i < blen a → rd (a ++ b) i = rd a i.
Proof. intros. unfold rd, blen in *. rewrite lookup_app_l by lia. done. Qed.
Lemma rd_app_r a b i : blen a <= i → rd (a ++ b) i = rd b (i - blen a).
Proof.
  intros. pose proof (blen_nonneg a). unfold rd, blen in *.
  rewrite lookup_app_r by lia. f_equal. f_equal. lia.
Qed.
Lemma rd_take b n i : 0 <= i < n → rd (take (Z.to_nat n) b) i = rd b i.
Proof. intros. unfold rd. rewrite lookup_take_lt by lia. done. Qed.
Lemma rd_is_u8 b i : is_bytes b → is_u8 (rd b i).
Proof.
  intros Hb. unfold rd. destruct (b !! Z.to_nat i) eqn:E; simpl; [|width].
  by eapply (Forall_lookup_1 is_u8).
Qed.

Lemma blen_wr b i v : blen (wr b i v) = blen b.
Proof. unfold blen, wr. by rewrite length_insert. Qed.
Lemma blen_blit dst pos src : blen (blit dst pos src) = blen dst.
Proof.
  revert dst pos; induction src as [|v src IH]; intros dst pos; simpl; [done|].
  by rewrite IH, blen_wr.
Qed.
Lemma slice_app a b c : slice (a ++ b ++ c) (blen a) (blen b) = b.
Proof.
  unfold slice, blen. rewrite !Nat2Z.id, drop_app_length. apply take_app_length.
Qed.
Lemma slice_all b : slice b 0 (blen b) = b.
Proof. unfold slice, blen. rewrite Nat2Z.id. apply firstn_all. Qed.
Lemma slice_all' b n : n = blen b → slice b 0 n = b.
Proof. intros ->. apply slice_all. Qed.
Lemma blen_slice b i n :
  0 <= i → 0 <= n → i + n <= blen b → blen (slice b i n) = n.
Proof.
  intros. unfold slice, blen in *. rewrite length_take, length_drop. lia.
Qed.
Lemma is_bytes_app a b : is_bytes (a ++ b) ↔ is_bytes a ∧ is_bytes b.
Proof. apply Forall_app. Qed.
Lemma is_bytes_slice b i n : is_bytes b → is_bytes (slice b i n).
Proof. intros. by apply Forall_take, Forall_drop. Qed.
Lemma is_bytes_wr b i v : is_bytes b → is_u8 v → is_bytes (wr b i v).
Proof. intros. by apply Forall_insert. Qed.
Lemma is_bytes_blit dst pos src :
  is_bytes dst → is_bytes src → is_bytes (blit dst pos src).
Proof.
  revert dst pos; induction src as [|v src IH]; intros dst pos Hd Hs; simpl; [done|].
  apply Forall_cons_1 in Hs as [Hv Hs]. apply IH; [by apply is_bytes_wr|done].
Qed.

(** The byte loop writes exactly its span: the octets before and after it are
    those of the destination. *)
Lemma blit_spec dst pos src :
  0 <= pos → pos + blen src <= blen dst →
  blit dst pos src
  = take (Z.to_nat pos) dst ++ src ++ drop (Z.to_nat (pos + blen src)) dst.
Proof.
  revert dst pos; induction src as [|v src IH]; intros dst pos Hp Hl; simpl.
  { rewrite blen_nil, Z.add_0_r. by rewrite take_drop. }
  rewrite blen_cons in *. pose proof (blen_nonneg src).
  assert (Z.to_nat pos < length dst)%nat by (unfold blen in *; lia).
  rewrite IH by (rewrite ?blen_wr; lia). unfold wr.
  replace (Z.to_nat (pos + 1)) with (S (Z.to_nat pos)) by lia.
  rewrite (take_S_r _ _ v) by (by apply list_lookup_insert_eq).
  rewrite take_insert_ge, drop_insert_lt by lia.
  rewrite <- app_assoc. simpl. do 4 f_equal. lia.
Qed.
Lemma wr_app_l a b i v : 0 <= i < blen a → wr (a ++ b) i v = wr a i v ++ b.
Proof. intros. unfold wr, blen in *. rewrite insert_app_l by lia. done. Qed.
Lemma wr_blit b i v : wr b i v = blit b i [v]. Proof. done. Qed.
Lemma blit_blit dst pos s1 s2 :
  blit (blit dst pos s1) (pos + blen s1) s2 = blit dst pos (s1 ++ s2).
Proof.
  revert dst pos; induction s1 as [|v s1 IH]; intros dst pos; simpl.
  { by rewrite blen_nil, Z.add_0_r. }
  rewrite <- IH, blen_cons. f_equal. lia.
Qed.
Lemma blit_blit' dst pos p2 s1 s2 :
  p2 = pos + blen s1 → blit (blit dst pos s1) p2 s2 = blit dst pos (s1 ++ s2).
Proof. intros ->. apply blit_blit. Qed.
Lemma write_le16_blit b i v :
  write_le16 b i v = blit b i [u8 v; u8 (Z.shiftr v 8)].
Proof. done. Qed.
Lemma read_le16_bytes b i v :
  is_u16 v → rd b i = u8 v → rd b (i + 1) = u8 (Z.shiftr v 8) → read_le16 b i = v.
Proof.
  intros Hv H1 H2. unfold read_le16. rewrite H1, H2.
  pose proof (u8_range v). pose proof (u8_range (Z.shiftr v 8)).
  rewrite lor_shift8 by width. by apply u16_bytes.
Qed.
Lemma read_le16_range b i : is_bytes b → is_u16 (read_le16 b i).
Proof.
  intros Hb. unfold read_le16. pose proof (rd_is_u8 b i Hb).
  pose proof (rd_is_u8 b (i + 1) Hb). rewrite lor_shift8 by width. width.
Qed.
Lemma read_le16_split b i :
  is_bytes b → u8 (read_le16 b i) = rd b i ∧ u8 (Z.shiftr (read_le16 b i) 8) = rd b (i + 1).
Proof.
  intros Hb. pose proof (rd_is_u8 b i Hb). pose proof (rd_is_u8 b (i + 1) Hb).
  unfold read_le16. rewrite lor_shift8 by width.
  rewrite Z.shiftr_div_pow2 by lia. change (2 ^ 8) with 256. width.
Qed.

(** Two buffers agree on their first [n] octets. *)
Definition agree (n : Z) (a b : bytes) : Prop := take (Z.to_nat n) a = take (Z.to_nat n) b.
Lemma agree_rd n a b i : agree n a b → 0 <= i < n → rd a i = rd b i.
Proof. intros H Hi. rewrite <- (rd_take a n i), <- (rd_take b n i) by done. by rewrite H. Qed.
Lemma agree_slice n a b i k :
  agree n a b → 0 <= i → i + k <= n → slice a i k = slice b i k.
Proof.
  intros H Hi Hk. unfold slice, agree in *.
  rewrite !take_drop_commute. 
  destruct (decide (0 <= k)); [|by replace (Z.to_nat k) with 0%nat by lia;
    rewrite Nat.add_0_r, !drop_ge by (rewrite length_take; lia)].
  replace (Z.to_nat i + Z.to_nat k)%nat with (Z.to_nat (i + k)) by lia.
  rewrite <- (Nat.min_l (Z.to_nat (i + k)) (Z.to_nat n)), <- !take_take by lia.
  by rewrite H.
Qed.

Lemma blit_0 dst src :
  blen src <= blen dst → blit dst 0 src = src ++ drop (length src) dst.
Proof.
  intros. rewrite blit_spec by lia. unfold blen. by rewrite Z.add_0_l, Nat2Z.id.
Qed.
Lemma slice_app_mid a b c i n :
  i = blen a → n = blen b → slice (a ++ b ++ c) i n = b.
Proof. intros -> ->. apply slice_app. Qed.

(** [rd_simpl] computes the reads of a buffer whose first octets are known. *)
Ltac rd_simpl :=
  repeat match goal with
  | |- context [rd (?x :: ?l) ?i] =>
      let v := eval cbv [rd Z.to_nat Pos.to_nat Pos.iter_op Nat.add lookup list_lookup
                         default from_option id] in (rd (x :: l) i) in
      change (rd (x :: l) i) with v
  end.

Lemma slice_rd b i n :
  0 <= i → 0 <= n → i + n <= blen b → slice b i n = rd b <$> seqZ i n.
Proof.
  intros Hi Hn Hl. unfold blen in Hl. apply list_eq. intros k. unfold slice.
  rewrite list_lookup_fmap. destruct (decide (k < Z.to_nat n)%nat).
  - rewrite lookup_take_lt, lookup_drop, lookup_seqZ_lt by lia. simpl. unfold rd.
    destruct (lookup_lt_is_Some_2 b (Z.to_nat i + k)%nat) as [x Hx]; [lia|].
    replace (Z.to_nat (i + Z.of_nat k)) with (Z.to_nat i + k)%nat by lia. by rewrite Hx.
  - rewrite lookup_take_ge, lookup_seqZ_ge by lia. done.
Qed.
Lemma slice_add b i n m :
  0 <= i → 0 <= n → 0 <= m → slice b i (n + m) = slice b i n ++ slice b (i + n) m.
Proof.
  intros. unfold slice. rewrite Z2Nat.inj_add by lia.
  rewrite <- (take_drop (Z.to_nat n) (drop (Z.to_nat i) b)) at 1.
  rewrite drop_drop, (Z2Nat.inj_add i n) by lia.
  destruct (decide (Z.to_nat n <= length (drop (Z.to_nat i) b)))%nat.
  - rewrite take_app_add' by (rewrite length_take; lia). done.
  - rewrite length_drop in *. rewrite (drop_ge b (Z.to_nat i + Z.to_nat n)) by lia.
    rewrite app_nil_r, take_nil, app_nil_r, take_take. f_equal. lia.
Qed.
Lemma slice_add' b i j n m :
  j = i + n → 0 <= i → 0 <= n → 0 <= m → slice b i (n + m) = slice b i n ++ slice b j m.
Proof. intros ->. apply slice_add. Qed.
Lemma slice_prefix b s n :
  0 <= s → s <= n → slice b 0 n = slice b 0 s ++ slice b s (n - s).
Proof.
  intros. replace n with (s + (n - s)) at 1 by lia. by rewrite slice_add by lia.
Qed.
(** An eight-octet array, octet by octet. *)
Lemma blen_8 b : blen b = 8 → ∃ a0 a1 a2 a3 a4 a5 a6 a7, b = [a0; a1; a2; a3; a4; a5; a6; a7].
Proof.
  unfold blen. intros H. assert (length b = 8%nat) as L by lia. clear H.
  do 8 (destruct b as [|? b]; [done|]). destruct b; [|done]. by repeat eexists.
Qed.
Lemma slice_0 b n : slice b 0 n = take (Z.to_nat n) b.
Proof. done. Qed.

(** [slice_list b] lists the octets of a slice of constant length. *)
Ltac seqZ_list :=
  match goal with |- context [seqZ ?i ?n] =>
    let v := eval vm_compute in (seqZ i n) in change (seqZ i n) with v end;
  cbn [fmap list_fmap].
Ltac slice_list := rewrite slice_rd by lia; seqZ_list.

(** ** Little-endian values *)
Fixpoint le_value (b : bytes) : Z :=
  match b with [] => 0 | x :: r => x + 256 * le_value r end.
Lemma le_value_app a b : le_value (a ++ b) = le_value a + 256 ^ blen a * le_value b.
Proof.
  induction a as [|x a IH]; [by rewrite blen_nil; simpl; lia|].
  rewrite blen_cons, Z.pow_add_r by (pose proof (blen_nonneg a); lia). simpl. rewrite IH. lia.
Qed.
Lemma le_value_range b : is_bytes b → 0 <= le_value b < 256 ^ blen b.
Proof.
  induction b as [|x b IH]; intros Hb; [done|]. apply Forall_cons_1 in Hb as [Hx Hb].
  specialize (IH Hb). rewrite blen_cons, Z.pow_add_r by (pose proof (blen_nonneg b); lia).
  simpl. unfold is_u8 in Hx. lia.
Qed.
Lemma slice_snoc b n :
  0 <= n → n < blen b → slice b 0 (n + 1) = slice b 0 n ++ [rd b n].
Proof. intros. rewrite slice_add by lia. f_equal. by rewrite slice_rd by lia. Qed.

(** ** Extensionality of buffers *)
Lemma rd_slice b p n i : 0 <= p → 0 <= i < n → rd (slice b p n) i = rd b (p + i).
Proof.
  intros Hp Hi. unfold rd, slice. rewrite lookup_take_lt, lookup_drop by lia.
  by replace (Z.to_nat p + Z.to_nat i)%nat with (Z.to_nat (p + i)) by lia.
Qed.
Lemma rd_wr b i j v :
  0 <= i < blen b → 0 <= j → rd (wr b i v) j = if j =? i then v else rd b j.
Proof.
  intros Hi Hj. unfold rd, wr, blen in *. destruct (j =? i) eqn:E.
  - replace j with i by lia. by rewrite list_lookup_insert_eq by lia.
  - by rewrite list_lookup_insert_ne by lia.
Qed.
Lemma rd_blit dst p src i :
  0 <= p → p + blen src <= blen dst → 0 <= i →
  rd (blit dst p src) i = if (p <=? i) && (i <? p + blen src) then rd src (i - p) else rd dst i.
Proof.
  intros Hp Hl Hi. rewrite blit_spec by done. pose proof (blen_nonneg src).
  assert (blen (take (Z.to_nat p) dst) = p) as Ht
    by (unfold blen in *; rewrite length_take; lia).
  destruct (decide (i < p)).
  { rewrite rd_app_l by lia. replace (p <=? i) with false by lia. by apply rd_take. }
  rewrite rd_app_r, Ht by lia. destruct (decide (i < p + blen src)).
  - replace (p <=? i) with true by lia. replace (i <? p + blen src) with true by lia.
    by rewrite rd_app_l by lia.
  - replace (i <? p + blen src) with false by lia. rewrite andb_false_r, rd_app_r by lia.
    unfold rd. rewrite lookup_drop. f_equal. f_equal. lia.
Qed.
Lemma rd_replicate n v i : 0 <= i < Z.of_nat n → rd (replicate n v) i = v.
Proof. intros. unfold rd. by rewrite lookup_replicate_2 by lia. Qed.
Lemma blen_replicate n (v : Z) : blen (replicate n v) = Z.of_nat n.
Proof. unfold blen. by rewrite length_replicate. Qed.
Lemma bytes_ext a b :
  blen a = blen b → (∀ i, 0 <= i < blen a → rd a i = rd b i) → a = b.
Proof.
  intros Hl H. apply list_eq. intros i. unfold blen in *. destruct (decide (i < length a)%nat).
  - specialize (H (Z.of_nat i) ltac:(lia)). unfold rd in H. rewrite Nat2Z.id in H.
    destruct (lookup_lt_is_Some_2 a i) as [x Hx]; [lia|].
    destruct (lookup_lt_is_Some_2 b i) as [y Hy]; [lia|].
    rewrite Hx, Hy in *. simpl in H. by subst.
  - by rewrite !lookup_ge_None_2 by lia.
Qed.
Lemma slice_ext a b p n :
  0 <= p → 0 <= n → p + n <= blen a → p + n <= blen b →
  (∀ i, p <= i < p + n → rd a i = rd b i) → slice a p n = slice b p n.
Proof.
  intros Hp Hn Ha Hb H. apply bytes_ext; rewrite !blen_slice by lia; [done|].
  intros i Hi. rewrite !rd_slice by lia. apply H. lia.
Qed.
Lemma slice_eq a p n b :
  0 <= p → 0 <= n → p + n <= blen a → blen b = n →
  (∀ i, 0 <= i < n → rd a (p + i) = rd b i) → slice a p n = b.
Proof.
  intros Hp Hn Ha Hb H. apply bytes_ext; rewrite blen_slice by lia; [done|].
  intros i Hi. rewrite rd_slice by lia. by apply H.
Qed.

(** The scan that keeps the first least element. *)
Lemma foldl_argmin {A} (f : A → Z) l : ∀ w,
  let r := foldl (λ w i, if f i <? f w then i else w) w l in
  r ∈ w :: l ∧ Forall (λ i, f r <= f i) (w :: l).
Proof.
  induction l as [|x l IH]; intros w; cbn [foldl].
  { split; [by left|]. by repeat constructor. }
  destruct (IH (if f x <? f w then x else w)) as [H1 H2]. cbv zeta.
  set (r := foldl _ _ l) in *. clearbody r. apply Forall_cons_1 in H2 as [H2 H3].
  rewrite !elem_of_cons in *. destruct (f x <? f w) eqn:E; (split; [tauto|]);
    repeat constructor; done || lia.
Qed.
