(* ===== verification/ApsFrame.v ===== *)
(** * APS data frame codec (src/aps_frame.c, include/aps_frame.h)

    The unsecured APS data frame: its header record, the header policy
    [validate_header], the decoder and the encoder, with both round trips. *)
From S2P Require Import Prelude.

Module Aps.

(** ** Constants and data (include/aps_frame.h) *)
Definition APS_FRAME_MAX_BODY := 108.
Definition APS_FRAME_HEADER_SIZE := 8.
Definition APS_FRAME_DATA := 0.
Definition APS_DELIVERY_UNICAST := 0.
Definition APS_DELIVERY_BROADCAST := 2.
Definition APS_DELIVERY_GROUP := 3.
Definition APS_FLAG_ACK_FORMAT := 0x10.
Definition APS_FLAG_SECURITY := 0x20.
Definition APS_FLAG_ACK_REQUEST := 0x40.
Definition APS_FLAG_EXTENDED_HEADER := 0x80.

Inductive aps_codec_result_t :=
  | APS_CODEC_OK
  | APS_CODEC_INVALID_ARGUMENT
  | APS_CODEC_TRUNCATED
  | APS_CODEC_TOO_LONG
  | APS_CODEC_BUFFER_TOO_SMALL
  | APS_CODEC_UNSUPPORTED_TYPE
  | APS_CODEC_UNSUPPORTED_DELIVERY
  | APS_CODEC_UNSUPPORTED_SECURITY
  | APS_CODEC_UNSUPPORTED_LAYOUT
  | APS_CODEC_INVALID_HEADER.
#[export] Instance aps_codec_result_eq : EqDecision aps_codec_result_t.
Proof. solve_decision. Defined.

Record aps_header_t := {
  type : Z;
  delivery_mode : Z;
  flags : Z;
  destination_endpoint : Z;
  cluster_id : Z;
  profile_id : Z;
  source_endpoint : Z;
  counter : Z
}.

Record aps_frame_info_t := {
  header : aps_header_t;
  payload_offset : Z;
  payload_length : Z
}.

(** Every field holds a value of its C type. *)
Definition header_typed (h : aps_header_t) : Prop :=
  is_u8 (type h) ∧ is_u8 (delivery_mode h) ∧ is_u8 (flags h) ∧
  is_u8 (destination_endpoint h) ∧ is_u16 (cluster_id h) ∧ is_u16 (profile_id h) ∧
  is_u8 (source_endpoint h) ∧ is_u8 (counter h).

(** ** The header policy *)
Definition validate_header (h : aps_header_t) : aps_codec_result_t :=
  if! negb (type h =? APS_FRAME_DATA) return APS_CODEC_UNSUPPORTED_TYPE ;;
  if! has (flags h) APS_FLAG_SECURITY return APS_CODEC_UNSUPPORTED_SECURITY ;;
  if! has (flags h) (Z.lor APS_FLAG_ACK_FORMAT APS_FLAG_EXTENDED_HEADER)
    return APS_CODEC_UNSUPPORTED_LAYOUT ;;
  if! has (flags h) (u8 (Z.lnot APS_FLAG_ACK_REQUEST)) return APS_CODEC_INVALID_HEADER ;;
  if! (delivery_mode h =? 1) || (APS_DELIVERY_GROUP <? delivery_mode h)
    return APS_CODEC_INVALID_HEADER ;;
  if! negb (delivery_mode h =? APS_DELIVERY_UNICAST)
    return APS_CODEC_UNSUPPORTED_DELIVERY ;;
  if! source_endpoint h =? 0xff return APS_CODEC_INVALID_HEADER ;;
  APS_CODEC_OK.

(** ** Decoder *)
Definition parse_header (b : bytes) : aps_header_t := {|
  type := Z.land (rd b 0) 3;
  delivery_mode := Z.land (Z.shiftr (rd b 0) 2) 3;
  flags := Z.land (rd b 0) 0xf0;
  destination_endpoint := rd b 1;
  cluster_id := read_le16 b 2;
  profile_id := read_le16 b 4;
  source_endpoint := rd b 6;
  counter := rd b 7
|}.

(** The pair is the returned code and the content of the output object. *)
Definition aps_frame_decode (body : option bytes) (length : Z)
    (result : option aps_frame_info_t) : aps_codec_result_t * option aps_frame_info_t :=
  match body, result with
  | Some b, Some _ =>
      if! APS_FRAME_MAX_BODY <? length return (APS_CODEC_TOO_LONG, result) ;;
      if! length =? 0 return (APS_CODEC_TRUNCATED, result) ;;
      if! negb (Z.land (rd b 0) 3 =? APS_FRAME_DATA)
        return (APS_CODEC_UNSUPPORTED_TYPE, result) ;;
      if! length <? APS_FRAME_HEADER_SIZE return (APS_CODEC_TRUNCATED, result) ;;
      let h := parse_header b in
      match validate_header h with
      | APS_CODEC_OK =>
          (APS_CODEC_OK,
           Some {| header := h;
                   payload_offset := APS_FRAME_HEADER_SIZE;
                   payload_length := u8 (length - APS_FRAME_HEADER_SIZE) |})
      | status => (status, result)
      end
  | _, _ => (APS_CODEC_INVALID_ARGUMENT, result)
  end.

(** ** Encoder *)
Definition emit_frame (h : aps_header_t) (payload : bytes) (body : bytes) : bytes :=
  let body := wr body 0
    (u8 (Z.lor (Z.lor (type h) (Z.shiftl (delivery_mode h) 2)) (flags h))) in
  let body := wr body 1 (destination_endpoint h) in
  let body := write_le16 body 2 (cluster_id h) in
  let body := write_le16 body 4 (profile_id h) in
  let body := wr body 6 (source_endpoint h) in
  let body := wr body 7 (counter h) in
  blit body APS_FRAME_HEADER_SIZE payload.

Definition aps_frame_encode (header : option aps_header_t) (payload : option bytes)
    (payload_length : Z) (body : option bytes) (capacity : Z) (length : option Z)
    : aps_codec_result_t * option bytes * option Z :=
  match header, body, length with
  | Some h, Some b, Some _ =>
      if! bool_decide (payload = None) && negb (payload_length =? 0)
        return (APS_CODEC_INVALID_ARGUMENT, body, length) ;;
      match validate_header h with
      | APS_CODEC_OK =>
          if! APS_FRAME_MAX_BODY - APS_FRAME_HEADER_SIZE <? payload_length
            return (APS_CODEC_TOO_LONG, body, length) ;;
          if! capacity <? APS_FRAME_HEADER_SIZE + payload_length
            return (APS_CODEC_BUFFER_TOO_SMALL, body, length) ;;
          (APS_CODEC_OK,
           Some (emit_frame h (slice (default [] payload) 0 payload_length) b),
           Some (u8 (APS_FRAME_HEADER_SIZE + payload_length)))
      | status => (status, body, length)
      end
  | _, _, _ => (APS_CODEC_INVALID_ARGUMENT, body, length)
  end.

(** ** Helper lemmas *)
Definition header_bytes (h : aps_header_t) : bytes :=
  [u8 (Z.lor (Z.lor (type h) (Z.shiftl (delivery_mode h) 2)) (flags h));
   destination_endpoint h; u8 (cluster_id h); u8 (Z.shiftr (cluster_id h) 8);
   u8 (profile_id h); u8 (Z.shiftr (profile_id h) 8); source_endpoint h; counter h].

Lemma aps_emit_frame_eq h p b :
  emit_frame h p b = blit b 0 (header_bytes h ++ p).
Proof. reflexivity. Qed.

(** What the policy accepts: the one supported kind of header. *)
Lemma aps_validate_header_ok h :
  is_u8 (flags h) →
  validate_header h = APS_CODEC_OK ↔
  type h = 0 ∧ delivery_mode h = 0 ∧ (flags h = 0 ∨ flags h = 0x40) ∧ source_endpoint h ≠ 0xff.
Proof.
  intros Hf. 
  assert (has (flags h) 0x20 || has (flags h) 0x90 || has (flags h) (u8 (Z.lnot 0x40))
          = negb ((flags h =? 0) || (flags h =? 0x40))) as E.
  { generalize dependent (flags h). intros f Hf. by_u8 f. }
  unfold validate_header.
  change (Z.lor APS_FLAG_ACK_FORMAT APS_FLAG_EXTENDED_HEADER) with 0x90.
  change APS_FLAG_SECURITY with 0x20. change APS_FLAG_ACK_REQUEST with 0x40.
  unfold APS_FRAME_DATA, APS_DELIVERY_GROUP, APS_DELIVERY_UNICAST.
  destruct (has (flags h) 0x20), (has (flags h) 0x90), (has (flags h) (u8 (Z.lnot 0x40)));
    simpl in E; guards; split; intros; try done; lia.
Qed.

Lemma aps_emit_frame_buffer h p b :
  APS_FRAME_HEADER_SIZE + blen p <= blen b →
  emit_frame h p b = header_bytes h ++ p ++ drop (8 + length p) b.
Proof.
  intros. rewrite aps_emit_frame_eq, blit_0, <- app_assoc; [done|].
  rewrite blen_app. change (blen (header_bytes h)) with 8. done.
Qed.

Lemma aps_frame_encode_ok h p n b cap l body' len' :
  aps_frame_encode (Some h) p n (Some b) cap (Some l) = (APS_CODEC_OK, body', len') →
  validate_header h = APS_CODEC_OK ∧ n <= 100 ∧ 8 + n <= cap ∧ (p = None → n = 0) ∧
  body' = Some (emit_frame h (slice (default [] p) 0 n) b) ∧ len' = Some (u8 (8 + n)).
Proof.
  unfold aps_frame_encode, APS_FRAME_MAX_BODY, APS_FRAME_HEADER_SIZE. intros H.
  destruct (bool_decide (p = None) && negb (n =? 0)) eqn:E1; [done|].
  destruct (validate_header h) eqn:E2; try done.
  destruct (108 - 8 <? n) eqn:E3; [done|]. destruct (cap <? 8 + n) eqn:E4; [done|].
  simplify_eq H. intros <- <-. repeat split; try lia; intros ->.
  rewrite bool_decide_eq_true_2 in E1 by done. simpl in E1. lia.
Qed.

(** An emitted header decodes, whatever follows it. *)
Lemma aps_decode_emitted h rest n r0 :
  header_typed h → validate_header h = APS_CODEC_OK → 8 <= n <= 108 →
  aps_frame_decode (Some (header_bytes h ++ rest)) n (Some r0)
  = (APS_CODEC_OK, Some {| header := h; payload_offset := 8; payload_length := n - 8 |}).
Proof.
  intros (Ht&Hd&Hf&He&Hc&Hp&Hs&Hn) Hv Hl.
  apply aps_validate_header_ok in Hv as HH; [|done]. destruct HH as (E1&E2&E3&E4).
  assert (parse_header (header_bytes h ++ rest) = h) as Hh.
  { unfold parse_header, header_bytes. rd_simpl. simpl app.
    rewrite !(read_le16_bytes _ _ (cluster_id h)), !(read_le16_bytes _ _ (profile_id h)) by done.
    destruct h; simpl in *; subst. f_equal; destruct E3 as [-> | ->]; reflexivity. }
  unfold aps_frame_decode, APS_FRAME_MAX_BODY, APS_FRAME_HEADER_SIZE.
  rewrite Hh, Hv. simpl app. rd_simpl. rewrite (u8_id (n - 8)) by width.
  replace (108 <? n) with false by lia. replace (n =? 0) with false by lia.
  replace (n <? 8) with false by lia.
  replace (Z.land _ 3) with 0 by (rewrite E1, E2; destruct E3 as [-> | ->]; reflexivity).
  done.
Qed.

(** ** Properties *)

(** What the APS encoder emits, the APS decoder reads back: the same
    header, and a payload span that holds the octets of the encoder's payload. *)
Theorem aps_frame_roundtrip h payload n b cap l body' len' r0 :
  header_typed h → 0 <= n → n <= blen payload → cap <= blen b →
  aps_frame_encode (Some h) (Some payload) n (Some b) cap (Some l)
    = (APS_CODEC_OK, Some body', Some len') →
  aps_frame_decode (Some body') len' (Some r0)
    = (APS_CODEC_OK, Some {| header := h; payload_offset := 8; payload_length := n |}) ∧
  slice body' 8 n = slice payload 0 n.
Proof.
  intros Ht Hn0 Hnp Hcap H.
  apply aps_frame_encode_ok in H as (Hv&Hn1&Hnc&_&Hb&Hl). simplify_eq.
  rewrite u8_id by width. cbn [default from_option id].
  assert (blen (slice payload 0 n) = n) as Hsl by (apply blen_slice; lia).
  rewrite aps_emit_frame_buffer by (unfold APS_FRAME_HEADER_SIZE; lia).
  split; [|by apply (slice_app_mid (header_bytes h))].
  rewrite aps_decode_emitted by (done || lia). do 3 f_equal. lia.
Qed.

Lemma aps_header_bytes_parse b :
  is_bytes b → 8 <= blen b → header_bytes (parse_header b) = slice b 0 8.
Proof.
  intros Hb Hl. slice_list. unfold header_bytes, parse_header; cbn -[rd read_le16 u8].
  destruct (read_le16_split b 2 Hb) as [-> ->], (read_le16_split b 4 Hb) as [-> ->].
  f_equal. pose proof (rd_is_u8 b 0 Hb) as H0. by_u8 (rd b 0).
Qed.

(** The accepted APS frames are exactly the encodings: encoding a decoded
    header with the decoded payload span gives back every octet of the frame,
    whatever the output buffer held. *)
Theorem aps_frame_canonical b n r0 info out cap l0 :
  is_bytes b → 0 <= n → n <= blen b → n <= cap → cap <= blen out →
  aps_frame_decode (Some b) n (Some r0) = (APS_CODEC_OK, Some info) →
  aps_frame_encode (Some (header info)) (Some (slice b 8 (payload_length info)))
    (payload_length info) (Some out) cap (Some l0)
  = (APS_CODEC_OK, Some (slice b 0 n ++ drop (Z.to_nat n) out), Some n).
Proof.
  intros Hb Hn Hnb Hcap Hout. unfold aps_frame_decode, APS_FRAME_MAX_BODY, APS_FRAME_HEADER_SIZE.
  destruct (108 <? n) eqn:?; [done|]. destruct (n =? 0); [done|].
  destruct (negb _); [done|]. destruct (n <? 8) eqn:?; [done|].
  destruct (validate_header (parse_header b)) eqn:Hv; try done.
  intros H; simplify_eq H; intros <-; cbn [header payload_length].
  rewrite u8_id by width. unfold aps_frame_encode, APS_FRAME_MAX_BODY, APS_FRAME_HEADER_SIZE.
  rewrite bool_decide_eq_false_2, Hv by done. cbn [andb].
  replace (108 - 8 <? n - 8) with false by lia. replace (cap <? 8 + (n - 8)) with false by lia.
  replace (8 + (n - 8)) with n by lia. rewrite u8_id by width.
  assert (blen (slice b 8 (n - 8)) = n - 8) as Hs by (apply blen_slice; lia).
  simpl default. rewrite slice_all', aps_emit_frame_buffer by (unfold APS_FRAME_HEADER_SIZE; lia).
  rewrite aps_header_bytes_parse, app_assoc by (done || lia).
  rewrite <- (slice_add b 0 8) by lia. replace (8 + (n - 8)) with n by lia.
  do 5 f_equal. unfold blen in Hs. lia.
Qed.

(** The decoder reads nothing beyond [length], and keeps its output on error. *)
Lemma aps_frame_decode_local b b' n r :
  0 <= n → agree n b b' →
  aps_frame_decode (Some b) n r = aps_frame_decode (Some b') n r.
Proof.
  intros Hn Ha. unfold aps_frame_decode, APS_FRAME_HEADER_SIZE. destruct r; [|done].
  destruct (APS_FRAME_MAX_BODY <? n); [done|]. destruct (n =? 0) eqn:?; [done|].
  rewrite (agree_rd n b b' 0) by (done || lia). destruct (negb _); [done|].
  destruct (n <? 8) eqn:?; [done|].
  assert (parse_header b = parse_header b') as ->; [|done].
  unfold parse_header, read_le16. by rewrite !(agree_rd n b b') by (done || lia).
Qed.
Lemma aps_frame_decode_error b n r :
  (aps_frame_decode b n r).1 ≠ APS_CODEC_OK → (aps_frame_decode b n r).2 = r.
Proof. unfold aps_frame_decode. intros. repeat case_match; done. Qed.

(** ** Witnesses *)
Definition sample_header : aps_header_t :=
  Build_aps_header_t 0 0 0x40 1 0x0402 0x0104 8 77.

Lemma aps_frame_roundtrip_witness :
  ∃ body', aps_frame_encode (Some sample_header) (Some [9; 8; 7]) 3 (Some (replicate 20 170)) 20 (Some 0)
    = (APS_CODEC_OK, Some body', Some 11) ∧
  aps_frame_decode (Some body') 11 (Some (Build_aps_frame_info_t sample_header 0 0))
    = (APS_CODEC_OK, Some {| header := sample_header; payload_offset := 8; payload_length := 3 |}) ∧
  slice body' 8 3 = [9; 8; 7].
Proof.
  eexists. split; [vm_compute; reflexivity|].
  apply (aps_frame_roundtrip sample_header [9; 8; 7] 3 (replicate 20 170) 20 0);
    concrete.
Defined.

Definition sample_frame : bytes := [0x40; 1; 2; 4; 4; 1; 8; 77; 9; 8; 7].

Lemma aps_frame_canonical_witness :
  aps_frame_encode (Some sample_header) (Some [9; 8; 7]) 3 (Some (replicate 20 170)) 20 (Some 0)
  = (APS_CODEC_OK, Some (sample_frame ++ replicate 9 170), Some 11).
Proof.
  apply (aps_frame_canonical sample_frame 11 (Build_aps_frame_info_t sample_header 0 0)
    (Build_aps_frame_info_t sample_header 8 3)); concrete.
Defined.

End Aps.
