(* ===== verification/NwkFrame.v ===== *)
(** * NWK data frame codec (src/nwk_frame.c, include/nwk_frame.h)

    The unsecured NWK data frame: the variable-size header (two optional
    eight-octet IEEE addresses), its policy [header_shape], decoder, encoder. *)
From S2P Require Import Prelude.

Module Nwk.

(** ** Constants and data (include/nwk_frame.h) *)
Definition NWK_FRAME_MAX_BODY := 116.
Definition NWK_FRAME_MIN_HEADER := 8.
Definition NWK_FRAME_MAX_HEADER := 24.
Definition NWK_FRAME_DATA := 0.
Definition NWK_FRAME_PROTOCOL_VERSION := 2.
Definition NWK_DISCOVER_ROUTE_SUPPRESS := 0.
Definition NWK_DISCOVER_ROUTE_ENABLE := 1.
Definition NWK_FLAG_MULTICAST := 0x0100.
Definition NWK_FLAG_SECURITY := 0x0200.
Definition NWK_FLAG_SOURCE_ROUTE := 0x0400.
Definition NWK_FLAG_DESTINATION_IEEE := 0x0800.
Definition NWK_FLAG_SOURCE_IEEE := 0x1000.
Definition NWK_FLAG_END_DEVICE_INITIATOR := 0x2000.

Inductive nwk_codec_result_t :=
  | NWK_CODEC_OK
  | NWK_CODEC_INVALID_ARGUMENT
  | NWK_CODEC_TRUNCATED
  | NWK_CODEC_TOO_LONG
  | NWK_CODEC_BUFFER_TOO_SMALL
  | NWK_CODEC_UNSUPPORTED_TYPE
  | NWK_CODEC_UNSUPPORTED_VERSION
  | NWK_CODEC_UNSUPPORTED_SECURITY
  | NWK_CODEC_UNSUPPORTED_LAYOUT
  | NWK_CODEC_INVALID_HEADER.
#[export] Instance nwk_codec_result_eq : EqDecision nwk_codec_result_t.
Proof. solve_decision. Defined.

Record nwk_header_t := {
  type : Z;
  version : Z;
  discover_route : Z;
  flags : Z;
  destination : Z;
  source : Z;
  radius : Z;
  sequence : Z;
  destination_ieee : bytes;
  source_ieee : bytes
}.

Record nwk_frame_info_t := {
  header : nwk_header_t;
  payload_offset : Z;
  payload_length : Z
}.

Definition header_typed (h : nwk_header_t) : Prop :=
  is_u8 (type h) ∧ is_u8 (version h) ∧ is_u8 (discover_route h) ∧ is_u16 (flags h) ∧
  is_u16 (destination h) ∧ is_u16 (source h) ∧ is_u8 (radius h) ∧ is_u8 (sequence h) ∧
  blen (destination_ieee h) = 8 ∧ blen (source_ieee h) = 8.
#[export] Instance nwk_header_typed_dec h : Decision (header_typed h).
Proof. unfold header_typed. apply _. Defined.

(** ** The header policy

    The out-parameter [size] is the second component; it is written only by
    the accepting path. *)
Definition header_size (flags : Z) : Z :=
  NWK_FRAME_MIN_HEADER + (if has flags NWK_FLAG_DESTINATION_IEEE then 8 else 0)
    + (if has flags NWK_FLAG_SOURCE_IEEE then 8 else 0).

Definition header_shape (h : nwk_header_t) : nwk_codec_result_t * Z :=
  if! negb (type h =? NWK_FRAME_DATA) return (NWK_CODEC_UNSUPPORTED_TYPE, 0) ;;
  if! negb (version h =? NWK_FRAME_PROTOCOL_VERSION)
    return (NWK_CODEC_UNSUPPORTED_VERSION, 0) ;;
  if! has (flags h) NWK_FLAG_SECURITY return (NWK_CODEC_UNSUPPORTED_SECURITY, 0) ;;
  if! has (flags h) (Z.lor NWK_FLAG_MULTICAST NWK_FLAG_SOURCE_ROUTE)
    return (NWK_CODEC_UNSUPPORTED_LAYOUT, 0) ;;
  if! has (flags h)
        (u16 (Z.lnot (Z.lor (Z.lor NWK_FLAG_DESTINATION_IEEE NWK_FLAG_SOURCE_IEEE)
                            NWK_FLAG_END_DEVICE_INITIATOR)))
    return (NWK_CODEC_INVALID_HEADER, 0) ;;
  if! (NWK_DISCOVER_ROUTE_ENABLE <? discover_route h) || (0xfff8 <=? source h)
    return (NWK_CODEC_INVALID_HEADER, 0) ;;
  if! (0xfff8 <=? destination h)
      && ((destination h <? 0xfffb) || (destination h =? 0xfffe)
          || negb (discover_route h =? NWK_DISCOVER_ROUTE_SUPPRESS)
          || has (flags h) NWK_FLAG_DESTINATION_IEEE)
    return (NWK_CODEC_INVALID_HEADER, 0) ;;
  (NWK_CODEC_OK, header_size (flags h)).

(** ** Decoder *)
Definition parse_header (b : bytes) : nwk_header_t :=
  let control := read_le16 b 0 in
  let route := Z.land (Z.shiftr control 6) 3 in
  let dst := read_le16 b 2 in {|
  type := Z.land control 3;
  version := Z.land (Z.shiftr control 2) 15;
  discover_route := if (route =? 2) && (dst <? 0xfff8) then NWK_DISCOVER_ROUTE_ENABLE
                    else route;
  flags := Z.land control 0xff00;
  destination := dst;
  source := read_le16 b 4;
  radius := rd b 6;
  sequence := rd b 7;
  destination_ieee := replicate 8 0;
  source_ieee := replicate 8 0
|}.

(** The two [memcpy]s of the IEEE addresses. *)
Definition parse_ieee (b : bytes) (h : nwk_header_t) : nwk_header_t :=
  let dst := has (flags h) NWK_FLAG_DESTINATION_IEEE in
  let position := NWK_FRAME_MIN_HEADER + (if dst then 8 else 0) in {|
  type := type h; version := version h; discover_route := discover_route h;
  flags := flags h; destination := destination h; source := source h;
  radius := radius h; sequence := sequence h;
  destination_ieee := if dst then slice b NWK_FRAME_MIN_HEADER 8 else destination_ieee h;
  source_ieee := if has (flags h) NWK_FLAG_SOURCE_IEEE then slice b position 8
                 else source_ieee h
|}.

Definition nwk_frame_decode (body : option bytes) (length : Z)
    (result : option nwk_frame_info_t) : nwk_codec_result_t * option nwk_frame_info_t :=
  match body, result with
  | Some b, Some _ =>
      if! NWK_FRAME_MAX_BODY <? length return (NWK_CODEC_TOO_LONG, result) ;;
      if! length <? NWK_FRAME_MIN_HEADER return (NWK_CODEC_TRUNCATED, result) ;;
      let h := parse_header b in
      match header_shape h with
      | (NWK_CODEC_OK, size) =>
          if! length <? size return (NWK_CODEC_TRUNCATED, result) ;;
          (NWK_CODEC_OK,
           Some {| header := parse_ieee b h;
                   payload_offset := size;
                   payload_length := u8 (length - size) |})
      | (status, _) => (status, result)
      end
  | _, _ => (NWK_CODEC_INVALID_ARGUMENT, result)
  end.

(** ** Encoder *)
Definition emit_frame (h : nwk_header_t) (payload : bytes) (body : bytes) : bytes :=
  let position := NWK_FRAME_MIN_HEADER in
  let body := wr body 0
    (u8 (Z.lor (Z.lor (type h) (Z.shiftl (version h) 2)) (Z.shiftl (discover_route h) 6))) in
  let body := wr body 1 (u8 (Z.shiftr (flags h) 8)) in
  let body := write_le16 body 2 (destination h) in
  let body := write_le16 body 4 (source h) in
  let body := wr body 6 (radius h) in
  let body := wr body 7 (sequence h) in
  let '(body, position) :=
    if has (flags h) NWK_FLAG_DESTINATION_IEEE
    then (blit body position (slice (destination_ieee h) 0 8), position + 8)
    else (body, position) in
  let '(body, position) :=
    if has (flags h) NWK_FLAG_SOURCE_IEEE
    then (blit body position (slice (source_ieee h) 0 8), position + 8)
    else (body, position) in
  blit body position payload.

Definition nwk_frame_encode (header : option nwk_header_t) (payload : option bytes)
    (payload_length : Z) (body : option bytes) (capacity : Z) (length : option Z)
    : nwk_codec_result_t * option bytes * option Z :=
  match header, body, length with
  | Some h, Some b, Some _ =>
      if! bool_decide (payload = None) && negb (payload_length =? 0)
        return (NWK_CODEC_INVALID_ARGUMENT, body, length) ;;
      match header_shape h with
      | (NWK_CODEC_OK, size) =>
          if! NWK_FRAME_MAX_BODY - size <? payload_length
            return (NWK_CODEC_TOO_LONG, body, length) ;;
          if! capacity <? size + payload_length
            return (NWK_CODEC_BUFFER_TOO_SMALL, body, length) ;;
          (NWK_CODEC_OK,
           Some (emit_frame h (slice (default [] payload) 0 payload_length) b),
           Some (u8 (size + payload_length)))
      | (status, _) => (status, body, length)
      end
  | _, _, _ => (NWK_CODEC_INVALID_ARGUMENT, body, length)
  end.

(** ** Helper lemmas *)

(** The fields an encoder keeps: an absent IEEE address is not on the wire and
    is decoded as zeros. *)
Definition normalise (h : nwk_header_t) : nwk_header_t := {|
  type := type h; version := version h; discover_route := discover_route h;
  flags := flags h; destination := destination h; source := source h;
  radius := radius h; sequence := sequence h;
  destination_ieee := if has (flags h) NWK_FLAG_DESTINATION_IEEE then destination_ieee h
                      else replicate 8 0;
  source_ieee := if has (flags h) NWK_FLAG_SOURCE_IEEE then source_ieee h
                 else replicate 8 0
|}.

(** The address arrays of a C header always have eight octets. *)
Definition ieee_sized (h : nwk_header_t) : Prop :=
  blen (destination_ieee h) = 8 ∧ blen (source_ieee h) = 8.
Lemma nwk_typed_sized h : header_typed h → ieee_sized h.
Proof. unfold header_typed, ieee_sized. tauto. Qed.

Definition header_bytes (h : nwk_header_t) : bytes :=
  [u8 (Z.lor (Z.lor (type h) (Z.shiftl (version h) 2)) (Z.shiftl (discover_route h) 6));
   u8 (Z.shiftr (flags h) 8); u8 (destination h); u8 (Z.shiftr (destination h) 8);
   u8 (source h); u8 (Z.shiftr (source h) 8); radius h; sequence h]
  ++ (if has (flags h) NWK_FLAG_DESTINATION_IEEE then slice (destination_ieee h) 0 8 else [])
  ++ (if has (flags h) NWK_FLAG_SOURCE_IEEE then slice (source_ieee h) 0 8 else []).

Lemma nwk_header_bytes_len h :
  ieee_sized h → blen (header_bytes h) = header_size (flags h).
Proof.
  intros [Hd Hs]. unfold header_bytes, header_size.
  rewrite !blen_app. repeat case_match;
    rewrite ?(slice_all' (destination_ieee h)), ?(slice_all' (source_ieee h)) by lia;
    rewrite ?Hd, ?Hs; reflexivity.
Qed.

Lemma nwk_emit_frame_eq h p b :
  ieee_sized h → emit_frame h p b = blit b 0 (header_bytes h ++ p).
Proof.
  intros [Hd Hs]. unfold emit_frame, header_bytes, NWK_FRAME_MIN_HEADER.
  rewrite !write_le16_blit, !wr_blit.
  rewrite !(slice_all' _ 8) by lia.
  repeat case_match; simplify_eq;
    rewrite !(blit_blit' b) by (rewrite ?blen_app; reflexivity);
    repeat (rewrite blit_blit' by (rewrite ?blen_app, ?Hd, ?Hs; reflexivity));
    by rewrite <- ?app_assoc.
Qed.
Lemma nwk_emit_frame_buffer h p b :
  ieee_sized h → header_size (flags h) + blen p <= blen b →
  emit_frame h p b
  = header_bytes h ++ p ++ drop (Z.to_nat (header_size (flags h) + blen p)) b.
Proof.
  intros Ht Hl. rewrite nwk_emit_frame_eq, blit_0, <- app_assoc by
    (rewrite ?blen_app, ?nwk_header_bytes_len; done).
  do 3 f_equal. rewrite <- nwk_header_bytes_len by done. unfold blen.
  rewrite length_app. lia.
Qed.

(** The flag words the policy accepts. *)
Definition accepted_flags : list Z :=
  [0; 0x0800; 0x1000; 0x1800; 0x2000; 0x2800; 0x3000; 0x3800].
Lemma nwk_accepted_flags f :
  is_u16 f → has f 0x200 = false → has f 0x500 = false →
  has f (u16 (Z.lnot 0x3800)) = false → f ∈ accepted_flags.
Proof.
  intros Hf H1 H2 H3.
  pose proof (forall_u16 (λ f, has f 0x200 || has f 0x500
     || has f (u16 (Z.lnot 0x3800)) || existsb (Z.eqb f) accepted_flags)) as H.
  specialize (H ltac:(vm_compute; reflexivity) f Hf). cbv beta in H.
  rewrite H1, H2, H3 in H. simpl orb in H.
  unfold accepted_flags. rewrite !elem_of_cons. lia.
Qed.

Lemma nwk_header_shape_ok h s :
  is_u16 (flags h) → header_shape h = (NWK_CODEC_OK, s) →
  type h = 0 ∧ version h = 2 ∧ discover_route h <= 1 ∧ flags h ∈ accepted_flags ∧
  source h < 0xfff8 ∧ (0xfff8 <= destination h → discover_route h = 0) ∧
  s = header_size (flags h).
Proof.
  intros Hf. unfold header_shape, NWK_FRAME_DATA, NWK_FRAME_PROTOCOL_VERSION,
    NWK_DISCOVER_ROUTE_ENABLE, NWK_DISCOVER_ROUTE_SUPPRESS. intros H.
  destruct (type h =? 0) eqn:E1; [|done]. destruct (version h =? 2) eqn:E2; [|done].
  cbn [negb] in H.
  destruct (has (flags h) NWK_FLAG_SECURITY) eqn:E3; [done|].
  destruct (has (flags h) (Z.lor _ _)) eqn:E4; [done|].
  destruct (has (flags h) (u16 _)) eqn:E5; [done|].
  destruct ((1 <? discover_route h) || _) eqn:E6; [done|].
  destruct ((65528 <=? destination h) && _) eqn:E7; [done|].
  simplify_eq H; intros <-.
  pose proof (nwk_accepted_flags _ Hf E3 E4 E5). repeat split; try done; lia.
Qed.

Lemma nwk_frame_encode_ok h p n b cap l body' len' :
  is_u16 (flags h) →
  nwk_frame_encode (Some h) p n (Some b) cap (Some l) = (NWK_CODEC_OK, body', len') →
  let s := header_size (flags h) in
  header_shape h = (NWK_CODEC_OK, s) ∧ n <= 116 - s ∧ s + n <= cap ∧
  body' = Some (emit_frame h (slice (default [] p) 0 n) b) ∧ len' = Some (u8 (s + n)).
Proof.
  unfold nwk_frame_encode, NWK_FRAME_MAX_BODY. intros Hf H.
  destruct (bool_decide (p = None) && negb (n =? 0)) eqn:E1; [done|].
  destruct (header_shape h) as [[] s] eqn:E2; try done.
  apply nwk_header_shape_ok in E2 as HH; [|done]. destruct HH as (_&_&_&_&_&_&->).
  destruct (116 - _ <? n) eqn:E3; [done|]. destruct (cap <? _) eqn:E4; [done|].
  simplify_eq H; intros <- <-. repeat split; try done; lia.
Qed.

Lemma nwk_header_size_range f : 8 <= header_size f <= 24.
Proof. unfold header_size, NWK_FRAME_MIN_HEADER. repeat case_match; lia. Qed.

(** Reading back the fixed part of an accepted header: the IEEE addresses are
    still zero. *)
Lemma nwk_parse_emitted h s rest :
  header_typed h → header_shape h = (NWK_CODEC_OK, s) →
  parse_header (header_bytes h ++ rest) =
  {| type := type h; version := version h; discover_route := discover_route h;
     flags := flags h; destination := destination h; source := source h;
     radius := radius h; sequence := sequence h;
     destination_ieee := replicate 8 0; source_ieee := replicate 8 0 |}.
Proof.
  intros (H1&H2&H3&H4&H5&H6&H7&H8&Hd&Hs) Hok.
  apply nwk_header_shape_ok in Hok as (E1&E2&E3&E4&E5&E6&_); [|done].
  unfold parse_header, header_bytes. rewrite <- app_assoc. simpl app. rd_simpl.
  rewrite !(read_le16_bytes _ 2 (destination h)), !(read_le16_bytes _ 4 (source h)) by done.
  assert (discover_route h = 0 ∨ discover_route h = 1) as Hr by width.
  unfold read_le16. rd_simpl. change (0 + 1) with 1. rd_simpl.
  destruct h as [t v r f d so ra se di si]; simpl in *. subst t v.
  unfold accepted_flags in E4. rewrite !elem_of_cons in E4.
  destruct Hr as [-> | ->];
    destruct E4 as [-> |[-> |[-> |[-> |[-> |[-> |[-> |[-> | Hn]]]]]]]]; try done;
    by apply not_elem_of_nil in Hn.
Qed.

Lemma nwk_parse_ieee_emitted h rest :
  header_typed h →
  parse_ieee (header_bytes h ++ rest)
    {| type := type h; version := version h; discover_route := discover_route h;
       flags := flags h; destination := destination h; source := source h;
       radius := radius h; sequence := sequence h;
       destination_ieee := replicate 8 0; source_ieee := replicate 8 0 |} = normalise h.
Proof.
  intros (_&_&_&_&_&_&_&_&Hd&Hs). unfold parse_ieee, normalise, header_bytes.
  cbn [flags destination_ieee source_ieee type version discover_route destination source
       radius sequence].
  rewrite !(slice_all' _ 8) by lia. unfold NWK_FRAME_MIN_HEADER.
  rewrite <- !app_assoc.
  destruct (has (flags h) NWK_FLAG_DESTINATION_IEEE) eqn:Ed,
    (has (flags h) NWK_FLAG_SOURCE_IEEE) eqn:Es; f_equal;
    rewrite ?app_nil_l;
    try (by apply slice_app_mid).
  rewrite (app_assoc _ (destination_ieee h)).
  apply slice_app_mid; [rewrite blen_app, Hd|]; done.
Qed.

(** An emitted header decodes, whatever follows it. *)
Lemma nwk_decode_emitted h s rest n r0 :
  header_typed h → header_shape h = (NWK_CODEC_OK, s) → s <= n <= 116 →
  nwk_frame_decode (Some (header_bytes h ++ rest)) n (Some r0)
  = (NWK_CODEC_OK,
     Some {| header := normalise h; payload_offset := s; payload_length := n - s |}).
Proof.
  intros Ht Hv Hn. pose proof (nwk_header_size_range (flags h)).
  pose proof Hv as HH. apply nwk_header_shape_ok in HH as (_&_&_&_&_&_&->); [|apply Ht].
  unfold nwk_frame_decode. rewrite (nwk_parse_emitted _ _ _ Ht Hv).
  unfold header_shape in *. cbn [type version discover_route flags destination source].
  rewrite Hv. unfold NWK_FRAME_MAX_BODY, NWK_FRAME_MIN_HEADER.
  replace (116 <? n) with false by lia. replace (n <? 8) with false by lia.
  replace (n <? header_size (flags h)) with false by lia.
  by rewrite nwk_parse_ieee_emitted, u8_id by (done || width).
Qed.

(** ** Properties *)

(** what the NWK encoder emits, the NWK decoder reads back: the same header
    (an IEEE address the flags leave out reads as zeros), its variable size as
    the payload offset, and the payload octets. *)
Theorem nwk_frame_roundtrip h payload n b cap l body' len' r0 :
  header_typed h → 0 <= n → n <= blen payload → cap <= blen b →
  nwk_frame_encode (Some h) (Some payload) n (Some b) cap (Some l)
    = (NWK_CODEC_OK, Some body', Some len') →
  nwk_frame_decode (Some body') len' (Some r0)
    = (NWK_CODEC_OK,
       Some {| header := normalise h; payload_offset := header_size (flags h);
               payload_length := n |}) ∧
  slice body' (header_size (flags h)) n = slice payload 0 n.
Proof.
  intros Ht Hn0 Hnp Hcap H.
  apply nwk_frame_encode_ok in H as (Hv&Hn1&Hnc&Hb&Hl); [|apply Ht]. simplify_eq.
  pose proof (nwk_header_size_range (flags h)).
  assert (blen (slice payload 0 n) = n) as Hsl by (apply blen_slice; lia).
  rewrite u8_id by width. cbn [default from_option id].
  rewrite nwk_emit_frame_buffer by (apply nwk_typed_sized in Ht; done || lia).
  split; [|apply nwk_typed_sized in Ht; by apply slice_app_mid; [rewrite nwk_header_bytes_len|]].
  rewrite (nwk_decode_emitted _ _ _ _ _ Ht Hv) by lia. do 3 f_equal. lia.
Qed.

(** The decoder rewrites the reserved route discovery value 2 as 1: this is the
    first octet such a frame has once re-encoded. *)
Definition canonical_control (b0 : Z) : Z :=
  if Z.shiftr b0 6 =? 2 then b0 - 64 else b0.

Lemma nwk_control_low c :
  is_u16 c →
  u8 (Z.lor (Z.lor (Z.land c 3) (Z.shiftl (Z.land (Z.shiftr c 2) 15) 2))
        (Z.shiftl (if Z.land (Z.shiftr c 6) 3 =? 2 then 1 else Z.land (Z.shiftr c 6) 3) 6))
  = canonical_control (u8 c).
Proof. intros Hc. by_u16 c. Qed.
Lemma nwk_control_high c :
  is_u16 c → u8 (Z.shiftr (Z.land c 0xff00) 8) = u8 (Z.shiftr c 8).
Proof. intros Hc. by_u16 c. Qed.

Lemma nwk_parse_header_bytes b :
  is_bytes b → 8 <= blen b →
  (Z.land (Z.shiftr (read_le16 b 0) 6) 3 = 2 → read_le16 b 2 < 0xfff8) →
  take 8 (header_bytes (parse_ieee b (parse_header b)))
  = wr (slice b 0 8) 0 (canonical_control (rd b 0)).
Proof.
  intros Hb Hl Hr. unfold header_bytes.
  rewrite take_app_le by done. rewrite firstn_all2 by done.
  unfold parse_ieee, parse_header; cbn [type version discover_route flags destination source
    radius sequence].
  destruct (read_le16_split b 2 Hb) as [-> ->], (read_le16_split b 4 Hb) as [-> ->].
  rewrite (slice_rd b 0 8) by lia. change (seqZ 0 8) with [0; 1; 2; 3; 4; 5; 6; 7].
  pose proof (read_le16_range b 0 Hb) as Hc. destruct (read_le16_split b 0 Hb) as [E0 E1].
  rewrite nwk_control_high, E1 by done.
  unfold NWK_DISCOVER_ROUTE_ENABLE.
  replace ((Z.land (read_le16 b 0 ≫ 6) 3 =? 2) && (read_le16 b 2 <? 65528))
    with (Z.land (read_le16 b 0 ≫ 6) 3 =? 2)
    by (destruct (Z.eqb_spec (Z.land (read_le16 b 0 ≫ 6) 3) 2) as [e|]; [specialize (Hr e); lia|done]).
  rewrite <- E0, <- (nwk_control_low _ Hc). reflexivity.
Qed.

Lemma nwk_header_bytes_split h :
  header_bytes h = take 8 (header_bytes h)
    ++ (if has (flags h) NWK_FLAG_DESTINATION_IEEE then slice (destination_ieee h) 0 8 else [])
    ++ (if has (flags h) NWK_FLAG_SOURCE_IEEE then slice (source_ieee h) 0 8 else []).
Proof. unfold header_bytes at 2. by rewrite take_app_le, firstn_all2 by done. Qed.

Lemma nwk_parse_accepted b s :
  is_bytes b → 8 <= blen b → header_shape (parse_header b) = (NWK_CODEC_OK, s) →
  s <= blen b →
  ieee_sized (parse_ieee b (parse_header b)) ∧
  header_bytes (parse_ieee b (parse_header b))
  = wr (slice b 0 s) 0 (canonical_control (rd b 0)).
Proof.
  intros Hb Hl Hok Hs.
  pose proof (read_le16_range b 0 Hb) as Hc.
  assert (is_u16 (flags (parse_header b))) as Hf by (apply is_u16_land; width).
  pose proof (nwk_header_shape_ok _ _ Hf Hok) as (_&_&Er&_&_&_&->).
  assert (Z.land (read_le16 b 0 ≫ 6) 3 = 2 → read_le16 b 2 < 0xfff8) as Hr.
  { intros E2. unfold parse_header in Er; cbn [discover_route] in Er. rewrite E2 in Er.
    simpl in Er. destruct (read_le16 b 2 <? 65528) eqn:?; lia. }
  rewrite nwk_header_bytes_split, nwk_parse_header_bytes by done.
  unfold parse_ieee, ieee_sized; cbn [flags destination_ieee source_ieee].
  unfold header_size, NWK_FRAME_MIN_HEADER in *.
  destruct (has _ NWK_FLAG_DESTINATION_IEEE), (has _ NWK_FLAG_SOURCE_IEEE);
    (split; [split; rewrite ?blen_slice by lia; done|]);
    rewrite ?app_nil_r, ?app_nil_l;
    repeat match goal with |- context [slice (slice ?x ?i 8) 0 8] =>
      rewrite (slice_all' (slice x i 8)) by (by rewrite blen_slice by lia) end.
  - rewrite <- (slice_add b 8 8 8) by lia. change (8 + 8 + 8) with (8 + 16).
    rewrite (slice_add b 0 8 16) by lia. by rewrite wr_app_l by (rewrite blen_slice by lia; lia).
  - change (8 + 8 + 0) with (8 + 8). rewrite (slice_add b 0 8 8) by lia. by rewrite wr_app_l by (rewrite blen_slice by lia; lia).
  - change (8 + 0 + 8) with (8 + 8). rewrite (slice_add b 0 8 8) by lia. by rewrite wr_app_l by (rewrite blen_slice by lia; lia).
  - done.
Qed.

(** Every accepted NWK frame re-encodes to itself, octet for octet, except
    that the reserved route-discovery value 2 becomes 1 (the decoder's rewrite):
    so every decoded header is encodable. *)
Theorem nwk_frame_canonical b n r0 info out cap l0 :
  is_bytes b → n <= blen b → n <= cap → cap <= blen out →
  nwk_frame_decode (Some b) n (Some r0) = (NWK_CODEC_OK, Some info) →
  nwk_frame_encode (Some (header info))
    (Some (slice b (payload_offset info) (payload_length info)))
    (payload_length info) (Some out) cap (Some l0)
  = (NWK_CODEC_OK,
     Some (wr (slice b 0 n) 0 (canonical_control (rd b 0)) ++ drop (Z.to_nat n) out), Some n).
Proof.
  intros Hb Hnb Hcap Hout. unfold nwk_frame_decode, NWK_FRAME_MAX_BODY.
  destruct (116 <? n) eqn:?; [done|]. unfold NWK_FRAME_MIN_HEADER.
  destruct (n <? 8) eqn:?; [done|].
  destruct (header_shape (parse_header b)) as [[] s] eqn:Hv; try done.
  destruct (n <? s) eqn:?; [done|].
  intros H; simplify_eq H; intros <-; cbn [header payload_length payload_offset].
  pose proof (read_le16_range b 0 Hb) as Hc.
  assert (is_u16 (flags (parse_header b))) as Hf by (apply is_u16_land; width).
  pose proof (nwk_header_shape_ok _ _ Hf Hv) as (_&_&_&_&_&_&Es).
  pose proof (nwk_header_size_range (flags (parse_header b))).
  destruct (nwk_parse_accepted b s Hb) as [Hsz Hhb]; [lia|done|lia|].
  rewrite u8_id by width. unfold nwk_frame_encode, NWK_FRAME_MAX_BODY.
  rewrite bool_decide_eq_false_2 by done. cbn [andb].
  replace (header_shape (parse_ieee b (parse_header b))) with (NWK_CODEC_OK, s) by done.
  replace (116 - s <? n - s) with false by lia. replace (cap <? s + (n - s)) with false by lia.
  replace (s + (n - s)) with n by lia. rewrite u8_id by width.
  assert (blen (slice b s (n - s)) = n - s) as Hs by (apply blen_slice; lia).
  cbn [default from_option id]. rewrite (slice_all' _ (n - s)) by done.
  rewrite nwk_emit_frame_buffer by (first [done | cbn [parse_ieee flags]; lia]).
  rewrite Hhb, Hs. change (flags (parse_ieee b (parse_header b))) with (flags (parse_header b)).
  rewrite <- Es, app_assoc. replace (s + (n - s)) with n by lia.
  replace n with (s + (n - s)) at 4 by lia. rewrite (slice_add b 0 s) by lia.
  unfold wr. rewrite insert_app_l; [done|].
  pose proof (blen_slice b 0 s). unfold blen in *. lia.
Qed.

(** The decoder reads nothing beyond [length], and keeps its output on error. *)
Lemma nwk_frame_decode_local b b' n r :
  is_bytes b → agree n b b' →
  nwk_frame_decode (Some b) n r = nwk_frame_decode (Some b') n r.
Proof.
  intros Hb Ha. unfold nwk_frame_decode, NWK_FRAME_MIN_HEADER. destruct r; [|done].
  destruct (NWK_FRAME_MAX_BODY <? n); [done|]. destruct (n <? 8) eqn:?; [done|].
  assert (parse_header b = parse_header b') as Eh.
  { unfold parse_header, read_le16. by rewrite !(agree_rd n b b') by (done || lia). }
  rewrite <- Eh. destruct (header_shape (parse_header b)) as [[] s] eqn:Hv; try done.
  destruct (n <? s) eqn:?; [done|].
  pose proof (read_le16_range b 0 Hb).
  assert (is_u16 (flags (parse_header b))) as Hf by (apply is_u16_land; width).
  pose proof (nwk_header_shape_ok _ _ Hf Hv) as (_&_&_&_&_&_&Es).
  unfold header_size, NWK_FRAME_MIN_HEADER in Es. do 3 f_equal.
  unfold parse_ieee, NWK_FRAME_MIN_HEADER.
  destruct (has (flags (parse_header b)) NWK_FLAG_DESTINATION_IEEE),
    (has (flags (parse_header b)) NWK_FLAG_SOURCE_IEEE);
    by rewrite ?(agree_slice n b b') by (done || lia).
Qed.
Lemma nwk_frame_decode_error b n r :
  (nwk_frame_decode b n r).1 ≠ NWK_CODEC_OK → (nwk_frame_decode b n r).2 = r.
Proof. unfold nwk_frame_decode. intros. repeat case_match; done. Qed.

(** ** Witnesses *)
Definition sample_header : nwk_header_t :=
  Build_nwk_header_t 0 2 1 0x1000 0x0000 0x1234 30 7 (replicate 8 0) [1; 2; 3; 4; 5; 6; 7; 8].

Lemma nwk_frame_roundtrip_witness :
  ∃ body', nwk_frame_encode (Some sample_header) (Some [9; 8; 7]) 3 (Some (replicate 30 170)) 30
             (Some 0) = (NWK_CODEC_OK, Some body', Some 19) ∧
  nwk_frame_decode (Some body') 19 (Some (Build_nwk_frame_info_t sample_header 0 0))
    = (NWK_CODEC_OK,
       Some {| header := normalise sample_header; payload_offset := 16; payload_length := 3 |}) ∧
  slice body' 16 3 = [9; 8; 7].
Proof.
  eexists. split; [vm_compute; reflexivity|].
  apply (nwk_frame_roundtrip sample_header [9; 8; 7] 3 (replicate 30 170) 30 0); concrete.
Defined.

(** A unicast with the reserved route-discovery value 2, as EmberZNet sends. *)
Definition sample_frame : bytes := [0x88; 0; 0; 0; 0x34; 0x12; 30; 7; 42].

Lemma nwk_frame_canonical_witness :
  nwk_frame_encode (Some (parse_ieee sample_frame (parse_header sample_frame))) (Some [42]) 1
    (Some (replicate 10 0)) 10 (Some 0)
  = (NWK_CODEC_OK, Some ([0x48; 0; 0; 0; 0x34; 0x12; 30; 7; 42] ++ [0]), Some 9).
Proof.
  apply (nwk_frame_canonical sample_frame 9 (Build_nwk_frame_info_t sample_header 0 0)
    (Build_nwk_frame_info_t (parse_ieee sample_frame (parse_header sample_frame)) 8 1));
    concrete.
Defined.

End Nwk.
