(* ===== verification/ZclWire.v ===== *)
(** * ZCL wire syntax (src/zcl_frame.c, src/zcl_value.c, include/zcl_wire.h)

    The ZCL frame header codec, and the codec of one attribute value of a
    given ZCL data type: its shape, its non-value pattern, both directions. *)
From S2P Require Import Prelude.

Module Zcl.

(** ** Constants and data (include/zcl_wire.h) *)
Definition ZCL_FRAME_MAX_BODY := 100.
Definition ZCL_FRAME_MIN_HEADER := 3.
Definition ZCL_FRAME_MAX_HEADER := 5.
Definition ZCL_FRAME_GLOBAL := 0.
Definition ZCL_FRAME_CLUSTER_SPECIFIC := 1.
Definition ZCL_FLAG_MANUFACTURER_SPECIFIC := 0x04.
Definition ZCL_FLAG_SERVER_TO_CLIENT := 0x08.
Definition ZCL_FLAG_DISABLE_DEFAULT_RESPONSE := 0x10.
Definition ZCL_TYPE_NO_DATA := 0x00.
Definition ZCL_TYPE_DATA8 := 0x08.
Definition ZCL_TYPE_DATA64 := 0x0f.
Definition ZCL_TYPE_BOOLEAN := 0x10.
Definition ZCL_TYPE_BITMAP8 := 0x18.
Definition ZCL_TYPE_UINT8 := 0x20.
Definition ZCL_TYPE_UINT16 := 0x21.
Definition ZCL_TYPE_INT8 := 0x28.
Definition ZCL_TYPE_INT16 := 0x29.
Definition ZCL_TYPE_INT64 := 0x2f.
Definition ZCL_TYPE_ENUM8 := 0x30.
Definition ZCL_TYPE_ENUM16 := 0x31.
Definition ZCL_TYPE_OCTET_STRING := 0x41.
Definition ZCL_TYPE_CHARACTER_STRING := 0x42.

Inductive zcl_codec_result_t :=
  | ZCL_CODEC_OK
  | ZCL_CODEC_INVALID_ARGUMENT
  | ZCL_CODEC_TRUNCATED
  | ZCL_CODEC_TOO_LONG
  | ZCL_CODEC_BUFFER_TOO_SMALL
  | ZCL_CODEC_UNSUPPORTED_FRAME_TYPE
  | ZCL_CODEC_UNSUPPORTED_DATA_TYPE
  | ZCL_CODEC_UNSUPPORTED_LAYOUT
  | ZCL_CODEC_INVALID_HEADER
  | ZCL_CODEC_INVALID_VALUE
  | ZCL_CODEC_INVALID_TABLE
  | ZCL_CODEC_UNSUPPORTED_COMMAND
  | ZCL_CODEC_UNSUPPORTED_CONTEXT
  | ZCL_CODEC_UNSUPPORTED_NO_RESPONSE.
#[export] Instance zcl_codec_result_eq : EqDecision zcl_codec_result_t.
Proof. solve_decision. Defined.

Record zcl_header_t := {
  type : Z;
  flags : Z;
  manufacturer_code : Z;
  sequence : Z;
  command_id : Z
}.

Record zcl_frame_info_t := {
  header : zcl_header_t;
  ignored_control_bits : Z;
  payload_offset : Z;
  payload_length : Z
}.

(** A value to encode: [data] is the C pointer, [None] for NULL. *)
Record zcl_value_t := {
  value_type : Z;
  string_non_value : Z;
  data : option bytes;
  data_length : Z
}.

Record zcl_value_info_t := {
  info_type : Z;
  data_offset : Z;
  info_data_length : Z;
  encoded_length : Z;
  info_non_value_pattern : Z
}.

Definition header_typed (h : zcl_header_t) : Prop :=
  is_u8 (type h) ∧ is_u8 (flags h) ∧ is_u16 (manufacturer_code h) ∧
  is_u8 (sequence h) ∧ is_u8 (command_id h).
#[export] Instance zcl_header_typed_dec h : Decision (header_typed h).
Proof. unfold header_typed. apply _. Defined.

(** ** The frame decoder *)
Definition zcl_frame_decode (body : option bytes) (length : Z)
    (result : option zcl_frame_info_t) : zcl_codec_result_t * option zcl_frame_info_t :=
  match body, result with
  | Some b, Some _ =>
      if! ZCL_FRAME_MAX_BODY <? length return (ZCL_CODEC_TOO_LONG, result) ;;
      if! length =? 0 return (ZCL_CODEC_TRUNCATED, result) ;;
      if! ZCL_FRAME_CLUSTER_SPECIFIC <? Z.land (rd b 0) 3
        return (ZCL_CODEC_UNSUPPORTED_FRAME_TYPE, result) ;;
      if! has (rd b 0) ZCL_FLAG_MANUFACTURER_SPECIFIC && has (rd b 0) 0xe0
        return (ZCL_CODEC_UNSUPPORTED_LAYOUT, result) ;;
      let size := if has (rd b 0) ZCL_FLAG_MANUFACTURER_SPECIFIC
                  then ZCL_FRAME_MAX_HEADER else ZCL_FRAME_MIN_HEADER in
      if! length <? size return (ZCL_CODEC_TRUNCATED, result) ;;
      let flags := Z.land (rd b 0) 0x1c in
      let manufacturer := has flags ZCL_FLAG_MANUFACTURER_SPECIFIC in
      let position := if manufacturer then 3 else 1 in
      (ZCL_CODEC_OK,
       Some {| header := {| type := Z.land (rd b 0) 3;
                            flags := flags;
                            manufacturer_code := if manufacturer then read_le16 b 1 else 0;
                            sequence := rd b position;
                            command_id := rd b (position + 1) |};
               ignored_control_bits := Z.land (rd b 0) 0xe0;
               payload_offset := size;
               payload_length := u8 (length - size) |})
  | _, _ => (ZCL_CODEC_INVALID_ARGUMENT, result)
  end.

(** ** The frame encoder *)
Definition header_size (flags : Z) : Z :=
  if has flags ZCL_FLAG_MANUFACTURER_SPECIFIC then ZCL_FRAME_MAX_HEADER
  else ZCL_FRAME_MIN_HEADER.

Definition zcl_frame_encode (header : option zcl_header_t) (payload : option bytes)
    (payload_length : Z) (body : option bytes) (capacity : Z) (length : option Z)
    : zcl_codec_result_t * option bytes * option Z :=
  match header, body, length with
  | Some h, Some b, Some _ =>
      if! bool_decide (payload = None) && negb (payload_length =? 0)
        return (ZCL_CODEC_INVALID_ARGUMENT, body, length) ;;
      if! ZCL_FRAME_CLUSTER_SPECIFIC <? type h
        return (ZCL_CODEC_UNSUPPORTED_FRAME_TYPE, body, length) ;;
      if! has (flags h) (u8 (Z.lnot 0x1c)) return (ZCL_CODEC_INVALID_HEADER, body, length) ;;
      let size := header_size (flags h) in
      if! ZCL_FRAME_MAX_BODY - size <? payload_length
        return (ZCL_CODEC_TOO_LONG, body, length) ;;
      if! capacity <? size + payload_length
        return (ZCL_CODEC_BUFFER_TOO_SMALL, body, length) ;;
      let b := wr b 0 (Z.lor (type h) (flags h)) in
      let '(b, position) :=
        if has (flags h) ZCL_FLAG_MANUFACTURER_SPECIFIC
        then (wr (wr b 1 (u8 (manufacturer_code h))) 2
                 (u8 (Z.shiftr (manufacturer_code h) 8)), 3)
        else (b, 1) in
      let b := wr (wr b position (sequence h)) (position + 1) (command_id h) in
      let position := position + 2 in
      let span := slice (default [] payload) 0 payload_length in
      (ZCL_CODEC_OK, Some (blit b position span), Some (u8 (position + payload_length)))
  | _, _, _ => (ZCL_CODEC_INVALID_ARGUMENT, body, length)
  end.

(** ** Value shapes: the high nibble is the kind, the low one the width *)
Definition KIND_RAW := 0.
Definition KIND_UNSIGNED := 0x10.
Definition KIND_SIGNED := 0x20.
Definition KIND_BOOLEAN := 0x30.
Definition KIND_STRING := 0x40.
Definition SHAPE_UNSUPPORTED := 0xff.

Definition value_shape (type : Z) : Z :=
  if! type =? ZCL_TYPE_NO_DATA return KIND_RAW ;;
  if! ((ZCL_TYPE_DATA8 <=? type) && (type <=? ZCL_TYPE_DATA64))
      || ((ZCL_TYPE_BITMAP8 <=? type) && (type <=? ZCL_TYPE_INT64))
    return
      (let kind := if ZCL_TYPE_INT8 <=? type then KIND_SIGNED
                   else if ZCL_TYPE_UINT8 <=? type then KIND_UNSIGNED else KIND_RAW in
       u8 (Z.lor kind (Z.land type 7 + 1))) ;;
  if! type =? ZCL_TYPE_BOOLEAN return Z.lor KIND_BOOLEAN 1 ;;
  if! (type =? ZCL_TYPE_ENUM8) || (type =? ZCL_TYPE_ENUM16)
    return u8 (Z.lor KIND_UNSIGNED (type - ZCL_TYPE_ENUM8 + 1)) ;;
  if! (type =? ZCL_TYPE_OCTET_STRING) || (type =? ZCL_TYPE_CHARACTER_STRING)
    return KIND_STRING ;;
  SHAPE_UNSUPPORTED.

Definition zcl_value_type_supported (type : Z) : bool :=
  negb (value_shape type =? SHAPE_UNSUPPORTED).

Definition shape_width (shape : Z) : Z := Z.land shape 0x0f.
Definition shape_kind (shape : Z) : Z := Z.land shape 0xf0.

(** The loop compares the octets from the most significant one down; after
    the first one a signed pattern expects zeros. *)
Fixpoint non_value_loop (kind : Z) (data : bytes) (width : nat) (expected : Z) : Z :=
  match width with
  | O => 1
  | S width =>
      if negb (rd data (Z.of_nat width) =? expected) then 0
      else non_value_loop kind data width (if kind =? KIND_SIGNED then 0 else expected)
  end.
Definition non_value_pattern (kind : Z) (data : bytes) (width : Z) : Z :=
  let expected := if kind =? KIND_SIGNED then 0x80 else 0xff in
  if! kind =? KIND_RAW return 0 ;;
  non_value_loop kind data (Z.to_nat width) expected.

(** ** The value decoder *)
Definition zcl_value_decode (type : Z) (body : option bytes) (length : Z)
    (result : option zcl_value_info_t) : zcl_codec_result_t * option zcl_value_info_t :=
  match body, result with
  | Some b, Some _ =>
      let shape := value_shape type in
      if! shape =? SHAPE_UNSUPPORTED return (ZCL_CODEC_UNSUPPORTED_DATA_TYPE, result) ;;
      let width := shape_width shape in
      let kind := shape_kind shape in
      if! (kind =? KIND_STRING) && (length =? 0) return (ZCL_CODEC_TRUNCATED, result) ;;
      let '(offset, pattern, width) :=
        if kind =? KIND_STRING
        then (1, Z.b2z (rd b 0 =? 0xff), if rd b 0 =? 0xff then 0 else rd b 0)
        else (0, 0, width) in
      if! length <? offset + width return (ZCL_CODEC_TRUNCATED, result) ;;
      if! (kind =? KIND_BOOLEAN) && negb (rd b 0 =? 0) && negb (rd b 0 =? 1)
          && negb (rd b 0 =? 0xff)
        return (ZCL_CODEC_INVALID_VALUE, result) ;;
      let pattern := if kind =? KIND_STRING then pattern else non_value_pattern kind b width in
      (ZCL_CODEC_OK,
       Some {| info_type := type;
               data_offset := offset;
               info_data_length := width;
               encoded_length := u8 (offset + width);
               info_non_value_pattern := pattern |})
  | _, _ => (ZCL_CODEC_INVALID_ARGUMENT, result)
  end.

(** ** The value encoder *)
Definition zcl_value_encode (value : option zcl_value_t) (body : option bytes)
    (capacity : Z) (length : option Z) : zcl_codec_result_t * option bytes * option Z :=
  match value, body, length with
  | Some v, Some b, Some _ =>
      if! bool_decide (data v = None) && negb (data_length v =? 0)
        return (ZCL_CODEC_INVALID_ARGUMENT, body, length) ;;
      let d := default [] (data v) in
      let shape := value_shape (value_type v) in
      if! shape =? SHAPE_UNSUPPORTED
        return (ZCL_CODEC_UNSUPPORTED_DATA_TYPE, body, length) ;;
      let width := shape_width shape in
      let kind := shape_kind shape in
      let non_value := string_non_value v in
      if! (kind =? KIND_STRING)
          && ((1 <? non_value) || (negb (non_value =? 0) && negb (data_length v =? 0)))
        return (ZCL_CODEC_INVALID_VALUE, body, length) ;;
      if! (kind =? KIND_STRING) && (254 <? data_length v)
        return (ZCL_CODEC_TOO_LONG, body, length) ;;
      if! negb (kind =? KIND_STRING)
          && (negb (non_value =? 0) || negb (data_length v =? width))
        return (ZCL_CODEC_INVALID_VALUE, body, length) ;;
      if! negb (kind =? KIND_STRING)
          && ((kind =? KIND_BOOLEAN) && negb (rd d 0 =? 0) && negb (rd d 0 =? 1)
              && negb (rd d 0 =? 0xff))
        return (ZCL_CODEC_INVALID_VALUE, body, length) ;;
      let size := if kind =? KIND_STRING then u8 (1 + data_length v) else width in
      if! capacity <? size return (ZCL_CODEC_BUFFER_TOO_SMALL, body, length) ;;
      let '(b, position) :=
        if kind =? KIND_STRING
        then (wr b 0 (if negb (non_value =? 0) then 0xff else u8 (data_length v)), 1)
        else (b, 0) in
      let b := if position <? size then blit b position (slice d 0 (size - position)) else b in
      (ZCL_CODEC_OK, Some b, Some size)
  | _, _, _ => (ZCL_CODEC_INVALID_ARGUMENT, body, length)
  end.

(** ** Helper lemmas: frames *)
Definition header_bytes (h : zcl_header_t) : bytes :=
  [Z.lor (type h) (flags h)]
  ++ (if has (flags h) ZCL_FLAG_MANUFACTURER_SPECIFIC
      then [u8 (manufacturer_code h); u8 (Z.shiftr (manufacturer_code h) 8)] else [])
  ++ [sequence h; command_id h].

Lemma zcl_header_bytes_len h : blen (header_bytes h) = header_size (flags h).
Proof. unfold header_bytes, header_size. destruct (has _ _); done. Qed.

Lemma zcl_frame_encode_ok h p n b cap l body' len' :
  zcl_frame_encode (Some h) p n (Some b) cap (Some l) = (ZCL_CODEC_OK, body', len') →
  let s := header_size (flags h) in
  type h <= 1 ∧ has (flags h) (u8 (Z.lnot 0x1c)) = false ∧ n <= 100 - s ∧ s + n <= cap ∧
  body' = Some (blit b 0 (header_bytes h ++ slice (default [] p) 0 n)) ∧ len' = Some (u8 (s + n)).
Proof.
  unfold zcl_frame_encode, ZCL_FRAME_MAX_BODY, ZCL_FRAME_CLUSTER_SPECIFIC. intros H.
  destruct (bool_decide (p = None) && negb (n =? 0)) eqn:?; [done|].
  destruct (1 <? type h) eqn:?; [done|].
  destruct (has (flags h) (u8 (Z.lnot 28))) eqn:?; [done|].
  destruct (100 - header_size (flags h) <? n) eqn:?; [done|].
  destruct (cap <? header_size (flags h) + n) eqn:?; [done|].
  unfold header_bytes, header_size in *.
  destruct (has (flags h) ZCL_FLAG_MANUFACTURER_SPECIFIC); simplify_eq H; intros <- <-;
    repeat split; try done; try lia.
Qed.
(** The first octet of an accepted header determines type, flags and the
    ignored bits, and is determined by them. *)
Lemma zcl_control_facts t f :
  is_u8 t → is_u8 f → t <= 1 → has f (u8 (Z.lnot 0x1c)) = false →
  let c := Z.lor t f in
  Z.land c 3 = t ∧ Z.land c 0x1c = f ∧ Z.land c 0xe0 = 0 ∧
  has c ZCL_FLAG_MANUFACTURER_SPECIFIC = has f ZCL_FLAG_MANUFACTURER_SPECIFIC ∧
  has c 0xe0 = false.
Proof.
  intros Ht Hf Ht1 Hok.
  pose proof (forall_u8 (λ f, implb (negb (has f (u8 (Z.lnot 0x1c))))
    (forallb (λ t, let c := Z.lor t f in
      (Z.land c 3 =? t) && (Z.land c 0x1c =? f) && (Z.land c 0xe0 =? 0)
      && Bool.eqb (has c ZCL_FLAG_MANUFACTURER_SPECIFIC) (has f ZCL_FLAG_MANUFACTURER_SPECIFIC)
      && negb (has c 0xe0)) [0; 1])) ltac:(vm_compute; reflexivity) f Hf) as H.
  cbv beta in H. rewrite Hok in H. cbn [negb implb forallb] in H. cbv zeta in *.
  rewrite !andb_true_iff in H.
  assert (t = 0 ∨ t = 1) as [-> | ->] by width; destruct_and!;
    repeat match goal with
    | H : (_ =? _) = true |- _ => apply Z.eqb_eq in H
    | H : Bool.eqb _ _ = true |- _ => apply Bool.eqb_prop in H
    | H : negb _ = true |- _ => apply negb_true_iff in H
    end; done.
Qed.

(** What [zcl_frame_encode] writes into its buffer. *)
Lemma zcl_blit_buffer h p b :
  header_size (flags h) + blen p <= blen b →
  blit b 0 (header_bytes h ++ p)
  = header_bytes h ++ p ++ drop (Z.to_nat (header_size (flags h) + blen p)) b.
Proof.
  intros Hl. rewrite blit_0, <- app_assoc by (by rewrite blen_app, zcl_header_bytes_len).
  do 3 f_equal. rewrite <- zcl_header_bytes_len. unfold blen. rewrite length_app. lia.
Qed.

(** ** Properties of the frame codec *)

(** The manufacturer code is on the wire only under its flag. *)
Definition normalise (h : zcl_header_t) : zcl_header_t := {|
  type := type h; flags := flags h;
  manufacturer_code := if has (flags h) ZCL_FLAG_MANUFACTURER_SPECIFIC
                       then manufacturer_code h else 0;
  sequence := sequence h; command_id := command_id h |}.

(** The decoder on a buffer that starts with a header and its payload. *)
Lemma zcl_frame_decode_bytes h p tail r0 :
  header_typed h → type h <= 1 → has (flags h) (u8 (Z.lnot 0x1c)) = false →
  header_size (flags h) + blen p <= 100 →
  zcl_frame_decode (Some (header_bytes h ++ p ++ tail)) (header_size (flags h) + blen p) (Some r0)
  = (ZCL_CODEC_OK,
     Some {| header := normalise h; ignored_control_bits := 0;
             payload_offset := header_size (flags h); payload_length := blen p |}).
Proof.
  intros (Ht&Hf&Hm&Hs&Hc) Hty Hfl Hn. set (n := blen p) in *.
  assert (0 <= n) as Hn0 by apply blen_nonneg. clearbody n.
  destruct (zcl_control_facts _ _ Ht Hf Hty Hfl) as (E1&E2&E3&E4&E5).
  unfold zcl_frame_decode, ZCL_FRAME_MAX_BODY, ZCL_FRAME_CLUSTER_SPECIFIC, header_bytes,
    normalise, header_size, ZCL_FRAME_MAX_HEADER, ZCL_FRAME_MIN_HEADER in *.
  destruct (has (flags h) ZCL_FLAG_MANUFACTURER_SPECIFIC) eqn:Em; simpl app; rd_simpl;
    rewrite E1, E2, E3, E4, E5, Em; cbn [andb].
  - replace (100 <? 5 + n) with false by lia. replace (5 + n =? 0) with false by lia.
    replace (1 <? type h) with false by lia. replace (5 + n <? 5) with false by lia.
    change (3 + 1) with 4. rd_simpl. rewrite (read_le16_bytes _ _ (manufacturer_code h)) by done.
    replace (u8 (5 + n - 5)) with n by width. done.
  - replace (100 <? 3 + n) with false by lia. replace (3 + n =? 0) with false by lia.
    replace (1 <? type h) with false by lia. replace (3 + n <? 3) with false by lia.
    change (1 + 1) with 2. rd_simpl. replace (u8 (3 + n - 3)) with n by width. done.
Qed.
Lemma zcl_header_size_range f : 3 <= header_size f <= 5.
Proof. unfold header_size. by case_match. Qed.

(** C8: what the ZCL encoder emits, the ZCL decoder reads back: the same header
    (without the manufacturer flag, a zero manufacturer code), no ignored
    control bits, and the payload octets at the header's variable size. *)
Theorem zcl_frame_roundtrip h payload n b cap l body' len' r0 :
  header_typed h → 0 <= n → n <= blen payload → cap <= blen b →
  zcl_frame_encode (Some h) (Some payload) n (Some b) cap (Some l)
    = (ZCL_CODEC_OK, Some body', Some len') →
  zcl_frame_decode (Some body') len' (Some r0)
    = (ZCL_CODEC_OK,
       Some {| header := normalise h; ignored_control_bits := 0;
               payload_offset := header_size (flags h); payload_length := n |}) ∧
  slice body' (header_size (flags h)) n = slice payload 0 n.
Proof.
  intros Hh Hn0 Hnp Hcap H.
  apply zcl_frame_encode_ok in H as (Hty&Hfl&Hn1&Hnc&Hb&Hl). simplify_eq.
  assert (blen (slice payload 0 n) = n) as Hsl by (apply blen_slice; lia).
  pose proof (zcl_header_size_range (flags h)).
  cbn [default from_option id]. rewrite zcl_blit_buffer by lia.
  split; [|by apply slice_app_mid; [rewrite zcl_header_bytes_len|]].
  rewrite u8_id by width. etrans; [rewrite <- Hsl at 3; apply zcl_frame_decode_bytes; done || lia|].
  by rewrite Hsl.
Qed.

(** Every accepted ZCL frame re-encodes to itself, octet for octet, except
    that the three ignored control bits are cleared. *)
Theorem zcl_frame_canonical b n r0 info out cap l0 :
  is_bytes b → n <= blen b → n <= cap → cap <= blen out →
  zcl_frame_decode (Some b) n (Some r0) = (ZCL_CODEC_OK, Some info) →
  0 <= n →
  zcl_frame_encode (Some (header info))
    (Some (slice b (payload_offset info) (payload_length info)))
    (payload_length info) (Some out) cap (Some l0)
  = (ZCL_CODEC_OK,
     Some (wr (slice b 0 n) 0 (Z.land (rd b 0) 0x1f) ++ drop (Z.to_nat n) out), Some n).
Proof.
  intros Hb Hnb Hcap Hout Hd Hn. revert Hd.
  unfold zcl_frame_decode, ZCL_FRAME_MAX_BODY, ZCL_FRAME_CLUSTER_SPECIFIC.
  destruct (100 <? n) eqn:?; [done|]. destruct (n =? 0) eqn:?; [done|].
  destruct (1 <? Z.land (rd b 0) 3) eqn:?; [done|].
  destruct (has (rd b 0) ZCL_FLAG_MANUFACTURER_SPECIFIC && has (rd b 0) 224) eqn:?; [done|].
  pose proof (rd_is_u8 b 0 Hb) as H0.
  assert (has (Z.land (rd b 0) 28) ZCL_FLAG_MANUFACTURER_SPECIFIC
          = has (rd b 0) ZCL_FLAG_MANUFACTURER_SPECIFIC) as Em by by_u8 (rd b 0).
  assert (has (Z.land (rd b 0) 28) (u8 (Z.lnot 28)) = false) as Eo by by_u8 (rd b 0).
  assert (Z.lor (Z.land (rd b 0) 3) (Z.land (rd b 0) 28) = Z.land (rd b 0) 31) as Ec
    by by_u8 (rd b 0).
  rewrite <- Em. set (mf := has (Z.land (rd b 0) 28) ZCL_FLAG_MANUFACTURER_SPECIFIC) in *.
  unfold ZCL_FRAME_MAX_HEADER, ZCL_FRAME_MIN_HEADER.
  destruct (n <? (if mf then 5 else 3)) eqn:?; [done|].
  intros H; simplify_eq H; intros <-; cbn [header payload_length payload_offset].
  set (s := if mf then 5 else 3) in *. assert (s = 3 ∨ s = 5) by (subst s; destruct mf; lia).
  rewrite u8_id by width.
  assert (blen (slice b s (n - s)) = n - s) as Hs by (apply blen_slice; lia).
  match goal with |- zcl_frame_encode (Some ?h) _ _ _ _ _ = _ => set (hd := h) end.
  assert (header_size (flags hd) = s) as Es by done.
  assert (header_bytes hd = wr (slice b 0 s) 0 (Z.land (rd b 0) 31)) as Eh.
  { unfold header_bytes, hd; cbn [type flags manufacturer_code sequence command_id].
    fold mf. rewrite Ec, slice_rd by lia. subst s.
    destruct (read_le16_split b 1 Hb) as [E1 E2]. destruct mf; [rewrite E1, E2|]; reflexivity. }
  destruct (zcl_frame_encode (Some hd) _ _ _ _ _) as [[st ob] ol] eqn:E.
  assert (st = ZCL_CODEC_OK) as ->.
  { revert E. unfold zcl_frame_encode, ZCL_FRAME_MAX_BODY, ZCL_FRAME_CLUSTER_SPECIFIC.
    rewrite bool_decide_eq_false_2, Es by done. cbn [andb].
    change (type hd) with (Z.land (rd b 0) 3). change (flags hd) with (Z.land (rd b 0) 28).
    fold mf. rewrite Heqb2, Eo. replace (100 - s <? n - s) with false by lia.
    replace (cap <? s + (n - s)) with false by lia.
    destruct mf; intros E; by simplify_eq E. }
  apply zcl_frame_encode_ok in E as (_&_&_&_&->&->). cbn [default from_option id].
  rewrite Es, (slice_all' (slice b s (n - s))), zcl_blit_buffer, Eh, Es, Hs by (rewrite ?Es; lia).
  replace (s + (n - s)) with n by lia. rewrite u8_id by width.
  rewrite app_assoc, <- wr_app_l by (rewrite blen_slice by lia; lia).
  by rewrite <- slice_prefix by lia.
Qed.

(** The decoder reads nothing beyond [length], and keeps its output on error. *)
Lemma zcl_frame_decode_local b b' n r :
  0 <= n → agree n b b' →
  zcl_frame_decode (Some b) n r = zcl_frame_decode (Some b') n r.
Proof.
  intros Hn Ha. unfold zcl_frame_decode, ZCL_FRAME_MAX_HEADER, ZCL_FRAME_MIN_HEADER, read_le16.
  destruct r; [|done].
  destruct (ZCL_FRAME_MAX_BODY <? n); [done|]. destruct (n =? 0) eqn:?; [done|].
  rewrite !(agree_rd n b b' 0) by (done || lia).
  destruct (ZCL_FRAME_CLUSTER_SPECIFIC <? _); [done|].
  destruct (has (rd b' 0) ZCL_FLAG_MANUFACTURER_SPECIFIC && _); [done|].
  destruct (n <? (if has (rd b' 0) ZCL_FLAG_MANUFACTURER_SPECIFIC then 5 else 3)) eqn:?; [done|].
  assert (3 <= n) by (destruct (has (rd b' 0) ZCL_FLAG_MANUFACTURER_SPECIFIC); lia).
  rewrite !(agree_rd n b b' 1), !(agree_rd n b b' (1 + 1)) by (done || lia).
  assert (has (Z.land (rd b' 0) 28) ZCL_FLAG_MANUFACTURER_SPECIFIC
          = has (rd b' 0) ZCL_FLAG_MANUFACTURER_SPECIFIC) as ->.
  { unfold has. rewrite <- Z.land_assoc. done. }
  destruct (has (rd b' 0) ZCL_FLAG_MANUFACTURER_SPECIFIC);
    by rewrite ?(agree_rd n b b' 3), ?(agree_rd n b b' (3 + 1)), ?(agree_rd n b b' 1),
      ?(agree_rd n b b' (1 + 1)) by (done || lia).
Qed.
Lemma zcl_frame_decode_error b n r :
  (zcl_frame_decode b n r).1 ≠ ZCL_CODEC_OK → (zcl_frame_decode b n r).2 = r.
Proof. unfold zcl_frame_decode. intros. repeat case_match; done. Qed.

(** ** What handlers use: a decoded request is typed, an encoded reply is readable *)
Lemma zcl_frame_decode_facts b n r0 info :
  is_bytes b → 0 <= n →
  zcl_frame_decode (Some b) n (Some r0) = (ZCL_CODEC_OK, Some info) →
  let h := header info in
  header_typed h ∧ type h <= 1 ∧ has (flags h) (u8 (Z.lnot 0x1c)) = false ∧ normalise h = h ∧
  payload_offset info = header_size (flags h) ∧ payload_offset info <= n <= 100 ∧
  payload_length info = n - payload_offset info.
Proof.
  intros Hb Hn. unfold zcl_frame_decode, ZCL_FRAME_MAX_BODY, ZCL_FRAME_CLUSTER_SPECIFIC.
  pose proof (rd_is_u8 b 0 Hb) as H0.
  destruct (100 <? n) eqn:?; [done|]. destruct (n =? 0) eqn:?; [done|].
  destruct (1 <? Z.land (rd b 0) 3) eqn:?; [done|].
  destruct (has (rd b 0) ZCL_FLAG_MANUFACTURER_SPECIFIC && has (rd b 0) 224) eqn:?; [done|].
  assert (has (Z.land (rd b 0) 28) ZCL_FLAG_MANUFACTURER_SPECIFIC
          = has (rd b 0) ZCL_FLAG_MANUFACTURER_SPECIFIC) as Em by by_u8 (rd b 0).
  assert (has (Z.land (rd b 0) 28) (u8 (Z.lnot 28)) = false) as Eo by by_u8 (rd b 0).
  rewrite <- Em. set (mf := has (Z.land (rd b 0) 28) ZCL_FLAG_MANUFACTURER_SPECIFIC) in *.
  destruct (n <? (if mf then ZCL_FRAME_MAX_HEADER else ZCL_FRAME_MIN_HEADER)) eqn:?; [done|].
  intros H; simplify_eq H; intros <-. cbv zeta.
  unfold header_typed, normalise, header_size.
  cbn [header type flags manufacturer_code sequence command_id payload_offset payload_length].
  fold mf. unfold ZCL_FRAME_MAX_HEADER, ZCL_FRAME_MIN_HEADER in *.
  pose proof (is_u8_land (rd b 0) 3). pose proof (is_u8_land (rd b 0) 28).
  pose proof (read_le16_range b 1 Hb).
  split.
  { split_and!; try apply rd_is_u8; try done; try (by width). by destruct mf. }
  split; [lia|]. split; [done|]. split; [by destruct mf|]. split; [done|]. split; [lia|].
  apply u8_id. destruct mf; width.
Qed.

Lemma zcl_frame_reply h p b cap r0 :
  header_typed h → type h <= 1 → has (flags h) (u8 (Z.lnot 0x1c)) = false →
  header_size (flags h) + blen p <= 100 → header_size (flags h) + blen p <= cap → cap <= blen b →
  ∃ body n, zcl_frame_encode (Some h) (Some p) (blen p) (Some b) cap (Some 0)
      = (ZCL_CODEC_OK, Some body, Some n) ∧
    n = header_size (flags h) + blen p ∧
    zcl_frame_decode (Some body) n (Some r0)
      = (ZCL_CODEC_OK,
         Some {| header := normalise h; ignored_control_bits := 0;
                 payload_offset := header_size (flags h); payload_length := blen p |}) ∧
    slice body (header_size (flags h)) (blen p) = p.
Proof.
  intros Hh Hty Hfl Hn Hcap Hb. pose proof (zcl_header_size_range (flags h)).
  pose proof (blen_nonneg p).
  destruct (zcl_frame_encode (Some h) (Some p) (blen p) (Some b) cap (Some 0)) as [[st ob] ol] eqn:E.
  assert (st = ZCL_CODEC_OK) as ->.
  { revert E. unfold zcl_frame_encode, ZCL_FRAME_MAX_BODY, ZCL_FRAME_CLUSTER_SPECIFIC.
    rewrite bool_decide_eq_false_2 by done. cbn [andb]. rewrite Hfl.
    replace (1 <? type h) with false by lia.
    replace (100 - header_size (flags h) <? blen p) with false by lia.
    replace (cap <? header_size (flags h) + blen p) with false by lia.
    case_match; intros E; by simplify_eq E. }
  apply zcl_frame_encode_ok in E as (_&_&_&_&->&->). cbn [default from_option id].
  rewrite slice_all, zcl_blit_buffer, u8_id by width. do 2 eexists. split; [done|]. split; [done|].
  split; [by apply zcl_frame_decode_bytes|].
  by apply slice_app_mid; [rewrite zcl_header_bytes_len|].
Qed.

Lemma zcl_frame_reply_small h p b cap l :
  type h <= 1 → has (flags h) (u8 (Z.lnot 0x1c)) = false →
  header_size (flags h) + blen p <= 100 → cap < header_size (flags h) + blen p →
  zcl_frame_encode (Some h) (Some p) (blen p) (Some b) cap (Some l)
  = (ZCL_CODEC_BUFFER_TOO_SMALL, Some b, Some l).
Proof.
  intros Hty Hfl Hn Hcap.
  unfold zcl_frame_encode, ZCL_FRAME_MAX_BODY, ZCL_FRAME_CLUSTER_SPECIFIC.
  rewrite bool_decide_eq_false_2 by done. cbn [andb]. rewrite Hfl.
  replace (1 <? type h) with false by lia.
  replace (100 - header_size (flags h) <? blen p) with false by lia.
  by replace (cap <? header_size (flags h) + blen p) with true by lia.
Qed.

Lemma zcl_frame_encode_length h p n b cap l :
  ∃ st ob l', zcl_frame_encode h p n b cap (Some l) = (st, ob, Some l').
Proof. unfold zcl_frame_encode. repeat case_match; by eexists _, _, _. Qed.
(** A failing encoder keeps its buffer. *)
Lemma zcl_frame_encode_error h p n b cap l :
  (zcl_frame_encode h p n b cap l).1.1 ≠ ZCL_CODEC_OK → (zcl_frame_encode h p n b cap l).1.2 = b.
Proof. unfold zcl_frame_encode. intros. repeat case_match; done. Qed.

(** ** Values *)

(** What the shape table assigns: at most eight octets for a fixed-width type,
    one for a boolean, none recorded for a string. *)
Lemma zcl_value_shape_facts t :
  is_u8 t → value_shape t ≠ SHAPE_UNSUPPORTED →
  let w := shape_width (value_shape t) in let k := shape_kind (value_shape t) in
  0 <= w <= 8 ∧ (k = KIND_STRING → w = 0) ∧ (k = KIND_BOOLEAN → w = 1) ∧
  (k = KIND_RAW ∨ k = KIND_UNSIGNED ∨ k = KIND_SIGNED ∨ k = KIND_BOOLEAN ∨ k = KIND_STRING) ∧
  (k = KIND_SIGNED → 1 <= w) ∧ (k = KIND_UNSIGNED → 1 <= w).
Proof.
  intros Ht Hs.
  pose proof (forall_u8 (λ t, (value_shape t =? SHAPE_UNSUPPORTED) ||
    (let w := shape_width (value_shape t) in let k := shape_kind (value_shape t) in
     (0 <=? w) && (w <=? 8) && (negb (k =? KIND_STRING) || (w =? 0))
     && (negb (k =? KIND_BOOLEAN) || (w =? 1))
     && ((k =? KIND_RAW) || (k =? KIND_UNSIGNED) || (k =? KIND_SIGNED) || (k =? KIND_BOOLEAN)
         || (k =? KIND_STRING))
     && (negb (k =? KIND_SIGNED) || (1 <=? w)) && (negb (k =? KIND_UNSIGNED) || (1 <=? w))))
    ltac:(vm_compute; reflexivity) t Ht) as H.
  cbv beta zeta in *. lia.
Qed.

Lemma zcl_non_value_loop_zero data n :
  is_bytes data → Z.of_nat n <= blen data →
  non_value_loop KIND_SIGNED data n 0 = if le_value (slice data 0 (Z.of_nat n)) =? 0 then 1 else 0.
Proof.
  intros Hb. induction n as [|n IH]; intros Hl; [done|].
  replace (Z.of_nat (S n)) with (Z.of_nat n + 1) in * by lia. rewrite slice_snoc by lia.
  cbn [non_value_loop]. change (if KIND_SIGNED =? KIND_SIGNED then 0 else 0) with 0.
  rewrite le_value_app, blen_slice by lia. simpl le_value.
  pose proof (rd_is_u8 data (Z.of_nat n) Hb) as Hr.
  pose proof (le_value_range _ (is_bytes_slice data 0 (Z.of_nat n) Hb)) as Hv.
  rewrite blen_slice in Hv by lia. unfold is_u8 in Hr.
  destruct (Z.eqb_spec (rd data (Z.of_nat n)) 0) as [->|]; cbn [negb].
  - rewrite IH by lia. by rewrite Z.add_0_l, !Z.mul_0_r, Z.add_0_r.
  - destruct (Z.eqb_spec (le_value (slice data 0 (Z.of_nat n))
      + 256 ^ Z.of_nat n * (rd data (Z.of_nat n) + 256 * 0)) 0); [nia|done].
Qed.
Lemma zcl_non_value_loop_ones k data n :
  k ≠ KIND_SIGNED → is_bytes data → Z.of_nat n <= blen data →
  non_value_loop k data n 0xff
  = if le_value (slice data 0 (Z.of_nat n)) =? 256 ^ Z.of_nat n - 1 then 1 else 0.
Proof.
  intros Hk Hb. induction n as [|n IH]; intros Hl; [done|].
  replace (Z.of_nat (S n)) with (Z.of_nat n + 1) in * by lia. rewrite slice_snoc by lia.
  cbn [non_value_loop].
  rewrite le_value_app, blen_slice, Z.pow_add_r by lia. simpl le_value. change (256 ^ 1) with 256.
  pose proof (rd_is_u8 data (Z.of_nat n) Hb) as Hr.
  pose proof (le_value_range _ (is_bytes_slice data 0 (Z.of_nat n) Hb)) as Hv.
  rewrite blen_slice in Hv by lia. unfold is_u8 in Hr.
  replace (k =? KIND_SIGNED) with false by lia.
  destruct (Z.eqb_spec (rd data (Z.of_nat n)) 0xff) as [->|]; cbn [negb].
  - rewrite IH by lia. by repeat case_match; lia.
  - destruct (Z.eqb_spec (le_value (slice data 0 (Z.of_nat n))
      + 256 ^ Z.of_nat n * (rd data (Z.of_nat n) + 256 * 0)) (256 ^ Z.of_nat n * 256 - 1)); [nia|done].
Qed.

(** The non-value pattern of a fixed-width value is exactly the ZCL
    "invalid" number: the largest unsigned value, the most negative signed one,
    read as the little-endian number on the wire. *)
Theorem zcl_non_value_pattern_meaning kind data w :
  is_bytes data → 1 <= w → w <= blen data → kind ≠ KIND_RAW →
  non_value_pattern kind data w = 1 ↔
  le_value (slice data 0 w) =
    (if kind =? KIND_SIGNED then 2 ^ (8 * w - 1) else 2 ^ (8 * w) - 1).
Proof.
  intros Hb Hw Hl Hk. unfold non_value_pattern.
  replace (kind =? KIND_RAW) with false by lia.
  replace (2 ^ (8 * w)) with (256 ^ w) by (change 256 with (2 ^ 8); by rewrite <- Z.pow_mul_r by lia).
  destruct (Z.eqb_spec kind KIND_SIGNED) as [->|Hs].
  - replace (Z.to_nat w) with (S (Z.to_nat (w - 1))) by lia.
    replace w with ((w - 1) + 1) at 2 by lia. rewrite slice_snoc by lia.
    cbn [non_value_loop]. rewrite Z2Nat.id by lia. change (KIND_SIGNED =? KIND_SIGNED) with true.
    rewrite zcl_non_value_loop_zero by (done || lia). rewrite Z2Nat.id by lia.
    rewrite le_value_app, blen_slice by lia. simpl le_value.
    replace (2 ^ (8 * w - 1)) with (256 ^ (w - 1) * 128) by
      (change 256 with (2 ^ 8); change 128 with (2 ^ 7);
       rewrite <- Z.pow_mul_r, <- Z.pow_add_r by lia; f_equal; lia).
    pose proof (rd_is_u8 data (w - 1) Hb) as Hr.
    pose proof (le_value_range _ (is_bytes_slice data 0 (w - 1) Hb)) as Hv.
    rewrite blen_slice in Hv by lia. unfold is_u8 in Hr.
    destruct (Z.eqb_spec (rd data (w - 1)) 128) as [->|]; cbn [negb].
    + case_match; nia.
    + split; [done|]. intros E. nia.
  - rewrite zcl_non_value_loop_ones by (done || lia). rewrite Z2Nat.id by lia.
    case_match; lia.
Qed.

(** What one accepted value occupies: the length octet of a string, then its
    data octets. *)
Definition value_bytes (v : zcl_value_t) : bytes :=
  (if shape_kind (value_shape (value_type v)) =? KIND_STRING
   then [if negb (string_non_value v =? 0) then 0xff else data_length v] else [])
  ++ slice (default [] (data v)) 0 (data_length v).

(** The requests the encoder accepts, in a buffer that is large enough. *)
Definition value_ok (v : zcl_value_t) : Prop :=
  let shape := value_shape (value_type v) in
  shape ≠ SHAPE_UNSUPPORTED ∧
  (if shape_kind shape =? KIND_STRING
   then (string_non_value v = 0 ∨ string_non_value v = 1 ∧ data_length v = 0) ∧
        data_length v <= 254
   else string_non_value v = 0 ∧ data_length v = shape_width shape ∧
        (shape_kind shape = KIND_BOOLEAN →
         let x := rd (default [] (data v)) 0 in x = 0 ∨ x = 1 ∨ x = 0xff)).

Lemma zcl_value_encode_ok v b cap l body' len' :
  is_u8 (value_type v) → 0 <= data_length v → 0 <= string_non_value v →
  data_length v <= blen (default [] (data v)) → cap <= blen b →
  zcl_value_encode (Some v) (Some b) cap (Some l) = (ZCL_CODEC_OK, body', len') →
  value_ok v ∧ blen (value_bytes v) <= cap ∧
  body' = Some (blit b 0 (value_bytes v)) ∧ len' = Some (blen (value_bytes v)).
Proof.
  intros Ht Hd0 Hn0 Hdl Hcap. unfold zcl_value_encode, value_ok, value_bytes.
  set (shape := value_shape (value_type v)).
  destruct (bool_decide (data v = None) && negb (data_length v =? 0)); [done|].
  destruct (Z.eqb_spec shape SHAPE_UNSUPPORTED) as [|Hs]; [done|].
  pose proof (zcl_value_shape_facts _ Ht Hs) as (Hw&_&_&_&_&_). fold shape in Hw.
  set (d := default [] (data v)) in *.
  assert (blen (slice d 0 (data_length v)) = data_length v) as Hsl by (apply blen_slice; lia).
  destruct (Z.eqb_spec (shape_kind shape) KIND_STRING) as [Hk|Hk]; cbn [negb andb].
  - destruct ((1 <? string_non_value v) || _) eqn:E1; [done|].
    destruct (254 <? data_length v) eqn:E2; [done|].
    rewrite (u8_id (1 + data_length v)) by width. rewrite (u8_id (data_length v)) by width.
    destruct (cap <? 1 + data_length v) eqn:E3; [done|]. intros H; simplify_eq H; intros <- <-.
    rewrite blen_app, Hsl. change (blen [_]) with 1.
    split; [split; [done|]; split; lia|]. split; [lia|]. split; [|done].
    rewrite wr_blit. replace (1 + data_length v - 1) with (data_length v) by lia.
    destruct (1 <? 1 + data_length v) eqn:E4.
    + by rewrite blit_blit' by done.
    + replace (data_length v) with 0 in * by lia. by rewrite slice_0, app_nil_r.
  - destruct (negb (string_non_value v =? 0) || _) eqn:E1; [done|].
    destruct ((shape_kind shape =? KIND_BOOLEAN) && _ && _ && _) eqn:E2; [done|].
    destruct (cap <? shape_width shape) eqn:E3; [done|]. intros H; simplify_eq H; intros <- <-.
    rewrite app_nil_l, Hsl.
    split; [split; [done|]; split; [lia|]; split; [lia|]; intros Hkb; rewrite Hkb in E2; cbn in E2; lia|].
    assert (data_length v = shape_width shape) as E by lia. rewrite E in *.
    split; [lia|]. split; [|done]. rewrite Z.sub_0_r.
    destruct (0 <? shape_width shape) eqn:E4; [done|].
    replace (shape_width shape) with 0 in * by lia. done.
Qed.

(** The encoder's verdict on an acceptable value depends on the space only. *)
Lemma zcl_value_bytes_len v :
  value_ok v → 0 <= data_length v → data_length v <= blen (default [] (data v)) →
  blen (value_bytes v) = (if shape_kind (value_shape (value_type v)) =? KIND_STRING
                          then 1 + data_length v else data_length v).
Proof.
  intros _ H0 Hl. unfold value_bytes. rewrite blen_app, blen_slice by lia. by case_match.
Qed.
Lemma zcl_value_encode_fits v b cap :
  is_u8 (value_type v) → 0 <= data_length v → 0 <= string_non_value v →
  data_length v <= blen (default [] (data v)) → (data v = None → data_length v = 0) →
  cap <= blen b → value_ok v →
  zcl_value_encode (Some v) (Some b) cap (Some 0)
  = if cap <? blen (value_bytes v) then (ZCL_CODEC_BUFFER_TOO_SMALL, Some b, Some 0)
    else (ZCL_CODEC_OK, Some (blit b 0 (value_bytes v)), Some (blen (value_bytes v))).
Proof.
  intros Ht Hd0 Hn0 Hdl Hnull Hcap Hok.
  destruct (zcl_value_encode (Some v) (Some b) cap (Some 0)) as [[st ob] ol] eqn:E.
  destruct (decide (st = ZCL_CODEC_OK)) as [->|Hst].
  { pose proof (zcl_value_encode_ok _ _ _ _ _ _ Ht Hd0 Hn0 Hdl Hcap E) as (_&Hl&->&->).
    by replace (cap <? blen (value_bytes v)) with false by lia. }
  revert E. rewrite zcl_value_bytes_len by done. destruct Hok as [Hs Hok]. unfold zcl_value_encode.
  replace (bool_decide (data v = None) && negb (data_length v =? 0)) with false
    by (case_bool_decide; [rewrite Hnull|]; done).
  replace (value_shape (value_type v) =? SHAPE_UNSUPPORTED) with false by lia.
  destruct (Z.eqb_spec (shape_kind (value_shape (value_type v))) KIND_STRING) as [Hk|Hk];
    cbn [negb andb].
  - destruct Hok as [Hnv Hle].
    replace ((1 <? string_non_value v) || _) with false by lia.
    replace (254 <? data_length v) with false by lia. rewrite u8_id by width.
    destruct (cap <? 1 + data_length v); intros E; by simplify_eq E.
  - destruct Hok as (Hnv&Hwd&Hbool).
    replace (negb (string_non_value v =? 0) || _) with false by lia. rewrite <- Hwd.
    destruct ((shape_kind (value_shape (value_type v)) =? KIND_BOOLEAN) && _ && _ && _) eqn:E2.
    { specialize (Hbool ltac:(lia)). cbv zeta in Hbool. lia. }
    destruct (cap <? data_length v); intros E; by simplify_eq E.
Qed.

(** The decoder on a buffer that starts with an accepted value. *)
Lemma zcl_value_decode_bytes v tail n r0 :
  is_u8 (value_type v) → is_bytes (default [] (data v)) →
  0 <= data_length v → 0 <= string_non_value v → data_length v <= blen (default [] (data v)) →
  value_ok v → blen (value_bytes v) <= n →
  ∃ info, zcl_value_decode (value_type v) (Some (value_bytes v ++ tail)) n (Some r0)
      = (ZCL_CODEC_OK, Some info) ∧
    info_type info = value_type v ∧ encoded_length info = blen (value_bytes v) ∧
    info_data_length info = data_length v ∧
    data_offset info + data_length v = blen (value_bytes v) ∧
    slice (value_bytes v ++ tail) (data_offset info) (data_length v)
      = slice (default [] (data v)) 0 (data_length v) ∧
    (shape_kind (value_shape (value_type v)) = KIND_STRING →
     info_non_value_pattern info = string_non_value v).
Proof.
  intros Ht Hb Hd0 Hn0 Hdl [Hs Hok] Hn. unfold value_bytes in *.
  set (shape := value_shape (value_type v)) in *. set (d := default [] (data v)) in *.
  pose proof (zcl_value_shape_facts _ Ht Hs) as (Hw&_&Hw1&_&_&_). fold shape in Hw, Hw1.
  assert (blen (slice d 0 (data_length v)) = data_length v) as Hsl by (apply blen_slice; lia).
  unfold zcl_value_decode. fold shape. replace (shape =? SHAPE_UNSUPPORTED) with false by lia.
  rewrite blen_app, Hsl in Hn |- *. rewrite <- app_assoc.
  destruct (Z.eqb_spec (shape_kind shape) KIND_STRING) as [Hk|Hk]; cbn [negb andb].
  - change (blen [_]) with 1 in *. replace (n =? 0) with false by lia. simpl app. rd_simpl.
    destruct Hok as [Hnv Hle]. rewrite Hk. change (KIND_STRING =? KIND_BOOLEAN) with false.
    cbn [andb].
    assert (((if negb (string_non_value v =? 0) then 255 else data_length v) =? 255)
            = (string_non_value v =? 1)) as -> by (case_match; lia).
    assert ((if string_non_value v =? 1 then 0
             else if negb (string_non_value v =? 0) then 255 else data_length v)
            = data_length v) as -> by (repeat case_match; lia).
    replace (n <? 1 + data_length v) with false by lia.
    eexists. split; [reflexivity|].
    cbn [info_type encoded_length info_data_length data_offset info_non_value_pattern].
    split; [done|]. split; [apply u8_id; width|]. split; [done|]. split; [lia|].
    split; [|intros _; destruct (Z.eqb_spec (string_non_value v) 1); simpl; lia].
    by apply (slice_app_mid [_]).
  - destruct Hok as (Hnv&Hwd&Hbool). change (blen []) with 0 in *. rewrite app_nil_l.
    rewrite <- Hwd in *. replace (n <? 0 + data_length v) with false by lia.
    set (x := rd (slice d 0 (data_length v) ++ tail) 0).
    assert ((shape_kind shape =? KIND_BOOLEAN) && negb (x =? 0) && negb (x =? 1)
            && negb (x =? 255) = false) as ->.
    { destruct (shape_kind shape =? KIND_BOOLEAN) eqn:E; [|done]. subst x.
      rewrite rd_app_l, slice_0, rd_take by (rewrite ?Hsl; lia).
      specialize (Hbool ltac:(lia)). cbv zeta in Hbool. lia. }
    eexists. split; [reflexivity|].
    cbn [info_type encoded_length info_data_length data_offset info_non_value_pattern].
    split; [done|]. split; [rewrite u8_id by width; lia|]. split; [done|]. split; [lia|].
    split; [|done]. by apply (slice_app_mid []).
Qed.

(** A value the encoder wrote decodes, whatever follows it in the
    buffer, to its own type, its data span and its encoded length; the flag of a
    string tells whether it was the non-value string. *)
Theorem zcl_value_roundtrip v b cap l body' len' n r0 :
  is_u8 (value_type v) → is_bytes (default [] (data v)) →
  0 <= data_length v → 0 <= string_non_value v →
  data_length v <= blen (default [] (data v)) → cap <= blen b →
  zcl_value_encode (Some v) (Some b) cap (Some l) = (ZCL_CODEC_OK, Some body', Some len') →
  len' <= n →
  ∃ info, zcl_value_decode (value_type v) (Some body') n (Some r0) = (ZCL_CODEC_OK, Some info) ∧
    info_type info = value_type v ∧ encoded_length info = len' ∧
    info_data_length info = data_length v ∧ data_offset info + data_length v = len' ∧
    slice body' (data_offset info) (data_length v) = slice (default [] (data v)) 0 (data_length v) ∧
    (shape_kind (value_shape (value_type v)) = KIND_STRING →
     info_non_value_pattern info = string_non_value v).
Proof.
  intros Ht Hb Hd0 Hn0 Hdl Hcap H Hn.
  apply zcl_value_encode_ok in H as (Hok&Hl&Hb'&Hl'); try done. simplify_eq.
  rewrite blit_0 by lia. by apply zcl_value_decode_bytes.
Qed.

(** A decoded value lies within the octets it was decoded from. *)
Lemma zcl_value_decode_span t b n r0 info :
  is_u8 t → is_bytes b → 0 <= n →
  zcl_value_decode t (Some b) n (Some r0) = (ZCL_CODEC_OK, Some info) →
  info_type info = t ∧ (data_offset info = 0 ∨ data_offset info = 1) ∧
  0 <= info_data_length info ∧
  encoded_length info = u8 (data_offset info + info_data_length info) ∧
  data_offset info + info_data_length info <= n ∧ encoded_length info <= n.
Proof.
  intros Ht Hb Hn. unfold zcl_value_decode.
  destruct (Z.eqb_spec (value_shape t) SHAPE_UNSUPPORTED) as [|Hs]; [done|].
  pose proof (zcl_value_shape_facts _ Ht Hs) as (Hw&_).
  destruct ((shape_kind (value_shape t) =? KIND_STRING) && (n =? 0)); [done|].
  pose proof (rd_is_u8 b 0 Hb) as H0.
  destruct (shape_kind (value_shape t) =? KIND_STRING).
  - destruct (n <? _) eqn:El; [done|].
    destruct ((shape_kind (value_shape t) =? KIND_BOOLEAN) && _ && _ && _); [done|].
    intros H; simplify_eq H; intros <-. cbn [info_type data_offset info_data_length encoded_length].
    assert (0 <= (if rd b 0 =? 255 then 0 else rd b 0)) by (case_match; width).
    repeat split; try lia. unfold u8. pose proof (Z.mod_le (1 + (if rd b 0 =? 255 then 0 else rd b 0)) 256).
    lia.
  - destruct (n <? _) eqn:El; [done|].
    destruct ((shape_kind (value_shape t) =? KIND_BOOLEAN) && _ && _ && _); [done|].
    intros H; simplify_eq H; intros <-. cbn [info_type data_offset info_data_length encoded_length].
    repeat split; try lia. rewrite u8_id by width. lia.
Qed.

(** ** Witnesses *)
Definition sample_header : zcl_header_t := Build_zcl_header_t 1 0x0c 0x1037 77 2.

Lemma zcl_frame_roundtrip_witness :
  ∃ body', zcl_frame_encode (Some sample_header) (Some [9; 8; 7]) 3 (Some (replicate 12 170)) 12
             (Some 0) = (ZCL_CODEC_OK, Some body', Some 8) ∧
  zcl_frame_decode (Some body') 8 (Some (Build_zcl_frame_info_t sample_header 0 0 0))
    = (ZCL_CODEC_OK,
       Some {| header := normalise sample_header; ignored_control_bits := 0;
               payload_offset := 5; payload_length := 3 |}) ∧
  slice body' 5 3 = [9; 8; 7].
Proof.
  eexists. split; [vm_compute; reflexivity|].
  apply (zcl_frame_roundtrip sample_header [9; 8; 7] 3 (replicate 12 170) 12 0); concrete.
Defined.

Lemma zcl_frame_canonical_witness :
  zcl_frame_encode (Some (Build_zcl_header_t 0 0x10 0 33 11)) (Some [0]) 1 (Some (replicate 6 170)) 6
    (Some 0) = (ZCL_CODEC_OK, Some ([0x10; 33; 11; 0] ++ [170; 170]), Some 4).
Proof.
  apply (zcl_frame_canonical [0x90; 33; 11; 0] 4 (Build_zcl_frame_info_t sample_header 0 0 0)
    (Build_zcl_frame_info_t (Build_zcl_header_t 0 0x10 0 33 11) 0x80 3 1)); concrete.
Defined.

Lemma zcl_non_value_pattern_meaning_witness :
  le_value (slice [0; 0x80] 0 2) = 2 ^ 15.
Proof.
  apply (zcl_non_value_pattern_meaning KIND_SIGNED [0; 0x80] 2); concrete.
Defined.

Lemma zcl_value_roundtrip_witness :
  ∃ info, zcl_value_decode ZCL_TYPE_CHARACTER_STRING (Some [2; 76; 71; 170]) 4
            (Some (Build_zcl_value_info_t 0 0 0 0 0)) = (ZCL_CODEC_OK, Some info) ∧
    info_type info = ZCL_TYPE_CHARACTER_STRING ∧ encoded_length info = 3 ∧
    info_data_length info = 2 ∧ data_offset info + 2 = 3 ∧
    slice [2; 76; 71; 170] (data_offset info) 2 = [76; 71] ∧
    (shape_kind (value_shape ZCL_TYPE_CHARACTER_STRING) = KIND_STRING →
     info_non_value_pattern info = 0).
Proof.
  apply (zcl_value_roundtrip (Build_zcl_value_t ZCL_TYPE_CHARACTER_STRING 0 (Some [76; 71]) 2)
    (replicate 4 170) 4 0 [2; 76; 71; 170] 3 4 (Build_zcl_value_info_t 0 0 0 0 0)); concrete.
Defined.

End Zcl.
