(* ===== verification/MacFrame.v ===== *)
(** * IEEE 802.15.4 MAC codec (src/mac_frame.c, include/mac_frame.h)

    MAC command payloads, beacon payloads and whole MAC frames (beacon, data,
    acknowledgement, command) with their addressing modes; the receive-only R22
    association profile is the [profile] argument of the decoder. *)
From S2P Require Import Prelude.

Module Mac.

(** ** Constants and data (include/mac_frame.h) *)
Definition MAC_FRAME_MAX_BODY := 125.
Definition MAC_COMMAND_MAX_PAYLOAD := 4.
Definition MAC_BEACON_MAX_PAYLOAD := 52.
Definition MAC_BEACON_MAX_PENDING := 7.
Definition MAC_RX_IEEE2006 := 0.
Definition MAC_RX_R22_ASSOCIATION_RESPONSE := 1.
Definition MAC_FRAME_BEACON := 0.
Definition MAC_FRAME_DATA := 1.
Definition MAC_FRAME_ACK := 2.
Definition MAC_FRAME_COMMAND := 3.
Definition MAC_ADDRESS_NONE := 0.
Definition MAC_ADDRESS_SHORT := 2.
Definition MAC_ADDRESS_EXTENDED := 3.
Definition MAC_FLAG_SECURITY := 0x08.
Definition MAC_FLAG_PENDING := 0x10.
Definition MAC_FLAG_ACK_REQUEST := 0x20.
Definition MAC_FLAG_PAN_COMPRESSION := 0x40.
Definition MAC_COMMAND_ASSOCIATION_REQUEST := 0x01.
Definition MAC_COMMAND_ASSOCIATION_RESPONSE := 0x02.
Definition MAC_COMMAND_DISASSOCIATION := 0x03.
Definition MAC_COMMAND_DATA_REQUEST := 0x04.
Definition MAC_COMMAND_BEACON_REQUEST := 0x07.
Definition MAC_ASSOCIATION_SUCCESS := 0.
Definition MAC_ASSOCIATION_PAN_AT_CAPACITY := 1.
Definition MAC_ASSOCIATION_PAN_ACCESS_DENIED := 2.
Definition MAC_DISASSOCIATION_COORDINATOR_REQUEST := 1.
Definition MAC_DISASSOCIATION_DEVICE_REQUEST := 2.

Inductive mac_codec_result_t :=
  | MAC_CODEC_OK
  | MAC_CODEC_INVALID_ARGUMENT
  | MAC_CODEC_TRUNCATED
  | MAC_CODEC_TOO_LONG
  | MAC_CODEC_BUFFER_TOO_SMALL
  | MAC_CODEC_UNSUPPORTED_TYPE
  | MAC_CODEC_UNSUPPORTED_VERSION
  | MAC_CODEC_UNSUPPORTED_SECURITY
  | MAC_CODEC_UNSUPPORTED_ADDRESSING
  | MAC_CODEC_INVALID_HEADER
  | MAC_CODEC_UNSUPPORTED_COMMAND
  | MAC_CODEC_INVALID_COMMAND
  | MAC_CODEC_UNSUPPORTED_BEACON
  | MAC_CODEC_INVALID_BEACON.
#[export] Instance mac_codec_result_eq : EqDecision mac_codec_result_t.
Proof. solve_decision. Defined.

Record mac_command_t := {
  identifier : Z;
  capability : Z;
  short_address : Z;
  status : Z;
  reason : Z
}.
Definition zero_command : mac_command_t := Build_mac_command_t 0 0 0 0 0.

Record mac_beacon_info_t := {
  superframe_specification : Z;
  gts_permit : Z;
  short_count : Z;
  extended_count : Z;
  short_offset : Z;
  extended_offset : Z;
  beacon_payload_offset : Z;
  beacon_payload_length : Z
}.

Record mac_header_t := {
  type : Z;
  version : Z;
  flags : Z;
  sequence : Z;
  destination_mode : Z;
  source_mode : Z;
  destination_pan : Z;
  source_pan : Z;
  destination : bytes;
  source : bytes
}.

Record mac_frame_info_t := {
  header : mac_header_t;
  payload_offset : Z;
  payload_length : Z
}.

Definition command_typed (c : mac_command_t) : Prop :=
  is_u8 (identifier c) ∧ is_u8 (capability c) ∧ is_u16 (short_address c) ∧
  is_u8 (status c) ∧ is_u8 (reason c).
#[export] Instance mac_command_typed_dec c : Decision (command_typed c).
Proof. unfold command_typed. apply _. Defined.

Definition header_typed (h : mac_header_t) : Prop :=
  is_u8 (type h) ∧ is_u8 (version h) ∧ is_u8 (flags h) ∧ is_u8 (sequence h) ∧
  is_u8 (destination_mode h) ∧ is_u8 (source_mode h) ∧
  is_u16 (destination_pan h) ∧ is_u16 (source_pan h) ∧
  blen (destination h) = 8 ∧ blen (source h) = 8 ∧
  is_bytes (destination h) ∧ is_bytes (source h).
#[export] Instance mac_header_typed_dec h : Decision (header_typed h).
Proof. unfold header_typed. apply _. Defined.

(** ** Command payloads *)
Definition command_size (identifier : Z) : Z :=
  if (identifier =? MAC_COMMAND_ASSOCIATION_REQUEST)
     || (identifier =? MAC_COMMAND_DISASSOCIATION) then 2
  else if identifier =? MAC_COMMAND_ASSOCIATION_RESPONSE then 4
  else if (identifier =? MAC_COMMAND_DATA_REQUEST)
          || (identifier =? MAC_COMMAND_BEACON_REQUEST) then 1
  else 0.

Definition command_policy (c : mac_command_t) : mac_codec_result_t :=
  if identifier c =? MAC_COMMAND_ASSOCIATION_REQUEST then
    if has (capability c) 0x30 then MAC_CODEC_INVALID_COMMAND else MAC_CODEC_OK
  else if identifier c =? MAC_COMMAND_ASSOCIATION_RESPONSE then
    if (MAC_ASSOCIATION_PAN_ACCESS_DENIED <? status c)
       || ((status c =? MAC_ASSOCIATION_SUCCESS) && (short_address c =? 0xffff))
       || (negb (status c =? MAC_ASSOCIATION_SUCCESS) && negb (short_address c =? 0xffff))
    then MAC_CODEC_INVALID_COMMAND else MAC_CODEC_OK
  else if identifier c =? MAC_COMMAND_DISASSOCIATION then
    if negb (reason c =? MAC_DISASSOCIATION_COORDINATOR_REQUEST)
       && negb (reason c =? MAC_DISASSOCIATION_DEVICE_REQUEST)
    then MAC_CODEC_INVALID_COMMAND else MAC_CODEC_OK
  else if (identifier c =? MAC_COMMAND_DATA_REQUEST)
          || (identifier c =? MAC_COMMAND_BEACON_REQUEST) then MAC_CODEC_OK
  else MAC_CODEC_UNSUPPORTED_COMMAND.

Definition parse_command (p : bytes) : mac_command_t :=
  let id := rd p 0 in
  let response := id =? MAC_COMMAND_ASSOCIATION_RESPONSE in {|
  identifier := id;
  capability := if id =? MAC_COMMAND_ASSOCIATION_REQUEST then rd p 1 else 0;
  short_address := if response then read_le16 p 1 else 0;
  status := if response then rd p 3 else 0;
  reason := if id =? MAC_COMMAND_DISASSOCIATION then rd p 1 else 0
|}.

Definition mac_command_decode (payload : option bytes) (length : Z)
    (result : option mac_command_t) : mac_codec_result_t * option mac_command_t :=
  match payload, result with
  | Some p, Some _ =>
      if! MAC_COMMAND_MAX_PAYLOAD <? length return (MAC_CODEC_TOO_LONG, result) ;;
      if! length =? 0 return (MAC_CODEC_TRUNCATED, result) ;;
      let size := command_size (rd p 0) in
      if! size =? 0 return (MAC_CODEC_UNSUPPORTED_COMMAND, result) ;;
      if! length <? size return (MAC_CODEC_TRUNCATED, result) ;;
      if! negb (length =? size) return (MAC_CODEC_INVALID_COMMAND, result) ;;
      let candidate := parse_command p in
      match command_policy candidate with
      | MAC_CODEC_OK => (MAC_CODEC_OK, Some candidate)
      | st => (st, result)
      end
  | _, _ => (MAC_CODEC_INVALID_ARGUMENT, result)
  end.

Definition mac_command_encode (command : option mac_command_t) (payload : option bytes)
    (capacity : Z) (length : option Z) : mac_codec_result_t * option bytes * option Z :=
  match command, payload, length with
  | Some c, Some p, Some _ =>
      match command_policy c with
      | MAC_CODEC_OK =>
          let size := command_size (identifier c) in
          if! capacity <? size return (MAC_CODEC_BUFFER_TOO_SMALL, payload, length) ;;
          let p := wr p 0 (identifier c) in
          let p :=
            if identifier c =? MAC_COMMAND_ASSOCIATION_REQUEST then wr p 1 (capability c)
            else if identifier c =? MAC_COMMAND_ASSOCIATION_RESPONSE
            then wr (write_le16 p 1 (short_address c)) 3 (status c)
            else if identifier c =? MAC_COMMAND_DISASSOCIATION then wr p 1 (reason c)
            else p in
          (MAC_CODEC_OK, Some p, Some size)
      | st => (st, payload, length)
      end
  | _, _, _ => (MAC_CODEC_INVALID_ARGUMENT, payload, length)
  end.

(** ** Beacon payloads *)

(** The scan of the pending short addresses for the broadcast address. *)
Fixpoint pending_broadcast (p : bytes) (count : nat) (i : Z) : bool :=
  match count with
  | O => false
  | S count => (read_le16 p i =? 0xffff) || pending_broadcast p count (i + 2)
  end.

(** [result] is the optional output object; the parser accepts NULL for it. *)
Definition beacon_fields (p : bytes) (length : Z) (result : option mac_beacon_info_t)
    : mac_codec_result_t * option mac_beacon_info_t :=
  if! 4 + 8 * MAC_BEACON_MAX_PENDING + MAC_BEACON_MAX_PAYLOAD <? length
    return (MAC_CODEC_TOO_LONG, result) ;;
  if! length <? 4 return (MAC_CODEC_TRUNCATED, result) ;;
  if! has (rd p 1) 0x20 || has (rd p 2) 0x78 return (MAC_CODEC_INVALID_BEACON, result) ;;
  if! has (rd p 2) 7 return (MAC_CODEC_UNSUPPORTED_BEACON, result) ;;
  if! has (rd p 3) 0x88 return (MAC_CODEC_INVALID_BEACON, result) ;;
  let shorts := Z.land (rd p 3) 7 in
  let extendeds := Z.land (Z.shiftr (rd p 3) 4) 7 in
  if! MAC_BEACON_MAX_PENDING <? shorts + extendeds
    return (MAC_CODEC_INVALID_BEACON, result) ;;
  let ext_offset := u8 (4 + 2 * shorts) in
  let pay_offset := u8 (ext_offset + 8 * extendeds) in
  if! length <? pay_offset return (MAC_CODEC_TRUNCATED, result) ;;
  if! pay_offset + MAC_BEACON_MAX_PAYLOAD <? length return (MAC_CODEC_TOO_LONG, result) ;;
  if! pending_broadcast p (Z.to_nat shorts) 4 return (MAC_CODEC_INVALID_BEACON, result) ;;
  (MAC_CODEC_OK,
   match result with
   | None => None
   | Some _ => Some {|
       superframe_specification := read_le16 p 0;
       gts_permit := Z.shiftr (rd p 2) 7;
       short_count := shorts;
       extended_count := extendeds;
       short_offset := 4;
       extended_offset := ext_offset;
       beacon_payload_offset := pay_offset;
       beacon_payload_length := u8 (length - pay_offset) |}
   end).

Definition mac_beacon_decode (payload : option bytes) (length : Z)
    (result : option mac_beacon_info_t) : mac_codec_result_t * option mac_beacon_info_t :=
  match payload, result with
  | Some p, Some _ => beacon_fields p length result
  | _, _ => (MAC_CODEC_INVALID_ARGUMENT, result)
  end.

(** ** Header policies *)
Definition address_size (mode : Z) : Z :=
  if mode =? MAC_ADDRESS_NONE then 0 else if mode =? MAC_ADDRESS_SHORT then 2 else 8.

(** The three out-parameters destination_size, source_size, header_size. *)
Definition header_shape (h : mac_header_t) : mac_codec_result_t * (Z * Z * Z) :=
  let none := (0, 0, 0) in
  if! (1 <? version h)
      || (((type h =? MAC_FRAME_BEACON) || (type h =? MAC_FRAME_ACK)
           || (type h =? MAC_FRAME_COMMAND)) && negb (version h =? 0))
    return (MAC_CODEC_UNSUPPORTED_VERSION, none) ;;
  if! has (flags h) MAC_FLAG_SECURITY return (MAC_CODEC_UNSUPPORTED_SECURITY, none) ;;
  if! has (flags h) (u8 (Z.lnot (Z.lor (Z.lor MAC_FLAG_PENDING MAC_FLAG_ACK_REQUEST)
                                       MAC_FLAG_PAN_COMPRESSION)))
    return (MAC_CODEC_INVALID_HEADER, none) ;;
  if type h =? MAC_FRAME_BEACON then
    if! negb (destination_mode h =? MAC_ADDRESS_NONE)
        || (negb (source_mode h =? MAC_ADDRESS_SHORT)
            && negb (source_mode h =? MAC_ADDRESS_EXTENDED))
      return (MAC_CODEC_UNSUPPORTED_ADDRESSING, none) ;;
    if! has (flags h) (Z.lor MAC_FLAG_ACK_REQUEST MAC_FLAG_PAN_COMPRESSION)
      return (MAC_CODEC_INVALID_HEADER, none) ;;
    let ssize := if source_mode h =? MAC_ADDRESS_SHORT then 2 else 8 in
    (MAC_CODEC_OK, (0, ssize, u8 (5 + ssize)))
  else if type h =? MAC_FRAME_ACK then
    if! negb (destination_mode h =? MAC_ADDRESS_NONE)
        || negb (source_mode h =? MAC_ADDRESS_NONE)
        || has (flags h) (Z.lor MAC_FLAG_ACK_REQUEST MAC_FLAG_PAN_COMPRESSION)
      return (MAC_CODEC_INVALID_HEADER, none) ;;
    (MAC_CODEC_OK, (0, 0, 3))
  else
    if! negb (type h =? MAC_FRAME_DATA) && negb (type h =? MAC_FRAME_COMMAND)
      return (MAC_CODEC_UNSUPPORTED_TYPE, none) ;;
    if! (MAC_ADDRESS_EXTENDED <? destination_mode h) || (destination_mode h =? 1)
        || (MAC_ADDRESS_EXTENDED <? source_mode h) || (source_mode h =? 1)
      return (MAC_CODEC_UNSUPPORTED_ADDRESSING, none) ;;
    if! ((destination_mode h =? MAC_ADDRESS_NONE) || (source_mode h =? MAC_ADDRESS_NONE))
        && ((type h =? MAC_FRAME_DATA) || has (flags h) MAC_FLAG_PAN_COMPRESSION
            || (destination_mode h =? source_mode h))
      return (MAC_CODEC_UNSUPPORTED_ADDRESSING, none) ;;
    let dsize := address_size (destination_mode h) in
    let ssize := address_size (source_mode h) in
    let hsize := u8 (3 + dsize + ssize + (if negb (dsize =? 0) then 2 else 0)
                     + (if negb (ssize =? 0) && negb (has (flags h) MAC_FLAG_PAN_COMPRESSION)
                        then 2 else 0)) in
    (MAC_CODEC_OK, (dsize, ssize, hsize)).

Definition address_policy (h : mac_header_t) : mac_codec_result_t :=
  if! type h =? MAC_FRAME_ACK return MAC_CODEC_OK ;;
  if! has (flags h) MAC_FLAG_PAN_COMPRESSION && negb (source_pan h =? destination_pan h)
    return MAC_CODEC_INVALID_HEADER ;;
  if! (source_mode h =? MAC_ADDRESS_SHORT) && (read_le16 (source h) 0 =? 0xffff)
    return MAC_CODEC_INVALID_HEADER ;;
  if! (type h =? MAC_FRAME_BEACON)
      && ((source_pan h =? 0xffff)
          || ((source_mode h =? MAC_ADDRESS_SHORT) && (read_le16 (source h) 0 =? 0xfffe)))
    return MAC_CODEC_INVALID_HEADER ;;
  if! has (flags h) MAC_FLAG_ACK_REQUEST && (destination_mode h =? MAC_ADDRESS_SHORT)
      && (read_le16 (destination h) 0 =? 0xffff)
    return MAC_CODEC_INVALID_HEADER ;;
  MAC_CODEC_OK.

(** Mode 0 is legacy RX, 1 is TX, and 2 is R22 Response RX. *)
Definition command_header_policy (h : mac_header_t) (payload : option bytes) (length mode : Z)
    : mac_codec_result_t :=
  let compressed := has (flags h) MAC_FLAG_PAN_COMPRESSION in
  if! length =? 0 return MAC_CODEC_TRUNCATED ;;
  match mac_command_decode payload length (Some zero_command) with
  | (MAC_CODEC_OK, Some command) =>
      let id := identifier command in
      if! (mode =? 1) && has (flags h) MAC_FLAG_PENDING return MAC_CODEC_INVALID_HEADER ;;
      if id =? MAC_COMMAND_BEACON_REQUEST then
        if! negb (destination_mode h =? MAC_ADDRESS_SHORT)
            || negb (source_mode h =? MAC_ADDRESS_NONE)
            || negb (destination_pan h =? 0xffff)
            || negb (read_le16 (destination h) 0 =? 0xffff)
            || has (flags h) MAC_FLAG_ACK_REQUEST
          return MAC_CODEC_INVALID_HEADER ;;
        MAC_CODEC_OK
      else
        if! negb (has (flags h) MAC_FLAG_ACK_REQUEST)
            || ((destination_mode h =? MAC_ADDRESS_SHORT)
                && (0xfffe <=? read_le16 (destination h) 0))
            || ((source_mode h =? MAC_ADDRESS_SHORT) && (0xfffe <=? read_le16 (source h) 0))
          return MAC_CODEC_INVALID_HEADER ;;
        if id =? MAC_COMMAND_DATA_REQUEST then
          if! (source_mode h =? MAC_ADDRESS_NONE)
              || negb (Bool.eqb compressed (negb (destination_mode h =? MAC_ADDRESS_NONE)))
            return MAC_CODEC_INVALID_HEADER ;;
          MAC_CODEC_OK
        else
          if! negb (source_mode h =? MAC_ADDRESS_EXTENDED)
              || (destination_mode h =? MAC_ADDRESS_NONE)
            return MAC_CODEC_INVALID_HEADER ;;
          if id =? MAC_COMMAND_ASSOCIATION_REQUEST then
            if! compressed || negb (source_pan h =? 0xffff) return MAC_CODEC_INVALID_HEADER ;;
            MAC_CODEC_OK
          else
            if! ((id =? MAC_COMMAND_ASSOCIATION_RESPONSE)
                 && negb (destination_mode h =? MAC_ADDRESS_EXTENDED))
                || (negb compressed
                    && negb ((mode =? 2) && (id =? MAC_COMMAND_ASSOCIATION_RESPONSE)))
              return MAC_CODEC_INVALID_HEADER ;;
            MAC_CODEC_OK
  | (st, _) => st
  end.

(** ** Frame decoder *)
Definition zeros (n : nat) : bytes := replicate n 0.

(** A [memcpy] of [n] octets into a zeroed eight-octet address. *)
Definition address_copy (b : bytes) (position n : Z) : bytes := blit (zeros 8) 0 (slice b position n).

Definition parse_control (b : bytes) : mac_header_t := {|
  type := Z.land (rd b 0) 0x07;
  version := Z.land (Z.shiftr (rd b 1) 4) 0x03;
  flags := Z.land (rd b 0) 0xf8;
  sequence := rd b 2;
  destination_mode := Z.land (Z.shiftr (rd b 1) 2) 0x03;
  source_mode := Z.land (Z.shiftr (rd b 1) 6) 0x03;
  destination_pan := 0;
  source_pan := 0;
  destination := zeros 8;
  source := zeros 8
|}.

Definition parse_addresses (b : bytes) (h : mac_header_t) (dsize ssize : Z) : mac_header_t :=
  let position := 3 in
  let '(dpan, dst, position) :=
    if negb (dsize =? 0)
    then (read_le16 b position, address_copy b (position + 2) dsize, position + 2 + dsize)
    else (destination_pan h, destination h, position) in
  let '(span, src) :=
    if negb (ssize =? 0)
    then let '(span, position) :=
           if has (flags h) MAC_FLAG_PAN_COMPRESSION then (dpan, position)
           else (read_le16 b position, position + 2) in
         (span, address_copy b position ssize)
    else (source_pan h, source h) in {|
  type := type h; version := version h; flags := flags h; sequence := sequence h;
  destination_mode := destination_mode h; source_mode := source_mode h;
  destination_pan := dpan; source_pan := span; destination := dst; source := src
|}.

Definition mac_frame_decode_profile (body : option bytes) (length : Z)
    (result : option mac_frame_info_t) (profile : Z)
    : mac_codec_result_t * option mac_frame_info_t :=
  match body, result with
  | Some b, Some _ =>
      if! MAC_RX_R22_ASSOCIATION_RESPONSE <? profile
        return (MAC_CODEC_INVALID_ARGUMENT, result) ;;
      if! MAC_FRAME_MAX_BODY <? length return (MAC_CODEC_TOO_LONG, result) ;;
      if! length <? 3 return (MAC_CODEC_TRUNCATED, result) ;;
      if! has (rd b 1) 0x03 return (MAC_CODEC_INVALID_HEADER, result) ;;
      match header_shape (parse_control b) with
      | (MAC_CODEC_OK, (dsize, ssize, hsize)) =>
          if! length <? hsize return (MAC_CODEC_TRUNCATED, result) ;;
          if! (type (parse_control b) =? MAC_FRAME_ACK) && negb (length =? hsize)
            return (MAC_CODEC_INVALID_HEADER, result) ;;
          let h := parse_addresses b (parse_control b) dsize ssize in
          match address_policy h with
          | MAC_CODEC_OK =>
              let st := if type h =? MAC_FRAME_COMMAND
                        then command_header_policy h (Some (drop (Z.to_nat hsize) b))
                               (length - hsize) (u8 (Z.shiftl profile 1))
                        else MAC_CODEC_OK in
              match st with
              | MAC_CODEC_OK =>
                  let st := if type h =? MAC_FRAME_BEACON
                            then (beacon_fields (drop (Z.to_nat hsize) b)
                                    (length - hsize) None).1
                            else MAC_CODEC_OK in
                  match st with
                  | MAC_CODEC_OK =>
                      (MAC_CODEC_OK,
                       Some {| header := h; payload_offset := hsize;
                               payload_length := u8 (length - hsize) |})
                  | st => (st, result)
                  end
              | st => (st, result)
              end
          | st => (st, result)
          end
      | (st, _) => (st, result)
      end
  | _, _ => (MAC_CODEC_INVALID_ARGUMENT, result)
  end.

Definition mac_frame_decode (body : option bytes) (length : Z)
    (result : option mac_frame_info_t) : mac_codec_result_t * option mac_frame_info_t :=
  mac_frame_decode_profile body length result MAC_RX_IEEE2006.

(** ** Frame encoder *)
Definition emit_frame (h : mac_header_t) (payload body : bytes) (dsize ssize : Z) : bytes :=
  let position := 3 in
  let body := wr body 0 (u8 (Z.lor (type h) (flags h))) in
  let body := wr body 1 (u8 (Z.lor (Z.lor (Z.shiftl (destination_mode h) 2)
                                          (Z.shiftl (version h) 4))
                                   (Z.shiftl (source_mode h) 6))) in
  let body := wr body 2 (sequence h) in
  let '(body, position) :=
    if negb (dsize =? 0)
    then (blit (write_le16 body position (destination_pan h)) (position + 2)
               (slice (destination h) 0 dsize), position + 2 + dsize)
    else (body, position) in
  let '(body, position) :=
    if negb (ssize =? 0)
    then let '(body, position) :=
           if negb (has (flags h) MAC_FLAG_PAN_COMPRESSION)
           then (write_le16 body position (source_pan h), position + 2)
           else (body, position) in
         (blit body position (slice (source h) 0 ssize), position + ssize)
    else (body, position) in
  blit body position payload.

Definition mac_frame_encode (header : option mac_header_t) (payload : option bytes)
    (payload_length : Z) (body : option bytes) (capacity : Z) (length : option Z)
    : mac_codec_result_t * option bytes * option Z :=
  match header, body, length with
  | Some h, Some b, Some _ =>
      if! bool_decide (payload = None) && negb (payload_length =? 0)
        return (MAC_CODEC_INVALID_ARGUMENT, body, length) ;;
      match header_shape h with
      | (MAC_CODEC_OK, (dsize, ssize, hsize)) =>
          match address_policy h with
          | MAC_CODEC_OK =>
              if! (type h =? MAC_FRAME_ACK) && negb (payload_length =? 0)
                return (MAC_CODEC_INVALID_HEADER, body, length) ;;
              if! MAC_FRAME_MAX_BODY - hsize <? payload_length
                return (MAC_CODEC_TOO_LONG, body, length) ;;
              let st := if type h =? MAC_FRAME_COMMAND
                        then command_header_policy h payload payload_length 1
                        else MAC_CODEC_OK in
              match st with
              | MAC_CODEC_OK =>
                  let st := if type h =? MAC_FRAME_BEACON
                            then (beacon_fields (default [] payload) payload_length None).1
                            else MAC_CODEC_OK in
                  match st with
                  | MAC_CODEC_OK =>
                      if! capacity <? hsize + payload_length
                        return (MAC_CODEC_BUFFER_TOO_SMALL, body, length) ;;
                      (MAC_CODEC_OK,
                       Some (emit_frame h (slice (default [] payload) 0 payload_length) b
                                        dsize ssize),
                       Some (u8 (hsize + payload_length)))
                  | st => (st, body, length)
                  end
              | st => (st, body, length)
              end
          | st => (st, body, length)
          end
      | (st, _) => (st, body, length)
      end
  | _, _, _ => (MAC_CODEC_INVALID_ARGUMENT, body, length)
  end.

(** ** Command payloads: lemmas *)

(** The wire form of a command: the fields its identifier does not use are not
    sent, and decode as zero. *)
Definition normalise_command (c : mac_command_t) : mac_command_t := {|
  identifier := identifier c;
  capability := if identifier c =? MAC_COMMAND_ASSOCIATION_REQUEST then capability c else 0;
  short_address := if identifier c =? MAC_COMMAND_ASSOCIATION_RESPONSE then short_address c else 0;
  status := if identifier c =? MAC_COMMAND_ASSOCIATION_RESPONSE then status c else 0;
  reason := if identifier c =? MAC_COMMAND_DISASSOCIATION then reason c else 0
|}.
Definition command_bytes (c : mac_command_t) : bytes :=
  identifier c ::
  (if identifier c =? MAC_COMMAND_ASSOCIATION_REQUEST then [capability c]
   else if identifier c =? MAC_COMMAND_ASSOCIATION_RESPONSE
   then [u8 (short_address c); u8 (Z.shiftr (short_address c) 8); status c]
   else if identifier c =? MAC_COMMAND_DISASSOCIATION then [reason c] else []).

Lemma mac_command_policy_id c :
  command_policy c = MAC_CODEC_OK →
  identifier c = 1 ∨ identifier c = 2 ∨ identifier c = 3 ∨ identifier c = 4 ∨ identifier c = 7.
Proof.
  unfold command_policy, MAC_COMMAND_ASSOCIATION_REQUEST, MAC_COMMAND_ASSOCIATION_RESPONSE,
    MAC_COMMAND_DISASSOCIATION, MAC_COMMAND_DATA_REQUEST, MAC_COMMAND_BEACON_REQUEST.
  repeat case_match; intros; try done; lia.
Qed.

(** The policy looks only at the fields that are on the wire. *)
Lemma mac_command_policy_normalise c :
  command_policy (normalise_command c) = command_policy c.
Proof.
  unfold command_policy, normalise_command; cbn [identifier capability short_address status reason].
  destruct (identifier c =? MAC_COMMAND_ASSOCIATION_REQUEST); [done|].
  destruct (identifier c =? MAC_COMMAND_ASSOCIATION_RESPONSE); [done|].
  by destruct (identifier c =? MAC_COMMAND_DISASSOCIATION).
Qed.

Lemma mac_command_bytes_len c :
  command_policy c = MAC_CODEC_OK → blen (command_bytes c) = command_size (identifier c).
Proof.
  intros Hp. unfold command_bytes. 
  apply mac_command_policy_id in Hp as [E|[E|[E|[E|E]]]]; by rewrite E.
Qed.

Lemma mac_command_encode_ok c p cap l p' n :
  mac_command_encode (Some c) (Some p) cap (Some l) = (MAC_CODEC_OK, p', n) →
  command_policy c = MAC_CODEC_OK ∧ blen (command_bytes c) <= cap ∧
  p' = Some (blit p 0 (command_bytes c)) ∧ n = Some (blen (command_bytes c)).
Proof.
  unfold mac_command_encode. destruct (command_policy c) eqn:Hp; try done.
  apply mac_command_policy_id in Hp as Hid.
  destruct (cap <? command_size (identifier c)) eqn:Hc; [done|].
  intros H; simplify_eq H; intros <- <-. rewrite mac_command_bytes_len by done.
  split; [done|]. split; [lia|]. split; [|done]. f_equal. unfold command_bytes.
  destruct Hid as [E|[E|[E|[E|E]]]]; by rewrite E.
Qed.

(** A MAC command survives encoding and decoding: every field its kind
    sends comes back, the others as zero, and the encoder's length is the one the
    decoder demands. *)
Theorem mac_command_roundtrip c p cap l p' n r0 :
  command_typed c → cap <= blen p →
  mac_command_encode (Some c) (Some p) cap (Some l) = (MAC_CODEC_OK, Some p', Some n) →
  mac_command_decode (Some p') n (Some r0) = (MAC_CODEC_OK, Some (normalise_command c)).
Proof.
  intros (Hi&Hc&Ha&Hs&Hr) Hcap H.
  apply mac_command_encode_ok in H as (Hp&Hl&Hp'&Hn). simplify_eq.
  rewrite blit_0 by lia.
  pose proof (mac_command_policy_normalise c) as Hpn. rewrite Hp in Hpn.
  assert (parse_command (command_bytes c ++ drop (length (command_bytes c)) p)
          = normalise_command c) as E.
  { apply mac_command_policy_id in Hp.
    unfold parse_command, normalise_command, command_bytes.
    destruct Hp as [E|[E|[E|[E|E]]]]; rewrite E; simpl app; rd_simpl; try reflexivity.
    cbn -[rd read_le16 u8]. by rewrite (read_le16_bytes _ 1 (short_address c)) by done. }
  unfold mac_command_decode. rewrite E, Hpn.
  apply mac_command_policy_id in Hp. unfold command_bytes.
  destruct Hp as [H|[H|[H|[H|H]]]]; rewrite H; reflexivity.
Qed.

Lemma mac_command_decode_ok p n r0 c :
  mac_command_decode (Some p) n (Some r0) = (MAC_CODEC_OK, Some c) →
  c = parse_command p ∧ command_policy c = MAC_CODEC_OK ∧ n = command_size (rd p 0) ∧ 1 <= n <= 4.
Proof.
  unfold mac_command_decode, MAC_COMMAND_MAX_PAYLOAD.
  destruct (4 <? n) eqn:?; [done|]. destruct (n =? 0) eqn:?; [done|].
  destruct (command_size (rd p 0) =? 0) eqn:?; [done|].
  destruct (n <? command_size (rd p 0)) eqn:?; [done|].
  destruct (n =? command_size (rd p 0)) eqn:?; [|done]. cbn [negb].
  destruct (command_policy (parse_command p)) eqn:?; try done.
  intros H; simplify_eq H; intros <-. repeat split; try done; try lia.
  unfold command_size in *. repeat case_match; lia.
Qed.

Lemma mac_command_decode_bytes p n r0 c :
  is_bytes p → n <= blen p →
  mac_command_decode (Some p) n (Some r0) = (MAC_CODEC_OK, Some c) →
  command_bytes c = slice p 0 n.
Proof.
  intros Hb Hl H. apply mac_command_decode_ok in H as (Hc&Hp&Hn&Hn4).
  assert (identifier c = rd p 0) as Hid by (by rewrite Hc).
  apply mac_command_policy_id in Hp. rewrite slice_rd by lia.
  destruct (read_le16_split p 1 Hb) as [E1 E2].
  unfold command_bytes. rewrite Hn. rewrite Hid in *. rewrite Hc.
  unfold parse_command; cbn [capability short_address status reason].
  destruct Hp as [E|[E|[E|[E|E]]]]; rewrite E; seqZ_list; rewrite E; try reflexivity.
  cbn -[rd read_le16 u8]. by rewrite E1, E2.
Qed.

(** A decoded MAC command re-encodes to the very octets it was decoded
    from. *)
Theorem mac_command_canonical p n r0 c out cap l0 :
  is_bytes p → n <= blen p → n <= cap → cap <= blen out →
  mac_command_decode (Some p) n (Some r0) = (MAC_CODEC_OK, Some c) →
  mac_command_encode (Some c) (Some out) cap (Some l0)
  = (MAC_CODEC_OK, Some (slice p 0 n ++ drop (Z.to_nat n) out), Some n).
Proof.
  intros Hb Hl Hcap Ho H.
  pose proof (mac_command_decode_bytes p n r0 c Hb Hl H) as Hcb. apply mac_command_decode_ok in H as (Hc&Hp&Hn&Hn4).
  assert (identifier c = rd p 0) as Hid by (by rewrite Hc).
  destruct (mac_command_encode _ _ _ _) as [[st ob] ol] eqn:E.
  assert (st = MAC_CODEC_OK) as ->.
  { revert E. unfold mac_command_encode. rewrite Hp, Hid, <- Hn.
    replace (cap <? n) with false by lia. intros E; by simplify_eq E. }
  apply mac_command_encode_ok in E as (_&_&->&->). rewrite Hcb.
  assert (blen (slice p 0 n) = n) as Hs by (apply blen_slice; lia).
  rewrite blit_0, Hs by lia.
  by replace (length (slice p 0 n)) with (Z.to_nat n) by (unfold blen in Hs; lia).
Qed.

Lemma mac_command_decode_local p p' n r :
  0 <= n → agree n p p' →
  mac_command_decode (Some p) n (Some r) = mac_command_decode (Some p') n (Some r).
Proof.
  intros Hn Ha. unfold mac_command_decode.
  destruct (MAC_COMMAND_MAX_PAYLOAD <? n); [done|]. destruct (n =? 0) eqn:?; [done|].
  rewrite (agree_rd n p p' 0) by (done || lia).
  destruct (command_size (rd p' 0) =? 0); [done|].
  destruct (n <? command_size (rd p' 0)) eqn:?; [done|]. destruct (negb _); [done|].
  assert (parse_command p = parse_command p') as ->; [|done].
  unfold parse_command. rewrite (agree_rd n p p' 0) by (done || lia).
  unfold command_size in *.
  destruct (rd p' 0 =? MAC_COMMAND_ASSOCIATION_REQUEST) eqn:E1;
    destruct (rd p' 0 =? MAC_COMMAND_DISASSOCIATION) eqn:E3;
    destruct (rd p' 0 =? MAC_COMMAND_ASSOCIATION_RESPONSE) eqn:E2; cbn [orb] in *;
    try (unfold MAC_COMMAND_ASSOCIATION_REQUEST, MAC_COMMAND_ASSOCIATION_RESPONSE,
           MAC_COMMAND_DISASSOCIATION in *; lia);
    unfold read_le16; by rewrite ?(agree_rd n p p' 1), ?(agree_rd n p p' (1 + 1)),
      ?(agree_rd n p p' 3) by (done || lia).
Qed.

(** ** Beacon payloads: lemmas *)
Lemma mac_pending_broadcast_false p k i :
  pending_broadcast p k i = false ↔
  ∀ j, 0 <= j < Z.of_nat k → read_le16 p (i + 2 * j) ≠ 0xffff.
Proof.
  revert i; induction k as [|k IH]; intros i; simpl; [split; [lia|done]|].
  rewrite orb_false_iff, IH. split.
  - intros [H1 H2] j Hj. destruct (decide (j = 0)) as [->|]; [rewrite Z.add_0_r; lia|].
    specialize (H2 (j - 1)). replace (i + 2 * j) with (i + 2 + 2 * (j - 1)) by lia.
    apply H2; lia.
  - intros H. split.
    + specialize (H 0). rewrite Z.add_0_r in H. apply Z.eqb_neq, H. lia.
    + intros j Hj. specialize (H (j + 1)). replace (i + 2 + 2 * j) with (i + 2 * (j + 1)) by lia.
      apply H. lia.
Qed.
Lemma mac_pending_broadcast_local p p' n k i :
  agree n p p' → 0 <= i → i + 2 * Z.of_nat k <= n →
  pending_broadcast p k i = pending_broadcast p' k i.
Proof.
  intros Ha. revert i; induction k as [|k IH]; intros i Hi Hn; [done|].
  cbn [pending_broadcast]. rewrite IH by lia. unfold read_le16.
  by rewrite !(agree_rd n p p') by (done || lia).
Qed.

Lemma mac_beacon_fields_ok p n r info :
  is_bytes p → beacon_fields p n r = (MAC_CODEC_OK, info) →
  let s := Z.land (rd p 3) 7 in let e := Z.land (Z.shiftr (rd p 3) 4) 7 in
  0 <= s ∧ 0 <= e ∧ s + e <= 7 ∧ 4 + 2 * s + 8 * e <= n ∧ n - (4 + 2 * s + 8 * e) <= 52 ∧
  (∀ j, 0 <= j < s → read_le16 p (4 + 2 * j) ≠ 0xffff) ∧
  info = match r with None => None | Some _ => Some {|
    superframe_specification := read_le16 p 0; gts_permit := Z.shiftr (rd p 2) 7;
    short_count := s; extended_count := e; short_offset := 4; extended_offset := 4 + 2 * s;
    beacon_payload_offset := 4 + 2 * s + 8 * e;
    beacon_payload_length := n - (4 + 2 * s + 8 * e) |} end.
Proof.
  intros Hb. unfold beacon_fields, MAC_BEACON_MAX_PENDING, MAC_BEACON_MAX_PAYLOAD.
  pose proof (rd_is_u8 p 3 Hb) as H3.
  pose proof (land_range (rd p 3) 7). pose proof (land_range (Z.shiftr (rd p 3) 4) 7).
  pose proof (proj2 (Z.shiftr_nonneg (rd p 3) 4)).
  set (s := Z.land (rd p 3) 7) in *. set (e := Z.land (Z.shiftr (rd p 3) 4) 7) in *.
  destruct (_ <? n) eqn:?; [done|]. destruct (n <? 4) eqn:?; [done|].
  destruct (has (rd p 1) 0x20 || _) eqn:?; [done|]. destruct (has (rd p 2) 7) eqn:?; [done|].
  destruct (has (rd p 3) 0x88) eqn:?; [done|].
  destruct (7 <? s + e) eqn:?; [done|].
  rewrite (u8_id (4 + 2 * s)) by width. rewrite (u8_id (4 + 2 * s + 8 * e)) by width.
  destruct (n <? 4 + 2 * s + 8 * e) eqn:?; [done|].
  destruct (4 + 2 * s + 8 * e + 52 <? n) eqn:?; [done|].
  destruct (pending_broadcast p (Z.to_nat s) 4) eqn:Hp; [done|].
  rewrite u8_id by width. intros Hinfo; simplify_eq Hinfo; intros <-. cbv zeta.
  rewrite mac_pending_broadcast_false, Z2Nat.id in Hp by width.
  split; [width|]. split; [width|]. repeat split; try lia. exact Hp.
Qed.

Lemma mac_beacon_fields_local p p' n r :
  is_bytes p → agree n p p' → beacon_fields p n r = beacon_fields p' n r.
Proof.
  intros Hb Ha. unfold beacon_fields, MAC_BEACON_MAX_PENDING.
  destruct (_ <? n); [done|]. destruct (n <? 4) eqn:?; [done|].
  rewrite !(agree_rd n p p' 1), !(agree_rd n p p' 2), !(agree_rd n p p' 3) by (done || lia).
  destruct (has (rd p' 1) 0x20 || _); [done|]. destruct (has (rd p' 2) 7); [done|].
  destruct (has (rd p' 3) 0x88); [done|].
  pose proof (rd_is_u8 p 3 Hb) as H3. rewrite (agree_rd n p p' 3) in H3 by (done || lia).
  pose proof (land_range (rd p' 3) 7). pose proof (land_range (Z.shiftr (rd p' 3) 4) 7).
  pose proof (proj2 (Z.shiftr_nonneg (rd p' 3) 4)).
  set (s := Z.land (rd p' 3) 7) in *. set (e := Z.land (Z.shiftr (rd p' 3) 4) 7) in *.
  destruct (7 <? s + e) eqn:?; [done|]. unfold is_u8 in H3.
  rewrite (u8_id (4 + 2 * s)) by width. rewrite (u8_id (4 + 2 * s + 8 * e)) by width.
  destruct (n <? 4 + 2 * s + 8 * e) eqn:?; [done|].
  destruct (4 + 2 * s + 8 * e + MAC_BEACON_MAX_PAYLOAD <? n); [done|].
  rewrite (mac_pending_broadcast_local p p' n) by (done || lia).
  unfold read_le16. by rewrite !(agree_rd n p p') by (done || lia).
Qed.

(** The layout of an accepted beacon payload: the superframe octets, the
    pending short addresses, the pending extended addresses and the upper payload
    tile the input exactly; at most seven addresses are pending, the upper
    payload has at most 52 octets, and no pending address is the broadcast one. *)
Theorem mac_beacon_decode_layout p n r0 info :
  is_bytes p → mac_beacon_decode (Some p) n (Some r0) = (MAC_CODEC_OK, Some info) →
  0 <= short_count info ∧ 0 <= extended_count info ∧
  short_count info + extended_count info <= MAC_BEACON_MAX_PENDING ∧
  short_offset info = 4 ∧
  extended_offset info = short_offset info + 2 * short_count info ∧
  beacon_payload_offset info = extended_offset info + 8 * extended_count info ∧
  beacon_payload_offset info + beacon_payload_length info = n ∧
  0 <= beacon_payload_length info <= MAC_BEACON_MAX_PAYLOAD ∧
  (∀ j, 0 <= j < short_count info → read_le16 p (short_offset info + 2 * j) ≠ 0xffff).
Proof.
  intros Hb H. apply mac_beacon_fields_ok in H as (H1&H2&H3&H4&H5&H6&H7); [|done].
  simplify_eq H7. intros ->. unfold MAC_BEACON_MAX_PENDING, MAC_BEACON_MAX_PAYLOAD.
  cbn [short_count extended_count short_offset extended_offset beacon_payload_offset
       beacon_payload_length]. repeat split; try lia. exact H6.
Qed.

(** ** Frames: lemmas *)
Definition accepted_flags : list Z := [0; 0x10; 0x20; 0x30; 0x40; 0x50; 0x60; 0x70].
Lemma mac_accepted_flags f :
  is_u8 f → has f (u8 (Z.lnot 0x70)) = false → f ∈ accepted_flags.
Proof.
  intros Hf H.
  pose proof (forall_u8 (λ f, has f (u8 (Z.lnot 0x70)) || existsb (Z.eqb f) accepted_flags)
    ltac:(vm_compute; reflexivity) f Hf) as E. cbv beta in E. rewrite H in E. simpl orb in E.
  unfold accepted_flags. rewrite !elem_of_cons. lia.
Qed.

Definition header_length (h : mac_header_t) : Z :=
  let d := address_size (destination_mode h) in let s := address_size (source_mode h) in
  3 + (if d =? 0 then 0 else 2 + d)
    + (if s =? 0 then 0 else s + (if has (flags h) MAC_FLAG_PAN_COMPRESSION then 0 else 2)).

(** The header shapes the codec supports, and the sizes it computes for them. *)
Lemma mac_header_shape_ok h d s hs :
  header_typed h → header_shape h = (MAC_CODEC_OK, (d, s, hs)) →
  0 <= type h <= 3 ∧ 0 <= version h <= 1 ∧ flags h ∈ accepted_flags ∧
  (destination_mode h = 0 ∨ destination_mode h = 2 ∨ destination_mode h = 3) ∧
  (source_mode h = 0 ∨ source_mode h = 2 ∨ source_mode h = 3) ∧
  d = address_size (destination_mode h) ∧ s = address_size (source_mode h) ∧
  hs = header_length h ∧
  (has (flags h) MAC_FLAG_PAN_COMPRESSION = true →
   destination_mode h ≠ 0 ∧ source_mode h ≠ 0 ∧ type h ≠ 2) ∧
  (type h = 0 → source_mode h ≠ 0) ∧ (type h = 2 → hs = 3).
Proof.
  intros (Ht&Hv&Hf&_&Hdm&Hsm&_). unfold header_shape, header_length, address_size.
  unfold MAC_FRAME_BEACON, MAC_FRAME_DATA, MAC_FRAME_ACK, MAC_FRAME_COMMAND, MAC_ADDRESS_NONE,
    MAC_ADDRESS_SHORT, MAC_ADDRESS_EXTENDED.
  destruct ((1 <? version h) || _) eqn:E1; [done|].
  destruct (has (flags h) MAC_FLAG_SECURITY); [done|].
  destruct (has (flags h) (u8 (Z.lnot _))) eqn:E2; [done|].
  pose proof (mac_accepted_flags _ Hf E2) as Hfl. clear E2.
  assert (has (flags h) (Z.lor MAC_FLAG_ACK_REQUEST MAC_FLAG_PAN_COMPRESSION) = false →
          has (flags h) MAC_FLAG_PAN_COMPRESSION = false) as Himp.
  { clear -Hf. intros H. apply not_true_iff_false. intros H2.
    assert (implb (has (flags h) 0x40) (has (flags h) (Z.lor 0x20 0x40)) = true) as E.
    { generalize dependent (flags h). intros f Hf _ _. by_u8 f. }
    change MAC_FLAG_ACK_REQUEST with 0x20 in H. change MAC_FLAG_PAN_COMPRESSION with 0x40 in *.
    by rewrite H2, H in E. }
  unfold is_u8 in *.
  destruct (type h =? 0) eqn:T0.
  { destruct (negb (destination_mode h =? 0) || _) eqn:E3; [done|].
    destruct (has (flags h) (Z.lor _ _)); [done|]. specialize (Himp eq_refl).
    intros H; simplify_eq H; intros <- <- <-. rewrite Himp.
    replace (destination_mode h) with 0 by lia. cbn.
    destruct (source_mode h =? 2) eqn:E4;
      [replace (source_mode h) with 2 by lia | replace (source_mode h) with 3 by lia];
      cbn; repeat split; try done; lia. }
  destruct (type h =? 2) eqn:T2.
  { destruct (negb (destination_mode h =? 0) || negb (source_mode h =? 0) || _) eqn:E3; [done|].
    apply orb_false_iff in E3 as [E3 E4]. specialize (Himp E4).
    intros H; simplify_eq H; intros <- <- <-. rewrite Himp.
    replace (destination_mode h) with 0 by lia. replace (source_mode h) with 0 by lia.
    cbn. repeat split; try done; lia. }
  destruct (negb (type h =? 1) && negb (type h =? 3)) eqn:T1; [done|].
  destruct ((3 <? destination_mode h) || _ || _ || _) eqn:E3; [done|].
  destruct (((destination_mode h =? 0) || (source_mode h =? 0)) && _) eqn:E4; [done|].
  intros H; simplify_eq H; intros <- <- <-.
  assert (destination_mode h = 0 ∨ destination_mode h = 2 ∨ destination_mode h = 3) as Hd by lia.
  assert (source_mode h = 0 ∨ source_mode h = 2 ∨ source_mode h = 3) as Hs by lia.
  split; [lia|]. split; [lia|]. split; [done|]. split; [done|]. split; [done|].
  split; [done|]. split; [done|]. split; [|split; [|split; lia]].
  - destruct Hd as [-> |[-> | ->]], Hs as [-> |[-> | ->]];
      destruct (has (flags h) MAC_FLAG_PAN_COMPRESSION); reflexivity.
  - intros Hc. rewrite Hc in E4. lia.
Qed.

(** The fields an encoder keeps. *)
Definition normalise (h : mac_header_t) : mac_header_t :=
  let d := address_size (destination_mode h) in let s := address_size (source_mode h) in {|
  type := type h; version := version h; flags := flags h; sequence := sequence h;
  destination_mode := destination_mode h; source_mode := source_mode h;
  destination_pan := if d =? 0 then 0 else destination_pan h;
  source_pan := if s =? 0 then 0 else source_pan h;
  destination := address_copy (destination h) 0 d;
  source := address_copy (source h) 0 s
|}.

Definition header_bytes (h : mac_header_t) : bytes :=
  let d := address_size (destination_mode h) in let s := address_size (source_mode h) in
  [u8 (Z.lor (type h) (flags h));
   u8 (Z.lor (Z.lor (Z.shiftl (destination_mode h) 2) (Z.shiftl (version h) 4))
             (Z.shiftl (source_mode h) 6)); sequence h]
  ++ (if d =? 0 then [] else
        [u8 (destination_pan h); u8 (Z.shiftr (destination_pan h) 8)] ++ slice (destination h) 0 d)
  ++ (if s =? 0 then [] else
        (if has (flags h) MAC_FLAG_PAN_COMPRESSION then []
         else [u8 (source_pan h); u8 (Z.shiftr (source_pan h) 8)]) ++ slice (source h) 0 s).

Lemma mac_address_size_range m : 0 <= address_size m <= 8.
Proof. unfold address_size. repeat case_match; lia. Qed.

Lemma mac_header_bytes_len h :
  blen (destination h) = 8 → blen (source h) = 8 → blen (header_bytes h) = header_length h.
Proof.
  intros Hd Hs. unfold header_bytes, header_length.
  pose proof (mac_address_size_range (destination_mode h)).
  pose proof (mac_address_size_range (source_mode h)).
  rewrite !blen_app. change (blen [_; _; _]) with 3.
  destruct (address_size (destination_mode h) =? 0) eqn:?,
    (address_size (source_mode h) =? 0) eqn:?,
    (has (flags h) MAC_FLAG_PAN_COMPRESSION);
    rewrite ?blen_app, ?blen_nil, ?blen_slice by lia; change (blen [_; _]) with 2; lia.
Qed.

Lemma mac_emit_frame_eq h p b :
  blen (destination h) = 8 → blen (source h) = 8 →
  emit_frame h p b (address_size (destination_mode h)) (address_size (source_mode h))
  = blit b 0 (header_bytes h ++ p).
Proof.
  intros Hd Hs. unfold emit_frame, header_bytes.
  pose proof (mac_address_size_range (destination_mode h)).
  pose proof (mac_address_size_range (source_mode h)).
  set (d := address_size (destination_mode h)) in *.
  set (s := address_size (source_mode h)) in *.
  rewrite !write_le16_blit, !wr_blit.
  destruct (d =? 0) eqn:?, (s =? 0) eqn:?, (has (flags h) MAC_FLAG_PAN_COMPRESSION);
    cbn [negb]; rewrite ?write_le16_blit;
    repeat (rewrite blit_blit' by (rewrite ?blen_app, ?blen_slice by lia; unfold blen; simpl; lia));
    rewrite <- ?app_assoc; cbn [app]; done.
Qed.
Lemma mac_parse_control_emitted h d s hs rest :
  header_typed h → header_shape h = (MAC_CODEC_OK, (d, s, hs)) →
  parse_control (header_bytes h ++ rest) = {|
    type := type h; version := version h; flags := flags h; sequence := sequence h;
    destination_mode := destination_mode h; source_mode := source_mode h;
    destination_pan := 0; source_pan := 0; destination := zeros 8; source := zeros 8 |} ∧
  has (rd (header_bytes h ++ rest) 1) 0x03 = false.
Proof.
  intros Ht Hok. apply mac_header_shape_ok in Hok as (H1&H2&H3&H4&H5&_); [|done].
  unfold parse_control, header_bytes. rewrite <- !app_assoc. simpl app. rd_simpl.
  assert (version h = 0 ∨ version h = 1) as Hv by lia.
  assert (type h = 0 ∨ type h = 1 ∨ type h = 2 ∨ type h = 3) as Hty by lia.
  assert (Z.land (u8 (Z.lor (type h) (flags h))) 7 = type h ∧
          Z.land (u8 (Z.lor (type h) (flags h))) 248 = flags h) as [-> ->].
  { unfold accepted_flags in H3. rewrite !elem_of_cons, elem_of_nil in H3.
    destruct Hty as [-> |[-> |[-> | ->]]], H3 as [-> |[-> |[-> |[-> |[-> |[-> |[-> |[-> | []]]]]]]]];
      done. }
  destruct Hv as [-> | ->], H4 as [-> |[-> | ->]], H5 as [-> |[-> | ->]]; done.
Qed.

Lemma mac_parse_addresses_emitted h d s hs rest :
  header_typed h → header_shape h = (MAC_CODEC_OK, (d, s, hs)) → address_policy h = MAC_CODEC_OK →
  parse_addresses (header_bytes h ++ rest) {|
    type := type h; version := version h; flags := flags h; sequence := sequence h;
    destination_mode := destination_mode h; source_mode := source_mode h;
    destination_pan := 0; source_pan := 0; destination := zeros 8; source := zeros 8 |} d s
  = normalise h.
Proof.
  intros Ht Hok Hpol.
  apply mac_header_shape_ok in Hok as (_&_&_&Hdm&Hsm&->&->&_&Hcomp&_&_); [|done].
  assert (has (flags h) MAC_FLAG_PAN_COMPRESSION = true → source_pan h = destination_pan h) as Hpan.
  { intros Hc. unfold address_policy in Hpol. destruct (type h =? MAC_FRAME_ACK) eqn:E.
    - unfold MAC_FRAME_ACK in E. specialize (Hcomp Hc). lia.
    - rewrite Hc in Hpol. destruct (source_pan h =? destination_pan h) eqn:?; [lia|done]. }
  destruct Ht as (_&_&_&_&_&_&Hdp&Hsp&Hd&Hs&_).
  unfold parse_addresses, normalise, header_bytes.
  cbn [type version flags sequence destination_mode source_mode destination_pan source_pan
       destination source].
  destruct (blen_8 _ Hd) as (?&?&?&?&?&?&?&?&->), (blen_8 _ Hs) as (?&?&?&?&?&?&?&?&->).
  destruct (has (flags h) MAC_FLAG_PAN_COMPRESSION) eqn:Ec.
  - rewrite (Hpan eq_refl). specialize (Hcomp eq_refl).
    destruct Hdm as [E|[E|E]], Hsm as [E'|[E'|E']]; rewrite E, E' in *; try lia;
      cbn -[rd read_le16 u8 Z.shiftr];
      by rewrite (read_le16_bytes _ 3 (destination_pan h)) by done.
  - destruct Hdm as [E|[E|E]], Hsm as [E'|[E'|E']]; rewrite E, E'; 
      cbn -[rd read_le16 u8 Z.shiftr];
      rewrite ?(read_le16_bytes _ 3 (destination_pan h)) by done;
      rewrite ?(read_le16_bytes _ _ (source_pan h)) by done; reflexivity.
Qed.

(** Evaluates the addressing-mode tests of known modes. *)
Ltac mac_modes :=
  change (0 =? MAC_ADDRESS_SHORT) with false; change (3 =? MAC_ADDRESS_SHORT) with false;
  change (2 =? MAC_ADDRESS_EXTENDED) with false; change (0 =? MAC_ADDRESS_EXTENDED) with false;
  rewrite ?andb_false_r, ?andb_false_l; reflexivity.

(** The policies look only at the fields that are on the wire. *)
Lemma mac_normalise_short l n : n = 2 ∨ n = 8 → blen l = 8 → read_le16 (address_copy l 0 n) 0 = read_le16 l 0.
Proof.
  intros Hn Hl. destruct (blen_8 _ Hl) as (?&?&?&?&?&?&?&?&->). by destruct Hn as [-> | ->].
Qed.
Lemma mac_policies_normalise h d s hs payload n mode :
  header_typed h → header_shape h = (MAC_CODEC_OK, (d, s, hs)) →
  address_policy (normalise h) = address_policy h ∧
  command_header_policy (normalise h) payload n mode = command_header_policy h payload n mode.
Proof.
  intros Ht Hok.
  apply mac_header_shape_ok in Hok as (_&_&_&Hdm&Hsm&_&_&_&Hcomp&Hb&_); [|done].
  destruct Ht as (_&_&_&_&_&_&Hdp&Hsp&Hd&Hs&_).
  assert (destination_mode h = 2 → read_le16 (destination (normalise h)) 0 = read_le16 (destination h) 0)
    as Ed by (intros E; unfold normalise; cbn [destination]; rewrite E; apply mac_normalise_short; auto).
  assert (source_mode h = 2 → read_le16 (source (normalise h)) 0 = read_le16 (source h) 0)
    as Es by (intros E; unfold normalise; cbn [source]; rewrite E; apply mac_normalise_short; auto).
  assert (destination_mode h ≠ 0 → destination_pan (normalise h) = destination_pan h) as Edp
    by (intros; unfold normalise; cbn [destination_pan];
        by destruct Hdm as [?|[-> | ->]]).
  assert (source_mode h ≠ 0 → source_pan (normalise h) = source_pan h) as Esp
    by (intros; unfold normalise; cbn [source_pan]; by destruct Hsm as [?|[-> | ->]]).
  split.
  - unfold address_policy. change (type (normalise h)) with (type h).
    change (flags (normalise h)) with (flags h). change (source_mode (normalise h)) with (source_mode h).
    change (destination_mode (normalise h)) with (destination_mode h).
    destruct (type h =? MAC_FRAME_ACK); [done|].
    destruct (has (flags h) MAC_FLAG_PAN_COMPRESSION) eqn:Ec.
    + destruct (Hcomp eq_refl) as (?&?&?). rewrite Edp, Esp by done.
      destruct Hdm as [?|[E|E]], Hsm as [?|[E'|E']]; try done; rewrite ?E, ?E' in *;
        rewrite ?Ed, ?Es by done; mac_modes.
    + destruct (type h =? MAC_FRAME_BEACON) eqn:Eb.
      * unfold MAC_FRAME_BEACON in Eb. specialize (Hb ltac:(lia)). rewrite Esp by done.
        destruct Hdm as [E|[E|E]], Hsm as [?|[E'|E']]; try done; rewrite ?E, ?E' in *;
          rewrite ?Ed, ?Es by done; mac_modes.
      * destruct Hdm as [E|[E|E]], Hsm as [E'|[E'|E']]; try done; rewrite ?E, ?E' in *;
          rewrite ?Ed, ?Es by done; mac_modes.
  - unfold command_header_policy. destruct (n =? 0); [done|].
    destruct (mac_command_decode payload n _) as [[] [c|]]; try done.
    change (flags (normalise h)) with (flags h). change (source_mode (normalise h)) with (source_mode h).
    change (destination_mode (normalise h)) with (destination_mode h).
    destruct Hdm as [E|[E|E]], Hsm as [E'|[E'|E']]; rewrite ?E, ?E' in *;
      rewrite ?Ed, ?Es, ?Edp, ?Esp by done; mac_modes.
Qed.
Lemma mac_command_policy_local h p p' n mode :
  0 <= n → agree n p p' →
  command_header_policy h (Some p) n mode = command_header_policy h (Some p') n mode.
Proof.
  intros Hn Ha. unfold command_header_policy.
  by rewrite (mac_command_decode_local p p') by done.
Qed.
(** What may be transmitted is accepted by both receive profiles. *)
Lemma mac_command_policy_tx_rx h p n profile :
  profile = 0 ∨ profile = 1 →
  command_header_policy h p n 1 = MAC_CODEC_OK →
  command_header_policy h p n (u8 (Z.shiftl profile 1)) = MAC_CODEC_OK.
Proof.
  intros Hp. unfold command_header_policy. destruct (n =? 0); [done|].
  destruct (mac_command_decode p n _) as [[] [c|]]; try done.
  destruct (has (flags h) MAC_FLAG_PENDING); [done|].
  destruct Hp as [-> | ->]; cbn [andb Z.eqb];
    change (u8 (Z.shiftl 0 1) =? 1) with false; change (u8 (Z.shiftl 0 1) =? 2) with false;
    change (u8 (Z.shiftl 1 1) =? 1) with false; change (u8 (Z.shiftl 1 1) =? 2) with true;
    change (1 =? 2) with false; cbn [andb negb]; [done|].
  destruct (identifier c =? MAC_COMMAND_BEACON_REQUEST); [done|].
  destruct (negb (has (flags h) MAC_FLAG_ACK_REQUEST) || _ || _); [done|].
  destruct (identifier c =? MAC_COMMAND_DATA_REQUEST); [done|].
  destruct (negb (source_mode h =? MAC_ADDRESS_EXTENDED) || _); [done|].
  destruct (identifier c =? MAC_COMMAND_ASSOCIATION_REQUEST); [done|].
  rewrite andb_true_r.
  destruct ((identifier c =? MAC_COMMAND_ASSOCIATION_RESPONSE) && _); [done|].
  destruct (has (flags h) MAC_FLAG_PAN_COMPRESSION); [done|]. done.
Qed.

Lemma mac_header_length_range h : 3 <= header_length h <= 23.
Proof.
  unfold header_length, address_size. repeat case_match; lia.
Qed.

Lemma mac_frame_encode_ok h payload n b cap l body' len' :
  header_typed h →
  mac_frame_encode (Some h) payload n (Some b) cap (Some l) = (MAC_CODEC_OK, body', len') →
  let p := default [] payload in
  ∃ d s, header_shape h = (MAC_CODEC_OK, (d, s, header_length h)) ∧
    address_policy h = MAC_CODEC_OK ∧ (type h = 2 → n = 0) ∧ n <= 125 - header_length h ∧
    (type h = 3 → command_header_policy h payload n 1 = MAC_CODEC_OK) ∧
    (type h = 0 → (beacon_fields p n None).1 = MAC_CODEC_OK) ∧
    header_length h + n <= cap ∧
    body' = Some (blit b 0 (header_bytes h ++ slice p 0 n)) ∧ len' = Some (u8 (header_length h + n)).
Proof.
  intros Ht. unfold mac_frame_encode, MAC_FRAME_MAX_BODY, MAC_FRAME_ACK, MAC_FRAME_COMMAND,
    MAC_FRAME_BEACON. cbv zeta.
  destruct (bool_decide (payload = None) && negb (n =? 0)); [done|].
  destruct (header_shape h) as [[] [[d s] hs]] eqn:Hsh; try done.
  destruct (mac_header_shape_ok _ _ _ _ Ht Hsh) as (_&_&_&_&_&Ed&Es&Eh&_).
  destruct (address_policy h); try done.
  destruct ((type h =? 2) && negb (n =? 0)) eqn:E1; [done|].
  destruct (125 - hs <? n) eqn:E2; [done|].
  destruct (if type h =? 3 then command_header_policy h payload n 1 else MAC_CODEC_OK) eqn:E3; try done.
  destruct (if type h =? 0 then (beacon_fields (default [] payload) n None).1 else MAC_CODEC_OK) eqn:E4;
    try done.
  destruct (cap <? hs + n) eqn:E5; [done|]. intros H; simplify_eq H; intros <- <-.
  exists d, s. subst hs. split; [done|]. split; [done|]. split; [lia|]. split; [lia|].
  split; [intros T; by rewrite T in E3|]. split; [intros T; by rewrite T in E4|].
  split; [lia|]. split; [|done]. subst d s.
  destruct Ht as (_&_&_&_&_&_&_&_&Hd&Hs&_). by rewrite mac_emit_frame_eq.
Qed.

(** C9: what the MAC encoder emits, the MAC decoder accepts under both receive
    profiles and reads back: every field that is on the wire (the PAN of a
    compressed source is the destination's), the header's variable length as the
    payload offset, and the payload octets. *)
Theorem mac_frame_roundtrip h payload n b cap l body' len' r0 profile :
  header_typed h → is_bytes payload → 0 <= n → n <= blen payload → cap <= blen b →
  profile = MAC_RX_IEEE2006 ∨ profile = MAC_RX_R22_ASSOCIATION_RESPONSE →
  mac_frame_encode (Some h) (Some payload) n (Some b) cap (Some l)
    = (MAC_CODEC_OK, Some body', Some len') →
  mac_frame_decode_profile (Some body') len' (Some r0) profile
    = (MAC_CODEC_OK,
       Some {| header := normalise h; payload_offset := header_length h; payload_length := n |}) ∧
  slice body' (header_length h) n = slice payload 0 n.
Proof.
  intros Ht Hpb Hn0 Hnp Hcap Hprof H.
  apply mac_frame_encode_ok in H as (d&s&Hsh&Hpol&Hack&Hn1&Hcmd&Hbcn&Hnc&Hb&Hl); [|done].
  simplify_eq. cbn [default from_option id] in *.
  pose proof (mac_header_length_range h) as Hr.
  assert (blen (slice payload 0 n) = n) as Hsl by (apply blen_slice; lia).
  assert (blen (header_bytes h) = header_length h) as Hhl by (apply mac_header_bytes_len; apply Ht).
  rewrite blit_0, <- app_assoc by (rewrite blen_app; lia).
  split; [|by apply slice_app_mid; [rewrite Hhl|]].
  set (rest := slice payload 0 n ++ drop _ b).
  destruct (mac_parse_control_emitted h d s _ rest Ht Hsh) as [Hpc H3].
  unfold mac_frame_decode_profile. rewrite Hpc, H3, (u8_id (header_length h + n)) by width.
  replace (MAC_RX_R22_ASSOCIATION_RESPONSE <? profile) with false
    by (unfold MAC_RX_R22_ASSOCIATION_RESPONSE, MAC_RX_IEEE2006 in *; lia).
  unfold MAC_FRAME_MAX_BODY. replace (125 <? header_length h + n) with false by lia.
  replace (header_length h + n <? 3) with false by lia.
  match goal with |- context [header_shape ?c] => change (header_shape c) with (header_shape h) end.
  rewrite Hsh. replace (header_length h + n <? header_length h) with false by lia.
  rewrite (mac_parse_addresses_emitted _ _ _ _ _ Ht Hsh Hpol). cbn [type].
  replace ((type h =? MAC_FRAME_ACK) && _) with false
    by (unfold MAC_FRAME_ACK; destruct (type h =? 2) eqn:?; [rewrite (Hack ltac:(lia))|]; lia).
  replace (header_length h + n - header_length h) with n by lia.
  destruct (mac_policies_normalise h d s _ (Some payload) n (u8 (profile ≪ 1)) Ht Hsh) as [-> Hc].
  rewrite Hpol. change (type (normalise h)) with (type h).
  assert (drop (Z.to_nat (header_length h)) (header_bytes h ++ rest) = rest) as ->.
  { rewrite <- Hhl. unfold blen. rewrite Nat2Z.id. apply drop_app_length. }
  assert (agree n payload rest) as Ha.
  { unfold agree, rest. rewrite <- slice_0. symmetry. rewrite take_app_length'; [done|].
    unfold blen in Hsl. lia. }
  rewrite <- (mac_command_policy_local _ payload rest), Hc by done.
  rewrite <- (mac_beacon_fields_local payload rest) by done.
  unfold MAC_FRAME_COMMAND, MAC_FRAME_BEACON.
  destruct (type h =? 3) eqn:T3;
    [rewrite (mac_command_policy_tx_rx _ _ _ _ Hprof (Hcmd ltac:(lia)))|];
    (destruct (type h =? 0) eqn:T0; [rewrite (Hbcn ltac:(lia))|]); by rewrite u8_id by width.
Qed.
Lemma mac_command_policy_rx_tx h p n :
  has (flags h) MAC_FLAG_PENDING = false →
  command_header_policy h p n 0 = MAC_CODEC_OK → command_header_policy h p n 1 = MAC_CODEC_OK.
Proof.
  intros Hp. unfold command_header_policy. destruct (n =? 0); [done|].
  destruct (mac_command_decode p n _) as [[] [c|]]; try done.
  rewrite Hp, !andb_false_r. by change (0 =? 2) with false; change (1 =? 2) with false.
Qed.

Lemma mac_control_bytes x :
  is_u8 x →
  Z.lor (Z.land x 7) (Z.land x 248) = x ∧
  (has x 3 = false →
   u8 (Z.lor (Z.lor (Z.shiftl (Z.land (Z.shiftr x 2) 3) 2) (Z.shiftl (Z.land (Z.shiftr x 4) 3) 4))
             (Z.shiftl (Z.land (Z.shiftr x 6) 3) 6)) = x).
Proof.
  intros Hx. split; [by_u8 x|]. intros H3. apply Z.eqb_eq.
  transitivity (has x 3 || (u8 (Z.lor (Z.lor (Z.shiftl (Z.land (Z.shiftr x 2) 3) 2)
    (Z.shiftl (Z.land (Z.shiftr x 4) 3) 4)) (Z.shiftl (Z.land (Z.shiftr x 6) 3) 6)) =? x));
    [by rewrite H3|]. by_u8 x.
Qed.

Lemma mac_parse_control_typed b : is_bytes b → header_typed (parse_control b).
Proof.
  intros Hb. pose proof (rd_is_u8 b 0 Hb) as H0. pose proof (rd_is_u8 b 1 Hb) as H1.
  unfold header_typed, parse_control; cbn [type version flags sequence destination_mode source_mode
    destination_pan source_pan destination source].
  pose proof (proj2 (Z.shiftr_nonneg (rd b 1) 4)). pose proof (proj2 (Z.shiftr_nonneg (rd b 1) 2)).
  pose proof (proj2 (Z.shiftr_nonneg (rd b 1) 6)). unfold is_u8 in H0, H1.
  split; [apply is_u8_land; lia|]. split; [apply is_u8_land; lia|].
  split; [apply is_u8_land; lia|]. split; [by apply rd_is_u8|].
  split; [apply is_u8_land; lia|]. split; [apply is_u8_land; lia|].
  split; [done|]. split; [done|]. split; [done|]. split; [done|]. split; concrete.
Qed.

(** Re-emitting a parsed header gives its octets back. *)
Lemma mac_le16_slice b i :
  is_bytes b → 0 <= i → i + 2 <= blen b →
  [u8 (read_le16 b i); u8 (Z.shiftr (read_le16 b i) 8)] = slice b i 2.
Proof.
  intros Hb Hi Hl. destruct (read_le16_split b i Hb) as [-> ->].
  change 2 with (1 + 1) at 1. rewrite slice_add by lia. by rewrite !slice_rd, !seqZ_cons by lia.
Qed.
Lemma mac_address_copy_slice b i n :
  0 <= i → 0 <= n <= 8 → i + n <= blen b →
  slice (address_copy b i n) 0 n = slice b i n ∧ blen (address_copy b i n) = 8.
Proof.
  intros Hi Hn Hl. unfold address_copy.
  assert (blen (slice b i n) = n) as Hs by (apply blen_slice; lia).
  change (blen (zeros 8)) with 8 in *. split.
  - rewrite blit_0 by (rewrite Hs; change (blen (zeros 8)) with 8; lia).
    rewrite slice_0, take_app_length'; [done|]. unfold blen in Hs. lia.
  - by rewrite blen_blit.
Qed.
Lemma mac_header_bytes_parse b d s hs :
  is_bytes b → has (rd b 1) 3 = false →
  header_shape (parse_control b) = (MAC_CODEC_OK, (d, s, hs)) → hs <= blen b →
  let h := parse_addresses b (parse_control b) d s in
  header_bytes h = slice b 0 hs ∧ blen (destination h) = 8 ∧ blen (source h) = 8 ∧
  header_shape h = (MAC_CODEC_OK, (d, s, hs)).
Proof.
  intros Hb H3 Hsh Hl. set (c := parse_control b) in *.
  pose proof (mac_parse_control_typed b Hb : header_typed c) as Hc.
  pose proof (mac_header_shape_ok c d s hs Hc Hsh) as (_&_&_&Hdm&Hsm&->&->&->&_&_&_). cbv zeta.
  pose proof (mac_address_size_range (destination_mode c)).
  pose proof (mac_address_size_range (source_mode c)).
  assert (u8 (Z.lor (type c) (flags c)) = rd b 0) as E0.
  { destruct (mac_control_bytes _ (rd_is_u8 b 0 Hb)) as [C0 _].
    change (u8 (Z.lor (Z.land (rd b 0) 7) (Z.land (rd b 0) 248)) = rd b 0).
    rewrite C0. apply u8_id, rd_is_u8, Hb. }
  pose proof (proj2 (mac_control_bytes _ (rd_is_u8 b 1 Hb)) H3
    : u8 (Z.lor (Z.lor (Z.shiftl (destination_mode c) 2) (Z.shiftl (version c) 4))
            (Z.shiftl (source_mode c) 6)) = rd b 1) as E1.
  pose proof (mac_header_length_range c).
  pose proof (Hl : header_length c <= blen b) as Hl'.
  assert ([rd b 0; rd b 1; rd b 2] = slice b 0 3) as E2 by (rewrite slice_rd by lia; done).
  unfold header_length in Hl'.
  set (dn := address_size (destination_mode c)) in *. set (sn := address_size (source_mode c)) in *.
  assert (destination c = zeros 8 ∧ source c = zeros 8 ∧ sequence c = rd b 2) as (Dz&Sz&Sq) by done.
  clearbody c.
  assert (header_shape (parse_addresses b c dn sn) = header_shape c) as Eh
    by (unfold parse_addresses; by destruct (dn =? 0), (sn =? 0), (has (flags c) _)).
  enough (header_bytes (parse_addresses b c dn sn) = slice b 0 (header_length c) ∧
    blen (destination (parse_addresses b c dn sn)) = 8 ∧
    blen (source (parse_addresses b c dn sn)) = 8) as (?&?&?) by (rewrite Eh; done). clear Eh.
  unfold header_bytes, parse_addresses, header_length. fold dn sn.
  destruct (dn =? 0) eqn:Ed, (sn =? 0) eqn:Es, (has (flags c) MAC_FLAG_PAN_COMPRESSION) eqn:Ec;
    cbn [type version flags sequence destination_mode source_mode destination_pan source_pan
         destination source negb]; fold dn sn; rewrite ?Ed, ?Es, ?Ec, E0, E1, Sq, E2;
    rewrite ?app_nil_r, ?Z.add_0_r;
    repeat match goal with |- context [address_copy b ?i ?n] =>
      let A := fresh in let B := fresh in
      destruct (mac_address_copy_slice b i n) as [A B]; [lia..|]; rewrite ?A, ?B;
      clear A B; generalize (address_copy b i n); intros end;
    rewrite ?mac_le16_slice by (done || lia);
    rewrite ?Dz, ?Sz; cbn [app]; (split; [|done]);
    rewrite ?app_assoc; repeat (rewrite <- slice_add' by lia); f_equal; lia.
Qed.

Lemma mac_frame_decode_ok b n r0 info profile :
  is_bytes b → n <= blen b →
  mac_frame_decode_profile (Some b) n (Some r0) profile = (MAC_CODEC_OK, Some info) →
  let h := header info in let hs := payload_offset info in
  hs = header_length h ∧ hs <= n <= 125 ∧ payload_length info = n - hs ∧
  header_bytes h = slice b 0 hs ∧ blen (destination h) = 8 ∧ blen (source h) = 8 ∧
  header_shape h = (MAC_CODEC_OK,
    (address_size (destination_mode h), address_size (source_mode h), hs)) ∧
  address_policy h = MAC_CODEC_OK ∧ (type h = 2 → n = hs) ∧
  (type h = 3 → command_header_policy h (Some (drop (Z.to_nat hs) b)) (n - hs)
                  (u8 (Z.shiftl profile 1)) = MAC_CODEC_OK) ∧
  (type h = 0 → (beacon_fields (drop (Z.to_nat hs) b) (n - hs) None).1 = MAC_CODEC_OK).
Proof.
  intros Hb Hn. unfold mac_frame_decode_profile, MAC_FRAME_MAX_BODY, MAC_FRAME_ACK,
    MAC_FRAME_COMMAND, MAC_FRAME_BEACON. cbv zeta.
  destruct (_ <? profile); [done|]. destruct (125 <? n) eqn:H1; [done|].
  destruct (n <? 3) eqn:H2; [done|]. destruct (has (rd b 1) 3) eqn:H3; [done|].
  destruct (header_shape (parse_control b)) as [[] [[d s] hs]] eqn:Hsh; try done.
  destruct (n <? hs) eqn:H4; [done|].
  destruct (mac_header_bytes_parse b d s hs Hb H3 Hsh) as (Hby&Hd&Hs&Hshp); [lia|].
  set (h := parse_addresses b (parse_control b) d s) in *.
  assert (type (parse_control b) = type h) as -> by
    (unfold h, parse_addresses; repeat case_match; done).
  pose proof (mac_header_shape_ok _ _ _ _ (mac_parse_control_typed b Hb) Hsh)
    as (_&_&_&_&_&Ed&Es&Eh&_).
  assert (header_length (parse_control b) = header_length h ∧
          destination_mode (parse_control b) = destination_mode h ∧
          source_mode (parse_control b) = source_mode h) as (E1&E2&E3)
    by (unfold h, parse_addresses; repeat case_match; done).
  rewrite E1 in Eh. rewrite E2 in Ed. rewrite E3 in Es. clear E1 E2 E3 Hsh. clearbody h.
  destruct ((type h =? 2) && negb (n =? hs)) eqn:H5; [done|].
  destruct (address_policy h) eqn:Hpol; try done.
  destruct (if type h =? 3 then _ else _) eqn:H6; try done.
  destruct (if type h =? 0 then _ else _) eqn:H7; try done.
  intros H; simplify_eq H; intros <-. cbn [header payload_offset payload_length].
  subst d s hs. pose proof (mac_header_length_range h).
  split; [done|]. split; [lia|]. split; [by rewrite u8_id by width|]. do 5 (split; [done|]).
  split; [lia|]. split; intros T; [by rewrite T in H6|by rewrite T in H7].
Qed.

Lemma mac_parse_addresses_typed b h d s :
  is_bytes b → header_typed h → 0 <= d <= 8 → 0 <= s <= 8 → header_typed (parse_addresses b h d s).
Proof.
  intros Hb (?&?&?&?&?&?&?&?&?&?&?&?) Hd Hs.
  assert (∀ i n, is_bytes (address_copy b i n) ∧ blen (address_copy b i n) = 8) as A.
  { intros i n. unfold address_copy. rewrite blen_blit. split; [|done].
    apply is_bytes_blit; [concrete|by apply is_bytes_slice]. }
  unfold parse_addresses, header_typed. pose proof (read_le16_range b).
  destruct (d =? 0), (s =? 0), (has (flags h) _); cbn [negb type version flags sequence
    destination_mode source_mode destination_pan source_pan destination source];
    split_and!; try done; try apply A; try (by apply read_le16_range).
Qed.
Lemma mac_frame_decode_typed b n r0 info profile :
  is_bytes b → mac_frame_decode_profile (Some b) n (Some r0) profile = (MAC_CODEC_OK, Some info) →
  header_typed (header info).
Proof.
  intros Hb. unfold mac_frame_decode_profile. cbv zeta.
  destruct (_ <? profile); [done|]. destruct (_ <? n); [done|].
  destruct (n <? 3); [done|]. destruct (has (rd b 1) 3); [done|].
  pose proof (mac_parse_control_typed b Hb) as Hc.
  destruct (header_shape (parse_control b)) as [[] [[d s] hs]] eqn:Hsh; try done.
  destruct (mac_header_shape_ok _ _ _ _ Hc Hsh) as (_&_&_&_&_&->&->&_).
  pose proof (mac_address_size_range (destination_mode (parse_control b))).
  pose proof (mac_address_size_range (source_mode (parse_control b))).
  destruct (n <? hs); [done|]. destruct (_ && _); [done|].
  destruct (address_policy _); try done.
  destruct (if _ =? MAC_FRAME_COMMAND then _ else _); try done.
  destruct (if _ =? MAC_FRAME_BEACON then _ else _); try done.
  intros H'; simplify_eq H'; intros <-. by apply mac_parse_addresses_typed.
Qed.

(** what the MAC decoder accepts under the IEEE 802.15.4-2006 profile is in
    canonical form: unless the frame is a command with the frame-pending flag (which
    the encoder reserves), encoding the decoded header with the payload the decoder
    located reproduces the input octet for octet, and the input fills the body. *)
Theorem mac_frame_canonical b n r0 info out cap l0 :
  is_bytes b → n <= blen b → n <= cap → cap <= blen out →
  mac_frame_decode (Some b) n (Some r0) = (MAC_CODEC_OK, Some info) →
  (type (header info) = MAC_FRAME_COMMAND → has (flags (header info)) MAC_FLAG_PENDING = false) →
  mac_frame_encode (Some (header info)) (Some (drop (Z.to_nat (payload_offset info)) b))
    (payload_length info) (Some out) cap (Some l0)
  = (MAC_CODEC_OK, Some (slice b 0 n ++ drop (Z.to_nat n) out), Some n).
Proof.
  intros Hb Hn Hcap Hout H Hpend.
  apply mac_frame_decode_ok in H as (Ehs&Hr&Hpl&Hby&Hd&Hs&Hsh&Hpol&Hack&Hcmd&Hbcn); [|done..].
  set (h := header info) in *. set (hs := payload_offset info) in *.
  pose proof (mac_header_length_range h). rewrite Hpl.
  unfold mac_frame_encode, MAC_FRAME_MAX_BODY, MAC_FRAME_ACK, MAC_FRAME_COMMAND, MAC_FRAME_BEACON in *.
  cbn [default from_option id]. rewrite bool_decide_eq_false_2, andb_false_l by done. cbv zeta.
  rewrite Hsh, Hpol.
  replace ((type h =? 2) && negb (n - hs =? 0)) with false by lia.
  replace (125 - hs <? n - hs) with false by lia.
  assert ((if type h =? 3 then command_header_policy h (Some (drop (Z.to_nat hs) b)) (n - hs) 1
           else MAC_CODEC_OK) = MAC_CODEC_OK) as ->.
  { destruct (type h =? 3) eqn:T; [|done].
    apply mac_command_policy_rx_tx; [apply Hpend|apply Hcmd]; lia. }
  assert ((if type h =? 0 then (beacon_fields (drop (Z.to_nat hs) b) (n - hs) None).1
           else MAC_CODEC_OK) = MAC_CODEC_OK) as ->.
  { destruct (type h =? 0) eqn:T; [|done]. apply Hbcn; lia. }
  replace (hs + (n - hs)) with n by lia. replace (cap <? n) with false by lia.
  rewrite mac_emit_frame_eq by done.
  replace (slice (drop (Z.to_nat hs) b) 0 (n - hs)) with (slice b hs (n - hs))
    by (by unfold slice).
  rewrite Hby, <- (slice_prefix b hs n) by lia.
  assert (blen (slice b 0 n) = n) as E by (apply blen_slice; lia).
  rewrite blit_0 by lia. rewrite (u8_id n) by width. repeat f_equal. unfold blen in E. lia.
Qed.

(** ** Concrete instances *)
Definition sample_coordinator : bytes := [1; 2; 3; 4; 5; 6; 7; 8].
Definition sample_device : bytes := [0x11; 0x12; 0x13; 0x14; 0x15; 0x16; 0x17; 0x18].
(** An association response in the R22 form, sent to an extended address. *)
Definition sample_header : mac_header_t := {|
  type := MAC_FRAME_COMMAND; version := 0; flags := 0x60; sequence := 0x42;
  destination_mode := 3; source_mode := 3; destination_pan := 0x1a62; source_pan := 0x1a62;
  destination := sample_device; source := sample_coordinator |}.
Definition sample_info : mac_frame_info_t := Build_mac_frame_info_t sample_header 0 0.
Definition sample_response : bytes := [2; 0xcd; 0xab; 0].
Definition sample_body : bytes :=
  [0x63; 0xcc; 0x42; 0x62; 0x1a] ++ sample_device ++ sample_coordinator ++ sample_response.

Lemma mac_command_roundtrip_witness :
  mac_command_decode (Some [2; 0xcd; 0xab; 0]) 4 (Some zero_command)
  = (MAC_CODEC_OK, Some (Build_mac_command_t 2 0 0xabcd 0 0)).
Proof.
  apply (mac_command_roundtrip (Build_mac_command_t 2 7 0xabcd 0 9) (replicate 4 170) 4 0); concrete.
Defined.

Lemma mac_command_canonical_witness :
  mac_command_encode (Some (Build_mac_command_t 1 0x8e 0 0 0)) (Some [9; 9; 9]) 3 (Some 0)
  = (MAC_CODEC_OK, Some [1; 0x8e; 9], Some 2).
Proof.
  apply (mac_command_canonical [1; 0x8e] 2 zero_command (Build_mac_command_t 1 0x8e 0 0 0)); concrete.
Defined.

Lemma mac_beacon_decode_layout_witness :
  let p := [0xff; 0xcf; 0; 1; 0x34; 0x12; 0; 0x22] in
  let info := Build_mac_beacon_info_t 0xcfff 0 1 0 4 6 6 2 in
  mac_beacon_decode (Some p) 8 (Some (Build_mac_beacon_info_t 0 0 0 0 0 0 0 0))
    = (MAC_CODEC_OK, Some info) ∧
  beacon_payload_offset info + beacon_payload_length info = 8.
Proof.
  cbv zeta. split; [reflexivity|].
  refine (proj1 (proj2 (proj2 (proj2 (proj2 (proj2 (proj2
    (mac_beacon_decode_layout [0xff; 0xcf; 0; 1; 0x34; 0x12; 0; 0x22] 8
       (Build_mac_beacon_info_t 0 0 0 0 0 0 0 0)
       (Build_mac_beacon_info_t 0xcfff 0 1 0 4 6 6 2) _ _)))))))); concrete.
Defined.

Lemma mac_frame_roundtrip_witness :
  mac_frame_encode (Some sample_header) (Some sample_response) 4 (Some (replicate 25 0)) 25 (Some 0)
    = (MAC_CODEC_OK, Some sample_body, Some 25) ∧
  mac_frame_decode_profile (Some sample_body) 25 (Some sample_info) MAC_RX_R22_ASSOCIATION_RESPONSE
    = (MAC_CODEC_OK, Some {| header := normalise sample_header; payload_offset := 21;
                             payload_length := 4 |}) ∧
  slice sample_body 21 4 = sample_response.
Proof.
  split; [vm_compute; reflexivity|].
  apply (mac_frame_roundtrip sample_header sample_response 4 (replicate 25 0) 25 0);
    try (right; reflexivity); concrete.
Defined.

Lemma mac_frame_canonical_witness :
  mac_frame_encode (Some sample_header) (Some sample_response) 4 (Some (replicate 27 170)) 27 (Some 0)
  = (MAC_CODEC_OK, Some (sample_body ++ [170; 170]), Some 25).
Proof.
  apply (mac_frame_canonical sample_body 25 sample_info
    {| header := sample_header; payload_offset := 21; payload_length := 4 |} (replicate 27 170));
    try (intros _; reflexivity); concrete.
Defined.
End Mac.
