(* ===== verification/Flash.v ===== *)
(** The flash interface of the non-volatile storage stack: the data types of
    src/include/flash.h and src/include/flash_exec.h, the class [FlashDevice] of what the
    reader (src/src/flash.c) and the command executor (src/src/flash_exec.c) promise to the
    writer above them, and a scripted device that fulfils the promise and can fail in every
    way the interface allows.  The two drivers consist of register accesses to the flash
    controller; the class keeps their documented contract only. *)
From S2P Require Import Prelude.

(** Code that touches the medium either returns, or the processor stops inside it: the
    supply fails, a reset arrives, or the executor's fail-stop loop is entered.  What
    survives a stop is the device. *)
Inductive outcome (D A : Type) : Type :=
  | Ret (a : A)
  | Lost (d : D).
Arguments Ret {D A} a.
Arguments Lost {D A} d.

Notation "'let?' x ':=' m 'in' k" :=
  (match m with Lost d => Lost d | Ret x => k end)
  (at level 200, x pattern, m at level 100, k at level 200, right associativity).

Module Flash.
Definition FLASH_PAGE_SIZE := 2048.
Definition FLASH_NV_PAGE_COUNT := 2.
Definition FLASH_READ_MAX := 32.
Definition FLASH_EXEC_ERASE := 1.
Definition FLASH_EXEC_PROGRAM := 2.

Inductive flash_result_t :=
  | FLASH_OK
  | FLASH_INVALID_ARGUMENT
  | FLASH_INVALID_RANGE
  | FLASH_BUFFER_OWNERSHIP
  | FLASH_UNSUPPORTED_CHIP
  | FLASH_UNSUPPORTED_STATE
  | FLASH_CONTROLLER_STATE
  | FLASH_MAPPING_CHANGED.
#[export] Instance flash_result_eq : EqDecision flash_result_t.
Proof. solve_decision. Defined.

Inductive flash_exec_result_t :=
  | FLASH_EXEC_IDLE
  | FLASH_EXEC_INVALID_ARGUMENT
  | FLASH_EXEC_UNSUPPORTED_STATE
  | FLASH_EXEC_MAPPING_CHANGED
  | FLASH_EXEC_CODE_CHANGED
  | FLASH_EXEC_ABORT
  | FLASH_EXEC_CONTROLLER_STATE
  | FLASH_EXEC_RAM_STOP.
#[export] Instance flash_exec_result_eq : EqDecision flash_exec_result_t.
Proof. solve_decision. Defined.

(** The device an outcome leaves behind. *)
Definition after {D A} (dev : A → D) (o : outcome D A) : D :=
  match o with Ret a => dev a | Lost d => d end.

(** The contract.  A read that reports [FLASH_OK] delivers the medium's octets, and no read
    changes the medium.  A command touches nothing but the page it erases or the four
    octets it programs; [FLASH_EXEC_IDLE] says nothing about what those octets now are
    ("IDLE means the accepted command ended with idle controller status, not verified flash
    data", flash_exec.h). *)
Class FlashDevice (D : Type) := {
  page_data : D → Z → bytes;
  flash_nv_read : D → Z → Z → Z → outcome D (flash_result_t * bytes * D);
  flash_exec_command : D → Z → Z → Z → bytes → Z → outcome D (flash_exec_result_t * D);
  page_data_len : ∀ d p, blen (page_data d p) = FLASH_PAGE_SIZE;
  page_data_bytes : ∀ d p, is_bytes (page_data d p);
  read_pages : ∀ d p o n q, page_data (after snd (flash_nv_read d p o n)) q = page_data d q;
  read_ok : ∀ d p o n out d',
    flash_nv_read d p o n = Ret (FLASH_OK, out, d') →
    0 <= p < FLASH_NV_PAGE_COUNT → 0 <= o → 1 <= n <= FLASH_READ_MAX → o + n <= FLASH_PAGE_SIZE →
    out = slice (page_data d p) o n;
  exec_other_page : ∀ d op p o w limit q,
    q ≠ p → page_data (after snd (flash_exec_command d op p o w limit)) q = page_data d q;
  exec_other_octet : ∀ d p o w limit i,
    0 <= i < o ∨ (0 <= o ∧ o + 4 <= i) →
    rd (page_data (after snd (flash_exec_command d FLASH_EXEC_PROGRAM p o w limit)) p) i
    = rd (page_data d p) i
}.

(** ** A scripted device *)

(** What the hardware does with one access. *)
Inductive event :=
  | Works                       (* the access does what it should *)
  | Refuses                     (* a fault is reported, nothing happens *)
  | Silent                      (* a command reports idle and has done nothing *)
  | Stops (k : Z).              (* the processor stops after the first k octets *)

Record scripted := {
  page0 : bytes;
  page1 : bytes;
  script : list event           (* what the coming accesses do; empty: everything works *)
}.

(** A page as the hardware presents it: 2048 octets, whatever the list holds. *)
Definition as_page (b : bytes) : bytes :=
  resize (Z.to_nat FLASH_PAGE_SIZE) 0 (u8 <$> b).
Definition scripted_page (d : scripted) (p : Z) : bytes :=
  as_page (if p =? 0 then page0 d else if p =? 1 then page1 d else []).
Definition put_page (d : scripted) (p : Z) (b : bytes) : scripted :=
  if p =? 0 then {| page0 := b; page1 := page1 d; script := script d |}
  else if p =? 1 then {| page0 := page0 d; page1 := b; script := script d |}
  else d.
Definition next (d : scripted) : event := default Works (head (script d)).
Definition advance (d : scripted) : scripted :=
  {| page0 := page0 d; page1 := page1 d; script := tail (script d) |}.

(** The octets a command stores: programming can only clear bits. *)
Definition erase_octets (b : bytes) (k : Z) : bytes :=
  imap (λ i x, if Z.of_nat i <? k then 255 else x) b.
Definition program_octets (b : bytes) (o : Z) (w : bytes) (k : Z) : bytes :=
  imap (λ i x, if (o <=? Z.of_nat i) && (Z.of_nat i <? o + Z.min k 4)
               then Z.land x (rd w (Z.of_nat i - o)) else x) b.
Definition commanded (d : scripted) (op p o : Z) (w : bytes) (k : Z) : scripted :=
  put_page d p (if op =? FLASH_EXEC_PROGRAM then program_octets (scripted_page d p) o w k
                else erase_octets (scripted_page d p) k).

Definition scripted_read (d : scripted) (p o n : Z)
    : outcome scripted (flash_result_t * bytes * scripted) :=
  match next d with
  | Works => Ret (FLASH_OK, slice (scripted_page d p) o n, advance d)
  | Refuses | Silent => Ret (FLASH_CONTROLLER_STATE, [], advance d)
  | Stops _ => Lost (advance d)
  end.
Definition scripted_exec (d : scripted) (op p o : Z) (w : bytes) (limit : Z)
    : outcome scripted (flash_exec_result_t * scripted) :=
  match next d with
  | Works => Ret (FLASH_EXEC_IDLE, commanded (advance d) op p o w FLASH_PAGE_SIZE)
  | Refuses => Ret (FLASH_EXEC_ABORT, advance d)
  | Silent => Ret (FLASH_EXEC_IDLE, advance d)
  | Stops k => Lost (commanded (advance d) op p o w k)
  end.

Lemma flash_rd_as_page b i : 0 <= i →
  rd (as_page b) i = if i <? FLASH_PAGE_SIZE then u8 (rd b i) else 0.
Proof.
  intros Hi. unfold as_page, FLASH_PAGE_SIZE. unfold rd at 1.
  destruct (i <? 2048) eqn:E.
  - destruct (decide (Z.to_nat i < length b)%nat).
    + rewrite lookup_resize by (rewrite ?length_fmap; lia). unfold rd.
      rewrite list_lookup_fmap. by destruct (b !! Z.to_nat i).
    + rewrite lookup_resize_new by (rewrite ?length_fmap; lia). unfold rd.
      by rewrite lookup_ge_None_2 by lia.
  - by rewrite lookup_resize_old by lia.
Qed.
Lemma flash_as_page_page b : blen (as_page b) = FLASH_PAGE_SIZE ∧ is_bytes (as_page b).
Proof.
  unfold as_page. split; [unfold blen; by rewrite length_resize|].
  apply Forall_resize; [concrete|]. apply Forall_fmap, Forall_true. intros x. simpl. width.
Qed.
#[global] Opaque as_page.
Lemma flash_rd_program_octets b o w k i :
  0 <= i < o ∨ (0 <= o ∧ o + 4 <= i) → rd (program_octets b o w k) i = rd b i.
Proof.
  intros Hi. unfold program_octets, rd at 1. rewrite list_lookup_imap, Z2Nat.id by lia.
  destruct ((o <=? i) && (i <? o + Z.min k 4)) eqn:E; [lia|].
  unfold rd. by destruct (b !! Z.to_nat i).
Qed.
Lemma flash_put_page_other d p q b : q ≠ p → scripted_page (put_page d p b) q = scripted_page d q.
Proof.
  intros H. unfold scripted_page, put_page.
  destruct (p =? 0) eqn:?; [by replace (q =? 0) with false by lia|].
  destruct (p =? 1) eqn:?; [|done].
  destruct (q =? 0); [done|]. by replace (q =? 1) with false by lia.
Qed.
Lemma flash_put_page_rd d p b i :
  0 <= i →
  rd (scripted_page (put_page d p b) p) i
  = if i <? FLASH_PAGE_SIZE then
      if (p =? 0) || (p =? 1) then u8 (rd b i) else rd (scripted_page d p) i
    else 0.
Proof.
  intros Hi. unfold scripted_page, put_page.
  destruct (p =? 0) eqn:E0; [by apply flash_rd_as_page|].
  destruct (p =? 1) eqn:E1; simpl; rewrite flash_rd_as_page by done;
    by destruct (i <? FLASH_PAGE_SIZE).
Qed.
Lemma flash_scripted_rd d p i :
  0 <= i →
  (if i <? FLASH_PAGE_SIZE then
     if (p =? 0) || (p =? 1) then u8 (rd (scripted_page (advance d) p) i)
     else rd (scripted_page (advance d) p) i
   else 0) = rd (scripted_page d p) i.
Proof.
  intros Hi. unfold scripted_page, advance; cbn [page0 page1].
  generalize (if p =? 0 then page0 d else if p =? 1 then page1 d else []); intros b.
  rewrite !flash_rd_as_page by done. destruct (i <? FLASH_PAGE_SIZE); [|reflexivity].
  destruct ((p =? 0) || (p =? 1)); [|reflexivity]. unfold u8. by rewrite Z.mod_mod.
Qed.

#[export] Program Instance scripted_device : FlashDevice scripted := {|
  page_data := scripted_page;
  flash_nv_read := scripted_read;
  flash_exec_command := scripted_exec
|}.
Next Obligation. intros. apply flash_as_page_page. Qed.
Next Obligation. intros. apply flash_as_page_page. Qed.
Next Obligation. intros d p o n q. unfold scripted_read. destruct (next d); reflexivity. Qed.
Next Obligation. intros d p o n out d'. unfold scripted_read. by destruct (next d); intros [= <- <-]. Qed.
Next Obligation.
  intros d op p o w limit q H. unfold scripted_exec, commanded.
  destruct (next d); cbn [after snd]; rewrite ?flash_put_page_other by done; reflexivity.
Qed.
Next Obligation.
  intros d p o w limit i Hi. unfold scripted_exec, commanded.
  destruct (next d); cbn [after snd]; [|reflexivity..|]; rewrite flash_put_page_rd by lia.
  all: cbn [Z.eqb FLASH_EXEC_PROGRAM Pos.eqb]; rewrite ?flash_rd_program_octets by done.
  all: apply flash_scripted_rd; lia.
Qed.
End Flash.
