(* ===== verification/FlashWrite.v ===== *)
(** The verified flash writer of src/src/flash_write.c: one erase or one four-octet program
    operation with its admission checks, the per-word attempt history, the verification by
    reading back, and the latch that blocks everything after the first failure.  The device
    below it is any [FlashDevice]. *)
From S2P Require Import Prelude Flash.
Export Flash.

Module Writer.
Inductive flash_write_result_t :=
  | FLASH_WRITE_OK
  | FLASH_WRITE_INVALID_ARGUMENT
  | FLASH_WRITE_INVALID_RANGE
  | FLASH_WRITE_BUFFER_OWNERSHIP
  | FLASH_WRITE_HISTORY_UNKNOWN
  | FLASH_WRITE_WORD_USED
  | FLASH_WRITE_EXECUTOR_FAILED
  | FLASH_WRITE_READER_FAILED
  | FLASH_WRITE_VERIFY_FAILED
  | FLASH_WRITE_NOT_ERASED
  | FLASH_WRITE_PENDING.
#[global] Instance flash_write_result_eq : EqDecision flash_write_result_t.
Proof. solve_decision. Defined.

Inductive flash_write_phase_t :=
  | FLASH_WRITE_NONE             (* the zero of a reset *)
  | FLASH_WRITE_PREFLIGHT
  | FLASH_WRITE_COMMAND
  | FLASH_WRITE_VERIFY
  | FLASH_WRITE_DONE.

(** [None] is the 0xff of a driver that was not invoked. *)
Record flash_write_diagnostic_t := {
  result : flash_write_result_t;
  operation : Z;
  page : Z;
  offset_low : Z;
  offset_high : Z;
  phase : flash_write_phase_t;
  executor : option flash_exec_result_t;
  reader : option flash_result_t
}.

(** The writer's static objects.  The word and the read buffer are scratch: every use is
    preceded by a store, so they are values of the operations below. *)
Record writer := {
  flash_write_status : flash_write_diagnostic_t;
  flash_write_known : Z;         (* pages with an established erase epoch, a bit each *)
  flash_write_used : bytes       (* words attempted in the epoch, a bit each *)
}.
Definition reset_writer : writer := {|
  flash_write_status := {|
    result := FLASH_WRITE_OK; operation := 0; page := 0; offset_low := 0; offset_high := 0;
    phase := FLASH_WRITE_NONE; executor := Some FLASH_EXEC_IDLE; reader := Some FLASH_OK |};
  flash_write_known := 0;
  flash_write_used := replicate 128 0
|}.

Definition with_status (s : writer) (f : flash_write_diagnostic_t → flash_write_diagnostic_t)
    : writer := {|
  flash_write_status := f (flash_write_status s);
  flash_write_known := flash_write_known s;
  flash_write_used := flash_write_used s |}.
Definition set_result (s : writer) r := with_status s (λ t, {|
  result := r; operation := operation t; page := page t; offset_low := offset_low t;
  offset_high := offset_high t; phase := phase t; executor := executor t; reader := reader t |}).
Definition set_phase (s : writer) p := with_status s (λ t, {|
  result := result t; operation := operation t; page := page t; offset_low := offset_low t;
  offset_high := offset_high t; phase := p; executor := executor t; reader := reader t |}).
Definition set_executor (s : writer) e := with_status s (λ t, {|
  result := result t; operation := operation t; page := page t; offset_low := offset_low t;
  offset_high := offset_high t; phase := phase t; executor := Some e; reader := reader t |}).
Definition set_reader (s : writer) r := with_status s (λ t, {|
  result := result t; operation := operation t; page := page t; offset_low := offset_low t;
  offset_high := offset_high t; phase := phase t; executor := executor t; reader := Some r |}).
Definition set_known (s : writer) k : writer := {|
  flash_write_status := flash_write_status s; flash_write_known := k;
  flash_write_used := flash_write_used s |}.
Definition set_used (s : writer) u : writer := {|
  flash_write_status := flash_write_status s; flash_write_known := flash_write_known s;
  flash_write_used := u |}.

Definition page_mask (p : Z) : Z := u8 (Z.shiftl 1 p).
Definition word_index (p offset : Z) : Z := u8 (Z.shiftl p 6 + Z.shiftr offset 5).
Definition word_mask (offset : Z) : Z := u8 (Z.shiftl 1 (Z.land (Z.shiftr offset 2) 7)).

Section Operate.
Context {D : Type} `{!FlashDevice D}.
(** The address of [flash_write_reserved_end], the end of the driver's private objects. *)
Variable reserved_end : Z.

Definition failed (d : D) (s : writer) (r : flash_write_result_t)
    : outcome D (flash_write_result_t * D * writer) := Ret (r, d, set_result s r).

(** The read-back loop: [passes] reads of [length] octets, each compared with [expected]. *)
Fixpoint verify (passes : nat) (d : D) (s : writer) (p position length : Z) (expected : bytes)
    : outcome D (flash_write_result_t * D * writer) :=
  match passes with
  | O => Ret (FLASH_WRITE_OK, d, s)
  | S passes =>
      let? (r, check, d) := flash_nv_read d p position length in
      let s := set_reader s r in
      if! bool_decide (r ≠ FLASH_OK) return failed d s FLASH_WRITE_READER_FAILED ;;
      if! bool_decide (check ≠ expected) return failed d s FLASH_WRITE_VERIFY_FAILED ;;
      verify passes d s p (u16 (position + length)) length expected
  end.

(** From the first store of the status on: preflight, command, verification.  The loop of
    an erase runs while [position < FLASH_PAGE_SIZE]; that of a program once. *)
Definition admitted (d : D) (s : writer) (op p offset : Z) (word : bytes) (poll_limit : Z)
    : outcome D (flash_write_result_t * D * writer) :=
  let programming := op =? FLASH_EXEC_PROGRAM in
  let s := with_status s (λ _, {|
    result := FLASH_WRITE_PENDING; operation := op; page := p; offset_low := u8 offset;
    offset_high := u8 (Z.shiftr offset 8); phase := FLASH_WRITE_PREFLIGHT;
    executor := None; reader := None |}) in
  let? (r, check, d) := flash_nv_read d p offset (if programming then 4 else 1) in
  let s := set_reader s r in
  if! bool_decide (r ≠ FLASH_OK) return failed d s FLASH_WRITE_READER_FAILED ;;
  if! programming && bool_decide (check ≠ replicate 4 0xff)
    return failed d s FLASH_WRITE_NOT_ERASED ;;
  let s := if programming
           then set_used s (wr (flash_write_used s) (word_index p offset)
                  (Z.lor (rd (flash_write_used s) (word_index p offset)) (word_mask offset)))
           else set_known s (Z.land (flash_write_known s) (u8 (Z.lnot (page_mask p)))) in
  let s := set_phase s FLASH_WRITE_COMMAND in
  let? (e, d) := flash_exec_command d op p offset word poll_limit in
  let s := set_executor s e in
  if! bool_decide (e ≠ FLASH_EXEC_IDLE) return failed d s FLASH_WRITE_EXECUTOR_FAILED ;;
  let s := set_phase s FLASH_WRITE_VERIFY in
  let passes := if programming then 1%nat
                else Z.to_nat ((FLASH_PAGE_SIZE - offset + FLASH_READ_MAX - 1) / FLASH_READ_MAX) in
  let length := if programming then 4 else FLASH_READ_MAX in
  let expected := if programming then word else replicate (Z.to_nat FLASH_READ_MAX) 0xff in
  let? (r, d, s) := verify passes d s p offset length expected in
  match r with
  | FLASH_WRITE_OK =>
      let s := if op =? FLASH_EXEC_ERASE
               then set_known (set_used s (blit (flash_write_used s) (Z.shiftl p 6) (replicate 64 0)))
                              (Z.lor (flash_write_known s) (page_mask p))
               else s in
      Ret (FLASH_WRITE_OK, d, set_result (set_phase s FLASH_WRITE_DONE) FLASH_WRITE_OK)
  | r => Ret (r, d, s)
  end.

(** [word] is the caller's pointer: its address and the octets there. *)
Definition operate (d : D) (s : writer) (op p offset : Z) (word : option (Z * bytes))
    (poll_limit : Z) : outcome D (flash_write_result_t * D * writer) :=
  match result (flash_write_status s) with
  | FLASH_WRITE_OK =>
      let programming := op =? FLASH_EXEC_PROGRAM in
      if! (poll_limit =? 0) || (programming && bool_decide (word = None))
        return Ret (FLASH_WRITE_INVALID_ARGUMENT, d, s) ;;
      if! (FLASH_NV_PAGE_COUNT <=? p) || (FLASH_PAGE_SIZE <=? offset) || has offset 3
        return Ret (FLASH_WRITE_INVALID_RANGE, d, s) ;;
      let address := default 0 (fst <$> word) in
      let data := slice (default [] (snd <$> word)) 0 4 in
      if! programming && (0x1dfc <? address) return Ret (FLASH_WRITE_INVALID_RANGE, d, s) ;;
      if! programming && (address <=? reserved_end)
        return Ret (FLASH_WRITE_BUFFER_OWNERSHIP, d, s) ;;
      if! programming && negb (has (flash_write_known s) (page_mask p))
        return Ret (FLASH_WRITE_HISTORY_UNKNOWN, d, s) ;;
      if! programming && has (rd (flash_write_used s) (word_index p offset)) (word_mask offset)
        return Ret (FLASH_WRITE_WORD_USED, d, s) ;;
      admitted d s op p offset data poll_limit
  | r => Ret (r, d, s)
  end.

Definition flash_nv_erase (d : D) (s : writer) (p poll_limit : Z) :=
  operate d s FLASH_EXEC_ERASE p 0 None poll_limit.
Definition flash_nv_program (d : D) (s : writer) (p offset : Z) (word : option (Z * bytes))
    (poll_limit : Z) := operate d s FLASH_EXEC_PROGRAM p offset word poll_limit.

(** ** What an operation may change *)
Definition same_pages (d d' : D) : Prop := ∀ q, page_data d' q = page_data d q.
Definition only_page (p : Z) (d d' : D) : Prop :=
  ∀ q, q ≠ p → page_data d' q = page_data d q.
Definition only_word (p o : Z) (d d' : D) : Prop :=
  only_page p d d' ∧
  ∀ i, 0 <= i < o ∨ (0 <= o ∧ o + 4 <= i) → rd (page_data d' p) i = rd (page_data d p) i.
Definition programmable (p o : Z) : Prop :=
  0 <= p < FLASH_NV_PAGE_COUNT ∧ 0 <= o < FLASH_PAGE_SIZE ∧ has o 3 = false.
Definition erased_page : bytes := replicate (Z.to_nat FLASH_PAGE_SIZE) 0xff.

Lemma fw_read_ret d p o n r out d' :
  flash_nv_read d p o n = Ret (r, out, d') → same_pages d d'.
Proof. intros H q. pose proof (read_pages d p o n q) as E. by rewrite H in E. Qed.
Lemma fw_read_lost d p o n d' : flash_nv_read d p o n = Lost d' → same_pages d d'.
Proof. intros H q. pose proof (read_pages d p o n q) as E. by rewrite H in E. Qed.
Lemma fw_exec_page d op p o w limit :
  only_page p d (after snd (flash_exec_command d op p o w limit)).
Proof. intros q Hq. by apply exec_other_page. Qed.
Lemma fw_exec_word d p o w limit :
  only_word p o d (after snd (flash_exec_command d FLASH_EXEC_PROGRAM p o w limit)).
Proof. split; [apply fw_exec_page|]. intros i Hi. by apply exec_other_octet. Qed.
Lemma fw_same_trans d1 d2 d3 : same_pages d1 d2 → same_pages d2 d3 → same_pages d1 d3.
Proof. intros H1 H2 q. by rewrite H2, H1. Qed.
Lemma fw_same_only_word p o d1 d2 d3 d4 :
  same_pages d1 d2 → only_word p o d2 d3 → same_pages d3 d4 → only_word p o d1 d4.
Proof.
  intros H1 [H2 H2'] H3. split.
  - intros q Hq. by rewrite H3, H2, H1.
  - intros i Hi. by rewrite H3, H2', H1.
Qed.
Lemma fw_same_only_page p d1 d2 d3 d4 :
  same_pages d1 d2 → only_page p d2 d3 → same_pages d3 d4 → only_page p d1 d4.
Proof. intros H1 H2 H3 q Hq. by rewrite H3, H2, H1. Qed.
Lemma fw_same_refl d : same_pages d d. Proof. by intros q. Qed.
Hint Resolve fw_read_ret fw_read_lost fw_exec_page fw_exec_word fw_same_trans fw_same_only_word
  fw_same_only_page fw_same_refl : fw.

(** The verification loop: success means every span was read back as expected. *)
Lemma fw_verify_spec passes d s p pos len expected :
  0 <= p < FLASH_NV_PAGE_COUNT → 0 <= pos → 1 <= len <= FLASH_READ_MAX →
  pos + Z.of_nat passes * len <= FLASH_PAGE_SIZE →
  match verify passes d s p pos len expected with
  | Lost d' => same_pages d d'
  | Ret (r, d', s') =>
      same_pages d d' ∧ flash_write_known s' = flash_write_known s ∧
      flash_write_used s' = flash_write_used s ∧
      ((r = FLASH_WRITE_OK ∧
        ∀ k, 0 <= k < Z.of_nat passes → slice (page_data d p) (pos + k * len) len = expected) ∨
       (r ≠ FLASH_WRITE_OK ∧ result (flash_write_status s') = r))
  end.
Proof.
  revert d s pos. induction passes as [|n IH]; intros d s pos Hp Hpos Hlen Hend; simpl.
  { split; [by apply fw_same_refl|]. split; [done|]. split; [done|]. left. split; [done|lia]. }
  destruct (flash_nv_read d p pos len) as [[[r check] d1]|d1] eqn:Hr; [|by eauto with fw].
  pose proof (fw_read_ret _ _ _ _ _ _ _ Hr) as Hs.
  case_bool_decide as E1; [by split; [|auto]|]. case_bool_decide as E2; [by split; [|auto]|].
  subst r check.
  unfold FLASH_NV_PAGE_COUNT, FLASH_READ_MAX, FLASH_PAGE_SIZE in *.
  apply read_ok in Hr; [|unfold FLASH_NV_PAGE_COUNT, FLASH_READ_MAX, FLASH_PAGE_SIZE in *; nia..].
  rewrite u16_id by (unfold is_u16; nia).
  specialize (IH d1 (set_reader s FLASH_OK) (pos + len) Hp ltac:(lia) Hlen ltac:(lia)).
  destruct (verify n d1 _ p (pos + len) len expected) as [[[r d'] s']|d']; [|by eauto with fw].
  destruct IH as (H1&H2&H3&H4). split; [by eauto with fw|]. split; [done|]. split; [done|].
  destruct H4 as [[-> H4]|H4]; [left|by right]. split; [done|]. intros k Hk.
  destruct (decide (k = 0)) as [->|]; [by rewrite Z.mul_0_l, Z.add_0_r|].
  rewrite <- (H4 (k - 1)) by lia. rewrite Hs. f_equal. lia.
Qed.

Definition mark_used (s : writer) (p o : Z) : bytes :=
  wr (flash_write_used s) (word_index p o)
     (Z.lor (rd (flash_write_used s) (word_index p o)) (word_mask o)).

(** What a program operation can have done when it returns, and when it does not. *)
Definition program_effect (d : D) (s : writer) (p o : Z) (w : bytes)
    (x : outcome D (flash_write_result_t * D * writer)) : Prop :=
  match x with
  | Lost d' => only_word p o d d'
  | Ret (r, d', s') =>
      only_word p o d d' ∧ flash_write_known s' = flash_write_known s ∧
      (flash_write_used s' = mark_used s p o ∨
       (flash_write_used s' = flash_write_used s ∧ same_pages d d' ∧ r ≠ FLASH_WRITE_OK)) ∧
      (r = FLASH_WRITE_OK →
         slice (page_data d p) o 4 = replicate 4 0xff ∧ slice (page_data d' p) o 4 = w)
  end.

Lemma fw_admitted_program d s p o w limit :
  programmable p o → program_effect d s p o w (admitted d s FLASH_EXEC_PROGRAM p o w limit).
Proof.
  intros (Hp&Ho&Ha). unfold admitted, program_effect. rewrite Z.eqb_refl. cbn [andb].
  assert (o + 4 <= FLASH_PAGE_SIZE) as Ho4.
  { unfold FLASH_PAGE_SIZE in *. destruct (decide (o + 4 <= 2048)); [done|].
    assert (o = 2045 ∨ o = 2046 ∨ o = 2047) as [-> |[-> | ->]] by lia; done. }
  destruct (flash_nv_read d p o 4) as [[[r check] d1]|d1] eqn:Hr;
    [|split; [by intros q _; apply (fw_read_lost _ _ _ _ _ Hr)|]; intros i _; by rewrite (fw_read_lost _ _ _ _ _ Hr)].
  pose proof (fw_read_ret _ _ _ _ _ _ _ Hr) as Hs.
  assert (only_word p o d d1) as Hsw by (split; [by intros q _|by intros i _; rewrite Hs]).
  case_bool_decide as E1; [by (split; [done|]; split; [done|]; split; [right; done|])|].
  case_bool_decide as E2; [by (split; [done|]; split; [done|]; split; [right; done|])|].
  subst r check. unfold FLASH_READ_MAX in *.
  apply read_ok in Hr; [|unfold FLASH_READ_MAX, FLASH_NV_PAGE_COUNT in *; lia..].
  pose proof (fw_exec_word d1 p o w limit) as Hx.
  destruct (flash_exec_command d1 _ p o w limit) as [[e d2]|d2]; cbn [after snd] in Hx;
    [|by eauto with fw].
  case_bool_decide as E3;
    [by (split; [eauto with fw|]; split; [done|]; split; [by left|])|].
  match goal with |- context [verify 1 d2 ?s' p o 4 w] =>
    pose proof (fw_verify_spec 1 d2 s' p o 4 w Hp) as Hv;
    destruct (verify 1 d2 s' p o 4 w) as [[[r d3] s3]|d3] end;
    unfold FLASH_READ_MAX in Hv; specialize (Hv ltac:(lia) ltac:(lia) ltac:(lia)).
  2: by eauto with fw.
  destruct Hv as (H1&H2&H3&H4). destruct H4 as [[-> H4]|[H4 H5]].
  - split; [by eauto with fw|]. split; [done|]. split; [by left|]. intros _.
    split; [done|]. rewrite H1. specialize (H4 0 ltac:(lia)). by rewrite Z.add_0_r in H4.
  - destruct r; try done; (split; [by eauto with fw|]; split; [done|]; split; [by left|]; done).
Qed.

Definition erase_effect (d : D) (s : writer) (p : Z)
    (x : outcome D (flash_write_result_t * D * writer)) : Prop :=
  match x with
  | Lost d' => only_page p d d'
  | Ret (r, d', s') =>
      only_page p d d' ∧
      if decide (r = FLASH_WRITE_OK) then
        page_data d' p = erased_page ∧
        flash_write_used s' = blit (flash_write_used s) (Z.shiftl p 6) (replicate 64 0) ∧
        flash_write_known s' = Z.lor (Z.land (flash_write_known s) (u8 (Z.lnot (page_mask p))))
                                     (page_mask p)
      else flash_write_used s' = flash_write_used s ∧
           ((flash_write_known s' = flash_write_known s ∧ same_pages d d') ∨
            flash_write_known s' = Z.land (flash_write_known s) (u8 (Z.lnot (page_mask p))))
  end.

Lemma fw_erased_page d p :
  (∀ k, 0 <= k < 64 → slice (page_data d p) (0 + k * FLASH_READ_MAX) FLASH_READ_MAX
                     = replicate (Z.to_nat FLASH_READ_MAX) 0xff) →
  page_data d p = erased_page.
Proof.
  intros H. unfold FLASH_READ_MAX in H. unfold erased_page. apply bytes_ext.
  { by rewrite page_data_len, blen_replicate. }
  rewrite page_data_len. unfold FLASH_PAGE_SIZE. intros i Hi.
  rewrite rd_replicate by lia. specialize (H (i / 32) ltac:(width)).
  assert (rd (slice (page_data d p) (0 + i / 32 * 32) 32) (i mod 32) = 255) as E
    by (rewrite H; apply rd_replicate; width).
  rewrite rd_slice in E by width. rewrite <- E. f_equal. width.
Qed.

Lemma fw_admitted_erase d s p limit :
  0 <= p < FLASH_NV_PAGE_COUNT → erase_effect d s p (admitted d s FLASH_EXEC_ERASE p 0 [] limit).
Proof.
  intros Hp. unfold admitted, erase_effect.
  change (FLASH_EXEC_ERASE =? FLASH_EXEC_PROGRAM) with false.
  change (FLASH_EXEC_ERASE =? FLASH_EXEC_ERASE) with true. cbn [andb].
  destruct (flash_nv_read d p 0 1) as [[[r check] d1]|d1] eqn:Hr;
    [|by intros q _; eapply fw_read_lost].
  pose proof (fw_read_ret _ _ _ _ _ _ _ Hr) as Hs.
  case_bool_decide as E1; [by (split; [by intros q _|]; rewrite decide_False by done; auto)|].
  pose proof (fw_exec_page d1 FLASH_EXEC_ERASE p 0 [] limit) as Hx.
  destruct (flash_exec_command d1 _ p 0 [] limit) as [[e d2]|d2]; cbn [after snd] in Hx;
    [|by eauto with fw].
  case_bool_decide as E3;
    [by (split; [eauto with fw|]; rewrite decide_False by done; auto)|].
  change (Z.to_nat ((FLASH_PAGE_SIZE - 0 + FLASH_READ_MAX - 1) / FLASH_READ_MAX)) with 64%nat.
  match goal with |- context [verify 64 d2 ?s' p 0 ?l ?x] =>
    pose proof (fw_verify_spec 64 d2 s' p 0 l x Hp) as Hv;
    destruct (verify 64 d2 s' p 0 l x) as [[[r' d3] s3]|d3] end;
    specialize (Hv ltac:(lia) ltac:(unfold FLASH_READ_MAX; lia)
                   ltac:(unfold FLASH_READ_MAX, FLASH_PAGE_SIZE; lia)).
  2: by eauto with fw.
  destruct Hv as (H1&H2&H3&H4). destruct H4 as [[-> H4]|[H4 H5]].
  - split; [by eauto with fw|]. rewrite decide_True by done. rewrite H1.
    split; [by apply fw_erased_page|]. cbn [flash_write_used flash_write_known set_result set_phase
      set_known set_used with_status]. by rewrite H2, H3.
  - destruct r'; try done;
      (split; [by eauto with fw|]; rewrite decide_False by done; split; [done|]; by right).
Qed.

(** ** Admission *)
Lemma fw_program_admission d s p o word limit :
  0 <= p → 0 <= o →
  let w := slice (default [] (snd <$> word)) 0 4 in
  (∃ r, r ≠ FLASH_WRITE_OK ∧ flash_nv_program d s p o word limit = Ret (r, d, s)) ∨
  (programmable p o ∧ result (flash_write_status s) = FLASH_WRITE_OK ∧
   has (flash_write_known s) (page_mask p) = true ∧
   has (rd (flash_write_used s) (word_index p o)) (word_mask o) = false ∧
   flash_nv_program d s p o word limit = admitted d s FLASH_EXEC_PROGRAM p o w limit).
Proof.
  intros Hp Ho. unfold flash_nv_program, operate. rewrite Z.eqb_refl. cbn [andb]. cbv zeta.
  destruct (result (flash_write_status s)); try (left; eexists; split; [|reflexivity]; done).
  destruct ((limit =? 0) || _); [left; eexists; split; [|reflexivity]; done|].
  destruct ((FLASH_NV_PAGE_COUNT <=? p) || (FLASH_PAGE_SIZE <=? o) || has o 3) eqn:E1;
    [left; eexists; split; [|reflexivity]; done|].
  destruct (_ <? default 0 (fst <$> word)); [left; eexists; split; [|reflexivity]; done|].
  destruct (_ <=? reserved_end); [left; eexists; split; [|reflexivity]; done|].
  destruct (has (flash_write_known s) _) eqn:E2; cbn [negb];
    [|left; eexists; split; [|reflexivity]; done].
  destruct (has (rd (flash_write_used s) _) _) eqn:E3;
    [left; eexists; split; [|reflexivity]; done|].
  right. apply orb_false_iff in E1 as [E1 E0]. unfold programmable. repeat split; try done; lia.
Qed.
Lemma fw_erase_admission d s p limit :
  0 <= p →
  (∃ r, r ≠ FLASH_WRITE_OK ∧ flash_nv_erase d s p limit = Ret (r, d, s)) ∨
  (0 <= p < FLASH_NV_PAGE_COUNT ∧ result (flash_write_status s) = FLASH_WRITE_OK ∧
   flash_nv_erase d s p limit = admitted d s FLASH_EXEC_ERASE p 0 [] limit).
Proof.
  intros Hp. unfold flash_nv_erase, operate.
  change (FLASH_EXEC_ERASE =? FLASH_EXEC_PROGRAM) with false. cbn [andb]. cbv zeta.
  destruct (result (flash_write_status s)); try (left; eexists; split; [|reflexivity]; done).
  rewrite orb_false_r. destruct (limit =? 0); [left; eexists; split; [|reflexivity]; done|].
  destruct ((FLASH_NV_PAGE_COUNT <=? p) || _ || has 0 3) eqn:E1;
    [left; eexists; split; [|reflexivity]; done|].
  right. split; [lia|]. split; done.
Qed.

(** The two operations, whatever they return. *)
Lemma fw_program d s p o address word limit :
  0 <= p → 0 <= o → blen word = 4 →
  match flash_nv_program d s p o (Some (address, word)) limit with
  | Lost d' => only_word p o d d'
  | Ret (r, d', _) =>
      only_word p o d d' ∧ (r = FLASH_WRITE_OK → slice (page_data d' p) o 4 = word)
  end.
Proof.
  intros Hp Ho Hw. assert (only_word p o d d) as Hr by (split; [by intros q _|by intros i _]).
  destruct (fw_program_admission d s p o (Some (address, word)) limit Hp Ho)
    as [(r&Hr'&->)|(Hpo&_&_&_&->)]; [by split|].
  simpl. rewrite slice_all' by lia. pose proof (fw_admitted_program d s p o word limit Hpo) as H.
  destruct (admitted d s _ p o word limit) as [[[r d'] s']|d']; [|done].
  destruct H as (H1&_&_&H2). split; [done|]. intros E. by apply H2.
Qed.
Lemma fw_erase d s p limit :
  0 <= p →
  match flash_nv_erase d s p limit with
  | Lost d' => only_page p d d'
  | Ret (r, d', _) => only_page p d d' ∧ (r = FLASH_WRITE_OK → page_data d' p = erased_page)
  end.
Proof.
  intros Hp. destruct (fw_erase_admission d s p limit Hp) as [(r&Hr'&->)|(Hp2&_&->)];
    [by split; [intros q _|]|].
  pose proof (fw_admitted_erase d s p limit Hp2) as H.
  destruct (admitted d s _ p 0 [] limit) as [[[r d'] s']|d']; [|done].
  destruct H as [H1 H2]. split; [done|]. intros E. rewrite decide_True in H2 by done. apply H2.
Qed.

(** Whatever one erase command makes of its page holds of the page after the operation. *)
Lemma fw_erase_page (P : bytes → Prop) d s p limit :
  0 <= p → P (page_data d p) →
  (∀ d1, same_pages d d1 →
     P (page_data (after snd (flash_exec_command d1 FLASH_EXEC_ERASE p 0 [] limit)) p)) →
  match flash_nv_erase d s p limit with
  | Lost d' | Ret (_, d', _) => P (page_data d' p)
  end.
Proof.
  intros Hp H0 H1. destruct (fw_erase_admission d s p limit Hp) as [(r&_&->)|(Hp2&_&->)]; [done|].
  unfold admitted, failed. change (FLASH_EXEC_ERASE =? FLASH_EXEC_PROGRAM) with false.
  change (FLASH_EXEC_ERASE =? FLASH_EXEC_ERASE) with true. cbn [andb].
  destruct (flash_nv_read d p 0 1) as [[[r check] d1]|d1] eqn:Hr;
    [|by rewrite (fw_read_lost _ _ _ _ _ Hr)].
  pose proof (fw_read_ret _ _ _ _ _ _ _ Hr) as Hs.
  case_bool_decide as E1; [by rewrite Hs|]. specialize (H1 d1 Hs).
  destruct (flash_exec_command d1 _ p 0 [] limit) as [[e d2]|d2]; cbn [after snd] in H1; [|done].
  case_bool_decide as E3; [done|].
  change (Z.to_nat ((FLASH_PAGE_SIZE - 0 + FLASH_READ_MAX - 1) / FLASH_READ_MAX)) with 64%nat.
  match goal with |- context [verify 64 d2 ?s' p 0 ?l ?x] =>
    pose proof (fw_verify_spec 64 d2 s' p 0 l x Hp2) as Hv;
    destruct (verify 64 d2 s' p 0 l x) as [[[r' d3] s3]|d3] end;
    specialize (Hv ltac:(lia) ltac:(unfold FLASH_READ_MAX; lia)
                   ltac:(unfold FLASH_READ_MAX, FLASH_PAGE_SIZE; lia)).
  2: by rewrite Hv.
  destruct Hv as [Hv _]. destruct r'; by rewrite Hv.
Qed.

(** ** The history bits *)
Definition writer_typed (s : writer) : Prop :=
  blen (flash_write_used s) = 128 ∧ is_u8 (flash_write_known s).
Definition unused (s : writer) (p o : Z) : Prop :=
  has (rd (flash_write_used s) (word_index p o)) (word_mask o) = false.

Lemma fw_has_lor a m m' : has (Z.lor a m) m' = has a m' || has m m'.
Proof.
  unfold has. rewrite Z.land_lor_distr_l. apply eq_true_iff_eq.
  rewrite orb_true_iff, !negb_true_iff, !Z.eqb_neq, Z.lor_eq_0_iff.
  destruct (decide (Z.land a m' = 0)), (decide (Z.land m m' = 0)); tauto.
Qed.
Lemma fw_aligned o : 0 <= o → has o 3 = false → o mod 4 = 0.
Proof.
  intros Ho H. unfold has in H. apply negb_false_iff, Z.eqb_eq in H.
  change 3 with (Z.ones 2) in H. by rewrite Z.land_ones in H by lia.
Qed.
Lemma fw_word_index p o :
  0 <= p < FLASH_NV_PAGE_COUNT → 0 <= o < FLASH_PAGE_SIZE →
  word_index p o = 64 * p + o / 32 ∧ 0 <= word_index p o < 128.
Proof.
  unfold FLASH_NV_PAGE_COUNT, FLASH_PAGE_SIZE, word_index. intros.
  rewrite Z.shiftl_mul_pow2, Z.shiftr_div_pow2 by lia.
  change (2 ^ 6) with 64. change (2 ^ 5) with 32.
  rewrite u8_id by width. split; [lia|width].
Qed.
Lemma fw_word_mask_pos o : 0 <= o → has (word_mask o) (word_mask o) = true.
Proof.
  intros Ho. unfold word_mask. set (k := Z.land (Z.shiftr o 2) 7).
  assert (0 <= k < 8) as Hk.
  { subst k. change 7 with (Z.ones 3). rewrite Z.land_ones by lia. width. }
  assert (k = 0 ∨ k = 1 ∨ k = 2 ∨ k = 3 ∨ k = 4 ∨ k = 5 ∨ k = 6 ∨ k = 7)
    as [E|[E|[E|[E|[E|[E|[E|E]]]]]]] by lia; by rewrite E.
Qed.
Lemma fw_mark_used_unused s p o p' o' :
  writer_typed s → programmable p o → programmable p' o' →
  has (rd (mark_used s p o) (word_index p' o')) (word_mask o') = false →
  unused s p' o' ∧ (p', o') ≠ (p, o).
Proof.
  intros [Hu _] (Hp&Ho&_) (Hp'&Ho'&_). unfold mark_used, unused.
  destruct (fw_word_index p o Hp Ho) as [E R], (fw_word_index p' o' Hp' Ho') as [E' R'].
  rewrite rd_wr by lia. destruct (word_index p' o' =? word_index p o) eqn:Ei.
  - rewrite fw_has_lor, orb_false_iff. replace (word_index p' o') with (word_index p o) by lia.
    intros [H1 H2]. split; [done|]. intros [= -> ->]. rewrite fw_word_mask_pos in H2; [done|lia].
  - intros H. split; [done|]. intros [= -> ->]. lia.
Qed.
Lemma fw_mark_used_typed s p o :
  writer_typed s → programmable p o →
  blen (mark_used s p o) = 128 ∧
  has (rd (mark_used s p o) (word_index p o)) (word_mask o) = true.
Proof.
  intros [Hu _] (Hp&Ho&_). unfold mark_used. destruct (fw_word_index p o Hp Ho) as [E R].
  split; [by rewrite blen_wr|].
  by rewrite rd_wr, Z.eqb_refl, fw_has_lor, fw_word_mask_pos, orb_true_r by lia.
Qed.
(** Clearing a page's known bit clears that bit only. *)
Lemma fw_known_clear k p q :
  is_u8 k → 0 <= p < FLASH_NV_PAGE_COUNT → 0 <= q < FLASH_NV_PAGE_COUNT →
  let k' := Z.land k (u8 (Z.lnot (page_mask p))) in
  is_u8 k' ∧ is_u8 (Z.lor k' (page_mask p)) ∧
  has k' (page_mask q) = (if q =? p then false else has k (page_mask q)) ∧
  has (Z.lor k' (page_mask p)) (page_mask q) = (if q =? p then true else has k (page_mask q)).
Proof.
  unfold FLASH_NV_PAGE_COUNT. intros Hk Hp Hq. cbv zeta.
  assert (p = 0 ∨ p = 1) as Hp' by lia. assert (q = 0 ∨ q = 1) as Hq' by lia.
  assert (∀ x, (0 <=? x) && (x <? 256) = true → is_u8 x) as Hb by (unfold is_u8; lia).
  split; [|split; [|split]];
    [apply Hb|apply Hb|..]; destruct Hp' as [-> | ->], Hq' as [-> | ->]; clear Hp Hq Hb; by_u8 k.
Qed.
Lemma fw_clear_used u p q o :
  blen u = 128 → 0 <= p < FLASH_NV_PAGE_COUNT → 0 <= q < FLASH_NV_PAGE_COUNT → q ≠ p →
  0 <= o < FLASH_PAGE_SIZE →
  rd (blit u (Z.shiftl p 6) (replicate 64 0)) (word_index q o) = rd u (word_index q o).
Proof.
  intros Hu Hp Hq Hn Ho. destruct (fw_word_index q o Hq Ho) as [E R].
  unfold FLASH_NV_PAGE_COUNT, FLASH_PAGE_SIZE in *.
  rewrite Z.shiftl_mul_pow2 by lia. change (2 ^ 6) with 64.
  rewrite rd_blit by (rewrite ?blen_replicate; lia). rewrite blen_replicate.
  replace ((p * 64 <=? word_index q o) && _) with false; [done|].
  assert (0 <= o / 32 < 64) by width.
  symmetry. apply andb_false_iff. rewrite E, Z.leb_gt, Z.ltb_ge. lia.
Qed.

(** ** Sequences of operations *)
Inductive request :=
  | Erase (p limit : Z)
  | Program (p o : Z) (word : option (Z * bytes)) (limit : Z).
Definition request_typed (q : request) : Prop :=
  match q with Erase p _ => is_u8 p | Program p o _ _ => is_u8 p ∧ is_u16 o end.
Definition erases (p : Z) (q : request) : bool :=
  match q with Erase p' _ => p' =? p | Program _ _ _ _ => false end.
Definition perform (d : D) (s : writer) (q : request)
    : outcome D (flash_write_result_t * D * writer) :=
  match q with
  | Erase p limit => flash_nv_erase d s p limit
  | Program p o word limit => flash_nv_program d s p o word limit
  end.
Fixpoint run (d : D) (s : writer) (qs : list request) : outcome D (D * writer) :=
  match qs with
  | [] => Ret (d, s)
  | q :: qs => let? (_, d, s) := perform d s q in run d s qs
  end.

(** The history is sound: in a page with an established epoch every word that has not been
    attempted is erased. *)
Definition history (d : D) (s : writer) : Prop :=
  writer_typed s ∧
  ∀ p o, programmable p o → has (flash_write_known s) (page_mask p) = true → unused s p o →
         slice (page_data d p) o 4 = replicate 4 0xff.

Lemma fw_slice_frame d d' p o p' o' :
  only_word p o d d' → programmable p o → programmable p' o' → (p', o') ≠ (p, o) →
  slice (page_data d' p') o' 4 = slice (page_data d p') o' 4.
Proof.
  intros [H1 H2] (_&Ho&Ha) (_&Ho'&Ha') Hn.
  destruct (decide (p' = p)) as [->|]; [|by rewrite H1].
  apply fw_aligned in Ha; [|lia]. apply fw_aligned in Ha'; [|lia].
  assert (o' ≠ o) by congruence. unfold FLASH_PAGE_SIZE in *.
  apply slice_ext; rewrite ?page_data_len; unfold FLASH_PAGE_SIZE; try lia; [width..|].
  intros i Hi. apply H2. width.
Qed.

Lemma fw_erased_slice p o d :
  programmable p o → page_data d p = erased_page → slice (page_data d p) o 4 = replicate 4 0xff.
Proof.
  intros (_&Ho&Ha) E. apply fw_aligned in Ha; [|lia]. unfold FLASH_PAGE_SIZE in *.
  rewrite E. unfold erased_page, FLASH_PAGE_SIZE.
  apply slice_eq; rewrite ?blen_replicate; try lia; [width|].
  intros i Hi. rewrite !rd_replicate by width. done.
Qed.

(** The program history stays true. From a sound history, whatever an erase or a
    program operation returns, success or failure, its state again has a sound history:
    no word of an established epoch is offered for programming unless it is erased. *)
Theorem flash_history_sound d s q r d' s' :
  history d s → request_typed q → perform d s q = Ret (r, d', s') → history d' s'.
Proof.
  intros [Ht Hh] Hq H. destruct q as [p limit|p o word limit]; simpl in Hq, H.
  - destruct (fw_erase_admission d s p limit) as [(r'&_&E)|(Hp&_&E)]; [by apply Hq|..];
      rewrite E in H; [by simplify_eq|].
    pose proof (fw_admitted_erase d s p limit Hp) as He. rewrite H in He. destruct He as [Hf He].
    destruct Ht as [Hu Hk]. destruct (fw_known_clear _ p p Hk Hp Hp) as (K1&K2&_&_).
    case_decide as Er.
    + destruct He as (He&Hus&Hkn). unfold history, writer_typed, unused. rewrite Hus, Hkn.
      split; [by rewrite blen_blit|]. intros q o Hqo Hknown Hun.
      destruct (decide (q = p)) as [->|Hn]; [by apply fw_erased_slice|].
      destruct Hqo as (Hq'&Ho&Ha). rewrite Hf by done.
      rewrite fw_clear_used in Hun by done.
      destruct (fw_known_clear _ p q Hk Hp Hq') as (_&_&_&K4). rewrite K4 in Hknown.
      replace (q =? p) with false in Hknown by lia. by apply Hh.
    + destruct He as [Hus [[Hkn Hs]|Hkn]]; unfold history, writer_typed, unused; rewrite Hus, Hkn.
      * split; [done|]. intros q o Hqo. rewrite Hs. by apply Hh.
      * split; [done|]. intros q o Hqo Hknown Hun.
        destruct (fw_known_clear _ p q Hk Hp (proj1 Hqo)) as (_&_&K3&_). rewrite K3 in Hknown.
        destruct (q =? p) eqn:?; [done|]. rewrite Hf by lia. by apply Hh.
  - destruct Hq as [Hp Ho].
    destruct (fw_program_admission d s p o word limit) as [(r'&_&E)|(Hpo&_&_&_&E)];
      [by apply Hp|by apply Ho|..]; rewrite E in H; [by simplify_eq|].
    pose proof (fw_admitted_program d s p o (slice (default [] (snd <$> word)) 0 4) limit Hpo) as He.
    rewrite H in He. destruct He as (Hf&Hkn&Hus&_).
    destruct Hus as [Hus|(Hus&Hs&_)]; unfold history, writer_typed, unused; rewrite Hus, Hkn.
    + split; [split; [by apply fw_mark_used_typed|apply Ht]|]. intros p' o' Hpo' Hknown Hun.
      apply fw_mark_used_unused in Hun as [Hun Hne]; [|done..].
      rewrite (fw_slice_frame d d' p o) by done. by apply Hh.
    + split; [done|]. intros p' o' Hpo'. rewrite Hs. by apply Hh.
Qed.

(** A successful program operation stores exactly its four octets: they were erased
    before, they hold the caller's word now, and no other octet of either page changed. *)
Theorem flash_nv_program_correct d s p o address w limit d' s' :
  is_u8 p → is_u16 o → blen w = 4 →
  flash_nv_program d s p o (Some (address, w)) limit = Ret (FLASH_WRITE_OK, d', s') →
  programmable p o ∧ reserved_end < address <= 0x1dfc ∧
  slice (page_data d p) o 4 = replicate 4 0xff ∧
  page_data d' p = blit (page_data d p) o w ∧ only_page p d d'.
Proof.
  intros Hp Ho Hw H.
  destruct (fw_program_admission d s p o (Some (address, w)) limit)
    as [(r&Hr&E)|(Hpo&_&_&_&E)]; [apply Hp|apply Ho|rewrite E in H; simplify_eq|].
  assert (reserved_end < address <= 0x1dfc) as Haddr.
  { revert H. unfold flash_nv_program, operate. rewrite Z.eqb_refl. cbn [andb]. cbv zeta.
    destruct (result (flash_write_status s)); try done. simpl.
    destruct ((limit =? 0) || _); [done|]. destruct (_ || _ || has o 3); [done|].
    destruct (_ <? address) eqn:?; [done|]. destruct (address <=? reserved_end) eqn:?; [done|]. lia. }
  rewrite E in H. simpl in H. rewrite slice_all' in H by lia.
  pose proof (fw_admitted_program d s p o w limit Hpo) as He. rewrite H in He.
  destruct He as ([Hf Hfo]&_&_&He). destruct (He eq_refl) as [H1 H2].
  split; [done|]. split; [done|]. split; [done|]. split; [|done].
  destruct Hpo as (Hp2&Ho2&Ha). apply fw_aligned in Ha; [|lia]. unfold FLASH_PAGE_SIZE in *.
  apply bytes_ext; rewrite ?blen_blit, !page_data_len; [done|]. unfold FLASH_PAGE_SIZE.
  intros i Hi. rewrite rd_blit by (rewrite ?page_data_len; unfold FLASH_PAGE_SIZE; width).
  destruct ((o <=? i) && (i <? o + blen w)) eqn:Hin.
  - rewrite <- H2, rd_slice by lia. f_equal. lia.
  - rewrite Hfo by lia. done.
Qed.

(** A successful erase leaves its page with nothing but 0xff octets and the other page
    as it was. *)
Theorem flash_nv_erase_correct d s p limit d' s' :
  is_u8 p → flash_nv_erase d s p limit = Ret (FLASH_WRITE_OK, d', s') →
  0 <= p < FLASH_NV_PAGE_COUNT ∧ page_data d' p = erased_page ∧ only_page p d d'.
Proof.
  intros Hp H. destruct (fw_erase_admission d s p limit) as [(r&Hr&E)|(Hp2&_&E)];
    [by apply Hp|rewrite E in H; simplify_eq|].
  rewrite E in H. pose proof (fw_admitted_erase d s p limit Hp2) as He. rewrite H in He.
  destruct He as [Hf He]. rewrite decide_True in He by done. split; [done|]. by split; [apply He|].
Qed.

(** A word once attempted stays attempted until its page is erased. *)
Lemma fw_perform_used d s q r d' s' p o :
  writer_typed s → request_typed q → erases p q = false → programmable p o →
  perform d s q = Ret (r, d', s') → ¬ unused s p o → writer_typed s' ∧ ¬ unused s' p o.
Proof.
  intros Ht Hq Hne Hpo H Hun. destruct q as [p' limit|p' o' word limit]; simpl in Hq, Hne, H.
  - destruct (fw_erase_admission d s p' limit) as [(r'&_&E)|(Hp&_&E)]; [by apply Hq|..];
      rewrite E in H; [by simplify_eq|].
    pose proof (fw_admitted_erase d s p' limit Hp) as He. rewrite H in He. destruct He as [Hf He].
    destruct Ht as [Hu Hk]. destruct (fw_known_clear _ p' p' Hk Hp Hp) as (K1&K2&_&_).
    case_decide.
    + destruct He as (_&Hus&Hkn). unfold writer_typed, unused. rewrite Hus, Hkn.
      split; [by rewrite blen_blit|]. rewrite fw_clear_used; try done; try apply Hpo. lia.
    + destruct He as [Hus Hkn]. unfold writer_typed, unused. rewrite Hus.
      split; [|done]. split; [done|]. by destruct Hkn as [[-> _]| ->].
  - destruct Hq as [Hp Ho].
    destruct (fw_program_admission d s p' o' word limit) as [(r'&_&E)|(Hpo'&_&_&_&E)];
      [by apply Hp|by apply Ho|..]; rewrite E in H; [by simplify_eq|].
    pose proof (fw_admitted_program d s p' o' (slice (default [] (snd <$> word)) 0 4) limit Hpo')
      as He. rewrite H in He. destruct He as (_&Hkn&Hus&_).
    unfold writer_typed. rewrite Hkn. unfold unused at 1.
    destruct Hus as [Hus|(Hus&_)]; rewrite Hus; [|by split].
    split; [split; [by apply fw_mark_used_typed|apply Ht]|]. intros Hun'.
    apply fw_mark_used_unused in Hun'; [|done..]. by destruct Hun'.
Qed.

(** C10: a word is programmed at most once per erase: after a successful program operation
    no sequence of operations that does not erase the page, failing ones included, lets a
    further program operation on the same word reach the medium. *)
Theorem flash_word_programmed_once d s p o word limit d1 s1 qs d2 s2 word' limit' :
  writer_typed s → is_u8 p → is_u16 o →
  flash_nv_program d s p o word limit = Ret (FLASH_WRITE_OK, d1, s1) →
  Forall request_typed qs → Forall (λ q, erases p q = false) qs → run d1 s1 qs = Ret (d2, s2) →
  ∃ r, r ≠ FLASH_WRITE_OK ∧ flash_nv_program d2 s2 p o word' limit' = Ret (r, d2, s2).
Proof.
  intros Ht Hp Ho H Hqs Hne Hrun.
  destruct (fw_program_admission d s p o word limit) as [(r'&Hr&E)|(Hpo&_&_&_&E)];
    [apply Hp|apply Ho|rewrite E in H; simplify_eq|]. rewrite E in H.
  pose proof (fw_admitted_program d s p o (slice (default [] (snd <$> word)) 0 4) limit Hpo) as He.
  rewrite H in He. destruct He as (_&Hkn&Hus&_).
  destruct Hus as [Hus|(_&_&?)]; [|done].
  destruct (fw_mark_used_typed s p o Ht Hpo) as [M1 M2].
  assert (writer_typed s1 ∧ ¬ unused s1 p o) as [Ht1 Hun1].
  { unfold writer_typed, unused. rewrite Hus, Hkn. split; [split; [done|apply Ht]|].
    by rewrite M2. }
  clear H E Hkn Hus M1 M2 Ht s d word limit.
  revert d1 s1 Ht1 Hun1 Hrun. induction qs as [|q qs IH]; intros d1 s1 Ht1 Hun1 Hrun; simpl in Hrun.
  - simplify_eq. destruct (fw_program_admission d2 s2 p o word' limit') as [?|(_&_&_&Hun&_)];
      [apply Hp|apply Ho|done|done].
  - apply Forall_cons_1 in Hqs as [Hq Hqs]. apply Forall_cons_1 in Hne as [Hn Hne].
    destruct (perform d1 s1 q) as [[[r d3] s3]|] eqn:Hpf; [|done].
    destruct (fw_perform_used _ _ _ _ _ _ p o Ht1 Hq Hn Hpo Hpf Hun1) as [Ht3 Hun3].
    exact (IH Hqs Hne d3 s3 Ht3 Hun3 Hrun).
Qed.
End Operate.

(** ** Concrete instances

    The device of [Flash.scripted_device], with the end of the driver's private objects at
    0x300 and the caller's word at 0x400. *)
Definition sample_dev : scripted := {| page0 := [1; 2; 3]; page1 := []; script := [] |}.
Definition sample_word : bytes := [0x4e; 0x56; 0x52; 0x31].
(** The state a sample operation leaves behind. *)
Definition settled (x : outcome scripted (flash_write_result_t * scripted * writer))
    : scripted * writer :=
  match x with Ret (_, d, s) => (d, s) | Lost d => (d, reset_writer) end.
Definition sample_erased : scripted * writer :=
  settled (flash_nv_erase 0x300 sample_dev reset_writer 0 2000).
Definition sample_programmed : scripted * writer :=
  settled (flash_nv_program 0x300 sample_erased.1 sample_erased.2 0 8 (Some (0x400, sample_word)) 2000).

Definition code (x : outcome scripted (flash_write_result_t * scripted * writer)) :=
  match x with Ret (r, _, _) => Some r | Lost _ => None end.
Lemma fw_settled x r : code x = Some r → x = Ret (r, (settled x).1, (settled x).2).
Proof. by destruct x as [[[r' d] s]|d]; intros [= ->]. Qed.
Lemma fw_sample_erased :
  flash_nv_erase 0x300 sample_dev reset_writer 0 2000
  = Ret (FLASH_WRITE_OK, sample_erased.1, sample_erased.2).
Proof. apply fw_settled. vm_compute. reflexivity. Qed.
Lemma fw_sample_programmed :
  flash_nv_program 0x300 sample_erased.1 sample_erased.2 0 8 (Some (0x400, sample_word)) 2000
  = Ret (FLASH_WRITE_OK, sample_programmed.1, sample_programmed.2).
Proof. apply fw_settled. vm_compute. reflexivity. Qed.

Lemma flash_history_sound_witness :
  (∃ r, perform 0x300 sample_dev reset_writer (Erase 0 2000)
        = Ret (r, sample_erased.1, sample_erased.2)) ∧
  history sample_erased.1 sample_erased.2.
Proof.
  split; [eexists; exact fw_sample_erased|].
  refine (flash_history_sound 0x300 sample_dev reset_writer (Erase 0 2000) FLASH_WRITE_OK _ _ _ _ fw_sample_erased).
  - split; [concrete|]. intros p o _ H. exfalso. revert H. unfold has. by rewrite Z.land_0_l.
  - concrete.
Defined.

Lemma flash_nv_program_correct_witness :
  page_data sample_programmed.1 0 = blit (page_data sample_erased.1 0) 8 sample_word.
Proof.
  refine (proj1 (proj2 (proj2 (proj2 (flash_nv_program_correct (D := scripted) 0x300
    sample_erased.1 sample_erased.2 0 8 0x400 sample_word 2000
    sample_programmed.1 sample_programmed.2 _ _ _ fw_sample_programmed))))); concrete.
Defined.

Lemma flash_nv_erase_correct_witness : page_data sample_erased.1 0 = erased_page.
Proof.
  refine (proj1 (proj2 (flash_nv_erase_correct 0x300 sample_dev reset_writer 0 2000
    sample_erased.1 sample_erased.2 _ fw_sample_erased))). concrete.
Defined.

(** A second program of the word at 8 is refused, although the word next to it was
    programmed and the other page erased in between. *)
Definition sample_requests : list request :=
  [Program 0 12 (Some (0x400, sample_word)) 2000; Erase 1 2000].
Definition sample_later : scripted * writer :=
  match run 0x300 sample_programmed.1 sample_programmed.2 sample_requests with
  | Ret x => x | Lost d => (d, reset_writer) end.
Lemma fw_sample_later :
  run 0x300 sample_programmed.1 sample_programmed.2 sample_requests
  = Ret (sample_later.1, sample_later.2).
Proof.
  assert (match run 0x300 sample_programmed.1 sample_programmed.2 sample_requests with
          | Ret _ => true | Lost _ => false end = true) as H by (vm_compute; reflexivity).
  unfold sample_later. by destruct (run _ _ _ _) as [[d s]|d].
Qed.

Lemma flash_word_programmed_once_witness :
  ∃ r, r ≠ FLASH_WRITE_OK ∧
    flash_nv_program 0x300 sample_later.1 sample_later.2 0 8 (Some (0x400, sample_word)) 2000
    = Ret (r, sample_later.1, sample_later.2).
Proof.
  refine (flash_word_programmed_once 0x300 sample_erased.1 sample_erased.2 0 8
    (Some (0x400, sample_word)) 2000 sample_programmed.1 sample_programmed.2 sample_requests
    sample_later.1 sample_later.2 (Some (0x400, sample_word)) 2000
    _ _ _ fw_sample_programmed _ _ fw_sample_later); [concrete..| |by repeat constructor].
  repeat constructor; concrete.
Defined.
End Writer.
