(* ===== verification/Crc.v ===== *)
(** The CRC-32 of the storage records, src/src/nv_record.c: the byte loop over nibble tables
    split into byte planes ([crc_update]), the little-endian word codec beside it, and the
    proof that the loop computes the reflected CRC-32 polynomial division bit by bit. *)
From Stdlib Require Import Btauto.
From S2P Require Import Prelude.

Module Crc.
Definition crc_low : list bytes := [
  [0x00; 0x96; 0x2c; 0xba; 0x19; 0x8f; 0x35; 0xa3; 0x32; 0xa4; 0x1e; 0x88; 0x2b; 0xbd; 0x07; 0x91];
  [0x00; 0x30; 0x61; 0x51; 0xc4; 0xf4; 0xa5; 0x95; 0x88; 0xb8; 0xe9; 0xd9; 0x4c; 0x7c; 0x2d; 0x1d];
  [0x00; 0x07; 0x0e; 0x09; 0x6d; 0x6a; 0x63; 0x64; 0xdb; 0xdc; 0xd5; 0xd2; 0xb6; 0xb1; 0xb8; 0xbf];
  [0x00; 0x77; 0xee; 0x99; 0x07; 0x70; 0xe9; 0x9e; 0x0e; 0x79; 0xe0; 0x97; 0x09; 0x7e; 0xe7; 0x90]].
Definition crc_high : list bytes := [
  [0x00; 0x64; 0xc8; 0xac; 0x90; 0xf4; 0x58; 0x3c; 0x20; 0x44; 0xe8; 0x8c; 0xb0; 0xd4; 0x78; 0x1c];
  [0x00; 0x10; 0x20; 0x30; 0x41; 0x51; 0x61; 0x71; 0x83; 0x93; 0xa3; 0xb3; 0xc2; 0xd2; 0xe2; 0xf2];
  [0x00; 0xb7; 0x6e; 0xd9; 0xdc; 0x6b; 0xb2; 0x05; 0xb8; 0x0f; 0xd6; 0x61; 0x64; 0xd3; 0x0a; 0xbd];
  [0x00; 0x1d; 0x3b; 0x26; 0x76; 0x6b; 0x4d; 0x50; 0xed; 0xf0; 0xd6; 0xcb; 0x9b; 0x86; 0xa0; 0xbd]].

(** The entry of one plane for an index of two nibbles. *)
Definition plane (k : nat) (lo hi : Z) : Z :=
  Z.lxor (rd (default [] (crc_low !! k)) lo) (rd (default [] (crc_high !! k)) hi).

(** One round of the loop on the four byte registers. *)
Definition crc_round (c : Z * Z * Z * Z) (byte : Z) : Z * Z * Z * Z :=
  let '(c0, c1, c2, c3) := c in
  let lo := Z.lxor c0 byte in
  let hi := Z.shiftr lo 4 in
  let lo := Z.land lo 15 in
  (Z.lxor c1 (plane 0 lo hi), Z.lxor c2 (plane 1 lo hi), Z.lxor c3 (plane 2 lo hi),
   plane 3 lo hi).

(** [while (count--)]; a NULL input stands for erased octets. *)
Fixpoint crc_loop (count : nat) (octets : option bytes) (c : Z * Z * Z * Z) : Z * Z * Z * Z :=
  match count with
  | O => c
  | S count =>
      match octets with
      | Some b => crc_loop count (Some (tail b)) (crc_round c (default 0 (head b)))
      | None => crc_loop count None (crc_round c 255)
      end
  end.

(** Four octets as a little-endian word, by the C expression. *)
Definition word32 (c0 c1 c2 c3 : Z) : Z :=
  Z.lor (Z.lor (Z.lor c0 (Z.shiftl c1 8)) (Z.shiftl c2 16)) (Z.shiftl c3 24).

Definition crc_update (crc : Z) (octets : option bytes) (count : Z) : Z :=
  let '(c0, c1, c2, c3) :=
    crc_loop (Z.to_nat count) octets
      (u8 crc, u8 (Z.shiftr crc 8), u8 (Z.shiftr crc 16), u8 (Z.shiftr crc 24)) in
  word32 c0 c1 c2 c3.

Definition decode (b : bytes) : Z := word32 (rd b 0) (rd b 1) (rd b 2) (rd b 3).
(** [for (i = 0; i < 4; i++) { bytes[i] = (uint8_t)value; value >>= 8; }] *)
Fixpoint encode_loop (n : nat) (value : Z) : bytes :=
  match n with O => [] | S n => u8 value :: encode_loop n (Z.shiftr value 8) end.
Definition encode (value : Z) : bytes := encode_loop 4 value.

(** ** The reference: division by the reflected polynomial, bit by bit *)
Definition crc32_bit (c : Z) : Z :=
  Z.lxor (Z.shiftr c 1) (if Z.odd c then 0xedb88320 else 0).
Definition crc32_byte (c byte : Z) : Z := Nat.iter 8 crc32_bit (Z.lxor c byte).

(** ** Words and their octets *)
Lemma crc_testbit_u8 x n : is_u8 x → 8 <= n → Z.testbit x n = false.
Proof.
  intros Hx Hn. destruct (decide (x = 0)) as [->|]; [apply Z.bits_0|].
  apply Z.bits_above_log2; [apply Hx|].
  assert (Z.log2 x < 8); [|lia]. apply Z.log2_lt_pow2; unfold is_u8 in Hx; lia.
Qed.
Lemma crc_testbit_mod8 x n : 0 <= n → Z.testbit (u8 x) n = if n <? 8 then Z.testbit x n else false.
Proof.
  intros Hn. unfold u8. change 256 with (2 ^ 8). destruct (n <? 8) eqn:?.
  - by rewrite Z.mod_pow2_bits_low by lia.
  - by rewrite Z.mod_pow2_bits_high by lia.
Qed.
Definition octet_bit (c0 c1 c2 c3 n : Z) : bool :=
  if n <? 8 then Z.testbit c0 n else if n <? 16 then Z.testbit c1 (n - 8)
  else if n <? 24 then Z.testbit c2 (n - 16) else if n <? 32 then Z.testbit c3 (n - 24) else false.
Lemma crc_word32_testbit c0 c1 c2 c3 n :
  is_u8 c0 → is_u8 c1 → is_u8 c2 → is_u8 c3 → 0 <= n →
  Z.testbit (word32 c0 c1 c2 c3) n = octet_bit c0 c1 c2 c3 n.
Proof.
  intros H0 H1 H2 H3 Hn. unfold word32, octet_bit. rewrite !Z.lor_spec, !Z.shiftl_spec by done.
  assert (∀ x k, is_u8 x → k + 8 <= n → Z.testbit x (n - k) = false) as Hhi
    by (intros; apply crc_testbit_u8; [done|lia]).
  assert (∀ x k, n < k → Z.testbit x (n - k) = false) as Hlo by (intros; apply Z.testbit_neg_r; lia).
  assert (8 <= n → Z.testbit c0 n = false) as Hc0 by (intros; by apply crc_testbit_u8).
  repeat case_match;
    repeat match goal with |- context [Z.testbit ?x (n - ?k)] =>
      first [rewrite (Hlo x k) by lia | rewrite (Hhi x k) by (done || lia)] end;
    rewrite ?Hc0 by lia; by rewrite ?orb_false_r.
Qed.
Lemma crc_word32_lxor a0 a1 a2 a3 b0 b1 b2 b3 :
  is_u8 a0 → is_u8 a1 → is_u8 a2 → is_u8 a3 → is_u8 b0 → is_u8 b1 → is_u8 b2 → is_u8 b3 →
  is_u8 (Z.lxor a0 b0) → is_u8 (Z.lxor a1 b1) → is_u8 (Z.lxor a2 b2) → is_u8 (Z.lxor a3 b3) →
  word32 (Z.lxor a0 b0) (Z.lxor a1 b1) (Z.lxor a2 b2) (Z.lxor a3 b3)
  = Z.lxor (word32 a0 a1 a2 a3) (word32 b0 b1 b2 b3).
Proof.
  intros. apply Z.bits_inj'. intros n Hn. rewrite Z.lxor_spec, !crc_word32_testbit by done.
  unfold octet_bit. repeat case_match; by rewrite ?Z.lxor_spec.
Qed.
Lemma crc_word32_split c :
  is_u32 c →
  word32 (u8 c) (u8 (Z.shiftr c 8)) (u8 (Z.shiftr c 16)) (u8 (Z.shiftr c 24)) = c.
Proof.
  intros Hc. apply Z.bits_inj'. intros n Hn.
  rewrite crc_word32_testbit by (try apply u8_range; done). unfold octet_bit.
  repeat case_match; rewrite ?crc_testbit_mod8, ?Z.shiftr_spec by lia;
    rewrite ?(proj2 (Z.ltb_lt _ _)) by lia; try (f_equal; lia).
  symmetry. destruct (decide (c = 0)) as [->|]; [apply Z.bits_0|].
  apply Z.bits_above_log2; [apply Hc|].
  assert (Z.log2 c < 32); [|lia]. apply Z.log2_lt_pow2; unfold is_u32 in Hc; lia.
Qed.
Lemma crc_lxor_u8 a b : is_u8 a → is_u8 b → is_u8 (Z.lxor a b).
Proof.
  intros Ha Hb. assert (0 <= Z.lxor a b) as H0 by (apply Z.lxor_nonneg; unfold is_u8 in *; lia).
  split; [done|]. change 256 with (2 ^ 8). destruct (decide (Z.lxor a b = 0)) as [->|]; [done|].
  apply Z.log2_lt_pow2; [lia|].
  pose proof (Z.log2_lxor a b (proj1 Ha) (proj1 Hb)).
  assert (∀ x, is_u8 x → Z.log2 x < 8) as Hl.
  { intros x Hx. destruct (decide (x = 0)) as [->|]; [done|].
    apply Z.log2_lt_pow2; unfold is_u8 in Hx; lia. }
  pose proof (Hl a Ha). pose proof (Hl b Hb). lia.
Qed.

(** ** One byte of the division *)
Lemma crc_bit_lxor a b : 0 <= a → 0 <= b →
  crc32_bit (Z.lxor a b) = Z.lxor (crc32_bit a) (crc32_bit b).
Proof.
  intros Ha Hb. unfold crc32_bit.
  assert (Z.odd (Z.lxor a b) = xorb (Z.odd a) (Z.odd b)) as ->
    by (rewrite <- !Z.bit0_odd; apply Z.lxor_spec).
  rewrite Z.shiftr_lxor. set (p := 0xedb88320).
  destruct (Z.odd a), (Z.odd b); cbn [xorb]; apply Z.bits_inj'; intros n Hn;
    rewrite ?Z.lxor_spec, ?Z.bits_0; btauto.
Qed.
Lemma crc_bit_nonneg a : 0 <= a → 0 <= crc32_bit a.
Proof.
  intros. unfold crc32_bit. apply Z.lxor_nonneg.
  split; intros _; [by destruct (Z.odd a)|by apply Z.shiftr_nonneg].
Qed.
Lemma crc_iter_lxor n a b : 0 <= a → 0 <= b →
  Nat.iter n crc32_bit (Z.lxor a b) = Z.lxor (Nat.iter n crc32_bit a) (Nat.iter n crc32_bit b)
  ∧ 0 <= Nat.iter n crc32_bit a ∧ 0 <= Nat.iter n crc32_bit b.
Proof.
  intros Ha Hb. induction n as [|n (IH&Ia&Ib)]; [done|]. simpl.
  rewrite IH, crc_bit_lxor by done. split; [done|]. by split; apply crc_bit_nonneg.
Qed.
Lemma crc_iter_high n h : 0 <= h → Nat.iter n crc32_bit (Z.shiftl h (Z.of_nat n)) = h.
Proof.
  intros Hh. revert h Hh. induction n as [|n IH]; intros h Hh; [apply Z.shiftl_0_r|].
  rewrite Nat.iter_succ_r. rewrite <- (IH h Hh) at 2. f_equal. unfold crc32_bit.
  replace (Z.odd (Z.shiftl h (Z.of_nat (S n)))) with false.
  - rewrite Z.lxor_0_r, Z.shiftr_shiftl_l by lia. f_equal. lia.
  - symmetry. rewrite <- Z.bit0_odd. apply Z.shiftl_spec_low. lia.
Qed.
Lemma crc_iter_split lo h : 0 <= lo → 0 <= h →
  Nat.iter 8 crc32_bit (Z.lxor (Z.shiftl h 8) lo) = Z.lxor h (Nat.iter 8 crc32_bit lo).
Proof.
  intros Hl Hh. destruct (crc_iter_lxor 8 (Z.shiftl h 8) lo) as (->&_&_);
    [by apply Z.shiftl_nonneg|done|].
  f_equal. exact (crc_iter_high 8 h Hh).
Qed.

(** The tables hold the division of every octet, split into nibbles and planes. *)
Definition table_word (x : Z) : Z :=
  let hi := Z.shiftr x 4 in let lo := Z.land x 15 in
  word32 (plane 0 lo hi) (plane 1 lo hi) (plane 2 lo hi) (plane 3 lo hi).
Lemma crc_table x : is_u8 x → Nat.iter 8 crc32_bit x = table_word x.
Proof. intros Hx. by_u8 x. Qed.
Definition is_u8b (x : Z) : bool := (0 <=? x) && (x <? 256).
Lemma crc_plane_u8 x : is_u8 x →
  is_u8 (plane 0 (Z.land x 15) (Z.shiftr x 4)) ∧ is_u8 (plane 1 (Z.land x 15) (Z.shiftr x 4)) ∧
  is_u8 (plane 2 (Z.land x 15) (Z.shiftr x 4)) ∧ is_u8 (plane 3 (Z.land x 15) (Z.shiftr x 4)).
Proof.
  intros Hx. assert (∀ y, is_u8b y = true → is_u8 y) as Hb by (unfold is_u8b, is_u8; lia).
  split; [|split; [|split]]; apply Hb; clear Hb; by_u8 x.
Qed.

Definition octets_of (c : Z * Z * Z * Z) : Prop :=
  let '(c0, c1, c2, c3) := c in is_u8 c0 ∧ is_u8 c1 ∧ is_u8 c2 ∧ is_u8 c3.
Definition word_of (c : Z * Z * Z * Z) : Z := let '(c0, c1, c2, c3) := c in word32 c0 c1 c2 c3.

Lemma crc_round_byte c byte :
  octets_of c → is_u8 byte →
  octets_of (crc_round c byte) ∧ word_of (crc_round c byte) = crc32_byte (word_of c) byte.
Proof.
  destruct c as [[[c0 c1] c2] c3]. intros (H0&H1&H2&H3) Hb.
  pose proof (crc_lxor_u8 _ _ H0 Hb) as Hx.
  unfold crc_round, octets_of, word_of. set (x := Z.lxor c0 byte) in *.
  pose proof (crc_plane_u8 x Hx) as (P0&P1&P2&P3).
  pose proof (crc_lxor_u8 _ _ H1 P0) as Q0. pose proof (crc_lxor_u8 _ _ H2 P1) as Q1.
  pose proof (crc_lxor_u8 _ _ H3 P2) as Q2. split; [done|].
  assert (is_u8 0) as Hz by done.
  rewrite <- (Z.lxor_0_l (plane 3 _ _)) at 1.
  rewrite crc_word32_lxor by (done || by rewrite Z.lxor_0_l).
  change (word32 (plane 0 _ _) _ _ _) with (table_word x). rewrite <- crc_table by done.
  unfold crc32_byte. rewrite <- crc_iter_split; [|apply Hx|].
  - f_equal. subst x. apply Z.bits_inj'. intros n Hn.
    rewrite !Z.lxor_spec, Z.shiftl_spec, (crc_word32_testbit c0 c1 c2 c3 n) by done. unfold octet_bit.
    destruct (decide (n < 8)).
    + rewrite (Z.testbit_neg_r _ (n - 8)) by lia. replace (n <? 8) with true by lia.
      by rewrite xorb_false_l.
    + rewrite crc_word32_testbit by (done || lia). unfold octet_bit.
      rewrite (crc_testbit_u8 c0 n), (crc_testbit_u8 byte n) by (done || lia).
      rewrite !xorb_false_r. repeat case_match; try lia; try (f_equal; lia).
      apply Z.bits_0.
  - unfold word32. rewrite !Z.lor_nonneg, !Z.shiftl_nonneg. unfold is_u8 in *. lia.
Qed.

(** [count] octets of the input, or erased ones. *)
Definition input (octets : option bytes) (count : Z) : bytes :=
  match octets with
  | Some b => slice b 0 count
  | None => replicate (Z.to_nat count) 255
  end.
Definition input_ok (octets : option bytes) (count : Z) : Prop :=
  match octets with Some b => is_bytes b ∧ count <= blen b | None => True end.

Lemma crc_loop_bytes n octets c :
  octets_of c → input_ok octets (Z.of_nat n) →
  octets_of (crc_loop n octets c) ∧
  word_of (crc_loop n octets c) = foldl crc32_byte (word_of c) (input octets (Z.of_nat n)).
Proof.
  revert octets c. induction n as [|n IH]; intros octets c Hc Hi; [by destruct octets|].
  destruct octets as [b|]; cbn [crc_loop].
  - destruct Hi as [Hb Hl]. destruct b as [|x b]; [unfold blen in Hl; simpl in Hl; lia|].
    apply Forall_cons_1 in Hb as [Hx Hb]. destruct (crc_round_byte c x Hc Hx) as [Hc' E].
    destruct (IH (Some b) (crc_round c x) Hc') as [IH1 IH2];
      [split; [done|]; rewrite blen_cons in Hl; lia|].
    split; [exact IH1|]. cbn [list.tail list.head default from_option id].
    unfold id. rewrite IH2, E. unfold input, slice. by rewrite !Nat2Z.id.
  - destruct (crc_round_byte c 255 Hc) as [Hc' E]; [done|].
    destruct (IH None (crc_round c 255) Hc' I) as [IH1 IH2].
    split; [exact IH1|]. rewrite IH2, E. unfold input. by rewrite !Nat2Z.id.
Qed.

Lemma crc_below_bits x k : 0 <= x → 0 <= k → (∀ n, k <= n → Z.testbit x n = false) → x < 2 ^ k.
Proof.
  intros Hx Hk H. enough (x = x mod 2 ^ k) as -> by (apply Z.mod_pos_bound; lia).
  apply Z.bits_inj'. intros n Hn. destruct (decide (n < k)).
  - by rewrite Z.mod_pow2_bits_low by lia.
  - by rewrite Z.mod_pow2_bits_high, H by lia.
Qed.
Lemma crc_word32_range c0 c1 c2 c3 :
  is_u8 c0 → is_u8 c1 → is_u8 c2 → is_u8 c3 → is_u32 (word32 c0 c1 c2 c3).
Proof.
  intros H0 H1 H2 H3. assert (0 <= word32 c0 c1 c2 c3) as Hn.
  { unfold word32. rewrite !Z.lor_nonneg, !Z.shiftl_nonneg. unfold is_u8 in *. lia. }
  split; [done|]. apply (crc_below_bits _ 32); [done|lia|]. intros n Hn32.
  rewrite crc_word32_testbit by (done || lia). unfold octet_bit. repeat case_match; (lia || done).
Qed.

Lemma crc_update_foldl crc octets count :
  is_u32 crc → 0 <= count → input_ok octets count →
  crc_update crc octets count = foldl crc32_byte crc (input octets count) ∧
  is_u32 (crc_update crc octets count).
Proof.
  intros Hc Hn Hi. unfold crc_update.
  destruct (crc_loop_bytes (Z.to_nat count) octets
    (u8 crc, u8 (Z.shiftr crc 8), u8 (Z.shiftr crc 16), u8 (Z.shiftr crc 24))) as [H E].
  { repeat split; apply u8_range. }
  { by rewrite Z2Nat.id. }
  unfold word_of in E at 2. rewrite crc_word32_split, Z2Nat.id in E by done.
  destruct (crc_loop _ _ _) as [[[c0 c1] c2] c3]. destruct H as (?&?&?&?).
  split; [exact E|]. by apply crc_word32_range.
Qed.

(** An input in blocks, each an array or a run of erased octets. *)
Definition blocks_ok (blocks : list (option bytes * Z)) : Prop :=
  Forall (λ x, 0 <= x.2 ∧ input_ok x.1 x.2) blocks.
Definition blocks_input (blocks : list (option bytes * Z)) : bytes :=
  mjoin ((λ x, input x.1 x.2) <$> blocks).

(** the table loop is the CRC-32: however an input is cut into blocks of octets and of
    erased octets (a NULL array), updating block after block equals the bit by bit division
    of the whole input by the reflected polynomial 0xEDB88320. *)
Theorem crc_update_reference crc blocks :
  is_u32 crc → blocks_ok blocks →
  foldl (λ c x, crc_update c x.1 x.2) crc blocks = foldl crc32_byte crc (blocks_input blocks).
Proof.
  intros Hc H. revert crc Hc. induction H as [|[o n] blocks [Hn Hi] _ IH]; intros crc Hc; [done|].
  cbn [foldl fst snd] in *. destruct (crc_update_foldl crc o n) as [E Hr]; [done..|].
  rewrite IH by done. unfold blocks_input. cbn. by rewrite foldl_app, E.
Qed.

(** The check value of CRC-32 (the nine ASCII digits), in two blocks. *)
Lemma crc_update_reference_witness :
  let blocks := [(Some [0x31; 0x32; 0x33; 0x34; 0x35], 5); (Some [0x36; 0x37; 0x38; 0x39], 4)] in
  foldl (λ c x, crc_update c x.1 x.2) 0xffffffff blocks = Z.lxor 0xcbf43926 0xffffffff ∧
  foldl (λ c x, crc_update c x.1 x.2) 0xffffffff blocks
  = foldl crc32_byte 0xffffffff [0x31; 0x32; 0x33; 0x34; 0x35; 0x36; 0x37; 0x38; 0x39].
Proof.
  cbv zeta. split; [reflexivity|].
  apply (crc_update_reference 0xffffffff
           [(Some [0x31; 0x32; 0x33; 0x34; 0x35], 5); (Some [0x36; 0x37; 0x38; 0x39], 4)]).
  - concrete.
  - repeat constructor; concrete.
Defined.

(** ** Range and word codec *)
Lemma crc_lxor_u32 a b : is_u32 a → is_u32 b → is_u32 (Z.lxor a b).
Proof.
  intros Ha Hb. assert (0 <= Z.lxor a b) as H0 by (apply Z.lxor_nonneg; unfold is_u32 in *; lia).
  assert (∀ x n, is_u32 x → 32 <= n → Z.testbit x n = false) as Ht.
  { intros x n [Hx Hx'] Hn. destruct (decide (x = 0)) as [->|]; [apply Z.bits_0|].
    apply Z.bits_above_log2; [done|]. assert (Z.log2 x < 32); [|lia].
    apply Z.log2_lt_pow2; lia. }
  split; [done|]. apply (crc_below_bits _ 32); [done|lia|]. intros n Hn.
  by rewrite Z.lxor_spec, !Ht.
Qed.
Lemma crc_encode value :
  encode value = [u8 value; u8 (Z.shiftr value 8); u8 (Z.shiftr value 16); u8 (Z.shiftr value 24)].
Proof. unfold encode. simpl. by rewrite !Z.shiftr_shiftr by lia. Qed.
Lemma crc_decode_encode value rest : is_u32 value → decode (encode value ++ rest) = value.
Proof. intros Hv. rewrite crc_encode. unfold decode. exact (crc_word32_split value Hv). Qed.
Lemma crc_encode_ok value : blen (encode value) = 4 ∧ is_bytes (encode value).
Proof.
  rewrite crc_encode. split; [done|]. do 4 (apply Forall_cons_2; [apply u8_range|]). by apply Forall_nil_2.
Qed.
End Crc.
