(* ===== verification/NvRecord.v ===== *)
(** The record journal of src/src/nv_record.c: one snapshot kept alternately in two flash
    pages, with a generation number, a CRC and a commit word written last.  Page scanning and
    classification, the selection of the current record, loading, and replacement. *)
From S2P Require Import Prelude Flash FlashWrite Crc.

Module Nv.
Import Flash.
Definition NV_RECORD_MAX := 128.
Definition NV_RECORD_ERASE_LIMIT := 32.

Inductive nv_record_result_t :=
  | NV_RECORD_OK
  | NV_RECORD_RECOVERED
  | NV_RECORD_EMPTY
  | NV_RECORD_INVALID_ARGUMENT
  | NV_RECORD_BUFFER_OWNERSHIP
  | NV_RECORD_NO_SPACE
  | NV_RECORD_RECOVERY_REQUIRED
  | NV_RECORD_CORRUPT
  | NV_RECORD_CONFLICT
  | NV_RECORD_GENERATION_EXHAUSTED
  | NV_RECORD_ERASE_LIMIT_REACHED
  | NV_RECORD_READ_FAILED
  | NV_RECORD_WRITE_FAILED
  | NV_RECORD_PENDING
  | NV_RECORD_UNSUPPORTED.
#[export] Instance nv_record_result_eq : EqDecision nv_record_result_t.
Proof. solve_decision. Defined.

Inductive nv_record_page_state_t :=
  | NV_PAGE_UNCHECKED
  | NV_PAGE_EMPTY
  | NV_PAGE_VALID
  | NV_PAGE_INCOMPLETE
  | NV_PAGE_FORMAT
  | NV_PAGE_INTEGRITY
  | NV_PAGE_UNSUPPORTED.
#[export] Instance nv_record_page_state_eq : EqDecision nv_record_page_state_t.
Proof. solve_decision. Defined.

(** An array of two, indexed by a page. *)
Definition sel {A} (x : A * A) (p : Z) : A := if p =? 0 then x.1 else x.2.
Definition upd {A} (x : A * A) (p : Z) (v : A) : A * A :=
  if p =? 0 then (v, x.2) else (x.1, v).

(** [None] is the 255 of a service that was not invoked. *)
Record nv_record_status_t := {
  generation : Z;
  result : nv_record_result_t;
  selected : Z;
  length : Z;
  phase : Z;
  reader : option flash_result_t;
  writer : option Writer.flash_write_result_t;
  recovered : bool;
  pages : nv_record_page_state_t * nv_record_page_state_t;
  erase_attempts : Z * Z
}.

(** The module's static state that outlives a call.  The other statics (header, footer, stage,
    chunk, word, CRC, and the generations and lengths of the last scan) are stored before
    every use, so they are values of the operations below. *)
Record nv := {
  nv_record_fault : nv_record_result_t;      (* [NV_RECORD_OK]: no fault *)
  nv_record_diagnostic : nv_record_status_t
}.
Definition reset_nv : nv := {|
  nv_record_fault := NV_RECORD_OK;
  nv_record_diagnostic := {|
    generation := 0; result := NV_RECORD_OK; selected := 0; length := 0; phase := 0;
    reader := Some FLASH_OK; writer := Some Writer.FLASH_WRITE_OK; recovered := false;
    pages := (NV_PAGE_UNCHECKED, NV_PAGE_UNCHECKED); erase_attempts := (0, 0) |} |}.

Definition with_diag (t : nv) (f : nv_record_status_t → nv_record_status_t) : nv :=
  {| nv_record_fault := nv_record_fault t; nv_record_diagnostic := f (nv_record_diagnostic t) |}.
Definition set_result t r := with_diag t (λ x, {|
  generation := generation x; result := r; selected := selected x; length := length x;
  phase := phase x; reader := reader x; writer := writer x; recovered := recovered x;
  pages := pages x; erase_attempts := erase_attempts x |}).
Definition set_phase t v := with_diag t (λ x, {|
  generation := generation x; result := result x; selected := selected x; length := length x;
  phase := v; reader := reader x; writer := writer x; recovered := recovered x;
  pages := pages x; erase_attempts := erase_attempts x |}).
Definition set_reader t v := with_diag t (λ x, {|
  generation := generation x; result := result x; selected := selected x; length := length x;
  phase := phase x; reader := Some v; writer := writer x; recovered := recovered x;
  pages := pages x; erase_attempts := erase_attempts x |}).
Definition set_writer t v := with_diag t (λ x, {|
  generation := generation x; result := result x; selected := selected x; length := length x;
  phase := phase x; reader := reader x; writer := Some v; recovered := recovered x;
  pages := pages x; erase_attempts := erase_attempts x |}).
Definition set_recovered t := with_diag t (λ x, {|
  generation := generation x; result := result x; selected := selected x; length := length x;
  phase := phase x; reader := reader x; writer := writer x; recovered := true;
  pages := pages x; erase_attempts := erase_attempts x |}).
Definition set_page t p v := with_diag t (λ x, {|
  generation := generation x; result := result x; selected := selected x; length := length x;
  phase := phase x; reader := reader x; writer := writer x; recovered := recovered x;
  pages := upd (pages x) p v; erase_attempts := erase_attempts x |}).
Definition set_attempts t p v := with_diag t (λ x, {|
  generation := generation x; result := result x; selected := selected x; length := length x;
  phase := phase x; reader := reader x; writer := writer x; recovered := recovered x;
  pages := pages x; erase_attempts := upd (erase_attempts x) p v |}).
Definition set_selection t s n g := with_diag t (λ x, {|
  generation := g; result := result x; selected := s; length := n;
  phase := phase x; reader := reader x; writer := writer x; recovered := recovered x;
  pages := pages x; erase_attempts := erase_attempts x |}).

Definition finish (t : nv) (r : nv_record_result_t) : nv := set_result t r.
Definition fault (t : nv) (r : nv_record_result_t) : nv :=
  finish {| nv_record_fault := r; nv_record_diagnostic := nv_record_diagnostic t |} r.

(** Everything but the erase counters restarts. *)
Definition begin (t : nv) : nv := with_diag t (λ x, {|
  generation := 0; result := NV_RECORD_PENDING; selected := 255; length := 0; phase := 1;
  reader := None; writer := None; recovered := false;
  pages := (NV_PAGE_UNCHECKED, NV_PAGE_UNCHECKED); erase_attempts := erase_attempts x |}).

(** Whether the previous call left a clean selection. *)
Definition known (x : nv_record_status_t) : bool :=
  (phase x =? 8) && bool_decide (result x = NV_RECORD_OK) && (selected x <? 2)
  && negb (recovered x).
Definition resume (t : nv) : bool * nv :=
  let x := nv_record_diagnostic t in
  if! negb (known x) return (false, begin t) ;;
  (true, with_diag (set_selection (begin t) (selected x) (length x) (generation x)) (λ y, {|
     generation := generation y; result := result y; selected := selected y;
     length := length y; phase := phase y; reader := reader y; writer := writer y;
     recovered := recovered y; pages := pages x; erase_attempts := erase_attempts y |})).

Definition magic : bytes := [0x4e; 0x56; 0x52; 0x31].    (* NVR1 *)
Definition commit : bytes := [0x43; 0x4d; 0x54; 0x31].   (* CMT1 *)

(** ** Scanning a page *)
Record scanning := {
  erased : bool;
  padding : bool;
  header : bytes;
  footer : bytes;
  stage : bytes;
  crc : Z
}.
Definition scan_start : scanning := {|
  erased := true; padding := false; header := replicate 12 0; footer := replicate 8 0;
  stage := replicate (Z.to_nat NV_RECORD_MAX) 0; crc := 0xffffffff |}.

(** The body of the inner loop, at one position of the page. *)
Definition scan_octet (capture : bool) (s : scanning) (position value : Z) : scanning :=
  let h := if position <? 12 then wr (header s) position value else header s in
  {| erased := erased s && (value =? 255);
     header := h;
     padding := padding s
       || ((position <? 2040) && (12 + rd h 6 <=? position) && negb (value =? 255));
     stage := if (position <? 2040) && capture && (12 <=? position)
                 && (position <? 12 + NV_RECORD_MAX)
              then wr (stage s) (position - 12) value else stage s;
     footer := if position <? 2040 then footer s else wr (footer s) (position - 2040) value;
     crc := crc s |}.
Fixpoint scan_octets (capture : bool) (s : scanning) (position : Z) (chunk : bytes) : scanning :=
  match chunk with
  | [] => s
  | value :: chunk => scan_octets capture (scan_octet capture s position value) (position + 1) chunk
  end.
Definition scan_chunk (capture : bool) (s : scanning) (offset : Z) (chunk : bytes) : scanning :=
  let n := if offset <? 2040 - FLASH_READ_MAX then FLASH_READ_MAX else 2040 - offset in
  scan_octets capture
    {| erased := erased s; padding := padding s; header := header s; footer := footer s;
       stage := stage s; crc := Crc.crc_update (crc s) (Some chunk) n |} offset chunk.

Definition page_state (s : scanning) : nv_record_page_state_t :=
  if! erased s return NV_PAGE_EMPTY ;;
  if! negb (bool_decide (slice (footer s) 4 4 = commit)) return NV_PAGE_INCOMPLETE ;;
  if! negb (bool_decide (slice (header s) 0 4 = magic)) return NV_PAGE_FORMAT ;;
  if! negb (rd (header s) 4 =? 1) return NV_PAGE_UNSUPPORTED ;;
  if! negb (rd (header s) 5 =? 0) || negb (rd (header s) 7 =? 0) || (rd (header s) 6 =? 0)
      || (NV_RECORD_MAX <? rd (header s) 6) || padding s
      || (Crc.decode (slice (header s) 8 4) =? 0)
    return NV_PAGE_FORMAT ;;
  if! negb (Crc.decode (slice (footer s) 0 4) =? Z.lxor (crc s) 0xffffffff)
    return NV_PAGE_INTEGRITY ;;
  NV_PAGE_VALID.

(** What a completed scan leaves in [generations[page]], [lengths[page]], the page state and
    the stage. *)
Record scan := {
  sc_state : nv_record_page_state_t;
  sc_generation : Z;
  sc_length : Z;
  sc_stage : bytes
}.
Definition scan_result (s : scanning) : scan := {|
  sc_state := page_state s;
  sc_generation := Crc.decode (slice (header s) 8 4);
  sc_length := rd (header s) 6;
  sc_stage := stage s |}.

Section Journal.
Context {D : Type} `{!FlashDevice D}.
(** Link addresses: the ends of the writer's and of this module's private objects, and the
    word buffer. *)
Variables (writer_end nv_reserved_end nv_word_at : Z).

(** The chunk loop: [n] chunks from [offset] on; [None] when a read failed. *)
Fixpoint scan_chunks (n : nat) (d : D) (t : nv) (p offset : Z) (capture : bool) (s : scanning)
    : outcome D (option scanning * D * nv) :=
  match n with
  | O => Ret (Some s, d, t)
  | S n =>
      let? (r, chunk, d) := flash_nv_read d p offset FLASH_READ_MAX in
      let t := set_reader t r in
      if! bool_decide (r ≠ FLASH_OK) return Ret (None, d, fault t NV_RECORD_READ_FAILED) ;;
      scan_chunks n d t p (offset + FLASH_READ_MAX) capture (scan_chunk capture s offset chunk)
  end.
(** [None]: the scan faulted. *)
Definition scan_page (d : D) (t : nv) (p : Z) (capture : bool)
    : outcome D (option scan * D * nv) :=
  let t := set_page t p NV_PAGE_UNCHECKED in
  let? (s, d, t) := scan_chunks (Z.to_nat (FLASH_PAGE_SIZE / FLASH_READ_MAX)) d t p 0 capture
                      scan_start in
  match s with
  | None => Ret (None, d, t)
  | Some s => Ret (Some (scan_result s), d, set_page t p (page_state s))
  end.

(** ** Selecting the current record *)
Definition choose (t : nv) (s0 s1 : scan) : nv_record_result_t * nv :=
  let scans := (s0, s1) in
  let state p := sel (pages (nv_record_diagnostic t)) p in
  let valid := Z.lor (if bool_decide (state 0 = NV_PAGE_VALID) then 1 else 0)
                     (if bool_decide (state 1 = NV_PAGE_VALID) then 2 else 0) in
  if! bool_decide (state 0 = NV_PAGE_UNSUPPORTED) || bool_decide (state 1 = NV_PAGE_UNSUPPORTED)
    return (NV_RECORD_UNSUPPORTED, t) ;;
  if! valid =? 0
    return ((if bool_decide (state 0 = NV_PAGE_EMPTY) && bool_decide (state 1 = NV_PAGE_EMPTY)
             then NV_RECORD_EMPTY else NV_RECORD_CORRUPT), t) ;;
  let chosen := if valid =? 3 then (if sc_generation s0 <? sc_generation s1 then 1 else 0)
                else if valid =? 1 then 0 else 1 in
  let other := Z.lxor chosen 1 in
  if! (valid =? 3)
      && ((sc_generation (sel scans chosen) =? 0)
          || negb (u32 (sc_generation (sel scans chosen) - sc_generation (sel scans other)) =? 1))
    return (NV_RECORD_CONFLICT, t) ;;
  let t := set_selection t chosen (sc_length (sel scans chosen))
             (sc_generation (sel scans chosen)) in
  if! negb (bool_decide (state other = NV_PAGE_VALID))
      && negb (bool_decide (state other = NV_PAGE_EMPTY))
    return (NV_RECORD_RECOVERED, set_recovered t) ;;
  (NV_RECORD_OK, t).

Definition select_record (d : D) (t : nv) : outcome D (nv_record_result_t * D * nv) :=
  let? (s0, d, t) := scan_page d t 0 false in
  match s0 with
  | None => Ret (nv_record_fault t, d, t)
  | Some s0 =>
      let? (s1, d, t) := scan_page d t 1 false in
      match s1 with
      | None => Ret (nv_record_fault t, d, t)
      | Some s1 => let '(r, t) := choose t s0 s1 in Ret (r, d, t)
      end
  end.

(** A caller's object of [size] octets at [address] lies outside the private objects and
    below the reserved top of the memory. *)
Definition caller (address size : Z) : bool :=
  (nv_reserved_end <? address) && (address <? 0x1e00) && (size <=? 0x1e00 - address).

(** ** Loading *)

(** The octets published to the caller, if any, besides the result. *)
Abbreviation loaded := (nv_record_result_t * option bytes)%type.

Definition matches (t : nv) (s : scan) : bool :=
  bool_decide (sc_state s = NV_PAGE_VALID)
  && (sc_generation s =? generation (nv_record_diagnostic t))
  && (sc_length s =? length (nv_record_diagnostic t)).
Definition publish (d : D) (t : nv) (r : nv_record_result_t) (s : scan)
    : outcome D (loaded * D * nv) :=
  Ret (r, Some (slice (sc_stage s) 0 (length (nv_record_diagnostic t))), d,
       finish (set_phase t 8) r).
Definition refuse (d : D) (t : nv) (r : nv_record_result_t) : outcome D (loaded * D * nv) :=
  Ret (r, None, d, finish t r).

(** From the full selection on. *)
Definition load_selected (d : D) (t : nv) (capacity : Z) : outcome D (loaded * D * nv) :=
  let? (r, d, t) := select_record d t in
  if! bool_decide (r ≠ NV_RECORD_OK) && bool_decide (r ≠ NV_RECORD_RECOVERED)
    return refuse d t r ;;
  if! capacity <? length (nv_record_diagnostic t) return refuse d t NV_RECORD_NO_SPACE ;;
  let t := set_phase t 2 in
  let? (s, d, t) := scan_page d t (selected (nv_record_diagnostic t)) true in
  match s with
  | None => Ret (nv_record_fault t, None, d, t)
  | Some s => if! negb (matches t s) return refuse d t NV_RECORD_CORRUPT ;; publish d t r s
  end.

Definition nv_record_load (d : D) (t : nv) (output : option Z) (capacity : Z)
    : outcome D (loaded * D * nv) :=
  match nv_record_fault t with
  | NV_RECORD_OK =>
      match output with
      | None => Ret (NV_RECORD_INVALID_ARGUMENT, None, d, t)
      | Some address =>
          if! capacity =? 0 return Ret (NV_RECORD_INVALID_ARGUMENT, None, d, t) ;;
          if! negb (caller address capacity)
            return Ret (NV_RECORD_BUFFER_OWNERSHIP, None, d, t) ;;
          let '(resumed, t) := resume t in
          if! negb resumed return load_selected d t capacity ;;
          if! capacity <? length (nv_record_diagnostic t) return refuse d t NV_RECORD_NO_SPACE ;;
          let t := set_phase t 2 in
          let? (s, d, t) := scan_page d t (selected (nv_record_diagnostic t)) true in
          match s with
          | None => Ret (nv_record_fault t, None, d, t)
          | Some s => if! matches t s return publish d t NV_RECORD_OK s ;;
                      load_selected d (begin t) capacity
          end
      end
  | r => Ret (r, None, d, t)
  end.

(** ** Replacing *)
Definition program (d : D) (w : Writer.writer) (t : nv) (p offset : Z) (word : bytes) (limit : Z)
    : outcome D (nv_record_result_t * D * Writer.writer * nv) :=
  let t := set_writer t Writer.FLASH_WRITE_PENDING in
  let? (r, d, w) := Writer.flash_nv_program writer_end d w p offset
                      (Some (nv_word_at, word)) limit in
  let t := set_writer t r in
  if! bool_decide (r ≠ Writer.FLASH_WRITE_OK)
    return Ret (NV_RECORD_WRITE_FAILED, d, w, fault t NV_RECORD_WRITE_FAILED) ;;
  Ret (NV_RECORD_OK, d, w, t).

Definition record_header (n g : Z) : bytes := magic ++ [1; 0; n; 0] ++ Crc.encode g.
Definition record_crc (h data : bytes) (n : Z) : Z :=
  let c := Crc.crc_update 0xffffffff (Some h) 12 in
  let c := Crc.crc_update c (Some data) n in
  Crc.crc_update c None (2028 - n).
(** The four octets stored at [position]: header, record, and 0xff after them. *)
Definition body_word (h data : bytes) (n position : Z) : bytes :=
  (λ i, let k := position + i in
        if k <? 12 then rd h k else if k <? 12 + n then rd data (k - 12) else 255) <$> [0; 1; 2; 3].
(** The words of the body, [k] of them from [position] on. *)
Fixpoint program_body (k : nat) (d : D) (w : Writer.writer) (t : nv) (p position : Z)
    (h data : bytes) (n limit : Z) : outcome D (nv_record_result_t * D * Writer.writer * nv) :=
  match k with
  | O => Ret (NV_RECORD_OK, d, w, t)
  | S k =>
      let? (r, d, w, t) := program d w t p position (body_word h data n position) limit in
      match r with
      | NV_RECORD_OK => program_body k d w t p (position + 4) h data n limit
      | r => Ret (r, d, w, t)
      end
  end.

Definition target (x : nv_record_status_t) : Z :=
  if selected x =? 255 then 0 else Z.lxor (selected x) 1.

(** Phases 5 and 6: the integrity word, then the commit word. *)
Definition seal_record (d : D) (w : Writer.writer) (t : nv) (p : Z) (foot : bytes) (limit : Z)
    : outcome D (nv_record_result_t * D * Writer.writer * nv) :=
  let? (r, d, w, t) := program d w (set_phase t 5) p 2040 foot limit in
  if! bool_decide (r ≠ NV_RECORD_OK) return Ret (nv_record_fault t, d, w, t) ;;
  let? (r, d, w, t) := program d w (set_phase t 6) p 2044 commit limit in
  if! bool_decide (r ≠ NV_RECORD_OK) return Ret (nv_record_fault t, d, w, t) ;;
  Ret (NV_RECORD_OK, d, w, t).

(** Phase 7: the page is scanned, and the record becomes the selected one. *)
Definition verify_record (d : D) (w : Writer.writer) (t : nv) (p g n : Z)
    : outcome D (nv_record_result_t * D * Writer.writer * nv) :=
  let? (s, d, t) := scan_page d (set_phase t 7) p false in
  match s with
  | None => Ret (nv_record_fault t, d, w, t)
  | Some s =>
      if! negb (bool_decide (sc_state s = NV_PAGE_VALID))
          || negb (sc_generation s =? g) || negb (sc_length s =? n)
        return Ret (NV_RECORD_CORRUPT, d, w, fault t NV_RECORD_CORRUPT) ;;
      let t := set_phase (set_selection t p n g) 8 in
      let r := if recovered (nv_record_diagnostic t) then NV_RECORD_RECOVERED else NV_RECORD_OK in
      Ret (r, d, w, finish t r)
  end.

(** The record is written: erase, body, integrity word and commit word, verification. *)
Definition write_record (d : D) (w : Writer.writer) (t : nv) (data : bytes) (n limit : Z)
    : outcome D (nv_record_result_t * D * Writer.writer * nv) :=
  let x := nv_record_diagnostic t in
  let p := target x in
  let g := u32 (generation x + 1) in
  let h := record_header n g in
  let foot := Crc.encode (Z.lxor (record_crc h data n) 0xffffffff) in
  let t := set_phase t 3 in
  let t := set_attempts t p (u8 (sel (erase_attempts x) p + 1)) in
  let t := set_writer t Writer.FLASH_WRITE_PENDING in
  let? (r, d, w) := Writer.flash_nv_erase writer_end d w p limit in
  let t := set_writer t r in
  if! bool_decide (r ≠ Writer.FLASH_WRITE_OK)
    return Ret (NV_RECORD_WRITE_FAILED, d, w, fault t NV_RECORD_WRITE_FAILED) ;;
  let t := set_phase t 4 in
  let? (r, d, w, t) := program_body (Z.to_nat ((12 + n + 3) / 4)) d w t p 0 h data n limit in
  if! bool_decide (r ≠ NV_RECORD_OK) return Ret (nv_record_fault t, d, w, t) ;;
  let? (r, d, w, t) := seal_record d w t p foot limit in
  if! bool_decide (r ≠ NV_RECORD_OK) return Ret (r, d, w, t) ;;
  verify_record d w t p g n.

(** [data] is the caller's pointer: its address and the octets there. *)
Definition nv_record_replace (d : D) (w : Writer.writer) (t : nv) (data : option (Z * bytes))
    (n limit allow_recovery : Z) : outcome D (nv_record_result_t * D * Writer.writer * nv) :=
  match nv_record_fault t with
  | NV_RECORD_OK =>
      match data with
      | None => Ret (NV_RECORD_INVALID_ARGUMENT, d, w, t)
      | Some (address, octets) =>
          if! (n =? 0) || (NV_RECORD_MAX <? n) || (limit =? 0) || (1 <? allow_recovery)
            return Ret (NV_RECORD_INVALID_ARGUMENT, d, w, t) ;;
          if! negb (caller address n) return Ret (NV_RECORD_BUFFER_OWNERSHIP, d, w, t) ;;
          let '(resumed, t) := resume t in
          let? (r, d, t) := if resumed then Ret (NV_RECORD_OK, d, t) else select_record d t in
          if! bool_decide (r = NV_RECORD_RECOVERED) && (allow_recovery =? 0)
            return Ret (NV_RECORD_RECOVERY_REQUIRED, d, w, finish t NV_RECORD_RECOVERY_REQUIRED) ;;
          if! bool_decide (r ≠ NV_RECORD_OK) && bool_decide (r ≠ NV_RECORD_RECOVERED)
              && bool_decide (r ≠ NV_RECORD_EMPTY)
            return Ret (r, d, w, finish t r) ;;
          let x := nv_record_diagnostic t in
          if! generation x =? 0xffffffff
            return Ret (NV_RECORD_GENERATION_EXHAUSTED, d, w,
                        finish t NV_RECORD_GENERATION_EXHAUSTED) ;;
          if! NV_RECORD_ERASE_LIMIT <=? sel (erase_attempts x) (target x)
            return Ret (NV_RECORD_ERASE_LIMIT_REACHED, d, w,
                        finish t NV_RECORD_ERASE_LIMIT_REACHED) ;;
          write_record d w t (slice octets 0 n) n limit
      end
  | r => Ret (r, d, w, t)
  end.
End Journal.
End Nv.
