(* ===== verification/NvScan.v ===== *)
(** What a scan computes, as a function of the page: the meaning of a page's 2048 octets
    ([info]) and the proof that the chunk and octet loops of [scan_page] compute it, and that
    scanning changes nothing but the diagnostics. *)
From S2P Require Import Prelude Flash FlashWrite Crc NvRecord.

Module NvScan.
Import Flash Nv.

(** ** The meaning of a page *)
Definition record_length (b : bytes) : Z := rd b 6.
Definition record_generation (b : bytes) : Z := Crc.decode (slice b 8 4).
Definition padded (b : bytes) : bool :=
  existsb (λ i, negb (rd b i =? 255)) (seqZ (12 + rd b 6) (2028 - rd b 6)).
Definition page_crc (b : bytes) : Z := foldl Crc.crc32_byte 0xffffffff (slice b 0 2040).
Definition classify (b : bytes) : nv_record_page_state_t :=
  if! bool_decide (b = Writer.erased_page) return NV_PAGE_EMPTY ;;
  if! negb (bool_decide (slice b 2044 4 = commit)) return NV_PAGE_INCOMPLETE ;;
  if! negb (bool_decide (slice b 0 4 = magic)) return NV_PAGE_FORMAT ;;
  if! negb (rd b 4 =? 1) return NV_PAGE_UNSUPPORTED ;;
  if! negb (rd b 5 =? 0) || negb (rd b 7 =? 0) || (rd b 6 =? 0) || (NV_RECORD_MAX <? rd b 6)
      || padded b || (record_generation b =? 0)
    return NV_PAGE_FORMAT ;;
  if! negb (Crc.decode (slice b 2040 4) =? Z.lxor (page_crc b) 0xffffffff)
    return NV_PAGE_INTEGRITY ;;
  NV_PAGE_VALID.

(** ** The octet loop *)

(** The state of a scan after the first [k] octets of [b]; the CRC apart. *)
Record scanned (capture : bool) (k : Z) (b : bytes) (s : scanning) : Prop := {
  sd_erased : erased s = true ↔ ∀ i, 0 <= i < k → rd b i = 255;
  sd_header_len : blen (header s) = 12;
  sd_header_bytes : is_bytes (header s);
  sd_header : ∀ i, 0 <= i < Z.min k 12 → rd (header s) i = rd b i;
  sd_padding : padding s = true ↔ ∃ i, 12 + rd b 6 <= i < Z.min k 2040 ∧ rd b i ≠ 255;
  sd_footer_len : blen (footer s) = 8;
  sd_footer : ∀ i, 2040 <= i < k → rd (footer s) (i - 2040) = rd b i;
  sd_stage_len : blen (stage s) = NV_RECORD_MAX;
  sd_stage : capture = true → ∀ i, 12 <= i < Z.min k (12 + NV_RECORD_MAX) →
             rd (stage s) (i - 12) = rd b i
}.

Lemma nv_scanned_start capture b : is_bytes b → scanned capture 0 b scan_start.
Proof.
  intros Hb. pose proof (rd_is_u8 b 6 Hb) as [H6 _].
  split; try done; simpl; try (intros; lia); [|concrete|].
  - split; [intros _ i Hi; lia|done].
  - split; [done|]. intros (i&Hi&_). lia.
Qed.

Lemma nv_scanned_step capture k b s :
  is_bytes b → 0 <= k < 2048 → scanned capture k b s →
  scanned capture (k + 1) b (scan_octet capture s k (rd b k)).
Proof.
  intros Hb Hk [He Hhl Hhb Hh Hp Hfl Hf Hsl Hs]. pose proof (rd_is_u8 b 6 Hb) as [H6 _].
  unfold NV_RECORD_MAX in *.
  assert (is_bytes (if k <? 12 then wr (header s) k (rd b k) else header s)) as Hhb'
    by (destruct (k <? 12); [by apply is_bytes_wr; [|apply rd_is_u8]|done]).
  split; cbn [scan_octet erased header padding footer stage]; try done.
  - rewrite andb_true_iff, He, Z.eqb_eq. split.
    + intros [H1 H2] i Hi. destruct (decide (i = k)) as [->|]; [done|]. apply H1. lia.
    + intros H. split; [intros i Hi|]; apply H; lia.
  - destruct (k <? 12); by rewrite ?blen_wr.
  - intros i Hi. destruct (k <? 12) eqn:?; [|apply Hh; lia].
    rewrite rd_wr by lia. destruct (i =? k) eqn:?; [f_equal; lia|apply Hh; lia].
  - rewrite orb_true_iff, !andb_true_iff, negb_true_iff, Hp, Z.leb_le, Z.ltb_lt, Z.eqb_neq. split.
    + intros [(i&Hi&Hn)|[[H1 H2] H3]]; [exists i; split; [lia|done]|].
      pose proof (rd_is_u8 _ 6 Hhb') as [H0 _].
      exists k. destruct (k <? 12) eqn:?; [lia|]. rewrite Hh in H2 by lia. split; [lia|done].
    + intros (i&Hi&Hn). destruct (decide (i = k)) as [->|]; [|left; exists i; split; [lia|done]].
      right. split; [|done]. split; [lia|]. destruct (k <? 12) eqn:?; [lia|].
      rewrite Hh by lia. lia.
  - destruct (k <? 2040); by rewrite ?blen_wr.
  - intros i Hi. destruct (k <? 2040) eqn:?; [lia|]. rewrite rd_wr by lia.
    destruct (i - 2040 =? k - 2040) eqn:?; [f_equal; lia|apply Hf; lia].
  - destruct (_ && _); by rewrite ?blen_wr.
  - unfold NV_RECORD_MAX. intros -> i Hi.
    destruct ((k <? 2040) && true && (12 <=? k) && (k <? 12 + 128)) eqn:?.
    + rewrite rd_wr by lia. destruct (i - 12 =? k - 12) eqn:?; [f_equal; lia|by apply Hs; [|lia]].
    + apply Hs; [done|lia].
Qed.

Lemma nv_scanned_octets capture chunk k b s :
  is_bytes b → 0 <= k → k + blen chunk <= 2048 → chunk = slice b k (blen chunk) →
  blen b = 2048 → scanned capture k b s →
  scanned capture (k + blen chunk) b (scan_octets capture s k chunk).
Proof.
  intros Hb. revert k s. induction chunk as [|v chunk IH]; intros k s Hk Hl E Hbl Hs; simpl.
  { by rewrite blen_nil, Z.add_0_r. }
  rewrite blen_cons in *. pose proof (blen_nonneg chunk).
  replace (blen chunk + 1) with (1 + blen chunk) in E by lia. rewrite slice_add in E by lia.
  assert (slice b k 1 = [rd b k]) as E1 by (by rewrite slice_rd, seqZ_cons by lia).
  rewrite E1 in E.
  injection E as -> E'. replace (k + (blen chunk + 1)) with ((k + 1) + blen chunk) by lia.
  apply IH; [lia..|done|done|]. apply nv_scanned_step; [done|lia|done].
Qed.

Lemma nv_padded b :
  is_bytes b →
  padded b = true ↔ ∃ i, 12 + rd b 6 <= i < Z.min 2048 2040 ∧ rd b i ≠ 255.
Proof.
  intros Hb. pose proof (rd_is_u8 b 6 Hb) as [H6 H6']. unfold padded. rewrite existsb_exists. split.
  - intros (i&Hi&Hn). apply list_elem_of_In, elem_of_seqZ in Hi. exists i. split; [lia|].
    intros E. by rewrite E in Hn.
  - intros (i&Hi&Hn). exists i. split; [apply list_elem_of_In, elem_of_seqZ; lia|].
    apply negb_true_iff. by apply Z.eqb_neq.
Qed.

Lemma nv_scanned_fields capture b s :
  blen b = 2048 → scanned capture 2048 b s →
  header s = slice b 0 12 ∧ footer s = slice b 2040 8 ∧
  (capture = true → stage s = slice b 12 NV_RECORD_MAX).
Proof.
  intros Hl [_ Hhl _ Hh _ Hfl Hf Hsl Hs]. unfold NV_RECORD_MAX in *. split; [|split].
  - symmetry. apply slice_eq; [lia..|]. intros i Hi. by rewrite Hh by lia.
  - symmetry. apply slice_eq; [lia..|]. intros i Hi. rewrite <- Hf by lia. f_equal. lia.
  - intros ->. symmetry. apply slice_eq; [lia..|]. intros i Hi. rewrite <- Hs by (done || lia).
    f_equal. lia.
Qed.

Lemma nv_slice_slice b p n q m :
  0 <= p → 0 <= q → 0 <= m → q + m <= n → p + n <= blen b →
  slice (slice b p n) q m = slice b (p + q) m.
Proof.
  intros. apply slice_eq; rewrite ?blen_slice by lia; try lia.
  intros i Hi. rewrite !rd_slice by lia. f_equal. lia.
Qed.

Lemma nv_page_state capture b s :
  is_bytes b → blen b = 2048 → scanned capture 2048 b s → crc s = page_crc b →
  page_state s = classify b ∧ Crc.decode (slice (header s) 8 4) = record_generation b ∧
  rd (header s) 6 = record_length b.
Proof.
  intros Hb Hl Hs Hc. destruct (nv_scanned_fields _ _ _ Hl Hs) as (Eh&Ef&_).
  unfold page_state, classify, record_generation, record_length. rewrite Eh, Ef, Hc.
  rewrite !nv_slice_slice, !rd_slice by lia. simpl Z.add. split; [|done].
  assert (erased s = bool_decide (b = Writer.erased_page)) as ->.
  { apply eq_bool_prop_intro. rewrite bool_decide_spec, Is_true_true, (sd_erased _ _ _ _ Hs).
    unfold Writer.erased_page, FLASH_PAGE_SIZE. split.
    - intros H. apply bytes_ext; [by rewrite blen_replicate|]. intros i Hi.
      rewrite rd_replicate by lia. apply H. lia.
    - intros -> i Hi. apply rd_replicate. lia. }
  assert (padding s = padded b) as ->; [|done].
  apply eq_bool_prop_intro. rewrite !Is_true_true, (sd_padding _ _ _ _ Hs).
  symmetry. by apply nv_padded.
Qed.

(** ** The chunk loop *)
Section Scan.
Context {D : Type} `{!FlashDevice D}.

Lemma nv_crc_chunk b k c :
  is_bytes b → blen b = 2048 → 0 <= k → k + 32 <= 2048 → k mod 32 = 0 →
  is_u32 c → c = foldl Crc.crc32_byte 0xffffffff (slice b 0 k) →
  let c' := Crc.crc_update c (Some (slice b k 32)) (if k <? 2008 then 32 else 2040 - k) in
  is_u32 c' ∧ c' = foldl Crc.crc32_byte 0xffffffff (slice b 0 (Z.min (k + 32) 2040)).
Proof.
  intros Hb Hl Hk Hk2 Hm Hu Hc. cbv zeta. set (n := if k <? 2008 then 32 else 2040 - k).
  assert (0 <= n <= 32 ∧ Z.min (k + 32) 2040 = k + n) as [Hn ->]
    by (subst n; destruct (k <? 2008) eqn:?; width).
  assert (blen (slice b k 32) = 32) as Hsl by (apply blen_slice; lia).
  destruct (Crc.crc_update_foldl c (Some (slice b k 32)) n Hu) as [-> Hu']; [lia|..|split; [done|]].
  { split; [by apply is_bytes_slice|lia]. }
  rewrite slice_add, foldl_app, <- Hc by lia. f_equal. simpl.
  rewrite nv_slice_slice by lia. by rewrite Z.add_0_r.
Qed.

Lemma nv_scan_chunks n d t p offset capture s :
  0 <= p < FLASH_NV_PAGE_COUNT → 0 <= offset → offset + 32 * Z.of_nat n = 2048 →
  offset mod 32 = 0 → is_u32 (crc s) →
  crc s = foldl Crc.crc32_byte 0xffffffff (slice (page_data d p) 0 (Z.min offset 2040)) →
  scanned capture offset (page_data d p) s →
  match scan_chunks n d t p offset capture s with
  | Lost d' => Writer.same_pages d d'
  | Ret (None, d', t') =>
      Writer.same_pages d d' ∧ ∃ r, t' = fault (set_reader t r) NV_RECORD_READ_FAILED
  | Ret (Some s', d', t') =>
      Writer.same_pages d d' ∧ scanned capture 2048 (page_data d p) s' ∧
      crc s' = page_crc (page_data d p) ∧
      t' = match n with O => t | S _ => set_reader t FLASH_OK end
  end.
Proof.
  intros Hp. revert d t offset s. induction n as [|n IH]; intros d t k s Hk Hend Hm Hu Hc Hs.
  { cbn [scan_chunks]. assert (k = 2048) as -> by lia. split; [by intros q|]. split; [done|].
    split; [|done]. by rewrite Hc. }
  cbn [scan_chunks].
  destruct (flash_nv_read d p k FLASH_READ_MAX) as [[[r chunk] d1]|d1] eqn:Hr;
    [|by eapply Writer.fw_read_lost].
  pose proof (Writer.fw_read_ret _ _ _ _ _ _ _ Hr) as Hsame.
  case_bool_decide as E; [split; [done|]; by eexists|]. subst r.
  apply read_ok in Hr; [|unfold FLASH_NV_PAGE_COUNT, FLASH_READ_MAX, FLASH_PAGE_SIZE in *; lia..].
  unfold FLASH_READ_MAX in *. subst chunk. set (b := page_data d p) in *.
  assert (blen b = 2048) as Hl by apply page_data_len.
  assert (is_bytes b) as Hb by apply page_data_bytes.
  assert (blen (slice b k 32) = 32) as Hsl by (apply blen_slice; lia).
  rewrite Z.min_l in Hc by width.
  destruct (nv_crc_chunk b k (crc s)) as [Hu' Hc']; [done || lia..|].
  specialize (IH d1 (set_reader t FLASH_OK) (k + 32)
    (scan_chunk capture s k (slice b k 32)) ltac:(lia) ltac:(lia) ltac:(width)).
  rewrite Hsame in IH. fold b in IH. unfold scan_chunk at 1 2 3 in IH.
  assert (∀ s0 pos chunk, crc (scan_octets capture s0 pos chunk) = crc s0) as Hcrc.
  { intros s0 pos chunk. revert s0 pos. induction chunk; intros s0 pos; [done|]. simpl.
    by rewrite IHchunk. }
  rewrite !Hcrc in IH. cbn [crc] in IH. change (2040 - FLASH_READ_MAX) with 2008 in IH.
  assert (scanned capture (k + 32) b (scan_chunk capture s k (slice b k 32))) as Hs'.
  { replace (k + 32) with (k + blen (slice b k 32)) by lia.
    apply nv_scanned_octets; rewrite ?Hsl; try done; [lia|]. by destruct Hs. }
  specialize (IH Hu' Hc' Hs').
  destruct (scan_chunks n d1 _ p (k + 32) capture _) as [[[[s'|] d'] t']|d'].
  - destruct IH as (H1&H2&H3&H4). split; [by eapply Writer.fw_same_trans|]. split; [done|].
    split; [done|]. by destruct n; subst t'.
  - destruct IH as (H1&r&->). split; [by eapply Writer.fw_same_trans|]. by exists r.
  - by eapply Writer.fw_same_trans.
Qed.

(** ** A scan *)
Definition info (b : bytes) : scan := {|
  sc_state := classify b; sc_generation := record_generation b; sc_length := record_length b;
  sc_stage := slice b 12 NV_RECORD_MAX |}.
Definition same_scan (s s' : scan) : Prop :=
  sc_state s = sc_state s' ∧ sc_generation s = sc_generation s' ∧ sc_length s = sc_length s'.

(** A completed scan reports [info]; a failed read stops everything; nothing is stored. *)
Lemma nv_scan_page d t p capture :
  0 <= p < FLASH_NV_PAGE_COUNT →
  match scan_page d t p capture with
  | Lost d' => Writer.same_pages d d'
  | Ret (None, d', t') =>
      Writer.same_pages d d' ∧
      ∃ r, t' = fault (set_reader (set_page t p NV_PAGE_UNCHECKED) r) NV_RECORD_READ_FAILED
  | Ret (Some s, d', t') =>
      let i := info (page_data d p) in
      Writer.same_pages d d' ∧ same_scan s i ∧
      (capture = true → sc_stage s = sc_stage i) ∧
      t' = set_page (set_reader t FLASH_OK) p (sc_state i)
  end.
Proof.
  intros Hp. unfold scan_page.
  pose proof (nv_scan_chunks 64 d (set_page t p NV_PAGE_UNCHECKED) p 0 capture scan_start Hp
    ltac:(lia) ltac:(lia) ltac:(done) ltac:(done) ltac:(done)
    (nv_scanned_start capture _ (page_data_bytes d p))) as H.
  change (Z.to_nat (FLASH_PAGE_SIZE / FLASH_READ_MAX)) with 64%nat.
  destruct (scan_chunks 64 d _ p 0 capture scan_start) as [[[[s|] d'] t']|d']; [|done..].
  destruct H as (H1&H2&H3&->).
  pose proof (page_data_bytes d p) as Hb. pose proof (page_data_len d p) as Hl.
  destruct (nv_page_state _ _ _ Hb Hl H2 H3) as (E1&E2&E3).
  destruct (nv_scanned_fields _ _ _ Hl H2) as (_&_&E4).
  cbv zeta. split; [done|]. split; [by split|]. split; [by intros ->; apply E4|].
  rewrite E1. unfold set_page, set_reader, with_diag, upd; cbn.
  by destruct (p =? 0).
Qed.
End Scan.
End NvScan.
