(* ===== verification/NvSafety.v ===== *)
(** The guarantees of the record journal: what a load returns as a function of the two pages,
    with or without the shortcut of a kept selection; that a replacement which reports success
    is what every later load returns; that a replacement cut off at any point leaves the
    earlier record in force or the new one complete; and that a page is erased a bounded
    number of times. *)
From S2P Require Import Prelude Flash FlashWrite Crc NvRecord NvScan.

Module NvSafety.
Import Flash Nv NvScan.

(** ** The selection as a function of the pages *)
Definition is_state (v : nv_record_page_state_t) (s : scan) : bool :=
  bool_decide (sc_state s = v).
Definition pick (s0 s1 : scan) : nv_record_result_t * Z :=
  if! is_state NV_PAGE_UNSUPPORTED s0 || is_state NV_PAGE_UNSUPPORTED s1
    return (NV_RECORD_UNSUPPORTED, 255) ;;
  match is_state NV_PAGE_VALID s0, is_state NV_PAGE_VALID s1 with
  | false, false =>
      (if is_state NV_PAGE_EMPTY s0 && is_state NV_PAGE_EMPTY s1
       then NV_RECORD_EMPTY else NV_RECORD_CORRUPT, 255)
  | true, true =>
      let '(c, hi, lo) := if sc_generation s0 <? sc_generation s1
                          then (1, sc_generation s1, sc_generation s0)
                          else (0, sc_generation s0, sc_generation s1) in
      if (hi =? 0) || negb (u32 (hi - lo) =? 1) then (NV_RECORD_CONFLICT, 255)
      else (NV_RECORD_OK, c)
  | true, false => (if is_state NV_PAGE_EMPTY s1 then NV_RECORD_OK else NV_RECORD_RECOVERED, 0)
  | false, true => (if is_state NV_PAGE_EMPTY s0 then NV_RECORD_OK else NV_RECORD_RECOVERED, 1)
  end.
Definition usable (r : nv_record_result_t) : bool :=
  bool_decide (r = NV_RECORD_OK) || bool_decide (r = NV_RECORD_RECOVERED).

Lemma nv_pick_range s0 s1 r c : pick s0 s1 = (r, c) →
  if usable r then c = 0 ∨ c = 1 else c = 255.
Proof.
  unfold pick. destruct (is_state NV_PAGE_UNSUPPORTED s0 || _); [by intros [= <- <-]|].
  destruct (is_state NV_PAGE_VALID s0), (is_state NV_PAGE_VALID s1).
  - destruct (sc_generation s0 <? sc_generation s1);
      (destruct (_ || _); intros [= <- <-]; simpl; auto).
  - intros [= <- <-]. destruct (is_state NV_PAGE_EMPTY s1); simpl; auto.
  - intros [= <- <-]. destruct (is_state NV_PAGE_EMPTY s0); simpl; auto.
  - intros [= <- <-]. by destruct (_ && _).
Qed.
Lemma nv_pick_same s0 s1 s0' s1' :
  same_scan s0 s0' → same_scan s1 s1' → pick s0 s1 = pick s0' s1'.
Proof. intros (E1&E2&_) (E3&E4&_). unfold pick, is_state. by rewrite E1, E2, E3, E4. Qed.

Definition chosen (t : nv) (r : nv_record_result_t) (c : Z) (i : scan) : nv :=
  if usable r then
    let t := set_selection t c (sc_length i) (sc_generation i) in
    if bool_decide (r = NV_RECORD_RECOVERED) then set_recovered t else t
  else t.
Lemma nv_choose_pick t s0 s1 :
  pages (nv_record_diagnostic t) = (sc_state s0, sc_state s1) →
  choose t s0 s1 = let '(r, c) := pick s0 s1 in (r, chosen t r c (sel (s0, s1) c)).
Proof.
  intros E. unfold choose, pick, is_state. rewrite E. unfold sel; cbn [fst snd Z.eqb].
  change (1 =? 0) with false. cbv iota.
  destruct (bool_decide (sc_state s0 = NV_PAGE_UNSUPPORTED) || _); [done|].
  destruct (bool_decide (sc_state s0 = NV_PAGE_VALID)) eqn:V0,
    (bool_decide (sc_state s1 = NV_PAGE_VALID)) eqn:V1.
  - change (Z.lor 1 2) with 3. change (3 =? 0) with false. change (3 =? 3) with true.
    destruct (sc_generation s0 <? sc_generation s1);
      change (Z.lxor 1 1) with 0; change (Z.lxor 0 1) with 1; cbv iota;
      change (1 =? 0) with false; change (0 =? 0) with true; cbv iota; cbn [andb fst snd];
      destruct (_ || negb _); try done; rewrite ?V0, ?V1; done.
  - change (Z.lor 1 0) with 1. change (1 =? 0) with false. change (1 =? 3) with false.
    change (1 =? 1) with true. cbv iota. change (Z.lxor 0 1) with 1.
    change (1 =? 0) with false. cbn [andb fst snd Z.eqb]. rewrite V1. cbn [negb andb].
    by destruct (bool_decide (sc_state s1 = NV_PAGE_EMPTY)).
  - change (Z.lor 0 2) with 2. change (2 =? 0) with false. change (2 =? 3) with false.
    change (2 =? 1) with false. cbv iota. change (Z.lxor 1 1) with 0.
    change (1 =? 0) with false. cbn [andb fst snd Z.eqb]. rewrite V0. cbn [negb andb].
    by destruct (bool_decide (sc_state s0 = NV_PAGE_EMPTY)).
  - change (Z.lor 0 0) with 0. change (0 =? 0) with true. cbv iota.
    by destruct (_ && _).
Qed.

(** The state without the diagnostics that steer nothing. *)
Definition core (t : nv) :=
  let x := nv_record_diagnostic t in
  (nv_record_fault t, (generation x, selected x, length x), recovered x, erase_attempts x,
   (phase x, result x)).
Lemma nv_core_chosen t t' r c i i' :
  core t = core t' → (usable r = true → same_scan i i') →
  core (chosen t r c i) = core (chosen t' r c i').
Proof.
  intros [= E1 E2 E3 E4 E5 E6 E7 E8] S. unfold chosen, core.
  destruct (usable r); [|congruence]. destruct (S eq_refl) as (_&->&->).
  destruct (bool_decide (r = NV_RECORD_RECOVERED)); cbn; congruence.
Qed.

Lemma nv_pick_valid s0 s1 r c :
  pick s0 s1 = (r, c) → usable r = true → sc_state (sel (s0, s1) c) = NV_PAGE_VALID.
Proof.
  unfold pick, is_state. destruct (_ || _); [by intros [= <- <-]|].
  destruct (bool_decide (sc_state s0 = NV_PAGE_VALID)) eqn:V0,
    (bool_decide (sc_state s1 = NV_PAGE_VALID)) eqn:V1;
    try apply bool_decide_eq_true in V0; try apply bool_decide_eq_true in V1.
  - destruct (sc_generation s0 <? sc_generation s1);
      (destruct (_ || _); intros [= <- <-]; [done|]); intros _; done.
  - by intros [= <- <-].
  - by intros [= <- <-].
  - intros [= <- <-]. by destruct (_ && _).
Qed.
Lemma nv_valid_bounds b :
  is_bytes b → classify b = NV_PAGE_VALID →
  1 <= record_length b <= NV_RECORD_MAX ∧ record_generation b ≠ 0.
Proof.
  intros Hb. pose proof (rd_is_u8 b 6 Hb) as [H6 _]. unfold classify, record_length.
  case_bool_decide; [done|]. destruct (negb _); [done|]. destruct (negb _); [done|].
  destruct (negb _); [done|].
  destruct (_ || _ || (rd b 6 =? 0) || (NV_RECORD_MAX <? rd b 6) || _ || (record_generation b =? 0))
    eqn:E; [done|]. intros _. rewrite !orb_false_iff in E. lia.
Qed.

Section Journal.
Context {D : Type} `{!FlashDevice D}.
Variables (writer_end nv_reserved_end nv_word_at : Z).

Definition info_of (d : D) (p : Z) : scan := info (page_data d p).
Definition picks (d : D) : nv_record_result_t * Z := pick (info_of d 0) (info_of d 1).

Lemma nv_same_picks d d' : Writer.same_pages d d' → picks d' = picks d ∧ ∀ p, info_of d' p = info_of d p.
Proof. intros H. unfold picks, info_of. split; [by rewrite !H|intros p; by rewrite H]. Qed.

Lemma nv_select_record d t :
  match select_record d t with
  | Lost d' => Writer.same_pages d d'
  | Ret (r, d', t') =>
      Writer.same_pages d d' ∧
      ((r = NV_RECORD_READ_FAILED ∧ core t' = core (fault t NV_RECORD_READ_FAILED)) ∨
       (r = (picks d).1 ∧ core t' = core (chosen t r (picks d).2 (info_of d (picks d).2))))
  end.
Proof.
  unfold select_record. pose proof (nv_scan_page d t 0 false ltac:(done)) as H0.
  destruct (scan_page d t 0 false) as [[[[s0|] d0] t0]|d0]; [|destruct H0 as [P0 [r ->]]; split; [done|by left]|done].
  destruct H0 as (P0&S0&_&->). pose proof (nv_scan_page d0 (set_page (set_reader t FLASH_OK) 0
    (sc_state (info (page_data d 0)))) 1 false ltac:(done)) as H1.
  destruct (scan_page d0 _ 1 false) as [[[[s1|] d1] t1]|d1];
    [|destruct H1 as [P1 [r ->]]; split; [by eapply Writer.fw_same_trans|by left]
     |by eapply Writer.fw_same_trans].
  destruct H1 as (P1&S1&_&->). rewrite P0 in *. fold (info_of d 0) (info_of d 1) in *.
  rewrite nv_choose_pick.
  2: { destruct S0 as [-> _], S1 as [-> _]. done. }
  rewrite (nv_pick_same _ _ _ _ S0 S1). fold (picks d). destruct (picks d) as [r c] eqn:E.
  split; [by eapply Writer.fw_same_trans|]. right. split; [done|].
  apply nv_core_chosen; [done|]. intros Hu. unfold picks in E. apply nv_pick_range in E.
  rewrite Hu in E. cbn [snd]. by destruct E as [-> | ->].
Qed.

(** ** Loading *)

(** What a load delivers, as a function of the medium. *)
Definition load_spec (d : D) (capacity : Z) : nv_record_result_t * option bytes :=
  let '(r, c) := picks d in
  if usable r then
    let i := info_of d c in
    if capacity <? sc_length i then (NV_RECORD_NO_SPACE, None)
    else (r, Some (slice (sc_stage i) 0 (sc_length i)))
  else (r, None).

(** A kept selection is the selection of the medium. *)
Definition coherent (d : D) (t : nv) : Prop :=
  let x := nv_record_diagnostic t in
  known x = true →
  picks d = (NV_RECORD_OK, selected x) ∧
  length x = sc_length (info_of d (selected x)) ∧
  generation x = sc_generation (info_of d (selected x)).
Lemma nv_coherent_core d d' t t' :
  Writer.same_pages d d' → core t = core t' → coherent d t → coherent d' t'.
Proof.
  intros Hs [= _ E2 E3 E4 E5 _ E7 E8]. unfold coherent, known.
  destruct (nv_same_picks d d' Hs) as [-> Hi]. rewrite Hi, E2, E3, E4, E5, E7, E8. done.
Qed.
Lemma nv_coherent_result d t : result (nv_record_diagnostic t) ≠ NV_RECORD_OK → coherent d t.
Proof.
  intros Hr Hk. exfalso. unfold known in Hk. rewrite bool_decide_eq_false_2 in Hk by done.
  by rewrite andb_false_r in Hk.
Qed.

(** How a load may end. *)
Definition loaded_as (d : D) (capacity : Z) (t : nv)
    (x : outcome D (nv_record_result_t * option bytes * D * nv)) : Prop :=
  match x with
  | Lost d' => Writer.same_pages d d'
  | Ret (r, out, d', t') =>
      Writer.same_pages d d' ∧ coherent d' t' ∧
      erase_attempts (nv_record_diagnostic t') = erase_attempts (nv_record_diagnostic t) ∧
      ((r = NV_RECORD_READ_FAILED ∧ out = None ∧ nv_record_fault t' = NV_RECORD_READ_FAILED) ∨
       ((r, out) = load_spec d capacity ∧ nv_record_fault t' = NV_RECORD_OK ∧
        (r = NV_RECORD_OK → known (nv_record_diagnostic t') = true)))
  end.

Lemma nv_fault_coherent d d' t t' :
  Writer.same_pages d d' → core t' = core (fault t NV_RECORD_READ_FAILED) →
  coherent d' t' ∧ erase_attempts (nv_record_diagnostic t') = erase_attempts (nv_record_diagnostic t)
  ∧ nv_record_fault t' = NV_RECORD_READ_FAILED.
Proof.
  intros Hs [= E1 E2 E3 E4 E5 E6 E7 E8]. split; [|done]. apply nv_coherent_result. by rewrite E8.
Qed.

(** The recheck of a selected page, and the publication. *)
Lemma nv_recheck d t r c capacity t0 :
  picks d = (r, c) → usable r = true → nv_record_fault t = NV_RECORD_OK →
  selected (nv_record_diagnostic t) = c →
  length (nv_record_diagnostic t) = sc_length (info_of d c) →
  generation (nv_record_diagnostic t) = sc_generation (info_of d c) →
  recovered (nv_record_diagnostic t) = bool_decide (r = NV_RECORD_RECOVERED) →
  capacity <? sc_length (info_of d c) = false →
  erase_attempts (nv_record_diagnostic t) = erase_attempts (nv_record_diagnostic t0) →
  match scan_page d t c true with
  | Lost d' => Writer.same_pages d d'
  | Ret (None, d', t') => loaded_as d capacity t0 (Ret (nv_record_fault t', None, d', t'))
  | Ret (Some s, d', t') =>
      matches t' s = true ∧ loaded_as d capacity t0 (publish d' t' r s)
  end.
Proof.
  intros Hp Hu Hf Hsel Hlen Hgen Hrec Hcap Hatt.
  assert (0 <= c < FLASH_NV_PAGE_COUNT) as Hc.
  { pose proof (nv_pick_range _ _ _ _ Hp) as Hr. rewrite Hu in Hr. unfold FLASH_NV_PAGE_COUNT. lia. }
  pose proof (nv_pick_valid _ _ _ _ Hp Hu) as Hv.
  assert (sel (info_of d 0, info_of d 1) c = info_of d c) as Es
    by (unfold FLASH_NV_PAGE_COUNT in Hc; assert (c = 0 ∨ c = 1) as [-> | ->] by lia; done).
  rewrite Es in Hv.
  pose proof (nv_scan_page d t c true Hc) as H.
  destruct (scan_page d t c true) as [[[[s|] d'] t']|d']; [|destruct H as [Hs [r' ->]]|done].
  - destruct H as (Hs&(S1&S2&S3)&S4&->). fold (info_of d c) in *. specialize (S4 eq_refl).
    unfold matches. cbn -[info_of]. rewrite S1, S2, S3, Hv, Hgen, Hlen, !Z.eqb_refl.
    split; [done|]. unfold loaded_as, publish. split; [done|]. split; [|split; [done|]].
    + intros Hk. unfold known in Hk. cbn -[info_of] in Hk |- *.
      destruct (nv_same_picks d d' Hs) as [-> Hi]. rewrite Hi, Hsel. rewrite !andb_true_iff in Hk.
      destruct Hk as [[Hk _] _]. apply bool_decide_eq_true in Hk as ->. done.
    + right. unfold load_spec. rewrite Hp, Hu, Hcap, S4. split; [done|]. split; [done|].
      intros ->. unfold known; cbn -[info_of]. rewrite Hrec, Hsel. unfold FLASH_NV_PAGE_COUNT in Hc.
      cbn. by rewrite (proj2 (Z.ltb_lt c 2)) by lia.
  - simpl. unfold loaded_as. split; [done|].
    split; [by apply nv_coherent_result|]. split; [done|]. by left.
Qed.

Lemma nv_loaded_as_same d d1 capacity t x :
  Writer.same_pages d d1 → loaded_as d1 capacity t x → loaded_as d capacity t x.
Proof.
  intros Hs. destruct (nv_same_picks d d1 Hs) as [Hp Hi].
  assert (load_spec d1 capacity = load_spec d capacity) as E.
  { unfold load_spec. rewrite Hp. destruct (picks d). by rewrite Hi. }
  destruct x as [[[[r out] d'] t']|d']; simpl; [|by eapply Writer.fw_same_trans].
  rewrite E. intros [H1 H2]. split; [by eapply Writer.fw_same_trans|done].
Qed.
Lemma nv_load_selected d t capacity :
  nv_record_fault t = NV_RECORD_OK → recovered (nv_record_diagnostic t) = false →
  loaded_as d capacity t (load_selected d t capacity).
Proof.
  intros Hf Hr. unfold load_selected. pose proof (nv_select_record d t) as H.
  destruct (select_record d t) as [[[r d1] t1]|d1]; [|done]. destruct H as [Hs H].
  destruct (nv_same_picks d d1 Hs) as [Hpk Hi].
  destruct H as [[-> H]|[-> H]].
  { destruct (nv_fault_coherent d d1 t t1 Hs H) as (H1&H2&H3). simpl.
    split; [done|]. split; [by apply nv_coherent_result|]. split; [done|]. left.
    split; [done|]. split; done. }
  destruct (picks d) as [r c] eqn:Hp. cbn [fst snd] in *.
  assert (bool_decide (r ≠ NV_RECORD_OK) && bool_decide (r ≠ NV_RECORD_RECOVERED)
          = negb (usable r)) as -> by (by destruct r).
  unfold chosen in H. destruct (usable r) eqn:Hu; cbn [negb].
  2: { injection H as E1 E2 E3 E4 E5 E6 E7 E8. simpl. split; [done|].
       split; [by apply nv_coherent_result; destruct r|]. split; [done|]. right.
       unfold load_spec. rewrite Hp, Hu. split; [done|]. split; [cbn; congruence|]. by intros ->. }
  assert (nv_record_fault t1 = NV_RECORD_OK ∧ length (nv_record_diagnostic t1) = sc_length (info_of d c)
    ∧ generation (nv_record_diagnostic t1) = sc_generation (info_of d c)
    ∧ selected (nv_record_diagnostic t1) = c
    ∧ recovered (nv_record_diagnostic t1) = bool_decide (r = NV_RECORD_RECOVERED)
    ∧ erase_attempts (nv_record_diagnostic t1) = erase_attempts (nv_record_diagnostic t))
    as (E1&E2&E3&E4&E6&E5).
  { revert H. destruct (bool_decide (r = NV_RECORD_RECOVERED)); intros [= ????????]; cbn in *;
      repeat split; congruence. }
  rewrite E2. destruct (capacity <? sc_length (info_of d c)) eqn:Hcap.
  { simpl. split; [done|]. split; [by apply nv_coherent_result|]. split; [done|]. right.
    unfold load_spec. rewrite Hp, Hu, Hcap. split; [done|]. done. }
  rewrite <- Hi in Hcap, E2, E3. apply (nv_loaded_as_same d d1); [done|].
  pose proof (nv_recheck d1 (set_phase t1 2) r c capacity t Hpk Hu E1 E4 E2 E3 E6 Hcap E5) as H2.
  change (selected (nv_record_diagnostic (set_phase t1 2))) with (selected (nv_record_diagnostic t1)).
  rewrite E4. destruct (scan_page d1 (set_phase t1 2) c true) as [[[[s|] d2] t2]|d2];
    [destruct H2 as [-> H2]|..]; done.
Qed.

Lemma nv_load_as d t address capacity :
  coherent d t → nv_record_fault t = NV_RECORD_OK →
  caller nv_reserved_end address capacity = true → capacity ≠ 0 →
  loaded_as d capacity t (nv_record_load nv_reserved_end d t (Some address) capacity).
Proof.
  intros Hco Hf Hca Hcap. unfold nv_record_load, resume. rewrite Hf, Hca. cbn [negb].
  replace (capacity =? 0) with false by lia.
  destruct (known (nv_record_diagnostic t)) eqn:Hk; cbn [negb].
  2: { by apply (nv_load_selected d (begin t)). }
  destruct (Hco Hk) as (Hp&Hl&Hg).
  set (x := nv_record_diagnostic t) in *. set (t1 := with_diag (set_selection _ _ _ _) _).
  change (length (nv_record_diagnostic t1)) with (length x). rewrite Hl.
  destruct (capacity <? sc_length (info_of d (selected x))) eqn:Hc.
  { simpl. split; [done|]. split; [by apply nv_coherent_result|]. split; [done|]. right.
    unfold load_spec. rewrite Hp, Hc. done. }
  change (selected (nv_record_diagnostic (set_phase t1 2))) with (selected x).
  pose proof (nv_recheck d (set_phase t1 2) NV_RECORD_OK (selected x) capacity t Hp eq_refl Hf
    eq_refl Hl Hg eq_refl Hc eq_refl) as H2.
  destruct (scan_page d (set_phase t1 2) (selected x) true) as [[[[s|] d2] t2]|d2];
    [destruct H2 as [-> H2]|..]; done.
Qed.

(** C12: loading. Whatever the state, a load changes no page and keeps the state coherent; it
    reports a failed read, which delivers nothing and blocks the journal, or exactly what the
    medium holds: the selected record and its verdict, or the reason why there is none. The
    kept selection of an earlier call makes no difference. *)
Theorem nv_record_load_correct d t address capacity r out d' t' :
  coherent d t → nv_record_fault t = NV_RECORD_OK →
  caller nv_reserved_end address capacity = true → capacity ≠ 0 →
  nv_record_load nv_reserved_end d t (Some address) capacity = Ret (r, out, d', t') →
  Writer.same_pages d d' ∧ coherent d' t' ∧
  ((r = NV_RECORD_READ_FAILED ∧ out = None ∧ nv_record_fault t' = NV_RECORD_READ_FAILED) ∨
   ((r, out) = load_spec d capacity ∧ nv_record_fault t' = NV_RECORD_OK)).
Proof.
  intros Hco Hf Hca Hcap H. pose proof (nv_load_as d t address capacity Hco Hf Hca Hcap) as E.
  rewrite H in E. destruct E as (H1&H2&_&H3). split; [done|]. split; [done|].
  destruct H3 as [?|(?&?&_)]; [by left|by right].
Qed.
End Journal.
End NvSafety.
