(* ===== verification/NvReplace.v ===== *)
(** Replacing a record: the page image a completed replacement leaves, the progress of the
    writes towards it, and the theorems on durability, on interruption and on wear. *)
From S2P Require Import Prelude Flash FlashWrite Crc NvRecord NvScan NvSafety.

Module NvReplace.
Import Flash Nv NvScan NvSafety.

(** ** The page image of a record *)
Definition image (g : Z) (data : bytes) : bytes :=
  let n := blen data in
  record_header n g ++ data ++ replicate (Z.to_nat (2028 - n)) 255
  ++ Crc.encode (Z.lxor (record_crc (record_header n g) data n) 0xffffffff) ++ commit.

Definition record_ok (g : Z) (data : bytes) : Prop :=
  is_u32 g ∧ g ≠ 0 ∧ is_bytes data ∧ 1 <= blen data <= NV_RECORD_MAX.

Lemma nv_record_header n g :
  is_u8 n → blen (record_header n g) = 12 ∧ is_bytes (record_header n g).
Proof.
  intros Hn. unfold record_header. destruct (Crc.crc_encode_ok g) as [L B].
  split; [rewrite !blen_app, L; done|]. rewrite !is_bytes_app. split; [concrete|]. split; [|done].
  do 2 (apply Forall_cons_2; [done|]). apply Forall_cons_2; [done|]. concrete.
Qed.
Lemma nv_image_parts g data :
  record_ok g data → let b := image g data in
  blen b = 2048 ∧ is_bytes b ∧ slice b 0 12 = record_header (blen data) g ∧
  slice b 12 (blen data) = data ∧
  (∀ i, 12 + blen data <= i < 2040 → rd b i = 255) ∧
  slice b 2040 4
    = Crc.encode (Z.lxor (record_crc (record_header (blen data) g) data (blen data)) 0xffffffff) ∧
  slice b 2044 4 = commit ∧
  slice b 0 2040 = record_header (blen data) g ++ data ++ replicate (Z.to_nat (2028 - blen data)) 255.
Proof.
  intros (Hg&Hg0&Hb&Hn). unfold NV_RECORD_MAX in Hn.
  destruct (nv_record_header (blen data) g) as [Lh Bh]; [unfold is_u8; lia|].
  unfold image. set (h := record_header (blen data) g) in *.
  set (e := Crc.encode _). assert (blen e = 4 ∧ is_bytes e) as [Le Be] by apply Crc.crc_encode_ok.
  set (pad := replicate _ 255).
  assert (blen pad = 2028 - blen data) as Lp by (subst pad; rewrite blen_replicate; lia).
  assert (is_bytes pad) as Bp by (by apply Forall_replicate).
  assert (is_bytes commit ∧ blen commit = 4) as [Bc Lc] by (split; concrete).
  cbv zeta. split; [rewrite !blen_app; lia|]. split; [by rewrite !is_bytes_app|].
  split; [apply (slice_app_mid [] h); [done|lia]|].
  split; [apply (slice_app_mid h); lia|].
  split.
  { intros i Hi. rewrite !rd_app_r by lia. rewrite rd_app_l by lia. subst pad.
    apply rd_replicate. lia. }
  split.
  { pose proof (slice_app_mid (h ++ data ++ pad) e commit 2040 4) as E.
    rewrite <- !app_assoc in E. apply E; [|lia]. rewrite !blen_app. lia. }
  split.
  { pose proof (slice_app_mid (h ++ data ++ pad ++ e) commit [] 2044 4) as E.
    rewrite app_nil_r, <- !app_assoc in E. apply E; [|lia]. rewrite !blen_app. lia. }
  pose proof (slice_app_mid [] (h ++ data ++ pad) (e ++ commit) 0 2040) as E.
  rewrite <- !app_assoc in E. apply E; [done|]. rewrite !blen_app. lia.
Qed.

Lemma nv_image_crc g data :
  record_ok g data →
  page_crc (image g data) = record_crc (record_header (blen data) g) data (blen data) ∧
  is_u32 (record_crc (record_header (blen data) g) data (blen data)).
Proof.
  intros Hok. pose proof (nv_image_parts g data Hok) as (_&_&_&_&_&_&_&E).
  destruct Hok as (Hg&Hg0&Hb&Hn). unfold NV_RECORD_MAX in Hn.
  destruct (nv_record_header (blen data) g) as [Lh Bh]; [unfold is_u8; lia|].
  unfold page_crc. rewrite E. unfold record_crc. set (h := record_header (blen data) g) in *.
  destruct (Crc.crc_update_foldl 0xffffffff (Some h) 12) as [E1 U1]; [done|lia|by split; [|lia]|].
  destruct (Crc.crc_update_foldl (Crc.crc_update 0xffffffff (Some h) 12) (Some data) (blen data))
    as [E2 U2]; [done|lia|by split; [|lia]|].
  destruct (Crc.crc_update_foldl (Crc.crc_update (Crc.crc_update 0xffffffff (Some h) 12) (Some data)
    (blen data)) None (2028 - blen data)) as [E3 U3]; [done|lia|done|].
  split; [|done]. rewrite E3, E2, E1. unfold Crc.input.
  rewrite !slice_all' by lia. by rewrite !foldl_app.
Qed.

(** A completed image is a valid page holding its record. *)
Lemma nv_image_info g data :
  record_ok g data →
  let i := info (image g data) in
  sc_state i = NV_PAGE_VALID ∧ sc_generation i = g ∧ sc_length i = blen data ∧
  slice (sc_stage i) 0 (blen data) = data.
Proof.
  intros Hok. pose proof (nv_image_parts g data Hok) as (L&B&P1&P2&P3&P4&P5&_).
  destruct (nv_image_crc g data Hok) as [C1 C2].
  destruct Hok as (Hg&Hg0&Hb&Hn). unfold NV_RECORD_MAX in Hn.
  set (b := image g data) in *.
  assert (∀ i, 0 <= i < 12 → rd b i = rd (record_header (blen data) g) i) as Hh.
  { intros i Hi. rewrite <- P1, rd_slice by lia. done. }
  assert (slice b 0 4 = magic) as M.
  { apply slice_eq; [lia..|done|]. intros i Hi. rewrite Hh by lia.
    assert (i = 0 ∨ i = 1 ∨ i = 2 ∨ i = 3) as [-> |[-> |[-> | ->]]] by lia; done. }
  assert (rd b 4 = 1 ∧ rd b 5 = 0 ∧ rd b 6 = blen data ∧ rd b 7 = 0) as (H4&H5&H6&H7)
    by (rewrite !Hh by lia; done).
  assert (record_generation b = g) as G.
  { unfold record_generation. transitivity (Crc.decode (Crc.encode g ++ []));
      [|by apply Crc.crc_decode_encode]. rewrite app_nil_r. f_equal. }
  cbv zeta. unfold info; cbn [sc_state sc_generation sc_length sc_stage].
  split; [|split; [done|split; [done|]]].
  - unfold classify. rewrite bool_decide_eq_false_2.
    2: { intros E. rewrite E in M. done. }
    rewrite P5, M, H4, H5, H6, H7, P4, C1, G. rewrite !bool_decide_eq_true_2 by done.
    assert (padded b = false) as ->.
    { apply not_true_is_false. rewrite nv_padded by done. intros (i&Hi&Hne). apply Hne, P3. lia. }
    cbn [negb orb Z.eqb Pos.eqb]. change (0 =? 0) with true. cbn [negb orb].
    replace (blen data =? 0) with false by lia. replace (NV_RECORD_MAX <? blen data) with false
      by (unfold NV_RECORD_MAX; lia). replace (g =? 0) with false by lia. cbn [orb].
    pose proof (Crc.crc_decode_encode (Z.lxor (record_crc (record_header (blen data) g) data
      (blen data)) 0xffffffff) []) as Hd. rewrite app_nil_r in Hd.
    rewrite Hd by (by apply Crc.crc_lxor_u32). by rewrite Z.eqb_refl.
  - rewrite nv_slice_slice by (unfold NV_RECORD_MAX; lia). exact P2.
Qed.

(** ** Progress towards an image *)

(** The first [k] octets are written, the rest is erased. *)
Definition prefix (k : Z) (img b : bytes) : Prop :=
  ∀ i, 0 <= i < 2048 → rd b i = if i <? k then rd img i else 255.
(** Without a commit word a page is empty or incomplete. *)
Definition torn (b : bytes) : Prop := slice b 2044 4 ≠ commit.
Definition cut (img b : bytes) : Prop := torn b ∨ b = img.

Lemma nv_torn b : torn b → classify b = NV_PAGE_EMPTY ∨ classify b = NV_PAGE_INCOMPLETE.
Proof.
  unfold torn, classify. intros H. case_bool_decide; [by left|].
  rewrite bool_decide_eq_false_2 by done. by right.
Qed.

Section Replace.
Context {D : Type} `{!FlashDevice D}.
Variables (writer_end nv_reserved_end nv_word_at : Z).
Abbreviation program := (program writer_end nv_word_at).
Abbreviation program_body := (program_body writer_end nv_word_at).
Abbreviation seal_record := (seal_record writer_end nv_word_at).
Abbreviation write_record := (write_record writer_end nv_word_at).
Abbreviation nv_record_replace := (nv_record_replace writer_end nv_reserved_end nv_word_at).

Lemma nv_prefix_step k img d d' p :
  0 <= k → k + 4 <= 2048 → blen img = 2048 → prefix k img (page_data d p) →
  Writer.only_word p k d d' → slice (page_data d' p) k 4 = slice img k 4 →
  prefix (k + 4) img (page_data d' p).
Proof.
  intros Hk Hk2 Hl Hp [_ Hw] Hs i Hi. destruct (decide (k <= i < k + 4)) as [Hin|Hout].
  - replace (i <? k + 4) with true by lia.
    assert (rd (slice (page_data d' p) k 4) (i - k) = rd (slice img k 4) (i - k)) as E by (by rewrite Hs).
    rewrite !rd_slice in E by lia. by replace (k + (i - k)) with i in E by lia.
  - rewrite Hw by lia. rewrite Hp by lia. destruct (i <? k) eqn:?, (i <? k + 4) eqn:?; done || lia.
Qed.
Lemma nv_prefix_torn k img d d' p :
  0 <= k → k + 4 <= 2044 → prefix k img (page_data d p) → Writer.only_word p k d d' →
  torn (page_data d' p).
Proof.
  intros Hk Hk2 Hp [_ Hw] E.
  assert (rd (slice (page_data d' p) 2044 4) 0 = 0x43) as E0 by (by rewrite E).
  rewrite rd_slice, Hw, Hp in E0 by lia. replace (2044 + 0 <? k) with false in E0 by lia. done.
Qed.
Lemma nv_prefix_commit img d d' p :
  blen img = 2048 → slice img 2044 4 = commit → prefix 2044 img (page_data d p) →
  Writer.only_word p 2044 d d' → cut img (page_data d' p).
Proof.
  intros Hl Hc Hp Hw. unfold cut, torn.
  destruct (decide (slice (page_data d' p) 2044 4 = commit)) as [E|E]; [right|by left].
  pose proof (nv_prefix_step 2044 img d d' p ltac:(lia) ltac:(lia) Hl Hp Hw) as H.
  rewrite Hc in H. specialize (H E). apply bytes_ext; rewrite page_data_len; [done|].
  unfold FLASH_PAGE_SIZE. intros i Hi. rewrite H by lia. by replace (i <? 2044 + 4) with true by lia.
Qed.
Lemma nv_prefix_erased img d p : page_data d p = Writer.erased_page → prefix 0 img (page_data d p).
Proof.
  intros -> i Hi. replace (i <? 0) with false by lia. by apply rd_replicate.
Qed.

Lemma nv_program d w t p o word limit :
  0 <= p → 0 <= o → blen word = 4 →
  match program d w t p o word limit with
  | Lost d' => Writer.only_word p o d d'
  | Ret (r, d', _, t') =>
      Writer.only_word p o d d' ∧
      ((r = NV_RECORD_OK ∧ slice (page_data d' p) o 4 = word ∧ core t' = core t) ∨
       (r = NV_RECORD_WRITE_FAILED ∧ core t' = core (fault t NV_RECORD_WRITE_FAILED)))
  end.
Proof.
  intros Hp Ho Hw. unfold Nv.program. pose proof (Writer.fw_program writer_end d w p o nv_word_at word limit Hp Ho Hw) as H.
  destruct (Writer.flash_nv_program writer_end d w p o _ limit) as [[[r d'] w']|d']; [|done].
  destruct H as [H1 H2]. case_bool_decide as E; (split; [done|]); [by right|left].
  split; [done|]. split; [by apply H2|done].
Qed.

Lemma nv_body_word g data k :
  record_ok g data → 0 <= k → k + 4 <= 2040 →
  body_word (record_header (blen data) g) data (blen data) k = slice (image g data) k 4 ∧
  blen (body_word (record_header (blen data) g) data (blen data) k) = 4.
Proof.
  intros Hok Hk Hk2. pose proof (nv_image_parts g data Hok) as (L&_&P1&P2&P3&_).
  destruct Hok as (_&_&_&Hn). unfold NV_RECORD_MAX in Hn. split; [|done].
  symmetry. apply slice_eq; [lia..|done|]. intros i Hi. unfold body_word.
  set (h := record_header (blen data) g) in *. set (b := image g data) in *.
  assert (∀ j, 0 <= j < 2040 → rd b j
    = if j <? 12 then rd h j else if j <? 12 + blen data then rd data (j - 12) else 255) as Hj.
  { intros j Hj. destruct (j <? 12) eqn:?; [by rewrite <- P1, rd_slice by lia|].
    destruct (j <? 12 + blen data) eqn:?; [|apply P3; lia].
    replace j with (12 + (j - 12)) at 1 by lia. rewrite <- (rd_slice b 12 (blen data)), P2 by lia. done. }
  rewrite Hj by lia. assert (i = 0 ∨ i = 1 ∨ i = 2 ∨ i = 3) as [-> |[-> |[-> | ->]]] by lia; done.
Qed.

Lemma nv_program_body g data k d w t p position limit :
  record_ok g data → 0 <= p → 0 <= position → position + 4 * Z.of_nat k <= 2040 →
  prefix position (image g data) (page_data d p) →
  match program_body k d w t p position (record_header (blen data) g) data (blen data) limit with
  | Lost d' => Writer.only_page p d d' ∧ torn (page_data d' p)
  | Ret (r, d', _, t') =>
      Writer.only_page p d d' ∧
      ((r = NV_RECORD_OK ∧ prefix (position + 4 * Z.of_nat k) (image g data) (page_data d' p) ∧
        core t' = core t) ∨
       (r = NV_RECORD_WRITE_FAILED ∧ core t' = core (fault t NV_RECORD_WRITE_FAILED) ∧
        torn (page_data d' p)))
  end.
Proof.
  intros Hok Hp. revert d w t position. induction k as [|k IH]; intros d w t pos Hpos Hend Hpre.
  { simpl. split; [by intros q _|]. left. split; [done|]. by rewrite Z.add_0_r. }
  cbn [Nv.program_body]. destruct (nv_body_word g data pos Hok) as [Hw Hw4]; [lia..|].
  pose proof (nv_program d w t p pos _ limit Hp Hpos Hw4) as H1.
  destruct (program d w t p pos _ limit) as [[[[r d1] w1] t1]|d1];
    [|split; [apply H1|]; eapply nv_prefix_torn; [| |done|done]; lia].
  destruct H1 as [H1 [(->&H2&H3)|[-> H2]]].
  2: { split; [apply H1|]. right. split; [done|]. split; [done|].
       eapply nv_prefix_torn; [| |done|done]; lia. }
  rewrite Hw in H2. pose proof (nv_image_parts g data Hok) as (L&_).
  pose proof (nv_prefix_step pos _ d d1 p ltac:(lia) ltac:(lia) L Hpre H1 H2) as Hpre1.
  specialize (IH d1 w1 t1 (pos + 4) ltac:(lia) ltac:(lia) Hpre1).
  assert (∀ d2, Writer.only_page p d1 d2 → Writer.only_page p d d2) as Htr.
  { intros d2 H q Hq. rewrite H, (proj1 H1) by done. done. }
  destruct (program_body k d1 w1 t1 p (pos + 4) _ data _ limit) as [[[[r d2] w2] t2]|d2].
  - destruct IH as [I1 I2]. split; [by apply Htr|].
    replace (pos + 4 + 4 * Z.of_nat k) with (pos + 4 * Z.of_nat (S k)) in I2 by lia.
    destruct I2 as [(->&I2&I3)|(->&I2&I3)]; [left|right]; split; try done; split; try done;
      [congruence|]. rewrite I2. injection H3 as ????????. unfold core, fault; cbn. congruence.
  - destruct IH as [I1 I2]. split; [by apply Htr|done].
Qed.

(** ** Writing a record *)

(** The erase of the target page was cut off or failed: its octets are anything. *)
Definition erase_unfinished (d : D) (w : Writer.writer) (p limit : Z) (d' : D) : Prop :=
  match Writer.flash_nv_erase writer_end d w p limit with
  | Lost d1 => d1 = d'
  | Ret (r, d1, _) => r ≠ Writer.FLASH_WRITE_OK ∧ d1 = d'
  end.

(** The ways a write in progress ends: cut off, failed and latched, or done. *)
Definition blocking (r : nv_record_result_t) : bool :=
  match r with
  | NV_RECORD_READ_FAILED | NV_RECORD_WRITE_FAILED | NV_RECORD_CORRUPT => true
  | _ => false
  end.
Definition halted (t' : nv) (r : nv_record_result_t) : Prop :=
  blocking r = true ∧ nv_record_fault t' = r ∧ result (nv_record_diagnostic t') = r.
Definition attempts_of (t : nv) : Z * Z := erase_attempts (nv_record_diagnostic t).

Lemma nv_core_fault t t' r :
  blocking r = true → core t' = core (fault t r) → halted t' r ∧ attempts_of t' = attempts_of t.
Proof. by intros Hu [= ????????]. Qed.
Lemma nv_core_attempts t t' : core t' = core t → attempts_of t' = attempts_of t.
Proof. by intros [= ????????]. Qed.
Lemma nv_core_fields t t' :
  core t = core t' →
  nv_record_fault t = nv_record_fault t' ∧ attempts_of t = attempts_of t' ∧
  result (nv_record_diagnostic t) = result (nv_record_diagnostic t') ∧
  recovered (nv_record_diagnostic t) = recovered (nv_record_diagnostic t').
Proof. by intros [= ????????]. Qed.
Lemma nv_core_publish t t' p n g r :
  nv_record_fault t = nv_record_fault t' → attempts_of t = attempts_of t' →
  recovered (nv_record_diagnostic t) = recovered (nv_record_diagnostic t') →
  core (finish (set_phase (set_selection t p n g) 8) r)
  = core (finish (set_phase (set_selection t' p n g) 8) r).
Proof. unfold core, attempts_of; cbn. congruence. Qed.
Lemma nv_only_page_trans p d d1 d2 :
  Writer.only_page p d d1 → Writer.only_page p d1 d2 → Writer.only_page p d d2.
Proof. intros H1 H2 q Hq. by rewrite H2, H1. Qed.

Lemma nv_seal_record img foot d w t p limit :
  0 <= p → blen img = 2048 → blen foot = 4 → slice img 2040 4 = foot →
  slice img 2044 4 = commit → prefix 2040 img (page_data d p) →
  match seal_record d w t p foot limit with
  | Lost d' => Writer.only_page p d d' ∧ cut img (page_data d' p)
  | Ret (r, d', _, t') =>
      Writer.only_page p d d' ∧ attempts_of t' = attempts_of t ∧ cut img (page_data d' p) ∧
      ((r = NV_RECORD_OK ∧ page_data d' p = img ∧ core t' = core (set_phase t 6)) ∨ halted t' r)
  end.
Proof.
  intros Hp L Lf P4 P5 Hpre. unfold Nv.seal_record.
  pose proof (nv_program d w (set_phase t 5) p 2040 foot limit Hp ltac:(lia) Lf) as H3.
  destruct (program d w (set_phase t 5) p 2040 foot limit) as [[[[r d3] w3] t3]|d3];
    [|split; [apply H3|]; left; eapply nv_prefix_torn; [| |exact Hpre|exact H3]; lia].
  destruct H3 as [O3 [(->&H3&C3)|(->&C3)]].
  2: { rewrite bool_decide_eq_true_2 by done. apply nv_core_fault in C3 as [C3 A]; [|done].
       split; [apply O3|]. split; [done|]. rewrite (proj1 (proj2 C3)). split; [|by right].
       left; eapply nv_prefix_torn; [| |exact Hpre|exact O3]; lia. }
  rewrite bool_decide_eq_false_2 by (intros E; by apply E). rewrite <- P4 in H3.
  pose proof (nv_prefix_step 2040 img d d3 p ltac:(lia) ltac:(lia) L Hpre O3 H3) as H3'.
  change (2040 + 4) with 2044 in H3'. pose proof (nv_core_attempts _ _ C3) as A3.
  pose proof (nv_program d3 w3 (set_phase t3 6) p 2044 commit limit Hp ltac:(lia) eq_refl) as H4.
  destruct (program d3 w3 (set_phase t3 6) p 2044 commit limit) as [[[[r d4] w4] t4]|d4];
    [|split; [by eapply nv_only_page_trans; [apply O3|apply H4]|by eapply nv_prefix_commit]].
  destruct H4 as [O4 H4]. pose proof (nv_prefix_commit img d3 d4 p L P5 H3' O4) as Hcut.
  destruct H4 as [(->&H4&C4)|(->&C4)].
  - rewrite bool_decide_eq_false_2 by (intros E; by apply E).
    pose proof (nv_core_attempts _ _ C4) as A4.
    split; [by eapply nv_only_page_trans; [apply O3|apply O4]|]. split; [exact (eq_trans A4 A3)|].
    split; [done|]. left. split; [done|]. split; [by destruct Hcut|].
    rewrite C4. injection C3 as ????????. unfold core; cbn. congruence.
  - rewrite bool_decide_eq_true_2 by done. apply nv_core_fault in C4 as [C4 A4]; [|done].
    split; [by eapply nv_only_page_trans; [apply O3|apply O4]|]. split; [exact (eq_trans A4 A3)|].
    split; [done|]. right. by rewrite (proj1 (proj2 C4)).
Qed.

Lemma nv_verify_record g data d w t p :
  record_ok g data → 0 <= p < FLASH_NV_PAGE_COUNT → page_data d p = image g data →
  match verify_record d w t p g (blen data) with
  | Lost d' => Writer.same_pages d d'
  | Ret (r, d', _, t') =>
      Writer.same_pages d d' ∧ attempts_of t' = attempts_of t ∧
      ((r = (if recovered (nv_record_diagnostic t) then NV_RECORD_RECOVERED else NV_RECORD_OK) ∧
        core t' = core (finish (set_phase (set_selection t p (blen data) g) 8) r)) ∨ halted t' r)
  end.
Proof.
  intros Hok Hp Hpage. unfold verify_record.
  pose proof (nv_scan_page d (set_phase t 7) p false Hp) as H.
  destruct (scan_page d (set_phase t 7) p false) as [[[[s|] d1] t1]|d1]; [|destruct H as [S [r ->]]|done].
  - rewrite Hpage in H. destruct H as (S&(S1&S2&S3)&_&->).
    destruct (nv_image_info g data Hok) as (I1&I2&I3&_).
    rewrite S1, S2, S3, I1, I2, I3, bool_decide_eq_true_2, !Z.eqb_refl by done. cbn [negb orb].
    split; [done|]. split; [done|]. by left.
  - split; [done|]. split; [done|]. by right.
Qed.

Definition written (d : D) (w : Writer.writer) (t : nv) (img : bytes) (g n limit : Z)
    (x : outcome D (nv_record_result_t * D * Writer.writer * nv)) : Prop :=
  let s := nv_record_diagnostic t in let p := target s in
  let counted := set_attempts t p (u8 (sel (erase_attempts s) p + 1)) in
  let interrupted d' :=
    erase_unfinished d w p limit d' ∨ cut img (page_data d' p) in
  match x with
  | Lost d' => Writer.only_page p d d' ∧ interrupted d'
  | Ret (r, d', w', t') =>
      Writer.only_page p d d' ∧ attempts_of t' = attempts_of counted ∧
      ((page_data d' p = img ∧
        r = (if recovered s then NV_RECORD_RECOVERED else NV_RECORD_OK) ∧
        core t' = core (finish (set_phase (set_selection counted p n g) 8) r)) ∨
       (interrupted d' ∧ halted t' r))
  end.

Lemma nv_write_record d w t data limit :
  let x := nv_record_diagnostic t in let g := u32 (generation x + 1) in
  record_ok g data → 0 <= target x < FLASH_NV_PAGE_COUNT →
  written d w t (image g data) g (blen data) limit (write_record d w t data (blen data) limit).
Proof.
  cbv zeta. set (x := nv_record_diagnostic t). set (g := u32 (generation x + 1)).
  set (p := target x). intros Hok Hp. unfold Nv.write_record, written, erase_unfinished.
  fold x p g. cbv zeta. set (img := image g data). set (k := Z.to_nat _).
  set (h := record_header (blen data) g). set (foot := Crc.encode _).
  pose proof (nv_image_parts g data Hok) as (L&_&_&_&P3&P4&P5&_). fold img h foot in L, P3, P4, P5.
  pose proof (Writer.fw_erase writer_end d w p limit ltac:(lia)) as H1.
  destruct (Writer.flash_nv_erase writer_end d w p limit) as [[[r1 d1] w1]|d1];
    [|by split; [|left]].
  destruct H1 as [O1 H1]. case_bool_decide as E1;
    [split; [done|]; split; [done|]; right; by split; [left|]|].
  subst r1. specialize (H1 eq_refl). set (t1 := set_phase _ 4).
  assert (12 + blen data <= 4 * Z.of_nat k <= 2040) as Hk.
  { subst k. destruct Hok as (_&_&_&Hn). unfold NV_RECORD_MAX in Hn. rewrite Z2Nat.id by width. width. }
  pose proof (nv_program_body g data k d1 w1 t1 p 0 limit Hok
    ltac:(lia) ltac:(lia) ltac:(lia) (nv_prefix_erased _ _ _ H1)) as H2. fold h img in H2.
  destruct (program_body k d1 w1 t1 p 0 h data _ limit) as [[[[r2 d2] w2] t2]|d2].
  2: { destruct H2 as [O2 H2]. split; [by eapply nv_only_page_trans|]. right; by left. }
  destruct H2 as [O2 H2]. pose proof (nv_only_page_trans _ _ _ _ O1 O2) as O.
  destruct H2 as [(->&H2&C2)|(->&C2&H2)].
  2: { rewrite bool_decide_eq_true_2 by done. apply nv_core_fault in C2 as [C2 A2]; [|done].
       split; [done|]. split; [done|]. right. rewrite (proj1 (proj2 C2)). split; [right; by left|done]. }
  rewrite bool_decide_eq_false_2 by (intros E; by apply E).
  assert (prefix 2040 img (page_data d2 p)) as H2'.
  { intros i Hi. rewrite H2, Z.add_0_l by lia.
    destruct (i <? 4 * Z.of_nat k) eqn:?, (i <? 2040) eqn:?; try done; try lia. by rewrite P3 by lia. }
  pose proof (nv_seal_record img foot d2 w2 t2 p limit ltac:(lia) L
    (proj1 (Crc.crc_encode_ok _)) P4 P5 H2') as H3.
  destruct (seal_record d2 w2 t2 p foot limit) as [[[[r3 d3] w3] t3]|d3].
  2: { destruct H3 as [O3 H3]. split; [by eapply nv_only_page_trans|by right]. }
  destruct H3 as (O3&A3&Hc3&H3). pose proof (nv_only_page_trans _ _ _ _ O O3) as O'.
  pose proof (nv_core_attempts _ _ C2) as A2. rewrite A2 in A3.
  destruct H3 as [(->&H3&C3)|H3].
  2: { rewrite bool_decide_eq_true_2 by (intros ->; by destruct H3).
       split; [done|]. split; [done|]. right. by split; [right|]. }
  rewrite bool_decide_eq_false_2 by (intros E; by apply E).
  pose proof (nv_verify_record g data d3 w3 t3 p Hok Hp H3) as H4.
  destruct (verify_record d3 w3 t3 p g (blen data)) as [[[[r4 d4] w4] t4]|d4].
  2: { split; [intros q Hq; by rewrite H4, O'|]. right. by rewrite H4. }
  destruct H4 as (S4&A4&H4). rewrite A3 in A4.
  split; [intros q Hq; by rewrite S4, O'|]. split; [done|].
  destruct H4 as [[-> C4]|H4]; [left|right; split; [right; by rewrite S4|done]].
  split; [by rewrite S4|]. apply nv_core_fields in C2 as (F2&B2&_&R2).
  apply nv_core_fields in C3 as (F3&B3&_&R3).
  assert (recovered (nv_record_diagnostic t3) = recovered x) as Er
    by (etransitivity; [exact R3|exact R2]).
  rewrite Er in C4 |- *. split; [done|]. rewrite C4. apply nv_core_publish;
    [exact (eq_trans F3 F2)|exact (eq_trans B3 B2)|exact (eq_trans R3 R2)].
Qed.

(** ** Admission *)

(** The state reflects the selection of the medium, of verdict [r]. *)
Definition based (d : D) (t : nv) (r : nv_record_result_t) : Prop :=
  let x := nv_record_diagnostic t in
  r = (picks d).1 ∧
  if usable r then
    selected x = (picks d).2 ∧ generation x = sc_generation (info_of d (picks d).2) ∧
    recovered x = bool_decide (r = NV_RECORD_RECOVERED)
  else selected x = 255 ∧ generation x = 0 ∧ recovered x = false.

Lemma nv_based_chosen d t t' r c :
  picks d = (r, c) → core t' = core (chosen (begin t) r c (info_of d c)) →
  based d t' r ∧ attempts_of t' = attempts_of t ∧ nv_record_fault t' = nv_record_fault t.
Proof.
  intros Hp. unfold based, chosen. rewrite Hp. cbn [fst snd].
  destruct (usable r), (bool_decide (r = NV_RECORD_RECOVERED)); intros [= ????????]; cbn in *;
    done.
Qed.

Lemma nv_begin_replace d t :
  coherent d t → nv_record_fault t = NV_RECORD_OK →
  match (let '(resumed, t) := resume t in
         if resumed then Ret (NV_RECORD_OK, d, t) else select_record d t) with
  | Lost d' => Writer.same_pages d d'
  | Ret (r, d', t') =>
      Writer.same_pages d d' ∧ attempts_of t' = attempts_of t ∧
      ((r = NV_RECORD_READ_FAILED ∧ nv_record_fault t' = NV_RECORD_READ_FAILED) ∨
       (nv_record_fault t' = NV_RECORD_OK ∧ based d t' r))
  end.
Proof.
  intros Hco Hf. unfold resume. destruct (known (nv_record_diagnostic t)) eqn:Hk; cbn [negb].
  - destruct (Hco Hk) as (Hp&_&Hg). split; [by intros q|]. split; [done|]. right. split; [done|].
    unfold based. rewrite Hp. done.
  - pose proof (nv_select_record d (begin t)) as H.
    destruct (select_record d (begin t)) as [[[r d1] t1]|d1]; [|done].
    destruct H as [Hs [[-> H]|[-> H]]].
    + apply nv_core_fields in H as (F&A&_). split; [done|]. split; [done|]. by left.
    + destruct (picks d) as [r c] eqn:Hp. cbn [fst snd] in *.
      destruct (nv_based_chosen d t t1 r c Hp H) as (B&A&F).
      split; [done|]. split; [done|]. right. by rewrite F.
Qed.

Definition writable (r : nv_record_result_t) : bool := usable r || bool_decide (r = NV_RECORD_EMPTY).

(** A replacement is refused, leaving the medium and the counters alone, or it writes. *)
Lemma nv_replace_cases d w t address octets n limit allow :
  coherent d t → nv_record_fault t = NV_RECORD_OK → 0 <= n →
  match nv_record_replace d w t (Some (address, octets)) n limit allow with
  | Lost d' => Writer.same_pages d d'
  | Ret (r, d', _, t') =>
      Writer.same_pages d d' ∧ usable r = false ∧ attempts_of t' = attempts_of t ∧ coherent d' t' ∧
      (nv_record_fault t' = NV_RECORD_OK ∨ blocking (nv_record_fault t') = true)
  end ∨
  ∃ d1 t1 r0, Writer.same_pages d d1 ∧ attempts_of t1 = attempts_of t ∧
    nv_record_fault t1 = NV_RECORD_OK ∧ based d t1 r0 ∧
    writable r0 = true ∧ (r0 = NV_RECORD_RECOVERED → allow ≠ 0) ∧
    generation (nv_record_diagnostic t1) ≠ 0xffffffff ∧
    sel (attempts_of t1) (target (nv_record_diagnostic t1)) < NV_RECORD_ERASE_LIMIT ∧
    1 <= n <= NV_RECORD_MAX ∧
    nv_record_replace d w t (Some (address, octets)) n limit allow
    = write_record d1 w t1 (slice octets 0 n) n limit.
Proof.
  intros Hco Hf Hn. unfold Nv.nv_record_replace. rewrite Hf.
  pose proof (nv_begin_replace d t Hco Hf) as H.
  destruct ((n =? 0) || _ || _ || _) eqn:E1; [left; do 4 (split; [done|]); by left|].
  destruct (negb (caller _ _ _)); [left; do 4 (split; [done|]); by left|].
  destruct (resume t) as [resumed t0].
  destruct (if resumed then _ else _) as [[[r d1] t1]|d1]; [|by left].
  destruct H as (Hs&Ha&H).
  assert (nv_record_fault t1 = NV_RECORD_OK ∨ blocking (nv_record_fault t1) = true) as Hb1
    by (destruct H as [[_ ->]|[-> _]]; auto).
  destruct (bool_decide (r = NV_RECORD_RECOVERED) && (allow =? 0)) eqn:E0; [left|].
  { split; [done|]. split; [done|]. split; [done|]. split; [by apply nv_coherent_result|done]. }
  destruct (bool_decide (r ≠ NV_RECORD_OK) && _ && _) eqn:E2.
  { left. split; [done|]. split; [by destruct r|]. split; [done|].
    split; [apply nv_coherent_result; by destruct r|done]. }
  assert (writable r = true) as Hw by (by destruct r).
  destruct H as [[-> _]|[Hf1 Hb]]; [done|].
  destruct (generation (nv_record_diagnostic t1) =? 0xffffffff) eqn:E3.
  { left. split; [done|]. split; [done|]. split; [done|]. split; [by apply nv_coherent_result|done]. }
  destruct (NV_RECORD_ERASE_LIMIT <=? _) eqn:E4.
  { left. split; [done|]. split; [done|]. split; [done|]. split; [by apply nv_coherent_result|done]. }
  right. exists d1, t1, r. unfold attempts_of in *.
  split; [done|]. split; [done|]. split; [done|]. split; [done|]. split; [done|].
  split; [intros -> Ha0; by rewrite Ha0 in E0|]. split; [lia|]. split; [lia|]. split; [lia|done].
Qed.

(** ** The selection after a write *)
Lemma nv_target d t r0 : based d t r0 → writable r0 = true →
  let q := target (nv_record_diagnostic t) in
  0 <= q < FLASH_NV_PAGE_COUNT ∧
  (if usable r0 then (picks d).2 = 1 - q else q = 0 ∧ picks d = (NV_RECORD_EMPTY, 255)).
Proof.
  intros [-> Hb] Hw. destruct (picks d) as [r c] eqn:Hp. cbn [fst snd] in *.
  pose proof (nv_pick_range _ _ _ _ Hp) as Hr. unfold target, FLASH_NV_PAGE_COUNT.
  destruct (usable r) eqn:Hu.
  - destruct Hb as (->&_). by destruct Hr as [-> | ->].
  - destruct Hb as (->&_). subst c. split; [done|]. split; [done|].
    unfold writable in Hw. rewrite Hu in Hw. by apply bool_decide_eq_true in Hw as ->.
Qed.

Lemma nv_generation_u32 d p : is_u32 (sc_generation (info_of d p)).
Proof.
  unfold info_of, info, record_generation, Crc.decode; cbn [sc_generation].
  apply Crc.crc_word32_range; apply rd_is_u8, is_bytes_slice, page_data_bytes.
Qed.

(** What the journal holds: the octets of the record in force, if there is one. *)
Definition record_of (d : D) : option bytes :=
  let '(r, c) := picks d in
  if usable r then Some (slice (sc_stage (info_of d c)) 0 (sc_length (info_of d c))) else None.

Lemma nv_pick_empty s0 s1 c :
  pick s0 s1 = (NV_RECORD_EMPTY, c) → sc_state s0 = NV_PAGE_EMPTY ∧ sc_state s1 = NV_PAGE_EMPTY.
Proof.
  unfold pick, is_state. destruct (_ || _); [done|].
  destruct (bool_decide (sc_state s0 = NV_PAGE_VALID)), (bool_decide (sc_state s1 = NV_PAGE_VALID)).
  - destruct (_ <? _); by destruct (_ || _).
  - by destruct (bool_decide _).
  - by destruct (bool_decide _).
  - destruct (bool_decide (sc_state s0 = NV_PAGE_EMPTY)) eqn:E0,
      (bool_decide (sc_state s1 = NV_PAGE_EMPTY)) eqn:E1; try done.
    by apply bool_decide_eq_true in E0, E1.
Qed.

(** A page without a commit word changes nothing about the other one. *)
Lemma nv_pick_unsealed s s' :
  sc_state s = NV_PAGE_EMPTY ∨ sc_state s = NV_PAGE_INCOMPLETE →
  match sc_state s' with
  | NV_PAGE_VALID => usable (pick s s').1 = true ∧ (pick s s').2 = 1 ∧
                     usable (pick s' s).1 = true ∧ (pick s' s).2 = 0
  | NV_PAGE_EMPTY => usable (pick s s').1 = false ∧ usable (pick s' s).1 = false
  | _ => True
  end.
Proof. unfold pick, is_state. intros [-> | ->]; destruct (sc_state s'); done. Qed.

(** A sealed page with the next generation is selected. *)
Lemma nv_pick_next s s' g :
  sc_state s = NV_PAGE_VALID → sc_generation s = g + 1 → 0 <= g < 0xffffffff →
  (sc_state s' = NV_PAGE_VALID ∧ sc_generation s' = g) ∨ sc_state s' = NV_PAGE_EMPTY →
  pick s s' = (NV_RECORD_OK, 0) ∧ pick s' s = (NV_RECORD_OK, 1).
Proof.
  intros E1 E2 Hg [[E3 E4]|E3]; unfold pick, is_state; rewrite E1, E3; [|done].
  rewrite E2, E4. change (bool_decide (NV_PAGE_VALID = NV_PAGE_UNSUPPORTED)) with false.
  change (bool_decide (NV_PAGE_VALID = NV_PAGE_VALID)) with true. cbn [orb].
  replace (g + 1 <? g) with false by lia. replace (g <? g + 1) with true by lia.
  replace (g + 1 =? 0) with false by lia. replace (g + 1 - g) with 1 by lia.
  change (negb (u32 1 =? 1)) with false. done.
Qed.

(** The page that is not the target, under a medium a write may start from. *)
Lemma nv_other_page d t r0 :
  based d t r0 → writable r0 = true →
  let q := target (nv_record_diagnostic t) in let g := generation (nv_record_diagnostic t) in
  if usable r0 then
    sc_state (info_of d (1 - q)) = NV_PAGE_VALID ∧ sc_generation (info_of d (1 - q)) = g
  else sc_state (info_of d (1 - q)) = NV_PAGE_EMPTY ∧ g = 0 ∧ record_of d = None.
Proof.
  intros Hb Hw. destruct (nv_target d t r0 Hb Hw) as [Hq H]. destruct Hb as [Hr Hb]. cbv zeta in *.
  destruct (usable r0) eqn:Hu.
  - rewrite <- H. destruct Hb as (_&->&_). split; [|done].
    destruct (picks d) as [r c] eqn:Hp. cbn [fst snd] in *. subst r.
    pose proof (nv_pick_valid _ _ _ _ Hp Hu) as Hv.
    pose proof (nv_pick_range _ _ _ _ Hp) as Hc. rewrite Hu in Hc. by destruct Hc as [-> | ->].
  - destruct H as [-> Hp]. destruct Hb as (_&->&_). unfold record_of. rewrite Hp.
    by destruct (nv_pick_empty _ _ _ Hp).
Qed.

Lemma nv_picks_two (q : Z) d : q = 0 ∨ q = 1 →
  picks d = (if q =? 0 then pick (info_of d q) (info_of d (1 - q))
             else pick (info_of d (1 - q)) (info_of d q)).
Proof. by intros [-> | ->]. Qed.

Lemma nv_record_torn d d' t r0 :
  based d t r0 → writable r0 = true →
  let q := target (nv_record_diagnostic t) in
  Writer.only_page q d d' → torn (page_data d' q) → record_of d' = record_of d.
Proof.
  intros Hb Hw q Ho Ht. pose proof (nv_other_page d t r0 Hb Hw) as H. cbv zeta in H. fold q in H.
  destruct (nv_target d t r0 Hb Hw) as [Hq Hc]. fold q in Hq, Hc. unfold FLASH_NV_PAGE_COUNT in Hq.
  assert (info_of d' (1 - q) = info_of d (1 - q)) as Ei
    by (unfold info_of; rewrite Ho by lia; done).
  pose proof (nv_pick_unsealed (info_of d' q) (info_of d' (1 - q)) (nv_torn _ Ht)) as Hp.
  rewrite <- Ei in H. unfold record_of. rewrite (nv_picks_two q d') by lia.
  destruct (usable r0) eqn:Hu.
  - destruct H as [Hv _]. rewrite Hv in Hp. destruct Hp as (P1&P2&P3&P4). destruct Hb as [Hr _].
    destruct (picks d) as [r c]. cbn [fst snd] in *. subst r c. rewrite Hu.
    destruct (q =? 0) eqn:Eq.
    + destruct (pick (info_of d' q) _) as [r c]. cbn [fst snd] in *. subst c. rewrite P1.
      replace 1 with (1 - q) at 1 2 by lia. by rewrite Ei.
    + destruct (pick (info_of d' (1 - q)) _) as [r c]. cbn [fst snd] in *. subst c. rewrite P3.
      replace 0 with (1 - q) at 1 3 by lia. by rewrite Ei.
  - destruct H as (Hv&_&Hn). rewrite Hv in Hp. unfold record_of in Hn. rewrite Hn.
    destruct Hp as [P1 P2]. destruct (q =? 0).
    + destruct (pick (info_of d' q) _) as [r c]. cbn [fst] in P1. by rewrite P1.
    + destruct (pick (info_of d' (1 - q)) _) as [r c]. cbn [fst] in P2. by rewrite P2.
Qed.

Lemma nv_record_new d d' t r0 data :
  based d t r0 → writable r0 = true →
  let q := target (nv_record_diagnostic t) in
  let g := u32 (generation (nv_record_diagnostic t) + 1) in
  generation (nv_record_diagnostic t) ≠ 0xffffffff → record_ok g data →
  Writer.only_page q d d' → page_data d' q = image g data →
  picks d' = (NV_RECORD_OK, q) ∧ sc_length (info_of d' q) = blen data ∧
  sc_generation (info_of d' q) = g ∧ slice (sc_stage (info_of d' q)) 0 (blen data) = data ∧
  record_of d' = Some data.
Proof.
  intros Hb Hw q g Hg Hok Ho Hpage.
  destruct (nv_image_info g data Hok) as (I1&I2&I3&I4).
  assert (info_of d' q = info (image g data)) as Ei by (unfold info_of; by rewrite Hpage).
  pose proof (nv_other_page d t r0 Hb Hw) as H. cbv zeta in H. fold q in H.
  destruct (nv_target d t r0 Hb Hw) as [Hq Hc]. fold q in Hq, Hc. unfold FLASH_NV_PAGE_COUNT in Hq.
  assert (info_of d' (1 - q) = info_of d (1 - q)) as Eo
    by (unfold info_of; rewrite Ho by lia; done).
  assert (0 <= generation (nv_record_diagnostic t) < 0xffffffff) as Hgr.
  { pose proof (nv_generation_u32 d (1 - q)) as Hu32. unfold is_u32 in Hu32.
    destruct (usable r0); [destruct H as [_ E]|destruct H as (_&E&_)]; lia. }
  assert (picks d' = (NV_RECORD_OK, q)) as Hp.
  { rewrite (nv_picks_two q d') by lia. rewrite Ei, Eo.
    destruct (nv_pick_next (info (image g data)) (info_of d (1 - q)) (generation (nv_record_diagnostic t)))
      as [P1 P2]; [done| |done| |].
    - rewrite I2. subst g. apply u32_id. unfold is_u32. lia.
    - destruct (usable r0); [by left|right; apply H].
    - destruct (q =? 0) eqn:?; [rewrite P1|rewrite P2]; f_equal; lia. }
  unfold record_of. rewrite Hp, Ei, I3, I4. done.
Qed.

Lemma nv_slice_record_ok octets n g :
  is_bytes octets → n <= blen octets → 1 <= n <= NV_RECORD_MAX → is_u32 g → g ≠ 0 →
  record_ok g (slice octets 0 n) ∧ blen (slice octets 0 n) = n.
Proof.
  intros Hb Hn Hr Hg Hg0. assert (blen (slice octets 0 n) = n) as E by (apply blen_slice; lia).
  unfold record_ok. rewrite E. split; [|done]. split; [done|]. split; [done|].
  split; [by apply is_bytes_slice|done].
Qed.
Lemma nv_next_generation d t r0 :
  based d t r0 → generation (nv_record_diagnostic t) ≠ 0xffffffff →
  is_u32 (u32 (generation (nv_record_diagnostic t) + 1)) ∧
  u32 (generation (nv_record_diagnostic t) + 1) ≠ 0.
Proof.
  intros [_ Hb] Hg. split; [apply u32_range|].
  assert (is_u32 (generation (nv_record_diagnostic t))) as Hu.
  { destruct (usable r0); destruct Hb as (_&->&_); [apply nv_generation_u32|done]. }
  rewrite u32_id; unfold is_u32 in *; lia.
Qed.
Lemma nv_based_same d d' t r0 : Writer.same_pages d d' → based d t r0 → based d' t r0.
Proof.
  intros Hs. unfold based. destruct (nv_same_picks d d' Hs) as [-> Hi]. by rewrite Hi.
Qed.
Lemma nv_record_of_same d d' : Writer.same_pages d d' → record_of d' = record_of d.
Proof.
  intros Hs. unfold record_of. destruct (nv_same_picks d d' Hs) as [-> Hi].
  destruct (picks d). by rewrite Hi.
Qed.

(** What a write does, in terms of the records. *)
Lemma nv_written d w t r0 octets n limit :
  based d t r0 → writable r0 = true → generation (nv_record_diagnostic t) ≠ 0xffffffff →
  is_bytes octets → n <= blen octets → 1 <= n <= NV_RECORD_MAX →
  let g := u32 (generation (nv_record_diagnostic t) + 1) in
  let data := slice octets 0 n in
  record_ok g data ∧ blen data = n ∧
  written d w t (image g data) g n limit (write_record d w t data n limit).
Proof.
  intros Hb Hw Hg Ho Hn Hr. cbv zeta.
  destruct (nv_next_generation d t r0 Hb Hg) as [G1 G2].
  destruct (nv_slice_record_ok octets n _ Ho Hn Hr G1 G2) as [Hok Hl].
  split; [done|]. split; [done|]. rewrite <- Hl at 2 4.
  apply nv_write_record; [done|]. by destruct (nv_target d t r0 Hb Hw).
Qed.

(** C11: a reported replacement is durable: when it returns success, every later load with
    room for the record, by this run or after any reset, is entitled to exactly the octets
    given, with the clean verdict, and the state kept in memory agrees with the medium. *)
Theorem nv_replace_durable d w t address octets n limit allow r d' w' t' :
  coherent d t → nv_record_fault t = NV_RECORD_OK → is_bytes octets → 0 <= n <= blen octets →
  nv_record_replace d w t (Some (address, octets)) n limit allow = Ret (r, d', w', t') →
  usable r = true →
  coherent d' t' ∧ record_of d' = Some (slice octets 0 n) ∧
  ∀ capacity, n <= capacity → load_spec d' capacity = (NV_RECORD_OK, Some (slice octets 0 n)).
Proof.
  intros Hco Hf Hb Hn H Hu.
  destruct (nv_replace_cases d w t address octets n limit allow Hco Hf (proj1 Hn))
    as [E|(d1&t1&r0&Hs&_&_&Hba&Hw&_&Hg&_&Hr&E)]; [rewrite H in E; destruct E as (_&E&_); congruence|].
  rewrite H in E. apply (nv_based_same d d1) in Hba; [|done].
  destruct (nv_written d1 w t1 r0 octets n limit Hba Hw Hg Hb (proj2 Hn) Hr) as (Hok&Hl&Hwr).
  rewrite <- E in Hwr. destruct Hwr as (O&_&[(P&R&C)|[_ [F _]]]); [|by destruct r].
  destruct (nv_record_new d1 d' t1 r0 _ Hba Hw Hg Hok O P) as (N1&N2&N3&N4&N5).
  split; [|split; [done|]].
  - intros _. injection C as ????????. cbn in *. rewrite N1. split; [congruence|].
    split; [|congruence]. rewrite Hl in N2. congruence.
  - intros capacity Hc. unfold load_spec. rewrite N1, N2, N4, Hl.
    change (usable NV_RECORD_OK) with true. cbv iota. by replace (capacity <? n) with false by lia.
Qed.

(** C5: an interrupted replacement is safe. Wherever the processor stops inside it, and
    wherever it gives up with an error, the journal afterwards holds the record it held
    before (none if there was none) or the new one complete; the one exception is an erase
    cut off while the target page still shows its old commit word, and even then the target
    is not the page of the record in force, which stands unchanged. *)
Theorem nv_replace_interrupted d w t address octets n limit allow d' :
  coherent d t → nv_record_fault t = NV_RECORD_OK → is_bytes octets → 0 <= n <= blen octets →
  match nv_record_replace d w t (Some (address, octets)) n limit allow with
  | Lost d1 => d1 = d'
  | Ret (r, d1, _, _) => usable r = false ∧ d1 = d'
  end →
  record_of d' = record_of d ∨ record_of d' = Some (slice octets 0 n) ∨
  ∃ q d1, q ≠ (picks d).2 ∧ Writer.only_page q d d' ∧ slice (page_data d' q) 2044 4 = commit ∧
          Writer.same_pages d d1 ∧ erase_unfinished d1 w q limit d'.
Proof.
  intros Hco Hf Hb Hn H.
  destruct (nv_replace_cases d w t address octets n limit allow Hco Hf (proj1 Hn))
    as [E|(d1&t1&r0&Hs&_&_&Hba&Hw&_&Hg&_&Hr&E)].
  { left. apply nv_record_of_same.
    destruct (nv_record_replace d w t _ n limit allow) as [[[[r d1] w1] t1]|d1].
    - destruct H as [_ ->]. by destruct E.
    - by subst. }
  rewrite E in H. pose proof (nv_based_same d d1 _ _ Hs Hba) as Hba1.
  destruct (nv_written d1 w t1 r0 octets n limit Hba1 Hw Hg Hb (proj2 Hn) Hr) as (Hok&Hl&Hwr).
  set (q := target (nv_record_diagnostic t1)) in *.
  assert (Writer.only_page q d1 d' ∧
    (erase_unfinished d1 w q limit d' ∨
     cut (image (u32 (generation (nv_record_diagnostic t1) + 1)) (slice octets 0 n)) (page_data d' q)))
    as [O I].
  { unfold written in Hwr.
    destruct (write_record d1 w t1 (slice octets 0 n) n limit) as [[[[r d2] w2] t2]|d2].
    - destruct H as [Hu ->]. destruct Hwr as (O&_&[(P&R&_)|[I _]]); [|by split].
      destruct (recovered _); by subst r.
    - by subst d2. }
  assert (Writer.only_page q d d') as O' by (intros p Hp; by rewrite O, Hs).
  destruct (decide (slice (page_data d' q) 2044 4 = commit)) as [Hc|Hc].
  - destruct I as [I|[I|I]]; [right; right|done|right; left].
    + exists q, d1. split; [|done]. destruct (nv_target d t1 r0 Hba Hw) as [Hq Hp]. fold q in Hq, Hp.
      unfold FLASH_NV_PAGE_COUNT in Hq.
      destruct (usable r0); [lia|]. destruct Hp as [_ ->]. simpl. lia.
    + apply (nv_record_new d1 d' t1 r0 _ Hba1 Hw Hg Hok O I).
  - left. rewrite (nv_record_torn d d' t1 r0 Hba Hw O' Hc). done.
Qed.

(** C13: wear is bounded: a replacement that returns has erased or programmed a page only if
    it counted an attempt for it, from below the limit of 32; a page at its limit is never
    touched again in the run. *)
Theorem nv_erase_budget d w t address octets n limit allow r d' w' t' p :
  coherent d t → nv_record_fault t = NV_RECORD_OK → is_bytes octets → 0 <= n <= blen octets →
  p = 0 ∨ p = 1 → 0 <= sel (attempts_of t) p <= NV_RECORD_ERASE_LIMIT →
  nv_record_replace d w t (Some (address, octets)) n limit allow = Ret (r, d', w', t') →
  (sel (attempts_of t') p = sel (attempts_of t) p ∧ page_data d' p = page_data d p) ∨
  (sel (attempts_of t') p = sel (attempts_of t) p + 1 ∧
   sel (attempts_of t') p <= NV_RECORD_ERASE_LIMIT).
Proof.
  intros Hco Hf Hb Hn Hp Hlim H. unfold NV_RECORD_ERASE_LIMIT in *.
  destruct (nv_replace_cases d w t address octets n limit allow Hco Hf (proj1 Hn))
    as [E|(d1&t1&r0&Hs&Ha&_&Hba&Hw&_&Hg&Hl&Hr&E)]; rewrite H in E.
  { left. destruct E as (Hs&_&->&_). by rewrite Hs. }
  apply (nv_based_same d d1) in Hba; [|done].
  destruct (nv_written d1 w t1 r0 octets n limit Hba Hw Hg Hb (proj2 Hn) Hr) as (_&_&Hwr).
  rewrite <- E in Hwr. destruct Hwr as (O&A&_). unfold NV_RECORD_ERASE_LIMIT in Hl.
  set (q := target (nv_record_diagnostic t1)) in *.
  destruct (nv_target d1 t1 r0 Hba Hw) as [Hq _]. fold q in Hq. unfold FLASH_NV_PAGE_COUNT in Hq.
  unfold attempts_of in A at 2. cbn in A. fold (attempts_of t1) in A. rewrite Ha in A, Hl.
  rewrite A. destruct (decide (p = q)) as [->|Hne]; [right|left].
  - assert (∀ v, sel (upd (attempts_of t) q v) q = v) as ->
      by (intros; unfold sel, upd; by destruct (q =? 0)).
    rewrite u8_id by (unfold is_u8; lia). split; [done|lia].
  - split; [|by rewrite O, Hs]. unfold sel, upd.
    destruct (q =? 0) eqn:?, (p =? 0) eqn:?; (done || lia).
Qed.
End Replace.

(** ** Concrete instances

    A blank partition or one that holds a record, the private objects below 0x500 and the
    caller's data at 0x600.  The replacement of [sample_stop] is stopped after two octets of
    its commit word. *)
Definition blank : scripted :=
  {| page0 := replicate 2048 255; page1 := replicate 2048 255; script := [] |}.
Definition first_data : bytes := [11; 22; 33; 44; 55].
Definition second_data : bytes := [9; 8; 7].
Definition holding (s : list event) : scripted :=
  {| page0 := image 1 first_data; page1 := replicate 2048 255; script := s |}.
Definition stored (x : outcome scripted (nv_record_result_t * scripted * Writer.writer * nv))
    : scripted * Writer.writer * nv :=
  match x with
  | Ret (_, d, w, t) => (d, w, t) | Lost d => (d, Writer.reset_writer, reset_nv)
  end.
Definition code {A B} (x : outcome scripted (nv_record_result_t * scripted * A * B)) :=
  match x with Ret (r, _, _, _) => Some r | Lost _ => None end.
Definition sample_first : scripted * Writer.writer * nv :=
  stored (nv_record_replace 0x300 0x500 0x400 blank Writer.reset_writer reset_nv
            (Some (0x600, first_data)) 5 2000 0).
Definition sample_stop : scripted := holding (replicate 210 Works ++ [Stops 2]).
Definition sample_cut : scripted * Writer.writer * nv :=
  stored (nv_record_replace 0x300 0x500 0x400 sample_stop Writer.reset_writer reset_nv
            (Some (0x600, second_data)) 3 2000 0).

Lemma nv_reset_coherent (d : scripted) : coherent d reset_nv.
Proof. by intros E. Qed.
Lemma nv_stored x r : code x = Some r → x = Ret (r, (stored x).1.1, (stored x).1.2, (stored x).2).
Proof. by destruct x as [[[[r' d] w] t]|d]; intros [= ->]. Qed.
Lemma nv_stored_lost x : code x = None → x = Lost (stored x).1.1.
Proof. by destruct x as [[[[r' d] w] t]|d]. Qed.
Lemma nv_sample_first :
  nv_record_replace 0x300 0x500 0x400 blank Writer.reset_writer reset_nv
    (Some (0x600, first_data)) 5 2000 0
  = Ret (NV_RECORD_OK, sample_first.1.1, sample_first.1.2, sample_first.2).
Proof. apply nv_stored. vm_compute. reflexivity. Qed.
Lemma nv_sample_cut :
  nv_record_replace 0x300 0x500 0x400 sample_stop Writer.reset_writer reset_nv
    (Some (0x600, second_data)) 3 2000 0 = Lost sample_cut.1.1.
Proof. apply nv_stored_lost. vm_compute. reflexivity. Qed.

Lemma nv_record_load_correct_witness :
  ∃ r out d t, nv_record_load 0x500 (holding []) reset_nv (Some 0x600) 16 = Ret (r, out, d, t) ∧
    (r, out) = (NV_RECORD_OK, Some first_data) ∧
    (r = NV_RECORD_READ_FAILED ∨ (r, out) = load_spec (holding []) 16).
Proof.
  assert (match nv_record_load 0x500 (holding []) reset_nv (Some 0x600) 16 with
          | Ret (r, out, _, _) => (r, out) = (NV_RECORD_OK, Some first_data)
          | Lost _ => False end) as H by (vm_compute; reflexivity).
  destruct (nv_record_load 0x500 (holding []) reset_nv (Some 0x600) 16)
    as [[[[r out] d] t]|d] eqn:E; [|destruct H].
  exists r, out, d, t. split; [reflexivity|]. split; [exact H|].
  destruct (nv_record_load_correct 0x500 (holding []) reset_nv 0x600 16 r out d t
    (nv_reset_coherent _) eq_refl eq_refl ltac:(done) E) as (_&_&[(F&_)|(F&_)]); [by left|by right].
Defined.

Lemma nv_replace_durable_witness :
  load_spec sample_first.1.1 5 = (NV_RECORD_OK, Some first_data).
Proof.
  refine (proj2 (proj2 (nv_replace_durable 0x300 0x500 0x400 blank Writer.reset_writer reset_nv
    0x600 first_data 5 2000 0 NV_RECORD_OK sample_first.1.1 sample_first.1.2 sample_first.2
    (nv_reset_coherent _) _ _ _ nv_sample_first _)) 5 _); concrete.
Defined.

Lemma nv_replace_interrupted_witness :
  record_of sample_cut.1.1 = record_of sample_stop ∨
  record_of sample_cut.1.1 = Some second_data ∨
  ∃ q d1, q ≠ (picks sample_stop).2 ∧ Writer.only_page q sample_stop sample_cut.1.1 ∧
    slice (page_data sample_cut.1.1 q) 2044 4 = commit ∧
    Writer.same_pages sample_stop d1 ∧
    erase_unfinished 0x300 d1 Writer.reset_writer q 2000 sample_cut.1.1.
Proof.
  refine (nv_replace_interrupted 0x300 0x500 0x400 sample_stop Writer.reset_writer reset_nv 0x600
    second_data 3 2000 0 sample_cut.1.1 (nv_reset_coherent _) eq_refl _ _ _); [concrete..|].
  rewrite nv_sample_cut. exact eq_refl.
Defined.

Lemma nv_erase_budget_witness :
  (sel (attempts_of sample_first.2) 0 = 0 ∧
   page_data sample_first.1.1 0 = page_data blank 0) ∨
  (sel (attempts_of sample_first.2) 0 = 0 + 1 ∧
   sel (attempts_of sample_first.2) 0 <= NV_RECORD_ERASE_LIMIT).
Proof.
  refine (nv_erase_budget 0x300 0x500 0x400 blank Writer.reset_writer reset_nv
    0x600 first_data 5 2000 0 NV_RECORD_OK sample_first.1.1 sample_first.1.2 sample_first.2 0
    (nv_reset_coherent _) _ _ _ _ _ nv_sample_first); concrete.
Defined.
End NvReplace.
