(* ===== verification/Journal.v ===== *)
(** What the record journal promises its owner: the class [Journal], and the instance that
    src/src/nv_record.c provides.  The owner sees one record, its generation, and a medium
    that survives when the processor stops. *)
From S2P Require Import Prelude Flash FlashWrite Crc NvRecord NvScan NvSafety NvReplace.

Module Journal.
Import Flash Nv NvScan NvSafety NvReplace.

(** What a medium holds: nothing, a record with its generation, or nothing usable. *)
Inductive contents :=
  | Blank
  | Holds (g : Z) (b : bytes)
  | Damaged.

(** What an unfinished replacement by [b] may have made of [old]. *)
Definition settles (old : contents) (b : bytes) (new : contents) : Prop :=
  new = old ∨ new = Damaged ∨ ∃ g, new = Holds g b.

Class Journal (M J : Type) := {
  medium : J → M;
  reboot : M → J;                (* the state after a reset *)
  sound : J → Prop;
  held : M → contents;
  status_generation : J → Z;     (* [nv_record_status()->generation] *)
  status_length : J → Z;
  load : J → Z → Z → outcome M (nv_record_result_t * option bytes * J);
  replace : J → Z * bytes → Z → Z → Z → outcome M (nv_record_result_t * J);
  reboot_law : ∀ m, sound (reboot m) ∧ medium (reboot m) = m;
  load_lost : ∀ j a cap m, sound j → load j a cap = Lost m → held m = held (medium j);
  load_law : ∀ j a cap r out j', sound j → load j a cap = Ret (r, out, j') →
    sound j' ∧ held (medium j') = held (medium j) ∧
    match r with
    | NV_RECORD_OK => ∃ g b, held (medium j) = Holds g b ∧ out = Some b ∧ is_bytes b ∧
                             1 <= blen b <= NV_RECORD_MAX ∧ g ≠ 0 ∧
                             status_generation j' = g ∧ status_length j' = blen b
    | NV_RECORD_EMPTY => held (medium j) = Blank ∧ out = None
    | NV_RECORD_RECOVERED => ∃ b, out = Some b ∧ is_bytes b ∧ blen b <= NV_RECORD_MAX
    | _ => out = None
    end;
  replace_lost : ∀ j a b n limit m, sound j → is_bytes b → 0 <= n <= blen b →
    replace j (a, b) n limit 0 = Lost m → settles (held (medium j)) (slice b 0 n) (held m);
  replace_law : ∀ j a b n limit r j', sound j → is_bytes b → 0 <= n <= blen b →
    replace j (a, b) n limit 0 = Ret (r, j') →
    sound j' ∧
    if decide (r = NV_RECORD_OK)
    then held (medium j') = Holds (status_generation j') (slice b 0 n) ∧
         status_generation j' ≠ 0
    else settles (held (medium j)) (slice b 0 n) (held (medium j'))
}.

(** ** The implementation *)
Section Nv.
Context {D : Type} `{!FlashDevice D}.
Variables (writer_end nv_reserved_end nv_word_at : Z).

(** CRC-32 and the fixed header detect an erase that was cut off: if its page still reads as
    a valid record, the erase has done nothing. *)
Hypothesis erase_detected : ∀ d w q limit d',
  0 <= q < FLASH_NV_PAGE_COUNT → erase_unfinished writer_end d w q limit d' →
  sc_state (info_of d' q) = NV_PAGE_VALID → page_data d' q = page_data d q.

Definition contents_of (d : D) : contents :=
  let '(r, c) := picks d in
  if usable r then
    Holds (sc_generation (info_of d c)) (slice (sc_stage (info_of d c)) 0 (sc_length (info_of d c)))
  else if bool_decide (r = NV_RECORD_EMPTY) then Blank else Damaged.
Definition nv_sound (d : D) (t : nv) : Prop :=
  (nv_record_fault t = NV_RECORD_OK ∧ coherent d t) ∨ blocking (nv_record_fault t) = true.

Lemma nv_contents_same d d' : Writer.same_pages d d' → contents_of d' = contents_of d.
Proof.
  intros Hs. unfold contents_of. destruct (nv_same_picks d d' Hs) as [-> Hi].
  destruct (picks d). by rewrite Hi.
Qed.

(** A page that is not valid hides nothing of the other one but its verdict. *)
Lemma nv_pick_not_valid s s' :
  sc_state s ≠ NV_PAGE_VALID →
  match sc_state s' with
  | NV_PAGE_VALID =>
      (usable (pick s s').1 = true ∧ (pick s s').2 = 1 ∨ pick s s' = (NV_RECORD_UNSUPPORTED, 255)) ∧
      (usable (pick s' s).1 = true ∧ (pick s' s).2 = 0 ∨ pick s' s = (NV_RECORD_UNSUPPORTED, 255))
  | NV_PAGE_EMPTY => usable (pick s s').1 = false ∧ usable (pick s' s).1 = false
  | _ => True
  end.
Proof.
  intros H. unfold pick, is_state. destruct (sc_state s), (sc_state s'); try done; simpl; auto.
Qed.

Lemma nv_contents_invalid d d' t r0 :
  based d t r0 → writable r0 = true →
  let q := target (nv_record_diagnostic t) in
  Writer.only_page q d d' → sc_state (info_of d' q) ≠ NV_PAGE_VALID →
  contents_of d' = contents_of d ∨ contents_of d' = Damaged.
Proof.
  intros Hb Hw q Ho Hv. pose proof (nv_other_page d t r0 Hb Hw) as H. cbv zeta in H. fold q in H.
  destruct (nv_target d t r0 Hb Hw) as [Hq Hc]. fold q in Hq, Hc. unfold FLASH_NV_PAGE_COUNT in Hq.
  assert (info_of d' (1 - q) = info_of d (1 - q)) as Ei
    by (unfold info_of; rewrite Ho by lia; done).
  pose proof (nv_pick_not_valid (info_of d' q) (info_of d' (1 - q)) Hv) as Hp.
  rewrite <- Ei in H. unfold contents_of. rewrite (nv_picks_two q d') by lia.
  destruct (usable r0) eqn:Hu.
  - destruct H as [Hv' _]. rewrite Hv' in Hp. destruct Hb as [Hr _].
    destruct (picks d) as [r c]. cbn [fst snd] in *. subst r c. rewrite Hu.
    assert (q = 0 ∨ q = 1) as [E|E] by lia; rewrite E in *; cbn [Z.eqb].
    + destruct (pick (info_of d' 0) _) as [r c]. destruct Hp as [[[P1 P2]|[= -> ->]] _]; [|by right].
      left. cbn [fst snd] in *. subst c. rewrite P1. change (1 - 0) with 1 in *. by rewrite Ei.
    + change (1 =? 0) with false. cbv iota. change (1 - 1) with 0 in *.
      destruct (pick (info_of d' 0) _) as [r c]. destruct Hp as [_ [[P1 P2]|[= -> ->]]]; [|by right].
      left. cbn [fst snd] in *. subst c. rewrite P1. by rewrite Ei.
  - destruct H as (Hv'&_&_). rewrite Hv' in Hp. destruct Hc as [_ ->]. cbn [usable].
    change (bool_decide (NV_RECORD_EMPTY = NV_RECORD_EMPTY)) with true.
    destruct Hp as [P1 P2]. destruct (q =? 0).
    + destruct (pick (info_of d' q) _) as [r c]. cbn [fst] in P1. rewrite P1.
      destruct (bool_decide _); auto.
    + destruct (pick (info_of d' (1 - q)) _) as [r c]. cbn [fst] in P2. rewrite P2.
      destruct (bool_decide _); auto.
Qed.

Lemma nv_contents_new d d' t r0 data :
  based d t r0 → writable r0 = true →
  let q := target (nv_record_diagnostic t) in
  let g := u32 (generation (nv_record_diagnostic t) + 1) in
  generation (nv_record_diagnostic t) ≠ 0xffffffff → record_ok g data →
  Writer.only_page q d d' → page_data d' q = image g data → contents_of d' = Holds g data.
Proof.
  intros Hb Hw q g Hg Hok Ho Hpage.
  destruct (nv_record_new d d' t r0 data Hb Hw Hg Hok Ho Hpage) as (N1&N2&N3&N4&_).
  fold q in N1, N2, N3, N4. fold g in N3. unfold contents_of. by rewrite N1, N2, N3, N4.
Qed.

(** A write that stopped or failed. *)
Lemma nv_settles d d1 w t r0 n octets limit d' :
  Writer.same_pages d d1 → based d t r0 → writable r0 = true →
  generation (nv_record_diagnostic t) ≠ 0xffffffff →
  let q := target (nv_record_diagnostic t) in
  let img := image (u32 (generation (nv_record_diagnostic t) + 1)) (slice octets 0 n) in
  record_ok (u32 (generation (nv_record_diagnostic t) + 1)) (slice octets 0 n) →
  Writer.only_page q d1 d' →
  erase_unfinished writer_end d1 w q limit d' ∨ cut img (page_data d' q) →
  settles (contents_of d) (slice octets 0 n) (contents_of d').
Proof.
  intros Hs Hb Hw Hg q img Hok Ho H.
  assert (Writer.only_page q d d') as Ho' by (intros p Hp; by rewrite Ho, Hs).
  destruct (nv_target d t r0 Hb Hw) as [Hq _]. fold q in Hq.
  assert (sc_state (info_of d' q) ≠ NV_PAGE_VALID →
          settles (contents_of d) (slice octets 0 n) (contents_of d')) as Hinv.
  { intros Hv. destruct (nv_contents_invalid d d' t r0 Hb Hw Ho' Hv) as [E|E]; rewrite E.
    - by left.
    - by right; left. }
  destruct (decide (sc_state (info_of d' q) = NV_PAGE_VALID)) as [Hv|Hv]; [|by apply Hinv].
  destruct H as [H|[H|H]].
  - left. apply nv_contents_same. intros p. destruct (decide (p = q)) as [->|]; [|by apply Ho'].
    rewrite <- Hs. by apply (erase_detected d1 w q limit d' Hq).
  - destruct (nv_torn _ H) as [E|E]; (unfold info_of, info in Hv; cbn [sc_state] in Hv; congruence).
  - right; right. eexists. by eapply nv_contents_new.
Qed.

Lemma nv_replace_law d w t a octets n limit :
  (nv_record_fault t = NV_RECORD_OK ∧ coherent d t) → is_bytes octets → 0 <= n <= blen octets →
  match nv_record_replace writer_end nv_reserved_end nv_word_at d w t (Some (a, octets)) n limit 0 with
  | Lost d' => settles (contents_of d) (slice octets 0 n) (contents_of d')
  | Ret (r, d', _, t') =>
      nv_sound d' t' ∧
      if decide (r = NV_RECORD_OK)
      then contents_of d' = Holds (generation (nv_record_diagnostic t')) (slice octets 0 n) ∧
           generation (nv_record_diagnostic t') ≠ 0
      else settles (contents_of d) (slice octets 0 n) (contents_of d')
  end.
Proof.
  intros [Hf Hco] Hb Hn.
  destruct (nv_replace_cases writer_end nv_reserved_end nv_word_at d w t a octets n limit 0 Hco Hf
    (proj1 Hn)) as [E|(d1&t1&r0&Hs&_&Hf1&Hba&Hw&Hrec&Hg&_&Hr&->)].
  { destruct (nv_record_replace _ _ _ d w t _ n limit 0) as [[[[r d'] w'] t']|d'].
    - destruct E as (Hs&Hu&_&Hc&Hfa). split; [destruct Hfa; [by left|by right]|].
      rewrite decide_False by (by intros ->). left. by apply nv_contents_same.
    - left. by apply nv_contents_same. }
  pose proof (nv_based_same d d1 _ _ Hs Hba) as Hba1.
  destruct (nv_written writer_end nv_word_at d1 w t1 r0 octets n limit Hba1 Hw Hg Hb (proj2 Hn) Hr)
    as (Hok&Hl&Hwr).
  unfold written in Hwr.
  destruct (write_record writer_end nv_word_at d1 w t1 (slice octets 0 n) n limit)
    as [[[[r d2] w2] t2]|d2]; [|destruct Hwr as [O I]; by eapply nv_settles].
  destruct Hwr as (O&_&[(P&R&C)|[I H]]).
  - assert (r0 ≠ NV_RECORD_RECOVERED) as Hnr by (intros E; by apply Hrec).
    assert (recovered (nv_record_diagnostic t1) = false) as Hre.
    { destruct Hba as [_ Hba]. destruct (usable r0); destruct Hba as (_&_&->); [|done].
      by apply bool_decide_eq_false. }
    rewrite Hre in R. subst r. rewrite decide_True by done.
    destruct (nv_record_new d1 d2 t1 r0 _ Hba1 Hw Hg Hok O P) as (N1&N2&N3&_).
    rewrite Hl in N2. rewrite (nv_contents_new d1 d2 t1 r0 _ Hba1 Hw Hg Hok O P).
    injection C as C1 C2 C3 C4 C5 C6 C7 C8. split; [|rewrite C2; split; [done|by apply Hok]].
    left. split; [by rewrite C1|]. intros _. rewrite N1, C3. split; [done|].
    cbn -[info_of]. by rewrite N2, N3, C2, C4.
  - destruct H as (Hbl&Hf2&_). split; [right; congruence|].
    rewrite decide_False by (by intros ->). by eapply nv_settles.
Qed.

Lemma nv_selected_record d r c :
  picks d = (r, c) → usable r = true →
  let b := slice (sc_stage (info_of d c)) 0 (sc_length (info_of d c)) in
  is_bytes b ∧ blen b = sc_length (info_of d c) ∧ 1 <= blen b <= NV_RECORD_MAX ∧
  sc_generation (info_of d c) ≠ 0.
Proof.
  intros Hp Hu. pose proof (nv_pick_valid _ _ _ _ Hp Hu) as Hv.
  pose proof (nv_pick_range _ _ _ _ Hp) as Hr. rewrite Hu in Hr.
  assert (sc_state (info_of d c) = NV_PAGE_VALID) as Hs by (by destruct Hr as [-> | ->]).
  destruct (nv_valid_bounds (page_data d c) (page_data_bytes d c) Hs) as [Hl Hg0].
  unfold info_of, info; cbn [sc_stage sc_length sc_generation]. unfold NV_RECORD_MAX in *.
  pose proof (page_data_len d c) as Hpl. unfold FLASH_PAGE_SIZE in Hpl. cbv zeta.
  split; [by apply is_bytes_slice, is_bytes_slice, page_data_bytes|].
  rewrite blen_slice; [split; [lia|by split; [lia|]]|lia..|]. rewrite blen_slice; lia.
Qed.

Lemma nv_load_law d t a capacity :
  nv_sound d t →
  match nv_record_load nv_reserved_end d t (Some a) capacity with
  | Lost d' => Writer.same_pages d d'
  | Ret (r, out, d', t') =>
      nv_sound d' t' ∧ Writer.same_pages d d' ∧
      match r with
      | NV_RECORD_OK => ∃ g b, contents_of d = Holds g b ∧ out = Some b ∧ is_bytes b ∧
          1 <= blen b <= NV_RECORD_MAX ∧ g ≠ 0 ∧ generation (nv_record_diagnostic t') = g ∧
          length (nv_record_diagnostic t') = blen b
      | NV_RECORD_EMPTY => contents_of d = Blank ∧ out = None
      | NV_RECORD_RECOVERED => ∃ b, out = Some b ∧ is_bytes b ∧ blen b <= NV_RECORD_MAX
      | _ => out = None
      end
  end.
Proof.
  intros Hso. destruct Hso as [[Hf Hco]|Hbl].
  2: { unfold nv_record_load. destruct (nv_record_fault t) eqn:E; try done;
       (split; [right; by rewrite E|done]). }
  assert (∀ r, r = NV_RECORD_INVALID_ARGUMENT ∨ r = NV_RECORD_BUFFER_OWNERSHIP →
    match (Ret (r, None, d, t) : outcome D (nv_record_result_t * option bytes * D * nv)) with
    | Lost d' => False
    | Ret (r, out, d', t') => nv_sound d' t' ∧ Writer.same_pages d d' ∧ out = None end) as Href
    by (intros r Hr; split; [by left|done]).
  destruct (decide (capacity = 0)) as [->|Hcap].
  { unfold nv_record_load. rewrite Hf. split; [by left|done]. }
  destruct (caller nv_reserved_end a capacity) eqn:Hca.
  2: { unfold nv_record_load. rewrite Hf, Hca. replace (capacity =? 0) with false by lia.
       split; [by left|done]. }
  pose proof (nv_load_as nv_reserved_end d t a capacity Hco Hf Hca Hcap) as H.
  destruct (nv_record_load nv_reserved_end d t (Some a) capacity) as [[[[r out] d'] t']|d'];
    [|done]. destruct H as (Hs&Hco'&_&[(->&->&Hf')|(Hspec&Hf'&Hk)]).
  { split; [right; by rewrite Hf'|done]. }
  split; [by left|]. split; [done|].
  unfold load_spec in Hspec. destruct (picks d) as [r0 c] eqn:Hp. unfold contents_of. rewrite Hp.
  destruct (usable r0) eqn:Hu.
  - destruct (nv_selected_record d r0 c Hp Hu) as (B1&B2&B3&B4).
    destruct (capacity <? sc_length (info_of d c)) eqn:Hc; [by simplify_eq|].
    simplify_eq Hspec. intros -> ->. destruct r0; try done; [|eexists; split; [done|]; split; [done|apply B3]].
    destruct (nv_same_picks d d' Hs) as [Hp' Hi].
    destruct (Hco' (Hk eq_refl)) as (P1&P2&P3). rewrite Hp', Hp in P1. injection P1 as ->.
    rewrite Hi in P2, P3. eexists _, _. split; [done|]. split; [done|]. split; [done|].
    split; [done|]. split; [done|]. split; [done|]. by rewrite B2.
  - simplify_eq Hspec. intros -> ->. by destruct r0.
Qed.

#[export] Program Instance nv_journal : Journal D (D * Writer.writer * nv) := {|
  medium j := j.1.1;
  reboot d := (d, Writer.reset_writer, reset_nv);
  sound j := nv_sound j.1.1 j.2;
  held := contents_of;
  status_generation j := generation (nv_record_diagnostic j.2);
  status_length j := length (nv_record_diagnostic j.2);
  load j a capacity :=
    let '(d, w, t) := j in
    let? (r, out, d, t) := nv_record_load nv_reserved_end d t (Some a) capacity in
    Ret (r, out, (d, w, t));
  replace j data n limit allow :=
    let '(d, w, t) := j in
    let? (r, d, w, t) := nv_record_replace writer_end nv_reserved_end nv_word_at d w t (Some data)
                           n limit allow in
    Ret (r, (d, w, t))
|}.
Next Obligation. intros d. split; [|done]. left. split; [done|]. by intros E. Qed.
Next Obligation.
  intros [[d w] t] a capacity m Hs. simpl. pose proof (nv_load_law d t a capacity Hs) as H.
  destruct (nv_record_load _ d t (Some a) capacity) as [[[[r out] d'] t']|d']; intros [= <-].
  by apply nv_contents_same.
Qed.
Next Obligation.
  intros [[d w] t] a capacity r out j' Hs. simpl. pose proof (nv_load_law d t a capacity Hs) as H.
  destruct (nv_record_load _ d t (Some a) capacity) as [[[[r1 out1] d'] t']|d']; intros [= <- <- <-].
  destruct H as (H1&H2&H3). split; [done|]. split; [by apply nv_contents_same|done].
Qed.
Next Obligation.
  intros [[d w] t] a b n limit m Hs Hb Hn. simpl in *. destruct Hs as [Hs|Hs].
  - pose proof (nv_replace_law d w t a b n limit Hs Hb Hn) as H.
    destruct (nv_record_replace _ _ _ d w t _ n limit 0) as [[[[r d'] w'] t']|d']; intros [= <-].
    done.
  - unfold nv_record_replace. by destruct (nv_record_fault t).
Qed.
Next Obligation.
  intros [[d w] t] a b n limit r j' Hs Hb Hn. simpl in *. destruct Hs as [Hs|Hs].
  - pose proof (nv_replace_law d w t a b n limit Hs Hb Hn) as H.
    destruct (nv_record_replace _ _ _ d w t _ n limit 0) as [[[[r1 d'] w'] t']|d'];
      intros [= <- <-]. done.
  - unfold nv_record_replace. destruct (nv_record_fault t) eqn:E; try done; intros [= <- <-];
      (split; [right; simpl; by rewrite E|]); (rewrite decide_False by done); by left.
Qed.
End Nv.
Lemma nv_first_octet b : rd b 0 = 255 → classify b ≠ NV_PAGE_VALID.
Proof.
  intros H. unfold classify. case_bool_decide; [done|]. destruct (negb _); [done|].
  rewrite bool_decide_eq_false_2; [done|]. intros E.
  assert (rd (slice b 0 4) 0 = rd magic 0) as E' by (by rewrite E).
  rewrite rd_slice in E' by lia. rewrite Z.add_0_r in E'. by rewrite H in E'.
Qed.
Lemma nv_scripted_command (d d2 : scripted) q limit :
  q = 0 ∨ q = 1 → Writer.same_pages d d2 →
  let b := page_data (after snd (flash_exec_command d2 FLASH_EXEC_ERASE q 0 [] limit)) q in
  b = page_data d q ∨ rd b 0 = 255.
Proof.
  intros Hq Hs. cbn [flash_exec_command scripted_device]. unfold scripted_exec, commanded.
  change (FLASH_EXEC_ERASE =? FLASH_EXEC_PROGRAM) with false. cbv iota.
  assert (∀ k, let b := page_data (put_page (advance d2) q
      (erase_octets (scripted_page (advance d2) q) k)) q in
    b = page_data d q ∨ rd b 0 = 255) as Hput.
  { intros k. cbv zeta. rewrite <- Hs. cbn [page_data scripted_device].
    assert (scripted_page d2 q = scripted_page (advance d2) q) as -> by done.
    set (b := scripted_page (advance d2) q).
    assert (blen b = 2048) as L by (subst b; apply flash_as_page_page).
    assert (is_bytes b) as B by (subst b; apply flash_as_page_page).
    assert (∀ i, 0 <= i < 2048 → rd (erase_octets b k) i = if i <? k then 255 else rd b i) as He.
    { intros i Hi. unfold erase_octets, rd, blen in *. rewrite list_lookup_imap.
      destruct (b !! Z.to_nat i) eqn:E; simpl; [by rewrite Z2Nat.id by lia|].
      apply lookup_ge_None_1 in E. lia. }
    assert (∀ i, 0 <= i < 2048 → rd (scripted_page (put_page (advance d2) q (erase_octets b k)) q) i
      = if i <? k then 255 else rd b i) as Hp.
    { intros i Hi. rewrite flash_put_page_rd by lia. unfold FLASH_PAGE_SIZE.
      replace (i <? 2048) with true by lia. replace ((q =? 0) || (q =? 1)) with true by lia.
      rewrite He by lia. destruct (i <? k); [done|]. apply u8_id. by apply rd_is_u8. }
    destruct (decide (0 < k)) as [Hk|Hk]; [right|left].
    - rewrite Hp by lia. by replace (0 <? k) with true by lia.
    - assert (blen (scripted_page (put_page (advance d2) q (erase_octets b k)) q) = 2048) as L2
        by apply flash_as_page_page.
      apply bytes_ext; [by rewrite L|]. intros i Hi.
      rewrite Hp by lia. by replace (i <? k) with false by lia. }
  destruct (Flash.next d2); cbn [after snd]; [apply Hput| | |apply Hput].
  all: left; rewrite <- Hs; by destruct d2.
Qed.

(** ** The scripted device detects unfinished erases

    It erases from the front, so that the first octet of the header goes first. *)
Lemma nv_scripted_erase writer_end (d : scripted) w q limit d' :
  0 <= q < FLASH_NV_PAGE_COUNT → erase_unfinished writer_end d w q limit d' →
  sc_state (info_of d' q) = NV_PAGE_VALID → page_data d' q = page_data d q.
Proof.
  intros Hq H Hv. unfold FLASH_NV_PAGE_COUNT in Hq.
  assert (page_data d' q = page_data d q ∨ rd (page_data d' q) 0 = 255) as [|H0]; [|done|].
  - pose proof (Writer.fw_erase_page writer_end
      (λ b, b = page_data d q ∨ rd b 0 = 255) d w q limit ltac:(lia) ltac:(by left)) as Hp.
    unfold erase_unfinished in H. revert H.
    destruct (Writer.flash_nv_erase writer_end d w q limit) as [[[r d1] w1]|d1].
    + intros [_ <-]. apply Hp. clear Hp. intros d2 Hs. apply nv_scripted_command; [lia|done].
    + intros <-. apply Hp. clear Hp. intros d2 Hs. apply nv_scripted_command; [lia|done].
  - exfalso. revert Hv. unfold info_of, info; cbn [sc_state]. apply nv_first_octet, H0.
Qed.

#[export] Instance scripted_journal (writer_end nv_reserved_end nv_word_at : Z) :
    Journal scripted (scripted * Writer.writer * nv) :=
  nv_journal writer_end nv_reserved_end nv_word_at (nv_scripted_erase writer_end).

(** ** The ideal journal

    The reference model of the contract: the medium is its contents, and the status what the
    last successful call stored. *)
Record ideal := { ideal_medium : contents; ideal_generation : Z; ideal_length : Z }.
Definition ideal_reboot (m : contents) : ideal :=
  {| ideal_medium := m; ideal_generation := 0; ideal_length := 0 |}.
Definition ideal_valid (g : Z) (b : bytes) : bool :=
  bool_decide (is_bytes b) && (1 <=? blen b) && (blen b <=? NV_RECORD_MAX) && negb (g =? 0).
Definition ideal_load (j : ideal) (capacity : Z) : nv_record_result_t * option bytes * ideal :=
  match ideal_medium j with
  | Blank => (NV_RECORD_EMPTY, None, j)
  | Damaged => (NV_RECORD_CORRUPT, None, j)
  | Holds g b =>
      if! negb (ideal_valid g b) return (NV_RECORD_CORRUPT, None, j) ;;
      if! capacity <? blen b return (NV_RECORD_NO_SPACE, None, j) ;;
      (NV_RECORD_OK, Some b,
       {| ideal_medium := Holds g b; ideal_generation := g; ideal_length := blen b |})
  end.
Definition ideal_store (g : Z) (b : bytes) : nv_record_result_t * ideal :=
  (NV_RECORD_OK, {| ideal_medium := Holds g b; ideal_generation := g; ideal_length := blen b |}).
Definition ideal_replace (j : ideal) (b : bytes) : nv_record_result_t * ideal :=
  match ideal_medium j with
  | Blank => ideal_store 1 b
  | Holds g _ => if! g + 1 =? 0 return (NV_RECORD_CORRUPT, j) ;; ideal_store (g + 1) b
  | Damaged => (NV_RECORD_CORRUPT, j)
  end.

#[export] Program Instance ideal_journal : Journal contents ideal := {|
  medium := ideal_medium; reboot := ideal_reboot; sound _ := True; held m := m;
  status_generation := ideal_generation; status_length := ideal_length;
  load j _ capacity := let '(r, out, j) := ideal_load j capacity in Ret (r, out, j);
  replace j data n _ _ := let '(r, j) := ideal_replace j (slice data.2 0 n) in Ret (r, j)
|}.
Next Obligation. done. Qed.
Next Obligation. intros j a cap m _. simpl. by destruct (ideal_load j cap) as [[r o] j']. Qed.
Next Obligation.
  intros j a cap r out j' _. simpl. unfold ideal_load.
  destruct (ideal_medium j) as [|g b|] eqn:E; [by intros [= <- <- <-]| |by intros [= <- <- <-]].
  destruct (ideal_valid g b) eqn:V; cbn [negb]; [|by intros [= <- <- <-]].
  destruct (cap <? blen b); intros [= <- <- <-]; [done|]. split; [done|]. split; [done|].
  unfold ideal_valid in V. rewrite !andb_true_iff, bool_decide_eq_true in V.
  exists g, b. repeat split; try done; try lia. apply V.
Qed.
Next Obligation. intros j a b n limit m _ _ _. simpl. by destruct (ideal_replace j _). Qed.
Next Obligation.
  intros j a b n limit r j' _ _ _. simpl. unfold ideal_replace.
  destruct (ideal_medium j) as [|g o|] eqn:E; simpl.
  - intros [= <- <-]. split; [done|]. by rewrite decide_True.
  - destruct (g + 1 =? 0) eqn:Eg; intros [= <- <-]; (split; [done|]).
    + rewrite decide_False by done. left. by rewrite E.
    + rewrite decide_True by done. split; [done|]. simpl. lia.
  - intros [= <- <-]. split; [done|]. rewrite decide_False by done. left. by rewrite E.
Qed.
End Journal.
