(* ===== verification/Counter.v ===== *)
(** The outgoing security frame counters of src/src/security_counter.c: two counter domains
    whose exclusive ceilings are stored in the journal before a value below them is given out,
    together with an opaque payload.  The journal is any implementation of the class
    [Journal]. *)
From Stdlib Require Import Sorted.
From S2P Require Import Prelude Flash FlashWrite Crc NvRecord NvScan NvSafety NvReplace Journal.

Module Counter.
Import Nv Journal.
Definition SECURITY_COUNTER_RANGE := 256.
Definition SECURITY_COUNTER_PAYLOAD_MAX := NV_RECORD_MAX - 16.

Inductive security_counter_result_t :=
  | SECURITY_COUNTER_OK
  | SECURITY_COUNTER_EMPTY
  | SECURITY_COUNTER_ARGUMENT
  | SECURITY_COUNTER_OWNERSHIP
  | SECURITY_COUNTER_STATE
  | SECURITY_COUNTER_FORMAT
  | SECURITY_COUNTER_VERSION
  | SECURITY_COUNTER_RECOVERY
  | SECURITY_COUNTER_NV
  | SECURITY_COUNTER_ROLLBACK
  | SECURITY_COUNTER_EXHAUSTED
  | SECURITY_COUNTER_SPACE
  | SECURITY_COUNTER_PENDING.
#[global] Instance security_counter_result_eq : EqDecision security_counter_result_t.
Proof. solve_decision. Defined.

Inductive security_counter_state_t :=
  | SECURITY_COUNTER_COLD
  | SECURITY_COUNTER_UNPROVISIONED
  | SECURITY_COUNTER_READY
  | SECURITY_COUNTER_FAILED
  | SECURITY_COUNTER_BUSY.
#[global] Instance security_counter_state_eq : EqDecision security_counter_state_t.
Proof. solve_decision. Defined.

(** The diagnostic object and the blob; [security_counter_check] is a value. *)
Record counter := {
  next : Z * Z;
  until : Z * Z;
  generation : Z;
  state : security_counter_state_t;
  result : security_counter_result_t;
  nv_result : nv_record_result_t;
  payload_length : Z;
  blob : bytes
}.
Definition reset_counter : counter := {|
  next := (0, 0); until := (0, 0); generation := 0; state := SECURITY_COUNTER_COLD;
  result := SECURITY_COUNTER_OK; nv_result := NV_RECORD_OK; payload_length := 0;
  blob := replicate (Z.to_nat NV_RECORD_MAX) 0 |}.

Definition set_next c v := {| next := v; until := until c; generation := generation c;
  state := state c; result := result c; nv_result := nv_result c;
  payload_length := payload_length c; blob := blob c |}.
Definition set_until c v := {| next := next c; until := v; generation := generation c;
  state := state c; result := result c; nv_result := nv_result c;
  payload_length := payload_length c; blob := blob c |}.
Definition set_generation c v := {| next := next c; until := until c; generation := v;
  state := state c; result := result c; nv_result := nv_result c;
  payload_length := payload_length c; blob := blob c |}.
Definition set_state c v := {| next := next c; until := until c; generation := generation c;
  state := v; result := result c; nv_result := nv_result c;
  payload_length := payload_length c; blob := blob c |}.
Definition set_nv_result c v := {| next := next c; until := until c; generation := generation c;
  state := state c; result := result c; nv_result := v;
  payload_length := payload_length c; blob := blob c |}.
Definition set_payload_length c v := {| next := next c; until := until c;
  generation := generation c; state := state c; result := result c; nv_result := nv_result c;
  payload_length := v; blob := blob c |}.
Definition set_blob c v := {| next := next c; until := until c; generation := generation c;
  state := state c; result := result c; nv_result := nv_result c;
  payload_length := payload_length c; blob := v |}.

Definition finish (c : counter) (r : security_counter_result_t) : counter :=
  {| next := next c; until := until c; generation := generation c; state := state c;
     result := r; nv_result := nv_result c; payload_length := payload_length c; blob := blob c |}.
Definition fail (c : counter) (r : security_counter_result_t) : counter :=
  finish (set_state c SECURITY_COUNTER_FAILED) r.

Definition ready (c : counter) : security_counter_result_t :=
  match state c with
  | SECURITY_COUNTER_FAILED => result c
  | SECURITY_COUNTER_READY => SECURITY_COUNTER_OK
  | _ => SECURITY_COUNTER_STATE
  end.

(** The ceiling of a domain in a record. *)
Definition ceiling (b : bytes) (domain : Z) : Z := Crc.decode (slice b (8 + 4 * domain) 4).
Definition floors (c : counter) : counter :=
  let v := (ceiling (blob c) 0, ceiling (blob c) 1) in set_next (set_until c v) v.

(** [payload]: the length octet, then the octets of the payload and zeros after it. *)
Definition payload (c : counter) (data : bytes) (n : Z) : counter :=
  let b := wr (blob c) 5 n in
  set_blob c (blit b 16 ((λ i, if i <? n then rd data i else 0) <$>
                           seqZ 0 SECURITY_COUNTER_PAYLOAD_MAX)).

Section Operations.
Context {M J : Type} `{!Journal M J}.
(** Link addresses: the end of the private objects and the two record buffers. *)
Variables (security_counter_reserved_end blob_at check_at : Z).

Definition caller (address size : Z) : bool :=
  (security_counter_reserved_end <? address) && (address <? 0x1e00) && (size <=? 0x1e00 - address).

(** The journal still holds exactly the record this module believes current. *)
Definition current (j : J) (c : counter) : outcome M (security_counter_result_t * J * counter) :=
  let? (r, out, j) := load j check_at NV_RECORD_MAX in
  let c := set_nv_result c r in
  let failed e := Ret (e, j, fail c e) in
  if! generation c =? 0
    return (if bool_decide (r = NV_RECORD_EMPTY) then Ret (SECURITY_COUNTER_OK, j, c)
            else failed SECURITY_COUNTER_ROLLBACK) ;;
  if! bool_decide (r = NV_RECORD_RECOVERED) return failed SECURITY_COUNTER_RECOVERY ;;
  if! bool_decide (r ≠ NV_RECORD_OK) return failed SECURITY_COUNTER_NV ;;
  if! negb (status_generation j =? generation c)
      || negb (status_length j =? 16 + payload_length c)
    return failed SECURITY_COUNTER_ROLLBACK ;;
  if! negb (bool_decide (slice (default [] out) 0 (16 + payload_length c)
                         = slice (blob c) 0 (16 + payload_length c)))
    return failed SECURITY_COUNTER_ROLLBACK ;;
  Ret (SECURITY_COUNTER_OK, j, c).

Definition commit (j : J) (c : counter) (limit : Z)
    : outcome M (security_counter_result_t * J * counter) :=
  let c := set_state c SECURITY_COUNTER_BUSY in
  let c := finish c SECURITY_COUNTER_PENDING in
  let c := set_nv_result c NV_RECORD_PENDING in
  let? (r, j) := replace j (blob_at, blob c) (16 + rd (blob c) 5) limit 0 in
  let c := set_nv_result c r in
  if! bool_decide (r ≠ NV_RECORD_OK)
    return (let e := if bool_decide (r = NV_RECORD_RECOVERY_REQUIRED)
                     then SECURITY_COUNTER_RECOVERY else SECURITY_COUNTER_NV in
            Ret (e, j, fail c e)) ;;
  if! negb (status_generation j =? u32 (generation c + 1))
    return Ret (SECURITY_COUNTER_ROLLBACK, j, fail c SECURITY_COUNTER_ROLLBACK) ;;
  let c := set_generation c (status_generation j) in
  let c := set_payload_length c (rd (blob c) 5) in
  let c := set_state c SECURITY_COUNTER_READY in
  Ret (SECURITY_COUNTER_OK, j, finish c SECURITY_COUNTER_OK).

Definition security_counter_open (j : J) (c : counter)
    : outcome M (security_counter_result_t * J * counter) :=
  match state c with
  | SECURITY_COUNTER_FAILED => Ret (result c, j, c)
  | SECURITY_COUNTER_COLD =>
      let? (r, out, j) := load j blob_at NV_RECORD_MAX in
      let c := set_nv_result c r in
      let c := match out with Some b => set_blob c (blit (blob c) 0 b) | None => c end in
      let failed e := Ret (e, j, fail c e) in
      if! bool_decide (r = NV_RECORD_EMPTY)
        return Ret (SECURITY_COUNTER_EMPTY, j,
                    finish (set_state c SECURITY_COUNTER_UNPROVISIONED) SECURITY_COUNTER_EMPTY) ;;
      if! bool_decide (r ≠ NV_RECORD_OK)
        return failed (if bool_decide (r = NV_RECORD_RECOVERED)
                       then SECURITY_COUNTER_RECOVERY else SECURITY_COUNTER_NV) ;;
      if! (status_length j <? 16)
          || negb (bool_decide (slice (blob c) 0 4 = [0x43; 0x54; 0x52; 0x31]))
        return failed SECURITY_COUNTER_FORMAT ;;
      if! negb (rd (blob c) 4 =? 1) return failed SECURITY_COUNTER_VERSION ;;
      if! (SECURITY_COUNTER_PAYLOAD_MAX <? rd (blob c) 5)
          || negb (status_length j =? 16 + rd (blob c) 5)
          || negb (rd (blob c) 6 =? 0) || negb (rd (blob c) 7 =? 0)
        return failed SECURITY_COUNTER_FORMAT ;;
      let c := floors c in
      let c := set_generation c (status_generation j) in
      let c := set_payload_length c (rd (blob c) 5) in
      let c := set_state c SECURITY_COUNTER_READY in
      Ret (SECURITY_COUNTER_OK, j, finish c SECURITY_COUNTER_OK)
  | _ => Ret (SECURITY_COUNTER_STATE, j, c)
  end.

(** Argument checks of a caller's payload; [None] admits it. *)
Definition refused (data : option (Z * bytes)) (n limit : Z) : option security_counter_result_t :=
  if! (SECURITY_COUNTER_PAYLOAD_MAX <? n) || (bool_decide (data = None) && negb (n =? 0))
      || (limit =? 0)
    return Some SECURITY_COUNTER_ARGUMENT ;;
  if! negb (n =? 0) && negb (caller (default 0 (fst <$> data)) n)
    return Some SECURITY_COUNTER_OWNERSHIP ;;
  None.

Definition stage (c : counter) (data : option (Z * bytes)) (n limit : Z)
    : security_counter_result_t * counter :=
  match refused data n limit with
  | Some e => (e, c)
  | None =>
      let c := payload c (default [] (snd <$> data)) n in
      let c := set_payload_length c n in
      let c := set_state c SECURITY_COUNTER_READY in
      (SECURITY_COUNTER_OK, finish c SECURITY_COUNTER_OK)
  end.

Definition security_counter_create (c : counter) (nwk_floor aps_floor : Z)
    (data : option (Z * bytes)) (n limit : Z) : security_counter_result_t * counter :=
  match state c with
  | SECURITY_COUNTER_FAILED => (result c, c)
  | _ =>
      if! bool_decide (state c ≠ SECURITY_COUNTER_UNPROVISIONED)
          && (bool_decide (state c ≠ SECURITY_COUNTER_READY) || negb (generation c =? 0))
        return (SECURITY_COUNTER_STATE, c) ;;
      let '(r, c) := stage c data n limit in
      if! bool_decide (r ≠ SECURITY_COUNTER_OK) return (r, c) ;;
      let b := blit (blob c) 0 [0x43; 0x54; 0x52; 0x31; 1] in
      let b := wr (wr b 7 0) 6 0 in
      let b := blit b 8 (Crc.encode nwk_floor) in
      let b := blit b 12 (Crc.encode aps_floor) in
      (r, floors (set_blob c b))
  end.

Definition security_counter_restage (c : counter) (data : option (Z * bytes)) (n : Z)
    : security_counter_result_t * counter :=
  if! bool_decide (state c ≠ SECURITY_COUNTER_READY) || negb (generation c =? 0)
    return (SECURITY_COUNTER_STATE, c) ;;
  stage c data n 1.

(** The refill of an exhausted reservation: the new ceiling is committed first. *)
Definition refill (j : J) (c : counter) (domain limit : Z)
    : outcome M (security_counter_result_t * J * counter) :=
  let top := sel (until c) domain in
  if! top =? 0xffffffff
    return Ret (SECURITY_COUNTER_EXHAUSTED, j, finish c SECURITY_COUNTER_EXHAUSTED) ;;
  let? (r, j, c) := current j c in
  if! bool_decide (r ≠ SECURITY_COUNTER_OK) return Ret (r, j, c) ;;
  let stop := if 0xffffffff - SECURITY_COUNTER_RANGE <? top then 0xffffffff
              else top + SECURITY_COUNTER_RANGE in
  let c := set_blob c (blit (blob c) (8 + 4 * domain) (Crc.encode stop)) in
  let? (r, j, c) := commit j c limit in
  if! bool_decide (r ≠ SECURITY_COUNTER_OK) return Ret (r, j, c) ;;
  Ret (SECURITY_COUNTER_OK, j, set_until c (upd (until c) domain stop)).

(** [value] is the address of the caller's result; the octets stored there are the returned
    option. *)
Definition security_counter_take (j : J) (c : counter) (domain : Z) (value : option Z) (limit : Z)
    : outcome M (security_counter_result_t * option Z * J * counter) :=
  match ready c with
  | SECURITY_COUNTER_OK =>
      match value with
      | None => Ret (SECURITY_COUNTER_ARGUMENT, None, j, c)
      | Some address =>
          if! (1 <? domain) || (limit =? 0) return Ret (SECURITY_COUNTER_ARGUMENT, None, j, c) ;;
          if! negb (caller address 4) return Ret (SECURITY_COUNTER_OWNERSHIP, None, j, c) ;;
          let? (r, j, c) := if sel (next c) domain =? sel (until c) domain
                            then refill j c domain limit else Ret (SECURITY_COUNTER_OK, j, c) in
          if! bool_decide (r ≠ SECURITY_COUNTER_OK) return Ret (r, None, j, c) ;;
          let taken := sel (next c) domain in
          let c := set_next c (upd (next c) domain (u32 (taken + 1))) in
          Ret (SECURITY_COUNTER_OK, Some taken, j, finish c SECURITY_COUNTER_OK)
      end
  | r => Ret (r, None, j, c)
  end.

Definition security_counter_save (j : J) (c : counter) (data : option (Z * bytes)) (n limit : Z)
    : outcome M (security_counter_result_t * J * counter) :=
  match ready c with
  | SECURITY_COUNTER_OK =>
      match refused data n limit with
      | Some e => Ret (e, j, c)
      | None =>
          let? (r, j, c) := current j c in
          if! bool_decide (r ≠ SECURITY_COUNTER_OK) return Ret (r, j, c) ;;
          commit j (payload c (default [] (snd <$> data)) n) limit
      end
  | r => Ret (r, j, c)
  end.

(** The octets stored at [data] and the value stored at [length]. *)
Definition security_counter_read (c : counter) (data : option Z) (capacity : Z)
    (length : option Z) : security_counter_result_t * option bytes * option Z * counter :=
  match ready c with
  | SECURITY_COUNTER_OK =>
      match length with
      | None => (SECURITY_COUNTER_ARGUMENT, None, None, c)
      | Some address =>
          if! bool_decide (data = None) && negb (capacity =? 0)
            return (SECURITY_COUNTER_ARGUMENT, None, None, c) ;;
          if! negb (caller address 1)
              || (negb (capacity =? 0) && negb (caller (default 0 data) capacity))
            return (SECURITY_COUNTER_OWNERSHIP, None, None, c) ;;
          if! capacity <? payload_length c return (SECURITY_COUNTER_SPACE, None, None, c) ;;
          (SECURITY_COUNTER_OK, Some (slice (blob c) 16 (payload_length c)),
           Some (payload_length c), finish c SECURITY_COUNTER_OK)
      end
  | r => (r, None, None, c)
  end.

(** ** Events

    The foreground calls the operations one after the other; a reset or a lost supply keeps
    the medium and clears the memory. *)
Inductive event :=
  | Open
  | Create (nwk_floor aps_floor : Z) (data : option (Z * bytes)) (n limit : Z)
  | Restage (data : option (Z * bytes)) (n : Z)
  | Take (domain : Z) (value : option Z) (limit : Z)
  | Save (data : option (Z * bytes)) (n limit : Z)
  | Read (data : option Z) (capacity : Z) (length : option Z)
  | Reset.
Definition data_typed (data : option (Z * bytes)) (n : Z) : Prop :=
  is_u8 n ∧ is_bytes (default [] (snd <$> data)).
Definition event_typed (e : event) : Prop :=
  match e with
  | Create f g data n _ => is_u32 f ∧ is_u32 g ∧ data_typed data n
  | Restage data n | Save data n _ => data_typed data n
  | Take domain _ _ => is_u8 domain
  | Read _ _ _ | Open | Reset => True
  end.

(** One event: the value handed out, if any, with its domain, and the next state. *)
Definition restarted (m : M) : J * counter := (reboot m, reset_counter).
Definition step (j : J) (c : counter) (e : event) : list (Z * Z) * (J * counter) :=
  match e with
  | Open => match security_counter_open j c with
            | Ret (_, j, c) => ([], (j, c)) | Lost m => ([], restarted m) end
  | Create f g data n limit => ([], (j, (security_counter_create c f g data n limit).2))
  | Restage data n => ([], (j, (security_counter_restage c data n).2))
  | Take domain value limit =>
      match security_counter_take j c domain value limit with
      | Ret (_, v, j, c) => (match v with Some v => [(domain, v)] | None => [] end, (j, c))
      | Lost m => ([], restarted m) end
  | Save data n limit => match security_counter_save j c data n limit with
            | Ret (_, j, c) => ([], (j, c)) | Lost m => ([], restarted m) end
  | Read data capacity length => ([], (j, (security_counter_read c data capacity length).2))
  | Reset => ([], restarted (medium j))
  end.
Fixpoint run (j : J) (c : counter) (es : list event) : list (Z * Z) :=
  match es with
  | [] => []
  | e :: es => let '(out, (j, c)) := step j c e in out ++ run j c es
  end.
Definition values (domain : Z) (out : list (Z * Z)) : list Z :=
  snd <$> filter (λ x, x.1 = domain) out.

(** ** The invariant *)

(** [bound]: no value below it will be given out in the domain. *)
Definition reserved (domain bound : Z) (h : contents) : Prop :=
  match h with
  | Blank => bound <= 0
  | Holds _ b => bound <= ceiling b domain
  | Damaged => True
  end.
Definition formatted (b : bytes) : Prop :=
  blen b = NV_RECORD_MAX ∧ is_bytes b ∧ slice b 0 4 = [0x43; 0x54; 0x52; 0x31] ∧ rd b 4 = 1 ∧
  rd b 5 <= SECURITY_COUNTER_PAYLOAD_MAX ∧ rd b 6 = 0 ∧ rd b 7 = 0.
Definition consistent (domain bound : Z) (c : counter) : Prop :=
  blen (blob c) = NV_RECORD_MAX ∧ is_bytes (blob c) ∧
  match state c with
  | SECURITY_COUNTER_READY =>
      formatted (blob c) ∧ payload_length c = rd (blob c) 5 ∧
      (bound <= sel (next c) domain ∧ sel (next c) domain <= sel (until c) domain) ∧
      is_u32 (sel (until c) domain) ∧ 0 <= sel (next c) domain ∧
      ceiling (blob c) domain = sel (until c) domain ∧
      (generation c = 0 → bound <= 0 ∧ sel (next c) domain = sel (until c) domain)
  | SECURITY_COUNTER_UNPROVISIONED => bound <= 0
  | SECURITY_COUNTER_FAILED => result c ≠ SECURITY_COUNTER_OK
  | SECURITY_COUNTER_COLD => True
  | SECURITY_COUNTER_BUSY => False
  end.
(** What is left of a reservation lies below the stored ceiling. *)
Definition covered (domain : Z) (h : contents) (c : counter) : Prop :=
  match state c with
  | SECURITY_COUNTER_READY =>
      sel (next c) domain = sel (until c) domain ∨
      match h with
      | Blank => False
      | Holds _ b => sel (until c) domain <= ceiling b domain
      | Damaged => True
      end
  | _ => True
  end.
Definition invariant (domain bound : Z) (j : J) (c : counter) : Prop :=
  sound j ∧ reserved domain bound (held (medium j)) ∧ consistent domain bound c ∧
  covered domain (held (medium j)) c.

Lemma counter_settles domain bound old b new :
  settles old b new → reserved domain bound old → bound <= ceiling b domain →
  reserved domain bound new.
Proof. intros [-> |[-> |[g ->]]]; done. Qed.
Lemma counter_ceiling_u32 b domain : is_bytes b → is_u32 (ceiling b domain).
Proof.
  intros Hb. unfold ceiling, Crc.decode.
  apply Crc.crc_word32_range; apply rd_is_u8, is_bytes_slice, Hb.
Qed.
Lemma counter_ceiling_prefix b n domain :
  domain = 0 ∨ domain = 1 → 0 <= n → 16 + n <= blen b →
  ceiling (slice b 0 (16 + n)) domain = ceiling b domain.
Proof.
  intros Hd Hn Hl. unfold ceiling. rewrite NvScan.nv_slice_slice by lia. by rewrite Z.add_0_l.
Qed.

(** What [current] establishes. *)
Lemma counter_current j c :
  sound j →
  match current j c with
  | Lost m => held m = held (medium j)
  | Ret (r, j', c') =>
      sound j' ∧ held (medium j') = held (medium j) ∧
      ∃ x, c' = (if bool_decide (r = SECURITY_COUNTER_OK) then set_nv_result c x
                 else fail (set_nv_result c x) r)
  end.
Proof.
  intros Hs. unfold current.
  destruct (load j check_at NV_RECORD_MAX) as [[[x out] j']|m] eqn:Hl; [|by eapply load_lost].
  destruct (load_law _ _ _ _ _ _ Hs Hl) as (H1&H2&_). cbn zeta.
  destruct (generation (set_nv_result c x) =? 0);
    [destruct (bool_decide (x = NV_RECORD_EMPTY)); (split; [done|]; split; [done|]; by exists x)|].
  repeat match goal with |- context [if ?b then _ else _] =>
    lazymatch b with
    | bool_decide (_ = SECURITY_COUNTER_OK) => fail
    | _ => destruct b; [split; [done|]; split; [done|]; by exists x|]
    end end.
  split; [done|]. split; [done|]. by exists x.
Qed.

(** What [commit] establishes. *)
Lemma counter_commit j c limit :
  sound j → is_bytes (blob c) → blen (blob c) = NV_RECORD_MAX →
  rd (blob c) 5 <= SECURITY_COUNTER_PAYLOAD_MAX →
  let b := slice (blob c) 0 (16 + rd (blob c) 5) in
  match commit j c limit with
  | Lost m => settles (held (medium j)) b (held m)
  | Ret (r, j', c') =>
      sound j' ∧ settles (held (medium j)) b (held (medium j')) ∧
      next c' = next c ∧ until c' = until c ∧ blob c' = blob c ∧ result c' = r ∧
      if decide (r = SECURITY_COUNTER_OK) then
        state c' = SECURITY_COUNTER_READY ∧ generation c' ≠ 0 ∧
        payload_length c' = rd (blob c) 5 ∧ held (medium j') = Holds (generation c') b
      else state c' = SECURITY_COUNTER_FAILED
  end.
Proof.
  intros Hs Hb Hl Hp. unfold commit. cbn [blob set_nv_result finish set_state]. cbv zeta.
  pose proof (rd_is_u8 (blob c) 5 Hb) as H5. unfold is_u8 in H5.
  assert (0 <= 16 + rd (blob c) 5 <= blen (blob c)) as Hn
    by (unfold SECURITY_COUNTER_PAYLOAD_MAX in Hp; lia).
  destruct (replace j _ _ limit 0) as [[x j']|m] eqn:Hr; [|by eapply replace_lost].
  destruct (replace_law _ _ _ _ _ _ _ Hs Hb Hn Hr) as [H1 H2].
  destruct (bool_decide (x ≠ NV_RECORD_OK)) eqn:E; [apply bool_decide_eq_true in E|
    apply bool_decide_eq_false in E; apply dec_stable in E].
  - rewrite decide_False in H2 by done.
    destruct (bool_decide (x = NV_RECORD_RECOVERY_REQUIRED)); do 6 (split; [done|]); done.
  - rewrite decide_True in H2 by done. destruct H2 as [H2 H3].
    assert (settles (held (medium j)) (slice (blob c) 0 (16 + rd (blob c) 5)) (held (medium j')))
      as Hse by (right; right; by eexists).
    destruct (negb _); do 6 (split; [done|]); [done|]. by rewrite decide_True by done.
Qed.

(** ** Edits of the blob *)
Lemma counter_rd_edit b p src i :
  blen b = 128 → 0 <= p → p + blen src <= 128 → 0 <= i → i < p ∨ p + blen src <= i →
  rd (blit b p src) i = rd b i.
Proof.
  intros Hl Hp Hs Hi Ho. rewrite rd_blit by lia.
  by destruct ((p <=? i) && (i <? p + blen src)) eqn:?; [lia|].
Qed.
Lemma counter_formatted_ext b b' :
  formatted b → blen b' = 128 → is_bytes b' → rd b' 5 <= SECURITY_COUNTER_PAYLOAD_MAX →
  (∀ i, 0 <= i < 8 → i ≠ 5 → rd b' i = rd b i) → formatted b'.
Proof.
  intros (L&B&M0&V&P&R6&R7) L' B' P' H. split; [done|]. split; [done|].
  split; [rewrite <- M0; apply slice_ext; try (unfold NV_RECORD_MAX in *; lia); intros i Hi; apply H; lia|].
  by rewrite (H 4), (H 6), (H 7) by lia.
Qed.
Lemma counter_ceiling_ext b b' domain :
  domain = 0 ∨ domain = 1 → blen b = 128 → blen b' = 128 →
  (∀ i, 8 + 4 * domain <= i < 12 + 4 * domain → rd b' i = rd b i) →
  ceiling b' domain = ceiling b domain.
Proof.
  intros Hd L L' H. unfold ceiling. f_equal. apply slice_ext; try lia. intros i Hi. apply H. lia.
Qed.
Lemma counter_set_ceiling b domain v :
  blen b = 128 → is_bytes b → domain = 0 ∨ domain = 1 →
  let b' := blit b (8 + 4 * domain) (Crc.encode v) in
  blen b' = 128 ∧ is_bytes b' ∧ (is_u32 v → ceiling b' domain = v) ∧
  ceiling b' (1 - domain) = ceiling b (1 - domain) ∧
  (∀ i, 0 <= i → i < 8 + 4 * domain ∨ 12 + 4 * domain <= i → rd b' i = rd b i).
Proof.
  intros L B Hd. destruct (Crc.crc_encode_ok v) as [Le Be]. cbv zeta.
  assert (∀ i, 0 <= i → i < 8 + 4 * domain ∨ 12 + 4 * domain <= i →
    rd (blit b (8 + 4 * domain) (Crc.encode v)) i = rd b i) as Hr
    by (intros i Hi Ho; apply counter_rd_edit; lia).
  split; [by rewrite blen_blit|]. split; [by apply is_bytes_blit|].
  split; [|split; [|done]].
  - intros Hv. unfold ceiling. transitivity (Crc.decode (Crc.encode v ++ [])); [|by apply Crc.crc_decode_encode].
    rewrite app_nil_r. f_equal. apply slice_eq; rewrite ?blen_blit; try lia.
    intros i Hi. rewrite rd_blit by lia.
    replace ((8 + 4 * domain <=? 8 + 4 * domain + i) && _) with true by lia. f_equal. lia.
  - apply counter_ceiling_ext; rewrite ?blen_blit; try lia. intros i Hi. apply Hr; lia.
Qed.
Lemma counter_payload c data n :
  blen (blob c) = 128 → is_bytes (blob c) → is_bytes data → is_u8 n →
  n <= SECURITY_COUNTER_PAYLOAD_MAX →
  let b' := blob (payload c data n) in
  blen b' = 128 ∧ is_bytes b' ∧ rd b' 5 = n ∧
  (∀ i, 0 <= i < 16 → i ≠ 5 → rd b' i = rd (blob c) i) ∧
  (n <= blen data → slice b' 16 n = slice data 0 n).
Proof.
  unfold SECURITY_COUNTER_PAYLOAD_MAX, NV_RECORD_MAX. intros L B Bd Hn Hm.
  unfold payload; cbn [blob set_blob]. unfold SECURITY_COUNTER_PAYLOAD_MAX, NV_RECORD_MAX.
  set (src := _ <$> seqZ 0 (128 - 16)).
  assert (blen src = 112) as Ls by (subst src; unfold blen; rewrite length_fmap, length_seqZ; lia).
  assert (blen (wr (blob c) 5 n) = 128) as Lw by (by rewrite blen_wr).
  assert (is_bytes src) as Bs.
  { subst src. apply Forall_fmap, Forall_true. intros i. simpl.
    destruct (i <? n); [by apply rd_is_u8|done]. }
  assert (∀ i, 0 <= i < 112 → rd src i = if i <? n then rd data i else 0) as Hs.
  { intros i Hi. subst src. unfold rd at 1. rewrite list_lookup_fmap.
    by rewrite (proj2 (lookup_seqZ 0 (128 - 16) (Z.to_nat i) i)) by lia. }
  cbv zeta. split; [by rewrite blen_blit|].
  split; [apply is_bytes_blit; [by apply is_bytes_wr|done]|].
  split; [rewrite counter_rd_edit, rd_wr by lia; done|]. split.
  - intros i Hi Hne. rewrite counter_rd_edit, rd_wr by lia.
    by replace (i =? 5) with false by lia.
  - intros Hd. unfold is_u8 in Hn. apply slice_eq; rewrite ?blen_blit; try lia.
    { rewrite blen_slice; lia. }
    intros i Hi. rewrite rd_blit by lia. replace ((16 <=? 16 + i) && _) with true by lia.
    rewrite Hs by lia. replace (16 + i - 16 <? n) with true by lia.
    rewrite rd_slice by lia. f_equal. lia.
Qed.

(** ** The operations keep the invariant *)
Section Domain.
Variable domain : Z.
Hypothesis Hdomain : domain = 0 ∨ domain = 1.

Lemma counter_failed bound c r :
  blen (blob c) = NV_RECORD_MAX → is_bytes (blob c) → r ≠ SECURITY_COUNTER_OK →
  consistent domain bound (fail c r).
Proof. by split. Qed.

Lemma counter_sel_ceilings b : sel (ceiling b 0, ceiling b 1) domain = ceiling b domain.
Proof. by destruct Hdomain as [-> | ->]. Qed.

Lemma counter_open_invariant bound j c :
  invariant domain bound j c →
  match security_counter_open j c with
  | Lost m => reserved domain bound (held m)
  | Ret (_, j', c') => invariant domain bound j' c'
  end.
Proof.
  intros Hinv. pose proof Hinv as (Hs&Hr&(L&B&_)&_). unfold security_counter_open.
  destruct (state c) eqn:Est; try exact Hinv.
  destruct (load j blob_at NV_RECORD_MAX) as [[[x out] j']|m] eqn:Hl;
    [|by rewrite (load_lost _ _ _ _ Hs Hl)].
  destruct (load_law _ _ _ _ _ _ Hs Hl) as (H1&H2&H3). cbv zeta.
  set (c1 := match out with Some b => _ | None => _ end).
  assert (reserved domain bound (held (medium j'))) as Hr' by (by rewrite H2).
  assert (blen (blob c1) = NV_RECORD_MAX ∧ is_bytes (blob c1)) as [L1 B1].
  { subst c1. destruct out as [b|]; cbn [blob set_blob set_nv_result]; [|done].
    assert (is_bytes b) by (destruct x; naive_solver).
    split; [by rewrite blen_blit|by apply is_bytes_blit]. }
  assert (∀ e, e ≠ SECURITY_COUNTER_OK → invariant domain bound j' (fail c1 e)) as Hf
    by (intros e He; split; [done|]; split; [done|]; split; [by apply counter_failed|done]).
  destruct (bool_decide (x = NV_RECORD_EMPTY)) eqn:E1.
  { apply bool_decide_eq_true in E1 as ->. destruct H3 as [H3 _]. rewrite <- H2 in H3.
    split; [done|]. split; [done|]. split; [|done]. split; [done|]. split; [done|]. simpl.
    by rewrite H3 in Hr'. }
  destruct (bool_decide (x ≠ NV_RECORD_OK)) eqn:E2; [apply Hf; by destruct (bool_decide (x = NV_RECORD_RECOVERED))|].
  apply bool_decide_eq_false, dec_stable in E2 as ->.
  destruct H3 as (g&b&Hh&->&Bb&Lb&Hg&Eg&El).
  destruct ((status_length j' <? 16) || _) eqn:E3; [by apply Hf|].
  destruct (negb (rd (blob c1) 4 =? 1)) eqn:E4; [by apply Hf|].
  destruct ((SECURITY_COUNTER_PAYLOAD_MAX <? rd (blob c1) 5) || _ || _ || _) eqn:E5; [by apply Hf|].
  rewrite !orb_false_iff, !negb_false_iff in *. destruct E3 as [E3 E6].
  apply bool_decide_eq_true in E6. destruct E5 as [[[E5 E7] E8] E9].
  assert (ceiling (blob c1) domain = ceiling b domain) as Ec.
  { unfold ceiling. subst c1; cbn [blob set_blob set_nv_result]. unfold NV_RECORD_MAX in *.
    f_equal. apply slice_ext; rewrite ?blen_blit; try lia. intros i Hi.
    rewrite rd_blit by lia. replace ((0 <=? i) && _) with true by lia. f_equal. lia. }
  pose proof (counter_ceiling_u32 (blob c1) domain B1) as Hu.
  rewrite H2, Hh in Hr'. simpl in Hr'.
  split; [done|]. split; [by rewrite H2, Hh|]. split; [|by left].
  split; [done|]. split; [done|].
  cbn [state set_state finish set_payload_length set_generation payload_length blob floors set_next
       set_until next until generation]. rewrite !counter_sel_ceilings.
  split; [repeat split; try done; lia|]. split; [done|]. split; [rewrite Ec; lia|].
  split; [done|]. split; [apply Hu|]. split; [done|]. intros E. congruence.
Qed.

(** A payload put into a formatted or an empty blob. *)
Lemma counter_stage c data n limit r c' :
  blen (blob c) = 128 → is_bytes (blob c) → data_typed data n →
  stage c data n limit = (r, c') →
  (r ≠ SECURITY_COUNTER_OK ∧ c' = c) ∨
  (r = SECURITY_COUNTER_OK ∧ state c' = SECURITY_COUNTER_READY ∧ next c' = next c ∧
   until c' = until c ∧ generation c' = generation c ∧ payload_length c' = rd (blob c') 5 ∧
   rd (blob c') 5 <= SECURITY_COUNTER_PAYLOAD_MAX ∧
   blen (blob c') = 128 ∧ is_bytes (blob c') ∧
   ∀ i, 0 <= i < 16 → i ≠ 5 → rd (blob c') i = rd (blob c) i).
Proof.
  intros L B [Hn Hd]. unfold stage. destruct (refused data n limit) as [e|] eqn:E.
  - intros [= <- <-]. left. split; [|done]. revert E. unfold refused.
    destruct (_ || _ || _); [by intros [= <-]|]. by destruct (_ && _); intros [= <-].
  - assert (n <= SECURITY_COUNTER_PAYLOAD_MAX) as Hm.
    { revert E. unfold refused. destruct (_ <? n) eqn:?; [done|]. intros _. lia. }
    intros [= <- <-]. right. split; [done|].
    destruct (counter_payload c (default [] (snd <$> data)) n L B Hd Hn Hm) as (P1&P2&P3&P4&_).
    split; [done|]. split; [done|]. split; [done|]. split; [done|].
    split; [by symmetry|]. rewrite <- P3 in Hm. done.
Qed.

Lemma counter_restage_invariant bound j c data n :
  data_typed data n → invariant domain bound j c →
  invariant domain bound j (security_counter_restage c data n).2.
Proof.
  intros Hd Hinv. pose proof Hinv as (Hs&Hr&(L&B&Hc)&Hcov). unfold security_counter_restage.
  destruct (bool_decide _ || negb (generation c =? 0)) eqn:E; [done|].
  apply orb_false_iff in E as [E1 E2]. apply bool_decide_eq_false, dec_stable in E1.
  unfold covered in Hcov. rewrite E1 in Hc, Hcov. destruct (stage c data n 1) as [r c'] eqn:Es.
  destruct (counter_stage c data n 1 r c' L B Hd Es) as
    [[_ ->]|(_&S1&S2&S3&S4&S5&S6&S7&S8&S9)]; [done|]. simpl.
  destruct Hc as (F&_&C1&C2&C3&C4&C5).
  split; [done|]. split; [done|]. unfold consistent, covered. rewrite S1, S2, S3, S4. split; [|done].
  split; [done|]. split; [done|]. split; [eapply counter_formatted_ext; try done; intros; apply S9; lia|].
  split; [done|]. split; [done|]. split; [done|]. split; [done|]. split; [|done].
  rewrite <- C4. apply counter_ceiling_ext; try done. intros i Hi. apply S9; lia.
Qed.

(** The header and the floors of a provisioned blob. *)
Lemma counter_provision b f g :
  blen b = 128 → is_bytes b → rd b 5 <= SECURITY_COUNTER_PAYLOAD_MAX → is_u32 f → is_u32 g →
  let b' := blit (blit (wr (wr (blit b 0 [0x43; 0x54; 0x52; 0x31; 1]) 7 0) 6 0) 8 (Crc.encode f))
                 12 (Crc.encode g) in
  formatted b' ∧ ceiling b' 0 = f ∧ ceiling b' 1 = g ∧ rd b' 5 = rd b 5.
Proof.
  intros L B H5 Hf Hg. set (hd5 := [0x43; 0x54; 0x52; 0x31; 1]).
  assert (blen hd5 = 5) as L5 by done. set (b1 := wr (wr _ 7 0) 6 0).
  assert (blen b1 = 128) as L1 by (subst b1; by rewrite !blen_wr, blen_blit).
  assert (is_bytes b1) as B1
    by (subst b1; do 2 (apply is_bytes_wr; [|done]); apply is_bytes_blit; [done|concrete]).
  destruct (counter_set_ceiling b1 0 f L1 B1) as (L2&B2&C2&_&R2); [by left|]. specialize (C2 Hf).
  destruct (counter_set_ceiling _ 1 g L2 B2) as (L3&B3&C3&C3'&R3); [by right|]. specialize (C3 Hg).
  change (8 + 4 * 0) with 8 in *. change (8 + 4 * 1) with 12 in *. change (1 - 1) with 0 in C3'.
  cbv zeta. set (b3 := blit _ 12 _) in *.
  assert (∀ i, 0 <= i < 8 → rd b3 i = rd b1 i) as Hr by (intros i Hi; rewrite R3, R2 by lia; done).
  assert (blen (blit b 0 hd5) = 128) as L0 by (by rewrite blen_blit).
  assert (∀ i, 0 <= i < 8 → rd b1 i
    = if i =? 6 then 0 else if i =? 7 then 0 else rd (blit b 0 hd5) i) as H1.
  { intros i Hi. subst b1. rewrite !rd_wr by (rewrite ?blen_wr; lia). done. }
  assert (∀ i, 0 <= i < 5 → rd (blit b 0 hd5) i = rd hd5 i) as H0.
  { intros i Hi. rewrite rd_blit, L5 by lia. replace ((0 <=? i) && (i <? 0 + 5)) with true by lia. f_equal. lia. }
  assert (rd b3 5 = rd b 5) as R5.
  { rewrite Hr, H1 by lia. apply counter_rd_edit; rewrite ?L5; lia. }
  split; [|by rewrite C3', C2].
  split; [done|]. split; [done|]. split.
  { apply slice_eq; [lia..|done|]. intros i Hi. rewrite Z.add_0_l, Hr, H1 by lia.
    replace (i =? 6) with false by lia. replace (i =? 7) with false by lia. rewrite H0 by lia.
    assert (i = 0 ∨ i = 1 ∨ i = 2 ∨ i = 3) as [-> |[-> |[-> | ->]]] by lia; done. }
  split; [by rewrite Hr, H1, H0 by lia|]. split; [by rewrite R5|].
  split; by rewrite Hr, H1 by lia.
Qed.

Lemma counter_create_invariant bound j c f g data n limit :
  is_u32 f → is_u32 g → data_typed data n → invariant domain bound j c →
  invariant domain bound j (security_counter_create c f g data n limit).2.
Proof.
  intros Hf Hg Hd Hinv. pose proof Hinv as (Hs&Hr&(L&B&Hc)&_). unfold security_counter_create.
  destruct (bool_decide (state c ≠ SECURITY_COUNTER_UNPROVISIONED) && _) eqn:E;
    [by destruct (state c)|].
  assert (bound <= 0 ∧ state c ≠ SECURITY_COUNTER_FAILED) as [Hb Hnf].
  { destruct (state c) eqn:Est; try done. destruct Hc as (_&_&_&_&_&_&Hc).
    split; [|done]. apply Hc. simpl in E. lia. }
  destruct (stage c data n limit) as [r c'] eqn:Es.
  destruct (counter_stage c data n limit r c' L B Hd Es) as
    [[Hr' ->]|(->&S1&S2&S3&S4&S5&S6&S7&S8&S9)].
  { rewrite bool_decide_eq_true_2 by done. by destruct (state c). }
  change (bool_decide (SECURITY_COUNTER_OK ≠ SECURITY_COUNTER_OK)) with false.
  destruct (counter_provision (blob c') f g S7 S8 S6 Hf Hg) as (F&C0&C1&R5). cbv zeta.
  set (b := blit _ 12 _) in *.
  enough (invariant domain bound j (floors (set_blob c' b))) as Hen by (by destruct (state c)).
  assert (is_u32 (sel (f, g) domain)) as Hu by (by destruct Hdomain as [-> | ->]).
  split; [done|]. split; [done|]. split; [|unfold covered; cbn; rewrite S1; by left].
  split; [apply F|]. split; [apply F|]. cbn [state floors set_next set_until set_blob]. rewrite S1.
  unfold floors. cbn [payload_length next until generation blob set_next set_until set_blob].
  rewrite C0, C1, S5, R5.
  split; [done|]. split; [done|]. unfold is_u32 in Hu. split; [lia|]. split; [done|].
  split; [lia|]. split; [|done].
  by destruct Hdomain as [-> | ->]; rewrite ?C0, ?C1.
Qed.

Lemma counter_sel_upd (x : Z * Z) d v :
  d = 0 ∨ d = 1 → sel (upd x d v) domain = if domain =? d then v else sel x domain.
Proof. by destruct Hdomain as [-> | ->]; intros [-> | ->]. Qed.

(** A commit of a blob whose ceiling in the domain is not below the bound. *)
Lemma counter_commit_invariant bound j c limit :
  sound j → reserved domain bound (held (medium j)) → formatted (blob c) →
  bound <= ceiling (blob c) domain →
  match commit j c limit with
  | Lost m => reserved domain bound (held m)
  | Ret (r, j', c') =>
      sound j' ∧ reserved domain bound (held (medium j')) ∧
      next c' = next c ∧ until c' = until c ∧ blob c' = blob c ∧
      if decide (r = SECURITY_COUNTER_OK) then
        state c' = SECURITY_COUNTER_READY ∧ generation c' ≠ 0 ∧
        payload_length c' = rd (blob c) 5 ∧
        ∃ b, held (medium j') = Holds (generation c') b ∧
             ceiling b domain = ceiling (blob c) domain
      else state c' = SECURITY_COUNTER_FAILED ∧ result c' ≠ SECURITY_COUNTER_OK
  end.
Proof.
  intros Hs Hr (L&B&_&_&H5&_) Hb. pose proof (rd_is_u8 (blob c) 5 B) as [H50 _].
  pose proof (counter_commit j c limit Hs B L H5) as H. cbv zeta in H.
  assert (ceiling (slice (blob c) 0 (16 + rd (blob c) 5)) domain = ceiling (blob c) domain) as Ec
    by (apply counter_ceiling_prefix; unfold SECURITY_COUNTER_PAYLOAD_MAX in *; lia || done).
  rewrite <- Ec in Hb.
  destruct (commit j c limit) as [[[r j'] c']|m]; [|by eapply counter_settles].
  destruct H as (H1&H2&H3&H4&H6&H7&H8).
  split; [done|]. split; [by eapply counter_settles|]. split; [done|]. split; [done|]. split; [done|].
  destruct (decide (r = SECURITY_COUNTER_OK)); [|by rewrite H7].
  destruct H8 as (S1&S2&S3&S4). split; [done|]. split; [done|]. split; [done|]. by eexists.
Qed.

Lemma counter_refill bound j c d limit :
  d = 0 ∨ d = 1 → invariant domain bound j c → state c = SECURITY_COUNTER_READY →
  match refill j c d limit with
  | Lost m => reserved domain bound (held m)
  | Ret (r, j', c') =>
      invariant domain bound j' c' ∧
      (r = SECURITY_COUNTER_OK → state c' = SECURITY_COUNTER_READY ∧ next c' = next c ∧
       (is_u32 (sel (until c) d) → sel (until c) d < sel (until c') d))
  end.
Proof.
  intros Hd Hinv Est. pose proof Hinv as (Hs&Hr&(L&B&Hc)&Hcov). unfold covered in Hcov.
  rewrite Est in Hc, Hcov. destruct Hc as (F&C0&C1&C2&C3&C4&C5). unfold refill.
  destruct (sel (until c) d =? 0xffffffff) eqn:E1.
  { split; [|done]. split; [done|]. split; [done|]. unfold consistent, covered. simpl. rewrite Est.
    split; [|done]. done. }
  pose proof (counter_current j c Hs) as Hcu. cbv zeta.
  destruct (current j c) as [[[r j1] c1]|m]; [|by rewrite Hcu].
  destruct Hcu as (S1&S2&x&->).
  destruct (bool_decide (r = SECURITY_COUNTER_OK)) eqn:E2.
  2: { apply bool_decide_eq_false in E2. rewrite bool_decide_eq_true_2 by done.
       split; [|done]. split; [done|]. split; [by rewrite S2|].
       split; [by apply counter_failed|done]. }
  apply bool_decide_eq_true in E2 as ->.
  change (bool_decide (SECURITY_COUNTER_OK ≠ SECURITY_COUNTER_OK)) with false. cbv iota.
  set (stop := if _ <? _ then _ else _).
  assert (is_u32 (sel (until c) d) → is_u32 stop ∧ sel (until c) d < stop) as Hst.
  { unfold is_u32, SECURITY_COUNTER_RANGE in *. intros Hu. subst stop.
    destruct (_ <? sel (until c) d) eqn:?; lia. }
  cbn [blob set_nv_result until next]. set (b := blit _ _ _).
  destruct (counter_set_ceiling (blob c) d stop L B Hd) as (L2&B2&E3&E4&E5). fold b in L2, B2, E3, E4, E5.
  assert (formatted b) as Fb.
  { apply (counter_formatted_ext (blob c)); try done; [|intros i Hi _; apply E5; lia].
    rewrite E5 by lia. apply F. }
  assert (sel (until c) domain <= ceiling b domain) as Hcb.
  { destruct (decide (d = domain)) as [->|Hne].
    - destruct (Hst C2) as [Hu Hlt]. rewrite E3 by done. lia.
    - replace domain with (1 - d) by lia. rewrite E4. replace (1 - d) with domain by lia. lia. }
  assert (bound <= ceiling b domain) as Hbb by lia.
  rewrite <- S2 in Hr.
  pose proof (counter_commit_invariant bound j1 (set_blob (set_nv_result c x) b) limit S1 Hr Fb Hbb)
    as Hco.
  destruct (commit j1 (set_blob (set_nv_result c x) b) limit) as [[[r j2] c2]|m]; [|done].
  destruct Hco as (K1&K2&K3&K4&K5&K6).
  destruct (decide (r = SECURITY_COUNTER_OK)) as [->|Hne].
  2: { rewrite bool_decide_eq_true_2 by done. split; [|done]. destruct K6 as [K6 K7].
       split; [done|]. split; [done|]. unfold consistent, covered. by rewrite K6, K5. }
  change (bool_decide (SECURITY_COUNTER_OK ≠ SECURITY_COUNTER_OK)) with false. cbv iota.
  destruct K6 as (T1&T2&T3&bh&T4&T5).
  assert (sel (upd (until c2) d stop) domain
          = if domain =? d then stop else sel (until c) domain) as Hsel
    by (rewrite counter_sel_upd by done; by rewrite K4).
  assert (ceiling b domain = sel (upd (until c2) d stop) domain) as Hceil.
  { rewrite Hsel. destruct (domain =? d) eqn:Ed.
    - replace domain with d in * by lia. apply E3. by apply Hst.
    - replace domain with (1 - d) by lia. rewrite E4. replace (1 - d) with domain by lia. done. }
  split.
  2: { intros _. split; [done|]. split; [done|]. intros Hu. cbn [until set_until]. rewrite K4.
       cbn [until set_blob set_nv_result].
       replace (sel (upd (until c) d stop) d) with stop by (by destruct Hd as [-> | ->]). by apply Hst. }
  split; [done|]. split; [done|]. unfold consistent, covered.
  cbn [blob state payload_length next until generation set_until]. rewrite T1, K5, K3, T3, T4, <- Hceil, T5.
  cbn [blob next set_blob set_nv_result]. split; [|by right].
  split; [done|]. split; [done|]. split; [done|]. split; [done|]. split; [lia|].
  split; [by apply counter_ceiling_u32|]. split; [done|]. split; [done|]. done.
Qed.

(** Giving out the next value of a reservation. *)
Lemma counter_emit bound j c d :
  d = 0 ∨ d = 1 → invariant domain bound j c → state c = SECURITY_COUNTER_READY →
  (d = domain → sel (next c) d ≠ sel (until c) d) →
  let v := sel (next c) d in
  let c' := finish (set_next c (upd (next c) d (u32 (v + 1)))) SECURITY_COUNTER_OK in
  if d =? domain then bound <= v < 0xffffffff ∧ invariant domain (v + 1) j c'
  else invariant domain bound j c'.
Proof.
  intros Hd (Hs&Hr&(L&B&Hc)&Hcov) Est Hne. unfold covered in Hcov. rewrite Est in Hc, Hcov.
  destruct Hc as (F&C0&C1&C2&C3&C4&C5). cbv zeta. set (v := sel (next c) d).
  assert (sel (upd (next c) d (u32 (v + 1))) domain
          = if domain =? d then u32 (v + 1) else sel (next c) domain) as Hsel
    by (by apply counter_sel_upd).
  destruct (d =? domain) eqn:Ed.
  - assert (d = domain) as -> by lia. specialize (Hne eq_refl). fold v in Hne, C1, C3, C5.
    rewrite Z.eqb_refl in Hsel. unfold is_u32 in C2. rewrite u32_id in * by (unfold is_u32; lia).
    destruct Hcov as [|Hcov]; [done|]. split; [lia|].
    split; [done|]. split.
    { destruct (held (medium j)); simpl; [done|lia|done]. }
    unfold consistent, covered. cbn [state finish set_next blob next until payload_length generation].
    rewrite Est, Hsel. split; [|by right].
    split; [done|]. split; [done|]. split; [done|]. split; [done|]. split; [lia|].
    split; [done|]. split; [lia|]. split; [done|]. intros E. destruct (C5 E). lia.
  - replace (domain =? d) with false in Hsel by lia.
    split; [done|]. split; [done|]. unfold consistent, covered.
    cbn [state finish set_next blob next until payload_length generation]. rewrite Est, Hsel. done.
Qed.

(** A take: every value given out is at or above the bound, below 0xffffffff, and the bound
    moves past it. *)
Lemma counter_take_invariant bound j c d value limit :
  d = 0 ∨ d = 1 → invariant domain bound j c →
  match security_counter_take j c d value limit with
  | Lost m => reserved domain bound (held m)
  | Ret (r, v, j', c') =>
      match v with
      | Some v => if d =? domain then bound <= v < 0xffffffff ∧ invariant domain (v + 1) j' c'
                  else invariant domain bound j' c'
      | None => invariant domain bound j' c'
      end
  end.
Proof.
  intros Hd Hinv. pose proof Hinv as (_&_&(_&_&Hc)&_). unfold security_counter_take, ready.
  destruct (state c) eqn:Est; try done; [|by destruct (result c)].
  destruct value as [a|]; [|done]. destruct (_ || _); [done|].
  destruct (negb (caller a 4)); [done|].
  destruct (sel (next c) d =? sel (until c) d) eqn:Eq.
  - pose proof (counter_refill bound j c d limit Hd Hinv Est) as H.
    destruct (refill j c d limit) as [[[r j1] c1]|m]; [|done]. destruct H as [H1 H2].
    destruct (bool_decide (r ≠ SECURITY_COUNTER_OK)) eqn:E2; [done|].
    apply bool_decide_eq_false, dec_stable in E2. destruct (H2 E2) as (S1&S2&S3).
    apply (counter_emit bound j1 c1 d Hd H1 S1). intros ->.
    destruct Hc as (_&_&_&Hu&_). specialize (S3 Hu). rewrite S2. lia.
  - cbn [bool_decide]. change (bool_decide (SECURITY_COUNTER_OK ≠ SECURITY_COUNTER_OK)) with false.
    apply (counter_emit bound j c d Hd Hinv Est). intros _. lia.
Qed.

Lemma counter_save_invariant bound j c data n limit :
  data_typed data n → invariant domain bound j c →
  match security_counter_save j c data n limit with
  | Lost m => reserved domain bound (held m)
  | Ret (_, j', c') => invariant domain bound j' c'
  end.
Proof.
  intros [Hn Hd] Hinv. pose proof Hinv as (Hs&Hr&(L&B&Hc)&_). unfold security_counter_save, ready.
  destruct (state c) eqn:Est; try done; [|by destruct (result c)].
  destruct (refused data n limit) as [e|] eqn:E; [done|].
  assert (n <= SECURITY_COUNTER_PAYLOAD_MAX) as Hm.
  { revert E. unfold refused. destruct (_ <? n) eqn:?; [done|]. intros _. lia. }
  destruct Hc as (F&C0&C1&C2&C3&C4&C5).
  pose proof (counter_current j c Hs) as Hcu.
  destruct (current j c) as [[[r j1] c1]|m]; [|by rewrite Hcu]. destruct Hcu as (S1&S2&x&->).
  destruct (bool_decide (r = SECURITY_COUNTER_OK)) eqn:E2.
  2: { apply bool_decide_eq_false in E2. rewrite bool_decide_eq_true_2 by done.
       split; [done|]. split; [by rewrite S2|]. split; [by apply counter_failed|done]. }
  apply bool_decide_eq_true in E2 as ->.
  change (bool_decide (SECURITY_COUNTER_OK ≠ SECURITY_COUNTER_OK)) with false. cbv iota.
  destruct (counter_payload (set_nv_result c x) (default [] (snd <$> data)) n L B Hd Hn Hm)
    as (P1&P2&P3&P4&_). cbv zeta in P1, P2, P3, P4. set (c2 := payload _ _ n) in *.
  cbn [blob set_nv_result] in P4.
  assert (formatted (blob c2)) as F2
    by (apply (counter_formatted_ext (blob c)); try done; [by rewrite P3|intros i Hi ?; apply P4; lia]).
  assert (ceiling (blob c2) domain = sel (until c) domain) as Ec.
  { rewrite <- C4. apply counter_ceiling_ext; try done. intros i Hi. apply P4; lia. }
  assert (bound <= ceiling (blob c2) domain) as Hbb by lia. rewrite <- S2 in Hr.
  pose proof (counter_commit_invariant bound j1 c2 limit S1 Hr F2 Hbb) as Hco.
  destruct (commit j1 c2 limit) as [[[r j2] c3]|m]; [|done].
  destruct Hco as (K1&K2&K3&K4&K5&K6). split; [done|]. split; [done|].
  unfold consistent, covered. rewrite K5.
  destruct (decide (r = SECURITY_COUNTER_OK)) as [->|Hne].
  2: { destruct K6 as [K6 K7]. by rewrite K6. }
  destruct K6 as (T1&T2&T3&bh&T4&T5). rewrite T1, T3, K3, K4, T4, T5, Ec.
  cbn [next until c2 payload set_blob set_nv_result].
  split; [|right; lia]. split; [done|]. split; [done|]. split; [done|]. split; [done|]. split; [done|].
  split; [done|]. split; [done|]. split; [done|]. done.
Qed.

Lemma counter_restart bound m :
  reserved domain bound (held m) → invariant domain bound (reboot m) reset_counter.
Proof.
  intros Hr. destruct (reboot_law m) as [Hs E]. split; [done|]. rewrite E. split; [done|].
  split; [|done]. split; [done|]. split; [concrete|done].
Qed.

Lemma counter_step bound j c e :
  event_typed e → invariant domain bound j c →
  let '(out, (j', c')) := step j c e in
  ∃ bound', bound <= bound' ∧ invariant domain bound' j' c' ∧
    (values domain out = [] ∨
     ∃ v, values domain out = [v] ∧ bound <= v < 0xffffffff ∧ bound' = v + 1).
Proof.
  intros He Hinv.
  assert (∀ j' c', invariant domain bound j' c' →
    ∃ bound', bound <= bound' ∧ invariant domain bound' j' c' ∧
      (values domain [] = [] ∨ ∃ v, values domain [] = [v] ∧ bound <= v < 0xffffffff ∧ bound' = v + 1))
    as Hq by (intros j' c' H; exists bound; split; [lia|]; split; [done|by left]).
  destruct e as [|f g data n limit|data n|d value limit|data n limit|data cap len|]; simpl in He |- *.
  - pose proof (counter_open_invariant bound j c Hinv) as H.
    destruct (security_counter_open j c) as [[[r j'] c']|m]; apply Hq; [done|by apply counter_restart].
  - destruct He as (Hf&Hg&Hd). by apply Hq, counter_create_invariant.
  - by apply Hq, counter_restage_invariant.
  - destruct (decide (1 < d)) as [Hbig|Hsmall].
    + assert (∃ r, security_counter_take j c d value limit = Ret (r, None, j, c)) as [r ->].
      { unfold security_counter_take. destruct (ready c); try by eexists.
        destruct value; [|by eexists]. replace (1 <? d) with true by lia. by eexists. }
      by apply Hq.
    + assert (d = 0 ∨ d = 1) as Hd by (unfold is_u8 in He; lia).
      pose proof (counter_take_invariant bound j c d value limit Hd Hinv) as H.
      destruct (security_counter_take j c d value limit) as [[[[r [v|]] j'] c']|m];
        [|by apply Hq|by apply Hq, counter_restart].
      unfold values. rewrite filter_cons. simpl.
      destruct (d =? domain) eqn:Ed.
      * rewrite decide_True by lia. destruct H as [Hv H]. exists (v + 1).
        split; [lia|]. split; [done|]. right. by exists v.
      * rewrite decide_False by lia. by apply Hq.
  - pose proof (counter_save_invariant bound j c data n limit He Hinv) as H.
    destruct (security_counter_save j c data n limit) as [[[r j'] c']|m]; apply Hq;
      [done|by apply counter_restart].
  - apply Hq. unfold security_counter_read. destruct (ready c) eqn:Er; try done.
    destruct len as [a|]; [|done]. destruct (_ && _); [done|]. destruct (_ || _); [done|].
    destruct (cap <? payload_length c); [done|].
    destruct Hinv as (H1&H2&(L&B&H3)&H4). split; [done|]. split; [done|].
    unfold ready in Er. unfold consistent, covered in *. simpl.
    destruct (state c); try done.
  - apply Hq, counter_restart, Hinv.
Qed.

Lemma counter_run bound j c es :
  Forall event_typed es → invariant domain bound j c →
  StronglySorted Z.lt (values domain (run j c es)) ∧
  Forall (λ v, bound <= v < 0xffffffff) (values domain (run j c es)).
Proof.
  revert bound j c. induction es as [|e es IH]; intros bound j c Hes Hinv; [by split; constructor|].
  apply Forall_cons_1 in Hes as [He Hes]. pose proof (counter_step bound j c e He Hinv) as H.
  cbn [run]. destruct (step j c e) as [out [j' c']]. destruct H as (bound'&Hb&Hinv'&Hout).
  destruct (IH bound' j' c' Hes Hinv') as [IH1 IH2].
  unfold values in *. rewrite list.filter_app, fmap_app.
  assert (∀ b, b <= bound' →
    Forall (λ v, b <= v < 0xffffffff) (snd <$> filter (λ x, x.1 = domain) (run j' c' es))) as Hf
    by (intros b Hle; eapply Forall_impl; [|exact IH2]; simpl; lia).
  destruct Hout as [-> |(v&->&Hv&->)]; simpl; [by split; [|apply Hf]|].
  split; [|constructor; [lia|apply Hf; lia]]. constructor; [done|].
  eapply Forall_impl; [|exact IH2]. simpl. lia.
Qed.
End Domain.

(** C4: no counter value is ever given out twice. From a reset on any medium, whatever
    sequence of openings, provisionings, takes, saves, reads and resets follows, and wherever
    the supply fails in between, the values a domain hands out form a strictly increasing
    sequence that starts at the ceiling stored in the medium and never reaches 0xffffffff. *)
Theorem counter_values_increase m domain es :
  domain = 0 ∨ domain = 1 → Forall event_typed es →
  let start := match held m with Holds _ b => ceiling b domain | _ => 0 end in
  let vs := values domain (run (reboot m) reset_counter es) in
  StronglySorted Z.lt vs ∧ Forall (λ v, start <= v < 0xffffffff) vs.
Proof.
  intros Hd Hes start. apply (counter_run domain Hd start); [done|].
  apply counter_restart. subst start. destruct (held m); simpl; lia || done.
Qed.

(** A stored formatted blob opens, unless the journal refuses. *)
Lemma counter_open_stored m g c0 n r j c :
  formatted c0 → rd c0 5 = n → held m = Holds g (slice c0 0 (16 + n)) →
  security_counter_open (reboot m) reset_counter = Ret (r, j, c) →
  r = SECURITY_COUNTER_NV ∨ r = SECURITY_COUNTER_RECOVERY ∨
  (r = SECURITY_COUNTER_OK ∧ state c = SECURITY_COUNTER_READY ∧ payload_length c = n ∧
   slice (blob c) 16 n = slice c0 16 n ∧
   next c = (ceiling c0 0, ceiling c0 1) ∧ until c = next c).
Proof.
  intros (L&B&M0&V&P&R6&R7) H5 Hh. pose proof (rd_is_u8 c0 5 B) as [H50 _].
  unfold NV_RECORD_MAX, SECURITY_COUNTER_PAYLOAD_MAX, NV_RECORD_MAX in *.
  destruct (reboot_law m) as [Hs Em]. unfold security_counter_open. cbn [state reset_counter].
  destruct (load (reboot m) blob_at NV_RECORD_MAX) as [[[x out] j']|m'] eqn:Hl; [|done].
  destruct (load_law _ _ _ _ _ _ Hs Hl) as (H1&H2&H3). rewrite Em, Hh in *. cbv zeta.
  destruct (bool_decide (x = NV_RECORD_EMPTY)) eqn:E1;
    [apply bool_decide_eq_true in E1 as ->; by destruct H3|].
  destruct (bool_decide (x ≠ NV_RECORD_OK)) eqn:E2.
  { intros [= <- <- <-]. destruct (bool_decide (x = NV_RECORD_RECOVERED)); auto. }
  apply bool_decide_eq_false, dec_stable in E2 as ->.
  destruct H3 as (g'&b&[= <- <-]&->&Bb&Lb&Hg&Eg&El). cbn [blob set_blob set_nv_result].
  set (b1 := blit _ 0 _).
  assert (blen (slice c0 0 (16 + n)) = 16 + n) as Lsl by (apply blen_slice; lia).
  assert (blen b1 = 128) as L1 by (subst b1; by rewrite blen_blit).
  assert (∀ i, 0 <= i < 16 + n → rd b1 i = rd c0 i) as Hr.
  { intros i Hi. subst b1. rewrite rd_blit, Lsl by (try rewrite Lsl; change (blen (blob reset_counter)) with 128; lia).
    replace ((0 <=? i) && (i <? 0 + (16 + n))) with true by lia.
    rewrite rd_slice by lia. f_equal. lia. }
  assert (∀ p k, 0 <= p → 0 <= k → p + k <= 16 + n → slice b1 p k = slice c0 p k) as Hsl
    by (intros p k Hp Hk Hpk; apply slice_ext; try lia; intros i Hi; apply Hr; lia).
  assert (∀ d, d = 0 ∨ d = 1 → ceiling b1 d = ceiling c0 d) as Hc
    by (intros d Hd; unfold ceiling; f_equal; apply Hsl; lia).
  rewrite Hsl, M0, bool_decide_eq_true_2, !Hr, V, H5, R6, R7, El, Lsl by (done || lia).
  replace (16 + n <? 16) with false by lia.
  replace (SECURITY_COUNTER_PAYLOAD_MAX <? n) with false by (unfold SECURITY_COUNTER_PAYLOAD_MAX; lia).
  rewrite !Z.eqb_refl. cbn [negb orb Z.eqb Pos.eqb].
  intros [= <- <- <-]. right; right. unfold floors.
  cbn [state finish set_state payload_length set_payload_length set_generation blob set_next set_until
       set_blob set_nv_result next until]. fold b1. rewrite !Hc, Hsl by (auto || lia). done.
Qed.

(** a saved payload is what the next start reads: after a successful save and any reset,
    opening either fails because the storage does, or yields exactly the saved octets and the
    ceilings the counters had. *)
Theorem counter_save_roundtrip j c address octets n limit j' c' r j2 c2 out_at len_at capacity :
  sound j → state c = SECURITY_COUNTER_READY → formatted (blob c) →
  is_u8 n → is_bytes octets → n <= blen octets →
  security_counter_save j c (Some (address, octets)) n limit = Ret (SECURITY_COUNTER_OK, j', c') →
  security_counter_open (reboot (medium j')) reset_counter = Ret (r, j2, c2) →
  n <= capacity → caller len_at 1 = true → caller out_at capacity = true →
  r = SECURITY_COUNTER_NV ∨ r = SECURITY_COUNTER_RECOVERY ∨
  (r = SECURITY_COUNTER_OK ∧ next c2 = (ceiling (blob c) 0, ceiling (blob c) 1) ∧
   until c2 = next c2 ∧
   ∃ c3, security_counter_read c2 (Some out_at) capacity (Some len_at)
         = (SECURITY_COUNTER_OK, Some (slice octets 0 n), Some n, c3)).
Proof.
  intros Hs Est F Hn Hb Hl H Ho Hcap Hla Hoa. pose proof F as (L&B&_&_&_).
  unfold security_counter_save, ready in H. rewrite Est in H.
  destruct (refused (Some (address, octets)) n limit) as [e|] eqn:E.
  { revert E H. unfold refused. destruct (_ || _ || _); [intros [= <-]; done|].
    destruct (_ && _); [intros [= <-]; done|done]. }
  assert (n <= SECURITY_COUNTER_PAYLOAD_MAX) as Hm.
  { revert E. unfold refused. destruct (_ <? n) eqn:?; [done|]. intros _. lia. }
  pose proof (counter_current j c Hs) as Hcu. destruct (current j c) as [[[r1 j1] c1]|m]; [|done].
  destruct Hcu as (S1&S2&x&->).
  destruct (bool_decide (r1 = SECURITY_COUNTER_OK)) eqn:E2.
  2: { apply bool_decide_eq_false in E2. rewrite bool_decide_eq_true_2 in H by done. congruence. }
  apply bool_decide_eq_true in E2 as ->.
  change (bool_decide (SECURITY_COUNTER_OK ≠ SECURITY_COUNTER_OK)) with false in H. cbv iota in H.
  destruct (counter_payload (set_nv_result c x) octets n L B Hb Hn Hm) as (P1&P2&P3&P4&P5).
  cbv zeta in P1, P2, P3, P4, P5. specialize (P5 Hl). cbn [default fst snd fmap option_fmap option_map] in H.
  cbn [blob set_nv_result] in P4. change (id octets) with octets in H.
  set (c3 := payload (set_nv_result c x) octets n) in *.
  assert (formatted (blob c3)) as F2
    by (apply (counter_formatted_ext (blob c)); try done; [by rewrite P3|intros i Hi ?; apply P4; lia]).
  pose proof (counter_commit j1 c3 limit S1 P2 P1 ltac:(rewrite P3; done)) as Hco.
  cbv zeta in Hco. rewrite H in Hco. destruct Hco as (_&_&_&_&_&_&Hco).
  rewrite decide_True in Hco by done. destruct Hco as (_&_&_&Hh). rewrite P3 in Hh.
  destruct (counter_open_stored _ _ _ _ _ _ _ F2 P3 Hh Ho) as [->|[->|(->&T1&T2&T3&T4&T5)]];
    [by left|by right; left|right; right].
  assert (∀ d, d = 0 ∨ d = 1 → ceiling (blob c3) d = ceiling (blob c) d) as Hc
    by (intros d Hd; apply counter_ceiling_ext; try done; intros i Hi; apply P4; lia).
  split; [done|]. split; [rewrite T4, !Hc by auto; done|]. split; [done|].
  unfold security_counter_read, ready. rewrite T1. change (default 0 (Some out_at)) with out_at.
  change (bool_decide (Some out_at = None)) with false.
  rewrite Hla, Hoa, T2. cbn [negb orb andb]. rewrite andb_false_r.
  replace (capacity <? n) with false by lia. rewrite T3, P5. by eexists.
Qed.
End Operations.

(** ** Concrete instances

    The ideal journal, blank at first; the counter's buffers are at 0x540 and 0x5c0, the
    caller's data at 0x700. *)
Section Sample.
Let J : Type := ideal.
Definition sample_events : list event :=
  [Open; Create 5 7 (Some (0x700, [1; 2; 3])) 3 2000; Take 1 (Some 0x704) 2000;
   Reset; Open; Take 1 (Some 0x704) 2000].
Definition sample_run : list (Z * Z) :=
  run (J := J) 0x640 0x540 0x5c0 (reboot Blank) reset_counter sample_events.
Definition sample_counter : counter :=
  (security_counter_create 0x640 (set_state reset_counter SECURITY_COUNTER_UNPROVISIONED)
     5 7 (Some (0x700, [1; 2; 3])) 3 2000).2.
Definition saved_by (x : outcome contents (security_counter_result_t * J * counter)) : J * counter :=
  match x with Ret (_, j, c) => (j, c) | Lost m => (reboot m, reset_counter) end.
Definition sample_saved : J * counter :=
  saved_by (security_counter_save 0x640 0x540 0x5c0 (reboot Blank) sample_counter
              (Some (0x700, [4; 5])) 2 2000).
Definition sample_opened : J * counter :=
  saved_by (security_counter_open 0x540 (reboot (medium sample_saved.1)) reset_counter).

Lemma counter_values_increase_witness :
  sample_run = [(1, 7); (1, 263)] ∧
  StronglySorted Z.lt (values 1 sample_run) ∧
  Forall (λ v, 0 <= v < 0xffffffff) (values 1 sample_run).
Proof.
  split; [vm_compute; reflexivity|].
  refine (counter_values_increase 0x640 0x540 0x5c0 Blank 1 sample_events _ _); [by right|].
  unfold sample_events, event_typed, data_typed. repeat constructor; concrete.
Defined.

Lemma counter_save_roundtrip_witness :
  ∃ c3, security_counter_read 0x640 sample_opened.2 (Some 0x700) 16 (Some 0x710)
        = (SECURITY_COUNTER_OK, Some [4; 5], Some 2, c3).
Proof.
  pose proof (counter_save_roundtrip 0x640 0x540 0x5c0 (reboot Blank) sample_counter 0x700 [4; 5]
    2 2000 sample_saved.1 sample_saved.2 SECURITY_COUNTER_OK sample_opened.1 sample_opened.2
    0x700 0x710 16) as H.
  destruct H as [[=]|[[=]|(_&_&_&H)]]; [apply reboot_law|..|exact H]; vm_compute.
  all: try reflexivity. all: try (intros; discriminate). all: repeat split; concrete.
Defined.
End Sample.
End Counter.
