(* ===== verification/Timebase.v ===== *)
(** Sleep Timer deadlines, src/src/timebase.c: comparison of 24-bit counter values across the
    wrap of the counter. *)
From S2P Require Import Prelude.

Module Timebase.
Definition TIMEBASE_TICKS_MASK := 0x00ffffff.
Definition TIMEBASE_HALF_RANGE := 0x00800000.

Inductive timebase_result_t :=
  | TIMEBASE_OK
  | TIMEBASE_INVALID_ARGUMENT
  | TIMEBASE_AMBIGUOUS.

(** The three reads, over a device read function; each may change the device (the first one
    latches the counter). *)
Definition timebase_read_awake_ticks24 {T} (mmio_read : Z → T → Z * T) (ST0 ST1 ST2 : Z) (t : T)
    : Z * T :=
  let '(low, t) := mmio_read ST0 t in
  let '(middle, t) := mmio_read ST1 t in
  let '(high, t) := mmio_read ST2 t in
  (Z.lor (Z.lor low (Z.shiftl middle 8)) (Z.shiftl high 16), t).

(** [out]: whether the output pointer is not NULL; the result carries what is stored. *)
Definition timebase_deadline_after (now delay : Z) (out : bool) : timebase_result_t * option Z :=
  if! (TIMEBASE_TICKS_MASK <? now) || (TIMEBASE_HALF_RANGE <=? delay) || negb out
    return (TIMEBASE_INVALID_ARGUMENT, None) ;;
  (TIMEBASE_OK, Some (Z.land (u32 (now + delay)) TIMEBASE_TICKS_MASK)).

Definition timebase_expired (now deadline : Z) (out : bool) : timebase_result_t * option bool :=
  if! (TIMEBASE_TICKS_MASK <? now) || (TIMEBASE_TICKS_MASK <? deadline) || negb out
    return (TIMEBASE_INVALID_ARGUMENT, None) ;;
  let delta := Z.land (u32 (now - deadline)) TIMEBASE_TICKS_MASK in
  if! delta =? TIMEBASE_HALF_RANGE return (TIMEBASE_AMBIGUOUS, None) ;;
  (TIMEBASE_OK, Some (delta <? TIMEBASE_HALF_RANGE)).

(** The counter at the true time [t]. *)
Definition ticks24 (t : Z) : Z := t mod 2 ^ 24.

Lemma timebase_mask x : Z.land (u32 x) TIMEBASE_TICKS_MASK = ticks24 x.
Proof.
  unfold u32, TIMEBASE_TICKS_MASK, ticks24. change 0x00ffffff with (Z.ones 24).
  rewrite Z.land_ones by done. change 4294967296 with (2 ^ 24 * 2 ^ 8).
  rewrite Z.rem_mul_r by done. rewrite Z.mul_comm, Z_mod_plus_full. by rewrite Z.mod_mod.
Qed.
Lemma timebase_ticks24_range t : 0 <= ticks24 t <= TIMEBASE_TICKS_MASK.
Proof. unfold ticks24, TIMEBASE_TICKS_MASK. change (2 ^ 24) with 16777216. width. Qed.
Lemma timebase_ticks24_sub a b : ticks24 (ticks24 a - ticks24 b) = ticks24 (a - b).
Proof. unfold ticks24. by rewrite <- Zminus_mod. Qed.
Lemma timebase_ticks24_add a b : ticks24 (ticks24 a + b) = ticks24 (a + b).
Proof. unfold ticks24. by rewrite Zplus_mod_idemp_l. Qed.

(** C14: a deadline is judged by true time. A deadline set at time [t] with any admitted delay,
    looked at after [e] ticks, within the half range past it, is expired exactly when the delay
    has elapsed, whatever the wraps of the counter in between; at exactly the half range past
    it the answer is refused as ambiguous and nothing is stored. *)
Theorem timebase_deadline_correct t delay e :
  0 <= delay < TIMEBASE_HALF_RANGE → 0 <= e <= delay + TIMEBASE_HALF_RANGE →
  ∃ deadline, timebase_deadline_after (ticks24 t) delay true = (TIMEBASE_OK, Some deadline) ∧
    timebase_expired (ticks24 (t + e)) deadline true
    = if e =? delay + TIMEBASE_HALF_RANGE then (TIMEBASE_AMBIGUOUS, None)
      else (TIMEBASE_OK, Some (delay <=? e)).
Proof.
  intros Hd He. unfold timebase_deadline_after, timebase_expired.
  pose proof (timebase_ticks24_range t). pose proof (timebase_ticks24_range (t + e)).
  pose proof (timebase_ticks24_range (t + delay)).
  replace (TIMEBASE_TICKS_MASK <? ticks24 t) with false by lia.
  replace (TIMEBASE_HALF_RANGE <=? delay) with false by lia.
  eexists. split; [reflexivity|]. rewrite !timebase_mask, timebase_ticks24_add.
  replace (TIMEBASE_TICKS_MASK <? ticks24 (t + e)) with false by lia.
  replace (TIMEBASE_TICKS_MASK <? ticks24 (t + delay)) with false by lia. cbn [orb negb].
  rewrite timebase_ticks24_sub. replace (t + e - (t + delay)) with (e - delay) by lia.
  unfold ticks24, TIMEBASE_HALF_RANGE in *. change (2 ^ 24) with 16777216 in *.
  destruct (e =? delay + 8388608) eqn:E.
  - by replace (e - delay) with 8388608 by lia.
  - assert ((e - delay) mod 16777216 = if delay <=? e then e - delay else e - delay + 16777216) as ->.
    { destruct (delay <=? e) eqn:?; [apply Z.mod_small; lia|].
      symmetry. apply Zmod_unique with (-1); lia. }
    destruct (delay <=? e) eqn:?.
    + replace (_ =? _) with false by lia. by replace (_ <? _) with true by lia.
    + replace (_ =? _) with false by lia. by replace (_ <? _) with false by lia.
Qed.

Lemma timebase_deadline_correct_witness :
  ∃ deadline, timebase_deadline_after (ticks24 0xfffffe) 5 true = (TIMEBASE_OK, Some deadline) ∧
    timebase_expired (ticks24 (0xfffffe + 4)) deadline true = (TIMEBASE_OK, Some false).
Proof.
  destruct (timebase_deadline_correct 0xfffffe 5 4) as (d&H1&H2); [concrete..|].
  exists d. split; [exact H1|]. rewrite H2. vm_compute. reflexivity.
Defined.
End Timebase.
