(* ===== verification/Epoch.v ===== *)
(** The symbol epoch, src/src/mac_epoch.c: raw MAC-timer tuples, whose period counter wraps at
    0xffffff, extended to a 32-bit symbol count. *)
From S2P Require Import Prelude.

Module Epoch.
Definition MAC_TIME_FINE_PERIOD := 512.
Definition MAC_TIME_OVERFLOW_PERIOD := 0x00ffffff.
Definition MAC_EPOCH_READY := 1.
Definition MAC_EPOCH_FAULT := 2.

Inductive mac_epoch_result_t :=
  | MAC_EPOCH_OK
  | MAC_EPOCH_INVALID_ARGUMENT
  | MAC_EPOCH_INVALID_STATE
  | MAC_EPOCH_TIME_ERROR.

Record mac_time_stamp_t := { raw_fine : Z; raw_periods : Z }.
Record mac_epoch_stamp_t := { out_symbols : Z; out_fine : Z }.
Record mac_epoch_t := { periods : Z; symbols : Z; fine : Z; state : Z }.

(** A pointer argument is [None] when it is NULL. *)
Definition valid (raw : option mac_time_stamp_t) : bool :=
  match raw with
  | Some raw => (raw_fine raw <? MAC_TIME_FINE_PERIOD) && (raw_periods raw <? MAC_TIME_OVERFLOW_PERIOD)
  | None => false
  end.

Definition mac_epoch_start (ctx : option mac_epoch_t) (raw : option mac_time_stamp_t) (symbols : Z)
    : mac_epoch_result_t * option mac_epoch_t :=
  match ctx, raw with
  | Some ctx, Some r =>
      if! negb (valid raw) return (MAC_EPOCH_INVALID_ARGUMENT, Some ctx) ;;
      (MAC_EPOCH_OK, Some {| periods := raw_periods r; symbols := symbols;
                             fine := raw_fine r; state := MAC_EPOCH_READY |})
  | _, _ => (MAC_EPOCH_INVALID_ARGUMENT, ctx)
  end.

(** The elapsed whole periods and fine increments; [None] is the jump to [fault]. *)
Definition elapsed (ctx : mac_epoch_t) (raw : mac_time_stamp_t) : option (Z * Z * Z) :=
  let p := if periods ctx <=? raw_periods raw then u32 (raw_periods raw - periods ctx)
           else u32 (MAC_TIME_OVERFLOW_PERIOD - periods ctx + raw_periods raw) in
  if raw_fine raw <? fine ctx then
    if! p =? 0 return None ;;
    Some (p, u32 (p - 1), u16 (MAC_TIME_FINE_PERIOD - fine ctx + raw_fine raw))
  else Some (p, p, u16 (raw_fine raw - fine ctx)).

Definition mac_epoch_step (ctx : option mac_epoch_t) (raw : option mac_time_stamp_t) (output : bool)
    : mac_epoch_result_t * option mac_epoch_stamp_t * option mac_epoch_t :=
  match ctx with
  | None => (MAC_EPOCH_INVALID_ARGUMENT, None, None)
  | Some c =>
      if! state c =? MAC_EPOCH_FAULT return (MAC_EPOCH_TIME_ERROR, None, ctx) ;;
      if! negb output || negb (valid raw) return (MAC_EPOCH_INVALID_ARGUMENT, None, ctx) ;;
      if! negb (state c =? MAC_EPOCH_READY) || (MAC_TIME_FINE_PERIOD <=? fine c)
          || (MAC_TIME_OVERFLOW_PERIOD <=? periods c)
        return (MAC_EPOCH_INVALID_STATE, None, ctx) ;;
      match raw with
      | None => (MAC_EPOCH_INVALID_ARGUMENT, None, ctx)
      | Some r =>
          let fault := (MAC_EPOCH_TIME_ERROR, None,
            Some {| periods := periods c; symbols := symbols c; fine := fine c;
                    state := MAC_EPOCH_FAULT |}) in
          match elapsed c r with
          | None => fault
          | Some (p, whole, fraction) =>
              if! (0x007fffff <? whole) || ((whole =? 0x007fffff) && (256 <=? fraction))
                return fault ;;
              let s := u32 (symbols c + p) in
              (MAC_EPOCH_OK, Some {| out_symbols := s; out_fine := raw_fine r |},
               Some {| periods := raw_periods r; symbols := s; fine := raw_fine r;
                       state := state c |})
          end
      end
  end.

(** ** True time

    [t] counts fine increments without bound; the timer shows [raw_at t]. *)
Definition raw_at (t : Z) : mac_time_stamp_t :=
  {| raw_fine := t mod 512; raw_periods := (t / 512) mod 0xffffff |}.
(** The exclusive bound of the gap between samples, half the period of the tuple. *)
Definition HALF_TUPLE := 0xffffff00.
Definition FULL_TUPLE := 2 * HALF_TUPLE.
(** A context that has accepted the sample at [t]. *)
Definition at_time (base s0 t : Z) (c : mac_epoch_t) : Prop :=
  state c = MAC_EPOCH_READY ∧ fine c = t mod 512 ∧ periods c = (t / 512) mod 0xffffff ∧
  symbols c = u32 (s0 + (t / 512 - base / 512)).
Definition stamp_at (base s0 t : Z) : mac_epoch_stamp_t :=
  {| out_symbols := u32 (s0 + (t / 512 - base / 512)); out_fine := t mod 512 |}.

Lemma epoch_valid t : valid (Some (raw_at t)) = true.
Proof.
  unfold valid, raw_at, MAC_TIME_FINE_PERIOD, MAC_TIME_OVERFLOW_PERIOD. cbn [raw_fine raw_periods].
  apply andb_true_iff. width.
Qed.

(** The difference of two tuples is the true gap as long as it is below a full tuple period. *)
Lemma epoch_elapsed base s0 t t' c :
  at_time base s0 t c → t <= t' < t + FULL_TUPLE →
  let w := (t' - t) / 512 in let f := (t' - t) mod 512 in
  match elapsed c (raw_at t') with
  | Some (p, whole, fraction) => whole = w ∧ fraction = f ∧
      0 <= p < 0x1000000 ∧ p mod 0xffffff = (t' / 512 - t / 512) mod 0xffffff ∧
      (w < 0x800000 → p = t' / 512 - t / 512)
  | None => 0x007fffff < w
  end.
Proof.
  intros (_&Ef&Ep&_) Ht. unfold elapsed, raw_at, FULL_TUPLE, HALF_TUPLE in *.
  unfold MAC_TIME_OVERFLOW_PERIOD, MAC_TIME_FINE_PERIOD. cbn [raw_fine raw_periods].
  rewrite Ef, Ep. cbv zeta. unfold u32, u16.
  destruct ((t / 512) mod 16777215 <=? (t' / 512) mod 16777215) eqn:E1;
    destruct (t' mod 512 <? t mod 512) eqn:E2; try destruct (_ =? 0) eqn:E3;
    repeat split; width.
Qed.

Lemma epoch_step base s0 t t' c :
  at_time base s0 t c → t <= t' < t + FULL_TUPLE →
  if t' - t <? HALF_TUPLE then
    ∃ c', mac_epoch_step (Some c) (Some (raw_at t')) true
          = (MAC_EPOCH_OK, Some (stamp_at base s0 t'), Some c') ∧ at_time base s0 t' c'
  else ∃ c', mac_epoch_step (Some c) (Some (raw_at t')) true = (MAC_EPOCH_TIME_ERROR, None, Some c') ∧
             state c' = MAC_EPOCH_FAULT.
Proof.
  intros Hc Ht. pose proof (epoch_elapsed base s0 t t' c Hc Ht) as He. cbv zeta in He.
  destruct Hc as (Es&Ef&Ep&Ey). unfold mac_epoch_step. rewrite Es, epoch_valid, Ef, Ep.
  unfold MAC_EPOCH_READY, MAC_EPOCH_FAULT, MAC_TIME_FINE_PERIOD, MAC_TIME_OVERFLOW_PERIOD.
  cbn [Z.eqb Pos.eqb negb orb].
  replace (512 <=? t mod 512) with false by width.
  replace (16777215 <=? (t / 512) mod 16777215) with false by width. cbn [orb].
  unfold HALF_TUPLE, FULL_TUPLE in *. destruct (elapsed c (raw_at t')) as [[[p w] f]|].
  - destruct He as (->&->&_&_&Hp).
    set (over := (8388607 <? (t' - t) / 512) || _).
    assert (over = negb (t' - t <? 0xffffff00)) as -> by (subst over; width).
    destruct (t' - t <? 0xffffff00) eqn:E; cbn [negb]; [|by eexists].
    rewrite Hp, Ey by width. eexists. unfold stamp_at, u32. rewrite Zplus_mod_idemp_l.
    replace (s0 + (t / 512 - base / 512) + (t' / 512 - t / 512)) with (s0 + (t' / 512 - base / 512)) by lia.
    split; [reflexivity|]. done.
  - replace (t' - t <? 0xffffff00) with false by width. by eexists.
Qed.

(** Feeding a sequence of samples. *)
Fixpoint mac_epoch_steps (ctx : option mac_epoch_t) (ts : list Z)
    : list (mac_epoch_result_t * option mac_epoch_stamp_t) :=
  match ts with
  | [] => []
  | t :: ts => let '(r, out, ctx) := mac_epoch_step ctx (Some (raw_at t)) true in
               (r, out) :: mac_epoch_steps ctx ts
  end.
(** Every gap is non-negative and below half the tuple period. *)
Fixpoint close (t : Z) (ts : list Z) : bool :=
  match ts with
  | [] => true
  | t' :: ts => (t <=? t') && (t' <? t + HALF_TUPLE) && close t' ts
  end.

Lemma epoch_started t s0 c0 :
  ∃ c, mac_epoch_start (Some c0) (Some (raw_at t)) s0 = (MAC_EPOCH_OK, Some c) ∧
       (is_u32 s0 → at_time t s0 t c).
Proof.
  unfold mac_epoch_start. rewrite epoch_valid. eexists. split; [reflexivity|].
  intros Hs. repeat split. simpl. by rewrite Z.sub_diag, Z.add_0_r, u32_id.
Qed.

(** C15: the epoch follows true time without drift. Started at any time with any symbol count
    and fed any number of samples with gaps below half the tuple period, every step succeeds
    and delivers the start count plus the periods that truly elapsed, modulo 2^32, with the
    exact fine part, however often the 0xffffff-period counter wrapped in total. *)
Theorem mac_epoch_tracks t s0 ctx ts :
  is_u32 s0 → close t ts = true →
  let started := mac_epoch_start (Some ctx) (Some (raw_at t)) s0 in
  started.1 = MAC_EPOCH_OK ∧
  mac_epoch_steps started.2 ts = (λ t', (MAC_EPOCH_OK, Some (stamp_at t s0 t'))) <$> ts.
Proof.
  intros Hs Hts. destruct (epoch_started t s0 ctx) as (c&->&Hc). specialize (Hc Hs). cbn [fst snd].
  split; [done|]. revert Hc Hts.
  assert (∀ base ts t c, at_time base s0 t c → close t ts = true →
    mac_epoch_steps (Some c) ts = (λ t', (MAC_EPOCH_OK, Some (stamp_at base s0 t'))) <$> ts) as H;
    [|intros; by eapply H].
  clear. intros base ts. induction ts as [|t' ts IH]; intros t c Hc Hts; [done|]. simpl in Hts.
  rewrite !andb_true_iff in Hts. destruct Hts as [[H1 H2] H3].
  pose proof (epoch_step base s0 t t' c Hc) as H. unfold FULL_TUPLE, HALF_TUPLE in *.
  specialize (H ltac:(lia)). replace (t' - t <? 0xffffff00) with true in H by lia.
  destruct H as (c'&E&Hc'). cbn [mac_epoch_steps]. rewrite E. rewrite fmap_cons. f_equal.
  by eapply IH.
Qed.

(** A sample that is too late, or from the past, is never mistaken for progress: when the
    gap is at least half the tuple period and below the whole, the step reports a time error,
    and so does every later one. *)
Theorem mac_epoch_rejects t s0 ctx t' ts :
  is_u32 s0 → t + HALF_TUPLE <= t' < t + FULL_TUPLE →
  let started := mac_epoch_start (Some ctx) (Some (raw_at t)) s0 in
  mac_epoch_steps started.2 (t' :: ts) = replicate (S (length ts)) (MAC_EPOCH_TIME_ERROR, None).
Proof.
  intros Hs Ht. destruct (epoch_started t s0 ctx) as (c&->&Hc). specialize (Hc Hs). cbn [fst snd].
  pose proof (epoch_step t s0 t t' c Hc) as H. unfold FULL_TUPLE, HALF_TUPLE in *.
  specialize (H ltac:(lia)). replace (t' - t <? 0xffffff00) with false in H by lia.
  destruct H as (c'&E&Hf). cbn [mac_epoch_steps]. rewrite E. cbn [replicate]. f_equal.
  induction ts as [|t2 ts IH]; [done|]. cbn [mac_epoch_steps mac_epoch_step]. rewrite Hf.
  change (MAC_EPOCH_FAULT =? MAC_EPOCH_FAULT) with true. cbn [length replicate]. f_equal.
  apply IH.
Qed.

Definition fresh : mac_epoch_t := {| periods := 0; symbols := 0; fine := 0; state := 0 |}.
Definition sample_times : list Z := [1000 + 0xfffffeff; 1000 + 0x1fffffdfe; 4000 + 0x1fffffdfe].
Lemma mac_epoch_tracks_witness :
  mac_epoch_steps (mac_epoch_start (Some fresh) (Some (raw_at 1000)) 0xffffffff).2 sample_times
  = [(MAC_EPOCH_OK, Some {| out_symbols := 8388607; out_fine := 231 |});
     (MAC_EPOCH_OK, Some {| out_symbols := 16777214; out_fine := 486 |});
     (MAC_EPOCH_OK, Some {| out_symbols := 16777220; out_fine := 414 |})].
Proof.
  rewrite (proj2 (mac_epoch_tracks 1000 0xffffffff fresh sample_times ltac:(concrete) ltac:(concrete))).
  vm_compute. reflexivity.
Defined.
Lemma mac_epoch_rejects_witness :
  mac_epoch_steps (mac_epoch_start (Some fresh) (Some (raw_at 1000)) 7).2 [1000 + 0xffffff00; 1000]
  = [(MAC_EPOCH_TIME_ERROR, None); (MAC_EPOCH_TIME_ERROR, None)].
Proof.
  apply (mac_epoch_rejects 1000 7 fresh (1000 + 0xffffff00) [1000]); concrete.
Defined.
End Epoch.
