(* ===== verification/NoiseHealth.v ===== *)
(** Health tests of the raw noise source, src/src/noise_health.c: the repetition count test
    (RCT) and the adaptive proportion test (APT) on single bits, against the definition of the
    two tests on the history of samples. *)
From S2P Require Import Prelude.

Module NoiseHealth.
Definition NOISE_HEALTH_WINDOW := 1024.
Definition NOISE_HEALTH_WARMUP := 1.
Definition NOISE_HEALTH_MONITORING := 2.
Definition NOISE_HEALTH_RCT_FAILED := 3.
Definition NOISE_HEALTH_APT_FAILED := 4.

Inductive noise_health_result_t :=
  | NOISE_HEALTH_OK
  | NOISE_HEALTH_INVALID_ARGUMENT
  | NOISE_HEALTH_INVALID_STATE
  | NOISE_HEALTH_RCT_FAILURE
  | NOISE_HEALTH_APT_FAILURE.

Record noise_health_t := {
  rct_cutoff : Z; apt_cutoff : Z;
  run : Z; matches : Z; window_count : Z; startup_remaining : Z;
  last : Z; reference : Z; state : Z
}.

Definition noise_health_start (ctx : option noise_health_t) (rct apt : Z)
    : noise_health_result_t * option noise_health_t :=
  match ctx with
  | None => (NOISE_HEALTH_INVALID_ARGUMENT, None)
  | Some _ =>
      if! (rct <? 2) || (apt <? 2) || (NOISE_HEALTH_WINDOW <? apt)
        return (NOISE_HEALTH_INVALID_ARGUMENT, ctx) ;;
      (NOISE_HEALTH_OK, Some {|
        rct_cutoff := rct; apt_cutoff := apt; run := 0; matches := 0; window_count := 0;
        startup_remaining := NOISE_HEALTH_WINDOW; last := 0; reference := 0;
        state := NOISE_HEALTH_WARMUP |})
  end.

(** The consistency check of a context that has not failed. *)
Definition inconsistent (c : noise_health_t) : bool :=
  (negb (state c =? NOISE_HEALTH_WARMUP) && negb (state c =? NOISE_HEALTH_MONITORING))
  || (rct_cutoff c <? 2) || (apt_cutoff c <? 2) || (NOISE_HEALTH_WINDOW <? apt_cutoff c)
  || (rct_cutoff c <=? run c) || (1 <? last c) || (1 <? reference c)
  || (NOISE_HEALTH_WINDOW <=? window_count c) || (window_count c <? matches c)
  || (apt_cutoff c <=? matches c) || (negb (window_count c =? 0) && (matches c =? 0))
  || (NOISE_HEALTH_WINDOW <? startup_remaining c)
  || ((state c =? NOISE_HEALTH_WARMUP)
      && ((startup_remaining c =? 0)
          || negb (window_count c =? NOISE_HEALTH_WINDOW - startup_remaining c)
          || (window_count c <? run c)))
  || ((state c =? NOISE_HEALTH_MONITORING)
      && (negb (startup_remaining c =? 0) || (run c =? 0))).

(** The counters after one sample. *)
Definition counted (c : noise_health_t) (sample : Z) : noise_health_t :=
  let again := negb (run c =? 0) && (sample =? last c) in
  let opens := window_count c =? 0 in
  {| rct_cutoff := rct_cutoff c; apt_cutoff := apt_cutoff c;
     run := if again then u16 (run c + 1) else 1;
     last := if again then last c else sample;
     reference := if opens then sample else reference c;
     matches := if opens then 1
                else if sample =? reference c then u16 (matches c + 1) else matches c;
     window_count := u16 (window_count c + 1);
     startup_remaining := if startup_remaining c =? 0 then 0 else startup_remaining c - 1;
     state := state c |}.
Definition with_state (c : noise_health_t) (s : Z) : noise_health_t :=
  {| rct_cutoff := rct_cutoff c; apt_cutoff := apt_cutoff c; run := run c; matches := matches c;
     window_count := window_count c; startup_remaining := startup_remaining c; last := last c;
     reference := reference c; state := s |}.
Definition next_window (c : noise_health_t) : noise_health_t :=
  {| rct_cutoff := rct_cutoff c; apt_cutoff := apt_cutoff c; run := run c; matches := 0;
     window_count := 0; startup_remaining := startup_remaining c; last := last c;
     reference := reference c; state := state c |}.

Definition noise_health_push (ctx : option noise_health_t) (sample : Z)
    : noise_health_result_t * option noise_health_t :=
  match ctx with
  | None => (NOISE_HEALTH_INVALID_ARGUMENT, None)
  | Some c =>
      if! 1 <? sample return (NOISE_HEALTH_INVALID_ARGUMENT, ctx) ;;
      if! state c =? NOISE_HEALTH_RCT_FAILED return (NOISE_HEALTH_RCT_FAILURE, ctx) ;;
      if! state c =? NOISE_HEALTH_APT_FAILED return (NOISE_HEALTH_APT_FAILURE, ctx) ;;
      if! inconsistent c return (NOISE_HEALTH_INVALID_STATE, ctx) ;;
      let c := counted c sample in
      if! rct_cutoff c <=? run c
        return (NOISE_HEALTH_RCT_FAILURE, Some (with_state c NOISE_HEALTH_RCT_FAILED)) ;;
      if! apt_cutoff c <=? matches c
        return (NOISE_HEALTH_APT_FAILURE, Some (with_state c NOISE_HEALTH_APT_FAILED)) ;;
      let c := if window_count c =? NOISE_HEALTH_WINDOW then next_window c else c in
      let c := if startup_remaining c =? 0 then with_state c NOISE_HEALTH_MONITORING else c in
      (NOISE_HEALTH_OK, Some c)
  end.

(** Feeding samples one by one. *)
Fixpoint pushes (ctx : option noise_health_t) (bs : list Z) : list noise_health_result_t :=
  match bs with
  | [] => []
  | b :: bs => let '(r, ctx) := noise_health_push ctx b in r :: pushes ctx bs
  end.

(** ** The two tests on a history, newest sample first *)
Fixpoint constant_run (b : Z) (h : list Z) : Z :=
  match h with
  | x :: h => if x =? b then 1 + constant_run b h else 0
  | [] => 0
  end.
(** Length of the run the history ends with. *)
Definition run_of (h : list Z) : Z := match h with b :: _ => constant_run b h | [] => 0 end.
(** Samples of the window that the newest one belongs to, newest first: windows are the
    consecutive blocks of 1024 samples. *)
Definition window_size (h : list Z) : Z :=
  if blen h =? 0 then 0 else (blen h - 1) mod NOISE_HEALTH_WINDOW + 1.
Definition window_of (h : list Z) : list Z := take (Z.to_nat (window_size h)) h.
(** Samples of the window equal to its first, oldest one. *)
Definition matches_of (w : list Z) : Z :=
  match list.last w with
  | Some b => blen (filter (λ x, x = b) w)
  | None => 0
  end.

Section Spec.
Variables rct apt : Z.
Definition verdict (h : list Z) : noise_health_result_t :=
  if! rct <=? run_of h return NOISE_HEALTH_RCT_FAILURE ;;
  if! apt <=? matches_of (window_of h) return NOISE_HEALTH_APT_FAILURE ;;
  NOISE_HEALTH_OK.
(** A failure is final. *)
Fixpoint verdicts (h : list Z) (bs : list Z) : list noise_health_result_t :=
  match bs with
  | [] => []
  | b :: bs =>
      match verdict (b :: h) with
      | NOISE_HEALTH_OK => NOISE_HEALTH_OK :: verdicts (b :: h) bs
      | failure => replicate (S (length bs)) failure
      end
  end.
End Spec.

(** ** Lemmas on the tests *)
Lemma noise_run_of_cons b h :
  run_of (b :: h) = match h with x :: _ => if b =? x then run_of h + 1 else 1 | [] => 1 end.
Proof.
  unfold run_of. simpl. rewrite Z.eqb_refl. destruct h as [|x h]; [done|]. simpl.
  rewrite Z.eqb_refl, (Z.eqb_sym x b). destruct (b =? x) eqn:E; [|lia].
  apply Z.eqb_eq in E as ->. lia.
Qed.
Lemma noise_run_of_range h : (h = [] ∧ run_of h = 0) ∨ (h ≠ [] ∧ 1 <= run_of h <= blen h).
Proof.
  induction h as [|b h IH]; [by left|]. right. split; [done|].
  rewrite noise_run_of_cons, blen_cons. pose proof (blen_nonneg h).
  destruct h as [|x h]; [lia|]. destruct IH as [[? _]|[_ IH]]; [done|]. destruct (b =? x); lia.
Qed.
Lemma noise_window_cons b h :
  window_of (b :: h) = b :: take (Z.to_nat (blen h mod 1024)) h.
Proof.
  unfold window_of, window_size, NOISE_HEALTH_WINDOW. rewrite blen_cons.
  pose proof (blen_nonneg h). replace (blen h + 1 =? 0) with false by lia.
  rewrite Z.add_simpl_r. replace (Z.to_nat _) with (S (Z.to_nat (blen h mod 1024))) by width. done.
Qed.
Lemma noise_matches_cons b w :
  matches_of (b :: w) = match list.last w with
                        | Some r => if b =? r then matches_of w + 1 else matches_of w
                        | None => 1 end.
Proof.
  unfold matches_of. rewrite last_cons. destruct (list.last w) as [r|] eqn:E.
  - rewrite filter_cons. destruct (b =? r) eqn:Eb.
    + rewrite decide_True by lia. by rewrite blen_cons.
    + by rewrite decide_False by lia.
  - apply last_None in E as ->. rewrite filter_cons, decide_True by done. done.
Qed.
Lemma noise_matches_range w : w ≠ [] → 1 <= matches_of w <= blen w.
Proof.
  induction w as [|b w IH]; [done|]. intros _. rewrite noise_matches_cons, blen_cons.
  pose proof (blen_nonneg w). destruct (list.last w) as [r|] eqn:E; [|lia].
  assert (w ≠ []) as Hw by (by intros ->). specialize (IH Hw). destruct (b =? r); lia.
Qed.

(** ** What a context in service knows of the history *)
Definition bit (x : Z) : Prop := 0 <= x <= 1.
Record tracks (rct apt : Z) (h : list Z) (c : noise_health_t) : Prop := {
  tr_bits : Forall bit h;
  tr_rct : rct_cutoff c = rct;
  tr_apt : apt_cutoff c = apt;
  tr_run : run c = run_of h;
  tr_below : run_of h < rct;
  tr_last : h ≠ [] → head h = Some (last c);
  tr_last_bit : last c <= 1;
  tr_count : window_count c = blen h mod 1024;
  tr_reference_bit : reference c <= 1;
  tr_window : let w := take (Z.to_nat (blen h mod 1024)) h in
              matches c = matches_of w ∧ matches_of w < apt ∧
              (w ≠ [] → list.last w = Some (reference c));
  tr_startup : startup_remaining c = Z.max 0 (1024 - blen h);
  tr_state : state c = if blen h <? 1024 then NOISE_HEALTH_WARMUP else NOISE_HEALTH_MONITORING
}.

Section Refinement.
Variables rct apt : Z.
Hypothesis Hrct : 2 <= rct < 65536.
Hypothesis Hapt : 2 <= apt <= 1024.

Lemma noise_window_nil h : blen h mod 1024 ≠ 0 → take (Z.to_nat (blen h mod 1024)) h ≠ [].
Proof. destruct h; [done|]. intros H. destruct (Z.to_nat (blen (z :: h) mod 1024)) eqn:E; [width|done]. Qed.

Lemma noise_consistent h c : tracks rct apt h c → inconsistent c = false.
Proof.
  intros [Hb Hrc Hac Hr Hlt Hl Hl1 Hc Href (Hm&Hma&Hw) Hs Hst].
  unfold inconsistent, NOISE_HEALTH_WINDOW, NOISE_HEALTH_WARMUP, NOISE_HEALTH_MONITORING in *.
  rewrite Hrc, Hac, Hr, Hc, Hm, Hs, Hst. set (w := take _ h) in *. pose proof (blen_nonneg h).
  assert (blen w = blen h mod 1024) as Lw.
  { subst w. unfold blen in *. rewrite length_take. width. }
  assert (blen h mod 1024 = 0 ∧ matches_of w = 0 ∨
          blen h mod 1024 ≠ 0 ∧ 1 <= matches_of w <= blen h mod 1024) as Hmw.
  { destruct (decide (blen h mod 1024 = 0)) as [E|E]; [left|right].
    - split; [done|]. subst w. by rewrite E.
    - split; [done|]. rewrite <- Lw. apply noise_matches_range. by apply noise_window_nil. }
  destruct (noise_run_of_range h) as [[-> ->]|[Hne Hrr]].
  - change (blen []) with 0 in *. change (0 mod 1024) with 0 in *.
    change (0 <? 1024) with true. cbv iota. lia.
  - destruct (blen h <? 1024) eqn:E; cbn [Z.eqb Pos.eqb negb andb orb].
    + assert (blen h mod 1024 = blen h) by (apply Z.mod_small; lia). lia.
    + assert (0 <= blen h mod 1024 < 1024) by (by apply Z.mod_pos_bound). lia.
Qed.

Lemma noise_push h c b :
  tracks rct apt h c → bit b →
  match verdict rct apt (b :: h) with
  | NOISE_HEALTH_OK => ∃ c', noise_health_push (Some c) b = (NOISE_HEALTH_OK, Some c') ∧
                             tracks rct apt (b :: h) c'
  | r => ∃ c', noise_health_push (Some c) b = (r, Some c') ∧
         ((r = NOISE_HEALTH_RCT_FAILURE ∧ state c' = NOISE_HEALTH_RCT_FAILED) ∨
          (r = NOISE_HEALTH_APT_FAILURE ∧ state c' = NOISE_HEALTH_APT_FAILED))
  end.
Proof.
  intros Ht Hb. pose proof (noise_consistent h c Ht) as Hcons. destruct Ht.
  unfold noise_health_push. rewrite Hcons. replace (1 <? b) with false by (unfold bit in Hb; lia).
  replace (state c =? NOISE_HEALTH_RCT_FAILED) with false
    by (rewrite tr_state0; by destruct (blen h <? 1024)).
  replace (state c =? NOISE_HEALTH_APT_FAILED) with false
    by (rewrite tr_state0; by destruct (blen h <? 1024)).
  destruct tr_window0 as (Hm&Hma&Hw). set (w := take _ h) in *. pose proof (blen_nonneg h) as Hn.
  assert (blen w = blen h mod 1024) as Lw.
  { subst w. unfold blen in *. rewrite length_take. width. }
  set (c1 := counted c b).
  assert (run c1 = run_of (b :: h)) as Er.
  { subst c1. unfold counted; cbn [run]. rewrite noise_run_of_cons, tr_run0.
    destruct h as [|x h']; [done|]. specialize (tr_last0 ltac:(done)). simpl in tr_last0.
    injection tr_last0 as <-. destruct (noise_run_of_range (x :: h')) as [[? _]|[_ Hr]]; [done|].
    replace (run_of (x :: h') =? 0) with false by lia. cbn [negb andb].
    destruct (b =? x); [|done]. apply u16_id. width. }
  assert (matches c1 = matches_of (window_of (b :: h))) as Em.
  { subst c1. unfold counted; cbn [matches]. rewrite noise_window_cons. fold w.
    rewrite noise_matches_cons, tr_count0, Hm. destruct (blen h mod 1024 =? 0) eqn:E.
    - apply Z.eqb_eq in E. rewrite E in Lw. by destruct w; [|rewrite blen_cons in Lw; pose proof (blen_nonneg w); lia].
    - rewrite Hw by (apply noise_window_nil; lia). destruct (b =? reference c); [|done].
      apply u16_id. pose proof (noise_matches_range w (noise_window_nil h ltac:(lia))). width. }
  unfold verdict. change (rct_cutoff c1) with (rct_cutoff c). change (apt_cutoff c1) with (apt_cutoff c).
  rewrite tr_rct0, tr_apt0, Er, Em.
  destruct (rct <=? run_of (b :: h)) eqn:E1; [eexists; split; [reflexivity|by left]|].
  destruct (apt <=? matches_of (window_of (b :: h))) eqn:E2; [eexists; split; [reflexivity|by right]|].
  eexists. split; [reflexivity|].
  assert (window_count c1 = blen h mod 1024 + 1) as Ec
    by (subst c1; unfold counted; cbn [window_count]; rewrite tr_count0, u16_id; width).
  assert (last c1 = b) as El.
  { subst c1. unfold counted; cbn [last]. destruct (_ && _) eqn:E; [|done]. lia. }
  assert (startup_remaining c1 = Z.max 0 (1024 - blen (b :: h))) as Es.
  { subst c1. unfold counted; cbn [startup_remaining]. rewrite tr_startup0, blen_cons.
    destruct (_ =? 0) eqn:?; lia. }
  assert (reference c1 <= 1) as Eref.
  { subst c1. unfold counted; cbn [reference]. destruct (_ =? 0); [apply Hb|done]. }
  set (c2 := if _ =? NOISE_HEALTH_WINDOW then _ else _).
  set (c3 := if _ =? 0 then _ else _). unfold NOISE_HEALTH_WINDOW in *.
  assert (run c3 = run c1 ∧ last c3 = last c1 ∧ reference c3 = reference c1 ∧
          startup_remaining c3 = startup_remaining c1 ∧
          rct_cutoff c3 = rct_cutoff c ∧ apt_cutoff c3 = apt_cutoff c ∧
          window_count c3 = window_count c2 ∧ matches c3 = matches c2) as (R1&R2&R3&R4&R5&R6&R7&R8).
  { subst c3 c2. by destruct (window_count c1 =? 1024), (startup_remaining _ =? 0). }
  split; rewrite ?R1, ?R2, ?R3, ?R4, ?R5, ?R6, ?R7, ?R8; try done.
  - by constructor.
  - lia.
  - intros _. by rewrite El.
  - rewrite El. apply Hb.
  - subst c2. rewrite Ec, blen_cons. destruct (blen h mod 1024 + 1 =? 1024) eqn:E.
    + cbn [window_count next_window]. width.
    + rewrite Ec. width.
  - assert ((blen (b :: h)) mod 1024 = if blen h mod 1024 + 1 =? 1024 then 0 else blen h mod 1024 + 1)
      as -> by (clear -Hn; rewrite blen_cons; destruct (_ =? 1024) eqn:?; width).
    subst c2. rewrite Ec. destruct (blen h mod 1024 + 1 =? 1024) eqn:E.
    + cbn [matches next_window]. change (take (Z.to_nat 0) (b :: h)) with (@nil Z).
      split; [done|]. split; [|done]. unfold matches_of. simpl. lia.
    + replace (Z.to_nat _) with (S (Z.to_nat (blen h mod 1024))) by width. cbn [take]. fold w.
      rewrite Em, noise_window_cons. fold w. split; [done|].
      split; [rewrite noise_window_cons in E2; fold w in E2; lia|]. intros _.
      rewrite last_cons. subst c1. unfold counted; cbn [reference]. rewrite tr_count0.
      destruct (blen h mod 1024 =? 0) eqn:E0.
      * apply Z.eqb_eq in E0. rewrite E0 in Lw. by destruct w; [|rewrite blen_cons in Lw; pose proof (blen_nonneg w); lia].
      * by rewrite Hw by (apply noise_window_nil; lia).
  - assert (state c2 = state c ∧ startup_remaining c2 = startup_remaining c1) as [S1 S2]
      by (subst c2; by destruct (window_count c1 =? 1024)).
    subst c3. rewrite S2, Es. rewrite blen_cons in *. destruct (Z.max 0 (1024 - (blen h + 1)) =? 0) eqn:E.
    + cbn [state with_state]. by replace (blen h + 1 <? 1024) with false by lia.
    + rewrite S1, tr_state0. replace (blen h <? 1024) with true by lia.
      by replace (blen h + 1 <? 1024) with true by lia.
Qed.

Lemma noise_failed c bs r s :
  Forall bit bs → state c = s →
  (r = NOISE_HEALTH_RCT_FAILURE ∧ s = NOISE_HEALTH_RCT_FAILED) ∨
  (r = NOISE_HEALTH_APT_FAILURE ∧ s = NOISE_HEALTH_APT_FAILED) →
  pushes (Some c) bs = replicate (length bs) r.
Proof.
  intros Hbs Hs Hr. induction Hbs as [|b bs Hb Hbs IH]; [done|]. cbn [pushes noise_health_push].
  rewrite Hs. replace (1 <? b) with false by (unfold bit in Hb; lia).
  destruct Hr as [[-> ->]|[-> ->]].
  - change (NOISE_HEALTH_RCT_FAILED =? NOISE_HEALTH_RCT_FAILED) with true.
    cbn [length replicate]. f_equal. apply IH.
  - change (NOISE_HEALTH_APT_FAILED =? NOISE_HEALTH_RCT_FAILED) with false.
    change (NOISE_HEALTH_APT_FAILED =? NOISE_HEALTH_APT_FAILED) with true.
    cbn [length replicate]. f_equal. apply IH.
Qed.

Lemma noise_pushes h c bs :
  tracks rct apt h c → Forall bit bs → pushes (Some c) bs = verdicts rct apt h bs.
Proof.
  revert h c. induction bs as [|b bs IH]; intros h c Ht Hbs; [done|].
  apply Forall_cons_1 in Hbs as [Hb Hbs]. pose proof (noise_push h c b Ht Hb) as H.
  cbn [pushes verdicts]. destruct (verdict rct apt (b :: h)).
  1: { destruct H as (c'&->&Ht'). f_equal. by apply IH. }
  all: destruct H as (c'&->&Hf); cbn [replicate length]; f_equal.
  all: destruct Hf as [[E S]|[E S]]; rewrite ?E; try done.
  all: eapply noise_failed; [done|exact S|]; rewrite ?E; auto.
Qed.
End Refinement.

(** C16: the incremental tests are the tests. After a start with admissible cut-offs, pushing
    any sequence of bits gives, sample by sample, the verdict computed from the whole history:
    RCT failure as soon as the current run reaches its cut-off, otherwise APT failure as soon
    as the first sample of the current 1024-sample window occurs too often in it, final once
    given; the consistency check never fires and no 16-bit counter wraps. *)
Theorem noise_health_refines rct apt ctx bs :
  is_u16 rct → is_u16 apt → 2 <= rct → 2 <= apt <= NOISE_HEALTH_WINDOW → Forall bit bs →
  let started := noise_health_start (Some ctx) rct apt in
  started.1 = NOISE_HEALTH_OK ∧ pushes started.2 bs = verdicts rct apt [] bs.
Proof.
  intros Hr Ha H1 H2 Hbs. unfold noise_health_start, NOISE_HEALTH_WINDOW in *.
  replace (rct <? 2) with false by lia. replace (apt <? 2) with false by lia.
  replace (1024 <? apt) with false by lia. split; [done|].
  apply noise_pushes; [width|lia| |done]. split; try done; simpl; try lia.
  split; [done|]. split; [unfold matches_of; simpl; lia|done].
Qed.

Lemma noise_health_refines_witness :
  pushes (noise_health_start (Some {| rct_cutoff := 0; apt_cutoff := 0; run := 0; matches := 0;
      window_count := 0; startup_remaining := 0; last := 0; reference := 0; state := 0 |}) 4 5).2
    [0; 0; 1; 0; 0; 1; 0; 1]
  = replicate 6 NOISE_HEALTH_OK ++ replicate 2 NOISE_HEALTH_APT_FAILURE.
Proof.
  rewrite (proj2 (noise_health_refines 4 5 _ [0; 0; 1; 0; 0; 1; 0; 1] ltac:(concrete) ltac:(concrete)
    ltac:(lia) ltac:(unfold NOISE_HEALTH_WINDOW; lia) ltac:(unfold bit; repeat constructor; lia))).
  vm_compute. reflexivity.
Defined.
End NoiseHealth.
