(* ===== verification/BlockCipher.v ===== *)
(** What the hash and the AEAD code rely on of the AES driver, src/include/aes.h: one block
    call, that may fail, and the function it computes when it succeeds.  The driver itself
    (src/src/aes.c) works on hardware registers and DMA and is not modelled. *)
From S2P Require Import Prelude.

Module BlockCipher.
Inductive aes_result_t :=
  | AES_OK | AES_INVALID_ARGUMENT | AES_INVALID_RANGE | AES_BUFFER_OWNERSHIP
  | AES_UNSUPPORTED_STATE | AES_BUSY | AES_PENDING | AES_STATE_CHANGED
  | AES_TIMEOUT | AES_POLL_LIMIT | AES_TIMEBASE_ERROR | AES_COUNTER_RANGE.
#[export] Instance aes_result_eq : EqDecision aes_result_t.
Proof. solve_decision. Defined.

(** One call of [aes128_encrypt_block]: the device, key, input, timeout, poll limit, and the
    poll count that the caller's diagnostics record holds before; then the result, the output
    block ("no failure path changes caller output"), the poll count after, the device. *)
Class BlockCipher (D : Type) := {
  aes : bytes → bytes → bytes;
  aes128_encrypt_block : D → bytes → bytes → Z → Z → Z → aes_result_t * bytes * Z * D;
  aes_block : ∀ k b, blen k = 16 → blen b = 16 → blen (aes k b) = 16 ∧ is_bytes (aes k b);
  encrypt_ok : ∀ d k b t l p c p' d', aes128_encrypt_block d k b t l p = (AES_OK, c, p', d') →
    c = aes k b
}.

(** Exclusive or of octet strings, as far as both reach. *)
Definition xors (a b : bytes) : bytes := zip_with Z.lxor a b.

Lemma cipher_u8_lxor a b : is_u8 a → is_u8 b → is_u8 (Z.lxor a b).
Proof.
  intros Ha Hb. split; [apply Z.lxor_nonneg; unfold is_u8 in *; lia|].
  destruct (decide (Z.lxor a b = 0)) as [->|]; [done|].
  assert (0 <= Z.lxor a b) by (apply Z.lxor_nonneg; unfold is_u8 in *; lia).
  change 256 with (2 ^ 8). apply Z.log2_lt_pow2; [lia|].
  eapply Z.le_lt_trans; [apply Z.log2_lxor; unfold is_u8 in *; lia|].
  assert (∀ x, is_u8 x → Z.log2 x < 8) as Hl; [|apply Z.max_lub_lt; by apply Hl].
  intros x Hx. unfold is_u8 in Hx. destruct (decide (x = 0)) as [->|]; [done|].
  apply Z.log2_lt_pow2; lia.
Qed.
Lemma cipher_xors_len a b : blen a = blen b → blen (xors a b) = blen a.
Proof. unfold blen, xors. intros H. rewrite length_zip_with. lia. Qed.
Lemma cipher_xors_bytes a b : is_bytes a → is_bytes b → is_bytes (xors a b).
Proof.
  revert b. induction a as [|x a IH]; intros [|y b] Ha Hb; simpl; try by constructor.
  apply Forall_cons_1 in Ha as [? Ha]. apply Forall_cons_1 in Hb as [? Hb].
  constructor; [by apply cipher_u8_lxor|by apply IH].
Qed.
Lemma cipher_xors_involutive a b : blen a <= blen b → xors (xors a b) b = a.
Proof.
  unfold blen, xors. revert b. induction a as [|x a IH]; intros [|y b] H; simpl in *; try done; try lia.
  f_equal; [|apply IH; lia]. by rewrite Z.lxor_assoc, Z.lxor_nilpotent, Z.lxor_0_r.
Qed.

(** ** Blocks: the first [n] of a string *)
Fixpoint blocks16 (n : nat) (b : bytes) : list bytes :=
  match n with O => [] | S n => take 16 b :: blocks16 n (drop 16 b) end.
Lemma cipher_blocks_add n m b : blocks16 (n + m) b = blocks16 n b ++ blocks16 m (drop (16 * n) b).
Proof.
  revert b. induction n as [|n IH]; intros b; [done|].
  cbn [blocks16 Nat.add app]. rewrite IH, drop_drop. do 4 f_equal. lia.
Qed.
Lemma cipher_blocks_app n a b : (16 * n <= length a)%nat → blocks16 n (a ++ b) = blocks16 n a.
Proof.
  revert a. induction n as [|n IH]; intros a H; [done|]. cbn [blocks16].
  rewrite take_app_le, drop_app_le by lia. f_equal. apply IH. rewrite length_drop. lia.
Qed.
Lemma cipher_blocks_length n b : length (blocks16 n b) = n.
Proof. revert b. induction n as [|n IH]; intros b; [done|]. cbn [blocks16 length]. by rewrite IH. Qed.
Lemma cipher_blocks_one b : blen b = 16 → blocks16 1 b = [b].
Proof. unfold blen. intros H. simpl. by rewrite take_ge by lia. Qed.
Lemma cipher_blocks_cons n a b : blen a = 16 → blocks16 (S n) (a ++ b) = a :: blocks16 n b.
Proof.
  unfold blen. intros H. cbn [blocks16]. rewrite (take_app_length' a), (drop_app_length' a) by lia. done.
Qed.

(** ** A concrete cipher and device for the witnesses

    Not AES: a keyed octet map, enough to run the code on.  The script lists the results of the
    coming calls; when it is over, every call succeeds. *)
Definition toy (k b : bytes) : bytes :=
  (λ i, u8 (167 * rd b (Z.land (i + 5) 15) + 13 * rd k i + 29 * i + 1)) <$> seqZ 0 16.
Definition toy_device : Type := list aes_result_t.
Definition toy_call (d : toy_device) (k b : bytes) (p : Z) : aes_result_t * bytes * Z * toy_device :=
  match d with
  | [] => (AES_OK, toy k b, 3, [])
  | AES_OK :: d => (AES_OK, toy k b, 3, d)
  | r :: _ => (r, [], p, d)
  end.
#[export] Program Instance toy_cipher : BlockCipher toy_device := {|
  aes := toy;
  aes128_encrypt_block d k b _ _ p := toy_call d k b p
|}.
Next Obligation.
  intros. unfold toy. split; [unfold blen; by rewrite length_fmap, length_seqZ|].
  apply Forall_fmap, Forall_true. intros i. simpl. apply u8_range.
Qed.
Next Obligation. intros. simpl in *. unfold toy_call in *. by repeat case_match; simplify_eq. Qed.
End BlockCipher.
