(* ===== verification/Mmo.v ===== *)
(** The AES-MMO hash, the keyed hash built on it and the install-code check, src/src/zigbee_mmo.c
    and src/src/zigbee_key_hash.c, over a block cipher; against the definition of the hash as a
    fold over the blocks of the padded message. *)
From S2P Require Import Prelude Timebase BlockCipher.

Module Mmo.
Import BlockCipher.
Definition ZIGBEE_MMO_MAX := 32.
Definition INSTALL_CODE_SIZE := 18.
Definition ZIGBEE_HASH_TRANSPORT := 0.
Definition ZIGBEE_HASH_LOAD := 2.
Definition ZIGBEE_HASH_VERIFY := 3.

Inductive zigbee_mmo_result_t :=
  | ZIGBEE_MMO_OK | ZIGBEE_MMO_ARGUMENT | ZIGBEE_MMO_LENGTH | ZIGBEE_MMO_CRC | ZIGBEE_MMO_AES.
#[export] Instance zigbee_mmo_result_eq : EqDecision zigbee_mmo_result_t.
Proof. solve_decision. Defined.

Record zigbee_mmo_info_t := { polls : Z; blocks : Z; aes_status : aes_result_t }.
Definition no_info : zigbee_mmo_info_t := {| polls := 0; blocks := 0; aes_status := AES_OK |}.

(** The working state; [cipher], [timeout] and [poll_limit] are values of the calls below. *)
Record working := { hash : bytes; block : bytes; diagnostics_polls : Z; info : zigbee_mmo_info_t }.
Definition zeros : bytes := replicate 16 0.
Definition cleared : working :=
  {| hash := zeros; block := zeros; diagnostics_polls := 0; info := no_info |}.
Definition set_block (s : working) (b : bytes) : working :=
  {| hash := hash s; block := b; diagnostics_polls := diagnostics_polls s; info := info s |}.

Section Mmo.
Context {D : Type} `{!BlockCipher D}.

Definition compress (d : D) (s : working) (timeout limit : Z) : bool * D * working :=
  let '(r, cipher, p, d) :=
    aes128_encrypt_block d (hash s) (block s) timeout limit (diagnostics_polls s) in
  let i := {| polls := u32 (polls (info s) + p); blocks := u8 (blocks (info s) + 1);
              aes_status := r |} in
  if bool_decide (r = AES_OK)
  then (true, d, {| hash := xors cipher (block s); block := block s; diagnostics_polls := p;
                    info := i |})
  else (false, d, {| hash := hash s; block := block s; diagnostics_polls := p; info := i |}).

(** [while (length-offset >= 16)]; every pass takes 16 octets, so that [length/16] passes do. *)
Fixpoint absorb (fuel : nat) (d : D) (s : working) (input : bytes) (offset length timeout limit : Z)
    : bool * D * working * Z :=
  if! length - offset <? 16 return (true, d, s, offset) ;;
  match fuel with
  | O => (true, d, s, offset)
  | S fuel =>
      let s := set_block s (slice input offset 16) in
      let '(ok, d, s) := compress d s timeout limit in
      if! negb ok return (false, d, s, offset) ;;
      absorb fuel d s input (u8 (offset + 16)) length timeout limit
  end.

(** From [remaining = ...] on: the padding and the last one or two blocks. *)
Definition finish (d : D) (s : working) (input : bytes) (offset length timeout limit : Z)
    : bool * D * working :=
  let remaining := u8 (length - offset) in
  let b := wr (blit zeros 0 (slice input offset remaining)) remaining 0x80 in
  let s := set_block s b in
  let '(ok, d, s) :=
    if 14 <=? remaining then
      let '(ok, d, s) := compress d s timeout limit in
      if! negb ok return (false, d, s) ;; (true, d, set_block s zeros)
    else (true, d, s) in
  if! negb ok return (false, d, s) ;;
  let s := set_block s (wr (wr (block s) 14 (u8 (Z.shiftr length 5))) 15 (u8 (Z.shiftl length 3))) in
  compress d s timeout limit.

Definition zigbee_mmo_hash (d : D) (input : option bytes) (length : Z) (output info_out : bool)
    (timeout limit : Z)
    : zigbee_mmo_result_t * option bytes * option zigbee_mmo_info_t * D :=
  if! (bool_decide (input = None) && negb (length =? 0)) || negb output || negb info_out
      || (timeout =? 0) || (Timebase.TIMEBASE_HALF_RANGE <=? timeout) || (limit =? 0)
    return (ZIGBEE_MMO_ARGUMENT, None, None, d) ;;
  if! ZIGBEE_MMO_MAX <? length return (ZIGBEE_MMO_LENGTH, None, None, d) ;;
  let octets := default [] input in
  let '(ok, d, s, offset) := absorb (Z.to_nat (length / 16)) d cleared octets 0 length timeout limit in
  if! negb ok return (ZIGBEE_MMO_AES, None, Some (info s), d) ;;
  let '(ok, d, s) := finish d s octets offset length timeout limit in
  if! negb ok return (ZIGBEE_MMO_AES, None, Some (info s), d) ;;
  (ZIGBEE_MMO_OK, Some (hash s), Some (info s), d).

(** ** The install code *)
Definition crc16_bit (crc : Z) : Z :=
  Z.lxor (Z.shiftr crc 1) (if has crc 1 then 0x8408 else 0).
Definition crc16_octet (crc octet : Z) : Z := Nat.iter 8 crc16_bit (Z.lxor crc octet).
Definition install_crc (code : bytes) : Z :=
  Z.lxor (foldl crc16_octet 0xffff (slice code 0 16)) 0xffff.
Definition install_code_derive (d : D) (code : option bytes) (length : Z) (output info_out : bool)
    (timeout limit : Z)
    : zigbee_mmo_result_t * option bytes * option zigbee_mmo_info_t * D :=
  match code with
  | None => (ZIGBEE_MMO_ARGUMENT, None, None, d)
  | Some c =>
      if! negb (length =? INSTALL_CODE_SIZE) return (ZIGBEE_MMO_LENGTH, None, None, d) ;;
      let crc := install_crc c in
      if! negb (rd c 16 =? u8 crc) || negb (rd c 17 =? u8 (Z.shiftr crc 8))
        return (ZIGBEE_MMO_CRC, None, None, d) ;;
      zigbee_mmo_hash d code length output info_out timeout limit
  end.

(** ** The keyed hash *)
Definition account (total step : zigbee_mmo_info_t) : zigbee_mmo_info_t :=
  {| polls := u32 (polls total + polls step); blocks := u8 (blocks total + blocks step);
     aes_status := aes_status step |}.
Definition masked (key : bytes) (mask : Z) : bytes := (λ x, Z.lxor x mask) <$> slice key 0 16.
Definition zigbee_key_hash (d : D) (key : option bytes) (purpose : Z) (output info_out : bool)
    (timeout limit : Z)
    : zigbee_mmo_result_t * option bytes * option zigbee_mmo_info_t * D :=
  match key with
  | None => (ZIGBEE_MMO_ARGUMENT, None, None, d)
  | Some k =>
      if! negb output || negb info_out || (timeout =? 0)
          || (Timebase.TIMEBASE_HALF_RANGE <=? timeout) || (limit =? 0)
          || (negb (purpose =? ZIGBEE_HASH_TRANSPORT) && negb (purpose =? ZIGBEE_HASH_LOAD)
              && negb (purpose =? ZIGBEE_HASH_VERIFY))
        return (ZIGBEE_MMO_ARGUMENT, None, None, d) ;;
      let message := wr (blit (replicate 32 0) 0 (masked k 0x36)) 16 purpose in
      let '(r, inner, i, d) := zigbee_mmo_hash d (Some message) 17 true true timeout limit in
      let total := account no_info (default no_info i) in
      if! negb (bool_decide (r = ZIGBEE_MMO_OK)) return (r, None, Some total, d) ;;
      let message := blit (blit message 0 (masked k 0x5c)) 16 (default zeros inner) in
      let '(r, outer, i, d) := zigbee_mmo_hash d (Some message) 32 true true timeout limit in
      let total := account total (default no_info i) in
      (r, if bool_decide (r = ZIGBEE_MMO_OK) then outer else None, Some total, d)
  end.

(** ** The definition of the hash

    The message, a one bit, zeros, the length in bits as 16 bits: a whole number of blocks. *)
Definition padded (m : bytes) : bytes :=
  m ++ [0x80] ++ replicate (Z.to_nat ((13 - blen m) mod 16)) 0
    ++ [8 * blen m / 256; (8 * blen m) mod 256].
Definition mmo_step (h b : bytes) : bytes := xors (aes h b) b.
Definition block_count (m : bytes) : nat := Z.to_nat ((blen m + 18) / 16).
Definition mmo_digest (m : bytes) : bytes :=
  foldl mmo_step zeros (blocks16 (block_count m) (padded m)).

Lemma mmo_padded_len m : blen (padded m) = 16 * Z.of_nat (block_count m).
Proof.
  unfold padded, block_count. rewrite !blen_app, blen_replicate, !blen_cons, blen_nil.
  pose proof (blen_nonneg m). width.
Qed.

Lemma mmo_compress d s t l :
  let '(ok, d', s') := compress d s t l in
  blocks (info s') = u8 (blocks (info s) + 1) ∧
  if ok then hash s' = mmo_step (hash s) (block s) ∧ block s' = block s ∧ aes_status (info s') = AES_OK
  else aes_status (info s') ≠ AES_OK.
Proof.
  unfold compress. destruct (aes128_encrypt_block d (hash s) (block s) t l _) as [[[r c] p] d'] eqn:E.
  case_bool_decide as Hr; simpl; [|done]. subst r. by rewrite (encrypt_ok _ _ _ _ _ _ _ _ _ E).
Qed.

(** After some blocks [bs] of the message. *)
Definition chained (bs : list bytes) (s s' : working) : Prop :=
  hash s' = foldl mmo_step (hash s) bs ∧
  blocks (info s') = u8 (blocks (info s) + Z.of_nat (length bs)) ∧
  (aes_status (info s) = AES_OK → aes_status (info s') = AES_OK).
(** Stopped by the cipher: the status says so, and no more blocks were tried than there are. *)
Definition stopped (n : Z) (s s' : working) : Prop :=
  aes_status (info s') ≠ AES_OK ∧
  ∃ k, 1 <= k <= n ∧ blocks (info s') = u8 (blocks (info s) + k).
(** What a stretch of the computation over the blocks [bs] ends in. *)
Definition progressed (bs : list bytes) (ok : bool) (s s' : working) : Prop :=
  if ok then chained bs s s' else stopped (Z.of_nat (length bs)) s s'.

Lemma mmo_progressed_trans b1 b2 ok s1 s2 s3 :
  chained b1 s1 s2 → progressed b2 ok s2 s3 → progressed (b1 ++ b2) ok s1 s3.
Proof.
  intros (H1&H2&H3). unfold progressed, chained, stopped. rewrite foldl_app, length_app, H2.
  assert (∀ k, u8 (u8 (blocks (info s1) + Z.of_nat (length b1)) + k)
               = u8 (blocks (info s1) + (Z.of_nat (length b1) + k))) as Hu
    by (intros k; unfold u8; rewrite Zplus_mod_idemp_l; f_equal; lia).
  destruct ok.
  - intros (H4&H5&H6). rewrite H4, H1, H5, Hu, Nat2Z.inj_add. auto.
  - intros (H4&k&Hk&H5). split; [done|]. exists (Z.of_nat (length b1) + k).
    rewrite H5, Hu. split; [lia|done].
Qed.
Lemma mmo_stopped_more n m s s' : n <= m → stopped n s s' → stopped m s s'.
Proof. intros Hn (H1&k&Hk&H2). split; [done|]. exists k. split; [lia|done]. Qed.
Lemma mmo_compressed d s t l :
  let '(ok, d', s') := compress d s t l in
  progressed [block s] ok s s' ∧ (ok = true → block s' = block s).
Proof.
  pose proof (mmo_compress d s t l) as H. destruct (compress d s t l) as [[ok d'] s'].
  destruct H as [H1 H2]. unfold progressed, chained, stopped. destruct ok.
  - destruct H2 as (H2&H3&H4). by rewrite H1, H2.
  - split; [|done]. split; [done|]. exists 1. by rewrite H1.
Qed.

Lemma mmo_absorb fuel d s input offset length t l :
  Z.of_nat fuel = (length - offset) / 16 → 0 <= offset <= length → length <= blen input →
  length < 256 → is_u8 (blocks (info s)) →
  let '(ok, d', s', offset') := absorb fuel d s input offset length t l in
  progressed (blocks16 fuel (drop (Z.to_nat offset) input)) ok s s' ∧
  (ok = true → offset' = offset + 16 * Z.of_nat fuel ∧ is_u8 (blocks (info s'))).
Proof.
  revert d s offset. induction fuel as [|n IH]; intros d s offset Hf Ho Hl Hm Hu; cbn [absorb].
  { replace (length - offset <? 16) with true by width. split; [|split; [lia|done]].
    split; [done|]. simpl. by rewrite Z.add_0_r, u8_id. }
  replace (length - offset <? 16) with false by width. cbv zeta.
  set (s0 := set_block s (slice input offset 16)).
  pose proof (mmo_compressed d s0 t l) as H. destruct (compress d s0 t l) as [[ok d1] s1].
  destruct H as [H _]. cbn [blocks16]. rewrite drop_drop.
  change (take 16 (drop (Z.to_nat offset) input)) with (block s0).
  destruct ok; cbn [negb].
  - specialize (IH d1 s1 (u8 (offset + 16))). rewrite u8_id in IH by width.
    specialize (IH ltac:(width) ltac:(width) Hl Hm).
    assert (is_u8 (blocks (info s1))) as Hu1 by (destruct H as (_&->&_); apply u8_range).
    specialize (IH Hu1). rewrite u8_id by width.
    replace (Z.to_nat (offset + 16)) with (Z.to_nat offset + 16)%nat in IH by lia.
    destruct (absorb n d1 s1 input (offset + 16) length t l) as [[[ok d2] s2] o2].
    destruct IH as [IH1 IH2]. split.
    + apply (mmo_progressed_trans [block s0] _ _ s s1); [|done]. exact H.
    + intros E. destruct (IH2 E) as [-> ?]. split; [lia|done].
  - split; [|done]. eapply mmo_stopped_more; [|exact H]. simpl. lia.
Qed.

(** The last blocks, built in place. *)
Definition tail_of (m : bytes) : bytes := drop (16 * Z.to_nat (blen m / 16)) m.
Lemma mmo_last_block r hi lo :
  blen r <= 13 →
  wr (wr (wr (blit zeros 0 r) (blen r) 0x80) 14 hi) 15 lo
  = r ++ [0x80] ++ replicate (Z.to_nat (13 - blen r)) 0 ++ [hi; lo].
Proof.
  intros Hr. pose proof (blen_nonneg r). assert (blen zeros = 16) as Lz by done. apply bytes_ext.
  { rewrite !blen_wr, blen_blit, !blen_app, blen_replicate, !blen_cons, blen_nil. lia. }
  intros i Hi. rewrite !blen_wr, blen_blit, Lz in Hi.
  rewrite !rd_wr, rd_blit by (rewrite ?blen_wr, ?blen_blit; lia). rewrite Z.sub_0_r.
  destruct (decide (i < blen r)).
  { rewrite rd_app_l by lia. replace (i =? 15) with false by lia. replace (i =? 14) with false by lia.
    replace (i =? blen r) with false by lia. by replace ((0 <=? i) && _) with true by lia. }
  rewrite rd_app_r by lia. destruct (decide (i = blen r)) as [->|].
  { replace (blen r =? 15) with false by lia. replace (blen r =? 14) with false by lia.
    by rewrite Z.eqb_refl, Z.sub_diag. }
  replace (i =? blen r) with false by lia. replace ((0 <=? i) && _) with false by lia.
  rewrite rd_app_r by (rewrite blen_cons, blen_nil; lia). rewrite blen_cons, blen_nil.
  destruct (decide (i < 14)).
  { replace (i =? 15) with false by lia. replace (i =? 14) with false by lia.
    rewrite rd_app_l by (rewrite blen_replicate; lia). rewrite rd_replicate by lia.
    by apply rd_replicate. }
  rewrite rd_app_r by (rewrite blen_replicate; lia). rewrite blen_replicate.
  assert (i = 14 ∨ i = 15) as [-> | ->] by lia.
  - by replace (14 - blen r - (0 + 1) - _) with 0 by lia.
  - by replace (15 - blen r - (0 + 1) - _) with 1 by lia.
Qed.
Lemma mmo_full_block r :
  14 <= blen r <= 15 →
  wr (blit zeros 0 r) (blen r) 0x80 = r ++ [0x80] ++ replicate (Z.to_nat (15 - blen r)) 0.
Proof.
  intros Hr. assert (blen zeros = 16) as Lz by done. apply bytes_ext.
  { rewrite blen_wr, blen_blit, !blen_app, blen_replicate, blen_cons, blen_nil. lia. }
  intros i Hi. rewrite blen_wr, blen_blit, Lz in Hi.
  rewrite rd_wr, rd_blit by (rewrite ?blen_blit; lia). rewrite Z.sub_0_r.
  destruct (decide (i < blen r)).
  { rewrite rd_app_l by lia. replace (i =? blen r) with false by lia.
    by replace ((0 <=? i) && _) with true by lia. }
  rewrite rd_app_r by lia. destruct (decide (i = blen r)) as [->|].
  { by rewrite Z.eqb_refl, Z.sub_diag. }
  replace (i =? blen r) with false by lia. replace ((0 <=? i) && _) with false by lia.
  rewrite rd_app_r by (rewrite blen_cons, blen_nil; lia). rewrite blen_cons, blen_nil.
  rewrite rd_replicate by lia. apply (rd_replicate 16 0). lia.
Qed.

(** The blocks that [finish] builds are those of the padded message that remain. *)
Lemma mmo_tail_blocks m :
  blen m <= 32 →
  let r := tail_of m in
  let hi := u8 (Z.shiftr (blen m) 5) in let lo := u8 (Z.shiftl (blen m) 3) in
  blen r = blen m mod 16 ∧
  blocks16 (block_count m) (padded m)
  = blocks16 (Z.to_nat (blen m / 16)) m ++
    if 14 <=? blen r
    then [r ++ [0x80] ++ replicate (Z.to_nat (15 - blen r)) 0; replicate 14 0 ++ [hi; lo]]
    else [r ++ [0x80] ++ replicate (Z.to_nat (13 - blen r)) 0 ++ [hi; lo]].
Proof.
  intros Hm. cbv zeta. pose proof (blen_nonneg m) as Hn. set (q := Z.to_nat (blen m / 16)).
  assert (blen (tail_of m) = blen m mod 16) as Lr.
  { unfold tail_of. fold q. unfold blen in *. rewrite length_drop. width. }
  split; [done|]. rewrite Lr.
  assert (u8 (Z.shiftr (blen m) 5) = 8 * blen m / 256 ∧ u8 (Z.shiftl (blen m) 3) = (8 * blen m) mod 256)
    as [-> ->].
  { rewrite Z.shiftr_div_pow2, Z.shiftl_mul_pow2 by done. change (2 ^ 5) with 32. change (2 ^ 3) with 8.
    rewrite u8_id by width. unfold u8. split; [width|f_equal; lia]. }
  assert (16 * q <= length m)%nat as Hq by (unfold blen in *; subst q; width).
  set (hl := [8 * blen m / 256; (8 * blen m) mod 256]). assert (blen hl = 2) as Lh by done.
  assert (∀ n rest, padded m = take (16 * q) m ++ rest → block_count m = (q + n)%nat →
    blocks16 (block_count m) (padded m) = blocks16 q m ++ blocks16 n rest) as Hsplit.
  { intros n rest -> ->. rewrite cipher_blocks_add. f_equal.
    - rewrite cipher_blocks_app by (rewrite length_take; lia).
      rewrite <- (take_drop (16 * q) m) at 2. symmetry. apply cipher_blocks_app.
      rewrite length_take. lia.
    - f_equal. rewrite drop_app_length'; [done|]. rewrite length_take. lia. }
  assert (padded m = take (16 * q) m ++ tail_of m ++ [0x80] ++
    replicate (Z.to_nat ((13 - blen m) mod 16)) 0 ++ hl) as Hp
    by (unfold padded, tail_of; fold q; rewrite (assoc_L _ (take _ m)), take_drop; done).
  destruct (14 <=? blen m mod 16) eqn:E.
  - rewrite (Hsplit 2%nat _ Hp) by (unfold block_count, q; width). f_equal.
    replace (Z.to_nat ((13 - blen m) mod 16)) with (Z.to_nat (15 - blen m mod 16) + 14)%nat by width.
    rewrite replicate_add, <- !app_assoc, (assoc_L _ (tail_of m)), (assoc_L _ (tail_of m ++ _)).
    rewrite cipher_blocks_cons, cipher_blocks_one; [by rewrite <- app_assoc|..].
    + rewrite blen_app, blen_replicate. lia.
    + rewrite !blen_app, blen_replicate, Lr, blen_cons, blen_nil. width.
  - rewrite (Hsplit 1%nat _ Hp) by (unfold block_count, q; width). f_equal.
    replace ((13 - blen m) mod 16) with (13 - blen m mod 16) by width.
    apply cipher_blocks_one. rewrite !blen_app, blen_replicate, Lr, Lh, blen_cons, blen_nil. width.
Qed.

(** The whole computation on an admitted message. *)
Lemma mmo_finish d s input m q t l :
  m = slice input 0 (blen m) → blen m <= 32 → blen m <= blen input → q = blen m / 16 →
  let last := drop (Z.to_nat q) (blocks16 (block_count m) (padded m)) in
  let '(ok, d', s') := finish d s input (16 * q) (blen m) t l in
  progressed last ok s s'.
Proof.
  intros Em Hm Hl Hq. pose proof (blen_nonneg m). destruct (mmo_tail_blocks m Hm) as [Lr Hb].
  rewrite Hb, drop_app_length' by (by rewrite cipher_blocks_length, Hq).
  unfold finish. rewrite u8_id by width. replace (blen m - 16 * q) with (blen (tail_of m)) by width.
  assert (slice input (16 * q) (blen (tail_of m)) = tail_of m) as ->.
  { trans (slice m (16 * q) (blen (tail_of m))).
    - apply slice_ext; try width. intros i Hi.
      assert (rd m i = rd input i) as ->; [|done]. rewrite Em, rd_slice by width. done.
    - unfold tail_of, slice. subst q. replace (Z.to_nat (16 * (blen m / 16))) with
        (16 * Z.to_nat (blen m / 16))%nat by width. apply take_ge. unfold blen. lia. }
  destruct (14 <=? blen (tail_of m)) eqn:E.
  - rewrite mmo_full_block by width. set (b1 := tail_of m ++ _). set (b2 := replicate 14 0 ++ _).
    cbv zeta. set (s0 := set_block s b1).
    pose proof (mmo_compressed d s0 t l) as H1. destruct (compress d s0 t l) as [[ok d1] s1].
    destruct H1 as [H1 _]. destruct ok; cbn [negb]; [|eapply mmo_stopped_more; [|exact H1]; done].
    set (s2 := set_block (set_block s1 zeros) _).
    pose proof (mmo_compressed d1 s2 t l) as H2. destruct (compress d1 s2 t l) as [[ok d2] s3].
    destruct H2 as [H2 _]. change [b1; b2] with ([b1] ++ [b2]).
    eapply mmo_progressed_trans; [exact H1|exact H2].
  - cbn [negb]. cbv zeta. cbn [block set_block]. rewrite mmo_last_block by lia.
    set (b1 := tail_of m ++ _). set (s0 := set_block (set_block s _) b1).
    pose proof (mmo_compressed d s0 t l) as H1. destruct (compress d s0 t l) as [[ok d1] s1].
    apply H1.
Qed.

(** Arguments that the hash admits. *)
Definition admitted (input : option bytes) (length timeout limit : Z) : Prop :=
  (input = None → length = 0) ∧ length <= blen (default [] input) ∧ 0 <= length <= ZIGBEE_MMO_MAX ∧
  0 < timeout < Timebase.TIMEBASE_HALF_RANGE ∧ 0 < limit.

Lemma mmo_hash_spec d input length t l :
  admitted input length t l →
  let m := slice (default [] input) 0 length in
  let '(r, out, i, d') := zigbee_mmo_hash d input length true true t l in
  ∃ inf, i = Some inf ∧
  ((r = ZIGBEE_MMO_OK ∧ out = Some (mmo_digest m) ∧ blocks inf = Z.of_nat (block_count m) ∧
    aes_status inf = AES_OK) ∨
   (r = ZIGBEE_MMO_AES ∧ out = None ∧ 1 <= blocks inf <= Z.of_nat (block_count m) ∧
    aes_status inf ≠ AES_OK)).
Proof.
  intros (H1&H2&H3&H4&H5). unfold ZIGBEE_MMO_MAX in *. cbv zeta. unfold zigbee_mmo_hash.
  set (b := default [] input) in *. set (m := slice b 0 length).
  assert (blen m = length) as Lm by (apply blen_slice; lia).
  replace (bool_decide (input = None) && negb (length =? 0)) with false.
  2: { symmetry. destruct input; [by rewrite bool_decide_eq_false_2|]. rewrite H1 by done.
       by rewrite andb_false_r. }
  replace (t =? 0) with false by lia. replace (_ <=? t) with false by lia.
  replace (l =? 0) with false by lia. unfold ZIGBEE_MMO_MAX. replace (32 <? length) with false by lia.
  cbn [orb negb].
  pose proof (mmo_absorb (Z.to_nat (length / 16)) d cleared b 0 length t l ltac:(width) ltac:(lia)
    ltac:(lia) ltac:(lia) ltac:(done)) as Ha.
  destruct (absorb _ d cleared b 0 length t l) as [[[ok d1] s1] o1]. destruct Ha as [Ha Ho].
  assert (block_count m = Z.to_nat ((length + 18) / 16)) as Hc by (unfold block_count; by rewrite Lm).
  destruct ok; cbn [negb].
  2: { eexists. split; [done|]. right. destruct Ha as (Ha&k&Hk&Hbk).
       rewrite cipher_blocks_length in Hk. rewrite Hbk. simpl (blocks (info cleared)).
       split; [done|]. split; [done|]. split; [|done]. rewrite u8_id by width. width. }
  destruct (Ho eq_refl) as [-> _]. clear Ho.
  pose proof (mmo_finish d1 s1 b m (length / 16) t l) as Hf. rewrite Lm in Hf.
  specialize (Hf ltac:(done) ltac:(lia) ltac:(lia) ltac:(done)). cbv zeta in Hf.
  replace (0 + 16 * Z.of_nat (Z.to_nat (length / 16))) with (16 * (length / 16)) by width.
  destruct (finish d1 s1 b (16 * (length / 16)) length t l) as [[ok d2] s2].
  assert (blocks16 (Z.to_nat (length / 16)) (drop (Z.to_nat 0) b)
          = take (Z.to_nat (length / 16)) (blocks16 (block_count m) (padded m))) as E.
  { destruct (mmo_tail_blocks m ltac:(lia)) as [_ ->]. rewrite Lm, drop_0.
    rewrite take_app_length' by (by rewrite cipher_blocks_length). subst m. unfold slice. rewrite drop_0.
    rewrite <- (take_drop (Z.to_nat length) b) at 1. apply cipher_blocks_app.
    unfold blen in *. rewrite length_take. width. }
  rewrite E in Ha. pose proof (mmo_progressed_trans _ _ _ _ _ _ Ha Hf) as H.
  rewrite take_drop in H.
  unfold progressed in H.
  destruct ok; cbn [negb]; eexists; (split; [done|]).
  - left. destruct H as (E1&E2&E3). rewrite cipher_blocks_length in E2. simpl (blocks (info cleared)) in E2.
    rewrite E1, E2. split; [done|]. split; [done|]. rewrite u8_id by width. split; [lia|by apply E3].
  - right. destruct H as (E1&k&Hk&E2). rewrite cipher_blocks_length in Hk. simpl (blocks (info cleared)) in E2.
    rewrite E2, u8_id by width. split; [done|]. split; [done|]. by split.
Qed.

(** C17: the hash is AES-MMO. For every admitted message of at most 32 octets the call either
    succeeds with the fold of the compression function over the blocks of the padded message,
    having spent exactly that many block operations (at most three), or reports the failure of
    the cipher, with no output and a status that is not success; nothing else happens. *)
Theorem zigbee_mmo_hash_correct d input length t l :
  admitted input length t l →
  let m := slice (default [] input) 0 length in
  let '(r, out, i, d') := zigbee_mmo_hash d input length true true t l in
  (block_count m <= 3)%nat ∧ ∃ inf, i = Some inf ∧
  ((r = ZIGBEE_MMO_OK ∧ out = Some (mmo_digest m) ∧ blocks inf = Z.of_nat (block_count m) ∧
    aes_status inf = AES_OK) ∨
   (r = ZIGBEE_MMO_AES ∧ out = None ∧ 1 <= blocks inf <= Z.of_nat (block_count m) ∧
    aes_status inf ≠ AES_OK)).
Proof.
  intros H. pose proof (mmo_hash_spec d input length t l H) as E. cbv zeta in *.
  destruct (zigbee_mmo_hash d input length true true t l) as [[[r out] i] d']. split; [|done].
  destruct H as (_&H2&H3&_). unfold block_count, ZIGBEE_MMO_MAX in *.
  rewrite blen_slice by lia. width.
Qed.

Lemma mmo_digest_len m : blen (mmo_digest m) = 16.
Proof.
  unfold mmo_digest. pose proof (mmo_padded_len m) as L.
  assert (∀ n b h, blen h = 16 → 16 * Z.of_nat n <= blen b →
    blen (foldl mmo_step h (blocks16 n b)) = 16) as H; [|apply H; [done|lia]].
  intros n. induction n as [|n IH]; intros b h Hh Hb; [done|]. cbn [blocks16 foldl].
  assert (blen (take 16 b) = 16) as Lt by (unfold blen in *; rewrite length_take; lia).
  apply IH; [|unfold blen in *; rewrite length_drop; lia]. unfold mmo_step.
  destruct (aes_block h (take 16 b) Hh Lt) as [La _]. rewrite cipher_xors_len; lia.
Qed.
Lemma mmo_masked_len k x : blen k = 16 → blen (masked k x) = 16.
Proof.
  intros H. unfold masked. rewrite slice_all' by done. unfold blen in *. by rewrite length_fmap.
Qed.

(** The keyed hash by definition: HMAC with the hash above. *)
Definition hmac (k : bytes) (purpose : Z) : bytes :=
  mmo_digest (masked k 0x5c ++ mmo_digest (masked k 0x36 ++ [purpose])).

Lemma mmo_message k p :
  blen k = 16 →
  slice (wr (blit (replicate 32 0) 0 (masked k 0x36)) 16 p) 0 17 = masked k 0x36 ++ [p].
Proof.
  intros Hk. pose proof (mmo_masked_len k 0x36 Hk) as L. rewrite wr_blit, blit_blit' by lia.
  rewrite blit_spec by (rewrite ?blen_app, ?L; done). cbn [Z.to_nat take app].
  apply slice_app_mid with (a := []); [done|]. by rewrite blen_app, L.
Qed.
Lemma mmo_message_outer k b h :
  blen k = 16 → blen h = 16 → blen b = 32 → blit (blit b 0 (masked k 0x5c)) 16 h = masked k 0x5c ++ h.
Proof.
  intros Hk Hh Hb. pose proof (mmo_masked_len k 0x5c Hk) as L. rewrite blit_blit' by lia.
  rewrite blit_spec by (rewrite ?blen_app, ?L; lia). cbn [Z.to_nat take app].
  rewrite blen_app, L, Hh, drop_ge by (unfold blen in Hb; lia). by rewrite app_nil_r.
Qed.

(** The keyed hash is HMAC over AES-MMO. For a 16-octet key and one of the three purposes
    it succeeds with exactly five block operations and the HMAC value, or reports the cipher's
    failure without output. *)
Theorem zigbee_key_hash_correct d k purpose t l :
  blen k = 16 → purpose = ZIGBEE_HASH_TRANSPORT ∨ purpose = ZIGBEE_HASH_LOAD ∨
  purpose = ZIGBEE_HASH_VERIFY → 0 < t < Timebase.TIMEBASE_HALF_RANGE → 0 < l →
  let '(r, out, i, d') := zigbee_key_hash d (Some k) purpose true true t l in
  ∃ inf, i = Some inf ∧
  ((r = ZIGBEE_MMO_OK ∧ out = Some (hmac k purpose) ∧ blocks inf = 5 ∧ aes_status inf = AES_OK) ∨
   (r = ZIGBEE_MMO_AES ∧ out = None ∧ 1 <= blocks inf <= 5 ∧ aes_status inf ≠ AES_OK)).
Proof.
  intros Hk Hp Ht Hl. unfold zigbee_key_hash.
  assert (negb (purpose =? ZIGBEE_HASH_TRANSPORT) && negb (purpose =? ZIGBEE_HASH_LOAD)
          && negb (purpose =? ZIGBEE_HASH_VERIFY) = false) as -> by lia.
  replace (t =? 0) with false by lia. replace (_ <=? t) with false by lia.
  replace (l =? 0) with false by lia. cbn [orb negb]. cbv zeta.
  pose proof (mmo_message k purpose Hk) as Em. set (b := wr _ 16 purpose) in *. assert (blen b = 32) as Lb by (subst b; by rewrite blen_wr, blen_blit).
  pose proof (mmo_hash_spec d (Some b) 17 t l) as H1. cbv zeta in H1.
  cbn [default from_option id] in H1. rewrite Em in H1.
  assert (∀ c n, blen c = 32 → n = 17 ∨ n = 32 → admitted (Some c) n t l) as Hadm
    by (intros c n Hc Hn; unfold admitted, ZIGBEE_MMO_MAX; simpl; repeat split; try done; lia).
  specialize (H1 (Hadm _ _ Lb ltac:(by left))).
  assert (block_count (masked k 0x36 ++ [purpose]) = 2%nat) as C1
    by (unfold block_count; by rewrite blen_app, mmo_masked_len).
  destruct (zigbee_mmo_hash d (Some b) 17 true true t l) as [[[r1 out1] i1] d1].
  destruct H1 as (inf1&->&[(->&->&N1&_)|(->&->&N1&S1)]); rewrite C1 in N1.
  2: { rewrite bool_decide_eq_false_2 by done. eexists. split; [done|]. right. simpl.
       rewrite u8_id by width. split; [done|]. split; [done|]. split; [lia|done]. }
  rewrite bool_decide_eq_true_2 by done. cbn [negb default from_option id].
  rewrite mmo_message_outer by (try apply mmo_digest_len; done).
  set (m := masked k 0x5c ++ _).
  assert (blen m = 32) as Lm by (subst m; by rewrite blen_app, mmo_digest_len, mmo_masked_len).
  pose proof (mmo_hash_spec d1 (Some m) 32 t l (Hadm m 32 Lm (or_intror eq_refl))) as H2. cbv zeta in H2.
  cbn [default from_option id] in H2. rewrite slice_all' in H2 by done.
  assert (block_count m = 3%nat) as C2 by (unfold block_count; by rewrite Lm).
  destruct (zigbee_mmo_hash d1 (Some m) 32 true true t l) as [[[r2 out2] i2] d2].
  destruct H2 as (inf2&->&[(->&->&N2&S2)|(->&->&N2&S2)]); rewrite C2 in N2;
    (eexists; split; [done|]); simpl;
    rewrite N1, !u8_id by width; [left|right].
  - rewrite N2. done.
  - split; [done|]. split; [done|]. split; [lia|done].
Qed.
End Mmo.

(** ** The install-code check *)
Lemma mmo_crc16_bit_odd c : crc16_bit c = Z.lxor (Z.shiftr c 1) (if Z.odd c then 0x8408 else 0).
Proof.
  unfold crc16_bit, has. f_equal. change 1 with (Z.ones 1) at 1. rewrite Z.land_ones by done.
  change (2 ^ 1) with 2. rewrite Zmod_odd. by destruct (Z.odd c).
Qed.
Lemma mmo_crc16_bit_top c : is_u16 c → is_u16 (crc16_bit c) ∧ Z.testbit (crc16_bit c) 15 = Z.odd c.
Proof.
  intros Hc. rewrite mmo_crc16_bit_odd.
  assert (0 <= Z.shiftr c 1 < 2 ^ 15) as Hs
    by (rewrite Z.shiftr_div_pow2 by done; change (2 ^ 1) with 2; change (2 ^ 15) with 32768; width).
  assert (∀ n, 15 <= n → Z.testbit (Z.shiftr c 1) n = false) as Hhi.
  { intros n Hn. destruct (decide (Z.shiftr c 1 = 0)) as [->|]; [apply Z.bits_0|].
    apply Z.bits_above_log2; [lia|]. apply Z.lt_le_trans with 15; [|lia].
    apply Z.log2_lt_pow2; lia. }
  split; [|rewrite Z.lxor_spec, Hhi by lia; by destruct (Z.odd c)].
  set (x := Z.lxor _ _). assert (0 <= x) by (apply Z.lxor_nonneg; destruct (Z.odd c); lia).
  split; [done|]. destruct (decide (x = 0)) as [->|]; [done|]. change 65536 with (2 ^ 16).
  apply Z.log2_lt_pow2; [lia|]. destruct (decide (Z.log2 x < 16)); [done|exfalso].
  assert (Z.testbit x (Z.log2 x) = true) as E by (apply Z.bit_log2; lia).
  subst x. rewrite Z.lxor_spec, Hhi in E by lia.
  assert (Z.testbit (if Z.odd c then 0x8408 else 0) (Z.log2 (Z.lxor (Z.shiftr c 1) (if Z.odd c then 33800 else 0))) = false) as E2; [|by rewrite E2 in E].
  destruct (Z.odd c); [|apply Z.bits_0]. apply Z.bits_above_log2; [done|].
  change (Z.log2 33800) with 15. lia.
Qed.
Lemma mmo_crc16_bit_inj c c' : is_u16 c → is_u16 c' → crc16_bit c = crc16_bit c' → c = c'.
Proof.
  intros Hc Hc' E. pose proof (mmo_crc16_bit_top c Hc) as [_ T].
  pose proof (mmo_crc16_bit_top c' Hc') as [_ T']. rewrite E, T' in T.
  rewrite !mmo_crc16_bit_odd, T in E. set (k := if Z.odd c then _ else _) in E.
  assert (Z.shiftr c 1 = Z.shiftr c' 1) as Es.
  { rewrite <- (Z.lxor_0_r (Z.shiftr c 1)), <- (Z.lxor_0_r (Z.shiftr c' 1)).
    by rewrite <- (Z.lxor_nilpotent k), <- !Z.lxor_assoc, E. }
  rewrite !Z.shiftr_div_pow2 in Es by done. change (2 ^ 1) with 2 in Es.
  rewrite (Z_div_mod_eq_full c 2), (Z_div_mod_eq_full c' 2), Es, !Zmod_odd. by rewrite T.
Qed.
Lemma mmo_u16_lxor a b : is_u16 a → is_u16 b → is_u16 (Z.lxor a b).
Proof.
  intros Ha Hb. assert (0 <= Z.lxor a b) by (apply Z.lxor_nonneg; width). split; [done|].
  destruct (decide (Z.lxor a b = 0)) as [->|]; [done|]. change 65536 with (2 ^ 16).
  apply Z.log2_lt_pow2; [lia|]. eapply Z.le_lt_trans; [apply Z.log2_lxor; width|].
  assert (∀ x, is_u16 x → Z.log2 x < 16) as Hl; [|apply Z.max_lub_lt; by apply Hl].
  intros x Hx. destruct (decide (x = 0)) as [->|]; [done|]. apply Z.log2_lt_pow2; width.
Qed.
Lemma mmo_crc16_octet_inj c c' x x' :
  is_u16 c → is_u16 c' → is_u8 x → is_u8 x' → crc16_octet c x = crc16_octet c' x' →
  is_u16 (crc16_octet c x) ∧ Z.lxor c x = Z.lxor c' x'.
Proof.
  intros Hc Hc' Hx Hx'. unfold crc16_octet.
  pose proof (mmo_u16_lxor c x Hc ltac:(width)) as H. pose proof (mmo_u16_lxor c' x' Hc' ltac:(width)) as H'.
  revert H H'. generalize (Z.lxor c x) (Z.lxor c' x'). generalize 8%nat as k.
  induction k as [|n IH]; simpl.
  - done.
  - intros a a' Ha Ha' E.
    assert (∀ m b, is_u16 b → is_u16 (Nat.iter m crc16_bit b)) as Hr.
    { induction m as [|m IHm]; intros b Hb; simpl; [done|]. apply mmo_crc16_bit_top. by apply IHm. }
    split; [apply mmo_crc16_bit_top; by apply Hr|].
    apply IH; [done..|]. apply mmo_crc16_bit_inj; [by apply Hr..|done].
Qed.
Lemma mmo_lxor_cancel a b c : Z.lxor a b = Z.lxor a c → b = c.
Proof.
  intros E. rewrite <- (Z.lxor_0_l b), <- (Z.lxor_0_l c), <- (Z.lxor_nilpotent a), !Z.lxor_assoc.
  by rewrite E.
Qed.
Lemma mmo_crc16_octet_range c x : is_u16 c → is_u8 x → is_u16 (crc16_octet c x).
Proof. intros Hc Hx. by destruct (mmo_crc16_octet_inj c c x x Hc Hc Hx Hx eq_refl). Qed.
Lemma mmo_crc16_run_range c b : is_u16 c → is_bytes b → is_u16 (foldl crc16_octet c b).
Proof.
  intros Hc Hb. revert c Hc. induction Hb as [|x b Hx Hb IH]; intros c Hc; [done|].
  simpl. apply IH. by apply mmo_crc16_octet_range.
Qed.
(** The CRC of two strings that differ in one octet differs. *)
Lemma mmo_crc16_run_inj c c' b :
  is_u16 c → is_u16 c' → is_bytes b → foldl crc16_octet c b = foldl crc16_octet c' b → c = c'.
Proof.
  intros Hc Hc' Hb. revert c c' Hc Hc'. induction Hb as [|x b Hx Hb IH]; intros c c' Hc Hc' E; [done|].
  simpl in E. apply IH in E; [|by apply mmo_crc16_octet_range..].
  apply mmo_crc16_octet_inj in E as [_ E]; [|done..].
  rewrite (Z.lxor_comm c), (Z.lxor_comm c') in E. by apply mmo_lxor_cancel in E.
Qed.

Lemma mmo_crc16_one_octet c p x y r :
  is_u16 c → is_bytes p → is_u8 x → is_u8 y → is_bytes r →
  foldl crc16_octet c (p ++ x :: r) = foldl crc16_octet c (p ++ y :: r) → x = y.
Proof.
  intros Hc Hp Hx Hy Hr. rewrite !foldl_app. pose proof (mmo_crc16_run_range c p Hc Hp) as Hc0.
  cbn [foldl]. generalize dependent (foldl crc16_octet c p). intros c0 Hc0 E.
  apply mmo_crc16_run_inj in E; [|by apply mmo_crc16_octet_range..|done].
  apply mmo_crc16_octet_inj in E as [_ E]; [|done..]. by apply mmo_lxor_cancel in E.
Qed.
Lemma mmo_wr_split a i x :
  0 <= i < 16 → blen a = 18 →
  slice (wr a i x) 0 16 = slice a 0 i ++ x :: slice a (i + 1) (15 - i).
Proof.
  intros Hi La. apply slice_eq; rewrite ?blen_wr; try lia.
  { rewrite blen_app, blen_cons, !blen_slice by lia. lia. }
  intros j Hj. rewrite rd_wr by lia.
  assert (blen (slice a 0 i) = i) as Li by (apply blen_slice; lia).
  destruct (decide (j < i)).
  { rewrite rd_app_l, rd_slice by lia. by replace (0 + j =? i) with false by lia. }
  rewrite rd_app_r, Li by lia. destruct (0 + j =? i) eqn:E.
  - by replace (j - i) with 0 by lia.
  - rewrite rd_cons, rd_slice by lia. f_equal. lia.
Qed.
Lemma mmo_wr_same a i : 0 <= i < blen a → wr a i (rd a i) = a.
Proof.
  intros Hi. apply bytes_ext; rewrite blen_wr; [done|]. intros j Hj. rewrite rd_wr by lia.
  destruct (j =? i) eqn:E; [|done]. by replace j with i by lia.
Qed.
Lemma mmo_install_crc_range c : is_bytes c → is_u16 (install_crc c).
Proof.
  intros Hc. unfold install_crc. apply mmo_u16_lxor; [|done].
  apply mmo_crc16_run_range; [done|by apply is_bytes_slice].
Qed.
Lemma mmo_install_crc_inj a b :
  install_crc a = install_crc b →
  foldl crc16_octet 0xffff (slice a 0 16) = foldl crc16_octet 0xffff (slice b 0 16).
Proof.
  unfold install_crc. intros E. rewrite !(Z.lxor_comm _ 0xffff) in E. by apply mmo_lxor_cancel in E.
Qed.

(** Whether an install code passes: its check octets are those of its CRC. *)
Definition install_code_accepted (c : bytes) : Prop :=
  rd c 16 = u8 (install_crc c) ∧ rd c 17 = u8 (Z.shiftr (install_crc c) 8).

Lemma mmo_install_unique a i x :
  is_bytes a → blen a = INSTALL_CODE_SIZE → 0 <= i < INSTALL_CODE_SIZE → is_u8 x →
  install_code_accepted a → install_code_accepted (wr a i x) → wr a i x = a.
Proof.
  unfold INSTALL_CODE_SIZE. intros Ha La Hi Hx [A1 A2] [B1 B2].
  assert (rd a i = x) as <-; [|apply mmo_wr_same; lia].
  rewrite rd_wr in B1, B2 by lia.
  pose proof (mmo_install_crc_range a Ha) as Ua.
  pose proof (mmo_install_crc_range (wr a i x) (is_bytes_wr _ _ _ Ha Hx)) as Ub.
  destruct (decide (i < 16)) as [H16|H16].
  - replace (16 =? i) with false in B1 by lia. replace (17 =? i) with false in B2 by lia.
    pose proof (u16_bytes _ Ua) as Ea. pose proof (u16_bytes _ Ub) as Eb.
    assert (install_crc a = install_crc (wr a i x)) as E by lia. apply mmo_install_crc_inj in E.
    rewrite <- (mmo_wr_same a i) in E at 1 by lia. rewrite !mmo_wr_split in E by lia.
    by apply mmo_crc16_one_octet in E; [|done|apply is_bytes_slice|apply rd_is_u8|..|apply is_bytes_slice].
  - assert (install_crc (wr a i x) = install_crc a) as E.
    { unfold install_crc. do 2 f_equal. apply slice_ext; rewrite ?blen_wr; try lia.
      intros j Hj. rewrite rd_wr by lia. by replace (j =? i) with false by lia. }
    rewrite E in B1, B2. assert (i = 16 ∨ i = 17) as [-> | ->] by lia.
    + rewrite Z.eqb_refl in B1. congruence.
    + rewrite Z.eqb_refl in B2. congruence.
Qed.
Lemma mmo_install_accepted {D} `{!BlockCipher D} (d : D) c o i t l :
  (install_code_derive d (Some c) INSTALL_CODE_SIZE o i t l).1.1.1 ≠ ZIGBEE_MMO_CRC →
  install_code_accepted c.
Proof.
  unfold install_code_derive, install_code_accepted. rewrite Z.eqb_refl. cbn [negb]. cbv zeta.
  destruct (rd c 16 =? _) eqn:E1; [|done]. destruct (rd c 17 =? _) eqn:E2; [|done]. lia.
Qed.

(** C18: the install-code check catches every error in a single octet: if a code of 18 octets
    is not refused for its CRC, every code that differs from it in exactly one octet is, with
    no hash computed and no output. *)
Theorem install_code_single_octet {D} `{!BlockCipher D} (d : D) a i x o inf t l :
  is_bytes a → blen a = INSTALL_CODE_SIZE → 0 <= i < INSTALL_CODE_SIZE → is_u8 x →
  (install_code_derive d (Some a) INSTALL_CODE_SIZE o inf t l).1.1.1 ≠ ZIGBEE_MMO_CRC →
  wr a i x ≠ a →
  install_code_derive d (Some (wr a i x)) INSTALL_CODE_SIZE o inf t l
  = (ZIGBEE_MMO_CRC, None, None, d).
Proof.
  intros Ha La Hi Hx H Hne. apply mmo_install_accepted in H.
  destruct (decide ((install_code_derive d (Some (wr a i x)) INSTALL_CODE_SIZE o inf t l).1.1.1
                    = ZIGBEE_MMO_CRC)) as [E|E].
  - revert E. unfold install_code_derive. rewrite Z.eqb_refl. cbn [negb]. cbv zeta.
    destruct (_ || _); [done|]. unfold zigbee_mmo_hash.
    repeat (case_match; try done).
  - destruct Hne. apply mmo_install_unique; try done. by eapply mmo_install_accepted.
Qed.

(** ** Concrete instances, over the toy cipher *)
Definition sample_key : bytes := [1; 2; 3; 4; 5; 6; 7; 8; 9; 10; 11; 12; 13; 14; 15; 16].
Definition sample_code : bytes :=
  let c := install_crc sample_key in sample_key ++ [u8 c; u8 (Z.shiftr c 8)].

Lemma zigbee_mmo_hash_correct_witness :
  ∃ r out i d, zigbee_mmo_hash (D := toy_device) [AES_OK; AES_OK] (Some sample_code) 18 true true 100 10
               = (r, out, i, d) ∧
    (r, out) = (ZIGBEE_MMO_OK, Some (mmo_digest sample_code)) ∧ (block_count sample_code <= 3)%nat.
Proof.
  pose proof (zigbee_mmo_hash_correct (D := toy_device) [AES_OK; AES_OK] (Some sample_code) 18 100 10)
    as H. eexists _, _, _, _. split; [reflexivity|]. split; [vm_compute; reflexivity|].
  destruct (zigbee_mmo_hash (D := toy_device) [AES_OK; AES_OK] (Some sample_code) 18 true true 100 10)
    as [[[r out] i] d]. apply H. unfold admitted. split; [done|].
  repeat split; try (intros; discriminate); vm_compute; done.
Defined.
Lemma zigbee_key_hash_correct_witness :
  let '(r, out, i, d) :=
    zigbee_key_hash (D := toy_device) [AES_OK; AES_OK; AES_TIMEOUT] (Some sample_key) 3 true true 100 10 in
  (r, out, blocks <$> i) = (ZIGBEE_MMO_AES, None, Some 3) ∧
  ∃ inf, i = Some inf ∧
  ((r = ZIGBEE_MMO_OK ∧ out = Some (hmac (D := toy_device) sample_key 3) ∧ blocks inf = 5 ∧
    aes_status inf = AES_OK) ∨
   (r = ZIGBEE_MMO_AES ∧ out = None ∧ 1 <= blocks inf <= 5 ∧ aes_status inf ≠ AES_OK)).
Proof.
  pose proof (zigbee_key_hash_correct (D := toy_device) [AES_OK; AES_OK; AES_TIMEOUT] sample_key 3
    100 10) as H.
  assert (match zigbee_key_hash (D := toy_device) [AES_OK; AES_OK; AES_TIMEOUT] (Some sample_key) 3
                  true true 100 10 with (r, out, i, _) => (r, out, blocks <$> i) end
          = (ZIGBEE_MMO_AES, None, Some 3)) as E by (vm_compute; reflexivity).
  destruct (zigbee_key_hash (D := toy_device) [AES_OK; AES_OK; AES_TIMEOUT] (Some sample_key) 3
    true true 100 10) as [[[r out] i] d]. split; [exact E|].
  apply H; [done|by right; right|split; done|done].
Defined.
Lemma install_code_single_octet_witness :
  install_code_derive (D := toy_device) [] (Some (wr sample_code 5 0)) 18 true true 100 10
  = (ZIGBEE_MMO_CRC, None, None, []).
Proof.
  apply (install_code_single_octet (D := toy_device) [] sample_code 5 0 true true 100 10);
    first [concrete | vm_compute; discriminate].
Defined.
End Mmo.
