(* ===== verification/Ccm.v ===== *)
(** Authenticated encryption, src/src/ccm_star.c, over a block cipher; against the definition of
    CCM* as a CBC-MAC over formatted blocks and a counter-mode key stream. *)
From S2P Require Import Prelude Timebase BlockCipher.

Module Ccm.
Import BlockCipher.
Definition CCM_STAR_MAX_AAD := 132.
Definition CCM_STAR_MAX_MESSAGE := 116.
Definition CCM_STAR_NONCE_SIZE := 13.

Inductive ccm_star_result_t :=
  | CCM_STAR_OK | CCM_STAR_ARGUMENT | CCM_STAR_LENGTH | CCM_STAR_TAG
  | CCM_STAR_SPACE | CCM_STAR_AES | CCM_STAR_AUTH.
#[export] Instance ccm_star_result_eq : EqDecision ccm_star_result_t.
Proof. solve_decision. Defined.

Record ccm_star_limits_t := { block_timeout : Z; block_polls : Z }.
Record ccm_star_info_t := { polls : Z; blocks : Z; aes_status : aes_result_t }.

Record working := {
  key : bytes; nonce : bytes; mac : bytes; block : bytes; cipher : bytes; work : bytes;
  tag : bytes; diagnostics_polls : Z; limits : ccm_star_limits_t; info : ccm_star_info_t;
  position : Z
}.
Definition zeros : bytes := replicate 16 0.
Definition set_mac s v := {| key := key s; nonce := nonce s; mac := v; block := block s;
  cipher := cipher s; work := work s; tag := tag s; diagnostics_polls := diagnostics_polls s;
  limits := limits s; info := info s; position := position s |}.
Definition set_block s v := {| key := key s; nonce := nonce s; mac := mac s; block := v;
  cipher := cipher s; work := work s; tag := tag s; diagnostics_polls := diagnostics_polls s;
  limits := limits s; info := info s; position := position s |}.
Definition set_work s v := {| key := key s; nonce := nonce s; mac := mac s; block := block s;
  cipher := cipher s; work := v; tag := tag s; diagnostics_polls := diagnostics_polls s;
  limits := limits s; info := info s; position := position s |}.
Definition set_position s v := {| key := key s; nonce := nonce s; mac := mac s; block := block s;
  cipher := cipher s; work := work s; tag := tag s; diagnostics_polls := diagnostics_polls s;
  limits := limits s; info := info s; position := v |}.

Section Ccm.
Context {D : Type} `{!BlockCipher D}.

Definition encrypt (d : D) (s : working) : bool * D * working :=
  let '(r, c, p, d) :=
    aes128_encrypt_block d (key s) (block s) (block_timeout (limits s)) (block_polls (limits s))
      (diagnostics_polls s) in
  (bool_decide (r = AES_OK), d,
   {| key := key s; nonce := nonce s; mac := mac s; block := block s;
      cipher := if bool_decide (r = AES_OK) then c else cipher s; work := work s; tag := tag s;
      diagnostics_polls := p; limits := limits s;
      info := {| polls := u32 (polls (info s) + p); blocks := u8 (blocks (info s) + 1);
                 aes_status := r |};
      position := position s |}).

Definition flush (d : D) (s : working) : bool * D * working :=
  let '(ok, d, s) := encrypt d (set_block s (xors (block s) (mac s))) in
  if! negb ok return (false, d, s) ;;
  (true, d, set_position (set_block (set_mac s (cipher s)) zeros) 0).

(** [feed]: the octets of [data] one after the other. *)
Fixpoint feed (d : D) (s : working) (data : bytes) : bool * D * working :=
  match data with
  | [] => (true, d, s)
  | x :: data =>
      let s := set_position (set_block s (wr (block s) (position s) x)) (u8 (position s + 1)) in
      if position s =? 16 then
        let '(ok, d, s) := flush d s in
        if! negb ok return (false, d, s) ;; feed d s data
      else feed d s data
  end.
(** [!position || flush()] *)
Definition flush_rest (d : D) (s : working) : bool * D * working :=
  if position s =? 0 then (true, d, s) else flush d s.

Definition authenticate (d : D) (s : working) (aad : bytes) (aad_length size tag_length : Z)
    : bool * D * working :=
  let s := set_mac s zeros in
  let flags := Z.lor 1 (u8 (Z.shiftl ((tag_length - 2) / 2) 3)) in
  let flags := if aad_length =? 0 then flags else Z.lor flags 0x40 in
  let b := wr (wr (blit (wr (block s) 0 flags) 1 (nonce s)) 14 0) 15 size in
  let '(ok, d, s) := flush d (set_block s b) in
  if! negb ok return (false, d, s) ;;
  let '(ok, d, s) :=
    if aad_length =? 0 then (true, d, s) else
      let s := set_position (set_block s (wr (wr (block s) 0 0) 1 aad_length)) 2 in
      let '(ok, d, s) := feed d s (slice aad 0 aad_length) in
      if! negb ok return (false, d, s) ;; flush_rest d s in
  if! negb ok return (false, d, s) ;;
  let '(ok, d, s) := feed d s (slice (work s) 0 size) in
  if! negb ok return (false, d, s) ;; flush_rest d s.

Definition counter (d : D) (s : working) (number : Z) : bool * D * working :=
  encrypt d (set_block s (wr (wr (blit (wr (block s) 0 1) 1 (nonce s)) 14 0) 15 number)).

(** [authenticate(...) && counter(0)] *)
Definition tagging (d : D) (s : working) (aad : bytes) (aad_length size tag_length : Z)
    : bool * D * working :=
  let '(ok, d, s) := authenticate d s aad aad_length size tag_length in
  if! negb ok return (false, d, s) ;; counter d s 0.

(** [while (offset < size)]; every pass advances by up to 16 octets. *)
Fixpoint transform (fuel : nat) (d : D) (s : working) (offset number size : Z)
    : bool * D * working :=
  if! size <=? offset return (true, d, s) ;;
  match fuel with
  | O => (true, d, s)
  | S fuel =>
      let '(ok, d, s) := counter d s number in
      if! negb ok return (false, d, s) ;;
      let n := Z.min 16 (size - offset) in
      let s := set_work s (blit (work s) offset (xors (slice (work s) offset n) (cipher s))) in
      transform fuel d s (u8 (offset + n)) (u8 (number + 1)) size
  end.
Definition passes (size : Z) : nat := Z.to_nat ((size + 15) / 16).

(** The state after the copies of the arguments. *)
Definition prepared (k nc input : bytes) (size tag_length : Z) (lim : ccm_star_limits_t)
    (opening : bool) : working := {|
  key := slice k 0 16; nonce := slice nc 0 13; mac := zeros; block := zeros; cipher := zeros;
  work := blit (replicate 132 0) 0 (slice input 0 size);
  tag := if opening then blit zeros 0 (slice input size tag_length) else zeros;
  diagnostics_polls := 0; limits := lim;
  info := {| polls := 0; blocks := 0; aes_status := AES_OK |}; position := 0 |}.

(** [mac[i] ^= cipher[i]] for the octets of the tag, and whether one differs from the tag. *)
Definition masked (s : working) (tag_length : Z) : bytes :=
  blit (mac s) 0 (xors (slice (mac s) 0 tag_length) (cipher s)).
Definition different (s : working) (tag_length : Z) : Z :=
  foldl Z.lor 0 (xors (slice (mac s) 0 tag_length) (tag s)).

Definition ccm_outcome : Type :=
  (ccm_star_result_t * option bytes * option Z * option ccm_star_info_t * D)%type.
(** From the copies on; the failure path stores the info only. *)
Definition run (d : D) (s : working) (opening : bool) (aad : bytes)
    (aad_length size total tag_length : Z) : ccm_outcome :=
  let failed d s r : ccm_outcome := (r, None, None, Some (info s), d) in
  let '(ok, d, s) := if opening then transform (passes size) d s 0 1 size else (true, d, s) in
  if! negb ok return failed d s CCM_STAR_AES ;;
  let '(ok, d, s) := tagging d s aad aad_length size tag_length in
  if! negb ok return failed d s CCM_STAR_AES ;;
  let s := set_mac s (masked s tag_length) in
  if! opening && negb (different s tag_length =? 0) return failed d s CCM_STAR_AUTH ;;
  let '(ok, d, s) :=
    if opening then (true, d, s) else
      let '(ok, d, s) := transform (passes size) d s 0 1 size in
      if! negb ok return (false, d, s) ;;
      (true, d, set_work s (blit (work s) size (slice (mac s) 0 tag_length))) in
  if! negb ok return failed d s CCM_STAR_AES ;;
  (CCM_STAR_OK, Some (slice (work s) 0 total), Some total, Some (info s), d).

(** A pointer argument is [None], or [false], when it is NULL. *)
Definition ccm_star_crypt (d : D) (op : Z) (k nc aad : option bytes) (aad_length : Z)
    (input : option bytes) (length tag_length : Z) (output : bool) (capacity : Z) (written : bool)
    (lim : option ccm_star_limits_t) (info_out : bool) : ccm_outcome :=
  let refuse r : ccm_outcome := (r, None, None, None, d) in
  match k, nc, lim with
  | Some k, Some nc, Some lim =>
      if! (1 <? op) || negb output || negb written || negb info_out
          || (bool_decide (aad = None) && negb (aad_length =? 0))
          || (bool_decide (input = None) && negb (length =? 0))
          || (block_timeout lim =? 0) || (Timebase.TIMEBASE_HALF_RANGE <=? block_timeout lim)
          || (block_polls lim =? 0)
        return refuse CCM_STAR_ARGUMENT ;;
      if! negb (tag_length =? 4) && negb (tag_length =? 8) && negb (tag_length =? 16)
        return refuse CCM_STAR_TAG ;;
      let opening := negb (op =? 0) in
      if! (CCM_STAR_MAX_AAD <? aad_length) || (opening && (length <? tag_length))
          || (CCM_STAR_MAX_MESSAGE + (if opening then tag_length else 0) <? length)
        return refuse CCM_STAR_LENGTH ;;
      let size := u8 (length - (if opening then tag_length else 0)) in
      let total := u8 (size + (if opening then 0 else tag_length)) in
      if! capacity <? total return refuse CCM_STAR_SPACE ;;
      run d (prepared k nc (default [] input) size tag_length lim opening) opening
        (default [] aad) aad_length size total tag_length
  | _, _, _ => refuse CCM_STAR_ARGUMENT
  end.

(** ** The definition of CCM-star

    With a two-octet length field, a tag of [m] octets, associated data [a]. *)
Section Spec.
Variables (k nc : bytes).
Definition pad16 (b : bytes) : bytes := b ++ replicate (Z.to_nat ((- blen b) mod 16)) 0.
Definition all_blocks (b : bytes) : list bytes := blocks16 (Z.to_nat (blen b / 16)) b.
Definition first_block (m : Z) (a msg : bytes) : bytes :=
  [(if blen a =? 0 then 0 else 0x40) + 8 * ((m - 2) / 2) + 1] ++ nc ++ [0; blen msg].
Definition auth_blocks (m : Z) (a msg : bytes) : list bytes :=
  first_block m a msg :: (if blen a =? 0 then [] else all_blocks (pad16 ([0; blen a] ++ a)))
  ++ all_blocks (pad16 msg).
Definition mac_step (x b : bytes) : bytes := aes k (xors b x).
Definition counter_block (i : Z) : bytes := [1] ++ nc ++ [0; i].
Definition stream (n : nat) : bytes := mjoin ((λ i, aes k (counter_block i)) <$> seqZ 1 (Z.of_nat n)).
Definition crypted (msg : bytes) : bytes := xors msg (stream (passes (blen msg))).
Definition mic (m : Z) (a msg : bytes) : bytes :=
  xors (slice (foldl mac_step zeros (auth_blocks m a msg)) 0 m) (aes k (counter_block 0)).
(** Sealing, and opening, which may refuse. *)
Definition seal (m : Z) (a msg : bytes) : bytes := crypted msg ++ mic m a msg.
Definition unseal (m : Z) (a b : bytes) : option bytes :=
  let size := blen b - m in let msg := crypted (slice b 0 size) in
  if bool_decide (mic m a msg = slice b size m) then Some msg else None.
(** Block operations either way. *)
Definition block_operations (a : bytes) (size : Z) : Z :=
  1 + (if blen a =? 0 then 0 else (blen a + 17) / 16) + 2 * ((size + 15) / 16) + 1.
End Spec.

(** ** The code computes the definition *)

(** A stretch that performs [n] block operations, or stops at one that fails. *)
Definition paid (n : Z) (ok : bool) (s s' : working) : Prop :=
  if ok then blocks (info s') = u8 (blocks (info s) + n) ∧
             (aes_status (info s) = AES_OK → aes_status (info s') = AES_OK)
  else aes_status (info s') ≠ AES_OK ∧ ∃ i, 1 <= i <= n ∧ blocks (info s') = u8 (blocks (info s) + i).
(** What no step changes. *)
Definition setup (s : working) := (key s, nonce s, tag s, limits s).
(** The block buffer holds [acc], padded with zeros. *)
Definition holds (s : working) (acc : bytes) : Prop :=
  block s = acc ++ replicate (Z.to_nat (16 - blen acc)) 0 ∧ position s = blen acc ∧ blen acc < 16.
Definition sized (s : working) : Prop :=
  blen (key s) = 16 ∧ blen (nonce s) = 13 ∧ blen (mac s) = 16 ∧ blen (block s) = 16.

Lemma ccm_paid_trans n m ok s1 s2 s3 :
  0 <= n → paid n true s1 s2 → paid m ok s2 s3 → paid (n + m) ok s1 s3.
Proof.
  intros Hn [H1 H2]. unfold paid.
  assert (∀ i, u8 (blocks (info s2) + i) = u8 (blocks (info s1) + (n + i))) as Hu
    by (intros i; rewrite H1; unfold u8; rewrite Zplus_mod_idemp_l; f_equal; lia).
  destruct ok.
  - intros [H3 H4]. rewrite H3, Hu. auto.
  - intros (H3&i&Hi&H4). split; [done|]. exists (n + i). rewrite H4, Hu. split; [lia|done].
Qed.
Lemma ccm_paid_refl s s' :
  info s' = info s → is_u8 (blocks (info s)) → paid 0 true s s'.
Proof. unfold paid. intros -> H. split; [by rewrite Z.add_0_r, u8_id|done]. Qed.
Lemma ccm_paid_u8 n s s' : paid n true s s' → is_u8 (blocks (info s')).
Proof. intros [-> _]. apply u8_range. Qed.
Lemma ccm_paid_more n m s s' : n <= m → paid n false s s' → paid m false s s'.
Proof. intros Hn (H1&i&Hi&H2). split; [done|]. exists i. split; [lia|done]. Qed.

Lemma ccm_encrypt d s :
  let '(ok, d', s') := encrypt d s in
  paid 1 ok s s' ∧ setup s' = setup s ∧ mac s' = mac s ∧ block s' = block s ∧ work s' = work s ∧
  position s' = position s ∧ (ok = true → cipher s' = aes (key s) (block s)).
Proof.
  unfold encrypt. destruct (aes128_encrypt_block _ _ _ _ _ _) as [[[r c] p] d'] eqn:E.
  split; [|repeat split; try done; simpl].
  - unfold paid. case_bool_decide as Hr; simpl; [done|]. split; [done|]. by exists 1.
  - case_bool_decide as Hr; [|done]. intros _. subst r. by apply encrypt_ok in E.
Qed.

Lemma ccm_flush d s :
  let '(ok, d', s') := flush d s in
  paid 1 ok s s' ∧ setup s' = setup s ∧ work s' = work s ∧
  (ok = true → mac s' = mac_step (key s) (mac s) (block s) ∧ holds s' []).
Proof.
  unfold flush. set (s0 := set_block s _). pose proof (ccm_encrypt d s0) as H.
  destruct (encrypt d s0) as [[ok d'] s']. destruct H as (H1&H2&_&_&H3&_&H4).
  destruct ok; cbn [negb]; [|done]. split; [done|]. split; [done|]. split; [done|].
  intros _. split; [by apply H4|done].
Qed.
Lemma ccm_mac_step_len k x b : blen k = 16 → blen x = 16 → blen b = 16 → blen (mac_step k x b) = 16.
Proof.
  intros Hk Hx Hb. unfold mac_step. apply aes_block; [done|]. rewrite cipher_xors_len; lia.
Qed.
Lemma ccm_holds_len s acc : holds s acc → blen (block s) = 16.
Proof. intros (->&_&H). rewrite blen_app, blen_replicate. pose proof (blen_nonneg acc). lia. Qed.
Lemma ccm_holds_wr s acc x :
  holds s acc → wr (block s) (position s) x
                = (acc ++ [x]) ++ replicate (Z.to_nat (16 - blen (acc ++ [x]))) 0.
Proof.
  intros (->&->&H). pose proof (blen_nonneg acc). rewrite blen_app, blen_cons, blen_nil.
  replace (Z.to_nat (16 - blen acc)) with (S (Z.to_nat (16 - (blen acc + (0 + 1))))) by lia.
  unfold wr, blen. rewrite Nat2Z.id. rewrite <- (Nat.add_0_r (length acc)), insert_app_r.
  cbn [replicate]. by rewrite <- app_assoc.
Qed.

(** Feeding: the complete blocks are absorbed, the rest is held. *)
Lemma ccm_feed data : ∀ d s acc,
  holds s acc → is_u8 (blocks (info s)) →
  let all := acc ++ data in let n := Z.to_nat (blen all / 16) in
  let '(ok, d', s') := feed d s data in
  paid (Z.of_nat n) ok s s' ∧ setup s' = setup s ∧ work s' = work s ∧
  (ok = true → mac s' = foldl (mac_step (key s)) (mac s) (blocks16 n all) ∧
               holds s' (drop (16 * n) all)).
Proof.
  induction data as [|x data IH]; intros d s acc Hh Hu; cbv zeta.
  { rewrite app_nil_r. pose proof Hh as (_&_&Hl). pose proof (blen_nonneg acc).
    replace (Z.to_nat (blen acc / 16)) with 0%nat by width. cbn [feed].
    split; [by apply ccm_paid_refl|]. done. }
  cbn [feed]. rewrite (ccm_holds_wr _ _ _ Hh). pose proof Hh as (_&Hp&Hl).
  pose proof (blen_nonneg acc). pose proof (blen_nonneg data) as Hdn.
  assert (blen (acc ++ [x]) = blen acc + 1) as La by (rewrite blen_app, blen_cons, blen_nil; lia).
  set (s0 := set_position _ _). assert (position s0 = blen (acc ++ [x])) as Ep
    by (subst s0; cbn [position set_position]; rewrite Hp, La, u8_id; [done|width]).
  replace (acc ++ x :: data) with ((acc ++ [x]) ++ data) by (by rewrite <- app_assoc).
  destruct (position s0 =? 16) eqn:E.
  - assert (block s0 = acc ++ [x]) as Eb
      by (subst s0; cbn [block set_position set_block]; rewrite La; replace (Z.to_nat _) with 0%nat by lia;
          by rewrite app_nil_r).
    pose proof (ccm_flush d s0) as Hf. destruct (flush d s0) as [[ok d1] s1].
    destruct Hf as (F1&F2&F3&F4). rewrite blen_app.
    replace (Z.to_nat ((blen (acc ++ [x]) + blen data) / 16)) with (S (Z.to_nat (blen data / 16))) by width.
    destruct ok; cbn [negb].
    + destruct (F4 eq_refl) as [F5 F6]. specialize (IH d1 s1 [] F6 (ccm_paid_u8 _ _ _ F1)).
      cbv zeta in IH. cbn [app] in IH. destruct (feed d1 s1 data) as [[ok d2] s2].
      destruct IH as (I1&I2&I3&I4). split; [|split; [by rewrite I2, F2|split; [by rewrite I3, F3|]]].
      * rewrite Nat2Z.inj_succ, <- Z.add_1_l. by apply (ccm_paid_trans 1 _ _ s s1).
      * intros E2. destruct (I4 E2) as [I5 I6]. injection F2 as K1 K2 K3 K4.
        rewrite cipher_blocks_cons by lia. cbn [foldl]. rewrite I5, F5, K1, Eb. split; [done|].
        replace (16 * S (Z.to_nat (blen data / 16)))%nat with (16 + 16 * Z.to_nat (blen data / 16))%nat by lia.
        rewrite <- drop_drop, drop_app_length' by (unfold blen in *; lia). done.
    + split; [|done]. eapply ccm_paid_more; [|exact F1]. lia.
  - assert (holds s0 (acc ++ [x])) as H0 by (split; [done|]; split; [done|lia]).
    specialize (IH d s0 (acc ++ [x]) H0 Hu). exact IH.
Qed.

Lemma ccm_pad_blocks b :
  all_blocks (pad16 b)
  = blocks16 (Z.to_nat (blen b / 16)) b ++
    if blen b mod 16 =? 0 then [] else [pad16 (drop (16 * Z.to_nat (blen b / 16)) b)].
Proof.
  pose proof (blen_nonneg b) as Hb. unfold all_blocks, pad16 at 1 2.
  rewrite blen_app, blen_replicate. set (q := Z.to_nat (blen b / 16)).
  assert (16 * q <= length b)%nat as Hq by (subst q; unfold blen in *; width).
  destruct (blen b mod 16 =? 0) eqn:E.
  - replace (Z.to_nat ((- blen b) mod 16)) with 0%nat by width. cbn [replicate].
    rewrite !app_nil_r. f_equal. subst q. width.
  - replace (Z.to_nat ((blen b + _) / 16)) with (q + 1)%nat by (subst q; width).
    rewrite cipher_blocks_add, cipher_blocks_app by done. f_equal.
    rewrite drop_app_le by done. set (r := drop _ b).
    assert (blen r = blen b mod 16) as Lr
      by (subst r q; unfold blen in *; rewrite length_drop; width).
    rewrite cipher_blocks_one.
    + unfold pad16. rewrite Lr. do 4 f_equal. width.
    + rewrite blen_app, blen_replicate, Lr. width.
Qed.
Lemma ccm_pad_block_count b : Z.of_nat (length (all_blocks (pad16 b))) = (blen b + 15) / 16.
Proof.
  pose proof (blen_nonneg b). rewrite ccm_pad_blocks, length_app, cipher_blocks_length.
  destruct (blen b mod 16 =? 0) eqn:E; cbn [length]; width.
Qed.

(** Feeding [data] and flushing what is left absorbs the zero-padded string. *)
Definition absorb (d : D) (s : working) (data : bytes) : bool * D * working :=
  let '(ok, d, s) := feed d s data in
  if! negb ok return (false, d, s) ;; flush_rest d s.
Lemma ccm_absorb d s acc data :
  holds s acc → is_u8 (blocks (info s)) →
  let bs := all_blocks (pad16 (acc ++ data)) in
  let '(ok, d', s') := absorb d s data in
  paid (Z.of_nat (length bs)) ok s s' ∧ setup s' = setup s ∧ work s' = work s ∧
  (ok = true → mac s' = foldl (mac_step (key s)) (mac s) bs ∧ holds s' []).
Proof.
  intros Hh Hu. cbv zeta. unfold absorb. pose proof (ccm_feed data d s acc Hh Hu) as H. cbv zeta in H.
  rewrite ccm_pad_blocks. set (all := acc ++ data) in *. set (q := Z.to_nat (blen all / 16)) in *.
  pose proof (blen_nonneg all) as Hall.
  destruct (feed d s data) as [[ok d1] s1]. destruct H as (H1&H2&H3&H4).
  destruct ok; cbn [negb].
  2: { split; [|done]. eapply ccm_paid_more; [|exact H1]. rewrite length_app, cipher_blocks_length. lia. }
  destruct (H4 eq_refl) as [H5 H6]. pose proof H6 as (Eb&Ep&_).
  assert (blen (drop (16 * q) all) = blen all mod 16) as Lr
    by (subst q; unfold blen in *; rewrite length_drop; width).
  unfold flush_rest. rewrite Ep, Lr. destruct (blen all mod 16 =? 0) eqn:E.
  - rewrite app_nil_r, cipher_blocks_length. split; [done|]. split; [done|]. split; [done|].
    intros _. split; [done|]. destruct (drop (16 * q) all) as [|x r] eqn:Er; [done|].
    rewrite blen_cons in Lr. pose proof (blen_nonneg r). lia.
  - pose proof (ccm_flush d1 s1) as Hf. destruct (flush d1 s1) as [[ok d2] s2].
    destruct Hf as (F1&F2&F3&F4). rewrite length_app, cipher_blocks_length. cbn [length].
    split; [|split; [by rewrite F2, H2|split; [by rewrite F3, H3|]]].
    + rewrite Nat2Z.inj_add. apply (ccm_paid_trans _ _ _ s s1); [lia|done|exact F1].
    + intros E2. destruct (F4 E2) as [F5 F6]. split; [|done].
      injection H2 as K1 _ _ _. rewrite foldl_app, <- H5, F5, K1. cbn [foldl]. f_equal.
      rewrite Eb. unfold pad16. do 3 f_equal. rewrite Lr. width.
Qed.

(** The formatted block written in place. *)
Lemma ccm_format b f nc x y :
  blen b = 16 → blen nc = 13 →
  wr (wr (blit (wr b 0 f) 1 nc) 14 x) 15 y = [f] ++ nc ++ [x; y].
Proof.
  intros Hb Hn. rewrite !wr_blit.
  rewrite !blit_blit' by (rewrite ?blen_app, ?Hn; done).
  rewrite blit_spec by (rewrite ?blen_app, ?Hn, ?Hb; done).
  rewrite drop_ge by (unfold blen in *; rewrite ?length_app; simpl; lia).
  cbn [Z.to_nat take app]. rewrite app_nil_r. by rewrite <- ?app_assoc.
Qed.

Lemma ccm_authenticate d s aad size m :
  sized s → is_u8 (blocks (info s)) → position s = 0 → 0 <= size <= blen (work s) →
  m = 4 ∨ m = 8 ∨ m = 16 →
  let msg := slice (work s) 0 size in let bs := auth_blocks (nonce s) m aad msg in
  let '(ok, d', s') := authenticate d s aad (blen aad) size m in
  paid (Z.of_nat (length bs)) ok s s' ∧ setup s' = setup s ∧ work s' = work s ∧
  (ok = true → mac s' = foldl (mac_step (key s)) zeros bs ∧ holds s' []).
Proof.
  intros (Lk&Ln&Lm&Lb) Hu Hp Hs Hm. unfold authenticate. cbv zeta.
  change (nonce (set_mac s zeros)) with (nonce s). change (block (set_mac s zeros)) with (block s).
  assert (blen (slice (work s) 0 size) = size) as Lmsg by (apply blen_slice; lia).
  set (msg := slice (work s) 0 size) in *. rewrite ccm_format by done.
  assert ([if blen aad =? 0 then Z.lor 1 (u8 (Z.shiftl ((m - 2) / 2) 3))
           else Z.lor (Z.lor 1 (u8 (Z.shiftl ((m - 2) / 2) 3))) 64] ++ nonce s ++ [0; size]
          = first_block (nonce s) m aad msg) as ->.
  { unfold first_block. rewrite Lmsg. f_equal. f_equal.
    destruct Hm as [-> |[-> | ->]]; by destruct (blen aad =? 0). }
  set (s0 := set_block (set_mac s zeros) _).
  pose proof (ccm_flush d s0) as H1. destruct (flush d s0) as [[ok d1] s1].
  destruct H1 as (F1&F2&F3&F4). unfold auth_blocks.
  cbn [length]. rewrite length_app.
  destruct ok; cbn [negb].
  2: { split; [|done]. eapply ccm_paid_more; [|exact F1]. lia. }
  destruct (F4 eq_refl) as [F5 F6]. cbn [key mac block s0 set_block set_mac] in F5.
  pose proof (ccm_paid_u8 _ _ _ F1) as U1.
  set (ab := if blen aad =? 0 then [] else _).
  set (second := if blen aad =? 0 then (true, d1, s1) else _).
  assert (let '(ok, d2, s2) := second in
    paid (Z.of_nat (length ab)) ok s1 s2 ∧ setup s2 = setup s1 ∧ work s2 = work s1 ∧
    (ok = true → mac s2 = foldl (mac_step (key s1)) (mac s1) ab ∧ holds s2 [])) as H2.
  { subst ab second. destruct (blen aad =? 0) eqn:Ea; [split; [by apply ccm_paid_refl|done]|].
    rewrite slice_all. set (s1' := set_position (set_block s1 _) 2).
    assert (holds s1' [0; blen aad]) as Hh.
    { split; [|done]. subst s1'. cbn [block set_position set_block]. destruct F6 as [-> _].
      change (replicate (Z.to_nat (16 - blen [])) 0) with zeros. done. }
    exact (ccm_absorb d1 s1' [0; blen aad] aad Hh U1). }
  destruct second as [[ok d2] s2]. destruct H2 as (A1&A2&A3&A4).
  destruct ok; cbn [negb].
  2: { split; [|by rewrite A2, F2, A3, F3].
       eapply ccm_paid_more; [|eapply (ccm_paid_trans 1 _ _ s s1); [lia|exact F1|exact A1]]. lia. }
  destruct (A4 eq_refl) as [A5 A6]. pose proof (ccm_paid_u8 _ _ _ A1) as U2.
  assert (slice (work s2) 0 size = msg) as ->
    by (rewrite A3, F3; reflexivity).
  pose proof (ccm_absorb d2 s2 [] msg A6 U2) as H3. cbv zeta in H3. unfold absorb in H3.
  cbn [app] in H3. destruct (feed d2 s2 msg) as [[ok d3] s3].
  injection A2 as K1 K2 K3 K4. injection F2 as G1 G2 G3 G4. 
  assert (setup s2 = setup s) as Es by (unfold setup; congruence).
  assert (∀ ok s4, paid (Z.of_nat (length (all_blocks (pad16 msg)))) ok s2 s4 →
    paid (Z.of_nat (S (length ab + length (all_blocks (pad16 msg))))) ok s s4) as Hpay.
  { intros ok4 s4 Hpd. replace (Z.of_nat (S _)) with
      (1 + (Z.of_nat (length ab) + Z.of_nat (length (all_blocks (pad16 msg))))) by lia.
    eapply (ccm_paid_trans 1 _ _ s s1); [lia|exact F1|].
    eapply ccm_paid_trans; [lia|exact A1|exact Hpd]. }
  destruct ok; cbn [negb] in *.
  - destruct (flush_rest d3 s3) as [[ok d4] s4]. destruct H3 as (B1&B2&B3&B4).
    split; [by apply Hpay|]. split; [by rewrite B2|]. split; [by rewrite B3, A3, F3|].
    intros E. destruct (B4 E) as [B5 B6]. split; [|done]. cbn [foldl]. rewrite foldl_app.
    rewrite B5, A5, F5. cbn [key s0 set_block set_mac] in *. by rewrite K1, G1.
  - destruct H3 as (B1&B2&B3&B4). split; [by apply Hpay|]. split; [by rewrite B2|].
    by rewrite B3, A3, F3.
Qed.

Lemma ccm_counter d s i :
  blen (key s) = 16 → blen (nonce s) = 13 → blen (block s) = 16 →
  let '(ok, d', s') := counter d s i in
  paid 1 ok s s' ∧ setup s' = setup s ∧ mac s' = mac s ∧ work s' = work s ∧ blen (block s') = 16 ∧
  position s' = position s ∧
  (ok = true → cipher s' = aes (key s) (counter_block (nonce s) i) ∧ blen (cipher s') = 16).
Proof.
  intros Lk Ln Lb. unfold counter. rewrite ccm_format by done. fold (counter_block (nonce s) i).
  set (s0 := set_block s _). pose proof (ccm_encrypt d s0) as H.
  destruct (encrypt d s0) as [[ok d'] s']. destruct H as (H1&H2&H3&H4&H5&H6&H7).
  assert (blen (counter_block (nonce s) i) = 16) as Lc
    by (unfold counter_block; rewrite !blen_app, Ln; done).
  split; [done|]. split; [done|]. split; [done|]. split; [done|].
  split; [by rewrite H4|]. split; [done|]. intros E. rewrite (H7 E). split; [done|].
  by apply aes_block.
Qed.

(** The key stream from block [i] on. *)
Definition stream_from (k nc : bytes) (i : Z) (n : nat) : bytes :=
  mjoin ((λ i, aes k (counter_block nc i)) <$> seqZ i (Z.of_nat n)).
Lemma ccm_stream_cons k nc i n :
  stream_from k nc i (S n) = aes k (counter_block nc i) ++ stream_from k nc (i + 1) n.
Proof.
  unfold stream_from. rewrite seqZ_cons by lia. cbn [fmap list_fmap mjoin list_join].
  by replace (Z.pred (Z.of_nat (S n))) with (Z.of_nat n) by lia.
Qed.
Lemma ccm_xors_app a b c e : blen a = blen c → xors (a ++ b) (c ++ e) = xors a c ++ xors b e.
Proof. unfold blen, xors. intros H. apply zip_with_app. lia. Qed.
Lemma ccm_xors_short a b : blen a <= blen b → blen (xors a b) = blen a.
Proof. unfold blen, xors. intros H. rewrite length_zip_with. lia. Qed.
Lemma ccm_xors_prefix a c e : blen a <= blen c → xors a (c ++ e) = xors a c.
Proof.
  unfold blen, xors. revert c.
  induction a as [|x a IH]; intros [|y c] H; simpl in *; try done; try lia. f_equal. apply IH. lia.
Qed.
Lemma ccm_xors_nil_r a : xors a [] = [].
Proof. by destruct a. Qed.
Lemma ccm_slice_after b o src n :
  0 <= o → o + blen src <= blen b → 0 <= n → o + blen src + n <= blen b →
  slice (blit b o src) (o + blen src) n = slice b (o + blen src) n.
Proof.
  intros Ho Hl Hn Hb. pose proof (blen_nonneg src). apply slice_ext; rewrite ?blen_blit; try lia.
  intros i Hi. rewrite rd_blit by lia. by replace ((o <=? i) && _) with false by lia.
Qed.

Lemma ccm_transform fuel : ∀ d s o i size,
  blen (key s) = 16 → blen (nonce s) = 13 → blen (block s) = 16 →
  Z.of_nat fuel = (size - o + 15) / 16 → 0 <= o <= size → size <= blen (work s) → size < 240 →
  0 <= i → i + Z.of_nat fuel < 256 → is_u8 (blocks (info s)) →
  let '(ok, d', s') := transform fuel d s o i size in
  paid (Z.of_nat fuel) ok s s' ∧ setup s' = setup s ∧ mac s' = mac s ∧ blen (block s') = 16 ∧
  position s' = position s ∧
  (ok = true → work s' = blit (work s) o (xors (slice (work s) o (size - o))
                                               (stream_from (key s) (nonce s) i fuel))).
Proof.
  induction fuel as [|n IH]; intros d s o i size Lk Ln Lb Hf Ho Hw Hs Hi Hin Hu; cbn [transform].
  { replace (size <=? o) with true by width. split; [by apply ccm_paid_refl|].
    repeat (split; [done|]). intros _. unfold stream_from. simpl. by rewrite ccm_xors_nil_r. }
  replace (size <=? o) with false by width.
  pose proof (ccm_counter d s i Lk Ln Lb) as H. destruct (counter d s i) as [[ok d1] s1].
  destruct H as (C1&C2&C3&C4&C5&C6&C7). destruct ok; cbn [negb].
  2: { split; [eapply ccm_paid_more; [|exact C1]; lia|]. done. }
  destruct (C7 eq_refl) as [C8 L8]. cbv zeta. rewrite C4. set (m := Z.min 16 (size - o)).
  set (x := xors (slice (work s) o m) (cipher s1)).
  assert (0 <= m) as Hm by lia.
  assert (blen (slice (work s) o m) = m) as Lsl by (apply blen_slice; lia).
  assert (blen x = m) as Lx by (subst x; rewrite ccm_xors_short; lia).
  set (s2 := set_work s1 _). injection C2 as K1 K2 K3 K4.
  specialize (IH d1 s2 (u8 (o + m)) (u8 (i + 1)) size). cbn [key nonce block work mac info position s2 set_work] in IH.
  rewrite K1, K2, blen_blit, !u8_id in IH by width.
  specialize (IH Lk Ln C5 ltac:(width) ltac:(lia) ltac:(lia) ltac:(lia) ltac:(lia) ltac:(lia)
    (ccm_paid_u8 _ _ _ C1)). rewrite !u8_id by width.
  destruct (transform n d1 s2 (o + m) (i + 1) size) as [[ok d3] s3].
  destruct IH as (I1&I2&I3&I4&I5&I6). split; [|split; [|split; [|split; [|split]]]].
  - rewrite Nat2Z.inj_succ, <- Z.add_1_l. by apply (ccm_paid_trans 1 _ _ s s1).
  - rewrite I2. unfold setup. cbn [key nonce tag limits s2 set_work]. congruence.
  - congruence.
  - done.
  - congruence.
  - intros E. rewrite (I6 E). rewrite <- Lx at 1 2 3. rewrite blit_blit. f_equal.
    rewrite ccm_slice_after by (rewrite ?Lx; lia). rewrite Lx.
    rewrite ccm_stream_cons, <- C8.
    assert (slice (work s) o (size - o)
            = slice (work s) o m ++ slice (work s) (o + m) (size - (o + m))) as ->
      by (rewrite <- slice_add by lia; f_equal; lia).
    destruct (decide (m = 16)) as [E16|Hn16]; [by rewrite ccm_xors_app by lia|].
    replace (size - (o + m)) with 0 by lia. change (slice (work s) (o + m) 0) with (@nil Z).
    cbn [xors zip_with]. rewrite !app_nil_r, ccm_xors_prefix by lia. done.
Qed.

(** ** The whole operation *)
Definition valid_tag (m : Z) : Prop := m = 4 ∨ m = 8 ∨ m = 16.

Lemma ccm_masked s k0 m :
  valid_tag m → blen (mac s) = 16 → cipher s = k0 → blen k0 = 16 →
  slice (masked s m) 0 m = xors (slice (mac s) 0 m) k0 ∧ blen (masked s m) = 16.
Proof.
  intros Hm Lm <- Lk. unfold masked. rewrite blen_blit. split; [|done].
  assert (blen (slice (mac s) 0 m) = m) as Ls by (apply blen_slice; destruct Hm as [|[|]]; lia).
  set (x := xors _ _). assert (blen x = m) as Lx
    by (subst x; rewrite ccm_xors_short; destruct Hm as [|[|]]; lia).
  rewrite blit_spec by (destruct Hm as [|[|]]; lia). cbn [Z.to_nat take app].
  by apply (slice_app_mid []).
Qed.
Lemma ccm_different a b :
  is_bytes a → is_bytes b → blen a <= blen b →
  (foldl Z.lor 0 (xors a b) =? 0) = bool_decide (a = slice b 0 (blen a)).
Proof.
  intros Ha Hb Hl.
  assert (∀ l x, Forall is_u8 l → is_u8 x → foldl Z.lor x l = 0 ↔ x = 0 ∧ Forall (λ y, y = 0) l) as Hf.
  { induction l as [|y l IH]; intros x Hl1 Hx; simpl; [split; [by intros ->|tauto]|].
    apply Forall_cons_1 in Hl1 as [Hy Hl1]. rewrite IH; [|done|].
    - rewrite Z.lor_eq_0_iff, Forall_cons_iff. tauto.
    - unfold is_u8 in *. split; [apply Z.lor_nonneg; lia|].
      destruct (decide (Z.lor x y = 0)) as [->|]; [lia|]. change 256 with (2 ^ 8).
      assert (0 <= Z.lor x y) by (apply Z.lor_nonneg; lia).
      apply Z.log2_lt_pow2; [lia|]. rewrite Z.log2_lor by lia.
      assert (∀ z, 0 <= z < 256 → Z.log2 z < 8) as Hz; [|apply Z.max_lub_lt; apply Hz; lia].
      intros z Hz. destruct (decide (z = 0)) as [->|]; [done|]. apply Z.log2_lt_pow2; lia. }
  apply eq_bool_prop_intro. rewrite bool_decide_spec.
  rewrite Is_true_true, Z.eqb_eq, Hf; [|by apply cipher_xors_bytes|done].
  clear Hf. revert b Hb Hl. induction Ha as [|x a Hx Ha IH]; intros [|y b] Hb Hl.
  - done. 
  - done.
  - rewrite blen_cons, blen_nil in Hl. pose proof (blen_nonneg a). lia.
  - rewrite !blen_cons in Hl. apply Forall_cons_1 in Hb as [Hy Hb].
    specialize (IH b Hb ltac:(lia)). unfold slice, blen in *. rewrite drop_0, Nat2Z.id in *.
    change (xors (x :: a) (y :: b)) with (Z.lxor x y :: xors a b). cbn [length take].
    rewrite Forall_cons_iff. split.
    + intros [_ [E1 E2]]. apply Z.lxor_eq in E1 as ->. f_equal. by apply IH.
    + intros [= -> E]. rewrite Z.lxor_nilpotent. split; [done|]. split; [done|].
      by apply IH.
Qed.

(** The result of the whole: that of the definition, or the failure of the cipher. *)
Definition ends (n : Z) (d0 : D) (res : ccm_outcome) (want : option bytes) : Prop :=
  let '(r, out, written, i, d') := res in
  ∃ inf, i = Some inf ∧
  ((r = CCM_STAR_AES ∧ out = None ∧ written = None ∧ 1 <= blocks inf <= n ∧ aes_status inf ≠ AES_OK) ∨
   (aes_status inf = AES_OK ∧ blocks inf <= n ∧
    match want with
    | Some b => r = CCM_STAR_OK ∧ out = Some b ∧ written = Some (blen b) ∧ blocks inf = n
    | None => r = CCM_STAR_AUTH ∧ out = None ∧ written = None
    end)).

Lemma ccm_auth_count nc m a msg :
  Z.of_nat (length (auth_blocks nc m a msg))
  = 1 + (if blen a =? 0 then 0 else (blen a + 17) / 16) + (blen msg + 15) / 16.
Proof.
  unfold auth_blocks. cbn [length]. rewrite length_app, Nat2Z.inj_succ, Nat2Z.inj_add, ccm_pad_block_count.
  destruct (blen a =? 0); [cbn [length]; lia|]. rewrite ccm_pad_block_count, !blen_app, !blen_cons, blen_nil.
  replace (0 + 1 + 1 + blen a + 15) with (blen a + 17) by lia. lia.
Qed.
Lemma ccm_mac_len k bs : ∀ x, blen k = 16 → blen x = 16 → Forall (λ b, blen b = 16) bs →
  blen (foldl (mac_step k) x bs) = 16.
Proof.
  induction bs as [|b bs IH]; intros x Hk Hx Hbs; [done|]. apply Forall_cons_1 in Hbs as [Hb Hbs].
  simpl. apply IH; [done| |done]. by apply ccm_mac_step_len.
Qed.
Lemma ccm_mac_bytes k bs : ∀ x, blen k = 16 → blen x = 16 → is_bytes x → Forall (λ b, blen b = 16) bs →
  is_bytes (foldl (mac_step k) x bs).
Proof.
  induction bs as [|b bs IH]; intros x Hk Hx Hx2 Hbs; [done|]. apply Forall_cons_1 in Hbs as [Hb Hbs].
  simpl. apply IH; [done|by apply ccm_mac_step_len| |done]. unfold mac_step. apply aes_block; [done|].
  rewrite cipher_xors_len; lia.
Qed.
Lemma ccm_blocks_sized n b : 16 * Z.of_nat n <= blen b → Forall (λ x, blen x = 16) (blocks16 n b).
Proof.
  revert b. induction n as [|n IH]; intros b H; [constructor|]. cbn [blocks16].
  constructor; [unfold blen in *; rewrite length_take; lia|].
  apply IH. unfold blen in *. rewrite length_drop. lia.
Qed.
Lemma ccm_auth_sized nc m a msg : blen nc = 13 → Forall (λ b, blen b = 16) (auth_blocks nc m a msg).
Proof.
  intros Hn. assert (∀ b, Forall (λ x, blen x = 16) (all_blocks (pad16 b))) as Hp.
  { intros b. unfold all_blocks. apply ccm_blocks_sized.
    pose proof (blen_nonneg (pad16 b)). width. }
  unfold auth_blocks. constructor; [unfold first_block; rewrite !blen_app, Hn; done|].
  apply Forall_app. split; [|apply Hp]. destruct (blen a =? 0); [constructor|apply Hp].
Qed.

Lemma ccm_tagging d s aad size m :
  sized s → is_u8 (blocks (info s)) → position s = 0 → 0 <= size <= blen (work s) → valid_tag m →
  let msg := slice (work s) 0 size in
  let '(ok, d', s') := tagging d s aad (blen aad) size m in
  paid (2 + (if blen aad =? 0 then 0 else (blen aad + 17) / 16) + (size + 15) / 16) ok s s' ∧
  setup s' = setup s ∧ work s' = work s ∧
  (ok = true → sized s' ∧ is_bytes (mac s') ∧ blen (cipher s') = 16 ∧ is_bytes (cipher s') ∧
     slice (masked s' m) 0 m = mic (key s) (nonce s) m aad msg ∧ blen (masked s' m) = 16).
Proof.
  intros Hsz Hu Hp Hs Hm. cbv zeta. unfold tagging. pose proof Hsz as (Lk&Ln&_&_).
  assert (blen (slice (work s) 0 size) = size) as Lmsg by (apply blen_slice; lia).
  pose proof (ccm_authenticate d s aad size m Hsz Hu Hp Hs Hm) as H. cbv zeta in H.
  set (msg := slice (work s) 0 size) in *. set (bs := auth_blocks (nonce s) m aad msg) in *.
  assert (Z.of_nat (length bs)
          = 1 + (if blen aad =? 0 then 0 else (blen aad + 17) / 16) + (size + 15) / 16) as En
    by (subst bs; by rewrite ccm_auth_count, Lmsg).
  destruct (authenticate d s aad (blen aad) size m) as [[ok d1] s1]. destruct H as (H1&H2&H3&H4).
  rewrite En in H1. injection H2 as K1 K2 K3 K4.
  destruct ok; cbn [negb].
  2: { split; [eapply ccm_paid_more; [|exact H1]; lia|]. split; [unfold setup; congruence|done]. }
  destruct (H4 eq_refl) as [H5 H6].
  pose proof (ccm_counter d1 s1 0 ltac:(congruence) ltac:(congruence) (ccm_holds_len _ _ H6)) as C.
  destruct (counter d1 s1 0) as [[ok d2] s2]. destruct C as (C1&C2&C3&C4&C5&C6&C7).
  split; [|split; [rewrite C2; unfold setup; congruence|split; [congruence|]]].
  { replace (2 + _ + _) with (1 + (if blen aad =? 0 then 0 else (blen aad + 17) / 16) + (size + 15) / 16 + 1)
      by lia. eapply ccm_paid_trans; [|exact H1|exact C1].
    assert (0 <= if blen aad =? 0 then 0 else (blen aad + 17) / 16)
      by (pose proof (blen_nonneg aad); destruct (blen aad =? 0); width). width. }
  intros E. destruct (C7 E) as [C8 C9]. injection C2 as G1 G2 G3 G4.
  assert (blen (mac s2) = 16) as Lmac
    by (rewrite C3, H5; apply ccm_mac_len; [done|done|by apply ccm_auth_sized]).
  assert (blen (counter_block (nonce s) 0) = 16) as Lcb
    by (unfold counter_block; rewrite !blen_app, Ln; done).
  split; [repeat split; congruence|].
  split; [rewrite C3, H5; apply ccm_mac_bytes; [done|done|concrete|by apply ccm_auth_sized]|].
  split; [done|]. split; [rewrite C8, K1, K2; by apply aes_block|].
  destruct (ccm_masked s2 _ m Hm Lmac eq_refl C9) as [M1 M2]. split; [|done].
  rewrite M1, C3, H5, C8, K1, K2. done.
Qed.

Lemma ccm_prepared k nc input size m lim opening :
  blen k = 16 → blen nc = 13 → 0 <= size <= blen input → size <= 132 →
  let s := prepared k nc input size m lim opening in
  sized s ∧ is_u8 (blocks (info s)) ∧ position s = 0 ∧ aes_status (info s) = AES_OK ∧
  blocks (info s) = 0 ∧ blen (work s) = 132 ∧ key s = k ∧ nonce s = nc ∧
  slice (work s) 0 size = slice input 0 size.
Proof.
  intros Lk Ln Hs Hs2. cbv zeta. unfold prepared, sized. cbn [key nonce mac block work info position blocks aes_status].
  rewrite !slice_all' by done. repeat (split; [done|]). rewrite blen_blit. split; [done|].
  repeat (split; [done|]).
  assert (blen (slice input 0 size) = size) as L by (apply blen_slice; lia).
  rewrite blit_spec by (rewrite ?L; change (blen (replicate 132 0)) with 132; lia).
  cbn [Z.to_nat take app]. by apply (slice_app_mid []).
Qed.
Lemma ccm_crypted k nc msg :
  xors msg (stream_from k nc 1 (passes (blen msg))) = crypted k nc msg.
Proof. done. Qed.
Lemma ccm_stream_len k nc i n :
  blen k = 16 → blen nc = 13 → blen (stream_from k nc i n) = 16 * Z.of_nat n.
Proof.
  intros Hk Hn. revert i. induction n as [|n IH]; intros i; [done|].
  rewrite ccm_stream_cons, blen_app, IH.
  destruct (aes_block k (counter_block nc i) Hk) as [-> _]; [|lia].
  unfold counter_block. by rewrite !blen_app, Hn.
Qed.
Lemma ccm_crypted_len k nc msg : blen k = 16 → blen nc = 13 → blen (crypted k nc msg) = blen msg.
Proof.
  intros Hk Hn. rewrite <- ccm_crypted. apply ccm_xors_short. rewrite ccm_stream_len by done.
  unfold passes. pose proof (blen_nonneg msg). width.
Qed.
Lemma ccm_slice_blit b src n :
  n = blen src → n <= blen b → slice (blit b 0 src) 0 n = src.
Proof.
  intros -> H. rewrite blit_spec by lia. cbn [Z.to_nat take app]. by apply (slice_app_mid []).
Qed.

Lemma ccm_run_seal d k nc aad input size m lim :
  blen k = 16 → blen nc = 13 → 0 <= size <= blen input → size <= CCM_STAR_MAX_MESSAGE →
  blen aad <= CCM_STAR_MAX_AAD → valid_tag m →
  ends (block_operations aad size) d
    (run d (prepared k nc input size m lim false) false aad (blen aad) size (size + m) m)
    (Some (seal k nc m aad (slice input 0 size))).
Proof.
  intros Lk Ln Hs Hmax Ha Hm. unfold CCM_STAR_MAX_MESSAGE, CCM_STAR_MAX_AAD in *.
  set (s := prepared k nc input size m lim false).
  destruct (ccm_prepared k nc input size m lim false Lk Ln Hs ltac:(lia))
    as (S1&S2&S3&S4&S5&S6&S7&S8&S9). fold s in S1, S2, S3, S4, S5, S6, S7, S8, S9.
  clearbody s.
  assert (blen (slice input 0 size) = size) as Lmsg by (apply blen_slice; lia).
  unfold run, ends. cbn [negb].
  pose proof (ccm_tagging d s aad size m S1 S2 S3 ltac:(lia) Hm) as H. cbv zeta in H.
  rewrite S9, S7, S8 in H. set (msg := slice input 0 size) in *.
  assert (0 <= (if blen aad =? 0 then 0 else (blen aad + 17) / 16) <= 9) as Hb
    by (pose proof (blen_nonneg aad); destruct (blen aad =? 0); width).
  unfold block_operations. set (ab := if blen aad =? 0 then 0 else (blen aad + 17) / 16) in *.
  destruct (tagging d s aad (blen aad) size m) as [[ok d1] s1]. destruct H as (H1&H2&H3&H4).
  destruct ok; cbn [negb andb].
  2: { eexists. split; [done|]. left. destruct H1 as (H5&i&Hi&H6). rewrite S5, u8_id in H6 by width.
       repeat split; try done; rewrite H6; width. }
  destruct (H4 eq_refl) as (T1&T2&T3&T4&T5&T6). set (s2 := set_mac s1 (masked s1 m)).
  pose proof T1 as (L1&L2&_&L4). injection H2 as K1 K2 K3 K4.
  pose proof (ccm_transform (passes size) d1 s2 0 1 size) as Ht.
  cbn [key nonce block work mac info position s2 set_mac] in Ht. rewrite K1, K2, S7, S8, H3, S6 in Ht.
  specialize (Ht Lk Ln L4 ltac:(unfold passes; width) ltac:(lia) ltac:(lia) ltac:(lia) ltac:(lia)
    ltac:(unfold passes; width) (ccm_paid_u8 _ _ _ H1)).
  destruct (transform (passes size) d1 s2 0 1 size) as [[ok d2] s3].
  destruct Ht as (P1&P2&P3&P4&P5&P6).
  assert (paid (2 + ab + (size + 15) / 16 + Z.of_nat (passes size)) ok s s3) as Hp
    by (eapply ccm_paid_trans; [width|exact H1|exact P1]).
  assert (Z.of_nat (passes size) = (size + 15) / 16) as Ep by (unfold passes; width).
  destruct ok; cbn [negb].
  2: { eexists. split; [done|]. left. destruct Hp as (H5&i&Hi&H6). rewrite S5, u8_id in H6 by width.
       repeat split; try done; rewrite H6; width. }
  destruct Hp as [Hp1 Hp2]. rewrite S5, u8_id in Hp1 by width.
  assert (slice (work s3) 0 size = crypted k nc msg ∧ blen (work s3) = 132) as [Ew Lw].
  { rewrite (P6 eq_refl), Z.sub_0_r, blen_blit, S9. fold msg. split; [|done].
    rewrite <- ccm_crypted, Lmsg. apply ccm_slice_blit; [|lia].
    rewrite ccm_xors_short; [done|]. rewrite ccm_stream_len by done. unfold passes. width. }
  assert (slice (mac s3) 0 m = mic k nc m aad msg) as Em by (rewrite P3; exact T5).
  assert (blen (mic k nc m aad msg) = m) as Lmic.
  { rewrite <- Em. apply blen_slice; [lia|destruct Hm as [|[|]]; lia|].
    rewrite P3, T6. destruct Hm as [|[|]]; lia. }
  cbn [info set_work]. eexists. split; [reflexivity|]. right. split; [by apply Hp2|].
  rewrite Hp1, Ep. split; [lia|]. split; [done|].
  assert (slice (work (set_work s3 (blit (work s3) size (slice (mac s3) 0 m)))) 0 (size + m)
          = seal k nc m aad msg) as ->.
  { unfold seal. cbn [work set_work]. rewrite Em. rewrite blit_spec by (destruct Hm as [|[|]]; lia).
    rewrite (assoc_L (++)). change (take (Z.to_nat size) (work s3)) with (slice (work s3) 0 size).
    rewrite Ew. apply (slice_app_mid []); [done|].
    by rewrite blen_app, ccm_crypted_len, Lmic, Lmsg by done. }
  split; [done|]. split; [unfold seal; by rewrite blen_app, ccm_crypted_len, Lmic, Lmsg by done|lia].
Qed.

Lemma ccm_run_open d k nc aad input size m lim :
  blen k = 16 → blen nc = 13 → is_bytes input → 0 <= size → size + m = blen input →
  size <= CCM_STAR_MAX_MESSAGE → blen aad <= CCM_STAR_MAX_AAD → valid_tag m →
  ends (block_operations aad size) d
    (run d (prepared k nc input size m lim true) true aad (blen aad) size size m)
    (unseal k nc m aad input).
Proof.
  intros Lk Ln Hbytes Hs0 Hs Hmax Ha Hm. unfold CCM_STAR_MAX_MESSAGE, CCM_STAR_MAX_AAD in *.
  assert (4 <= m <= 16) as Hm' by (destruct Hm as [|[|]]; lia).
  set (s := prepared k nc input size m lim true).
  destruct (ccm_prepared k nc input size m lim true Lk Ln ltac:(lia) ltac:(lia))
    as (S1&S2&S3&S4&S5&S6&S7&S8&S9). fold s in S1, S2, S3, S4, S5, S6, S7, S8, S9.
  assert (slice (tag s) 0 m = slice input size m ∧ is_bytes (tag s) ∧ blen (tag s) = 16) as (Et&Bt&Lt).
  { subst s. cbn [tag prepared]. assert (blen (slice input size m) = m) as L by (apply blen_slice; lia).
    rewrite ccm_slice_blit by (rewrite ?L; change (blen zeros) with 16; lia). split; [done|].
    rewrite blen_blit. split; [|done]. apply is_bytes_blit; [concrete|by apply is_bytes_slice]. }
  clearbody s.
  assert (blen (slice input 0 size) = size) as Lin by (apply blen_slice; lia).
  assert (0 <= (if blen aad =? 0 then 0 else (blen aad + 17) / 16) <= 9) as Hb
    by (pose proof (blen_nonneg aad); destruct (blen aad =? 0); width).
  unfold run, ends, unseal, block_operations. rewrite <- Hs, Z.add_simpl_r.
  set (ab := if blen aad =? 0 then 0 else (blen aad + 17) / 16) in *.
  destruct S1 as (L1&L2&L3&L4).
  pose proof (ccm_transform (passes size) d s 0 1 size L1 L2 L4 ltac:(unfold passes; width)
    ltac:(lia) ltac:(lia) ltac:(lia) ltac:(lia) ltac:(unfold passes; width) S2) as Ht.
  assert (Z.of_nat (passes size) = (size + 15) / 16) as Ep by (unfold passes; width).
  rewrite S7, S8, Z.sub_0_r, S9, Ep in Ht.
  destruct (transform (passes size) d s 0 1 size) as [[ok d1] s1].
  destruct Ht as (P1&P2&P3&P4&P5&P6). injection P2 as K1 K2 K3 K4. destruct ok; cbn [negb].
  2: { eexists. split; [done|]. left. destruct P1 as (H5&i&Hi&H6). rewrite S5, u8_id in H6 by width.
       repeat split; try done; rewrite H6; width. }
  set (msg := crypted k nc (slice input 0 size)).
  assert (slice (work s1) 0 size = msg ∧ blen (work s1) = 132) as [Ew Lw].
  { rewrite (P6 eq_refl), blen_blit. split; [|done].
    subst msg. rewrite <- ccm_crypted, Lin. apply ccm_slice_blit; [|lia].
    rewrite ccm_xors_short; [done|]. rewrite ccm_stream_len by done. unfold passes. width. }
  pose proof (ccm_tagging d1 s1 aad size m) as H. cbv zeta in H. rewrite Ew in H.
  specialize (H ltac:(repeat split; congruence) (ccm_paid_u8 _ _ _ P1) ltac:(congruence) ltac:(lia) Hm).
  destruct (tagging d1 s1 aad (blen aad) size m) as [[ok d2] s2]. destruct H as (H1&H2&H3&H4).
  injection H2 as G1 G2 G3 G4.
  assert (paid ((size + 15) / 16 + (2 + ab + (size + 15) / 16)) ok s s2) as Hp
    by (eapply ccm_paid_trans; [width|exact P1|exact H1]).
  destruct ok; cbn [negb].
  2: { eexists. split; [done|]. left. destruct Hp as (H5&i&Hi&H6). rewrite S5, u8_id in H6 by width.
       repeat split; try done; rewrite H6; width. }
  destruct Hp as [Hp1 Hp2]. rewrite S5, u8_id in Hp1 by width.
  destruct (H4 eq_refl) as (T1&T2&T3&T4&T5&T6). destruct T1 as (_&_&T7&_).
  set (s3 := set_mac s2 (masked s2 m)). rewrite K1, K2, S7, S8 in T5.
  assert ((different s3 m =? 0) = bool_decide (mic k nc m aad msg = slice input size m)) as ->.
  { unfold different. change (mac s3) with (masked s2 m). change (tag s3) with (tag s2).
    rewrite G3, K3. rewrite ccm_different; [|apply is_bytes_slice; unfold masked; apply is_bytes_blit;
      [done|apply cipher_xors_bytes; [by apply is_bytes_slice|done]]|done|rewrite blen_slice by lia; lia].
    rewrite blen_slice by lia. by rewrite Et, T5. }
  cbn [andb info s3 set_mac].
  destruct (bool_decide (mic k nc m aad msg = slice input size m)); cbn [negb];
    (eexists; split; [reflexivity|]; right; split; [by apply Hp2|]); rewrite Hp1.
  - split; [lia|]. cbn [work set_mac s3]. rewrite H3, Ew. split; [done|]. split; [done|].
    split; [|lia]. subst msg. by rewrite ccm_crypted_len, Lin by done.
  - split; [lia|done].
Qed.

(** Arguments that the operation admits, apart from the lengths. *)
Definition usable_limits (lim : ccm_star_limits_t) : Prop :=
  0 < block_timeout lim < Timebase.TIMEBASE_HALF_RANGE ∧ 0 < block_polls lim.

Lemma ccm_seal_ends d k nc aad msg m capacity lim :
  blen k = 16 → blen nc = 13 → blen aad <= CCM_STAR_MAX_AAD → blen msg <= CCM_STAR_MAX_MESSAGE →
  valid_tag m → blen msg + m <= capacity → usable_limits lim →
  block_operations aad (blen msg) <= 27 ∧
  ends (block_operations aad (blen msg)) d
    (ccm_star_crypt d 0 (Some k) (Some nc) (Some aad) (blen aad) (Some msg) (blen msg) m
       true capacity true (Some lim) true)
    (Some (seal k nc m aad msg)).
Proof.
  intros Lk Ln Ha Hl Hm Hc [[Ht1 Ht2] Hp].
  pose proof (blen_nonneg aad) as Hn. pose proof (blen_nonneg msg) as Hn2.
  unfold CCM_STAR_MAX_AAD, CCM_STAR_MAX_MESSAGE in *.
  assert (4 <= m <= 16) as Hm' by (destruct Hm as [|[|]]; lia).
  split; [unfold block_operations; destruct (blen aad =? 0); width|].
  unfold ccm_star_crypt. rewrite (bool_decide_eq_false_2 (Some aad = None)),
    (bool_decide_eq_false_2 (Some msg = None)) by done.
  replace (block_timeout lim =? 0) with false by lia. replace (_ <=? block_timeout lim) with false by lia.
  replace (block_polls lim =? 0) with false by lia. cbn [Z.ltb Z.compare orb andb negb].
  assert (negb (m =? 4) && negb (m =? 8) && negb (m =? 16) = false) as ->
    by (destruct Hm as [-> |[-> | ->]]; done).
  cbn [Z.eqb negb andb orb]. unfold CCM_STAR_MAX_AAD, CCM_STAR_MAX_MESSAGE.
  replace (132 <? blen aad) with false by lia. replace (116 + 0 <? blen msg) with false by lia.
  cbn [orb]. rewrite Z.sub_0_r, !u8_id by (rewrite ?u8_id by width; width).
  replace (capacity <? blen msg + m) with false by lia. cbn [default from_option id].
  pose proof (ccm_run_seal d k nc aad msg (blen msg) m lim Lk Ln ltac:(lia)) as H.
  rewrite slice_all in H. by apply H.
Qed.

Lemma ccm_open_ends d k nc aad input m capacity lim :
  blen k = 16 → blen nc = 13 → is_bytes input → blen aad <= CCM_STAR_MAX_AAD →
  m <= blen input <= CCM_STAR_MAX_MESSAGE + m → valid_tag m → blen input - m <= capacity →
  usable_limits lim →
  ends (block_operations aad (blen input - m)) d
    (ccm_star_crypt d 1 (Some k) (Some nc) (Some aad) (blen aad) (Some input) (blen input) m
       true capacity true (Some lim) true)
    (unseal k nc m aad input).
Proof.
  intros Lk Ln Hb Ha Hl Hm Hc [[Ht1 Ht2] Hp]. pose proof (blen_nonneg aad) as Hn.
  unfold CCM_STAR_MAX_AAD, CCM_STAR_MAX_MESSAGE in *.
  assert (4 <= m <= 16) as Hm' by (destruct Hm as [|[|]]; lia).
  unfold ccm_star_crypt. rewrite (bool_decide_eq_false_2 (Some aad = None)),
    (bool_decide_eq_false_2 (Some input = None)) by done.
  replace (block_timeout lim =? 0) with false by lia. replace (_ <=? block_timeout lim) with false by lia.
  replace (block_polls lim =? 0) with false by lia. cbn [Z.ltb Z.compare orb andb negb].
  assert (negb (m =? 4) && negb (m =? 8) && negb (m =? 16) = false) as ->
    by (destruct Hm as [-> |[-> | ->]]; done).
  cbn [Z.eqb negb andb orb]. unfold CCM_STAR_MAX_AAD, CCM_STAR_MAX_MESSAGE.
  replace (132 <? blen aad) with false by lia. replace (blen input <? m) with false by lia.
  replace (116 + m <? blen input) with false by lia.
  cbn [orb]. rewrite Z.add_0_r, !u8_id by (rewrite ?u8_id by width; width).
  replace (capacity <? blen input - m) with false by lia. cbn [default from_option id].
  apply ccm_run_open; try done; unfold CCM_STAR_MAX_AAD, CCM_STAR_MAX_MESSAGE; lia.
Qed.

(** The definition inverts itself. *)
Lemma ccm_stream_bytes k nc i n : blen k = 16 → blen nc = 13 → is_bytes (stream_from k nc i n).
Proof.
  intros Hk Hn. revert i. induction n as [|n IH]; intros i; [constructor|].
  rewrite ccm_stream_cons. apply is_bytes_app. split; [|apply IH].
  apply aes_block; [done|]. unfold counter_block. by rewrite !blen_app, Hn.
Qed.
Lemma ccm_crypted_twice k nc msg :
  blen k = 16 → blen nc = 13 → crypted k nc (crypted k nc msg) = msg.
Proof.
  intros Hk Hn. rewrite <- (ccm_crypted k nc (crypted k nc msg)), ccm_crypted_len by done.
  rewrite <- (ccm_crypted k nc msg). apply cipher_xors_involutive.
  rewrite ccm_stream_len by done. unfold passes. pose proof (blen_nonneg msg). width.
Qed.
Lemma ccm_mic_len k nc m a msg : blen k = 16 → blen nc = 13 → valid_tag m → blen (mic k nc m a msg) = m.
Proof.
  intros Hk Hn Hm. assert (4 <= m <= 16) as Hm' by (destruct Hm as [|[|]]; lia). unfold mic.
  assert (blen (foldl (mac_step k) zeros (auth_blocks nc m a msg)) = 16) as L
    by (apply ccm_mac_len; [done|done|by apply ccm_auth_sized]).
  assert (blen (aes k (counter_block nc 0)) = 16) as La
    by (apply aes_block; [done|unfold counter_block; by rewrite !blen_app, Hn]).
  rewrite ccm_xors_short; rewrite blen_slice by lia; lia.
Qed.
Lemma ccm_unseal_seal k nc m a msg :
  blen k = 16 → blen nc = 13 → valid_tag m → unseal k nc m a (seal k nc m a msg) = Some msg.
Proof.
  intros Hk Hn Hm. unfold unseal, seal. rewrite blen_app, ccm_mic_len by done.
  replace (blen (crypted k nc msg) + m - m) with (blen (crypted k nc msg)) by lia.
  assert (slice (crypted k nc msg ++ mic k nc m a msg) 0 (blen (crypted k nc msg)) = crypted k nc msg)
    as -> by (by apply (slice_app_mid [])).
  assert (slice (crypted k nc msg ++ mic k nc m a msg) (blen (crypted k nc msg)) m = mic k nc m a msg)
    as -> by (rewrite <- (app_nil_r (mic k nc m a msg)) at 1; apply slice_app_mid;
              [done|by rewrite ccm_mic_len]).
  by rewrite ccm_crypted_twice, bool_decide_eq_true_2 by done.
Qed.
Lemma ccm_seal_bytes k nc m a msg :
  blen k = 16 → blen nc = 13 → is_bytes msg → is_bytes (seal k nc m a msg).
Proof.
  intros Hk Hn Hb. apply is_bytes_app. split.
  - rewrite <- ccm_crypted. apply cipher_xors_bytes; [done|by apply ccm_stream_bytes].
  - unfold mic. apply cipher_xors_bytes; [apply is_bytes_slice, ccm_mac_bytes; try done|].
    + concrete.
    + by apply ccm_auth_sized.
    + apply aes_block; [done|unfold counter_block; by rewrite !blen_app, Hn].
Qed.

(** Sealing is CCM-star. With admitted arguments and room for the result, sealing delivers
    the definition's ciphertext and tag, or the cipher's failure with no output; in both cases
    within the definition's number of block operations, which is at most 27. *)
Theorem ccm_star_seals d k nc aad msg m capacity lim :
  blen k = 16 → blen nc = 13 → blen aad <= CCM_STAR_MAX_AAD → blen msg <= CCM_STAR_MAX_MESSAGE →
  valid_tag m → blen msg + m <= capacity → usable_limits lim →
  block_operations aad (blen msg) <= 27 ∧
  ends (block_operations aad (blen msg)) d
    (ccm_star_crypt d 0 (Some k) (Some nc) (Some aad) (blen aad) (Some msg) (blen msg) m
       true capacity true (Some lim) true)
    (Some (seal k nc m aad msg)).
Proof. apply ccm_seal_ends. Qed.

(** C19: opening is the inverse definition. Opening an admitted input verifies the tag of the
    definition over the decrypted message: it delivers the message exactly when the tag is
    right, reports an authentication failure and nothing of the message when it is not, or
    reports the cipher's failure. *)
Theorem ccm_star_opens d k nc aad input m capacity lim :
  blen k = 16 → blen nc = 13 → is_bytes input → blen aad <= CCM_STAR_MAX_AAD →
  m <= blen input <= CCM_STAR_MAX_MESSAGE + m → valid_tag m → blen input - m <= capacity →
  usable_limits lim →
  ends (block_operations aad (blen input - m)) d
    (ccm_star_crypt d 1 (Some k) (Some nc) (Some aad) (blen aad) (Some input) (blen input) m
       true capacity true (Some lim) true)
    (unseal k nc m aad input).
Proof. apply ccm_open_ends. Qed.

(** What was sealed opens. Whatever two devices do, if a sealing succeeds, opening its
    output with the same key, nonce, associated data and tag length gives back the message, or
    fails in the cipher; it never fails authentication. *)
Theorem ccm_star_roundtrip d k nc aad msg m capacity lim out written i d' d2 capacity2 lim2 :
  blen k = 16 → blen nc = 13 → is_bytes msg → blen aad <= CCM_STAR_MAX_AAD →
  blen msg <= CCM_STAR_MAX_MESSAGE → valid_tag m → blen msg + m <= capacity → usable_limits lim →
  ccm_star_crypt d 0 (Some k) (Some nc) (Some aad) (blen aad) (Some msg) (blen msg) m
    true capacity true (Some lim) true = (CCM_STAR_OK, Some out, written, i, d') →
  blen msg <= capacity2 → usable_limits lim2 →
  let '(r, back, _, _, _) :=
    ccm_star_crypt d2 1 (Some k) (Some nc) (Some aad) (blen aad) (Some out) (blen out) m
      true capacity2 true (Some lim2) true in
  (r = CCM_STAR_OK ∧ back = Some msg) ∨ (r = CCM_STAR_AES ∧ back = None).
Proof.
  intros Lk Ln Hb Ha Hl Hm Hc Hlim H Hc2 Hlim2. pose proof (blen_nonneg msg) as Hn.
  destruct (ccm_seal_ends d k nc aad msg m capacity lim Lk Ln Ha Hl Hm Hc Hlim) as [_ E].
  rewrite H in E. destruct E as (inf&_&[(?&_)|(_&_&_&[= ->]&_)]); [done|].
  pose proof (ccm_open_ends d2 k nc aad (seal k nc m aad msg) m capacity2 lim2 Lk Ln
    (ccm_seal_bytes k nc m aad msg Lk Ln Hb) Ha) as E.
  rewrite ccm_unseal_seal in E by done.
  assert (blen (seal k nc m aad msg) = blen msg + m) as L
    by (unfold seal; by rewrite blen_app, ccm_crypted_len, ccm_mic_len).
  rewrite L in *. specialize (E ltac:(lia) Hm ltac:(lia) Hlim2).
  destruct (ccm_star_crypt d2 1 _ _ _ _ _ _ _ _ _ _ _ _) as [[[[r back] w] j] d3].
  destruct E as (inf2&_&[(->&->&_)|(_&_&->&->&_)]); [by right|by left].
Qed.
End Ccm.

(** ** Concrete instances, over the toy cipher: a frame of 18 octets with 20 octets in clear *)
Definition sample_key : bytes := [1; 2; 3; 4; 5; 6; 7; 8; 9; 10; 11; 12; 13; 14; 15; 16].
Definition sample_nonce : bytes := [7; 7; 7; 7; 7; 7; 7; 7; 1; 0; 0; 0; 5].
Definition sample_aad : bytes := seqZ 40 20.
Definition sample_message : bytes := seqZ 100 18.
Definition sample_limits : ccm_star_limits_t := {| block_timeout := 500; block_polls := 9 |}.
Definition sample_sealed : bytes :=
  seal (D := toy_device) sample_key sample_nonce 8 sample_aad sample_message.

Lemma ccm_sample_limits : usable_limits sample_limits.
Proof. split; [split|]; done. Qed.
Lemma ccm_star_seals_witness :
  ends (block_operations sample_aad (blen sample_message)) ([] : toy_device)
    (ccm_star_crypt (D := toy_device) [] 0 (Some sample_key) (Some sample_nonce) (Some sample_aad)
       (blen sample_aad) (Some sample_message) (blen sample_message) 8 true 32 true
       (Some sample_limits) true)
    (Some sample_sealed).
Proof.
  refine (proj2 (ccm_star_seals (D := toy_device) [] sample_key sample_nonce sample_aad
    sample_message 8 32 sample_limits _ _ _ _ _ _ ccm_sample_limits)); concrete.
Defined.

(** One octet of the tag is wrong. *)
Definition sample_forged : bytes := wr sample_sealed 20 0.
Lemma ccm_star_opens_witness :
  unseal (D := toy_device) sample_key sample_nonce 8 sample_aad sample_forged = None ∧
  ends (block_operations sample_aad (blen sample_forged - 8)) ([] : toy_device)
    (ccm_star_crypt (D := toy_device) [] 1 (Some sample_key) (Some sample_nonce) (Some sample_aad)
       (blen sample_aad) (Some sample_forged) (blen sample_forged) 8 true 32 true
       (Some sample_limits) true)
    (unseal sample_key sample_nonce 8 sample_aad sample_forged).
Proof.
  split; [vm_compute; reflexivity|].
  refine (ccm_star_opens (D := toy_device) [] sample_key sample_nonce sample_aad
    sample_forged 8 32 sample_limits _ _ _ _ _ _ _ ccm_sample_limits); concrete.
Defined.

Definition sample_call : ccm_outcome (D := toy_device) :=
  ccm_star_crypt (D := toy_device) [] 0 (Some sample_key) (Some sample_nonce) (Some sample_aad)
    (blen sample_aad) (Some sample_message) (blen sample_message) 8 true 26 true
    (Some sample_limits) true.
Lemma ccm_star_roundtrip_witness :
  let '(r, back, _, _, _) :=
    ccm_star_crypt (D := toy_device) [AES_OK; AES_OK; AES_TIMEOUT] 1 (Some sample_key)
      (Some sample_nonce) (Some sample_aad) (blen sample_aad) (Some sample_sealed)
      (blen sample_sealed) 8 true 18 true (Some sample_limits) true in
  (r = CCM_STAR_OK ∧ back = Some sample_message) ∨ (r = CCM_STAR_AES ∧ back = None).
Proof.
  pose proof (ccm_star_roundtrip (D := toy_device) [] sample_key sample_nonce sample_aad
    sample_message 8 26 sample_limits sample_sealed (Some 26) sample_call.1.2 []
    [AES_OK; AES_OK; AES_TIMEOUT] 18 sample_limits ltac:(concrete) ltac:(concrete) ltac:(concrete)
    ltac:(concrete) ltac:(concrete) ltac:(concrete) ltac:(concrete) ccm_sample_limits
    ltac:(concrete) ltac:(concrete) ccm_sample_limits) as H.
  exact H.
Defined.
End Ccm.
