(* ===== verification/Association.v ===== *)
(** * The association response context, src/src/mac_association.c

    One response window of an end device: opened by [mac_association_start], fed by
    [mac_association_step_rx] with polls, received frames and cancellations, emptied by
    [mac_association_take].  The frames go through the decoders of MacFrame.v.  The base build,
    without the MAC link workspace. *)
From S2P Require Import Prelude MacFrame.
Import Mac.

Module Association.

(** ** Constants and data (include/mac_association.h) *)
Definition MAC_ASSOCIATION_VERSION := 1.
Definition MAC_ASSOCIATION_HALF := 0x80000000.
Definition MAC_ASSOCIATION_MAX_LIFETIME := 65535.
Definition MAC_ASSOCIATION_MAX_WORK := 4096.
Definition UINT32_MAX := 0xffffffff.
Definition MAC_ASSOCIATION_IDLE := 0.
Definition MAC_ASSOCIATION_WAIT := 1.
Definition MAC_ASSOCIATION_DONE := 2.
Definition MAC_ASSOCIATION_FRAME := 1.
Definition MAC_ASSOCIATION_CANCEL := 2.
Definition MAC_ASSOCIATION_WAITING := 0.
Definition MAC_ASSOCIATION_RESPONSE := 1.
Definition MAC_ASSOCIATION_BAD_CRC := 2.
Definition MAC_ASSOCIATION_MALFORMED := 3.
Definition MAC_ASSOCIATION_MISMATCH := 4.
Definition MAC_ASSOCIATION_STALE := 5.
Definition MAC_ASSOCIATION_EXPIRED := 6.
Definition MAC_ASSOCIATION_EXHAUSTED := 7.
Definition MAC_ASSOCIATION_CANCELLED := 8.
Definition MAC_ASSOCIATION_SOURCE_UNBOUND := 0.
Definition MAC_ASSOCIATION_SOURCE_MATCHED := 1.
Definition MAC_ASSOCIATION_ALLOCATED := 1.
Definition MAC_ASSOCIATION_EXTENDED_ONLY := 2.
Definition MAC_ASSOCIATION_REFUSED := 3.

Inductive mac_association_result_t :=
  | MAC_ASSOCIATION_OK
  | MAC_ASSOCIATION_INVALID
  | MAC_ASSOCIATION_STATE
  | MAC_ASSOCIATION_GENERATION_LIMIT.
#[export] Instance mac_association_result_eq : EqDecision mac_association_result_t.
Proof. solve_decision. Defined.

Record mac_association_request_t := {
  rq_epoch : Z; lifetime : Z; work_limit : Z; pan_id : Z; rq_channel : Z;
  coordinator_mode : Z; coordinator : bytes; local : bytes
}.
Record mac_association_event_t := {
  ev_epoch : Z; ev_generation : Z; ev_stamp : Z; body : option bytes; ev_length : Z;
  kind : Z; ev_channel : Z; crc_valid : Z
}.
Record mac_association_record_t := {
  rc_epoch : Z; rc_generation : Z; rc_stamp : Z; rc_short_address : Z; source_ieee : bytes;
  outcome : Z; rc_status : Z; address_kind : Z; source_relation : Z; rc_sequence : Z
}.
Record mac_association_t := {
  request : mac_association_request_t; record : mac_association_record_t;
  generation : Z; opened : Z; last : Z; remaining : Z; version : Z; phase : Z
}.

(** What [memset] leaves. *)
Definition zero_request : mac_association_request_t :=
  Build_mac_association_request_t 0 0 0 0 0 0 (zeros 8) (zeros 8).
Definition zero_record : mac_association_record_t :=
  Build_mac_association_record_t 0 0 0 0 (zeros 8) 0 0 0 0 0.
(** The uninitialised local frame descriptor; it is read only after a successful decode. *)
Definition zero_frame : mac_frame_info_t :=
  Build_mac_frame_info_t (Build_mac_header_t 0 0 0 0 0 0 0 0 (zeros 8) (zeros 8)) 0 0.

Definition memcmp (a b : bytes) (n : Z) : bool := negb (bool_decide (slice a 0 n = slice b 0 n)).

(** ** Operations *)
Definition valid (ctx : option mac_association_t) : bool :=
  match ctx with
  | Some c => (version c =? MAC_ASSOCIATION_VERSION) && (phase c <=? MAC_ASSOCIATION_DONE)
  | None => false
  end.

Definition mac_association_init (ctx : option mac_association_t) (now : Z)
    : mac_association_result_t * option mac_association_t :=
  match ctx with
  | None => (MAC_ASSOCIATION_INVALID, None)
  | Some _ => (MAC_ASSOCIATION_OK,
      Some {| request := zero_request; record := zero_record; generation := 0; opened := 0;
              last := now; remaining := 0; version := MAC_ASSOCIATION_VERSION;
              phase := MAC_ASSOCIATION_IDLE |})
  end.

(** The argument guards of [mac_association_start], before its state guards. *)
Definition request_refused (rq : mac_association_request_t) : bool :=
  (rq_epoch rq =? 0) || (lifetime rq =? 0) || (MAC_ASSOCIATION_MAX_LIFETIME <? lifetime rq)
  || (work_limit rq =? 0) || (MAC_ASSOCIATION_MAX_WORK <? work_limit rq)
  || (pan_id rq =? 0xffff) || (rq_channel rq <? 11) || (26 <? rq_channel rq)
  || (negb (coordinator_mode rq =? MAC_ADDRESS_SHORT)
      && negb (coordinator_mode rq =? MAC_ADDRESS_EXTENDED))
  || ((coordinator_mode rq =? MAC_ADDRESS_SHORT)
      && (((rd (coordinator rq) 1 =? 0xff) && (0xfe <=? rd (coordinator rq) 0))
          || existsb (λ i, negb (rd (coordinator rq) i =? 0)) (seqZ 2 6))).

Definition mac_association_start (ctx : option mac_association_t)
    (request : option mac_association_request_t) (now : Z)
    : mac_association_result_t * option mac_association_t :=
  if! negb (valid ctx) return (MAC_ASSOCIATION_INVALID, ctx) ;;
  match ctx, request with
  | Some c, Some rq =>
      if! request_refused rq return (MAC_ASSOCIATION_INVALID, ctx) ;;
      if! negb (phase c =? MAC_ASSOCIATION_IDLE) return (MAC_ASSOCIATION_STATE, ctx) ;;
      if! MAC_ASSOCIATION_HALF <=? u32 (now - last c) return (MAC_ASSOCIATION_INVALID, ctx) ;;
      if! generation c =? UINT32_MAX return (MAC_ASSOCIATION_GENERATION_LIMIT, ctx) ;;
      let generation := u32 (generation c + 1) in
      (MAC_ASSOCIATION_OK,
       Some {| request := rq;
               record := {| rc_epoch := rq_epoch rq; rc_generation := generation; rc_stamp := 0;
                            rc_short_address := 0; source_ieee := zeros 8; outcome := 0;
                            rc_status := 0; address_kind := 0; source_relation := 0;
                            rc_sequence := 0 |};
               generation := generation; opened := now; last := now;
               remaining := work_limit rq; version := version c;
               phase := MAC_ASSOCIATION_WAIT |})
  | _, _ => (MAC_ASSOCIATION_INVALID, ctx)
  end.

(** The contextual filter on a decoded association response. *)
Definition context_mismatch (rq : mac_association_request_t) (h : mac_header_t)
    (command : mac_command_t) (profile : Z) : bool :=
  negb (identifier command =? MAC_COMMAND_ASSOCIATION_RESPONSE)
  || negb (source_pan h =? pan_id rq)
  || (negb (destination_pan h =? pan_id rq)
      && (negb (profile =? MAC_RX_R22_ASSOCIATION_RESPONSE)
          || negb (destination_pan h =? 0xffff)))
  || memcmp (destination h) (local rq) 8
  || ((coordinator_mode rq =? MAC_ADDRESS_EXTENDED) && memcmp (source h) (coordinator rq) 8).

(** The record of an accepted response. *)
Definition response_record (ctx : mac_association_t) (stamp : Z) (h : mac_header_t)
    (command : mac_command_t) : mac_association_record_t := {|
  rc_epoch := rc_epoch (record ctx); rc_generation := rc_generation (record ctx);
  rc_stamp := stamp; rc_short_address := short_address command;
  source_ieee := slice (source h) 0 8; outcome := outcome (record ctx);
  rc_status := status command;
  address_kind :=
    if negb (status command =? MAC_ASSOCIATION_SUCCESS) then MAC_ASSOCIATION_REFUSED
    else if short_address command =? 0xfffe then MAC_ASSOCIATION_EXTENDED_ONLY
    else MAC_ASSOCIATION_ALLOCATED;
  source_relation := if coordinator_mode (request ctx) =? MAC_ADDRESS_EXTENDED
                     then MAC_ASSOCIATION_SOURCE_MATCHED else MAC_ASSOCIATION_SOURCE_UNBOUND;
  rc_sequence := sequence h
|}.

(** The decision on one event: the [if (event != NULL)] chain of the step. *)
Definition classify (ctx : mac_association_t) (now : Z) (e : mac_association_event_t)
    (profile : Z) : Z * mac_association_record_t :=
  if! negb (ev_epoch e =? rq_epoch (request ctx)) || negb (ev_generation e =? generation ctx)
    return (MAC_ASSOCIATION_STALE, record ctx) ;;
  if! kind e =? MAC_ASSOCIATION_CANCEL return (MAC_ASSOCIATION_CANCELLED, record ctx) ;;
  if! (MAC_ASSOCIATION_HALF <=? u32 (ev_stamp e - last ctx))
      || (MAC_ASSOCIATION_HALF <=? u32 (now - ev_stamp e))
    return (MAC_ASSOCIATION_STALE, record ctx) ;;
  if! negb (ev_channel e =? rq_channel (request ctx))
    return (MAC_ASSOCIATION_MISMATCH, record ctx) ;;
  if! crc_valid e =? 0 return (MAC_ASSOCIATION_BAD_CRC, record ctx) ;;
  match mac_frame_decode_profile (body e) (ev_length e) (Some zero_frame) profile with
  | (MAC_CODEC_OK, Some frame) =>
      if! negb (type (header frame) =? MAC_FRAME_COMMAND)
        return (MAC_ASSOCIATION_MISMATCH, record ctx) ;;
      match mac_command_decode (Some (drop (Z.to_nat (payload_offset frame)) (default [] (body e))))
              (payload_length frame) (Some zero_command) with
      | (MAC_CODEC_OK, Some command) =>
          if! context_mismatch (request ctx) (header frame) command profile
            return (MAC_ASSOCIATION_MISMATCH, record ctx) ;;
          (MAC_ASSOCIATION_RESPONSE, response_record ctx (ev_stamp e) (header frame) command)
      | _ => (MAC_ASSOCIATION_MALFORMED, record ctx)
      end
  | _ => (MAC_ASSOCIATION_MALFORMED, record ctx)
  end.

(** The argument guards on the event. *)
Definition event_refused (event : option mac_association_event_t) : bool :=
  match event with
  | None => false
  | Some e =>
      (negb (kind e =? MAC_ASSOCIATION_FRAME) && negb (kind e =? MAC_ASSOCIATION_CANCEL))
      || ((kind e =? MAC_ASSOCIATION_FRAME)
          && (bool_decide (body e = None) || (1 <? crc_valid e)
              || (ev_channel e <? 11) || (26 <? ev_channel e)))
  end.

(** The decision, the record and the remaining work of one accepted step. *)
Definition step_decision (c : mac_association_t) (now : Z)
    (event : option mac_association_event_t) (profile : Z)
    : Z * mac_association_record_t * Z :=
  if! lifetime (request c) <=? u32 (now - opened c)
    return (MAC_ASSOCIATION_EXPIRED, record c, remaining c) ;;
  if! remaining c =? 0 return (MAC_ASSOCIATION_EXHAUSTED, record c, remaining c) ;;
  let work := remaining c - 1 in
  let '(decision, r) :=
    match event with
    | Some e => classify c now e profile
    | None => (MAC_ASSOCIATION_WAITING, record c)
    end in
  let decision :=
    if negb (decision =? MAC_ASSOCIATION_RESPONSE)
       && negb (decision =? MAC_ASSOCIATION_CANCELLED) && (work =? 0)
    then MAC_ASSOCIATION_EXHAUSTED else decision in
  (decision, r, work).

Definition closing (decision : Z) : bool :=
  (decision =? MAC_ASSOCIATION_RESPONSE) || (MAC_ASSOCIATION_EXPIRED <=? decision).

(** The outcome written into the record of a closing step. *)
Definition closed_record (r : mac_association_record_t) (decision now : Z)
    : mac_association_record_t := {|
  rc_epoch := rc_epoch r; rc_generation := rc_generation r;
  rc_stamp := if negb (decision =? MAC_ASSOCIATION_RESPONSE) then now else rc_stamp r;
  rc_short_address := rc_short_address r; source_ieee := source_ieee r; outcome := decision;
  rc_status := rc_status r; address_kind := address_kind r;
  source_relation := source_relation r; rc_sequence := rc_sequence r
|}.

(** [observation]: whether the output pointer is not NULL; the result carries what is stored. *)
Definition mac_association_step_rx (ctx : option mac_association_t) (now : Z)
    (event : option mac_association_event_t) (observation : bool) (profile : Z)
    : mac_association_result_t * option Z * option mac_association_t :=
  if! negb (valid ctx) || negb observation || (MAC_RX_R22_ASSOCIATION_RESPONSE <? profile)
    return (MAC_ASSOCIATION_INVALID, None, ctx) ;;
  match ctx with
  | None => (MAC_ASSOCIATION_INVALID, None, None)
  | Some c =>
      if! negb (phase c =? MAC_ASSOCIATION_WAIT) return (MAC_ASSOCIATION_STATE, None, ctx) ;;
      if! (MAC_ASSOCIATION_HALF <=? u32 (now - last c)) || event_refused event
        return (MAC_ASSOCIATION_INVALID, None, ctx) ;;
      let '(decision, r, work) := step_decision c now event profile in
      let close := closing decision in
      (MAC_ASSOCIATION_OK, Some decision,
       Some {| request := request c;
               record := if close then closed_record r decision now else r;
               generation := generation c; opened := opened c; last := now; remaining := work;
               version := version c;
               phase := if close then MAC_ASSOCIATION_DONE else phase c |})
  end.

Definition mac_association_step (ctx : option mac_association_t) (now : Z)
    (event : option mac_association_event_t) (observation : bool)
    : mac_association_result_t * option Z * option mac_association_t :=
  mac_association_step_rx ctx now event observation MAC_RX_IEEE2006.

Definition mac_association_take (ctx : option mac_association_t) (record_out : bool)
    : mac_association_result_t * option mac_association_record_t * option mac_association_t :=
  if! negb (valid ctx) || negb record_out return (MAC_ASSOCIATION_INVALID, None, ctx) ;;
  match ctx with
  | None => (MAC_ASSOCIATION_INVALID, None, None)
  | Some c =>
      if! negb (phase c =? MAC_ASSOCIATION_DONE) return (MAC_ASSOCIATION_STATE, None, ctx) ;;
      (MAC_ASSOCIATION_OK, Some (record c),
       Some {| request := request c; record := record c; generation := generation c;
               opened := opened c; last := last c; remaining := remaining c;
               version := version c; phase := MAC_ASSOCIATION_IDLE |})
  end.

(** ** The response on the wire

    The octets of an association response frame: the compressed form, which carries one PAN
    identifier, or ([uncompressed = Some d]) the R22 form with its own destination PAN [d]. *)
Definition octets16 (v : Z) : bytes := [u8 v; u8 (Z.shiftr v 8)].
Definition response_octets (pending : bool) (uncompressed : option Z)
    (pan seq : Z) (destination source : bytes) (address status : Z) : bytes :=
  match uncompressed with
  | None => [if pending then 0x73 else 0x63; 0xcc; seq] ++ octets16 pan ++ destination ++ source
  | Some d => [if pending then 0x33 else 0x23; 0xcc; seq] ++ octets16 d ++ destination
              ++ octets16 pan ++ source
  end ++ [2] ++ octets16 address ++ [status].

(** What the MAC codec allows in a response: an address with the success status, and none
    with a refusal. *)
Definition response_consistent (address status : Z) : Prop :=
  (status = 0 ∧ address ≠ 0xffff) ∨ ((status = 1 ∨ status = 2) ∧ address = 0xffff).

Ltac has_simpl :=
  repeat match goal with |- context [has (Zpos ?f) ?m] =>
    let v := eval vm_compute in (has (Zpos f) m) in change (has (Zpos f) m) with v end.

Lemma assoc_header_bytes h pan form :
  type h = 3 → Mac.version h = 0 → flags h ∈ accepted_flags →
  has (flags h) MAC_FLAG_ACK_REQUEST = true →
  destination_mode h = 3 → source_mode h = 3 → blen (destination h) = 8 → blen (source h) = 8 →
  source_pan h = pan →
  form = (if has (flags h) MAC_FLAG_PAN_COMPRESSION then None else Some (destination_pan h)) →
  (has (flags h) MAC_FLAG_PAN_COMPRESSION = true → destination_pan h = pan) →
  ∀ c, identifier c = 2 →
  header_bytes h ++ command_bytes c
  = response_octets (has (flags h) MAC_FLAG_PENDING) form pan (sequence h) (destination h)
      (source h) (short_address c) (status c).
Proof.
  intros Ht Hv Hf Ha Hd Hs Hld Hls <- -> Hp c Hc.
  unfold header_bytes, command_bytes, response_octets, octets16. rewrite Hc, Ht, Hv, Hd, Hs.
  change (address_size 3) with 8. rewrite !slice_all' by done. cbn [Z.eqb].
  unfold accepted_flags in Hf. rewrite !elem_of_cons in Hf.
  destruct Hf as [E|[E|[E|[E|[E|[E|[E|[E|E]]]]]]]]; try (by rewrite E in Ha);
    [| | | |by apply elem_of_nil in E]; rewrite E in *; has_simpl; cbn -[u8 Z.shiftr];
    rewrite <- ?app_assoc; cbn [app]; try done; by rewrite Hp.
Qed.

Lemma assoc_command_consistent c :
  is_u8 (status c) → identifier c = 2 → command_policy c = MAC_CODEC_OK →
  response_consistent (short_address c) (status c).
Proof.
  intros Hs Hc. unfold command_policy, response_consistent. rewrite Hc.
  unfold MAC_ASSOCIATION_PAN_ACCESS_DENIED, MAC_ASSOCIATION_SUCCESS,
    MAC_COMMAND_ASSOCIATION_REQUEST, MAC_COMMAND_ASSOCIATION_RESPONSE. cbn [Z.eqb Pos.eqb].
  destruct (_ || _) eqn:E; [done|]. intros _. apply orb_false_iff in E as [E1 E2]. width.
Qed.

(** A frame that the decoders and the command header policy accept as an association response. *)
Lemma assoc_decoded b n r0 info profile r1 c :
  is_bytes b → n <= blen b → 0 <= profile <= 1 →
  mac_frame_decode_profile (Some b) n (Some r0) profile = (MAC_CODEC_OK, Some info) →
  type (header info) = MAC_FRAME_COMMAND →
  mac_command_decode (Some (drop (Z.to_nat (payload_offset info)) b)) (payload_length info) (Some r1)
    = (MAC_CODEC_OK, Some c) →
  identifier c = MAC_COMMAND_ASSOCIATION_RESPONSE →
  let h := header info in
  let compressed := has (flags h) MAC_FLAG_PAN_COMPRESSION in
  slice b 0 n = response_octets (has (flags h) MAC_FLAG_PENDING)
    (if compressed then None else Some (destination_pan h)) (source_pan h) (sequence h)
    (destination h) (source h) (short_address c) (status c) ∧
  blen (destination h) = 8 ∧ blen (source h) = 8 ∧
  (compressed = true → destination_pan h = source_pan h) ∧ (compressed = false → profile = 1) ∧
  response_consistent (short_address c) (status c).
Proof.
  intros Hb Hn Hp H Ht Hc Hid. cbv zeta.
  pose proof (mac_frame_decode_typed _ _ _ _ _ Hb H) as Hty.
  apply mac_frame_decode_ok in H as (Ehs&Hr&Hpl&Hby&Hd&Hs&Hsh&Hpol&_&Hcmd&_); [|done..].
  pose proof (mac_header_length_range (header info)).
  specialize (Hcmd Ht). set (h := header info) in *. set (hs := payload_offset info) in *.
  assert (blen (drop (Z.to_nat hs) b) = blen b - hs) as Ebl
    by (unfold blen in *; rewrite length_drop; lia).
  assert (command_bytes c = slice b hs (n - hs)) as Hcb.
  { apply mac_command_decode_bytes in Hc; [|by apply Forall_drop|lia].
    rewrite Hc, Hpl. by unfold slice. }
  assert (mac_command_decode (Some (drop (Z.to_nat hs) b)) (n - hs) (Some zero_command)
          = (MAC_CODEC_OK, Some c)) as Hc'.
  { revert Hc. rewrite Hpl. unfold mac_command_decode. guards; try done.
    by destruct (command_policy _). }
  assert (command_policy c = MAC_CODEC_OK ∧ is_u8 (status c)) as [Hcp Hst].
  { pose proof (mac_command_decode_ok _ _ _ _ Hc) as (->&?&_). split; [done|].
    unfold parse_command. cbn [status]. destruct (_ =? _); [|width].
    apply rd_is_u8. by apply Forall_drop. }
  revert Hcmd. unfold command_header_policy. rewrite Hc', Hid.
  unfold MAC_COMMAND_ASSOCIATION_RESPONSE, MAC_COMMAND_BEACON_REQUEST, MAC_COMMAND_DATA_REQUEST,
    MAC_COMMAND_ASSOCIATION_REQUEST, MAC_ADDRESS_EXTENDED, MAC_ADDRESS_NONE, MAC_ADDRESS_SHORT.
  cbn [Z.eqb Pos.eqb]. destruct (_ =? 0); [done|]. destruct (_ && has _ MAC_FLAG_PENDING); [done|].
  destruct (has (flags h) MAC_FLAG_ACK_REQUEST) eqn:Ha; [|done]. cbn [negb orb].
  destruct (_ || _); [done|]. 
  destruct (negb (source_mode h =? 3) || (destination_mode h =? 0)) eqn:E1; [done|].
  match goal with |- context [true && ?a || ?b] => destruct (true && a || b) eqn:E2; [done|] end.
  intros _. apply orb_false_iff in E1 as [E1 _].
  apply orb_false_iff in E2 as [E2 E3].
  destruct (mac_header_shape_ok _ _ _ _ Hty Hsh) as (_&_&Hfl&_).
  assert (Mac.version h = 0) as Hv.
  { revert Hsh. unfold header_shape. rewrite Ht. unfold MAC_FRAME_COMMAND.
    cbn -[has Z.lnot Z.land]. destruct (_ || _) eqn:E; [done|]. intros _. lia. }
  assert (has (flags h) MAC_FLAG_PAN_COMPRESSION = true → destination_pan h = source_pan h) as Hcomp.
  { intros Hc0. revert Hpol. unfold address_policy. rewrite Ht, Hc0. cbn -[Z.eqb].
    destruct (source_pan h =? destination_pan h) eqn:?; [lia|done]. }
  split; [|split_and!; try done].
  - rewrite (slice_prefix b hs n), <- Hcb, <- Hby by lia.
    apply assoc_header_bytes; try done; lia.
  - intros Hc0. rewrite Hc0 in E3. cbn in E3. rewrite andb_true_r in E3.
    assert (profile = 0 ∨ profile = 1) as [->| ->] by lia; [done|done].
  - by apply assoc_command_consistent.
Qed.

(** ** Runs in true time

    [at_time] counts symbols without bound; the context sees it modulo 2^32. *)
Record call := { at_time : Z; input : option mac_association_event_t; call_profile : Z }.
Definition step_call (c : mac_association_t) (k : call)
    : mac_association_result_t * option Z * option mac_association_t :=
  mac_association_step_rx (Some c) (u32 (at_time k)) (input k) true (call_profile k).
(** The context after a sequence of calls, whatever each of them returns. *)
Fixpoint run (c : mac_association_t) (calls : list call) : mac_association_t :=
  match calls with
  | [] => c
  | k :: calls => run (default c (step_call c k).2) calls
  end.
(** A call whose arguments the interface admits. *)
Definition proper (k : call) : bool :=
  negb (event_refused (input k)) && negb (MAC_RX_R22_ASSOCIATION_RESPONSE <? call_profile k).
(** Consecutive proper calls are less than half the counter apart. *)
Fixpoint timely (t : Z) (calls : list call) : bool :=
  match calls with
  | [] => true
  | k :: calls => (t <=? at_time k) && (at_time k <? t + MAC_ASSOCIATION_HALF)
                  && timely (at_time k) calls
  end.
Fixpoint last_time (t : Z) (calls : list call) : Z :=
  match calls with [] => t | k :: calls => last_time (at_time k) calls end.

(** Arguments within their C types; a frame body holds the octets it is said to hold. *)
Definition request_typed (rq : mac_association_request_t) : Prop :=
  0 <= lifetime rq ∧ 0 <= work_limit rq ∧ blen (local rq) = 8 ∧ blen (coordinator rq) = 8.
Definition event_typed (e : mac_association_event_t) : Prop :=
  is_u32 (ev_stamp e) ∧ 0 <= crc_valid e ∧ 0 <= ev_length e ∧
  is_bytes (default [] (body e)) ∧ ev_length e <= blen (default [] (body e)).
#[export] Instance request_typed_dec rq : Decision (request_typed rq).
Proof. unfold request_typed. apply _. Defined.
#[export] Instance event_typed_dec e : Decision (event_typed e).
Proof. unfold event_typed. apply _. Defined.
Definition call_typed (k : call) : bool :=
  (0 <=? call_profile k) && match input k with Some e => bool_decide (event_typed e) | None => true end.

(** A waiting context opened at [t0] for [rq], which last ran at [t]. *)
Record waiting (rq : mac_association_request_t) (g t0 t work : Z) (c : mac_association_t) : Prop := {
  wait_request : request c = rq; wait_generation : generation c = g;
  wait_opened : opened c = u32 t0; wait_last : last c = u32 t; wait_work : remaining c = work;
  wait_version : version c = MAC_ASSOCIATION_VERSION; wait_phase : phase c = MAC_ASSOCIATION_WAIT;
  wait_record_epoch : rc_epoch (record c) = rq_epoch rq;
  wait_record_generation : rc_generation (record c) = g;
  wait_time : t0 <= t < t0 + lifetime rq; wait_bounds : 0 < work <= MAC_ASSOCIATION_MAX_WORK;
  wait_lifetime : 0 < lifetime rq <= MAC_ASSOCIATION_MAX_LIFETIME }.

Lemma assoc_start_waiting c rq t0 c1 :
  0 <= work_limit rq → 0 <= lifetime rq →
  mac_association_start (Some c) (Some rq) (u32 t0) = (MAC_ASSOCIATION_OK, Some c1) →
  waiting rq (u32 (generation c + 1)) t0 t0 (work_limit rq) c1 ∧ request_refused rq = false.
Proof.
  intros Hw Hl. unfold mac_association_start.
  destruct (valid (Some c)) eqn:Hv; [|done]. cbn [negb].
  destruct (request_refused rq) eqn:Hr; [done|]. destruct (negb (phase c =? _)); [done|].
  destruct (MAC_ASSOCIATION_HALF <=? _); [done|]. destruct (generation c =? _); [done|].
  intros H; simplify_eq H; intros <-. split; [|done].
  unfold request_refused in Hr. rewrite !orb_false_iff in Hr. unfold valid in Hv.
  split; cbn [request generation opened last remaining version phase record]; try done; lia.
Qed.

(** A call that is not proper leaves the context alone, and so does one on a finished context. *)
Lemma assoc_improper c k : proper k = false → default c (step_call c k).2 = c.
Proof.
  unfold proper, step_call, mac_association_step_rx. intros H.
  destruct (negb (valid _) || _ || _) eqn:E1; [done|].
  destruct (negb (phase c =? _)); [done|].
  destruct (MAC_RX_R22_ASSOCIATION_RESPONSE <? _) eqn:E; [by rewrite orb_true_r in E1|].
  destruct (event_refused (input k)) eqn:E2; [|done]. by rewrite orb_true_r.
Qed.
Lemma assoc_run_proper c calls : run c calls = run c (filter proper calls).
Proof.
  revert c. induction calls as [|k calls IH]; intros c; [done|].
  rewrite filter_cons. cbn [run]. destruct (decide (proper k)) as [|E]; cbn [run]; [apply IH|].
  rewrite IH, assoc_improper; [done|]. by destruct (proper k).
Qed.
Lemma assoc_done_step c k :
  phase c = MAC_ASSOCIATION_DONE → default c (step_call c k).2 = c.
Proof.
  intros H. unfold step_call, mac_association_step_rx. destruct (_ || _ || _); [done|]. by rewrite H.
Qed.
Lemma assoc_done_run c calls : phase c = MAC_ASSOCIATION_DONE → run c calls = c.
Proof.
  intros H. induction calls as [|k calls IH]; [done|]. cbn [run]. by rewrite assoc_done_step.
Qed.

Lemma assoc_classify_record c now e profile d r :
  classify c now e profile = (d, r) → d = MAC_ASSOCIATION_RESPONSE ∨ r = record c.
Proof.
  unfold classify. intros H. repeat (case_match; simplify_eq; try (by right)). by left.
Qed.

(** One proper, timely call on a waiting context. *)
Lemma assoc_step rq g t0 t work c k :
  waiting rq g t0 t work c → proper k = true → t <= at_time k < t + MAC_ASSOCIATION_HALF →
  let '(decision, r, work') := step_decision c (u32 (at_time k)) (input k) (call_profile k) in
  let c' := default c (step_call c k).2 in
  if closing decision
  then phase c' = MAC_ASSOCIATION_DONE ∧ version c' = MAC_ASSOCIATION_VERSION ∧ record c' = closed_record r decision (u32 (at_time k))
  else waiting rq g t0 (at_time k) (work - 1) c' ∧ r = record c.
Proof.
  intros W Hp Ht. destruct W as [Er Eg Eo El Ew Ev Ep Ere Erg HT Hw Hlt].
  unfold proper in Hp. apply andb_true_iff in Hp as [Hp1 Hp2].
  unfold step_call, mac_association_step_rx, valid. rewrite Ev, Ep.
  unfold MAC_ASSOCIATION_VERSION, MAC_ASSOCIATION_WAIT, MAC_ASSOCIATION_DONE. cbn [Z.eqb Z.leb Pos.eqb].
  change (1 <=? 2) with true. cbn [andb negb orb].
  replace (MAC_RX_R22_ASSOCIATION_RESPONSE <? call_profile k) with false
    by (by destruct (MAC_RX_R22_ASSOCIATION_RESPONSE <? call_profile k)).
  rewrite El. replace (MAC_ASSOCIATION_HALF <=? u32 (u32 (at_time k) - u32 t)) with false
    by (unfold MAC_ASSOCIATION_HALF in *; width).
  destruct (event_refused (input k)); [done|]. cbn [orb].
  unfold step_decision. rewrite Eo, Er, Ew.
  assert (u32 (u32 (at_time k) - u32 t0) = at_time k - t0) as ->
    by (unfold MAC_ASSOCIATION_HALF, MAC_ASSOCIATION_MAX_LIFETIME in *; width).
  destruct (lifetime rq <=? at_time k - t0) eqn:Elt; [done|].
  replace (work =? 0) with false by lia.
  destruct (match input k with Some e => _ | None => _ end) as [d r] eqn:Ed.
  assert (d = MAC_ASSOCIATION_RESPONSE ∨ r = record c) as Hr.
  { destruct (input k) as [e|]; [by eapply assoc_classify_record|]. simplify_eq Ed. by right. }
  clear Ed. unfold MAC_ASSOCIATION_RESPONSE, MAC_ASSOCIATION_CANCELLED, MAC_ASSOCIATION_EXHAUSTED.
  destruct (negb (d =? 1) && negb (d =? 8) && (work - 1 =? 0)) eqn:Ex; [done|].
  cbn [snd default from_option id]. destruct (closing d) eqn:Hc; [done|].
  assert (r = record c) as -> by (destruct Hr as [->|]; done).
  unfold closing, MAC_ASSOCIATION_RESPONSE, MAC_ASSOCIATION_EXPIRED in Hc.
  split; [split|done]; cbn [request generation opened last remaining version phase record];
    try done; lia.
Qed.

(** ** Termination *)
Definition terminal (d : Z) : bool := existsb (Z.eqb d)
  [MAC_ASSOCIATION_RESPONSE; MAC_ASSOCIATION_EXPIRED; MAC_ASSOCIATION_EXHAUSTED;
   MAC_ASSOCIATION_CANCELLED].

Lemma assoc_classify_terminal c now e profile d r :
  classify c now e profile = (d, r) → closing d = true → terminal d = true.
Proof. unfold classify. intros H Hc. repeat (case_match; simplify_eq; try done). Qed.
Lemma assoc_closing_terminal c now ev profile d r work :
  step_decision c now ev profile = (d, r, work) → closing d = true → terminal d = true.
Proof.
  unfold step_decision. destruct (lifetime _ <=? _); [by intros [= <- _ _]|].
  destruct (remaining c =? 0); [by intros [= <- _ _]|].
  destruct (match ev with Some e => _ | None => _ end) as [d0 r0] eqn:E.
  intros [= Ed _ _] Hc. destruct (negb _ && _ && _); [by subst|]. subst d0.
  destruct ev; [by eapply assoc_classify_terminal|by injection E as <-].
Qed.

Lemma assoc_run_terminates rq g t0 calls : ∀ t work c,
  waiting rq g t0 t work c → Forall (λ k, proper k = true) calls → timely t calls = true →
  work <= Z.of_nat (length calls) ∨ t0 + lifetime rq <= last_time t calls →
  phase (run c calls) = MAC_ASSOCIATION_DONE ∧
  version (run c calls) = MAC_ASSOCIATION_VERSION ∧ terminal (outcome (record (run c calls))) = true.
Proof.
  induction calls as [|k calls IH]; intros t work c W Hp Ht H.
  - destruct W. cbn in H. lia.
  - apply Forall_cons_1 in Hp as [Hk Hp]. cbn [timely] in Ht.
    apply andb_true_iff in Ht as [Ht1 Ht]. cbn [run last_time length] in *.
    pose proof (assoc_step _ _ _ _ _ _ k W Hk ltac:(lia)) as Hs.
    destruct (step_decision _ _ _ _) as [[d r] w] eqn:Ed. cbv zeta in Hs.
    destruct (closing d) eqn:Hc.
    + destruct Hs as (Hd&Hv&Hr). rewrite assoc_done_run by done. rewrite Hd, Hr. repeat split; [done|].
      by eapply assoc_closing_terminal.
    + destruct Hs as [W' _]. eapply IH; [done..|]. destruct H; [left; lia|by right].
Qed.

Lemma assoc_filter_proper calls : Forall (λ k, proper k = true) (filter proper calls).
Proof. apply list.Forall_forall. intros k Hk. apply list_elem_of_filter in Hk as [? _]. by destruct (proper k). Qed.

(** C21: a response window always closes. After a successful start, let any sequence of
    calls be made, at true times of which the proper calls are in order and less than half
    the counter apart; once the proper calls number the work limit, or the last of them is at or past the
    lifetime, the context is done, its record carries one of the four terminal outcomes, and
    it can be taken. *)
Theorem mac_association_terminates c rq t0 c1 calls :
  request_typed rq →
  mac_association_start (Some c) (Some rq) (u32 t0) = (MAC_ASSOCIATION_OK, Some c1) →
  let accepted := filter proper calls in
  timely t0 accepted = true →
  work_limit rq <= Z.of_nat (length accepted) ∨ t0 + lifetime rq <= last_time t0 accepted →
  let c' := run c1 calls in
  phase c' = MAC_ASSOCIATION_DONE ∧ terminal (outcome (record c')) = true ∧
  ∃ idle, mac_association_take (Some c') true = (MAC_ASSOCIATION_OK, Some (record c'), Some idle) ∧
          phase idle = MAC_ASSOCIATION_IDLE.
Proof.
  intros (Hl&Hw&_) Hs accepted Ht H c'. subst c' accepted.
  apply assoc_start_waiting in Hs as [W _]; [|done..]. rewrite assoc_run_proper.
  destruct (assoc_run_terminates _ _ _ _ _ _ _ W (assoc_filter_proper calls) Ht H) as (Hp&Hv&Ho).
  split_and!; [done..|]. unfold mac_association_take, valid. rewrite Hv, Hp.
  eexists. split; reflexivity.
Qed.

(** ** Soundness of a response *)

(** Record [r] is the answer to request [rq], generation [g], window opened at [t0]: call [k],
    made when the context had last run at [t], brought it, on the wire and in the record. *)
Definition answered (rq : mac_association_request_t) (g t0 t : Z) (k : call)
    (r : mac_association_record_t) : Prop :=
  ∃ e b pending form, input k = Some e ∧ body e = Some b ∧
  ev_epoch e = rq_epoch rq ∧ ev_generation e = g ∧ kind e = MAC_ASSOCIATION_FRAME ∧
  crc_valid e = 1 ∧ ev_channel e = rq_channel rq ∧
  (∃ s, ev_stamp e = u32 s ∧ t <= s <= at_time k) ∧ at_time k < t0 + lifetime rq ∧
  slice b 0 (ev_length e) = response_octets pending form (pan_id rq) (rc_sequence r) (local rq)
                              (source_ieee r) (rc_short_address r) (rc_status r) ∧
  (form = None ∨ call_profile k = MAC_RX_R22_ASSOCIATION_RESPONSE ∧
                 (form = Some (pan_id rq) ∨ form = Some 0xffff)) ∧
  blen (source_ieee r) = 8 ∧ response_consistent (rc_short_address r) (rc_status r) ∧
  rc_epoch r = rq_epoch rq ∧ rc_generation r = g ∧ rc_stamp r = ev_stamp e ∧
  (coordinator_mode rq = MAC_ADDRESS_EXTENDED →
   source_ieee r = coordinator rq ∧ source_relation r = MAC_ASSOCIATION_SOURCE_MATCHED) ∧
  (coordinator_mode rq ≠ MAC_ADDRESS_EXTENDED → source_relation r = MAC_ASSOCIATION_SOURCE_UNBOUND) ∧
  (address_kind r = MAC_ASSOCIATION_REFUSED ↔ rc_status r ≠ 0) ∧
  (address_kind r = MAC_ASSOCIATION_EXTENDED_ONLY ↔ rc_status r = 0 ∧ rc_short_address r = 0xfffe).

Lemma assoc_memcmp_8 a b : blen a = 8 → blen b = 8 → memcmp a b 8 = false → a = b.
Proof.
  intros Ha Hb. unfold memcmp. rewrite !slice_all' by done.
  destruct (bool_decide (a = b)) eqn:E; [|done]. intros _. by apply bool_decide_eq_true in E.
Qed.

Lemma assoc_mismatch_false rq h cmd profile :
  blen (local rq) = 8 → blen (coordinator rq) = 8 → blen (destination h) = 8 → blen (source h) = 8 →
  context_mismatch rq h cmd profile = false →
  identifier cmd = MAC_COMMAND_ASSOCIATION_RESPONSE ∧ source_pan h = pan_id rq ∧
  (destination_pan h = pan_id rq ∨
   profile = MAC_RX_R22_ASSOCIATION_RESPONSE ∧ destination_pan h = 0xffff) ∧
  destination h = local rq ∧
  (coordinator_mode rq = MAC_ADDRESS_EXTENDED → source h = coordinator rq).
Proof.
  intros H1 H2 H3 H4. unfold context_mismatch. rewrite !orb_false_iff, !andb_false_iff.
  intros ((((A&B)&C)&D)&E). apply assoc_memcmp_8 in D; [|done..]. split_and!; try done; try lia.
  intros Hm. rewrite Hm in E. destruct E as [E|E]; [done|]. by apply assoc_memcmp_8 in E.
Qed.

Lemma assoc_window s now last t' :
  is_u32 s → last <= t' < last + MAC_ASSOCIATION_HALF → now = u32 t' →
  (MAC_ASSOCIATION_HALF <=? u32 (s - u32 last)) || (MAC_ASSOCIATION_HALF <=? u32 (now - s)) = false →
  ∃ s', s = u32 s' ∧ last <= s' <= t'.
Proof.
  unfold MAC_ASSOCIATION_HALF. intros Hs Ht -> H. apply orb_false_iff in H as [H1 H2].
  exists (last + u32 (s - u32 last)). split; width.
Qed.

Lemma assoc_classify_response rq g t0 t work c k e r :
  request_typed rq → waiting rq g t0 t work c → input k = Some e → proper k = true →
  call_typed k = true → t <= at_time k < t + MAC_ASSOCIATION_HALF →
  at_time k < t0 + lifetime rq →
  classify c (u32 (at_time k)) e (call_profile k) = (MAC_ASSOCIATION_RESPONSE, r) →
  answered rq g t0 t k (closed_record r MAC_ASSOCIATION_RESPONSE (u32 (at_time k))).
Proof.
  intros (_&_&Hloc&Hco) W Hin Hp Hty Ht Hlt. destruct W as [Er Eg Eo El _ _ _ Ere Erg _ _ _].
  unfold call_typed in Hty. rewrite Hin in Hty. apply andb_true_iff in Hty as [Hpr Hty].
  apply bool_decide_eq_true in Hty as (Hst&Hcrc0&Hel&Hby&Hbl).
  unfold proper in Hp. rewrite Hin in Hp. apply andb_true_iff in Hp as [Hp1 Hp2].
  apply negb_true_iff in Hp1, Hp2. unfold MAC_RX_R22_ASSOCIATION_RESPONSE in Hp2.
  unfold classify. rewrite Er, Eg, El.
  destruct (_ || negb (ev_generation e =? g)) eqn:E1; [done|].
  destruct (kind e =? MAC_ASSOCIATION_CANCEL) eqn:E2; [done|].
  destruct (_ || (MAC_ASSOCIATION_HALF <=? _)) eqn:E3; [done|].
  destruct (negb (ev_channel e =? rq_channel rq)) eqn:E4; [done|].
  destruct (crc_valid e =? 0) eqn:E5; [done|].
  destruct (mac_frame_decode_profile _ _ _ _) as [[] [f|]] eqn:Ef; try done.
  destruct (negb (type (header f) =? MAC_FRAME_COMMAND)) eqn:E6; [done|].
  destruct (mac_command_decode _ _ _) as [[] [cmd|]] eqn:Ec; try done.
  destruct (context_mismatch _ _ _ _) eqn:E7; [done|]. intros [= <-].
  apply orb_false_iff in E1 as [E1 E1'].
  assert (∃ b, body e = Some b) as [b Eb].
  { destruct (body e); [by eexists|]. by unfold mac_frame_decode_profile in Ef. }
  rewrite Eb in *. cbn [default from_option id] in *.
  assert (kind e = 1 ∧ crc_valid e = 1) as [Ek Ecrc].
  { revert Hp1 E2 E5. unfold event_refused, MAC_ASSOCIATION_FRAME, MAC_ASSOCIATION_CANCEL.
    rewrite !orb_false_iff, !andb_false_iff, !orb_false_iff. lia. }
  assert (identifier cmd = MAC_COMMAND_ASSOCIATION_RESPONSE) as Hid.
  { unfold context_mismatch in E7. rewrite !orb_false_iff in E7. lia. }
  destruct (assoc_decoded b (ev_length e) _ f (call_profile k) _ cmd Hby Hbl ltac:(lia) Ef
    ltac:(lia) Ec Hid) as (Hw&Hd8&Hs8&Hcp&Hup&Hcons).
  apply assoc_mismatch_false in E7 as (_&Hsp&Hdp&Hde&Hso); [|done..].
  rewrite Hsp, Hde in Hw.
  unfold answered, closed_record, response_record. cbn [rc_epoch rc_generation rc_stamp
    rc_short_address source_ieee outcome rc_status address_kind source_relation rc_sequence].
  rewrite Er, Z.eqb_refl, slice_all' by done. cbn [negb].
  exists e, b. do 2 eexists. split_and!; try done; try lia.
  - by apply (assoc_window _ _ _ _ Hst Ht eq_refl).
  - destruct (has (flags (header f)) MAC_FLAG_PAN_COMPRESSION) eqn:Hc; [by left|right]. split; [by apply Hup|].
    rewrite Hsp in *. destruct Hdp as [->|[_ ->]]; [by left|by right].
  - intros Hm. split; [by apply Hso|by rewrite Hm].
  - intros Hm. by replace (coordinator_mode rq =? MAC_ADDRESS_EXTENDED) with false by lia.
  - unfold MAC_ASSOCIATION_SUCCESS. destruct (status cmd =? 0) eqn:?; cbn [negb];
      [destruct (short_address cmd =? 0xfffe)|]; split; intros; done || lia.
  - unfold MAC_ASSOCIATION_SUCCESS. destruct (status cmd =? 0) eqn:?; cbn [negb];
      [destruct (short_address cmd =? 0xfffe) eqn:?|]; split; intros; done || lia.
Qed.

Lemma assoc_run_response rq g t0 calls : request_typed rq → ∀ t work c,
  waiting rq g t0 t work c → Forall (λ k, proper k = true) calls →
  Forall (λ k, call_typed k = true) calls → timely t calls = true →
  phase (run c calls) = MAC_ASSOCIATION_DONE →
  outcome (record (run c calls)) = MAC_ASSOCIATION_RESPONSE →
  ∃ before k after, calls = before ++ k :: after ∧ Z.of_nat (length before) < work ∧
    answered rq g t0 (last_time t before) k (record (run c calls)).
Proof.
  intros Hrq. induction calls as [|k calls IH]; intros t work c W Hp Hty Ht Hd Ho.
  { destruct W. cbn [run] in Hd. by rewrite wait_phase0 in Hd. }
  apply Forall_cons_1 in Hp as [Hk Hp]. apply Forall_cons_1 in Hty as [Hkt Hty].
  cbn [timely] in Ht. apply andb_true_iff in Ht as [Ht1 Ht].
  assert (t <= at_time k < t + MAC_ASSOCIATION_HALF) as Hat by lia.
  pose proof (assoc_step _ _ _ _ _ _ k W Hk Hat) as Hs. cbn [run] in *.
  destruct (step_decision _ _ _ _) as [[d r] w] eqn:Ed. cbv zeta in Hs.
  destruct (closing d) eqn:Hc.
  - destruct Hs as (Hd'&_&Hr). rewrite assoc_done_run in Ho |- * by done. rewrite Hr in Ho |- *.
    cbn [outcome closed_record] in Ho. exists [], k, calls. split; [done|].
    split; [destruct W; cbn; lia|]. subst d. cbn [last_time].
    pose proof W as W'. destruct W' as [Er _ Eo _ Ew _ _ _ _ HT Hw Hlt].
    unfold step_decision in Ed. rewrite Eo, Er in Ed.
    assert (u32 (u32 (at_time k) - u32 t0) = at_time k - t0) as Eu
      by (unfold MAC_ASSOCIATION_HALF, MAC_ASSOCIATION_MAX_LIFETIME in *; width).
    rewrite Eu in Ed. destruct (lifetime rq <=? at_time k - t0) eqn:Elt; [done|].
    destruct (remaining c =? 0); [done|]. destruct (input k) as [e|] eqn:Hin.
    + destruct (classify _ _ _ _) as [d' r'] eqn:Ecl. injection Ed as Ed <- _.
      destruct (negb _ && _ && _); [done|]. subst d'.
      eapply assoc_classify_response; [done..|lia|done].
    + exfalso. injection Ed as Ed _ _. by destruct (remaining c - 1 =? 0).
  - destruct Hs as [W' _].
    destruct (IH _ _ _ W' Hp Hty Ht Hd Ho) as (bf&k'&af&->&Hl&Ha).
    exists (k :: bf), k', af. split; [done|]. split; [cbn [length]; lia|done].
Qed.

(** C20: a response record is never made up. After a successful start, let any sequence of
    calls be made whose proper ones are in true-time order, less than half the counter
    apart. If the context then holds a RESPONSE outcome, one call among the proper ones,
    within the work limit, brought a frame event of this epoch and generation, with a valid
    CRC, on the requested channel, stamped between the previous call and its own, before
    the end of the lifetime; the octets of that frame are exactly an association response
    from the requested PAN (in one of the two forms its receive profile allows) to the local
    address, from the requested coordinator when that is known by its extended address; and
    the record holds the address, status, source, sequence number and stamp of that frame. *)
Theorem mac_association_response_sound c rq t0 c1 calls :
  request_typed rq → Forall (λ k, call_typed k = true) calls →
  mac_association_start (Some c) (Some rq) (u32 t0) = (MAC_ASSOCIATION_OK, Some c1) →
  let accepted := filter proper calls in
  timely t0 accepted = true →
  let c' := run c1 calls in
  phase c' = MAC_ASSOCIATION_DONE → outcome (record c') = MAC_ASSOCIATION_RESPONSE →
  ∃ before k after, accepted = before ++ k :: after ∧
    Z.of_nat (length before) < work_limit rq ∧
    answered rq (u32 (generation c + 1)) t0 (last_time t0 before) k (record c').
Proof.
  intros Hrq Hty Hs accepted Ht c' Hd Ho. subst c' accepted. pose proof Hrq as (Hl&Hw&_).
  apply assoc_start_waiting in Hs as [W _]; [|done..]. rewrite assoc_run_proper in *.
  eapply assoc_run_response; try done; [apply assoc_filter_proper|].
  apply list.Forall_forall. intros k [_ Hk]%list_elem_of_filter. by eapply list.Forall_forall in Hty.
Qed.

(** ** Concrete instances *)
Definition sample_rq : mac_association_request_t := {|
  rq_epoch := 7; lifetime := 100; work_limit := 5; pan_id := 0x1a62; rq_channel := 11;
  coordinator_mode := MAC_ADDRESS_EXTENDED; coordinator := sample_coordinator;
  local := sample_device |}.
Definition sample_event (crc : Z) : mac_association_event_t := {|
  ev_epoch := 7; ev_generation := 1; ev_stamp := u32 0x10000000a; body := Some sample_body;
  ev_length := 25; kind := MAC_ASSOCIATION_FRAME; ev_channel := 11; crc_valid := crc |}.
(** A poll before the wrap of the counter, a damaged frame and a good one after it. *)
Definition sample_calls : list call :=
  [{| at_time := 0xfffffffe; input := None; call_profile := 0 |};
   {| at_time := 0x10000000a; input := Some (sample_event 0); call_profile := 0 |};
   {| at_time := 0x10000000b; input := Some (sample_event 2); call_profile := 0 |};
   {| at_time := 0x10000000b; input := Some (sample_event 1); call_profile := 1 |}].
Definition sample_idle : mac_association_t := {|
  request := zero_request; record := zero_record; generation := 0; opened := 0;
  last := 0xfffffff0; remaining := 0; version := 1; phase := MAC_ASSOCIATION_IDLE |}.
Definition sample_waiting : mac_association_t := {|
  request := sample_rq;
  record := Build_mac_association_record_t 7 1 0 0 (zeros 8) 0 0 0 0 0;
  generation := 1; opened := 0xfffffff8; last := 0xfffffff8; remaining := 5; version := 1;
  phase := MAC_ASSOCIATION_WAIT |}.

Definition sample_poll : call :=
  {| at_time := 0xfffffff8 + 100; input := None; call_profile := 0 |}.

Lemma mac_association_terminates_witness :
  let c' := run sample_waiting (sample_calls ++ [sample_poll]) in
  phase c' = MAC_ASSOCIATION_DONE ∧ terminal (outcome (record c')) = true ∧
  ∃ idle, mac_association_take (Some c') true = (MAC_ASSOCIATION_OK, Some (record c'), Some idle) ∧
          phase idle = MAC_ASSOCIATION_IDLE.
Proof.
  exact (mac_association_terminates sample_idle sample_rq 0xfffffff8 sample_waiting
    (sample_calls ++ [sample_poll]) ltac:(concrete) ltac:(concrete) ltac:(concrete)
    ltac:(right; vm_compute; discriminate)).
Defined.

Lemma mac_association_response_sound_witness :
  let c' := run sample_waiting sample_calls in
  ∃ before k after, filter proper sample_calls = before ++ k :: after ∧
    Z.of_nat (length before) < work_limit sample_rq ∧
    answered sample_rq (u32 (generation sample_idle + 1)) 0xfffffff8
      (last_time 0xfffffff8 before) k (record c').
Proof.
  exact (mac_association_response_sound sample_idle sample_rq 0xfffffff8 sample_waiting
    sample_calls ltac:(concrete) ltac:(repeat constructor) ltac:(concrete) ltac:(concrete)
    ltac:(concrete) ltac:(concrete)).
Defined.
End Association.
