(* ===== verification/Candidates.v ===== *)
(** * Beacon candidates, src/src/nwk_beacon.c and src/src/nwk_candidates.c

    The network beacon payload and the table of candidate parents that beacons fill.  The two
    build options of the table, CC2530_ROUTER_JOIN and CC2530_PARENT_RECOVERY, are the variables
    [router_join] and [parent_recovery]; a field that an option does not compile stays zero.
    The base build, without the MAC link workspace. *)
From S2P Require Import Prelude MacFrame.
Import Mac.

Module NwkBeacon.
Definition NWK_BEACON_LENGTH := 15.
Definition NWK_BEACON_PROTOCOL_ID := 0.
Definition NWK_BEACON_PROTOCOL_VERSION := 2.

Inductive nwk_beacon_result_t :=
  | NWK_BEACON_OK
  | NWK_BEACON_INVALID_ARGUMENT
  | NWK_BEACON_TRUNCATED
  | NWK_BEACON_TOO_LONG
  | NWK_BEACON_UNSUPPORTED_PROTOCOL
  | NWK_BEACON_UNSUPPORTED_VERSION
  | NWK_BEACON_INVALID_FIELDS.

Record nwk_beacon_t := {
  stack_profile : Z; router_capacity : Z; device_depth : Z; end_device_capacity : Z;
  extended_pan_id : bytes; tx_offset : Z; update_id : Z
}.
Definition zero_beacon : nwk_beacon_t := Build_nwk_beacon_t 0 0 0 0 (zeros 8) 0 0.

(** The loop over an extended PAN identifier: the union and the intersection of its octets. *)
Definition any_all (b : bytes) : Z * Z := (foldl Z.lor 0 b, foldl Z.land 0xff b).

Definition nwk_beacon_decode (payload : option bytes) (length : Z) (result : option nwk_beacon_t)
    : nwk_beacon_result_t * option nwk_beacon_t :=
  match payload, result with
  | Some p, Some _ =>
      if! length <? NWK_BEACON_LENGTH return (NWK_BEACON_TRUNCATED, result) ;;
      if! NWK_BEACON_LENGTH <? length return (NWK_BEACON_TOO_LONG, result) ;;
      if! negb (rd p 0 =? NWK_BEACON_PROTOCOL_ID)
        return (NWK_BEACON_UNSUPPORTED_PROTOCOL, result) ;;
      if! negb (Z.shiftr (rd p 1) 4 =? NWK_BEACON_PROTOCOL_VERSION)
        return (NWK_BEACON_UNSUPPORTED_VERSION, result) ;;
      if! has (rd p 2) 3 return (NWK_BEACON_INVALID_FIELDS, result) ;;
      let pan := rd p <$> seqZ 3 8 in
      let '(any, all) := any_all pan in
      if! (any =? 0) || (all =? 0xff) return (NWK_BEACON_INVALID_FIELDS, result) ;;
      (NWK_BEACON_OK, Some {|
         stack_profile := Z.land (rd p 1) 0x0f;
         router_capacity := if has (rd p 2) 4 then 1 else 0;
         device_depth := Z.land (Z.shiftr (rd p 2) 3) 0x0f;
         end_device_capacity := Z.shiftr (rd p 2) 7;
         extended_pan_id := pan;
         tx_offset := Z.lor (Z.lor (rd p 11) (Z.shiftl (rd p 12) 8)) (Z.shiftl (rd p 13) 16);
         update_id := rd p 14 |})
  | _, _ => (NWK_BEACON_INVALID_ARGUMENT, result)
  end.
End NwkBeacon.

Module Candidates.
Import NwkBeacon.
Definition NWK_CANDIDATES_CAPACITY := 4.
Definition NWK_CANDIDATES_CHANNEL_MASK := 0x07fff800.
Definition NWK_CANDIDATES_PRO_PROFILE := 2.
Definition NWK_CANDIDATES_VERSION := 1.
Definition MAC_SUPERFRAME_PAN_COORDINATOR := 0x4000.
Definition MAC_SUPERFRAME_ASSOCIATION_PERMIT := 0x8000.

Inductive nwk_candidates_result_t :=
  | NWK_CANDIDATES_OK
  | NWK_CANDIDATES_ADDED
  | NWK_CANDIDATES_UPDATED
  | NWK_CANDIDATES_WITHDRAWN
  | NWK_CANDIDATES_NOT_ELIGIBLE
  | NWK_CANDIDATES_FULL
  | NWK_CANDIDATES_BAD_CRC
  | NWK_CANDIDATES_INVALID_ARGUMENT
  | NWK_CANDIDATES_INVALID_TABLE
  | NWK_CANDIDATES_OUTSIDE_MASK
  | NWK_CANDIDATES_MAC_REJECTED
  | NWK_CANDIDATES_NOT_BEACON
  | NWK_CANDIDATES_NWK_REJECTED
  | NWK_CANDIDATES_BAD_INDEX.
#[export] Instance nwk_candidates_result_eq : EqDecision nwk_candidates_result_t.
Proof. solve_decision. Defined.

Record nwk_candidate_t := {
  channel : Z; pan_id : Z; address_mode : Z; coordinator : bytes; superframe : Z;
  sequence : Z; mac_flags : Z; gts_permit : Z; short_pending : Z; extended_pending : Z;
  network : nwk_beacon_t; rssi : Z
}.
Definition zero_candidate : nwk_candidate_t :=
  Build_nwk_candidate_t 0 0 0 (zeros 8) 0 0 0 0 0 0 zero_beacon 0.

Record nwk_candidates_t := {
  version : Z; channel_mask : Z; count : Z; rejoin : Z; entries : list nwk_candidate_t;
  filtered : Z; parent : Z; epid_seen : Z; mixed : Z; first_epid : bytes
}.

(** The uninitialised locals, read only after a successful decode. *)
Definition zero_frame : mac_frame_info_t :=
  Build_mac_frame_info_t (Build_mac_header_t 0 0 0 0 0 0 0 0 (zeros 8) (zeros 8)) 0 0.
Definition zero_info : mac_beacon_info_t := Build_mac_beacon_info_t 0 0 0 0 0 0 0 0.

(** The array [entries], by index. *)
Definition entry (es : list nwk_candidate_t) (i : Z) : nwk_candidate_t :=
  default zero_candidate (es !! Z.to_nat i).
Definition set_entry (es : list nwk_candidate_t) (i : Z) (c : nwk_candidate_t) :=
  <[Z.to_nat i := c]> es.
Definition with_entries (t : nwk_candidates_t) (n : Z) (es : list nwk_candidate_t)
    : nwk_candidates_t := {|
  version := version t; channel_mask := channel_mask t; count := n; rejoin := rejoin t;
  entries := es; filtered := filtered t; parent := parent t; epid_seen := epid_seen t;
  mixed := mixed t; first_epid := first_epid t |}.

Definition memcmp (a b : bytes) (n : Z) : bool := negb (bool_decide (slice a 0 n = slice b 0 n)).

Section build.
Context (router_join parent_recovery : bool).

Definition valid_mask (mask : Z) : bool :=
  negb (mask =? 0) && (Z.land mask (u32 (Z.lnot NWK_CANDIDATES_CHANNEL_MASK)) =? 0).

Definition valid_table (t : nwk_candidates_t) : bool :=
  (version t =? NWK_CANDIDATES_VERSION) && (if parent_recovery then rejoin t <=? 1 else true)
  && (filtered t <=? 1)
  && (if router_join then (epid_seen t <=? 1) && (mixed t <=? 1) else true)
  && (count t <=? NWK_CANDIDATES_CAPACITY) && valid_mask (channel_mask t).

Definition nwk_candidates_init (table : option nwk_candidates_t) (mask : Z)
    : nwk_candidates_result_t * option nwk_candidates_t :=
  match table with
  | None => (NWK_CANDIDATES_INVALID_ARGUMENT, None)
  | Some _ =>
      if! negb (valid_mask mask) return (NWK_CANDIDATES_INVALID_ARGUMENT, table) ;;
      (NWK_CANDIDATES_OK,
       Some {| version := NWK_CANDIDATES_VERSION; channel_mask := mask; count := 0; rejoin := 0;
               entries := replicate 4 zero_candidate; filtered := 0; parent := 0; epid_seen := 0;
               mixed := 0; first_epid := zeros 8 |})
  end.

Definition nwk_candidates_parent (table : option nwk_candidates_t) (parent : Z)
    : nwk_candidates_result_t * option nwk_candidates_t :=
  match table with
  | None => (NWK_CANDIDATES_INVALID_TABLE, None)
  | Some t =>
      if! negb (valid_table t) || negb (count t =? 0) return (NWK_CANDIDATES_INVALID_TABLE, table) ;;
      (NWK_CANDIDATES_OK,
       Some {| version := version t; channel_mask := channel_mask t; count := count t;
               rejoin := rejoin t; entries := entries t; filtered := 1; parent := parent;
               epid_seen := epid_seen t; mixed := mixed t; first_epid := first_epid t |})
  end.

(** Compiled only with CC2530_PARENT_RECOVERY. *)
Definition nwk_candidates_rejoin (table : option nwk_candidates_t)
    : nwk_candidates_result_t * option nwk_candidates_t :=
  match table with
  | None => (NWK_CANDIDATES_INVALID_TABLE, None)
  | Some t =>
      if! negb (valid_table t) || negb (count t =? 0) return (NWK_CANDIDATES_INVALID_TABLE, table) ;;
      (NWK_CANDIDATES_OK,
       Some {| version := version t; channel_mask := channel_mask t; count := count t;
               rejoin := 1; entries := entries t; filtered := filtered t; parent := parent t;
               epid_seen := epid_seen t; mixed := mixed t; first_epid := first_epid t |})
  end.

Definition same_identity (a b : nwk_candidate_t) : bool :=
  (channel a =? channel b) && (pan_id a =? pan_id b) && (address_mode a =? address_mode b)
  && negb (memcmp (coordinator a) (coordinator b) 8)
  && negb (memcmp (extended_pan_id (network a)) (extended_pan_id (network b)) 8).

(** Compiled only with CC2530_ROUTER_JOIN. *)
Definition nwk_candidates_score (c : nwk_candidate_t) : Z :=
  if has (superframe c) MAC_SUPERFRAME_PAN_COORDINATOR
     || ((address_mode c =? MAC_ADDRESS_SHORT) && (rd (coordinator c) 0 =? 0)
         && (rd (coordinator c) 1 =? 0))
  then rssi c + 10 else rssi c.

(** The decoding part of [nwk_candidates_consider]: the candidate a frame describes, or the
    result with which the call returns. *)
Definition describe (rssi chan : Z) (body : bytes) (length : Z)
    : nwk_candidates_result_t + nwk_candidate_t :=
  match mac_frame_decode (Some body) length (Some zero_frame) with
  | (MAC_CODEC_OK, Some frame) =>
      let h := header frame in
      if! negb (type h =? MAC_FRAME_BEACON) return inl NWK_CANDIDATES_NOT_BEACON ;;
      let payload := drop (Z.to_nat (payload_offset frame)) body in
      match mac_beacon_decode (Some payload) (payload_length frame) (Some zero_info) with
      | (MAC_CODEC_OK, Some beacon) =>
          match nwk_beacon_decode (Some (drop (Z.to_nat (beacon_payload_offset beacon)) payload))
                  (beacon_payload_length beacon) (Some zero_beacon) with
          | (NWK_BEACON_OK, Some network) =>
              inr {| channel := chan; pan_id := source_pan h; address_mode := source_mode h;
                     coordinator := slice (source h) 0 8;
                     superframe := superframe_specification beacon;
                     sequence := Mac.sequence h; mac_flags := flags h;
                     gts_permit := Mac.gts_permit beacon; short_pending := short_count beacon;
                     extended_pending := extended_count beacon; network := network;
                     rssi := if router_join then rssi else 0 |}
          | _ => inl NWK_CANDIDATES_NWK_REJECTED
          end
      | _ => inl NWK_CANDIDATES_MAC_REJECTED
      end
  | _ => inl NWK_CANDIDATES_MAC_REJECTED
  end.

Definition eligible (t : nwk_candidates_t) (c : nwk_candidate_t) : bool :=
  (stack_profile (network c) =? NWK_CANDIDATES_PRO_PROFILE)
  && (Z.land (superframe c) 0x000f =? 15)
  && ((parent_recovery && negb (rejoin t =? 0))
      || has (superframe c) MAC_SUPERFRAME_ASSOCIATION_PERMIT)
  && negb (end_device_capacity (network c) =? 0)
  && ((filtered t =? 0) || negb (address_mode c =? MAC_ADDRESS_SHORT)
      || ((rd (coordinator c) 0 =? u8 (parent t))
          && (rd (coordinator c) 1 =? u8 (Z.shiftr (parent t) 8)))).

(** The search loop: the first index from [i] with the candidate's identity. *)
Fixpoint find_identity (fuel : nat) (t : nwk_candidates_t) (c : nwk_candidate_t) (i : Z) : option Z :=
  match fuel with
  | O => None
  | S fuel =>
      if! negb (i <? count t) return None ;;
      if! same_identity (entry (entries t) i) c return Some i ;;
      find_identity fuel t c (i + 1)
  end.

(** [for (; i + 1u < table->count; i++) table->entries[i] = table->entries[i + 1u];] *)
Fixpoint shift_down (fuel : nat) (es : list nwk_candidate_t) (i n : Z) : list nwk_candidate_t :=
  match fuel with
  | O => es
  | S fuel => if! negb (i + 1 <? n) return es ;;
              shift_down fuel (set_entry es i (entry es (i + 1))) (i + 1) n
  end.

(** The index of the weakest of the entries 0, 1, ..., count-1. *)
Definition weakest (t : nwk_candidates_t) : Z :=
  foldl (λ w i, if nwk_candidates_score (entry (entries t) i)
                   <? nwk_candidates_score (entry (entries t) w) then i else w)
    0 (seqZ 1 (count t - 1)).

(** The disagreement of extended PAN identifiers that router joining records. *)
Definition note_epid (t : nwk_candidates_t) (c : nwk_candidate_t) : nwk_candidates_t := {|
  version := version t; channel_mask := channel_mask t; count := count t; rejoin := rejoin t;
  entries := entries t; filtered := filtered t; parent := parent t;
  epid_seen := if epid_seen t =? 0 then 1 else epid_seen t;
  mixed := if epid_seen t =? 0 then mixed t
           else if memcmp (first_epid t) (extended_pan_id (network c)) 8 then 1 else mixed t;
  first_epid := if epid_seen t =? 0 then slice (extended_pan_id (network c)) 0 8 else first_epid t |}.

(** The table update for a described candidate. *)
Definition admit_candidate (t : nwk_candidates_t) (c : nwk_candidate_t)
    : nwk_candidates_result_t * nwk_candidates_t :=
  match find_identity 4 t c 0 with
  | Some i =>
      if! eligible t c
        return (NWK_CANDIDATES_UPDATED, with_entries t (count t) (set_entry (entries t) i c)) ;;
      let es := shift_down 4 (entries t) i (count t) in
      (NWK_CANDIDATES_WITHDRAWN,
       with_entries t (count t - 1) (set_entry es (count t - 1) zero_candidate))
  | None =>
      if! negb (eligible t c) return (NWK_CANDIDATES_NOT_ELIGIBLE, t) ;;
      let t := if router_join then note_epid t c else t in
      if router_join && (count t =? NWK_CANDIDATES_CAPACITY) && (filtered t =? 0) then
        if! nwk_candidates_score c <=? nwk_candidates_score (entry (entries t) (weakest t))
          return (NWK_CANDIDATES_NOT_ELIGIBLE, t) ;;
        (NWK_CANDIDATES_ADDED, with_entries t (count t) (set_entry (entries t) (weakest t) c))
      else
        if! count t =? NWK_CANDIDATES_CAPACITY return (NWK_CANDIDATES_FULL, t) ;;
        (NWK_CANDIDATES_ADDED,
         with_entries t (count t + 1) (set_entry (entries t) (count t) c))
  end.

(** [rssi]: the global [nwk_candidates_rssi] at the call. *)
Definition nwk_candidates_consider (rssi : Z) (table : option nwk_candidates_t)
    (channel crc_valid : Z) (body : option bytes) (length : Z)
    : nwk_candidates_result_t * option nwk_candidates_t :=
  match table, body with
  | Some t, Some b =>
      if! (channel <? 11) || (26 <? channel) || (1 <? crc_valid)
        return (NWK_CANDIDATES_INVALID_ARGUMENT, table) ;;
      if! negb (valid_table t) return (NWK_CANDIDATES_INVALID_TABLE, table) ;;
      if! crc_valid =? 0 return (NWK_CANDIDATES_BAD_CRC, table) ;;
      if! negb (has (channel_mask t) (Z.shiftl 1 channel))
        return (NWK_CANDIDATES_OUTSIDE_MASK, table) ;;
      match describe rssi channel b length with
      | inl r => (r, table)
      | inr c => let '(r, t) := admit_candidate t c in (r, Some t)
      end
  | _, _ => (NWK_CANDIDATES_INVALID_ARGUMENT, table)
  end.

Definition nwk_candidates_get (table : option nwk_candidates_t) (index : Z) (result : bool)
    : nwk_candidates_result_t * option nwk_candidate_t :=
  match table with
  | None => (NWK_CANDIDATES_INVALID_ARGUMENT, None)
  | Some t =>
      if! negb result return (NWK_CANDIDATES_INVALID_ARGUMENT, None) ;;
      if! negb (valid_table t) return (NWK_CANDIDATES_INVALID_TABLE, None) ;;
      if! count t <=? index return (NWK_CANDIDATES_BAD_INDEX, None) ;;
      (NWK_CANDIDATES_OK, Some (entry (entries t) index))
  end.

(** ** The table as a list of live candidates *)
Definition ident (c : nwk_candidate_t) : Z * Z * Z * bytes * bytes :=
  (channel c, pan_id c, address_mode c, slice (coordinator c) 0 8,
   slice (extended_pan_id (network c)) 0 8).
Definition live (t : nwk_candidates_t) : list nwk_candidate_t :=
  take (Z.to_nat (count t)) (entries t).
(** Eligible under the table's restrictions, on a channel of its mask. *)
Definition admissible (t : nwk_candidates_t) (c : nwk_candidate_t) : Prop :=
  eligible t c = true ∧ 11 <= channel c <= 26 ∧ has (channel_mask t) (Z.shiftl 1 (channel c)) = true.

Record table_ok (t : nwk_candidates_t) : Prop := {
  ok_valid : valid_table t = true;
  ok_count : 0 <= count t <= NWK_CANDIDATES_CAPACITY;
  ok_length : length (entries t) = 4%nat;
  ok_unused : drop (Z.to_nat (count t)) (entries t)
              = replicate (4 - Z.to_nat (count t)) zero_candidate;
  ok_distinct : NoDup (ident <$> live t);
  ok_live : Forall (admissible t) (live t) }.

(** What one described candidate does to the live list. [capped]: a full table refuses, where
    otherwise it keeps the stronger beacons. *)
Inductive admits (elig capped : bool) (c : nwk_candidate_t)
    : list nwk_candidate_t → nwk_candidates_result_t → list nwk_candidate_t → Prop :=
  | admits_update l1 x l2 : elig = true → ident x = ident c →
      admits elig capped c (l1 ++ x :: l2) NWK_CANDIDATES_UPDATED (l1 ++ c :: l2)
  | admits_withdraw l1 x l2 : elig = false → ident x = ident c →
      admits elig capped c (l1 ++ x :: l2) NWK_CANDIDATES_WITHDRAWN (l1 ++ l2)
  | admits_ignore l : elig = false → ident c ∉ ident <$> l →
      admits elig capped c l NWK_CANDIDATES_NOT_ELIGIBLE l
  | admits_add l : elig = true → ident c ∉ ident <$> l → (length l < 4)%nat →
      admits elig capped c l NWK_CANDIDATES_ADDED (l ++ [c])
  | admits_full l : elig = true → ident c ∉ ident <$> l → length l = 4%nat → capped = true →
      admits elig capped c l NWK_CANDIDATES_FULL l
  | admits_weaker l : elig = true → ident c ∉ ident <$> l → length l = 4%nat → capped = false →
      Forall (λ y, nwk_candidates_score c <= nwk_candidates_score y) l →
      admits elig capped c l NWK_CANDIDATES_NOT_ELIGIBLE l
  | admits_evict l1 x l2 : elig = true → ident c ∉ ident <$> l1 ++ x :: l2 →
      length (l1 ++ x :: l2) = 4%nat → capped = false →
      nwk_candidates_score x < nwk_candidates_score c →
      Forall (λ y, nwk_candidates_score x <= nwk_candidates_score y) (l1 ++ x :: l2) →
      admits elig capped c (l1 ++ x :: l2) NWK_CANDIDATES_ADDED (l1 ++ c :: l2).

(** ** Lemmas *)
Lemma cand_same_identity a b : same_identity a b = true ↔ ident a = ident b.
Proof.
  unfold same_identity, ident, memcmp. rewrite !andb_true_iff, !negb_involutive, !bool_decide_eq_true.
  rewrite !Z.eqb_eq. split; [intros [[[[-> ->] ->] ->] ->]; done|by intros [= -> -> -> -> ->]].
Qed.

Lemma cand_live_split t i :
  table_ok t → 0 <= i < count t →
  live t = take (Z.to_nat i) (live t) ++ entry (entries t) i :: drop (S (Z.to_nat i)) (live t).
Proof.
  intros [_ Hc Hl _ _ _] Hi. symmetry. apply take_drop_middle. unfold live, entry.
  rewrite lookup_take_lt by lia.
  destruct (lookup_lt_is_Some_2 (entries t) (Z.to_nat i)) as [x Hx];
    [unfold NWK_CANDIDATES_CAPACITY in *; lia|]. by rewrite Hx.
Qed.
Lemma cand_live_length t : table_ok t → length (live t) = Z.to_nat (count t).
Proof.
  intros [_ Hc Hl _ _ _]. unfold live, NWK_CANDIDATES_CAPACITY in *. rewrite length_take. lia.
Qed.

Lemma cand_find_identity t c fuel : ∀ i, table_ok t → 0 <= i → count t <= i + Z.of_nat fuel →
  match find_identity fuel t c i with
  | Some k => i <= k < count t ∧ ident (entry (entries t) k) = ident c
  | None => ∀ k, i <= k < count t → ident (entry (entries t) k) ≠ ident c
  end.
Proof.
  induction fuel as [|fuel IH]; intros i Ht Hi Hf; cbn [find_identity]; [intros; lia|].
  destruct (i <? count t) eqn:E; cbn [negb]; [|intros; lia].
  destruct (same_identity _ _) eqn:Es; [split; [lia|by apply cand_same_identity]|].
  specialize (IH (i + 1) Ht ltac:(lia) ltac:(lia)).
  destruct (find_identity fuel t c (i + 1)); [split; [lia|apply IH]|].
  intros k Hk. destruct (decide (k = i)) as [->|]; [|apply IH; lia].
  intros H%cand_same_identity. congruence.
Qed.
Lemma cand_not_found t c :
  table_ok t → find_identity 4 t c 0 = None → ident c ∉ ident <$> live t.
Proof.
  intros Ht H Hin. pose proof (cand_find_identity t c 4 0 Ht ltac:(lia)) as Hf. rewrite H in Hf.
  apply list_elem_of_fmap in Hin as (x&E&[k Hk]%list_elem_of_lookup).
  pose proof (lookup_lt_Some _ _ _ Hk) as Hlt. rewrite cand_live_length in Hlt by done.
  destruct Ht as [_ Hc _ _ _ _]. unfold live in Hk. rewrite lookup_take_lt in Hk by done.
  apply (Hf ltac:(unfold NWK_CANDIDATES_CAPACITY in *; lia) (Z.of_nat k) ltac:(lia)).
  unfold entry. by rewrite Nat2Z.id, Hk.
Qed.
Lemma cand_found t c i :
  table_ok t → find_identity 4 t c 0 = Some i → 0 <= i < count t ∧ ident (entry (entries t) i) = ident c.
Proof.
  intros Ht H. pose proof (cand_find_identity t c 4 0 Ht ltac:(lia)) as Hf. rewrite H in Hf.
  apply Hf. destruct Ht as [_ ? _ _ _ _]. unfold NWK_CANDIDATES_CAPACITY in *. lia.
Qed.

(** The array of four, by its entries. *)
Lemma cand_four (es : list nwk_candidate_t) :
  length es = 4%nat → ∃ a b c d, es = [a; b; c; d].
Proof. intros. destruct es as [|a [|b [|c [|d [|]]]]]; try done. by exists a, b, c, d. Qed.
Ltac small x :=
  let E := fresh "E" in assert (x = 0 ∨ x = 1 ∨ x = 2 ∨ x = 3 ∨ x = 4) as E by lia;
  repeat (destruct E as [E|E]; [subst x; try lia|]); try (subst x; try lia).

Lemma cand_shift_down es i n :
  length es = 4%nat → 0 <= i < n → n <= 4 →
  let es' := set_entry (shift_down 4 es i n) (n - 1) zero_candidate in
  length es' = 4%nat ∧
  take (Z.to_nat (n - 1)) es' = take (Z.to_nat i) es ++ drop (S (Z.to_nat i)) (take (Z.to_nat n) es) ∧
  (drop (Z.to_nat n) es = replicate (4 - Z.to_nat n) zero_candidate →
   drop (Z.to_nat (n - 1)) es' = replicate (4 - Z.to_nat (n - 1)) zero_candidate).
Proof.
  intros (a&b&c&d&->)%cand_four Hi Hn. small n; small i; cbv zeta;
    (split; [reflexivity|]; split; [reflexivity|]); intros H; vm_compute in H |- *; by simplify_eq.
Qed.

Lemma cand_weakest t :
  table_ok t → count t = 4 →
  0 <= weakest t < 4 ∧
  Forall (λ y, nwk_candidates_score (entry (entries t) (weakest t)) <= nwk_candidates_score y) (live t).
Proof.
  intros [_ _ Hl _ _ _] Hc. unfold weakest, live. rewrite Hc.
  destruct (foldl_argmin (λ i, nwk_candidates_score (entry (entries t) i)) (seqZ 1 (4 - 1)) 0)
    as [H1 H2]. cbv zeta in *. set (w := foldl _ 0 _) in *. clearbody w. revert H1 H2.
  change (seqZ 1 (4 - 1)) with [1; 2; 3]. apply cand_four in Hl as (a&b&c&d&->).
  rewrite !elem_of_cons, elem_of_nil. intros H1 H2. split; [lia|].
  rewrite !Forall_cons_iff in H2. destruct H2 as (H2a&H2b&H2c&H2d&_).
  by repeat (constructor; [assumption|]).
Qed.

(** ** The update of the table implements the transition on the live list *)
Lemma cand_note_ok t c : table_ok t → table_ok (if router_join then note_epid t c else t).
Proof.
  intros Ht. destruct router_join eqn:E; [|done]. destruct Ht as [Hv Hc Hl Hu Hd Hf].
  split; try done. unfold valid_table in *. rewrite E in *. cbn [version channel_mask count rejoin
    filtered parent epid_seen mixed note_epid].
  rewrite !andb_true_iff in *. destruct Hv as (((((?&?)&?)&?&?)&?)&?).
  split_and!; try done; by repeat case_match.
Qed.
Lemma cand_valid_count t n es :
  valid_table t = true → n <= NWK_CANDIDATES_CAPACITY → valid_table (with_entries t n es) = true.
Proof.
  unfold valid_table. intros Hv Hn. cbn [version channel_mask count rejoin filtered epid_seen mixed
    with_entries]. rewrite !andb_true_iff in *. destruct Hv as (((((?&?)&?)&?)&?)&?).
  split_and!; try done. lia.
Qed.

(** Replacing the live entry [i]. *)
Lemma cand_replace t i c :
  table_ok t → 0 <= i < count t → admissible t c →
  ident (entry (entries t) i) = ident c ∨ ident c ∉ ident <$> live t →
  let t' := with_entries t (count t) (set_entry (entries t) i c) in
  table_ok t' ∧
  live t' = take (Z.to_nat i) (live t) ++ c :: drop (S (Z.to_nat i)) (live t).
Proof.
  intros Ht Hi Hc Hid t'. pose proof (cand_live_length t Ht) as Hll.
  pose proof (cand_live_split t i Ht Hi) as Hsp.
  assert (live t' = take (Z.to_nat i) (live t) ++ c :: drop (S (Z.to_nat i)) (live t)) as Hl'.
  { unfold t', live, with_entries, set_entry. cbn [entries count].
    rewrite take_insert_lt by lia. fold (live t). by rewrite insert_take_drop by lia. }
  split; [|done]. destruct Ht as [Hv Hn Hl Hu Hd Hf]. split; unfold t'; cbn [entries count with_entries]; try done.
  - unfold set_entry. by rewrite length_insert.
  - unfold set_entry. by rewrite drop_insert_lt by lia.
  - fold t'. rewrite Hl', fmap_app, fmap_cons. rewrite Hsp, fmap_app, fmap_cons in Hd.
    destruct Hid as [<-|Hid]; [done|]. rewrite Hsp, fmap_app, fmap_cons in Hid.
    rewrite elem_of_app, elem_of_cons in Hid.
    apply list.NoDup_app in Hd as (Hd1&Hd2&(Hd3&Hd4)%list.NoDup_cons).
    apply list.NoDup_app. split_and!; [done| |apply list.NoDup_cons; tauto].
    intros x Hx [->|Hin]%elem_of_cons; [tauto|]. apply (Hd2 x Hx). by right.
  - fold t'. rewrite Hl'. rewrite Hsp in Hf. rewrite !Forall_app, !Forall_cons_iff in *.
    destruct Hf as (?&_&?). split_and!; done.
Qed.

Lemma cand_admit t c :
  table_ok t → 11 <= channel c <= 26 → has (channel_mask t) (Z.shiftl 1 (channel c)) = true →
  let '(r, t') := admit_candidate t c in
  table_ok t' ∧ admits (eligible t c) (negb router_join || negb (filtered t =? 0)) c (live t) r (live t').
Proof.
  intros Ht Hch Hm. unfold admit_candidate.
  destruct (find_identity 4 t c 0) as [i|] eqn:Ef.
  - apply cand_found in Ef as [Hi Hid]; [|done]. pose proof (cand_live_split t i Ht Hi) as Hsp.
    destruct (eligible t c) eqn:He.
    + destruct (cand_replace t i c Ht Hi) as [Ht' Hl']; [by split|by left|].
      split; [done|]. rewrite Hl'. rewrite Hsp at 1. by apply admits_update.
    + pose proof Ht as [Hv Hn Hl Hu Hd Hf]. unfold NWK_CANDIDATES_CAPACITY in Hn.
      destruct (cand_shift_down (entries t) i (count t) Hl Hi ltac:(lia)) as (Hl1&Hl2&Hl3).
      set (t' := with_entries _ _ _).
      assert (live t' = take (Z.to_nat i) (live t) ++ drop (S (Z.to_nat i)) (live t)) as Hl'.
      { unfold t', live. cbn [entries count with_entries]. rewrite Hl2, take_take.
        by rewrite Nat.min_l by lia. }
      split; [|rewrite Hl'; rewrite Hsp at 1; by apply admits_withdraw].
      rewrite Hsp in Hd, Hf. split; try done; cbn [entries count with_entries t'].
      * apply cand_valid_count; [done|unfold NWK_CANDIDATES_CAPACITY; lia].
      * unfold NWK_CANDIDATES_CAPACITY. lia.
      * by apply Hl3.
      * rewrite Hl', fmap_app. rewrite fmap_app, fmap_cons in Hd. eapply sublist_NoDup; [exact Hd|].
        apply sublist_app; [done|]. by apply sublist_cons.
      * rewrite Hl'. rewrite !Forall_app, Forall_cons_iff in *. tauto.
  - pose proof (cand_not_found t c Ht Ef) as Hni.
    destruct (eligible t c) eqn:He; cbn [negb]; [|split; [done|by apply admits_ignore]].
    pose proof (cand_note_ok t c Ht) as Ht1.
    assert (∀ t1, t1 = (if router_join then note_epid t c else t) →
      count t1 = count t ∧ filtered t1 = filtered t ∧ live t1 = live t ∧ channel_mask t1 = channel_mask t ∧
      eligible t1 c = eligible t c) as H1 by (intros ? ->; destruct router_join; done).
    specialize (H1 _ eq_refl). set (t1 := if router_join then note_epid t c else t) in *.
    clearbody t1. destruct H1 as (Hct&Hfl&Hlv&Hmk&Hel). rewrite <- Hlv in Hni |- *.
    pose proof (cand_live_length t1 Ht1) as Hll. unfold NWK_CANDIDATES_CAPACITY.
    rewrite <- Hfl. clear Hfl.
    destruct (router_join && (count t1 =? 4) && (filtered t1 =? 0)) eqn:Ev.
    + apply andb_true_iff in Ev as [[Er Ev]%andb_true_iff Efl]. rewrite Efl, Er. cbn [negb orb].
      destruct (cand_weakest t1 Ht1 ltac:(lia)) as [Hw Hmin].
      pose proof (cand_live_split t1 (weakest t1) Ht1 ltac:(lia)) as Hsp.
      destruct (_ <=? _) eqn:Es.
      * split; [done|]. apply admits_weaker; try done; [lia|].
        eapply list.Forall_impl; [exact Hmin|]. cbn. lia.
      * destruct (cand_replace t1 (weakest t1) c Ht1) as [Ht' Hl']; [lia|split; [congruence|by rewrite Hmk]|by right|].
        split; [done|]. rewrite Hl'. rewrite Hsp in Hni, Hll, Hmin. rewrite Hsp at 1.
        apply admits_evict; try done; lia.
    + destruct (count t1 =? 4) eqn:E4.
      * split; [done|]. apply admits_full; try done; [lia|].
        rewrite andb_true_r in Ev. apply andb_false_iff in Ev as [-> | ->]; [done|].
        by rewrite orb_true_r.
      * pose proof Ht1 as [Hv Hn Hl Hu Hd Hf]. unfold NWK_CANDIDATES_CAPACITY in Hn.
        set (t' := with_entries _ _ _).
        assert (live t' = live t1 ++ [c]) as Hl'.
        { unfold t', live. cbn [entries count with_entries]. unfold set_entry.
          replace (Z.to_nat (count t1 + 1)) with (S (Z.to_nat (count t1))) by lia.
          rewrite (take_S_r _ _ c) by (apply list_lookup_insert_eq; lia).
          by rewrite take_insert_ge by lia. }
        split; [|rewrite Hl'; apply admits_add; try done; lia].
        split; cbn [entries count with_entries t']; try done.
        -- apply cand_valid_count; [done|unfold NWK_CANDIDATES_CAPACITY; lia].
        -- unfold NWK_CANDIDATES_CAPACITY. lia.
        -- unfold set_entry. by rewrite length_insert.
        -- unfold set_entry. rewrite drop_insert_lt by lia.
           replace (Z.to_nat (count t1 + 1)) with (Z.to_nat (count t1) + 1)%nat by lia.
           rewrite <- drop_drop, Hu, drop_replicate. f_equal. lia.
        -- rewrite Hl', fmap_app, list.NoDup_app. split_and!; [done| |apply NoDup_singleton].
           intros x Hx ->%list_elem_of_singleton. done.
        -- rewrite Hl', Forall_app, Forall_singleton. split; [done|].
           split; [change (eligible t1 c = true); congruence|]. by rewrite <- Hmk in Hm.
Qed.

Lemma cand_admit_header t c :
  let t' := (admit_candidate t c).2 in
  channel_mask t' = channel_mask t ∧ filtered t' = filtered t ∧ parent t' = parent t.
Proof. unfold admit_candidate. by repeat case_match. Qed.
Lemma cand_admit_error t c :
  router_join = false →
  let '(r, t') := admit_candidate t c in
  r = NWK_CANDIDATES_NOT_ELIGIBLE ∨ r = NWK_CANDIDATES_FULL → t' = t.
Proof. intros Hr. unfold admit_candidate. rewrite Hr. repeat case_match; intros [|]; by simplify_eq. Qed.

Lemma cand_describe_channel rs ch b n c : describe rs ch b n = inr c → channel c = ch.
Proof. unfold describe. intros H. by repeat (case_match; simplify_eq/=). Qed.

(** The guards of [nwk_candidates_consider] before the decoders, and the result of each. *)
Definition consider_guard (t : nwk_candidates_t) (channel crc_valid : Z)
    : option nwk_candidates_result_t :=
  if (channel <? 11) || (26 <? channel) || (1 <? crc_valid) then Some NWK_CANDIDATES_INVALID_ARGUMENT
  else if crc_valid =? 0 then Some NWK_CANDIDATES_BAD_CRC
  else if negb (has (channel_mask t) (Z.shiftl 1 channel)) then Some NWK_CANDIDATES_OUTSIDE_MASK
  else None.

Lemma cand_consider t rs ch crc b n :
  table_ok t →
  let '(r, t') := nwk_candidates_consider rs (Some t) ch crc (Some b) n in
  ∃ t1, t' = Some t1 ∧ table_ok t1 ∧
  match consider_guard t ch crc with
  | Some e => r = e ∧ t1 = t
  | None => match describe rs ch b n with
            | inl e => r = e ∧ t1 = t
            | inr c => admits (eligible t c) (negb router_join || negb (filtered t =? 0)) c
                         (live t) r (live t1)
            end
  end ∧
  (router_join = false →
   r ≠ NWK_CANDIDATES_ADDED → r ≠ NWK_CANDIDATES_UPDATED → r ≠ NWK_CANDIDATES_WITHDRAWN → t1 = t).
Proof.
  intros Ht. pose proof Ht as [Hv _ _ _ _ _]. unfold nwk_candidates_consider, consider_guard.
  destruct ((ch <? 11) || (26 <? ch) || (1 <? crc)) eqn:E1; [by exists t|]. rewrite Hv. cbn [negb].
  destruct (crc =? 0); [by exists t|].
  destruct (has (channel_mask t) (Z.shiftl 1 ch)) eqn:Em; cbn [negb]; [|by exists t].
  destruct (describe rs ch b n) as [e|c] eqn:Ed; [by exists t|].
  apply cand_describe_channel in Ed. subst ch.
  pose proof (cand_admit t c Ht ltac:(lia) Em) as Ha. pose proof (cand_admit_error t c) as He.
  destruct (admit_candidate t c) as [r t1]. destruct Ha as [Hok Ha].
  exists t1. split; [done|]. split; [done|]. split; [exact Ha|].
  intros Hr H1 H2 H3. specialize (He Hr). inversion Ha; subst; try done; apply He; by (left + right).
Qed.

(** ** Histories *)
Inductive operation :=
  | Parent (parent : Z)
  | Rejoin
  | Consider (rssi channel crc_valid : Z) (body : bytes) (length : Z).
Definition perform (t : nwk_candidates_t) (o : operation) : nwk_candidates_t :=
  default t match o with
  | Parent p => (nwk_candidates_parent (Some t) p).2
  | Rejoin => if parent_recovery then (nwk_candidates_rejoin (Some t)).2 else Some t
  | Consider rs ch crc b n => (nwk_candidates_consider rs (Some t) ch crc (Some b) n).2
  end.

(** A candidate that a frame of the history with a valid CRC describes. *)
Definition heard (ops : list operation) (c : nwk_candidate_t) : Prop :=
  ∃ rs ch crc b n, Consider rs ch crc b n ∈ ops ∧ crc ≠ 0 ∧ describe rs ch b n = inr c.

Lemma cand_admits_from elig capped c l r l' x :
  admits elig capped c l r l' → x ∈ l' → x ∈ l ∨ x = c.
Proof.
  inversion 1; subst; rewrite ?elem_of_app, ?elem_of_cons, ?elem_of_nil; tauto.
Qed.

Lemma cand_init mask t0 t :
  nwk_candidates_init (Some t0) mask = (NWK_CANDIDATES_OK, Some t) →
  table_ok t ∧ channel_mask t = mask ∧ live t = [].
Proof.
  unfold nwk_candidates_init. destruct (valid_mask mask) eqn:E; [|done]. intros [= <-].
  split; [|done]. split; try done; [|unfold live; cbn; constructor..].
  unfold valid_table. cbn. rewrite E. by destruct parent_recovery, router_join.
Qed.

(** The two restrictions apply to an empty table. *)
Lemma cand_restrict t t1 :
  table_ok t → count t = 0 → count t1 = 0 → entries t1 = entries t → valid_table t1 = true →
  table_ok t1.
Proof.
  intros [_ _ Hl Hu _ _] H0 H1 He Hv. unfold live in *. split; unfold live; rewrite ?H1, ?He;
    rewrite ?H0 in *; try done; constructor.
Qed.

Lemma cand_perform ops t o :
  table_ok t → Forall (heard ops) (live t) → o ∈ ops →
  table_ok (perform t o) ∧ Forall (heard ops) (live (perform t o)).
Proof.
  intros Ht Hh Ho. pose proof Ht as [Hv _ _ _ _ _]. destruct o as [p| |rs ch crc b n]; unfold perform.
  - unfold nwk_candidates_parent. rewrite Hv. cbn [negb orb].
    destruct (count t =? 0) eqn:E; [|done]. cbn [negb snd default from_option id].
    assert (count t = 0) as E0 by lia. split; [|unfold live; cbn [count]; by rewrite E0; constructor].
    eapply cand_restrict; try done. unfold valid_table in *. cbn.
    rewrite !andb_true_iff in *. tauto.
  - destruct parent_recovery eqn:Er; [|done]. unfold nwk_candidates_rejoin. rewrite Hv.
    cbn [negb orb]. destruct (count t =? 0) eqn:E; [|done]. cbn [negb snd default from_option id].
    assert (count t = 0) as E0 by lia. split; [|unfold live; cbn [count]; by rewrite E0; constructor].
    eapply cand_restrict; try done. unfold valid_table in *. cbn.
    rewrite Er in *. rewrite !andb_true_iff in *. tauto.
  - pose proof (cand_consider t rs ch crc b n Ht) as H.
    destruct (nwk_candidates_consider _ _ _ _ _ _) as [r t'].
    destruct H as (t1&->&Ht1&H&_). cbn [snd default from_option id]. split; [done|].
    destruct (consider_guard t ch crc) eqn:Eg; [by destruct H as [_ ->]|].
    destruct (describe rs ch b n) eqn:Ed; [by destruct H as [_ ->]|].
    apply list.Forall_forall. intros x Hx.
    destruct (cand_admits_from _ _ _ _ _ _ _ H Hx) as [Hx'| ->];
      [by eapply list.Forall_forall in Hh|].
    exists rs, ch, crc, b, n. split_and!; try done. intros ->. unfold consider_guard in Eg.
    by destruct (_ || _ || _).
Qed.
Lemma cand_history all ops : ∀ t,
  table_ok t → Forall (heard all) (live t) → ops ⊆ all →
  table_ok (foldl perform t ops) ∧ Forall (heard all) (live (foldl perform t ops)).
Proof.
  induction ops as [|o ops IH]; intros t Ht Hh Hsub; [done|]. cbn [foldl].
  destruct (cand_perform all t o Ht Hh) as [Ht' Hh']; [apply Hsub; by left|].
  apply IH; [done..|]. intros x Hx. apply Hsub. by right.
Qed.

Lemma cand_get t i :
  table_ok t → 0 <= i →
  nwk_candidates_get (Some t) i true
  = match live t !! Z.to_nat i with
    | Some c => (NWK_CANDIDATES_OK, Some c)
    | None => (NWK_CANDIDATES_BAD_INDEX, None)
    end.
Proof.
  intros Hok Hi. unfold nwk_candidates_get. rewrite (ok_valid t Hok).
  cbn [negb]. pose proof (cand_live_length t Hok). pose proof (ok_count t Hok).
  destruct (count t <=? i) eqn:E.
  - by rewrite lookup_ge_None_2 by lia.
  - unfold live. rewrite lookup_take_lt by lia. unfold entry.
    destruct (lookup_lt_is_Some_2 (entries t) (Z.to_nat i)) as [x Hx];
      [rewrite (ok_length t Hok); unfold NWK_CANDIDATES_CAPACITY in *; lia|]. by rewrite Hx.
Qed.

(** ** Properties *)

(** C22: considering a frame implements the transition on the live list. In a good table a
    call returns the table unchanged with the error of the first guard or decoder that
    refuses the frame; otherwise the described candidate replaces or withdraws the live
    candidate of its identity, or is appended, ignored, refused by a full table, or put in
    the place of a weakest one when the table keeps the stronger beacons; the table stays good. Without router
    joining every result but ADDED, UPDATED and WITHDRAWN leaves the whole table as it was. *)
Theorem nwk_candidates_consider_refines t rs ch crc b n :
  table_ok t →
  let '(r, t') := nwk_candidates_consider rs (Some t) ch crc (Some b) n in
  ∃ t1, t' = Some t1 ∧ table_ok t1 ∧
  match consider_guard t ch crc with
  | Some e => r = e ∧ t1 = t
  | None => match describe rs ch b n with
            | inl e => r = e ∧ t1 = t
            | inr c => admits (eligible t c) (negb router_join || negb (filtered t =? 0)) c
                         (live t) r (live t1)
            end
  end ∧
  (router_join = false →
   r ≠ NWK_CANDIDATES_ADDED → r ≠ NWK_CANDIDATES_UPDATED → r ≠ NWK_CANDIDATES_WITHDRAWN → t1 = t).
Proof. apply cand_consider. Qed.

(** The table never goes wrong. From a successful initialisation, through any sequence
    of restrictions and considered frames, valid or not, the table holds at most four
    candidates with distinct identities, all eligible under its restrictions and on channels
    of its mask, compact, with the unused entries zero; each was described by a frame of the
    history whose CRC was valid; and [nwk_candidates_get] returns them by index and refuses
    every other index. *)
Theorem nwk_candidates_invariant mask t0 t1 ops i :
  nwk_candidates_init (Some t0) mask = (NWK_CANDIDATES_OK, Some t1) → 0 <= i →
  let t := foldl perform t1 ops in
  table_ok t ∧ Forall (heard ops) (live t) ∧
  nwk_candidates_get (Some t) i true
  = match live t !! Z.to_nat i with
    | Some c => (NWK_CANDIDATES_OK, Some c)
    | None => (NWK_CANDIDATES_BAD_INDEX, None)
    end.
Proof.
  intros Hi Hi0 t. apply cand_init in Hi as (Ht&_&Hl).
  destruct (cand_history ops ops t1 Ht) as [Hok Hh]; [by rewrite Hl|done|]. fold t in Hok, Hh.
  split; [done|]. split; [done|]. by apply cand_get.
Qed.
End build.

(** ** Concrete instances *)
Definition sample_epid : bytes := [0x10; 0x20; 0x30; 0x40; 0x50; 0x60; 0x70; 0x80].
(** A beacon of the short-addressed router [address], with its superframe word. *)
Definition sample_beacon (address superframe update : Z) : bytes :=
  [0x00; 0x80; 0x42; 0x62; 0x1a; u8 address; u8 (Z.shiftr address 8);
   u8 superframe; u8 (Z.shiftr superframe 8); 0; 0; 0; 0x22; 0x84]
  ++ sample_epid ++ [0xff; 0xff; 0xff; update].
Definition no_table : nwk_candidates_t := Build_nwk_candidates_t 0 0 0 0 [] 0 0 0 0 [].
Definition sample_table : nwk_candidates_t :=
  default no_table (nwk_candidates_init (Some no_table) 0x800).2.
(** Two routers, the first of which is then heard without association permit, and a frame on
    a channel outside the mask. *)
Definition sample_history : list operation :=
  [Consider (-40) 11 1 (sample_beacon 0x1234 0xcfff 1) 26;
   Consider (-50) 11 1 (sample_beacon 0x5678 0x8fff 1) 26;
   Consider (-50) 12 1 (sample_beacon 0x5678 0x8fff 1) 26;
   Consider (-40) 11 1 (sample_beacon 0x1234 0x4fff 2) 26].

Example sample_history_table :
  let t := foldl (perform false false) sample_table sample_history in
  count t = 1 ∧ coordinator (entry (entries t) 0) = [0x78; 0x56; 0; 0; 0; 0; 0; 0].
Proof. by vm_compute. Qed.

(** Four strong routers of one network, then a weaker one of another: with router joining the
    frame is refused as not eligible, but the table records the disagreement. *)
Definition strong_history : list operation :=
  (λ a, Consider (-40) 11 1 (sample_beacon a 0xcfff 1) 26) <$> [1; 2; 3; 4].
Definition other_beacon : bytes := <[14%nat := 0x11]> (sample_beacon 5 0xcfff 1).
Lemma router_join_error_changes_table :
  let t := foldl (perform true false) sample_table strong_history in
  let '(r, t') := nwk_candidates_consider true false (-90) (Some t) 11 1 (Some other_beacon) 26 in
  r = NWK_CANDIDATES_NOT_ELIGIBLE ∧ mixed t = 0 ∧ (mixed <$> t') = Some 1.
Proof. by vm_compute. Qed.

Lemma nwk_candidates_consider_refines_witness :
  let '(r, t') := nwk_candidates_consider true false (-40) (Some sample_table) 11 1
                    (Some (sample_beacon 0x1234 0xcfff 1)) 26 in
  ∃ t1, t' = Some t1 ∧ table_ok true false t1 ∧
  match consider_guard sample_table 11 1 with
  | Some e => r = e ∧ t1 = sample_table
  | None => match describe true (-40) 11 (sample_beacon 0x1234 0xcfff 1) 26 with
            | inl e => r = e ∧ t1 = sample_table
            | inr c => admits (eligible false sample_table c)
                         (negb true || negb (filtered sample_table =? 0)) c
                         (live sample_table) r (live t1)
            end
  end ∧
  (true = false →
   r ≠ NWK_CANDIDATES_ADDED → r ≠ NWK_CANDIDATES_UPDATED → r ≠ NWK_CANDIDATES_WITHDRAWN →
   t1 = sample_table).
Proof.
  exact (nwk_candidates_consider_refines true false sample_table (-40) 11 1
    (sample_beacon 0x1234 0xcfff 1) 26
    (proj1 (cand_init true false 0x800 no_table sample_table ltac:(vm_compute; reflexivity)))).
Defined.

Lemma nwk_candidates_invariant_witness :
  let t := foldl (perform false true) sample_table sample_history in
  table_ok false true t ∧ Forall (heard false sample_history) (live t) ∧
  nwk_candidates_get false true (Some t) 0 true
  = match live t !! Z.to_nat 0 with
    | Some c => (NWK_CANDIDATES_OK, Some c)
    | None => (NWK_CANDIDATES_BAD_INDEX, None)
    end.
Proof.
  exact (nwk_candidates_invariant false true 0x800 no_table sample_table sample_history 0
    ltac:(vm_compute; reflexivity) ltac:(done)).
Defined.
End Candidates.
