(* ===== verification/Parent.v ===== *)
(** * Parent selection, src/src/nwk_parent.c

    The choice of a parent from one snapshot of the candidate table of Candidates.v, under the
    same build options. *)
From S2P Require Import Prelude MacFrame Candidates.
Import NwkBeacon Candidates.

Module Parent.

Inductive nwk_parent_result_t :=
  | NWK_PARENT_OK
  | NWK_PARENT_NONE
  | NWK_PARENT_AMBIGUOUS_UPDATE
  | NWK_PARENT_INVALID_ARGUMENT
  | NWK_PARENT_INVALID_TABLE.

Record nwk_parent_policy_t := {
  extended_pan_id : bytes; potential_mask : Z; link_cost : bytes; minimum_known : Z;
  minimum_update_id : Z
}.
Record nwk_parent_choice_t := { index : Z; candidate : nwk_candidate_t }.

Section build.
Context (router_join parent_recovery : bool).
Let get := nwk_candidates_get router_join parent_recovery.

(** The table the first loop fills: the eligible mask and the copied fields. *)
Record scan_t := { eligible_mask : Z; updates : bytes; depth : bytes }.

(** One turn of the first loop: [inl] leaves the call. *)
Definition consider_one (t : nwk_candidates_t) (policy : nwk_parent_policy_t) (s : scan_t) (i : Z)
    : nwk_parent_result_t + scan_t :=
  if! (Z.land (potential_mask policy) (Z.shiftl 1 i) =? 0) || (3 <? rd (link_cost policy) i)
    return inr s ;;
  match get (Some t) i true with
  | (NWK_CANDIDATES_OK, Some c) =>
      if! memcmp (NwkBeacon.extended_pan_id (network c)) (extended_pan_id policy) 8 return inr s ;;
      let delta := u8 (update_id (network c) - minimum_update_id policy) in
      if! negb (minimum_known policy =? 0) && (delta =? 128) return inl NWK_PARENT_AMBIGUOUS_UPDATE ;;
      if! negb (minimum_known policy =? 0) && (128 <? delta) return inr s ;;
      inr {| eligible_mask := Z.lor (eligible_mask s) (u8 (Z.shiftl 1 i));
             updates := wr (updates s) i (update_id (network c));
             depth := if parent_recovery then wr (depth s) i (device_depth (network c))
                      else depth s |}
  | _ => inl NWK_PARENT_INVALID_TABLE
  end.
Fixpoint consider_all (t : nwk_candidates_t) (policy : nwk_parent_policy_t) (s : scan_t)
    (todo : list Z) : nwk_parent_result_t + scan_t :=
  match todo with
  | [] => inr s
  | i :: todo => match consider_one t policy s i with
               | inl r => inl r
               | inr s => consider_all t policy s todo
               end
  end.

Definition marked (s : scan_t) (i : Z) : bool := has (eligible_mask s) (Z.shiftl 1 i).
(** The inner loop: no eligible candidate is newer than candidate [i], or unordered with it. *)
Definition dominates (s : scan_t) (n i : Z) : bool :=
  forallb (λ j, negb (marked s j) || negb (128 <=? u8 (rd (updates s) i - rd (updates s) j)))
    (seqZ 0 n).
(** The comparison with the best candidate so far. *)
Definition better (t : nwk_candidates_t) (policy : nwk_parent_policy_t) (s : scan_t) (i best : Z)
    : bool :=
  let cheaper := rd (link_cost policy) i <? rd (link_cost policy) best in
  (best =? NWK_CANDIDATES_CAPACITY)
  || (if parent_recovery
      then (negb (rejoin t =? 0) && (rd (depth s) i <? rd (depth s) best))
           || (((rejoin t =? 0) || (rd (depth s) i =? rd (depth s) best)) && cheaper)
      else cheaper).
(** The second loop. *)
Definition choose (t : nwk_candidates_t) (policy : nwk_parent_policy_t) (s : scan_t) : Z :=
  foldl (λ best i, if marked s i && dominates s (count t) i && better t policy s i best
                   then i else best)
    NWK_CANDIDATES_CAPACITY (seqZ 0 (count t)).

(** [output]: whether the pointer is not NULL; the result carries what is stored. *)
Definition nwk_parent_select (table : option nwk_candidates_t)
    (policy : option nwk_parent_policy_t) (output : bool)
    : nwk_parent_result_t * option nwk_parent_choice_t :=
  match table, policy with
  | Some t, Some p =>
      if! negb output || (1 <? minimum_known p) return (NWK_PARENT_INVALID_ARGUMENT, None) ;;
      let '(any, all) := any_all (slice (extended_pan_id p) 0 8) in
      if! (any =? 0) || (all =? 0xff) return (NWK_PARENT_INVALID_ARGUMENT, None) ;;
      let fetched := (get table 0 true).1 in
      if! negb (bool_decide (fetched = NWK_CANDIDATES_OK))
          && negb (bool_decide (fetched = NWK_CANDIDATES_BAD_INDEX))
        return (NWK_PARENT_INVALID_TABLE, None) ;;
      if! negb (Z.land (potential_mask p) (u8 (Z.lnot (Z.shiftl 1 (count t) - 1))) =? 0)
        return (NWK_PARENT_INVALID_ARGUMENT, None) ;;
      if! existsb (λ i, (rd (link_cost p) i <? 1) || (7 <? rd (link_cost p) i)) (seqZ 0 (count t))
        return (NWK_PARENT_INVALID_ARGUMENT, None) ;;
      let start := {| eligible_mask := 0; updates := Mac.zeros 4; depth := Mac.zeros 4 |} in
      match consider_all t p start (seqZ 0 (count t)) with
      | inl r => (r, None)
      | inr s =>
          if! eligible_mask s =? 0 return (NWK_PARENT_NONE, None) ;;
          let best := choose t p s in
          if! best =? NWK_CANDIDATES_CAPACITY return (NWK_PARENT_AMBIGUOUS_UPDATE, None) ;;
          match get table best true with
          | (NWK_CANDIDATES_OK, Some c) => (NWK_PARENT_OK, Some {| index := best; candidate := c |})
          | _ => (NWK_PARENT_INVALID_TABLE, None)
          end
      end
  | _, _ => (NWK_PARENT_INVALID_ARGUMENT, None)
  end.

(** ** Specification

    On the live list: a candidate is suitable when the policy permits it, its link is good
    enough and it belongs to the network; relative to the known minimum it is current, older
    or unordered. *)
Definition suitable (p : nwk_parent_policy_t) (l : list nwk_candidate_t) (i : Z) : bool :=
  match l !! Z.to_nat i with
  | Some c => (0 <=? i) && Z.testbit (potential_mask p) i && (rd (link_cost p) i <=? 3)
              && negb (memcmp (NwkBeacon.extended_pan_id (network c)) (extended_pan_id p) 8)
  | None => false
  end.
(** How far update identifier [a] is ahead of [b], modulo 256. *)
Definition ahead (a b : Z) : Z := u8 (a - b).
Definition update_of (l : list nwk_candidate_t) (i : Z) : Z :=
  update_id (network (default zero_candidate (l !! Z.to_nat i))).
Definition depth_of (l : list nwk_candidate_t) (i : Z) : Z :=
  device_depth (network (default zero_candidate (l !! Z.to_nat i))).
Definition unordered (p : nwk_parent_policy_t) (l : list nwk_candidate_t) (i : Z) : bool :=
  suitable p l i && negb (minimum_known p =? 0)
  && (ahead (update_of l i) (minimum_update_id p) =? 128).
Definition current (p : nwk_parent_policy_t) (l : list nwk_candidate_t) (i : Z) : bool :=
  suitable p l i && ((minimum_known p =? 0) || (ahead (update_of l i) (minimum_update_id p) <? 128)).
(** Current, and equal to or newer than every current candidate. *)
Definition newest (p : nwk_parent_policy_t) (l : list nwk_candidate_t) (i : Z) : Prop :=
  current p l i = true ∧ ∀ j, current p l j = true → ahead (update_of l i) (update_of l j) < 128.
(** The rank of a candidate: tree depth first when rejoining, then link cost, then index. *)
Definition rank (p : nwk_parent_policy_t) (l : list nwk_candidate_t) (by_depth : bool) (i : Z)
    : Z * Z * Z :=
  (if by_depth then depth_of l i else 0, rd (link_cost p) i, i).
Definition ranked_before (x y : Z * Z * Z) : Prop :=
  let '(a, b, c) := x in let '(a', b', c') := y in
  a < a' ∨ (a = a' ∧ (b < b' ∨ (b = b' ∧ c < c'))).

(** The guards on the policy. *)
Definition policy_valid (t : nwk_candidates_t) (p : nwk_parent_policy_t) : bool :=
  (minimum_known p <=? 1)
  && negb (((any_all (slice (extended_pan_id p) 0 8)).1 =? 0)
           || ((any_all (slice (extended_pan_id p) 0 8)).2 =? 0xff))
  && (Z.land (potential_mask p) (u8 (Z.lnot (Z.shiftl 1 (count t) - 1))) =? 0)
  && forallb (λ i, (1 <=? rd (link_cost p) i) && (rd (link_cost p) i <=? 7)) (seqZ 0 (count t)).

(** ** Lemmas *)
Lemma parent_bit m i : 0 <= i → has m (Z.shiftl 1 i) = Z.testbit m i.
Proof.
  intros Hi. unfold has. rewrite Z.shiftl_1_l. destruct (Z.testbit m i) eqn:E.
  - assert (Z.land m (2 ^ i) ≠ 0) as H; [|by apply negb_true_iff, Z.eqb_neq].
    intros H. apply (f_equal (λ x, Z.testbit x i)) in H. revert H.
    by rewrite Z.land_spec, Z.pow2_bits_true, E, Z.bits_0 by done.
  - apply negb_false_iff, Z.eqb_eq, Z.bits_inj'. intros n Hn.
    rewrite Z.land_spec, Z.bits_0. destruct (decide (i = n)) as [->|]; [by rewrite E|].
    rewrite Z.pow2_bits_false by done. apply andb_false_r.
Qed.
Lemma parent_set_bit m i j :
  0 <= i < 8 → 0 <= j → Z.testbit (Z.lor m (u8 (Z.shiftl 1 i))) j = Z.testbit m j || (i =? j).
Proof.
  intros Hi Hj. rewrite Z.lor_spec, u8_id; rewrite Z.shiftl_1_l.
  - f_equal. destruct (i =? j) eqn:E; [replace j with i by lia; apply Z.pow2_bits_true; lia|].
    apply Z.pow2_bits_false. lia.
  - pose proof (Z.pow_lt_mono_r 2 i 8). change (2 ^ 8) with 256 in *. unfold is_u8. lia.
Qed.

Lemma parent_get t i :
  table_ok router_join parent_recovery t → 0 <= i →
  get (Some t) i true = match live t !! Z.to_nat i with
                        | Some c => (NWK_CANDIDATES_OK, Some c)
                        | None => (NWK_CANDIDATES_BAD_INDEX, None)
                        end.
Proof. apply cand_get. Qed.

Section table.
Context (t : nwk_candidates_t) (p : nwk_parent_policy_t).
Hypothesis Hok : table_ok router_join parent_recovery t.

Lemma parent_count : 0 <= count t <= 4 ∧ length (live t) = Z.to_nat (count t).
Proof. split; [apply (ok_count _ _ _ Hok)|by eapply cand_live_length]. Qed.
Lemma parent_suitable_range i : suitable p (live t) i = true → 0 <= i < count t.
Proof.
  pose proof parent_count. unfold suitable. destruct (live t !! Z.to_nat i) eqn:E; [|done].
  apply lookup_lt_Some in E. lia.
Qed.
Lemma parent_current_range i : current p (live t) i = true → 0 <= i < count t.
Proof. unfold current. intros [H _]%andb_true_iff. by apply parent_suitable_range. Qed.

(** After the first loop has passed the indices below [k]. *)
Record scanned (k : Z) (s : scan_t) : Prop := {
  scan_lengths : blen (updates s) = 4 ∧ blen (depth s) = 4;
  scan_marks : ∀ i, 0 <= i → Z.testbit (eligible_mask s) i = (i <? k) && current p (live t) i;
  scan_updates : ∀ i, i < k → current p (live t) i = true → rd (updates s) i = update_of (live t) i;
  scan_depth : parent_recovery = true →
    ∀ i, i < k → current p (live t) i = true → rd (depth s) i = depth_of (live t) i;
  scan_ordered : ∀ i, i < k → unordered p (live t) i = false }.

(** A turn that leaves the tables alone. *)
Lemma parent_scan_skip k s :
  scanned k s → current p (live t) k = false → unordered p (live t) k = false → scanned (k + 1) s.
Proof.
  intros [Hl Hm Hu Hd Ho] Hc Hn.
  assert (∀ i, i < k + 1 → i < k ∨ i = k) as Hi by lia.
  split; [done| | | |].
  - intros i H0. rewrite Hm by done. destruct (decide (i = k)) as [->|].
    + by rewrite Hc, !andb_false_r.
    + by replace (i <? k + 1) with (i <? k) by lia.
  - intros i [H|H]%Hi Hx; [by apply Hu|congruence].
  - intros Hr i [H|H]%Hi Hx; [by apply Hd|congruence].
  - intros i [H|H]%Hi; [by apply Ho|congruence].
Qed.
Lemma parent_scan_mark k s :
  scanned k s → 0 <= k < 4 → current p (live t) k = true → unordered p (live t) k = false →
  scanned (k + 1)
    {| eligible_mask := Z.lor (eligible_mask s) (u8 (Z.shiftl 1 k));
       updates := wr (updates s) k (update_of (live t) k);
       depth := if parent_recovery then wr (depth s) k (depth_of (live t) k) else depth s |}.
Proof.
  intros [[Hl1 Hl2] Hm Hu Hd Ho] Hk Hc Hn.
  assert (∀ i, current p (live t) i = true → 0 <= i) as H0 by (intros i ?%parent_current_range; lia).
  split; cbn [eligible_mask updates depth].
  - split; [by rewrite blen_wr|]. by destruct parent_recovery; rewrite ?blen_wr.
  - intros i Hi. rewrite parent_set_bit, Hm by lia. destruct (decide (i = k)) as [->|].
    + by rewrite Z.eqb_refl, orb_true_r, Hc, andb_true_r; replace (k <? k + 1) with true by lia.
    + replace (k =? i) with false by lia. rewrite orb_false_r.
      by replace (i <? k + 1) with (i <? k) by lia.
  - intros i Hi Hx. pose proof (H0 _ Hx). rewrite rd_wr by lia.
    destruct (i =? k) eqn:E; [by replace i with k by lia|]. apply Hu; [lia|done].
  - intros Hr i Hi Hx. pose proof (H0 _ Hx). rewrite Hr, rd_wr by lia.
    destruct (i =? k) eqn:E; [by replace i with k by lia|]. apply Hd; [done|lia|done].
  - intros i Hi. destruct (decide (i = k)) as [->|]; [done|]. apply Ho. lia.
Qed.

Lemma parent_consider_one k s :
  scanned k s → 0 <= k < count t →
  match consider_one t p s k with
  | inl r => r = NWK_PARENT_AMBIGUOUS_UPDATE ∧ unordered p (live t) k = true
  | inr s' => scanned (k + 1) s'
  end.
Proof.
  intros Hs Hk. pose proof parent_count as [Hc Hl].
  destruct (lookup_lt_is_Some_2 (live t) (Z.to_nat k)) as [c Hx]; [lia|].
  assert (update_of (live t) k = update_id (network c) ∧ depth_of (live t) k = device_depth (network c))
    as [Eu Ed] by (unfold update_of, depth_of; by rewrite Hx).
  assert (suitable p (live t) k = Z.testbit (potential_mask p) k && (rd (link_cost p) k <=? 3)
    && negb (memcmp (NwkBeacon.extended_pan_id (network c)) (extended_pan_id p) 8)) as Es
    by (unfold suitable; rewrite Hx; by replace (0 <=? k) with true by lia).
  unfold consider_one. rewrite parent_get, Hx by (done || lia).
  rewrite <- (negb_involutive (_ =? 0)). fold (has (potential_mask p) (Z.shiftl 1 k)).
  rewrite parent_bit by lia.
  destruct (negb (Z.testbit (potential_mask p) k) || (3 <? rd (link_cost p) k)) eqn:E1.
  { assert (suitable p (live t) k = false) as E.
    { rewrite Es. apply orb_true_iff in E1 as [E1|E1]; [by destruct (Z.testbit _ _)|].
      replace (rd (link_cost p) k <=? 3) with false by lia. by rewrite andb_false_r. }
    apply parent_scan_skip; [done|..]; unfold current, unordered; by rewrite E. }
  apply orb_false_iff in E1 as [E1%negb_false_iff E2].
  rewrite E1 in Es. replace (rd (link_cost p) k <=? 3) with true in Es by lia. cbn [andb] in Es.
  destruct (memcmp _ _ 8); cbn [negb] in Es.
  { apply parent_scan_skip; [done|..]; unfold current, unordered; by rewrite Es. }
  rewrite <- Eu, <- Ed.
  assert (current p (live t) k = (minimum_known p =? 0)
    || (u8 (update_of (live t) k - minimum_update_id p) <? 128)) as Ec
    by (unfold current; by rewrite Es).
  assert (unordered p (live t) k = negb (minimum_known p =? 0)
    && (u8 (update_of (live t) k - minimum_update_id p) =? 128)) as En
    by (unfold unordered; by rewrite Es).
  set (delta := u8 _) in *. clearbody delta.
  destruct (minimum_known p =? 0); cbn [negb andb orb] in *;
    [apply parent_scan_mark; (done || lia)|].
  destruct (delta =? 128) eqn:E3; [done|].
  destruct (128 <? delta) eqn:E4; [|apply parent_scan_mark; try done; [lia|rewrite Ec; lia]].
  apply parent_scan_skip; [done|rewrite Ec; lia|done].
Qed.

Lemma parent_consider_all n : ∀ k s,
  scanned k s → 0 <= k → k + Z.of_nat n <= count t →
  match consider_all t p s (seqZ k (Z.of_nat n)) with
  | inl r => r = NWK_PARENT_AMBIGUOUS_UPDATE ∧ ∃ i, unordered p (live t) i = true
  | inr s' => scanned (k + Z.of_nat n) s'
  end.
Proof.
  induction n as [|n IH]; intros k s Hs Hk Hn; [by rewrite Z.add_0_r|].
  rewrite seqZ_cons by lia. cbn [consider_all].
  pose proof (parent_consider_one k s Hs ltac:(lia)) as H1.
  destruct (consider_one t p s k) as [r|s1]; [destruct H1; eauto|].
  replace (Z.pred (Z.of_nat (S n))) with (Z.of_nat n) by lia.
  specialize (IH (Z.succ k) s1 H1 ltac:(lia) ltac:(lia)).
  by replace (k + Z.of_nat (S n)) with (Z.succ k + Z.of_nat n) by lia.
Qed.

(** ** The second loop *)
Context (s : scan_t).
Hypothesis Hs : scanned (count t) s.

Lemma parent_marked i : 0 <= i → marked s i = current p (live t) i.
Proof.
  intros Hi. unfold marked. rewrite parent_bit, (scan_marks _ _ Hs) by done.
  destruct (current p (live t) i) eqn:E; [|by rewrite andb_false_r].
  apply parent_current_range in E. by replace (i <? count t) with true by lia.
Qed.
Lemma parent_update i : current p (live t) i = true → rd (updates s) i = update_of (live t) i.
Proof. intros H. apply (scan_updates _ _ Hs); [|done]. apply parent_current_range in H. lia. Qed.
Lemma parent_dominates i :
  current p (live t) i = true → dominates s (count t) i = true ↔ newest p (live t) i.
Proof.
  intros Hi. unfold dominates, newest, ahead. rewrite forallb_forall. split.
  - intros H. split; [done|]. intros j Hj. pose proof (parent_current_range j Hj) as Hr.
    specialize (H j ltac:(apply list_elem_of_In, elem_of_seqZ; lia)).
    rewrite parent_marked, Hj, !parent_update in H by (done || lia). cbn [negb orb] in H. lia.
  - intros [_ H] j Hj. apply list_elem_of_In, elem_of_seqZ in Hj.
    rewrite parent_marked by lia. destruct (current p (live t) j) eqn:Ej; [|done].
    rewrite !parent_update by done. specialize (H j Ej). cbn [negb orb]. lia.
Qed.

Definition by_depth : bool := parent_recovery && negb (rejoin t =? 0).
Lemma parent_better i best :
  current p (live t) i = true → current p (live t) best = true → best < i →
  (better t p s i best = true → ranked_before (rank p (live t) by_depth i) (rank p (live t) by_depth best)) ∧
  (better t p s i best = false → ranked_before (rank p (live t) by_depth best) (rank p (live t) by_depth i)).
Proof.
  intros Hi Hb Hlt. pose proof (parent_current_range _ Hi). pose proof (parent_current_range _ Hb).
  pose proof parent_count. unfold better, ranked_before, rank, by_depth, NWK_CANDIDATES_CAPACITY.
  replace (best =? 4) with false by lia. cbn [orb].
  destruct parent_recovery eqn:Er; cbn [andb]; [|lia].
  rewrite !(scan_depth _ _ Hs) by (done || lia). destruct (rejoin t =? 0); cbn [negb andb orb]; lia.
Qed.

Definition best_below (k best : Z) : Prop :=
  (best = 4 ∧ ∀ i, i < k → ¬ newest p (live t) i) ∨
  (0 <= best < k ∧ newest p (live t) best ∧
   ∀ j, j < k → newest p (live t) j → j ≠ best →
        ranked_before (rank p (live t) by_depth best) (rank p (live t) by_depth j)).

Lemma parent_ranked_trans x y z : ranked_before x y → ranked_before y z → ranked_before x z.
Proof. destruct x as [[??]?], y as [[??]?], z as [[??]?]. unfold ranked_before. lia. Qed.

Lemma parent_best_step k best :
  best_below k best → 0 <= k < count t →
  best_below (k + 1)
    (if marked s k && dominates s (count t) k && better t p s k best then k else best).
Proof.
  intros Hb Hk. rewrite parent_marked by lia. pose proof parent_count.
  assert (∀ j, j < k + 1 → j < k ∨ j = k) as Hj by lia.
  destruct (current p (live t) k) eqn:Ec; cbn [andb].
  2:{ assert (¬ newest p (live t) k) as Hn by (intros [??]; congruence).
      destruct Hb as [[-> Hb]|(Hr&Hn'&Hb)]; [left|right]; (split; [done || lia|]).
      - by intros i [Hi| ->]%Hj; [apply Hb|].
      - split; [done|]. by intros j [H'| ->]%Hj Hx Hne; [apply Hb|]. }
  pose proof (parent_dominates k Ec) as Hd. destruct (dominates s (count t) k); cbn [andb].
  2:{ assert (¬ newest p (live t) k) as Hn by (by intros ?%Hd).
      destruct Hb as [[-> Hb]|(Hr&Hn'&Hb)]; [left|right]; (split; [done || lia|]).
      - by intros i [Hi| ->]%Hj; [apply Hb|].
      - split; [done|]. by intros j [H'| ->]%Hj Hx Hne; [apply Hb|]. }
  assert (newest p (live t) k) as Hn by by apply Hd.
  destruct Hb as [[-> Hb]|(Hr&Hn'&Hb)].
  - unfold better. cbn [Z.eqb Pos.eqb NWK_CANDIDATES_CAPACITY orb]. right.
    split; [lia|]. split; [done|]. intros j [H'| ->]%Hj Hx Hne; [by destruct (Hb j)|done].
  - destruct (parent_better k best Ec (proj1 Hn') ltac:(lia)) as [H1 H2].
    destruct (better t p s k best) eqn:E; right.
    + split; [lia|]. split; [done|]. intros j [H'| ->]%Hj Hx Hne; [|done].
      destruct (decide (j = best)) as [->|]; [by apply H1|].
      eapply parent_ranked_trans; [by apply H1|by apply Hb].
    + split; [lia|]. split; [done|]. intros j [H'| ->]%Hj Hx Hne; [by apply Hb|by apply H2].
Qed.
Lemma parent_choose : best_below (count t) (choose t p s).
Proof.
  pose proof parent_count as [Hc _]. unfold choose.
  assert (∀ n, Z.of_nat n <= count t → best_below (Z.of_nat n)
    (foldl (λ best i, if marked s i && dominates s (count t) i && better t p s i best
                      then i else best) NWK_CANDIDATES_CAPACITY (seqZ 0 (Z.of_nat n)))) as H.
  { induction n as [|n IH]; intros Hn.
    - left. split; [done|]. intros i Hi [H%parent_current_range _]. lia.
    - rewrite seqZ_S, foldl_app. cbn [foldl]. specialize (IH ltac:(lia)).
      replace (0 + Z.of_nat n) with (Z.of_nat n) by lia.
      replace (Z.of_nat (S n)) with (Z.of_nat n + 1) by lia. apply parent_best_step; [done|lia]. }
  specialize (H (Z.to_nat (count t)) ltac:(lia)). by rewrite Z2Nat.id in H by lia.
Qed.
Lemma parent_none_marked : eligible_mask s = 0 ↔ ∀ i, current p (live t) i = false.
Proof.
  split.
  - intros H i. destruct (current p (live t) i) eqn:E; [|done].
    pose proof (parent_current_range _ E). pose proof (scan_marks _ _ Hs i ltac:(lia)) as Hm.
    rewrite H, Z.bits_0, E in Hm. lia.
  - intros H. apply Z.bits_inj'. intros n Hn. by rewrite (scan_marks _ _ Hs), H, Z.bits_0, andb_false_r.
Qed.
End table.

Definition scan_start : scan_t :=
  {| eligible_mask := 0; updates := Mac.zeros 4; depth := Mac.zeros 4 |}.
(** The guards, and what follows them. *)
Lemma parent_select_guards t p :
  table_ok router_join parent_recovery t →
  nwk_parent_select (Some t) (Some p) true =
  if negb (policy_valid t p) then (NWK_PARENT_INVALID_ARGUMENT, None) else
  match consider_all t p scan_start (seqZ 0 (count t)) with
  | inl r => (r, None)
  | inr s =>
      if! eligible_mask s =? 0 return (NWK_PARENT_NONE, None) ;;
      let best := choose t p s in
      if! best =? NWK_CANDIDATES_CAPACITY return (NWK_PARENT_AMBIGUOUS_UPDATE, None) ;;
      match get (Some t) best true with
      | (NWK_CANDIDATES_OK, Some c) => (NWK_PARENT_OK, Some {| index := best; candidate := c |})
      | _ => (NWK_PARENT_INVALID_TABLE, None)
      end
  end.
Proof.
  intros Hok. unfold nwk_parent_select, policy_valid. cbn [negb orb].
  replace (minimum_known p <=? 1) with (negb (1 <? minimum_known p)) by lia.
  destruct (1 <? minimum_known p); [done|]. destruct (any_all _) as [any all].
  cbn [fst snd negb andb]. destruct ((any =? 0) || (all =? 0xff)); [done|]. cbn [negb andb].
  assert (negb (bool_decide ((get (Some t) 0 true).1 = NWK_CANDIDATES_OK)) &&
          negb (bool_decide ((get (Some t) 0 true).1 = NWK_CANDIDATES_BAD_INDEX)) = false) as ->
    by (rewrite parent_get by done; by destruct (live t !! _)).
  destruct (Z.land (potential_mask p) _ =? 0); [|done]. cbn [negb andb].
  assert (existsb (λ i, (rd (link_cost p) i <? 1) || (7 <? rd (link_cost p) i)) (seqZ 0 (count t))
    = negb (forallb (λ i, (1 <=? rd (link_cost p) i) && (rd (link_cost p) i <=? 7)) (seqZ 0 (count t))))
    as ->.
  { induction (seqZ 0 (count t)) as [|i rest IH]; [done|]. cbn [existsb forallb]. rewrite IH.
    by rewrite !Z.ltb_antisym, !negb_andb. }
  by destruct (forallb _ _).
Qed.
Lemma parent_scan_start t p : table_ok router_join parent_recovery t → scanned t p 0 scan_start.
Proof.
  intros Hok. split; cbn [eligible_mask updates depth scan_start].
  - done.
  - intros i Hi. rewrite Z.bits_0. by replace (i <? 0) with false by lia.
  - intros i Hi Hx%parent_current_range; [lia|done].
  - intros _ i Hi Hx%parent_current_range; [lia|done].
  - intros i Hi. unfold unordered. destruct (suitable p (live t) i) eqn:E; [|done].
    apply parent_suitable_range in E; [lia|done].
Qed.
Lemma parent_all_ordered t p s i :
  table_ok router_join parent_recovery t → scanned t p (count t) s → unordered p (live t) i = false.
Proof.
  intros Hok Hs. destruct (unordered p (live t) i) eqn:E; [|done]. rewrite <- E.
  apply (scan_ordered _ _ _ _ Hs). unfold unordered in E. rewrite !andb_true_iff in E.
  destruct E as [[E _] _]. apply parent_suitable_range in E; [lia|done].
Qed.

(** C7: parent selection is optimal. On a good table, a refused policy is one that breaks its
    stated guards. Otherwise the selected index and candidate are a current candidate of the
    policy whose update identifier is equal to or newer than that of every current candidate,
    and which is ranked before every other such one: by link cost, then by index, and in
    the recovery build, on a table marked for rejoining, by tree depth before both
    ([parent_rejoin_ranks_depth] below; the header promises that depth is never ranked).  NONE says
    that no suitable candidate is unordered with the known minimum and none is current;
    AMBIGUOUS says that some suitable candidate is unordered with the known minimum, whatever
    the others are, or that there are current candidates but none is newest. The outcome is never
    an invalid table. *)
Theorem nwk_parent_select_correct t p :
  table_ok router_join parent_recovery t →
  let l := live t in
  match nwk_parent_select (Some t) (Some p) true with
  | (NWK_PARENT_OK, Some choice) =>
      policy_valid t p = true ∧ (∀ i, unordered p l i = false) ∧ newest p l (index choice) ∧
      l !! Z.to_nat (index choice) = Some (candidate choice) ∧
      (∀ j, newest p l j → j ≠ index choice →
            ranked_before (rank p l (by_depth t) (index choice)) (rank p l (by_depth t) j))
  | (NWK_PARENT_NONE, None) =>
      policy_valid t p = true ∧ (∀ i, unordered p l i = false) ∧ ∀ i, current p l i = false
  | (NWK_PARENT_AMBIGUOUS_UPDATE, None) =>
      policy_valid t p = true ∧
      ((∃ i, unordered p l i = true) ∨ ((∃ i, current p l i = true) ∧ ∀ i, ¬ newest p l i))
  | (NWK_PARENT_INVALID_ARGUMENT, None) => policy_valid t p = false
  | _ => False
  end.
Proof.
  intros Hok l. pose proof (parent_count t Hok) as [Hc Hl]. rewrite parent_select_guards by done.
  destruct (policy_valid t p) eqn:Hp; [|done]. cbn [negb].
  pose proof (parent_consider_all t p Hok (Z.to_nat (count t)) 0 _ (parent_scan_start t p Hok)
    ltac:(lia) ltac:(lia)) as Hs.
  rewrite Z2Nat.id, Z.add_0_l in Hs by lia. destruct (consider_all _ _ _ _) as [r|s].
  { destruct Hs as [-> Hs]. split; [done|by left]. }
  pose proof (λ i, parent_all_ordered t p s i Hok Hs) as Ho.
  pose proof (parent_none_marked t p Hok s Hs) as Hn. pose proof (parent_choose t p Hok s Hs) as Hb.
  destruct (eligible_mask s =? 0) eqn:E6.
  { split; [done|]. split; [done|]. apply Hn. lia. }
  unfold NWK_CANDIDATES_CAPACITY. destruct (choose t p s =? 4) eqn:E7.
  - split; [done|]. right. destruct Hb as [[_ Hb]|Hb]; [|lia]. split.
    + destruct (decide (Exists (λ i, current p l i = true) (seqZ 0 (count t)))) as [(i&_&?)%list.Exists_exists|Hx].
      { by exists i. }
      exfalso. apply Z.eqb_neq in E6. apply E6, Hn. intros i. apply not_true_is_false. intros Hi.
      apply Hx, list.Exists_exists. exists i. split; [|done]. apply elem_of_seqZ.
      apply parent_current_range in Hi; [lia|done].
    + intros i Hi. apply (Hb i); [|done]. destruct Hi as [Hi _]. apply parent_current_range in Hi; [lia|done].
  - destruct Hb as [[Hb _]|(Hr&Hnw&Hb)]; [lia|]. rewrite parent_get by (done || lia).
    fold l. fold l in Hl. destruct (lookup_lt_is_Some_2 l (Z.to_nat (choose t p s))) as [c Hx]; [lia|].
    rewrite Hx. cbn [index candidate]. split_and!; try done. intros j Hj Hne. apply Hb; [|done..].
    destruct Hj as [Hj _]. apply parent_current_range in Hj; [lia|done].
Qed.
End build.

(** ** Concrete instances: two routers of one network, the second with the newer update
    identifier. *)
Definition sample_two : nwk_candidates_t :=
  foldl (perform false false) sample_table
    [Consider 0 11 1 (sample_beacon 0x1234 0xcfff 250) 26;
     Consider 0 11 1 (sample_beacon 0x5678 0x8fff 3) 26].
Definition sample_policy : nwk_parent_policy_t := {|
  extended_pan_id := sample_epid; potential_mask := 3; link_cost := [1; 3; 0; 0];
  minimum_known := 1; minimum_update_id := 250 |}.
Lemma sample_two_ok : table_ok false false sample_two.
Proof.
  pose proof (cand_init false false 0x800 no_table sample_table eq_refl) as (H&_&Hl).
  eapply (cand_history false false); [done|by rewrite Hl|]. reflexivity.
Qed.
Lemma nwk_parent_select_correct_witness :
  let l := live sample_two in
  match nwk_parent_select false false (Some sample_two) (Some sample_policy) true with
  | (NWK_PARENT_OK, Some choice) =>
      policy_valid sample_two sample_policy = true ∧ (∀ i, unordered sample_policy l i = false) ∧
      newest sample_policy l (index choice) ∧
      l !! Z.to_nat (index choice) = Some (candidate choice) ∧
      (∀ j, newest sample_policy l j → j ≠ index choice →
            ranked_before (rank sample_policy l (by_depth false sample_two) (index choice))
                          (rank sample_policy l (by_depth false sample_two) j))
  | (NWK_PARENT_NONE, None) =>
      policy_valid sample_two sample_policy = true ∧ (∀ i, unordered sample_policy l i = false) ∧
      ∀ i, current sample_policy l i = false
  | (NWK_PARENT_AMBIGUOUS_UPDATE, None) =>
      policy_valid sample_two sample_policy = true ∧
      ((∃ i, unordered sample_policy l i = true) ∨
       ((∃ i, current sample_policy l i = true) ∧ ∀ i, ¬ newest sample_policy l i))
  | (NWK_PARENT_INVALID_ARGUMENT, None) => policy_valid sample_two sample_policy = false
  | _ => False
  end.
Proof. exact (nwk_parent_select_correct false false sample_two sample_policy sample_two_ok). Defined.
Example sample_choice :
  (index <$> (nwk_parent_select false false (Some sample_two) (Some sample_policy) true).2) = Some 1.
Proof. by vm_compute. Qed.
(** The depth that is ranked in the recovery build: two routers of equal update identifier, the first
    cheaper to reach but deeper in the tree.  Marked for rejoining, the second is selected, against
    nwk_parent.h ("Profile2 depth is never ranked"); otherwise the first. *)
Definition sample_depths (mark : list operation) : nwk_candidates_t :=
  foldl (perform false true) sample_table
    (mark ++ [Consider 0 11 1 (<[13%nat := 0x8c]> (sample_beacon 0x1234 0xcfff 250)) 26;
              Consider 0 11 1 (sample_beacon 0x5678 0x8fff 250) 26]).
Lemma parent_rejoin_ranks_depth :
  let choose mark := index <$> (nwk_parent_select false true (Some (sample_depths mark)) (Some sample_policy) true).2 in
  (λ i, device_depth (network (entry (entries (sample_depths [Rejoin])) i))) <$> [0; 1] = [1; 0] ∧
  choose [Rejoin] = Some 1 ∧ choose [] = Some 0.
Proof. by vm_compute. Qed.
End Parent.
