(* ===== verification/Security.v ===== *)
(** * Frame security, src/src/zigbee_security.c

    The NWK and APS auxiliary security header over the frame codecs of NwkFrame.v and
    ApsFrame.v and the AEAD of Ccm.v.  The private static record is the value [frame_state], that an error
    drops: every path of the code wipes it. *)
From S2P Require Import Prelude ApsFrame NwkFrame BlockCipher Ccm.
Import BlockCipher.

Module Security.

(** ** Data (include/zigbee_security.h) *)
Definition ZIGBEE_SECURITY_NWK := 0.
Definition ZIGBEE_SECURITY_APS := 1.

Inductive zigbee_security_result_t :=
  | ZIGBEE_SECURITY_OK | ZIGBEE_SECURITY_ARGUMENT | ZIGBEE_SECURITY_LENGTH
  | ZIGBEE_SECURITY_HEADER | ZIGBEE_SECURITY_LEVEL | ZIGBEE_SECURITY_AUX
  | ZIGBEE_SECURITY_COUNTER | ZIGBEE_SECURITY_SELECTOR | ZIGBEE_SECURITY_SOURCE
  | ZIGBEE_SECURITY_SPACE | ZIGBEE_SECURITY_AES | ZIGBEE_SECURITY_AUTH
  | ZIGBEE_SECURITY_CCM.
#[export] Instance zigbee_security_result_eq : EqDecision zigbee_security_result_t.
Proof. solve_decision. Defined.

Record zigbee_security_key_t := {
  key : bytes; source : bytes; counter : Z; level : Z; key_identifier : Z; key_sequence : Z;
  extended_nonce : Z; limits : Ccm.ccm_star_limits_t
}.
Record zigbee_security_meta_t := {
  m_counter : Z; m_source : bytes; m_level : Z; m_key_identifier : Z; m_key_sequence : Z;
  m_extended_nonce : Z; header_length : Z; auxiliary_length : Z; payload_length : Z
}.
Record zigbee_security_info_t := {
  meta : zigbee_security_meta_t; crypto : Ccm.ccm_star_info_t; info_length : Z
}.
Definition zero_meta : zigbee_security_meta_t :=
  Build_zigbee_security_meta_t 0 (replicate 8 0) 0 0 0 0 0 0 0.
Definition zero_nwk : Nwk.nwk_frame_info_t :=
  Nwk.Build_nwk_frame_info_t
    (Nwk.Build_nwk_header_t 0 0 0 0 0 0 0 0 (replicate 8 0) (replicate 8 0)) 0 0.
Definition zero_aps : Aps.aps_frame_info_t :=
  Aps.Build_aps_frame_info_t (Aps.Build_aps_header_t 0 0 0 0 0 0 0 0) 0 0.

(** The private working record: packet, metadata, MIC length, command marker. *)
Record frame_state := {
  packet : bytes; s_meta : zigbee_security_meta_t; mic : Z; command : bool
}.

Definition security_flag (layer : Z) (enabled : bool) (p : bytes) : bytes :=
  if layer =? ZIGBEE_SECURITY_NWK then
    let m := Z.shiftr Nwk.NWK_FLAG_SECURITY 8 in
    let p := wr p 1 (Z.land (rd p 1) (u8 (Z.lnot m))) in
    if enabled then wr p 1 (Z.lor (rd p 1) m) else p
  else
    let p := wr p 0 (Z.land (rd p 0) (u8 (Z.lnot Aps.APS_FLAG_SECURITY))) in
    if enabled then wr p 0 (Z.lor (rd p 0) Aps.APS_FLAG_SECURITY) else p.

Definition max_body (layer : Z) : Z :=
  if layer =? ZIGBEE_SECURITY_NWK then Nwk.NWK_FRAME_MAX_BODY else Aps.APS_FRAME_MAX_BODY.

(** The header length by the layer's codec, and whether the frame is an APS command; the
    packet's security flag is clear. *)
Definition clear_header (layer : Z) (frame p : bytes) (length : Z) : option (Z * bool) :=
  if layer =? ZIGBEE_SECURITY_NWK then
    match Nwk.nwk_frame_decode (Some p) length (Some zero_nwk) with
    | (Nwk.NWK_CODEC_OK, Some i) => Some (Nwk.payload_offset i, false)
    | _ => None
    end
  else if Z.land (rd frame 0) 3 =? 1 then
    if! has (rd p 0) (u8 (Z.lnot (Z.lor 1 Aps.APS_FLAG_ACK_REQUEST))) return None ;;
    Some (2, true)
  else
    match Aps.aps_frame_decode (Some p) length (Some zero_aps) with
    | (Aps.APS_CODEC_OK, Some i) => Some (Aps.payload_offset i, false)
    | _ => None
    end.

Definition header (layer : Z) (secured : bool) (level : Z) (frame : bytes) (length : Z)
    : zigbee_security_result_t + frame_state :=
  if! ZIGBEE_SECURITY_APS <? layer return inl ZIGBEE_SECURITY_ARGUMENT ;;
  if! (level =? 0) || (level =? 4) || (7 <? level) return inl ZIGBEE_SECURITY_LEVEL ;;
  if! (length <? 2) || (max_body layer <? length) return inl ZIGBEE_SECURITY_LENGTH ;;
  let p := blit (replicate 116 0) 0 (slice frame 0 length) in
  let present := if layer =? ZIGBEE_SECURITY_NWK
                 then has (rd frame 1) (Z.shiftr Nwk.NWK_FLAG_SECURITY 8)
                 else has (rd frame 0) Aps.APS_FLAG_SECURITY in
  if! negb (Bool.eqb present secured) return inl ZIGBEE_SECURITY_HEADER ;;
  let p := security_flag layer false p in
  match clear_header layer frame p length with
  | None => inl ZIGBEE_SECURITY_HEADER
  | Some (h, cmd) =>
      inr {| packet := security_flag layer true p;
             s_meta := {| m_counter := 0; m_source := replicate 8 0; m_level := level;
                          m_key_identifier := 0; m_key_sequence := 0; m_extended_nonce := 0;
                          header_length := h; auxiliary_length := 0; payload_length := 0 |};
             mic := u8 (Z.shiftl 2 (Z.land level 3)); command := cmd |}
  end.

(** [shape]: the auxiliary length for the key selection, or the refusal. *)
Definition shape (layer : Z) (cmd : bool) (identifier extended counter : Z)
    : zigbee_security_result_t + Z :=
  if! (1 <? extended) || (3 <? identifier) return inl ZIGBEE_SECURITY_AUX ;;
  if! (if layer =? ZIGBEE_SECURITY_NWK then negb (identifier =? 1) || (extended =? 0)
       else (identifier =? 1) || (negb cmd && negb (identifier =? 0)) || (cmd && (extended =? 0)))
    return inl ZIGBEE_SECURITY_AUX ;;
  if! counter =? 0xffffffff return inl ZIGBEE_SECURITY_COUNTER ;;
  inr (u8 (5 + 8 * extended + (if identifier =? 1 then 1 else 0))).

Definition read_counter (b : bytes) (i : Z) : Z :=
  Z.lor (Z.lor (Z.lor (rd b i) (Z.shiftl (rd b (i + 1)) 8)) (Z.shiftl (rd b (i + 2)) 16))
        (Z.shiftl (rd b (i + 3)) 24).

Definition inspect (layer level : Z) (frame : bytes) (length : Z)
    : zigbee_security_result_t + frame_state :=
  match header layer true level frame length with
  | inl r => inl r
  | inr s =>
      let h := header_length (s_meta s) in
      if! length <? h + 5 return inl ZIGBEE_SECURITY_LENGTH ;;
      let control := rd frame h in
      if! has control 0xc0 return inl ZIGBEE_SECURITY_AUX ;;
      let identifier := Z.land (Z.shiftr control 3) 3 in
      let extended := Z.land (Z.shiftr control 5) 1 in
      let counter := read_counter frame (h + 1) in
      match shape layer (command s) identifier extended counter with
      | inl r => inl r
      | inr a =>
          if! length <? h + a + mic s return inl ZIGBEE_SECURITY_LENGTH ;;
          let p := u8 (length - h - a - mic s) in
          if! command s && (p =? 0) return inl ZIGBEE_SECURITY_LENGTH ;;
          inr {| packet := wr (packet s) h (Z.lor (Z.land control 0xf8) level);
                 s_meta := {| m_counter := counter;
                              m_source := if negb (extended =? 0) then slice frame (h + 5) 8
                                          else replicate 8 0;
                              m_level := level; m_key_identifier := identifier;
                              m_key_sequence := if identifier =? 1 then rd frame (h + a - 1) else 0;
                              m_extended_nonce := extended; header_length := h;
                              auxiliary_length := a; payload_length := p |};
                 mic := mic s; command := command s |}
      end
  end.

Definition zigbee_security_inspect (layer level : Z) (frame : option bytes) (length : Z)
    (meta_out : bool) : zigbee_security_result_t * option zigbee_security_meta_t :=
  match frame with
  | None => (ZIGBEE_SECURITY_ARGUMENT, None)
  | Some f =>
      if! negb meta_out return (ZIGBEE_SECURITY_ARGUMENT, None) ;;
      match inspect layer level f length with
      | inl r => (r, None)
      | inr s => (ZIGBEE_SECURITY_OK, Some (s_meta s))
      end
  end.

(** [if (result != ZIGBEE_SECURITY_OK) goto done;] *)
Definition and_then {A B} (x : zigbee_security_result_t + A)
    (f : A → zigbee_security_result_t + B) : zigbee_security_result_t + B :=
  match x with inl r => inl r | inr a => f a end.

(** What an opening call asks of the inspected frame. *)
Definition selected (k : zigbee_security_key_t) (s : frame_state)
    : zigbee_security_result_t + frame_state :=
  let m := s_meta s in
  if! negb (m_key_identifier m =? key_identifier k)
      || negb (m_extended_nonce m =? extended_nonce k)
      || ((key_identifier k =? 1) && negb (m_key_sequence m =? key_sequence k))
    return inl ZIGBEE_SECURITY_SELECTOR ;;
  if! negb (m_extended_nonce m =? 0)
      && negb (bool_decide (slice (m_source m) 0 8 = slice (source k) 0 8))
    return inl ZIGBEE_SECURITY_SOURCE ;;
  inr {| packet := packet s;
         s_meta := {| m_counter := m_counter m; m_source := slice (source k) 0 8;
                      m_level := m_level m; m_key_identifier := m_key_identifier m;
                      m_key_sequence := m_key_sequence m; m_extended_nonce := m_extended_nonce m;
                      header_length := header_length m; auxiliary_length := auxiliary_length m;
                      payload_length := payload_length m |};
         mic := mic s; command := command s |}.

(** What a sealing call fills in. *)
Definition prepared (layer : Z) (k : zigbee_security_key_t) (length : Z) (s : frame_state)
    : zigbee_security_result_t + frame_state :=
  match shape layer (command s) (key_identifier k) (extended_nonce k) (counter k) with
  | inl r => inl r
  | inr a =>
      let h := header_length (s_meta s) in
      let p := u8 (length - h) in
      if! command s && (p =? 0) return inl ZIGBEE_SECURITY_LENGTH ;;
      inr {| packet := packet s;
             s_meta := {| m_counter := counter k; m_source := slice (source k) 0 8;
                          m_level := m_level (s_meta s); m_key_identifier := key_identifier k;
                          m_key_sequence := if key_identifier k =? 1 then key_sequence k else 0;
                          m_extended_nonce := extended_nonce k; header_length := h;
                          auxiliary_length := a; payload_length := p |};
             mic := mic s; command := command s |}
  end.

(** The octets of the frame counter, in wire order. *)
Definition counter_bytes (c : Z) : bytes :=
  (λ i, u8 (Z.shiftr c (8 * i))) <$> [0; 1; 2; 3].

(** The auxiliary header and the payload behind it, written into the packet. *)
Definition write_auxiliary (k : zigbee_security_key_t) (frame : bytes) (h a p : Z) (b : bytes) : bytes :=
  let b := wr b h (Z.lor (Z.lor (level k) (u8 (Z.shiftl (key_identifier k) 3)))
                         (u8 (Z.shiftl (extended_nonce k) 5))) in
  let b := blit b (h + 1) (counter_bytes (counter k)) in
  let b := if negb (extended_nonce k =? 0) then blit b (h + 5) (slice (source k) 0 8) else b in
  let b := if key_identifier k =? 1 then wr b (h + a - 1) (key_sequence k) else b in
  if negb (p =? 0) then blit b (h + a) (slice frame h p) else b.

Section crypt.
Context {D : Type} `{!BlockCipher D}.
Abbreviation outcome :=
  (zigbee_security_result_t * option bytes * option zigbee_security_info_t * D)%type.

(** From the bound checks to the copy out. *)
Definition crypt_packet (d : D) (opening : bool) (layer : Z) (k : zigbee_security_key_t)
    (frame : bytes) (capacity : Z) (s : frame_state) : outcome :=
  let m := s_meta s in
  let h := header_length m in let a := auxiliary_length m in let p := payload_length m in
  let total := u8 (h + p + (if opening then 0 else a + mic s)) in
  if! max_body layer <? total return (ZIGBEE_SECURITY_LENGTH, None, None, d) ;;
  if! capacity <? total return (ZIGBEE_SECURITY_SPACE, None, None, d) ;;
  let b := if opening then packet s else write_auxiliary k frame h a p (packet s) in
  let nonce := slice (source k) 0 8 ++ slice b (h + 1) 4 ++ [rd b h] in
  let encrypted := has (level k) 4 in
  let auth_length := if encrypted then h + a else h + a + p in
  let cipher_length := (if encrypted then p else 0) + (if opening then mic s else 0) in
  let '(r, payload, size, crypto, d) :=
    Ccm.ccm_star_crypt d (if opening then 1 else 0) (Some (key k)) (Some nonce)
      (Some (slice b 0 auth_length)) auth_length
      (Some (slice b auth_length cipher_length)) cipher_length (mic s)
      true 132 true (Some (limits k)) true in
  match r with
  | Ccm.CCM_STAR_OK =>
      let payload := default [] payload in let size := default 0 size in
      let b :=
        if opening then
          let b := security_flag layer false b in
          if negb (p =? 0) then
            if encrypted then blit b h (slice payload 0 p) else blit b h (slice frame (h + a) p)
          else b
        else
          let b := blit b (h + a + (if encrypted then 0 else p)) (slice payload 0 size) in
          wr b h (Z.land (rd b h) 0xf8) in
      (ZIGBEE_SECURITY_OK, Some (slice b 0 total),
       Some {| meta := m;
               crypto := default (Ccm.Build_ccm_star_info_t 0 0 AES_OK) crypto;
               info_length := total |}, d)
  | Ccm.CCM_STAR_AUTH => (ZIGBEE_SECURITY_AUTH, None, None, d)
  | Ccm.CCM_STAR_AES => (ZIGBEE_SECURITY_AES, None, None, d)
  | _ => (ZIGBEE_SECURITY_CCM, None, None, d)
  end.

Definition zigbee_security_crypt (d : D) (op layer : Z) (k : option zigbee_security_key_t)
    (frame : option bytes) (length : Z) (output : bool) (capacity : Z) (info_out : bool) : outcome :=
  match k, frame with
  | Some k, Some f =>
      if! (1 <? op) || negb output || negb info_out return (ZIGBEE_SECURITY_ARGUMENT, None, None, d) ;;
      let opening := negb (op =? 0) in
      let s := if opening then and_then (inspect layer (level k) f length) (selected k)
               else and_then (header layer false (level k) f length) (prepared layer k length) in
      match s with
      | inl r => (r, None, None, d)
      | inr s => crypt_packet d opening layer k f capacity s
      end
  | _, _ => (ZIGBEE_SECURITY_ARGUMENT, None, None, d)
  end.
End crypt.

(** ** The security flag *)
Definition present (layer : Z) (b : bytes) : bool :=
  if layer =? ZIGBEE_SECURITY_NWK then has (rd b 1) (Z.shiftr Nwk.NWK_FLAG_SECURITY 8)
  else has (rd b 0) Aps.APS_FLAG_SECURITY.

Lemma security_flag_len layer e b : blen (security_flag layer e b) = blen b.
Proof. unfold security_flag. by destruct (layer =? _), e; rewrite ?blen_wr. Qed.
Lemma security_flag_bytes layer e b : is_bytes b → is_bytes (security_flag layer e b).
Proof.
  intros Hb. pose proof (rd_is_u8 b 0 Hb). pose proof (rd_is_u8 b 1 Hb).
  assert (∀ x m, is_u8 x → is_u8 (Z.land x (u8 (Z.lnot m)))) as Hl.
  { intros x m Hx. apply is_u8_land; [apply Hx|]. pose proof (u8_range (Z.lnot m)). width. }
  assert (∀ x, is_u8 x → is_u8 (Z.lor x 2) ∧ is_u8 (Z.lor x 32)) as Ho.
  { intros x Hx. unfold is_u8. split; split; try (apply Z.lor_nonneg; unfold is_u8 in *; lia).
    - assert ((Z.lor x 2 <? 256) = true); [by_u8 x|lia].
    - assert ((Z.lor x 32 <? 256) = true); [by_u8 x|lia]. }
  unfold security_flag. destruct (layer =? _), e; repeat apply is_bytes_wr; try done; try by apply Hl.
  - apply Ho, rd_is_u8, is_bytes_wr; [done|]. by apply Hl.
  - apply Ho, rd_is_u8, is_bytes_wr; [done|]. by apply Hl.
Qed.
Lemma security_flag_app layer e a b :
  2 <= blen a → security_flag layer e (a ++ b) = security_flag layer e a ++ b.
Proof.
  intros Hl. unfold security_flag. destruct (layer =? _), e;
    repeat first [rewrite wr_app_l by (rewrite ?blen_wr; lia) | rewrite rd_app_l by (rewrite ?blen_wr; lia)];
    done.
Qed.
Lemma security_wr_wr (b : bytes) i x y : wr (wr b i x) i y = wr b i y.
Proof. unfold wr. apply list_insert_insert_eq. Qed.
Lemma security_wr_rd b i : 0 <= i < blen b → wr b i (rd b i) = b.
Proof.
  intros Hi. unfold wr, rd, blen in *. apply list_insert_id.
  destruct (lookup_lt_is_Some_2 b (Z.to_nat i)) as [x Hx]; [lia|]. by rewrite Hx.
Qed.

(** The flag as a bit of one octet: clearing after setting, setting after clearing. *)
Lemma security_flag_octet layer e b :
  2 <= blen b → is_bytes b →
  let i := if layer =? ZIGBEE_SECURITY_NWK then 1 else 0 in
  let m := if layer =? ZIGBEE_SECURITY_NWK then 2 else 32 in
  security_flag layer e b
  = wr b i (if e then Z.lor (Z.land (rd b i) (255 - m)) m else Z.land (rd b i) (255 - m)).
Proof.
  intros Hl Hb. unfold security_flag. destruct (layer =? _), e; try done;
    by rewrite security_wr_wr, rd_wr, Z.eqb_refl by lia.
Qed.
Lemma security_flag_twice layer e e' b :
  2 <= blen b → is_bytes b →
  security_flag layer e (security_flag layer e' b) = security_flag layer e b.
Proof.
  intros Hl Hb. pose proof (security_flag_len layer e' b). pose proof (security_flag_bytes layer e' b Hb).
  rewrite !(security_flag_octet layer e) by (done || lia). rewrite security_flag_octet by done.
  pose proof (rd_is_u8 b 0 Hb). pose proof (rd_is_u8 b 1 Hb).
  destruct (layer =? _); rewrite security_wr_wr, rd_wr, Z.eqb_refl by lia; f_equal; destruct e, e';
    match goal with |- context [rd b ?i] => generalize dependent (rd b i) end; intros x ?; by_u8 x.
Qed.
Lemma security_flag_present layer e b :
  2 <= blen b → is_bytes b → present layer (security_flag layer e b) = e.
Proof.
  intros Hl Hb. rewrite security_flag_octet by done. pose proof (rd_is_u8 b 0 Hb).
  pose proof (rd_is_u8 b 1 Hb). unfold present.
  destruct (layer =? _); rewrite rd_wr, Z.eqb_refl by lia;
    match goal with |- context [rd b ?i] => generalize dependent (rd b i) end; intros x ?; destruct e; by_u8 x.
Qed.
Lemma security_flag_absent layer b :
  2 <= blen b → is_bytes b → present layer b = false → security_flag layer false b = b.
Proof.
  intros Hl Hb. rewrite security_flag_octet by done. pose proof (rd_is_u8 b 0 Hb).
  pose proof (rd_is_u8 b 1 Hb). unfold present.
  assert (∀ x m, is_u8 x → m = 2 ∨ m = 32 → has x m = false → Z.land x (255 - m) = x) as Hx.
  { intros x m Hx Hm Hh. destruct Hm as [-> | ->].
    - assert (has x 2 || (Z.land x (255 - 2) =? x) = true) as E by by_u8 x.
      rewrite Hh in E. by apply Z.eqb_eq.
    - assert (has x 32 || (Z.land x (255 - 32) =? x) = true) as E by by_u8 x.
      rewrite Hh in E. by apply Z.eqb_eq. }
  destruct (layer =? _); intros Hp; rewrite Hx by (done || by left + right); apply security_wr_rd; lia.
Qed.
Lemma security_present_app layer a b : 2 <= blen a → present layer (a ++ b) = present layer a.
Proof. intros. unfold present. by destruct (layer =? _); rewrite rd_app_l by lia. Qed.

(** ** The header length depends on the header only *)
Lemma security_clear_header_range layer f p n h c :
  is_bytes p → 2 <= n → clear_header layer f p n = Some (h, c) → 2 <= h <= n ∧ (c = false → 8 <= h).
Proof.
  intros Hp Hn. unfold clear_header. destruct (layer =? _).
  - unfold Nwk.nwk_frame_decode. destruct (_ <? n); [done|]. destruct (n <? _); [done|].
    destruct (Nwk.header_shape _) as [[] z] eqn:E; try done.
    destruct (n <? z) eqn:Ez; [done|]. intros [= <- <-]. cbn [Nwk.payload_offset].
    apply Nwk.nwk_header_shape_ok in E as (_&_&_&_&_&_&->);
      [|apply is_u16_land; pose proof (read_le16_range p 0 Hp); width].
    pose proof (Nwk.nwk_header_size_range (Nwk.flags (Nwk.parse_header p))). lia.
  - destruct (_ =? 1); [destruct (has _ _); [done|]; intros [= <- <-]; lia|].
    unfold Aps.aps_frame_decode, Aps.APS_FRAME_HEADER_SIZE. destruct (_ <? n); [done|].
    destruct (n =? 0); [done|]. destruct (negb _); [done|]. destruct (n <? 8) eqn:E; [done|].
    destruct (Aps.validate_header _); try done. intros [= <- <-]. cbn [Aps.payload_offset]. lia.
Qed.
Lemma security_clear_header_local layer f p n h c f' p' n' :
  is_bytes p → 2 <= n → clear_header layer f p n = Some (h, c) →
  agree h p p' → Z.land (rd f 0) 3 = Z.land (rd f' 0) 3 → h <= n' <= max_body layer →
  clear_header layer f' p' n' = Some (h, c).
Proof.
  intros Hp Hn H Ha Hf Hn'.
  destruct (security_clear_header_range layer f p n h c Hp Hn H) as [Hr Hc].
  assert (∀ i, 0 <= i < h → rd p' i = rd p i) as Hrd by (intros; symmetry; by eapply agree_rd).
  revert H. unfold clear_header, max_body in *. destruct (layer =? _).
  - unfold Nwk.nwk_frame_decode, Nwk.NWK_FRAME_MAX_BODY, Nwk.NWK_FRAME_MIN_HEADER in *.
    destruct (116 <? n); [done|]. destruct (n <? 8); [done|].
    destruct (Nwk.header_shape (Nwk.parse_header p)) as [[] z] eqn:E; try done.
    destruct (n <? z); [done|]. intros [= -> <-]. specialize (Hc eq_refl).
    replace (116 <? n') with false by lia. replace (n' <? 8) with false by lia.
    assert (Nwk.parse_header p' = Nwk.parse_header p) as ->
      by (unfold Nwk.parse_header, read_le16; cbn [Z.add Pos.add]; by rewrite !Hrd by lia).
    rewrite E. by replace (n' <? h) with false by lia.
  - rewrite <- Hf. destruct (_ =? 1); [by rewrite Hrd by lia|].
    unfold Aps.aps_frame_decode, Aps.APS_FRAME_MAX_BODY, Aps.APS_FRAME_HEADER_SIZE in *.
    destruct (108 <? n); [done|]. destruct (n =? 0); [done|].
    destruct (negb (Z.land (rd p 0) 3 =? Aps.APS_FRAME_DATA)) eqn:E0; [done|].
    destruct (n <? 8); [done|].
    destruct (Aps.validate_header (Aps.parse_header p)) eqn:E; try done.
    intros [= <- <-]. specialize (Hc eq_refl). cbn [Aps.payload_offset] in *.
    replace (108 <? n') with false by lia. replace (n' =? 0) with false by lia.
    rewrite Hrd, E0 by lia. replace (n' <? 8) with false by lia.
    assert (Aps.parse_header p' = Aps.parse_header p) as ->
      by (unfold Aps.parse_header, read_le16; cbn [Z.add Pos.add]; by rewrite !Hrd by lia).
    by rewrite E.
Qed.

Lemma security_zeros_bytes n : is_bytes (replicate n 0).
Proof. by apply Forall_replicate. Qed.

Lemma security_agree_app (a b c : bytes) h : blen a = h → agree h (a ++ b) (a ++ c).
Proof. intros <-. unfold agree, blen. by rewrite Nat2Z.id, !take_app_length. Qed.

(** ** What [header] establishes: the frame is a header [H] in front of a body [P] *)
Definition tag_length (level : Z) : Z := Z.shiftl 2 (Z.land level 3).
Definition secure_level (level : Z) : Prop :=
  level = 1 ∨ level = 2 ∨ level = 3 ∨ level = 5 ∨ level = 6 ∨ level = 7.
(** [H] is the unsecured header of a frame of the layer; [c]: of an APS command. *)
Definition header_form (layer : Z) (H : bytes) (c : bool) : Prop :=
  2 <= blen H ∧ is_bytes H ∧ present layer H = false ∧
  ∀ f rest n, Z.land (rd H 0) 3 = Z.land (rd f 0) 3 → blen H <= n <= max_body layer →
    clear_header layer f (H ++ rest) n = Some (blen H, c).

Lemma security_low_bits layer e b :
  2 <= blen b → is_bytes b → Z.land (rd (security_flag layer e b) 0) 3 = Z.land (rd b 0) 3.
Proof.
  intros Hl Hb. rewrite security_flag_octet by done. pose proof (rd_is_u8 b 0 Hb).
  destruct (layer =? _); rewrite rd_wr by lia; cbn [Z.eqb]; [done|].
  generalize dependent (rd b 0). intros x ?. destruct e; by_u8 x.
Qed.

Lemma security_header_inr layer sec lvl f n s :
  0 <= layer → is_u8 lvl → is_bytes f → n <= blen f → header layer sec lvl f n = inr s →
  let h := header_length (s_meta s) in
  let H := slice f 0 h in let P := slice f h (n - h) in
  secure_level lvl ∧ 2 <= h <= n ∧ n <= max_body layer ∧ layer <= 1 ∧
  present layer H = sec ∧ header_form layer (security_flag layer false H) (command s) ∧
  packet s = security_flag layer true H ++ P ++ replicate (116 - Z.to_nat n) 0 ∧
  mic s = tag_length lvl ∧ m_level (s_meta s) = lvl.
Proof.
  intros Hlay Hlvl Hf Hn. unfold header, ZIGBEE_SECURITY_APS.
  destruct (1 <? layer) eqn:E0; [done|].
  destruct ((lvl =? 0) || (lvl =? 4) || (7 <? lvl)) eqn:E1; [done|].
  destruct ((n <? 2) || (max_body layer <? n)) eqn:E2; [done|].
  assert (max_body layer <= 116) as Hmb by (unfold max_body; destruct (layer =? _); done).
  apply orb_false_iff in E2 as [E2 E3].
  assert (blit (replicate 116 0) 0 (slice f 0 n) = slice f 0 n ++ replicate (116 - Z.to_nat n) 0) as ->.
  { assert (blen (slice f 0 n) = n) as L by (apply blen_slice; lia).
    rewrite blit_0 by (rewrite L, blen_replicate; lia). f_equal. rewrite drop_replicate. f_equal.
    unfold blen in L. lia. }
  destruct (Bool.eqb _ sec) eqn:Ep; [|done]. cbn [negb]. apply eqb_prop in Ep.
  assert (blen (slice f 0 n) = n) as Ln by (apply blen_slice; lia).
  rewrite security_flag_app by lia.
  destruct (clear_header _ _ _ _) as [[h c]|] eqn:Ec; [|done]. intros [= <-].
  cbn [packet s_meta header_length mic command m_level].
  assert (is_bytes (slice f 0 n)) as Hsb by by apply is_bytes_slice.
  pose proof (security_clear_header_range layer f _ n h c
    (proj2 (is_bytes_app _ _) (conj (security_flag_bytes layer false _ Hsb) (security_zeros_bytes _)))
    ltac:(lia) Ec) as [Hr Hh].
  assert (slice f 0 n = slice f 0 h ++ slice f h (n - h)) as Esp by (apply slice_prefix; lia).
  assert (blen (slice f 0 h) = h) as Lh by (apply blen_slice; lia).
  assert (is_bytes (slice f 0 h)) as Hhb by by apply is_bytes_slice.
  split; [unfold secure_level; unfold is_u8 in Hlvl; lia|]. split; [done|]. split; [lia|]. split; [lia|].
  split; [|split; [|split; [|split; [|done]]]].
  - revert Ep. unfold present. intros <-. destruct (layer =? _); by rewrite rd_slice by lia.
  - split; [by rewrite security_flag_len, Lh; lia|]. split; [by apply security_flag_bytes|].
    rewrite security_flag_len, Lh. split.
    + apply security_flag_present; [lia|done].
    + intros f' rest n' Hlow Hn'. rewrite security_low_bits, rd_slice in Hlow by (done || lia).
      eapply (security_clear_header_local layer f _ n); [|lia|exact Ec| |exact Hlow|lia].
      * apply is_bytes_app. split; [by apply security_flag_bytes|apply security_zeros_bytes].
      * rewrite Esp, security_flag_app, <- app_assoc by lia.
        apply security_agree_app. by rewrite security_flag_len.
  - rewrite security_flag_app by (rewrite security_flag_len; lia).
    rewrite security_flag_twice by (done || lia). rewrite Esp, security_flag_app, <- app_assoc by lia. done.
  - unfold tag_length. apply u8_id. rewrite Z.shiftl_mul_pow2 by (pose proof (land_range lvl 3); unfold is_u8 in *; lia).
    assert (0 <= Z.land lvl 3 <= 3) as Hl3 by (apply land_range; unfold is_u8 in *; lia).
    assert (2 ^ Z.land lvl 3 <= 2 ^ 3) by (apply Z.pow_le_mono_r; lia).
    assert (0 < 2 ^ Z.land lvl 3) by (apply Z.pow_pos_nonneg; lia). unfold is_u8. lia.
Qed.

(** ** The auxiliary header *)
Definition control (k : zigbee_security_key_t) : Z :=
  Z.lor (Z.lor (level k) (u8 (Z.shiftl (key_identifier k) 3))) (u8 (Z.shiftl (extended_nonce k) 5)).
(** The auxiliary header behind the control octet, and its nonce. *)
Definition aux_tail (k : zigbee_security_key_t) : bytes :=
  counter_bytes (counter k) ++ (if negb (extended_nonce k =? 0) then source k else [])
  ++ (if key_identifier k =? 1 then [key_sequence k] else []).
Definition key_nonce (k : zigbee_security_key_t) : bytes :=
  source k ++ counter_bytes (counter k) ++ [control k].

Definition key_typed (k : zigbee_security_key_t) : Prop :=
  blen (key k) = 16 ∧ blen (source k) = 8 ∧ is_bytes (source k) ∧ is_u32 (counter k) ∧
  is_u8 (level k) ∧ is_u8 (key_identifier k) ∧ is_u8 (key_sequence k) ∧ is_u8 (extended_nonce k).
#[export] Instance security_key_typed_dec k : Decision (key_typed k).
Proof. unfold key_typed. apply _. Defined.

Lemma security_blit_app a x src :
  blen src <= blen x → blit (a ++ x) (blen a) src = a ++ src ++ drop (length src) x.
Proof.
  intros Hl. pose proof (blen_nonneg a). pose proof (blen_nonneg src).
  rewrite blit_spec by (rewrite ?blen_app; lia).
  replace (Z.to_nat (blen a + blen src)) with (length a + length src)%nat by (unfold blen; lia).
  unfold blen. rewrite Nat2Z.id, take_app_length. f_equal. f_equal.
  by rewrite drop_app_add.
Qed.
Lemma security_wr_app a v w x : wr (a ++ v :: x) (blen a) w = a ++ w :: x.
Proof.
  rewrite wr_blit, security_blit_app by (rewrite !blen_cons, blen_nil; pose proof (blen_nonneg x); lia).
  done.
Qed.
Lemma security_slice_head a x n : n = blen a → slice (a ++ x) 0 n = a.
Proof. intros ->. apply (slice_app_mid [] a x); [done|done]. Qed.

Lemma security_slice_head' b a x n : b = a ++ x → n = blen a → slice b 0 n = a.
Proof. intros ->. apply security_slice_head. Qed.

Lemma security_shape layer c i e ctr a :
  0 <= i → 0 <= e → shape layer c i e ctr = inr a →
  0 <= i <= 3 ∧ 0 <= e <= 1 ∧ (i = 1 → e = 1) ∧ ctr ≠ 0xffffffff ∧
  a = 5 + 8 * e + (if i =? 1 then 1 else 0).
Proof.
  intros Hi He. unfold shape. destruct ((1 <? e) || (3 <? i)) eqn:E1; [done|].
  destruct (if layer =? ZIGBEE_SECURITY_NWK then _ else _) eqn:E2; [done|].
  destruct (ctr =? 0xffffffff) eqn:E3; [done|]. intros [= <-].
  split; [lia|]. split; [lia|]. split; [|split; [lia|apply u8_id; destruct (i =? 1); unfold is_u8; lia]].
  intros ->. destruct (layer =? _); cbn [Z.eqb Pos.eqb negb orb andb] in E2; [lia|done].
Qed.
Lemma security_shape_ext layer c c' i e x x' :
  c = c' → x ≠ 0xffffffff → x' ≠ 0xffffffff → shape layer c i e x = shape layer c' i e x'.
Proof.
  intros <- Hx Hx'. unfold shape. replace (x =? 0xffffffff) with false by lia.
  by replace (x' =? 0xffffffff) with false by lia.
Qed.

(** The control octet: the level is not sent, the other fields are. *)
Lemma security_control_fields l i e :
  0 <= l <= 7 → 0 <= i <= 3 → 0 <= e <= 1 →
  let ctl := Z.lor (Z.lor l (u8 (Z.shiftl i 3))) (u8 (Z.shiftl e 5)) in
  let wire := Z.land ctl 0xf8 in
  is_u8 ctl ∧ has wire 0xc0 = false ∧ Z.land (Z.shiftr wire 3) 3 = i ∧
  Z.land (Z.shiftr wire 5) 1 = e ∧ Z.lor (Z.land wire 0xf8) l = ctl.
Proof.
  intros Hl Hi He.
  assert (l ∈ [0;1;2;3;4;5;6;7]) as H1 by (rewrite !elem_of_cons; lia).
  assert (i ∈ [0;1;2;3]) as H2 by (rewrite !elem_of_cons; lia).
  assert (e ∈ [0;1]) as H3 by (rewrite !elem_of_cons; lia). clear Hl Hi He.
  revert l H1 i H2 e H3. 
  assert (Forall (λ l, Forall (λ i, Forall (λ e,
    let ctl := Z.lor (Z.lor l (u8 (Z.shiftl i 3))) (u8 (Z.shiftl e 5)) in
    let wire := Z.land ctl 0xf8 in
    is_u8 ctl ∧ has wire 0xc0 = false ∧ Z.land (Z.shiftr wire 3) 3 = i ∧
    Z.land (Z.shiftr wire 5) 1 = e ∧ Z.lor (Z.land wire 0xf8) l = ctl) [0;1]) [0;1;2;3])
    [0;1;2;3;4;5;6;7]) as H
    by (repeat (apply list.Forall_cons_2 || apply list.Forall_nil_2); cbv zeta; concrete).
  intros l Hl i Hi e He. rewrite list.Forall_forall in H. specialize (H l Hl).
  rewrite list.Forall_forall in H. specialize (H i Hi). rewrite list.Forall_forall in H. by apply H.
Qed.

Lemma security_counter_len c : blen (counter_bytes c) = 4.
Proof. done. Qed.
Lemma security_counter_bytes c : is_bytes (counter_bytes c).
Proof. unfold counter_bytes. apply Forall_fmap, Forall_true. intros i. simpl. apply u8_range. Qed.
Lemma security_counter_value b i c :
  is_u32 c → (∀ j, 0 <= j < 4 → rd b (i + j) = rd (counter_bytes c) j) → read_counter b i = c.
Proof.
  intros Hc H. unfold read_counter. replace (rd b i) with (rd b (i + 0)) by (f_equal; lia).
  rewrite !H by lia. change (rd (counter_bytes c) 0) with (u8 (Z.shiftr c 0)).
  change (rd (counter_bytes c) 1) with (u8 (Z.shiftr c 8)).
  change (rd (counter_bytes c) 2) with (u8 (Z.shiftr c 16)).
  change (rd (counter_bytes c) 3) with (u8 (Z.shiftr c 24)).
  apply Z.bits_inj'. intros n Hn. rewrite !Z.lor_spec. unfold u8. change 256 with (2 ^ 8).
  rewrite !Z.shiftl_spec by lia.
  assert (∀ x m, Z.testbit (x mod 2 ^ 8) m = (m <? 8) && Z.testbit x m) as Hm.
  { intros x m. destruct (decide (m < 0)); [rewrite !Z.testbit_neg_r by lia; by rewrite andb_false_r|].
    destruct (m <? 8) eqn:?; [by rewrite Z.mod_pow2_bits_low by lia|by rewrite Z.mod_pow2_bits_high by lia]. }
  rewrite !Hm.
  assert (∀ s, 0 <= s → Z.testbit (Z.shiftr c s) (n - s) = (s <=? n) && Z.testbit c n) as Hs.
  { intros s Hs. destruct (s <=? n) eqn:?; [rewrite Z.shiftr_spec by lia; cbn [andb]; f_equal; lia|].
    by rewrite Z.testbit_neg_r by lia. }
  rewrite (Z.shiftr_0_r c), !Hs by lia.
  destruct (n <? 32) eqn:E32.
  - destruct (Z.testbit c n); [|by rewrite !andb_false_r]. rewrite !andb_true_r. lia.
  - rewrite <- (Z.mod_small c (2 ^ 32)) by (unfold is_u32 in Hc; lia).
    by rewrite Z.mod_pow2_bits_high, !andb_false_r by lia.
Qed.

Lemma security_write_auxiliary k f h a p H1 X :
  key_typed k → blen H1 = h → 0 <= h → 0 <= p → h + p <= blen f → h + a + p <= blen (H1 ++ X) →
  (key_identifier k = 1 → extended_nonce k = 1) → 0 <= extended_nonce k <= 1 →
  a = 5 + 8 * extended_nonce k + (if key_identifier k =? 1 then 1 else 0) →
  ∃ R, write_auxiliary k f h a p (H1 ++ X) = H1 ++ (control k :: aux_tail k) ++ slice f h p ++ R ∧
       blen (control k :: aux_tail k) = a ∧ blen (H1 ++ (control k :: aux_tail k) ++ slice f h p ++ R) = blen (H1 ++ X).
Proof.
  intros (_&Ls&_) <- Hh Hp Hf Hl Hie He Ha. set (h := blen H1) in *.
  unfold write_auxiliary. fold (control k).
  assert (blen (control k :: aux_tail k) = a) as La.
  { unfold aux_tail. rewrite blen_cons, !blen_app, security_counter_len, Ha.
    destruct (extended_nonce k =? 0) eqn:E0; destruct (key_identifier k =? 1) eqn:E1; cbn [negb];
      rewrite ?Ls, ?blen_nil, ?blen_cons, ?blen_nil; lia. }
  assert (blen (slice f h p) = p) as Lp by (apply blen_slice; lia).
  exists (drop (length ((control k :: aux_tail k) ++ slice f h p)) X).
  rewrite blen_app in Hl.
  assert (blen ((control k :: aux_tail k) ++ slice f h p) <= blen X) as Hfit by (rewrite blen_app; lia).
  assert (H1 ++ (control k :: aux_tail k) ++ slice f h p
    ++ drop (length ((control k :: aux_tail k) ++ slice f h p)) X
    = blit (H1 ++ X) h ((control k :: aux_tail k) ++ slice f h p)) as ->
    by (unfold h; rewrite security_blit_app by done; by rewrite <- !app_assoc).
  rewrite blen_blit. split; [|done].
  assert ((if negb (p =? 0) then blit (blit (H1 ++ X) h (control k :: aux_tail k)) (h + a) (slice f h p)
           else blit (H1 ++ X) h (control k :: aux_tail k))
          = blit (H1 ++ X) h ((control k :: aux_tail k) ++ slice f h p)) as <-.
  { destruct (p =? 0) eqn:E; cbn [negb]; [|by apply blit_blit'; lia].
    replace p with 0 by lia. by rewrite app_nil_r. }
  assert (∀ b, (if key_identifier k =? 1 then wr
      (if negb (extended_nonce k =? 0) then blit (blit (wr b h (control k)) (h + 1) (counter_bytes (counter k))) (h + 5) (slice (source k) 0 8)
       else blit (wr b h (control k)) (h + 1) (counter_bytes (counter k))) (h + a - 1) (key_sequence k)
    else if negb (extended_nonce k =? 0) then blit (blit (wr b h (control k)) (h + 1) (counter_bytes (counter k))) (h + 5) (slice (source k) 0 8)
       else blit (wr b h (control k)) (h + 1) (counter_bytes (counter k)))
    = blit b h (control k :: aux_tail k)) as Hw.
  { intros b. rewrite !wr_blit, (slice_all' (source k)) by done.
    unfold aux_tail. destruct (extended_nonce k =? 0) eqn:E0; destruct (key_identifier k =? 1) eqn:E1;
      cbn [negb]; try lia; rewrite ?app_nil_r.
    - by rewrite blit_blit' by done.
    - rewrite (blit_blit' _ _ (h + 1)) by done.
      rewrite (blit_blit' _ _ (h + 5)) by (rewrite blen_app, security_counter_len; unfold blen; simpl; lia).
      rewrite blit_blit' by (rewrite !blen_app, security_counter_len, Ls; unfold blen; simpl; lia).
      by rewrite <- !app_assoc.
    - rewrite (blit_blit' _ _ (h + 1)) by done.
      rewrite (blit_blit' _ _ (h + 5)) by (rewrite blen_app, security_counter_len; unfold blen; simpl; lia).
      by rewrite <- !app_assoc. }
  by rewrite Hw.
Qed.

(** An error is never the success code. *)
Lemma security_header_error layer sec l f n : header layer sec l f n ≠ inl ZIGBEE_SECURITY_OK.
Proof. unfold header. repeat case_match; done. Qed.
Lemma security_shape_error layer c i e x : shape layer c i e x ≠ inl ZIGBEE_SECURITY_OK.
Proof. unfold shape. repeat case_match; done. Qed.

Lemma security_inspect_error layer l f n : inspect layer l f n ≠ inl ZIGBEE_SECURITY_OK.
Proof.
  unfold inspect. destruct (header _ _ _ _ _) eqn:E; [intros [= ->]; by apply security_header_error in E|].
  destruct (n <? _); [done|]. destruct (has _ _); [done|].
  destruct (shape _ _ _ _ _) eqn:Es; [intros [= ->]; by apply security_shape_error in Es|].
  by repeat case_match.
Qed.
Lemma security_selected_error k s : selected k s ≠ inl ZIGBEE_SECURITY_OK.
Proof. unfold selected. by repeat case_match. Qed.

(** ** The protected frame *)
Section protected.
Context {D : Type} `{!BlockCipher D}.

(** The flagged header, the control octet [c] and the rest of the auxiliary header. *)
Definition front (layer : Z) (k : zigbee_security_key_t) (H : bytes) (c : Z) : bytes :=
  security_flag layer true H ++ c :: aux_tail k.
(** The protection of the unsecured frame [H ++ P] under [k]: the control octet on the wire has
    no level, the one in the authenticated data and the nonce has it. *)
Definition protected (layer : Z) (k : zigbee_security_key_t) (H P : bytes) : bytes :=
  let m := tag_length (level k) in
  let clear := front layer k H (control k) in
  front layer k H (Z.land (control k) 0xf8)
  ++ (if has (level k) 4 then Ccm.seal (key k) (key_nonce k) m clear P
      else P ++ Ccm.seal (key k) (key_nonce k) m (clear ++ P) []).

(** A key selection that the layer admits for a command or data frame. *)
Definition selection_ok (layer : Z) (c : bool) (k : zigbee_security_key_t) : Prop :=
  ∃ a, shape layer c (key_identifier k) (extended_nonce k) (counter k) = inr a.

Lemma security_tag l : secure_level l → Ccm.valid_tag (tag_length l) ∧ 4 <= tag_length l <= 16 ∧ is_u8 (tag_length l).
Proof. intros [-> |[-> |[-> |[-> |[-> | ->]]]]]; unfold Ccm.valid_tag; concrete. Qed.
Lemma security_nonce_len k : key_typed k → blen (key_nonce k) = 13.
Proof.
  intros (_&Ls&_). unfold key_nonce. by rewrite !blen_app, Ls, security_counter_len.
Qed.
Lemma security_aux_len k a layer c :
  key_typed k → shape layer c (key_identifier k) (extended_nonce k) (counter k) = inr a →
  blen (aux_tail k) = a - 1 ∧ 5 <= a <= 14.
Proof.
  intros (_&Ls&_&_&_&Hi&_&He) Hs. unfold is_u8 in *.
  apply security_shape in Hs as (?&?&?&?&->); [|lia..]. unfold aux_tail.
  rewrite !blen_app, security_counter_len.
  destruct (extended_nonce k =? 0) eqn:E0; destruct (key_identifier k =? 1) eqn:E1; cbn [negb];
    rewrite ?Ls, ?blen_nil, ?blen_cons, ?blen_nil; lia.
Qed.
Lemma security_front_len layer k H c a cmd :
  key_typed k → shape layer cmd (key_identifier k) (extended_nonce k) (counter k) = inr a →
  blen (front layer k H c) = blen H + a.
Proof.
  intros Hk Hs. destruct (security_aux_len _ _ _ _ Hk Hs). unfold front.
  rewrite blen_app, blen_cons, security_flag_len. lia.
Qed.

(** The nonce, read off the packet. *)
Lemma security_nonce_read layer k H R :
  key_typed k →
  slice (source k) 0 8
  ++ slice (front layer k H (control k) ++ R) (blen H + 1) 4
  ++ [rd (front layer k H (control k) ++ R) (blen H)] = key_nonce k.
Proof.
  intros (_&Ls&_). unfold front, key_nonce. pose proof (security_flag_len layer true H) as L.
  rewrite slice_all' by done. f_equal. rewrite <- app_assoc. cbn [app].
  rewrite rd_app_r, L, Z.sub_diag by lia. f_equal.
  unfold aux_tail. rewrite <- app_assoc.
  replace (security_flag layer true H ++ control k :: counter_bytes (counter k) ++ _ ++ R)
    with ((security_flag layer true H ++ [control k]) ++ counter_bytes (counter k)
          ++ ((if negb (extended_nonce k =? 0) then source k else [])
              ++ (if key_identifier k =? 1 then [key_sequence k] else [])) ++ R)
    by (rewrite <- !app_assoc; done).
  apply slice_app_mid; [|done]. rewrite blen_app, L. done.
Qed.

Lemma security_seal_len k m a msg :
  key_typed k → Ccm.valid_tag m → blen (Ccm.seal (key k) (key_nonce k) m a msg) = blen msg + m.
Proof.
  intros Hk Hm. pose proof (security_nonce_len k Hk). destruct Hk as (Hk&_). unfold Ccm.seal.
  by rewrite blen_app, Ccm.ccm_crypted_len, Ccm.ccm_mic_len.
Qed.

Lemma security_protected_len layer k H P a c :
  key_typed k → secure_level (level k) →
  shape layer c (key_identifier k) (extended_nonce k) (counter k) = inr a →
  blen (protected layer k H P) = blen H + a + blen P + tag_length (level k).
Proof.
  intros Hk Hl Hs. destruct (security_tag _ Hl) as (Ht&_). unfold protected.
  rewrite blen_app, (security_front_len _ _ _ _ _ _ Hk Hs).
  destruct (has (level k) 4); rewrite ?blen_app, security_seal_len by done; rewrite ?blen_nil; lia.
Qed.

(** ** Sealing *)
Lemma security_seal_packet d layer k f cap s H P :
  key_typed k → Ccm.usable_limits (limits k) → secure_level (level k) → blen H + blen P <= blen f →
  let m := s_meta s in
  shape layer (command s) (key_identifier k) (extended_nonce k) (counter k) = inr (auxiliary_length m) →
  header_length m = blen H → payload_length m = blen P → mic s = tag_length (level k) →
  slice f (blen H) (blen P) = P →
  packet s = security_flag layer true H ++ P ++ replicate (116 - Z.to_nat (blen H + blen P)) 0 →
  blen H + blen P <= 116 → max_body layer <= 116 →
  let '(r, out, info, _) := crypt_packet d false layer k f cap s in
  r = ZIGBEE_SECURITY_OK →
  out = Some (protected layer k H P) ∧ blen (protected layer k H P) <= max_body layer ∧
  blen (protected layer k H P) <= cap ∧
  ∃ i, info = Some i ∧ meta i = m ∧ info_length i = blen (protected layer k H P).
Proof.
  intros Hk Hlim Hl Hf m Hs Hh Hp Hmic HP Hpk H116 Hmb. subst m.
  destruct (security_tag _ Hl) as (Ht&Htl&_). pose proof (blen_nonneg H). pose proof (blen_nonneg P).
  pose proof (security_protected_len layer k H P _ _ Hk Hl Hs) as Lp.
  pose proof (security_aux_len _ _ _ _ Hk Hs) as [_ Ha].
  set (a := auxiliary_length (s_meta s)) in *.
  unfold crypt_packet. cbv zeta. fold a. rewrite Hh, Hp, Hmic.
  rewrite u8_id by (unfold is_u8; lia).
  replace (blen H + blen P + (a + tag_length (level k))) with (blen (protected layer k H P)) by lia.
  destruct (max_body layer <? _) eqn:E1; [done|]. destruct (cap <? _) eqn:E2; [done|].
  pose proof Hk as (Lk&_&_&_&_&Hi&_&He). unfold is_u8 in Hi, He.
  destruct (security_shape _ _ _ _ _ _ (proj1 Hi) (proj1 He) Hs) as (_&He1&Hie&_&Hae).
  set (Z0 := replicate _ 0) in *.
  assert (blen (security_flag layer true H ++ P ++ Z0) = 116) as L116.
  { unfold Z0. rewrite !blen_app, security_flag_len, blen_replicate. lia. }
  destruct (security_write_auxiliary k f (blen H) a (blen P) (security_flag layer true H) (P ++ Z0)
    Hk (security_flag_len layer true H) ltac:(lia) ltac:(lia) ltac:(lia) ltac:(lia) Hie He1 Hae)
    as (R&Hw&_&HwL).
  assert (security_flag layer true H ++ (control k :: aux_tail k) ++ P ++ R
          = front layer k H (control k) ++ P ++ R) as Ef by (unfold front; by rewrite <- app_assoc).
  rewrite HP, Ef in Hw, HwL. rewrite Hpk, Hw, security_nonce_read by done. clear Hw Ef.
  pose proof (security_front_len layer k H (control k) a _ Hk Hs) as Lf.
  pose proof (security_nonce_len k Hk) as Ln.
  set (F := front layer k H (control k)) in *. set (m := tag_length (level k)) in *.
  assert (blen F + blen P + blen R = 116) as Lb
    by (rewrite L116, !blen_app in HwL; lia).
  assert (∀ X total, blen X <= blen P + blen R → total = blen F + blen X →
    let b := blit (F ++ P ++ R) (blen F) X in
    slice (wr b (blen H) (Z.land (rd b (blen H)) 0xf8)) 0 total
    = front layer k H (Z.land (control k) 0xf8) ++ X) as Hout.
  { intros X total HX ->. cbv zeta. rewrite security_blit_app by (rewrite blen_app; lia).
    unfold F at 1 2, front. rewrite <- !app_assoc.
    rewrite <- (security_flag_len layer true H) at 1 2.
    rewrite rd_app_r by lia. rewrite Z.sub_diag. cbn [app]. rewrite rd_0, security_wr_app.
    eapply security_slice_head'.
    - unfold front. rewrite <- !app_assoc. cbn [app]. rewrite <- ?app_assoc. reflexivity.
    - unfold F, front. rewrite !blen_app, !blen_cons, !blen_app. lia. }
  assert (slice (F ++ P ++ R) 0 (blen F) = F) as S1 by by apply security_slice_head.
  assert (slice (F ++ P ++ R) 0 (blen (F ++ P)) = F ++ P) as S2
    by (rewrite app_assoc; by apply security_slice_head).
  assert (slice (F ++ P ++ R) (blen F) (blen P) = P) as S3 by by apply slice_app_mid.
  destruct (has (level k) 4) eqn:Hlv.
  - rewrite Z.add_0_r, <- Lf, S1, S3.
    pose proof (proj2 (Ccm.ccm_seal_ends d (key k) (key_nonce k) F P m 132 (limits k) Lk Ln
      ltac:(unfold Ccm.CCM_STAR_MAX_AAD; lia) ltac:(unfold Ccm.CCM_STAR_MAX_MESSAGE; lia) Ht
      ltac:(lia) Hlim)) as E.
    destruct (Ccm.ccm_star_crypt _ _ _ _ _ _ _ _ _ _ _ _ _ _) as [[[[r0 pay] sz] cr] d'].
    destruct E as (inf&->&[(->&_)|(_&_&->&->&->&_)]); [done|]. intros _. cbn [default from_option id].
    pose proof (security_seal_len k m F P Hk Ht) as LS.
    rewrite slice_all, Z.add_0_r, Hout by lia.
    split; [unfold protected; by rewrite Hlv|]. split; [lia|]. split; [lia|]. by eexists.
  - replace (blen H + a + blen P) with (blen (F ++ P)) by (rewrite blen_app; lia).
    rewrite S2, Z.add_0_r. change (slice (F ++ P ++ R) (blen (F ++ P)) 0) with ([] : bytes).
    pose proof (proj2 (Ccm.ccm_seal_ends d (key k) (key_nonce k) (F ++ P) [] m 132 (limits k) Lk Ln
      ltac:(rewrite blen_app; unfold Ccm.CCM_STAR_MAX_AAD; lia) ltac:(done) Ht
      ltac:(rewrite blen_nil; lia) Hlim)) as E. rewrite blen_nil in E.
    destruct (Ccm.ccm_star_crypt _ _ _ _ _ _ _ _ _ _ _ _ _ _) as [[[[r0 pay] sz] cr] d'].
    destruct E as (inf&->&[(->&_)|(_&_&->&->&->&_)]); [done|]. intros _. cbn [default from_option id].
    pose proof (security_seal_len k m (F ++ P) [] Hk Ht) as LS. rewrite blen_nil in LS.
    rewrite slice_all, blen_app.
    replace (blit (F ++ P ++ R) (blen F + blen P) (Ccm.seal (key k) (key_nonce k) m (F ++ P) []))
      with (blit (F ++ P ++ R) (blen F) (P ++ Ccm.seal (key k) (key_nonce k) m (F ++ P) [])).
    2:{ rewrite <- blit_blit. f_equal. rewrite security_blit_app by (rewrite blen_app; lia).
        by rewrite drop_app_length. }
    rewrite Hout by (rewrite blen_app; lia).
    split; [unfold protected; by rewrite Hlv|]. split; [lia|]. split; [lia|]. by eexists.
Qed.

Lemma security_seals d layer k f n cap :
  key_typed k → Ccm.usable_limits (limits k) → is_bytes f → n <= blen f → 0 <= layer →
  let '(r, out, info, _) := zigbee_security_crypt d 0 layer (Some k) (Some f) n true cap true in
  r = ZIGBEE_SECURITY_OK →
  ∃ H P c, slice f 0 n = H ++ P ∧ header_form layer H c ∧ secure_level (level k) ∧ 0 <= layer <= 1 ∧
    selection_ok layer c k ∧ (c = true → P ≠ []) ∧ blen (protected layer k H P) <= max_body layer ∧
    blen H + blen P = n ∧ out = Some (protected layer k H P) ∧
    ∃ i, info = Some i ∧ info_length i = blen (protected layer k H P).
Proof.
  intros Hk Hlim Hf Hn Hlay. unfold zigbee_security_crypt. cbn [Z.ltb Z.compare negb orb Z.eqb].
  pose proof Hk as (_&Ls&_&_&Hl&_).
  destruct (header layer false (level k) f n) as [r|s] eqn:Eh; [by intros ->; apply security_header_error in Eh|].
  cbn [and_then].
  destruct (security_header_inr layer false (level k) f n s Hlay Hl Hf Hn Eh)
    as (Hsl&Hr&Hnb&Hlay1&Hpres&Hform&Hpk&Hmic&Hml).
  set (h := header_length (s_meta s)) in *.
  assert (blen (slice f 0 h) = h) as LH by (apply blen_slice; lia).
  assert (blen (slice f h (n - h)) = n - h) as LP by (apply blen_slice; lia).
  assert (security_flag layer false (slice f 0 h) = slice f 0 h) as Eabs
    by (apply security_flag_absent; [lia|by apply is_bytes_slice|done]).
  rewrite Eabs in Hform.
  unfold prepared. fold h.
  destruct (shape _ _ _ _ _) as [r|a] eqn:Es; [by intros ->; apply security_shape_error in Es|].
  assert (max_body layer <= 116) as Hmb by (unfold max_body; destruct (layer =? _); done).
  rewrite (u8_id (n - h)) by (unfold is_u8; lia).
  destruct (command s && (n - h =? 0)) eqn:Ec; [done|].
  set (s' := {| packet := packet s |}).
  pose proof (security_seal_packet d layer k f cap s' (slice f 0 h) (slice f h (n - h)) Hk Hlim Hsl) as H.
  rewrite LH, LP in H. specialize (H ltac:(lia) Es eq_refl eq_refl Hmic eq_refl).
  replace (h + (n - h)) with n in H by lia. specialize (H Hpk ltac:(lia) Hmb).
  destruct (crypt_packet _ _ _ _ _ _ _) as [[[r out] info] d']. intros Hr'.
  destruct (H Hr') as (Ho&Hb&Hcap&i&Hi&_&Hil).
  exists (slice f 0 h), (slice f h (n - h)), (command s). split_and!; try done; try lia.
  - by apply slice_prefix; lia.
  - by exists a.
  - intros Hc Hnil. rewrite Hc, Hnil, blen_nil in *. lia.
  - by exists i.
Qed.

(** ** Opening *)

(** What the definition makes of a body [B] behind the auxiliary header: the payload, if the
    tag is right. *)
Definition opened (layer : Z) (k : zigbee_security_key_t) (H B : bytes) (p : Z) : option bytes :=
  let m := tag_length (level k) in
  let clear := front layer k H (control k) in
  if has (level k) 4 then Ccm.unseal (key k) (key_nonce k) m clear B
  else if Ccm.unseal (key k) (key_nonce k) m (clear ++ slice B 0 p) (slice B p m) then Some (slice B 0 p)
       else None.

Lemma security_restore layer k H P X total :
  2 <= blen H → is_bytes H → blen P <= 1 + blen (aux_tail k) + blen X → total = blen H + blen P →
  let b := security_flag layer false (front layer k H (control k) ++ X) in
  slice (if negb (blen P =? 0) then blit b (blen H) P else b) 0 total = security_flag layer false H ++ P.
Proof.
  intros Hl Hb HP -> b.
  assert (b = security_flag layer false H ++ (control k :: aux_tail k) ++ X) as ->.
  { subst b. unfold front. rewrite <- app_assoc, security_flag_app by (rewrite security_flag_len; lia).
    by rewrite security_flag_twice. }
  assert (blen (security_flag layer false H) = blen H) as L by apply security_flag_len.
  destruct (blen P =? 0) eqn:E; cbn [negb].
  - assert (P = []) as -> by (destruct P; [done|rewrite blen_cons in *; pose proof (blen_nonneg P); lia]).
    rewrite app_nil_r, blen_nil, Z.add_0_r. apply security_slice_head. lia.
  - rewrite <- L at 1. rewrite security_blit_app by (rewrite blen_app, blen_cons; lia).
    rewrite app_assoc. apply security_slice_head. rewrite blen_app. lia.
Qed.

Lemma security_open_packet d layer k f cap s H B p Z0 :
  key_typed k → Ccm.usable_limits (limits k) → secure_level (level k) →
  2 <= blen H → is_bytes H → is_bytes B → 0 <= p → blen B = p + tag_length (level k) →
  let m := s_meta s in let F := front layer k H (control k) in
  shape layer (command s) (key_identifier k) (extended_nonce k) (counter k) = inr (auxiliary_length m) →
  header_length m = blen H → payload_length m = p → mic s = tag_length (level k) →
  packet s = F ++ B ++ Z0 → blen F + blen B <= 116 → slice f (blen F) p = slice B 0 p →
  blen H + p <= max_body layer → max_body layer <= 116 → blen H + p <= cap →
  let '(r, out, info, _) := crypt_packet d true layer k f cap s in
  (r = ZIGBEE_SECURITY_AES ∧ out = None) ∨
  match opened layer k H B p with
  | None => r = ZIGBEE_SECURITY_AUTH ∧ out = None
  | Some P => r = ZIGBEE_SECURITY_OK ∧ out = Some (security_flag layer false H ++ P) ∧
              ∃ i, info = Some i ∧ meta i = m ∧ info_length i = blen H + p
  end.
Proof.
  intros Hk Hlim Hl H2 HH HB Hp0 LB m F Hs Hh Hp Hmic Hpk H116 Hfp Hb Hmb Hcap. subst m.
  destruct (security_tag _ Hl) as (Ht&Htl&_).
  pose proof (security_front_len layer k H (control k) _ _ Hk Hs) as LF. fold F in LF.
  pose proof (security_aux_len _ _ _ _ Hk Hs) as [La Ha].
  set (a := auxiliary_length (s_meta s)) in *. set (mm := tag_length (level k)) in *.
  pose proof (security_nonce_len k Hk) as Ln. pose proof Hk as (Lk&_).
  unfold crypt_packet. cbv zeta. fold a. rewrite Hh, Hp, Hmic.
  rewrite u8_id by (unfold is_u8; lia). rewrite !Z.add_0_r.
  replace (max_body layer <? blen H + p) with false by lia. replace (cap <? blen H + p) with false by lia.
  rewrite Hpk. unfold F at 1 2. rewrite security_nonce_read by done. fold F. unfold opened. fold F mm.
  assert (slice (F ++ B ++ Z0) 0 (blen F) = F) as S1 by by apply security_slice_head.
  assert (slice (F ++ B ++ Z0) (blen F) (blen B) = B) as S3 by by apply slice_app_mid.
  assert (blen (slice B 0 p) = p) as LP by (apply blen_slice; lia).
  assert (blen (slice B p mm) = mm) as LT by (apply blen_slice; lia).
  assert (B = slice B 0 p ++ slice B p mm) as EB.
  { rewrite <- (slice_all B) at 1. rewrite (slice_prefix B p) by lia. f_equal. f_equal. lia. }
  replace (blen H + a) with (blen F) by lia. rewrite Hfp.
  destruct (has (level k) 4) eqn:Hlv.
  - replace (p + mm) with (blen B) by lia. rewrite S1, S3.
    pose proof (Ccm.ccm_open_ends d (key k) (key_nonce k) F B mm 132 (limits k) Lk Ln HB
      ltac:(unfold Ccm.CCM_STAR_MAX_AAD; lia) ltac:(unfold Ccm.CCM_STAR_MAX_MESSAGE; lia) Ht
      ltac:(lia) Hlim) as E.
    destruct (Ccm.ccm_star_crypt _ _ _ _ _ _ _ _ _ _ _ _ _ _) as [[[[r0 pay] sz] cr] d'].
    destruct E as (inf&->&[(->&->&->&_)|(_&_&E)]); [cbv beta iota; by left|].
    destruct (Ccm.unseal _ _ _ _ B) as [P|] eqn:Eu; [|destruct E as (->&->&->); cbv beta iota; by right].
    destruct E as (->&->&->&_). cbv beta iota. right. cbn [default from_option id].
    assert (blen P = p) as LPp.
    { unfold Ccm.unseal in Eu. destruct (bool_decide _); [|done]. injection Eu as <-.
      rewrite Ccm.ccm_crypted_len, blen_slice by (done || lia). lia. }
    rewrite (slice_all' P) by done. split; [done|].
    split; [|by eexists]. f_equal. rewrite <- LPp. apply security_restore; try done.
    rewrite blen_app. pose proof (blen_nonneg Z0). lia.
  - rewrite Z.add_0_l. 
    assert (slice (F ++ B ++ Z0) 0 (blen F + p) = F ++ slice B 0 p) as S2.
    { rewrite EB at 1. rewrite <- app_assoc, app_assoc. apply security_slice_head. rewrite blen_app. lia. }
    assert (slice (F ++ B ++ Z0) (blen F + p) mm = slice B p mm) as S4.
    { rewrite EB at 1. rewrite <- app_assoc, app_assoc. apply slice_app_mid; rewrite ?blen_app; lia. }
    rewrite S2, S4. replace (blen F + p) with (blen (F ++ slice B 0 p)) by (rewrite blen_app; lia).
    pose proof (Ccm.ccm_open_ends d (key k) (key_nonce k) (F ++ slice B 0 p) (slice B p mm) mm 132
      (limits k) Lk Ln ltac:(by apply is_bytes_slice)
      ltac:(rewrite blen_app; unfold Ccm.CCM_STAR_MAX_AAD; lia)
      ltac:(unfold Ccm.CCM_STAR_MAX_MESSAGE; lia) Ht ltac:(lia) Hlim) as E. rewrite LT in E.
    destruct (Ccm.ccm_star_crypt _ _ _ _ _ _ _ _ _ _ _ _ _ _) as [[[[r0 pay] sz] cr] d'].
    destruct E as (inf&->&[(->&->&->&_)|(_&_&E)]); [cbv beta iota; by left|].
    destruct (Ccm.unseal (key k) (key_nonce k) mm (F ++ slice B 0 p) (slice B p mm)) as [P|] eqn:Eu;
      [|destruct E as (->&->&->); cbv beta iota; by right].
    destruct E as (->&->&->&_). cbv beta iota. right. split; [done|]. split; [|by eexists].
    pose proof (security_restore layer k H (slice B 0 p) (B ++ Z0) (blen H + p) H2 HH) as Hres.
    cbv zeta in Hres. rewrite LP in Hres. f_equal. apply Hres; [|done].
    rewrite blen_app. pose proof (blen_nonneg Z0). lia.
Qed.

(** The fields of a frame with an auxiliary header, by position. *)
Lemma security_front_reads layer k H c R a cmd :
  key_typed k → shape layer cmd (key_identifier k) (extended_nonce k) (counter k) = inr a →
  let w := front layer k H c ++ R in let h := blen H in
  rd w h = c ∧ read_counter w (h + 1) = counter k ∧
  (extended_nonce k ≠ 0 → slice w (h + 5) 8 = source k) ∧
  (key_identifier k = 1 → rd w (h + a - 1) = key_sequence k) ∧
  (∀ v, wr w h v = front layer k H v ++ R).
Proof.
  intros Hk Hs w h. pose proof (security_flag_len layer true H) as L. fold h in L.
  pose proof (blen_nonneg H) as Hh. fold h in Hh.
  pose proof Hk as (_&Ls&_&Hc&_&Hi&_&He). unfold is_u8 in Hi, He.
  destruct (security_shape _ _ _ _ _ _ (proj1 Hi) (proj1 He) Hs) as (_&He1&Hie&_&Ha).
  set (F1 := security_flag layer true H) in *.
  set (E := if negb (extended_nonce k =? 0) then source k else []).
  set (Q := if key_identifier k =? 1 then [key_sequence k] else []).
  assert (w = F1 ++ c :: counter_bytes (counter k) ++ E ++ Q ++ R) as Ew.
  { unfold w, front, aux_tail. fold F1 E Q. rewrite <- !app_assoc. cbn [app]. by rewrite <- !app_assoc. }
  assert (w = (F1 ++ [c]) ++ counter_bytes (counter k) ++ E ++ Q ++ R) as Ew1
    by (rewrite Ew, <- app_assoc; done).
  assert (w = (F1 ++ [c] ++ counter_bytes (counter k)) ++ E ++ Q ++ R) as Ew2
    by (rewrite Ew, <- !app_assoc; done).
  assert (w = (F1 ++ [c] ++ counter_bytes (counter k) ++ E) ++ Q ++ R) as Ew3
    by (rewrite Ew, <- !app_assoc; done).
  split; [|split; [|split; [|split]]].
  - rewrite Ew, rd_app_r, L, Z.sub_diag by lia. done.
  - apply security_counter_value; [done|]. intros j Hj. rewrite Ew1.
    rewrite rd_app_r by (rewrite blen_app, L; unfold blen; simpl; lia).
    rewrite rd_app_l by (rewrite security_counter_len, blen_app, L; unfold blen; simpl; lia).
    f_equal. rewrite blen_app, L. unfold blen. simpl. lia.
  - intros Hx. rewrite Ew2. unfold E. replace (extended_nonce k =? 0) with false by lia. cbn [negb].
    apply slice_app_mid; [|done]. rewrite !blen_app, L, security_counter_len. unfold blen. simpl. lia.
  - intros Hx.
    assert (blen (F1 ++ [c] ++ counter_bytes (counter k) ++ E) = h + a - 1) as Le.
    { rewrite !blen_app, L, security_counter_len, Ha, Hx. unfold E. specialize (Hie Hx).
      replace (extended_nonce k =? 0) with false by lia. cbn [negb]. rewrite Ls. unfold blen. simpl. lia. }
    rewrite Ew3, <- Le, rd_app_r, Z.sub_diag by lia. unfold Q. by rewrite Hx.
  - intros v. unfold w, front. fold F1. rewrite <- L, <- app_assoc. cbn [app].
    rewrite security_wr_app. by rewrite <- app_assoc.
Qed.

Lemma security_header_intro layer l H T c :
  0 <= layer <= 1 → secure_level l → header_form layer H c →
  let w := security_flag layer true H ++ T in
  blen w <= max_body layer →
  ∃ Z0, header layer true l w (blen w) =
  inr {| packet := w ++ Z0;
         s_meta := {| m_counter := 0; m_source := replicate 8 0; m_level := l;
                      m_key_identifier := 0; m_key_sequence := 0; m_extended_nonce := 0;
                      header_length := blen H; auxiliary_length := 0; payload_length := 0 |};
         mic := tag_length l; command := c |}.
Proof.
  intros Hlay Hl (H2&HH&Hp&Hform) w Hw. pose proof (security_flag_len layer true H) as L.
  assert (max_body layer <= 116) as Hmb by (unfold max_body; destruct (layer =? _); done).
  pose proof (blen_nonneg T). assert (blen w = blen H + blen T) as Lw by (unfold w; rewrite blen_app; lia).
  exists (replicate (116 - Z.to_nat (blen w)) 0). unfold header, ZIGBEE_SECURITY_APS.
  replace (1 <? layer) with false by lia.
  assert ((l =? 0) || (l =? 4) || (7 <? l) = false) as -> by (unfold secure_level in Hl; lia).
  replace ((blen w <? 2) || (max_body layer <? blen w)) with false by lia.
  rewrite slice_all, blit_0 by (rewrite blen_replicate; lia).
  rewrite drop_replicate.
  replace (116 - length w)%nat with (116 - Z.to_nat (blen w))%nat by (unfold blen; lia).
  fold (present layer w). unfold w at 1. rewrite security_present_app, security_flag_present by (done || lia).
  cbn [Bool.eqb negb].
  assert (∀ e, security_flag layer e (w ++ replicate (116 - Z.to_nat (blen w)) 0)
    = security_flag layer e H ++ T ++ replicate (116 - Z.to_nat (blen w)) 0) as Hfl.
  { intros e. rewrite security_flag_app by lia. unfold w at 1. rewrite security_flag_app by lia.
    by rewrite security_flag_twice, <- app_assoc. }
  rewrite Hfl, (security_flag_absent layer H) by done. rewrite Hform; [| |lia].
  - destruct (security_tag _ Hl) as (_&_&Ht). unfold tag_length in *. rewrite u8_id by done.
    rewrite security_flag_app by lia. unfold w. by rewrite <- app_assoc.
  - unfold w. rewrite rd_app_l by lia. by rewrite security_low_bits.
Qed.

(** What opening reads of its key. *)
Lemma security_open_key d layer k k' f cap s :
  key k' = key k → source k' = source k → level k' = level k → limits k' = limits k →
  crypt_packet d true layer k' f cap s = crypt_packet d true layer k f cap s.
Proof. intros E1 E2 E3 E4. unfold crypt_packet. by rewrite E1, E2, E3, E4. Qed.

Definition with_reception (k : zigbee_security_key_t) (counter sequence : Z) lim : zigbee_security_key_t := {|
  key := key k; source := source k; counter := counter; level := level k;
  key_identifier := key_identifier k; key_sequence := sequence;
  extended_nonce := extended_nonce k; limits := lim |}.

Definition same_selection (k k' : zigbee_security_key_t) : Prop :=
  key k' = key k ∧ source k' = source k ∧ level k' = level k ∧
  key_identifier k' = key_identifier k ∧ extended_nonce k' = extended_nonce k ∧
  (key_identifier k = 1 → key_sequence k' = key_sequence k).

(** The inspection of a frame with the auxiliary header of [k] in front of a body [B]. *)
Lemma security_inspect_front layer k k' H B c a p :
  key_typed k → secure_level (level k) → 0 <= layer <= 1 → header_form layer H c →
  same_selection k k' →
  shape layer c (key_identifier k) (extended_nonce k) (counter k) = inr a →
  blen B = p + tag_length (level k) → 0 <= p → (c = true → p ≠ 0) →
  let w := front layer k H (Z.land (control k) 0xf8) ++ B in
  blen w <= max_body layer →
  ∃ s Z0, and_then (inspect layer (level k') w (blen w)) (selected k') = inr s ∧
    packet s = front layer k H (control k) ++ B ++ Z0 ∧ command s = c ∧
    mic s = tag_length (level k) ∧ header_length (s_meta s) = blen H ∧
    auxiliary_length (s_meta s) = a ∧ payload_length (s_meta s) = p ∧
    m_counter (s_meta s) = counter k.
Proof.
  intros Hk Hl Hlay Hform (Ek&Es&El&Ei&Ee&Eq) Hs LB Hp Hcp w Hw.
  pose proof (blen_nonneg B). pose proof (blen_nonneg H).
  assert (max_body layer <= 116) as Hmb by (unfold max_body; destruct (layer =? _); done).
  pose proof (security_front_len layer k H (Z.land (control k) 0xf8) a c Hk Hs) as LF.
  assert (blen w = blen H + a + p + tag_length (level k)) as Lw by (unfold w; rewrite blen_app; lia).
  destruct (security_tag _ Hl) as (_&Htl&_). pose proof (security_aux_len _ _ _ _ Hk Hs) as [_ Ha].
  destruct (security_header_intro layer (level k) H ((Z.land (control k) 0xf8 :: aux_tail k) ++ B) c
    Hlay Hl Hform) as [Z0 Eh].
  { unfold w, front in Hw. by rewrite <- app_assoc in Hw. }
  rewrite app_assoc in Eh. change (security_flag layer true H ++ _ :: aux_tail k)
    with (front layer k H (Z.land (control k) 0xf8)) in Eh. fold w in Eh.
  unfold inspect. rewrite El, Eh. cbn [header_length s_meta command mic packet].
  destruct (security_front_reads layer k H (Z.land (control k) 0xf8) B a c Hk Hs) as (R1&R2&R3&R4&_).
  fold w in R1, R2, R3, R4. rewrite R1, R2.
  pose proof Hk as (Lk&Ls&_&_&Hlv&Hi&_&He). unfold is_u8 in Hi, He, Hlv.
  destruct (security_shape _ _ _ _ _ _ (proj1 Hi) (proj1 He) Hs) as (Hi'&He'&_&_&_).
  destruct (security_control_fields (level k) (key_identifier k) (extended_nonce k))
    as (_&C1&C2&C3&C4); [unfold secure_level in Hl; lia|lia|lia|].
  fold (control k) in C1, C2, C3, C4. rewrite C1, C2, C3, C4, Hs.
  replace (blen w <? blen H + 5) with false by lia.
  replace (blen w <? blen H + a + tag_length (level k)) with false by lia.
  replace (blen w - blen H - a - tag_length (level k)) with p by lia. rewrite u8_id by (unfold is_u8; lia).
  assert (c && (p =? 0) = false) as -> by (destruct c; [specialize (Hcp eq_refl); lia|done]).
  cbn [and_then]. unfold selected.
  cbn [s_meta m_key_identifier m_extended_nonce m_key_sequence m_source m_level m_counter
       header_length auxiliary_length payload_length packet mic command].
  rewrite Ei, Ee, !Z.eqb_refl. cbn [negb orb].
  assert ((key_identifier k =? 1) && negb ((if key_identifier k =? 1 then rd w (blen H + a - 1) else 0)
    =? key_sequence k') = false) as ->.
  { destruct (key_identifier k =? 1) eqn:E1; [|done]. rewrite R4, Eq by lia. by rewrite Z.eqb_refl. }
  assert (negb (extended_nonce k =? 0) && negb (bool_decide (slice
    (if negb (extended_nonce k =? 0) then slice w (blen H + 5) 8 else replicate 8 0) 0 8
    = slice (source k') 0 8)) = false) as ->.
  { destruct (extended_nonce k =? 0) eqn:E1; [done|]. cbn [negb andb]. rewrite R3, Es by lia.
    by rewrite bool_decide_eq_true_2. }
  do 2 eexists. split; [reflexivity|].
  cbn [s_meta m_counter header_length auxiliary_length payload_length packet mic command].
  split_and!; try done. unfold w. rewrite <- app_assoc.
  destruct (security_front_reads layer k H (Z.land (control k) 0xf8) (B ++ Z0) a c Hk Hs) as (_&_&_&_&R5).
  apply R5.
Qed.

Lemma security_unseal_slice k P m a :
  key_typed k → Ccm.valid_tag m → Ccm.unseal (key k) (key_nonce k) m a (Ccm.seal (key k) (key_nonce k) m a P) = Some P.
Proof. intros Hk Hm. apply Ccm.ccm_unseal_seal; [apply Hk|by apply security_nonce_len|done]. Qed.

Lemma security_opened_protected layer k H P :
  key_typed k → secure_level (level k) →
  ∃ B, protected layer k H P = front layer k H (Z.land (control k) 0xf8) ++ B ∧
    blen B = blen P + tag_length (level k) ∧ opened layer k H B (blen P) = Some P ∧
    (is_bytes P → is_bytes B).
Proof.
  intros Hk Hl. destruct (security_tag _ Hl) as (Ht&_). eexists. split; [reflexivity|].
  unfold opened. destruct (has (level k) 4).
  - split; [by apply security_seal_len|]. split; [by apply security_unseal_slice|].
    intros HP. apply Ccm.ccm_seal_bytes; [apply Hk|by apply security_nonce_len|done].
  - rewrite blen_app, security_seal_len, blen_nil by done. split; [lia|].
    rewrite security_slice_head by done.
    set (S := Ccm.seal _ _ _ _ []).
    assert (slice (P ++ S) (blen P) (tag_length (level k)) = S) as ->.
    { rewrite <- (app_nil_r S) at 1. apply slice_app_mid; [done|].
      unfold S. by rewrite security_seal_len, blen_nil by done. }
    unfold S. rewrite security_unseal_slice by done. split; [done|].
    intros HP. apply is_bytes_app. split; [done|].
    apply Ccm.ccm_seal_bytes; [apply Hk|by apply security_nonce_len|by constructor].
Qed.

Lemma security_opens d layer k k' H P c cap :
  key_typed k → Ccm.usable_limits (limits k') → secure_level (level k) → 0 <= layer <= 1 →
  header_form layer H c → is_bytes P → selection_ok layer c k → (c = true → P ≠ []) →
  same_selection k k' →
  let w := protected layer k H P in
  blen w <= max_body layer → blen H + blen P <= cap →
  let '(r, out, info, _) := zigbee_security_crypt d 1 layer (Some k') (Some w) (blen w) true cap true in
  (r = ZIGBEE_SECURITY_AES ∧ out = None) ∨
  (r = ZIGBEE_SECURITY_OK ∧ out = Some (H ++ P) ∧
   ∃ i, info = Some i ∧ m_counter (meta i) = counter k ∧ info_length i = blen H + blen P).
Proof.
  intros Hk Hlim Hl Hlay Hform HP [a Hs] Hc Hsel w Hw Hcap.
  destruct (security_opened_protected layer k H P Hk Hl) as (B&Ew&LB&Hop&HB). specialize (HB HP).
  fold w in Ew. pose proof (blen_nonneg P). pose proof Hform as (H2&HH&Habs&_).
  destruct (security_inspect_front layer k k' H B c a (blen P) Hk Hl Hlay Hform Hsel Hs LB)
    as (s&Z0&Ei&Hpk&Hcmd&Hmic&Hh&Haux&Hpl&Hctr); [lia| |by rewrite <- Ew|].
  { intros E E0. apply (Hc E). destruct P; [done|]. rewrite blen_cons in E0. pose proof (blen_nonneg P). lia. }
  rewrite <- Ew in Ei. unfold zigbee_security_crypt. cbn [Z.ltb Z.compare Pos.compare Pos.compare_cont negb orb Z.eqb].
  rewrite Ei. destruct Hsel as (Ek&Es&El&Eki&Ee&Eq).
  set (k1 := with_reception k (counter k) (key_sequence k) (limits k')).
  rewrite (security_open_key d layer k1 k') by done.
  pose proof (security_protected_len layer k H P a c Hk Hl Hs) as Lw. fold w in Lw.
  pose proof (security_front_len layer k H (control k) a c Hk Hs) as LF.
  pose proof (security_front_len layer k H (Z.land (control k) 0xf8) a c Hk Hs) as LF'.
  destruct (security_tag _ Hl) as (_&Htl&_).
  assert (max_body layer <= 116) as Hmb by (unfold max_body; destruct (layer =? _); done).
  pose proof (security_open_packet d layer k1 w cap s H B (blen P) Z0 Hk Hlim Hl H2 HH HB ltac:(lia) LB) as Ho.
  change (front layer k1 H (control k1)) with (front layer k H (control k)) in Ho.
  change (opened layer k1 H B (blen P)) with (opened layer k H B (blen P)) in Ho.
  cbv zeta in Ho. rewrite Haux, Hcmd in Ho. specialize (Ho Hs Hh Hpl Hmic Hpk ltac:(lia)).
  rewrite Hop in Ho.
  assert (slice w (blen (front layer k H (control k))) (blen P) = slice B 0 (blen P)) as Hsl.
  { rewrite Ew, LF, <- LF'. unfold slice, blen at 2. rewrite !Nat2Z.id. by rewrite drop_app_length. }
  pose proof (security_aux_len _ _ _ _ Hk Hs) as [_ Ha].
  specialize (Ho Hsl ltac:(lia) Hmb Hcap).
  destruct (crypt_packet _ _ _ _ _ _ _) as [[[r out] info] d'].
  destruct Ho as [?|(Hr&Hout&i&Hi&Hm&Hil)]; [by left|right].
  rewrite security_flag_absent in Hout by done. split_and!; try done.
  exists i. split_and!; try done. by rewrite Hm.
Qed.

(** ** Only protected frames open *)
Lemma security_unseal_inv k m a b msg :
  key_typed k → 0 <= m <= blen b → Ccm.unseal (key k) (key_nonce k) m a b = Some msg →
  b = Ccm.seal (key k) (key_nonce k) m a msg ∧ blen msg = blen b - m.
Proof.
  intros Hk Hm. pose proof (security_nonce_len k Hk) as Ln. destruct Hk as (Lk&_).
  unfold Ccm.unseal. destruct (bool_decide _) eqn:E; [|done]. intros [= <-].
  apply bool_decide_eq_true in E. split.
  - unfold Ccm.seal. rewrite Ccm.ccm_crypted_twice, E by done.
    rewrite <- (slice_all b) at 1. rewrite (slice_prefix b (blen b - m)) by lia.
    do 2 f_equal. lia.
  - rewrite Ccm.ccm_crypted_len by done. apply blen_slice; lia.
Qed.
Lemma security_opened_inv layer k H B p P :
  key_typed k → secure_level (level k) → 0 <= p → blen B = p + tag_length (level k) →
  opened layer k H B p = Some P →
  front layer k H (Z.land (control k) 0xf8) ++ B = protected layer k H P ∧ blen P = p.
Proof.
  intros Hk Hl Hp LB. destruct (security_tag _ Hl) as (_&Ht&_). unfold opened, protected.
  destruct (has (level k) 4).
  - intros Hu. apply security_unseal_inv in Hu as [-> Lm]; [|done|lia]. split; [done|lia].
  - destruct (Ccm.unseal _ _ _ _ _) as [msg|] eqn:Hu; [|done]. intros [= <-].
    apply security_unseal_inv in Hu as [Hu Lm]; [|done|rewrite blen_slice by lia; lia].
    rewrite blen_slice in Lm by lia. assert (msg = []) as ->.
    { destruct msg; [done|]. rewrite blen_cons in Lm. pose proof (blen_nonneg msg). lia. }
    split; [|apply blen_slice; lia]. f_equal. rewrite <- Hu.
    rewrite <- (slice_all B) at 1. rewrite (slice_prefix B p) by lia. do 2 f_equal. lia.
Qed.
Lemma security_flag_set layer b :
  2 <= blen b → is_bytes b → present layer b = true → security_flag layer true b = b.
Proof.
  intros Hl Hb. rewrite security_flag_octet by done. pose proof (rd_is_u8 b 0 Hb).
  pose proof (rd_is_u8 b 1 Hb). unfold present.
  assert (∀ x m, is_u8 x → m = 2 ∨ m = 32 → has x m = true → Z.lor (Z.land x (255 - m)) m = x) as Hx.
  { intros x m Hx Hm Hh. destruct Hm as [-> | ->].
    - assert (negb (has x 2) || (Z.lor (Z.land x (255 - 2)) 2 =? x) = true) as E by by_u8 x.
      rewrite Hh in E. by apply Z.eqb_eq.
    - assert (negb (has x 32) || (Z.lor (Z.land x (255 - 32)) 32 =? x) = true) as E by by_u8 x.
      rewrite Hh in E. by apply Z.eqb_eq. }
  destruct (layer =? _); intros Hp; rewrite Hx by (done || by left + right); apply security_wr_rd; lia.
Qed.
Lemma security_four_octets a b c d :
  is_u8 a → is_u8 b → is_u8 c → is_u8 d →
  Z.lor (Z.lor (Z.lor a (Z.shiftl b 8)) (Z.shiftl c 16)) (Z.shiftl d 24)
  = a + 256 * (b + 256 * (c + 256 * d)).
Proof.
  intros Ha Hb Hc Hd. replace (Z.shiftl c 16) with (Z.shiftl (Z.shiftl c 8) 8) by (by rewrite Z.shiftl_shiftl).
  replace (Z.shiftl d 24) with (Z.shiftl (Z.shiftl (Z.shiftl d 8) 8) 8) by (by rewrite !Z.shiftl_shiftl).
  rewrite <- !Z.lor_assoc, <- !Z.shiftl_lor. unfold is_u8 in *.
  rewrite (lor_shift8 c d), (lor_shift8 b), (lor_shift8 a) by (unfold is_u8; lia). lia.
Qed.
Lemma security_counter_read w i :
  is_bytes w → 0 <= i → i + 4 <= blen w →
  slice w i 4 = counter_bytes (read_counter w i) ∧ is_u32 (read_counter w i).
Proof.
  intros Hw Hi Hl. rewrite slice_rd by lia.
  replace (seqZ i 4) with [i; i + 1; i + 2; i + 3]
    by (rewrite !seqZ_cons by lia; cbn; repeat f_equal; lia).
  unfold read_counter. pose proof (rd_is_u8 w i Hw). pose proof (rd_is_u8 w (i + 1) Hw).
  pose proof (rd_is_u8 w (i + 2) Hw). pose proof (rd_is_u8 w (i + 3) Hw).
  rewrite security_four_octets by done. cbn [fmap list_fmap]. unfold is_u8 in *.
  split; [|unfold is_u32; lia]. unfold counter_bytes. cbn [fmap list_fmap].
  rewrite !Z.shiftr_div_pow2 by lia. change (2 ^ (8 * 0)) with 1. change (2 ^ (8 * 1)) with 256.
  change (2 ^ (8 * 2)) with 65536. change (2 ^ (8 * 3)) with 16777216.
  repeat f_equal; width.
Qed.

(** The received control octet, its level replaced by the trusted one. *)
Lemma security_control_read ctl l :
  is_u8 ctl → 0 <= l <= 7 → has ctl 0xc0 = false →
  let i := Z.land (Z.shiftr ctl 3) 3 in let e := Z.land (Z.shiftr ctl 5) 1 in
  let c := Z.lor (Z.lor l (u8 (Z.shiftl i 3))) (u8 (Z.shiftl e 5)) in
  Z.lor (Z.land ctl 0xf8) l = c ∧ Z.land c 0xf8 = Z.land ctl 0xf8.
Proof.
  intros Hc Hl Hh. cbv zeta. assert (l ∈ [0;1;2;3;4;5;6;7]) as Hin by (rewrite !elem_of_cons; lia).
  assert (Forall (λ l, has ctl 0xc0 ||
    ((Z.lor (Z.land ctl 0xf8) l =? Z.lor (Z.lor l (u8 (Z.shiftl (Z.land (Z.shiftr ctl 3) 3) 3)))
        (u8 (Z.shiftl (Z.land (Z.shiftr ctl 5) 1) 5)))
     && (Z.land (Z.lor (Z.lor l (u8 (Z.shiftl (Z.land (Z.shiftr ctl 3) 3) 3)))
        (u8 (Z.shiftl (Z.land (Z.shiftr ctl 5) 1) 5))) 0xf8 =? Z.land ctl 0xf8)) = true)
    [0;1;2;3;4;5;6;7]) as H
    by (repeat (apply list.Forall_cons_2; [by_u8 ctl|]); apply list.Forall_nil_2).
  rewrite list.Forall_forall in H. specialize (H l Hin). rewrite Hh in H.
  apply andb_true_iff in H as [H1 H2]. split; by apply Z.eqb_eq.
Qed.

(** The received frame, split at the end of its auxiliary header. *)
Lemma security_received layer k w n h a c :
  key_typed k → is_bytes w → n <= blen w → 2 <= h → h + a <= n →
  present layer (slice w 0 h) = true →
  let kr := with_reception k (read_counter w (h + 1)) (key_sequence k) (limits k) in
  shape layer c (key_identifier k) (extended_nonce k) (counter kr) = inr a →
  (extended_nonce k ≠ 0 → slice w (h + 5) 8 = source k) →
  (key_identifier k = 1 → rd w (h + a - 1) = key_sequence k) →
  slice w 0 n = front layer kr (security_flag layer false (slice w 0 h)) (rd w h)
                ++ slice w (h + a) (n - h - a) ∧ key_typed kr.
Proof.
  intros Hk Hw Hn Hh Ha Hp kr Hs Hsrc Hseq.
  pose proof Hk as (_&Ls&_&_&_&Hi&_&He). unfold is_u8 in Hi, He.
  pose proof (security_shape _ _ _ _ _ _ (proj1 Hi) (proj1 He) Hs) as (_&He1&Hie&_&Hae).
  assert (blen (slice w 0 h) = h) as Lh by (apply blen_slice; destruct (_ =? 1) in Hae; lia).
  assert (5 <= a) as Ha5 by (destruct (key_identifier k =? 1); lia).
  destruct (security_counter_read w (h + 1) Hw) as [Ec Hu]; [lia..|].
  split; [|by destruct Hk as (?&?&?&?&?&?&?&?); unfold key_typed].
  unfold front. rewrite security_flag_twice by (by apply is_bytes_slice || lia).
  rewrite security_flag_set by first [done | lia | by apply is_bytes_slice].
  rewrite (slice_prefix w h n) by lia. rewrite <- app_assoc. f_equal.
  replace (n - h) with (1 + (4 + (a - 5 + (n - h - a)))) by lia.
  rewrite (slice_add' w h (h + 1) 1), (slice_add' w (h + 1) (h + 5) 4), (slice_add' w (h + 5) (h + a) (a - 5)) by lia.
  assert (slice w h 1 = [rd w h]) as -> by (rewrite slice_rd by lia; done).
  cbn [app]. f_equal. unfold aux_tail. cbn [counter kr with_reception]. rewrite Ec, <- !app_assoc. f_equal.
  rewrite app_assoc. f_equal. change (extended_nonce kr) with (extended_nonce k).
  change (key_identifier kr) with (key_identifier k). change (key_sequence kr) with (key_sequence k).
  change (source kr) with (source k).
  destruct (extended_nonce k =? 0) eqn:E0; destruct (key_identifier k =? 1) eqn:E1; cbn [negb]; try lia.
  - by replace (a - 5) with 0 by lia.
  - replace (a - 5) with (8 + 1) by lia. rewrite (slice_add' w (h + 5) (h + 13) 8) by lia.
    rewrite Hsrc by lia. f_equal. rewrite slice_rd, <- Hseq by lia.
    replace (h + a - 1) with (h + 13) by lia. done.
  - replace (a - 5) with 8 by lia. rewrite Hsrc by lia. by rewrite app_nil_r.
  - f_equal. lia.
Qed.

Lemma security_selected k s s' :
  blen (source k) = 8 → selected k s = inr s' →
  (m_extended_nonce (s_meta s) ≠ 0 → blen (m_source (s_meta s)) = 8) →
  m_key_identifier (s_meta s) = key_identifier k ∧ m_extended_nonce (s_meta s) = extended_nonce k ∧
  (key_identifier k = 1 → m_key_sequence (s_meta s) = key_sequence k) ∧
  (extended_nonce k ≠ 0 → m_source (s_meta s) = source k) ∧
  packet s' = packet s ∧ mic s' = mic s ∧ command s' = command s ∧
  m_counter (s_meta s') = m_counter (s_meta s) ∧ header_length (s_meta s') = header_length (s_meta s) ∧
  auxiliary_length (s_meta s') = auxiliary_length (s_meta s) ∧
  payload_length (s_meta s') = payload_length (s_meta s).
Proof.
  intros Ls H L8. unfold selected in H. destruct (_ || _ || _) eqn:E1 in H; [done|].
  destruct (_ && negb _) eqn:E2 in H; [done|]. injection H as <-.
  rewrite !orb_false_iff, andb_false_iff in E1. destruct E1 as [[E1 E3] E4].
  split_and!; try done; try lia.
  intros He. apply andb_false_iff in E2 as [E2|E2]; [lia|].
  apply negb_false_iff, bool_decide_eq_true in E2. rewrite !slice_all' in E2 by (rewrite ?L8; lia). done.
Qed.

Lemma security_field_nonneg x :
  is_u8 x → 0 <= Z.land (Z.shiftr x 3) 3 ∧ 0 <= Z.land (Z.shiftr x 5) 1.
Proof. intros Hx. unfold is_u8 in Hx. split; apply Z.land_nonneg; by right. Qed.

Lemma security_refused_error layer k w n :
  and_then (inspect layer (level k) w n) (selected k) ≠ inl ZIGBEE_SECURITY_OK.
Proof.
  destruct (inspect _ _ _ _) eqn:E; cbn [and_then]; [|apply security_selected_error].
  intros [= ->]. by apply security_inspect_error in E.
Qed.

(** What an accepted inspection and selection say of the received frame. *)
Lemma security_inspected layer k w n s :
  key_typed k → is_bytes w → n <= blen w → 0 <= layer →
  and_then (inspect layer (level k) w n) (selected k) = inr s →
  let h := header_length (s_meta s) in let a := auxiliary_length (s_meta s) in
  let p := payload_length (s_meta s) in let m := tag_length (level k) in
  let kr := with_reception k (m_counter (s_meta s)) (key_sequence k) (limits k) in
  let H := security_flag layer false (slice w 0 h) in let B := slice w (h + a) (n - h - a) in
  secure_level (level k) ∧ 0 <= layer <= 1 ∧ n <= max_body layer ∧ 2 <= h ∧ h + a + p + m = n ∧
  header_form layer H (command s) ∧ key_typed kr ∧
  shape layer (command s) (key_identifier k) (extended_nonce k) (counter kr) = inr a ∧
  0 <= p ∧ (command s = true → p ≠ 0) ∧ mic s = m ∧
  slice w 0 n = front layer kr H (rd w h) ++ B ∧ Z.land (control kr) 0xf8 = Z.land (rd w h) 0xf8 ∧
  ∃ Z0, packet s = front layer kr H (control kr) ++ B ++ Z0.
Proof.
  intros Hk Hw Hn Hlay Hs. pose proof Hk as (_&Ls&_&_&Hlv&_).
  destruct (inspect layer (level k) w n) as [|s1] eqn:Ei; [done|]. cbn [and_then] in Hs.
  unfold inspect in Ei. destruct (header _ _ _ _ _) as [|s0] eqn:Eh; [done|].
  destruct (security_header_inr layer true (level k) w n s0 Hlay Hlv Hw Hn Eh)
    as (Hsl&Hr&Hnb&Hlay1&Hpres&Hform&Hpk&Hmic&_).
  set (h := header_length (s_meta s0)) in *. clearbody h.
  destruct (n <? h + 5) eqn:E1; [done|]. destruct (has (rd w h) 0xc0) eqn:E2; [done|].
  destruct (shape _ _ _ _ _) as [|a] eqn:Esh; [done|].
  destruct (n <? h + a + mic s0) eqn:E3; [done|]. rewrite Hmic in *.
  destruct (security_tag _ Hsl) as (_&Htl&_).
  assert (max_body layer <= 116) as Hmb by (unfold max_body; destruct (layer =? _); done).
  pose proof (security_field_nonneg (rd w h) (rd_is_u8 w h Hw)) as [Hi0 He0].
  pose proof (security_shape _ _ _ _ _ _ Hi0 He0 Esh) as (_&He1&_&_&Hae).
  assert (5 + 8 * Z.land (Z.shiftr (rd w h) 5) 1 <= a) as Ha
    by (rewrite Hae; destruct (Z.land (Z.shiftr (rd w h) 3) 3 =? 1); lia).
  rewrite (u8_id (n - h - a - tag_length (level k))) in Ei by (unfold is_u8; lia).
  destruct (command s0 && (n - h - a - tag_length (level k) =? 0)) eqn:E4; [done|].
  injection Ei as <-. apply security_selected in Hs; [|done|].
  2:{ cbn [s_meta m_extended_nonce m_source]. intros He. rewrite (proj2 (Z.eqb_neq _ _) He). cbn [negb].
      apply blen_slice; lia. }
  cbn [s_meta m_key_identifier m_extended_nonce m_key_sequence m_source m_counter header_length
       auxiliary_length payload_length packet mic command] in Hs.
  destruct Hs as (Eki&Een&Eseq&Esrc&Epk&Em&Ecm&Ectr&Eh'&Eaux&Epl).
  cbv zeta. rewrite Eh', Eaux, Epl, Ecm, Ectr, Em. rewrite Eki, Een in *.
  destruct (security_received layer k w n h a (command s0) Hk Hw Hn) as [Hw0 Hkr]; try done; [lia|lia| | |].
  { intros He. specialize (Esrc He). by rewrite (proj2 (Z.eqb_neq _ _) He) in Esrc. }
  { intros Hi. specialize (Eseq Hi). by rewrite Hi in Eseq. }
  destruct (security_control_read (rd w h) (level k) (rd_is_u8 w h Hw)) as [C1 C2];
    [unfold secure_level in Hsl; lia|done|].
  set (kr := with_reception _ _ _ _) in *. rewrite Eki, Een in C1, C2.
  change (Z.lor (Z.lor (level k) (u8 (Z.shiftl (key_identifier k) 3))) (u8 (Z.shiftl (extended_nonce k) 5)))
    with (control kr) in C1, C2.
  split_and!; try done; try lia.
  - intros Hc. rewrite Hc in E4. cbn [andb] in E4. lia.
  - eexists. rewrite Epk, C1, Hpk, app_assoc.
    replace (security_flag layer true (slice w 0 h) ++ slice w h (n - h)) with (slice w 0 n).
    + rewrite Hw0, <- app_assoc.
      destruct (security_front_reads layer kr (security_flag layer false (slice w 0 h)) (rd w h)
        (slice w (h + a) (n - h - a) ++ replicate (116 - Z.to_nat n) 0) a (command s0) Hkr Esh) as (_&_&_&_&R5).
      rewrite security_flag_len, blen_slice in R5 by lia. rewrite R5. reflexivity.
    + rewrite security_flag_set; [by apply slice_prefix; lia|rewrite blen_slice; lia|by apply is_bytes_slice|done].
Qed.

Lemma security_opens_only d layer k w n cap :
  key_typed k → Ccm.usable_limits (limits k) → is_bytes w → n <= blen w → 0 <= layer →
  let '(r, out, info, _) := zigbee_security_crypt d 1 layer (Some k) (Some w) n true cap true in
  r = ZIGBEE_SECURITY_OK →
  ∃ H P c i, let kr := with_reception k (m_counter (meta i)) (key_sequence k) (limits k) in
    header_form layer H c ∧ secure_level (level k) ∧ selection_ok layer c kr ∧
    (c = true → P ≠ []) ∧ info = Some i ∧ out = Some (H ++ P) ∧ info_length i = blen H + blen P ∧
    wr (slice w 0 n) (blen H) (Z.land (rd w (blen H)) 0xf8) = protected layer kr H P.
Proof.
  intros Hk Hlim Hw Hn Hlay. unfold zigbee_security_crypt.
  cbn [Z.ltb Z.compare Pos.compare Pos.compare_cont negb orb Z.eqb].
  destruct (and_then _ _) as [r|s] eqn:Es; [by intros ->; apply security_refused_error in Es|].
  pose proof (security_inspected layer k w n s Hk Hw Hn Hlay Es)
    as (Hl&Hlay1&Hnb&H2&Hsum&Hform&Hkr&Hs&Hp&Hcp&Hmic&Hw0&Hctl&Z0&Hpk).
  set (h := header_length (s_meta s)) in *. set (a := auxiliary_length (s_meta s)) in *.
  set (p := payload_length (s_meta s)) in *. set (kr := with_reception _ _ _ _) in *.
  set (H := security_flag layer false (slice w 0 h)) in *. set (B := slice w (h + a) (n - h - a)) in *.
  destruct (security_tag _ Hl) as (_&Htl&_). pose proof (security_aux_len kr _ _ _ Hkr Hs) as [_ Ha].
  assert (max_body layer <= 116) as Hmb by (unfold max_body; destruct (layer =? _); done).
  assert (blen H = h) as LH by (unfold H; rewrite security_flag_len; apply blen_slice; lia).
  assert (blen B = p + tag_length (level k)) as LB by (unfold B; rewrite blen_slice; lia).
  pose proof (security_front_len layer kr H (control kr) _ _ Hkr Hs) as LF.
  rewrite (security_open_key d layer kr k) by done.
  pose proof (security_open_packet d layer kr w cap s H B p Z0 Hkr Hlim Hl ltac:(lia)) as Ho.
  specialize (Ho (proj1 (proj2 Hform)) ltac:(by apply is_bytes_slice) Hp LB Hs (eq_sym LH) eq_refl Hmic Hpk).
  assert (slice w (blen (front layer kr H (control kr))) p = slice B 0 p) as Hsl.
  { rewrite LF, LH. apply slice_eq; [lia..|apply blen_slice; lia|].
    intros i Hi. unfold B. rewrite !rd_slice by lia. f_equal. }
  assert (h + p <= cap ∨ cap < h + p) as [Hcap|Hcap] by lia.
  2:{ unfold crypt_packet. fold h a p. rewrite u8_id by (unfold is_u8; lia).
      replace (max_body layer <? h + p + 0) with false by lia.
      by replace (cap <? h + p + 0) with true by lia. }
  specialize (Ho ltac:(lia) Hsl ltac:(lia) Hmb ltac:(lia)).
  destruct (crypt_packet _ _ _ _ _ _ _) as [[[r out] info] d']. intros ->.
  destruct Ho as [[? _]|Ho]; [done|]. destruct (opened layer kr H B p) as [P|] eqn:Eo; [|by destruct Ho].
  destruct Ho as (_&Hout&i&Hi&Hm&Hil).
  apply security_opened_inv in Eo as [Ep LP]; [|done..].
  exists H, P, (command s), i. rewrite Hm. fold kr. split_and!; try done.
  - by exists a.
  - intros Hc ->. apply (Hcp Hc). by rewrite <- LP.
  - rewrite Hout. f_equal. f_equal. destruct Hform as (?&?&?&_). by apply security_flag_absent.
  - lia.
  - rewrite Hw0, LH. destruct (security_front_reads layer kr H (rd w h) B a (command s) Hkr Hs) as (_&_&_&_&R5).
    rewrite LH in R5. by rewrite R5, <- Hctl.
Qed.

(** ** Properties *)

(** What was sealed opens. If sealing an unsecured frame succeeds, its output is the
    protected frame of the definition for the frame's header and payload; and opening that
    output, on any device, with a key of the same selection, whatever that key's own counter,
    gives back the frame octet for octet and the counter it was sealed with, or fails in the
    cipher: it is never refused. *)
Theorem zigbee_security_roundtrip d layer k f n cap out info d1 d2 k' cap' :
  key_typed k → Ccm.usable_limits (limits k) → Ccm.usable_limits (limits k') → is_bytes f →
  n <= blen f → 0 <= layer → same_selection k k' → n <= cap' →
  zigbee_security_crypt d 0 layer (Some k) (Some f) n true cap true
    = (ZIGBEE_SECURITY_OK, Some out, info, d1) →
  (∃ H P, slice f 0 n = H ++ P ∧ out = protected layer k H P) ∧
  let '(r, back, i, _) :=
    zigbee_security_crypt d2 1 layer (Some k') (Some out) (blen out) true cap' true in
  (r = ZIGBEE_SECURITY_AES ∧ back = None) ∨
  (r = ZIGBEE_SECURITY_OK ∧ back = Some (slice f 0 n) ∧
   ∃ i', i = Some i' ∧ m_counter (meta i') = counter k ∧ info_length i' = n).
Proof.
  intros Hk Hlim Hlim' Hf Hn Hlay Hsel Hcap H.
  pose proof (security_seals d layer k f n cap Hk Hlim Hf Hn Hlay) as Hs. rewrite H in Hs.
  destruct (Hs eq_refl) as (Hd&P&c&Esp&Hform&Hl&Hlay1&Hsok&Hc&Hmb&Hsum&[= ->]&_).
  split; [by exists Hd, P|].
  assert (is_bytes P) as HP.
  { assert (is_bytes (slice f 0 n)) as Hb by by apply is_bytes_slice.
    rewrite Esp in Hb. by apply is_bytes_app in Hb as [_ ?]. }
  pose proof (security_opens d2 layer k k' Hd P c cap' Hk Hlim' Hl Hlay1 Hform HP Hsok Hc Hsel Hmb
    ltac:(lia)) as Ho.
  destruct (zigbee_security_crypt d2 _ _ _ _ _ _ _ _) as [[[r back] i] d3].
  destruct Ho as [?|(Hr&Hb&i'&Hi&Hm&Hil)]; [by left|right]. rewrite Esp. split_and!; try done.
  exists i'. split_and!; try done. lia.
Qed.

(** C23: only protected frames open. If opening a received frame succeeds, the frame, but for the
    level bits of its control octet, which are not trusted, is the protection of the delivered
    frame under the key with the counter that the frame carries: its tag is right for exactly
    this header, payload, source and counter, at the trusted level, which is never an
    unauthenticated one. *)
Theorem zigbee_security_authentic d layer k w n cap :
  key_typed k → Ccm.usable_limits (limits k) → is_bytes w → n <= blen w → 0 <= layer →
  let '(r, out, info, _) := zigbee_security_crypt d 1 layer (Some k) (Some w) n true cap true in
  r = ZIGBEE_SECURITY_OK →
  ∃ H P c i, let kr := with_reception k (m_counter (meta i)) (key_sequence k) (limits k) in
    header_form layer H c ∧ secure_level (level k) ∧ selection_ok layer c kr ∧
    (c = true → P ≠ []) ∧ info = Some i ∧ out = Some (H ++ P) ∧ info_length i = blen H + blen P ∧
    wr (slice w 0 n) (blen H) (Z.land (rd w (blen H)) 0xf8) = protected layer kr H P.
Proof. apply security_opens_only. Qed.
End protected.

(** ** Concrete instances, over the toy cipher: an NWK data frame with three octets of payload *)
Definition sample_key : zigbee_security_key_t := {|
  key := Ccm.sample_key; source := [1; 2; 3; 4; 5; 6; 7; 8]; counter := 0x01020304; level := 5;
  key_identifier := 1; key_sequence := 7; extended_nonce := 1; limits := Ccm.sample_limits |}.
Definition sample_frame : bytes := [0x48; 0x00; 0x34; 0x12; 0x78; 0x56; 30; 9; 100; 101; 102].
Definition sample_sealing : zigbee_security_result_t * option bytes * option zigbee_security_info_t * toy_device :=
  zigbee_security_crypt (D := toy_device) [] 0 0 (Some sample_key) (Some sample_frame) 11 true 100 true.
Definition sample_sealed : bytes :=
  [72; 2; 52; 18; 120; 86; 30; 9; 40; 4; 3; 2; 1; 1; 2; 3; 4; 5; 6; 7; 8; 7; 53; 71; 149; 134; 99; 211; 255].

Lemma zigbee_security_roundtrip_witness :
  (∃ H P, slice sample_frame 0 11 = H ++ P ∧
          sample_sealed = protected (D := toy_device) 0 sample_key H P) ∧
  let '(r, back, i, _) :=
    zigbee_security_crypt (D := toy_device) [] 1 0 (Some (with_reception sample_key 0 7 Ccm.sample_limits))
      (Some sample_sealed) (blen sample_sealed) true 11 true in
  (r = ZIGBEE_SECURITY_AES ∧ back = None) ∨
  (r = ZIGBEE_SECURITY_OK ∧ back = Some (slice sample_frame 0 11) ∧
   ∃ i', i = Some i' ∧ m_counter (meta i') = counter sample_key ∧ info_length i' = 11).
Proof.
  exact (zigbee_security_roundtrip (D := toy_device) [] 0 sample_key sample_frame 11 100 sample_sealed
    sample_sealing.1.2 [] [] (with_reception sample_key 0 7 Ccm.sample_limits) 11 ltac:(concrete)
    Ccm.ccm_sample_limits Ccm.ccm_sample_limits ltac:(concrete) ltac:(concrete) ltac:(concrete)
    ltac:(repeat split) ltac:(concrete) ltac:(vm_compute; reflexivity)).
Defined.

(** The level bits of the received control octet are set: they do not count. *)
Lemma zigbee_security_authentic_witness :
  let w := wr sample_sealed 8 0x2b in
  let '(r, out, info, _) :=
    zigbee_security_crypt (D := toy_device) [] 1 0 (Some sample_key) (Some w) 29 true 100 true in
  r = ZIGBEE_SECURITY_OK ∧
  ∃ H P c i, let kr := with_reception sample_key (m_counter (meta i)) 7 Ccm.sample_limits in
    header_form 0 H c ∧ secure_level 5 ∧ selection_ok 0 c kr ∧
    (c = true → P ≠ []) ∧ info = Some i ∧ out = Some (H ++ P) ∧ info_length i = blen H + blen P ∧
    wr (slice w 0 29) (blen H) (Z.land (rd w (blen H)) 0xf8) = protected (D := toy_device) 0 kr H P.
Proof.
  pose proof (zigbee_security_authentic (D := toy_device) [] 0 sample_key (wr sample_sealed 8 0x2b) 29 100
    ltac:(concrete) Ccm.ccm_sample_limits ltac:(concrete) ltac:(concrete) ltac:(concrete)) as H.
  cbv zeta. assert ((zigbee_security_crypt (D := toy_device) [] 1 0 (Some sample_key)
    (Some (wr sample_sealed 8 0x2b)) 29 true 100 true).1.1.1 = ZIGBEE_SECURITY_OK) as E
    by (vm_compute; reflexivity).
  destruct (zigbee_security_crypt _ _ _ _ _ _ _ _ _) as [[[r out] info] d'].
  split; [exact E|exact (H E)].
Defined.
End Security.
