(* ===== verification/MacTx.v ===== *)
(** * MAC transmission, src/src/mac_tx.c

    Unslotted CSMA-CA with acknowledgement, retries and confirmed cleanup, one frame at a time,
    in the base profile (no interval, observation or shared link workspace extension).  The
    code's working copy [control] is the context itself here: it is loaded at entry and saved at
    every exit that changes it.  The frame octets are never part of it. *)
From S2P Require Import Prelude MacFrame.

Module MacTx.

(** ** Data (include/mac_tx.h) *)
Definition MAC_TX_HALF := 0x80000000.
Definition MAC_TX_BACKOFF_SYMBOLS := 20.
Definition MAC_TX_ACK_SYMBOLS := 54.
Definition MAC_TX_MIN_BE := 3.
Definition MAC_TX_MAX_BE := 5.
Definition MAC_TX_MAX_BACKOFFS := 4.
Definition MAC_TX_MAX_RETRIES := 3.
Definition MAC_TX_STOP_SYMBOLS := 1024.
Definition MAC_TX_STOP_STEPS := 16.

Definition MAC_TX_IDLE := 0.
Definition MAC_TX_DRAW := 1.
Definition MAC_TX_DRAW_WAIT := 2.
Definition MAC_TX_RADIO := 3.
Definition MAC_TX_ACK_WAIT := 4.
Definition MAC_TX_STOPPING := 5.
Definition MAC_TX_DONE := 6.
Definition MAC_TX_FAULT := 7.

Definition MAC_TX_ACTION_NONE := 0.
Definition MAC_TX_ACTION_RANDOM := 1.
Definition MAC_TX_ACTION_ATTEMPT := 2.
Definition MAC_TX_ACTION_QUIESCE := 3.

Definition MAC_TX_EVENT_RANDOM := 1.
Definition MAC_TX_EVENT_BUSY := 2.
Definition MAC_TX_EVENT_SENT := 3.
Definition MAC_TX_EVENT_ACK := 4.
Definition MAC_TX_EVENT_QUIESCED := 5.
Definition MAC_TX_EVENT_FAILURE := 6.
Definition MAC_TX_EVENT_CANCEL := 7.

Definition MAC_TX_OUTCOME_NONE := 0.
Definition MAC_TX_ACKED := 1.
Definition MAC_TX_UNACKNOWLEDGED := 2.
Definition MAC_TX_CHANNEL_ACCESS := 3.
Definition MAC_TX_NO_ACK := 4.
Definition MAC_TX_CANCELLED := 5.
Definition MAC_TX_LIFETIME := 6.
Definition MAC_TX_WORK_LIMIT := 7.
Definition MAC_TX_CLOCK_ERROR := 8.
Definition MAC_TX_ADAPTER_ERROR := 9.
Definition MAC_TX_STOP_FAILED := 10.
Definition UINT32_MAX := 0xffffffff.

Inductive mac_tx_result_t :=
  | MAC_TX_OK | MAC_TX_INVALID | MAC_TX_FULL | MAC_TX_UNSUPPORTED | MAC_TX_SPACE
  | MAC_TX_STATE | MAC_TX_GENERATION_EXHAUSTED.
#[export] Instance mac_tx_result_eq : EqDecision mac_tx_result_t.
Proof. solve_decision. Defined.

(** The fields that only hold 0 or 1 are booleans. *)
Record mac_tx_t := {
  frame : bytes;
  last : Z; deadline : Z; cca_at : Z; tx_end : Z; ready_at : Z; generation : Z; stop_at : Z;
  steps : Z;
  phase : Z; next_dsn : Z; tx_length : Z; ack_requested : bool; nb : Z; be : Z; retries : Z;
  outcome : Z; transmissions : Z; uncertain : bool; pending : bool; retry_pending : bool;
  stop_steps : Z
}.
#[export] Instance mac_tx_fields : Fields mac_tx_t := λ c, {|
  frame := frame c;
  last := last c; deadline := deadline c; cca_at := cca_at c; tx_end := tx_end c;
  ready_at := ready_at c; generation := generation c; stop_at := stop_at c; steps := steps c;
  phase := phase c; next_dsn := next_dsn c; tx_length := tx_length c;
  ack_requested := ack_requested c; nb := nb c; be := be c; retries := retries c;
  outcome := outcome c; transmissions := transmissions c; uncertain := uncertain c;
  pending := pending c; retry_pending := retry_pending c; stop_steps := stop_steps c |}.

Record mac_tx_event_t := {
  ev_generation : Z; stamp : Z; ev_bytes : option bytes; ev_length : Z;
  kind : Z; retry : Z; ev_nb : Z; value : Z
}.
Record mac_tx_action_t := {
  ac_generation : Z; ac_at : Z; until : Z; ac_kind : Z; ac_retry : Z; ac_nb : Z; ac_length : Z;
  ac_ack_requested : bool; ac_phase : Z; ac_outcome : Z; ac_transmissions : Z;
  ac_uncertain : bool; ac_pending : bool
}.

Definition blank_info : Mac.mac_frame_info_t := {|
  Mac.header := Mac.Build_mac_header_t 0 0 0 0 0 0 0 0 (replicate 8 0) (replicate 8 0);
  Mac.payload_offset := 0; Mac.payload_length := 0 |}.

(** ** Operations *)
Definition reached (now at_ : Z) : bool := u32 (now - at_) <? MAC_TX_HALF.

Definition mac_tx_init (tx : option mac_tx_t) (random_dsn now : Z)
    : mac_tx_result_t * option mac_tx_t :=
  match tx with
  | None => (MAC_TX_INVALID, None)
  | Some _ =>
      (MAC_TX_OK, Some {|
         frame := replicate 125 0; last := now; deadline := 0; cca_at := 0; tx_end := 0;
         ready_at := now; generation := 0; stop_at := 0; steps := 0; phase := MAC_TX_IDLE;
         next_dsn := random_dsn; tx_length := 0; ack_requested := false; nb := 0; be := 0;
         retries := 0; outcome := 0; transmissions := 0; uncertain := false; pending := false;
         retry_pending := false; stop_steps := 0 |})
  end.

(** A decoded frame that may be transmitted. *)
Definition transmittable (body : bytes) (length : Z) (i : Mac.mac_frame_info_t) : bool :=
  let h := Mac.header i in
  if! has (Mac.flags h) Mac.MAC_FLAG_PENDING return false ;;
  if Mac.type h =? Mac.MAC_FRAME_COMMAND then
    let command := rd body (Mac.payload_offset i) in
    (command =? Mac.MAC_COMMAND_BEACON_REQUEST)
    || (negb (Mac.destination_pan h =? 0xffff)
        && (((command =? Mac.MAC_COMMAND_ASSOCIATION_REQUEST)
             && (Z.land (rd body (u8 (length - 1))) 0xf3 =? 0x80))
            || ((command =? Mac.MAC_COMMAND_DATA_REQUEST)
                && negb (Mac.destination_mode h =? Mac.MAC_ADDRESS_NONE))))
  else
    negb (negb (Mac.type h =? Mac.MAC_FRAME_DATA)
          || (Mac.source_pan h =? 0xffff)
          || (Mac.destination_pan h =? 0xffff)
          || (negb (has (Mac.flags h) Mac.MAC_FLAG_PAN_COMPRESSION)
              && (Mac.source_pan h =? Mac.destination_pan h))
          || ((Mac.source_mode h =? Mac.MAC_ADDRESS_SHORT)
              && (rd (Mac.source h) 0 =? 0xfe) && (rd (Mac.source h) 1 =? 0xff))
          || ((Mac.destination_mode h =? Mac.MAC_ADDRESS_SHORT)
              && (rd (Mac.destination h) 0 =? 0xfe) && (rd (Mac.destination h) 1 =? 0xff))).

(** The end of the interframe spacing: a time that has passed is brought up to the present. *)
Definition settle_ready (c : mac_tx_t) (now : Z) : mac_tx_t :=
  if reached (last c) (ready_at c) || reached now (ready_at c)
  then c <| ready_at := now |> else c.

(** What an admitted frame makes of the context. *)
Definition admit_frame (c : mac_tx_t) (body : bytes) (length now lifetime limit : Z)
    (ack : bool) : mac_tx_t :=
  let c := c <| frame := wr (blit (frame c) 0 (slice body 0 length)) 2 (next_dsn c) |>
             <| next_dsn := u8 (next_dsn c + 1) |> in
  let c := c <| tx_length := u8 length |> <| ack_requested := ack |>
             <| generation := u32 (generation c + 1) |> in
  let c := settle_ready c now in
  let c := c <| last := now |> <| deadline := u32 (now + lifetime) |> <| steps := limit |>
             <| phase := MAC_TX_DRAW |> <| nb := 0 |> <| be := MAC_TX_MIN_BE |> in
  c <| retries := 0 |> <| outcome := MAC_TX_OUTCOME_NONE |> <| transmissions := 0 |>
    <| uncertain := false |> <| pending := false |> <| retry_pending := false |>.

Definition mac_tx_submit (tx : option mac_tx_t) (body : option bytes)
    (length now lifetime work_limit : Z) : mac_tx_result_t * option mac_tx_t :=
  match tx, body with
  | Some c, Some b =>
      if! (lifetime =? 0) || (MAC_TX_HALF <=? lifetime) || (work_limit =? 0)
        return (MAC_TX_INVALID, tx) ;;
      if! negb (phase c =? MAC_TX_IDLE) return (MAC_TX_FULL, tx) ;;
      if! MAC_TX_HALF <=? u32 (now - last c) return (MAC_TX_INVALID, tx) ;;
      if! generation c =? UINT32_MAX return (MAC_TX_GENERATION_EXHAUSTED, tx) ;;
      match Mac.mac_frame_decode body length (Some blank_info) with
      | (Mac.MAC_CODEC_OK, Some i) =>
          if! negb (transmittable b length i) return (MAC_TX_UNSUPPORTED, tx) ;;
          (MAC_TX_OK, Some (admit_frame c b length now lifetime work_limit
                              (has (Mac.flags (Mac.header i)) Mac.MAC_FLAG_ACK_REQUEST)))
      | _ => (MAC_TX_UNSUPPORTED, tx)
      end
  | _, _ => (MAC_TX_INVALID, tx)
  end.

(** The octets copied out; the caller's buffer is written from its start. *)
Definition mac_tx_copy (tx : option mac_tx_t) (body : option bytes) (capacity : Z) (length : bool)
    : mac_tx_result_t * option bytes * option Z :=
  match tx, body with
  | Some c, Some b =>
      if! negb length return (MAC_TX_INVALID, body, None) ;;
      if! phase c =? MAC_TX_IDLE return (MAC_TX_STATE, body, None) ;;
      let size := tx_length c in
      if! capacity <? size return (MAC_TX_SPACE, body, None) ;;
      (MAC_TX_OK, Some (blit b 0 (slice (frame c) 0 size)), Some size)
  | _, _ => (MAC_TX_INVALID, body, None)
  end.

Definition fault (c : mac_tx_t) (result : Z) : mac_tx_t :=
  c <| uncertain := (phase c =? MAC_TX_RADIO) || uncertain c |>
    <| phase := MAC_TX_FAULT |> <| outcome := result |>.

Definition spacing (c : mac_tx_t) (end_ : Z) : mac_tx_t :=
  c <| ready_at := u32 (end_ + (if tx_length c <=? 16 then 12 else 40)) |>.

(** Every operation on the context returns it with the action it emits. *)
Definition stop (c : mac_tx_t) (now result : Z) : mac_tx_t * Z :=
  let c := c <| outcome := result |> in
  if! (phase c =? MAC_TX_DRAW) || (phase c =? MAC_TX_DRAW_WAIT)
    return (c <| phase := MAC_TX_DONE |>, MAC_TX_ACTION_NONE) ;;
  let c := if phase c =? MAC_TX_RADIO then c <| uncertain := true |> else c in
  let c := if (phase c =? MAC_TX_ACK_WAIT) && ack_requested c
              && negb (result =? MAC_TX_ACKED) && negb (result =? MAC_TX_NO_ACK)
           then spacing c (u32 (tx_end c + MAC_TX_ACK_SYMBOLS)) else c in
  (c <| phase := MAC_TX_STOPPING |> <| stop_at := u32 (now + MAC_TX_STOP_SYMBOLS) |>
     <| stop_steps := MAC_TX_STOP_STEPS |>, MAC_TX_ACTION_QUIESCE).

Definition no_ack (c : mac_tx_t) (now : Z) : mac_tx_t * Z :=
  let c := spacing c (u32 (tx_end c + MAC_TX_ACK_SYMBOLS)) in
  stop (c <| retry_pending := retries c <? MAC_TX_MAX_RETRIES |>) now MAC_TX_NO_ACK.

(** The event, when it belongs to the action in progress and was stamped since the last step. *)
Definition current (c : mac_tx_t) (now : Z) (event : option mac_tx_event_t)
    : option mac_tx_event_t :=
  match event with
  | Some e =>
      if (ev_generation e =? generation c) && (retry e =? retries c) && (ev_nb e =? nb c)
         && (u32 (stamp e - last c) <? MAC_TX_HALF) && (u32 (now - stamp e) <? MAC_TX_HALF)
      then Some e else None
  | None => None
  end.
(** The kind of the current event, 0 without one. *)
Definition kind_of (event : option mac_tx_event_t) : Z :=
  match event with Some e => kind e | None => 0 end.

(** The outcome of an exchange that is given up. *)
Definition abandoned (c : mac_tx_t) (k : Z) : Z :=
  if k =? MAC_TX_EVENT_CANCEL then MAC_TX_CANCELLED
  else if steps c =? 0 then MAC_TX_WORK_LIMIT else MAC_TX_LIFETIME.
Definition giving_up (c : mac_tx_t) (now k : Z) : bool :=
  reached now (deadline c) || (steps c =? 0) || (k =? MAC_TX_EVENT_CANCEL).

(** Phase STOPPING: a retry that was planned is given up, ... *)
Definition revoke (c : mac_tx_t) (now k : Z) : mac_tx_t :=
  if retry_pending c && giving_up c now k
  then c <| retry_pending := false |> <| outcome := abandoned c k |> else c.
(** ... the radio operation is confirmed over, ... *)
Definition retired (c : mac_tx_t) (stamp : Z) : mac_tx_t :=
  let c := if uncertain c
           then spacing c (u32 (stamp + (if ack_requested c then MAC_TX_ACK_SYMBOLS else 0)))
           else c in
  if retry_pending c then
    c <| retry_pending := false |> <| retries := u8 (retries c + 1) |> <| nb := 0 |>
      <| be := MAC_TX_MIN_BE |> <| outcome := MAC_TX_OUTCOME_NONE |> <| phase := MAC_TX_DRAW |>
  else c <| phase := MAC_TX_DONE |>.
(** ... within its limits of time and steps. *)
Definition retire (c : mac_tx_t) (now : Z) (event : option mac_tx_event_t) : mac_tx_t :=
  let k := kind_of event in
  let c := revoke c now k in
  if! reached now (stop_at c) || (stop_steps c =? 0) return fault c MAC_TX_STOP_FAILED ;;
  let c := c <| stop_steps := u8 (stop_steps c - 1) |> in
  if! k =? MAC_TX_EVENT_FAILURE return fault c MAC_TX_ADAPTER_ERROR ;;
  match event with
  | Some e => if k =? MAC_TX_EVENT_QUIESCED then retired c (stamp e) else c
  | None => c
  end.

(** Phase DRAW_WAIT with its random octet: the backoff and the attempt it schedules. *)
Definition drawn (c : mac_tx_t) (now value : Z) : mac_tx_t * Z :=
  let start := if reached now (ready_at c) then now else ready_at c in
  let c := c <| cca_at := u32 (start + Z.land value (Z.shiftl 1 (be c) - 1) * MAC_TX_BACKOFF_SYMBOLS) |> in
  if reached (cca_at c) (deadline c)
  then (c <| phase := MAC_TX_DONE |> <| outcome := MAC_TX_LIFETIME |>, MAC_TX_ACTION_NONE)
  else (c <| phase := MAC_TX_RADIO |>, MAC_TX_ACTION_ATTEMPT).

(** Phase RADIO with the report of the attempt. *)
Definition attempted (c : mac_tx_t) (now : Z) (e : mac_tx_event_t) : mac_tx_t * Z :=
  let busy := kind e =? MAC_TX_EVENT_BUSY in
  if! negb (reached (stamp e) (u32 (cca_at c + (if busy then 8 else 24 + 2 * tx_length c))))
    return (fault c MAC_TX_ADAPTER_ERROR, MAC_TX_ACTION_NONE) ;;
  if busy then
    let c := c <| nb := u8 (nb c + 1) |> in
    let c := if be c <? MAC_TX_MAX_BE then c <| be := u8 (be c + 1) |> else c in
    (if MAC_TX_MAX_BACKOFFS <? nb c
     then c <| phase := MAC_TX_DONE |> <| outcome := MAC_TX_CHANNEL_ACCESS |>
     else c <| phase := MAC_TX_DRAW |>, MAC_TX_ACTION_NONE)
  else
    let c := c <| transmissions := u8 (transmissions c + 1) |> <| tx_end := stamp e |>
               <| phase := MAC_TX_ACK_WAIT |> in
    if ack_requested c then (c, MAC_TX_ACTION_NONE)
    else stop (spacing c (stamp e)) now MAC_TX_UNACKNOWLEDGED.

(** The acknowledgement in the event, with the ignored control bits cleared, if it is one
    within the window. *)
Definition acknowledgement (c : mac_tx_t) (e : mac_tx_event_t) : option Mac.mac_header_t :=
  let b := default [] (ev_bytes e) in
  if (kind e =? MAC_TX_EVENT_ACK) && (ev_length e =? 3)
     && (Z.land (rd b 0) 7 =? Mac.MAC_FRAME_ACK)
     && (0 <? u32 (stamp e - tx_end c)) && (u32 (stamp e - tx_end c) <=? MAC_TX_ACK_SYMBOLS)
  then
    let normalized := [Z.land (rd b 0) (Z.lor Mac.MAC_FLAG_PENDING 7); 0; rd b 2] in
    match Mac.mac_frame_decode (Some normalized) 3 (Some blank_info) with
    | (Mac.MAC_CODEC_OK, Some i) => Some (Mac.header i)
    | _ => None
    end
  else None.

(** Phase ACK_WAIT. *)
Definition listening (c : mac_tx_t) (now : Z) (event : option mac_tx_event_t) : mac_tx_t * Z :=
  let '(c, emitted) :=
    match event with
    | Some e =>
        match acknowledgement c e with
        | Some h =>
            if Mac.sequence h =? rd (frame c) 2 then
              let c := c <| pending := has (Mac.flags h) Mac.MAC_FLAG_PENDING |> in
              stop (spacing c (stamp e)) now MAC_TX_ACKED
            else no_ack c now
        | None => (c, MAC_TX_ACTION_NONE)
        end
    | None => (c, MAC_TX_ACTION_NONE)
    end in
  if (phase c =? MAC_TX_ACK_WAIT) && reached now (u32 (tx_end c + MAC_TX_ACK_SYMBOLS))
  then no_ack c now else (c, emitted).

(** Every other phase. *)
Definition proceed (c : mac_tx_t) (now : Z) (event : option mac_tx_event_t) : mac_tx_t * Z :=
  let k := kind_of event in
  if! k =? MAC_TX_EVENT_FAILURE return (fault c MAC_TX_ADAPTER_ERROR, MAC_TX_ACTION_NONE) ;;
  if! giving_up c now k return stop c now (abandoned c k) ;;
  let c := c <| steps := u16 (steps c - 1) |> in
  if phase c =? MAC_TX_DRAW then (c <| phase := MAC_TX_DRAW_WAIT |>, MAC_TX_ACTION_RANDOM)
  else if phase c =? MAC_TX_ACK_WAIT then listening c now event
  else
    match event with
    | Some e =>
        if (phase c =? MAC_TX_DRAW_WAIT) && (k =? MAC_TX_EVENT_RANDOM) then drawn c now (value e)
        else if (phase c =? MAC_TX_RADIO) && ((k =? MAC_TX_EVENT_BUSY) || (k =? MAC_TX_EVENT_SENT))
        then attempted c now e
        else (c, MAC_TX_ACTION_NONE)
    | None => (c, MAC_TX_ACTION_NONE)
    end.

(** One step of a context that is neither idle, done nor faulty, up to the label [publish]. *)
Definition progress (c : mac_tx_t) (now : Z) (event : option mac_tx_event_t) : mac_tx_t * Z :=
  if! MAC_TX_HALF <=? u32 (now - last c)
    return (fault c MAC_TX_CLOCK_ERROR, MAC_TX_ACTION_NONE) ;;
  let event := current c now event in
  let c := settle_ready c now <| last := now |> in
  if phase c =? MAC_TX_STOPPING then (retire c now event, MAC_TX_ACTION_NONE)
  else proceed c now event.

Definition publish (c : mac_tx_t) (now emitted : Z) : mac_tx_action_t := {|
  ac_generation := generation c;
  ac_at := if emitted =? MAC_TX_ACTION_QUIESCE then now else cca_at c;
  until := if phase c =? MAC_TX_STOPPING then stop_at c else deadline c;
  ac_kind := emitted; ac_retry := retries c; ac_nb := nb c; ac_length := tx_length c;
  ac_ack_requested := ack_requested c; ac_phase := phase c; ac_outcome := outcome c;
  ac_transmissions := transmissions c; ac_uncertain := uncertain c; ac_pending := pending c |}.

Definition event_refused (event : option mac_tx_event_t) : bool :=
  match event with
  | Some e =>
      (kind e <? MAC_TX_EVENT_RANDOM) || (MAC_TX_EVENT_CANCEL <? kind e)
      || ((kind e =? MAC_TX_EVENT_ACK) && negb (ev_length e =? 0)
          && match ev_bytes e with None => true | Some _ => false end)
  | None => false
  end.

Definition mac_tx_step (tx : option mac_tx_t) (now : Z) (event : option mac_tx_event_t)
    (action : bool) : mac_tx_result_t * option mac_tx_t * option mac_tx_action_t :=
  match tx with
  | None => (MAC_TX_INVALID, tx, None)
  | Some c =>
      if! negb action || event_refused event return (MAC_TX_INVALID, tx, None) ;;
      if! phase c =? MAC_TX_IDLE return (MAC_TX_STATE, tx, None) ;;
      let '(c, emitted) :=
        if (phase c =? MAC_TX_DONE) || (phase c =? MAC_TX_FAULT) then (c, MAC_TX_ACTION_NONE)
        else progress c now event in
      (MAC_TX_OK, Some c, Some (publish c now emitted))
  end.

Definition mac_tx_release (tx : option mac_tx_t) : mac_tx_result_t * option mac_tx_t :=
  match tx with
  | None => (MAC_TX_INVALID, tx)
  | Some c =>
      if! negb (phase c =? MAC_TX_DONE) return (MAC_TX_STATE, tx) ;;
      (MAC_TX_OK, Some (c <| phase := MAC_TX_IDLE |>))
  end.

(** ** The specification: one exchange in unbounded time

    A frame is drawn for, attempted, listened for and retired; the machine below says so over
    integers that never wrap, with the ordinary order of time and one constructor per activity. *)
Inductive activity :=
  | Drawing                                        (* a random octet is to be asked for *)
  | Waiting                                        (* it has been asked for *)
  | Attempting (at_ : Z)                           (* the channel is assessed at [at_] *)
  | Listening (sent : Z)                           (* for the acknowledgement of [sent] *)
  | Retiring (until_ budget : Z) (again : bool)    (* [again]: towards another attempt *)
  | Finished
  | Failed.

Record exchange := {
  x_frame : bytes; x_length : Z; x_ack : bool; x_deadline : Z; x_generation : Z
}.
Record ideal := {
  i_last : Z; i_ready : Z; i_work : Z; i_nb : Z; i_retries : Z; i_sent : Z; i_outcome : Z;
  i_uncertain : bool; i_pending : bool; i_activity : activity
}.
#[export] Instance ideal_fields : Fields ideal := λ i, {|
  i_last := i_last i; i_ready := i_ready i; i_work := i_work i; i_nb := i_nb i;
  i_retries := i_retries i; i_sent := i_sent i; i_outcome := i_outcome i;
  i_uncertain := i_uncertain i; i_pending := i_pending i; i_activity := i_activity i |}.

Inductive intent := Nothing | Random | Attempt (at_ : Z) | Quiesce (now : Z).

Section ideal.
Context (x : exchange).

(** The interframe space after a frame of this length, and the end of the one that follows the
    acknowledgement window. *)
Definition space : Z := if x_length x <=? 16 then 12 else 40.
Definition after_window (sent : Z) : Z := sent + MAC_TX_ACK_SYMBOLS + space.

Definition close (i : ideal) (result : Z) (a : activity) : ideal :=
  i <| i_outcome := result |> <| i_activity := a |>.
Definition begin_retiring (i : ideal) (now result : Z) (again : bool) : ideal * intent :=
  (close i result (Retiring (now + MAC_TX_STOP_SYMBOLS) MAC_TX_STOP_STEPS again), Quiesce now).
Definition unanswered (i : ideal) (now sent : Z) : ideal * intent :=
  begin_retiring (i <| i_ready := after_window sent |>) now MAC_TX_NO_ACK
    (i_retries i <? MAC_TX_MAX_RETRIES).
Definition i_fail (i : ideal) (result : Z) : ideal :=
  let on_air := match i_activity i with Attempting _ => true | _ => false end in
  close (i <| i_uncertain := on_air || i_uncertain i |>) result Failed.

Definition i_current (i : ideal) (now : Z) (event : option mac_tx_event_t)
    : option mac_tx_event_t :=
  match event with
  | Some e =>
      if (ev_generation e =? x_generation x) && (retry e =? i_retries i) && (ev_nb e =? i_nb i)
         && (i_last i <=? stamp e) && (stamp e <=? now) then Some e else None
  | None => None
  end.
Definition i_giving_up (i : ideal) (now k : Z) : bool :=
  (x_deadline x <=? now) || (i_work i =? 0) || (k =? MAC_TX_EVENT_CANCEL).
Definition i_abandoned (i : ideal) (k : Z) : Z :=
  if k =? MAC_TX_EVENT_CANCEL then MAC_TX_CANCELLED
  else if i_work i =? 0 then MAC_TX_WORK_LIMIT else MAC_TX_LIFETIME.

Definition i_stop (i : ideal) (now result : Z) : ideal * intent :=
  match i_activity i with
  | Attempting _ => begin_retiring (i <| i_uncertain := true |>) now result false
  | Listening sent => begin_retiring (i <| i_ready := after_window sent |>) now result false
  | _ => (close i result Finished, Nothing)
  end.

Definition i_retired (i : ideal) (stamp_ : Z) (again : bool) : ideal :=
  let i := if i_uncertain i
           then i <| i_ready := stamp_ + (if x_ack x then MAC_TX_ACK_SYMBOLS else 0) + space |>
           else i in
  if again then close (i <| i_retries := i_retries i + 1 |> <| i_nb := 0 |>)
                      MAC_TX_OUTCOME_NONE Drawing
  else i <| i_activity := Finished |>.
Definition i_retire (i : ideal) (now : Z) (event : option mac_tx_event_t)
    (until_ budget : Z) (again : bool) : ideal :=
  let k := kind_of event in
  let revoked := again && i_giving_up i now k in
  let again := again && negb revoked in
  let i := if revoked then i <| i_outcome := i_abandoned i k |> else i in
  if! (until_ <=? now) || (budget =? 0) return i_fail i MAC_TX_STOP_FAILED ;;
  if! k =? MAC_TX_EVENT_FAILURE return i_fail i MAC_TX_ADAPTER_ERROR ;;
  match event with
  | Some e =>
      if k =? MAC_TX_EVENT_QUIESCED then i_retired i (stamp e) again
      else i <| i_activity := Retiring until_ (budget - 1) again |>
  | None => i <| i_activity := Retiring until_ (budget - 1) again |>
  end.

(** The random backoff exponent after [nb] busy assessments. *)
Definition exponent (nb : Z) : Z := Z.min MAC_TX_MAX_BE (MAC_TX_MIN_BE + nb).
Definition i_drawn (i : ideal) (value : Z) : ideal * intent :=
  let at_ := i_ready i + value mod 2 ^ exponent (i_nb i) * MAC_TX_BACKOFF_SYMBOLS in
  if x_deadline x <=? at_ then (close i MAC_TX_LIFETIME Finished, Nothing)
  else (i <| i_activity := Attempting at_ |>, Attempt at_).

Definition i_attempted (i : ideal) (now at_ : Z) (e : mac_tx_event_t) : ideal * intent :=
  if kind e =? MAC_TX_EVENT_BUSY then
    if! stamp e <? at_ + 8 return (i_fail i MAC_TX_ADAPTER_ERROR, Nothing) ;;
    let i := i <| i_nb := i_nb i + 1 |> in
    (if MAC_TX_MAX_BACKOFFS <? i_nb i then close i MAC_TX_CHANNEL_ACCESS Finished
     else i <| i_activity := Drawing |>, Nothing)
  else
    if! stamp e <? at_ + 24 + 2 * x_length x return (i_fail i MAC_TX_ADAPTER_ERROR, Nothing) ;;
    let i := i <| i_sent := i_sent i + 1 |> in
    if x_ack x then (i <| i_activity := Listening (stamp e) |>, Nothing)
    else begin_retiring (i <| i_ready := stamp e + space |>) now MAC_TX_UNACKNOWLEDGED false.

(** The sequence number and the pending flag of an acknowledgement received within the window. *)
Definition answer (sent : Z) (event : option mac_tx_event_t) : option (Z * bool) :=
  match event with
  | Some e =>
      let b := default [] (ev_bytes e) in
      if (kind e =? MAC_TX_EVENT_ACK) && (ev_length e =? 3) && (rd b 0 mod 8 =? 2)
         && (sent <? stamp e) && (stamp e <=? sent + MAC_TX_ACK_SYMBOLS)
      then Some (rd b 2, Z.testbit (rd b 0) 4) else None
  | None => None
  end.
Definition i_listening (i : ideal) (now sent : Z) (event : option mac_tx_event_t)
    : ideal * intent :=
  match answer sent event with
  | Some (number, more) =>
      if number =? rd (x_frame x) 2
      then begin_retiring (i <| i_pending := more |>
                             <| i_ready := default 0 (stamp <$> event) + space |>)
             now MAC_TX_ACKED false
      else unanswered i now sent
  | None =>
      if sent + MAC_TX_ACK_SYMBOLS <=? now then unanswered i now sent else (i, Nothing)
  end.

Definition i_active (i : ideal) (now : Z) (event : option mac_tx_event_t) : ideal * intent :=
  let k := kind_of event in
  if! k =? MAC_TX_EVENT_FAILURE return (i_fail i MAC_TX_ADAPTER_ERROR, Nothing) ;;
  if! i_giving_up i now k return i_stop i now (i_abandoned i k) ;;
  let i := i <| i_work := i_work i - 1 |> in
  match i_activity i, event with
  | Drawing, _ => (i <| i_activity := Waiting |>, Random)
  | Waiting, Some e => if k =? MAC_TX_EVENT_RANDOM then i_drawn i (value e) else (i, Nothing)
  | Attempting at_, Some e =>
      if (k =? MAC_TX_EVENT_BUSY) || (k =? MAC_TX_EVENT_SENT) then i_attempted i now at_ e
      else (i, Nothing)
  | Listening sent, _ => i_listening i now sent event
  | _, _ => (i, Nothing)
  end.

Definition ideal_step (i : ideal) (now : Z) (event : option mac_tx_event_t) : ideal * intent :=
  match i_activity i with
  | Finished | Failed => (i, Nothing)
  | a =>
      let event := i_current i now event in
      let i := i <| i_ready := Z.max now (i_ready i) |> <| i_last := now |> in
      match a with
      | Retiring u b g => (i_retire i now event u b g, Nothing)
      | _ => i_active i now event
      end
  end.
End ideal.

(** ** Refinement

    [models x i c]: the context [c] is the exchange [x] in the state [i], every time wrapped at 32 bits. *)
Definition QUARTER : Z := 2 ^ 30.
Definition wrapped (e : mac_tx_event_t) : mac_tx_event_t := {|
  ev_generation := ev_generation e; stamp := u32 (stamp e); ev_bytes := ev_bytes e;
  ev_length := ev_length e; kind := kind e; retry := retry e; ev_nb := ev_nb e;
  value := value e |}.

Record same (x : exchange) (i : ideal) (c : mac_tx_t) : Prop := {
  same_frame : frame c = x_frame x; same_length : tx_length c = x_length x;
  same_ack : ack_requested c = x_ack x; same_generation : generation c = x_generation x;
  same_deadline : deadline c = u32 (x_deadline x); same_last : last c = u32 (i_last i);
  same_ready : ready_at c = u32 (i_ready i); same_work : steps c = i_work i;
  same_nb : nb c = i_nb i; same_be : be c = exponent (i_nb i);
  same_retries : retries c = i_retries i; same_sent : transmissions c = i_sent i;
  same_outcome : outcome c = i_outcome i; same_uncertain : uncertain c = i_uncertain i;
  same_pending : pending c = i_pending i }.

Definition phase_of (a : activity) : Z :=
  match a with
  | Drawing => MAC_TX_DRAW | Waiting => MAC_TX_DRAW_WAIT | Attempting _ => MAC_TX_RADIO
  | Listening _ => MAC_TX_ACK_WAIT | Retiring _ _ _ => MAC_TX_STOPPING
  | Finished => MAC_TX_DONE | Failed => MAC_TX_FAULT
  end.
Definition doing (a : activity) (c : mac_tx_t) : Prop :=
  phase c = phase_of a ∧
  match a with
  | Drawing | Waiting => retry_pending c = false
  | Attempting at_ => retry_pending c = false ∧ cca_at c = u32 at_
  | Listening sent => retry_pending c = false ∧ tx_end c = u32 sent
  | Retiring u b g => retry_pending c = g ∧ stop_at c = u32 u ∧ stop_steps c = b
  | Finished | Failed => True
  end.

(** The ranges within which times and counters stay. *)
Record bounded (x : exchange) (i : ideal) : Prop := {
  b_length : 0 <= x_length x <= 125; b_work : 0 <= i_work i < 65536;
  b_nb : 0 <= i_nb i <= MAC_TX_MAX_BACKOFFS + 1; b_retries : 0 <= i_retries i <= MAC_TX_MAX_RETRIES;
  b_sent : 0 <= i_sent i <= i_retries i + 1;
  b_ready : - 2 ^ 31 < i_ready i - i_last i < 2 ^ 29 }.
Definition in_time (x : exchange) (i : ideal) : Prop :=
  i_last i < x_deadline x < i_last i + 2 ^ 31.
Definition fitting (x : exchange) (i : ideal) : Prop :=
  match i_activity i with
  | Drawing | Waiting => in_time x i ∧ i_nb i <= MAC_TX_MAX_BACKOFFS ∧ i_sent i <= i_retries i
  | Attempting at_ =>
      in_time x i ∧ i_nb i <= MAC_TX_MAX_BACKOFFS ∧ i_sent i <= i_retries i ∧
      x_deadline x - 2 ^ 31 < at_ < x_deadline x ∧ at_ < i_last i + 2 ^ 29 + 1000
  | Listening sent => in_time x i ∧ x_ack x = true ∧ i_last i - QUARTER < sent <= i_last i
  | Retiring u b g =>
      i_last i < u <= i_last i + MAC_TX_STOP_SYMBOLS ∧ 0 <= b <= MAC_TX_STOP_STEPS ∧
      (g = true → in_time x i ∧ i_retries i < MAC_TX_MAX_RETRIES)
  | Finished | Failed => True
  end.
Record models (x : exchange) (i : ideal) (c : mac_tx_t) : Prop := {
  m_same : same x i c; m_doing : doing (i_activity i) c;
  m_bounded : bounded x i; m_fitting : fitting x i }.

(** What the code emits for an intent. *)
Definition carried (p : intent) (now : Z) (c : mac_tx_t) (emitted : Z) : Prop :=
  match p with
  | Nothing => emitted = MAC_TX_ACTION_NONE
  | Random => emitted = MAC_TX_ACTION_RANDOM
  | Attempt at_ => emitted = MAC_TX_ACTION_ATTEMPT ∧ cca_at c = u32 at_
  | Quiesce t => emitted = MAC_TX_ACTION_QUIESCE ∧ t = now
  end.
Definition implements (x : exchange) (now : Z) (r : ideal * intent) (r' : mac_tx_t * Z) : Prop :=
  models x r.1 r'.1 ∧ carried r.2 now r'.1 r'.2.

Ltac constants := unfold MAC_TX_HALF, MAC_TX_BACKOFF_SYMBOLS, MAC_TX_ACK_SYMBOLS, MAC_TX_MIN_BE,
  MAC_TX_MAX_BE, MAC_TX_MAX_BACKOFFS, MAC_TX_MAX_RETRIES, MAC_TX_STOP_SYMBOLS, MAC_TX_STOP_STEPS,
  QUARTER in *.
Ltac tx_fields := cbn [update frame last deadline cca_at tx_end ready_at generation stop_at steps
  phase next_dsn tx_length ack_requested nb be retries outcome transmissions uncertain pending
  retry_pending stop_steps i_last i_ready i_work i_nb i_retries i_sent i_outcome i_uncertain
  i_pending i_activity stamp kind value ev_bytes ev_length ev_generation retry ev_nb fst snd].

Lemma tx_reached a b : - 2 ^ 31 <= a - b < 2 ^ 31 → reached (u32 a) (u32 b) = (b <=? a).
Proof.
  intros H. unfold reached, MAC_TX_HALF. change (2 ^ 31) with 2147483648 in H.
  apply Bool.eq_iff_eq_true. rewrite Z.ltb_lt, Z.leb_le. unfold u32. split; intros; width.
Qed.
Lemma tx_elapsed a b : 0 <= a - b < 2 ^ 32 → u32 (u32 a - u32 b) = a - b.
Proof. change (2 ^ 32) with 4294967296. intros. width. Qed.
Lemma tx_add a k : u32 (u32 a + k) = u32 (a + k).
Proof. width. Qed.
Lemma tx_in_time x i now : bounded x i → in_time x i → i_last i <= now < i_last i + QUARTER →
  reached (u32 now) (u32 (x_deadline x)) = (x_deadline x <=? now).
Proof. intros [] [] ?. apply tx_reached. constants. lia. Qed.

Lemma tx_fail x i c r :
  same x i c → phase c = phase_of (i_activity i) → bounded x i →
  models x (i_fail i r) (fault c r).
Proof.
  intros [] Hp []. unfold i_fail, close, fault. split; tx_fields; [split; tx_fields| |split|]; try done.
  by rewrite Hp, same_uncertain0; destruct (i_activity i).
Qed.
Lemma tx_finish x i c r (w : bool) :
  same x i c → bounded x i →
  models x (close i r Finished) (c <| phase := MAC_TX_DONE |> <| outcome := r |>).
Proof. intros [] []. unfold close. split; tx_fields; by split. Qed.
Lemma tx_spacing x i c e :
  same x i c → same x (i <| i_ready := e + space x |>) (spacing c (u32 e)).
Proof.
  intros []. unfold spacing, space. rewrite same_length0. split; tx_fields; try done. apply tx_add.
Qed.
Lemma tx_spacing' x i c e k :
  same x i c → same x (i <| i_ready := e + k + space x |>) (spacing c (u32 (u32 e + k))).
Proof. intros H. rewrite tx_add. by apply tx_spacing. Qed.
Lemma tx_begin x i c now r g :
  same x i c → bounded x i → i_last i = now → retry_pending c = g →
  (g = true → in_time x i ∧ i_retries i < MAC_TX_MAX_RETRIES) →
  implements x now (begin_retiring i now r g)
    (c <| outcome := r |> <| phase := MAC_TX_STOPPING |>
       <| stop_at := u32 (u32 now + MAC_TX_STOP_SYMBOLS) |> <| stop_steps := MAC_TX_STOP_STEPS |>,
     MAC_TX_ACTION_QUIESCE).
Proof.
  intros [] [] Hl Hg Hr. unfold begin_retiring, close. rewrite tx_add.
  split; [|by split]. split; tx_fields.
  - by split; tx_fields.
  - by repeat split.
  - by split.
  - unfold fitting, in_time. tx_fields. constants. split_and!; try lia. exact Hr.
Qed.
Lemma tx_stop_answered x i c now r g :
  same x i c → bounded x i → i_last i = now → phase c = MAC_TX_ACK_WAIT → retry_pending c = g →
  (g = true → in_time x i ∧ i_retries i < MAC_TX_MAX_RETRIES) →
  x_ack x && negb (r =? MAC_TX_ACKED) && negb (r =? MAC_TX_NO_ACK) = false →
  implements x now (begin_retiring i now r g) (stop c (u32 now) r).
Proof.
  intros Hs Hb Hl Hp Hg Hr Ha. unfold stop. cbv zeta. proj. rewrite Hp.
  change ((MAC_TX_ACK_WAIT =? MAC_TX_DRAW) || (MAC_TX_ACK_WAIT =? MAC_TX_DRAW_WAIT)) with false.
  change (MAC_TX_ACK_WAIT =? MAC_TX_RADIO) with false. cbv iota. proj.
  rewrite Hp, (same_ack _ _ _ Hs). change (MAC_TX_ACK_WAIT =? MAC_TX_ACK_WAIT) with true.
  cbn [andb]. rewrite Ha. by apply tx_begin.
Qed.

Definition active (a : activity) : bool :=
  match a with Drawing | Waiting | Attempting _ | Listening _ => true | _ => false end.
Definition heard_of (x : exchange) (i : ideal) : Prop :=
  match i_activity i with
  | Listening sent => x_ack x = true ∧ i_last i - 2 ^ 31 < sent <= i_last i
  | _ => True
  end.
Lemma tx_after_window x i sent :
  bounded x i → i_last i - 2 ^ 31 < sent <= i_last i →
  bounded x (i <| i_ready := after_window x sent |>).
Proof.
  intros [] H. unfold after_window, space. split; tx_fields; try done. constants.
  destruct (_ <=? 16); lia.
Qed.
Lemma tx_stop x i c now r :
  same x i c → doing (i_activity i) c → bounded x i → heard_of x i → i_last i = now →
  active (i_activity i) = true → (r =? MAC_TX_ACKED) = false → (r =? MAC_TX_NO_ACK) = false →
  implements x now (i_stop x i now r) (stop c (u32 now) r).
Proof.
  intros Hs [Hp Hd] Hb Hh Hl Ha H1 H2. unfold i_stop, stop. cbv zeta. proj. rewrite Hp.
  unfold heard_of in Hh.
  destruct (i_activity i) as [| |a|sent|u b g| |]; try done; cbn [phase_of];
    unfold MAC_TX_DRAW, MAC_TX_DRAW_WAIT, MAC_TX_RADIO, MAC_TX_ACK_WAIT;
    cbn [Z.eqb Pos.eqb orb andb]; proj.
  - split; [|done]. by apply (tx_finish x i c r true).
  - split; [|done]. by apply (tx_finish x i c r true).
  - change (phase (c <| outcome := r |> <| uncertain := true |>)) with (phase c). rewrite Hp.
    cbn [phase_of Z.eqb Pos.eqb andb]. 
    replace (MAC_TX_RADIO =? 4) with false by done. cbn [andb].
    change (c <| outcome := r |> <| uncertain := true |>)
      with (c <| uncertain := true |> <| outcome := r |>).
    apply (tx_begin x (i <| i_uncertain := true |>)); try done; [| |by apply Hd].
    + destruct Hs. by split.
    + destruct Hb. by split.
  - destruct Hh as [Hack Hsent]. destruct Hd as [Hr Ht].
    rewrite Hp, (same_ack _ _ _ Hs), Hack, H1, H2. cbn [phase_of negb andb Z.eqb Pos.eqb].
    change (MAC_TX_ACK_WAIT =? 4) with true. cbn [andb]. proj. rewrite Ht.
    change (spacing (c <| outcome := r |>) (u32 (u32 sent + MAC_TX_ACK_SYMBOLS)))
      with (spacing c (u32 (u32 sent + MAC_TX_ACK_SYMBOLS)) <| outcome := r |>).
    apply (tx_begin x (i <| i_ready := after_window x sent |>)); try done.
    + by apply tx_spacing'.
    + by apply tx_after_window.
Qed.
Lemma tx_no_ack x i c now sent :
  same x i c → doing (Listening sent) c → bounded x i → i_last i = now → in_time x i →
  i_last i - 2 ^ 31 < sent <= i_last i →
  implements x now (unanswered x i now sent) (no_ack c (u32 now)).
Proof.
  intros Hs [Hp [Hr Ht]] Hb Hl Hin Hw. unfold unanswered, no_ack. cbv zeta. rewrite Ht.
  assert (retries (spacing c (u32 (u32 sent + MAC_TX_ACK_SYMBOLS))) = i_retries i) as Er
    by apply Hs.
  rewrite Er. apply tx_stop_answered; try done.
  - pose proof (tx_spacing' x i c sent MAC_TX_ACK_SYMBOLS Hs) as []. by split.
  - by apply tx_after_window.
  - intros Hg. split; [exact Hin|]. revert Hg. proj. lia.
  - by rewrite !andb_false_r.
Qed.

(** *** One step, part by part

    [moved i now] is the state brought up to the present, which is what the parts work on. *)
Definition moved (i : ideal) (now : Z) : ideal :=
  i <| i_ready := Z.max now (i_ready i) |> <| i_last := now |>.
Definition stamped (now : Z) (event : option mac_tx_event_t) : Prop :=
  match event with Some e => now - QUARTER < stamp e <= now | None => True end.

Lemma tx_settle_ready c t r now :
  last c = u32 t → ready_at c = u32 r → t <= now < t + QUARTER → - 2 ^ 31 < r - t < 2 ^ 29 →
  settle_ready c (u32 now) = c <| ready_at := u32 (Z.max now r) |>.
Proof.
  intros Hl Hr Hn Hs. unfold settle_ready. rewrite Hl, Hr, tx_reached by (constants; lia).
  destruct (r <=? t) eqn:E; [|rewrite tx_reached by (constants; lia); destruct (r <=? now) eqn:E2];
    cbn [orb].
  - by replace (Z.max now r) with now by lia.
  - by replace (Z.max now r) with now by lia.
  - replace (Z.max now r) with r by lia. rewrite <- Hr. by destruct c.
Qed.
Lemma tx_settle x i c now :
  same x i c → bounded x i → i_last i <= now < i_last i + QUARTER →
  same x (moved i now) (settle_ready c (u32 now) <| last := u32 now |>) ∧ bounded x (moved i now).
Proof.
  intros Hs [] Hn. unfold moved. split.
  2: { split; tx_fields; try done. constants. lia. }
  erewrite tx_settle_ready; [|apply Hs|apply Hs|done|done].
  destruct Hs. by split.
Qed.
Lemma tx_settled_doing c now a :
  doing a c → doing a (settle_ready c now <| last := now |>).
Proof. unfold settle_ready. intros H. by destruct (_ || _). Qed.

Lemma tx_giving_up x i c now k :
  same x i c → - 2 ^ 31 <= now - x_deadline x < 2 ^ 31 →
  giving_up c (u32 now) k = i_giving_up x i now k ∧ abandoned c k = i_abandoned i k.
Proof.
  intros Hs Hd. unfold giving_up, i_giving_up, abandoned, i_abandoned.
  by rewrite (same_deadline _ _ _ Hs), (same_work _ _ _ Hs), tx_reached.
Qed.
Lemma tx_current x i c now e :
  same x i c → i_last i <= now < i_last i + QUARTER → now - 2 ^ 31 < stamp e < now + 2 ^ 31 →
  current c (u32 now) (Some (wrapped e)) = wrapped <$> i_current x i now (Some e).
Proof.
  intros Hs Hn He. unfold current, i_current. cbn [wrapped ev_generation retry ev_nb stamp].
  rewrite (same_generation _ _ _ Hs), (same_retries _ _ _ Hs), (same_nb _ _ _ Hs), (same_last _ _ _ Hs).
  destruct ((ev_generation e =? x_generation x) && (retry e =? i_retries i) && (ev_nb e =? i_nb i));
    [|done]. cbn [andb].
  assert ((u32 (u32 (stamp e) - u32 (i_last i)) <? MAC_TX_HALF) && (u32 (u32 now - u32 (stamp e)) <? MAC_TX_HALF)
    = (i_last i <=? stamp e) && (stamp e <=? now)) as ->; [|by destruct (_ && _)].
  constants. change (2 ^ 30) with 1073741824 in *. change (2 ^ 31) with 2147483648 in *.
  apply Bool.eq_iff_eq_true. rewrite !andb_true_iff, !Z.ltb_lt, !Z.leb_le. split; intros; width.
Qed.

(** A context in retirement, brought up to the present. *)
Definition retiring (x : exchange) (now u b : Z) (g : bool) (i : ideal) (c : mac_tx_t) : Prop :=
  same x i c ∧ doing (Retiring u b g) c ∧ bounded x i ∧ i_last i = now ∧
  i_activity i = Retiring u b g ∧
  (g = true → now < x_deadline x < now + 2 ^ 31 ∧ i_retries i < MAC_TX_MAX_RETRIES).

Lemma tx_revoke x i c now u b g k :
  same x i c → doing (Retiring u b g) c → i_activity i = Retiring u b g → bounded x i →
  i_last i = now →
  (g = true → now - QUARTER < x_deadline x < now + 2 ^ 31 ∧ i_retries i < MAC_TX_MAX_RETRIES) →
  let revoked := g && i_giving_up x i now k in
  let i' := if revoked then i <| i_outcome := i_abandoned i k |> else i in
  same x i' (revoke c (u32 now) k) ∧ doing (Retiring u b (g && negb revoked)) (revoke c (u32 now) k) ∧
  bounded x i' ∧ i_last i' = now ∧ i_activity i' = Retiring u b g ∧
  (g && negb revoked = true → now < x_deadline x < now + 2 ^ 31 ∧ i_retries i' < MAC_TX_MAX_RETRIES).
Proof.
  intros Hs [Hp [Hr Hd]] Ha Hb Hl Hg revoked i'. unfold revoke. rewrite Hr.
  assert (g && giving_up c (u32 now) k = revoked ∧ abandoned c k = i_abandoned i k) as [-> ->].
  { subst revoked. destruct g; [|split; [done|]].
    - destruct (tx_giving_up x i c now k Hs) as [-> ->]; [constants; lia|done].
    - unfold abandoned, i_abandoned. by rewrite (same_work _ _ _ Hs). }
  assert (revoked = true → g = true) as Hrg by (subst revoked; by destruct g).
  assert (g && negb revoked = true → now < x_deadline x < now + 2 ^ 31 ∧ i_retries i < MAC_TX_MAX_RETRIES) as Hd'.
  { clear -Hg. subst revoked. unfold i_giving_up. destruct g; [|done]. specialize (Hg eq_refl).
    destruct (x_deadline x <=? now) eqn:E; [done|]. intros _. lia. }
  clearbody revoked. subst i'. destruct revoked.
  - rewrite Hrg by done. split_and!; [destruct Hs; by split|exact (conj Hp (conj eq_refl Hd))|destruct Hb; by split|done| |].
    + change (i_activity (i <| i_outcome := i_abandoned i k |>)) with (i_activity i). by rewrite Ha, Hrg.
    + done.
  - rewrite andb_true_r in *. split_and!; done.
Qed.
Lemma tx_retired x i c now u b g s :
  retiring x now u b g i c → now - QUARTER < s <= now →
  models x (i_retired x i s g) (retired c (u32 s)).
Proof.
  intros (Hs&[_ [Hr _]]&Hb&Hl&_&Hg) He. unfold i_retired, retired. cbv zeta.
  set (i2 := if i_uncertain i then _ else i). set (c2 := if uncertain c then _ else c).
  assert (same x i2 c2 ∧ bounded x i2 ∧ i_last i2 = now ∧ i_retries i2 = i_retries i ∧
          retry_pending c2 = g) as (Hs3&Hb3&Hl3&Er3&Hr3).
  { subst i2 c2. rewrite <- (same_uncertain _ _ _ Hs).
    destruct (uncertain c); [|by split_and!]. split_and!; try done.
    - rewrite (same_ack _ _ _ Hs). by apply tx_spacing'.
    - destruct Hb. unfold space. split; tx_fields; try done.
      constants. rewrite Hl. destruct (x_ack x), (_ <=? 16); lia. }
  clearbody i2 c2. rewrite Hr3. destruct g.
  - specialize (Hg eq_refl). destruct Hs3 as [], Hb3 as []. unfold close.
    split; tx_fields; [split; tx_fields; try done|..].
    + by rewrite same_retries0, u8_id by (constants; width).
    + by split.
    + split; tx_fields; try done; constants; lia.
    + unfold fitting, in_time. tx_fields. constants. split_and!; lia.
  - destruct Hs3 as [], Hb3 as []. split; tx_fields; by split.
Qed.
Lemma tx_retire x i c now event u b g :
  same x i c → doing (Retiring u b g) c → i_activity i = Retiring u b g → bounded x i →
  i_last i = now → stamped now event →
  now - QUARTER < u <= now + MAC_TX_STOP_SYMBOLS → 0 <= b <= MAC_TX_STOP_STEPS →
  (g = true → now - QUARTER < x_deadline x < now + 2 ^ 31 ∧ i_retries i < MAC_TX_MAX_RETRIES) →
  models x (i_retire x i now event u b g) (retire c (u32 now) (wrapped <$> event)).
Proof.
  intros Hs Hd Ha Hb Hl He Hut Hbt Hg. unfold retire, i_retire. cbv zeta.
  assert (kind_of (wrapped <$> event) = kind_of event) as -> by (by destruct event).
  set (k := kind_of event).
  pose proof (tx_revoke x i c now u b g k Hs Hd Ha Hb Hl Hg) as Hrv. cbv zeta in Hrv.
  set (g' := g && negb _) in *. set (i1 := if g && _ then _ else i) in *.
  set (c1 := revoke c (u32 now) k) in *. clearbody i1 c1 g'. clear Hs Hd Hb Hg Hl Ha.
  destruct Hrv as (Hs1&[Hp1 [Hr1 [Hu1 Hb1]]]&Hb2&Hl1&Ha1&Hg).
  rewrite Hu1, Hb1, tx_reached by (constants; lia).
  destruct ((u <=? now) || (b =? 0)) eqn:E2; [apply tx_fail; try done; by rewrite Ha1|].
  assert (u8 (b - 1) = b - 1) as -> by (apply u8_id; constants; width).
  set (c2 := c1 <| stop_steps := b - 1 |>).
  assert (same x i1 c2 ∧ doing (Retiring u (b - 1) g') c2) as [Hs2 Hd2]
    by (split; [destruct Hs1; by split|by repeat split]).
  clearbody c2. destruct (k =? MAC_TX_EVENT_FAILURE).
  { apply tx_fail; try done. rewrite Ha1. apply Hd2. }
  set (i2 := i1 <| i_activity := Retiring u (b - 1) g' |>).
  assert (same x i2 c2 ∧ bounded x i2) as [Hs3 Hb3] by (split; [destruct Hs2; by split|destruct Hb2; by split]).
  assert (models x i2 c2) as Hstay.
  { split; try done. unfold fitting, in_time. subst i2. tx_fields. rewrite Hl1.
    split_and!; try (constants; lia). exact Hg. }
  destruct event as [e|]; [|exact Hstay]. cbn [fmap option_fmap option_map wrapped stamp].
  destruct (k =? MAC_TX_EVENT_QUIESCED); [|exact Hstay].
  assert (i_retired x i1 (stamp e) g' = i_retired x i2 (stamp e) g') as ->
    by (subst i2; clear; unfold i_retired, close; destruct i1 as [? ? ? ? ? ? ? [] ? ?], g'; reflexivity).
  apply (tx_retired x i2 c2 now u (b - 1) g'); [by split_and!|exact He].
Qed.

Lemma tx_backoff v e : 0 <= e → Z.land v (Z.shiftl 1 e - 1) = v mod 2 ^ e.
Proof. intros. rewrite <- Z.land_ones by done. by rewrite Z.ones_equiv, Z.shiftl_1_l. Qed.
Lemma tx_backoff_range v nb : 0 <= nb → 0 <= v mod 2 ^ exponent nb * MAC_TX_BACKOFF_SYMBOLS <= 620.
Proof.
  intros. unfold exponent. constants.
  assert (2 ^ Z.min 5 (3 + nb) <= 2 ^ 5) by (apply Z.pow_le_mono_r; lia).
  pose proof (Z.mod_pos_bound v (2 ^ Z.min 5 (3 + nb)) ltac:(apply Z.pow_pos_nonneg; lia)). lia.
Qed.

Lemma tx_drawn x i c now v :
  same x i c → retry_pending c = false → bounded x i → i_last i = now → now <= i_ready i → in_time x i →
  i_nb i <= MAC_TX_MAX_BACKOFFS → i_sent i <= i_retries i →
  implements x now (i_drawn x i v) (drawn c (u32 now) v).
Proof.
  intros Hs Hr Hb Hl Hrd Hin Hnb Hst. unfold i_drawn, drawn. cbv zeta. proj.
  pose proof (b_nb _ _ Hb). pose proof (tx_backoff_range v (i_nb i) ltac:(lia)) as Hv.
  rewrite (same_be _ _ _ Hs), tx_backoff by (unfold exponent; constants; lia).
  assert ((if reached (u32 now) (ready_at c) then u32 now else ready_at c) = u32 (i_ready i)) as ->.
  { pose proof (b_ready _ _ Hb). rewrite (same_ready _ _ _ Hs), tx_reached by (constants; lia).
    destruct (i_ready i <=? now) eqn:E; [|done]. f_equal. lia. }
  rewrite tx_add. set (at_ := i_ready i + _).
  assert (now <= at_ < now + 2 ^ 29 + 1000) as Hat by (destruct Hb; subst at_; constants; lia).
  destruct Hin as [Hd1 Hd2]. rewrite (same_deadline _ _ _ Hs), tx_reached by (constants; lia).
  assert (same x i (c <| cca_at := u32 at_ |>)) as Hs2 by (destruct Hs; by split).
  destruct (x_deadline x <=? at_) eqn:E.
  { split; [|done]. by apply (tx_finish x i (c <| cca_at := u32 at_ |>) _ true). }
  split; [|by split]. destruct Hs, Hb. split; tx_fields; try (by split).
  unfold fitting, in_time. tx_fields. split_and!; try done; try lia.
Qed.

Lemma tx_busy x i c :
  same x i c → bounded x i → retry_pending c = false → in_time x i →
  i_nb i <= MAC_TX_MAX_BACKOFFS → i_sent i <= i_retries i →
  let c' := c <| nb := u8 (nb c + 1) |> in
  let c' := if be c' <? MAC_TX_MAX_BE then c' <| be := u8 (be c' + 1) |> else c' in
  let i' := i <| i_nb := i_nb i + 1 |> in
  models x (if MAC_TX_MAX_BACKOFFS <? i_nb i' then close i' MAC_TX_CHANNEL_ACCESS Finished
            else i' <| i_activity := Drawing |>)
    (if MAC_TX_MAX_BACKOFFS <? nb c' then c' <| phase := MAC_TX_DONE |> <| outcome := MAC_TX_CHANNEL_ACCESS |>
     else c' <| phase := MAC_TX_DRAW |>).
Proof.
  intros Hs Hb Hr Hin Hnb Hst c' c'' i'.
  assert (same x i' c'' ∧ retry_pending c'' = false) as [Hs' Hr'].
  { pose proof (b_nb _ _ Hb). subst i' c' c''. proj.
    assert (u8 (nb c + 1) = i_nb i + 1) as Hn
      by (rewrite (same_nb _ _ _ Hs); apply u8_id; constants; width).
    pose proof (same_be _ _ _ Hs) as He. unfold exponent in He.
    destruct (be c <? MAC_TX_MAX_BE) eqn:E; (split; [|done]); destruct Hs; split; tx_fields; try done;
      unfold exponent; try (rewrite u8_id by (constants; width)); constants; lia. }
  assert (bounded x i') as Hb' by (destruct Hb; subst i'; split; tx_fields; try done; constants; lia).
  rewrite (same_nb _ _ _ Hs'). clearbody c''. destruct (MAC_TX_MAX_BACKOFFS <? i_nb i') eqn:E.
  - by apply (tx_finish x i' c'' _ true).
  - split; tx_fields; [destruct Hs'; by split|by split|destruct Hb'; by split|].
    unfold fitting, in_time. tx_fields. split; [exact Hin|]. split; [lia|done].
Qed.

Lemma tx_sent x i c now e :
  same x i c → bounded x i → retry_pending c = false → in_time x i → i_last i = now →
  i_sent i <= i_retries i → now - QUARTER < stamp e <= now →
  let c := c <| transmissions := u8 (transmissions c + 1) |> <| tx_end := u32 (stamp e) |>
             <| phase := MAC_TX_ACK_WAIT |> in
  let i := i <| i_sent := i_sent i + 1 |> in
  implements x now
    (if x_ack x then (i <| i_activity := Listening (stamp e) |>, Nothing)
     else begin_retiring (i <| i_ready := stamp e + space x |>) now MAC_TX_UNACKNOWLEDGED false)
    (if ack_requested c then (c, MAC_TX_ACTION_NONE)
     else stop (spacing c (u32 (stamp e))) (u32 now) MAC_TX_UNACKNOWLEDGED).
Proof.
  intros Hs Hb Hr Hin Hl Hst He c' i'.
  assert (same x i' c') as Hs'.
  { pose proof (b_sent _ _ Hb). pose proof (b_retries _ _ Hb).
    subst i' c'. destruct Hs. split; tx_fields; try done.
    rewrite same_sent0. apply u8_id. constants. width. }
  assert (bounded x i') as Hb' by (destruct Hb; subst i'; split; tx_fields; try done; lia).
  assert (i_last i' = now) as Hl' by exact Hl.
  rewrite (same_ack _ _ _ Hs'). destruct (x_ack x) eqn:Ea.
  - split; [|done]. split; tx_fields; [destruct Hs'; by split|by split|destruct Hb'; by split|].
    unfold fitting, in_time. tx_fields. split; [exact Hin|]. rewrite Hl'. split; [done|lia].
  - apply tx_stop_answered; try done.
    + by apply tx_spacing.
    + destruct Hb'. unfold space. split; tx_fields; try done. constants. rewrite Hl'.
      destruct (_ <=? 16); lia.
    + by rewrite Ea.
Qed.

Lemma tx_attempted x i c now a e :
  same x i c → doing (Attempting a) c → i_activity i = Attempting a → bounded x i → i_last i = now →
  in_time x i → i_nb i <= MAC_TX_MAX_BACKOFFS → i_sent i <= i_retries i →
  x_deadline x - 2 ^ 31 < a < now + 2 ^ 29 + 1000 → now - QUARTER < stamp e <= now →
  implements x now (i_attempted x i now a e) (attempted c (u32 now) (wrapped e)).
Proof.
  intros Hs [Hp [Hr Ha]] Hact Hb Hl Hin Hnb Hst Hat He. unfold i_attempted, attempted. cbv zeta.
  cbn [wrapped kind stamp]. rewrite Ha, (same_length _ _ _ Hs), tx_add. pose proof (b_length _ _ Hb).
  destruct Hin as [Hd1 Hd2]. rewrite Hl in *. constants.
  assert (∀ k, 0 <= k <= 274 → negb (reached (u32 (stamp e)) (u32 (a + k))) = (stamp e <? a + k)) as Hre.
  { intros k Hk. rewrite tx_reached by lia. destruct (stamp e <? a + k) eqn:E; lia. }
  destruct (kind e =? MAC_TX_EVENT_BUSY).
  - rewrite Hre by lia. destruct (stamp e <? a + 8).
    + split; [|done]. apply tx_fail; try done. by rewrite Hact.
    + split; [|done]. apply tx_busy; try done. by unfold in_time; rewrite Hl.
  - rewrite Hre by lia. replace (a + (24 + 2 * x_length x)) with (a + 24 + 2 * x_length x) by lia.
    destruct (stamp e <? a + 24 + 2 * x_length x).
    + split; [|done]. apply tx_fail; try done. by rewrite Hact.
    + apply tx_sent; try done. by unfold in_time; rewrite Hl.
Qed.

Lemma tx_ack_decodes (more : bool) s :
  Mac.mac_frame_decode (Some [if more then 18 else 2; 0; s]) 3 (Some blank_info)
  = (Mac.MAC_CODEC_OK, Some {| Mac.header := {| Mac.type := Mac.MAC_FRAME_ACK; Mac.version := 0;
       Mac.flags := if more then Mac.MAC_FLAG_PENDING else 0; Mac.sequence := s;
       Mac.destination_mode := 0; Mac.source_mode := 0; Mac.destination_pan := 0;
       Mac.source_pan := 0; Mac.destination := replicate 8 0; Mac.source := replicate 8 0 |};
       Mac.payload_offset := 3; Mac.payload_length := 0 |}).
Proof. by destruct more. Qed.
Lemma tx_acknowledgement c sent e :
  tx_end c = u32 sent → sent <= stamp e → stamp e < sent + 2 ^ 32 →
  is_bytes (default [] (ev_bytes e)) →
  (λ h, (Mac.sequence h, has (Mac.flags h) Mac.MAC_FLAG_PENDING)) <$> acknowledgement c (wrapped e)
  = answer sent (Some e).
Proof.
  intros Ht Hlo Hhi Hb. unfold acknowledgement, answer.
  cbn [wrapped kind ev_bytes ev_length stamp]. cbv zeta. set (b := default [] (ev_bytes e)) in *.
  pose proof (rd_is_u8 b 0 Hb) as H0. rewrite Ht, tx_elapsed by lia.
  replace (0 <? stamp e - sent) with (sent <? stamp e) by lia.
  replace (stamp e - sent <=? MAC_TX_ACK_SYMBOLS) with (stamp e <=? sent + MAC_TX_ACK_SYMBOLS) by lia.
  change Mac.MAC_FRAME_ACK with 2. rewrite (Z.land_ones _ 3) by done. change (2 ^ 3) with 8.
  destruct (rd b 0 mod 8 =? 2) eqn:E; [|by rewrite !andb_false_r].
  destruct (_ && _); [|done].
  replace (Z.land (rd b 0) (Z.lor Mac.MAC_FLAG_PENDING 7)) with (if Z.testbit (rd b 0) 4 then 18 else 2).
  - rewrite tx_ack_decodes. cbn [fmap option_fmap option_map Mac.header Mac.sequence Mac.flags].
    by destruct (Z.testbit (rd b 0) 4).
  - set (y := rd b 0) in *. clearbody y.
    assert ((if y mod 8 =? 2 then Z.land y 23 else if Z.testbit y 4 then 18 else 2)
            = (if Z.testbit y 4 then 18 else 2)) as Hy by by_u8 y.
    rewrite E in Hy. by rewrite <- Hy.
Qed.

(** An event as the caller may deliver it at [now]: stamped within half the counter of it, with
    octets in its buffer. *)
Definition delivered (now : Z) (event : option mac_tx_event_t) : Prop :=
  match event with
  | Some e => now - 2 ^ 31 < stamp e < now + 2 ^ 31 ∧ is_bytes (default [] (ev_bytes e))
  | None => True
  end.
#[export] Instance delivered_dec now event : Decision (delivered now event).
Proof. unfold delivered. destruct event; apply _. Defined.
Definition since (sent : Z) (event : option mac_tx_event_t) : Prop :=
  match event with
  | Some e => sent <= stamp e ∧ is_bytes (default [] (ev_bytes e)) | None => True
  end.

Lemma tx_listening x i c now sent event :
  same x i c → doing (Listening sent) c → i_activity i = Listening sent → bounded x i →
  i_last i = now → in_time x i → x_ack x = true → now - 2 ^ 31 < sent <= now →
  stamped now event → since sent event →
  implements x now (i_listening x i now sent event) (listening c (u32 now) (wrapped <$> event)).
Proof.
  intros Hs Hd Hact Hb Hl Hin Hack Hsent He Hsince. pose proof Hd as [Hp [Hr Ht]].
  assert (implements x now (unanswered x i now sent) (no_ack c (u32 now))) as Hno
    by (apply tx_no_ack; try done; lia).
  assert (implements x now
    (if sent + MAC_TX_ACK_SYMBOLS <=? now then unanswered x i now sent else (i, Nothing))
    (if (phase c =? MAC_TX_ACK_WAIT) && reached (u32 now) (u32 (tx_end c + MAC_TX_ACK_SYMBOLS))
     then no_ack c (u32 now) else (c, MAC_TX_ACTION_NONE))) as Hquiet.
  { rewrite Hp, Ht, tx_add, tx_reached by (constants; lia). cbn [phase_of Z.eqb Pos.eqb andb].
    change (MAC_TX_ACK_WAIT =? MAC_TX_ACK_WAIT) with true. cbn [andb].
    destruct (sent + MAC_TX_ACK_SYMBOLS <=? now) eqn:E; [exact Hno|]. split; [|done].
    split; cbn [fst]; rewrite ?Hact; try done. unfold fitting. rewrite Hact. split_and!; try done; constants; lia. }
  unfold i_listening, listening. destruct event as [e|]; [|exact Hquiet].
  cbn [fmap option_fmap option_map]. destruct He as [He1 He2], Hsince as [Hs1 Hs2].
  pose proof (tx_acknowledgement c sent e Ht Hs1 ltac:(lia) Hs2) as Hk. rewrite <- Hk.
  destruct (acknowledgement c (wrapped e)) as [h|]; [|exact Hquiet].
  cbn [fmap option_fmap option_map]. rewrite (same_frame _ _ _ Hs).
  destruct (Mac.sequence h =? rd (x_frame x) 2).
  - set (more := has _ _). cbn [default from_option id wrapped stamp].
    assert (implements x now
      (begin_retiring (i <| i_pending := more |> <| i_ready := stamp e + space x |>) now MAC_TX_ACKED false)
      (stop (spacing (c <| pending := more |>) (u32 (stamp e))) (u32 now) MAC_TX_ACKED)) as Hstop.
    { apply tx_stop_answered; try done; [apply tx_spacing; destruct Hs; by split| |by rewrite andb_false_r].
      destruct Hb. unfold space. split; tx_fields; try done. constants. rewrite Hl. destruct (_ <=? 16); lia. }
    destruct (stop _ _ _) as [c' k'] eqn:Ec. pose proof (proj1 (m_doing _ _ _ (proj1 Hstop))) as d_phase.
    cbn [fst snd begin_retiring close] in d_phase.
    assert (phase c' = MAC_TX_STOPPING) as -> by exact d_phase. exact Hstop.
  - destruct (no_ack c (u32 now)) as [c' k'] eqn:Ec.
    pose proof (proj1 (m_doing _ _ _ (proj1 Hno))) as d_phase.
    assert (phase c' = MAC_TX_STOPPING) as -> by exact d_phase. exact Hno.
Qed.

Lemma tx_current_stamped x i now e e' :
  i_last i <= now < i_last i + QUARTER → i_current x i now (Some e) = Some e' →
  e' = e ∧ stamped now (Some e) ∧ i_last i <= stamp e.
Proof.
  intros Hn. unfold i_current, stamped. destruct (_ && _ && _ && _ && _) eqn:E; [|done].
  intros [= ->]. split; [done|]. rewrite !andb_true_iff in E. constants. lia.
Qed.
Lemma tx_active x i c now event :
  same x i c → doing (i_activity i) c → bounded x i → i_last i = now → now <= i_ready i →
  active (i_activity i) = true → heard_of x i → stamped now event →
  (∀ sent, i_activity i = Listening sent → since sent event) →
  now - QUARTER < x_deadline x < now + 2 ^ 31 →
  match i_activity i with
  | Drawing | Waiting => i_nb i <= MAC_TX_MAX_BACKOFFS ∧ i_sent i <= i_retries i
  | Attempting a => i_nb i <= MAC_TX_MAX_BACKOFFS ∧ i_sent i <= i_retries i ∧
                    x_deadline x - 2 ^ 31 < a < now + 2 ^ 29 + 1000 ∧ a < x_deadline x
  | _ => True
  end →
  implements x now (i_active x i now event) (proceed c (u32 now) (wrapped <$> event)).
Proof.
  intros Hs Hd Hb Hl Hrd Ha Hh He Hsi Hdl Hfit. pose proof Hd as [Hp _].
  unfold i_active, proceed. cbv zeta.
  assert (kind_of (wrapped <$> event) = kind_of event) as -> by (by destruct event).
  set (k := kind_of event).
  destruct (k =? MAC_TX_EVENT_FAILURE). { split; [|done]. by apply tx_fail. }
  destruct (tx_giving_up x i c now k Hs) as [-> ->]; [constants; lia|].
  destruct (i_giving_up x i now k) eqn:Eg.
  { apply tx_stop; try done; unfold i_abandoned; by destruct (k =? _), (i_work i =? 0). }
  unfold i_giving_up in Eg. rewrite !orb_false_iff in Eg. destruct Eg as [[Eg1 Eg2] _].
  set (i1 := i <| i_work := i_work i - 1 |>). pose proof (b_work _ _ Hb) as Hw.
  assert (u16 (steps c - 1) = i_work i - 1) as ->
    by (rewrite (same_work _ _ _ Hs); apply u16_id; width).
  set (c1 := c <| steps := i_work i - 1 |>).
  assert (same x i1 c1) as Hs1 by (destruct Hs; by split).
  assert (bounded x i1) as Hb1 by (destruct Hb; subst i1; split; tx_fields; try done; lia).
  assert (doing (i_activity i) c1) as Hd1 by exact Hd.
  assert (in_time x i1) as Hin by (unfold in_time; change (i_last i1) with (i_last i); lia).
  assert (i_last i1 = now ∧ i_activity i1 = i_activity i ∧ i_nb i1 = i_nb i ∧ i_sent i1 = i_sent i
          ∧ i_retries i1 = i_retries i ∧ i_ready i1 = i_ready i) as (Hl1&Ha1&En&Es&Er&Ey) by done.
  assert (phase c1 = phase_of (i_activity i)) as Hp1 by exact Hp.
  clearbody i1 c1. rewrite Ha1, Hp1. unfold heard_of in Hh.
  assert (fitting x i1 → implements x now (i1, Nothing) (c1, MAC_TX_ACTION_NONE)) as Hstay.
  { intros Hf. split; [|done]. split; cbn [fst]; rewrite ?Ha1; done. }
  destruct (i_activity i) as [| |a|sent|u b g| |] eqn:Eact; try done; cbn [phase_of];
    unfold MAC_TX_DRAW, MAC_TX_DRAW_WAIT, MAC_TX_RADIO, MAC_TX_ACK_WAIT in *; cbn [Z.eqb Pos.eqb andb].
  - split; [|done]. split; tx_fields; [destruct Hs1; by split|split; [done|by apply Hd1]|destruct Hb1; by split|].
    unfold fitting. tx_fields. rewrite En, Es, Er. tauto.
  - assert (fitting x i1) as Hf by (unfold fitting; rewrite Ha1, En, Es, Er; tauto).
    destruct event as [e|]; [|by apply Hstay]. cbn [fmap option_fmap option_map].
    destruct (k =? MAC_TX_EVENT_RANDOM); [|by apply Hstay]. cbn [wrapped value].
    apply tx_drawn; rewrite ?En, ?Es, ?Er, ?Ey; try done; try tauto. by apply Hd1.
  - destruct Hfit as (F1&F2&F3&F4).
    assert (fitting x i1) as Hf by (unfold fitting; rewrite Ha1, En, Es, Er, Hl1; split_and!; try done; lia).
    destruct event as [e|]; [|by apply Hstay]. cbn [fmap option_fmap option_map].
    destruct (_ || _); [|by apply Hstay].
    apply tx_attempted; rewrite ?En, ?Es, ?Er; try done; try lia.
  - destruct Hh as [Hack Hsent]. rewrite Hl in Hsent.
    apply tx_listening; try done. by apply Hsi.
Qed.

Lemma tx_progress x i c now event :
  models x i c → active (i_activity i) = true ∨ (∃ u b g, i_activity i = Retiring u b g) →
  i_last i <= now < i_last i + QUARTER → delivered now event →
  implements x now (ideal_step x i now event) (progress c (u32 now) (wrapped <$> event)).
Proof.
  intros [Hs Hd Hb Hf] Ha Hn He. unfold ideal_step, progress. cbv zeta.
  rewrite (same_last _ _ _ Hs), tx_elapsed by (constants; lia).
  replace (MAC_TX_HALF <=? now - i_last i) with false by (constants; lia).
  destruct (tx_settle x i c now Hs Hb Hn) as [Hs1 Hb1].
  pose proof (tx_settled_doing c (u32 now) _ Hd) as Hd1.
  assert (current c (u32 now) (wrapped <$> event) = wrapped <$> i_current x i now event) as ->.
  { destruct event as [e|]; [|done]. apply tx_current; try done. apply He. }
  assert (stamped now (i_current x i now event) ∧
    (∀ sent, sent <= i_last i → since sent (i_current x i now event))) as [Hst Hsi].
  { destruct event as [e|]; [|done]. destruct (i_current x i now (Some e)) as [e'|] eqn:E; [|done].
    destruct (tx_current_stamped _ _ _ _ _ Hn E) as (->&?&?). split; [done|].
    intros. split; [lia|apply He]. }
  set (ev := i_current x i now event) in *. clearbody ev.
  set (c1 := settle_ready c (u32 now) <| last := u32 now |>) in *. clearbody c1.
  fold (moved i now). set (i1 := moved i now) in *.
  assert (i_last i1 = now ∧ i_activity i1 = i_activity i ∧ i_nb i1 = i_nb i ∧ i_sent i1 = i_sent i
    ∧ i_retries i1 = i_retries i ∧ now <= i_ready i1) as (Hl1&Ha1&En&Es&Er&Ey)
    by (subst i1; split_and!; try done; cbv [moved]; tx_fields; lia).
  clearbody i1. rewrite (proj1 Hd1). unfold fitting, in_time in Hf.
  destruct (i_activity i) as [| |a|sent|u b g| |] eqn:Eact; try (destruct Ha as [?|(?&?&?&?)]; done);
    cbn [phase_of]; unfold MAC_TX_STOPPING; cbn [Z.eqb Pos.eqb];
    try (apply tx_active; unfold heard_of; rewrite ?Ha1, ?En, ?Es, ?Er, ?Hl1; try done;
         try (constants; lia); try (split; [tauto|constants; lia]); intros ? [= <-]; apply Hsi; lia).
  split; [|done]. apply tx_retire; try done; try (constants; lia).
  intros ->. rewrite Er. destruct Hf as (_&_&Hg). specialize (Hg eq_refl). constants. lia.
Qed.

(** ** Runs

    [at_time] counts symbols without bound; the context sees it, and the stamps, modulo 2^32. *)
Record call := { at_time : Z; input : option mac_tx_event_t }.
Definition step_call (c : mac_tx_t) (k : call)
    : mac_tx_result_t * option mac_tx_t * option mac_tx_action_t :=
  mac_tx_step (Some c) (u32 (at_time k)) (wrapped <$> input k) true.
(** The context after a sequence of calls, and the actions they were answered with. *)
Fixpoint run (c : mac_tx_t) (calls : list call) : mac_tx_t * list (option mac_tx_action_t) :=
  match calls with
  | [] => (c, [])
  | k :: calls =>
      let '(_, c', a) := step_call c k in
      let '(c', l) := run (default c c') calls in (c', a :: l)
  end.
Fixpoint ideal_run (x : exchange) (i : ideal) (calls : list call) : ideal * list (ideal * intent) :=
  match calls with
  | [] => (i, [])
  | k :: calls =>
      let r := ideal_step x i (at_time k) (input k) in
      let '(i', l) := ideal_run x r.1 calls in (i', r :: l)
  end.
(** Calls with arguments the interface admits, less than a quarter of the counter apart. *)
Definition proper (k : call) : bool := negb (event_refused (input k)).
Fixpoint timely (t : Z) (calls : list call) : Prop :=
  match calls with
  | [] => True
  | k :: calls =>
      t <= at_time k < t + QUARTER ∧ delivered (at_time k) (input k) ∧ proper k = true ∧
      timely (at_time k) calls
  end.
#[export] Instance timely_dec t calls : Decision (timely t calls).
Proof. revert t. induction calls; intros; cbn; apply _. Defined.

(** An action reports the state it was published from and the intent, the times wrapped. *)
Definition reports (x : exchange) (r : ideal * intent) (a : option mac_tx_action_t) : Prop :=
  let '(i, p) := r in
  ∃ act, a = Some act ∧
    ac_generation act = x_generation x ∧ ac_length act = x_length x ∧
    ac_ack_requested act = x_ack x ∧ ac_retry act = i_retries i ∧ ac_nb act = i_nb i ∧
    ac_phase act = phase_of (i_activity i) ∧ ac_outcome act = i_outcome i ∧
    ac_transmissions act = i_sent i ∧ ac_uncertain act = i_uncertain i ∧
    ac_pending act = i_pending i ∧
    until act = u32 (match i_activity i with Retiring u _ _ => u | _ => x_deadline x end) ∧
    match p with
    | Nothing => ac_kind act = MAC_TX_ACTION_NONE
    | Random => ac_kind act = MAC_TX_ACTION_RANDOM
    | Attempt at_ => ac_kind act = MAC_TX_ACTION_ATTEMPT ∧ ac_at act = u32 at_
    | Quiesce t => ac_kind act = MAC_TX_ACTION_QUIESCE ∧ ac_at act = u32 t
    end.

Lemma tx_reports x now r c k :
  implements x now r (c, k) → reports x r (Some (publish c (u32 now) k)).
Proof.
  destruct r as [i p]. intros [[Hs [Hp Hd] _ _] Hc]. cbn [fst snd] in *. eexists. split; [done|].
  destruct Hs. unfold publish. cbn [ac_generation ac_length ac_ack_requested ac_retry ac_nb ac_phase
    ac_outcome ac_transmissions ac_uncertain ac_pending until ac_kind ac_at].
  do 10 (split; [done|]). split.
  { rewrite Hp. destruct (i_activity i); cbn; try done. apply Hd. }
  destruct p; cbn [carried] in Hc; [done..| |]; destruct Hc as [-> Hc]; split; try done.
  by subst.
Qed.

Lemma tx_refused k : proper k = true → event_refused (wrapped <$> input k) = false.
Proof. unfold proper. destruct (input k); by intros ?%negb_true_iff. Qed.
Definition over (i : ideal) : bool :=
  match i_activity i with Finished | Failed => true | _ => false end.
Lemma tx_step_models x i c k :
  models x i c →
  (over i = true ∨ i_last i <= at_time k < i_last i + QUARTER) → delivered (at_time k) (input k) →
  proper k = true →
  let '(r, c', a) := step_call c k in let r' := ideal_step x i (at_time k) (input k) in
  r = MAC_TX_OK ∧ ∃ c1, c' = Some c1 ∧ models x r'.1 c1 ∧ reports x r' a.
Proof.
  intros Hm Hn He Hk. unfold step_call, mac_tx_step. rewrite (tx_refused k Hk). cbn [negb orb].
  pose proof (m_doing _ _ _ Hm) as [Hp _]. rewrite Hp. 
  assert ((phase_of (i_activity i) =? MAC_TX_IDLE) = false) as -> by (by destruct (i_activity i)).
  assert (((phase_of (i_activity i) =? MAC_TX_DONE) || (phase_of (i_activity i) =? MAC_TX_FAULT))
    = over i) as -> by (unfold over; by destruct (i_activity i)).
  destruct (over i) eqn:Eo.
  - assert (ideal_step x i (at_time k) (input k) = (i, Nothing)) as ->
      by (unfold ideal_step, over in *; by destruct (i_activity i)).
    split; [done|]. exists c. split; [done|]. split; [done|]. apply tx_reports. by split.
  - destruct Hn as [?|Hn]; [done|].
    assert (active (i_activity i) = true ∨ (∃ u b g, i_activity i = Retiring u b g)) as Ha.
    { unfold over in Eo. destruct (i_activity i) as [| | | |u b g| |]; try by left.
      right. by exists u, b, g. }
    pose proof (tx_progress x i c (at_time k) (input k) Hm Ha Hn He) as Hi.
    destruct (progress c _ _) as [c1 k1] eqn:E.
    split; [done|]. exists c1. split; [done|]. split; [apply Hi|by apply tx_reports].
Qed.

Lemma tx_ideal_last x i now e :
  over i = false → i_last (ideal_step x i now e).1 = now.
Proof.
  unfold over, ideal_step. fold (moved i now). intros Ho.
  assert (i_last (moved i now) = now) as Hl by done. set (i1 := moved i now) in *.
  assert (∀ r, i_last (i_fail i1 r) = now) as Hf by (intros; by destruct i1).
  assert (∀ u b g ev, i_last (i_retire x i1 now ev u b g) = now) as Hr.
  { intros. clearbody i1. unfold i_retire, i_retired. repeat case_match; by destruct i1. }
  assert (∀ ev, i_last (i_active x i1 now ev).1 = now) as Ha.
  { intros. clearbody i1. unfold i_active, i_stop, i_listening, unanswered, begin_retiring, i_drawn, i_attempted.
    repeat case_match; by destruct i1. }
  destruct (i_activity i); done || apply Ha || apply Hr.
Qed.

Lemma tx_run x calls : ∀ t i c,
  models x i c → over i = true ∨ i_last i = t → timely t calls →
  let '(c2, acts) := run c calls in let '(i2, rs) := ideal_run x i calls in
  models x i2 c2 ∧ Forall2 (reports x) rs acts.
Proof.
  induction calls as [|k calls IH]; intros t i c Hm Ho Ht; cbn [run ideal_run]; [by split|].
  destruct Ht as (Hn&He&Hk&Ht).
  assert (over i = true ∨ i_last i <= at_time k < i_last i + QUARTER) as Hn'
    by (destruct Ho as [?| ->]; [by left|by right]).
  pose proof (tx_step_models x i c k Hm Hn' He Hk) as Hs.
  destruct (step_call c k) as [[r c1] a] eqn:E. destruct Hs as (_&c2&->&Hm2&Ha).
  cbn [default from_option id]. set (r' := ideal_step x i (at_time k) (input k)) in *.
  assert (over r'.1 = true ∨ i_last r'.1 = at_time k) as Ho'.
  { subst r'. destruct (over i) eqn:Eo; [|right; by apply tx_ideal_last].
    left. unfold ideal_step, over in *. by destruct (i_activity i) eqn:Ea; cbn [fst]; rewrite ?Ea. }
  specialize (IH _ _ _ Hm2 Ho' Ht). destruct (run c2 calls) as [c3 acts], (ideal_run x r'.1 calls) as [i3 rs].
  destruct IH as [? ?]. split; [done|]. by constructor.
Qed.

(** ** From submission to release

    [resting t r c]: the context is idle, it last ran at [t], and the spacing of its last frame
    ends at [r]. *)
Record resting (t r : Z) (c : mac_tx_t) : Prop := {
  rest_phase : phase c = MAC_TX_IDLE; rest_last : last c = u32 t; rest_ready : ready_at c = u32 r;
  rest_spacing : - 2 ^ 31 < r - t < 2 ^ 29; rest_frame : blen (frame c) = 125 }.
Definition exchange_of (c : mac_tx_t) (deadline : Z) : exchange := {|
  x_frame := frame c; x_length := tx_length c; x_ack := ack_requested c;
  x_deadline := deadline; x_generation := generation c |}.
Definition beginning (t r work : Z) : ideal := {|
  i_last := t; i_ready := Z.max t r; i_work := work; i_nb := 0; i_retries := 0; i_sent := 0;
  i_outcome := MAC_TX_OUTCOME_NONE; i_uncertain := false; i_pending := false;
  i_activity := Drawing |}.

Lemma tx_init_resting c dsn t c' :
  mac_tx_init (Some c) dsn (u32 t) = (MAC_TX_OK, Some c') → resting t t c'.
Proof. unfold mac_tx_init. intros [= <-]. split; cbn; try done; lia. Qed.

Lemma tx_submit_ok c b n now life work c1 :
  mac_tx_submit (Some c) (Some b) n now life work = (MAC_TX_OK, Some c1) →
  phase c = MAC_TX_IDLE ∧ life ≠ 0 ∧ life < MAC_TX_HALF ∧ work ≠ 0 ∧ 3 <= n <= 125 ∧
  ∃ i, Mac.mac_frame_decode (Some b) n (Some blank_info) = (Mac.MAC_CODEC_OK, Some i) ∧
       transmittable b n i = true ∧
       c1 = admit_frame c b n now life work (has (Mac.flags (Mac.header i)) Mac.MAC_FLAG_ACK_REQUEST).
Proof.
  unfold mac_tx_submit. destruct (_ || _ || _) eqn:E1; [done|].
  destruct (negb (phase c =? _)) eqn:E2; [done|]. destruct (MAC_TX_HALF <=? u32 (now - last c)); [done|].
  destruct (generation c =? _); [done|].
  destruct (Mac.mac_frame_decode _ _ _) as [[] [i|]] eqn:E; try done.
  destruct (transmittable b n i) eqn:E3; cbn [negb]; [|done]. intros [= <-].
  assert (3 <= n <= 125); [|split_and!; try lia; by exists i].
  unfold Mac.mac_frame_decode, Mac.mac_frame_decode_profile in E.
  destruct (_ <? Mac.MAC_RX_IEEE2006); [done|].
  destruct (Mac.MAC_FRAME_MAX_BODY <? n) eqn:E4; [done|]. destruct (n <? 3) eqn:E5; [done|].
  unfold Mac.MAC_FRAME_MAX_BODY in E4. lia.
Qed.
Lemma tx_admit_frame c b n t0 r t life work ack :
  resting t0 r c → t0 <= t < t0 + QUARTER →
  admit_frame c b n (u32 t) life work ack = {|
    frame := wr (blit (frame c) 0 (slice b 0 n)) 2 (next_dsn c);
    last := u32 t; deadline := u32 (u32 t + life); cca_at := cca_at c; tx_end := tx_end c;
    ready_at := u32 (Z.max t r); generation := u32 (generation c + 1); stop_at := stop_at c;
    steps := work; phase := MAC_TX_DRAW; next_dsn := u8 (next_dsn c + 1); tx_length := u8 n;
    ack_requested := ack; nb := 0; be := MAC_TX_MIN_BE; retries := 0;
    outcome := MAC_TX_OUTCOME_NONE; transmissions := 0; uncertain := false; pending := false;
    retry_pending := false; stop_steps := stop_steps c |}.
Proof.
  intros [Hp Hl Hr Hs Hf] Ht. unfold admit_frame. cbv zeta.
  by rewrite (tx_settle_ready _ t0 r t) by done.
Qed.
Lemma tx_admitted c b n t0 r t life work ack :
  resting t0 r c → t0 <= t < t0 + QUARTER → 3 <= n <= 125 → 0 < life < MAC_TX_HALF →
  0 <= work < 65536 →
  let c1 := admit_frame c b n (u32 t) life work ack in
  models (exchange_of c1 (t + life)) (beginning t r work) c1.
Proof.
  intros Hrest Ht Hn Hlife Hw c1. pose proof (rest_spacing _ _ _ Hrest) as Hs.
  subst c1. rewrite (tx_admit_frame _ _ _ t0 r t) by done. rewrite tx_add, (u8_id n) by (clear -Hn; width).
  split; [split; done|split; done|split; cbn; constants; lia|].
  unfold fitting, in_time. cbn. constants. lia.
Qed.

Lemma tx_release_resting x i c :
  models x i c → i_activity i = Finished → blen (x_frame x) = 125 →
  ∃ c', mac_tx_release (Some c) = (MAC_TX_OK, Some c') ∧ resting (i_last i) (i_ready i) c'.
Proof.
  intros [Hs [Hp _] Hb _] Ha Hf. exists (c <| phase := MAC_TX_IDLE |>).
  unfold mac_tx_release. rewrite Hp, Ha. split; [reflexivity|].
  split; [reflexivity|exact (same_last _ _ _ Hs)|exact (same_ready _ _ _ Hs)| |].
  - pose proof (b_ready _ _ Hb) as H. constants. clear -H. lia.
  - rewrite <- Hf, <- (same_frame _ _ _ Hs). reflexivity.
Qed.
Lemma tx_admitted_frame c b n now life work ack :
  blen (frame c) = 125 → n <= blen b → 3 <= n <= 125 →
  let f := frame (admit_frame c b n now life work ack) in
  slice f 0 n = wr (slice b 0 n) 2 (next_dsn c) ∧ blen f = 125.
Proof.
  intros Hf Hb Hn f.
  assert (f = wr (blit (frame c) 0 (slice b 0 n)) 2 (next_dsn c)) as ->
    by (unfold f, admit_frame, settle_ready; by destruct (_ || _)).
  rewrite blen_wr, blen_blit. split; [|done].
  apply slice_eq; rewrite ?blen_wr, ?blen_blit, ?blen_slice; try lia.
  intros i Hi. rewrite Z.add_0_l, !rd_wr by (rewrite ?blen_blit, ?blen_slice; lia).
  destruct (i =? 2); [done|]. rewrite rd_blit by (rewrite ?blen_slice; lia).
  rewrite blen_slice by lia. replace ((0 <=? i) && (i <? 0 + n)) with true by lia.
  by rewrite Z.sub_0_r.
Qed.

Lemma tx_submitted c b n t0 r t life work c1 :
  resting t0 r c → t0 <= t < t0 + QUARTER → 0 <= life → 0 <= work < 65536 →
  mac_tx_submit (Some c) (Some b) n (u32 t) life work = (MAC_TX_OK, Some c1) →
  models (exchange_of c1 (t + life)) (beginning t r work) c1.
Proof.
  intros Hrest Ht Hl Hw Hsub.
  destruct (tx_submit_ok _ _ _ _ _ _ _ Hsub) as (_&Hl0&Hl1&Hw0&Hn&i&Hdec&Htr&->).
  apply (tx_admitted c b n t0 r t); done || lia.
Qed.

(** C6: one exchange on wrapping clocks is one exchange in unbounded time. Let a resting context
    accept a frame, and let any calls follow, each less than a quarter of the counter after the
    last and each event stamped within half the counter of its call. The frame sent is the body with its
    sequence number; every step answers with the action of the specification, its
    times taken modulo 2^32; the context stays the specification's state; and a finished
    exchange is released into a resting context that remembers the spacing it still owes. *)
Theorem mac_tx_refines c b n t0 r t life work c1 calls :
  resting t0 r c → t0 <= t < t0 + QUARTER → n <= blen b → 0 <= life → 0 <= work < 65536 →
  mac_tx_submit (Some c) (Some b) n (u32 t) life work = (MAC_TX_OK, Some c1) → timely t calls →
  let x := exchange_of c1 (t + life) in
  slice (frame c1) 0 n = wr (slice b 0 n) 2 (next_dsn c) ∧
  let '(c2, actions) := run c1 calls in
  let '(i2, intents) := ideal_run x (beginning t r work) calls in
  models x i2 c2 ∧ Forall2 (reports x) intents actions ∧
  (i_activity i2 = Finished →
   ∃ c3, mac_tx_release (Some c2) = (MAC_TX_OK, Some c3) ∧ resting (i_last i2) (i_ready i2) c3).
Proof.
  intros Hrest Ht Hb Hl Hw Hsub Hcalls x.
  destruct (tx_submit_ok _ _ _ _ _ _ _ Hsub) as (_&_&_&_&Hn&i&_&_&E).
  destruct (tx_admitted_frame c b n (u32 t) life work
    (has (Mac.flags (Mac.header i)) Mac.MAC_FLAG_ACK_REQUEST) (rest_frame _ _ _ Hrest) Hb Hn) as [Hf1 Hf2].
  assert (models x (beginning t r work) c1) as Hm by by eapply tx_submitted.
  rewrite <- E in Hf1, Hf2. split; [exact Hf1|].
  pose proof (tx_run x calls t (beginning t r work) c1 Hm (or_intror eq_refl) Hcalls) as Hrun.
  destruct (run c1 calls) as [c2 acts], (ideal_run x _ calls) as [i2 rs].
  destruct Hrun as [Hm2 Hacts]. split; [done|]. split; [done|].
  intros Hfin. by apply (tx_release_resting x).
Qed.

(** ** Acknowledgement *)

(** In the history, the attempt [r] was reported sent at [s]. *)
Definition reported (x : exchange) (hist : list call) (r s : Z) : Prop :=
  ∃ k e, k ∈ hist ∧ input k = Some e ∧ kind e = MAC_TX_EVENT_SENT ∧
         ev_generation e = x_generation x ∧ retry e = r ∧ stamp e = s.
(** The history has an acknowledgement of the frame: three octets of its type with its sequence
    number, received within the window of a report of the same attempt that came before. *)
Definition confirmed (x : exchange) (hist : list call) (more : bool) : Prop :=
  ∃ before k after e s, hist = before ++ k :: after ∧ input k = Some e ∧
    kind e = MAC_TX_EVENT_ACK ∧ ev_generation e = x_generation x ∧ ev_length e = 3 ∧
    rd (default [] (ev_bytes e)) 0 mod 8 = Mac.MAC_FRAME_ACK ∧
    rd (default [] (ev_bytes e)) 2 = rd (x_frame x) 2 ∧
    Z.testbit (rd (default [] (ev_bytes e)) 0) 4 = more ∧
    reported x before (retry e) s ∧ s < stamp e <= s + MAC_TX_ACK_SYMBOLS.

Definition ack_inv (x : exchange) (hist : list call) (i : ideal) : Prop :=
  (∀ s, i_activity i = Listening s → reported x hist (i_retries i) s) ∧
  (i_outcome i = MAC_TX_ACKED → confirmed x hist (i_pending i)).

Lemma tx_reported_more x hist k r s : reported x hist r s → reported x (hist ++ [k]) r s.
Proof. intros (k'&e&Hk&H). exists k', e. split; [apply elem_of_app; by left|done]. Qed.
Lemma tx_confirmed_more x hist k m : confirmed x hist m → confirmed x (hist ++ [k]) m.
Proof.
  intros (h1&k'&h2&e&s&->&H). exists h1, k', (h2 ++ [k]), e, s.
  by rewrite <- app_assoc.
Qed.

Lemma tx_i_current x i now e e' :
  i_current x i now e = Some e' →
  e = Some e' ∧ ev_generation e' = x_generation x ∧ retry e' = i_retries i ∧ i_last i <= stamp e'.
Proof.
  unfold i_current. destruct e as [e|]; [|done].
  destruct (_ && _ && _ && _ && _) eqn:E; [|done]. intros [= ->]. split; [done|]. lia.
Qed.

(** What one step can do to the two observations: [ideal_cases] takes every branch. *)
Ltac ideal_cases :=
  unfold ideal_step, i_active, i_stop, i_retire, i_retired, i_listening, unanswered,
    begin_retiring, i_drawn, i_attempted, i_fail, close;
  repeat (cbn [update i_last i_ready i_work i_nb i_retries i_sent i_outcome i_uncertain i_pending
            i_activity fst snd kind_of]; case_match; try done).
Lemma tx_ideal_listens x i now e s :
  i_activity (ideal_step x i now e).1 = Listening s →
  i_retries (ideal_step x i now e).1 = i_retries i ∧
  (i_activity i = Listening s ∨
   ∃ e', e = Some e' ∧ kind e' = MAC_TX_EVENT_SENT ∧ stamp e' = s ∧
         ev_generation e' = x_generation x ∧ retry e' = i_retries i).
Proof.
  unfold ideal_step. destruct (i_current x i now e) as [e'|] eqn:Ec; destruct i as [il ir iw inb irt isn io iu ip a].
  - apply tx_i_current in Ec as (->&Hg&Hr&_). revert Hr.
    destruct a; ideal_cases; intros; simplify_eq/=; try done; try (by split; [|left]).
    all: split; [done|right]; exists e'; split_and!; try done; lia.
  - destruct a; ideal_cases; intros; simplify_eq/=; try done; by split; [|left].
Qed.
Lemma tx_abandoned_unacked i k : i_abandoned i k = MAC_TX_ACKED → False.
Proof. unfold i_abandoned. repeat case_match; done. Qed.
Lemma tx_ideal_answered x i now e :
  i_outcome (ideal_step x i now e).1 = MAC_TX_ACKED →
  (i_outcome i = MAC_TX_ACKED ∧ i_pending (ideal_step x i now e).1 = i_pending i) ∨
  (∃ e' s, e = Some e' ∧ i_activity i = Listening s ∧ ev_generation e' = x_generation x ∧
     retry e' = i_retries i ∧
     answer s e = Some (rd (x_frame x) 2, i_pending (ideal_step x i now e).1)).
Proof.
  unfold ideal_step. destruct (i_current x i now e) as [e'|] eqn:Ec;
    destruct i as [il ir iw inb irt isn io iu ip a].
  - apply tx_i_current in Ec as (->&Hg&Hr&_). revert Hr.
    destruct a as [| | |sent| | |];
      try (ideal_cases; intros; simplify_eq/=; first [by left|discriminate|by exfalso; eapply tx_abandoned_unacked]).
    ideal_cases; intros; simplify_eq/=; first [by left|discriminate|by exfalso; eapply tx_abandoned_unacked|idtac].
    right. exists e', sent. split_and!; try done.
    match goal with H : _ = Some (_, _) |- _ => rewrite H end. do 2 f_equal. lia.
  - destruct a; unfold answer; ideal_cases; intros; simplify_eq/=; first [by left|discriminate|by exfalso; eapply tx_abandoned_unacked].
Qed.

Lemma tx_ack_step x hist i k :
  ack_inv x hist i → ack_inv x (hist ++ [k]) (ideal_step x i (at_time k) (input k)).1.
Proof.
  intros [Hl Ha]. split.
  - intros s Hs. apply tx_ideal_listens in Hs as [-> [Hs|(e&He&Hk&Ht&Hg&Hr)]].
    + by apply tx_reported_more, Hl.
    + exists k, e. split; [apply elem_of_app; right; by left|done].
  - intros Ho. apply tx_ideal_answered in Ho as [[Ho ->]|(e&s&He&Hs&Hg&Hr&Hans)].
    + by apply tx_confirmed_more, Ha.
    + exists hist, k, [], e, s. rewrite He in Hans. unfold answer in Hans.
      destruct (_ && _ && _ && _ && _) eqn:E; [|done]. injection Hans as H1 H2.
      rewrite !andb_true_iff, !Z.eqb_eq, Z.ltb_lt, Z.leb_le in E.
      destruct E as [[[[E1 E2] E3] E4] E5].
      split_and!; try done; [by rewrite He|]. rewrite Hr. by apply Hl.
Qed.
Lemma tx_ack_run x calls : ∀ hist i,
  ack_inv x hist i → ack_inv x (hist ++ calls) (ideal_run x i calls).1.
Proof.
  induction calls as [|k calls IH]; intros hist i Hi; cbn [ideal_run]; [by rewrite app_nil_r|].
  pose proof (IH _ _ (tx_ack_step x hist i k Hi)) as H. rewrite <- app_assoc in H.
  by destruct (ideal_run x _ calls).
Qed.

(** C24: an exchange ends as acknowledged only if it was. When the calls after an accepted frame leave
    the context with the outcome ACKED, among them is an acknowledgement event of this exchange
    with the frame's own sequence number, whose pending flag is the one that is kept, received
    within 54 symbols after the reported end of the transmission it answers. *)
Theorem mac_tx_acked_sound c b n t0 r t life work c1 calls :
  resting t0 r c → t0 <= t < t0 + QUARTER → n <= blen b → 0 <= life → 0 <= work < 65536 →
  mac_tx_submit (Some c) (Some b) n (u32 t) life work = (MAC_TX_OK, Some c1) → timely t calls →
  let c2 := (run c1 calls).1 in
  outcome c2 = MAC_TX_ACKED → confirmed (exchange_of c1 (t + life)) calls (pending c2).
Proof.
  intros Hrest Ht Hb Hl Hw Hsub Hcalls c2 Ho. set (x := exchange_of c1 (t + life)).
  assert (models x (beginning t r work) c1) as Hm by by eapply tx_submitted.
  pose proof (tx_run x calls t (beginning t r work) c1 Hm (or_intror eq_refl) Hcalls) as Hrun.
  pose proof (tx_ack_run x calls [] (beginning t r work) ltac:(by split)) as [_ Hack].
  subst c2. destruct (run c1 calls) as [c2 acts], (ideal_run x _ calls) as [i2 rs].
  destruct Hrun as [[Hs _ _ _] _]. cbn [fst] in *.
  rewrite (same_pending _ _ _ Hs). apply Hack. by rewrite <- (same_outcome _ _ _ Hs).
Qed.

(** ** Termination and bounds, whatever the clock and the events *)
Record counted (c : mac_tx_t) : Prop := {
  n_phase : MAC_TX_DRAW <= phase c <= MAC_TX_FAULT; n_steps : 0 <= steps c < 65536;
  n_retries : 0 <= retries c <= 3; n_nb : 0 <= nb c <= 5; 
  n_stop : phase c = MAC_TX_STOPPING → 0 <= stop_steps c <= 16;
  n_nb' : phase c <= MAC_TX_RADIO → nb c <= 4;
  n_again : retry_pending c = true → retries c <= 2;
  n_sent : 0 <= transmissions c <= retries c + (if phase c <=? MAC_TX_RADIO then 0 else 1) }.
(** The calls that remain, at most, and the attempts made, at most. *)
Definition measure (c : mac_tx_t) : Z :=
  if phase c <=? MAC_TX_ACK_WAIT then steps c + 1 + 18 * (4 - retries c)
  else if phase c =? MAC_TX_STOPPING then steps c + 1 + 18 * (3 - retries c) + stop_steps c + 1
  else 0.
Definition credit (c : mac_tx_t) : Z :=
  if phase c <=? MAC_TX_DRAW_WAIT then 5 * retries c + nb c
  else if phase c =? MAC_TX_RADIO then 5 * retries c + nb c + 1 else 5 * retries c + 5.
Definition is_attempt (k : Z) : Z := if k =? MAC_TX_ACTION_ATTEMPT then 1 else 0.
Definition advances (c : mac_tx_t) (r : mac_tx_t * Z) : Prop :=
  counted r.1 ∧ measure r.1 < measure c ∧ credit c + is_attempt r.2 <= credit r.1.

Definition counts_of (c : mac_tx_t) :=
  (phase c, steps c, nb c, retries c, transmissions c, retry_pending c, stop_steps c).
Ltac counts := unfold advances, measure, credit, is_attempt in *; constants;
  unfold MAC_TX_DRAW, MAC_TX_DRAW_WAIT, MAC_TX_RADIO, MAC_TX_ACK_WAIT, MAC_TX_STOPPING, MAC_TX_DONE,
    MAC_TX_FAULT, MAC_TX_ACTION_ATTEMPT, MAC_TX_ACTION_NONE, MAC_TX_ACTION_RANDOM, MAC_TX_ACTION_QUIESCE in *.
Ltac count_eval := cbn [Z.eqb Z.leb Z.ltb Z.compare Pos.eqb Pos.compare Pos.compare_cont] in *.
(** The phases that are known are put in place first, so that few cases are left. *)
Ltac count_phases :=
  repeat match goal with
  | H : phase ?c = ?v |- context [phase ?c] => rewrite H
  | H : phase ?c = ?v, H' : context [phase ?c] |- _ =>
      lazymatch H' with H => fail | _ => rewrite H in H' end
  end; count_eval.
Ltac count_solve :=
  counts; tx_fields; count_phases; repeat split; tx_fields; counts; count_phases;
  intros; try done; repeat case_match; first [lia|by auto].

Lemma tx_count_fault c r :
  counted c → phase c <= MAC_TX_STOPPING → advances c (fault c r, MAC_TX_ACTION_NONE).
Proof. intros [] Hp. unfold fault. count_solve. Qed.
Lemma tx_count_spacing c e : counted c → counted (spacing c e).
Proof. intros []. by split. Qed.
Lemma tx_count_stop c now r :
  counted c → phase c <= MAC_TX_ACK_WAIT → advances c (stop c now r).
Proof.
  intros [] Hp. unfold stop. cbv zeta. proj. destruct (_ || _) eqn:E; [count_solve|].
  destruct (phase c =? MAC_TX_RADIO) eqn:E2; proj; destruct (_ && _ && _ && _); unfold spacing; count_solve.
Qed.
Lemma tx_count_no_ack c now :
  counted c → phase c = MAC_TX_ACK_WAIT → advances c (no_ack c now).
Proof.
  intros Hc Hp. unfold no_ack. cbv zeta. set (s := spacing c _).
  assert (counted s ∧ phase s = MAC_TX_ACK_WAIT ∧ steps s = steps c ∧ retries s = retries c) as (Hs&Hps&E1&E2)
    by (split; [by apply tx_count_spacing|done]).
  assert (counted (s <| retry_pending := retries s <? MAC_TX_MAX_RETRIES |>)) as Hs2.
  { destruct Hs. split; tx_fields; try done. constants. lia. }
  pose proof (tx_count_stop _ now MAC_TX_NO_ACK Hs2 ltac:(change (phase s <= MAC_TX_ACK_WAIT); by rewrite Hps)) as (?&Hm&Hk).
  split; [done|]. clear -Hm Hk Hp Hps E1 E2. clearbody s. revert Hm Hk.
  unfold measure, credit. tx_fields. rewrite Hp, Hps. cbn [Z.leb]. rewrite E1, E2. done.
Qed.
Lemma tx_count_retire c now e :
  counted c → phase c = MAC_TX_STOPPING → advances c (retire c now e, MAC_TX_ACTION_NONE).
Proof.
  intros Hc Hp. unfold retire. cbv zeta.
  set (c1 := revoke c now (kind_of e)).
  assert (counted c1 ∧ phase c1 = MAC_TX_STOPPING ∧ steps c1 = steps c ∧ retries c1 = retries c ∧
          stop_steps c1 = stop_steps c) as (H1&E1&E2&E3&E4).
  { subst c1. unfold revoke. destruct (_ && _); [|by split_and!].
    split; [|done]. destruct Hc. by split. }
  clearbody c1. destruct (reached now (stop_at c1) || (stop_steps c1 =? 0)) eqn:E.
  { destruct Hc, H1. unfold fault. count_solve. }
  assert (u8 (stop_steps c1 - 1) = stop_steps c1 - 1) as ->
    by (destruct H1; specialize (n_stop0 E1); apply u8_id; clear -n_stop0 E; width).
  set (c2 := c1 <| stop_steps := stop_steps c1 - 1 |>).
  assert (advances c (c2, MAC_TX_ACTION_NONE)) as Hstay.
  { destruct Hc, H1. subst c2. count_solve. }
  destruct (_ =? MAC_TX_EVENT_FAILURE). { destruct Hc, H1. unfold fault. subst c2. count_solve. }
  destruct e as [e|]; [|exact Hstay]. destruct (_ =? MAC_TX_EVENT_QUIESCED); [|exact Hstay].
  unfold retired. cbv zeta. set (c3 := if uncertain c2 then _ else c2).
  assert (counted c3 ∧ retries c3 = retries c ∧ steps c3 = steps c ∧ retry_pending c3 = retry_pending c1)
    as (H3&E5&E6&E7).
  { subst c3. destruct Hstay as [Hc2 _]. destruct (uncertain c2); [|by split_and!].
    split_and!; try done. by apply tx_count_spacing. }
  clearbody c3. destruct (retry_pending c3) eqn:Er.
  - assert (u8 (retries c3 + 1) = retries c3 + 1) as ->
      by (destruct H3; apply u8_id; clear -n_retries0; width).
    destruct Hc, H3. specialize (n_again1 Er). count_solve.
  - destruct Hc, H3. count_solve.
Qed.
Lemma tx_count_drawn c now v :
  counted c → phase c = MAC_TX_DRAW_WAIT →
  counted (drawn c now v).1 ∧ measure (drawn c now v).1 <= measure c ∧
  credit c + is_attempt (drawn c now v).2 <= credit (drawn c now v).1.
Proof.
  intros [] Hp. unfold drawn. cbv zeta. destruct (reached _ (deadline _)); count_solve.
Qed.
Lemma tx_count_attempted c now e :
  counted c → phase c = MAC_TX_RADIO →
  counted (attempted c now e).1 ∧ measure (attempted c now e).1 <= measure c ∧
  credit c + is_attempt (attempted c now e).2 <= credit (attempted c now e).1.
Proof.
  intros Hc Hp. unfold attempted. cbv zeta.
  assert (∀ r, advances c r → counted r.1 ∧ measure r.1 <= measure c ∧ credit c + is_attempt r.2 <= credit r.1)
    as Hadv by (intros r (?&?&?); split_and!; try done; lia).
  destruct (negb _); [apply Hadv, tx_count_fault; [done|by rewrite Hp]|].
  destruct (kind e =? MAC_TX_EVENT_BUSY).
  - proj. assert (u8 (nb c + 1) = nb c + 1) as -> by (destruct Hc; apply u8_id; clear -n_nb0; width).
    set (c1 := if be _ <? MAC_TX_MAX_BE then _ else _).
    assert (counts_of c1 = counts_of (c <| nb := nb c + 1 |>)) as Hv
      by (subst c1; by destruct (be _ <? MAC_TX_MAX_BE)).
    unfold counts_of in Hv. injection Hv as V1 V2 V3 V4 V5 V6 V7. revert V1 V2 V3 V4 V5 V6 V7. tx_fields.
    intros. clearbody c1. clear Hadv. destruct Hc.
    assert (retry_pending c1 = true → retries c1 <= 2) by (rewrite V4, V6; exact n_again0).
    destruct (MAC_TX_MAX_BACKOFFS <? nb c1) eqn:E; count_solve.
  - assert (u8 (transmissions c + 1) = transmissions c + 1) as ->.
    { destruct Hc. rewrite Hp in *. clear -n_sent0 n_retries0. cbn in n_sent0. apply u8_id. width. }
    set (c1 := c <| transmissions := _ |> <| tx_end := _ |> <| phase := _ |>).
    assert (counted c1 ∧ measure c1 <= measure c ∧ credit c <= credit c1) as (H1&H2&H3).
    { subst c1. clear Hadv. destruct Hc. count_solve. }
    destruct (ack_requested c1).
    + split; [done|]. split; [done|]. cbn [fst snd]. change (is_attempt MAC_TX_ACTION_NONE) with 0. lia.
    + destruct (tx_count_stop (spacing c1 (stamp e)) now MAC_TX_UNACKNOWLEDGED
        (tx_count_spacing _ _ H1) ltac:(done)) as (G1&G2&G3).
      change (measure (spacing c1 (stamp e))) with (measure c1) in G2.
      change (credit (spacing c1 (stamp e))) with (credit c1) in G3.
      split; [done|]. lia.
Qed.
Lemma tx_count_listening c now e :
  counted c → phase c = MAC_TX_ACK_WAIT →
  counted (listening c now e).1 ∧ measure (listening c now e).1 <= measure c ∧
  credit c + is_attempt (listening c now e).2 <= credit (listening c now e).1.
Proof.
  intros Hc Hp. unfold listening.
  assert (∀ c r, advances c r → counted r.1 ∧ measure r.1 <= measure c ∧ credit c + is_attempt r.2 <= credit r.1)
    as Hadv by (intros c' r (?&?&?); split_and!; try done; lia).
  pose proof (tx_count_no_ack c now Hc Hp) as Hno.
  set (r := match e with Some _ => _ | None => _ end).
  assert (advances c r ∨ r = (c, MAC_TX_ACTION_NONE)) as Hr.
  { subst r. destruct e as [e|]; [|by right]. destruct (acknowledgement c e) as [h|]; [|by right].
    left. destruct (_ =? _); [|exact Hno].
    pose proof (tx_count_stop (spacing (c <| pending := has (Mac.flags h) Mac.MAC_FLAG_PENDING |>) (stamp e))
      now MAC_TX_ACKED) as Hs.
    apply Hs; [|by rewrite <- Hp]. apply tx_count_spacing. destruct Hc. by split. }
  clearbody r. destruct r as [c1 k]. destruct Hr as [Hr|[= -> ->]].
  - destruct ((phase c1 =? MAC_TX_ACK_WAIT) && _) eqn:E; [|by apply Hadv].
    destruct Hr as (G1&G2&G3). apply andb_true_iff in E as [E _].
    destruct (tx_count_no_ack c1 now G1 ltac:(lia)) as (K1&K2&K3). cbn [fst snd] in *.
    assert (0 <= is_attempt k) by (unfold is_attempt; case_match; lia). split; [done|]. lia.
  - destruct (_ && _); [by apply Hadv|]. split; [done|]. cbn [fst snd]. change (is_attempt MAC_TX_ACTION_NONE) with 0. lia.
Qed.
Lemma tx_count_proceed c now e :
  counted c → phase c <= MAC_TX_ACK_WAIT → advances c (proceed c now e).
Proof.
  intros Hc Hp. unfold proceed. cbv zeta.
  destruct (_ =? MAC_TX_EVENT_FAILURE).
  { apply tx_count_fault; [done|]. counts. lia. }
  destruct (giving_up c now (kind_of e)) eqn:Eg; [by apply tx_count_stop|].
  assert (0 < steps c) as Hsteps.
  { unfold giving_up in Eg. rewrite !orb_false_iff in Eg. destruct Hc. lia. }
  assert (u16 (steps c - 1) = steps c - 1) as ->
    by (destruct Hc; apply u16_id; clear -n_steps0 Hsteps; width).
  set (c1 := c <| steps := steps c - 1 |>).
  assert (counted c1 ∧ measure c1 < measure c ∧ credit c1 = credit c) as (H1&H2&H3).
  { split; [subst c1; destruct Hc; split; tx_fields; done || lia|]. split; [|done].
    change (phase c1) with (phase c). unfold measure. change (phase c1) with (phase c).
    change (retries c1) with (retries c). change (steps c1) with (steps c - 1).
    replace (phase c <=? MAC_TX_ACK_WAIT) with true by lia. lia. }
  assert (phase c1 <= MAC_TX_ACK_WAIT) as Hp1 by exact Hp. clearbody c1.
  assert (∀ r, counted r.1 ∧ measure r.1 <= measure c1 ∧ credit c1 + is_attempt r.2 <= credit r.1 →
          advances c r) as Hadv by (intros r (?&?&?); split_and!; try done; lia).
  assert (advances c (c1, MAC_TX_ACTION_NONE)) as Hstay.
  { apply Hadv. cbn [fst snd]. change (is_attempt MAC_TX_ACTION_NONE) with 0. split_and!; try done; lia. }
  destruct (phase c1 =? MAC_TX_DRAW) eqn:E1.
  { apply Hadv. apply Z.eqb_eq in E1. clear -H1 E1. destruct H1. count_solve. }
  destruct (phase c1 =? MAC_TX_ACK_WAIT) eqn:E2.
  { apply Hadv, tx_count_listening; [done|lia]. }
  destruct e as [e|]; [|done].
  destruct ((phase c1 =? MAC_TX_DRAW_WAIT) && _) eqn:E3; [|destruct ((phase c1 =? MAC_TX_RADIO) && _) eqn:E4];
    [| |done]; apply Hadv; [apply tx_count_drawn|apply tx_count_attempted]; done || lia.
Qed.
Lemma tx_count_progress c now e :
  counted c → phase c <= MAC_TX_STOPPING → advances c (progress c now e).
Proof.
  intros Hc Hp. unfold progress. cbv zeta.
  destruct (_ <=? _); [by apply tx_count_fault|].
  set (c1 := settle_ready c now <| last := now |>).
  assert (counted c1 ∧ measure c1 = measure c ∧ credit c1 = credit c ∧ phase c1 = phase c) as (H1&H2&H3&H4).
  { subst c1. unfold settle_ready. destruct (_ || _); (split; [destruct Hc; by split|done]). }
  clearbody c1. unfold advances. rewrite <- H2, <- H3.
  destruct (phase c1 =? MAC_TX_STOPPING) eqn:E.
  - apply tx_count_retire; [done|lia].
  - apply tx_count_proceed; [done|]. counts. lia.
Qed.

Definition attempts (actions : list (option mac_tx_action_t)) : Z :=
  foldr (λ a n, match a with Some a => is_attempt (ac_kind a) | None => 0 end + n) 0 actions.
Definition settled (c : mac_tx_t) : bool := (phase c =? MAC_TX_DONE) || (phase c =? MAC_TX_FAULT).

Lemma tx_settled_run calls : ∀ c c2 acts,
  settled c = true → Forall (λ k, proper k = true) calls → run c calls = (c2, acts) → c2 = c.
Proof.
  induction calls as [|k calls IH]; intros c c2 acts Es Hk E; cbn [run] in E; [by injection E|].
  apply Forall_cons_1 in Hk as [Hk Hks]. unfold step_call, mac_tx_step in E.
  rewrite (tx_refused k Hk) in E. cbn [negb orb] in E.
  replace (phase c =? MAC_TX_IDLE) with false in E
    by (unfold settled in Es; counts; unfold MAC_TX_IDLE; lia).
  fold (settled c) in E. rewrite Es in E. cbn [default from_option id] in E.
  destruct (run c calls) as [c3 l] eqn:E3. injection E as <- _. by eapply IH.
Qed.
Lemma tx_count_run calls : ∀ c,
  counted c → Forall (λ k, proper k = true) calls →
  let '(c2, actions) := run c calls in
  counted c2 ∧ credit c + attempts actions <= credit c2 ∧
  (settled c2 = true ∨ measure c2 + Z.of_nat (length calls) <= measure c).
Proof.
  induction calls as [|k calls IH]; intros c Hc Hk; cbn [run].
  { split; [done|]. cbn. split; [lia|]. right. lia. }
  apply Forall_cons_1 in Hk as [Hk Hks].
  unfold step_call, mac_tx_step. rewrite (tx_refused k Hk). cbn [negb orb].
  replace (phase c =? MAC_TX_IDLE) with false by (destruct Hc; counts; unfold MAC_TX_IDLE; lia).
  fold (settled c). destruct (settled c) eqn:Es.
  - cbn [default from_option id]. specialize (IH c Hc Hks). destruct (run c calls) as [c2 acts] eqn:E.
    destruct IH as (H1&H2&H3). split; [done|]. cbn [attempts foldr publish ac_kind].
    fold (attempts acts). change (is_attempt MAC_TX_ACTION_NONE) with 0. split; [lia|].
    left. by rewrite (tx_settled_run calls c c2 acts).
  - assert (phase c <= MAC_TX_STOPPING) as Hp.
    { unfold settled in Es. rewrite orb_false_iff in Es. destruct Hc. counts. lia. }
    destruct (tx_count_progress c (u32 (at_time k)) (wrapped <$> input k) Hc Hp) as (H1&H2&H3).
    destruct (progress c _ _) as [c1 a] eqn:E. cbn [fst snd default from_option id] in *.
    specialize (IH c1 H1 Hks). destruct (run c1 calls) as [c2 acts].
    destruct IH as (G1&G2&G3). split; [done|]. cbn [attempts foldr publish ac_kind length].
    fold (attempts acts). split; [lia|]. destruct G3; [by left|right; lia].
Qed.

(** C25: an exchange ends, whatever the clock and the events. After a frame is accepted with a
    work limit, that many proper calls and 73 more leave the context done or faulty; and however many there
    are, they were answered with at most 20 attempts and the frame was sent at most 4 times. *)
Theorem mac_tx_terminates c b n now life work c1 calls :
  0 <= work < 65536 →
  mac_tx_submit (Some c) (Some b) n now life work = (MAC_TX_OK, Some c1) →
  Forall (λ k, proper k = true) calls →
  let '(c2, actions) := run c1 calls in
  attempts actions <= 20 ∧ 0 <= transmissions c2 <= 4 ∧
  (work + 73 <= Z.of_nat (length calls) → phase c2 = MAC_TX_DONE ∨ phase c2 = MAC_TX_FAULT).
Proof.
  intros Hw Hsub Hk.
  destruct (tx_submit_ok _ _ _ _ _ _ _ Hsub) as (_&_&_&_&_&i&_&_&E).
  assert (counted c1 ∧ measure c1 = work + 73 ∧ credit c1 = 0) as (Hc&Hm&Hcr).
  { subst c1. unfold admit_frame. cbv zeta. unfold measure, credit.
    split; [split; tx_fields; try done; counts; try lia|]. tx_fields. split; [cbn; lia|done]. }
  pose proof (tx_count_run calls c1 Hc Hk) as H.
  destruct (run c1 calls) as [c2 acts]. destruct H as (H2&Hcr2&Hend). destruct H2.
  split; [|split].
  - rewrite Hcr in Hcr2. clear -Hcr2 n_nb0 n_retries0 n_nb'0. counts. repeat case_match; lia.
  - repeat case_match; lia.
  - intros Hlen. destruct Hend as [He|He]; [unfold settled in He; lia|].
    rewrite Hm in He. clear Hm Hcr Hcr2 E. counts. repeat case_match; lia.
Qed.

(** ** Concrete instances: a data frame that asks for an acknowledgement

    The clock wraps between the attempt and the acknowledgement. *)
Definition sample_start : Z := 4294967296 - 100.
Definition sample_idle : mac_tx_t := {|
  frame := replicate 125 0; last := u32 sample_start; deadline := 0; cca_at := 0; tx_end := 0;
  ready_at := u32 sample_start; generation := 6; stop_at := 0; steps := 0; phase := MAC_TX_IDLE;
  next_dsn := 255; tx_length := 0; ack_requested := false; nb := 0; be := 0; retries := 0;
  outcome := 0; transmissions := 0; uncertain := false; pending := false; retry_pending := false;
  stop_steps := 0 |}.
Definition sample_body : bytes := [0x61; 0x88; 0; 0x34; 0x12; 0x78; 0x56; 0x01; 0x00; 7; 8; 9].
Definition sample_accepted : mac_tx_result_t * option mac_tx_t :=
  mac_tx_submit (Some sample_idle) (Some sample_body) 12 (u32 sample_start) 100000 500.
Definition sample_context : mac_tx_t := default sample_idle sample_accepted.2.
Definition sample_event (at_ kind_ value_ : Z) (b : bytes) : option mac_tx_event_t := Some {|
  ev_generation := 7; stamp := sample_start + at_; ev_bytes := Some b; ev_length := blen b;
  kind := kind_; retry := 0; ev_nb := 0; value := value_ |}.
Definition sample_calls : list call :=
  (λ p, {| at_time := sample_start + p.1; input := p.2 |}) <$>
  [(1, None); (3, sample_event 2 MAC_TX_EVENT_RANDOM 10 []);
   (100, sample_event 95 MAC_TX_EVENT_SENT 0 []);
   (130, sample_event 128 MAC_TX_EVENT_ACK 0 [0x12; 0; 255]);
   (140, sample_event 139 MAC_TX_EVENT_QUIESCED 0 [])].

Lemma tx_sample_resting : resting sample_start sample_start sample_idle.
Proof. split; done. Qed.

Example sample_outcome :
  (λ a, (ac_kind a, ac_phase a, ac_outcome a, ac_at a)) <$> omap id (run sample_context sample_calls).2
  = [(MAC_TX_ACTION_RANDOM, MAC_TX_DRAW_WAIT, 0, 0);
     (MAC_TX_ACTION_ATTEMPT, MAC_TX_RADIO, 0, 4294967239);
     (MAC_TX_ACTION_NONE, MAC_TX_ACK_WAIT, 0, 4294967239);
     (MAC_TX_ACTION_QUIESCE, MAC_TX_STOPPING, MAC_TX_ACKED, 30);
     (MAC_TX_ACTION_NONE, MAC_TX_DONE, MAC_TX_ACKED, 4294967239)].
Proof. vm_compute. reflexivity. Qed.

Lemma mac_tx_refines_witness :
  let x := exchange_of sample_context (sample_start + 100000) in
  slice (frame sample_context) 0 12 = wr (slice sample_body 0 12) 2 255 ∧
  let '(c2, actions) := run sample_context sample_calls in
  let '(i2, intents) := ideal_run x (beginning sample_start sample_start 500) sample_calls in
  models x i2 c2 ∧ Forall2 (reports x) intents actions ∧
  (i_activity i2 = Finished →
   ∃ c3, mac_tx_release (Some c2) = (MAC_TX_OK, Some c3) ∧ resting (i_last i2) (i_ready i2) c3).
Proof.
  exact (mac_tx_refines sample_idle sample_body 12 sample_start sample_start sample_start 100000 500
    sample_context sample_calls tx_sample_resting ltac:(concrete) ltac:(concrete) ltac:(concrete)
    ltac:(concrete) ltac:(vm_compute; reflexivity) ltac:(concrete)).
Defined.
Lemma mac_tx_acked_sound_witness :
  confirmed (exchange_of sample_context (sample_start + 100000)) sample_calls true.
Proof.
  exact (mac_tx_acked_sound sample_idle sample_body 12 sample_start sample_start sample_start 100000 500
    sample_context sample_calls tx_sample_resting ltac:(concrete) ltac:(concrete) ltac:(concrete)
    ltac:(concrete) ltac:(vm_compute; reflexivity) ltac:(concrete) ltac:(vm_compute; reflexivity)).
Defined.
(** Without a single event the exchange ends as well. *)
Lemma mac_tx_terminates_witness :
  let '(c2, actions) := run sample_context (replicate 573 {| at_time := sample_start; input := None |}) in
  attempts actions <= 20 ∧ 0 <= transmissions c2 <= 4 ∧
  (500 + 73 <= Z.of_nat (length (replicate 573 {| at_time := sample_start; input := None |})) →
   phase c2 = MAC_TX_DONE ∨ phase c2 = MAC_TX_FAULT).
Proof.
  exact (mac_tx_terminates sample_idle sample_body 12 (u32 sample_start) 100000 500 sample_context
    (replicate 573 {| at_time := sample_start; input := None |}) ltac:(concrete)
    ltac:(vm_compute; reflexivity) ltac:(concrete)).
Defined.

End MacTx.
