(* ===== verification/ZclAttributes.v ===== *)
(** * ZCL attribute tables and the Read Attributes command (src/zcl_attributes.c)

    The check of a caller's attribute table, and the handler that answers one
    unicast Read Attributes request from it.  A client's parser of the response
    is the specification: it must read back the readings of the attributes. *)
From S2P Require Import Prelude ZclWire.

Module ZclAttributes.
Import Zcl.

(** ** Constants and data (include/zcl_attributes.h) *)
Definition ZCL_ATTRIBUTE_MAX_COUNT := 16.
Definition ZCL_ATTRIBUTE_CLIENT := 1.
Definition ZCL_COMMAND_READ_ATTRIBUTES := 0x00.
Definition ZCL_COMMAND_READ_ATTRIBUTES_RESPONSE := 0x01.
Definition ZCL_COMMAND_DEFAULT_RESPONSE := 0x0b.
Definition ZCL_STATUS_SUCCESS := 0x00.
Definition ZCL_STATUS_NOT_AUTHORIZED := 0x7e.
Definition ZCL_STATUS_MALFORMED_COMMAND := 0x80.
Definition ZCL_STATUS_UNSUPPORTED_ATTRIBUTE := 0x86.
Definition ZCL_STATUS_INSUFFICIENT_SPACE := 0x89.

Record zcl_attribute_t := { attribute_id : Z; readable : Z; value : zcl_value_t }.

(** [attributes] is the C pointer, [None] for NULL. *)
Record zcl_attribute_set_t := {
  attributes : option (list zcl_attribute_t);
  count : Z;
  side : Z;
  manufacturer_specific : Z;
  set_manufacturer : Z
}.

Record zcl_read_info_t := {
  read_length : Z;
  read_command : Z;
  requested_count : Z;
  returned_count : Z
}.

(** The entries the table counts. *)
Definition entries (s : zcl_attribute_set_t) : list zcl_attribute_t :=
  take (Z.to_nat (count s)) (default [] (attributes s)).

(** ** The table check *)
Definition entry_refused (s : zcl_attribute_set_t) (a : zcl_attribute_t) : bool :=
  (1 <? readable a)
  || ((manufacturer_specific s =? 0)
      && (((0x5000 <=? attribute_id a) && (attribute_id a <? 0xf000))
          || (attribute_id a =? 0xffff))).

(** The loop over the entries; the inner one compares with the prior entries. *)
Fixpoint check_entries (s : zcl_attribute_set_t) (prior todo : list zcl_attribute_t)
    : zcl_codec_result_t :=
  match todo with
  | [] => ZCL_CODEC_OK
  | a :: todo =>
      if! entry_refused s a return ZCL_CODEC_INVALID_TABLE ;;
      if! existsb (λ p, attribute_id a =? attribute_id p) prior
        return ZCL_CODEC_INVALID_TABLE ;;
      check_entries s (prior ++ [a]) todo
  end.

Definition zcl_attr_set_check (set : option zcl_attribute_set_t) : zcl_codec_result_t :=
  match set with
  | None => ZCL_CODEC_INVALID_ARGUMENT
  | Some s =>
      if! (ZCL_ATTRIBUTE_MAX_COUNT <? count s) || (ZCL_ATTRIBUTE_CLIENT <? side s)
          || (1 <? manufacturer_specific s)
          || (bool_decide (attributes s = None) && negb (count s =? 0))
        return ZCL_CODEC_INVALID_TABLE ;;
      check_entries s [] (entries s)
  end.

(** ** Read Attributes *)

(** The search loop: the first entry of that identifier. *)
Definition find_attribute (s : zcl_attribute_set_t) (identifier : Z) : option zcl_attribute_t :=
  head (filter (λ a, attribute_id a = identifier) (entries s)).

(** The wire status of one attribute and, on success, its encoded octets, with [remaining]
    octets left in the response.  The value is encoded into the space after the record's four
    leading octets; with three octets left it is only validated. *)
Definition attribute_status (attribute : option zcl_attribute_t) (remaining : Z)
    : zcl_codec_result_t + Z * bytes :=
  match attribute with
  | None => inr (ZCL_STATUS_UNSUPPORTED_ATTRIBUTE, [])
  | Some a =>
      if! readable a =? 0 return inr (ZCL_STATUS_NOT_AUTHORIZED, []) ;;
      let capacity := if 4 <=? remaining then u16 (remaining - 4) else 0 in
      match zcl_value_encode (Some (value a)) (Some (replicate (Z.to_nat capacity) 0)) capacity
              (Some 0) with
      | (status, body, encoded) =>
          if! bool_decide (status = ZCL_CODEC_BUFFER_TOO_SMALL)
              || (bool_decide (status = ZCL_CODEC_OK) && (remaining <? 4))
            return inr (ZCL_STATUS_INSUFFICIENT_SPACE, []) ;;
          if! bool_decide (status ≠ ZCL_CODEC_OK) return inl status ;;
          inr (ZCL_STATUS_SUCCESS, slice (default [] body) 0 (default 0 encoded))
      end
  end.

(** One status record. *)
Definition read_record (s : zcl_attribute_set_t) (identifier remaining : Z)
    : zcl_codec_result_t + bytes :=
  let attribute := find_attribute s identifier in
  match attribute_status attribute remaining with
  | inl status => inl status
  | inr (wire_status, encoded) =>
      inr ([u8 identifier; u8 (Z.shiftr identifier 8); wire_status]
           ++ if wire_status =? ZCL_STATUS_SUCCESS
              then default 0 (value_type ∘ value <$> attribute) :: encoded else [])
  end.

(** The loop over the requested identifiers; [payload] holds the octets produced so far,
    [space] the octets after the response's header. *)
Fixpoint read_records (s : zcl_attribute_set_t) (space : Z) (ids payload : bytes) (returned : Z)
    : zcl_codec_result_t + bytes * Z :=
  match ids with
  | low :: high :: ids =>
      let remaining := u8 (space - blen payload) in
      if! remaining <? 3 return inr (payload, returned) ;;
      match read_record s (Z.lor low (Z.shiftl high 8)) remaining with
      | inl status => inl status
      | inr record => read_records s space ids (payload ++ record) (u8 (returned + 1))
      end
  | _ => inr (payload, returned)
  end.

(** The response's header, but for its command. *)
Definition reply_header (h : zcl_header_t) (command : Z) : zcl_header_t := {|
  type := type h;
  flags := u8 (Z.lor (Z.lxor (flags h) ZCL_FLAG_SERVER_TO_CLIENT)
                     ZCL_FLAG_DISABLE_DEFAULT_RESPONSE);
  manufacturer_code := manufacturer_code h;
  sequence := sequence h;
  command_id := command |}.

Definition budget (capacity : Z) : Z :=
  if capacity <? ZCL_FRAME_MAX_BODY then u8 capacity else ZCL_FRAME_MAX_BODY.

(** The request is not for the selected side and name space of the cluster. *)
Definition side_matches (s : zcl_attribute_set_t) (h : zcl_header_t) : bool :=
  Z.b2z (has (flags h) ZCL_FLAG_SERVER_TO_CLIENT) =? side s.
Definition namespace_matches (s : zcl_attribute_set_t) (h : zcl_header_t) : bool :=
  (Z.b2z (has (flags h) ZCL_FLAG_MANUFACTURER_SPECIFIC) =? manufacturer_specific s)
  && ((manufacturer_specific s =? 0) || (manufacturer_code h =? set_manufacturer s)).

Definition zero_frame : zcl_frame_info_t :=
  Build_zcl_frame_info_t (Build_zcl_header_t 0 0 0 0 0) 0 0 0.

(** The payload of the answer: its command, its octets, the two counters. *)
Definition read_answer (s : zcl_attribute_set_t) (request : bytes) (frame : zcl_frame_info_t)
    (capacity : Z) : zcl_codec_result_t + Z * bytes * Z * Z :=
  if! (payload_length frame =? 0) || has (payload_length frame) 1
    return inr (ZCL_COMMAND_DEFAULT_RESPONSE,
                [ZCL_COMMAND_READ_ATTRIBUTES; ZCL_STATUS_MALFORMED_COMMAND], 0, 0) ;;
  if! budget capacity <? payload_offset frame + 3 return inl ZCL_CODEC_BUFFER_TOO_SMALL ;;
  let ids := slice request (payload_offset frame) (payload_length frame) in
  match read_records s (budget capacity - payload_offset frame) ids [] 0 with
  | inl status => inl status
  | inr (payload, returned) =>
      inr (ZCL_COMMAND_READ_ATTRIBUTES_RESPONSE, payload, payload_length frame / 2, returned)
  end.

(** [response] is the caller's buffer, [info] the caller's structure. *)
Definition zcl_read_attrs_unicast (set : option zcl_attribute_set_t) (request : option bytes)
    (request_length : Z) (response : option bytes) (capacity : Z) (info : option zcl_read_info_t)
    : zcl_codec_result_t * option bytes * option zcl_read_info_t :=
  match set, request, response, info with
  | Some s, Some q, Some _, Some _ =>
      let status := zcl_attr_set_check set in
      if! bool_decide (status ≠ ZCL_CODEC_OK) return (status, response, info) ;;
      match zcl_frame_decode request request_length (Some zero_frame) with
      | (ZCL_CODEC_OK, Some frame) =>
          let h := header frame in
          if! negb (type h =? ZCL_FRAME_GLOBAL)
              || negb (command_id h =? ZCL_COMMAND_READ_ATTRIBUTES)
            return (ZCL_CODEC_UNSUPPORTED_COMMAND, response, info) ;;
          if! negb (side_matches s h) || negb (namespace_matches s h)
            return (ZCL_CODEC_UNSUPPORTED_CONTEXT, response, info) ;;
          match read_answer s q frame capacity with
          | inl status => (status, response, info)
          | inr (command, payload, requested, returned) =>
              match zcl_frame_encode (Some (reply_header h command)) (Some payload)
                      (blen payload) response capacity (Some 0) with
              | (ZCL_CODEC_OK, response, Some length) =>
                  (ZCL_CODEC_OK, response,
                   Some {| read_length := length; read_command := command;
                           requested_count := requested; returned_count := returned |})
              | (status, response, _) => (status, response, info)
              end
          end
      | (status, _) => (status, response, info)
      end
  | _, _, _, _ => (ZCL_CODEC_INVALID_ARGUMENT, response, info)
  end.

(** ** Specification: what a client learns *)

(** The reading of one attribute: its value as encoded on the wire, or a status. *)
Inductive reading := Refused (status : Z) | Value (ty : Z) (octets : bytes).

Definition reading_of (s : zcl_attribute_set_t) (identifier space : Z) : reading :=
  match find_attribute s identifier with
  | None => Refused ZCL_STATUS_UNSUPPORTED_ATTRIBUTE
  | Some a =>
      if readable a =? 0 then Refused ZCL_STATUS_NOT_AUTHORIZED
      else if 4 + blen (value_bytes (value a)) <=? space
      then Value (value_type (value a)) (value_bytes (value a))
      else Refused ZCL_STATUS_INSUFFICIENT_SPACE
  end.
Definition reading_size (r : reading) : Z :=
  match r with Refused _ => 3 | Value _ octets => 4 + blen octets end.

(** The readings of the requested attributes, in order, while [space] octets last. *)
Fixpoint readings (s : zcl_attribute_set_t) (space : Z) (ids : list Z) : list (Z * reading) :=
  match ids with
  | [] => []
  | i :: ids =>
      if space <? 3 then [] else
      let r := reading_of s i space in (i, r) :: readings s (space - reading_size r) ids
  end.

(** The identifiers on the wire. *)
Fixpoint words (b : bytes) : list Z :=
  match b with low :: high :: b => Z.lor low (Z.shiftl high 8) :: words b | _ => [] end.

(** The client: it knows nothing of the table, and finds the extent of a value by decoding it. *)
Definition zero_value : zcl_value_info_t := Build_zcl_value_info_t 0 0 0 0 0.
Fixpoint parse_readings (fuel : nat) (b : bytes) : option (list (Z * reading)) :=
  match fuel, b with
  | _, [] => Some []
  | S fuel, low :: high :: status :: b =>
      let identifier := Z.lor low (Z.shiftl high 8) in
      if! negb (status =? ZCL_STATUS_SUCCESS)
        return cons (identifier, Refused status) <$> parse_readings fuel b ;;
      match b with
      | ty :: b =>
          match zcl_value_decode ty (Some b) (blen b) (Some zero_value) with
          | (ZCL_CODEC_OK, Some v) =>
              cons (identifier, Value ty (slice b 0 (encoded_length v)))
              <$> parse_readings fuel (drop (Z.to_nat (encoded_length v)) b)
          | _ => None
          end
      | [] => None
      end
  | _, _ => None
  end.

(** The table's values are well-formed: typed, and accepted by the encoder. *)
Definition value_typed (v : zcl_value_t) : Prop :=
  is_u8 (value_type v) ∧ is_bytes (default [] (data v)) ∧ 0 <= data_length v < 65536 ∧
  is_u8 (string_non_value v) ∧ data_length v <= blen (default [] (data v)) ∧
  (data v = None → data_length v = 0).
Definition encodable (s : zcl_attribute_set_t) : Prop :=
  Forall (λ a, readable a ≠ 0 → value_typed (value a) ∧ value_ok (value a)) (entries s).

(** ** The loop produces the readings *)
Definition reading_bytes (r : Z * reading) : bytes :=
  [u8 r.1; u8 (Z.shiftr r.1 8)]
  ++ match r.2 with Refused status => [status] | Value ty octets => ZCL_STATUS_SUCCESS :: ty :: octets end.

Lemma zcl_find_attribute_in s i a : find_attribute s i = Some a → a ∈ entries s ∧ attribute_id a = i.
Proof.
  unfold find_attribute. intros H. apply head_Some_elem_of, list_elem_of_filter in H. tauto.
Qed.
Lemma zcl_reading_len i r : blen (reading_bytes (i, r)) = reading_size r.
Proof. destruct r; [done|]. unfold reading_bytes. cbn [fst snd app]. rewrite !blen_cons. simpl. lia. Qed.
Lemma zcl_reading_size s i space : 3 <= space → 3 <= reading_size (reading_of s i space) <= space.
Proof.
  intros. unfold reading_of. repeat case_match; simpl; try lia.
  pose proof (blen_nonneg (value_bytes (value z))). lia.
Qed.

Lemma zcl_attribute_status s i a remaining :
  encodable s → find_attribute s i = Some a → 3 <= remaining < 256 → readable a ≠ 0 →
  attribute_status (Some a) remaining =
  if 4 + blen (value_bytes (value a)) <=? remaining
  then inr (ZCL_STATUS_SUCCESS, value_bytes (value a))
  else inr (ZCL_STATUS_INSUFFICIENT_SPACE, []).
Proof.
  intros Hs Ha Hr Hread. apply zcl_find_attribute_in in Ha as [Ha _].
  pose proof (proj1 (list.Forall_forall _ _) Hs a Ha Hread) as [(Ht&Hb&Hd&Hn&Hl&Hz) Hok].
  unfold attribute_status. replace (readable a =? 0) with false by lia.
  set (cap := if 4 <=? remaining then u16 (remaining - 4) else 0).
  assert (cap = Z.max 0 (remaining - 4)) as Ec by (subst cap; case_match; width). clearbody cap.
  unfold is_u8 in Hn.
  rewrite zcl_value_encode_fits by (rewrite ?blen_replicate; done || lia).
  pose proof (blen_nonneg (value_bytes (value a))) as Hv.
  destruct (cap <? blen (value_bytes (value a))) eqn:E; cbn [bool_decide orb andb].
  - by replace (4 + _ <=? remaining) with false by lia.
  - rewrite (bool_decide_eq_false_2 (ZCL_CODEC_OK = ZCL_CODEC_BUFFER_TOO_SMALL)) by done.
    rewrite (bool_decide_eq_true_2 (ZCL_CODEC_OK = ZCL_CODEC_OK)) by done.
    rewrite (bool_decide_eq_false_2 (ZCL_CODEC_OK ≠ ZCL_CODEC_OK)) by (intros []; done).
    cbn [orb andb default from_option id].
    destruct (remaining <? 4) eqn:E4.
    { by replace (4 + _ <=? remaining) with false by lia. }
    replace (4 + _ <=? remaining) with true by lia.
    rewrite blit_0 by (rewrite blen_replicate; lia). do 2 f_equal. by apply (slice_app_mid []).
Qed.

Lemma zcl_read_record s i space :
  encodable s → 3 <= space < 256 →
  read_record s i space = inr (reading_bytes (i, reading_of s i space)).
Proof.
  intros Hs Hr. unfold read_record, reading_of, reading_bytes.
  destruct (find_attribute s i) as [a|] eqn:Ha; [|done].
  destruct (Z.eqb_spec (readable a) 0) as [E|E].
  { unfold attribute_status. by rewrite E. }
  rewrite (zcl_attribute_status s i) by done. by destruct (_ <=? space).
Qed.

(** Induction on a list of two-octet words. *)
Lemma word_list_ind (P : bytes → Prop) :
  P [] → (∀ x, P [x]) → (∀ x y l, P l → P (x :: y :: l)) → ∀ l, P l.
Proof.
  intros H0 H1 H2. enough (∀ l, P l ∧ ∀ x, P (x :: l)) as H by (intros l; apply (H l)).
  induction l as [|y l [IH1 IH2]]; split; auto.
Qed.

Lemma zcl_read_records s : encodable s → ∀ ids space payload returned,
  0 <= space - blen payload → space < 256 → 0 <= returned →
  returned + Z.of_nat (length ids) < 256 →
  let rs := readings s (space - blen payload) (words ids) in
  read_records s space ids payload returned
  = inr (payload ++ mjoin (reading_bytes <$> rs), returned + Z.of_nat (length rs)).
Proof.
  intros Hs ids. induction ids as [|low|low high ids IH] using word_list_ind;
    intros space payload returned H0 H1 H2 H3; cbn [words readings read_records fmap list_fmap mjoin
      list_join length]; try by rewrite app_nil_r, Z.add_0_r.
  cbn [length] in H3. pose proof (blen_nonneg payload).
  rewrite u8_id by width. destruct (space - blen payload <? 3) eqn:E.
  { cbn. by rewrite app_nil_r, Z.add_0_r. }
  set (i := Z.lor low (Z.shiftl high 8)). rewrite zcl_read_record by (done || lia).
  pose proof (zcl_reading_size s i (space - blen payload) ltac:(lia)) as Hsz.
  assert (blen (payload ++ reading_bytes (i, reading_of s i (space - blen payload)))
          = blen payload + reading_size (reading_of s i (space - blen payload))) as Hl
    by by rewrite blen_app, zcl_reading_len.
  rewrite IH; rewrite ?Hl, ?u8_id; try (cbn; width). rewrite Z.sub_add_distr.
  cbn [length fmap list_fmap mjoin list_join]. rewrite <- app_assoc. f_equal. f_equal. lia.
Qed.

(** ** The client reads the readings back *)
Definition wire_reading (r : Z * reading) : Prop :=
  is_u16 r.1 ∧
  match r.2 with
  | Refused status => status ≠ ZCL_STATUS_SUCCESS
  | Value ty octets => ∃ v, value_typed v ∧ value_ok v ∧ ty = value_type v ∧ octets = value_bytes v
  end.

Lemma word_octets low high :
  is_u8 low → is_u8 high → let w := Z.lor low (Z.shiftl high 8) in
  is_u16 w ∧ u8 w = low ∧ u8 (Z.shiftr w 8) = high.
Proof.
  intros Hl Hh. cbv zeta. rewrite lor_shift8 by width.
  rewrite Z.shiftr_div_pow2 by lia. change (2 ^ 8) with 256. split; [width|]. split; width.
Qed.
Lemma zcl_words_u16 b : is_bytes b → Forall is_u16 (words b).
Proof.
  induction b as [| |x y b IH] using word_list_ind; intros Hb; [constructor..|].
  apply Forall_cons_1 in Hb as [Hx Hb]. apply Forall_cons_1 in Hb as [Hy Hb].
  cbn [words]. constructor; [by apply word_octets|by apply IH].
Qed.
Lemma zcl_readings_wire s ids : encodable s → Forall is_u16 ids → ∀ space,
  Forall wire_reading (readings s space ids).
Proof.
  intros Hs Hids. induction Hids as [|i ids Hi Hids IH]; intros space; cbn [readings]; [constructor|].
  destruct (space <? 3); [constructor|]. constructor; [|apply IH]. split; [done|].
  cbn [snd]. unfold reading_of. destruct (find_attribute s i) as [a|] eqn:Ha; [|done].
  destruct (Z.eqb_spec (readable a) 0) as [|E]; [done|].
  destruct (_ <=? space); [|done]. apply zcl_find_attribute_in in Ha as [Ha _].
  pose proof (proj1 (list.Forall_forall _ _) Hs a Ha E) as [Ht Hok]. by exists (value a).
Qed.

Lemma zcl_parse_reading fuel r rest :
  wire_reading r →
  parse_readings (S fuel) (reading_bytes r ++ rest) = cons r <$> parse_readings fuel rest.
Proof.
  destruct r as [i r]. intros [Hi Hr]. cbn [fst snd] in *. unfold reading_bytes. cbn [fst snd app].
  pose proof (u16_bytes i Hi) as Ei.
  assert (Z.lor (u8 i) (Z.shiftl (u8 (Z.shiftr i 8)) 8) = i) as E.
  { rewrite lor_shift8; [done|apply u8_range|]. pose proof (u8_range (Z.shiftr i 8)). width. }
  destruct r as [status|ty octets]; cbn [app parse_readings]; rewrite E.
  { by replace (status =? ZCL_STATUS_SUCCESS) with false by lia. }
  destruct Hr as (v&(Ht&Hb&Hd&Hn&Hl&_)&Hok&->&->). cbn [negb]. unfold is_u8 in Hn.
  rewrite Z.eqb_refl. cbn [negb].
  destruct (zcl_value_decode_bytes v rest (blen (value_bytes v ++ rest)) zero_value)
    as (info&Hdec&_&Hlen&_); try done; try lia.
  { rewrite blen_app. pose proof (blen_nonneg rest). lia. }
  rewrite Hdec, Hlen, slice_0. unfold blen. by rewrite Nat2Z.id, drop_app_length, take_app_length.
Qed.
Lemma zcl_parse_readings rs fuel :
  Forall wire_reading rs → (length rs <= fuel)%nat →
  parse_readings fuel (mjoin (reading_bytes <$> rs)) = Some rs.
Proof.
  intros Hrs. revert fuel. induction Hrs as [|r rs Hr Hrs IH]; intros fuel Hf; [by destruct fuel|].
  destruct fuel as [|fuel]; cbn [length] in Hf; [lia|].
  change (mjoin (reading_bytes <$> r :: rs)) with (reading_bytes r ++ mjoin (reading_bytes <$> rs)).
  by rewrite zcl_parse_reading, IH by (done || lia).
Qed.

Lemma zcl_readings_size s ids space :
  0 <= space → blen (mjoin (reading_bytes <$> readings s space ids)) <= space.
Proof.
  revert space. induction ids as [|i ids IH]; intros space Hs; [done|]. cbn [readings].
  destruct (space <? 3) eqn:E; [done|].
  pose proof (zcl_reading_size s i space ltac:(lia)) as H.
  change (mjoin (reading_bytes <$> ?r :: ?rs)) with (reading_bytes r ++ mjoin (reading_bytes <$> rs)).
  rewrite blen_app, zcl_reading_len. specialize (IH (space - reading_size (reading_of s i space))). lia.
Qed.
Lemma zcl_readings_prefix s ids space :
  (readings s space ids).*1 = take (length (readings s space ids)) ids.
Proof.
  revert space. induction ids as [|i ids IH]; intros space; [done|]. cbn [readings].
  destruct (space <? 3); [done|]. cbn. by rewrite IH.
Qed.
Lemma zcl_words_length b : Z.of_nat (length (words b)) = blen b / 2.
Proof.
  induction b as [| |x y b IH] using word_list_ind; [done..|]. cbn [words length].
  rewrite !blen_cons. Z.div_mod_to_equations. lia.
Qed.

Lemma zcl_reply_flags f :
  is_u8 f → has f (u8 (Z.lnot 0x1c)) = false →
  let f' := u8 (Z.lor (Z.lxor f ZCL_FLAG_SERVER_TO_CLIENT) ZCL_FLAG_DISABLE_DEFAULT_RESPONSE) in
  has f' (u8 (Z.lnot 0x1c)) = false ∧
  has f' ZCL_FLAG_MANUFACTURER_SPECIFIC = has f ZCL_FLAG_MANUFACTURER_SPECIFIC.
Proof.
  intros Hf Hm f'.
  assert (implb (negb (has f (u8 (Z.lnot 0x1c))))
    (negb (has f' (u8 (Z.lnot 0x1c)))
     && Bool.eqb (has f' ZCL_FLAG_MANUFACTURER_SPECIFIC) (has f ZCL_FLAG_MANUFACTURER_SPECIFIC))
    = true) as H by (subst f'; by_u8 f).
  rewrite Hm in H. cbn [negb implb] in H. apply andb_true_iff in H as [H1 H2].
  by apply negb_true_iff in H1; apply Bool.eqb_prop in H2.
Qed.
Lemma zcl_reply_header h c :
  header_typed h → type h <= 1 → has (flags h) (u8 (Z.lnot 0x1c)) = false → normalise h = h →
  is_u8 c → let r := reply_header h c in
  header_typed r ∧ has (flags r) (u8 (Z.lnot 0x1c)) = false ∧ normalise r = r ∧
  header_size (flags r) = header_size (flags h).
Proof.
  intros (Ht&Hf&Hm&Hs&Hc) Hty Hfl Hn Hc'. destruct (zcl_reply_flags (flags h) Hf Hfl) as [E1 E2].
  cbn -[u8 Z.lor Z.lxor]. split; [repeat split; try done; try apply u8_range; apply Ht || apply Hm
    || apply Hs || apply Hc'|].
  split; [done|]. unfold normalise, header_size, reply_header in *.
  cbn [type flags manufacturer_code sequence command_id]. rewrite E2. split; [|done].
  f_equal. exact (f_equal manufacturer_code Hn).
Qed.
Lemma zcl_budget capacity : 0 <= capacity → budget capacity = Z.min capacity 100.
Proof. intros. unfold budget, ZCL_FRAME_MAX_BODY. case_match; width. Qed.

(** A Read Attributes request with a list of identifiers, for this table's side and name space. *)
Definition read_request (s : zcl_attribute_set_t) (q : bytes) (n : Z) (frame : zcl_frame_info_t)
    : Prop :=
  zcl_frame_decode (Some q) n (Some zero_frame) = (ZCL_CODEC_OK, Some frame) ∧
  type (header frame) = ZCL_FRAME_GLOBAL ∧
  command_id (header frame) = ZCL_COMMAND_READ_ATTRIBUTES ∧
  side_matches s (header frame) = true ∧ namespace_matches s (header frame) = true ∧
  payload_length frame ≠ 0 ∧ has (payload_length frame) 1 = false.

(** The counters and the payload of the answer to such a request. *)
Lemma zcl_read_answer s q n frame capacity :
  encodable s → is_bytes q → 0 <= n <= blen q → 0 <= capacity → read_request s q n frame →
  payload_offset frame + 3 <= budget capacity →
  let ids := words (slice q (payload_offset frame) (payload_length frame)) in
  let rs := readings s (Z.min capacity 100 - payload_offset frame) ids in
  read_answer s q frame capacity
  = inr (ZCL_COMMAND_READ_ATTRIBUTES_RESPONSE, mjoin (reading_bytes <$> rs),
         Z.of_nat (length ids), Z.of_nat (length rs)) ∧
  blen (mjoin (reading_bytes <$> rs)) <= Z.min capacity 100 - payload_offset frame ∧
  Forall wire_reading rs ∧ (length rs <= length ids)%nat.
Proof.
  intros Hs Hq Hn Hc (Hd&_&_&_&_&Hp0&Hp1) Hb ids rs.
  apply zcl_frame_decode_facts in Hd as (_&_&_&_&Eo&Hr&El); [|done|lia].
  pose proof (zcl_header_size_range (flags (header frame))).
  rewrite zcl_budget in * by done.
  assert (blen (slice q (payload_offset frame) (payload_length frame)) = payload_length frame) as Hl
    by (apply blen_slice; lia).
  unfold read_answer. replace (payload_length frame =? 0) with false by lia. rewrite Hp1.
  cbn [orb]. rewrite zcl_budget by done. replace (_ <? _) with false by lia.
  rewrite zcl_read_records; rewrite ?blen_nil, ?Z.sub_0_r; try (done || lia).
  2: { unfold blen in Hl. lia. }
  fold ids rs. rewrite app_nil_l, Z.add_0_l, <- Hl, <- zcl_words_length. fold ids.
  split; [done|]. split; [apply zcl_readings_size; lia|].
  split; [apply zcl_readings_wire; [done|by apply zcl_words_u16, is_bytes_slice]|].
  pose proof (zcl_readings_prefix s ids (Z.min capacity 100 - payload_offset frame)) as E.
  fold rs in E. apply (f_equal length) in E. rewrite length_fmap, length_take in E. lia.
Qed.

(** C26: a Read Attributes request for a checked table is always answered: the response is a
    frame the client decodes, with the request's sequence number, its side reversed, and a
    payload from which a client that knows nothing of the table reads the reading of each of the
    first [returned_count] attributes asked for, in their order: the value exactly as the table
    holds it, or unsupported, not authorised, or too long for the space left.  The response
    never exceeds the space the caller allows. *)
Theorem zcl_read_attributes_answered s q n frame b capacity info0 :
  zcl_attr_set_check (Some s) = ZCL_CODEC_OK → encodable s →
  is_bytes q → 0 <= n <= blen q → 0 <= capacity <= blen b →
  read_request s q n frame → payload_offset frame + 3 <= Z.min capacity 100 →
  let ids := words (slice q (payload_offset frame) (payload_length frame)) in
  let rs := readings s (Z.min capacity 100 - payload_offset frame) ids in
  ∃ body length,
    zcl_read_attrs_unicast (Some s) (Some q) n (Some b) capacity (Some info0)
    = (ZCL_CODEC_OK, Some body,
       Some {| read_length := length; read_command := ZCL_COMMAND_READ_ATTRIBUTES_RESPONSE;
               requested_count := Z.of_nat (Datatypes.length ids);
               returned_count := Z.of_nat (Datatypes.length rs) |}) ∧
    length <= Z.min capacity 100 ∧
    zcl_frame_decode (Some body) length (Some zero_frame)
    = (ZCL_CODEC_OK,
       Some {| header := reply_header (header frame) ZCL_COMMAND_READ_ATTRIBUTES_RESPONSE;
               ignored_control_bits := 0; payload_offset := payload_offset frame;
               payload_length := length - payload_offset frame |}) ∧
    parse_readings (Datatypes.length ids)
      (slice body (payload_offset frame) (length - payload_offset frame)) = Some rs ∧
    rs.*1 = take (Datatypes.length rs) ids.
Proof.
  intros Hset Hs Hq Hn Hc Hreq Hfit ids rs.
  destruct (zcl_read_answer s q n frame capacity) as (Ea&Hsz&Hw&Hlen); rewrite ?zcl_budget;
    try (done || lia). fold ids rs in Ea, Hsz, Hw, Hlen.
  destruct Hreq as (Hd&Hty&Hcmd&Hside&Hns&_).
  pose proof Hd as Hf.
  apply zcl_frame_decode_facts in Hf as (Hh&Ht&Hfl&Hnorm&Eo&_&_); [|done|lia].
  destruct (zcl_reply_header (header frame) ZCL_COMMAND_READ_ATTRIBUTES_RESPONSE)
    as (Hh'&Hfl'&Hnorm'&Esz); try done.
  set (p := mjoin (reading_bytes <$> rs)) in *.
  destruct (zcl_frame_reply (reply_header (header frame) ZCL_COMMAND_READ_ATTRIBUTES_RESPONSE) p b
    capacity zero_frame) as (body&len&Ee&->&Edec&Esl); try (done || lia).
  rewrite Esz, <- Eo in *. rewrite Hnorm' in Edec.
  exists body, (payload_offset frame + blen p). split.
  { unfold zcl_read_attrs_unicast. rewrite Hset, Hd, Hty, Hcmd, Hside, Hns, Ea. cbn -[zcl_frame_encode].
    by rewrite Ee. }
  replace (payload_offset frame + blen p - payload_offset frame) with (blen p) by lia.
  split; [lia|]. split; [done|]. rewrite Esl. split; [by apply zcl_parse_readings|].
  apply zcl_readings_prefix.
Qed.

(** A failing call keeps both outputs. *)
Lemma zcl_read_attrs_unchanged set q n b capacity info :
  let x := zcl_read_attrs_unicast set q n b capacity info in
  x.1.1 ≠ ZCL_CODEC_OK → x.1.2 = b ∧ x.2 = info.
Proof.
  cbv zeta. unfold zcl_read_attrs_unicast. destruct set as [s|], q as [q|], b as [b|], info; try done.
  destruct (bool_decide _); [done|].
  destruct (zcl_frame_decode _ _ _) as [[] [frame|]]; try done.
  destruct (negb (type (header frame) =? ZCL_FRAME_GLOBAL) || _); [done|].
  destruct (negb (side_matches s (header frame)) || _); [done|].
  destruct (read_answer s q frame capacity) as [|[[[command p] requested] returned]]; [done|].
  pose proof (zcl_frame_encode_error (Some (reply_header (header frame) command)) (Some p) (blen p)
    (Some b) capacity (Some 0)) as He.
  destruct (zcl_frame_encode _ _ _ _ _ _) as [[[] ob] [len|]]; cbn in *; intros Hne;
    first [by destruct Hne | by split; [apply He|]].
Qed.

(** ** Witnesses *)
Definition sample_set : zcl_attribute_set_t := {|
  attributes := Some [
    {| attribute_id := 0; readable := 1; value := Build_zcl_value_t ZCL_TYPE_UINT8 0 (Some [3]) 1 |};
    {| attribute_id := 4; readable := 1;
       value := Build_zcl_value_t ZCL_TYPE_CHARACTER_STRING 0 (Some [76; 71]) 2 |};
    {| attribute_id := 9; readable := 0; value := Build_zcl_value_t 0xff 7 None 9 |}];
  count := 3; side := 0; manufacturer_specific := 0; set_manufacturer := 0 |}.
Definition sample_request : bytes := [0x00; 77; 0x00; 4; 0; 9; 0; 7; 0; 0; 0; 4; 0].
Definition sample_frame : zcl_frame_info_t :=
  Build_zcl_frame_info_t (Build_zcl_header_t 0 0 0 77 0) 0 3 10.
Definition sample_readings : list (Z * reading) :=
  [(4, Value ZCL_TYPE_CHARACTER_STRING [2; 76; 71]); (9, Refused ZCL_STATUS_NOT_AUTHORIZED);
   (7, Refused ZCL_STATUS_UNSUPPORTED_ATTRIBUTE); (0, Value ZCL_TYPE_UINT8 [3])].

Lemma zcl_read_attributes_answered_witness :
  ∃ body length,
    zcl_read_attrs_unicast (Some sample_set) (Some sample_request) 13 (Some (replicate 24 170)) 22
      (Some (Build_zcl_read_info_t 0 0 0 0))
    = (ZCL_CODEC_OK, Some body, Some (Build_zcl_read_info_t length 1 5 4)) ∧
    length <= 22 ∧
    zcl_frame_decode (Some body) length (Some zero_frame)
    = (ZCL_CODEC_OK,
       Some (Build_zcl_frame_info_t (Build_zcl_header_t 0 0x18 0 77 1) 0 3 (length - 3))) ∧
    parse_readings 5 (slice body 3 (length - 3)) = Some sample_readings ∧
    sample_readings.*1 = [4; 9; 7; 0].
Proof.
  exact (zcl_read_attributes_answered sample_set sample_request 13 sample_frame (replicate 24 170) 22
    (Build_zcl_read_info_t 0 0 0 0) ltac:(vm_compute; reflexivity)
    ltac:(repeat constructor; intros; vm_compute; intuition done)
    ltac:(concrete) ltac:(concrete) ltac:(concrete)
    ltac:(repeat split; vm_compute; done) ltac:(concrete)).
Defined.

End ZclAttributes.
