(* ===== verification/ZclWrite.v ===== *)
(** * The Write Attributes commands (src/zcl_write.c, include/zcl_write.h)

    The handler of Write Attributes, Write Attributes Undivided and Write
    Attributes No Response over a checked attribute table with at most one
    writable attribute.  The specification parses the command into records
    first and judges them afterwards. *)
From S2P Require Import Prelude ZclWire ZclAttributes.

Module ZclWrite.
Import Zcl ZclAttributes.

(** ** Constants and data (include/zcl_dispatch.h, include/zcl_write.h) *)
Definition ZCL_COMMAND_WRITE_ATTRIBUTES := 0x02.
Definition ZCL_COMMAND_WRITE_UNDIVIDED := 0x03.
Definition ZCL_COMMAND_WRITE_RESPONSE := 0x04.
Definition ZCL_COMMAND_WRITE_NO_RESPONSE := 0x05.
Definition ZCL_COMMAND_DISCOVER_ATTRIBUTES := 0x0c.
Definition ZCL_COMMAND_DISCOVER_RESPONSE := 0x0d.
Definition ZCL_STATUS_UNSUP_COMMAND := 0x81.
Definition ZCL_STATUS_READ_ONLY := 0x88.
Definition ZCL_STATUS_INVALID_DATA_TYPE := 0x8d.
Definition ZCL_DISPATCH_RESPONSE := 0.
Definition ZCL_DISPATCH_DEFAULT_RECEIVED := 1.
Definition ZCL_DISPATCH_SILENT := 2.

Record zcl_dispatch_info_t := {
  kind : Z;
  d_length : Z;
  d_command : Z;
  d_sequence : Z;
  d_requested : Z;
  d_returned : Z;
  discovery_complete : Z;
  default_command : Z;
  default_status : Z;
  default_raw_status : Z
}.
#[export] Instance zcl_dispatch_info_fields : Fields zcl_dispatch_info_t := λ i,
  Build_zcl_dispatch_info_t (kind i) (d_length i) (d_command i) (d_sequence i) (d_requested i)
    (d_returned i) (discovery_complete i) (default_command i) (default_status i)
    (default_raw_status i).
Definition zero_dispatch : zcl_dispatch_info_t := Build_zcl_dispatch_info_t 0 0 0 0 0 0 0 0 0 0.

(** The one writable attribute: its identifier, and the value last accepted. *)
Record zcl_wr_t := { wr_id : Z; wr_value : Z; written : Z }.

(** ** The loop over the records *)

(** The status and the extent of the value at the head of the payload.  An invalid boolean
    keeps its extent of one octet. *)
Definition extent (ty : Z) (p : bytes) : zcl_codec_result_t * Z :=
  match zcl_value_decode ty (Some p) (blen p) (Some zero_value) with
  | (ZCL_CODEC_OK, Some v) => (ZCL_CODEC_OK, encoded_length v)
  | (rc, _) => if! bool_decide (rc = ZCL_CODEC_INVALID_VALUE) && (ty =? ZCL_TYPE_BOOLEAN)
                 return (ZCL_CODEC_OK, 1) ;;
               (rc, 0)
  end.

(** The status of one record; [inl] leaves the call. *)
Definition judge (s : zcl_attribute_set_t) (edit : option zcl_wr_t) (identifier ty : Z)
    : zcl_codec_result_t + Z :=
  match find_attribute s identifier with
  | None => inr ZCL_STATUS_UNSUPPORTED_ATTRIBUTE
  | Some a =>
      if! negb (value_type (value a) =? ty) return inr ZCL_STATUS_INVALID_DATA_TYPE ;;
      match edit with
      | Some e =>
          if! negb (wr_id e =? identifier) return inr ZCL_STATUS_READ_ONLY ;;
          if! negb (ty =? ZCL_TYPE_UINT16) return inl ZCL_CODEC_INVALID_TABLE ;;
          inr ZCL_STATUS_SUCCESS
      | None => inr ZCL_STATUS_READ_ONLY
      end
  end.

(** The locals of the loop: the status records so far, whether and what a record wrote, the
    number of records and of errors. *)
Record write_state := { body : bytes; wrote : Z; last : Z; records : Z; errors : Z }.
Definition note (st : write_state) (identifier error : Z) (p : bytes) : write_state :=
  if error =? ZCL_STATUS_SUCCESS
  then {| body := body st; wrote := 1; last := read_le16 p 0;
          records := u8 (records st + 1); errors := errors st |}
  else {| body := body st ++ [error; u8 identifier; u8 (Z.shiftr identifier 8)];
          wrote := wrote st; last := last st;
          records := u8 (records st + 1); errors := u8 (errors st + 1) |}.

(** [while (size)]: each turn consumes at least three octets of the payload. *)
Fixpoint write_loop (fuel : nat) (s : zcl_attribute_set_t) (edit : option zcl_wr_t)
    (rc : zcl_codec_result_t) (p : bytes) (st : write_state)
    : zcl_codec_result_t + zcl_codec_result_t * write_state :=
  match fuel with
  | O => inr (rc, st)
  | S fuel =>
      if! blen p =? 0 return inr (rc, st) ;;
      if! blen p <? 3 return inr (ZCL_CODEC_TRUNCATED, st) ;;
      let identifier := read_le16 p 0 in
      let ty := rd p 2 in
      let p := drop 3 p in
      match extent ty p with
      | (ZCL_CODEC_OK, n) =>
          match judge s edit identifier ty with
          | inl status => inl status
          | inr error =>
              write_loop fuel s edit ZCL_CODEC_OK (drop (Z.to_nat n) p) (note st identifier error p)
          end
      | (rc, _) => inr (rc, st)
      end
  end.

(** [edit->written] and [edit->value] after local success. *)
Definition applied (edit : option zcl_wr_t) (wrote last : Z) : option zcl_wr_t :=
  (λ e, {| wr_id := wr_id e; written := wrote;
           wr_value := if wrote =? 0 then wr_value e else last |}) <$> edit.

(** ** The handler.  [response] is the caller's buffer. *)
Definition zcl_wr_handle (s : zcl_attribute_set_t) (frame : zcl_frame_info_t) (payload : bytes)
    (response : option bytes) (capacity : Z) (info : zcl_dispatch_info_t) (edit : option zcl_wr_t)
    : zcl_codec_result_t * option bytes * zcl_dispatch_info_t * option zcl_wr_t :=
  let command := command_id (header frame) in
  let info := info <| d_sequence := sequence (header frame) |> in
  let p := slice payload 0 (payload_length frame) in
  match write_loop (length p) s edit ZCL_CODEC_TRUNCATED p (Build_write_state [] 0 0 0 0) with
  | inl status => (status, response, info, edit)
  | inr (rc, st) =>
      if! bool_decide (rc ≠ ZCL_CODEC_OK) && bool_decide (rc ≠ ZCL_CODEC_TRUNCATED)
        return (rc, response, info, edit) ;;
      if command =? ZCL_COMMAND_WRITE_NO_RESPONSE then
        if! bool_decide (rc ≠ ZCL_CODEC_OK) return (rc, response, info, edit) ;;
        (ZCL_CODEC_OK, response, info <| kind := ZCL_DISPATCH_SILENT |>,
         applied edit (wrote st) (last st))
      else
        let ok := bool_decide (rc = ZCL_CODEC_OK) in
        let '(reply_command, octets, wrote, info) :=
          if ok then
            (ZCL_COMMAND_WRITE_RESPONSE,
             if blen (body st) =? 0 then [ZCL_STATUS_SUCCESS] else body st,
             if negb (blen (body st) =? 0) && (command =? ZCL_COMMAND_WRITE_UNDIVIDED)
             then 0 else wrote st,
             info <| d_requested := records st |>
                  <| d_returned := if blen (body st) =? 0 then 1 else errors st |>)
          else
            (ZCL_COMMAND_DEFAULT_RESPONSE, [command; ZCL_STATUS_MALFORMED_COMMAND], 0,
             info <| default_command := command |>
                  <| default_status := ZCL_STATUS_MALFORMED_COMMAND |>
                  <| default_raw_status := ZCL_STATUS_MALFORMED_COMMAND |>) in
        match zcl_frame_encode (Some (reply_header (header frame) reply_command)) (Some octets)
                (blen octets) response capacity (Some 0) with
        | (ZCL_CODEC_OK, response, Some encoded) =>
            (ZCL_CODEC_OK, response,
             info <| d_length := encoded |> <| d_command := reply_command |>,
             applied edit wrote (last st))
        | (status, response, _) => (status, response, info, edit)
        end
  end.

(** ** The abstract command: a list of records *)
Record write_record := { r_id : Z; r_type : Z; r_octets : bytes }.

(** The octets a value of type [ty] occupies at the head of [p], by its type alone. *)
Definition value_extent (ty : Z) (p : bytes) : option Z :=
  let shape := value_shape ty in
  if shape =? SHAPE_UNSUPPORTED then None
  else if shape_kind shape =? KIND_STRING
  then if blen p =? 0 then None else Some (1 + (if rd p 0 =? 0xff then 0 else rd p 0))
  else Some (shape_width shape).
Definition wire_record (r : write_record) : Prop :=
  is_u16 (r_id r) ∧ is_u8 (r_type r) ∧ is_bytes (r_octets r) ∧
  value_extent (r_type r) (r_octets r) = Some (blen (r_octets r)).
Definition record_bytes (r : write_record) : bytes :=
  [u8 (r_id r); u8 (Z.shiftr (r_id r) 8); r_type r] ++ r_octets r.

(** The extent computed by decoding is that of the type. *)
Lemma zcl_extent ty p :
  is_u8 ty → is_bytes p →
  extent ty p = match value_extent ty p with
                | Some n => if n <=? blen p then (ZCL_CODEC_OK, n) else (ZCL_CODEC_TRUNCATED, 0)
                | None => if zcl_value_type_supported ty then (ZCL_CODEC_TRUNCATED, 0)
                          else (ZCL_CODEC_UNSUPPORTED_DATA_TYPE, 0)
                end.
Proof.
  intros Ht Hp. unfold extent, value_extent, zcl_value_decode, zcl_value_type_supported.
  destruct (Z.eqb_spec (value_shape ty) SHAPE_UNSUPPORTED) as [E|E]; [done|].
  pose proof (zcl_value_shape_facts _ Ht E) as (Hw&Hs0&Hb1&_).
  pose proof (rd_is_u8 p 0 Hp) as Hr. pose proof (blen_nonneg p).
  assert (shape_kind (value_shape ty) = KIND_BOOLEAN → ty = ZCL_TYPE_BOOLEAN) as Hbool.
  { clear -Ht. intros Hk. pose proof (forall_u8 (λ t,
      negb (shape_kind (value_shape t) =? KIND_BOOLEAN) || (t =? ZCL_TYPE_BOOLEAN))
      ltac:(vm_compute; reflexivity) ty Ht) as H. cbv beta in H. lia. }
  destruct (Z.eqb_spec (shape_kind (value_shape ty)) KIND_STRING) as [Ek|Ek]; cbn [negb andb].
  - rewrite Ek. change (KIND_STRING =? KIND_BOOLEAN) with false. cbn [andb].
    destruct (blen p =? 0); [done|].
    rewrite Z.ltb_antisym. destruct (_ <=? blen p); cbn [negb]; [|done].
    cbn [encoded_length]. rewrite u8_id; [done|]. destruct (rd p 0 =? 255) eqn:E255; width.
  - rewrite Z.add_0_l, Z.ltb_antisym. destruct (_ <=? blen p) eqn:El; cbn [negb]; [|done].
    destruct (Z.eqb_spec (shape_kind (value_shape ty)) KIND_BOOLEAN) as [Eb|Eb]; cbn [negb andb].
    + rewrite (Hb1 Eb), (Hbool Eb). destruct (negb (rd p 0 =? 0) && _ && _); done.
    + cbn [encoded_length]. rewrite u8_id by width. done.
Qed.
(** A fixed extent needs no octet, a string's its first. *)
Lemma zcl_value_extent_app ty a b n :
  value_extent ty a = Some n → value_extent ty (a ++ b) = Some n.
Proof.
  unfold value_extent. destruct (value_shape ty =? SHAPE_UNSUPPORTED); [done|].
  destruct (shape_kind (value_shape ty) =? KIND_STRING); [|done].
  destruct (Z.eqb_spec (blen a) 0) as [|E]; [done|].
  pose proof (blen_nonneg a). pose proof (blen_nonneg b).
  rewrite blen_app, rd_app_l by lia. by replace (blen a + blen b =? 0) with false by lia.
Qed.
Lemma zcl_value_extent_take ty p n :
  is_u8 ty → is_bytes p → value_extent ty p = Some n →
  0 <= n ∧ (n <= blen p → value_extent ty (take (Z.to_nat n) p) = Some n).
Proof.
  intros Ht Hp. unfold value_extent.
  destruct (Z.eqb_spec (value_shape ty) SHAPE_UNSUPPORTED) as [E|E]; [done|].
  pose proof (zcl_value_shape_facts _ Ht E) as (Hw&_). pose proof (rd_is_u8 p 0 Hp) as Hr.
  destruct (shape_kind (value_shape ty) =? KIND_STRING); [|intros [= <-]; by split; [lia|]].
  destruct (Z.eqb_spec (blen p) 0) as [|Ep]; [done|]. intros [= <-].
  set (w := if rd p 0 =? 255 then 0 else rd p 0). assert (0 <= w) by (subst w; case_match; width).
  split; [lia|]. intros Hl. rewrite rd_take by lia. fold w. clearbody w.
  unfold blen in *. rewrite length_take.
  destruct (Z.eqb_spec (Z.of_nat (Z.to_nat (1 + w) `min` length p)) 0); [lia|done].
Qed.

(** ** Parsing: every payload is a list of records and a rest that is none *)
Definition stuck (p : bytes) (rc : zcl_codec_result_t) : Prop :=
  0 < blen p ∧
  (blen p < 3 ∧ rc = ZCL_CODEC_TRUNCATED ∨
   3 <= blen p ∧ rc ≠ ZCL_CODEC_OK ∧ (extent (rd p 2) (drop 3 p)).1 = rc).
Lemma zcl_write_parse p :
  is_bytes p → ∃ rs rest, p = mjoin (record_bytes <$> rs) ++ rest ∧ Forall wire_record rs ∧
                          (rest = [] ∨ ∃ rc, stuck rest rc).
Proof.
  remember (length p) as n eqn:Hn. revert p Hn.
  induction n as [n IH] using lt_wf_ind. intros p -> Hp.
  destruct (decide (blen p < 3)).
  { exists [], p. split; [done|]. split; [constructor|]. destruct p; [by left|right].
    exists ZCL_CODEC_TRUNCATED. split; [rewrite blen_cons in *; pose proof (blen_nonneg p); lia|].
    left. done. }
  destruct p as [|low [|high [|ty p]]]; rewrite ?blen_cons, ?blen_nil in *; try lia.
  destruct (extent ty p) as [rc k] eqn:E.
  destruct (decide (rc = ZCL_CODEC_OK)) as [->|Hrc].
  2: { exists [], (low :: high :: ty :: p). split; [done|]. split; [constructor|]. right. exists rc.
       unfold stuck. rewrite !blen_cons. pose proof (blen_nonneg p).
       split; [lia|]. right. split; [lia|]. change (rd _ 2) with ty.
       change (drop 3 _) with p. by rewrite E. }
  do 3 (apply Forall_cons_1 in Hp as [? Hp]). rename select (is_u8 ty) into Hty.
  rewrite zcl_extent in E by done. destruct (value_extent ty p) as [m|] eqn:Ev; [|by case_match].
  destruct (m <=? blen p) eqn:Em; [|done]. simplify_eq E. intros ->.
  destruct (zcl_value_extent_take _ _ _ Hty Hp Ev) as [Hk Htake].
  destruct (IH (length (drop (Z.to_nat k) p))) with (p := drop (Z.to_nat k) p)
    as (rs&rest&Ep&Hrs&Hrest); [cbn; rewrite length_drop; lia|done|by apply Forall_drop|].
  exists ({| r_id := Z.lor low (Z.shiftl high 8); r_type := ty; r_octets := take (Z.to_nat k) p |} :: rs),
    rest. split; [|split; [|done]].
  - change (mjoin (record_bytes <$> ?r :: rs)) with (record_bytes r ++ mjoin (record_bytes <$> rs)).
    rewrite <- app_assoc, <- Ep. unfold record_bytes. cbn [r_id r_type r_octets app].
    destruct (word_octets low high) as (_&->&->); [done..|]. by rewrite take_drop.
  - constructor; [|done]. split; [by apply word_octets|]. split; [done|].
    split; [by apply Forall_take|]. cbn [r_type r_octets]. rewrite Htake by lia. f_equal.
    unfold blen. rewrite length_take. unfold blen in Em. lia.
Qed.

(** ** Judging: the status of each record, apart from the others *)
Definition verdict (s : zcl_attribute_set_t) (edit : option zcl_wr_t) (r : write_record) : Z :=
  match find_attribute s (r_id r) with
  | None => ZCL_STATUS_UNSUPPORTED_ATTRIBUTE
  | Some a =>
      if negb (value_type (value a) =? r_type r) then ZCL_STATUS_INVALID_DATA_TYPE
      else if bool_decide (wr_id <$> edit = Some (r_id r)) then ZCL_STATUS_SUCCESS
      else ZCL_STATUS_READ_ONLY
  end.
Definition accepted (s : zcl_attribute_set_t) (edit : option zcl_wr_t) (rs : list write_record) :=
  filter (λ r, verdict s edit r = ZCL_STATUS_SUCCESS) rs.
Definition failures (s : zcl_attribute_set_t) (edit : option zcl_wr_t) (rs : list write_record) :=
  filter (λ r, verdict s edit r ≠ ZCL_STATUS_SUCCESS) rs.
Definition failure_bytes (s : zcl_attribute_set_t) (edit : option zcl_wr_t) (r : write_record) : bytes :=
  [verdict s edit r; u8 (r_id r); u8 (Z.shiftr (r_id r) 8)].
(** The value the accepted records leave, the last one's; [None] when there is none. *)
Definition outcome_of (rs : list write_record) : option Z := (λ r, le_value (r_octets r)) <$> list.last rs.

(** The writable attribute is declared as a 16-bit unsigned integer. *)
Definition declared (s : zcl_attribute_set_t) (edit : option zcl_wr_t) : Prop :=
  ∀ e a, edit = Some e → find_attribute s (wr_id e) = Some a →
         value_type (value a) = ZCL_TYPE_UINT16.

Lemma zcl_judge s edit r :
  declared s edit → judge s edit (r_id r) (r_type r) = inr (verdict s edit r).
Proof.
  intros Hd. unfold judge, verdict. destruct (find_attribute s (r_id r)) as [a|] eqn:Ha; [|done].
  destruct (Z.eqb_spec (value_type (value a)) (r_type r)) as [Et|]; [|done]. cbn [negb].
  destruct edit as [e|]; [|done]. cbn [fmap option_fmap option_map].
  destruct (Z.eqb_spec (wr_id e) (r_id r)) as [Ei|Ei]; cbn [negb].
  - rewrite bool_decide_eq_true_2 by by f_equal.
    rewrite <- Ei in Ha. rewrite (Hd e a) in Et by done. by rewrite <- Et.
  - by rewrite bool_decide_eq_false_2 by congruence.
Qed.
(** An accepted record is two octets long. *)
Lemma zcl_accepted_octets s edit r :
  declared s edit → wire_record r → verdict s edit r = ZCL_STATUS_SUCCESS →
  blen (r_octets r) = 2.
Proof.
  intros Hd (_&_&_&Hx). unfold verdict.
  destruct (find_attribute s (r_id r)) as [a|] eqn:Ha; [|done].
  destruct (Z.eqb_spec (value_type (value a)) (r_type r)) as [Et|]; [|done]. cbn [negb].
  destruct edit as [e|]; [|done]. cbn [fmap option_fmap option_map].
  case_bool_decide as Ei; [|done]. intros _. simplify_eq. rewrite <- Ei in Ha.
  rewrite (Hd e a) in Et by done. rewrite <- Et in Hx. by injection Hx.
Qed.
Lemma zcl_read_le16_value b tail : blen b = 2 → is_bytes b → read_le16 (b ++ tail) 0 = le_value b.
Proof.
  intros Hl Hb. destruct b as [|x [|y [|z b]]]; rewrite ?blen_cons, ?blen_nil in Hl; try lia;
    [|pose proof (blen_nonneg b); lia].
  do 2 (apply Forall_cons_1 in Hb as [? Hb]). unfold read_le16. simpl.
  change (rd (x :: y :: tail) 0) with x. change (rd (x :: y :: tail) (0 + 1)) with y.
  rewrite lor_shift8 by width. lia.
Qed.

(** The state after the records [rs], from any earlier one. *)
Definition after_records (s : zcl_attribute_set_t) (edit : option zcl_wr_t) (rs : list write_record)
    (st : write_state) : write_state := {|
  body := body st ++ mjoin (failure_bytes s edit <$> failures s edit rs);
  wrote := match outcome_of (accepted s edit rs) with Some _ => 1 | None => wrote st end;
  last := default (last st) (outcome_of (accepted s edit rs));
  records := u8 (records st + Z.of_nat (length rs));
  errors := u8 (errors st + Z.of_nat (length (failures s edit rs))) |}.

Lemma zcl_after_record s edit r rs st tail :
  declared s edit → wire_record r → is_u8 (records st) → is_u8 (errors st) →
  after_records s edit rs (note st (r_id r) (verdict s edit r) (r_octets r ++ tail))
  = after_records s edit (r :: rs) st.
Proof.
  intros Hd Hr Hrec Herr. unfold note, after_records, accepted, failures. rewrite !filter_cons.
  destruct (Z.eqb_spec (verdict s edit r) ZCL_STATUS_SUCCESS) as [E|E];
    rewrite ?(decide_True (P := verdict s edit r = _)), ?(decide_False (P := verdict s edit r = _)),
      ?(decide_True (P := verdict s edit r ≠ _)), ?(decide_False (P := verdict s edit r ≠ _)) by tauto;
    cbn [body wrote last records errors length].
  - rewrite zcl_read_le16_value by (eapply zcl_accepted_octets || apply Hr; done).
    unfold outcome_of. rewrite last_cons.
    f_equal; try (by destruct (list.last _)); width.
  - rewrite fmap_cons. change (mjoin (?x :: ?l)) with (x ++ mjoin l). rewrite <- app_assoc.
    f_equal; width.
Qed.

Lemma zcl_note_typed st i e p :
  is_u8 (records st) → is_u8 (errors st) →
  is_u8 (records (note st i e p)) ∧ is_u8 (errors (note st i e p)).
Proof. intros. unfold note. case_match; split; try apply u8_range; done. Qed.

Lemma zcl_records_bytes rs : Forall wire_record rs → is_bytes (mjoin (record_bytes <$> rs)).
Proof.
  induction 1 as [|r rs (Hi&Ht&Ho&_) Hrs IH]; [constructor|].
  change (mjoin (record_bytes <$> r :: rs)) with (record_bytes r ++ mjoin (record_bytes <$> rs)).
  apply is_bytes_app. split; [|done]. unfold record_bytes. apply is_bytes_app. split; [|done].
  do 2 (apply Forall_cons_2; [apply u8_range|]). by apply Forall_cons_2; [|constructor].
Qed.

(** The loop over a list of records followed by nothing, or by something that is no record. *)
Definition loop_end (rest : bytes) (rc rc' : zcl_codec_result_t) : Prop :=
  rest = [] ∧ rc' = rc ∨ stuck rest rc'.
Lemma zcl_write_loop s edit rs rest : declared s edit → Forall wire_record rs → is_bytes rest →
  ∀ fuel rc rc' st, is_u8 (records st) → is_u8 (errors st) →
  (length (mjoin (record_bytes <$> rs) ++ rest) <= fuel)%nat →
  loop_end rest (if bool_decide (rs = []) then rc else ZCL_CODEC_OK) rc' →
  write_loop fuel s edit rc (mjoin (record_bytes <$> rs) ++ rest) st
  = inr (rc', after_records s edit rs st).
Proof.
  intros Hd Hrs Hrest. induction Hrs as [|r rs Hr Hrs IH]; intros fuel rc rc' st H1 H2 Hf Hend.
  - assert (after_records s edit [] st = st) as ->.
    { unfold after_records. cbn. rewrite app_nil_r, !Z.add_0_r, !u8_id by done. by destruct st. }
    cbn in *. destruct Hend as [[-> ->]|[Hl Hend]]; [by destruct fuel|].
    destruct fuel as [|fuel]; [unfold blen in Hl; lia|]. cbn [write_loop].
    replace (blen rest =? 0) with false by lia.
    destruct Hend as [[Hl' ->]|(Hl'&Hrc&He)].
    { by replace (blen rest <? 3) with true by lia. }
    replace (blen rest <? 3) with false by lia.
    destruct (extent (rd rest 2) (drop 3 rest)) as [rc1 n]. cbn [fst] in He. subst rc1.
    by destruct rc'.
  - change (mjoin (record_bytes <$> r :: rs)) with (record_bytes r ++ mjoin (record_bytes <$> rs)) in *.
    rewrite <- app_assoc in *. set (tail := mjoin (record_bytes <$> rs) ++ rest) in *.
    destruct fuel as [|fuel]; [cbn in Hf; lia|]. destruct Hr as (Hi&Ht&Ho&Hx).
    unfold record_bytes in *. cbn [app] in *. cbn [write_loop].
    rewrite !blen_cons. pose proof (blen_nonneg (r_octets r ++ tail)).
    replace (_ =? 0) with false by lia. replace (_ <? 3) with false by lia.
    change (rd _ 2) with (r_type r). change (drop 3 _) with (r_octets r ++ tail).
    rewrite (read_le16_bytes _ _ (r_id r)) by done.
    assert (is_bytes tail) as Htail by (apply is_bytes_app; by split; [apply zcl_records_bytes|]).
    rewrite zcl_extent, (zcl_value_extent_app _ _ _ _ Hx) by (done || by apply is_bytes_app).
    rewrite blen_app. pose proof (blen_nonneg tail). replace (_ <=? _) with true by lia.
    rewrite zcl_judge by done. unfold blen. rewrite Nat2Z.id, drop_app_length.
    destruct (zcl_note_typed st (r_id r) (verdict s edit r) (r_octets r ++ tail)) as [H1' H2']; try done.
    rewrite (IH _ _ rc'); try done.
    + by rewrite zcl_after_record.
    + cbn [length] in Hf. rewrite length_app in Hf. lia.
    + rewrite bool_decide_eq_false_2 in Hend by done. by destruct (bool_decide (rs = [])).
Qed.

(** ** The command as a whole *)
Definition decoded_header (h : zcl_header_t) : Prop :=
  header_typed h ∧ type h <= 1 ∧ has (flags h) (u8 (Z.lnot 0x1c)) = false ∧ normalise h = h.
Definition write_command (c : Z) : Prop :=
  c = ZCL_COMMAND_WRITE_ATTRIBUTES ∨ c = ZCL_COMMAND_WRITE_UNDIVIDED ∨
  c = ZCL_COMMAND_WRITE_NO_RESPONSE.

(** The status records of the failures, or one success. *)
Definition write_statuses (s : zcl_attribute_set_t) (edit : option zcl_wr_t) (rs : list write_record)
    : bytes :=
  match failures s edit rs with
  | [] => [ZCL_STATUS_SUCCESS]
  | bad => mjoin (failure_bytes s edit <$> bad)
  end.
(** What the command leaves: the last accepted value, none under Undivided if any record failed. *)
Definition left_by (s : zcl_attribute_set_t) (edit : option zcl_wr_t) (command : Z)
    (rs : list write_record) : option Z :=
  if bool_decide (failures s edit rs = []) || negb (command =? ZCL_COMMAND_WRITE_UNDIVIDED)
  then outcome_of (accepted s edit rs) else None.
Definition settled (edit : option zcl_wr_t) (v : option Z) : option zcl_wr_t :=
  (λ e, {| wr_id := wr_id e; wr_value := default (wr_value e) v;
           written := if v then 1 else 0 |}) <$> edit.

Lemma zcl_failures_size s edit rs :
  Forall wire_record rs →
  3 * Z.of_nat (length (failures s edit rs)) <= blen (mjoin (record_bytes <$> rs)) ∧
  blen (mjoin (failure_bytes s edit <$> failures s edit rs)) = 3 * Z.of_nat (length (failures s edit rs)).
Proof.
  intros Hrs. split.
  - unfold failures. induction Hrs as [|r rs Hr Hrs IH]; [done|].
    change (mjoin (record_bytes <$> r :: rs)) with (record_bytes r ++ mjoin (record_bytes <$> rs)).
    rewrite blen_app, filter_cons. unfold record_bytes at 1. rewrite blen_app.
    pose proof (blen_nonneg (r_octets r)). change (blen [_; _; _]) with 3.
    case_decide; cbn [length]; lia.
  - induction (failures s edit rs) as [|r l IH]; [done|].
    change (mjoin (failure_bytes s edit <$> r :: l))
      with (failure_bytes s edit r ++ mjoin (failure_bytes s edit <$> l)).
    rewrite blen_app, IH. change (blen (failure_bytes s edit r)) with 3. cbn [length]. lia.
Qed.
Lemma zcl_write_statuses s edit rs :
  Forall wire_record rs → rs ≠ [] → 0 < blen (write_statuses s edit rs) <= blen (mjoin (record_bytes <$> rs)).
Proof.
  intros Hrs Hne. pose proof (zcl_failures_size s edit rs Hrs) as [H1 H2]. unfold write_statuses.
  destruct (failures s edit rs) as [|r l]; [|cbv beta iota; rewrite H2; cbn [length] in *; lia].
  destruct Hrs as [|r rs]; [done|].
  change (mjoin (record_bytes <$> r :: rs)) with (record_bytes r ++ mjoin (record_bytes <$> rs)).
  rewrite blen_app. unfold record_bytes at 1. rewrite blen_app. change (blen [_; _; _]) with 3.
  change (blen [_]) with 1.
  pose proof (blen_nonneg (r_octets r)). pose proof (blen_nonneg (mjoin (record_bytes <$> rs))). lia.
Qed.

(** The locals of the handler after the loop, from their initial values. *)
Definition start_state : write_state := Build_write_state [] 0 0 0 0.
Lemma zcl_after_start s edit rs :
  Forall wire_record rs →
  let st := after_records s edit rs start_state in
  (blen (body st) =? 0) = bool_decide (failures s edit rs = []) ∧
  (if blen (body st) =? 0 then [ZCL_STATUS_SUCCESS] else body st) = write_statuses s edit rs ∧
  applied edit (wrote st) (last st) = settled edit (outcome_of (accepted s edit rs)).
Proof.
  intros Hrs. pose proof (zcl_failures_size s edit rs Hrs) as [_ H2].
  cbn [after_records start_state body wrote last app] in *. rewrite H2.
  assert ((3 * Z.of_nat (length (failures s edit rs)) =? 0) = bool_decide (failures s edit rs = [])) as E.
  { destruct (failures s edit rs); [done|]. rewrite bool_decide_eq_false_2 by done.
    apply Z.eqb_neq. cbn [length]. lia. }
  rewrite E. split; [done|]. split.
  - unfold write_statuses. by destruct (failures s edit rs).
  - unfold applied, settled. destruct edit as [e|]; [|done]. cbn [fmap option_fmap option_map].
    by destruct (outcome_of _).
Qed.

Lemma zcl_write_loop_records s frame payload rs edit :
  declared s edit → Forall wire_record rs → rs ≠ [] →
  slice payload 0 (payload_length frame) = mjoin (record_bytes <$> rs) →
  let st := after_records s edit rs start_state in
  write_loop (length (slice payload 0 (payload_length frame))) s edit ZCL_CODEC_TRUNCATED
    (slice payload 0 (payload_length frame)) start_state = inr (ZCL_CODEC_OK, st).
Proof.
  intros Hd Hrs Hne -> st. rewrite <- (app_nil_r (mjoin _)) at 2.
  apply zcl_write_loop; try done; [constructor|by rewrite app_nil_r|].
  left. by rewrite bool_decide_eq_false_2.
Qed.

(** C27: a write command is carried out as if it were parsed first and each record then judged on
    its own.  The response lists exactly the records that failed, in order, or is the one
    success; No Response never answers.  The writable attribute takes the value of the last
    accepted record, but under Undivided nothing if any record failed; and nothing either if the
    response does not fit, which leaves the caller's buffer as it was. *)
Theorem zcl_write_judged s frame payload rs b capacity edit :
  declared s edit → decoded_header (header frame) → write_command (command_id (header frame)) →
  Forall wire_record rs → rs ≠ [] →
  slice payload 0 (payload_length frame) = mjoin (record_bytes <$> rs) →
  header_size (flags (header frame)) + blen (mjoin (record_bytes <$> rs)) <= ZCL_FRAME_MAX_BODY →
  capacity <= blen b →
  let command := command_id (header frame) in
  let offset := header_size (flags (header frame)) in
  let statuses := write_statuses s edit rs in
  let '(rc, response, info, edit') :=
    zcl_wr_handle s frame payload (Some b) capacity zero_dispatch edit in
  if command =? ZCL_COMMAND_WRITE_NO_RESPONSE then
    rc = ZCL_CODEC_OK ∧ response = Some b ∧ kind info = ZCL_DISPATCH_SILENT ∧
    edit' = settled edit (left_by s edit command rs)
  else if offset + blen statuses <=? capacity then
    rc = ZCL_CODEC_OK ∧ edit' = settled edit (left_by s edit command rs) ∧
    kind info = ZCL_DISPATCH_RESPONSE ∧ d_requested info = u8 (Z.of_nat (length rs)) ∧
    d_length info = offset + blen statuses ∧
    ∃ body, response = Some body ∧
      zcl_frame_decode (Some body) (d_length info) (Some zero_frame)
      = (ZCL_CODEC_OK,
         Some {| header := reply_header (header frame) ZCL_COMMAND_WRITE_RESPONSE;
                 ignored_control_bits := 0; payload_offset := offset;
                 payload_length := blen statuses |}) ∧
      slice body offset (blen statuses) = statuses
  else rc = ZCL_CODEC_BUFFER_TOO_SMALL ∧ response = Some b ∧ edit' = edit.
Proof.
  intros Hd (Hh&Hty&Hfl&Hnorm) Hcmd Hrs Hne Hp Hsz Hcap command offset statuses.
  unfold zcl_wr_handle. fold start_state.
  rewrite (zcl_write_loop_records s frame payload rs edit) by done.
  destruct (zcl_after_start s edit rs Hrs) as (E1&E2&E3).
  pose proof (zcl_write_statuses s edit rs Hrs Hne) as Hst. fold statuses in Hst, E2.
  set (st := after_records s edit rs start_state) in *. fold command. cbn [bool_decide].
  rewrite !(bool_decide_eq_false_2 (ZCL_CODEC_OK ≠ ZCL_CODEC_OK)) by (intros []; done).
  rewrite (bool_decide_eq_true_2 (ZCL_CODEC_OK = ZCL_CODEC_OK)) by done. cbn [andb].
  assert (applied edit (if negb (blen (body st) =? 0) && (command =? ZCL_COMMAND_WRITE_UNDIVIDED)
      then 0 else wrote st) (last st) = settled edit (left_by s edit command rs)) as E4.
  { unfold left_by. rewrite E1. destruct (bool_decide _); [done|]. cbn [negb andb orb].
    destruct (command =? _); [|done]. by destruct edit. }
  destruct (Z.eqb_spec command ZCL_COMMAND_WRITE_NO_RESPONSE) as [Ec|Ec].
  { rewrite <- E4, Ec, andb_false_r. done. }
  rewrite E2. destruct (zcl_reply_header (header frame) ZCL_COMMAND_WRITE_RESPONSE)
    as (Hh'&Hfl'&Hnorm'&Esz); try done.
  destruct (offset + blen statuses <=? capacity) eqn:Efit.
  - unfold ZCL_FRAME_MAX_BODY in Hsz. fold offset in Hsz, Esz.
    destruct (zcl_frame_reply (reply_header (header frame) ZCL_COMMAND_WRITE_RESPONSE) statuses b
      capacity zero_frame) as (out&len&Ee&->&Edec&Esl); try (done || (rewrite Esz; lia)).
    rewrite Ee, E4. rewrite Esz, Hnorm' in *. cbn -[after_records Z.add]. eauto 10.
  - unfold ZCL_FRAME_MAX_BODY in Hsz. fold offset in Hsz, Esz.
    by rewrite zcl_frame_reply_small by (done || (rewrite Esz; lia)).
Qed.

(** The loop on any payload whatever. *)
Lemma zcl_write_loop_any s edit p :
  declared s edit → is_bytes p →
  ∃ rs rc, Forall wire_record rs ∧
    write_loop (length p) s edit ZCL_CODEC_TRUNCATED p start_state
    = inr (rc, after_records s edit rs start_state) ∧
    (rc = ZCL_CODEC_OK → rs ≠ [] ∧ p = mjoin (record_bytes <$> rs)).
Proof.
  intros Hd Hp. destruct (zcl_write_parse p Hp) as (rs&rest&Ep&Hrs&Hrest).
  assert (is_bytes rest) as Hb by (rewrite Ep in Hp; by apply is_bytes_app in Hp as [_ ?]).
  destruct Hrest as [->|[rc Hst]].
  - exists rs, (if bool_decide (rs = []) then ZCL_CODEC_TRUNCATED else ZCL_CODEC_OK).
    split; [done|]. rewrite Ep. split; [|rewrite app_nil_r; by case_bool_decide].
    apply zcl_write_loop; try done. by left.
  - exists rs, rc. split; [done|]. rewrite Ep. split; [apply zcl_write_loop; try done; by right|].
    intros ->. destruct Hst as (_&[[_ ?]|(_&?&_)]); done.
Qed.
Lemma zcl_accepted_last s e rs r :
  declared s (Some e) → Forall wire_record rs → list.last (accepted s (Some e) rs) = Some r →
  r ∈ rs ∧ r_id r = wr_id e ∧ r_type r = ZCL_TYPE_UINT16.
Proof.
  intros Hd Hrs Hl. apply list.last_Some_elem_of in Hl. apply list_elem_of_filter in Hl as [Hv Hin].
  split; [done|]. revert Hv. unfold verdict.
  destruct (find_attribute s (r_id r)) as [a|] eqn:Ha; [|done].
  destruct (Z.eqb_spec (value_type (value a)) (r_type r)) as [Et|]; [|done]. cbn [negb].
  case_bool_decide as Ei; [|done]. intros _. simplify_eq/=. rewrite <- Ei in Ha.
  split; [done|]. by rewrite <- Et, (Hd e a).
Qed.

Lemma zcl_wr_handle_stores s frame payload b capacity e rc response info e' rc' st :
  write_loop (length (slice payload 0 (payload_length frame))) s (Some e) ZCL_CODEC_TRUNCATED
    (slice payload 0 (payload_length frame)) start_state = inr (rc', st) →
  zcl_wr_handle s frame payload (Some b) capacity zero_dispatch (Some e)
    = (rc, response, info, Some e') →
  written e = 0 → written e' ≠ 0 →
  rc = ZCL_CODEC_OK ∧ rc' = ZCL_CODEC_OK ∧ applied (Some e) (wrote st) (last st) = Some e' ∧
  (command_id (header frame) = ZCL_COMMAND_WRITE_UNDIVIDED → blen (body st) = 0).
Proof.
  intros Hloop H H0 H1. revert H. unfold zcl_wr_handle. fold start_state. rewrite Hloop.
  destruct (decide (rc' = ZCL_CODEC_OK)) as [->|Hrc].
  2: { rewrite (bool_decide_eq_true_2 (rc' ≠ ZCL_CODEC_OK)) by done.
       rewrite (bool_decide_eq_false_2 (rc' = ZCL_CODEC_OK)) by done.
       repeat case_match; intros; simplify_eq/=; done. }
  rewrite !(bool_decide_eq_false_2 (ZCL_CODEC_OK ≠ ZCL_CODEC_OK)) by (intros []; done).
  rewrite (bool_decide_eq_true_2 (ZCL_CODEC_OK = ZCL_CODEC_OK)) by done. cbn [andb].
  destruct (Z.eqb_spec (command_id (header frame)) ZCL_COMMAND_WRITE_NO_RESPONSE) as [Ec|Ec].
  { intros H. simplify_eq. split_and!; try done. by rewrite Ec. }
  destruct (zcl_frame_encode _ _ _ _ _ _) as [[st' ob] ol].
  destruct st'; try (intros; by simplify_eq). destruct ol; [|intros; by simplify_eq].
  destruct (Z.eqb_spec (blen (body st)) 0) as [Eb|Eb]; cbn [negb andb];
    [intros H; simplify_eq; rewrite Eb; by split_and!|].
  destruct (Z.eqb_spec (command_id (header frame)) ZCL_COMMAND_WRITE_UNDIVIDED) as [Eu|Eu];
    intros H; simplify_eq/=; by split_and!.
Qed.

(** C28: whatever the octets of a write command, a value is stored only by a command that parses to
    its last octet, on success, and it is the last one that a record of the command gives for
    the writable attribute, as a 16-bit integer; under Undivided every record then had to be
    accepted.  A malformed or unsupported command, or one whose answer does not fit, stores
    nothing. *)
Theorem zcl_write_applied_sound s frame payload b capacity e rc response info e' :
  declared s (Some e) → is_bytes payload →
  zcl_wr_handle s frame payload (Some b) capacity zero_dispatch (Some e)
    = (rc, response, info, Some e') →
  written e = 0 → written e' ≠ 0 →
  rc = ZCL_CODEC_OK ∧
  ∃ rs r, Forall wire_record rs ∧
    slice payload 0 (payload_length frame) = mjoin (record_bytes <$> rs) ∧
    list.last (accepted s (Some e) rs) = Some r ∧
    wr_value e' = le_value (r_octets r) ∧ wr_id e' = r_id r ∧ r_type r = ZCL_TYPE_UINT16 ∧
    (command_id (header frame) = ZCL_COMMAND_WRITE_UNDIVIDED → failures s (Some e) rs = []).
Proof.
  intros Hd Hp H H0 H1.
  destruct (zcl_write_loop_any s (Some e) (slice payload 0 (payload_length frame)))
    as (rs&rc'&Hrs&Hloop&Hok); [done|by apply is_bytes_slice|].
  destruct (zcl_after_start s (Some e) rs Hrs) as (E1&_&E3).
  destruct (zcl_wr_handle_stores _ _ _ _ _ _ _ _ _ _ _ _ Hloop H H0 H1) as (->&->&He&Hu).
  split; [done|]. rewrite E3 in He. unfold settled, outcome_of in He. cbn in He.
  injection He as <-. destruct (list.last (accepted s (Some e) rs)) as [r|] eqn:El; [|done].
  destruct (zcl_accepted_last s e rs r) as (_&Eid&Ety); [done..|].
  exists rs, r. split; [done|]. split; [by apply Hok|]. do 4 (split; [done|]).
  intros Hc. apply (bool_decide_eq_true_1 (failures s (Some e) rs = [])).
  rewrite <- E1, (Hu Hc). done.
Qed.

(** ** Witnesses *)
Definition sample_set : zcl_attribute_set_t := {|
  attributes := Some [
    {| attribute_id := 0; readable := 1; value := Build_zcl_value_t ZCL_TYPE_UINT16 0 (Some [0; 0]) 2 |};
    {| attribute_id := 0xfffd; readable := 1;
       value := Build_zcl_value_t ZCL_TYPE_UINT16 0 (Some [2; 0]) 2 |}];
  count := 2; side := 0; manufacturer_specific := 0; set_manufacturer := 0 |}.
Definition sample_edit : zcl_wr_t := {| wr_id := 0; wr_value := 9; written := 0 |}.
Definition sample_records : list write_record := [
  {| r_id := 0; r_type := ZCL_TYPE_UINT16; r_octets := [60; 1] |};
  {| r_id := 0xfffd; r_type := ZCL_TYPE_UINT16; r_octets := [3; 0] |};
  {| r_id := 7; r_type := ZCL_TYPE_BOOLEAN; r_octets := [5] |}].
Definition sample_payload : bytes := mjoin (record_bytes <$> sample_records).
Definition sample_write (command : Z) : zcl_frame_info_t := {|
  header := Build_zcl_header_t 0 0 0 33 command; ignored_control_bits := 0;
  payload_offset := 3; payload_length := 14 |}.

Lemma zcl_sample_declared : declared sample_set (Some sample_edit).
Proof. intros e a [= <-] [= <-]. done. Qed.
Lemma zcl_sample_records : Forall wire_record sample_records.
Proof. repeat (constructor; [concrete|]). constructor. Qed.

Lemma zcl_write_judged_witness :
  ∃ info body,
    zcl_wr_handle sample_set (sample_write ZCL_COMMAND_WRITE_ATTRIBUTES) sample_payload
      (Some (replicate 12 170)) 12 zero_dispatch (Some sample_edit)
    = (ZCL_CODEC_OK, Some body, info, Some {| wr_id := 0; wr_value := 316; written := 1 |}) ∧
    slice body 3 6 = [ZCL_STATUS_READ_ONLY; 0xfd; 0xff; ZCL_STATUS_UNSUPPORTED_ATTRIBUTE; 7; 0].
Proof.
  pose proof (zcl_write_judged sample_set (sample_write ZCL_COMMAND_WRITE_ATTRIBUTES) sample_payload
    sample_records (replicate 12 170) 12 (Some sample_edit) zcl_sample_declared ltac:(concrete)
    ltac:(left; reflexivity) zcl_sample_records ltac:(done) ltac:(vm_compute; reflexivity)
    ltac:(concrete) ltac:(concrete)) as H.
  destruct (zcl_wr_handle _ _ _ _ _ _ _) as [[[rc response] info] edit'].
  destruct H as (->&->&_&_&_&body&->&_&Hb). exists info, body. by split.
Defined.

Lemma zcl_write_applied_sound_witness :
  ZCL_CODEC_OK = ZCL_CODEC_OK ∧
  ∃ rs r, Forall wire_record rs ∧
    slice (record_bytes (Build_write_record 0 ZCL_TYPE_UINT16 [60; 1])) 0 5
      = mjoin (record_bytes <$> rs) ∧
    list.last (accepted sample_set (Some sample_edit) rs) = Some r ∧
    316 = le_value (r_octets r) ∧ 0 = r_id r ∧ r_type r = ZCL_TYPE_UINT16 ∧
    (ZCL_COMMAND_WRITE_UNDIVIDED = ZCL_COMMAND_WRITE_UNDIVIDED →
     failures sample_set (Some sample_edit) rs = []).
Proof.
  eapply (zcl_write_applied_sound sample_set
    {| header := Build_zcl_header_t 0 0 0 33 ZCL_COMMAND_WRITE_UNDIVIDED; ignored_control_bits := 0;
       payload_offset := 3; payload_length := 5 |}
    (record_bytes (Build_write_record 0 ZCL_TYPE_UINT16 [60; 1])) (replicate 12 170) 12 sample_edit
    _ _ _ {| wr_id := 0; wr_value := 316; written := 1 |} zcl_sample_declared);
    [concrete|vm_compute; reflexivity|done|done].
Defined.

End ZclWrite.
