(* ===== verification/ZclDispatch.v ===== *)
(** * Dispatch of the global ZCL commands (src/zcl_dispatch.c, include/zcl_dispatch.h)

    One unicast request for one selected cluster side: Read, Discover, the
    write commands, a received Default Response, and the default response to
    everything else. *)
From stdpp Require Import sets sorting.
From S2P Require Import Prelude ZclWire ZclAttributes ZclWrite.

Module ZclDispatch.
Import Zcl ZclAttributes ZclWrite.

Definition normalized_status (status : Z) : Z :=
  if! (0x82 <=? status) && (status <=? 0x84) return ZCL_STATUS_UNSUP_COMMAND ;;
  if! (status =? 0x8a) || (status =? 0xc4) return ZCL_STATUS_SUCCESS ;;
  if! status =? 0x8f return ZCL_STATUS_NOT_AUTHORIZED ;;
  if! (status =? 0x90) || (status =? 0x91) || (status =? 0x93) || (status =? 0xc0)
      || (status =? 0xc1)
    return 0x01 ;;
  status.

(** ** Discover Attributes *)

(** The entry of the least identifier from [start] on. *)
Definition next_attribute (s : zcl_attribute_set_t) (start : Z) : option zcl_attribute_t :=
  foldl (λ chosen current,
           if (start <=? attribute_id current)
              && match chosen with
                 | None => true
                 | Some c => attribute_id current <? attribute_id c
                 end
           then Some current else chosen) None (entries s).

(** The loop: the completeness octet, the records, their number.  Each turn passes one entry, so
    that [count + 1] turns reach a break. *)
Fixpoint discover_loop (fuel : nat) (s : zcl_attribute_set_t) (limit start budget count : Z)
    (records : bytes) : zcl_codec_result_t + Z * bytes * Z :=
  match fuel with
  | O => inr (1, records, count)
  | S fuel =>
      match next_attribute s start with
      | None => inr (1, records, count)
      | Some a =>
          if (count =? limit) || (budget <? 3) then
            if! (count =? 0) && negb (limit =? 0) return inl ZCL_CODEC_BUFFER_TOO_SMALL ;;
            inr (0, records, count)
          else
            if! negb (zcl_value_type_supported (value_type (value a)))
              return inl ZCL_CODEC_UNSUPPORTED_DATA_TYPE ;;
            let start := attribute_id a in
            let records := records ++ [u8 start; u8 (Z.shiftr start 8); value_type (value a)] in
            if! start =? 0xffff return inr (1, records, u8 (count + 1)) ;;
            discover_loop fuel s limit (u16 (start + 1)) (u8 (budget - 3)) (u8 (count + 1)) records
      end
  end.

(** [payload] is the request's payload, [reply] the response's header but for its command. *)
Definition discover (s : zcl_attribute_set_t) (payload : bytes) (reply : Z → zcl_header_t)
    (response : option bytes) (capacity : Z) (info : zcl_dispatch_info_t)
    : zcl_codec_result_t * option bytes * zcl_dispatch_info_t :=
  let limit := rd payload 2 in
  let info := info <| d_requested := limit |> in
  let size := header_size (flags (reply ZCL_COMMAND_DISCOVER_RESPONSE)) in
  let budget := budget capacity in
  if! budget <? size + 1 return (ZCL_CODEC_BUFFER_TOO_SMALL, response, info) ;;
  match discover_loop (S (length (entries s))) s limit (read_le16 payload 0)
          (u8 (budget - (size + 1))) 0 [] with
  | inl status => (status, response, info)
  | inr (complete, records, count) =>
      match zcl_frame_encode (Some (reply ZCL_COMMAND_DISCOVER_RESPONSE)) (Some (complete :: records))
              (blen (complete :: records)) response capacity (Some (d_length info)) with
      | (ZCL_CODEC_OK, response, Some length) =>
          (ZCL_CODEC_OK, response,
           info <| d_length := length |> <| discovery_complete := complete |>
                <| d_returned := count |> <| d_command := ZCL_COMMAND_DISCOVER_RESPONSE |>)
      | (status, response, _) => (status, response, info)
      end
  end.

(** ** The branches of the dispatcher *)

(** A result stored by the caller's frame: [publish] stores the candidate. *)
Definition publish (x : zcl_codec_result_t * option bytes * zcl_dispatch_info_t)
    (response : option bytes) (info : option zcl_dispatch_info_t)
    : zcl_codec_result_t * option bytes * option zcl_dispatch_info_t :=
  match x with
  | (ZCL_CODEC_OK, response, candidate) => (ZCL_CODEC_OK, response, Some candidate)
  | (status, response, _) => (status, response, info)
  end.

(** A received Default Response is reported, never answered. *)
Definition default_received (s : zcl_attribute_set_t) (frame : zcl_frame_info_t) (payload : bytes)
    (response : option bytes) (candidate : zcl_dispatch_info_t)
    : zcl_codec_result_t * option bytes * zcl_dispatch_info_t :=
  if! negb (namespace_matches s (header frame))
    return (ZCL_CODEC_UNSUPPORTED_CONTEXT, response, candidate) ;;
  if! payload_length frame <? 2 return (ZCL_CODEC_TRUNCATED, response, candidate) ;;
  if! negb (manufacturer_specific s =? 0) && negb (payload_length frame =? 2)
    return (ZCL_CODEC_UNSUPPORTED_LAYOUT, response, candidate) ;;
  (ZCL_CODEC_OK, response,
   candidate <| kind := ZCL_DISPATCH_DEFAULT_RECEIVED |>
     <| d_command := ZCL_COMMAND_DEFAULT_RESPONSE |> <| default_command := rd payload 0 |>
     <| default_raw_status := rd payload 1 |>
     <| default_status := normalized_status (rd payload 1) |>).

(** The default response to the command of the request. *)
Definition default_reply (reply : Z → zcl_header_t) (command status : Z) (response : option bytes)
    (capacity : Z) (candidate : zcl_dispatch_info_t)
    : zcl_codec_result_t * option bytes * zcl_dispatch_info_t :=
  match zcl_frame_encode (Some (reply ZCL_COMMAND_DEFAULT_RESPONSE)) (Some [command; status]) 2
          response capacity (Some (d_length candidate)) with
  | (ZCL_CODEC_OK, response, Some length) =>
      (ZCL_CODEC_OK, response,
       candidate <| d_length := length |> <| d_command := ZCL_COMMAND_DEFAULT_RESPONSE |>
         <| default_command := command |> <| default_status := status |>
         <| default_raw_status := status |>)
  | (status, response, _) => (status, response, candidate)
  end.

(** The information of a read, as the dispatcher's. *)
Definition read_published (read : zcl_read_info_t) (candidate : zcl_dispatch_info_t)
    : zcl_dispatch_info_t :=
  let c := candidate <| d_command := read_command read |> <| d_length := read_length read |>
             <| d_requested := requested_count read |> <| d_returned := returned_count read |> in
  if read_command read =? ZCL_COMMAND_DEFAULT_RESPONSE
  then c <| default_command := ZCL_COMMAND_READ_ATTRIBUTES |>
         <| default_status := ZCL_STATUS_MALFORMED_COMMAND |>
         <| default_raw_status := ZCL_STATUS_MALFORMED_COMMAND |>
  else c.

Definition is_write (c : Z) : bool :=
  (c =? ZCL_COMMAND_WRITE_ATTRIBUTES) || (c =? ZCL_COMMAND_WRITE_UNDIVIDED)
  || (c =? ZCL_COMMAND_WRITE_NO_RESPONSE).

Definition zero_read : zcl_read_info_t := Build_zcl_read_info_t 0 0 0 0.
Definition global_reply (h : zcl_header_t) (command : Z) : zcl_header_t :=
  let r := reply_header h command in
  {| type := ZCL_FRAME_GLOBAL; flags := flags r; manufacturer_code := manufacturer_code r;
     sequence := sequence r; command_id := command_id r |}.

(** After the decoder and the check of the side. *)
Definition dispatch_frame (s : zcl_attribute_set_t) (request : bytes) (request_length : Z)
    (frame : zcl_frame_info_t) (response : option bytes) (capacity : Z)
    : zcl_codec_result_t * option bytes * zcl_dispatch_info_t :=
  let h := header frame in
  let global := type h =? ZCL_FRAME_GLOBAL in
  let payload := drop (Z.to_nat (payload_offset frame)) request in
  let candidate := zero_dispatch <| d_sequence := sequence h |> in
  if! global && (command_id h =? ZCL_COMMAND_DEFAULT_RESPONSE)
    return default_received s frame payload response candidate ;;
  if! namespace_matches s h && global && is_write (command_id h)
    return (let '(rc, response, info, _) :=
              zcl_wr_handle s frame payload response capacity candidate None in
            (rc, response, info)) ;;
  if! global && (command_id h =? ZCL_COMMAND_WRITE_NO_RESPONSE)
    return (ZCL_CODEC_UNSUPPORTED_NO_RESPONSE, response, candidate) ;;
  if! namespace_matches s h && global && (command_id h =? ZCL_COMMAND_READ_ATTRIBUTES)
    return
      (match zcl_read_attrs_unicast (Some s) (Some request) request_length response capacity
               (Some zero_read) with
       | (ZCL_CODEC_OK, response, Some read) =>
           (ZCL_CODEC_OK, response, read_published read candidate)
       | (status, response, _) => (status, response, candidate)
       end) ;;
  if! namespace_matches s h && global && (command_id h =? ZCL_COMMAND_DISCOVER_ATTRIBUTES)
    return
      (if! payload_length frame <? 3
         return default_reply (global_reply h) (command_id h) ZCL_STATUS_MALFORMED_COMMAND response
                  capacity candidate ;;
       if! negb (manufacturer_specific s =? 0) && negb (payload_length frame =? 3)
         return (ZCL_CODEC_UNSUPPORTED_LAYOUT, response, candidate) ;;
       discover s payload (global_reply h) response capacity candidate) ;;
  default_reply (global_reply h) (command_id h) ZCL_STATUS_UNSUP_COMMAND response capacity candidate.

Definition zcl_dispatch_unicast (set : option zcl_attribute_set_t) (request : option bytes)
    (request_length : Z) (response : option bytes) (capacity : Z)
    (info : option zcl_dispatch_info_t)
    : zcl_codec_result_t * option bytes * option zcl_dispatch_info_t :=
  match set, request, response, info with
  | Some s, Some q, Some _, Some _ =>
      let status := zcl_attr_set_check set in
      if! bool_decide (status ≠ ZCL_CODEC_OK) return (status, response, info) ;;
      match zcl_frame_decode request request_length (Some zero_frame) with
      | (ZCL_CODEC_OK, Some frame) =>
          if! negb (side_matches s (header frame))
            return (ZCL_CODEC_UNSUPPORTED_CONTEXT, response, info) ;;
          publish (dispatch_frame s q request_length frame response capacity) response info
      | (status, _) => (status, response, info)
      end
  | _, _, _, _ => (ZCL_CODEC_INVALID_ARGUMENT, response, info)
  end.

(** ** Specification of discovery: the entries in the order of their identifiers *)
Definition before (a b : zcl_attribute_t) : Prop := attribute_id a <= attribute_id b.
#[export] Instance before_dec a b : Decision (before a b).
Proof. unfold before. apply _. Defined.
#[export] Instance before_total : Total before.
Proof. intros a b. unfold before. lia. Qed.
#[export] Instance before_trans : Transitive before.
Proof. intros a b c. unfold before. lia. Qed.

Definition listing (s : zcl_attribute_set_t) (start : Z) : list zcl_attribute_t :=
  filter (λ a, start <= attribute_id a) (merge_sort before (entries s)).
Definition unique (s : zcl_attribute_set_t) : Prop := NoDup (attribute_id <$> entries s).

(** A checked table has no identifier twice. *)
Lemma zcl_check_entries_unique s prior todo :
  check_entries s prior todo = ZCL_CODEC_OK →
  NoDup (attribute_id <$> todo) ∧
  ∀ a b, a ∈ todo → b ∈ prior → attribute_id a ≠ attribute_id b.
Proof.
  revert prior. induction todo as [|x todo IH]; intros prior H; [split; [constructor|set_solver]|].
  cbn [check_entries] in H. destruct (entry_refused s x); [done|].
  destruct (existsb _ prior) eqn:E; [done|]. destruct (IH _ H) as [H1 H2]. split.
  - rewrite fmap_cons. apply list.NoDup_cons. split; [|done].
    rewrite list_elem_of_fmap. intros (b&Eb&Hb).
    apply (H2 b x); [done|set_solver|done].
  - intros a b Ha Hb Eab. apply elem_of_cons in Ha as [->|Ha]; [|apply (H2 a b); set_solver].
    apply not_true_iff_false in E. apply E, existsb_exists. exists b.
    split; [by apply list_elem_of_In|lia].
Qed.
Lemma zcl_checked_unique s : zcl_attr_set_check (Some s) = ZCL_CODEC_OK → unique s.
Proof.
  unfold zcl_attr_set_check. case_match; [done|].
  intros Hc. by apply zcl_check_entries_unique in Hc as [? _].
Qed.

(** The scan finds the least identifier from [start] on. *)
Lemma zcl_next_attribute s start :
  match next_attribute s start with
  | Some a => a ∈ entries s ∧ start <= attribute_id a ∧
              ∀ b, b ∈ entries s → start <= attribute_id b → attribute_id a <= attribute_id b
  | None => ∀ b, b ∈ entries s → attribute_id b < start
  end.
Proof.
  unfold next_attribute. induction (entries s) as [|x l IH] using rev_ind; [set_solver|].
  rewrite foldl_snoc.
  assert (∀ b, b ∈ l ++ [x] → b ∈ l ∨ b = x) as Hcase by set_solver.
  destruct (foldl _ None l) as [c|]; cbn [andb]; [destruct IH as (Hin&Hc&Hmin)|].
  - destruct (start <=? attribute_id x) eqn:E1; cbn [andb];
      [destruct (attribute_id x <? attribute_id c) eqn:E2|];
      (split; [set_solver|split; [lia|]]); intros b Hb Hs;
      (destruct (Hcase b Hb) as [Hl| ->]; [specialize (Hmin b Hl Hs)|]); lia.
  - destruct (start <=? attribute_id x) eqn:E1; [split; [set_solver|split; [lia|]]|]; intros b Hb;
      (destruct (Hcase b Hb) as [Hl| ->]; [specialize (IH b Hl)|]); lia.
Qed.

(** Every turn of the loop takes the head of the listing; the next one starts after it. *)
Lemma zcl_elem_of_listing s start a : a ∈ listing s start ↔ a ∈ entries s ∧ start <= attribute_id a.
Proof.
  unfold listing. rewrite list_elem_of_filter, merge_sort_Permutation. tauto.
Qed.
Lemma zcl_listing_sorted s start : unique s →
  StronglySorted (λ a b, attribute_id a < attribute_id b) (listing s start).
Proof.
  intros Hu. unfold listing.
  pose proof (StronglySorted_merge_sort before (entries s)) as Hs.
  assert (NoDup (attribute_id <$> merge_sort before (entries s))) as Hn
    by by rewrite merge_sort_Permutation.
  induction Hs as [|a l Hl IH Hf]; [constructor|]. rewrite fmap_cons in Hn.
  apply list.NoDup_cons in Hn as [Ha Hn]. rewrite filter_cons.
  assert (Forall (λ b, attribute_id a < attribute_id b) l) as Hf'.
  { apply list.Forall_forall. intros b Hb. pose proof (proj1 (list.Forall_forall _ _) Hf b Hb) as Hab.
    assert (attribute_id a ≠ attribute_id b) by (intros E; apply Ha; rewrite E; by apply list_elem_of_fmap_2).
    unfold before in Hab. lia. }
  case_decide; [|by apply IH]. constructor; [by apply IH|].
  apply list.Forall_forall. intros b [_ Hb]%list_elem_of_filter. exact (proj1 (list.Forall_forall _ _) Hf' b Hb).
Qed.
Lemma zcl_listing_step s start :
  unique s →
  match listing s start with
  | a :: rest => next_attribute s start = Some a ∧ listing s (attribute_id a + 1) = rest
  | [] => next_attribute s start = None
  end.
Proof.
  intros Hu. pose proof (zcl_next_attribute s start) as Hn.
  pose proof (zcl_listing_sorted s start Hu) as Hs.
  pose proof (zcl_elem_of_listing s start) as Hin.
  destruct (listing s start) as [|a rest] eqn:El.
  - destruct (next_attribute s start) as [a|]; [|done]. destruct Hn as (H1&H2&_).
    specialize (Hin a). set_solver.
  - assert (a ∈ entries s ∧ start <= attribute_id a) as [Ha1 Ha2] by (apply Hin; by left).
    inversion_clear Hs as [|? ? Hrest Hall]. split.
    + destruct (next_attribute s start) as [c|]; [|specialize (Hn a Ha1); lia].
      destruct Hn as (H1&H2&Hmin). assert (c ∈ a :: rest) as Hc by by apply Hin.
      apply elem_of_cons in Hc as [->|Hc]; [done|].
      pose proof (proj1 (list.Forall_forall _ _) Hall c Hc) as Hac. specialize (Hmin a Ha1 Ha2).
      cbv beta in Hac. lia.
    + assert (listing s (attribute_id a + 1)
              = filter (λ b, attribute_id a + 1 <= attribute_id b) (listing s start)) as ->.
      { unfold listing. rewrite list_filter_filter. apply list_filter_iff. intros b. lia. }
      rewrite El, filter_cons. rewrite decide_False by lia.
      clear -Hall. induction Hall as [|b rest Hb Hall IH]; [done|].
      rewrite filter_cons, decide_True by lia. by rewrite IH.
Qed.

Definition listed (a : zcl_attribute_t) : bytes :=
  [u8 (attribute_id a); u8 (Z.shiftr (attribute_id a) 8); value_type (value a)].
Definition identified (s : zcl_attribute_set_t) : Prop :=
  Forall (λ a, is_u16 (attribute_id a)) (entries s).

(** How many of [l] fit into [budget] octets and [limit] records. *)
Definition room (limit budget : Z) (l : list zcl_attribute_t) : nat :=
  Z.to_nat (Z.min (Z.min limit (budget / 3)) (Z.of_nat (length l))).
Lemma zcl_room_cons limit budget a l :
  0 < limit → 3 <= budget → room limit budget (a :: l) = S (room (limit - 1) (budget - 3) l).
Proof.
  intros. unfold room. cbn [length]. replace ((budget - 3) / 3) with (budget / 3 - 1)
    by (replace (budget - 3) with (budget + (-1) * 3) by lia; rewrite Z.div_add by lia; lia).
  assert (1 <= budget / 3) by (apply Z.div_le_lower_bound; lia). lia.
Qed.

Lemma zcl_discover_loop s : unique s → identified s →
  ∀ fuel limit start budget count records l,
  listing s start = l → (length l < fuel)%nat → is_u16 start → is_u8 limit → is_u8 budget →
  0 <= count <= limit →
  let k := room (limit - count) budget l in
  Forall (λ a, zcl_value_type_supported (value_type (value a)) = true) (take k l) →
  (limit = 0 ∨ l = [] ∨ 0 < count + Z.of_nat k) →
  discover_loop fuel s limit start budget count records
  = inr (if bool_decide (k = length l) then 1 else 0,
         records ++ mjoin (listed <$> take k l), count + Z.of_nat k).
Proof.
  intros Hu Hid. induction fuel as [|fuel IH]; [lia|].
  intros limit start budget count records l Hl Hf Hstart Hlim Hbud Hc k Hsup Hsome.
  pose proof (zcl_listing_step s start Hu) as Hstep. rewrite Hl in Hstep. cbn [discover_loop].
  destruct l as [|a l].
  { rewrite Hstep. subst k. replace (room _ _ []) with 0%nat by (unfold room; cbn; lia).
    cbn. by rewrite app_nil_r, Z.add_0_r. }
  destruct Hstep as [-> Hnext].
  assert (a ∈ entries s) as Ha
    by (apply (zcl_elem_of_listing s start); rewrite Hl; by left).
  pose proof (proj1 (list.Forall_forall _ _) Hid a Ha) as Hia. cbv beta in Hia.
  destruct ((count =? limit) || (budget <? 3)) eqn:Estop.
  - assert (k = 0%nat) as Ek.
    { subst k. unfold room. apply orb_true_iff in Estop as [E|E]; [lia|].
      rewrite (Z.div_small budget 3) by width. lia. }
    rewrite Ek in *. replace ((count =? 0) && negb (limit =? 0)) with false by (destruct Hsome as [->|[|]]; [lia|done|lia]).
    rewrite bool_decide_eq_false_2 by done. cbn. by rewrite app_nil_r, Z.add_0_r.
  - subst k. unfold is_u8 in *. rewrite zcl_room_cons in * by lia. cbn [take] in Hsup.
    apply Forall_cons_1 in Hsup as [Hs Hsup]. rewrite Hs. cbn [negb]. 
    rewrite (u8_id (budget - 3)), (u8_id (count + 1)) by (unfold is_u8; lia).
    replace (limit - count - 1) with (limit - (count + 1)) in * by lia.
    set (k := room (limit - (count + 1)) (budget - 3) l) in *.
    change (mjoin (listed <$> take (S k) (a :: l))) with (listed a ++ mjoin (listed <$> take k l)).
    rewrite (app_assoc records).
    replace (bool_decide (S k = length (a :: l))) with (bool_decide (k = length l))
      by (apply bool_decide_ext; cbn [length]; lia).
    destruct (Z.eqb_spec (attribute_id a) 0xffff) as [Eff|Eff].
    + assert (l = []) as ->.
      { destruct l as [|b l]; [done|]. exfalso.
        assert (b ∈ listing s (attribute_id a + 1)) as Hb by (rewrite Hnext; by left).
        apply zcl_elem_of_listing in Hb as [Hb1 Hb2].
        pose proof (proj1 (list.Forall_forall _ _) Hid b Hb1) as Hib. cbv beta in Hib. width. }
      replace k with 0%nat by (subst k; unfold room; cbn; lia).
      cbn. by rewrite app_nil_r.
    + rewrite u16_id by width. cbn [length] in Hf.
      rewrite (IH limit _ _ _ _ l) by first [done | lia | width | right; right; lia].
      f_equal. f_equal. lia.
Qed.

(** ** The discovery response *)
Lemma zcl_global_header h c :
  header_typed h → type h <= 1 → has (flags h) (u8 (Z.lnot 0x1c)) = false → normalise h = h →
  is_u8 c → let r := global_reply h c in
  header_typed r ∧ type r <= 1 ∧ has (flags r) (u8 (Z.lnot 0x1c)) = false ∧ normalise r = r ∧
  header_size (flags r) = header_size (flags h).
Proof.
  intros Hh Hty Hfl Hn Hc.
  destruct (zcl_reply_header h c Hh Hty Hfl Hn Hc) as ((_&H2)&H3&H4&H5).
  split; [split; [done|exact H2]|]. split; [done|]. split; [exact H3|]. split; [|exact H5].
  unfold normalise, global_reply in *. cbn [type flags manufacturer_code sequence command_id] in *.
  f_equal. exact (f_equal manufacturer_code H4).
Qed.
Lemma zcl_listed_len l : blen (mjoin (listed <$> l)) = 3 * Z.of_nat (length l).
Proof.
  induction l as [|a l IH]; [done|].
  change (mjoin (listed <$> a :: l)) with (listed a ++ mjoin (listed <$> l)).
  rewrite blen_app, IH. change (blen (listed a)) with 3. cbn [length]. lia.
Qed.
Lemma zcl_room_bounds limit budget l :
  0 <= limit → 0 <= budget →
  (room limit budget l <= length l)%nat ∧ Z.of_nat (room limit budget l) <= limit ∧
  3 * Z.of_nat (room limit budget l) <= budget.
Proof. intros. unfold room. Z.div_mod_to_equations. lia. Qed.
Lemma rd_drop b n i : 0 <= n → 0 <= i → rd (drop (Z.to_nat n) b) i = rd b (n + i).
Proof. intros. unfold rd. rewrite lookup_drop. f_equal. f_equal. lia. Qed.
Lemma read_le16_drop b n : 0 <= n → read_le16 (drop (Z.to_nat n) b) 0 = read_le16 b n.
Proof. intros. unfold read_le16. rewrite !rd_drop by lia. by rewrite Z.add_0_r. Qed.

(** A Discover Attributes request for this table's side and name space. *)
Definition discover_request (s : zcl_attribute_set_t) (q : bytes) (n : Z) (frame : zcl_frame_info_t)
    : Prop :=
  zcl_frame_decode (Some q) n (Some zero_frame) = (ZCL_CODEC_OK, Some frame) ∧
  type (header frame) = ZCL_FRAME_GLOBAL ∧
  command_id (header frame) = ZCL_COMMAND_DISCOVER_ATTRIBUTES ∧
  side_matches s (header frame) = true ∧ namespace_matches s (header frame) = true ∧
  3 <= payload_length frame ∧ (manufacturer_specific s ≠ 0 → payload_length frame = 3).

Lemma zcl_listing_length s start : (length (listing s start) < S (length (entries s)))%nat.
Proof.
  apply Nat.lt_succ_r. rewrite <- (Permutation_length (merge_sort_Permutation before (entries s))).
  apply length_filter.
Qed.
(** The loop, as the handler starts it. *)
Lemma zcl_discovered s limit start space :
  unique s → identified s →
  Forall (λ a, zcl_value_type_supported (value_type (value a)) = true) (entries s) →
  is_u8 limit → is_u16 start → 0 <= space <= 100 →
  let l := listing s start in let k := room limit space l in
  (limit = 0 ∨ l = [] ∨ 3 <= space) →
  discover_loop (S (length (entries s))) s limit start space 0 []
  = inr (if bool_decide (k = length l) then 1 else 0, mjoin (listed <$> take k l), Z.of_nat k).
Proof.
  intros Hu Hid Hsup Hlim Hstart Hsp l k Hsome. unfold is_u8 in Hlim.
  rewrite (zcl_discover_loop s) with (l := l); rewrite ?Z.sub_0_r; fold k; try (done || width).
  - apply zcl_listing_length.
  - apply list.Forall_forall. intros a Ha. apply (proj1 (list.Forall_forall _ _) Hsup).
    apply (zcl_elem_of_listing s start). fold l. rewrite <- (take_drop k l). set_solver.
  - destruct Hsome as [?|[?|H3]]; [by left|by right; left|].
    destruct (decide (limit = 0)); [by left|]. destruct l as [|a l'] eqn:El; [by right; left|].
    right; right. subst k. rewrite zcl_room_cons by lia. lia.
Qed.

Lemma zcl_dispatch_discover s q n frame b capacity info0 :
  zcl_attr_set_check (Some s) = ZCL_CODEC_OK → discover_request s q n frame →
  zcl_dispatch_unicast (Some s) (Some q) n (Some b) capacity (Some info0)
  = publish (discover s (drop (Z.to_nat (payload_offset frame)) q) (global_reply (header frame))
               (Some b) capacity (zero_dispatch <| d_sequence := sequence (header frame) |>))
            (Some b) (Some info0).
Proof.
  intros Hset (Hd&Hty&Hcmd&Hside&Hns&Hlen&Hms).
  unfold zcl_dispatch_unicast. rewrite Hset, Hd, Hside. cbn [negb bool_decide].
  unfold dispatch_frame. rewrite Hty, Hcmd, Hns. cbn -[discover].
  replace (payload_length frame <? 3) with false by lia.
  by replace (negb (manufacturer_specific s =? 0) && negb (payload_length frame =? 3))
    with false by lia.
Qed.

(** C29: discovery lists the attributes from the requested identifier on in increasing order of
    their identifiers, each with its type, as many as the requester allows and as fit into the
    response, and says that the list is complete exactly when none is left out. *)
Theorem zcl_discover_listing s q n frame b capacity info0 :
  zcl_attr_set_check (Some s) = ZCL_CODEC_OK → identified s →
  Forall (λ a, zcl_value_type_supported (value_type (value a)) = true) (entries s) →
  is_bytes q → 0 <= n <= blen q → 0 <= capacity <= blen b → discover_request s q n frame →
  let offset := payload_offset frame in
  let limit := rd q (offset + 2) in
  let l := listing s (read_le16 q offset) in
  let space := Z.min capacity 100 - (offset + 1) in
  let k := room limit space l in
  0 <= space → (limit = 0 ∨ l = [] ∨ 3 <= space) →
  ∃ body info,
    zcl_dispatch_unicast (Some s) (Some q) n (Some b) capacity (Some info0)
    = (ZCL_CODEC_OK, Some body, Some info) ∧
    zcl_frame_decode (Some body) (d_length info) (Some zero_frame)
    = (ZCL_CODEC_OK,
       Some {| header := global_reply (header frame) ZCL_COMMAND_DISCOVER_RESPONSE;
               ignored_control_bits := 0; payload_offset := offset;
               payload_length := 1 + 3 * Z.of_nat k |}) ∧
    slice body offset (1 + 3 * Z.of_nat k)
    = discovery_complete info :: mjoin (listed <$> take k l) ∧
    (discovery_complete info = 1 ↔ k = length l) ∧ d_returned info = Z.of_nat k.
Proof.
  intros Hset Hid Hsup Hq Hn Hc Hreq offset limit l space k Hsp Hsome.
  destruct (Hreq) as [Hf _].
  apply zcl_frame_decode_facts in Hf as (Hh&Ht&Hfl&Hnorm&Eo&Hr&_); [|done|lia]. fold offset in Eo, Hr.
  pose proof (zcl_header_size_range (flags (header frame))).
  destruct (zcl_global_header (header frame) ZCL_COMMAND_DISCOVER_RESPONSE)
    as (Hh'&Ht'&Hfl'&Hnorm'&Esz); try done.
  pose proof (rd_is_u8 q (offset + 2) Hq) as Hlim. fold limit in Hlim.
  assert (is_u16 (read_le16 q offset)) as Hstart by by apply read_le16_range.
  destruct (zcl_room_bounds limit space l) as (Hk1&Hk2&Hk3); [unfold is_u8 in Hlim; lia|done|].
  fold k in Hk1, Hk2, Hk3.
  pose proof (zcl_discovered s limit (read_le16 q offset) space (zcl_checked_unique s Hset) Hid Hsup
    Hlim Hstart ltac:(lia) Hsome) as El. cbv zeta in El. fold l k in El.
  set (complete := if bool_decide (k = length l) then 1 else 0) in *.
  set (records := mjoin (listed <$> take k l)) in *.
  assert (blen (complete :: records) = 1 + 3 * Z.of_nat k) as Hp.
  { subst records. rewrite blen_cons, zcl_listed_len, length_take_le by lia. lia. }
  destruct (zcl_frame_reply (global_reply (header frame) ZCL_COMMAND_DISCOVER_RESPONSE)
    (complete :: records) b capacity zero_frame) as (body&len&Ee&->&Edec&Esl);
    try (done || lia || (rewrite Esz, <- Eo, Hp; lia)).
  rewrite Esz, <- Eo, Hp in Edec, Esl. rewrite Hp in Ee. rewrite Hnorm' in Edec.
  eexists body, _. split.
  { rewrite (zcl_dispatch_discover s q n frame) by done. fold offset.
    unfold discover. rewrite !rd_drop, read_le16_drop, Esz, <- Eo, zcl_budget by lia.
    fold limit. replace (_ <? offset + 1) with false by lia.
    rewrite u8_id by (unfold is_u8; lia). fold space. rewrite El, Hp.
    cbn [d_length update zero_dispatch zcl_dispatch_info_fields]. rewrite Ee. reflexivity. }
  cbn [d_length discovery_complete d_returned update]. rewrite Esz, <- Eo.
  split; [done|]. split; [done|].
  split; [|done].
  subst complete. case_bool_decide; [done|]. by split.
Qed.

(** ** What the caller is told to do *)

(** A reply: addressed back by the direction bit, to the same sequence number and namespace, and
    asking for no default response. *)
Definition replies_to (h h' : zcl_header_t) : Prop :=
  type h' = ZCL_FRAME_GLOBAL ∧ sequence h' = sequence h ∧ manufacturer_code h' = manufacturer_code h ∧
  has (flags h') ZCL_FLAG_MANUFACTURER_SPECIFIC = has (flags h) ZCL_FLAG_MANUFACTURER_SPECIFIC ∧
  has (flags h') ZCL_FLAG_SERVER_TO_CLIENT = negb (has (flags h) ZCL_FLAG_SERVER_TO_CLIENT) ∧
  has (flags h') ZCL_FLAG_DISABLE_DEFAULT_RESPONSE = true.
Definition is_global (h : zcl_header_t) (command : Z) : Prop :=
  type h = ZCL_FRAME_GLOBAL ∧ command_id h = command.
#[export] Instance is_global_dec h command : Decision (is_global h command).
Proof. unfold is_global. apply _. Defined.
(** The command that answers a request, when it is not the default response. *)
Definition own_response (h : zcl_header_t) : option Z :=
  if! negb (type h =? 0) return None ;;
  if! command_id h =? 0x00 return Some 0x01 ;;
  if! (command_id h =? 0x02) || (command_id h =? 0x03) return Some 0x04 ;;
  if! command_id h =? 0x0c return Some 0x0d ;;
  None.
(** The frame in the buffer is the reply that [i] describes: the response to the command, if the
    table has the namespace of the request, or the default response to it, which says why.  Only
    the three kinds of command have a malformed form; all else is unsupported. *)
Definition answers (s : zcl_attribute_set_t) (h : zcl_header_t) (r : option bytes)
    (i : zcl_dispatch_info_t) : Prop :=
  ∃ frame, zcl_frame_decode r (d_length i) (Some zero_frame) = (ZCL_CODEC_OK, Some frame) ∧
    replies_to h (header frame) ∧ command_id (header frame) = d_command i ∧
    ((namespace_matches s h = true ∧ own_response h = Some (d_command i)) ∨
     (d_command i = ZCL_COMMAND_DEFAULT_RESPONSE ∧
      slice (default [] r) (payload_offset frame) (payload_length frame) = [default_command i; default_status i] ∧
      default_command i = command_id h ∧ default_raw_status i = default_status i ∧
      (default_status i = ZCL_STATUS_UNSUP_COMMAND ∧
         (namespace_matches s h = false ∨ own_response h = None) ∨
       default_status i = ZCL_STATUS_MALFORMED_COMMAND ∧ namespace_matches s h = true ∧ own_response h ≠ None))).
(** The status octets of earlier revisions of the specification, and what they are called now. *)
Definition superseded : list (Z * Z) :=
  [(0x82, 0x81); (0x83, 0x81); (0x84, 0x81); (0x8a, 0x00); (0xc4, 0x00); (0x8f, 0x7e);
   (0x90, 0x01); (0x91, 0x01); (0x93, 0x01); (0xc0, 0x01); (0xc1, 0x01)].
Definition current_status (status : Z) : Z :=
  default status (snd <$> find (λ p, p.1 =? status) superseded).
Lemma zcl_normalized_status x : is_u8 x → normalized_status x = current_status x.
Proof. intros Hx. by_u8 x. Qed.
(** What a successful call reports of the request [frame] in [q]. *)
Definition reported (s : zcl_attribute_set_t) (q : bytes) (frame : zcl_frame_info_t) (b : bytes)
    (r : option bytes) (i : zcl_dispatch_info_t) : Prop :=
  let h := header frame in
  d_sequence i = sequence h ∧
  if decide (is_global h ZCL_COMMAND_DEFAULT_RESPONSE) then
    kind i = ZCL_DISPATCH_DEFAULT_RECEIVED ∧ d_length i = 0 ∧ r = Some b ∧
    default_command i = rd q (payload_offset frame) ∧
    default_raw_status i = rd q (payload_offset frame + 1) ∧
    default_status i = current_status (rd q (payload_offset frame + 1))
  else if decide (is_global h ZCL_COMMAND_WRITE_NO_RESPONSE) then
    kind i = ZCL_DISPATCH_SILENT ∧ d_length i = 0 ∧ r = Some b
  else kind i = ZCL_DISPATCH_RESPONSE ∧ answers s h r i.

(** The encoder's success, as the branches use it. *)
Lemma zcl_sent h c o b capacity r len :
  header_typed h → type h <= 1 → has (flags h) (u8 (Z.lnot 0x1c)) = false → normalise h = h → is_u8 c →
  capacity <= blen b →
  zcl_frame_encode (Some (global_reply h c)) (Some o) (blen o) (Some b) capacity (Some 0)
    = (ZCL_CODEC_OK, r, Some len) →
  ∃ frame, zcl_frame_decode r len (Some zero_frame) = (ZCL_CODEC_OK, Some frame) ∧
    replies_to h (header frame) ∧ command_id (header frame) = c ∧
    slice (default [] r) (payload_offset frame) (payload_length frame) = o.
Proof.
  intros Hh Ht Hf Hn Hc Hb E. destruct (zcl_global_header h c) as (Th&Tt&Tf&Tn&Ts); try done.
  pose proof (zcl_frame_encode_ok _ _ _ _ _ _ _ _ E) as (_&_&H3&H4&_).
  destruct (zcl_frame_reply (global_reply h c) o b capacity zero_frame) as (body&len'&E'&->&Ed&Es);
    try done; [lia..|].
  rewrite E in E'. injection E' as -> ->. rewrite Tn in Ed. eexists. split; [exact Ed|].
  cbn [header payload_offset payload_length default from_option id]. split; [|by split].
  destruct Hh as (_&Hf8&_). destruct (zcl_reply_flags (flags h) Hf8 Hf) as [_ Em].
  unfold replies_to, global_reply. cbn [type flags manufacturer_code sequence].
  do 3 (split; [done|]). split; [done|].
  assert (implb (negb (has (flags h) (u8 (Z.lnot 0x1c))))
    (let f' := u8 (Z.lor (Z.lxor (flags h) ZCL_FLAG_SERVER_TO_CLIENT) ZCL_FLAG_DISABLE_DEFAULT_RESPONSE) in
     eqb (has f' ZCL_FLAG_SERVER_TO_CLIENT) (negb (has (flags h) ZCL_FLAG_SERVER_TO_CLIENT)) &&
     has f' ZCL_FLAG_DISABLE_DEFAULT_RESPONSE) = true) as Ef by by_u8 (flags h).
  rewrite Hf in Ef. apply andb_true_iff in Ef as [E1%eqb_prop E2]. done.
Qed.

Lemma zcl_encode_some h p n b cap l st r : zcl_frame_encode h p n b cap (Some l) ≠ (st, r, None).
Proof. destruct (zcl_frame_encode_length h p n b cap l) as (?&?&?&->). by intros [=]. Qed.
(** The cases of an encoder called with a length; only its success goes on. *)
Ltac encode_cases E len :=
  destruct (zcl_frame_encode _ _ _ _ _ _) as [[[] ?] [len|]] eqn:E; try (by intros [=]);
  try (by apply zcl_encode_some in E).
Lemma zcl_read_records_fails s space ids : ∀ payload returned,
  read_records s space ids payload returned ≠ inl ZCL_CODEC_OK.
Proof.
  assert (∀ identifier remaining, read_record s identifier remaining ≠ inl ZCL_CODEC_OK) as Hr.
  { intros identifier remaining. unfold read_record, attribute_status.
    destruct (find_attribute s identifier) as [a|]; [|done]. destruct (readable a =? 0); [done|].
    destruct (zcl_value_encode _ _ _ _) as [[status body] encoded]. destruct (_ || _); [done|].
    destruct (bool_decide_reflect (status ≠ ZCL_CODEC_OK)) as [E|_]; [by intros [=]|done]. }
  induction ids as [ids IH] using (induction_ltof1 _ (@length Z)). intros payload returned.
  destruct ids as [|low [|high ids]]; [done..|]. cbn [read_records]. destruct (_ <? 3); [done|].
  destruct (read_record s _ _) eqn:E; [intros [= ->]; by apply Hr in E|]. apply IH. unfold ltof. simpl. lia.
Qed.
Lemma zcl_write_loop_inl s edit fuel rc p st status :
  write_loop fuel s edit rc p st = inl status → status = ZCL_CODEC_INVALID_TABLE.
Proof.
  revert rc p st. induction fuel as [|fuel IH]; intros rc p st H; [done|]. cbn [write_loop] in H.
  destruct (blen p =? 0); [done|]. destruct (blen p <? 3); [done|].
  destruct (extent _ _) as [[] n]; try done.
  destruct (judge _ _ _ _) as [?|e] eqn:Ej; [|by eapply IH].
  simplify_eq. unfold judge in Ej. by repeat case_match; simplify_eq.
Qed.
Lemma zcl_discover_loop_fails fuel s limit : ∀ start budget count records,
  discover_loop fuel s limit start budget count records ≠ inl ZCL_CODEC_OK.
Proof.
  induction fuel as [|fuel IH]; intros start budget count records; cbn [discover_loop]; [done|].
  destruct (next_attribute s start); [|done]. destruct (_ || _); [by destruct (_ && _)|].
  destruct (negb _); [done|]. by destruct (_ =? 0xffff).
Qed.
Section replies.
Context (s : zcl_attribute_set_t) (q : bytes) (n : Z) (frame : zcl_frame_info_t) (b : bytes) (capacity : Z).
Notation h := (header frame).
Context (Hh : header_typed h) (Ht : type h <= 1) (Hf : has (flags h) (u8 (Z.lnot 0x1c)) = false)
  (Hn : normalise h = h) (Hc : capacity <= blen b).

Lemma zcl_default_replies st r i candidate :
  d_length candidate = 0 → is_u8 st →
  st = ZCL_STATUS_UNSUP_COMMAND ∧ (namespace_matches s h = false ∨ own_response h = None) ∨
    st = ZCL_STATUS_MALFORMED_COMMAND ∧ namespace_matches s h = true ∧ own_response h ≠ None →
  default_reply (global_reply h) (command_id h) st (Some b) capacity candidate = (ZCL_CODEC_OK, r, i) →
  kind i = kind candidate ∧ d_sequence i = d_sequence candidate ∧ answers s h r i.
Proof.
  intros Hl Hst Hw. unfold default_reply. rewrite Hl.
  encode_cases E len; intros [= <- <-].
  split; [done|]. split; [done|]. change 2 with (blen [command_id h; st]) in E.
  destruct (zcl_sent h ZCL_COMMAND_DEFAULT_RESPONSE _ b capacity _ len Hh Ht Hf Hn ltac:(done) Hc E) as (fr&E1&E2&E3&E4).
  exists fr. split; [exact E1|]. split; [done|]. split; [done|]. right. split; [done|]. split; [exact E4|].
  split; [done|]. split; [done|]. exact Hw.
Qed.
Lemma zcl_discover_replies p r i candidate :
  d_length candidate = 0 → namespace_matches s h = true →
  type h = ZCL_FRAME_GLOBAL → command_id h = ZCL_COMMAND_DISCOVER_ATTRIBUTES →
  discover s p (global_reply h) (Some b) capacity candidate = (ZCL_CODEC_OK, r, i) →
  kind i = kind candidate ∧ d_sequence i = d_sequence candidate ∧ answers s h r i.
Proof.
  intros Hl Hns Hg Hd. unfold discover. destruct (budget capacity <? _); [done|].
  destruct (discover_loop _ _ _ _ _ _ _) as [st|[[complete records] count]] eqn:El.
  { intros [= -> _ _]. by apply zcl_discover_loop_fails in El. }
  change (d_length (candidate <| d_requested := _ |>)) with (d_length candidate). rewrite Hl.
  encode_cases E len; intros [= <- <-].
  split; [done|]. split; [done|].
  destruct (zcl_sent h ZCL_COMMAND_DISCOVER_RESPONSE _ b capacity _ len Hh Ht Hf Hn ltac:(done) Hc E) as (fr&E1&E2&E3&E4).
  exists fr. split; [exact E1|]. split; [done|]. split; [done|]. left. split; [done|].
  unfold own_response. by rewrite Hg, Hd.
Qed.
Lemma zcl_write_replies r i e candidate :
  d_length candidate = 0 → kind candidate = ZCL_DISPATCH_RESPONSE → namespace_matches s h = true →
  type h = ZCL_FRAME_GLOBAL → is_write (command_id h) = true →
  zcl_wr_handle s frame (drop (Z.to_nat (payload_offset frame)) q) (Some b) capacity candidate None
    = (ZCL_CODEC_OK, r, i, e) →
  d_sequence i = sequence h ∧
  if decide (command_id h = ZCL_COMMAND_WRITE_NO_RESPONSE)
  then kind i = ZCL_DISPATCH_SILENT ∧ d_length i = 0 ∧ r = Some b
  else kind i = ZCL_DISPATCH_RESPONSE ∧ answers s h r i.
Proof.
  intros Hl Hk Hns Hg Hw. unfold zcl_wr_handle.
  destruct (write_loop _ _ _ _ _ _) as [st|[rc st]] eqn:El; [by apply zcl_write_loop_inl in El as ->|].
  destruct (bool_decide (rc ≠ ZCL_CODEC_OK) && bool_decide (rc ≠ ZCL_CODEC_TRUNCATED)) eqn:E1.
  { apply andb_true_iff in E1 as [E1%bool_decide_eq_true_1 _]. by intros [= -> _ _ _]. }
  destruct (Z.eqb_spec (command_id h) ZCL_COMMAND_WRITE_NO_RESPONSE) as [Ec|Ec].
  { rewrite decide_True by done. destruct (bool_decide_reflect (rc ≠ ZCL_CODEC_OK)) as [E2|E2]; [by intros [= -> _ _ _]|].
    by intros [= <- <- _]. }
  rewrite decide_False by done.
  assert (own_response h = Some ZCL_COMMAND_WRITE_RESPONSE) as Ho.
  { unfold own_response. rewrite Hg. cbn [Z.eqb negb]. unfold is_write in Hw.
    destruct (Z.eqb_spec (command_id h) 0) as [E0|_]; [by rewrite E0 in Hw|].
    destruct (Z.eqb_spec (command_id h) ZCL_COMMAND_WRITE_NO_RESPONSE); [done|]. rewrite orb_false_r in Hw.
    change 0x02 with ZCL_COMMAND_WRITE_ATTRIBUTES. change 0x03 with ZCL_COMMAND_WRITE_UNDIVIDED. by rewrite Hw. }
  assert (∀ c, reply_header h c = global_reply h c) as Er by (intros c; unfold reply_header, global_reply; by rewrite Hg).
  destruct (bool_decide (rc = ZCL_CODEC_OK)); cbv beta iota zeta; rewrite Er;
    encode_cases E len; intros [= <- <- _].
  - split; [done|]. split; [done|].
    destruct (zcl_sent h ZCL_COMMAND_WRITE_RESPONSE _ b capacity _ len Hh Ht Hf Hn ltac:(done) Hc E)
      as (fr&F1&F2&F3&_). exists fr. split; [exact F1|]. split; [done|]. split; [done|]. by left.
  - split; [done|]. split; [done|].
    destruct (zcl_sent h ZCL_COMMAND_DEFAULT_RESPONSE _ b capacity _ len Hh Ht Hf Hn ltac:(done) Hc E)
      as (fr&F1&F2&F3&F4). exists fr. split; [exact F1|]. split; [done|]. split; [done|]. right.
    split; [done|]. split; [exact F4|]. split; [done|]. split; [done|]. right. by rewrite Ho.
Qed.
Lemma zcl_read_replies r read candidate :
  zcl_frame_decode (Some q) n (Some zero_frame) = (ZCL_CODEC_OK, Some frame) →
  kind candidate = ZCL_DISPATCH_RESPONSE → d_sequence candidate = sequence h → namespace_matches s h = true →
  type h = ZCL_FRAME_GLOBAL → command_id h = ZCL_COMMAND_READ_ATTRIBUTES →
  zcl_read_attrs_unicast (Some s) (Some q) n (Some b) capacity (Some zero_read) = (ZCL_CODEC_OK, r, Some read) →
  let i := read_published read candidate in
  kind i = ZCL_DISPATCH_RESPONSE ∧ d_sequence i = sequence h ∧ answers s h r i.
Proof.
  intros Ed Hk Hs Hns Hg Hcm. unfold zcl_read_attrs_unicast. rewrite Ed.
  destruct (bool_decide_reflect (zcl_attr_set_check (Some s) ≠ ZCL_CODEC_OK)) as [E1|_]; [by intros [= E1' _ _]|].
  destruct (negb (type h =? _) || _); [done|]. destruct (negb (side_matches s h) || _); [done|].
  assert (∀ c, reply_header h c = global_reply h c) as Er by (intros c; unfold reply_header, global_reply; by rewrite Hg).
  assert (own_response h = Some ZCL_COMMAND_READ_ATTRIBUTES_RESPONSE) as Ho
    by (unfold own_response; by rewrite Hg, Hcm).
  unfold read_answer. destruct ((payload_length frame =? 0) || _).
  { rewrite Er. encode_cases E len; intros [= <- <-].
    destruct (zcl_sent h ZCL_COMMAND_DEFAULT_RESPONSE _ b capacity _ len Hh Ht Hf Hn ltac:(done) Hc E)
      as (fr&F1&F2&F3&F4). split; [done|]. split; [done|]. exists fr. split; [exact F1|].
    split; [done|]. split; [done|]. right. split; [done|]. split; [exact F4|]. split; [by rewrite Hcm|].
    split; [done|]. right. by rewrite Ho. }
  destruct (budget capacity <? _); [done|].
  destruct (read_records _ _ _ _ _) as [st|[payload returned]] eqn:El.
  { intros [= -> _ _]. by apply zcl_read_records_fails in El. }
  rewrite Er. encode_cases E len; intros [= <- <-].
  destruct (zcl_sent h ZCL_COMMAND_READ_ATTRIBUTES_RESPONSE _ b capacity _ len Hh Ht Hf Hn ltac:(done) Hc E)
    as (fr&F1&F2&F3&_). split; [done|]. split; [done|]. exists fr. split; [exact F1|].
  split; [done|]. split; [done|]. by left.
Qed.
End replies.

Lemma zcl_read_described set q n b capacity i0 st r :
  zcl_read_attrs_unicast (Some set) (Some q) n (Some b) capacity (Some i0) ≠ (st, r, None).
Proof.
  unfold zcl_read_attrs_unicast. destruct (bool_decide _); [done|].
  destruct (zcl_frame_decode _ _ _) as [[] [frame|]]; try done.
  destruct (_ || _); [done|]. destruct (_ || _); [done|].
  destruct (read_answer _ _ _ _) as [|[[[c p] x] y]]; [done|]. by encode_cases E len.
Qed.
Lemma zcl_no_own_response h : type h ≠ ZCL_FRAME_GLOBAL → own_response h = None.
Proof. intros H. unfold own_response. change 0 with ZCL_FRAME_GLOBAL. by rewrite (proj2 (Z.eqb_neq _ _) H). Qed.
Lemma zcl_dispatch_reported s q n frame b capacity r i :
  is_bytes q → 0 <= n → capacity <= blen b →
  zcl_frame_decode (Some q) n (Some zero_frame) = (ZCL_CODEC_OK, Some frame) →
  dispatch_frame s q n frame (Some b) capacity = (ZCL_CODEC_OK, r, i) → reported s q frame b r i.
Proof.
  intros Hq Hn0 Hc Ed. destruct (zcl_frame_decode_facts _ _ _ _ Hq Hn0 Ed) as (Hh&Ht&Hf&Hn&Ho&Hr&_).
  unfold dispatch_frame, reported. set (h := header frame) in *. unfold is_global.
  set (candidate := zero_dispatch <| d_sequence := sequence h |>).
  assert (∀ st r i, is_u8 st →
    st = ZCL_STATUS_UNSUP_COMMAND ∧ (namespace_matches s h = false ∨ own_response h = None) ∨
      st = ZCL_STATUS_MALFORMED_COMMAND ∧ namespace_matches s h = true ∧ own_response h ≠ None →
    default_reply (global_reply h) (command_id h) st (Some b) capacity candidate = (ZCL_CODEC_OK, r, i) →
    d_sequence i = sequence h ∧ kind i = ZCL_DISPATCH_RESPONSE ∧ answers s h r i) as Hdef.
  { intros st r' i' Hst Hw E.
    by destruct (zcl_default_replies s frame b capacity Hh Ht Hf Hn Hc st r' i' candidate) as (->&->&?). }
  destruct (Z.eqb_spec (type h) ZCL_FRAME_GLOBAL) as [Hg|Hg]; cbn [andb].
  2: { rewrite !andb_false_r. cbn [andb]. rewrite !decide_False by tauto. intros E.
    destruct (Hdef ZCL_STATUS_UNSUP_COMMAND _ _ ltac:(done) (or_introl (conj eq_refl (or_intror (zcl_no_own_response h Hg)))) E) as (->&H2&H3).
    done. }
  destruct (Z.eqb_spec (command_id h) ZCL_COMMAND_DEFAULT_RESPONSE) as [Ec|Ec].
  { rewrite decide_True by (by split). unfold default_received. destruct (negb _); [done|]. destruct (_ <? 2); [done|].
    destruct (_ && _); [done|]. rewrite !rd_drop by (pose proof (zcl_header_size_range (flags h)); lia).
    rewrite Z.add_0_r, zcl_normalized_status by by apply rd_is_u8. by intros [= <- <-]. }
  rewrite decide_False by tauto. rewrite !andb_true_r.
  destruct (namespace_matches s h && is_write (command_id h)) eqn:Ew.
  { apply andb_true_iff in Ew as [Hns Hw].
    destruct (zcl_wr_handle _ _ _ _ _ _ _) as [[[rc1 r1] i1] e] eqn:E. intros [= -> -> ->].
    apply (zcl_write_replies s q frame b capacity Hh Ht Hf Hn Hc r i e candidate) in E as [-> E]; try done.
    split; [done|]. fold h in E. destruct (decide (command_id h = _)); [by rewrite decide_True by (by split)|by rewrite decide_False by tauto]. }
  destruct (Z.eqb_spec (command_id h) ZCL_COMMAND_WRITE_NO_RESPONSE) as [En|En]; [done|].
  rewrite decide_False by tauto.
  destruct (namespace_matches s h) eqn:Hns; cbn [andb] in *.
  2: { intros E. destruct (Hdef ZCL_STATUS_UNSUP_COMMAND _ _ ltac:(done) (or_introl (conj eq_refl (or_introl eq_refl))) E) as (->&H2&H3). done. }
  destruct (Z.eqb_spec (command_id h) ZCL_COMMAND_READ_ATTRIBUTES) as [Er|Er].
  { destruct (zcl_read_attrs_unicast _ _ _ _ _ _) as [[[] r1] [read|]] eqn:E; intros [= -> <-].
    - destruct (zcl_read_replies s q n frame b capacity Hh Ht Hf Hn Hc r read candidate) as (H1&H2&H3); done.
    - by apply zcl_read_described in E. }
  destruct (Z.eqb_spec (command_id h) ZCL_COMMAND_DISCOVER_ATTRIBUTES) as [Edi|Edi].
  { destruct (payload_length frame <? 3).
    - intros E. destruct (Hdef ZCL_STATUS_MALFORMED_COMMAND r i) as (->&H2&H3); try done.
      right. split; [done|]. split; [done|]. unfold own_response. by rewrite Hg, Edi.
    - destruct (_ && _); [done|]. intros E.
      apply (zcl_discover_replies s frame b capacity Hh Ht Hf Hn Hc) in E as (H1&->&H3); done. }
  intros E. destruct (Hdef ZCL_STATUS_UNSUP_COMMAND r i) as (->&H2&H3); try done.
  left. split; [done|]. right. unfold own_response. rewrite Hg. cbn [Z.eqb negb]. unfold is_write in Ew.
  change 0x00 with ZCL_COMMAND_READ_ATTRIBUTES. change 0x02 with ZCL_COMMAND_WRITE_ATTRIBUTES.
  change 0x03 with ZCL_COMMAND_WRITE_UNDIVIDED. change 0x0c with ZCL_COMMAND_DISCOVER_ATTRIBUTES.
  rewrite (proj2 (Z.eqb_neq _ _) Er), (proj2 (Z.eqb_neq _ _) Edi).
  apply orb_false_iff in Ew as [-> _]. done.
Qed.
(** An error leaves the buffer alone. *)
Lemma zcl_dispatch_kept s q n frame b capacity :
  let x := dispatch_frame s q n frame (Some b) capacity in x.1.1 ≠ ZCL_CODEC_OK → x.1.2 = Some b.
Proof.
  assert (∀ h p m l, (zcl_frame_encode (Some h) (Some p) m (Some b) capacity (Some l)).1.1 ≠ ZCL_CODEC_OK →
    (zcl_frame_encode (Some h) (Some p) m (Some b) capacity (Some l)).1.2 = Some b) as He
    by (intros; by apply zcl_frame_encode_error).
  assert (∀ reply c st candidate, let x := default_reply reply c st (Some b) capacity candidate in
    x.1.1 ≠ ZCL_CODEC_OK → x.1.2 = Some b) as Hd.
  { intros reply c st candidate. unfold default_reply. specialize (He (reply ZCL_COMMAND_DEFAULT_RESPONSE) [c; st] 2 (d_length candidate)).
    by destruct (zcl_frame_encode _ _ _ _ _ _) as [[[] ?] [?|]]. }
  cbv zeta. unfold dispatch_frame. destruct (_ && (_ =? ZCL_COMMAND_DEFAULT_RESPONSE)).
  { unfold default_received. by repeat (match goal with |- context [if ?c then _ else _] => destruct c end). }
  destruct (_ && is_write _).
  { unfold zcl_wr_handle. destruct (write_loop _ _ _ _ _ _) as [|[rc st]]; [done|].
    destruct (_ && _); [done|]. destruct (_ =? ZCL_COMMAND_WRITE_NO_RESPONSE); [by destruct (bool_decide _)|].
    destruct (bool_decide (rc = ZCL_CODEC_OK)); cbv beta iota zeta;
      match goal with |- context [zcl_frame_encode (Some ?h) (Some ?p) ?m _ _ (Some ?l)] => specialize (He h p m l) end;
      by destruct (zcl_frame_encode _ _ _ _ _ _) as [[[] ?] [?|]]. }
  destruct (_ && (_ =? ZCL_COMMAND_WRITE_NO_RESPONSE)); [done|].
  destruct (_ && (_ =? ZCL_COMMAND_READ_ATTRIBUTES)).
  { pose proof (zcl_read_attrs_unchanged (Some s) (Some q) n (Some b) capacity (Some zero_read)) as Hr.
    destruct (zcl_read_attrs_unicast _ _ _ _ _ _) as [[[] r] [read|]]; cbn in *; intros H; try done; by apply Hr. }
  destruct (_ && (_ =? ZCL_COMMAND_DISCOVER_ATTRIBUTES)); [|by apply Hd].
  destruct (_ <? 3); [by apply Hd|]. destruct (_ && _); [done|]. unfold discover.
  destruct (_ <? _); [done|]. destruct (discover_loop _ _ _ _ _ _ _) as [|[[complete records] count]]; [done|].
  match goal with |- context [zcl_frame_encode (Some ?h) (Some ?p) ?m _ _ (Some ?l)] => specialize (He h p m l) end.
  by destruct (zcl_frame_encode _ _ _ _ _ _) as [[[] ?] [?|]].
Qed.
(** C30: what the caller is told to do.  On every error both outputs are as before.  On success the
    description says which of three things happened, and the caller goes by it: a Default
    Response was received, its command and status reported, and there is nothing to send; a
    Write No Response was carried out, and there is nothing to send; or there is a reply of the
    given length in the buffer, which the sender of the request decodes as a frame back to it
    with its sequence number that asks for no default response: the response to its
    command, or a default response that names the command and says malformed or unsupported, the
    latter exactly for commands or name spaces that the table does not have. *)
Theorem zcl_dispatch_answers set q n b capacity info0 rc response info :
  is_bytes q → 0 <= n → capacity <= blen b →
  zcl_dispatch_unicast (Some set) (Some q) n (Some b) capacity (Some info0) = (rc, response, info) →
  if decide (rc = ZCL_CODEC_OK)
  then ∃ i frame, info = Some i ∧
    zcl_frame_decode (Some q) n (Some zero_frame) = (ZCL_CODEC_OK, Some frame) ∧
    side_matches set (header frame) = true ∧ reported set q frame b response i
  else response = Some b ∧ info = Some info0.
Proof.
  intros Hq Hn Hc. unfold zcl_dispatch_unicast. destruct (bool_decide_reflect (zcl_attr_set_check (Some set) ≠ ZCL_CODEC_OK)) as [Es|_].
  { intros [= <- <- <-]. by rewrite decide_False by done. }
  destruct (zcl_frame_decode (Some q) n (Some zero_frame)) as [[] [frame|]] eqn:Ed;
    try (intros [= <- <- <-]; by rewrite decide_False by done).
  2: { exfalso. revert Ed. unfold zcl_frame_decode. by repeat case_match. }
  destruct (side_matches set (header frame)) eqn:Em; cbn [negb];
    [|intros [= <- <- <-]; by rewrite decide_False by done].
  pose proof (zcl_dispatch_kept set q n frame b capacity) as Hk.
  destruct (dispatch_frame set q n frame (Some b) capacity) as [[rc1 r1] i1] eqn:E. unfold publish.
  destruct (decide (rc1 = ZCL_CODEC_OK)) as [->|Hne].
  - intros [= <- <- <-]. rewrite decide_True by done. exists i1, frame. split_and!; try done.
    by apply (zcl_dispatch_reported set q n frame b capacity).
  - cbn in Hk. rewrite (Hk Hne). destruct rc1; try done; intros [= <- <- <-]; by rewrite decide_False.
Qed.

(** ** Witnesses *)
Definition sample_table : zcl_attribute_set_t := {|
  attributes := Some [
    {| attribute_id := 0x4000; readable := 1; value := Build_zcl_value_t ZCL_TYPE_UINT16 0 (Some [0; 0]) 2 |};
    {| attribute_id := 7; readable := 0; value := Build_zcl_value_t ZCL_TYPE_ENUM8 0 (Some [4]) 1 |};
    {| attribute_id := 0xfffd; readable := 1; value := Build_zcl_value_t ZCL_TYPE_UINT16 0 (Some [2; 0]) 2 |};
    {| attribute_id := 0; readable := 1; value := Build_zcl_value_t ZCL_TYPE_UINT8 0 (Some [3]) 1 |}];
  count := 4; side := 0; manufacturer_specific := 0; set_manufacturer := 0 |}.
Definition sample_client : zcl_attribute_set_t := {|
  attributes := None; count := 0; side := 1; manufacturer_specific := 0; set_manufacturer := 0 |}.
Definition sample_discover : bytes := [0x00; 9; 0x0c; 1; 0; 2].

Lemma zcl_discover_listing_witness :
  ∃ body info,
    zcl_dispatch_unicast (Some sample_table) (Some sample_discover) 6 (Some (replicate 16 170)) 16
      (Some zero_dispatch) = (ZCL_CODEC_OK, Some body, Some info) ∧
    slice body 3 7 = [0; 7; 0; ZCL_TYPE_ENUM8; 0; 0x40; ZCL_TYPE_UINT16] ∧ d_returned info = 2.
Proof.
  destruct (zcl_discover_listing sample_table sample_discover 6
    (Build_zcl_frame_info_t (Build_zcl_header_t 0 0 0 9 0x0c) 0 3 3) (replicate 16 170) 16 zero_dispatch
    ltac:(vm_compute; reflexivity) ltac:(repeat constructor; done) ltac:(repeat constructor; done)
    ltac:(concrete) ltac:(concrete) ltac:(concrete) ltac:(repeat split; vm_compute; done)
    ltac:(concrete) ltac:(right; right; done)) as (body&info&E&_&Hb&_&Hr).
  exists body, info. split; [exact E|]. split; [|exact Hr].
  revert E. vm_compute. intros [= <- <-]. reflexivity.
Defined.

(** An unknown command is answered; that answer, a Default Response, is reported to its receiver as
    one, with nothing to send. *)
Lemma zcl_dispatch_answers_witness :
  ∃ body i i' frame,
    zcl_dispatch_unicast (Some sample_table) (Some [0x00; 7; 0x20]) 3 (Some (replicate 8 170)) 8
      (Some zero_dispatch) = (ZCL_CODEC_OK, Some body, Some i) ∧
    reported sample_table [0x00; 7; 0x20] (Build_zcl_frame_info_t (Build_zcl_header_t 0 0 0 7 0x20) 0 3 0)
      (replicate 8 170) (Some body) i ∧
    zcl_dispatch_unicast (Some sample_client) (Some body) (d_length i) (Some (replicate 8 170)) 8
      (Some zero_dispatch) = (ZCL_CODEC_OK, Some (replicate 8 170), Some i') ∧
    reported sample_client body frame (replicate 8 170) (Some (replicate 8 170)) i' ∧
    kind i' = ZCL_DISPATCH_DEFAULT_RECEIVED ∧ default_command i' = 0x20 ∧ default_status i' = ZCL_STATUS_UNSUP_COMMAND.
Proof.
  eexists [0x18; 7; 0x0b; 0x20; 0x81; 170; 170; 170], _, _, _.
  split; [vm_compute; reflexivity|]. split; [|split; [vm_compute; reflexivity|split; [|by vm_compute]]].
  - destruct (zcl_dispatch_answers sample_table [0x00; 7; 0x20] 3 (replicate 8 170) 8 zero_dispatch ZCL_CODEC_OK
      _ _ ltac:(repeat constructor; done) ltac:(done) ltac:(done) eq_refl) as (i&frame&[= <-]&[= <-]&_&H). exact H.
  - destruct (zcl_dispatch_answers sample_client [0x18; 7; 0x0b; 0x20; 0x81; 170; 170; 170] 5 (replicate 8 170) 8
      zero_dispatch ZCL_CODEC_OK _ _ ltac:(repeat constructor; done) ltac:(done) ltac:(done) eq_refl)
      as (i&frame&[= <-]&[= <-]&_&H). exact H.
Defined.

End ZclDispatch.
