(* ===== verification/ZclIdentify.v ===== *)
(** * The Identify server (src/zcl_identify.c, include/zcl_identify.h)

    IdentifyTime counts down in seconds of a 32-bit millisecond clock, is set by
    the Identify command and by the write commands, and is read back by Query
    and Read Attributes. *)
From S2P Require Import Prelude ZclWire ZclAttributes ZclWrite ZclDispatch.

Module ZclIdentify.
Import Zcl ZclAttributes ZclWrite ZclDispatch.

Definition ZCL_ID_SILENT := ZCL_DISPATCH_SILENT.

Record zcl_id_t := { stamp : Z; remaining : Z; phase : Z }.

(** ** The clock *)
Definition advance (ctx : zcl_id_t) (now : Z) : zcl_codec_result_t + zcl_id_t :=
  let elapsed := u32 (now - stamp ctx) in
  if! (0x80000000 <=? elapsed) || (1000 <=? phase ctx)
      || ((remaining ctx =? 0) && negb (phase ctx =? 0))
    return inl ZCL_CODEC_INVALID_VALUE ;;
  if remaining ctx =? 0 then inr {| stamp := now; remaining := 0; phase := phase ctx |} else
  let elapsed := u32 (elapsed + phase ctx) in
  let seconds := elapsed / 1000 in
  if remaining ctx <=? seconds then inr {| stamp := now; remaining := 0; phase := 0 |}
  else inr {| stamp := now; remaining := u16 (remaining ctx - u16 seconds);
              phase := u16 (elapsed - seconds * 1000) |}.

Definition zcl_id_init (ctx : option zcl_id_t) (now : Z) : zcl_codec_result_t * option zcl_id_t :=
  match ctx with
  | None => (ZCL_CODEC_INVALID_ARGUMENT, None)
  | Some _ => (ZCL_CODEC_OK, Some {| stamp := now; remaining := 0; phase := 0 |})
  end.

Definition zcl_id_tick (ctx : option zcl_id_t) (now : Z) : zcl_codec_result_t * option zcl_id_t :=
  match ctx with
  | None => (ZCL_CODEC_INVALID_ARGUMENT, None)
  | Some c => match advance c now with
              | inl rc => (rc, ctx)
              | inr next => (ZCL_CODEC_OK, Some next)
              end
  end.

(** ** Global commands: a transient table of IdentifyTime and ClusterRevision *)
Definition identify_set (time : Z) : zcl_attribute_set_t := {|
  attributes := Some [
    {| attribute_id := 0; readable := 1;
       value := {| value_type := ZCL_TYPE_UINT16; string_non_value := 0;
                   data := Some [u8 time; u8 (Z.shiftr time 8)]; data_length := 2 |} |};
    {| attribute_id := 0xfffd; readable := 1;
       value := {| value_type := ZCL_TYPE_UINT16; string_non_value := 0;
                   data := Some [2; 0]; data_length := 2 |} |}];
  count := 2; side := 0; manufacturer_specific := 0; set_manufacturer := 0 |}.

(** The writable attribute is IdentifyTime; [value] and [written] are outputs. *)
Definition identify_edit : zcl_wr_t := {| wr_id := 0; wr_value := 0; written := 0 |}.

Definition restarted (next : zcl_id_t) (time : Z) : zcl_id_t :=
  {| stamp := stamp next; remaining := time; phase := 0 |}.

Definition global (next : zcl_id_t) (request : bytes) (frame : zcl_frame_info_t)
    (response : option bytes) (capacity : Z)
    : zcl_codec_result_t * zcl_id_t * option bytes * zcl_dispatch_info_t :=
  let h := header frame in
  let set := identify_set (remaining next) in
  if (type h =? ZCL_FRAME_GLOBAL) && negb (has (flags h) ZCL_FLAG_MANUFACTURER_SPECIFIC)
     && is_write (command_id h)
  then
    let '(rc, response, info, edit) :=
      zcl_wr_handle set frame (drop (Z.to_nat (payload_offset frame)) request) response capacity
        zero_dispatch (Some identify_edit) in
    let next := match edit with
                | Some e => if bool_decide (rc = ZCL_CODEC_OK) && negb (written e =? 0)
                            then restarted next (wr_value e) else next
                | None => next
                end in
    (rc, next, response, info)
  else
    let '(rc, response, info) :=
      zcl_dispatch_unicast (Some set) (Some request)
        (u16 (payload_offset frame + payload_length frame)) response capacity (Some zero_dispatch) in
    (rc, next, response, default zero_dispatch info).

(** ** The cluster's own commands: Identify (0) and Identify Query (1) *)
Definition cluster_header (h : zcl_header_t) (type command : Z) : zcl_header_t := {|
  type := type; flags := Z.lor ZCL_FLAG_SERVER_TO_CLIENT ZCL_FLAG_DISABLE_DEFAULT_RESPONSE;
  manufacturer_code := manufacturer_code h; sequence := sequence h; command_id := command |}.

(** The next state, the payload and header of an answer, and whether there is none. *)
Definition cluster_command (next : zcl_id_t) (request : bytes) (frame : zcl_frame_info_t)
    : zcl_id_t * zcl_header_t * bytes * Z :=
  let h := header frame in
  let default_header := cluster_header h ZCL_FRAME_GLOBAL ZCL_COMMAND_DEFAULT_RESPONSE in
  if command_id h =? 0 then
    if payload_length frame <? 2
    then (next, default_header, [command_id h; ZCL_STATUS_MALFORMED_COMMAND], ZCL_DISPATCH_RESPONSE)
    else (restarted next (read_le16 request (payload_offset frame)), default_header,
          [command_id h; ZCL_STATUS_SUCCESS],
          if has (flags h) ZCL_FLAG_DISABLE_DEFAULT_RESPONSE then ZCL_ID_SILENT
          else ZCL_DISPATCH_RESPONSE)
  else if remaining next =? 0
  then (next, default_header, [command_id h; ZCL_STATUS_SUCCESS], ZCL_ID_SILENT)
  else (next, cluster_header h ZCL_FRAME_CLUSTER_SPECIFIC 0,
        [u8 (remaining next); u8 (Z.shiftr (remaining next) 8)], ZCL_DISPATCH_RESPONSE).

Definition cluster (next : zcl_id_t) (request : bytes) (frame : zcl_frame_info_t)
    (response : option bytes) (capacity : Z)
    : zcl_codec_result_t * zcl_id_t * option bytes * zcl_dispatch_info_t :=
  let '(next, reply, payload, silence) := cluster_command next request frame in
  let candidate := zero_dispatch <| d_sequence := sequence (header frame) |>
                                 <| kind := silence |> in
  if! silence =? ZCL_ID_SILENT return (ZCL_CODEC_OK, next, response, candidate) ;;
  match zcl_frame_encode (Some reply) (Some payload) 2 response capacity (Some 0) with
  | (ZCL_CODEC_OK, response, Some length) =>
      let candidate := candidate <| d_length := length |> <| d_command := command_id reply |> in
      (ZCL_CODEC_OK, next, response,
       if type reply =? ZCL_FRAME_GLOBAL
       then candidate <| default_command := rd payload 0 |> <| default_status := rd payload 1 |>
                      <| default_raw_status := rd payload 1 |>
       else candidate)
  | (status, response, _) => (status, next, response, candidate)
  end.

(** ** The receiver.  [ctx] is the state, [response] and [info] the caller's outputs. *)
Definition zcl_id_rx (ctx : option zcl_id_t) (now : Z) (request : option bytes) (length : Z)
    (response : option bytes) (capacity : Z) (info : option zcl_dispatch_info_t)
    : zcl_codec_result_t * option zcl_id_t * option bytes * option zcl_dispatch_info_t :=
  match ctx, request, response, info with
  | Some c, Some q, Some _, Some _ =>
      match advance c now with
      | inl rc => (rc, ctx, response, info)
      | inr next =>
          match zcl_frame_decode request length (Some zero_frame) with
          | (ZCL_CODEC_OK, Some frame) =>
              let h := header frame in
              if! has (flags h) ZCL_FLAG_SERVER_TO_CLIENT
                return (ZCL_CODEC_UNSUPPORTED_CONTEXT, ctx, response, info) ;;
              match (if negb (type h =? ZCL_FRAME_CLUSTER_SPECIFIC)
                        || has (flags h) ZCL_FLAG_MANUFACTURER_SPECIFIC || (1 <? command_id h)
                     then global next q frame response capacity
                     else cluster next q frame response capacity) with
              | (ZCL_CODEC_OK, next, response, candidate) =>
                  (ZCL_CODEC_OK, Some next, response, Some candidate)
              | (rc, _, response, _) => (rc, ctx, response, info)
              end
          | (rc, _) => (rc, ctx, response, info)
          end
      end
  | _, _, _, _ => (ZCL_CODEC_INVALID_ARGUMENT, ctx, response, info)
  end.

(** ** Specification: in true time, the time left of the last value [v], given at time [T] *)
Definition seconds_left (v T t : Z) : Z := Z.max 0 (v - (t - T) / 1000).
Definition view (v T t : Z) : zcl_id_t := {|
  stamp := u32 t;
  remaining := seconds_left v T t;
  phase := if seconds_left v T t =? 0 then 0 else (t - T) mod 1000 |}.

(** The value a frame asks for: by Identify, or by a write command that stores one. *)
Definition asked_by_write (frame : zcl_frame_info_t) (payload : bytes) : option Z :=
  match write_loop (length (slice payload 0 (payload_length frame))) (identify_set 0)
          (Some identify_edit) ZCL_CODEC_TRUNCATED (slice payload 0 (payload_length frame))
          start_state with
  | inr (ZCL_CODEC_OK, st) =>
      if (wrote st =? 0) || (negb (blen (body st) =? 0)
                             && (command_id (header frame) =? ZCL_COMMAND_WRITE_UNDIVIDED))
      then None else Some (last st)
  | _ => None
  end.
Definition asked (q : bytes) (n : Z) : option Z :=
  match zcl_frame_decode (Some q) n (Some zero_frame) with
  | (ZCL_CODEC_OK, Some frame) =>
      let h := header frame in
      let payload := drop (Z.to_nat (payload_offset frame)) q in
      if has (flags h) ZCL_FLAG_MANUFACTURER_SPECIFIC then None
      else if type h =? ZCL_FRAME_CLUSTER_SPECIFIC then
        if (command_id h =? 0) && (2 <=? payload_length frame) then Some (read_le16 payload 0)
        else None
      else if is_write (command_id h) then asked_by_write frame payload else None
  | _ => None
  end.

(** The histories of one context: [v] is the last value that a successful call was asked for, at
    true time [T]; [t] is the true time of the last successful call.  Every call comes within
    2^31 milliseconds after it, whatever its result. *)
Inductive history : zcl_id_t → Z → Z → Z → Prop :=
  | history_init t c c' :
      zcl_id_init (Some c) (u32 t) = (ZCL_CODEC_OK, Some c') → history c' 0 t t
  | history_tick c v T t now rc c' :
      history c v T t → t <= now < t + 2 ^ 31 →
      zcl_id_tick (Some c) (u32 now) = (rc, Some c') →
      history c' v T (if bool_decide (rc = ZCL_CODEC_OK) then now else t)
  | history_rx c v T t now q n b capacity rc c' response info info0 :
      history c v T t → t <= now < t + 2 ^ 31 → is_bytes q → 0 <= n <= blen q →
      zcl_id_rx (Some c) (u32 now) (Some q) n (Some b) capacity (Some info0)
        = (rc, Some c', response, info) →
      history c'
        (if bool_decide (rc = ZCL_CODEC_OK) then default v (asked q n) else v)
        (if bool_decide (rc = ZCL_CODEC_OK) && bool_decide (is_Some (asked q n)) then now else T)
        (if bool_decide (rc = ZCL_CODEC_OK) then now else t).

(** ** The clock follows true time across the wrap of its 32 bits *)
Lemma zcl_id_division T t now :
  T <= t → t <= now →
  let q := (t - T) / 1000 in let r := (t - T) mod 1000 in let e := now - t + r in
  0 <= q ∧ 0 <= r < 1000 ∧ (now - T) / 1000 = q + e / 1000 ∧ (now - T) mod 1000 = e - e / 1000 * 1000 ∧
  0 <= e / 1000 ∧ 0 <= e - e / 1000 * 1000 < 1000.
Proof.
  intros HT Hn q r e. subst q r e. split; [apply Z.div_pos; lia|].
  split; [apply Z.mod_pos_bound; lia|]. Z.div_mod_to_equations. lia.
Qed.
Lemma zcl_id_advance v T t now :
  is_u16 v → T <= t → t <= now < t + 2 ^ 31 →
  advance (view v T t) (u32 now) = inr (view v T now).
Proof.
  intros Hv HT Hnow. change (2 ^ 31) with 2147483648 in Hnow.
  unfold advance, view, seconds_left. cbn [stamp remaining phase].
  assert (u32 (u32 now - u32 t) = now - t) as -> by (clear -Hnow; width).
  destruct (zcl_id_division T t now) as (Hq&Hr&->&->&Hx&Hy); [lia..|].
  set (q := (t - T) / 1000) in *. set (r := (t - T) mod 1000) in *.
  set (x := (now - t + r) / 1000) in *. clearbody q r. unfold is_u16 in Hv.
  replace (0x80000000 <=? now - t) with false by lia. cbn [orb].
  destruct (Z.eqb_spec (Z.max 0 (v - q)) 0) as [Ez|Ez]; cbn [negb andb orb].
  - by replace (Z.max 0 (v - (q + x))) with 0 by lia.
  - replace (1000 <=? r) with false by lia. rewrite u32_id by (unfold is_u32; lia). fold x.
    clearbody x. destruct (Z.max 0 (v - q) <=? x) eqn:E.
    + by replace (Z.max 0 (v - (q + x))) with 0 by lia.
    + rewrite (u16_id x), !u16_id by (unfold is_u16; lia).
      replace (Z.max 0 (v - (q + x)) =? 0) with false by lia. f_equal. f_equal. lia.
Qed.
Lemma zcl_id_restarted v T t v' :
  is_u16 v' → restarted (view v T t) v' = view v' t t.
Proof.
  intros Hv. unfold restarted, view, seconds_left. cbn [stamp]. rewrite Z.sub_diag.
  change (0 / 1000) with 0. change (0 mod 1000) with 0. rewrite Z.sub_0_r, Z.max_r by width.
  by case_match.
Qed.

(** ** What a call does to the state *)
Lemma zcl_id_declared time : declared (identify_set time) (Some identify_edit).
Proof. intros e a [= <-] [= <-]. done. Qed.
(** Judging a record does not look at the values of the table. *)
Lemma zcl_id_judge time edit i ty : judge (identify_set time) edit i ty = judge (identify_set 0) edit i ty.
Proof.
  unfold judge, find_attribute, identify_set, entries. cbn [attributes count default from_option id].
  change (Z.to_nat 2) with 2%nat. cbn [take]. rewrite !filter_cons, !filter_nil. cbn [attribute_id].
  by destruct (decide (0 = i)), (decide (65533 = i)).
Qed.
Lemma zcl_id_write_loop time edit fuel rc p st :
  write_loop fuel (identify_set time) edit rc p st = write_loop fuel (identify_set 0) edit rc p st.
Proof.
  revert rc p st. induction fuel as [|fuel IH]; intros rc p st; [done|]. cbn [write_loop].
  destruct (blen p =? 0); [done|]. destruct (blen p <? 3); [done|].
  destruct (extent _ _) as [[] n]; try done. rewrite zcl_id_judge.
  by destruct (judge _ _ _ _).
Qed.

(** The edit of a write handler that succeeds. *)
Lemma zcl_wr_handle_edit s frame payload response capacity info e r i e' :
  zcl_wr_handle s frame payload response capacity info (Some e) = (ZCL_CODEC_OK, r, i, e') →
  ∃ rc st, write_loop (length (slice payload 0 (payload_length frame))) s (Some e) ZCL_CODEC_TRUNCATED
             (slice payload 0 (payload_length frame)) start_state = inr (rc, st) ∧
  e' = applied (Some e)
         (if bool_decide (rc = ZCL_CODEC_OK)
             && negb (negb (blen (body st) =? 0)
                      && (command_id (header frame) =? ZCL_COMMAND_WRITE_UNDIVIDED))
          then wrote st else 0) (last st).
Proof.
  unfold zcl_wr_handle. fold start_state.
  destruct (write_loop _ _ _ _ _ _) as [st|[rc st]] eqn:El;
    [apply zcl_write_loop_inl in El as ->; done|].
  intros H. exists rc, st. split; [done|]. revert H.
  destruct (decide (rc = ZCL_CODEC_OK)) as [->|Hrc].
  - rewrite !(bool_decide_eq_false_2 (ZCL_CODEC_OK ≠ ZCL_CODEC_OK)) by (intros []; done).
    rewrite (bool_decide_eq_true_2 (ZCL_CODEC_OK = ZCL_CODEC_OK)) by done. cbn [andb].
    destruct (Z.eqb_spec (command_id (header frame)) ZCL_COMMAND_WRITE_NO_RESPONSE) as [Ec|Ec].
    { intros [= <- <- <-]. by rewrite Ec, andb_false_r. }
    cbv beta iota zeta.
    destruct (zcl_frame_encode_length (Some (reply_header (header frame) ZCL_COMMAND_WRITE_RESPONSE))
      (Some (if blen (body st) =? 0 then [ZCL_STATUS_SUCCESS] else body st))
      (blen (if blen (body st) =? 0 then [ZCL_STATUS_SUCCESS] else body st)) response capacity 0) as (st'&ob&len&->). destruct st'; try done.
    intros [= <- <- <-]. by destruct (negb (blen (body st) =? 0) && _).
  - rewrite (bool_decide_eq_false_2 (rc = ZCL_CODEC_OK)) by done. cbn [andb].
    destruct (bool_decide _ && _); [by intros [= ? _ _ _]|].
    rewrite (bool_decide_eq_true_2 (rc ≠ ZCL_CODEC_OK)) by done.
    destruct (_ =? ZCL_COMMAND_WRITE_NO_RESPONSE); [by intros [= ? _ _ _]|]. cbv beta iota zeta.
    destruct (zcl_frame_encode_length (Some (reply_header (header frame) ZCL_COMMAND_DEFAULT_RESPONSE))
      (Some [command_id (header frame); ZCL_STATUS_MALFORMED_COMMAND])
      (blen [command_id (header frame); ZCL_STATUS_MALFORMED_COMMAND]) response capacity 0) as (st'&ob&len&->). destruct st'; try done.
    by intros [= <- <- <-].
Qed.

(** The global commands change the state only by a stored write. *)
Lemma zcl_id_global next q frame response capacity next' r i :
  global next q frame response capacity = (ZCL_CODEC_OK, next', r, i) →
  next' = match (if (type (header frame) =? ZCL_FRAME_GLOBAL)
                    && negb (has (flags (header frame)) ZCL_FLAG_MANUFACTURER_SPECIFIC)
                    && is_write (command_id (header frame))
                 then asked_by_write frame (drop (Z.to_nat (payload_offset frame)) q) else None)
          with Some v => restarted next v | None => next end.
Proof.
  unfold global. destruct (_ && _ && _).
  - destruct (zcl_wr_handle _ _ _ _ _ _ _) as [[[rc r'] i'] e'] eqn:Eh. intros [= -> <- <- <-].
    apply zcl_wr_handle_edit in Eh as (rc&st&El&->). unfold asked_by_write.
    rewrite zcl_id_write_loop in El. rewrite El. cbn [applied fmap option_fmap option_map].
    change (bool_decide (ZCL_CODEC_OK = ZCL_CODEC_OK)) with true. cbn [andb written wr_value].
    destruct rc; cbn [andb bool_decide]; try done.
    rewrite bool_decide_eq_true_2 by done. cbn [andb].
    destruct (negb (blen (body st) =? 0) && _); cbn [negb orb]; [by rewrite orb_true_r|].
    rewrite orb_false_r. by destruct (wrote st =? 0).
  - by destruct (zcl_dispatch_unicast _ _ _ _ _ _) as [[rc r'] i']; intros [= _ <- _ _].
Qed.

Lemma zcl_id_cluster next q frame response capacity rc next' r i :
  cluster next q frame response capacity = (rc, next', r, i) → command_id (header frame) <= 1 →
  0 <= command_id (header frame) → 0 <= payload_offset frame →
  next' = match (if (command_id (header frame) =? 0) && (2 <=? payload_length frame)
                 then Some (read_le16 (drop (Z.to_nat (payload_offset frame)) q) 0) else None)
          with Some v => restarted next v | None => next end.
Proof.
  intros H Hc Hc0 Ho. rewrite read_le16_drop by done.
  assert (next' = (cluster_command next q frame).1.1.1) as ->.
  { revert H. unfold cluster. destruct (cluster_command next q frame) as [[[n1 h1] p1] s1].
    destruct (s1 =? ZCL_ID_SILENT); [by intros [= _ <- _ _]|].
    destruct (zcl_frame_encode _ _ _ _ _ _) as [[[] ob] [len|]]; by intros [= _ <- _ _]. }
  unfold cluster_command. destruct (command_id (header frame) =? 0); cbn [andb].
  - rewrite Z.ltb_antisym. by destruct (2 <=? payload_length frame).
  - by destruct (remaining next =? 0).
Qed.

Lemma zcl_id_rx_effect c now next q n b capacity info0 rc c' response info :
  advance c now = inr next → is_bytes q → 0 <= n →
  zcl_id_rx (Some c) now (Some q) n (Some b) capacity (Some info0) = (rc, Some c', response, info) →
  if bool_decide (rc = ZCL_CODEC_OK)
  then c' = match asked q n with Some v => restarted next v | None => next end
  else c' = c.
Proof.
  intros Ha Hq Hn. unfold zcl_id_rx, asked. rewrite Ha.
  destruct (zcl_frame_decode (Some q) n (Some zero_frame)) as [[] [frame|]] eqn:Ed;
    try (intros [= <- <- _ _]; done).
  2: { unfold zcl_frame_decode in Ed. by repeat case_match. }
  apply zcl_frame_decode_facts in Ed as (((Ht&_)&_&_&_&Hc)&Ht1&_&_&Eo&_); [|done..].
  pose proof (zcl_header_size_range (flags (header frame))). unfold is_u8 in Hc.
  destruct (has (flags (header frame)) ZCL_FLAG_SERVER_TO_CLIENT); [by intros [= <- <- _ _]|].
  destruct (negb (type (header frame) =? ZCL_FRAME_CLUSTER_SPECIFIC)
            || has (flags (header frame)) ZCL_FLAG_MANUFACTURER_SPECIFIC
            || (1 <? command_id (header frame))) eqn:Eg.
  - destruct (global next q frame (Some b) capacity) as [[[[] next'] r] i] eqn:E;
      try (intros [= <- <- _ _]; done).
    intros [= <- <- _ _]. apply zcl_id_global in E as ->. cbn [bool_decide].
    unfold ZCL_FRAME_GLOBAL, ZCL_FRAME_CLUSTER_SPECIFIC in *.
    destruct (has (flags (header frame)) ZCL_FLAG_MANUFACTURER_SPECIFIC);
      [by rewrite andb_false_r|]. cbn [negb]. rewrite andb_true_r.
    destruct (Z.eqb_spec (type (header frame)) 1) as [E1|E1].
    + rewrite E1 in *. cbn [Z.eqb Pos.eqb negb orb] in Eg. cbn [Z.eqb andb].
      by replace (command_id (header frame) =? 0) with false by lia.
    + replace (type (header frame) =? 0) with true by (unfold is_u8 in Ht; lia). cbn [andb].
      by destruct (is_write _).
  - apply orb_false_iff in Eg as [[Et Ef]%orb_false_iff Eg].
    apply negb_false_iff in Et. rewrite Et, Ef.
    destruct (cluster next q frame (Some b) capacity) as [[[[] next'] r] i] eqn:E;
      try (intros [= <- <- _ _]; done).
    intros [= <- <- _ _]. by apply zcl_id_cluster in E as ->; [|lia..].
Qed.

(** A value asked for is a 16-bit number. *)
Lemma zcl_asked_by_write_u16 frame p v :
  is_bytes p → asked_by_write frame p = Some v → is_u16 v.
Proof.
  intros Hp. unfold asked_by_write.
  destruct (zcl_write_loop_any (identify_set 0) (Some identify_edit) (slice p 0 (payload_length frame)))
    as (rs&rc&Hrs&->&_); [apply zcl_id_declared|by apply is_bytes_slice|].
  destruct rc; try done. set (st := after_records _ _ _ _).
  destruct (Z.eqb_spec (wrote st) 0) as [|Hw]; [done|]. cbn [orb].
  destruct (_ && _); [done|]. intros [= <-]. revert Hw. unfold st, after_records, start_state, outcome_of.
  cbn [wrote last].
  destruct (list.last (accepted (identify_set 0) (Some identify_edit) rs)) as [r|] eqn:El; [|done].
  intros _. cbn [fmap option_fmap option_map default from_option id].
  apply list.last_Some_elem_of, list_elem_of_filter in El as [Hv Hin].
  pose proof (proj1 (list.Forall_forall _ _) Hrs r Hin) as Hr.
  pose proof (zcl_accepted_octets _ _ _ (zcl_id_declared 0) Hr Hv) as Hl.
  destruct Hr as (_&_&Ho&_). pose proof (le_value_range _ Ho) as Hle. by rewrite Hl in Hle.
Qed.
Lemma zcl_asked_u16 q n v : is_bytes q → asked q n = Some v → is_u16 v.
Proof.
  intros Hq. unfold asked. destruct (zcl_frame_decode _ _ _) as [[] [frame|]]; try done.
  destruct (has _ _); [done|]. assert (is_bytes (drop (Z.to_nat (payload_offset frame)) q)) as Hd
    by by apply Forall_drop.
  destruct (type (header frame) =? _).
  - destruct (_ && _); [|done]. intros [= <-]. by apply read_le16_range.
  - destruct (is_write _); [|done]. by apply zcl_asked_by_write_u16.
Qed.

Lemma zcl_id_tracks_history c v T t :
  history c v T t → c = view v T t ∧ is_u16 v ∧ T <= t.
Proof.
  induction 1 as [t c c' [= <-]|c v T t now rc c' _ (->&Hv&HT) Hnow H
                 |c v T t now q n b capacity rc c' response info info0 _ (->&Hv&HT) Hnow Hq Hn H].
  - split; [|by split; [|lia]]. unfold view, seconds_left. by rewrite Z.sub_diag.
  - revert H. unfold zcl_id_tick. rewrite zcl_id_advance by done. intros [= <- <-].
    rewrite bool_decide_eq_true_2 by done. split; [done|]. by split; [|lia].
  - pose proof (zcl_id_rx_effect _ _ _ _ _ _ _ _ _ _ _ _ (zcl_id_advance v T t now Hv HT Hnow) Hq
      (proj1 Hn) H) as He.
    case_bool_decide as Hrc; [|done].
    destruct (asked q n) as [v'|] eqn:Ea; cbn [default from_option id].
    + apply zcl_asked_u16 in Ea as Hv'; [|done]. rewrite zcl_id_restarted in He by done.
      rewrite bool_decide_eq_true_2 by done. cbn [andb]. split; [done|]. by split; [|lia].
    + rewrite bool_decide_eq_false_2 by (by intros [? ?]). cbn [andb].
      split; [done|]. by split; [|lia].
Qed.

(** C31: after any history of ticks and requests, whatever they held and whichever of them failed,
    the state is the one of true time: IdentifyTime is the last value a successful request was
    asked to set, less the whole seconds of true time since then, never below zero, and the
    phase is the fraction of the current second, across every wrap of the 32-bit clock. *)
Theorem zcl_id_tracks_time c v T t : history c v T t → c = view v T t.
Proof. intros H. by apply zcl_id_tracks_history in H as [? _]. Qed.

(** A Query is answered with the time left in true time, and not at all once it is over; a
    client decodes the answer to that number.  It never changes the time. *)
Theorem zcl_id_query_answered c v T t now q n frame b capacity info0 :
  history c v T t → t <= now < t + 2 ^ 31 → is_bytes q → 0 <= n <= blen q → capacity <= blen b →
  zcl_frame_decode (Some q) n (Some zero_frame) = (ZCL_CODEC_OK, Some frame) →
  type (header frame) = ZCL_FRAME_CLUSTER_SPECIFIC → command_id (header frame) = 1 →
  has (flags (header frame)) ZCL_FLAG_MANUFACTURER_SPECIFIC = false →
  has (flags (header frame)) ZCL_FLAG_SERVER_TO_CLIENT = false →
  let left := seconds_left v T now in
  if left =? 0 then
    zcl_id_rx (Some c) (u32 now) (Some q) n (Some b) capacity (Some info0)
    = (ZCL_CODEC_OK, Some (view v T now), Some b,
       Some (zero_dispatch <| d_sequence := sequence (header frame) |> <| kind := ZCL_ID_SILENT |>))
  else 5 <= capacity →
    ∃ body info,
      zcl_id_rx (Some c) (u32 now) (Some q) n (Some b) capacity (Some info0)
      = (ZCL_CODEC_OK, Some (view v T now), Some body, Some info) ∧
      zcl_frame_decode (Some body) (d_length info) (Some zero_frame)
      = (ZCL_CODEC_OK,
         Some {| header := cluster_header (header frame) ZCL_FRAME_CLUSTER_SPECIFIC 0;
                 ignored_control_bits := 0; payload_offset := 3; payload_length := 2 |}) ∧
      read_le16 (slice body 3 2) 0 = left.
Proof.
  intros Hh Hnow Hq Hn Hcap Hd Hty Hcmd Hmf Hs2c left.
  apply zcl_id_tracks_history in Hh as (->&Hv&HT).
  unfold zcl_id_rx. rewrite zcl_id_advance, Hd, Hs2c, Hty, Hmf, Hcmd by done.
  cbn [negb orb Z.eqb Pos.eqb Z.ltb Z.compare Pos.compare Pos.compare_cont].
  unfold cluster, cluster_command. rewrite Hcmd. cbn [Z.eqb].
  change (remaining (view v T now)) with left.
  destruct (left =? 0) eqn:El; [reflexivity|]. intros Hc5.
  set (h := cluster_header (header frame) ZCL_FRAME_CLUSTER_SPECIFIC 0).
  set (p := [u8 left; u8 (Z.shiftr left 8)]).
  apply zcl_frame_decode_facts in Hd as ((_&_&Hm&Hs&_)&_&_&Hnorm&_);
    [|done|lia].
  destruct (zcl_frame_reply h p b capacity zero_frame) as (body&len&Ee&->&Edec&Esl);
    try (done || lia).
  change (blen p) with 2 in *. change (header_size (flags h)) with 3 in *.
  change (ZCL_DISPATCH_RESPONSE =? ZCL_ID_SILENT) with false. cbv beta iota zeta. rewrite Ee.
  eexists body, _. split; [reflexivity|]. rewrite Esl. split.
  - replace (normalise h) with h in Edec; [exact Edec|].
    apply (f_equal manufacturer_code) in Hnorm. unfold normalise in *.
    cbn [manufacturer_code] in Hnorm. rewrite Hmf in Hnorm. unfold h, cluster_header.
    cbn [type flags manufacturer_code sequence command_id]. by rewrite <- Hnorm.
  - apply read_le16_bytes; [|done..]. subst left. unfold seconds_left, is_u16 in *.
    pose proof (Z.div_pos (now - T) 1000). lia.
Qed.

(** ** Witnesses *)
Definition sample_id : zcl_id_t := {| stamp := 7; remaining := 9; phase := 3 |}.
Definition identify_90 : bytes := [0x01; 4; 0x00; 90; 0].
Definition identify_query : bytes := [0x01; 5; 0x01].
(** Idle at 2^32 - 5000 ms, told to identify for 90 s a second later, 30.5 s on, past the wrap. *)
Lemma history_is c c' v v' T T' t t' :
  history c v T t → c = c' → v = v' → T = T' → t = t' → history c' v' T' t'.
Proof. by intros ? -> -> -> ->. Defined.
Lemma sample_history : history (view 90 (2 ^ 32 - 4000) (2 ^ 32 + 26500)) 90 (2 ^ 32 - 4000) (2 ^ 32 + 26500).
Proof.
  eapply history_is;
    [eapply (history_tick (view 90 (2 ^ 32 - 4000) (2 ^ 32 - 4000)) 90 (2 ^ 32 - 4000) (2 ^ 32 - 4000)
       (2 ^ 32 + 26500) ZCL_CODEC_OK); [|done|vm_compute; reflexivity]|vm_compute; reflexivity..].
  eapply history_is;
    [eapply (history_rx (view 0 (2 ^ 32 - 5000) (2 ^ 32 - 5000)) 0 (2 ^ 32 - 5000) (2 ^ 32 - 5000)
       (2 ^ 32 - 4000) identify_90 5 (replicate 8 170) 8 ZCL_CODEC_OK _ _ _ zero_dispatch);
     [|done|concrete|concrete|vm_compute; reflexivity]|vm_compute; reflexivity..].
  by apply (history_init _ sample_id).
Defined.
Lemma zcl_id_tracks_time_witness :
  view 90 (2 ^ 32 - 4000) (2 ^ 32 + 26500) = {| stamp := 26500; remaining := 60; phase := 500 |} ∧
  view 90 (2 ^ 32 - 4000) (2 ^ 32 + 26500) = view 90 (2 ^ 32 - 4000) (2 ^ 32 + 26500).
Proof.
  split; [vm_compute; reflexivity|]. exact (zcl_id_tracks_time _ _ _ _ sample_history).
Defined.
Lemma zcl_id_query_answered_witness :
  ∃ body info,
    zcl_id_rx (Some (view 90 (2 ^ 32 - 4000) (2 ^ 32 + 26500))) (u32 (2 ^ 32 + 27600))
      (Some identify_query) 3 (Some (replicate 8 170)) 8 (Some zero_dispatch)
    = (ZCL_CODEC_OK, Some (view 90 (2 ^ 32 - 4000) (2 ^ 32 + 27600)), Some body, Some info) ∧
    zcl_frame_decode (Some body) (d_length info) (Some zero_frame)
    = (ZCL_CODEC_OK, Some (Build_zcl_frame_info_t (Build_zcl_header_t 1 0x18 0 5 0) 0 3 2)) ∧
    read_le16 (slice body 3 2) 0 = 59.
Proof.
  exact (zcl_id_query_answered _ _ _ _ (2 ^ 32 + 27600) identify_query 3
    (Build_zcl_frame_info_t (Build_zcl_header_t 1 0 0 5 1) 0 3 0) (replicate 8 170) 8 zero_dispatch
    sample_history ltac:(done) ltac:(concrete) ltac:(concrete) ltac:(concrete)
    ltac:(vm_compute; reflexivity) eq_refl eq_refl eq_refl eq_refl ltac:(done)).
Defined.

End ZclIdentify.
