(* ===== verification/EdWire.v ===== *)
(** * End-device wire packets, src/src/ed_wire.c

    The packet syntax of the end device (NWK data and command, APS data, command and
    acknowledgement) over the codecs of NwkFrame.v and ApsFrame.v, and its frame protection over
    the AEAD of Ccm.v: the one security level the device uses.  The private buffers are values;
    every path of the code wipes them, and no octet of an earlier call is read. *)
From S2P Require Import Prelude ApsFrame NwkFrame BlockCipher Ccm Security.
Import BlockCipher.

Module EdWire.
Import Security.

(** ** Data (include/ed_wire.h) *)
Definition ED_PAYLOAD_MAX := 82.
Definition ED_APS_COMMAND := 1.
Definition ED_APS_ACK := 2.
Definition ED_NWK_COMMAND := 1.

Record ed_packet_t := {
  nwk : Nwk.nwk_header_t;
  aps : Aps.aps_header_t;
  p_length : Z;
  p_payload : bytes
}.
#[export] Instance ed_packet_fields : Fields ed_packet_t := λ p, {|
  nwk := nwk p; aps := aps p; p_length := p_length p; p_payload := p_payload p |}.
#[export] Instance nwk_header_fields : Fields Nwk.nwk_header_t := λ h, {|
  Nwk.type := Nwk.type h; Nwk.version := Nwk.version h; Nwk.discover_route := Nwk.discover_route h;
  Nwk.flags := Nwk.flags h; Nwk.destination := Nwk.destination h; Nwk.source := Nwk.source h;
  Nwk.radius := Nwk.radius h; Nwk.sequence := Nwk.sequence h;
  Nwk.destination_ieee := Nwk.destination_ieee h; Nwk.source_ieee := Nwk.source_ieee h |}.
#[export] Instance aps_header_fields : Fields Aps.aps_header_t := λ h, {|
  Aps.type := Aps.type h; Aps.delivery_mode := Aps.delivery_mode h; Aps.flags := Aps.flags h;
  Aps.destination_endpoint := Aps.destination_endpoint h; Aps.cluster_id := Aps.cluster_id h;
  Aps.profile_id := Aps.profile_id h; Aps.source_endpoint := Aps.source_endpoint h;
  Aps.counter := Aps.counter h |}.
Definition zero_packet : ed_packet_t := {|
  nwk := Nwk.header zero_nwk; aps := Aps.header zero_aps; p_length := 0;
  p_payload := replicate 82 0 |}.
Definition work116 : bytes := replicate 116 0.

(** ** Header readers *)
Definition read_nwk (frame : option bytes) (length : Z) (info : bool)
    : zigbee_security_result_t + Nwk.nwk_frame_info_t :=
  match frame with
  | None => inl ZIGBEE_SECURITY_ARGUMENT
  | Some f =>
      if! negb info return inl ZIGBEE_SECURITY_ARGUMENT ;;
      if! (length <? 8) || (Nwk.NWK_FRAME_MAX_BODY <? length) return inl ZIGBEE_SECURITY_LENGTH ;;
      let type := Z.land (rd f 0) 3 in
      if! ED_NWK_COMMAND <? type return inl ZIGBEE_SECURITY_HEADER ;;
      let h := u8 (8 + (if has (rd f 1) 8 then 8 else 0) + (if has (rd f 1) 16 then 8 else 0)) in
      if! length <? h return inl ZIGBEE_SECURITY_LENGTH ;;
      let b := blit work116 0 (slice f 0 h) in
      let b := wr b 0 (Z.land (rd b 0) 0xfc) in
      let b := wr b 1 (Z.land (rd b 1) (u8 (Z.lnot 2))) in
      match Nwk.nwk_frame_decode (Some b) length (Some zero_nwk) with
      | (Nwk.NWK_CODEC_OK, Some i) =>
          inr {| Nwk.header :=
                   Nwk.header i <| Nwk.type := type |>
                     <| Nwk.flags := Z.lor (Nwk.flags (Nwk.header i))
                                           (u16 (Z.shiftl (Z.land (rd f 1) 2) 8)) |>;
                 Nwk.payload_offset := Nwk.payload_offset i;
                 Nwk.payload_length := Nwk.payload_length i |}
      | _ => inl ZIGBEE_SECURITY_HEADER
      end
  end.

(** The two octets of a command or of a command-format acknowledgement, or the eight of the
    data header, its control octet normalised. *)
Definition aps_syntax (f : bytes) (length : Z) (short_header : bool)
    : zigbee_security_result_t + Aps.aps_frame_info_t :=
  if short_header then
    inr {| Aps.header := Aps.header zero_aps <| Aps.counter := rd f 1 |>;
           Aps.payload_offset := 2; Aps.payload_length := 0 |}
  else
    if! length <? 8 return inl ZIGBEE_SECURITY_LENGTH ;;
    let b := blit work116 0 (slice f 0 8) in
    let b := wr b 0 (Z.land (rd b 0) Aps.APS_FLAG_ACK_REQUEST) in
    match Aps.aps_frame_decode (Some b) length (Some zero_aps) with
    | (Aps.APS_CODEC_OK, Some i) => inr i
    | _ => inl ZIGBEE_SECURITY_HEADER
    end.

Definition read_aps (frame : option bytes) (length : Z) (info : bool)
    : zigbee_security_result_t + Aps.aps_frame_info_t :=
  match frame with
  | None => inl ZIGBEE_SECURITY_ARGUMENT
  | Some f =>
      if! negb info return inl ZIGBEE_SECURITY_ARGUMENT ;;
      if! (length <? 2) || (Aps.APS_FRAME_MAX_BODY <? length) return inl ZIGBEE_SECURITY_LENGTH ;;
      let type := Z.land (rd f 0) 3 in
      let delivery := Z.land (Z.shiftr (rd f 0) 2) 3 in
      let flags := Z.land (rd f 0) 0xf0 in
      let short_header := (type =? ED_APS_COMMAND)
                          || ((type =? ED_APS_ACK) && has flags Aps.APS_FLAG_ACK_FORMAT) in
      if! (ED_APS_ACK <? type)
          || (negb (delivery =? 0) && negb (delivery =? Aps.APS_DELIVERY_BROADCAST))
          || has flags Aps.APS_FLAG_EXTENDED_HEADER
          || (negb (type =? 0) && negb (delivery =? 0))
          || (negb (type =? ED_APS_ACK) && has flags Aps.APS_FLAG_ACK_FORMAT)
          || (((type =? ED_APS_ACK) || negb (delivery =? 0)) && has flags Aps.APS_FLAG_ACK_REQUEST)
        return inl ZIGBEE_SECURITY_HEADER ;;
      match aps_syntax f length short_header with
      | inl r => inl r
      | inr i =>
          inr {| Aps.header := Aps.header i <| Aps.type := type |> <| Aps.delivery_mode := delivery |>
                                 <| Aps.flags := flags |>;
                 Aps.payload_offset := Aps.payload_offset i;
                 Aps.payload_length := u8 (length - Aps.payload_offset i) |}
      end
  end.

(** A public reader publishes the metadata of an accepted header. *)
Definition published {A} (x : zigbee_security_result_t + A) : zigbee_security_result_t * option A :=
  match x with inl r => (r, None) | inr a => (ZIGBEE_SECURITY_OK, Some a) end.
Definition ed_wire_nwk (frame : option bytes) (length : Z) (info : bool) :=
  published (read_nwk frame length info).
Definition ed_wire_aps (frame : option bytes) (length : Z) (info : bool) :=
  published (read_aps frame length info).

(** ** Packets *)

(** The tail of [ed_wire_decode]: the payload copy. *)
Definition packet_body (f : bytes) (packet : ed_packet_t) (offset size : Z)
    : zigbee_security_result_t + ed_packet_t :=
  if! ED_PAYLOAD_MAX <? size return inl ZIGBEE_SECURITY_LENGTH ;;
  inr (packet <| p_length := size |> <| p_payload := blit (p_payload packet) 0 (slice f offset size) |>).

Definition decode (f : bytes) (length : Z) : zigbee_security_result_t + ed_packet_t :=
  match read_nwk (Some f) length true with
  | inl r => inl r
  | inr n =>
      if! has (Nwk.flags (Nwk.header n)) Nwk.NWK_FLAG_SECURITY return inl ZIGBEE_SECURITY_HEADER ;;
      let packet := zero_packet <| nwk := Nwk.header n |> in
      let offset := Nwk.payload_offset n in let size := Nwk.payload_length n in
      if Nwk.type (nwk packet) =? 0 then
        match read_aps (Some (drop (Z.to_nat offset) f)) size true with
        | inl r => inl r
        | inr a =>
            if! has (Aps.flags (Aps.header a)) Aps.APS_FLAG_SECURITY return inl ZIGBEE_SECURITY_HEADER ;;
            let packet := packet <| aps := Aps.header a |> in
            let offset := u8 (offset + Aps.payload_offset a) in let size := Aps.payload_length a in
            if! (Aps.type (aps packet) =? ED_APS_ACK) && negb (size =? 0)
              return inl ZIGBEE_SECURITY_LENGTH ;;
            if! (Aps.type (aps packet) =? ED_APS_COMMAND) && (size =? 0)
              return inl ZIGBEE_SECURITY_LENGTH ;;
            packet_body f packet offset size
        end
      else
        if! size =? 0 return inl ZIGBEE_SECURITY_LENGTH ;;
        packet_body f packet offset size
  end.
Definition ed_wire_decode (frame : option bytes) (length : Z) (packet : bool)
    : zigbee_security_result_t * option ed_packet_t :=
  if! negb packet return (ZIGBEE_SECURITY_ARGUMENT, None) ;;
  match frame with
  | None => (ZIGBEE_SECURITY_ARGUMENT, None)
  | Some f => published (decode f length)
  end.

(** The APDU, or the payload of a NWK command: the octets and their number. *)
Definition aps_control (a : Aps.aps_header_t) : Z :=
  u8 (Z.lor (Z.lor (Aps.type a) (u8 (Z.shiftl (Aps.delivery_mode a) 2))) (Aps.flags a)).
Definition application (a : Aps.aps_header_t) : Aps.aps_header_t :=
  a <| Aps.type := 0 |> <| Aps.delivery_mode := 0 |>
    <| Aps.flags := Z.land (Aps.flags a) Aps.APS_FLAG_ACK_REQUEST |>.
Definition is_short (a : Aps.aps_header_t) : bool :=
  (Aps.type a =? ED_APS_COMMAND) || ((Aps.type a =? ED_APS_ACK) && has (Aps.flags a) Aps.APS_FLAG_ACK_FORMAT).
Definition encode_aps (p : ed_packet_t) : zigbee_security_result_t + (bytes * Z) :=
  let a := aps p in let n := p_length p in
  let control := aps_control a in
  let built :=
    if is_short a then
      inr (blit (wr (wr work116 0 control) 1 (Aps.counter a)) 2 (slice (p_payload p) 0 n), u8 (n + 2))
    else
      match Aps.aps_frame_encode (Some (application a)) (Some (p_payload p)) n (Some work116) 116 (Some 0) with
      | (Aps.APS_CODEC_OK, Some e, Some l) => inr (wr e 0 control, l)
      | _ => inl ZIGBEE_SECURITY_HEADER
      end in
  match built with
  | inl r => inl r
  | inr (e, n) =>
      match read_aps (Some e) n true with
      | inl _ => inl ZIGBEE_SECURITY_HEADER
      | inr _ =>
          if! ((Aps.type a =? ED_APS_ACK) && negb (p_length p =? 0))
              || ((Aps.type a =? ED_APS_COMMAND) && (p_length p =? 0))
            return inl ZIGBEE_SECURITY_HEADER ;;
          inr (e, n)
      end
  end.
Definition encode_body (p : ed_packet_t) : zigbee_security_result_t + (bytes * Z) :=
  if! negb (Nwk.type (nwk p) =? 0)
    return (if! p_length p =? 0 return inl ZIGBEE_SECURITY_LENGTH ;;
            inr (blit work116 0 (slice (p_payload p) 0 (p_length p)), p_length p)) ;;
  encode_aps p.

Definition encode (p : ed_packet_t) (capacity : Z) : zigbee_security_result_t + bytes :=
  if! (ED_PAYLOAD_MAX <? p_length p) || (ED_NWK_COMMAND <? Nwk.type (nwk p))
      || has (Nwk.flags (nwk p)) Nwk.NWK_FLAG_SECURITY || has (Aps.flags (aps p)) Aps.APS_FLAG_SECURITY
    return inl ZIGBEE_SECURITY_ARGUMENT ;;
  if! (Nwk.type (nwk p) =? 0)
      && ((ED_APS_ACK <? Aps.type (aps p)) || (3 <? Aps.delivery_mode (aps p))
          || has (Aps.flags (aps p)) 0x0f)
    return inl ZIGBEE_SECURITY_ARGUMENT ;;
  match encode_body p with
  | inl r => inl r
  | inr (e, n) =>
      match Nwk.nwk_frame_encode (Some (nwk p <| Nwk.type := 0 |>)) (Some e) n (Some work116) 116 (Some 0) with
      | (Nwk.NWK_CODEC_OK, Some b, Some total) =>
          if! capacity <? total return inl ZIGBEE_SECURITY_SPACE ;;
          inr (slice (wr b 0 (Z.lor (rd b 0) (Nwk.type (nwk p)))) 0 total)
      | _ => inl ZIGBEE_SECURITY_HEADER
      end
  end.
(** The octets stored in the caller's frame; their number is stored in its length. *)
Definition ed_wire_encode (packet : option ed_packet_t) (frame : bool) (capacity : Z) (length : bool)
    : zigbee_security_result_t * option bytes :=
  match packet with
  | None => (ZIGBEE_SECURITY_ARGUMENT, None)
  | Some p =>
      if! negb frame || negb length return (ZIGBEE_SECURITY_ARGUMENT, None) ;;
      published (encode p capacity)
  end.

(** ** Frame protection

    [header] gives the header length and, for the APS layer, the frame type; [inspect] the
    metadata of an untrusted auxiliary header. *)
Definition header (layer : Z) (f : bytes) (length : Z) : zigbee_security_result_t + (Z * Z) :=
  if! ZIGBEE_SECURITY_APS <? layer return inl ZIGBEE_SECURITY_ARGUMENT ;;
  if layer =? 0 then
    match read_nwk (Some f) length true with
    | inl r => inl r | inr i => inr (Nwk.payload_offset i, 0)
    end
  else
    match read_aps (Some f) length true with
    | inl r => inl r | inr i => inr (Aps.payload_offset i, Aps.type (Aps.header i))
    end.

(** [frame[layer ? 0 : 1] & (layer ? APS_FLAG_SECURITY : 2)] *)
Definition flag_at (layer : Z) : Z := if layer =? 0 then 1 else 0.
Definition flag_mask (layer : Z) : Z := if layer =? 0 then 2 else Aps.APS_FLAG_SECURITY.
Definition secured (layer : Z) (f : bytes) : bool := has (rd f (flag_at layer)) (flag_mask layer).

Definition inspect (layer : Z) (f : bytes) (length : Z)
    : zigbee_security_result_t + (zigbee_security_meta_t * Z) :=
  match header layer f length with
  | inl r => inl r
  | inr (h, type) =>
      if! negb (secured layer f) return inl ZIGBEE_SECURITY_HEADER ;;
      if! length <? h + 5 return inl ZIGBEE_SECURITY_LENGTH ;;
      let c := rd f h in
      let identifier := Z.land (Z.shiftr c 3) 3 in
      let a := u8 (5 + (if has c 0x20 then 8 else 0) + (if identifier =? 1 then 1 else 0)) in
      if! has c 0xc0 || (length <? h + a + 4) return inl ZIGBEE_SECURITY_LENGTH ;;
      let m := {| m_counter := read_counter f (h + 1);
                  m_source := if has c 0x20 then slice f (h + 5) 8 else replicate 8 0;
                  m_level := 5; m_key_identifier := identifier;
                  m_key_sequence := if identifier =? 1 then rd f (h + a - 1) else 0;
                  m_extended_nonce := Z.land (Z.shiftr c 5) 1; header_length := h;
                  auxiliary_length := a; payload_length := u8 (length - h - a - 4) |} in
      if! m_counter m =? 0xffffffff return inl ZIGBEE_SECURITY_COUNTER ;;
      if! (layer =? 0) && (negb (identifier =? 1) || negb (has c 0x20))
        return inl ZIGBEE_SECURITY_SELECTOR ;;
      if! negb (layer =? 0)
          && ((identifier =? 1) || negb (has c 0x20)
              || (negb (type =? ED_APS_COMMAND) && negb (identifier =? 0)))
        return inl ZIGBEE_SECURITY_SELECTOR ;;
      inr (m, type)
  end.

Definition ed_wire_inspect (layer : Z) (frame : option bytes) (length : Z) (meta_out : bool)
    : zigbee_security_result_t * option zigbee_security_meta_t :=
  match frame with
  | None => (ZIGBEE_SECURITY_ARGUMENT, None)
  | Some f =>
      if! negb meta_out return (ZIGBEE_SECURITY_ARGUMENT, None) ;;
      match inspect layer f length with
      | inl r => (r, None) | inr (m, _) => (ZIGBEE_SECURITY_OK, Some m)
      end
  end.

(** What the two directions hand to the cipher: the working frame, the metadata and the number
    of octets to return. *)
Record crypt_state := { c_frame : bytes; c_meta : zigbee_security_meta_t; c_type : Z; c_total : Z }.

Definition opening (k : zigbee_security_key_t) (f : bytes) (length : Z)
    (i : zigbee_security_meta_t * Z) : zigbee_security_result_t + crypt_state :=
  let '(m, type) := i in
  if! negb (m_key_identifier m =? key_identifier k)
      || ((key_identifier k =? 1) && negb (m_key_sequence m =? key_sequence k))
      || negb (bool_decide (slice (m_source m) 0 8 = slice (source k) 0 8))
    return inl ZIGBEE_SECURITY_SOURCE ;;
  let h := header_length m in
  let b := blit work116 0 (slice f 0 length) in
  inr {| c_frame := wr b h (Z.lor (Z.land (rd b h) 0xf8) 5); c_meta := m; c_type := type;
         c_total := u8 (h + payload_length m) |}.

(** The auxiliary header and the payload behind it, written into the working frame. *)
Definition write_aux (k : zigbee_security_key_t) (f : bytes) (h a p : Z) (b : bytes) : bytes :=
  let b := wr b h (Z.lor 0x25 (u8 (Z.shiftl (key_identifier k) 3))) in
  let b := blit b (h + 1) (counter_bytes (counter k)) in
  let b := blit b (h + 5) (slice (source k) 0 8) in
  let b := if key_identifier k =? 1 then wr b (h + a - 1) (key_sequence k) else b in
  blit b (h + a) (slice f h p).

Definition sealing (layer : Z) (k : zigbee_security_key_t) (f : bytes) (length : Z) (i : Z * Z)
    : zigbee_security_result_t + crypt_state :=
  let '(h, type) := i in
  if! secured layer f return inl ZIGBEE_SECURITY_HEADER ;;
  if! counter k =? 0xffffffff return inl ZIGBEE_SECURITY_COUNTER ;;
  if! negb (layer =? 0) && negb (type =? ED_APS_COMMAND) && negb (key_identifier k =? 0)
    return inl ZIGBEE_SECURITY_SELECTOR ;;
  let a := if key_identifier k =? 1 then 14 else 13 in
  let p := u8 (length - h) in
  let total := u8 (h + a + p + 4) in
  if! (if layer =? 0 then Nwk.NWK_FRAME_MAX_BODY else Aps.APS_FRAME_MAX_BODY) <? total
    return inl ZIGBEE_SECURITY_LENGTH ;;
  let b := blit work116 0 (slice f 0 h) in
  let b := wr b (flag_at layer) (Z.lor (rd b (flag_at layer)) (flag_mask layer)) in
  inr {| c_frame := write_aux k f h a p b;
         c_meta := {| m_counter := counter k; m_source := slice (source k) 0 8; m_level := 5;
                      m_key_identifier := key_identifier k;
                      m_key_sequence := if key_identifier k =? 1 then key_sequence k else 0;
                      m_extended_nonce := 1; header_length := h; auxiliary_length := a;
                      payload_length := p |};
         c_type := type; c_total := total |}.

Section crypt.
Context {D : Type} `{!BlockCipher D}.
Abbreviation outcome :=
  (zigbee_security_result_t * option bytes * option zigbee_security_info_t * D)%type.

(** From the payload check on. *)
Definition crypt_frame (d : D) (open : bool) (layer : Z) (k : zigbee_security_key_t)
    (capacity : Z) (s : crypt_state) : outcome :=
  let m := c_meta s in
  let h := header_length m in let a := auxiliary_length m in let p := payload_length m in
  if! negb (layer =? 0)
      && (((c_type s =? ED_APS_COMMAND) && (p =? 0)) || ((c_type s =? ED_APS_ACK) && negb (p =? 0)))
    return (ZIGBEE_SECURITY_LENGTH, None, None, d) ;;
  if! capacity <? c_total s return (ZIGBEE_SECURITY_SPACE, None, None, d) ;;
  let b := c_frame s in
  let nonce := slice (source k) 0 8 ++ slice b (h + 1) 4 ++ [rd b h] in
  let length := p + (if open then 4 else 0) in
  let '(r, text, written, crypto, d) :=
    Ccm.ccm_star_crypt d (if open then 1 else 0) (Some (key k)) (Some nonce)
      (Some (slice b 0 (h + a))) (h + a) (Some (slice b (h + a) length)) length 4
      true 116 true (Some (limits k)) true in
  match r with
  | Ccm.CCM_STAR_OK =>
      let text := default [] text in
      let b :=
        if open then
          let b := wr b (flag_at layer) (Z.land (rd b (flag_at layer)) (u8 (Z.lnot (flag_mask layer)))) in
          blit b h (slice text 0 p)
        else
          let b := blit b (h + a) (slice text 0 (default 0 written)) in
          wr b h (Z.land (rd b h) 0xf8) in
      (ZIGBEE_SECURITY_OK, Some (slice b 0 (c_total s)),
       Some {| meta := m; crypto := default (Ccm.Build_ccm_star_info_t 0 0 AES_OK) crypto;
               info_length := c_total s |}, d)
  | Ccm.CCM_STAR_AUTH => (ZIGBEE_SECURITY_AUTH, None, None, d)
  | Ccm.CCM_STAR_AES => (ZIGBEE_SECURITY_AES, None, None, d)
  | _ => (ZIGBEE_SECURITY_CCM, None, None, d)
  end.

Definition ed_wire_crypt (d : D) (op layer : Z) (k : option zigbee_security_key_t)
    (frame : option bytes) (length : Z) (output : bool) (capacity : Z) (info_out : bool) : outcome :=
  match k, frame with
  | Some k, Some f =>
      if! negb output || negb info_out || (1 <? op) || (1 <? layer)
        return (ZIGBEE_SECURITY_ARGUMENT, None, None, d) ;;
      if! negb (level k =? 5) || negb (extended_nonce k =? 1)
        return (ZIGBEE_SECURITY_LEVEL, None, None, d) ;;
      if! ((layer =? 0) && negb (key_identifier k =? 1))
          || (negb (layer =? 0) && ((key_identifier k =? 1) || (3 <? key_identifier k)))
        return (ZIGBEE_SECURITY_SELECTOR, None, None, d) ;;
      let open := negb (op =? 0) in
      let s := if open then and_then (inspect layer f length) (opening k f length)
               else and_then (header layer f length) (sealing layer k f length) in
      match s with
      | inl r => (r, None, None, d)
      | inr s => crypt_frame d open layer k capacity s
      end
  | _, _ => (ZIGBEE_SECURITY_ARGUMENT, None, None, d)
  end.
End crypt.

(** ** Emitted headers are read back *)

(** A header whose type is put into the control octet of the data header [b]. *)
Definition typed_octets (b : bytes) (type : Z) : bytes := wr b 0 (Z.lor (rd b 0) type).

Lemma ed_blit_work x rest n :
  blen x = n → n <= 116 →
  blit work116 0 (slice (x ++ rest) 0 n) = x ++ replicate (116 - length x) 0.
Proof.
  intros <- Hn. rewrite security_slice_head, blit_0 by (unfold work116; rewrite ?blen_replicate; lia || done).
  unfold work116. by rewrite drop_replicate.
Qed.

(** The first two octets of an emitted NWK header. *)
Lemma ed_nwk_control h s :
  Nwk.header_typed h → Nwk.header_shape h = (Nwk.NWK_CODEC_OK, s) →
  let b := Nwk.header_bytes h in
  s = u8 (8 + (if has (rd b 1) 8 then 8 else 0) + (if has (rd b 1) 16 then 8 else 0)) ∧
  Z.land (rd b 1) 2 = 0 ∧ Z.land (rd b 1) (u8 (Z.lnot 2)) = rd b 1 ∧
  ∀ t, t = 0 ∨ t = 1 → Z.land (Z.lor (rd b 0) t) 3 = t ∧ Z.land (Z.lor (rd b 0) t) 0xfc = rd b 0.
Proof.
  intros Ht Hv. apply Nwk.nwk_header_shape_ok in Hv as (E1&E2&E3&E4&_&_&Es); [|apply Ht].
  destruct Ht as (_&_&Hr&_). cbv zeta. unfold Nwk.header_bytes. cbn [app]. rd_simpl. rewrite E1, E2.
  assert (Nwk.discover_route h = 0 ∨ Nwk.discover_route h = 1) as Er by (unfold is_u8 in Hr; lia).
  rewrite Es. unfold Nwk.header_size. 
  unfold Nwk.accepted_flags in E4. rewrite !elem_of_cons, elem_of_nil in E4.
  split; [|split; [|split]].
  1-3: destruct E4 as [-> |[-> |[-> |[-> |[-> |[-> |[-> |[-> | []]]]]]]]]; reflexivity.
  intros t Hrt. destruct Er as [-> | ->], Hrt as [-> | ->]; split; reflexivity.
Qed.

Lemma ed_read_nwk_emitted h s type rest n :
  Nwk.header_typed h → Nwk.header_shape h = (Nwk.NWK_CODEC_OK, s) → type = 0 ∨ type = 1 →
  s <= n <= 116 →
  read_nwk (Some (typed_octets (Nwk.header_bytes h) type ++ rest)) n true
  = inr {| Nwk.header := Nwk.normalise h <| Nwk.type := type |>;
           Nwk.payload_offset := s; Nwk.payload_length := n - s |}.
Proof.
  intros Ht Hv Hty Hn. destruct (ed_nwk_control h s Ht Hv) as (Es&Ez&Ek&Ec).
  pose proof Hv as HH. apply Nwk.nwk_header_shape_ok in HH as (_&_&_&_&_&_&Eh); [|apply Ht].
  pose proof (Nwk.nwk_header_size_range (Nwk.flags h)) as Hr.
  assert (blen (Nwk.header_bytes h) = s) as Lb
    by (rewrite Eh; apply Nwk.nwk_header_bytes_len, Nwk.nwk_typed_sized, Ht).
  destruct (Ec type Hty) as [Et Em]. set (b := Nwk.header_bytes h) in *.
  assert (blen (typed_octets b type) = s) as Lt by (unfold typed_octets; by rewrite blen_wr).
  unfold read_nwk. cbn [negb]. unfold Nwk.NWK_FRAME_MAX_BODY.
  replace ((n <? 8) || (116 <? n)) with false by lia.
  assert (rd (typed_octets b type) 0 = Z.lor (rd b 0) type) as R0
    by (unfold typed_octets; by rewrite rd_wr by lia).
  assert (rd (typed_octets b type) 1 = rd b 1) as R1
    by (unfold typed_octets; by rewrite rd_wr by lia).
  rewrite !rd_app_l, R0, R1, Et by lia. unfold ED_NWK_COMMAND.
  replace (1 <? type) with false by lia. rewrite <- Es. replace (n <? s) with false by lia.
  rewrite ed_blit_work by lia. 
  assert (wr (typed_octets b type ++ replicate (116 - length (typed_octets b type)) 0) 0
    (Z.land (rd (typed_octets b type ++ replicate (116 - length (typed_octets b type)) 0) 0) 252)
    = b ++ replicate (116 - length b) 0) as ->.
  { rewrite wr_app_l, rd_app_l, R0, Em by lia.
    replace (length (typed_octets b type)) with (length b) by (unfold blen in *; lia).
    unfold typed_octets. by rewrite security_wr_wr, security_wr_rd by lia. }
  rewrite rd_app_l, wr_app_l, Ek, security_wr_rd by lia.
  rewrite (Nwk.nwk_decode_emitted h s) by done. rewrite Ez. cbn [Nwk.header Nwk.payload_offset].
  change (u16 (Z.shiftl 0 8)) with 0. rewrite Z.lor_0_r. done.
Qed.

(** ** A header is read from its own octets, whatever its security flag *)
Lemma ed_bits_df x :
  is_u8 x →
  Z.land x 3 = Z.land (Z.land x 0xdf) 3 ∧
  Z.land (Z.shiftr x 2) 3 = Z.land (Z.shiftr (Z.land x 0xdf) 2) 3 ∧
  has (Z.land x 0xf0) 0x10 = has (Z.land (Z.land x 0xdf) 0xf0) 0x10 ∧
  has (Z.land x 0xf0) 0x80 = has (Z.land (Z.land x 0xdf) 0xf0) 0x80 ∧
  has (Z.land x 0xf0) 0x40 = has (Z.land (Z.land x 0xdf) 0xf0) 0x40 ∧
  Z.land x 0x40 = Z.land (Z.land x 0xdf) 0x40.
Proof. intros Hx. split_and!; by_u8 x. Qed.

Lemma ed_aps_decode_local b n n' r i :
  Aps.aps_frame_decode (Some b) n (Some r) = (Aps.APS_CODEC_OK, Some i) → 8 <= n' <= 108 →
  Aps.payload_offset i = 8 ∧
  Aps.aps_frame_decode (Some b) n' (Some r)
  = (Aps.APS_CODEC_OK, Some {| Aps.header := Aps.header i; Aps.payload_offset := 8;
                               Aps.payload_length := u8 (n' - 8) |}).
Proof.
  unfold Aps.aps_frame_decode, Aps.APS_FRAME_MAX_BODY, Aps.APS_FRAME_HEADER_SIZE. intros H Hn.
  replace (108 <? n') with false by lia. replace (n' =? 0) with false by lia.
  replace (n' <? 8) with false by lia.
  destruct (108 <? n); [done|]. destruct (n =? 0); [done|]. destruct (negb _); [done|].
  destruct (n <? 8); [done|]. destruct (Aps.validate_header _); try done. by simplify_eq.
Qed.

Lemma ed_aps_syntax_local f n s i f' n' :
  aps_syntax f n s = inr i → is_bytes f → is_bytes f' → 8 <= blen f ∨ s = true →
  Z.land (rd f' 0) 0xdf = Z.land (rd f 0) 0xdf →
  Aps.payload_offset i <= blen f' →
  (∀ j, 1 <= j < Aps.payload_offset i → rd f' j = rd f j) → Aps.payload_offset i <= n' <= 108 →
  ∃ p, aps_syntax f' n' s
       = inr {| Aps.header := Aps.header i; Aps.payload_offset := Aps.payload_offset i;
                Aps.payload_length := p |}.
Proof.
  intros H Hf Hf' Hl H0 Hl' Hj Hn. revert H. unfold aps_syntax. destruct s.
  { intros [= <-]. cbn [Aps.payload_offset Aps.header] in *. rewrite Hj by lia. by eexists. }
  destruct Hl as [Hl|]; [|done]. destruct (n <? 8) eqn:E; [done|].
  destruct (Aps.aps_frame_decode _ _ _) as [[] [j|]] eqn:Ed; try done. intros [= ->].
  assert (Aps.payload_offset i = 8) as Ho
    by (destruct (ed_aps_decode_local _ _ 8 _ _ Ed ltac:(lia)); done).
  rewrite Ho in *. destruct (ed_aps_decode_local _ _ n' _ _ Ed ltac:(lia)) as [_ Ed'].
  replace (n' <? 8) with false by lia.
  assert (∀ g, 8 <= blen g → rd (blit work116 0 (slice g 0 8)) 0 = rd g 0) as Hr.
  { intros g Hg. assert (blen (slice g 0 8) = 8) by (apply blen_slice; lia).
    rewrite rd_blit by (unfold work116; rewrite ?blen_replicate; lia). cbn [Z.leb Z.compare andb].
    replace (0 <? 0 + blen (slice g 0 8)) with true by lia. rewrite rd_slice by lia. done. }
  replace (wr _ 0 _) with (wr (blit work116 0 (slice f 0 8)) 0
    (Z.land (rd (blit work116 0 (slice f 0 8)) 0) Aps.APS_FLAG_ACK_REQUEST)).
  { rewrite Ed'. by eexists. }
  rewrite !Hr by lia.
  destruct (ed_bits_df (rd f 0) (rd_is_u8 f 0 Hf)) as (_&_&_&_&_&E0).
  destruct (ed_bits_df (rd f' 0) (rd_is_u8 f' 0 Hf')) as (_&_&_&_&_&E0').
  change Aps.APS_FLAG_ACK_REQUEST with 0x40. rewrite E0, E0', H0. clear -Hl Hl' Hj.
  apply bytes_ext; rewrite !blen_wr, !blen_blit; [done|]. intros k Hk. unfold work116 in *.
  rewrite blen_replicate in Hk. assert (blen (slice f 0 8) = 8) by (apply blen_slice; lia).
  assert (blen (slice f' 0 8) = 8) by (apply blen_slice; lia).
  rewrite !rd_wr by (rewrite ?blen_blit, ?blen_replicate; lia). destruct (k =? 0) eqn:?; [done|].
  rewrite !rd_blit by (rewrite ?blen_replicate; lia).
  replace (0 + blen (slice f' 0 8)) with 8 by lia. replace (0 + blen (slice f 0 8)) with 8 by lia.
  destruct ((0 <=? k) && (k <? 8)) eqn:?; [|done]. rewrite !rd_slice by lia. symmetry. apply Hj. lia.
Qed.

Lemma ed_read_aps_local f n i f' n' :
  read_aps (Some f) n true = inr i → is_bytes f → is_bytes f' → n <= blen f →
  Z.land (rd f' 0) 0xdf = Z.land (rd f 0) 0xdf → Aps.payload_offset i <= blen f' →
  (∀ j, 1 <= j < Aps.payload_offset i → rd f' j = rd f j) →
  2 <= n' <= 108 → Aps.payload_offset i <= n' →
  read_aps (Some f') n' true
  = inr {| Aps.header := Aps.header i <| Aps.flags := Z.land (rd f' 0) 0xf0 |>;
           Aps.payload_offset := Aps.payload_offset i;
           Aps.payload_length := u8 (n' - Aps.payload_offset i) |}.
Proof.
  intros H Hf Hf' Hn H0 Hl' Hj Hn' Ho. revert H. unfold read_aps, Aps.APS_FRAME_MAX_BODY. cbn [negb].
  destruct ((n <? 2) || (108 <? n)) eqn:E; [done|].
  replace ((n' <? 2) || (108 <? n')) with false by lia.
  change Aps.APS_FLAG_ACK_FORMAT with 0x10. change Aps.APS_FLAG_EXTENDED_HEADER with 0x80.
  change Aps.APS_FLAG_ACK_REQUEST with 0x40.
  destruct (ed_bits_df (rd f 0) (rd_is_u8 f 0 Hf)) as (B1&B2&B3&B4&B5&_).
  destruct (ed_bits_df (rd f' 0) (rd_is_u8 f' 0 Hf')) as (B1'&B2'&B3'&B4'&B5'&_).
  rewrite B1', B2', B3', B4', B5', H0, <- B1, <- B2, <- B3, <- B4, <- B5.
  match goal with |- context [if ?c then inl ZIGBEE_SECURITY_HEADER else _] => destruct c end; [done|].
  destruct (aps_syntax f n _) as [r|a] eqn:Es; [done|].
  intros [= <-]. cbn [Aps.payload_offset Aps.header] in *.
  set (s := (Z.land (rd f 0) 3 =? ED_APS_COMMAND) || _) in *.
  assert (8 <= blen f ∨ s = true) as Hs.
  { destruct s; [by right|]. left. revert Es. unfold aps_syntax. destruct (n <? 8) eqn:?; [done|]. lia. }
  destruct (ed_aps_syntax_local _ _ _ _ f' n' Es Hf Hf' Hs H0 Hl' Hj ltac:(lia)) as [p ->].
  cbn [Aps.payload_offset Aps.header]. by rewrite B1, B2, <- H0, <- B1', <- B2'.
Qed.

(** The syntax copy of a NWK header: the type and the security flag are cleared. *)
Definition nwk_copy (f : bytes) (h : Z) : bytes :=
  let b := blit work116 0 (slice f 0 h) in
  let b := wr b 0 (Z.land (rd b 0) 0xfc) in wr b 1 (Z.land (rd b 1) (u8 (Z.lnot 2))).
Lemma ed_nwk_copy f f' h :
  2 <= h <= 116 → h <= blen f → h <= blen f' → rd f' 0 = rd f 0 →
  Z.land (rd f' 1) 0xfd = Z.land (rd f 1) 0xfd → (∀ j, 2 <= j < h → rd f' j = rd f j) →
  nwk_copy f' h = nwk_copy f h.
Proof.
  intros Hh Hl Hl' H0 H1 Hj. unfold nwk_copy. change (u8 (Z.lnot 2)) with 0xfd.
  assert (∀ g, h <= blen g → blen (slice g 0 h) = h) as Hs by (intros; apply blen_slice; lia).
  assert (∀ g i, h <= blen g → 0 <= i < h → rd (blit work116 0 (slice g 0 h)) i = rd g i) as Hr.
  { intros g i Hg Hi. rewrite rd_blit by (unfold work116; rewrite ?blen_replicate, ?Hs; lia).
    replace ((0 <=? i) && (i <? 0 + blen (slice g 0 h))) with true by (rewrite Hs; lia).
    rewrite rd_slice by lia. f_equal. lia. }
  apply bytes_ext; rewrite !blen_wr, !blen_blit; [done|]. intros k Hk. unfold work116 in Hk.
  rewrite blen_replicate in Hk.
  assert (∀ g, blen (blit work116 0 g) = 116) as Lb by (intros; by rewrite blen_blit).
  rewrite !rd_wr by (rewrite ?blen_wr, ?Lb; lia).
  destruct (k =? 1) eqn:E1; [by rewrite !Hr by lia|].
  destruct (k =? 0) eqn:E0; [by rewrite !Hr, H0 by lia|].
  destruct (decide (k < h)); [rewrite !Hr by lia; apply Hj; lia|].
  assert (∀ g, h <= blen g → rd (blit work116 0 (slice g 0 h)) k = rd work116 k) as Ho.
  { intros g Hg. rewrite rd_blit by (unfold work116; rewrite ?blen_replicate, ?Hs; lia).
    rewrite Hs by done. by replace ((0 <=? k) && (k <? 0 + h)) with false by lia. }
  by rewrite !Ho.
Qed.

Lemma ed_nwk_decode_local b n n' r i :
  is_bytes b → Nwk.nwk_frame_decode (Some b) n (Some r) = (Nwk.NWK_CODEC_OK, Some i) →
  Nwk.payload_offset i = Nwk.header_size (Nwk.flags (Nwk.parse_header b)) ∧
  (Nwk.payload_offset i <= n' <= 116 →
   Nwk.nwk_frame_decode (Some b) n' (Some r)
   = (Nwk.NWK_CODEC_OK, Some {| Nwk.header := Nwk.header i; Nwk.payload_offset := Nwk.payload_offset i;
                                Nwk.payload_length := u8 (n' - Nwk.payload_offset i) |})).
Proof.
  intros Hb. unfold Nwk.nwk_frame_decode, Nwk.NWK_FRAME_MAX_BODY, Nwk.NWK_FRAME_MIN_HEADER.
  destruct (116 <? n); [done|]. destruct (n <? 8) eqn:E; [done|].
  destruct (Nwk.header_shape _) as [[] s] eqn:Eh; try done. destruct (n <? s); [done|].
  intros [= <-]. cbn [Nwk.payload_offset Nwk.header].
  assert (is_u16 (Nwk.flags (Nwk.parse_header b))) as Hf
    by (apply is_u16_land; [pose proof (read_le16_range b 0 Hb); width|done]).
  pose proof (Nwk.nwk_header_shape_ok _ _ Hf Eh) as (_&_&_&_&_&_&Es).
  split; [done|]. intros Hn. pose proof (Nwk.nwk_header_size_range (Nwk.flags (Nwk.parse_header b))).
  replace (116 <? n') with false by lia. replace (n' <? 8) with false by lia.
  by replace (n' <? s) with false by lia.
Qed.

Lemma ed_has_fd x m : is_u8 x → m = 8 ∨ m = 16 → has (Z.land x 0xfd) m = has x m.
Proof. intros Hx [-> | ->]; by_u8 x. Qed.

(** The extent of an accepted header is the one its flags give. *)
Definition nwk_extent (f : bytes) : Z :=
  u8 (8 + (if has (rd f 1) 8 then 8 else 0) + (if has (rd f 1) 16 then 8 else 0)).
Lemma ed_nwk_extent_range f : 8 <= nwk_extent f <= 24.
Proof. unfold nwk_extent. destruct (has _ 8), (has _ 16); concrete. Qed.
Lemma ed_nwk_copy_bytes f h : is_bytes f → is_bytes (nwk_copy f h).
Proof.
  intros Hf. assert (is_bytes (blit work116 0 (slice f 0 h))) as H
    by (apply is_bytes_blit; [apply security_zeros_bytes|by apply is_bytes_slice]).
  assert (∀ b i m, is_bytes b → 0 <= m < 256 → is_bytes (wr b i (Z.land (rd b i) m))) as Hw.
  { intros b i m Hb Hm. apply is_bytes_wr; [done|].
    apply is_u8_land; [apply rd_is_u8, Hb|done]. }
  apply Hw; [|done]. by apply Hw.
Qed.
Lemma ed_nwk_copy_extent f h :
  is_bytes f → h = nwk_extent f → h <= blen f →
  Nwk.header_size (Nwk.flags (Nwk.parse_header (nwk_copy f h))) = h.
Proof.
  intros Hf Hh Hl. pose proof (ed_nwk_extent_range f) as Hr.
  assert (blen (slice f 0 h) = h) as Ls by (apply blen_slice; lia).
  assert (rd (nwk_copy f h) 1 = Z.land (rd f 1) 0xfd) as R1.
  { unfold nwk_copy, work116. change (u8 (Z.lnot 2)) with 0xfd.
    rewrite rd_wr by (rewrite ?blen_wr, ?blen_blit, ?blen_replicate; lia). cbn [Z.eqb Pos.eqb].
    rewrite rd_wr by (rewrite ?blen_wr, ?blen_blit, ?blen_replicate; lia). cbn [Z.eqb].
    rewrite rd_blit by (rewrite ?blen_replicate; lia).
    replace ((0 <=? 1) && (1 <? 0 + blen (slice f 0 h))) with true by lia.
    by rewrite rd_slice by lia. }
  pose proof (ed_nwk_copy_bytes f h Hf) as Hc.
  transitivity (nwk_extent f); [|done]. unfold Nwk.parse_header. cbn [Nwk.flags]. unfold nwk_extent.
  pose proof (rd_is_u8 (nwk_copy f h) 0 Hc) as H0.
  pose proof (rd_is_u8 f 1 Hf) as H1.
  unfold Nwk.header_size, Nwk.NWK_FRAME_MIN_HEADER, read_le16. change (0 + 1) with 1. rewrite R1.
  assert (∀ m, m = 8 ∨ m = 16 →
    has (Z.land (Z.lor (rd (nwk_copy f h) 0) (Z.shiftl (Z.land (rd f 1) 0xfd) 8)) 0xff00) (256 * m)
    = has (rd f 1) m) as Hb.
  { intros m Hm. rewrite <- (ed_has_fd (rd f 1) m) by done.
    assert (is_u8 (Z.land (rd f 1) 0xfd)) as H2 by (apply is_u8_land; [apply H1|done]).
    revert H2 H0. generalize (Z.land (rd f 1) 0xfd) (rd (nwk_copy f h) 0). intros y x Hy Hx.
    rewrite lor_shift8 by (done || apply Hy).
    assert (is_u16 (x + 256 * y)) as Hw by (unfold is_u8, is_u16 in *; lia).
    assert (u8 (Z.shiftr (x + 256 * y) 8) = y) as Ey
      by (rewrite Z.shiftr_div_pow2 by lia; change (2 ^ 8) with 256; unfold is_u8, u8 in *; Z.div_mod_to_equations; lia).
    replace (has y m) with (has (u8 (Z.shiftr (x + 256 * y) 8)) m) by (by rewrite Ey). clear Ey.
    revert Hw. generalize (x + 256 * y). intros w Hw. destruct Hm as [-> | ->]; by_u16 w. }
  change Nwk.NWK_FLAG_DESTINATION_IEEE with (256 * 8). change Nwk.NWK_FLAG_SOURCE_IEEE with (256 * 16).
  rewrite !Hb by tauto. destruct (has _ 8), (has _ 16); reflexivity.
Qed.

Lemma ed_read_nwk_local f n i f' n' :
  read_nwk (Some f) n true = inr i → is_bytes f → is_bytes f' → n <= blen f →
  rd f' 0 = rd f 0 → Z.land (rd f' 1) 0xfd = Z.land (rd f 1) 0xfd →
  Nwk.payload_offset i <= blen f' → (∀ j, 2 <= j < Nwk.payload_offset i → rd f' j = rd f j) →
  Nwk.payload_offset i <= n' <= 116 →
  8 <= Nwk.payload_offset i <= n ∧ n <= 116 ∧
  ∃ i', read_nwk (Some f') n' true = inr i' ∧ Nwk.payload_offset i' = Nwk.payload_offset i ∧
    Nwk.payload_length i' = u8 (n' - Nwk.payload_offset i).
Proof.
  intros H Hf Hf' Hn H0 H1 Hl' Hj Hn'. revert H. unfold read_nwk, Nwk.NWK_FRAME_MAX_BODY. cbn [negb].
  destruct ((n <? 8) || (116 <? n)) eqn:E; [done|]. rewrite H0.
  assert (nwk_extent f' = nwk_extent f) as Ex.
  { unfold nwk_extent. pose proof (rd_is_u8 f 1 Hf). pose proof (rd_is_u8 f' 1 Hf').
    rewrite <- (ed_has_fd (rd f 1) 8), <- (ed_has_fd (rd f 1) 16) by (done || tauto).
    rewrite <- (ed_has_fd (rd f' 1) 8), <- (ed_has_fd (rd f' 1) 16) by (done || tauto). by rewrite H1. }
  fold (nwk_extent f) (nwk_extent f'). rewrite Ex. pose proof (ed_nwk_extent_range f) as Hr.
  destruct (ED_NWK_COMMAND <? _); [done|]. destruct (n <? nwk_extent f) eqn:En; [done|].
  fold (nwk_copy f (nwk_extent f)) (nwk_copy f' (nwk_extent f)).
  destruct (Nwk.nwk_frame_decode (Some (nwk_copy f (nwk_extent f))) n _) as [[] [k|]] eqn:Ed; try done.
  intros [= <-]. cbn [Nwk.payload_offset] in *.
  assert (is_bytes (nwk_copy f (nwk_extent f))) as Hc by by apply ed_nwk_copy_bytes.
  destruct (ed_nwk_decode_local _ _ n' _ _ Hc Ed) as [Eo Ed'].
  rewrite ed_nwk_copy_extent in Eo by (done || lia). rewrite Eo in *.
  split; [lia|]. split; [lia|].
  replace ((n' <? 8) || (116 <? n')) with false by lia. replace (n' <? nwk_extent f) with false by lia.
  rewrite (ed_nwk_copy f f'), Ed' by (done || lia). eexists. split; [done|]. done.
Qed.

Lemma ed_read_nwk_range f n i :
  read_nwk (Some f) n true = inr i → is_bytes f → n <= blen f →
  8 <= Nwk.payload_offset i <= n ∧ n <= 116 ∧
  Nwk.payload_length i = n - Nwk.payload_offset i ∧ Nwk.type (Nwk.header i) = Z.land (rd f 0) 3.
Proof.
  intros H Hf Hn. revert H. unfold read_nwk, Nwk.NWK_FRAME_MAX_BODY. cbn [negb].
  destruct ((n <? 8) || (116 <? n)) eqn:E; [done|]. fold (nwk_extent f).
  destruct (ED_NWK_COMMAND <? _); [done|]. destruct (n <? nwk_extent f) eqn:En; [done|].
  fold (nwk_copy f (nwk_extent f)). pose proof (ed_nwk_extent_range f).
  destruct (Nwk.nwk_frame_decode _ n _) as [[] [k|]] eqn:Ed; try done.
  intros [= <-]. cbn [Nwk.payload_offset Nwk.payload_length Nwk.header].
  pose proof (ed_nwk_copy_bytes f (nwk_extent f) Hf) as Hc.
  destruct (ed_nwk_decode_local _ _ n _ _ Hc Ed) as [Eo Ed'].
  rewrite ed_nwk_copy_extent in Eo by (done || lia). rewrite Eo in *. rewrite Ed' in Ed by lia.
  injection Ed as <-. cbn [Nwk.payload_length]. rewrite u8_id by (unfold is_u8; lia).
  split_and!; done || lia.
Qed.
Lemma ed_read_aps_range f n i :
  read_aps (Some f) n true = inr i → 
  2 <= Aps.payload_offset i <= n ∧ n <= 108 ∧ Aps.payload_offset i <= 8 ∧
  Aps.payload_length i = n - Aps.payload_offset i ∧ Aps.type (Aps.header i) = Z.land (rd f 0) 3.
Proof.
  unfold read_aps, Aps.APS_FRAME_MAX_BODY. cbn [negb].
  destruct ((n <? 2) || (108 <? n)) eqn:E; [done|].
  match goal with |- context [if ?c then inl ZIGBEE_SECURITY_HEADER else _] => destruct c end; [done|].
  destruct (aps_syntax f n _) as [r|a] eqn:Es; [done|]. intros [= <-].
  cbn [Aps.payload_offset Aps.payload_length Aps.header].
  assert (2 <= Aps.payload_offset a <= 8 ∧ Aps.payload_offset a <= n) as Ho.
  { revert Es. unfold aps_syntax. destruct (_ || _) in |- *; [intros [= <-]; cbn; lia|].
    destruct (n <? 8) eqn:E8; [done|].
    destruct (Aps.aps_frame_decode _ _ _) as [[] [j|]] eqn:Ed; try done. intros [= ->].
    destruct (ed_aps_decode_local _ _ 8 _ _ Ed ltac:(lia)) as [-> _]. lia. }
  rewrite u8_id by (unfold is_u8; lia). split_and!; done || lia.
Qed.

(** [f'] carries the header of [f], up to the security flag. *)
Definition same_header (layer h : Z) (f f' : bytes) : Prop :=
  Z.land (rd f' (flag_at layer)) (255 - flag_mask layer)
  = Z.land (rd f (flag_at layer)) (255 - flag_mask layer) ∧
  ∀ j, 0 <= j < h → j ≠ flag_at layer → rd f' j = rd f j.

Lemma ed_header_local layer f n h t :
  header layer f n = inr (h, t) → 0 <= layer → is_bytes f → n <= blen f →
  layer <= 1 ∧ 2 <= h <= n ∧ n <= max_body layer ∧
  ∀ f' n', is_bytes f' → same_header layer h f f' → h <= blen f' → h <= n' <= max_body layer →
    header layer f' n' = inr (h, t).
Proof.
  intros H Hlay Hf Hn. unfold header, ZIGBEE_SECURITY_APS in H. destruct (1 <? layer) eqn:E; [done|].
  assert (layer = 0 ∨ layer = 1) as [-> | ->] by lia; cbn [Z.eqb] in H;
    change (max_body 0) with 116; change (max_body 1) with 108.
  - destruct (read_nwk (Some f) n true) as [|i] eqn:Er; [done|]. injection H as <- <-.
    destruct (ed_read_nwk_range f n i Er Hf Hn) as (R1&R2&_&_). split_and!; try lia.
    intros f' n' Hf' [S1 S2] Hl Hn'. unfold header, ZIGBEE_SECURITY_APS. cbn [Z.ltb Z.compare Z.eqb Pos.compare Pos.compare_cont].
    destruct (ed_read_nwk_local f n i f' n' Er Hf Hf' Hn) as (_&_&i'&->&->&_); try done.
    + apply S2; [lia|done].
    + intros j Hj. apply S2; [lia|]. unfold flag_at. cbn. lia.
  - destruct (read_aps (Some f) n true) as [|i] eqn:Er; [done|]. injection H as <- <-.
    destruct (ed_read_aps_range f n i Er) as (R1&R2&_&_). split_and!; try lia.
    intros f' n' Hf' [S1 S2] Hl Hn'. unfold header, ZIGBEE_SECURITY_APS. cbn [Z.ltb Z.compare Z.eqb Pos.compare Pos.compare_cont].
    rewrite (ed_read_aps_local f n i f' n' Er Hf Hf' Hn S1 Hl); [done| |lia..].
    intros j Hj. apply S2; [lia|]. unfold flag_at. cbn. lia.
Qed.

Lemma ed_same_flag layer h f e rest :
  0 <= layer <= 1 → 2 <= h <= blen f → is_bytes f →
  same_header layer h f (security_flag layer e (slice f 0 h) ++ rest).
Proof.
  intros Hlay Hh Hf. assert (blen (slice f 0 h) = h) as Lh by (apply blen_slice; lia).
  rewrite security_flag_octet by (rewrite ?Lh; by apply is_bytes_slice || lia).
  assert (∀ i m, 0 <= i < 2 → m = 2 ∨ m = 32 →
    Z.land (if e then Z.lor (Z.land (rd (slice f 0 h) i) (255 - m)) m
            else Z.land (rd (slice f 0 h) i) (255 - m)) (255 - m) = Z.land (rd f i) (255 - m)) as Hb.
  { intros i m Hi Hm. rewrite rd_slice, Z.add_0_l by lia. pose proof (rd_is_u8 f i Hf) as H1.
    generalize dependent (rd f i). intros x Hx. destruct e, Hm as [-> | ->]; by_u8 x. }
  unfold ZIGBEE_SECURITY_NWK.
  assert (layer = 0 ∨ layer = 1) as [-> | ->] by lia; cbn [Z.eqb]; split.
  1,3: unfold flag_at, flag_mask; cbn [Z.eqb]; rewrite rd_app_l, rd_wr by (rewrite ?blen_wr; lia);
    apply Hb; [lia|tauto].
  all: unfold flag_at; cbn [Z.eqb]; intros j Hj Hne; rewrite rd_app_l, rd_wr by (rewrite ?blen_wr; lia).
  - replace (j =? 1) with false by lia. by rewrite rd_slice by lia.
  - replace (j =? 0) with false by lia. by rewrite rd_slice by lia.
Qed.

(** ** Sealing: the protected frame of Security.v *)
Lemma ed_flag_clear layer b :
  0 <= layer <= 1 →
  wr b (flag_at layer) (Z.land (rd b (flag_at layer)) (u8 (Z.lnot (flag_mask layer))))
  = security_flag layer false b.
Proof. intros Hl. assert (layer = 0 ∨ layer = 1) as [-> | ->] by lia; done. Qed.
Lemma ed_flag_set layer b :
  0 <= layer <= 1 → 2 <= blen b → is_bytes b →
  wr b (flag_at layer) (Z.lor (rd b (flag_at layer)) (flag_mask layer)) = security_flag layer true b.
Proof.
  intros Hlay Hl Hb. rewrite security_flag_octet by done.
  pose proof (rd_is_u8 b 0 Hb). pose proof (rd_is_u8 b 1 Hb).
  assert (layer = 0 ∨ layer = 1) as [-> | ->] by lia; unfold flag_at, flag_mask; cbn -[rd wr Z.lor Z.land];
    f_equal; match goal with |- context [rd b ?i] => generalize dependent (rd b i) end; intros x ?; by_u8 x.
Qed.
Lemma ed_secured layer f : 0 <= layer <= 1 → secured layer f = present layer f.
Proof. intros Hl. assert (layer = 0 ∨ layer = 1) as [-> | ->] by lia; done. Qed.

Lemma ed_control k :
  level k = 5 → extended_nonce k = 1 → Z.lor 0x25 (u8 (Z.shiftl (key_identifier k) 3)) = control k.
Proof.
  intros El Ee. unfold control. rewrite El, Ee. change (u8 (Z.shiftl 1 5)) with 32.
  rewrite <- Z.lor_assoc, (Z.lor_comm (u8 _) 32), Z.lor_assoc. done.
Qed.
Lemma ed_write_aux k f h a p b :
  level k = 5 → extended_nonce k = 1 → write_aux k f h a p b = write_auxiliary k f h a p b.
Proof.
  intros El Ee. unfold write_aux, write_auxiliary. rewrite ed_control by done. fold (control k).
  rewrite Ee. cbn [negb Z.eqb]. destruct (p =? 0) eqn:E; [|done]. cbn [negb].
  replace p with 0 by lia. unfold slice. cbn [Z.to_nat take blit]. done.
Qed.

(** What both directions ask of a payload of [p] octets in a frame of type [t]. *)
Definition payload_fits (layer t p : Z) : bool :=
  (layer =? 0) || (negb ((t =? ED_APS_COMMAND) && (p =? 0)) && negb ((t =? ED_APS_ACK) && negb (p =? 0))).
(** The key selection and level that a frame of type [t] admits. *)
Definition admissible (layer t : Z) (k : zigbee_security_key_t) : Prop :=
  level k = 5 ∧ extended_nonce k = 1 ∧
  shape layer (t =? ED_APS_COMMAND) (key_identifier k) (extended_nonce k) (counter k)
  = inr (13 + (if key_identifier k =? 1 then 1 else 0)).

Lemma ed_shape layer t id c :
  (layer = 0 → id = 1) → (layer ≠ 0 → id ≠ 1 ∧ id <= 3 ∧ (t ≠ ED_APS_COMMAND → id = 0)) →
  c ≠ 0xffffffff →
  shape layer (t =? ED_APS_COMMAND) id 1 c = inr (13 + (if id =? 1 then 1 else 0)).
Proof.
  intros H0 H1 Hc. unfold shape, ZIGBEE_SECURITY_NWK. replace (c =? 0xffffffff) with false by lia.
  destruct (layer =? 0) eqn:El.
  - rewrite H0 by lia. done.
  - destruct H1 as (Hi&Hi3&Ht); [lia|]. replace (3 <? id) with false by lia.
    replace (id =? 1) with false by lia. cbn [Z.ltb Z.compare Pos.compare Pos.compare_cont orb andb Z.eqb].
    destruct (t =? ED_APS_COMMAND) eqn:Et; cbn [negb andb orb]; [done|].
    rewrite Ht by lia. done.
Qed.

Section protected.
Context {D : Type} `{!BlockCipher D}.

Lemma ed_sealed_octets layer k H P R S total :
  blen S <= blen P + blen R → let F := front layer k H (control k) in
  total = blen F + blen S → let b := blit (F ++ P ++ R) (blen F) S in
  slice (wr b (blen H) (Z.land (rd b (blen H)) 0xf8)) 0 total
  = front layer k H (Z.land (control k) 0xf8) ++ S.
Proof.
  intros HS F -> b. subst b. rewrite security_blit_app by (rewrite blen_app; lia).
  unfold F at 1 2, front. rewrite <- !app_assoc. cbn [app]. set (R' := drop _ _).
  rewrite <- (security_flag_len layer true H). rewrite rd_app_r, Z.sub_diag, rd_0 by lia.
  rewrite security_wr_app, !app_comm_cons, !app_assoc.
  apply security_slice_head. unfold F, front. rewrite !blen_app, !blen_cons. lia.
Qed.

Lemma ed_seal_frame d layer k f cap h a p t :
  key_typed k → Ccm.usable_limits (limits k) → admissible layer t k → 0 <= layer <= 1 → is_bytes f →
  2 <= h → 0 <= p → h + p <= blen f → a = 13 + (if key_identifier k =? 1 then 1 else 0) →
  h + a + p + 4 <= max_body layer → payload_fits layer t p = true → h + a + p + 4 <= cap →
  let H := slice f 0 h in let P := slice f h p in
  ∀ m, header_length m = h → auxiliary_length m = a → payload_length m = p →
  let '(r, out, info, _) := crypt_frame d false layer k cap
    {| c_frame := write_aux k f h a p (security_flag layer true (blit work116 0 H)); c_meta := m;
       c_type := t; c_total := h + a + p + 4 |} in
  (r = ZIGBEE_SECURITY_AES ∧ out = None) ∨
  (r = ZIGBEE_SECURITY_OK ∧ out = Some (protected layer k H P) ∧
   ∃ i, info = Some i ∧ meta i = m ∧ info_length i = h + a + p + 4).
Proof.
  intros Hk Hlim (El&Ee&Hs) Hlay Hf Hh Hp Hl -> Hmb Hfit Hcap H P m Hmh Hma Hmp.
  set (a := 13 + _) in *.
  assert (13 <= a <= 14) as Ha by (unfold a; destruct (_ =? 1); lia).
  assert (max_body layer <= 116) as Hmb1 by (unfold max_body; destruct (layer =? _); done).
  assert (blen H = h) as LH by (apply blen_slice; lia).
  assert (blen P = p) as LP by (apply blen_slice; lia).
  assert (is_bytes H) as HH by by apply is_bytes_slice.
  assert (blit work116 0 H = H ++ replicate (116 - length H) 0) as ->.
  { rewrite blit_0 by (unfold work116; rewrite blen_replicate; lia). unfold work116. by rewrite drop_replicate. }
  rewrite security_flag_app, ed_write_aux by (done || lia).
  pose proof Hk as (Lk&_&_&_&_&Hi&_&He). unfold is_u8 in Hi, He.
  destruct (security_shape _ _ _ _ _ _ (proj1 Hi) (proj1 He) Hs) as (_&He1&Hie&_&Hae).
  destruct (security_write_auxiliary k f h a p (security_flag layer true H) (replicate (116 - length H) 0)
    Hk) as (R&Hw&_&HwL); try done; try lia.
  { by rewrite security_flag_len. }
  { rewrite blen_app, security_flag_len, blen_replicate. unfold blen in *. lia. }
  fold P in Hw, HwL. rewrite Hw. clear Hw.
  replace (security_flag layer true H ++ (control k :: aux_tail k) ++ P ++ R)
    with (front layer k H (control k) ++ P ++ R) in * by (unfold front; by rewrite <- app_assoc).
  pose proof (security_front_len layer k H (control k) a _ Hk Hs) as LF. rewrite LH in LF.
  pose proof (security_nonce_read layer k H (P ++ R) Hk) as Hnonce. rewrite LH in Hnonce.
  unfold crypt_frame. cbn [c_meta c_frame c_type c_total]. rewrite Hmh, Hma, Hmp.
  replace (negb (layer =? 0) && _) with false.
  2:{ symmetry. revert Hfit. unfold payload_fits. destruct (layer =? 0), (t =? ED_APS_COMMAND), (t =? ED_APS_ACK), (p =? 0); done. }
  replace (cap <? _) with false by lia. rewrite Hnonce.
  set (F := front layer k H (control k)) in *. rewrite Z.add_0_r.
  rewrite <- LF. rewrite security_slice_head by done.
  assert (slice (F ++ P ++ R) (blen F) p = P) as -> by (by apply slice_app_mid).
  pose proof (proj2 (Ccm.ccm_seal_ends d (key k) (key_nonce k) F P 4 116 (limits k) Lk
    (security_nonce_len k Hk) ltac:(unfold Ccm.CCM_STAR_MAX_AAD; lia)
    ltac:(unfold Ccm.CCM_STAR_MAX_MESSAGE; lia) ltac:(by left) ltac:(lia) Hlim)) as E.
  rewrite LP in E.
  destruct (Ccm.ccm_star_crypt _ _ _ _ _ _ _ _ _ _ _ _ _ _) as [[[[r0 pay] sz] cr] d'].
  destruct E as (inf&->&[(->&_)|(_&_&->&->&->&_)]); [by left|]. right. cbn [default from_option id].
  pose proof (security_seal_len k 4 F P Hk ltac:(by left)) as LS.
  rewrite slice_all. split; [done|]. split; [|by eexists]. f_equal.
  assert (blen (F ++ P ++ R) = 116) as Lb.
  { rewrite HwL, blen_app, security_flag_len, blen_replicate. unfold blen in *. lia. }
  rewrite !blen_app in Lb. pose proof (ed_sealed_octets layer k H P R _ (blen F + p + 4)
    ltac:(rewrite LS; lia) ltac:(rewrite LS; fold F; lia)) as Eo.
  cbv zeta in Eo. fold F in Eo. rewrite LH in Eo. rewrite Eo. unfold protected. by rewrite El.
Qed.

(** ** Opening: the definition's decision *)
Lemma ed_open_frame d layer k cap s H B p a Z0 :
  key_typed k → Ccm.usable_limits (limits k) → admissible layer (c_type s) k → 0 <= layer <= 1 →
  2 <= blen H → is_bytes H → is_bytes B → 0 <= p → blen B = p + 4 →
  a = 13 + (if key_identifier k =? 1 then 1 else 0) →
  c_frame s = front layer k H (control k) ++ B ++ Z0 →
  header_length (c_meta s) = blen H → auxiliary_length (c_meta s) = a →
  payload_length (c_meta s) = p → c_total s = blen H + p → payload_fits layer (c_type s) p = true →
  blen H + p <= cap → blen H + a + blen B <= 116 →
  let '(r, out, info, _) := crypt_frame d true layer k cap s in
  (r = ZIGBEE_SECURITY_AES ∧ out = None) ∨
  match opened layer k H B p with
  | None => r = ZIGBEE_SECURITY_AUTH ∧ out = None
  | Some P => r = ZIGBEE_SECURITY_OK ∧ out = Some (security_flag layer false H ++ P) ∧
              ∃ i, info = Some i ∧ meta i = c_meta s ∧ info_length i = blen H + p
  end.
Proof.
  intros Hk Hlim (El&Ee&Hs) Hlay H2 HH HB Hp LB Ea Hfr Hmh Hma Hmp Hct Hfit Hcap Hmb.
  rewrite <- Ea in Hs. pose proof (security_front_len layer k H (control k) a _ Hk Hs) as LF.
  assert (13 <= a) as Ha by (rewrite Ea; destruct (key_identifier k =? 1); lia).
  pose proof (security_nonce_read layer k H (B ++ Z0) Hk) as Hnonce.
  unfold crypt_frame. rewrite Hmh, Hma, Hmp, Hct, Hfr.
  replace (negb (layer =? 0) && _) with false.
  2:{ symmetry. revert Hfit. unfold payload_fits.
      destruct (layer =? 0), (c_type s =? ED_APS_COMMAND), (c_type s =? ED_APS_ACK), (p =? 0); done. }
  replace (cap <? _) with false by lia. rewrite Hnonce. unfold opened. rewrite El.
  change (tag_length 5) with 4. cbn [has Z.land Z.eqb negb].
  set (F := front layer k H (control k)) in *. rewrite <- LF, security_slice_head by done.
  rewrite <- LB. assert (slice (F ++ B ++ Z0) (blen F) (blen B) = B) as -> by (by apply slice_app_mid).
  pose proof Hk as (Lk&_).
  pose proof (Ccm.ccm_open_ends d (key k) (key_nonce k) F B 4 116 (limits k) Lk
    (security_nonce_len k Hk) HB ltac:(unfold Ccm.CCM_STAR_MAX_AAD; lia)
    ltac:(unfold Ccm.CCM_STAR_MAX_MESSAGE; lia) ltac:(by left) ltac:(lia) Hlim) as E.
  destruct (Ccm.ccm_star_crypt _ _ _ _ _ _ _ _ _ _ _ _ _ _) as [[[[r0 pay] sz] cr] d'].
  destruct E as (inf&->&[(->&_)|(_&_&E)]); [by left|].
  change (has 5 4) with true. cbv beta iota.
  destruct (Ccm.unseal _ _ _ _ B) as [P|] eqn:Eu; [|destruct E as (->&->&->); by right].
  destruct E as (->&->&->&_). cbv beta iota. right. split; [done|]. split; [|by eexists].
  assert (blen P = p) as LP by (apply security_unseal_inv in Eu as [_ ->]; [lia|done|lia]).
  cbn [default from_option id]. rewrite (slice_all' P) by done. f_equal.
  rewrite ed_flag_clear by done. rewrite <- LP.
  pose proof (security_restore layer k H P (B ++ Z0) (blen H + blen P) H2 HH) as Hr.
  cbv zeta in Hr. fold F in Hr. rewrite <- Hr;
    [|rewrite blen_app; pose proof (blen_nonneg Z0); pose proof (blen_nonneg (aux_tail k)); lia|done].
  destruct (blen P =? 0) eqn:E0; [|done]. cbn [negb].
  assert (P = []) as -> by (destruct P; [done|rewrite blen_cons in E0; pose proof (blen_nonneg P); lia]).
  done.
Qed.
End protected.

(** ** The inspection of a protected frame *)
Lemma ed_octet_extended c : is_u8 c → has c 0x20 = (Z.land (Z.shiftr c 5) 1 =? 1).
Proof. intros Hc. by_u8 c. Qed.

Lemma ed_inspect_protected layer k f n h t a p B :
  key_typed k → admissible layer t k → header layer f n = inr (h, t) → 0 <= layer → is_bytes f →
  n <= blen f → is_bytes B → 0 <= p → blen B = p + 4 →
  a = 13 + (if key_identifier k =? 1 then 1 else 0) →
  let H := security_flag layer false (slice f 0 h) in
  let w := front layer k H (Z.land (control k) 0xf8) ++ B in
  is_bytes w → blen w <= max_body layer →
  inspect layer w (blen w)
  = inr ({| m_counter := counter k; m_source := source k; m_level := 5;
            m_key_identifier := key_identifier k;
            m_key_sequence := if key_identifier k =? 1 then key_sequence k else 0;
            m_extended_nonce := 1; header_length := h; auxiliary_length := a; payload_length := p |}, t).
Proof.
  intros Hk (El&Ee&Hs) Hh Hlay Hf Hn HB Hp LB Ea H w Hwb Hmb. rewrite <- Ea in Hs.
  destruct (ed_header_local layer f n h t Hh Hlay Hf Hn) as (Hlay1&Hh2&Hnb&Hloc).
  assert (blen (slice f 0 h) = h) as Lh0 by (apply blen_slice; lia).
  assert (blen H = h) as LH by (unfold H; by rewrite security_flag_len).
  pose proof (security_front_len layer k H (Z.land (control k) 0xf8) a _ Hk Hs) as LF.
  assert (13 <= a <= 14) as Ha by (rewrite Ea; destruct (key_identifier k =? 1); lia).
  assert (blen w = h + a + p + 4) as Lw by (unfold w; rewrite blen_app; lia).
  assert (max_body layer <= 116) as Hmb1 by (unfold max_body; destruct (layer =? _); done).
  assert (is_bytes (slice f 0 h)) as HH by by apply is_bytes_slice.
  assert (security_flag layer true H = security_flag layer true (slice f 0 h)) as Et
    by (unfold H; apply security_flag_twice; [lia|done]).
  unfold inspect. rewrite (Hloc w (blen w)); [|done| |lia|lia].
  2:{ unfold w, front. rewrite Et, <- app_assoc. apply ed_same_flag; [lia|lia|done]. }
  rewrite ed_secured by lia. replace (present layer w) with true.
  2:{ unfold w, front. rewrite Et, <- app_assoc, security_present_app by (rewrite security_flag_len; lia).
      rewrite security_flag_present by (done || lia). done. }
  destruct (security_front_reads layer k H (Z.land (control k) 0xf8) B a _ Hk Hs) as (R1&R2&R3&R4&_).
  fold w in R1, R2, R3, R4. rewrite LH in R1, R2, R3, R4. rewrite R1, R2.
  pose proof Hk as (_&Ls&_&_&Hlv&Hi&_&He). unfold is_u8 in Hi, He, Hlv.
  destruct (security_shape _ _ _ _ _ _ (proj1 Hi) (proj1 He) Hs) as (Hi'&_&_&Hctr&_).
  destruct (security_control_fields (level k) (key_identifier k) (extended_nonce k)) as (C0&C1&C2&C3&_);
    [lia|lia|lia|]. fold (control k) in C0, C1, C2, C3.
  rewrite ed_octet_extended by (apply is_u8_land; [apply C0|done]).
  rewrite C1, C2, C3, Ee, R3 by lia. cbn [Z.eqb Pos.eqb negb andb orb].
  replace (u8 (5 + 8 + _)) with a by (rewrite Ea; by destruct (key_identifier k =? 1)).
  replace (if key_identifier k =? 1 then rd w (h + a - 1) else 0)
    with (if key_identifier k =? 1 then key_sequence k else 0)
    by (destruct (key_identifier k =? 1) eqn:E1; [symmetry; apply R4; lia|done]).
  replace (blen w <? h + 5) with false by lia. replace (blen w <? h + a + 4) with false by lia.
  replace (blen w - h - a - 4) with p by lia. rewrite (u8_id p) by (unfold is_u8; lia). cbn [m_counter].
  replace (counter k =? 0xffffffff) with false by lia.
  revert Hs. unfold shape, ZIGBEE_SECURITY_NWK. rewrite Ee.
  destruct (_ || _) eqn:E1 in |- *; [done|].
  destruct (layer =? 0) eqn:E0; cbn [negb andb orb Z.eqb].
  - destruct (key_identifier k =? 1) eqn:Eid; [|done]. intros _. cbn [negb orb]. done.
  - destruct (key_identifier k =? 1) eqn:Eid; [done|]. cbn [orb].
    destruct (t =? ED_APS_COMMAND) eqn:Ec; cbn [negb andb orb];
      destruct (key_identifier k =? 0) eqn:Eid0; cbn [negb orb]; done.
Qed.

(** The received frame, split behind the auxiliary header that its inspection found. *)
Lemma ed_inspected layer k w n m t :
  inspect layer w n = inr (m, t) → key_typed k → level k = 5 → extended_nonce k = 1 → is_bytes w →
  n <= blen w → 0 <= layer → m_key_identifier m = key_identifier k →
  (key_identifier k = 1 → m_key_sequence m = key_sequence k) → m_source m = source k →
  let h := header_length m in let a := auxiliary_length m in let p := payload_length m in
  let kr := with_reception k (m_counter m) (key_sequence k) (limits k) in
  let H := security_flag layer false (slice w 0 h) in let B := slice w (h + a) (n - h - a) in
  header layer w n = inr (h, t) ∧ 0 <= layer <= 1 ∧ 2 <= h ∧ 0 <= p ∧ h + a + p + 4 = n ∧
  n <= max_body layer ∧ a = 13 + (if key_identifier k =? 1 then 1 else 0) ∧ key_typed kr ∧
  admissible layer t kr ∧ slice w 0 n = front layer kr H (rd w h) ++ B ∧
  Z.lor (Z.land (rd w h) 0xf8) 5 = control kr ∧ Z.land (control kr) 0xf8 = Z.land (rd w h) 0xf8.
Proof.
  unfold inspect. intros Hi Hk El Ee Hw Hn Hlay Hid Hseq Hsrc.
  destruct (header layer w n) as [|[h t']] eqn:Eh; [done|].
  destruct (ed_header_local layer w n h t' Eh Hlay Hw Hn) as (Hlay1&Hh2&Hnb&_).
  rewrite ed_secured in Hi by lia. destruct (present layer w) eqn:Ep; [|done]. cbn [negb] in Hi.
  destruct (n <? h + 5) eqn:E5; [done|]. set (c := rd w h) in *.
  assert (is_u8 c) as Hc by by apply rd_is_u8.
  rewrite (ed_octet_extended c Hc) in Hi. destruct (has c 0xc0) eqn:Ec0; [done|]. cbn [orb] in Hi.
  set (id := Z.land (Z.shiftr c 3) 3) in *.
  destruct (n <? h + _ + 4) eqn:E4 in Hi; [done|]. cbn [m_counter] in Hi.
  destruct (read_counter w (h + 1) =? _) eqn:Ectr in Hi; [done|].
  destruct (Z.land (Z.shiftr c 5) 1 =? 1) eqn:Ex; cbn [negb orb andb] in Hi;
    [|by rewrite !orb_true_r, !andb_true_r in Hi; destruct (layer =? 0)].
  rewrite orb_false_r in Hi.
  set (a := u8 (5 + 8 + (if id =? 1 then 1 else 0))) in *.
  destruct ((layer =? 0) && negb (id =? 1)) eqn:El0; [done|].
  destruct (negb (layer =? 0) && _) eqn:El1 in Hi; [done|]. injection Hi as <- <-.
  cbn [m_key_identifier m_key_sequence m_source m_counter header_length auxiliary_length payload_length] in *.
  assert (a = 13 + (if id =? 1 then 1 else 0)) as Ea by (unfold a; by destruct (id =? 1)).
  assert (13 <= a <= 14) as Ha by (rewrite Ea; destruct (id =? 1); lia).
  assert (max_body layer <= 116) as Hmb1 by (unfold max_body; destruct (layer =? _); done).
  rewrite (u8_id (n - h - a - 4)) by (unfold is_u8; lia). rewrite <- Hid in *.
  assert (shape layer (t' =? ED_APS_COMMAND) id 1 (read_counter w (h + 1)) = inr a) as Hs.
  { rewrite Ea. apply ed_shape; [intros ->; cbn [Z.eqb andb] in El0; lia| |lia].
    intros Hl. replace (layer =? 0) with false in El1 by lia. cbn [negb andb] in El1.
    assert (0 <= id <= 3) by (apply land_range; [apply Z.shiftr_nonneg, Hc|done]).
    split; [lia|]. split; lia. }
  destruct (security_received layer k w n h a (t' =? ED_APS_COMMAND) Hk Hw Hn) as [Hsp Hkr];
    [lia|lia| |by rewrite <- Hid, Ee|done| |].
  { unfold present in *. destruct (layer =? _); by rewrite rd_slice by lia. }
  { intros E. specialize (Hseq ltac:(lia)). by rewrite (proj2 (Z.eqb_eq id 1)) in Hseq by lia. }
  destruct (security_control_read c 5 Hc ltac:(lia) Ec0) as [C1 C2]. fold id in C1, C2.
  replace (Z.land (Z.shiftr c 5) 1) with 1 in C1, C2 by lia.
  split_and!; try done; try lia.
  - split; [done|]. split; [done|]. cbn [key_identifier extended_nonce counter with_reception].
    by rewrite <- Hid, Ee, Hs, Ea.
  - fold c. rewrite C1. unfold control. cbn [level key_identifier extended_nonce with_reception].
    by rewrite <- Hid, El, Ee.
  - fold c. rewrite <- C2. unfold control. cbn [level key_identifier extended_nonce with_reception].
    by rewrite <- Hid, El, Ee.
Qed.

Section operation.
Context {D : Type} `{!BlockCipher D}.

Lemma ed_header_error layer f n : header layer f n ≠ inl ZIGBEE_SECURITY_OK.
Proof.
  unfold header, read_nwk, read_aps, aps_syntax. intros H.
  repeat (case_match; simplify_eq; try done).
Qed.
Lemma ed_inspect_error layer f n : inspect layer f n ≠ inl ZIGBEE_SECURITY_OK.
Proof.
  unfold inspect. destruct (header layer f n) as [r|[h t]] eqn:E.
  - intros [= ->]. by apply ed_header_error in E.
  - by repeat case_match.
Qed.

Lemma ed_seals d layer k f n cap :
  key_typed k → Ccm.usable_limits (limits k) → is_bytes f → n <= blen f → 0 <= layer →
  let '(r, out, info, _) := ed_wire_crypt d 0 layer (Some k) (Some f) n true cap true in
  r = ZIGBEE_SECURITY_OK →
  ∃ h t, let H := slice f 0 h in let P := slice f h (n - h) in
    header layer f n = inr (h, t) ∧ 0 <= layer <= 1 ∧ 2 <= h <= n ∧ present layer H = false ∧
    admissible layer t k ∧ payload_fits layer t (n - h) = true ∧
    out = Some (protected layer k H P) ∧ blen (protected layer k H P) <= max_body layer.
Proof.
  intros Hk Hlim Hf Hn Hlay. unfold ed_wire_crypt. cbn [Z.ltb Z.compare negb orb Z.eqb].
  destruct (1 <? layer) eqn:El1; [done|].
  destruct (negb (level k =? 5) || negb (extended_nonce k =? 1)) eqn:Elv; [done|].
  destruct (_ || _) eqn:Esel in |- *; [done|].
  destruct (header layer f n) as [r|[h t]] eqn:Eh; [by intros ->; apply ed_header_error in Eh|].
  destruct (ed_header_local layer f n h t Eh Hlay Hf Hn) as (_&Hh&Hnb&_).
  assert (max_body layer <= 116) as Hmb1 by (unfold max_body; destruct (layer =? _); done).
  cbn [and_then]. unfold sealing. rewrite ed_secured by lia.
  destruct (present layer f) eqn:Ep; [done|]. destruct (counter k =? _) eqn:Ec; [done|].
  destruct (negb (layer =? 0) && _ && _) eqn:Es2; [done|].
  rewrite (u8_id (n - h)) by (unfold is_u8; lia).
  replace (if key_identifier k =? 1 then 14 else 13) with (13 + (if key_identifier k =? 1 then 1 else 0))
    by (by destruct (key_identifier k =? 1)).
  set (a := 13 + (if key_identifier k =? 1 then 1 else 0)).
  assert (13 <= a <= 14) as Ha by (unfold a; destruct (key_identifier k =? 1); lia).
  replace (h + a + (n - h) + 4) with (n + a + 4) by lia. rewrite u8_id by (unfold is_u8; lia).
  change (if layer =? 0 then Nwk.NWK_FRAME_MAX_BODY else Aps.APS_FRAME_MAX_BODY) with (max_body layer).
  destruct (max_body layer <? n + a + 4) eqn:Emb; [done|].
  assert (blen (slice f 0 h) = h) as Lh by (apply blen_slice; lia).
  assert (is_bytes (slice f 0 h)) as Hhb by by apply is_bytes_slice.
  assert (blen (blit work116 0 (slice f 0 h)) = 116) as L116 by (by rewrite blen_blit).
  rewrite ed_flag_set; [|lia|lia|by apply is_bytes_blit; [apply security_zeros_bytes|]].
  set (m := {| m_counter := _ |}).
  destruct (payload_fits layer t (n - h)) eqn:Efit.
  2:{ unfold crypt_frame. cbn [c_meta c_type payload_length m]. revert Efit. unfold payload_fits.
      destruct (layer =? 0), (t =? ED_APS_COMMAND), (t =? ED_APS_ACK), (n - h =? 0); done. }
  destruct (cap <? n + a + 4) eqn:Ecap.
  { unfold crypt_frame. cbn [c_total]. rewrite Ecap.
    match goal with |- context [if ?c then (ZIGBEE_SECURITY_LENGTH, _, _, _) else _] => by destruct c end. }
  assert (admissible layer t k) as Hadm.
  { split; [lia|]. split; [lia|]. replace (extended_nonce k) with 1 by lia. apply ed_shape; [lia| |lia].
    intros Hl. replace (layer =? 0) with false in * by lia. cbn [negb andb orb] in *. lia. }
  pose proof (ed_seal_frame d layer k f cap h a (n - h) t Hk Hlim Hadm ltac:(lia) Hf ltac:(lia)
    ltac:(lia) ltac:(lia) eq_refl ltac:(lia) Efit ltac:(lia) m eq_refl eq_refl eq_refl) as H.
  cbv zeta in H. replace (h + a + (n - h) + 4) with (n + a + 4) in H by lia.
  destruct (crypt_frame _ _ _ _ _ _) as [[[r out] info] d'].
  destruct H as [[-> _]|(_&->&_)]; [done|]. intros _. exists h, t. cbv zeta.
  pose proof Hadm as (E5&Ee&Hs).
  split_and!; try done; try lia.
  - revert Ep. unfold present. destruct (layer =? _); by rewrite rd_slice by lia.
  - rewrite (security_protected_len layer k _ _ _ _ Hk ltac:(unfold secure_level; tauto) Hs), E5.
    change (tag_length 5) with 4. rewrite !blen_slice by lia. fold a. lia.
Qed.

Lemma ed_opening layer k w n m t s :
  inspect layer w n = inr (m, t) → opening k w n (m, t) = inr s → key_typed k → is_bytes w →
  n <= blen w → 0 <= layer →
  m_key_identifier m = key_identifier k ∧ (key_identifier k = 1 → m_key_sequence m = key_sequence k) ∧
  (m_extended_nonce m ≠ 0 → m_source m = source k) ∧ c_meta s = m ∧ c_type s = t ∧
  c_total s = u8 (header_length m + payload_length m).
Proof.
  intros Hi Ho (_&Ls&_) Hw Hn Hlay. unfold opening in Ho.
  destruct (_ || _ || _) eqn:E in Ho; [done|]. injection Ho as <-. cbn [c_meta c_type].
  apply orb_false_iff in E as [E E3]. apply orb_false_iff in E as [E1 E2].
  apply negb_false_iff, bool_decide_eq_true in E3. rewrite (slice_all' (source k)) in E3 by done.
  split_and!; try done; try lia. intros Hx. rewrite slice_all' in E3; [done|].
  revert Hi Hx. unfold inspect. destruct (header layer w n) as [|[h t']] eqn:Eh; [done|].
  destruct (ed_header_local layer w n h t' Eh Hlay Hw Hn) as (_&Hh2&_&_).
  rewrite ed_octet_extended by by apply rd_is_u8.
  match goal with |- context [has (rd w h) 0xc0 || ?c] => destruct (has (rd w h) 0xc0 || c) eqn:E4 end;
    repeat match goal with |- (if ?c then inl _ else _) = _ → _ => destruct c; [done|] end; [done|].
  intros [= <- <-]. cbn [m_source m_extended_nonce].
  destruct (Z.land (Z.shiftr (rd w h) 5) 1 =? 1) eqn:Ex; [|done]. intros _.
  symmetry. apply blen_slice; [lia|lia|]. 
  apply orb_false_iff in E4 as [_ E4].
  assert (13 <= u8 (5 + 8 + (if Z.land (Z.shiftr (rd w h) 3) 3 =? 1 then 1 else 0)))
    by (destruct (Z.land (Z.shiftr (rd w h) 3) 3 =? 1); vm_compute; discriminate). lia.
Qed.

Lemma ed_opens d layer k w n cap m t s :
  key_typed k → Ccm.usable_limits (limits k) → is_bytes w → n <= blen w → 0 <= layer →
  level k = 5 → extended_nonce k = 1 → m_extended_nonce m = 1 →
  inspect layer w n = inr (m, t) → opening k w n (m, t) = inr s →
  let h := header_length m in let a := auxiliary_length m in let p := payload_length m in
  payload_fits layer t p = true → h + p <= cap →
  let kr := with_reception k (m_counter m) (key_sequence k) (limits k) in
  let H := security_flag layer false (slice w 0 h) in let B := slice w (h + a) (n - h - a) in
  let '(r, out, info, _) := crypt_frame d true layer k cap s in
  (r = ZIGBEE_SECURITY_AES ∧ out = None) ∨
  match opened layer kr H B p with
  | None => r = ZIGBEE_SECURITY_AUTH ∧ out = None
  | Some P => r = ZIGBEE_SECURITY_OK ∧ out = Some (H ++ P) ∧
              ∃ i, info = Some i ∧ meta i = m ∧ info_length i = h + p
  end.
Proof.
  intros Hk Hlim Hw Hn Hlay El Ee Hmx Hi Ho h a p Hfit Hcap kr H B.
  destruct (ed_opening layer k w n m t s Hi Ho Hk Hw Hn Hlay) as (Hid&Hseq&Hsrc&Em&Et&_).
  destruct (ed_inspected layer k w n m t Hi Hk El Ee Hw Hn Hlay Hid Hseq ltac:(apply Hsrc; lia))
    as (_&Hlay1&Hh&Hp&Hsum&Hnb&Ea&Hkr&Hadm&Hsp&C1&C2). fold h a p kr H B in Hh, Hp, Hsum, Ea, Hkr, Hadm, Hsp, C1, C2.
  assert (13 <= a <= 14) as Ha by (rewrite Ea; destruct (key_identifier k =? 1); lia).
  assert (max_body layer <= 116) as Hmb1 by (unfold max_body; destruct (layer =? _); done).
  assert (blen (slice w 0 h) = h) as Lh by (apply blen_slice; lia).
  assert (is_bytes (slice w 0 h)) as Hhb by by apply is_bytes_slice.
  assert (blen H = h) as LH by (unfold H; by rewrite security_flag_len).
  assert (is_bytes H) as HH by (by apply security_flag_bytes).
  assert (blen B = p + 4) as LB by (unfold B; rewrite blen_slice by lia; lia).
  assert (c_total s = h + p ∧ c_frame s = front layer kr H (control kr) ++ B ++ replicate (116 - Z.to_nat n) 0)
    as [Hct Hcf].
  { unfold opening in Ho. destruct (_ || _ || _) in Ho; [done|]. injection Ho as <-.
    cbn [c_total c_frame]. fold h p. rewrite u8_id by (unfold is_u8; lia). split; [done|].
    assert (blen (slice w 0 n) = n) as Ln by (apply blen_slice; lia).
    rewrite blit_0 by (unfold work116; rewrite blen_replicate; lia). unfold work116. rewrite drop_replicate.
    replace (116 - length (slice w 0 n))%nat with (116 - Z.to_nat n)%nat by (unfold blen in Ln; lia).
    rewrite rd_app_l, rd_slice, Z.add_0_l by lia. rewrite C1, Hsp, <- app_assoc.
    destruct Hadm as (_&_&Hs).
    destruct (security_front_reads layer kr H (rd w h) (B ++ replicate (116 - Z.to_nat n) 0) _ _ Hkr Hs)
      as (_&_&_&_&R5). rewrite LH in R5. apply R5. }
  pose proof (ed_open_frame d layer kr cap s H B p a (replicate (116 - Z.to_nat n) 0) Hkr Hlim) as Hof.
  rewrite Et, Em, LH in Hof.
  specialize (Hof Hadm Hlay1 Hh HH ltac:(by apply is_bytes_slice) Hp LB Ea Hcf eq_refl eq_refl eq_refl
    Hct Hfit Hcap ltac:(lia)).
  change (crypt_frame d true layer kr cap s) with (crypt_frame d true layer k cap s) in Hof.
  assert (security_flag layer false H = H) as Eabs by (by apply security_flag_twice; [lia|]).
  by rewrite Eabs in Hof.
Qed.
End operation.

Section crypt_properties.
Context {D : Type} `{!BlockCipher D}.

Lemma ed_front_bytes layer k H c :
  key_typed k → is_bytes H → is_u8 c → is_bytes (front layer k H c).
Proof.
  intros (_&_&Hs&_&_&_&Hq&_) HH Hc. unfold front, aux_tail. apply is_bytes_app.
  split; [by apply security_flag_bytes|]. apply Forall_cons_2; [done|].
  rewrite !is_bytes_app. split; [apply security_counter_bytes|].
  split; [by destruct (negb _); [|constructor]|].
  destruct (_ =? 1); [apply Forall_cons_2; [done|constructor]|constructor].
Qed.
Lemma ed_same_opened layer k k' H B p lim :
  same_selection k k' →
  opened layer (with_reception k' (counter k) (key_sequence k') lim) H B p = opened layer k H B p.
Proof.
  intros (E1&E2&E3&E4&E5&E6). unfold opened, front, key_nonce, aux_tail, control.
  cbn [key source counter level key_identifier key_sequence extended_nonce with_reception].
  rewrite E1, E2, E3, E4, E5. destruct (key_identifier k =? 1) eqn:E; [|done].
  by rewrite (E6 ltac:(lia)).
Qed.

(** The admitted key selection of an opening call. *)
Lemma ed_crypt_open d layer k k' t w n cap m s :
  admissible layer t k → same_selection k k' → 0 <= layer <= 1 → 0 <= key_identifier k →
  inspect layer w n = inr (m, t) → opening k' w n (m, t) = inr s →
  ed_wire_crypt d 1 layer (Some k') (Some w) n true cap true = crypt_frame d true layer k' cap s.
Proof.
  intros (El&Ee&Hs) (_&_&E3&E4&E5&_) Hlay Hid Hi Ho. unfold ed_wire_crypt.
  cbn [Z.ltb Z.compare Pos.compare Pos.compare_cont negb orb Z.eqb].
  rewrite E3, E4, E5, El, Ee. replace (1 <? layer) with false by lia. cbn [Z.eqb Pos.eqb negb orb].
  apply security_shape in Hs as Hr; [|lia|lia]. destruct Hr as (Hr&_).
  replace ((layer =? 0) && negb (key_identifier k =? 1)
           || negb (layer =? 0) && ((key_identifier k =? 1) || (3 <? key_identifier k))) with false.
  { by rewrite Hi; cbn [and_then]; rewrite Ho. }
  revert Hs. unfold shape, ZIGBEE_SECURITY_NWK. destruct (_ || (3 <? _)); [done|]. rewrite Ee.
  destruct (layer =? 0), (key_identifier k =? 1); cbn [negb andb orb Z.eqb]; try done; intros _; lia.
Qed.

(** What the receiver finds in a protected frame. *)
Lemma ed_protected_received layer k f n h t :
  key_typed k → admissible layer t k → header layer f n = inr (h, t) → 0 <= layer → is_bytes f →
  n <= blen f → present layer (slice f 0 h) = false → 2 <= h <= n →
  let H := slice f 0 h in let P := slice f h (n - h) in let w := protected layer k H P in
  blen w <= max_body layer →
  ∃ a, is_bytes w ∧
    inspect layer w (blen w)
    = inr ({| m_counter := counter k; m_source := source k; m_level := 5;
              m_key_identifier := key_identifier k;
              m_key_sequence := if key_identifier k =? 1 then key_sequence k else 0;
              m_extended_nonce := 1; header_length := h; auxiliary_length := a;
              payload_length := n - h |}, t) ∧
    security_flag layer false (slice w 0 h) = H ∧
    opened layer k H (slice w (h + a) (blen w - h - a)) (n - h) = Some P.
Proof.
  intros Hk (El&Ee&Hs) Hh Hlay Hf Hn Hpres Hhn H P w Hmb.
  assert (blen H = h) as LH by (apply blen_slice; lia).
  assert (blen P = n - h) as LP by (apply blen_slice; lia).
  assert (is_bytes H) as HH by by apply is_bytes_slice.
  destruct (security_opened_protected layer k H P Hk) as (B&Ew&LB&Hop&HB);
    [unfold secure_level; tauto|]. fold w in Ew.
  specialize (HB ltac:(by apply is_bytes_slice)).
  rewrite El in LB. change (tag_length 5) with 4 in LB. rewrite LP in LB, Hop.
  set (a := 13 + (if key_identifier k =? 1 then 1 else 0)) in *. exists a.
  assert (security_flag layer false H = H) as Eabs by (apply security_flag_absent; done || lia).
  assert (is_u8 (Z.land (control k) 0xf8)) as Hcu.
  { pose proof Hk as (_&_&_&_&Hlv&Hid&_&Hex). unfold is_u8 in Hlv, Hid, Hex.
    destruct (security_shape _ _ _ _ _ _ (proj1 Hid) (proj1 Hex) Hs) as (?&?&_).
    destruct (security_control_fields (level k) (key_identifier k) (extended_nonce k)) as (C0&_);
      [lia|lia|lia|]. fold (control k) in C0. apply is_u8_land; [apply C0|done]. }
  assert (is_bytes w) as Hw.
  { rewrite Ew. apply is_bytes_app. split; [by apply ed_front_bytes|done]. }
  pose proof (ed_inspect_protected layer k f n h t a (n - h) B Hk (conj El (conj Ee Hs)) Hh Hlay Hf Hn
    HB ltac:(lia) LB eq_refl) as Hi.
  fold H in Hi. cbv zeta in Hi. rewrite Eabs, <- Ew in Hi. specialize (Hi Hw Hmb).
  pose proof (security_front_len layer k H (Z.land (control k) 0xf8) a _ Hk Hs) as LF.
  split; [done|]. split; [done|]. split.
  - rewrite Ew. unfold front. rewrite <- app_assoc, security_slice_head by (by rewrite security_flag_len).
    by rewrite security_flag_twice, Eabs by (done || lia).
  - replace (slice w (h + a) (blen w - h - a)) with B; [done|]. symmetry.
    rewrite Ew. rewrite <- (app_nil_r B) at 1. apply slice_app_mid; [lia|rewrite blen_app; lia].
Qed.

Lemma ed_opening_selects k k' w n t m :
  same_selection k k' → m_source m = source k → m_key_identifier m = key_identifier k →
  m_key_sequence m = (if key_identifier k =? 1 then key_sequence k else 0) →
  ∃ s, opening k' w n (m, t) = inr s.
Proof.
  intros (_&K2&_&K4&_&K6) Es Ei Eq. unfold opening. rewrite Ei, Es, Eq, K4, K2, Z.eqb_refl.
  rewrite bool_decide_eq_true_2 by done. cbn [negb orb].
  destruct (key_identifier k =? 1) eqn:E; cbn [andb orb]; [|by eexists].
  rewrite K6, Z.eqb_refl by lia. cbn [negb]. by eexists.
Qed.

Lemma ed_wire_sealed_opens d d2 k k' f n layer cap cap2 out info d' :
  key_typed k → key_typed k' → Ccm.usable_limits (limits k) → Ccm.usable_limits (limits k') →
  is_bytes f → n <= blen f → 0 <= layer → same_selection k k' →
  ed_wire_crypt d 0 layer (Some k) (Some f) n true cap true = (ZIGBEE_SECURITY_OK, Some out, Some info, d') →
  n <= cap2 →
  let '(r, back, info2, _) :=
    ed_wire_crypt d2 1 layer (Some k') (Some out) (blen out) true cap2 true in
  (r = ZIGBEE_SECURITY_AES ∧ back = None) ∨
  (r = ZIGBEE_SECURITY_OK ∧ back = Some (slice f 0 n) ∧
   ∃ i, info2 = Some i ∧ m_counter (meta i) = counter k).
Proof.
  intros Hk Hk' Hlim Hlim' Hf Hn Hlay Hsel Hseal Hcap2.
  pose proof (ed_seals d layer k f n cap Hk Hlim Hf Hn Hlay) as S. rewrite Hseal in S.
  destruct (S eq_refl) as (h&t&Hh&Hlay1&Hhn&Hpres&Hadm&Hfit&Hout&Hmb). injection Hout as ->.
  destruct (ed_protected_received layer k f n h t Hk Hadm Hh Hlay Hf Hn Hpres Hhn Hmb)
    as (a&Hw&Hi&EH&Hop).
  set (w := protected _ _ _ _) in *. set (m := {| m_counter := counter k |}) in *.
  destruct (ed_opening_selects k k' w (blen w) t m Hsel eq_refl eq_refl eq_refl) as [s Ho].
  rewrite (ed_crypt_open d2 layer k k' t w (blen w) cap2 m s) by (done || apply Hk).
  pose proof Hsel as (_&_&K3&_&K5&_). pose proof Hadm as (El&Ee&_).
  pose proof (ed_opens d2 layer k' w (blen w) cap2 m t s Hk' Hlim' Hw ltac:(lia) Hlay
    ltac:(by rewrite K3) ltac:(by rewrite K5) eq_refl Hi Ho) as G.
  cbv zeta in G. cbn [m header_length payload_length auxiliary_length m_counter] in G.
  replace (h + (n - h)) with n in G by lia. specialize (G Hfit Hcap2).
  rewrite ed_same_opened, EH, Hop in G by done.
  destruct (crypt_frame _ _ _ _ _ _) as [[[r back] info2] d3].
  destruct G as [G|(->&->&i&->&Hm&_)]; [by left|]. right. split; [done|]. split.
  - f_equal. symmetry. apply slice_prefix; lia.
  - exists i. split; [done|]. by rewrite Hm.
Qed.

(** What one end device seals, another opens. A frame that [ed_wire_crypt] seals opens under
    any key record with the same selection, whatever the device state and limits of the
    receiver: it gives back exactly the frame and reports the sender's counter, or the block
    cipher fails; it is never refused. *)
Theorem ed_wire_crypt_roundtrip d d2 k k' f n layer cap cap2 out info d' :
  key_typed k → key_typed k' → Ccm.usable_limits (limits k) → Ccm.usable_limits (limits k') →
  is_bytes f → n <= blen f → 0 <= layer → same_selection k k' →
  ed_wire_crypt d 0 layer (Some k) (Some f) n true cap true = (ZIGBEE_SECURITY_OK, Some out, Some info, d') →
  n <= cap2 →
  let '(r, back, info2, _) :=
    ed_wire_crypt d2 1 layer (Some k') (Some out) (blen out) true cap2 true in
  (r = ZIGBEE_SECURITY_AES ∧ back = None) ∨
  (r = ZIGBEE_SECURITY_OK ∧ back = Some (slice f 0 n) ∧
   ∃ i, info2 = Some i ∧ m_counter (meta i) = counter k).
Proof. apply ed_wire_sealed_opens. Qed.

Lemma ed_refused_error layer k w n r :
  and_then (inspect layer w n) (opening k w n) = inl r → r ≠ ZIGBEE_SECURITY_OK.
Proof.
  destruct (inspect layer w n) as [r0|[m t]] eqn:E; cbn [and_then].
  - intros [= ->] ->. by apply ed_inspect_error in E.
  - unfold opening. destruct (_ || _ || _); [by intros [= <-]|done].
Qed.
Lemma ed_inspect_nonce layer w n m t :
  inspect layer w n = inr (m, t) → is_bytes w → m_extended_nonce m = 1 ∧ m_counter m ≠ 0xffffffff.
Proof.
  intros Hi Hw. revert Hi. unfold inspect. destruct (header layer w n) as [|[h t']]; [done|].
  rewrite ed_octet_extended by by apply rd_is_u8.
  destruct (Z.land (Z.shiftr (rd w h) 5) 1 =? 1) eqn:Ex; cbn [negb];
    rewrite ?orb_true_r, ?orb_true_l, ?andb_true_r; cbn [m_counter];
    destruct (read_counter w (h + 1) =? _) eqn:Ec;
    repeat match goal with |- (if ?c then inl _ else _) = _ → _ => destruct c eqn:?; [done|] end;
    try done; intros [= <- <-]; cbn; lia.
Qed.

Lemma security_opened_bytes layer k H B p P :
  key_typed k → secure_level (level k) → is_bytes B → opened layer k H B p = Some P → is_bytes P.
Proof.
  intros (Lk&Ls&_) _ HB. unfold opened.
  assert (blen (key_nonce k) = 13) as Ln
    by (unfold key_nonce; rewrite !blen_app, Ls, security_counter_len; done).
  destruct (has (level k) 4).
  - unfold Ccm.unseal. cbv zeta. destruct (bool_decide _); [|done]. intros [= <-].
    rewrite <- Ccm.ccm_crypted. apply cipher_xors_bytes; [by apply is_bytes_slice|].
    by apply Ccm.ccm_stream_bytes.
  - destruct (Ccm.unseal _ _ _ _ _); [|done]. intros [= <-]. by apply is_bytes_slice.
Qed.
Lemma ed_wire_opened d layer k w n cap out info d' :
  key_typed k → Ccm.usable_limits (limits k) → is_bytes w → n <= blen w → 0 <= layer →
  ed_wire_crypt d 1 layer (Some k) (Some w) n true cap true = (ZIGBEE_SECURITY_OK, Some out, Some info, d') →
  ∃ H P, let kr := with_reception k (m_counter (meta info)) (key_sequence k) (limits k) in
    out = H ++ P ∧ is_bytes out ∧ blen out <= 116 ∧ present layer H = false ∧ m_counter (meta info) ≠ 0xffffffff ∧
    wr (slice w 0 n) (blen H) (Z.land (rd w (blen H)) 0xf8) = protected layer kr H P.
Proof.
  intros Hk Hlim Hw Hn Hlay. unfold ed_wire_crypt.
  cbn [Z.ltb Z.compare Pos.compare Pos.compare_cont negb orb Z.eqb].
  destruct (1 <? layer) eqn:El1; [done|].
  destruct (negb (level k =? 5) || negb (extended_nonce k =? 1)) eqn:Elv; [done|].
  destruct (_ || _) eqn:Esel in |- *; [done|].
  destruct (and_then _ _) as [r|s] eqn:Ea; [intros [= -> _ _ _]; by apply ed_refused_error in Ea|].
  destruct (inspect layer w n) as [|[m t]] eqn:Hi; [done|]. cbn [and_then] in Ea.
  destruct (ed_opening layer k w n m t s Hi Ea Hk Hw Hn Hlay) as (Hid&Hseq&Hsrc&Em&Et&Ect).
  destruct (ed_inspect_nonce _ _ _ _ _ Hi Hw) as [Hx Hctr].
  destruct (ed_inspected layer k w n m t Hi Hk ltac:(lia) ltac:(lia) Hw Hn Hlay Hid Hseq ltac:(apply Hsrc; lia))
    as (_&Hlay1&Hh&Hp&Hsum&Hnb&Haux&Hkr&(_&_&Hs)&Hsp&C1&C2).
  set (h := header_length m) in *. set (a := auxiliary_length m) in *. set (p := payload_length m) in *.
  set (kr := with_reception _ _ _ _) in *. set (H := security_flag _ _ _) in *.
  assert (max_body layer <= 116) as Hmb1 by (unfold max_body; destruct (layer =? _); done).
  assert (13 <= a) as Ha by (rewrite Haux; destruct (key_identifier k =? 1); lia).
  rewrite u8_id in Ect by (unfold is_u8; lia).
  destruct (payload_fits layer t p) eqn:Efit.
  2:{ unfold crypt_frame. rewrite Em, Et. fold p. revert Efit. unfold payload_fits.
      destruct (layer =? 0), (t =? ED_APS_COMMAND), (t =? ED_APS_ACK), (p =? 0); done. }
  destruct (cap <? h + p) eqn:Ecap.
  { unfold crypt_frame. rewrite Ect, Ecap.
    match goal with |- context [if ?c then (ZIGBEE_SECURITY_LENGTH, _, _, _) else _] => by destruct c end. }
  pose proof (ed_opens d layer k w n cap m t s Hk Hlim Hw Hn Hlay ltac:(lia) ltac:(lia) Hx Hi Ea Efit
    ltac:(fold h p; lia)) as G.
  intros Hc. rewrite Hc in G. cbv zeta in G. fold h a p kr H in G.
  destruct G as [[[=] _]|G]. destruct (opened layer kr H _ p) as [P|] eqn:Hop; [|by destruct G].
  destruct G as (_&[= ->]&i&[= ->]&Hm&_). rewrite Hm. fold kr. exists H, P. cbv zeta.
  assert (blen (slice w 0 h) = h) as Lh by (apply blen_slice; lia).
  assert (is_bytes (slice w 0 h)) as Hhb by by apply is_bytes_slice.
  assert (blen H = h) as LH by (unfold H; by rewrite security_flag_len).
  assert (secure_level (level kr)) as Hsl by (unfold secure_level; cbn [level kr with_reception]; lia).
  assert (is_bytes P) as HP.
  { eapply security_opened_bytes; [apply Hkr|exact Hsl| |exact Hop]. by apply is_bytes_slice. }
  split; [done|]. split.
  { apply is_bytes_app. split; [by apply security_flag_bytes|done]. }
  pose proof Hop as Hop'. apply security_opened_inv in Hop' as [_ LP']; [|done|done|done|].
  2:{ cbn [level kr with_reception]. replace (level k) with 5 by lia. change (tag_length 5) with 4.
      rewrite blen_slice by lia. lia. }
  split; [rewrite blen_app; lia|].
  split; [by apply security_flag_present; [lia|]|]. split; [done|].
  apply security_opened_inv in Hop as [<- LP]; [|done|done|done|].
  - rewrite Hsp, LH.
    destruct (security_front_reads layer kr H (rd w h) (slice w (h + a) (n - h - a)) _ _ Hkr Hs)
      as (_&_&_&_&R5). rewrite LH in R5. rewrite R5. by rewrite C2.
  - cbn [level kr with_reception]. replace (level k) with 5 by lia. change (tag_length 5) with 4.
    rewrite blen_slice by lia. lia.
Qed.
(** C39: only protected frames open. Whatever octets arrive, when [ed_wire_crypt] opens them the
    frame is, up to the untrusted level bits of its control octet, the protection under the key
    of the unsecured frame it returns, with the counter it reports; an exhausted counter value is
    never accepted. *)
Theorem ed_wire_crypt_authentic d layer k w n cap out info d' :
  key_typed k → Ccm.usable_limits (limits k) → is_bytes w → n <= blen w → 0 <= layer →
  ed_wire_crypt d 1 layer (Some k) (Some w) n true cap true = (ZIGBEE_SECURITY_OK, Some out, Some info, d') →
  ∃ H P, let kr := with_reception k (m_counter (meta info)) (key_sequence k) (limits k) in
    out = H ++ P ∧ present layer H = false ∧ m_counter (meta info) ≠ 0xffffffff ∧
    wr (slice w 0 n) (blen H) (Z.land (rd w (blen H)) 0xf8) = protected layer kr H P.
Proof.
  intros Hk Hlim Hw Hn Hlay Hc.
  destruct (ed_wire_opened d layer k w n cap out info d' Hk Hlim Hw Hn Hlay Hc) as (H&P&->&_&_&Hr).
  by exists H, P.
Qed.
End crypt_properties.

(** ** The packet codec *)

(** What the wire keeps of a packet: an absent IEEE address is zero, a NWK command has no APS
    header, a short APS header has type, flags and counter only; the payload is padded. *)
Definition wire_aps (a : Aps.aps_header_t) : Aps.aps_header_t :=
  if is_short a
  then Aps.header zero_aps <| Aps.counter := Aps.counter a |> <| Aps.type := Aps.type a |>
         <| Aps.delivery_mode := Aps.delivery_mode a |> <| Aps.flags := Aps.flags a |>
  else a.
Definition wire_packet (p : ed_packet_t) : ed_packet_t := {|
  nwk := Nwk.normalise (nwk p);
  aps := if Nwk.type (nwk p) =? 0 then wire_aps (aps p) else Aps.header zero_aps;
  p_length := p_length p;
  p_payload := slice (p_payload p) 0 (p_length p) ++ replicate (Z.to_nat (82 - p_length p)) 0 |}.
Definition packet_typed (p : ed_packet_t) : Prop :=
  Nwk.header_typed (nwk p) ∧ is_bytes (Nwk.destination_ieee (nwk p)) ∧ is_bytes (Nwk.source_ieee (nwk p)) ∧
  Aps.header_typed (aps p) ∧ is_u8 (p_length p) ∧ blen (p_payload p) = 82 ∧ is_bytes (p_payload p).
#[export] Instance packet_typed_dec p : Decision (packet_typed p).
Proof. unfold packet_typed, Aps.header_typed. apply _. Defined.

(** The fields of an APS control octet. *)
Lemma ed_control_fields t d f :
  0 <= t <= 2 → 0 <= d <= 3 → is_u8 f → Z.land f 0x0f = 0 →
  let c := u8 (Z.lor (Z.lor t (u8 (Z.shiftl d 2))) f) in
  is_u8 c ∧ Z.land c 3 = t ∧ Z.land (Z.shiftr c 2) 3 = d ∧ Z.land c 0xf0 = f.
Proof.
  intros Ht Hd Hf Hz. cbv zeta. split; [apply u8_range|].
  assert (t ∈ [0;1;2]) as H1 by (rewrite !elem_of_cons; lia).
  assert (d ∈ [0;1;2;3]) as H2 by (rewrite !elem_of_cons; lia). clear Ht Hd.
  assert (Forall (λ t, Forall (λ d, negb (Z.land f 0x0f =? 0) ||
    ((Z.land (u8 (Z.lor (Z.lor t (u8 (Z.shiftl d 2))) f)) 3 =? t) &&
     (Z.land (Z.shiftr (u8 (Z.lor (Z.lor t (u8 (Z.shiftl d 2))) f)) 2) 3 =? d) &&
     (Z.land (u8 (Z.lor (Z.lor t (u8 (Z.shiftl d 2))) f)) 0xf0 =? f)) = true) [0;1;2;3]) [0;1;2]) as H
    by (repeat (apply list.Forall_cons_2 || apply list.Forall_nil_2); by_u8 f).
  rewrite list.Forall_forall in H. specialize (H t H1). rewrite list.Forall_forall in H.
  specialize (H d H2). rewrite Hz in H. cbn [Z.eqb negb orb] in H. split_and!; lia.
Qed.

Definition short_control (c : Z) : bool :=
  (Z.land c 3 =? ED_APS_COMMAND) || ((Z.land c 3 =? ED_APS_ACK) && has (Z.land c 0xf0) Aps.APS_FLAG_ACK_FORMAT).
Lemma ed_read_aps_inv f n i :
  read_aps (Some f) n true = inr i →
  ∃ j, aps_syntax f n (short_control (rd f 0)) = inr j ∧ 2 <= n <= 108 ∧
  i = {| Aps.header := Aps.header j <| Aps.type := Z.land (rd f 0) 3 |>
                         <| Aps.delivery_mode := Z.land (Z.shiftr (rd f 0) 2) 3 |>
                         <| Aps.flags := Z.land (rd f 0) 0xf0 |>;
         Aps.payload_offset := Aps.payload_offset j;
         Aps.payload_length := u8 (n - Aps.payload_offset j) |}.
Proof.
  unfold read_aps, Aps.APS_FRAME_MAX_BODY. cbn [negb].
  destruct ((n <? 2) || (108 <? n)) eqn:E; [done|]. fold (short_control (rd f 0)).
  match goal with |- context [if ?c then inl ZIGBEE_SECURITY_HEADER else _] => destruct c end; [done|].
  destruct (aps_syntax f n _) as [r|j] eqn:Es; [done|]. intros [= <-]. exists j. split; [done|].
  split; [lia|done].
Qed.
(** The header of the APDU that [e] starts with is the one the packet keeps. *)
Lemma ed_aps_header a e n i :
  Aps.header_typed a → Aps.type a <= 2 → Aps.delivery_mode a <= 3 → Z.land (Aps.flags a) 0x0f = 0 →
  rd e 0 = aps_control a → read_aps (Some e) n true = inr i →
  (if is_short a then rd e 1 = Aps.counter a
   else slice e 1 7 = drop 1 (Aps.header_bytes a) ∧ 8 <= blen e ∧
        Aps.validate_header (application a) = Aps.APS_CODEC_OK) →
  Aps.header i = wire_aps a ∧ Aps.payload_offset i = (if is_short a then 2 else 8).
Proof.
  intros Ht Ht2 Hd3 Hf0 He Hr Hx. pose proof Ht as (Ha1&Ha2&Ha3&_). unfold is_u8 in Ha1, Ha2.
  destruct (ed_control_fields (Aps.type a) (Aps.delivery_mode a) (Aps.flags a)) as (Cu&C1&C2&C3); try done; try lia.
  fold (aps_control a) in Cu, C1, C2, C3.
  apply ed_read_aps_inv in Hr as (j&Hs&Hn&->). cbn [Aps.header Aps.payload_offset].
  rewrite He in *. rewrite C1, C2, C3.
  assert (short_control (aps_control a) = is_short a) as Esh by (unfold short_control; by rewrite C1, C3).
  rewrite Esh in Hs. unfold wire_aps. destruct (is_short a).
  - unfold aps_syntax in Hs. injection Hs as <-. cbn [Aps.header Aps.payload_offset]. by rewrite Hx.
  - destruct Hx as (Hx&Hl&Hv). unfold aps_syntax in Hs. destruct (n <? 8) eqn:E8; [done|].
    set (ha := application a) in *.
    assert (wr (blit work116 0 (slice e 0 8)) 0
      (Z.land (rd (blit work116 0 (slice e 0 8)) 0) Aps.APS_FLAG_ACK_REQUEST)
      = Aps.header_bytes ha ++ replicate 108 0) as Eb.
    { assert (slice e 0 8 = aps_control a :: drop 1 (Aps.header_bytes a)) as ->.
      { rewrite (slice_prefix e 1) by lia. change (8 - 1) with 7. rewrite Hx, <- He.
        assert (slice e 0 1 = [rd e 0]) as -> by (by rewrite slice_rd by lia). done. }
      rewrite blit_0 by done. unfold work116. rewrite drop_replicate. cbn [app]. rewrite rd_0.
      transitivity (Z.land (aps_control a) 0x40 :: drop 1 (Aps.header_bytes a) ++ replicate 108 0); [reflexivity|].
      assert (Z.land (aps_control a) 0x40 = u8 (Z.land (Z.land (aps_control a) 0xf0) 0x40)) as ->.
      { revert Cu. generalize (aps_control a). intros c Hc. by_u8 c. }
      rewrite C3. done. }
    assert (Aps.header_typed ha) as Hha.
    { destruct Ht as (?&?&?&?&?&?&?&?). split_and!; try done. apply is_u8_land; [apply Ha3|done]. }
    rewrite Eb, Aps.aps_decode_emitted in Hs by (done || lia).
    injection Hs as <-. cbn [Aps.header Aps.payload_offset]. split; [by unfold ha; destruct a|done].
Qed.

Lemma ed_apdu_reads e n i :
  read_aps (Some e) n true = inr i → is_bytes e → n <= blen e →
  read_aps (Some (slice e 0 n)) n true = inr i.
Proof.
  intros H He Hn. pose proof H as H'. apply ed_read_aps_range in H' as (Ho&Hn2&_&Hl&_).
  assert (blen (slice e 0 n) = n) as Ls by (apply blen_slice; lia).
  assert (∀ j, 0 <= j < n → rd (slice e 0 n) j = rd e j) as Hr
    by (intros; rewrite rd_slice by lia; f_equal; lia).
  rewrite (ed_read_aps_local e n i (slice e 0 n) n) by
    (done || lia || (by apply is_bytes_slice) || (by rewrite Hr by lia) || (intros; apply Hr; lia)).
  rewrite Hr by lia. apply ed_read_aps_inv in H as (j&_&_&->). cbn [Aps.header Aps.payload_offset]. done.
Qed.
Lemma ed_aps_bytes a : Aps.header_typed a → is_bytes (Aps.header_bytes a).
Proof.
  intros (?&?&?&?&?&?&?&?). unfold Aps.header_bytes.
  repeat (apply Forall_cons_2; [done || apply u8_range|]). apply Forall_nil_2.
Qed.

(** The APDU of an encoded packet: a header that reads back, then the payload. *)
Lemma ed_encode_aps p e n :
  encode_aps p = inr (e, n) → Aps.header_typed (aps p) → blen (p_payload p) = 82 → is_bytes (p_payload p) →
  0 <= p_length p <= 82 → Aps.type (aps p) <= 2 → Aps.delivery_mode (aps p) <= 3 →
  Z.land (Aps.flags (aps p)) 0x0f = 0 →
  ∃ o, 2 <= o <= 8 ∧ n = o + p_length p ∧ blen e = 116 ∧
    slice e o (p_length p) = slice (p_payload p) 0 (p_length p) ∧
    (Aps.type (aps p) = ED_APS_ACK → p_length p = 0) ∧ (Aps.type (aps p) = ED_APS_COMMAND → p_length p ≠ 0) ∧
    read_aps (Some (slice e 0 n)) n true
    = inr {| Aps.header := wire_aps (aps p); Aps.payload_offset := o; Aps.payload_length := p_length p |}.
Proof.
  intros He Ht L82 Hpb Hl Ht2 Hd3 Hf0. unfold encode_aps in He.
  set (a := aps p) in *. set (len := p_length p) in *.
  set (P := slice (p_payload p) 0 len) in *. set (o := if is_short a then 2 else 8).
  assert (blen P = len) as LP by (apply blen_slice; lia).
  assert (is_bytes P) as HP by by apply is_bytes_slice.
  pose proof Ht as (_&_&Ha3&_&_&_&_&Ha8).
  assert (is_u8 (aps_control a)) as Hc by apply u8_range.
  match type of He with match ?b with _ => _ end = _ => destruct b as [|[e0 n0]] eqn:Eb; [done|] end.
  destruct (read_aps (Some e0) n0 true) as [|i] eqn:Er; [done|].
  destruct (_ || _) eqn:Eg in He; [done|]. injection He as -> ->.
  assert (∃ A R, e = A ++ P ++ R ∧ blen A = o ∧ blen e = 116 ∧ n = o + len ∧ is_bytes e ∧
    rd e 0 = aps_control a ∧
    (if is_short a then rd e 1 = Aps.counter a
     else slice e 1 7 = drop 1 (Aps.header_bytes a) ∧ 8 <= blen e ∧
          Aps.validate_header (application a) = Aps.APS_CODEC_OK))
    as (A&R&Ee&LA&Le&En&Hb&R0&Hx).
  { clear Er Eg. unfold o. destruct (is_short a).
    - injection Eb as <- <-. exists [aps_control a; Aps.counter a], (replicate (114 - length P) 0).
      assert (blit (wr (wr work116 0 (aps_control a)) 1 (Aps.counter a)) 2 P
        = [aps_control a; Aps.counter a] ++ P ++ replicate (114 - length P) 0) as ->.
      { rewrite !wr_blit. rewrite (blit_blit' work116 0 1), (blit_blit' work116 0 2) by done.
        rewrite blit_0 by (rewrite blen_app, LP; unfold work116; rewrite blen_replicate; unfold blen; cbn; lia).
        unfold work116. rewrite drop_replicate, length_app, <- app_assoc. do 3 f_equal. }
      split; [done|]. split; [done|]. rewrite !blen_app, LP, blen_replicate.
      change (blen [aps_control a; Aps.counter a]) with 2.
      split; [unfold blen in LP; lia|]. rewrite u8_id by (unfold is_u8; lia). split; [lia|].
      split; [|done]. rewrite !is_bytes_app. split; [|split; [done|apply security_zeros_bytes]].
      by repeat (apply Forall_cons_2; [done|]).
    - destruct (Aps.aps_frame_encode _ _ _ _ _ _) as [[r [b'|]] [l'|]] eqn:Ef in Eb; destruct r; try done.
      apply Aps.aps_frame_encode_ok in Ef as (Hv&Hn1&_&_&[= ->]&[= ->]). injection Eb as <- <-.
      rewrite Aps.aps_emit_frame_buffer by (unfold Aps.APS_FRAME_HEADER_SIZE, work116; cbn [default from_option id];
        fold P; rewrite blen_replicate; lia). cbn [default from_option id]. fold P.
      set (hb := Aps.header_bytes (application a)).
      exists (wr hb 0 (aps_control a)), (drop (8 + length P) work116).
      rewrite wr_app_l by done. split; [done|]. split; [by rewrite blen_wr|].
      unfold work116. rewrite drop_replicate, !blen_app, blen_wr, blen_replicate, LP.
      change (blen hb) with 8. split; [unfold blen in LP; lia|].
      rewrite u8_id by (unfold is_u8; lia). split; [done|]. split; [|split; [done|split; [done|split; [|done]]]].
      + rewrite !is_bytes_app. split; [|split; [done|apply security_zeros_bytes]].
        apply is_bytes_wr; [|done]. apply ed_aps_bytes. destruct Ht as (?&?&?&?&?&?&?&?).
        split_and!; try done. apply is_u8_land; [apply Ha3|done].
      + lia. }
  destruct (ed_aps_header a e n i Ht Ht2 Hd3 Hf0 R0 Er Hx) as [Eh Eo]. fold o in Eo.
  pose proof (ed_read_aps_range _ _ _ Er) as (Hr&_&Hr8&Epl&_).
  exists o. split; [lia|]. split; [done|]. split; [done|].
  split; [rewrite Ee; by apply slice_app_mid|].
  apply orb_false_iff in Eg as [Eg1 Eg2].
  split; [intros E; rewrite E in Eg1; cbn [Z.eqb andb Pos.eqb] in Eg1; lia|].
  split; [intros E; rewrite E in Eg2; cbn [Z.eqb andb Pos.eqb] in Eg2; lia|].
  rewrite (ed_apdu_reads e n i Er Hb) by lia. f_equal. destruct i as [ih io il]. cbn in *. subst.
  f_equal. lia.
Qed.

Lemma ed_encode_command p e n :
  encode_body p = inr (e, n) → Nwk.type (nwk p) ≠ 0 → blen (p_payload p) = 82 → 0 <= p_length p <= 82 →
  n = p_length p ∧ n ≠ 0 ∧ blen e = 116 ∧ slice e 0 n = slice (p_payload p) 0 (p_length p).
Proof.
  intros He Ht L82 Hl. unfold encode_body in He. replace (Nwk.type (nwk p) =? 0) with false in He by lia.
  cbn [negb] in He. destruct (p_length p =? 0) eqn:E; [done|]. injection He as <- <-.
  assert (blen (slice (p_payload p) 0 (p_length p)) = p_length p) as LP by (apply blen_slice; lia).
  split; [done|]. split; [lia|]. split; [by rewrite blen_blit|].
  rewrite blit_0 by (unfold work116; rewrite blen_replicate; lia). by apply security_slice_head.
Qed.

(** What an encoded packet is: the NWK header, then the body, within the caller's space. *)
Lemma ed_encode p cap f :
  encode p cap = inr f → packet_typed p →
  ∃ e n s, let N := nwk p <| Nwk.type := 0 |> in
    encode_body p = inr (e, n) ∧ Nwk.header_typed N ∧ Nwk.header_shape N = (Nwk.NWK_CODEC_OK, s) ∧
    8 <= s ∧ 0 <= n ∧ blen e = 116 ∧ s + n <= 116 ∧ s + n <= cap ∧ Nwk.type (nwk p) <= 1 ∧
    0 <= p_length p <= 82 ∧
    has (Nwk.flags (nwk p)) Nwk.NWK_FLAG_SECURITY = false ∧
    has (Aps.flags (aps p)) Aps.APS_FLAG_SECURITY = false ∧
    (Nwk.type (nwk p) = 0 → Aps.type (aps p) <= 2 ∧ Aps.delivery_mode (aps p) <= 3 ∧
                            Z.land (Aps.flags (aps p)) 0x0f = 0) ∧
    f = typed_octets (Nwk.header_bytes N) (Nwk.type (nwk p)) ++ slice e 0 n.
Proof.
  intros H (Hn&_&_&Ha&Hl&L82&Hpb). unfold encode in H.
  destruct (_ || _ || _ || _) eqn:E1 in H; [done|].
  destruct (_ && _) eqn:E2 in H; [done|].
  destruct (encode_body p) as [|[e n]] eqn:Eb; [done|].
  destruct (Nwk.nwk_frame_encode _ _ _ _ _ _) as [[r [b|]] [total|]] eqn:En; destruct r; try done.
  set (N := nwk p <| Nwk.type := 0 |>) in *.
  assert (Nwk.header_typed N) as HN.
  { destruct Hn as (?&?&?&?&?&?&?&?&?&?). split_and!; done || (split; done). }
  apply Nwk.nwk_frame_encode_ok in En as (Hv&Hn1&_&[= ->]&[= ->]); [|apply HN].
  pose proof (Nwk.nwk_header_size_range (Nwk.flags N)) as Hs. set (s := Nwk.header_size (Nwk.flags N)) in *.
  repeat rewrite orb_false_iff in E1. destruct E1 as [[[E1 E3] E4] E5]. unfold is_u8 in Hl.
  unfold ED_PAYLOAD_MAX, ED_NWK_COMMAND in *.
  assert (Nwk.type (nwk p) = 0 → Aps.type (aps p) <= 2 ∧ Aps.delivery_mode (aps p) <= 3 ∧
                            Z.land (Aps.flags (aps p)) 0x0f = 0) as Haps.
  { intros E0. rewrite E0 in E2. cbn [Z.eqb andb] in E2. repeat rewrite orb_false_iff in E2.
    destruct E2 as [[? ?] Hh]. unfold has in Hh. unfold ED_APS_ACK in *. lia. }
  assert (0 <= n ∧ blen e = 116) as [Hn0 Le].
  { destruct (decide (Nwk.type (nwk p) = 0)) as [E0|E0].
    - unfold encode_body in Eb. rewrite E0 in Eb. cbn [Z.eqb negb] in Eb.
      destruct (Haps E0) as (?&?&?).
      destruct (ed_encode_aps p e n Eb Ha L82 Hpb) as (o&?&?&?&_); try done; lia.
    - destruct (ed_encode_command p e n Eb E0 L82) as (?&?&?&_); lia. }
  change (Nwk.header_size (Nwk.flags (nwk p))) with s in H.
  rewrite (u8_id (s + n)) in H by (unfold is_u8; lia).
  destruct (cap <? s + n) eqn:Ecap; [done|]. injection H as <-. exists e, n, s. cbv zeta.
  split_and!; try done; try lia. cbn [default from_option id].
  assert (blen (slice e 0 n) = n) as Ls by (apply blen_slice; lia).
  pose proof (Nwk.nwk_typed_sized _ HN) as Hsz.
  rewrite Nwk.nwk_emit_frame_buffer by (done || (fold s; unfold work116; rewrite blen_replicate; lia)).
  fold s. pose proof (Nwk.nwk_header_bytes_len N Hsz) as LN. fold s in LN.
  rewrite rd_app_l, wr_app_l by lia. fold (typed_octets (Nwk.header_bytes N) (Nwk.type (nwk p))).
  rewrite app_assoc. apply security_slice_head. unfold typed_octets. rewrite blen_app, blen_wr. lia.
Qed.

Lemma ed_slice_tail A e n s i k :
  blen A = s → 0 <= i → 0 <= k → i + k <= n → n <= blen e →
  slice (A ++ slice e 0 n) (s + i) k = slice e i k.
Proof.
  intros <- Hi Hk Hn He. assert (blen (slice e 0 n) = n) as Ls by (apply blen_slice; lia).
  pose proof (blen_nonneg A). apply slice_eq; rewrite ?blen_app, ?blen_slice by lia; try lia.
  intros j Hj. rewrite rd_app_r by lia. rewrite !rd_slice by lia. f_equal. lia.
Qed.

(** C38: the packet codec round-trips. Whatever packet [ed_wire_encode] accepts, the frame it
    emits fits the space it was given, and [ed_wire_decode] reads the same packet back from it,
    with what the wire leaves out as zeros ([wire_packet]: addresses that are not sent, the fields
    that a short or absent APS header lacks, the unused octets of the payload). *)
Theorem ed_wire_packet_roundtrip p cap f :
  packet_typed p → ed_wire_encode (Some p) true cap true = (ZIGBEE_SECURITY_OK, Some f) →
  blen f <= cap ∧ blen f <= Nwk.NWK_FRAME_MAX_BODY ∧
  ed_wire_decode (Some f) (blen f) true = (ZIGBEE_SECURITY_OK, Some (wire_packet p)).
Proof.
  intros Hp H. unfold ed_wire_encode, published in H. cbn [negb orb] in H.
  destruct (encode p cap) as [|f'] eqn:Ee; [done|]. injection H as ->.
  destruct (ed_encode p cap f Ee Hp) as (e&n&s&Eb&HN&Hv&Hs&Hn&Le&H116&Hcap&Ht&Hl&Hsec&Hasec&Haps&->).
  destruct Hp as (Hnt&_&_&Ha&_&L82&Hpb).
  assert (Nwk.type (nwk p) = 0 ∨ Nwk.type (nwk p) = 1) as Ht01
    by (destruct Hnt as (Hnt&_); unfold is_u8 in Hnt; lia). set (N := nwk p <| Nwk.type := 0 |>) in *.
  set (A := typed_octets _ _).
  assert (blen A = s) as LA.
  { unfold A, typed_octets. rewrite blen_wr. pose proof Hv as Hv'.
    apply Nwk.nwk_header_shape_ok in Hv' as (_&_&_&_&_&_&->); [|apply HN].
    apply Nwk.nwk_header_bytes_len, Nwk.nwk_typed_sized, HN. }
  assert (blen (slice e 0 n) = n) as Ls by (apply blen_slice; lia).
  assert (blen (A ++ slice e 0 n) = s + n) as Lf by (rewrite blen_app; lia).
  rewrite Lf. split; [done|]. split; [done|].
  unfold ed_wire_decode, decode. cbn [negb]. unfold A.
  rewrite (ed_read_nwk_emitted N s) by (done || lia).
  cbn [Nwk.header Nwk.payload_offset Nwk.payload_length]. fold A. replace (s + n - s) with n by lia.
  assert (Nwk.normalise N <| Nwk.type := Nwk.type (nwk p) |> = Nwk.normalise (nwk p)) as -> by done.
  change (Nwk.flags (Nwk.normalise (nwk p))) with (Nwk.flags (nwk p)). rewrite Hsec.
  unfold zero_packet. cbn [update nwk aps p_length p_payload].
  change (Nwk.type (Nwk.normalise (nwk p))) with (Nwk.type (nwk p)).
  unfold packet_body, ED_PAYLOAD_MAX. cbn [update nwk aps p_length p_payload].
  assert (blen (slice (p_payload p) 0 (p_length p)) = p_length p) as LP by (apply blen_slice; lia).
  assert (∀ q, q = slice (p_payload p) 0 (p_length p) → blit (replicate 82 0) 0 q
    = slice (p_payload p) 0 (p_length p) ++ replicate (Z.to_nat (82 - p_length p)) 0) as Hpay.
  { intros q ->. rewrite blit_0 by (rewrite blen_replicate; lia). rewrite drop_replicate. do 2 f_equal.
    unfold blen in LP. lia. }
  destruct Ht01 as [E0|E0]; unfold wire_packet; rewrite E0; cbn [Z.eqb negb].
  - unfold encode_body in Eb. rewrite E0 in Eb. cbn [Z.eqb negb] in Eb. destruct (Haps E0) as (?&?&?).
    destruct (ed_encode_aps p e n Eb Ha L82 Hpb) as (o&Ho&En&_&Hsl&Hack&Hcmd&Hr); try done.
    assert (drop (Z.to_nat s) (A ++ slice e 0 n) = slice e 0 n) as ->
      by (apply drop_app_length'; unfold blen in LA; lia).
    rewrite Hr. cbn [Aps.header Aps.payload_offset Aps.payload_length update nwk aps p_length p_payload].
    assert (Aps.flags (wire_aps (aps p)) = Aps.flags (aps p) ∧ Aps.type (wire_aps (aps p)) = Aps.type (aps p))
      as [-> ->] by (unfold wire_aps; destruct (is_short _); done).
    rewrite Hasec. rewrite (u8_id (s + o)) by (unfold is_u8; lia).
    destruct (Aps.type (aps p) =? ED_APS_ACK) eqn:Ea; cbn [andb].
    + rewrite (Hack ltac:(lia)) in *. replace (Aps.type (aps p) =? ED_APS_COMMAND) with false
        by (unfold ED_APS_ACK, ED_APS_COMMAND in *; lia). cbn [Z.eqb negb andb Z.ltb Z.compare published].
      rewrite Hpay by done. done.
    + destruct (Aps.type (aps p) =? ED_APS_COMMAND) eqn:Ec; cbn [andb];
        [replace (p_length p =? 0) with false by (specialize (Hcmd ltac:(lia)); lia)|];
        replace (82 <? p_length p) with false by lia; cbn [published];
        rewrite Hpay; try done; rewrite <- Hsl; apply ed_slice_tail; lia.
  - destruct (ed_encode_command p e n Eb ltac:(lia) L82 Hl) as (->&Hne&_&Hsl).
    replace (p_length p =? 0) with false by lia. replace (82 <? p_length p) with false by lia.
    cbn [published]. rewrite Hpay; [done|]. rewrite <- Hsl, <- (Z.add_0_r s). rewrite ed_slice_tail by lia. done.
Qed.

(** ** Concrete instances, over the toy cipher *)
Definition sample_packet : ed_packet_t := {|
  nwk := Nwk.Build_nwk_header_t 0 2 1 0x1000 0x0000 0x1234 30 7 (replicate 8 9) [1; 2; 3; 4; 5; 6; 7; 8];
  aps := Aps.Build_aps_header_t 2 0 0x10 1 0x0402 0x0104 8 77;
  p_length := 0; p_payload := seqZ 10 82 |}.
Definition sample_encoded : bytes :=
  [0x48; 0x10; 0; 0; 0x34; 0x12; 30; 7; 1; 2; 3; 4; 5; 6; 7; 8; 0x12; 77].
Lemma ed_wire_packet_roundtrip_witness :
  ed_wire_decode (Some sample_encoded) 18 true = (ZIGBEE_SECURITY_OK, Some (wire_packet sample_packet)).
Proof.
  exact (proj2 (proj2 (ed_wire_packet_roundtrip sample_packet 20 sample_encoded
    ltac:(concrete) ltac:(vm_compute; reflexivity)))).
Defined.

Definition sample_key : zigbee_security_key_t := {|
  key := Ccm.sample_key; source := [1; 2; 3; 4; 5; 6; 7; 8]; counter := 0x01020304; level := 5;
  key_identifier := 1; key_sequence := 6; extended_nonce := 1; limits := Ccm.sample_limits |}.
Definition sample_receiver : zigbee_security_key_t := {|
  key := Ccm.sample_key; source := [1; 2; 3; 4; 5; 6; 7; 8]; counter := 0; level := 5;
  key_identifier := 1; key_sequence := 6; extended_nonce := 1; limits := Ccm.sample_limits |}.
Definition sample_frame : bytes := [0x09; 0; 0; 0; 0x34; 0x12; 1; 7; 11; 4].
Definition sample_sealed := ed_wire_crypt (D := toy_device) [] 0 0 (Some sample_key) (Some sample_frame) 10 true 60 true.
Definition sample_octets : bytes := default [] sample_sealed.1.1.2.
Definition sample_info : zigbee_security_info_t :=
  default (Build_zigbee_security_info_t zero_meta (Ccm.Build_ccm_star_info_t 0 0 AES_OK) 0) sample_sealed.1.2.
Lemma ed_wire_crypt_roundtrip_witness :
  let '(r, back, info2, _) := ed_wire_crypt (D := toy_device) [AES_OK; AES_TIMEOUT] 1 0
      (Some sample_receiver) (Some sample_octets) (blen sample_octets) true 10 true in
  (r = ZIGBEE_SECURITY_AES ∧ back = None) ∨
  (r = ZIGBEE_SECURITY_OK ∧ back = Some (slice sample_frame 0 10) ∧
   ∃ i, info2 = Some i ∧ m_counter (meta i) = counter sample_key).
Proof.
  exact (ed_wire_crypt_roundtrip (D := toy_device) [] [AES_OK; AES_TIMEOUT] sample_key sample_receiver
    sample_frame 10 0 60 10 sample_octets sample_info [] ltac:(concrete) ltac:(concrete)
    Ccm.ccm_sample_limits Ccm.ccm_sample_limits ltac:(concrete) ltac:(concrete) ltac:(concrete)
    ltac:(repeat split; reflexivity) ltac:(vm_compute; reflexivity) ltac:(concrete)).
Defined.

(** The level bits of the control octet, forged in transit, are ignored. *)
Definition sample_altered : bytes := wr sample_octets 8 (Z.lor (rd sample_octets 8) 3).
Definition sample_opened := ed_wire_crypt (D := toy_device) [] 1 0 (Some sample_receiver) (Some sample_altered)
                              (blen sample_altered) true 10 true.
Definition sample_opened_info : zigbee_security_info_t :=
  default (Build_zigbee_security_info_t zero_meta (Ccm.Build_ccm_star_info_t 0 0 AES_OK) 0) sample_opened.1.2.
Lemma ed_wire_crypt_authentic_witness :
  ∃ H P, let kr := with_reception sample_receiver (m_counter (meta sample_opened_info)) 6 Ccm.sample_limits in
    sample_frame = H ++ P ∧ present 0 H = false ∧ m_counter (meta sample_opened_info) ≠ 0xffffffff ∧
    wr (slice sample_altered 0 (blen sample_altered)) (blen H) (Z.land (rd sample_altered (blen H)) 0xf8)
    = protected (D := toy_device) 0 kr H P.
Proof.
  exact (ed_wire_crypt_authentic (D := toy_device) [] 0 sample_receiver sample_altered (blen sample_altered) 10
    sample_frame sample_opened_info [] ltac:(concrete) Ccm.ccm_sample_limits ltac:(concrete)
    ltac:(concrete) ltac:(concrete) ltac:(vm_compute; reflexivity)).
Defined.

End EdWire.
