(* ===== verification/CounterService.v ===== *)
(** What the security counters of src/src/security_counter.c promise the key store above them:
    the class [CounterService], and the instance that Counter.v provides over any journal.
    The owner sees counter values and one payload; [holds c P] says that every payload the
    service can give back, now or after a reset, satisfies [P]. *)
From S2P Require Import Prelude Flash Crc NvRecord NvScan Journal Counter.

Module CounterService.
Import Nv Journal Counter.

Class CounterService (M C : Type) := {
  service_open : C → outcome M (security_counter_result_t * C);
  service_create : C → Z → Z → bytes → Z → Z → security_counter_result_t * C;
  service_restage : C → bytes → Z → security_counter_result_t * C;
  service_take : C → Z → Z → outcome M (security_counter_result_t * option Z * C);
  service_save : C → bytes → Z → Z → outcome M (security_counter_result_t * C);
  service_read : C → Z → security_counter_result_t * option bytes * option Z * C;
  service_medium : C → M;
  service_restart : M → C;       (* the state after a reset *)
  holds : C → (bytes → Prop) → Prop;
  holds_and : ∀ c P Q, holds c P → holds c Q → holds c (λ b, P b ∧ Q b);
  holds_weaken : ∀ c (P Q : bytes → Prop), (∀ b, P b → Q b) → holds c P → holds c Q;
  restart_law : ∀ c P, holds c P → holds (service_restart (service_medium c)) P;
  open_law : ∀ c P, holds c P →
    match service_open c with
    | Lost m => holds (service_restart m) P
    | Ret (_, c') => holds c' P
    end;
  create_law : ∀ c P f g data n limit, holds c P → is_u32 f → is_u32 g →
    is_bytes data → is_u8 n → n <= blen data →
    let '(r, c') := service_create c f g data n limit in
    if decide (r = SECURITY_COUNTER_OK) then holds c' (λ b, b = slice data 0 n) else holds c' P;
  restage_law : ∀ c P data n, holds c P → is_bytes data → is_u8 n → n <= blen data →
    let '(r, c') := service_restage c data n in
    if decide (r = SECURITY_COUNTER_OK) then holds c' (λ b, b = slice data 0 n) else holds c' P;
  take_law : ∀ c P domain limit, holds c P → 0 <= domain <= 1 →
    match service_take c domain limit with
    | Lost m => holds (service_restart m) P
    | Ret (r, v, c') => holds c' P ∧ (r = SECURITY_COUNTER_OK → ∃ x, v = Some x ∧ is_u32 x)
    end;
  save_law : ∀ c P data n limit, holds c P → is_bytes data → is_u8 n → n <= blen data →
    match service_save c data n limit with
    | Lost m => holds (service_restart m) (λ b, P b ∨ b = slice data 0 n)
    | Ret (r, c') =>
        if decide (r = SECURITY_COUNTER_OK) then holds c' (λ b, b = slice data 0 n)
        else holds c' (λ b, P b ∨ b = slice data 0 n)
    end;
  read_law : ∀ c P capacity, holds c P →
    let '(r, data, length, c') := service_read c capacity in
    holds c' P ∧
    (r = SECURITY_COUNTER_OK →
     ∃ b, data = Some b ∧ length = Some (blen b) ∧ is_bytes b ∧ blen b <= capacity ∧ P b ∧
          holds c' (λ x, x = b));
  staged : C → bool;             (* the payload is only in memory so far *)
  staged_open : ∀ c P, holds c P →
    match service_open c with
    | Ret (r, c') => r = SECURITY_COUNTER_OK → staged c' = false
    | Lost _ => True
    end;
  staged_restage : ∀ c data n, staged c = false →
    (service_restage c data n).1 ≠ SECURITY_COUNTER_OK ∧ staged (service_restage c data n).2 = false;
  staged_take : ∀ c P domain limit, holds c P → 0 <= domain <= 1 → staged c = false →
    match service_take c domain limit with Ret (_, _, c') => staged c' = false | Lost _ => True end;
  staged_save : ∀ c P data n limit, holds c P → is_bytes data → is_u8 n → n <= blen data →
    match service_save c data n limit with
    | Ret (r, c') => staged c = false ∨ r = SECURITY_COUNTER_OK → staged c' = false
    | Lost _ => True
    end;
  staged_read : ∀ c capacity, staged (service_read c capacity).2 = staged c
}.

(** ** The implementation *)
Section Implementation.
Context {M J : Type} `{!Journal M J}.
(** Link addresses: the bounds of Counter.v, the owner's record and its other objects. *)
Variables (security_counter_reserved_end blob_at check_at record_at word_at : Z).

(** The payload of a medium, and of the blob. *)
Definition recorded (h : contents) (P : bytes → Prop) : Prop :=
  match h with
  | Holds _ b => P (slice b 16 (rd b 5))
  | _ => True
  end.
Definition payload_of (c : counter) : bytes := slice (blob c) 16 (payload_length c).
Definition counter_holds (x : J * counter) (P : bytes → Prop) : Prop :=
  let '(j, c) := x in
  sound j ∧ recorded (held (medium j)) P ∧ blen (blob c) = NV_RECORD_MAX ∧ is_bytes (blob c) ∧
  match state c with
  | SECURITY_COUNTER_READY =>
      rd (blob c) 5 <= SECURITY_COUNTER_PAYLOAD_MAX ∧ payload_length c = rd (blob c) 5 ∧
      P (payload_of c) ∧ recorded (held (medium j)) (λ b, b = payload_of c) ∧
      is_u32 (sel (next c) 0) ∧ is_u32 (sel (next c) 1) ∧
      (generation c = 0 → held (medium j) = Blank)
  | SECURITY_COUNTER_UNPROVISIONED => held (medium j) = Blank
  | SECURITY_COUNTER_FAILED => result c ≠ SECURITY_COUNTER_OK
  | SECURITY_COUNTER_COLD => True
  | SECURITY_COUNTER_BUSY => False
  end.

Lemma service_recorded_and h P Q : recorded h P → recorded h Q → recorded h (λ b, P b ∧ Q b).
Proof. by destruct h. Qed.
Lemma service_recorded_weaken h (P Q : bytes → Prop) :
  (∀ b, P b → Q b) → recorded h P → recorded h Q.
Proof. intros H. destruct h; [done|apply H|done]. Qed.
Lemma service_holds_weaken x (P Q : bytes → Prop) :
  (∀ b, P b → Q b) → counter_holds x P → counter_holds x Q.
Proof.
  destruct x as [j c]. intros H (H1&H2&H3&H4&H5).
  split; [done|]. split; [by eapply service_recorded_weaken|]. split; [done|]. split; [done|].
  destruct (state c); try done. destruct H5 as (A1&A2&A3&A4). split; [done|]. split; [done|].
  split; [by apply H|done].
Qed.
Lemma service_after_reset m P :
  recorded (held m) P → counter_holds (reboot m, reset_counter) P.
Proof.
  intros H. destruct (reboot_law m) as [Hs E]. split; [done|]. split; [by rewrite E|].
  split; [done|]. split; [concrete|done].
Qed.
Lemma service_settles old b new P :
  settles old b new → recorded old P → P (slice b 16 (rd b 5)) → recorded new P.
Proof. intros [-> |[-> |[g ->]]]; done. Qed.
Lemma service_failed j c r P :
  sound j → recorded (held (medium j)) P → blen (blob c) = NV_RECORD_MAX → is_bytes (blob c) →
  r ≠ SECURITY_COUNTER_OK → counter_holds (j, fail c r) P.
Proof. done. Qed.

(** The stored prefix of a blob has the blob's payload. *)
Lemma service_prefix b :
  is_bytes b → blen b = NV_RECORD_MAX → rd b 5 <= SECURITY_COUNTER_PAYLOAD_MAX →
  let s := slice b 0 (16 + rd b 5) in slice s 16 (rd s 5) = slice b 16 (rd b 5).
Proof.
  intros Hb L H. pose proof (rd_is_u8 b 5 Hb) as [H0 _]. cbv zeta.
  unfold SECURITY_COUNTER_PAYLOAD_MAX, NV_RECORD_MAX in *.
  rewrite rd_slice, Z.add_0_l by lia. by rewrite NvScan.nv_slice_slice by lia.
Qed.

(** A commit of a blob whose payload satisfies [Q]. *)
Lemma service_commit j c limit P :
  sound j → recorded (held (medium j)) P → is_bytes (blob c) → blen (blob c) = NV_RECORD_MAX →
  rd (blob c) 5 <= SECURITY_COUNTER_PAYLOAD_MAX →
  is_u32 (sel (next c) 0) → is_u32 (sel (next c) 1) →
  let new := slice (blob c) 16 (rd (blob c) 5) in
  match commit blob_at j c limit with
  | Lost m => counter_holds (reboot m, reset_counter) (λ b, P b ∨ b = new)
  | Ret (r, j', c') =>
      next c' = next c ∧
      if decide (r = SECURITY_COUNTER_OK) then
        state c' = SECURITY_COUNTER_READY ∧ counter_holds (j', c') (λ b, b = new)
      else counter_holds (j', c') (λ b, P b ∨ b = new)
  end.
Proof.
  intros Hs Hr Hb L H5 U0 U1. cbv zeta.
  pose proof (counter_commit blob_at j c limit Hs Hb L H5) as H. cbv zeta in H.
  pose proof (service_prefix (blob c) Hb L H5) as Hp. cbv zeta in Hp.
  assert (∀ h, settles (held (medium j)) (slice (blob c) 0 (16 + rd (blob c) 5)) h →
    recorded h (λ b, P b ∨ b = slice (blob c) 16 (rd (blob c) 5))) as Hrec.
  { intros h Hh. eapply service_settles; [done|eapply service_recorded_weaken; [|done]; by left|].
    right. by rewrite Hp. }
  destruct (commit _ j c limit) as [[[r j'] c']|m]; [|apply service_after_reset; by apply Hrec].
  destruct H as (S1&S2&N1&N2&N3&N4&N5). split; [done|].
  destruct (decide (r = SECURITY_COUNTER_OK)) as [->|Hne].
  - destruct N5 as (T1&T2&T3&T4). split; [done|]. unfold counter_holds, payload_of.
    rewrite N1, N3, T1, T3, T4. cbn [recorded]. rewrite Hp.
    split; [done|]. split; [done|]. split; [done|]. split; [done|]. repeat (split; [done|]). done.
  - split; [done|]. split; [by apply Hrec|]. rewrite N3. split; [done|]. split; [done|].
    rewrite N5, N4. done.
Qed.

Lemma service_open_law j c P :
  counter_holds (j, c) P →
  match security_counter_open blob_at j c with
  | Lost m => counter_holds (reboot m, reset_counter) P
  | Ret (_, j', c') => counter_holds (j', c') P
  end.
Proof.
  intros Hh. pose proof Hh as (Hs&Hr&L&B&Hc). unfold security_counter_open.
  destruct (state c) eqn:Est; try exact Hh.
  destruct (load j blob_at NV_RECORD_MAX) as [[[x out] j']|m] eqn:Hl.
  2: { apply service_after_reset. by rewrite (load_lost _ _ _ _ Hs Hl). }
  destruct (load_law _ _ _ _ _ _ Hs Hl) as (H1&H2&H3). cbv zeta.
  set (c1 := match out with Some b => _ | None => _ end).
  assert (recorded (held (medium j')) P) as Hr' by (by rewrite H2).
  assert (blen (blob c1) = NV_RECORD_MAX ∧ is_bytes (blob c1)) as [L1 B1].
  { subst c1. destruct out as [b|]; cbn [blob set_blob set_nv_result]; [|done].
    assert (is_bytes b) by (destruct x; naive_solver).
    split; [by rewrite blen_blit|by apply is_bytes_blit]. }
  assert (∀ e, e ≠ SECURITY_COUNTER_OK → counter_holds (j', fail c1 e) P) as Hf
    by (intros e He; by apply service_failed).
  destruct (bool_decide (x = NV_RECORD_EMPTY)) eqn:E1.
  { apply bool_decide_eq_true in E1 as ->. destruct H3 as [H3 _].
    split; [done|]. split; [done|]. split; [done|]. split; [done|]. cbn. by rewrite H2. }
  destruct (bool_decide (x ≠ NV_RECORD_OK)) eqn:E2;
    [apply Hf; by destruct (bool_decide (x = NV_RECORD_RECOVERED))|].
  apply bool_decide_eq_false, dec_stable in E2 as ->.
  destruct H3 as (g&b&Hb&->&Bb&Lb&Hg&Eg&El).
  destruct ((status_length j' <? 16) || _) eqn:E3; [by apply Hf|].
  destruct (negb (rd (blob c1) 4 =? 1)) eqn:E4; [by apply Hf|].
  destruct ((SECURITY_COUNTER_PAYLOAD_MAX <? rd (blob c1) 5) || _ || _ || _) eqn:E5; [by apply Hf|].
  rewrite !orb_false_iff, !negb_false_iff in *. destruct E5 as [[[E5 E7] E8] E9].
  pose proof (rd_is_u8 (blob c1) 5 B1) as [H50 _].
  unfold SECURITY_COUNTER_PAYLOAD_MAX, NV_RECORD_MAX in *.
  assert (∀ i, 0 <= i < blen b → rd (blob c1) i = rd b i) as Hrd.
  { intros i Hi. subst c1; cbn [blob set_blob set_nv_result]. rewrite rd_blit by lia.
    replace ((0 <=? i) && _) with true by lia. f_equal. lia. }
  assert (slice (blob c1) 16 (rd (blob c1) 5) = slice b 16 (rd b 5)) as Ep.
  { rewrite <- (Hrd 5) by lia. apply slice_ext; try lia. intros i Hi. apply Hrd; lia. }
  assert (P (slice b 16 (rd b 5))) as HP by (by rewrite H2, Hb in Hr').
  split; [done|]. split; [done|]. split; [done|]. split; [done|].
  cbn [state set_state finish set_payload_length set_generation payload_length blob floors set_next
       set_until next until generation payload_of]. rewrite H2, Hb. cbn [recorded].
  unfold payload_of, SECURITY_COUNTER_PAYLOAD_MAX, NV_RECORD_MAX.
  cbn [blob payload_length set_payload_length set_state finish set_generation floors set_next set_until].
  rewrite Ep. split; [lia|]. split; [done|]. split; [done|]. split; [done|].
  split; [by apply counter_ceiling_u32|]. split; [by apply counter_ceiling_u32|]. intros E. congruence.
Qed.

(** Staging a payload. *)
Lemma service_stage c a data n limit :
  blen (blob c) = NV_RECORD_MAX → is_bytes (blob c) → is_u8 n → is_bytes data → n <= blen data →
  let '(r, c') := stage security_counter_reserved_end c (Some (a, data)) n limit in
  if decide (r = SECURITY_COUNTER_OK)
  then state c' = SECURITY_COUNTER_READY ∧ next c' = next c ∧ generation c' = generation c ∧
       blen (blob c') = NV_RECORD_MAX ∧ is_bytes (blob c') ∧ rd (blob c') 5 = n ∧
       n <= SECURITY_COUNTER_PAYLOAD_MAX ∧ payload_length c' = n ∧
       slice (blob c') 16 n = slice data 0 n
  else c' = c.
Proof.
  intros L B Hn Bd Hl. unfold stage.
  destruct (refused _ (Some (a, data)) n limit) as [e|] eqn:E.
  - rewrite decide_False; [done|]. intros ->. revert E. unfold refused.
    by repeat match goal with |- (if ?b then _ else _) = _ → _ => destruct b end.
  - assert (n <= SECURITY_COUNTER_PAYLOAD_MAX) as Hmax.
    { revert E. unfold refused. destruct (_ <? n) eqn:?; [done|]. intros _. lia. }
    change (default [] (snd <$> Some (a, data))) with data.
    destruct (counter_payload c data n L B Bd Hn Hmax) as (P1&P2&P3&_&P5).
    rewrite decide_True by done. specialize (P5 Hl). repeat (split; [done|]). done.
Qed.

(** The header and the floors leave the payload alone. *)
Lemma service_provisioned b f g n :
  blen b = NV_RECORD_MAX → is_u8 n → n <= SECURITY_COUNTER_PAYLOAD_MAX →
  slice (blit (blit (wr (wr (blit b 0 [0x43; 0x54; 0x52; 0x31; 1]) 7 0) 6 0) 8 (Crc.encode f))
              12 (Crc.encode g)) 16 n = slice b 16 n.
Proof.
  unfold NV_RECORD_MAX, SECURITY_COUNTER_PAYLOAD_MAX, NV_RECORD_MAX, is_u8. intros L Hn Hm.
  destruct (Crc.crc_encode_ok f) as [Lf _]. destruct (Crc.crc_encode_ok g) as [Lg _].
  apply slice_ext; rewrite ?blen_blit, ?blen_wr, ?blen_blit; try lia.
  intros i Hi. rewrite !counter_rd_edit, !rd_wr, counter_rd_edit;
    rewrite ?Lf, ?Lg, ?blen_blit, ?blen_wr, ?blen_blit; rewrite ?blen_cons, ?blen_nil; try lia.
  replace (i =? 6) with false by lia. by replace (i =? 7) with false by lia.
Qed.
Lemma service_staged j c n p :
  sound j → held (medium j) = Blank → state c = SECURITY_COUNTER_READY →
  blen (blob c) = NV_RECORD_MAX → is_bytes (blob c) → rd (blob c) 5 = n →
  n <= SECURITY_COUNTER_PAYLOAD_MAX → payload_length c = n → slice (blob c) 16 n = p →
  is_u32 (sel (next c) 0) → is_u32 (sel (next c) 1) → counter_holds (j, c) (λ b, b = p).
Proof.
  intros Hs Hm Est L B H5 Hmax Hl Hp U0 U1. unfold counter_holds, payload_of.
  rewrite Hm, Est, H5, Hl, Hp. by repeat (split; [done|]).
Qed.

Lemma service_create_law j c f g a data n limit P :
  counter_holds (j, c) P → is_u32 f → is_u32 g → is_bytes data → is_u8 n → n <= blen data →
  let '(r, c') := security_counter_create security_counter_reserved_end c f g (Some (a, data)) n limit in
  if decide (r = SECURITY_COUNTER_OK) then counter_holds (j, c') (λ b, b = slice data 0 n)
  else counter_holds (j, c') P.
Proof.
  intros Hh Hf Hg Bd Hn Hl. pose proof Hh as (Hs&Hr&L&B&Hc).
  pose proof (service_stage c a data n limit L B Hn Bd Hl) as Hst.
  assert (held (medium j) = Blank →
    let '(r, c') := (let '(r, c) := stage security_counter_reserved_end c (Some (a, data)) n limit in
     if! bool_decide (r ≠ SECURITY_COUNTER_OK) return (r, c) ;;
     (r, floors (set_blob c (blit (blit (wr (wr (blit (blob c) 0 [0x43; 0x54; 0x52; 0x31; 1]) 7 0) 6 0)
                                     8 (Crc.encode f)) 12 (Crc.encode g))))) in
    if decide (r = SECURITY_COUNTER_OK) then counter_holds (j, c') (λ b, b = slice data 0 n)
    else counter_holds (j, c') P) as Hgo.
  { intros Hm. destruct (stage _ c _ n limit) as [r c1].
    destruct (decide (r = SECURITY_COUNTER_OK)) as [->|Hne];
      [|subst c1; rewrite bool_decide_eq_true_2 by done; by rewrite decide_False].
    rewrite bool_decide_eq_false_2 by (by intros []). rewrite decide_True by done.
    destruct Hst as (S1&S2&S3&S4&S5&S6&S7&S8&S9).
    destruct (counter_provision (blob c1) f g S4 S5 ltac:(rewrite S6; exact S7) Hf Hg) as (F&C0&C1&R5).
    apply (service_staged _ _ n); try done; cbn [floors blob set_blob set_next set_until].
    - apply F.
    - apply F.
    - by rewrite R5.
    - by rewrite service_provisioned.
    - unfold floors; cbn [next set_next set_until]. by apply counter_ceiling_u32, F.
    - unfold floors; cbn [next set_next set_until]. by apply counter_ceiling_u32, F. }
  unfold security_counter_create.
  assert (∀ r, r ≠ SECURITY_COUNTER_OK →
    if decide (r = SECURITY_COUNTER_OK) then counter_holds (j, c) (λ b, b = slice data 0 n)
    else counter_holds (j, c) P) as Hno by (intros r Hne; by rewrite decide_False).
  destruct (state c) eqn:Est; try done.
  - by apply Hgo.
  - destruct (generation c =? 0) eqn:Eg; [apply Hgo, Hc; lia|by apply (Hno SECURITY_COUNTER_STATE)].
  - by apply (Hno (result c)).
Qed.

Lemma service_restage_law j c a data n P :
  counter_holds (j, c) P → is_bytes data → is_u8 n → n <= blen data →
  let '(r, c') := security_counter_restage security_counter_reserved_end c (Some (a, data)) n in
  if decide (r = SECURITY_COUNTER_OK) then counter_holds (j, c') (λ b, b = slice data 0 n)
  else counter_holds (j, c') P.
Proof.
  intros Hh Bd Hn Hl. pose proof Hh as (Hs&Hr&L&B&Hc). unfold security_counter_restage.
  destruct (bool_decide _ || negb (generation c =? 0)) eqn:E; [by rewrite decide_False|].
  apply orb_false_iff in E as [E1 E2]. apply bool_decide_eq_false, dec_stable in E1.
  rewrite E1 in Hc. destruct Hc as (H5&Hlen&HP&Hpl&U0&U1&Hblank).
  pose proof (service_stage c a data n 1 L B Hn Bd Hl) as Hst.
  destruct (stage _ c _ n 1) as [r c1].
  destruct (decide (r = SECURITY_COUNTER_OK)); [|by subst c1].
  destruct Hst as (S1&S2&S3&S4&S5&S6&S7&S8&S9).
  apply (service_staged _ _ n); try done; [apply Hblank; lia|by rewrite S2|by rewrite S2].
Qed.

(** The refill keeps the payload. *)
Lemma service_refill j c P domain limit :
  counter_holds (j, c) P → 0 <= domain <= 1 → state c = SECURITY_COUNTER_READY →
  match refill blob_at check_at j c domain limit with
  | Lost m => counter_holds (reboot m, reset_counter) P
  | Ret (r, j', c') =>
      counter_holds (j', c') P ∧ (r = SECURITY_COUNTER_OK → state c' = SECURITY_COUNTER_READY)
  end.
Proof.
  intros Hh Hd Est. pose proof Hh as (Hs&Hr&L&B&Hc). rewrite Est in Hc.
  destruct Hc as (H5&Hlen&HP&Hpl&U0&U1&Hblank). unfold refill.
  destruct (sel (until c) domain =? 0xffffffff).
  { split; [|done]. unfold counter_holds, payload_of in *. cbn. by rewrite Est. }
  pose proof (counter_current check_at j c Hs) as Hcu. cbv zeta.
  destruct (current check_at j c) as [[[r j1] c1]|m];
    [|apply service_after_reset; by rewrite Hcu].
  destruct Hcu as (S1&S2&x&->).
  destruct (bool_decide (r = SECURITY_COUNTER_OK)) eqn:E2.
  2: { apply bool_decide_eq_false in E2. rewrite bool_decide_eq_true_2 by done.
       split; [apply service_failed; try done; by rewrite S2|done]. }
  apply bool_decide_eq_true in E2 as ->. rewrite bool_decide_eq_false_2 by (by intros []).
  cbn [blob set_nv_result until next]. set (stop := if _ <? _ then _ else _).
  assert (domain = 0 ∨ domain = 1) as Hd' by lia.
  destruct (counter_set_ceiling (blob c) domain stop L B Hd') as (L2&B2&_&_&E5).
  set (b := blit (blob c) _ _) in *.
  assert (rd b 5 = rd (blob c) 5) as R5 by (apply E5; lia).
  assert (slice b 16 (rd b 5) = payload_of c) as Ep.
  { unfold payload_of. rewrite R5, Hlen. pose proof (rd_is_u8 _ 5 B) as [H50 _].
    unfold SECURITY_COUNTER_PAYLOAD_MAX, NV_RECORD_MAX in *.
    apply slice_ext; try lia. intros i Hi. apply E5; lia. }
  pose proof (service_commit j1 (set_blob (set_nv_result c x) b) limit P S1 ltac:(by rewrite S2)
    B2 L2 ltac:(change (rd b 5 <= SECURITY_COUNTER_PAYLOAD_MAX); rewrite R5; exact H5) U0 U1) as Hco.
  cbn [blob set_blob] in Hco. rewrite Ep in Hco.
  destruct (commit _ j1 _ limit) as [[[r j2] c2]|m].
  2: { eapply service_holds_weaken; [|exact Hco]. by intros y [? | ->]. }
  destruct Hco as [N1 Hco].
  destruct (decide (r = SECURITY_COUNTER_OK)) as [->|Hne].
  - rewrite bool_decide_eq_false_2 by (by intros []). destruct Hco as [T1 T2]. split; [|done].
    assert (counter_holds (j2, c2) P) as T3
      by (eapply service_holds_weaken; [|exact T2]; by intros y ->).
    unfold counter_holds, payload_of in *. cbn. by rewrite T1 in *.
  - rewrite bool_decide_eq_true_2 by done. split; [|done].
    eapply service_holds_weaken; [|exact Hco]. by intros y [? | ->].
Qed.

Lemma service_ready j c P :
  counter_holds (j, c) P → ready c = SECURITY_COUNTER_OK → state c = SECURITY_COUNTER_READY.
Proof. intros (_&_&_&_&Hc). unfold ready. by destruct (state c). Qed.
Lemma service_next j c P domain v :
  counter_holds (j, c) P → state c = SECURITY_COUNTER_READY →
  counter_holds (j, finish (set_next c (upd (next c) domain (u32 v))) SECURITY_COUNTER_OK) P.
Proof.
  intros (Hs&Hr&L&B&Hc) Est. unfold counter_holds, payload_of in *. cbn. rewrite Est in *.
  destruct Hc as (H5&Hlen&HP&Hpl&U0&U1&Hblank). do 8 (split; [done|]).
  destruct (next c). unfold upd, sel in *. cbn in *.
  destruct (domain =? 0); cbn; (split; [first [apply u32_range|done]|]);
    (split; [first [apply u32_range|done]|done]).
Qed.

Lemma service_take_law j c P domain limit :
  counter_holds (j, c) P → 0 <= domain <= 1 →
  match security_counter_take security_counter_reserved_end blob_at check_at j c domain
          (Some word_at) limit with
  | Lost m => counter_holds (reboot m, reset_counter) P
  | Ret (r, v, j', c') =>
      counter_holds (j', c') P ∧ (r = SECURITY_COUNTER_OK → ∃ x, v = Some x ∧ is_u32 x)
  end.
Proof.
  intros Hh Hd. unfold security_counter_take.
  destruct (ready c) eqn:Er; try done.
  pose proof (service_ready _ _ _ Hh Er) as Est.
  destruct ((1 <? domain) || (limit =? 0)); [done|]. destruct (negb (caller _ word_at 4)); [done|].
  assert (match (if sel (next c) domain =? sel (until c) domain
                 then refill blob_at check_at j c domain limit else Ret (SECURITY_COUNTER_OK, j, c)) with
          | Lost m => counter_holds (reboot m, reset_counter) P
          | Ret (r, j', c') =>
              counter_holds (j', c') P ∧ (r = SECURITY_COUNTER_OK → state c' = SECURITY_COUNTER_READY)
          end) as H by (destruct (_ =? _); [by apply service_refill|done]).
  destruct (if _ =? _ then _ else _) as [[[r j1] c1]|m]; [|done]. destruct H as [H1 H2].
  destruct (bool_decide (r ≠ SECURITY_COUNTER_OK)) eqn:E; [apply bool_decide_eq_true in E; by split|].
  apply bool_decide_eq_false, dec_stable in E. specialize (H2 E).
  split; [by apply service_next|]. intros _. eexists; split; [done|].
  destruct H1 as (_&_&_&_&H1). rewrite H2 in H1. destruct H1 as (_&_&_&_&U0&U1&_).
  assert (domain = 0 ∨ domain = 1) as [-> | ->] by lia; done.
Qed.

Lemma service_save_law j c a data n limit P :
  counter_holds (j, c) P → is_bytes data → is_u8 n → n <= blen data →
  match security_counter_save security_counter_reserved_end blob_at check_at j c
          (Some (a, data)) n limit with
  | Lost m => counter_holds (reboot m, reset_counter) (λ b, P b ∨ b = slice data 0 n)
  | Ret (r, j', c') =>
      if decide (r = SECURITY_COUNTER_OK) then counter_holds (j', c') (λ b, b = slice data 0 n)
      else counter_holds (j', c') (λ b, P b ∨ b = slice data 0 n)
  end.
Proof.
  intros Hh Bd Hn Hl. unfold security_counter_save.
  assert (∀ x, counter_holds x P → counter_holds x (λ b, P b ∨ b = slice data 0 n)) as Hw
    by (intros x; apply service_holds_weaken; by left).
  destruct (ready c) eqn:Er; try (rewrite decide_False by done; by apply Hw).
  pose proof (service_ready _ _ _ Hh Er) as Est.
  destruct (refused _ _ n limit) as [e|] eqn:E.
  { rewrite decide_False; [by apply Hw|]. intros ->. revert E. unfold refused.
    by repeat match goal with |- (if ?b then _ else _) = _ → _ => destruct b end. }
  assert (n <= SECURITY_COUNTER_PAYLOAD_MAX) as Hmax.
  { revert E. unfold refused. destruct (_ <? n) eqn:?; [done|]. intros _. lia. }
  destruct Hh as (Hs&Hr&L&B&Hc). rewrite Est in Hc. destruct Hc as (H5&Hlen&HP&Hpl&U0&U1&Hblank).
  pose proof (counter_current check_at j c Hs) as Hcu.
  destruct (current check_at j c) as [[[r j1] c1]|m];
    [|apply service_after_reset; rewrite Hcu; apply (service_recorded_weaken _ P); [by left|done]].
  destruct Hcu as (S1&S2&x&->).
  destruct (bool_decide (r = SECURITY_COUNTER_OK)) eqn:E2.
  2: { apply bool_decide_eq_false in E2. rewrite bool_decide_eq_true_2 by done.
       rewrite decide_False by done. apply Hw, service_failed; try done. by rewrite S2. }
  apply bool_decide_eq_true in E2 as ->. rewrite bool_decide_eq_false_2 by (by intros []).
  change (default [] (snd <$> Some (a, data))) with data.
  destruct (counter_payload (set_nv_result c x) data n L B Bd Hn Hmax) as (P1&P2&P3&_&P5).
  specialize (P5 Hl). set (c2 := payload _ _ n) in *.
  pose proof (service_commit j1 c2 limit P S1 ltac:(by rewrite S2) P2 P1
    ltac:(rewrite P3; exact Hmax) U0 U1) as Hco. cbv zeta in Hco. rewrite P3, P5 in Hco.
  destruct (commit blob_at j1 c2 limit) as [[[r j2] c3]|m]; [|done].
  destruct Hco as [_ Hco]. destruct (decide (r = SECURITY_COUNTER_OK)); [apply Hco|done].
Qed.

Lemma service_read_law j c P capacity :
  counter_holds (j, c) P →
  let '(r, data, length, c') :=
    security_counter_read security_counter_reserved_end c (Some record_at) capacity (Some word_at) in
  counter_holds (j, c') P ∧
  (r = SECURITY_COUNTER_OK →
   ∃ b, data = Some b ∧ length = Some (blen b) ∧ is_bytes b ∧ blen b <= capacity ∧ P b ∧
        counter_holds (j, c') (λ x, x = b)).
Proof.
  intros Hh. unfold security_counter_read. destruct (ready c) eqn:Er; try done.
  pose proof (service_ready _ _ _ Hh Er) as Est.
  destruct (_ && _); [done|]. destruct (_ || _); [done|].
  destruct (capacity <? payload_length c) eqn:Ecap; [done|].
  destruct Hh as (Hs&Hr&L&B&Hc). rewrite Est in Hc. destruct Hc as (H5&Hlen&HP&Hpl&U0&U1&Hblank).
  assert (∀ Q, recorded (held (medium j)) Q → Q (payload_of c) →
    counter_holds (j, finish c SECURITY_COUNTER_OK) Q) as Hq.
  { intros Q HQ1 HQ2. unfold counter_holds, payload_of in *. cbn. by rewrite Est. }
  split; [by apply Hq|]. intros _. pose proof (rd_is_u8 _ 5 B) as [H50 _].
  unfold SECURITY_COUNTER_PAYLOAD_MAX, NV_RECORD_MAX in *.
  exists (payload_of c). unfold payload_of at 1 2 3 4. rewrite !blen_slice by lia.
  split; [done|]. split; [done|]. split; [by apply is_bytes_slice|]. split; [lia|].
  split; [done|]. by apply Hq.
Qed.

(** A payload is only staged before its first commit. *)
Definition counter_staged (x : J * counter) : bool :=
  bool_decide (state x.2 = SECURITY_COUNTER_READY) && (generation x.2 =? 0).
Lemma service_not_staged j c : state c ≠ SECURITY_COUNTER_READY → counter_staged (j, c) = false.
Proof. intros H. unfold counter_staged. by rewrite bool_decide_eq_false_2. Qed.
Lemma service_open_staged j c P :
  counter_holds (j, c) P →
  match security_counter_open blob_at j c with
  | Ret (r, j', c') => r = SECURITY_COUNTER_OK → counter_staged (j', c') = false
  | Lost _ => True
  end.
Proof.
  intros (Hs&_&_&_&Hc). unfold security_counter_open. destruct (state c) eqn:Est; try done.
  destruct (load j blob_at NV_RECORD_MAX) as [[[x out] j']|m] eqn:Hl; [|done].
  destruct (load_law _ _ _ _ _ _ Hs Hl) as (H1&H2&H3). cbv zeta.
  destruct (bool_decide (x = NV_RECORD_EMPTY)); [done|].
  destruct (bool_decide (x ≠ NV_RECORD_OK)) eqn:E2; [by destruct (bool_decide (x = NV_RECORD_RECOVERED))|].
  apply bool_decide_eq_false, dec_stable in E2 as ->.
  destruct H3 as (g&b&_&_&_&_&Hg&Eg&_).
  destruct (_ || _); [done|]. destruct (negb _); [done|]. destruct (_ || _ || _ || _); [done|].
  intros _. unfold counter_staged. cbn. lia.
Qed.
Lemma service_commit_staged j c limit :
  sound j → is_bytes (blob c) → blen (blob c) = NV_RECORD_MAX →
  rd (blob c) 5 <= SECURITY_COUNTER_PAYLOAD_MAX →
  match commit blob_at j c limit with
  | Ret (_, j', c') => counter_staged (j', c') = false
  | Lost _ => True
  end.
Proof.
  intros Hs B L H5. pose proof (counter_commit blob_at j c limit Hs B L H5) as H. cbv zeta in H.
  destruct (commit _ j c limit) as [[[r j'] c']|m]; [|done].
  destruct H as (_&_&_&_&_&_&H). destruct (decide _).
  - destruct H as (_&H&_). unfold counter_staged. cbn [snd]. lia.
  - apply service_not_staged. by rewrite H.
Qed.
Lemma service_refill_staged j c P domain limit :
  counter_holds (j, c) P → 0 <= domain <= 1 → state c = SECURITY_COUNTER_READY →
  counter_staged (j, c) = false →
  match refill blob_at check_at j c domain limit with
  | Ret (_, j', c') => counter_staged (j', c') = false
  | Lost _ => True
  end.
Proof.
  intros (Hs&_&L&B&Hc) Hd Est Hst. rewrite Est in Hc. destruct Hc as (H5&_). unfold refill.
  destruct (sel (until c) domain =? 0xffffffff); [done|]. cbv zeta.
  pose proof (counter_current check_at j c Hs) as Hcu. cbv zeta.
  destruct (current check_at j c) as [[[r j1] c1]|m]; [|done]. destruct Hcu as (S1&_&x&->).
  destruct (bool_decide (r = SECURITY_COUNTER_OK)) eqn:E2.
  2: { apply bool_decide_eq_false in E2. rewrite bool_decide_eq_true_2 by done. by apply service_not_staged. }
  apply bool_decide_eq_true in E2 as ->. rewrite bool_decide_eq_false_2 by (by intros []).
  cbn [blob set_nv_result until next]. set (stop := if _ <? _ then _ else _).
  destruct (counter_set_ceiling (blob c) domain stop L B ltac:(lia)) as (L2&B2&_&_&E5).
  set (b := blit (blob c) _ _) in *.
  assert (rd b 5 = rd (blob c) 5) as R5 by (apply E5; lia).
  pose proof (service_commit_staged j1 (set_blob (set_nv_result c x) b) limit S1 B2 L2
    ltac:(change (rd b 5 <= SECURITY_COUNTER_PAYLOAD_MAX); by rewrite R5)) as Hco.
  destruct (commit _ j1 _ limit) as [[[r j2] c2]|m]; [|done].
  by destruct (bool_decide (r ≠ SECURITY_COUNTER_OK)).
Qed.
Lemma service_take_staged j c P domain limit :
  counter_holds (j, c) P → 0 <= domain <= 1 → counter_staged (j, c) = false →
  match security_counter_take security_counter_reserved_end blob_at check_at j c domain
          (Some word_at) limit with
  | Ret (_, _, j', c') => counter_staged (j', c') = false
  | Lost _ => True
  end.
Proof.
  intros Hh Hd Hst. unfold security_counter_take. destruct (ready c) eqn:Er; try done.
  pose proof (service_ready _ _ _ Hh Er) as Est.
  destruct (_ || _); [done|]. destruct (negb _); [done|].
  assert (match (if sel (next c) domain =? sel (until c) domain
                 then refill blob_at check_at j c domain limit else Ret (SECURITY_COUNTER_OK, j, c)) with
          | Ret (_, j', c') => counter_staged (j', c') = false
          | Lost _ => True
          end) as H by (destruct (_ =? _); [by eapply service_refill_staged|done]).
  destruct (if _ =? _ then _ else _) as [[[r j1] c1]|m]; [|done].
  by destruct (bool_decide (r ≠ SECURITY_COUNTER_OK)).
Qed.
Lemma service_save_staged j c P data n limit :
  counter_holds (j, c) P → is_bytes data → is_u8 n → n <= blen data →
  match security_counter_save security_counter_reserved_end blob_at check_at j c
          (Some (record_at, data)) n limit with
  | Ret (r, j', c') =>
      counter_staged (j, c) = false ∨ r = SECURITY_COUNTER_OK → counter_staged (j', c') = false
  | Lost _ => True
  end.
Proof.
  intros (Hs&_&L&B&Hc) Bd Hn Hl. unfold security_counter_save.
  destruct (ready c) eqn:Er; try (by intros [?|?]).
  destruct (refused _ _ n limit) as [e|] eqn:E.
  { intros [?| ->]; [done|]. revert E. unfold refused.
    by repeat match goal with |- (if ?b then _ else _) = _ → _ => destruct b end. }
  assert (n <= SECURITY_COUNTER_PAYLOAD_MAX) as Hmax.
  { revert E. unfold refused. destruct (_ <? n) eqn:?; [done|]. intros _. lia. }
  pose proof (counter_current check_at j c Hs) as Hcu.
  destruct (current check_at j c) as [[[r j1] c1]|m]; [|done]. destruct Hcu as (S1&_&x&->).
  destruct (bool_decide (r = SECURITY_COUNTER_OK)) eqn:E2.
  2: { apply bool_decide_eq_false in E2. rewrite bool_decide_eq_true_2 by done.
       intros _. by apply service_not_staged. }
  apply bool_decide_eq_true in E2 as ->. rewrite bool_decide_eq_false_2 by (by intros []).
  change (default [] (snd <$> Some (record_at, data))) with data.
  destruct (counter_payload (set_nv_result c x) data n L B Bd Hn Hmax) as (P1&P2&P3&_&_).
  pose proof (service_commit_staged j1 (payload (set_nv_result c x) data n) limit S1 P2 P1
    ltac:(rewrite P3; exact Hmax)) as Hco.
  by destruct (commit blob_at j1 _ limit) as [[[r j2] c3]|m].
Qed.

(** The operations with the owner's addresses. *)
Definition owner_open (x : J * counter) : outcome M (security_counter_result_t * (J * counter)) :=
  let? (r, j, c) := security_counter_open blob_at x.1 x.2 in Ret (r, (j, c)).
Definition owner_create (x : J * counter) (f g : Z) (data : bytes) (n limit : Z) :=
  let '(r, c) := security_counter_create security_counter_reserved_end x.2 f g
                   (Some (record_at, data)) n limit in (r, (x.1, c)).
Definition owner_restage (x : J * counter) (data : bytes) (n : Z) :=
  let '(r, c) := security_counter_restage security_counter_reserved_end x.2
                   (Some (record_at, data)) n in (r, (x.1, c)).
Definition owner_take (x : J * counter) (domain limit : Z)
    : outcome M (security_counter_result_t * option Z * (J * counter)) :=
  let? (r, v, j, c) := security_counter_take security_counter_reserved_end blob_at check_at x.1 x.2
                         domain (Some word_at) limit in Ret (r, v, (j, c)).
Definition owner_save (x : J * counter) (data : bytes) (n limit : Z)
    : outcome M (security_counter_result_t * (J * counter)) :=
  let? (r, j, c) := security_counter_save security_counter_reserved_end blob_at check_at x.1 x.2
                      (Some (record_at, data)) n limit in Ret (r, (j, c)).
Definition owner_read (x : J * counter) (capacity : Z) :=
  let '(r, b, n, c) := security_counter_read security_counter_reserved_end x.2 (Some record_at)
                         capacity (Some word_at) in (r, b, n, (x.1, c)).

#[export] Program Instance counter_service : CounterService M (J * counter) := {|
  service_open := owner_open;
  service_create := owner_create;
  service_restage := owner_restage;
  service_take := owner_take;
  service_save := owner_save;
  service_read := owner_read;
  service_medium x := medium x.1;
  service_restart m := (reboot m, reset_counter);
  holds := counter_holds;
  staged := counter_staged
|}.
Next Obligation.
  intros [j c] P Q (H1&H2&H3&H4&H5) (_&K2&_&_&K5).
  split; [done|]. split; [by apply service_recorded_and|]. split; [done|]. split; [done|].
  destruct (state c); try done. destruct H5 as (A1&A2&A3&A4). destruct K5 as (_&_&B3&_). done.
Qed.
Next Obligation. intros x P Q. apply service_holds_weaken. Qed.
Next Obligation. intros [j c] P (H1&H2&_). by apply service_after_reset. Qed.
Next Obligation.
  intros [j c] P H. unfold owner_open; cbn [fst snd]. pose proof (service_open_law j c P H) as Hl.
  by destruct (security_counter_open _ j c) as [[[r j'] c']|m].
Qed.
Next Obligation.
  intros [j c] P f g data n limit H Hf Hg Hb Hn Hl. unfold owner_create; cbn [fst snd].
  pose proof (service_create_law j c f g record_at data n limit P H Hf Hg Hb Hn Hl) as Hc.
  by destruct (security_counter_create _ c f g _ n limit).
Qed.
Next Obligation.
  intros [j c] P data n H Hb Hn Hl. unfold owner_restage; cbn [fst snd].
  pose proof (service_restage_law j c record_at data n P H Hb Hn Hl) as Hc.
  by destruct (security_counter_restage _ c _ n).
Qed.
Next Obligation.
  intros [j c] P domain limit H Hd. unfold owner_take; cbn [fst snd].
  pose proof (service_take_law j c P domain limit H Hd) as Ht.
  by destruct (security_counter_take _ _ _ j c domain _ limit) as [[[[r v] j'] c']|m].
Qed.
Next Obligation.
  intros [j c] P data n limit H Hb Hn Hl. unfold owner_save; cbn [fst snd].
  pose proof (service_save_law j c record_at data n limit P H Hb Hn Hl) as Hs.
  by destruct (security_counter_save _ _ _ j c _ n limit) as [[[r j'] c']|m].
Qed.
Next Obligation.
  intros [j c] P capacity H. unfold owner_read; cbn [fst snd]. pose proof (service_read_law j c P capacity H) as Hr.
  by destruct (security_counter_read _ c _ capacity _) as [[[r b] n] c'].
Qed.
Next Obligation.
  intros [j c] P H. unfold owner_open; cbn [fst snd]. pose proof (service_open_staged j c P H) as Hs.
  by destruct (security_counter_open _ j c) as [[[r j'] c']|m].
Qed.
Next Obligation.
  intros [j c] data n H. unfold owner_restage, security_counter_restage, counter_staged in *; cbn [fst snd] in *.
  destruct (bool_decide (state c ≠ SECURITY_COUNTER_READY)) eqn:E; [by split|].
  apply bool_decide_eq_false, dec_stable in E. rewrite E in *.
  destruct (generation c =? 0) eqn:Eg; [done|]. split; [done|].
  change (bool_decide (state c = SECURITY_COUNTER_READY) && (generation c =? 0) = false).
  by rewrite Eg, andb_false_r.
Qed.
Next Obligation.
  intros [j c] P domain limit H Hd Hst. unfold owner_take; cbn [fst snd].
  pose proof (service_take_staged j c P domain limit H Hd Hst) as Hs.
  by destruct (security_counter_take _ _ _ j c domain _ limit) as [[[[r v] j'] c']|m].
Qed.
Next Obligation.
  intros [j c] P data n limit H Bd Hn Hl. unfold owner_save; cbn [fst snd].
  pose proof (service_save_staged j c P data n limit H Bd Hn Hl) as Hs.
  by destruct (security_counter_save _ _ _ j c _ n limit) as [[[r j'] c']|m].
Qed.
Next Obligation.
  intros [j c] capacity. unfold owner_read, security_counter_read; cbn [fst snd].
  destruct (ready c); try done. destruct (_ && _); [done|]. destruct (_ || _); [done|].
  by destruct (_ <? _).
Qed.
End Implementation.
End CounterService.
