(* ===== verification/SecurityKeys.v ===== *)
(** * The security key store, src/src/security_keys.c

    The keys, identities and replay floors of an end device, kept as one serialized record in
    the payload of the counter service, and the life cycle of joining on top of them.  The base
    profile: install-code provisioning, the coordinator as parent and trust centre.  The store
    below is any [CounterService], the cipher any [BlockCipher]. *)
From S2P Require Import Prelude Flash ApsFrame NwkFrame BlockCipher Timebase Mmo Ccm Security EdWire.
From S2P Require Import Counter CounterService.
Import BlockCipher.

Module SecurityKeys.
Import Security EdWire CounterService.

(** ** Data (include/security_keys.h and the schema of the record) *)
Definition SECURITY_KEYS_RECORD_MAX := 112.
Definition SECURITY_COUNTER_NWK := 0.
Definition SECURITY_COUNTER_APS := 1.
Record security_keys_config_t := {
  own_ieee : bytes; tc_ieee : bytes; extended_pan : bytes; pan : Z; address : Z;
  channel : Z; update_id : Z
}.
Inductive security_keys_result_t :=
  | SECURITY_KEYS_OK | SECURITY_KEYS_EMPTY | SECURITY_KEYS_ARGUMENT
  | SECURITY_KEYS_STATE | SECURITY_KEYS_FORMAT | SECURITY_KEYS_STORAGE
  | SECURITY_KEYS_CRYPTO | SECURITY_KEYS_AUTH | SECURITY_KEYS_REPLAY
  | SECURITY_KEYS_IDENTITY | SECURITY_KEYS_SELECTOR | SECURITY_KEYS_CONTEXT
  | SECURITY_KEYS_UNSUPPORTED | SECURITY_KEYS_SPACE | SECURITY_KEYS_EXHAUSTED.
#[export] Instance security_keys_result_eq : EqDecision security_keys_result_t.
Proof. solve_decision. Defined.

(** security_keys_phase_t and security_keys_event_t: octets in the code, compared by size. *)
Definition SECURITY_KEYS_COLD := 0.
Definition SECURITY_KEYS_UNPROVISIONED := 1.
Definition SECURITY_KEYS_PROVISIONED := 2.
Definition SECURITY_KEYS_ASSOCIATED := 3.
Definition SECURITY_KEYS_RECEIVED := 4.
Definition SECURITY_KEYS_REQUESTED := 5.
Definition SECURITY_KEYS_PROVISIONAL := 6.
Definition SECURITY_KEYS_WAIT_CONFIRM := 7.
Definition SECURITY_KEYS_VERIFIED := 8.
Definition SECURITY_KEYS_LEFT := 9.
Definition SECURITY_KEYS_REJOINING := 10.
Definition SECURITY_KEYS_FAILED := 11.
Definition SECURITY_KEYS_EVENT_DATA := 0.
Definition SECURITY_KEYS_EVENT_MANAGEMENT := 1.
Definition SECURITY_KEYS_EVENT_NETWORK_KEY := 2.
Definition SECURITY_KEYS_EVENT_TC_KEY := 3.
Definition SECURITY_KEYS_EVENT_VERIFIED := 4.
Definition SECURITY_KEYS_EVENT_SWITCH := 5.
Definition SECURITY_KEYS_EVENT_UPDATE := 6.
Definition SECURITY_KEYS_EVENT_LEAVE := 7.
Definition SECURITY_KEYS_EVENT_REJOINED := 8.
Definition SECURITY_KEYS_EVENT_REJOIN_REFUSED := 9.
Definition SECURITY_KEYS_EVENT_APS_SECURED := 0x80.

(** Offsets in the record, and the flags of its FLAGS and PHASE octets. *)
Definition OWN := 0.
Definition TC := 8.
Definition NK := 16.
Definition LK := 48.
Definition PK := 64.
Definition NF := 80.
Definition AF := 88.
Definition EP := 92.
Definition PAN := 100.
Definition ADDR := 102.
Definition CHANNEL := 104.
Definition UPDATE := 105.
Definition SEQ := 106.
Definition FLAGS := 108.
Definition PHASE := 109.
Definition MAGIC := 110.
Definition ACTIVE := 4.
Definition NEWER := 8.
Definition RETIRED := 16.
Definition WAS_VERIFIED := 32.
Definition REJOIN_ALLOWED := 64.
Definition BOTH_IEEE := Z.lor Nwk.NWK_FLAG_SOURCE_IEEE Nwk.NWK_FLAG_DESTINATION_IEEE.
Definition PHASE_MASK := 0x0f.
Definition PARENT_MASK := 0x70.
Definition TIMEOUT_PENDING := 0x80.
Definition APS_CURRENT_ADMITTED := 2.

(** [x & ~m] on an octet. *)
Definition without (x m : Z) : Z := Z.land x (u8 (Z.lnot m)).

(** A pointer into a buffer: the octets from there on. *)
Definition at_ (b : bytes) (p : Z) : bytes := drop (Z.to_nat p) b.

(** ** The record *)
Definition u32_at (r : bytes) (p : Z) : Z := read_counter r p.
Definition put32 (r : bytes) (p n : Z) : bytes := blit r p (counter_bytes n).
Definition same (a b : bytes) (n : Z) : bool :=
  foldl (λ d i, Z.lor d (Z.lxor (rd a i) (rd b i))) 0 (seqZ 0 n) =? 0.
Definition all (p : bytes) (n value : Z) : bool :=
  foldl (λ d i, Z.lor d (Z.lxor (rd p i) value)) 0 (seqZ 0 n) =? 0.
Definition identity (p : bytes) : bool := negb (all p 8 0) && negb (all p 8 255).
Definition active_slot (r : bytes) : Z := if has (rd r FLAGS) ACTIVE then 1 else 0.
Definition network (r : bytes) : bool := has (rd r FLAGS) 3.
Definition verified (r : bytes) : bool := has (rd r FLAGS) WAS_VERIFIED.
Definition phase (r : bytes) : Z := Z.land (rd r PHASE) PHASE_MASK.
Definition parent_information (r : bytes) : Z := Z.land (Z.shiftr (rd r PHASE) 4) 7.

Definition set_phase (r : bytes) (value : Z) : bytes :=
  if value <=? SECURITY_KEYS_ASSOCIATED then wr r PHASE value
  else
    let r := wr r PHASE (Z.lor (without (rd r PHASE) PHASE_MASK) value) in
    let r := if value =? SECURITY_KEYS_REJOINING
             then wr r PHASE (without (rd r PHASE) PARENT_MASK) else r in
    if (value =? SECURITY_KEYS_LEFT) || (value =? SECURITY_KEYS_REJOINING)
    then wr r PHASE (without (rd r PHASE) TIMEOUT_PENDING) else r.

Definition valid_config (r : bytes) : bool :=
  let address := read_le16 r ADDR in
  identity (at_ r OWN) && identity (at_ r TC) && negb (same (at_ r OWN) (at_ r TC) 8)
  && identity (at_ r EP) && negb (read_le16 r PAN =? 0xffff) && negb (address =? 0)
  && ((address <? 0xfff8) || (address =? 0xffff))
  && (11 <=? rd r CHANNEL) && (rd r CHANNEL <=? 26).

(** The checks of [valid_record] in its order: the header of the record, the network key slots,
    the address, the pending or retired link key, the phase. *)
Definition valid_header (r : bytes) (size : Z) : bool :=
  let p := phase r in
  (size =? 112) && (rd r MAGIC =? 75) && (rd r (MAGIC + 1) =? 2) && valid_config r
  && negb (has (rd r FLAGS) 0x80) && (SECURITY_KEYS_PROVISIONED <=? p)
  && (p <=? SECURITY_KEYS_REJOINING) && negb (all (at_ r LK) 16 0).
Definition bootstrap (r : bytes) : bool :=
  (phase r <=? SECURITY_KEYS_ASSOCIATED) || ((phase r =? SECURITY_KEYS_LEFT) && negb (network r)).
Definition valid_slot (r : bytes) (i : Z) : bool :=
  let k := at_ r (NK + 16 * i) in
  if has (rd r FLAGS) (Z.shiftl 1 i)
  then negb (all k 16 0 || same k (at_ r LK) 16 || same k (at_ r PK) 16)
  else all k 16 0 && (u32_at r (NF + 4 * i) =? 0) && (rd r (SEQ + i) =? 0).
Definition valid_slots (r : bytes) : bool :=
  let f := rd r FLAGS in
  if bootstrap r then
    (f =? 0) && all (at_ r NK) 32 0 && all (at_ r PK) 24 0 && (rd r SEQ =? 0)
    && (rd r (SEQ + 1) =? 0) && negb (has (rd r PHASE) (Z.lor PARENT_MASK TIMEOUT_PENDING))
  else
    has f (Z.shiftl 1 (active_slot r))
    && negb (has f NEWER && negb (Z.land f 3 =? 3))
    && negb ((Z.land f 3 =? 3)
             && ((rd r SEQ =? rd r (SEQ + 1)) || same (at_ r NK) (at_ r (NK + 16)) 16))
    && valid_slot r 0 && valid_slot r 1.
Definition valid_address (r : bytes) : bool :=
  (phase r =? SECURITY_KEYS_PROVISIONED) || ((phase r =? SECURITY_KEYS_LEFT) && negb (network r))
  || negb (read_le16 r ADDR =? 0xffff).
Definition valid_pending (r : bytes) : bool :=
  let f := rd r FLAGS in let p := phase r in
  let absent := all (at_ r PK) 16 0 in let reuse := same (at_ r PK) (at_ r LK) 16 in
  if (p =? SECURITY_KEYS_PROVISIONAL) || (p =? SECURITY_KEYS_WAIT_CONFIRM)
     || ((p =? SECURITY_KEYS_LEFT) && negb (has f RETIRED) && negb absent)
  then negb (has f RETIRED || absent || reuse)
  else if has f RETIRED then negb (negb (verified r) || absent || reuse)
  else absent.
Definition valid_phase (r : bytes) : bool :=
  let f := rd r FLAGS in let p := phase r in
  negb ((p =? SECURITY_KEYS_VERIFIED) && negb (verified r))
  && negb (verified r && (p <? SECURITY_KEYS_REQUESTED))
  && negb (has f REJOIN_ALLOWED && negb (p =? SECURITY_KEYS_LEFT)
           && negb (p =? SECURITY_KEYS_REJOINING))
  && negb ((p =? SECURITY_KEYS_REJOINING) && negb (verified r))
  && negb (has (rd r PHASE) TIMEOUT_PENDING
           && ((p =? SECURITY_KEYS_LEFT) || (p =? SECURITY_KEYS_REJOINING))).
Definition valid_record (r : bytes) (size : Z) : bool :=
  valid_header r size && valid_slots r && valid_address r && valid_pending r && valid_phase r.

(** The predicates on a received or outgoing packet. *)
Definition broadcast (address : Z) : bool := (address =? 0xffff) || (address =? 0xfffd).
Definition outbound_broadcast (address : Z) : bool := broadcast address || (address =? 0xfffc).
Definition join_management (p : ed_packet_t) : bool :=
  if Aps.type (aps p) =? ED_APS_ACK then p_length p =? 0
  else (Aps.type (aps p) =? Aps.APS_FRAME_DATA) && (Aps.profile_id (aps p) =? 0)
    && (Aps.source_endpoint (aps p) =? 0) && (Aps.destination_endpoint (aps p) =? 0)
    && ((Aps.cluster_id (aps p) =? 0x0002) || (Aps.cluster_id (aps p) =? 0x8002)
        || (Aps.cluster_id (aps p) =? 0x0013)).
Definition aps_addressing (p : ed_packet_t) (sending : bool) : bool :=
  let is_broadcast := if sending then outbound_broadcast (Nwk.destination (nwk p))
                      else broadcast (Nwk.destination (nwk p)) in
  if! Aps.type (aps p) =? ED_APS_COMMAND return true ;;
  if! Aps.type (aps p) =? ED_APS_ACK return negb is_broadcast ;;
  Bool.eqb (Aps.delivery_mode (aps p) =? Aps.APS_DELIVERY_BROADCAST) is_broadcast.
Definition reused (r material : bytes) : bool :=
  if! all material 16 0 || same material (at_ r LK) 16
      || (negb (all (at_ r PK) 16 0) && same material (at_ r PK) 16) return true ;;
  existsb (λ i, has (rd r FLAGS) (Z.shiftl 1 i) && same material (at_ r (NK + 16 * i)) 16) [0; 1].
Definition adopt (r : bytes) (slot : Z) : bytes :=
  wr r FLAGS (Z.lor (without (rd r FLAGS) (Z.lor ACTIVE NEWER)) (if slot =? 0 then 0 else ACTIVE)).

(** ** The working record, the statics and the effects of a call *)
Record work := {
  record : bytes; w_a : bytes; w_b : bytes; hash_key : bytes;
  packet : ed_packet_t; w_nwk : Nwk.nwk_frame_info_t; w_key : zigbee_security_key_t;
  w_meta : zigbee_security_meta_t; w_info : zigbee_security_info_t;
  w_limits : Ccm.ccm_star_limits_t; w_counter : Z; polls : Z; size : Z; event : Z;
  pending : Z; slot : Z; w_secured : Z; aps_secured : Z; key_id : Z
}.
#[export] Instance work_fields : Fields work := λ w, {|
  record := record w; w_a := w_a w; w_b := w_b w; hash_key := hash_key w;
  packet := packet w; w_nwk := w_nwk w; w_key := w_key w; w_meta := w_meta w; w_info := w_info w;
  w_limits := w_limits w; w_counter := w_counter w; polls := polls w; size := size w;
  event := event w; pending := pending w; slot := slot w; w_secured := w_secured w;
  aps_secured := aps_secured w; key_id := key_id w |}.
#[export] Instance security_key_fields : Fields zigbee_security_key_t := λ k, {|
  Security.key := Security.key k; source := source k; counter := counter k; level := level k;
  key_identifier := key_identifier k; key_sequence := key_sequence k;
  extended_nonce := extended_nonce k; limits := limits k |}.
Definition zero_limits : Ccm.ccm_star_limits_t := Ccm.Build_ccm_star_limits_t 0 0.
Definition zero_key : zigbee_security_key_t :=
  Build_zigbee_security_key_t (replicate 16 0) (replicate 8 0) 0 0 0 0 0 zero_limits.
Definition zero_work : work := {|
  record := replicate 112 0; w_a := replicate 116 0; w_b := replicate 116 0;
  hash_key := replicate 16 0; packet := zero_packet; w_nwk := zero_nwk; w_key := zero_key;
  w_meta := zero_meta;
  w_info := Build_zigbee_security_info_t zero_meta (Ccm.Build_ccm_star_info_t 0 0 AES_OK) 0;
  w_limits := zero_limits; w_counter := 0; polls := 0; size := 0; event := 0; pending := 0;
  slot := 0; w_secured := 0; aps_secured := 0; key_id := 0 |}.

Section Keys.
Context {M C D : Type} `{!CounterService M C} `{!BlockCipher D}.

Record state := {
  security_keys_phase : Z; security_keys_result : security_keys_result_t;
  floor_cache : bytes; phase_cache : Z; counters : C; cipher : D; w : work
}.
#[local] Instance state_fields : Fields state := λ s, {|
  security_keys_phase := security_keys_phase s; security_keys_result := security_keys_result s;
  floor_cache := floor_cache s; phase_cache := phase_cache s; counters := counters s;
  cipher := cipher s; w := w s |}.
Definition reset_state (c : C) (d : D) : state := {|
  security_keys_phase := SECURITY_KEYS_COLD; security_keys_result := SECURITY_KEYS_OK;
  floor_cache := replicate 8 0; phase_cache := 0; counters := c; cipher := d; w := zero_work |}.

(** A computation ends with a value or with the result code of an early return, and keeps the
    state either way; the supply may fail in the counter service. *)
Definition E (A : Type) : Type := state → outcome M ((security_keys_result_t + A) * state).
Definition ret {A} (a : A) : E A := λ s, Ret (inr a, s).
Definition throw {A} (r : security_keys_result_t) : E A := λ s, Ret (inl r, s).
Definition bind {A B} (m : E A) (f : A → E B) : E B := λ s,
  match m s with
  | Ret (inr a, s) => f a s
  | Ret (inl r, s) => Ret (inl r, s)
  | Lost m => Lost m
  end.
Definition get : E state := λ s, Ret (inr s, s).
Definition gets {A} (f : work → A) : E A := λ s, Ret (inr (f (w s)), s).
Definition put (f : state → state) : E unit := λ s, Ret (inr tt, f s).
Definition set (f : work → work) : E unit := put (λ s, s <| w := f (w s) |>).
Definition attempt {A} (m : E A) : E (security_keys_result_t + A) := λ s,
  match m s with Ret (x, s) => Ret (inr x, s) | Lost m => Lost m end.

Notation "'let!' x ':=' m 'in' k" := (bind m (λ x, k))
  (at level 200, x pattern, m at level 100, k at level 200, right associativity).
Notation "'do!' m ;; k" := (bind m (λ _, k))
  (at level 10, m at level 99, k at level 200, format "'do!'  m  ;;  '//' k").

(** [return_ r] returns early unless the code is OK. *)
Definition check (r : security_keys_result_t) : E unit :=
  if decide (r = SECURITY_KEYS_OK) then ret tt else throw r.

(** ** Storage *)
Definition fault {A} (r : security_keys_result_t) : E A :=
  do! put (λ s, s <| security_keys_phase := SECURITY_KEYS_FAILED |> <| security_keys_result := r |>) ;;
  throw r.
Definition read_record : E unit := λ s,
  let '(r, b, n, c) := service_read (counters s) SECURITY_KEYS_RECORD_MAX in
  let s := s <| counters := c |> in
  if! bool_decide (r ≠ Counter.SECURITY_COUNTER_OK) return fault SECURITY_KEYS_STORAGE s ;;
  set (λ w, w <| record := blit (record w) 0 (default [] b) |> <| size := default (size w) n |>) s.
Definition load : E unit :=
  let! s := get in
  if! security_keys_phase s =? SECURITY_KEYS_FAILED return throw (security_keys_result s) ;;
  if! security_keys_phase s <? SECURITY_KEYS_PROVISIONED return throw SECURITY_KEYS_STATE ;;
  do! read_record ;;
  let! r := gets record in
  let! n := gets size in
  if! negb (valid_record r n) || negb (phase r =? security_keys_phase s)
    return fault SECURITY_KEYS_FORMAT ;;
  do! set (λ w, w <| record := blit (record w) NF (floor_cache s) |>) ;;
  if! phase_cache s =? 0 return ret tt ;;
  set (λ w, w <| record := wr (record w) PHASE (phase_cache s) |>).
Definition keep_volatile : E unit :=
  put (λ s, s <| floor_cache := slice (record (w s)) NF 8 |>
              <| phase_cache := rd (record (w s)) PHASE |>).
Definition store : E Counter.security_counter_result_t := λ s,
  match service_save (counters s) (record (w s)) 112 (polls (w s)) with
  | Lost m => Lost m
  | Ret (r, c) => Ret (inr r, s <| counters := c |>)
  end.
Definition save : E unit :=
  let! r := store in
  if! bool_decide (r ≠ Counter.SECURITY_COUNTER_OK) return fault SECURITY_KEYS_STORAGE ;;
  do! put (λ s, s <| security_keys_phase := phase (record (w s)) |>) ;;
  keep_volatile.

(** ** Limits, keys and counters *)
Definition limits_ok (limits : option Ccm.ccm_star_limits_t) (p : Z) : E bool :=
  match limits with
  | None => ret false
  | Some l =>
      if! (Ccm.block_timeout l =? 0) || (Timebase.TIMEBASE_HALF_RANGE <=? Ccm.block_timeout l)
          || (Ccm.block_polls l =? 0) || (p =? 0) return ret false ;;
      do! set (λ w, w <| w_limits := l |> <| polls := p |>) ;;
      ret true
  end.
Definition crypto_result (r : zigbee_security_result_t) : security_keys_result_t :=
  match r with
  | ZIGBEE_SECURITY_OK => SECURITY_KEYS_OK
  | ZIGBEE_SECURITY_AUTH => SECURITY_KEYS_AUTH
  | ZIGBEE_SECURITY_SPACE => SECURITY_KEYS_SPACE
  | ZIGBEE_SECURITY_AES | ZIGBEE_SECURITY_CCM => SECURITY_KEYS_CRYPTO
  | _ => SECURITY_KEYS_FORMAT
  end.
(** A call of the wire layer: its output, or its result as an early return. *)
Definition wire {A} (x : zigbee_security_result_t * option A) : E A :=
  do! check (crypto_result x.1) ;;
  match x.2 with Some a => ret a | None => throw SECURITY_KEYS_FORMAT end.

Definition keyed_hash (k : bytes) (purpose : Z) : E bytes := λ s,
  let l := w_limits (w s) in
  let '(r, out, _, d) := Mmo.zigbee_key_hash (cipher s) (Some k) purpose true true
                           (Ccm.block_timeout l) (Ccm.block_polls l) in
  let s := s <| cipher := d |> in
  match r, out with
  | Mmo.ZIGBEE_MMO_OK, Some h => Ret (inr h, s)
  | _, _ => Ret (inl SECURITY_KEYS_CRYPTO, s)
  end.
Definition key (offset identifier : Z) (sending : bool) : E unit :=
  do! set (λ w, w <| w_key := zero_key <| limits := w_limits w |> <| level := 5 |>
                       <| extended_nonce := 1 |> <| key_identifier := identifier |>
                       <| source := slice (record w) (if sending then OWN else TC) 8 |> |>) ;;
  if (identifier =? 2) || (identifier =? 3) then
    do! set (λ w, w <| hash_key := slice (record w) offset 16 |>) ;;
    let purpose := if identifier =? 2 then Mmo.ZIGBEE_HASH_TRANSPORT else Mmo.ZIGBEE_HASH_LOAD in
    let! k := gets hash_key in
    let! h := keyed_hash k purpose in
    set (λ w, w <| w_key := w_key w <| Security.key := h |> |>)
  else set (λ w, w <| w_key := w_key w <| Security.key := slice (record w) offset 16 |> |>).
Definition take_counter (domain : Z) : E (Counter.security_counter_result_t * option Z) := λ s,
  match service_take (counters s) domain (polls (w s)) with
  | Lost m => Lost m
  | Ret (r, v, c) => Ret (inr (r, v), s <| counters := c |>)
  end.
Definition take (domain : Z) : E unit :=
  let! (r, v) := take_counter domain in
  do! set (λ w, w <| w_counter := default (w_counter w) v |>) ;;
  if! bool_decide (r = Counter.SECURITY_COUNTER_EXHAUSTED) return throw SECURITY_KEYS_EXHAUSTED ;;
  if! bool_decide (r ≠ Counter.SECURITY_COUNTER_OK) return fault SECURITY_KEYS_STORAGE ;;
  set (λ w, w <| w_key := w_key w <| counter := w_counter w |> |>).
(** [ed_wire_crypt] with the working key, into one of the two buffers and [w.info]. *)
Definition crypt_into (into : bytes → work → work) (open layer : Z) (frame : bytes) (length : Z)
    : E unit := λ s,
  let '(r, out, info, d) := ed_wire_crypt (cipher s) open layer (Some (w_key (w s))) (Some frame)
                              length true 116 true in
  let s := s <| cipher := d |> in
  match out, info with
  | Some b, Some i => set (λ w, into b w <| w_info := i |>) s
  | _, _ => check (crypto_result r) s
  end.
Definition into_a (b : bytes) (w : work) : work := w <| w_a := blit (w_a w) 0 b |>.
Definition into_b (b : bytes) (w : work) : work := w <| w_b := blit (w_b w) 0 b |>.
Definition crypt : Z → Z → bytes → Z → E unit := crypt_into into_b.

(** ** Commands of a received packet

    Each reads the working record first and writes it only when it accepts. *)
Definition slot_of (r : bytes) (sequence : Z) : option Z :=
  let present i := has (rd r FLAGS) (Z.shiftl 1 i) && (rd r (SEQ + i) =? sequence) in
  if! present 0 return Some 0 ;;
  if! present 1 return Some 1 ;;
  None.
Definition accept (r : bytes) (e : Z) : E unit :=
  set (λ w, w <| record := r |> <| event := e |>).

(** A new network key in slot [i]; its replay floor starts at zero. *)
Definition store_key (r : bytes) (i : Z) (p : bytes) (sequence : Z) : bytes :=
  let r := blit r (NK + 16 * i) (slice p 2 16) in
  let r := put32 r (NF + 4 * i) 0 in
  wr r (SEQ + i) sequence.
Definition network_key (r : bytes) (p : bytes) : E unit :=
  let sequence := rd p 18 in
  match slot_of r sequence with
  | Some i =>
      if! negb (same (at_ p 2) (at_ r (NK + 16 * i)) 16) return throw SECURITY_KEYS_SELECTOR ;;
      set (λ w, w <| event := SECURITY_KEYS_EVENT_NETWORK_KEY |>)
  | None =>
      if! reused r (at_ p 2) return throw SECURITY_KEYS_SELECTOR ;;
      if! negb (network r)
        return (if! negb (phase r =? SECURITY_KEYS_ASSOCIATED) return throw SECURITY_KEYS_CONTEXT ;;
                accept (store_key (set_phase (wr r FLAGS 1) SECURITY_KEYS_RECEIVED) 0 p sequence)
                       SECURITY_KEYS_EVENT_NETWORK_KEY) ;;
      if! negb (verified r) return throw SECURITY_KEYS_CONTEXT ;;
      let newest := Z.lxor (active_slot r) (if has (rd r FLAGS) NEWER then 1 else 0) in
      if! negb (sequence =? u8 (rd r (SEQ + newest) + 1)) return throw SECURITY_KEYS_SELECTOR ;;
      let i := Z.lxor (active_slot r) 1 in
      accept (store_key (wr r FLAGS (Z.lor (rd r FLAGS) (u8 (Z.lor (Z.shiftl 1 i) NEWER)))) i p sequence)
             SECURITY_KEYS_EVENT_NETWORK_KEY
  end.
Definition transport : E unit :=
  let! x := gets id in
  let r := record x in let p := p_payload (packet x) in let n := p_length (packet x) in
  if! (aps_secured x =? 0) || negb (pending x =? 0) || (n <? 2) return throw SECURITY_KEYS_CONTEXT ;;
  let type := rd p 1 in
  if! negb (type =? 1) && negb (type =? 4) return throw SECURITY_KEYS_UNSUPPORTED ;;
  if! negb (key_id x =? (if type =? 1 then 2 else 3)) return throw SECURITY_KEYS_SELECTOR ;;
  if! negb (n =? (if type =? 1 then 35 else 34)) return throw SECURITY_KEYS_FORMAT ;;
  let offset := if type =? 1 then 19 else 18 in
  if! negb (same (at_ p (offset + 8)) (at_ r TC) 8) || negb (same (at_ p offset) (at_ r OWN) 8)
      || negb (Nwk.destination (nwk (packet x)) =? read_le16 r ADDR)
    return throw SECURITY_KEYS_IDENTITY ;;
  if! type =? 4
    return (if! negb (phase r =? SECURITY_KEYS_REQUESTED) return throw SECURITY_KEYS_CONTEXT ;;
            if! reused r (at_ p 2) return throw SECURITY_KEYS_SELECTOR ;;
            let r := blit r PK (slice p 2 16) in
            let r := wr r FLAGS (without (rd r FLAGS) RETIRED) in
            accept (set_phase r SECURITY_KEYS_PROVISIONAL) SECURITY_KEYS_EVENT_TC_KEY) ;;
  network_key r p.

(** The pending link key becomes the link key; the old one stays as a tombstone. *)
Definition confirmed (r : bytes) (counter : Z) : bytes :=
  let old := slice r LK 16 in
  let r := blit r LK (slice r PK 16) in
  let r := blit r PK old in
  let r := put32 r AF (u32 (counter + 1)) in
  let r := wr r FLAGS (Z.lor (rd r FLAGS) (Z.lor WAS_VERIFIED RETIRED)) in
  set_phase r SECURITY_KEYS_VERIFIED.
Definition aps_command : E unit :=
  let! x := gets id in
  let r := record x in let p := p_payload (packet x) in let n := p_length (packet x) in
  if! (n =? 0) || negb (Nwk.source (nwk (packet x)) =? 0) return throw SECURITY_KEYS_IDENTITY ;;
  if! rd p 0 =? 5 return transport ;;
  if! rd p 0 =? 16
    return (if! (aps_secured x =? 0) || (pending x =? 0) || negb (phase r =? SECURITY_KEYS_WAIT_CONFIRM)
              return throw SECURITY_KEYS_CONTEXT ;;
            if! negb (n =? 11) || negb (rd p 1 =? 0) || negb (rd p 2 =? 4)
              return throw SECURITY_KEYS_FORMAT ;;
            if! negb (Nwk.destination (nwk (packet x)) =? read_le16 r ADDR)
                || negb (same (at_ p 3) (at_ r OWN) 8)
              return throw SECURITY_KEYS_IDENTITY ;;
            do! set (λ w, w <| w_key := w_key w <| Security.key := slice r LK 16 |> |>) ;;
            accept (confirmed r (m_counter (w_meta x))) SECURITY_KEYS_EVENT_VERIFIED) ;;
  if! rd p 0 =? 9
    return (if! (w_secured x =? 0) || negb (pending x =? 0) || negb (n =? 2)
                || negb (broadcast (Nwk.destination (nwk (packet x))))
              return throw SECURITY_KEYS_CONTEXT ;;
            if! negb (aps_secured x =? 0) && negb (key_id x =? 0) return throw SECURITY_KEYS_SELECTOR ;;
            if! rd p 1 =? rd r (SEQ + active_slot r)
              return set (λ w, w <| event := SECURITY_KEYS_EVENT_SWITCH |>) ;;
            if! negb (has (rd r FLAGS) NEWER)
                || negb (rd p 1 =? rd r (SEQ + Z.lxor (active_slot r) 1))
              return throw SECURITY_KEYS_SELECTOR ;;
            accept (adopt r (Z.lxor (active_slot r) 1)) SECURITY_KEYS_EVENT_SWITCH) ;;
  throw SECURITY_KEYS_UNSUPPORTED.

Definition leave_command (r p : bytes) : bytes :=
  let r := set_phase r SECURITY_KEYS_LEFT in
  wr r FLAGS (if has (rd p 1) 0x20 then Z.lor (rd r FLAGS) REJOIN_ALLOWED
              else without (rd r FLAGS) REJOIN_ALLOWED).
Definition both_ieee (p : ed_packet_t) : bool :=
  Z.land (Nwk.flags (nwk p)) BOTH_IEEE =? BOTH_IEEE.
Definition nwk_command : E unit :=
  let! x := gets id in
  let r := record x in let pk := packet x in let p := p_payload pk in let n := p_length pk in
  let flags := Nwk.flags (nwk pk) in let destination := Nwk.destination (nwk pk) in
  if! (w_secured x =? 0) || (n =? 0) return throw SECURITY_KEYS_CONTEXT ;;
  if! negb (Nwk.source (nwk pk) =? 0) return throw SECURITY_KEYS_CONTEXT ;;
  let command := rd p 0 in
  if! (phase r =? SECURITY_KEYS_REJOINING) && negb (command =? 7) && negb (command =? 4)
    return throw SECURITY_KEYS_CONTEXT ;;
  if! command =? 4
    return (if! negb (n =? 2) || negb (has flags Nwk.NWK_FLAG_SOURCE_IEEE)
                || negb (Nwk.radius (nwk pk) =? 1) return throw SECURITY_KEYS_FORMAT ;;
            if! negb (destination =? (if has (rd p 1) 0x40 then read_le16 r ADDR else 0xfffd))
              return throw SECURITY_KEYS_IDENTITY ;;
            accept (leave_command r p) SECURITY_KEYS_EVENT_LEAVE) ;;
  if! command =? 10
    return (if! negb (n =? 13) || negb (rd p 1 =? 1) || negb (has flags Nwk.NWK_FLAG_SOURCE_IEEE)
                || has flags Nwk.NWK_FLAG_DESTINATION_IEEE || negb (destination =? 0xffff)
              return throw SECURITY_KEYS_FORMAT ;;
            if! negb (same (at_ p 2) (at_ r EP) 8) || (read_le16 p 11 =? 0xffff)
              return throw SECURITY_KEYS_IDENTITY ;;
            let delta := u8 (rd p 10 - rd r UPDATE) in
            if! (128 <=? delta) || ((delta =? 0) && negb (same (at_ r PAN) (at_ p 11) 2))
              return throw SECURITY_KEYS_CONTEXT ;;
            accept (if delta =? 0 then r
                    else blit (wr r UPDATE (rd p 10)) PAN (slice p 11 2)) SECURITY_KEYS_EVENT_UPDATE) ;;
  if! command =? 7
    return (if! negb (phase r =? SECURITY_KEYS_REJOINING) return throw SECURITY_KEYS_CONTEXT ;;
            if! negb (n =? 4) || negb (both_ieee pk) || negb (destination =? read_le16 r ADDR)
              return throw SECURITY_KEYS_FORMAT ;;
            if! 2 <? rd p 3 return throw SECURITY_KEYS_FORMAT ;;
            if! negb (rd p 3 =? 0)
              return (if! negb (read_le16 p 1 =? 0xffff) return throw SECURITY_KEYS_FORMAT ;;
                      set (λ w, w <| event := SECURITY_KEYS_EVENT_REJOIN_REFUSED |>)) ;;
            if! (read_le16 p 1 =? 0) || (0xfff8 <=? read_le16 p 1) return throw SECURITY_KEYS_IDENTITY ;;
            let r := set_phase (blit r ADDR (slice p 1 2)) SECURITY_KEYS_VERIFIED in
            accept (wr r FLAGS (without (rd r FLAGS) REJOIN_ALLOWED)) SECURITY_KEYS_EVENT_REJOINED) ;;
  if! command =? 12
    return (if! negb (n =? 3) || (1 <? rd p 1) || negb (both_ieee pk)
                || negb (destination =? read_le16 r ADDR) || negb (Nwk.radius (nwk pk) =? 1)
              return throw SECURITY_KEYS_FORMAT ;;
            if! negb (has (rd r PHASE) TIMEOUT_PENDING) return throw SECURITY_KEYS_CONTEXT ;;
            let r := wr r PHASE (without (rd r PHASE) TIMEOUT_PENDING) in
            accept (if rd p 1 =? 0
                    then wr r PHASE (Z.lor (without (rd r PHASE) PARENT_MASK)
                                           (u8 (Z.shiftl (Z.land (rd p 2) 7) 4)))
                    else r) SECURITY_KEYS_EVENT_MANAGEMENT) ;;
  if! command =? 3
    return (if! (n <? 2) || (4 <? n) return throw SECURITY_KEYS_FORMAT ;;
            set (λ w, w <| event := SECURITY_KEYS_EVENT_MANAGEMENT |>)) ;;
  throw SECURITY_KEYS_UNSUPPORTED.

(** ** Reception *)
Definition flag (b : bool) : Z := if b then 1 else 0.

(** While a Confirm is awaited, an APS command under the link key selector is first tried with the
    pending key. *)
Definition try_pending (apdu : bytes) (length : Z) : E unit :=
  let! x := gets id in
  if! negb ((phase (record x) =? SECURITY_KEYS_WAIT_CONFIRM) && (key_id x =? 0)
            && (Z.land (rd apdu 0) 3 =? ED_APS_COMMAND)) return ret tt ;;
  do! key PK 0 false ;;
  let! r := attempt (crypt 1 ZIGBEE_SECURITY_APS apdu length) in
  match r with
  | inr _ => set (λ w, w <| pending := 1 |>)
  | inl SECURITY_KEYS_AUTH => ret tt
  | inl r => throw r
  end.
Definition open_current (apdu : bytes) (length : Z) : E unit :=
  let! x := gets id in
  if! m_counter (w_meta x) <? u32_at (record x) AF
    return (do! set (λ w, w <| w_counter := u32_at (record x) AF |>) ;; throw SECURITY_KEYS_REPLAY) ;;
  do! set (λ w, w <| w_counter := u32_at (record x) AF |>) ;;
  do! key LK (key_id x) false ;;
  do! set (λ w, w <| w_key := w_key w <| extended_nonce := m_extended_nonce (w_meta w) |> |>) ;;
  do! crypt 1 ZIGBEE_SECURITY_APS apdu length ;;
  set (λ w, w <| record := put32 (record w) AF (u32 (m_counter (w_meta w) + 1)) |>
              <| aps_secured := APS_CURRENT_ADMITTED |>).
Definition open_aps : E unit :=
  let! x := gets id in
  let length := Nwk.payload_length (w_nwk x) in let offset := Nwk.payload_offset (w_nwk x) in
  let apdu := at_ (w_a x) offset in
  do! set (λ w, w <| aps_secured := flag (has (rd apdu 0) Aps.APS_FLAG_SECURITY) |>) ;;
  if! negb (has (rd apdu 0) Aps.APS_FLAG_SECURITY) return ret tt ;;
  let! m := wire (ed_wire_inspect ZIGBEE_SECURITY_APS (Some apdu) length true) in
  do! set (λ w, w <| w_meta := m |>) ;;
  if! m_counter m =? 0xffffffff return throw SECURITY_KEYS_REPLAY ;;
  do! set (λ w, w <| key_id := m_key_identifier m |>) ;;
  let id := m_key_identifier m in
  if! negb (id =? 0) && negb (id =? 2) && negb (id =? 3) return throw SECURITY_KEYS_SELECTOR ;;
  if! negb (m_extended_nonce m =? 0) && negb (same (m_source m) (at_ (record x) TC) 8)
    return throw SECURITY_KEYS_IDENTITY ;;
  do! set (λ w, w <| pending := 0 |>) ;;
  do! try_pending apdu length ;;
  let! tried := gets pending in
  do! (if tried =? 0 then open_current apdu length else ret tt) ;;
  set (λ w, let n := info_length (w_info w) in
            w <| w_a := blit (w_a w) offset (slice (w_b w) 0 n) |> <| size := u8 (offset + n) |>).

(** The addresses of a frame for this device. *)
Definition admissible_nwk (r : bytes) (h : Nwk.nwk_header_t) : bool :=
  negb (negb (Nwk.source h =? 0)
        || (negb (Nwk.destination h =? read_le16 r ADDR) && negb (broadcast (Nwk.destination h)))
        || (has (Nwk.flags h) Nwk.NWK_FLAG_SOURCE_IEEE && negb (same (Nwk.source_ieee h) (at_ r TC) 8))
        || (has (Nwk.flags h) Nwk.NWK_FLAG_DESTINATION_IEEE
            && negb (same (Nwk.destination_ieee h) (at_ r OWN) 8))).
(** Authentication and replay of the network layer. *)
Definition open_nwk (raw : bytes) (length : Z) : E unit :=
  let! m := wire (ed_wire_inspect ZIGBEE_SECURITY_NWK (Some raw) length true) in
  do! set (λ w, w <| w_meta := m |>) ;;
  let! r := gets record in
  if! negb (same (m_source m) (at_ r TC) 8) return throw SECURITY_KEYS_IDENTITY ;;
  match slot_of r (m_key_sequence m) with
  | None => throw SECURITY_KEYS_SELECTOR
  | Some i =>
      do! set (λ w, w <| slot := i |>) ;;
      if! (m_counter m =? 0xffffffff) || (m_counter m <? u32_at r (NF + 4 * i))
        return throw SECURITY_KEYS_REPLAY ;;
      do! key (NK + 16 * i) 1 false ;;
      do! set (λ w, w <| w_key := w_key w <| key_sequence := rd r (SEQ + i) |> |>) ;;
      do! crypt_into into_a 1 ZIGBEE_SECURITY_NWK raw length ;;
      do! set (λ w, w <| record := put32 (record w) (NF + 4 * i) (u32 (m_counter m + 1)) |>
                      <| size := info_length (w_info w) |>) ;;
      let! r := gets record in
      if! has (rd r FLAGS) NEWER && negb (i =? active_slot r)
        return set (λ w, w <| record := adopt r i |> <| w_secured := 2 |>) ;;
      ret tt
  end.
Definition receive_nwk (raw : bytes) (length : Z) : E unit :=
  let! i := wire (ed_wire_nwk (Some raw) length true) in
  do! set (λ w, w <| w_nwk := i |>) ;;
  let! r := gets record in
  if! negb (admissible_nwk r (Nwk.header i)) return throw SECURITY_KEYS_IDENTITY ;;
  let secured := has (Nwk.flags (Nwk.header i)) Nwk.NWK_FLAG_SECURITY in
  do! set (λ w, w <| w_secured := flag secured |>) ;;
  do! (if secured then open_nwk raw length
       else if! network r || (116 <? length) return throw SECURITY_KEYS_CONTEXT ;;
            set (λ w, w <| w_a := blit (w_a w) 0 (slice raw 0 length) |> <| size := u8 length |>)) ;;
  set (λ w, w <| aps_secured := 0 |> <| pending := 0 |>).
(** From the normalised frame to the accepted command or data. *)
Definition receive_packet : E unit :=
  let! x := gets id in
  let! i := wire (ed_wire_nwk (Some (w_a x)) (size x) true) in
  do! set (λ w, w <| w_nwk := i |>) ;;
  do! (if! Nwk.type (Nwk.header i) =? ED_NWK_COMMAND return ret tt ;;
       if! Nwk.payload_length i =? 0 return throw SECURITY_KEYS_FORMAT ;;
       open_aps) ;;
  let! x := gets id in
  let! pk := wire (ed_wire_decode (Some (w_a x)) (size x) true) in
  do! set (λ w, w <| packet := pk |>) ;;
  let command := Nwk.type (nwk pk) =? ED_NWK_COMMAND in
  if! negb command && negb (aps_addressing pk false) return throw SECURITY_KEYS_IDENTITY ;;
  if! (phase (record x) =? SECURITY_KEYS_REJOINING) && negb command return throw SECURITY_KEYS_CONTEXT ;;
  if! (w_secured x =? 0)
      && (command || negb (Aps.type (aps pk) =? ED_APS_COMMAND) || negb (p_length pk =? 35)
          || negb (rd (p_payload pk) 0 =? 5) || negb (rd (p_payload pk) 1 =? 1))
    return throw SECURITY_KEYS_CONTEXT ;;
  do! set (λ w, w <| event := SECURITY_KEYS_EVENT_DATA |>) ;;
  if! command return nwk_command ;;
  if! Aps.type (aps pk) =? ED_APS_COMMAND return aps_command ;;
  if! negb (pending x =? 0) || (negb (aps_secured x =? 0) && negb (key_id x =? 0))
    return throw SECURITY_KEYS_SELECTOR ;;
  if! join_management pk return set (λ w, w <| event := SECURITY_KEYS_EVENT_MANAGEMENT |>) ;;
  if! negb (verified (record x)) return throw SECURITY_KEYS_CONTEXT ;;
  ret tt.
(** No transport descriptor, key bytes or hashes leave with the packet. *)
Definition scrubbed (p : ed_packet_t) : ed_packet_t :=
  if negb (Nwk.type (nwk p) =? ED_NWK_COMMAND) && (Aps.type (aps p) =? ED_APS_COMMAND)
  then p <| p_payload := replicate 82 0 |> <| p_length := 0 |> else p.
Definition receive_done : E (ed_packet_t * Z) :=
  do! set (λ w, w <| packet := scrubbed (packet w) |>) ;;
  let! x := gets id in
  do! (if (SECURITY_KEYS_EVENT_MANAGEMENT <? event x) || negb (aps_secured x =? 0) || (w_secured x =? 2)
       then save else keep_volatile) ;;
  ret (packet x, u8 (Z.lor (event x) (if aps_secured x =? 0 then 0 else SECURITY_KEYS_EVENT_APS_SECURED))).
Definition receive_rejected {A} (r : security_keys_result_t) : E A :=
  let! x := gets id in
  do! (if (aps_secured x =? APS_CURRENT_ADMITTED) || (w_secured x =? 2) then save else keep_volatile) ;;
  throw r.

(** ** The public operations

    [finish]: the working record is wiped, and the result kept unless the owner has failed. *)
Definition code {A} (x : security_keys_result_t + A) : security_keys_result_t :=
  match x with inl r => r | inr _ => SECURITY_KEYS_OK end.
Definition value {A} (x : security_keys_result_t + A) : option A :=
  match x with inl _ => None | inr a => Some a end.
Definition finish (s : state) (r : security_keys_result_t) : state :=
  let s := s <| w := zero_work |> in
  if! security_keys_phase s =? SECURITY_KEYS_FAILED return s ;;
  s <| security_keys_result := r |>.
Definition call {A} (m : E A) (s : state) : outcome M (security_keys_result_t * option A * state) :=
  match m s with
  | Lost m => Lost m
  | Ret (x, s) => Ret (code x, value x, finish s (code x))
  end.

Definition security_keys_receive (raw_npdu : option bytes) (length : Z) (output event : bool)
    (limits : option Ccm.ccm_star_limits_t) (nv_polls : Z) : state → outcome M _ :=
  call (
    do! load ;;
    match raw_npdu with
    | None => throw SECURITY_KEYS_ARGUMENT
    | Some raw =>
        if! negb output || negb event return throw SECURITY_KEYS_ARGUMENT ;;
        let! ok := limits_ok limits nv_polls in
        if! negb ok return throw SECURITY_KEYS_ARGUMENT ;;
        let! s := get in
        if! (security_keys_phase s <? SECURITY_KEYS_ASSOCIATED)
            || (security_keys_phase s =? SECURITY_KEYS_LEFT) return throw SECURITY_KEYS_STATE ;;
        do! receive_nwk raw length ;;
        let! r := attempt receive_packet in
        match r with
        | inl r => receive_rejected r
        | inr _ => receive_done
        end
    end).

Definition security_keys_open : state → outcome M _ :=
  call (
    let! s := get in
    if! negb (security_keys_phase s =? SECURITY_KEYS_COLD) return throw SECURITY_KEYS_STATE ;;
    do! set (λ _, zero_work) ;;
    let! r := (λ s, match service_open (counters s) with
                    | Lost m => Lost m
                    | Ret (r, c) => Ret (inr r, s <| counters := c |>)
                    end) in
    if! bool_decide (r = Counter.SECURITY_COUNTER_EMPTY)
      return (do! put (λ s, s <| security_keys_phase := SECURITY_KEYS_UNPROVISIONED |>) ;;
              throw SECURITY_KEYS_EMPTY) ;;
    if! bool_decide (r ≠ Counter.SECURITY_COUNTER_OK) return fault SECURITY_KEYS_STORAGE ;;
    do! read_record ;;
    let! x := gets id in
    if! negb (valid_record (record x) (size x)) return fault SECURITY_KEYS_FORMAT ;;
    do! put (λ s, s <| security_keys_phase := phase (record (w s)) |>) ;;
    keep_volatile).

Definition configured (c : security_keys_config_t) (r : bytes) : bytes :=
  let r := blit r OWN (slice (own_ieee c) 0 8) in
  let r := blit r TC (slice (tc_ieee c) 0 8) in
  let r := blit r EP (slice (extended_pan c) 0 8) in
  let r := write_le16 r PAN (pan c) in
  let r := write_le16 r ADDR (address c) in
  wr (wr r CHANNEL (channel c)) UPDATE (update_id c).
Definition install_code (code : bytes) : E bytes := λ s,
  let l := w_limits (w s) in
  let '(r, out, _, d) := Mmo.install_code_derive (cipher s) (Some code) 18 true true
                           (Ccm.block_timeout l) (Ccm.block_polls l) in
  let s := s <| cipher := d |> in
  match r, out with
  | Mmo.ZIGBEE_MMO_OK, Some k => Ret (inr k, s)
  | _, _ => Ret (inl SECURITY_KEYS_CRYPTO, s)
  end.
Definition security_keys_provision (config : option security_keys_config_t)
    (install_code18 : option bytes) (nwk_floor aps_floor : Z)
    (limits : option Ccm.ccm_star_limits_t) (nv_polls : Z) : state → outcome M _ :=
  call (
    let! s := get in
    if! negb (security_keys_phase s =? SECURITY_KEYS_UNPROVISIONED) return throw SECURITY_KEYS_STATE ;;
    match config, install_code18 with
    | Some config, Some code18 =>
        let! ok := limits_ok limits nv_polls in
        if! negb ok || (nwk_floor =? 0xffffffff) || (aps_floor =? 0xffffffff)
          return throw SECURITY_KEYS_ARGUMENT ;;
        do! set (λ w, w <| record := configured config (record w) |>) ;;
        let! r := gets record in
        if! negb (valid_config r) return throw SECURITY_KEYS_ARGUMENT ;;
        do! set (λ w, w <| w_a := blit (w_a w) 0 (slice code18 0 18) |>) ;;
        let! a := gets w_a in
        let! k := install_code a in
        do! set (λ w, w <| record :=
              set_phase (wr (wr (blit (record w) LK k) MAGIC 75) (MAGIC + 1) 2)
                        SECURITY_KEYS_PROVISIONED |>) ;;
        let! r := (λ s, let '(r, c) := service_create (counters s) nwk_floor aps_floor
                                         (record (w s)) 112 (polls (w s)) in
                        Ret (inr r, s <| counters := c |>)) in
        if! bool_decide (r ≠ Counter.SECURITY_COUNTER_OK) return fault SECURITY_KEYS_STORAGE ;;
        put (λ s, s <| security_keys_phase := SECURITY_KEYS_PROVISIONED |>)
    | _, _ => throw SECURITY_KEYS_ARGUMENT
    end).

Definition security_keys_associate (short_address nv_polls : Z) : state → outcome M _ :=
  call (
    do! load ;;
    let! r := gets record in
    if! negb (phase r =? SECURITY_KEYS_PROVISIONED) return throw SECURITY_KEYS_STATE ;;
    if! (short_address =? 0) || (0xfff8 <=? short_address) || (nv_polls =? 0)
      return throw SECURITY_KEYS_ARGUMENT ;;
    if! negb (read_le16 r ADDR =? 0xffff) && negb (read_le16 r ADDR =? short_address)
      return throw SECURITY_KEYS_IDENTITY ;;
    do! set (λ w, w <| record := set_phase (write_le16 (record w) ADDR short_address)
                                   SECURITY_KEYS_ASSOCIATED |> <| polls := nv_polls |>) ;;
    let! r := (λ s, let '(r, c) := service_restage (counters s) (record (w s)) 112 in
                    Ret (inr r, s <| counters := c |>)) in
    if! bool_decide (r = Counter.SECURITY_COUNTER_OK)
      return put (λ s, s <| security_keys_phase := SECURITY_KEYS_ASSOCIATED |>) ;;
    save).

(** ** Transmission *)
Definition sent_flags (r : bytes) (flags : Z) : Z :=
  let flags := Z.land flags (u16 (Z.lnot Nwk.NWK_FLAG_END_DEVICE_INITIATOR)) in
  if parent_information r =? 0 then flags else Z.lor flags Nwk.NWK_FLAG_END_DEVICE_INITIATOR.
(** The APS layer of a frame in [w.a]. *)
Definition seal_aps : E unit :=
  let! x := gets id in
  let! i := wire (ed_wire_nwk (Some (w_a x)) (size x) true) in
  do! set (λ w, w <| w_nwk := i |>) ;;
  let offset := Nwk.payload_offset i in
  do! key LK 0 true ;;
  do! take SECURITY_COUNTER_APS ;;
  do! crypt 0 ZIGBEE_SECURITY_APS (at_ (w_a x) offset) (Nwk.payload_length i) ;;
  let! x := gets id in
  let total := u8 (offset + info_length (w_info x)) in
  if! 116 <? total return throw SECURITY_KEYS_SPACE ;;
  set (λ w, w <| w_a := blit (w_a w) offset (slice (w_b w) 0 (info_length (w_info w))) |>
              <| size := total |>).
Definition seal (aps_secure : bool) : E unit :=
  let! slot := gets (λ w, active_slot (record w)) in
  do! set (λ w, w <| packet := packet w <| nwk := nwk (packet w)
               <| Nwk.flags := sent_flags (record w) (Nwk.flags (nwk (packet w))) |> |> |>) ;;
  let! p := gets packet in
  let! f := wire (ed_wire_encode (Some p) true 116 true) in
  do! set (λ w, w <| w_a := blit (w_a w) 0 f |> <| size := blen f |>) ;;
  do! (if aps_secure then seal_aps else ret tt) ;;
  do! key (NK + 16 * slot) 1 true ;;
  do! set (λ w, w <| w_key := w_key w <| key_sequence := rd (record w) (SEQ + slot) |> |>) ;;
  do! take SECURITY_COUNTER_NWK ;;
  let! x := gets id in
  crypt 0 ZIGBEE_SECURITY_NWK (w_a x) (size x).
(** The octets stored in the caller's buffer; their number is stored in [written]. *)
Definition publish (capacity : Z) : E bytes :=
  let! x := gets id in
  if! capacity <? info_length (w_info x) return throw SECURITY_KEYS_SPACE ;;
  ret (slice (w_b x) 0 (info_length (w_info x))).
Definition command_packet (nwk_seq aps_counter : Z) : E unit :=
  set (λ w, w <| packet := packet w
    <| nwk := nwk (packet w) <| Nwk.version := 2 |> <| Nwk.source := read_le16 (record w) ADDR |>
         <| Nwk.destination := 0 |> <| Nwk.radius := 1 |> <| Nwk.sequence := nwk_seq |> |>
    <| aps := aps (packet w) <| Aps.type := ED_APS_COMMAND |> <| Aps.counter := aps_counter |> |> |>).
Definition payload_put (length : Z) (octets : bytes) : E unit :=
  set (λ w, w <| packet := packet w <| p_length := length |>
                <| p_payload := blit (p_payload (packet w)) 0 octets |> |>).
Definition next_phase (value : Z) : E unit :=
  do! set (λ w, w <| record := set_phase (record w) value |>) ;; save.
Definition ready (out written : bool) (limits : option Ccm.ccm_star_limits_t) (nv_polls : Z) : E unit :=
  do! load ;;
  if! negb out || negb written return throw SECURITY_KEYS_ARGUMENT ;;
  let! ok := limits_ok limits nv_polls in
  if! negb ok return throw SECURITY_KEYS_ARGUMENT ;;
  ret tt.

Definition security_keys_request (nwk_seq aps_counter : Z) (out : bool) (capacity : Z) (written : bool)
    (limits : option Ccm.ccm_star_limits_t) (nv_polls : Z) : state → outcome M _ :=
  call (
    do! ready out written limits nv_polls ;;
    let! r := gets record in
    if! (1 <? u8 (phase r - SECURITY_KEYS_RECEIVED)) && negb (phase r =? SECURITY_KEYS_VERIFIED)
      return throw SECURITY_KEYS_CONTEXT ;;
    if! capacity <? 47 return throw SECURITY_KEYS_SPACE ;;
    do! command_packet nwk_seq aps_counter ;;
    do! payload_put 2 [8; 4] ;;
    do! seal true ;;
    do! next_phase SECURITY_KEYS_REQUESTED ;;
    publish capacity).
Definition security_keys_verify (nwk_seq aps_counter : Z) (out : bool) (capacity : Z) (written : bool)
    (limits : option Ccm.ccm_star_limits_t) (nv_polls : Z) : state → outcome M _ :=
  call (
    do! ready out written limits nv_polls ;;
    let! r := gets record in
    if! 1 <? u8 (phase r - SECURITY_KEYS_PROVISIONAL) return throw SECURITY_KEYS_CONTEXT ;;
    if! capacity <? 54 return throw SECURITY_KEYS_SPACE ;;
    do! command_packet nwk_seq aps_counter ;;
    do! payload_put 26 ([15; 4] ++ slice r OWN 8) ;;
    let! h := keyed_hash (slice r PK 16) Mmo.ZIGBEE_HASH_VERIFY in
    do! set (λ w, w <| packet := packet w <| p_payload := blit (p_payload (packet w)) 10 h |> |>) ;;
    do! seal false ;;
    do! next_phase SECURITY_KEYS_WAIT_CONFIRM ;;
    publish capacity).
Definition leave_packet (nwk_seq : Z) : E unit :=
  do! set (λ w, w <| packet := packet w
    <| nwk := nwk (packet w) <| Nwk.type := ED_NWK_COMMAND |> <| Nwk.version := 2 |>
         <| Nwk.source := read_le16 (record w) ADDR |> <| Nwk.destination := 0xfffd |>
         <| Nwk.flags := Nwk.NWK_FLAG_SOURCE_IEEE |> <| Nwk.radius := 1 |>
         <| Nwk.sequence := nwk_seq |> <| Nwk.source_ieee := slice (record w) OWN 8 |> |> |>) ;;
  payload_put 2 [4; 0].
Definition security_keys_leave (nwk_seq : Z) (out : bool) (capacity : Z) (written : bool)
    (limits : option Ccm.ccm_star_limits_t) (nv_polls : Z) : state → outcome M _ :=
  call (
    do! ready out written limits nv_polls ;;
    let! r := gets record in
    do! (if! negb (network r) return ret tt ;;
         if! capacity <? 36 return throw SECURITY_KEYS_SPACE ;;
         do! leave_packet nwk_seq ;;
         seal false) ;;
    do! set (λ w, w <| record :=
          (let r := set_phase (record w) SECURITY_KEYS_LEFT in
           wr r FLAGS (without (rd r FLAGS) REJOIN_ALLOWED)) |>) ;;
    do! save ;;
    if network r then publish capacity else ret []).

(** What a caller may send: the addresses, then the command or the APS frame with the life-cycle
    step that goes with it (0 for none). *)
Definition sendable_nwk (r : bytes) (h : Nwk.nwk_header_t) : bool :=
  negb (negb (Nwk.source h =? read_le16 r ADDR)
        || (negb (Nwk.destination h =? 0) && negb (outbound_broadcast (Nwk.destination h)))
        || (has (Nwk.flags h) Nwk.NWK_FLAG_SOURCE_IEEE
            && negb (same (Nwk.source_ieee h) (at_ r OWN) 8))
        || (has (Nwk.flags h) Nwk.NWK_FLAG_DESTINATION_IEEE
            && negb (same (Nwk.destination_ieee h) (at_ r TC) 8))).
Definition sendable_command (r : bytes) (pk : ed_packet_t) (aps_secure : bool)
    : security_keys_result_t + Z :=
  let p := p_payload pk in let n := p_length pk in
  let destination := Nwk.destination (nwk pk) in let flags := Nwk.flags (nwk pk) in
  if! aps_secure || negb (Nwk.radius (nwk pk) =? 1) return inl SECURITY_KEYS_UNSUPPORTED ;;
  if! rd p 0 =? 6
    return (if! negb (verified r) || negb (n =? 2) || has (rd p 1) (u8 (Z.lnot 0x0c))
                || negb (destination =? 0) || negb (both_ieee pk) return inl SECURITY_KEYS_UNSUPPORTED ;;
            if! negb (has (rd r FLAGS) RETIRED) && negb (all (at_ r PK) 16 0)
              return inl SECURITY_KEYS_CONTEXT ;;
            if! negb (phase r =? SECURITY_KEYS_VERIFIED) && negb (phase r =? SECURITY_KEYS_REJOINING)
                && negb ((phase r =? SECURITY_KEYS_LEFT) && has (rd r FLAGS) REJOIN_ALLOWED)
              return inl SECURITY_KEYS_CONTEXT ;;
            inr SECURITY_KEYS_REJOINING) ;;
  if! rd p 0 =? 4
    return (if! negb (n =? 2) || has (rd p 1) (u8 (Z.lnot 0x20)) || negb (destination =? 0xfffd)
                || negb (has flags Nwk.NWK_FLAG_SOURCE_IEEE) || has flags Nwk.NWK_FLAG_DESTINATION_IEEE
              return inl SECURITY_KEYS_UNSUPPORTED ;;
            inr SECURITY_KEYS_LEFT) ;;
  if! negb (rd p 0 =? 11) || negb (n =? 3) || (14 <? rd p 1) || negb (rd p 2 =? 0)
      || negb (destination =? 0) || negb (both_ieee pk) return inl SECURITY_KEYS_UNSUPPORTED ;;
  inr 0.
Definition sendable_aps (r : bytes) (pk : ed_packet_t) (aps_secure : bool)
    : security_keys_result_t + Z :=
  if! Aps.type (aps pk) =? ED_APS_COMMAND return inl SECURITY_KEYS_UNSUPPORTED ;;
  if! negb (aps_addressing pk true) return inl SECURITY_KEYS_IDENTITY ;;
  if! negb (verified r) && negb (join_management pk) return inl SECURITY_KEYS_CONTEXT ;;
  if! aps_secure && negb (Nwk.destination (nwk pk) =? 0) return inl SECURITY_KEYS_UNSUPPORTED ;;
  inr 0.
Definition sendable (r : bytes) (pk : ed_packet_t) (aps_secure : bool) : security_keys_result_t + Z :=
  if! negb (sendable_nwk r (nwk pk)) return inl SECURITY_KEYS_IDENTITY ;;
  let x := if Nwk.type (nwk pk) =? ED_NWK_COMMAND then sendable_command r pk aps_secure
           else sendable_aps r pk aps_secure in
  match x with
  | inl e => inl e
  | inr transition =>
      if! ((phase r =? SECURITY_KEYS_LEFT) || (phase r =? SECURITY_KEYS_REJOINING))
          && (transition =? 0) return inl SECURITY_KEYS_STATE ;;
      inr transition
  end.
Definition lift {A} (x : security_keys_result_t + A) : E A :=
  match x with inl e => throw e | inr a => ret a end.
(** The durable step of a sent Leave or Rejoin Request. *)
Definition sent (transition : Z) (r p : bytes) : bytes :=
  let r := set_phase r transition in
  if transition =? SECURITY_KEYS_LEFT
  then wr r FLAGS (if has (rd p 1) 0x20 then Z.lor (rd r FLAGS) REJOIN_ALLOWED
                   else without (rd r FLAGS) REJOIN_ALLOWED)
  else r.
Definition security_keys_send (p : option ed_packet_t) (aps_secure : Z) (out : bool) (capacity : Z)
    (written : bool) (limits : option Ccm.ccm_star_limits_t) (nv_polls : Z) : state → outcome M _ :=
  call (
    do! load ;;
    match p with
    | None => throw SECURITY_KEYS_ARGUMENT
    | Some pk =>
        if! negb out || negb written || (1 <? aps_secure) return throw SECURITY_KEYS_ARGUMENT ;;
        let! ok := limits_ok limits nv_polls in
        if! negb ok return throw SECURITY_KEYS_ARGUMENT ;;
        let! r := gets record in
        if! negb (network r) return throw SECURITY_KEYS_STATE ;;
        do! set (λ w, w <| packet := pk |>) ;;
        let! transition := lift (sendable r pk (negb (aps_secure =? 0))) in
        do! (if transition =? SECURITY_KEYS_REJOINING
             then set (λ w, w <| record := wr (record w) PHASE
                          (without (rd (record w) PHASE) (Z.lor PARENT_MASK TIMEOUT_PENDING)) |>)
             else ret tt) ;;
        do! seal (negb (aps_secure =? 0)) ;;
        let! x := gets id in
        if! capacity <? info_length (w_info x) return throw SECURITY_KEYS_SPACE ;;
        do! (if transition =? 0 then ret tt
             else do! set (λ w, w <| record := sent transition (record w) (p_payload (packet w)) |>) ;;
                  save) ;;
        do! (if (Nwk.type (nwk pk) =? ED_NWK_COMMAND) && (rd (p_payload pk) 0 =? 11)
             then do! set (λ w, w <| record := wr (record w) PHASE
                            (Z.lor (rd (record w) PHASE) TIMEOUT_PENDING) |>) ;;
                  keep_volatile
             else ret tt) ;;
        publish capacity
    end).

Record security_keys_status_t := {
  config : security_keys_config_t; status_phase : Z; active_sequence : Z; slot_valid : Z;
  newer_pending : Z; status_parent_information : Z; timeout_pending : Z;
  status_result : security_keys_result_t
}.
Definition zero_config : security_keys_config_t :=
  Build_security_keys_config_t (replicate 8 0) (replicate 8 0) (replicate 8 0) 0 0 0 0.
Definition status_of (p : Z) (prior : security_keys_result_t) (r : bytes) : security_keys_status_t := {|
  config := {| own_ieee := slice r OWN 8; tc_ieee := slice r TC 8; extended_pan := slice r EP 8;
               pan := read_le16 r PAN; address := read_le16 r ADDR; channel := rd r CHANNEL;
               update_id := rd r UPDATE |};
  status_phase := p; status_result := prior; slot_valid := Z.land (rd r FLAGS) 3;
  active_sequence := rd r (SEQ + active_slot r); newer_pending := flag (has (rd r FLAGS) NEWER);
  status_parent_information := parent_information r;
  timeout_pending := flag (has (rd r PHASE) TIMEOUT_PENDING) |}.
Definition security_keys_status (output : bool) : state → outcome M _ :=
  call (
    let! s := get in
    let prior := security_keys_result s in
    if! negb output return throw SECURITY_KEYS_ARGUMENT ;;
    if! (security_keys_phase s <? SECURITY_KEYS_PROVISIONED)
        || (security_keys_phase s =? SECURITY_KEYS_FAILED)
      return ret {| config := zero_config; status_phase := security_keys_phase s; active_sequence := 0;
                    slot_valid := 0; newer_pending := 0; status_parent_information := 0;
                    timeout_pending := 0; status_result := prior |} ;;
    do! load ;;
    let! r := gets record in
    ret (status_of (security_keys_phase s) prior r)).
End Keys.
End SecurityKeys.
