(* ===== verification/KeyView.v ===== *)
(** The record of the key store as a structure: what the octets of SecurityKeys.v stand for, how
    each write of the code changes it, and the record check on it. *)
From stdpp Require Import sets.
From S2P Require Import Prelude Security SecurityKeys.

Module KeyView.
Import Security SecurityKeys.

(** ** Comparisons *)
Lemma key_fold_lor (f : Z → Z) l d :
  foldl (λ d i, Z.lor d (f i)) d l = 0 ↔ d = 0 ∧ ∀ i, i ∈ l → f i = 0.
Proof.
  revert d. induction l as [|x l IH]; intros d; simpl.
  - split; [intros ->; split; [done|intros i Hi; by apply elem_of_nil in Hi]|by intros []].
  - rewrite IH, Z.lor_eq_0_iff. split.
    + intros [[-> Hx] H]. split; [done|]. intros i Hi. apply elem_of_cons in Hi as [->|Hi]; auto.
    + intros [-> H]. split; [split; [done|]|]; [apply H; set_solver|].
      intros i Hi. apply H; set_solver.
Qed.
Lemma key_same_iff a b n : same a b n = true ↔ ∀ i, 0 <= i < n → rd a i = rd b i.
Proof.
  unfold same. rewrite Z.eqb_eq, (key_fold_lor (λ i, Z.lxor (rd a i) (rd b i))). split.
  - intros [_ H] i Hi. apply Z.lxor_eq, H. apply elem_of_seqZ. lia.
  - intros H. split; [done|]. intros i Hi. apply elem_of_seqZ in Hi. rewrite H by lia.
    apply Z.lxor_nilpotent.
Qed.
Lemma key_all_iff p n v : all p n v = true ↔ ∀ i, 0 <= i < n → rd p i = v.
Proof.
  unfold all. rewrite Z.eqb_eq, (key_fold_lor (λ i, Z.lxor (rd p i) v)). split.
  - intros [_ H] i Hi. apply Z.lxor_eq, H. apply elem_of_seqZ. lia.
  - intros H. split; [done|]. intros i Hi. apply elem_of_seqZ in Hi. rewrite H by lia.
    apply Z.lxor_nilpotent.
Qed.
Lemma key_rd_at b p i : 0 <= p → 0 <= i → rd (at_ b p) i = rd b (p + i).
Proof. intros Hp Hi. unfold at_, rd. rewrite lookup_drop. do 2 f_equal. lia. Qed.
Lemma key_same b p c q n :
  0 <= p → 0 <= q → 0 <= n → p + n <= blen b → q + n <= blen c →
  same (at_ b p) (at_ c q) n = bool_decide (slice b p n = slice c q n).
Proof.
  intros Hp Hq Hn Hb Hc. apply eq_true_iff_eq. rewrite key_same_iff, bool_decide_eq_true. split.
  - intros H. apply slice_eq; [done..| |]; rewrite ?blen_slice by lia; try lia.
    intros i Hi. rewrite rd_slice, <- !key_rd_at by lia. by apply H.
  - intros H i Hi. rewrite !key_rd_at, <- (rd_slice b p n), <- (rd_slice c q n) by lia. by rewrite H.
Qed.
Lemma key_all b p n v :
  0 <= p → 0 <= n → p + n <= blen b →
  all (at_ b p) n v = bool_decide (slice b p n = replicate (Z.to_nat n) v).
Proof.
  intros Hp Hn Hb. apply eq_true_iff_eq. rewrite key_all_iff, bool_decide_eq_true. split.
  - intros H. apply slice_eq; [done..|rewrite blen_replicate; lia|].
    intros i Hi. rewrite rd_replicate, <- key_rd_at by lia. by apply H.
  - intros H i Hi. rewrite key_rd_at, <- (rd_slice b p n), H by lia. apply rd_replicate. lia.
Qed.

(** ** Writes and reads at fixed places *)
Lemma key_rd_blit_same b p x i :
  0 <= p → p + blen x <= blen b → p <= i < p + blen x → rd (blit b p x) i = rd x (i - p).
Proof. intros. rewrite rd_blit by lia. by replace ((p <=? i) && (i <? p + blen x)) with true by lia. Qed.
Lemma key_rd_blit b p x i :
  0 <= p → p + blen x <= blen b → 0 <= i → i < p ∨ p + blen x <= i → rd (blit b p x) i = rd b i.
Proof.
  intros. rewrite rd_blit by lia.
  destruct ((p <=? i) && (i <? p + blen x)) eqn:E; [lia|done].
Qed.
Lemma key_slice_blit b p x q n :
  0 <= p → p + blen x <= blen b → 0 <= q → 0 <= n → q + n <= blen b → q + n <= p ∨ p + blen x <= q →
  slice (blit b p x) q n = slice b q n.
Proof.
  intros. apply slice_ext; rewrite ?blen_blit; try lia. intros i Hi. apply key_rd_blit; lia.
Qed.
Lemma key_slice_blit_same b p x n :
  0 <= p → n = blen x → p + n <= blen b → slice (blit b p x) p n = x.
Proof.
  intros Hp -> Hb. pose proof (blen_nonneg x). apply slice_eq; rewrite ?blen_blit; try lia.
  intros i Hi. rewrite key_rd_blit_same by lia. f_equal. lia.
Qed.
Lemma key_u32_blit b p x q :
  0 <= p → p + blen x <= blen b → 0 <= q → q + 4 <= p ∨ p + blen x <= q →
  u32_at (blit b p x) q = u32_at b q.
Proof. intros. unfold u32_at, read_counter. by rewrite !key_rd_blit by lia. Qed.
Lemma key_u32_put b p v : 0 <= p → p + 4 <= blen b → is_u32 v → u32_at (put32 b p v) p = v.
Proof.
  intros Hp Hb Hv. pose proof (security_counter_len v) as L. apply security_counter_value; [done|].
  intros i Hi. unfold put32. rewrite key_rd_blit_same by lia. f_equal. lia.
Qed.
Lemma key_le16_blit b p x q :
  0 <= p → p + blen x <= blen b → 0 <= q → q + 2 <= p ∨ p + blen x <= q →
  read_le16 (blit b p x) q = read_le16 b q.
Proof. intros. unfold read_le16. by rewrite !key_rd_blit by lia. Qed.

(** ** The structure *)
Record view := {
  v_own : bytes; v_tc : bytes; v_nk0 : bytes; v_nk1 : bytes; v_lk : bytes; v_pk : bytes;
  v_nf0 : Z; v_nf1 : Z; v_af : Z; v_ep : bytes; v_pan : Z; v_addr : Z; v_channel : Z;
  v_update : Z; v_seq0 : Z; v_seq1 : Z; v_flags : Z; v_phase : Z; v_magic0 : Z; v_magic1 : Z
}.
#[export] Instance view_fields : Fields view := λ v, {|
  v_own := v_own v; v_tc := v_tc v; v_nk0 := v_nk0 v; v_nk1 := v_nk1 v; v_lk := v_lk v;
  v_pk := v_pk v; v_nf0 := v_nf0 v; v_nf1 := v_nf1 v; v_af := v_af v; v_ep := v_ep v;
  v_pan := v_pan v; v_addr := v_addr v; v_channel := v_channel v; v_update := v_update v;
  v_seq0 := v_seq0 v; v_seq1 := v_seq1 v; v_flags := v_flags v; v_phase := v_phase v;
  v_magic0 := v_magic0 v; v_magic1 := v_magic1 v |}.
Definition view_of (r : bytes) : view := {|
  v_own := slice r OWN 8; v_tc := slice r TC 8; v_nk0 := slice r NK 16;
  v_nk1 := slice r (NK + 16) 16; v_lk := slice r LK 16; v_pk := slice r PK 16;
  v_nf0 := u32_at r NF; v_nf1 := u32_at r (NF + 4); v_af := u32_at r AF; v_ep := slice r EP 8;
  v_pan := read_le16 r PAN; v_addr := read_le16 r ADDR; v_channel := rd r CHANNEL;
  v_update := rd r UPDATE; v_seq0 := rd r SEQ; v_seq1 := rd r (SEQ + 1); v_flags := rd r FLAGS;
  v_phase := rd r PHASE; v_magic0 := rd r MAGIC; v_magic1 := rd r (MAGIC + 1) |}.
Definition record_typed (r : bytes) : Prop := blen r = 112 ∧ is_bytes r.

(** [layout]: every field of a written record, the written ones by what was written. *)
Ltac offsets := unfold OWN, TC, NK, LK, PK, NF, AF, EP, PAN, ADDR, CHANNEL, UPDATE, SEQ, FLAGS, PHASE,
  MAGIC in *.
Ltac apart := rewrite ?blen_blit, ?blen_wr, ?blen_cons, ?blen_nil; lia.
Ltac layout :=
  unfold view_of; offsets; fields; rewrite ?wr_blit; f_equal;
  first [ reflexivity
        | rewrite key_slice_blit by apart; reflexivity
        | rewrite key_u32_blit by apart; reflexivity
        | rewrite key_le16_blit by apart; reflexivity
        | rewrite key_rd_blit by apart; reflexivity
        | idtac ].

Section writes.
Variable r : bytes.
Hypothesis Hr : blen r = 112.
Lemma key_view_lk x : blen x = 16 → view_of (blit r LK x) = view_of r <| v_lk := x |>.
Proof. intros Hx. layout. by apply key_slice_blit_same; lia. Qed.
Lemma key_view_pk x : blen x = 16 → view_of (blit r PK x) = view_of r <| v_pk := x |>.
Proof. intros Hx. layout. by apply key_slice_blit_same; lia. Qed.
Lemma key_view_nk0 x : blen x = 16 → view_of (blit r NK x) = view_of r <| v_nk0 := x |>.
Proof. intros Hx. layout. by apply key_slice_blit_same; lia. Qed.
Lemma key_view_nk1 x : blen x = 16 → view_of (blit r (NK + 16) x) = view_of r <| v_nk1 := x |>.
Proof. intros Hx. layout. by apply key_slice_blit_same; lia. Qed.
Lemma key_view_own x : blen x = 8 → view_of (blit r OWN x) = view_of r <| v_own := x |>.
Proof. intros Hx. layout. by apply key_slice_blit_same; lia. Qed.
Lemma key_view_tc x : blen x = 8 → view_of (blit r TC x) = view_of r <| v_tc := x |>.
Proof. intros Hx. layout. by apply key_slice_blit_same; lia. Qed.
Lemma key_view_ep x : blen x = 8 → view_of (blit r EP x) = view_of r <| v_ep := x |>.
Proof. intros Hx. layout. by apply key_slice_blit_same; lia. Qed.
Lemma key_view_seq0 x : view_of (wr r SEQ x) = view_of r <| v_seq0 := x |>.
Proof. layout. by rewrite key_rd_blit_same by apart. Qed.
Lemma key_view_seq1 x : view_of (wr r (SEQ + 1) x) = view_of r <| v_seq1 := x |>.
Proof. layout. by rewrite key_rd_blit_same by apart. Qed.
Lemma key_view_flags x : view_of (wr r FLAGS x) = view_of r <| v_flags := x |>.
Proof. layout. by rewrite key_rd_blit_same by apart. Qed.
Lemma key_view_phase x : view_of (wr r PHASE x) = view_of r <| v_phase := x |>.
Proof. layout. by rewrite key_rd_blit_same by apart. Qed.
Lemma key_view_channel x : view_of (wr r CHANNEL x) = view_of r <| v_channel := x |>.
Proof. layout. by rewrite key_rd_blit_same by apart. Qed.
Lemma key_view_update x : view_of (wr r UPDATE x) = view_of r <| v_update := x |>.
Proof. layout. by rewrite key_rd_blit_same by apart. Qed.
Lemma key_view_magic0 x : view_of (wr r MAGIC x) = view_of r <| v_magic0 := x |>.
Proof. layout. by rewrite key_rd_blit_same by apart. Qed.
Lemma key_view_magic1 x : view_of (wr r (MAGIC + 1) x) = view_of r <| v_magic1 := x |>.
Proof. layout. by rewrite key_rd_blit_same by apart. Qed.
Lemma key_view_nf0 x : is_u32 x → view_of (put32 r NF x) = view_of r <| v_nf0 := x |>.
Proof.
  intros Hx. pose proof (security_counter_len x) as L.
  pose proof (key_u32_put r NF x ltac:(done) ltac:(by rewrite Hr) Hx) as P. unfold put32 in *. by layout.
Qed.
Lemma key_view_nf1 x : is_u32 x → view_of (put32 r (NF + 4) x) = view_of r <| v_nf1 := x |>.
Proof.
  intros Hx. pose proof (security_counter_len x) as L.
  pose proof (key_u32_put r (NF + 4) x ltac:(done) ltac:(by rewrite Hr) Hx) as P. unfold put32 in *. by layout.
Qed.
Lemma key_view_af x : is_u32 x → view_of (put32 r AF x) = view_of r <| v_af := x |>.
Proof.
  intros Hx. pose proof (security_counter_len x) as L.
  pose proof (key_u32_put r AF x ltac:(done) ltac:(by rewrite Hr) Hx) as P. unfold put32 in *. by layout.
Qed.
Lemma key_view_floors x :
  blen x = 8 →
  view_of (blit r NF x) = view_of r <| v_nf0 := u32_at x 0 |> <| v_nf1 := u32_at x 4 |>.
Proof.
  intros Hx. layout; unfold u32_at, read_counter; rewrite !key_rd_blit_same by apart; done.
Qed.
Lemma key_view_pan x :
  blen x = 2 → view_of (blit r PAN x) = view_of r <| v_pan := read_le16 x 0 |>.
Proof. intros Hx. layout. unfold read_le16. by rewrite !key_rd_blit_same by apart. Qed.
Lemma key_view_addr x :
  blen x = 2 → view_of (blit r ADDR x) = view_of r <| v_addr := read_le16 x 0 |>.
Proof. intros Hx. layout. unfold read_le16. by rewrite !key_rd_blit_same by apart. Qed.
End writes.
Lemma key_le16_octets v : is_u16 v → read_le16 [u8 v; u8 (Z.shiftr v 8)] 0 = v.
Proof. intros Hv. by apply read_le16_bytes. Qed.
Lemma key_view_put_pan r v :
  blen r = 112 → is_u16 v → view_of (write_le16 r PAN v) = view_of r <| v_pan := v |>.
Proof. intros Hr Hv. by rewrite write_le16_blit, key_view_pan, key_le16_octets. Qed.
Lemma key_view_put_addr r v :
  blen r = 112 → is_u16 v → view_of (write_le16 r ADDR v) = view_of r <| v_addr := v |>.
Proof. intros Hr Hv. by rewrite write_le16_blit, key_view_addr, key_le16_octets. Qed.

(** ** The record check on the structure *)
Definition zeros (n : nat) : bytes := replicate n 0.
Definition v_active (v : view) : Z := if has (v_flags v) ACTIVE then 1 else 0.
Definition v_network (v : view) : bool := has (v_flags v) 3.
Definition v_verified (v : view) : bool := has (v_flags v) WAS_VERIFIED.
Definition v_state (v : view) : Z := Z.land (v_phase v) PHASE_MASK.
Definition v_nk (v : view) (i : Z) : bytes := if i =? 0 then v_nk0 v else v_nk1 v.
Definition v_nf (v : view) (i : Z) : Z := if i =? 0 then v_nf0 v else v_nf1 v.
Definition v_seq (v : view) (i : Z) : Z := if i =? 0 then v_seq0 v else v_seq1 v.
Definition isb (a b : bytes) : bool := bool_decide (a = b).

Definition identified (x : bytes) : bool := negb (isb x (zeros 8)) && negb (isb x (replicate 8 255)).
Definition config_ok (v : view) : bool :=
  identified (v_own v) && identified (v_tc v) && negb (isb (v_own v) (v_tc v)) && identified (v_ep v)
  && negb (v_pan v =? 0xffff) && negb (v_addr v =? 0)
  && ((v_addr v <? 0xfff8) || (v_addr v =? 0xffff)) && (11 <=? v_channel v) && (v_channel v <=? 26).
Definition header_ok (v : view) : bool :=
  let p := v_state v in
  (v_magic0 v =? 75) && (v_magic1 v =? 2) && config_ok v && negb (has (v_flags v) 0x80)
  && (SECURITY_KEYS_PROVISIONED <=? p) && (p <=? SECURITY_KEYS_REJOINING) && negb (isb (v_lk v) (zeros 16)).
Definition v_bootstrap (v : view) : bool :=
  (v_state v <=? SECURITY_KEYS_ASSOCIATED) || ((v_state v =? SECURITY_KEYS_LEFT) && negb (v_network v)).
Definition slot_ok (v : view) (i : Z) : bool :=
  if has (v_flags v) (Z.shiftl 1 i)
  then negb (isb (v_nk v i) (zeros 16) || isb (v_nk v i) (v_lk v) || isb (v_nk v i) (v_pk v))
  else isb (v_nk v i) (zeros 16) && (v_nf v i =? 0) && (v_seq v i =? 0).
Definition slots_ok (v : view) : bool :=
  let f := v_flags v in
  if v_bootstrap v then
    (f =? 0) && isb (v_nk0 v) (zeros 16) && isb (v_nk1 v) (zeros 16) && isb (v_pk v) (zeros 16)
    && (v_nf0 v =? 0) && (v_nf1 v =? 0) && (v_seq0 v =? 0) && (v_seq1 v =? 0)
    && negb (has (v_phase v) (Z.lor PARENT_MASK TIMEOUT_PENDING))
  else
    has f (Z.shiftl 1 (v_active v)) && negb (has f NEWER && negb (Z.land f 3 =? 3))
    && negb ((Z.land f 3 =? 3) && ((v_seq0 v =? v_seq1 v) || isb (v_nk0 v) (v_nk1 v)))
    && slot_ok v 0 && slot_ok v 1.
Definition address_ok (v : view) : bool :=
  (v_state v =? SECURITY_KEYS_PROVISIONED) || ((v_state v =? SECURITY_KEYS_LEFT) && negb (v_network v))
  || negb (v_addr v =? 0xffff).
Definition pending_ok (v : view) : bool :=
  let f := v_flags v in let p := v_state v in
  let absent := isb (v_pk v) (zeros 16) in let reuse := isb (v_pk v) (v_lk v) in
  if (p =? SECURITY_KEYS_PROVISIONAL) || (p =? SECURITY_KEYS_WAIT_CONFIRM)
     || ((p =? SECURITY_KEYS_LEFT) && negb (has f RETIRED) && negb absent)
  then negb (has f RETIRED || absent || reuse)
  else if has f RETIRED then negb (negb (v_verified v) || absent || reuse) else absent.
Definition phase_ok (v : view) : bool :=
  let f := v_flags v in let p := v_state v in
  negb ((p =? SECURITY_KEYS_VERIFIED) && negb (v_verified v))
  && negb (v_verified v && (p <? SECURITY_KEYS_REQUESTED))
  && negb (has f REJOIN_ALLOWED && negb (p =? SECURITY_KEYS_LEFT) && negb (p =? SECURITY_KEYS_REJOINING))
  && negb ((p =? SECURITY_KEYS_REJOINING) && negb (v_verified v))
  && negb (has (v_phase v) TIMEOUT_PENDING
           && ((p =? SECURITY_KEYS_LEFT) || (p =? SECURITY_KEYS_REJOINING))).
Definition view_ok (v : view) : bool :=
  header_ok v && slots_ok v && address_ok v && pending_ok v && phase_ok v.
Lemma key_u32_zero r p : 0 <= p → (u32_at r p =? 0) = all (at_ r p) 4 0.
Proof.
  intros Hp. apply eq_true_iff_eq. rewrite Z.eqb_eq, key_all_iff. unfold u32_at, read_counter.
  rewrite !Z.lor_eq_0_iff, !Z.shiftl_eq_0_iff by lia. split.
  - intros [[[H0 H1] H2] H3] i Hi. rewrite key_rd_at by lia.
    assert (i = 0 ∨ i = 1 ∨ i = 2 ∨ i = 3) as [-> |[-> |[-> | ->]]] by lia; by rewrite ?Z.add_0_r.
  - intros H. pose proof (H 0) as H0. pose proof (H 1). pose proof (H 2). pose proof (H 3).
    rewrite !key_rd_at, ?Z.add_0_r in * by lia. repeat split; auto with lia.
Qed.
Lemma key_all_app r p n m v :
  0 <= p → 0 <= n → 0 <= m → all (at_ r p) (n + m) v = all (at_ r p) n v && all (at_ r (p + n)) m v.
Proof.
  intros Hp Hn Hm. apply eq_true_iff_eq. rewrite andb_true_iff, !key_all_iff. split.
  - intros H. split; [intros i Hi; apply H; lia|]. intros i Hi.
    rewrite key_rd_at by lia. rewrite <- Z.add_assoc, <- key_rd_at by lia. apply H. lia.
  - intros [H1 H2] i Hi. destruct (decide (i < n)); [apply H1; lia|].
    specialize (H2 (i - n) ltac:(lia)). rewrite key_rd_at in * by lia. rewrite <- H2. f_equal. lia.
Qed.
(** The comparisons of the check, at the offsets of the record. *)
Ltac compare := offsets; rewrite ?key_same, ?key_all by lia.
Lemma key_view_config r : record_typed r → valid_config r = config_ok (view_of r).
Proof.
  intros [L _]. unfold valid_config, config_ok, identity, identified, isb, zeros, view_of.
  cbn [v_own v_tc v_ep v_pan v_addr v_channel]. by compare.
Qed.
Lemma key_view_header r : record_typed r → valid_header r 112 = header_ok (view_of r).
Proof.
  intros H. unfold valid_header, header_ok. rewrite key_view_config by done. destruct H as [L _].
  unfold isb, zeros, v_state, phase. cbn [view_of v_magic0 v_magic1 v_flags v_phase v_lk]. by compare.
Qed.
Lemma key_view_slot r i :
  record_typed r → i = 0 ∨ i = 1 → valid_slot r i = slot_ok (view_of r) i.
Proof.
  intros [L _] Hi. unfold valid_slot, slot_ok, isb, zeros. by destruct Hi as [-> | ->]; compare.
Qed.
Lemma key_view_slots r : record_typed r → valid_slots r = slots_ok (view_of r).
Proof.
  intros H. pose proof H as [L _]. unfold valid_slots, slots_ok.
  rewrite !key_view_slot by auto.
  change (bootstrap r) with (v_bootstrap (view_of r)). destruct (v_bootstrap _).
  - unfold isb, zeros. cbn [view_of v_flags v_nk0 v_nk1 v_pk v_nf0 v_nf1 v_seq0 v_seq1 v_phase].
    rewrite !key_u32_zero by (offsets; lia).
    rewrite (key_all_app r NK 16 16), (key_all_app r PK 16 8), (key_all_app r (PK + 16) 4 4)
      by (offsets; lia).
    change (PK + 16) with NF. compare. rewrite !andb_assoc. done.
  - unfold isb. cbn [view_of v_flags v_nk0 v_nk1 v_seq0 v_seq1]. by compare.
Qed.
Lemma key_view_valid r : record_typed r → valid_record r 112 = view_ok (view_of r).
Proof.
  intros H. unfold valid_record, view_ok. rewrite key_view_header, key_view_slots by done.
  destruct H as [L _].
  assert (valid_pending r = pending_ok (view_of r)) as ->; [|done].
  unfold valid_pending, pending_ok, isb, zeros. cbn [view_of v_pk v_lk v_flags]. by compare.
Qed.
End KeyView.
