(* ===== verification/KeyLife.v ===== *)
(** The life cycle of the key store: what the calls and the received frames may do to the record,
    as a step relation on its structure, and what every step keeps. *)
From stdpp Require Import relations.
From S2P Require Import Prelude Security SecurityKeys KeyView.

Module KeyLife.
Import SecurityKeys KeyView.

(** ** Flags and the phase octet *)
Lemma key_has_lor f a m : has (Z.lor f a) m = has f m || has a m.
Proof.
  unfold has. rewrite Z.land_lor_distr_l. apply eq_true_iff_eq.
  rewrite orb_true_iff, !negb_true_iff, !Z.eqb_neq, Z.lor_eq_0_iff. destruct (decide (Z.land f m = 0)); tauto.
Qed.
Lemma key_has_without f a m : has (without f a) m = has f (Z.land (u8 (Z.lnot a)) m).
Proof. unfold has, without. by rewrite Z.land_assoc. Qed.
Lemma key_has_zero f : has f 0 = false.
Proof. unfold has. by rewrite Z.land_0_r. Qed.
Lemma key_both f : is_u8 f → (Z.land f 3 =? 3) = has f 1 && has f 2.
Proof. intros Hf. by_u8 f. Qed.
Lemma key_any f : has f 3 = has f 1 || has f 2.
Proof. change 3 with (Z.lor 1 2). unfold has. rewrite Z.land_lor_distr_r. apply eq_true_iff_eq.
  rewrite orb_true_iff, !negb_true_iff, !Z.eqb_neq, Z.lor_eq_0_iff. destruct (decide (Z.land f 1 = 0)); tauto.
Qed.
(** The octet that [set_phase] writes. *)
Definition phase_octet (x value : Z) : Z :=
  if value <=? SECURITY_KEYS_ASSOCIATED then value
  else
    let x := Z.lor (without x PHASE_MASK) value in
    let x := if value =? SECURITY_KEYS_REJOINING then without x PARENT_MASK else x in
    if (value =? SECURITY_KEYS_LEFT) || (value =? SECURITY_KEYS_REJOINING)
    then without x TIMEOUT_PENDING else x.
Definition phases : list Z := seqZ 2 9.
Lemma key_phase_octet x value :
  is_u8 x → value ∈ phases →
  is_u8 (phase_octet x value) ∧ Z.land (phase_octet x value) PHASE_MASK = value ∧
  has (phase_octet x value) TIMEOUT_PENDING
  = has x TIMEOUT_PENDING && (SECURITY_KEYS_ASSOCIATED <? value) && (value <? SECURITY_KEYS_LEFT) ∧
  (has x (Z.lor PARENT_MASK TIMEOUT_PENDING) = false →
   has (phase_octet x value) (Z.lor PARENT_MASK TIMEOUT_PENDING) = false).
Proof.
  intros Hx Hv.
  assert (Forall (λ value, ∀ x, is_u8 x →
    bool_decide (is_u8 (phase_octet x value)) &&
    (Z.land (phase_octet x value) PHASE_MASK =? value) &&
    Bool.eqb (has (phase_octet x value) TIMEOUT_PENDING)
      (has x TIMEOUT_PENDING && (SECURITY_KEYS_ASSOCIATED <? value) && (value <? SECURITY_KEYS_LEFT)) &&
    implb (negb (has x (Z.lor PARENT_MASK TIMEOUT_PENDING)))
      (negb (has (phase_octet x value) (Z.lor PARENT_MASK TIMEOUT_PENDING))) = true) phases) as H.
  { unfold phases. change (seqZ 2 9) with [2; 3; 4; 5; 6; 7; 8; 9; 10].
    repeat constructor; clear; intros x Hx; by_u8 x. }
  rewrite list.Forall_forall in H. specialize (H value Hv x Hx).
  rewrite !andb_true_iff, bool_decide_eq_true, Z.eqb_eq, Bool.eqb_true_iff in H.
  destruct H as [[[H1 H2] H3] H4]. split; [done|]. split; [done|]. split; [done|].
  intros E. rewrite E in H4. simpl in H4. by apply negb_true_iff.
Qed.

(** ** The steps *)
Definition with_phase (v : view) (value : Z) : view := v <| v_phase := phase_octet (v_phase v) value |>.
Definition set_nf (i n : Z) (v : view) : view := if i =? 0 then v <| v_nf0 := n |> else v <| v_nf1 := n |>.
Definition set_key (i : Z) (m : bytes) (s : Z) (v : view) : view :=
  if i =? 0 then v <| v_nk0 := m |> <| v_nf0 := 0 |> <| v_seq0 := s |>
  else v <| v_nk1 := m |> <| v_nf1 := 0 |> <| v_seq1 := s |>.
Definition present (v : view) (i : Z) : bool := has (v_flags v) (Z.shiftl 1 i).
(** Key material that is not in the record. *)
Definition fresh (v : view) (m : bytes) : Prop :=
  m ≠ zeros 16 ∧ m ≠ v_lk v ∧ m ≠ v_pk v ∧ ∀ i, i = 0 ∨ i = 1 → present v i = true → m ≠ v_nk v i.
Definition adopted (f i : Z) : Z :=
  Z.lor (without f (Z.lor ACTIVE NEWER)) (if i =? 0 then 0 else ACTIVE).

Inductive change (v : view) : view → Prop :=
  | Advance i n : i = 0 ∨ i = 1 → present v i = true → v_nf v i <= n → change v (set_nf i n v)
  | Adopt i : i = 0 ∨ i = 1 → has (v_flags v) NEWER = true →
      change v (v <| v_flags := adopted (v_flags v) i |>)
  | Admit n : v_af v <= n → change v (v <| v_af := n |>)
  | First m s : v_state v = SECURITY_KEYS_ASSOCIATED → v_network v = false → fresh v m →
      change v (set_key 0 m s (with_phase (v <| v_flags := 1 |>) SECURITY_KEYS_RECEIVED))
  | Next m s : let i := Z.lxor (v_active v) 1 in
      v_network v = true → v_verified v = true → fresh v m →
      (∀ j, j = 0 ∨ j = 1 → present v j = true → s ≠ v_seq v j) →
      change v (set_key i m s (v <| v_flags := Z.lor (v_flags v) (u8 (Z.lor (Z.shiftl 1 i) NEWER)) |>))
  | Request : v_state v = SECURITY_KEYS_RECEIVED ∨ v_state v = SECURITY_KEYS_REQUESTED ∨
      v_state v = SECURITY_KEYS_VERIFIED → change v (with_phase v SECURITY_KEYS_REQUESTED)
  | Offer m : v_state v = SECURITY_KEYS_REQUESTED → fresh v m →
      change v (with_phase (v <| v_pk := m |> <| v_flags := without (v_flags v) RETIRED |>)
                  SECURITY_KEYS_PROVISIONAL)
  | Verify : v_state v = SECURITY_KEYS_PROVISIONAL ∨ v_state v = SECURITY_KEYS_WAIT_CONFIRM →
      change v (with_phase v SECURITY_KEYS_WAIT_CONFIRM)
  | Confirm n : v_state v = SECURITY_KEYS_WAIT_CONFIRM →
      change v (with_phase (v <| v_lk := v_pk v |> <| v_pk := v_lk v |> <| v_af := n |>
                  <| v_flags := Z.lor (v_flags v) (Z.lor WAS_VERIFIED RETIRED) |>) SECURITY_KEYS_VERIFIED)
  | Leave (rejoin : bool) : v_network v = true ∨ rejoin = false →
      change v (with_phase v SECURITY_KEYS_LEFT
                  <| v_flags := if rejoin then Z.lor (v_flags v) REJOIN_ALLOWED
                                else without (v_flags v) REJOIN_ALLOWED |>)
  | Rejoin : v_verified v = true → has (v_flags v) RETIRED = true ∨ v_pk v = zeros 16 →
      change v (with_phase (v <| v_phase := without (v_phase v) (Z.lor PARENT_MASK TIMEOUT_PENDING) |>)
                  SECURITY_KEYS_REJOINING)
  | Rejoined a : v_state v = SECURITY_KEYS_REJOINING → 0 < a < 0xfff8 →
      change v (with_phase (v <| v_addr := a |>) SECURITY_KEYS_VERIFIED
                  <| v_flags := without (v_flags v) REJOIN_ALLOWED |>)
  | Update u p : p ≠ 0xffff → change v (v <| v_update := u |> <| v_pan := p |>)
  | Ask : v_network v = true → v_state v ≠ SECURITY_KEYS_LEFT → v_state v ≠ SECURITY_KEYS_REJOINING →
      change v (v <| v_phase := Z.lor (v_phase v) TIMEOUT_PENDING |>)
  | Answer x : has (v_phase v) TIMEOUT_PENDING = true → is_u8 x →
      Z.land x PHASE_MASK = v_state v → has x TIMEOUT_PENDING = false →
      change v (v <| v_phase := x |>)
  | Associate a : v_state v = SECURITY_KEYS_PROVISIONED → 0 < a < 0xfff8 →
      change v (with_phase (v <| v_addr := a |>) SECURITY_KEYS_ASSOCIATED).

(** ** Every step keeps the record valid *)
Definition octets (v : view) : Prop := is_u8 (v_flags v) ∧ is_u8 (v_phase v).

(** The record check in logical form. *)
Definition slot_fine (v : view) (i : Z) : Prop :=
  (present v i = true ∧ v_nk v i ≠ zeros 16 ∧ v_nk v i ≠ v_lk v ∧ v_nk v i ≠ v_pk v) ∨
  (present v i = false ∧ v_nk v i = zeros 16 ∧ v_nf v i = 0 ∧ v_seq v i = 0).
Definition boot_fine (v : view) : Prop :=
  v_flags v = 0 ∧ v_nk0 v = zeros 16 ∧ v_nk1 v = zeros 16 ∧ v_pk v = zeros 16 ∧ v_nf0 v = 0 ∧
  v_nf1 v = 0 ∧ v_seq0 v = 0 ∧ v_seq1 v = 0 ∧
  has (v_phase v) (Z.lor PARENT_MASK TIMEOUT_PENDING) = false.
Definition net_fine (v : view) : Prop :=
  present v (v_active v) = true ∧
  (has (v_flags v) NEWER = true → present v 0 = true ∧ present v 1 = true) ∧
  (present v 0 = true → present v 1 = true → v_seq0 v ≠ v_seq1 v ∧ v_nk0 v ≠ v_nk1 v) ∧
  slot_fine v 0 ∧ slot_fine v 1.
Definition header_fine (v : view) : Prop :=
  v_magic0 v = 75 ∧ v_magic1 v = 2 ∧ config_ok v = true ∧ has (v_flags v) 0x80 = false ∧
  2 <= v_state v <= 10 ∧ v_lk v ≠ zeros 16.
Definition address_fine (v : view) : Prop :=
  v_state v = 2 ∨ (v_state v = 9 ∧ v_network v = false) ∨ v_addr v ≠ 0xffff.
Definition pending_fine (v : view) : Prop :=
  let p := v_state v in
  if has (v_flags v) RETIRED
  then v_verified v = true ∧ v_pk v ≠ zeros 16 ∧ v_pk v ≠ v_lk v ∧ p ≠ 6 ∧ p ≠ 7
  else ((p = 6 ∨ p = 7 ∨ p = 9) ∧ v_pk v ≠ zeros 16 ∧ v_pk v ≠ v_lk v) ∨
       (p ≠ 6 ∧ p ≠ 7 ∧ v_pk v = zeros 16).
Definition phase_fine (v : view) : Prop :=
  let p := v_state v in
  (v_verified v = true → 5 <= p) ∧ (p = 8 ∨ p = 10 → v_verified v = true) ∧
  (has (v_flags v) REJOIN_ALLOWED = true → p = 9 ∨ p = 10) ∧
  (has (v_phase v) TIMEOUT_PENDING = true → p ≠ 9 ∧ p ≠ 10).
Definition fine (v : view) : Prop :=
  header_fine v ∧ (if v_bootstrap v then boot_fine v else net_fine v) ∧ address_fine v ∧
  pending_fine v ∧ phase_fine v.

Ltac reflect := repeat progress rewrite ?andb_true_iff, ?orb_true_iff, ?negb_true_iff, ?andb_false_iff,
  ?orb_false_iff, ?negb_false_iff, ?Z.eqb_eq, ?Z.eqb_neq, ?Z.leb_le, ?Z.ltb_lt, ?Z.leb_gt, ?Z.ltb_ge.
Ltac phase_names := unfold SECURITY_KEYS_PROVISIONED, SECURITY_KEYS_ASSOCIATED, SECURITY_KEYS_RECEIVED,
  SECURITY_KEYS_REQUESTED, SECURITY_KEYS_PROVISIONAL, SECURITY_KEYS_WAIT_CONFIRM,
  SECURITY_KEYS_VERIFIED, SECURITY_KEYS_LEFT, SECURITY_KEYS_REJOINING in *.
Lemma key_isb a b : isb a b = true ↔ a = b.
Proof. apply bool_decide_eq_true. Qed.
Lemma key_isb_not a b : isb a b = false ↔ a ≠ b.
Proof. apply bool_decide_eq_false. Qed.

Lemma key_slot_fine v i : i = 0 ∨ i = 1 → slot_ok v i = true ↔ slot_fine v i.
Proof.
  intros Hi. unfold slot_ok, slot_fine, present. destruct (has (v_flags v) (Z.shiftl 1 i)); reflect;
    rewrite ?key_isb, ?key_isb_not; intuition congruence.
Qed.
Lemma key_fine v : octets v → view_ok v = true ↔ fine v.
Proof.
  intros [Hf Hp]. unfold view_ok, fine. rewrite !andb_true_iff.
  assert (header_ok v = true ↔ header_fine v) as ->.
  { unfold header_ok, header_fine. phase_names. reflect. rewrite key_isb_not. intuition lia. }
  assert (slots_ok v = true ↔ if v_bootstrap v then boot_fine v else net_fine v) as ->.
  { unfold slots_ok. destruct (v_bootstrap v).
    - unfold boot_fine. reflect. rewrite !key_isb. tauto.
    - unfold net_fine. rewrite key_both by done. rewrite !andb_true_iff, !key_slot_fine by auto.
      unfold present. change (Z.shiftl 1 0) with 1. change (Z.shiftl 1 1) with 2.
      destruct (has (v_flags v) 1), (has (v_flags v) 2), (has (v_flags v) NEWER); cbn [andb negb];
        reflect; rewrite ?key_isb_not; intuition congruence. }
  assert (address_ok v = true ↔ address_fine v) as ->.
  { unfold address_ok, address_fine. phase_names. reflect. tauto. }
  assert (pending_ok v = true ↔ pending_fine v) as ->.
  { unfold pending_ok, pending_fine. phase_names.
    pose proof (key_isb (v_pk v) (zeros 16)). pose proof (key_isb (v_pk v) (v_lk v)).
    destruct (isb (v_pk v) (zeros 16)), (isb (v_pk v) (v_lk v)), (has (v_flags v) RETIRED),
      (v_verified v), (v_state v =? 6) eqn:?, (v_state v =? 7) eqn:?, (v_state v =? 9) eqn:?;
      cbn [andb orb negb]; intuition (try congruence; try lia). }
  assert (phase_ok v = true ↔ phase_fine v) as ->; [|tauto].
  unfold phase_ok, phase_fine. phase_names.
  destruct (v_verified v), (has (v_flags v) REJOIN_ALLOWED), (has (v_phase v) TIMEOUT_PENDING);
    cbn [andb orb negb]; reflect; intuition (try congruence; try lia).
Qed.

Lemma key_active v : v_active v = 0 ∨ v_active v = 1.
Proof. unfold v_active. destruct (has (v_flags v) ACTIVE); [by right|by left]. Qed.
(** The flags after a step. *)
Ltac flags :=
  unfold present, v_network, v_verified, v_active, adopted in *; cbn [update v_flags Z.eqb] in *;
  rewrite ?key_any in *; rewrite ?key_has_lor, ?key_has_without;
  change (Z.shiftl 1 0) with 1 in *; change (Z.shiftl 1 1) with 2 in *;
  repeat match goal with
  | |- context [Z.land (u8 (Z.lnot ?a)) ?m] =>
      let c := eval vm_compute in (Z.land (u8 (Z.lnot a)) m) in
      change (Z.land (u8 (Z.lnot a)) m) with c
  end;
  repeat match goal with
  | |- context [has ?a ?m] =>
      let c := eval vm_compute in (has a m) in
      lazymatch c with true => change (has a m) with true | false => change (has a m) with false end
  end;
  rewrite ?key_has_zero, ?orb_false_r, ?orb_true_r.
(** [bits]: a flag of a written flags octet. *)
Ltac bits :=
  rewrite ?key_has_lor, ?key_has_without;
  repeat match goal with
  | |- context [Z.land (u8 (Z.lnot ?a)) ?m] =>
      let c := eval vm_compute in (Z.land (u8 (Z.lnot a)) m) in
      change (Z.land (u8 (Z.lnot a)) m) with c
  end;
  repeat match goal with
  | |- context [has ?a ?m] =>
      let c := eval vm_compute in (has a m) in
      lazymatch c with true => change (has a m) with true | false => change (has a m) with false end
  end;
  rewrite ?key_has_zero, ?orb_false_r, ?orb_true_r.
Lemma key_present_network v i : i = 0 ∨ i = 1 → present v i = true → v_network v = true.
Proof.
  unfold present, v_network. rewrite key_any. intros [-> | ->];
    [change (Z.shiftl 1 0) with 1|change (Z.shiftl 1 1) with 2]; intros ->; [done|by rewrite orb_true_r].
Qed.
Section steps.
Variable v : view.
Hypothesis Hoct : octets v.
Hypothesis Hfine : fine v.

(** A record with a network key is past the bootstrap. *)
Lemma key_networked : v_network v = true → v_bootstrap v = false ∧ net_fine v.
Proof.
  intros Hn. destruct Hfine as (_&Hs&_). destruct (v_bootstrap v); [|done].
  destruct Hs as (E&_). exfalso. revert Hn. unfold v_network. by rewrite E.
Qed.
Lemma key_newer_present i : i = 0 ∨ i = 1 → has (v_flags v) NEWER = true → present v i = true.
Proof.
  intros Hi Hn. destruct Hfine as (_&Hs&_). destruct (v_bootstrap v).
  - destruct Hs as (E&_). by rewrite E in Hn.
  - destruct Hs as (_&H&_). destruct (H Hn). by destruct Hi as [-> | ->].
Qed.
Lemma key_advance_fine i n : i = 0 ∨ i = 1 → present v i = true → fine (set_nf i n v).
Proof.
  intros Hi Hpr. destruct (key_networked (key_present_network v i Hi Hpr)) as [Hb Hs].
  destruct Hfine as (H1&_&H3&H4&H5). unfold fine.
  destruct Hi as [-> | ->]; unfold set_nf; cbn [Z.eqb];
    (split; [done|split; [|done]]).
  - change (v_bootstrap (v <| v_nf0 := n |>)) with (v_bootstrap v). rewrite Hb.
    destruct Hs as (S1&S2&S3&S4&S5). split; [done|]. split; [done|]. split; [done|]. split; [|done].
    left. destruct S4 as [(?&?&?&?)|(?&_)]; [done|congruence].
  - change (v_bootstrap (v <| v_nf1 := n |>)) with (v_bootstrap v). rewrite Hb.
    destruct Hs as (S1&S2&S3&S4&S5). split; [done|]. split; [done|]. split; [done|]. split; [done|].
    left. destruct S5 as [(?&?&?&?)|(?&_)]; [done|congruence].
Qed.
Lemma key_admit_fine n : fine (v <| v_af := n |>).
Proof. exact Hfine. Qed.
Lemma key_update_fine u p : p ≠ 0xffff → fine (v <| v_update := u |> <| v_pan := p |>).
Proof.
  intros Hp. destruct Hfine as ((M0&M1&Hc&Hr)&Hrest). split; [|exact Hrest].
  split; [done|]. split; [done|]. split; [|exact Hr]. revert Hc. unfold config_ok. cbn.
  rewrite !andb_true_iff, !negb_true_iff, !Z.eqb_neq. tauto.
Qed.
Lemma key_lor_u8 a b : is_u8 a → is_u8 b → is_u8 (Z.lor a b).
Proof.
  intros Ha Hb. unfold is_u8 in *. split; [apply Z.lor_nonneg; lia|].
  destruct (decide (Z.lor a b = 0)) as [->|]; [done|].
  assert (0 <= Z.lor a b) by (apply Z.lor_nonneg; lia).
  change 256 with (2 ^ 8). apply Z.log2_lt_pow2; [lia|]. rewrite Z.log2_lor by lia.
  assert (∀ x, 0 <= x < 256 → Z.log2 x < 8) as Hl.
  { intros x Hx. destruct (decide (x = 0)) as [->|]; [done|]. apply Z.log2_lt_pow2; lia. }
  apply Z.max_lub_lt; by apply Hl.
Qed.
Lemma key_without_u8 a m : is_u8 a → is_u8 (without a m).
Proof. intros Ha. apply is_u8_land; [apply Ha|apply u8_range]. Qed.
Lemma key_adopted_u8 f i : is_u8 f → is_u8 (adopted f i).
Proof.
  intros Hf. apply key_lor_u8; [by apply key_without_u8|by destruct (i =? 0)].
Qed.
Lemma key_adopt_fine i :
  i = 0 ∨ i = 1 → has (v_flags v) NEWER = true → fine (v <| v_flags := adopted (v_flags v) i |>).
Proof.
  intros Hi Hn. pose proof (key_newer_present 0 ltac:(auto) Hn) as P0.
  pose proof (key_newer_present 1 ltac:(auto) Hn) as P1.
  destruct (key_networked (key_present_network v 0 ltac:(auto) P0)) as [Hb Hs].
  destruct Hfine as ((M0&M1&Hc&Ht&Hst&Hl)&_&H3&H4&H5).
  set (v' := v <| v_flags := adopted (v_flags v) i |>).
  assert (∀ m, m = 1 ∨ m = 2 ∨ m = 16 ∨ m = 32 ∨ m = 64 ∨ m = 128 → has (v_flags v') m = has (v_flags v) m)
    as Hsame.
  { intros m Hm. unfold v'. fields.
    destruct Hm as [-> |[-> |[-> |[-> |[-> | ->]]]]]; destruct Hi as [-> | ->]; by flags. }
  assert (v_network v' = v_network v) as En
    by (unfold v_network; rewrite !key_any, !Hsame by auto 10; done).
  assert (v_verified v' = v_verified v) as Ev by (apply Hsame; auto 10).
  assert (v_bootstrap v' = false) as Eb by (rewrite <- Hb; unfold v_bootstrap; by rewrite En).
  split; [|split; [rewrite Eb|split; [|split]]].
  - split; [done|]. split; [done|]. split; [done|]. split; [by rewrite Hsame by auto 10|done].
  - destruct Hs as (S1&S2&S3&S4&S5).
    assert (present v' 0 = present v 0 ∧ present v' 1 = present v 1) as [E0 E1]
      by (split; apply Hsame; auto).
    unfold net_fine, slot_fine. rewrite E0, E1.
    split; [|split; [done|split; [exact S3|split; [exact S4|exact S5]]]].
    assert (v_active v' = i) as -> by (unfold v'; destruct Hi as [-> | ->]; by flags).
    destruct Hi as [-> | ->]; congruence.
  - unfold address_fine. rewrite En. exact H3.
  - unfold pending_fine. rewrite Ev, Hsame by auto 10. exact H4.
  - unfold phase_fine. rewrite Ev, Hsame by auto 10. exact H5.
Qed.

Lemma key_phase value :
  value ∈ phases →
  is_u8 (phase_octet (v_phase v) value) ∧ Z.land (phase_octet (v_phase v) value) PHASE_MASK = value ∧
  has (phase_octet (v_phase v) value) TIMEOUT_PENDING
  = has (v_phase v) TIMEOUT_PENDING && (SECURITY_KEYS_ASSOCIATED <? value) && (value <? SECURITY_KEYS_LEFT).
Proof. intros H. destruct (key_phase_octet (v_phase v) value (proj2 Hoct) H) as (?&?&?&_). done. Qed.

(** Steps of a record with a network key that keep the key slots. *)
Lemma key_bootstrap : v_network v = false → v_bootstrap v = true ∧ boot_fine v.
Proof.
  intros Hn. destruct Hfine as (_&Hs&_). destruct (v_bootstrap v); [done|].
  destruct Hs as (Ha&_). rewrite (key_present_network v (v_active v)) in Hn; [done| |done].
  apply key_active.
Qed.
Lemma key_network_address : v_network v = true → v_addr v ≠ 0xffff ∧ 4 <= v_state v.
Proof.
  intros Hn. destruct (key_networked Hn) as [Hb _]. destruct Hfine as (_&_&Ha&_).
  unfold v_bootstrap in Hb. rewrite Hn in Hb. phase_names. unfold address_fine in Ha.
  rewrite andb_false_r, orb_false_r in Hb. split; [|lia].
  destruct Ha as [E|[[_ E]|E]]; [lia|congruence|done].
Qed.
Lemma key_net_frame v' :
  net_fine v → (∀ m, m = 1 ∨ m = 2 ∨ m = 4 ∨ m = 8 → has (v_flags v') m = has (v_flags v) m) →
  v_nk0 v' = v_nk0 v → v_nk1 v' = v_nk1 v → v_nf0 v' = v_nf0 v → v_nf1 v' = v_nf1 v →
  v_seq0 v' = v_seq0 v → v_seq1 v' = v_seq1 v →
  (∀ i, i = 0 ∨ i = 1 → present v i = true → v_nk v i ≠ v_lk v' ∧ v_nk v i ≠ v_pk v') → net_fine v'.
Proof.
  intros (S1&S2&S3&S4&S5) Hf E1 E2 E3 E4 E5 E6 Hk.
  assert (∀ i, i = 0 ∨ i = 1 → present v' i = present v i) as Hpr.
  { intros i Hi. unfold present. destruct Hi as [-> | ->]; apply Hf; auto. }
  assert (v_active v' = v_active v) as Ea by (unfold v_active; by rewrite (Hf ACTIVE) by auto).
  assert (∀ i, v_nk v' i = v_nk v i ∧ v_nf v' i = v_nf v i ∧ v_seq v' i = v_seq v i) as Hi
    by (intros i; unfold v_nk, v_nf, v_seq; rewrite E1, E2, E3, E4, E5, E6; done).
  assert (∀ i, i = 0 ∨ i = 1 → slot_fine v i → slot_fine v' i) as Hs.
  { intros i Hii H. unfold slot_fine. destruct (Hi i) as (->&->&->). rewrite Hpr by done.
    destruct H as [(P&Q&_)|H]; [left; split; [done|]; split; [done|]; by apply Hk|by right]. }
  pose proof (key_active v) as Hact.
  assert (has (v_flags v') NEWER = has (v_flags v) NEWER) as En by (apply Hf; unfold NEWER; auto).
  unfold net_fine. rewrite Ea, !Hpr, En, E1, E2, E5, E6 by auto.
  split; [done|]. split; [done|]. split; [done|]. split; apply Hs; auto.
Qed.
Lemma key_slot_keys i :
  net_fine v → i = 0 ∨ i = 1 → present v i = true → v_nk v i ≠ v_lk v ∧ v_nk v i ≠ v_pk v.
Proof.
  intros (_&_&_&S4&S5) Hi Hp. assert (slot_fine v i) as S by (destruct Hi as [-> | ->]; done).
  destruct S as [(_&_&?&?)|(E&_)]; [done|congruence].
Qed.
Lemma key_fine_net v' :
  header_fine v' → 4 <= v_state v' → v_network v' = true → net_fine v' → v_addr v' ≠ 0xffff →
  pending_fine v' → phase_fine v' → fine v'.
Proof.
  intros H1 H2 H3 H4 H5 H6 H7. split; [done|]. split; [|split; [by right; right|done]].
  replace (v_bootstrap v') with false; [done|]. unfold v_bootstrap. rewrite H3. phase_names.
  replace (v_state v' <=? 3) with false by lia. by rewrite andb_false_r.
Qed.

Lemma key_state_network : 4 <= v_state v → v_state v ≠ 9 → v_network v = true.
Proof.
  intros H4 H9. destruct (v_network v) eqn:E; [done|]. destruct (key_bootstrap E) as [Hb _].
  unfold v_bootstrap in Hb. rewrite E in Hb. phase_names. lia.
Qed.
Lemma key_phases value : 2 <= value <= 10 → value ∈ phases.
Proof. intros H. apply elem_of_seqZ. lia. Qed.
(** A step to a phase beyond the bootstrap. *)
Lemma key_phase_fine value :
  v_network v = true → 4 <= value <= 10 → pending_fine (with_phase v value) →
  phase_fine (with_phase v value) → fine (with_phase v value).
Proof.
  intros Hn Hv Hpe Hph. destruct (key_phase value (key_phases value ltac:(lia))) as (Ho&Hst&_).
  destruct Hfine as ((M0&M1&Hc&Ht&_&Hl)&_). destruct (key_networked Hn) as [_ Hs].
  apply key_fine_net; try done.
  - repeat (split; [done|]). unfold v_state, with_phase. fields. cbn [v_phase]. rewrite Hst. split; [lia|done].
  - unfold v_state, with_phase. fields. cbn [v_phase]. lia.
  - by apply key_network_address.
Qed.
Ltac phase_step value :=
  let Ho := fresh "Ho" in let Hst := fresh "Hst" in let Hto := fresh "Hto" in
  destruct (key_phase value (key_phases value ltac:(done))) as (Ho&Hst&Hto);
  unfold pending_fine, phase_fine, v_state, with_phase, v_verified in *; phase_names; fields;
  cbn [v_phase v_flags v_pk v_lk]; rewrite ?Hst, ?Hto.
Ltac conj := repeat match goal with |- _ ∧ _ => split end; first [done | tauto | lia | idtac].
Lemma key_request_fine :
  v_state v = 4 ∨ v_state v = 5 ∨ v_state v = 8 → fine (with_phase v SECURITY_KEYS_REQUESTED).
Proof.
  intros H. assert (v_network v = true) as Hn by (apply key_state_network; lia).
  destruct Hfine as (_&_&_&Hpe&Hph). apply key_phase_fine; [done|done|..]; phase_step 5.
  - destruct (has (v_flags v) RETIRED); [conj|]. right. split; [done|]. split; [done|].
    destruct Hpe as [[Hx _]|(_&_&Hx)]; [lia|done].
  - split; [lia|]. split; [lia|]. split; [|lia]. intros Hj. destruct Hph as (_&_&Hj'&_). specialize (Hj' Hj). lia.
Qed.
Lemma key_verify_fine :
  v_state v = 6 ∨ v_state v = 7 → fine (with_phase v SECURITY_KEYS_WAIT_CONFIRM).
Proof.
  intros H. assert (v_network v = true) as Hn by (apply key_state_network; lia).
  destruct Hfine as (_&_&_&Hpe&Hph). apply key_phase_fine; [done|done|..]; phase_step 7.
  - destruct (has (v_flags v) RETIRED); [lia|]. left. split; [lia|].
    destruct Hpe as [[_ Hx]|Hx]; [done|lia].
  - split; [lia|]. split; [lia|]. split; [|lia]. intros Hj. destruct Hph as (_&_&Hj'&_). specialize (Hj' Hj). lia.
Qed.

(** A step of a record with a network key that changes flags, link keys or the address. *)
Lemma key_step_fine v' :
  v_network v = true → v_magic0 v' = v_magic0 v → v_magic1 v' = v_magic1 v → config_ok v' = true →
  v_lk v' ≠ zeros 16 → v_addr v' ≠ 0xffff →
  (∀ m, m = 1 ∨ m = 2 ∨ m = 4 ∨ m = 8 ∨ m = 128 → has (v_flags v') m = has (v_flags v) m) →
  v_nk0 v' = v_nk0 v → v_nk1 v' = v_nk1 v → v_nf0 v' = v_nf0 v → v_nf1 v' = v_nf1 v →
  v_seq0 v' = v_seq0 v → v_seq1 v' = v_seq1 v →
  (∀ i, i = 0 ∨ i = 1 → present v i = true → v_nk v i ≠ v_lk v' ∧ v_nk v i ≠ v_pk v') →
  4 <= v_state v' <= 10 → pending_fine v' → phase_fine v' → fine v'.
Proof.
  intros Hn M0 M1 Hc Hl Ha Hf E1 E2 E3 E4 E5 E6 Hk Hst Hpe Hph.
  destruct Hfine as ((M0'&M1'&_&Ht&_)&_). destruct (key_networked Hn) as [_ Hs].
  apply key_fine_net; try done.
  - split; [congruence|]. split; [congruence|]. split; [done|].
    split; [rewrite Hf by auto 10; done|]. split; [lia|done].
  - lia.
  - rewrite <- Hn. unfold v_network. rewrite !key_any, !Hf by auto. done.
  - apply key_net_frame; try done. intros m Hm. apply Hf. naive_solver.
Qed.
Lemma key_config : config_ok v = true ∧ v_lk v ≠ zeros 16.
Proof. destruct Hfine as ((_&_&?&_&_&?)&_). done. Qed.
Lemma key_config_address a : 0 < a < 0xfff8 → config_ok (v <| v_addr := a |>) = true.
Proof.
  intros Ha. destruct key_config as [Hc _]. revert Hc. unfold config_ok. fields.
  cbn [v_own v_tc v_ep v_pan v_addr v_channel].
  replace (a =? 0) with false by lia. replace (a <? 65528) with true by lia.
  rewrite !andb_true_iff. tauto.
Qed.

Lemma key_offer_fine m :
  v_state v = SECURITY_KEYS_REQUESTED → fresh v m →
  fine (with_phase (v <| v_pk := m |> <| v_flags := without (v_flags v) RETIRED |>) SECURITY_KEYS_PROVISIONAL).
Proof.
  intros Hst (F1&F2&F3&F4). phase_names.
  assert (v_network v = true) as Hn by (apply key_state_network; lia).
  destruct (key_networked Hn) as [_ Hs]. destruct key_config as [Hc Hl].
  destruct (key_phase 6 (key_phases 6 ltac:(done))) as (Ho&Hst'&Hto). destruct Hfine as (_&_&_&_&Hph).
  apply key_step_fine; try done.
  - by apply key_network_address.
  - intros k Hk. unfold with_phase. proj.
    destruct Hk as [-> |[-> |[-> |[-> | ->]]]]; by flags.
  - intros i Hi Hp. destruct (key_slot_keys i Hs Hi Hp). split; [done|]. intros E. by apply (F4 i).
  - unfold v_state, with_phase. proj. rewrite Hst'. lia.
  - unfold pending_fine, v_state, with_phase. proj. rewrite Hst'.
    replace (has (without (v_flags v) RETIRED) RETIRED) with false by (symmetry; by flags).
    left. conj.
  - unfold phase_fine, v_state, v_verified, with_phase in *. proj. rewrite Hst', Hto.
    destruct Hph as (_&_&Hj&_). split; [lia|]. split; [lia|]. split; [|lia].
    replace (has (without (v_flags v) RETIRED) REJOIN_ALLOWED) with (has (v_flags v) REJOIN_ALLOWED)
      by (symmetry; by flags). intros H. specialize (Hj H). lia.
Qed.

Ltac flag_step H := intros m Hm; unfold with_phase; proj;
  destruct Hm as [-> |[-> |[-> |[-> | ->]]]]; by bits.
Ltac see := unfold pending_fine, phase_fine, v_state, v_verified, with_phase in *; proj.
Lemma key_confirm_fine n :
  v_state v = SECURITY_KEYS_WAIT_CONFIRM →
  fine (with_phase (v <| v_lk := v_pk v |> <| v_pk := v_lk v |> <| v_af := n |>
          <| v_flags := Z.lor (v_flags v) (Z.lor WAS_VERIFIED RETIRED) |>) SECURITY_KEYS_VERIFIED).
Proof.
  intros Hst. phase_names. assert (v_network v = true) as Hn by (apply key_state_network; lia).
  destruct (key_networked Hn) as [_ Hs]. destruct key_config as [Hc Hl].
  destruct (key_phase 8 (key_phases 8 ltac:(done))) as (Ho&Hst'&Hto).
  destruct Hfine as (_&_&_&Hpe&Hph).
  assert (v_pk v ≠ zeros 16 ∧ v_pk v ≠ v_lk v) as [Hp1 Hp2].
  { unfold pending_fine in Hpe. destruct (has _ RETIRED); [lia|]. destruct Hpe as [[_ H]|H]; [done|lia]. }
  apply key_step_fine; try done.
  - by apply key_network_address.
  - flag_step Hm.
  - intros i Hi Hp. destruct (key_slot_keys i Hs Hi Hp). done.
  - unfold v_state, with_phase. proj. rewrite Hst'. lia.
  - see. rewrite Hst'.
    replace (has (Z.lor (v_flags v) (Z.lor WAS_VERIFIED RETIRED)) RETIRED) with true by (symmetry; by bits).
    replace (has (Z.lor (v_flags v) (Z.lor WAS_VERIFIED RETIRED)) WAS_VERIFIED) with true by (symmetry; by bits).
    conj.
  - see. rewrite Hst', Hto. destruct Hph as (_&_&Hj&_). split; [lia|].
    replace (has (Z.lor (v_flags v) (Z.lor WAS_VERIFIED RETIRED)) WAS_VERIFIED) with true by (symmetry; by bits).
    replace (has (Z.lor (v_flags v) (Z.lor WAS_VERIFIED RETIRED)) REJOIN_ALLOWED)
      with (has (v_flags v) REJOIN_ALLOWED) by (symmetry; by bits).
    split; [done|]. split; [|lia]. intros H. specialize (Hj H). lia.
Qed.

(** After a Leave the pending key, if any, is neither the link key nor all zeros. *)
Lemma key_pending_known :
  if has (v_flags v) RETIRED
  then v_verified v = true ∧ v_pk v ≠ zeros 16 ∧ v_pk v ≠ v_lk v
  else (v_pk v ≠ zeros 16 ∧ v_pk v ≠ v_lk v) ∨ v_pk v = zeros 16.
Proof.
  destruct Hfine as (_&_&_&Hpe&_). unfold pending_fine in Hpe. destruct (has _ RETIRED); tauto.
Qed.
Lemma key_leave_network b :
  v_network v = true →
  fine (with_phase v SECURITY_KEYS_LEFT <| v_flags := if b : bool then Z.lor (v_flags v) REJOIN_ALLOWED
                                            else without (v_flags v) REJOIN_ALLOWED |>).
Proof.
  intros Hn. phase_names.
  destruct (key_networked Hn) as [_ Hs]. destruct key_config as [Hc Hl].
  destruct (key_phase 9 (key_phases 9 ltac:(done))) as (Ho&Hst'&Hto).
  pose proof key_pending_known as Hpe. destruct (key_network_address Hn) as [Ha Hs4].
  destruct Hfine as (_&_&_&_&Hph).
  apply key_step_fine; try done.
  - intros m Hm; unfold with_phase; proj.
    destruct Hm as [-> |[-> |[-> |[-> | ->]]]]; destruct b; by bits.
  - intros i Hi Hp. by destruct (key_slot_keys i Hs Hi Hp).
  - unfold v_state, with_phase. proj. rewrite Hst'. lia.
  - see. rewrite Hst'.
    match goal with |- context [has (if b then ?x else ?y) RETIRED] =>
      replace (has (if b then x else y) RETIRED) with (has (v_flags v) RETIRED)
        by (symmetry; destruct b; by bits);
      replace (has (if b then x else y) WAS_VERIFIED) with (has (v_flags v) WAS_VERIFIED)
        by (symmetry; destruct b; by bits) end.
    destruct (has (v_flags v) RETIRED); [conj|]. destruct Hpe as [?|?]; [left|right]; conj.
  - see. rewrite Hst', Hto.
    match goal with |- context [has (if b then ?x else ?y) WAS_VERIFIED] =>
      replace (has (if b then x else y) WAS_VERIFIED) with (has (v_flags v) WAS_VERIFIED)
        by (symmetry; destruct b; by bits) end.
    destruct Hph as (Hv&_&_&_). split; [lia|]. split; [lia|]. split; [lia|].
    change (9 <? 9) with false. by rewrite andb_false_r.
Qed.

Lemma key_rejoin_fine :
  v_verified v = true → has (v_flags v) RETIRED = true ∨ v_pk v = zeros 16 →
  fine (with_phase (v <| v_phase := without (v_phase v) (Z.lor PARENT_MASK TIMEOUT_PENDING) |>)
          SECURITY_KEYS_REJOINING).
Proof.
  intros Hv Hret. phase_names. destruct Hfine as (_&_&_&Hpe&Hph).
  assert (v_network v = true) as Hn.
  { destruct (v_network v) eqn:E; [done|]. destruct (key_bootstrap E) as (_&H&_).
    revert Hv. unfold v_verified. by rewrite H. }
  destruct (key_networked Hn) as [_ Hs]. destruct key_config as [Hc Hl].
  destruct (key_phase_octet (without (v_phase v) (Z.lor PARENT_MASK TIMEOUT_PENDING)) 10)
    as (Ho&Hst&Hto&_); [apply key_without_u8, Hoct|by apply key_phases|].
  apply key_step_fine; try done.
  - by apply key_network_address.
  - intros i Hi Hp. by destruct (key_slot_keys i Hs Hi Hp).
  - unfold v_state, with_phase. proj. rewrite Hst. lia.
  - see. rewrite Hst. destruct (has (v_flags v) RETIRED); [conj|].
    destruct Hret as [?|Hret]; [done|]. right. conj.
  - see. rewrite Hst, Hto. conj. change (10 <? SECURITY_KEYS_LEFT) with false. by rewrite andb_false_r.
Qed.
Lemma key_rejoined_fine a :
  v_state v = SECURITY_KEYS_REJOINING → 0 < a < 0xfff8 →
  fine (with_phase (v <| v_addr := a |>) SECURITY_KEYS_VERIFIED
          <| v_flags := without (v_flags v) REJOIN_ALLOWED |>).
Proof.
  intros Hst Ha. phase_names. assert (v_network v = true) as Hn by (apply key_state_network; lia).
  destruct (key_networked Hn) as [_ Hs]. destruct key_config as [Hc Hl].
  pose proof (key_config_address a Ha) as Hca.
  destruct (key_phase 8 (key_phases 8 ltac:(done))) as (Ho&Hst'&Hto).
  destruct Hfine as (_&_&_&Hpe&Hph).
  assert (∀ m, m = 1 ∨ m = 2 ∨ m = 4 ∨ m = 8 ∨ m = 128 ∨ m = 16 ∨ m = 32 →
    has (without (v_flags v) REJOIN_ALLOWED) m = has (v_flags v) m) as Hf.
  { intros m Hm. destruct Hm as [-> |[-> |[-> |[-> |[-> |[-> | ->]]]]]]; by bits. }
  apply key_step_fine; try done.
  - unfold with_phase. proj. lia.
  - intros m Hm. unfold with_phase. proj. apply Hf. tauto.
  - intros i Hi Hp. by destruct (key_slot_keys i Hs Hi Hp).
  - unfold v_state, with_phase. proj. rewrite Hst'. lia.
  - see. rewrite Hst', (Hf RETIRED), (Hf WAS_VERIFIED) by (unfold RETIRED, WAS_VERIFIED; tauto).
    destruct (has (v_flags v) RETIRED); [conj|]. right. conj.
    destruct Hpe as [[? _]|(_&_&?)]; [lia|done].
  - see. rewrite Hst', Hto, (Hf WAS_VERIFIED) by (unfold WAS_VERIFIED; tauto).
    replace (has (without (v_flags v) REJOIN_ALLOWED) REJOIN_ALLOWED) with false by (symmetry; by bits).
    destruct Hph as (_&H2&_). split; [lia|]. split; [intros _; apply H2; lia|]. split; [done|lia].
Qed.
(** A new phase octet with the same phase. *)
Lemma key_octet_fine x :
  v_network v = true → Z.land x PHASE_MASK = v_state v →
  (has x TIMEOUT_PENDING = true → v_state v ≠ 9 ∧ v_state v ≠ 10) → fine (v <| v_phase := x |>).
Proof.
  intros Hn Hx Ht. destruct (key_networked Hn) as [_ Hs]. destruct key_config as [Hc Hl].
  destruct (key_network_address Hn) as [Ha H4]. destruct Hfine as ((_&_&_&_&Hr&_)&_&_&Hpe&Hph).
  apply key_step_fine; try done.
  - intros i Hi Hp. by destruct (key_slot_keys i Hs Hi Hp).
  - unfold v_state at 1 2. proj. rewrite Hx. lia.
  - unfold pending_fine, v_state. proj. rewrite Hx. exact Hpe.
  - unfold phase_fine, v_state. proj. rewrite Hx. destruct Hph as (P1&P2&P3&P4). done.
Qed.
Lemma key_ask_octet x :
  is_u8 x → is_u8 (Z.lor x TIMEOUT_PENDING) ∧
  Z.land (Z.lor x TIMEOUT_PENDING) PHASE_MASK = Z.land x PHASE_MASK.
Proof. intros Hx. split; [by apply key_lor_u8|]. by_u8 x. Qed.
Lemma key_timeout_network : has (v_phase v) TIMEOUT_PENDING = true → v_network v = true.
Proof.
  intros Ht. destruct (v_network v) eqn:E; [done|]. exfalso.
  destruct (key_bootstrap E) as (_&_&_&_&_&_&_&_&_&H). revert Ht H. pose proof (proj2 Hoct) as Hx.
  generalize dependent (v_phase v). intros x Hx H1 H2.
  assert (has x TIMEOUT_PENDING && negb (has x (Z.lor PARENT_MASK TIMEOUT_PENDING)) = false) as H
    by by_u8 x. by rewrite H1, H2 in H.
Qed.

(** Steps of the bootstrap. *)
Lemma key_boot_fine v' :
  boot_fine v' → config_ok v' = true → v_magic0 v' = 75 → v_magic1 v' = 2 → v_lk v' ≠ zeros 16 →
  (v_state v' = 2 ∨ v_state v' = 3 ∧ v_addr v' ≠ 0xffff ∨ v_state v' = 9) → fine v'.
Proof.
  intros Hb Hc M0 M1 Hl Hst. pose proof Hb as (Hf&_&_&Hp&_&_&_&_&Hph).
  assert (v_network v' = false ∧ v_verified v' = false) as [Hn Hv]
    by (unfold v_network, v_verified; by rewrite Hf).
  assert (has (v_phase v') TIMEOUT_PENDING = false) as Ht.
  { revert Hph. unfold has. change (Z.lor PARENT_MASK TIMEOUT_PENDING) with (Z.lor 112 128).
    rewrite Z.land_lor_distr_r, !negb_false_iff, !Z.eqb_eq, Z.lor_eq_0_iff. by intros []. }
  split; [|split; [|split; [|split]]].
  - split; [done|]. split; [done|]. split; [done|]. rewrite Hf. split; [done|]. split; [lia|done].
  - replace (v_bootstrap v') with true; [done|]. unfold v_bootstrap. rewrite Hn. phase_names. lia.
  - unfold address_fine. rewrite Hn. destruct Hst as [?|[[? ?]|?]]; tauto.
  - unfold pending_fine. rewrite Hf. change (has 0 RETIRED) with false. right. split; [lia|]. split; [lia|done].
  - unfold phase_fine. rewrite Hv, Ht, Hf. split; [done|]. split; [lia|]. done.
Qed.
Lemma key_boot_phase value :
  boot_fine v → 2 <= value <= 10 → boot_fine (with_phase v value) ∧ v_state (with_phase v value) = value.
Proof.
  intros (B1&B2&B3&B4&B5&B6&B7&B8&B9) Hv.
  destruct (key_phase_octet (v_phase v) value (proj2 Hoct) (key_phases value Hv)) as (_&Hst&_&Hz).
  split; [|unfold v_state, with_phase; by proj]. do 8 (split; [done|]). unfold with_phase. proj. by apply Hz.
Qed.
Lemma key_leave_boot :
  v_network v = false →
  fine (with_phase v SECURITY_KEYS_LEFT <| v_flags := without (v_flags v) REJOIN_ALLOWED |>).
Proof.
  intros Hn. destruct (key_bootstrap Hn) as [_ Hb].
  destruct (key_boot_phase 9 Hb ltac:(done)) as [(C1&Hrest) Hst].
  destruct Hfine as ((M0&M1&Hc&_&_&Hl)&_). apply key_boot_fine; try done; [|right; right; exact Hst].
  split; [|exact Hrest]. proj. destruct Hb as (E&_). by rewrite E.
Qed.
Lemma key_associate_fine a :
  v_state v = SECURITY_KEYS_PROVISIONED → 0 < a < 0xfff8 →
  fine (with_phase (v <| v_addr := a |>) SECURITY_KEYS_ASSOCIATED).
Proof.
  intros Hst Ha. pose proof (key_config_address a Ha) as Hca. phase_names.
  destruct Hfine as ((M0&M1&Hc&_&_&Hl)&Hs&_).
  assert (v_bootstrap v = true) as Eb by (unfold v_bootstrap; phase_names; lia). rewrite Eb in Hs.
  destruct (key_boot_phase 3 Hs ltac:(done)) as [Hb' Hst'].
  apply key_boot_fine; try done. right; left. split; [exact Hst'|]. unfold with_phase. proj. lia.
Qed.
Lemma key_first_fine m s :
  v_state v = SECURITY_KEYS_ASSOCIATED → v_network v = false → fresh v m →
  fine (set_key 0 m s (with_phase (v <| v_flags := 1 |>) SECURITY_KEYS_RECEIVED)).
Proof.
  intros Hst Hn (F1&F2&F3&F4). destruct (key_bootstrap Hn) as [_ (B1&B2&B3&B4&B5&B6&B7&B8&B9)].
  phase_names.
  destruct (key_phase_octet (v_phase v) 4 (proj2 Hoct) (key_phases 4 ltac:(done))) as (_&Hst'&Hto&_).
  destruct Hfine as ((M0&M1&Hc&_&_&Hl)&_&Ha&_).
  unfold set_key. cbn [Z.eqb]. set (v' := _ <| v_seq0 := s |>).
  assert (v_state v' = 4) as Es by exact Hst'.
  apply key_fine_net; try done.
  - split; [done|]. split; [done|]. split; [done|]. split; [done|]. split; [lia|done].
  - lia.
  - split; [done|]. split; [done|]. split; [done|]. split.
    + left. split; [done|]. split; [done|]. split; [done|]. exact F3.
    + right. split; [done|]. split; [exact B3|]. split; [exact B6|exact B8].
  - destruct Ha as [?|[[? _]|?]]; [lia|lia|done].
  - unfold pending_fine. rewrite Es. change (has (v_flags v') RETIRED) with false. right. conj.
  - unfold phase_fine. rewrite Es. change (has (v_phase v') TIMEOUT_PENDING)
      with (has (phase_octet (v_phase v) 4) TIMEOUT_PENDING). rewrite Hto.
    split; [done|]. split; [lia|]. split; [done|lia].
Qed.

Lemma key_next_flags i :
  i = 0 ∨ i = 1 → let f := Z.lor (v_flags v) (u8 (Z.lor (Z.shiftl 1 i) NEWER)) in
  has f (Z.shiftl 1 i) = true ∧ has f (Z.shiftl 1 (1 - i)) = has (v_flags v) (Z.shiftl 1 (1 - i)) ∧
  (∀ m, m = 4 ∨ m = 16 ∨ m = 32 ∨ m = 64 ∨ m = 128 → has f m = has (v_flags v) m).
Proof.
  intros Hi f. subst f. destruct Hi as [-> | ->];
    (split; [by bits|split; [by bits|]]); intros m Hm;
    destruct Hm as [-> |[-> |[-> |[-> | ->]]]]; by bits.
Qed.
Lemma key_next_fine m s :
  let i := Z.lxor (v_active v) 1 in
  v_network v = true → fresh v m →
  (∀ j, j = 0 ∨ j = 1 → present v j = true → s ≠ v_seq v j) →
  fine (set_key i m s (v <| v_flags := Z.lor (v_flags v) (u8 (Z.lor (Z.shiftl 1 i) NEWER)) |>)).
Proof.
  intros i Hn (F1&F2&F3&F4) Hs.
  assert (i = 0 ∧ v_active v = 1 ∨ i = 1 ∧ v_active v = 0) as Hi
    by (unfold i; destruct (key_active v) as [-> | ->]; auto).
  destruct (key_next_flags i ltac:(tauto)) as (Hnew&Hold&Hsame).
  set (f := Z.lor _ _) in *. destruct (key_networked Hn) as [_ (S1&S2&S3&S4&S5)].
  destruct (key_network_address Hn) as [Ha H4].
  destruct Hfine as ((M0&M1&Hc&Ht&Hst&Hl)&_&_&Hpe&Hph). clearbody f.
  assert (has f RETIRED = has (v_flags v) RETIRED ∧ has f WAS_VERIFIED = has (v_flags v) WAS_VERIFIED ∧
          has f REJOIN_ALLOWED = has (v_flags v) REJOIN_ALLOWED ∧ has f 128 = has (v_flags v) 128 ∧
          has f ACTIVE = has (v_flags v) ACTIVE) as (G1&G2&G3&G4&G5)
    by (repeat split; apply Hsame; unfold RETIRED, WAS_VERIFIED, REJOIN_ALLOWED, ACTIVE; tauto).
  assert (present v (1 - i) = true) as Hap by (destruct Hi as [[-> E]|[-> E]]; by rewrite E in S1).
  set (v1 := v <| v_flags := f |>).
  assert (present (set_key i m s v1) i = true ∧ present (set_key i m s v1) (1 - i) = true) as [P1 P2].
  { unfold present in *. rewrite Hap in Hold. destruct Hi as [[-> _]|[-> _]]; done. }
  assert (v_active (set_key i m s v1) = v_active v) as Eact
    by (unfold v_active; rewrite <- G5; by destruct Hi as [[-> _]|[-> _]]).
  apply key_fine_net.
  - repeat split; try (destruct Hi as [[-> _]|[-> _]]; assumption).
    + destruct Hi as [[-> _]|[-> _]]; unfold set_key, v1; cbn [Z.eqb]; proj; by rewrite G4.
    + destruct Hi as [[-> _]|[-> _]]; apply Hst.
    + destruct Hi as [[-> _]|[-> _]]; apply Hst.
  - destruct Hi as [[-> _]|[-> _]]; exact H4.
  - apply (key_present_network _ i); tauto.
  - unfold net_fine. rewrite Eact.
    destruct Hi as [[-> E]|[-> E]]; rewrite E; (split; [done|]; split; [done|]; split).
    + intros _ _. specialize (Hs 1 ltac:(auto) Hap). specialize (F4 1 ltac:(auto) Hap).
      unfold set_key, v1. cbn [Z.eqb]. proj. done.
    + split; [left; done|]. destruct S5 as [(?&?&?&?)|(?&_)]; [by left|congruence].
    + intros _ _. specialize (Hs 0 ltac:(auto) Hap). specialize (F4 0 ltac:(auto) Hap).
      unfold set_key, v1. cbn [Z.eqb Pos.eqb]. proj. split; intros E'; [by apply Hs|by apply F4].
    + split; [|left; done]. destruct S4 as [(?&?&?&?)|(?&_)]; [by left|congruence].
  - destruct Hi as [[-> _]|[-> _]]; exact Ha.
  - destruct Hi as [[-> _]|[-> _]]; unfold pending_fine, v_verified, set_key, v1 in *; cbn [Z.eqb Pos.eqb]; proj;
      rewrite G1, G2; exact Hpe.
  - destruct Hi as [[-> _]|[-> _]]; unfold phase_fine, v_verified, set_key, v1 in *; cbn [Z.eqb Pos.eqb]; proj;
      rewrite G2, G3; exact Hph.
Qed.
End steps.

Lemma key_change_octets v v' : octets v → change v v' → octets v'.
Proof.
  intros Ho Hc. pose proof Ho as [Hf Hp].
  assert (∀ x value, is_u8 x → 2 <= value <= 10 → is_u8 (phase_octet x value)) as Hx
    by (intros x value H1 H2; by apply key_phase_octet, key_phases).
  assert (is_u8 1 ∧ is_u8 REJOIN_ALLOWED ∧ is_u8 (Z.lor WAS_VERIFIED RETIRED) ∧ is_u8 TIMEOUT_PENDING)
    as (U1&U2&U3&U4) by done.
  destruct Hc as [i n Hi ? ?|i ? ?|n ?|m s ? ? ?|m s i ? ? ? ?|?|m ? ?|?|n ?|b ?|? ?|a ? ?|u p ?|? ? ?|x ? ? ? ?|a ? ?];
    unfold octets, with_phase, set_nf, set_key; try (destruct (i =? 0)); proj; try done;
    try (split; [done|]; by apply Hx); try (split; [|by apply Hx]); try (split; [|done]).
  - by apply key_adopted_u8.
  - by apply key_adopted_u8.
  - apply key_lor_u8; [done|apply u8_range].
  - apply key_lor_u8; [done|apply u8_range].
  - by apply key_without_u8.
  - by apply key_lor_u8.
  - destruct b; [by apply key_lor_u8|by apply key_without_u8].
  - split; [done|]. apply Hx; [by apply key_without_u8|done].
  - by apply key_without_u8.
  - split; [done|]. by apply key_lor_u8.
Qed.
Lemma key_change_fine v v' : octets v → fine v → change v v' → fine v'.
Proof.
  intros Ho Hf Hc. destruct Hc; phase_names.
  - by apply key_advance_fine.
  - by apply key_adopt_fine.
  - by apply key_admit_fine.
  - by apply key_first_fine.
  - by apply key_next_fine.
  - by apply key_request_fine.
  - by apply key_offer_fine.
  - by apply key_verify_fine.
  - by apply key_confirm_fine.
  - match goal with H : _ ∨ ?b = false |- _ =>
      destruct (v_network v) eqn:E; [by apply key_leave_network|destruct H as [H|H]; [done|subst b]] end.
    by apply key_leave_boot.
  - by apply key_rejoin_fine.
  - by apply key_rejoined_fine.
  - by apply key_update_fine.
  - apply key_octet_fine; try done. apply key_ask_octet, Ho.
  - apply key_octet_fine; try done; [by apply key_timeout_network|congruence].
  - by apply key_associate_fine.
Qed.

(** ** Replay floors never sink under a key that stays *)
Definition moves (v v' : view) : Prop :=
  (∀ i, i = 0 ∨ i = 1 → v_nk v' i = v_nk v i → v_nf v i <= v_nf v' i ∧ v_seq v' i = v_seq v i) ∧
  (v_lk v' = v_lk v → v_af v <= v_af v').
Definition keeps (v v' : view) : Prop :=
  (∀ i, i = 0 ∨ i = 1 → v_nk v' i = v_nk v i) ∧ v_lk v' = v_lk v.
Lemma key_moves_refl v : moves v v.
Proof. split; [by intros i _ _|intros _; lia]. Qed.
Lemma key_keeps_refl v : keeps v v.
Proof. done. Qed.
Lemma key_keeps_trans v1 v2 v3 : keeps v1 v2 → keeps v2 v3 → keeps v1 v3.
Proof.
  intros [H1 H2] [H3 H4]. split; [intros i Hi; by rewrite H3, H1|congruence].
Qed.
Lemma key_moves_trans v1 v2 v3 : keeps v1 v2 → moves v1 v2 → moves v2 v3 → moves v1 v3.
Proof.
  intros [K1 K2] [M1 M2] [M3 M4]. split.
  - intros i Hi E. rewrite <- K1 in E by done. destruct (M1 i Hi (K1 i Hi)) as [A1 A2], (M3 i Hi E) as [B1 B2].
    split; [lia|congruence].
  - intros E. rewrite <- K2 in E. specialize (M2 K2). specialize (M4 E). lia.
Qed.
Lemma key_change_moves v v' : octets v → fine v → change v v' → moves v v'.
Proof.
  intros Ho Hf Hc.
  assert (∀ i, i = 0 ∨ i = 1 → present v i = false → v_nk v i = zeros 16) as Hz.
  { intros i Hi Hp. destruct (v_network v) eqn:E.
    - destruct (key_networked v Hf E) as [_ (_&_&_&S4&S5)].
      assert (slot_fine v i) as [(H&_)|H] by (destruct Hi as [-> | ->]; done); [congruence|apply H].
    - destruct (key_bootstrap v Hf E) as (_&_&H0&H1&_). by destruct Hi as [-> | ->]. }
  assert (∀ i m, i = 0 ∨ i = 1 → fresh v m → m ≠ v_nk v i) as Hm.
  { intros i m Hi (F1&_&_&F4). destruct (present v i) eqn:E; [by apply F4|]. by rewrite Hz. }
  assert (∀ i m, i = 0 ∨ i = 1 → fresh v m → ∀ s v1, v_nk0 v1 = v_nk0 v → v_nk1 v1 = v_nk1 v →
    v_nf0 v1 = v_nf0 v → v_nf1 v1 = v_nf1 v → v_lk v1 = v_lk v → v_af v1 = v_af v →
    v_seq0 v1 = v_seq0 v → v_seq1 v1 = v_seq1 v → moves v (set_key i m s v1)) as Hset.
  { intros i m Hi Hfr s v1 E1 E2 E3 E4 E5 E6 E7 E8. pose proof (Hm i m Hi Hfr) as Hne.
    split; [|destruct Hi as [-> | ->]; unfold set_key; cbn [Z.eqb Pos.eqb]; proj; lia].
    intros j Hj. destruct Hi as [-> | ->], Hj as [-> | ->]; unfold set_key, v_nk, v_nf, v_seq in *;
      cbn [Z.eqb Pos.eqb] in *; proj; intros; (congruence || (split; [lia|congruence])). }
  destruct Hc as [i n Hi ? ?|i ? ?|n ?|m s ? ? Hfr|m s i ? ? Hfr ?|?|m ? ?|?|n Hst|b ?|? ?|a ? ?|u p ?|? ? ?|x ? ? ? ?|a ? ?];
    try (split; [by intros j _ _|intros _; apply Z.le_refl]).
  - split; [|intros _; unfold set_nf; destruct (i =? 0); proj; lia].
    intros j Hj _. destruct Hi as [-> | ->], Hj as [-> | ->]; unfold set_nf, v_nf, v_seq in *;
      cbn [Z.eqb Pos.eqb] in *; proj; lia.
  - split; [by intros j _ _|intros _; proj; done].
  - by apply Hset; auto.
  - apply Hset; try done. unfold i. destruct (key_active v) as [-> | ->]; auto.
  - destruct Hf as (_&_&_&Hpe&_). phase_names. unfold pending_fine in Hpe.
    assert (v_pk v ≠ v_lk v) as Hne.
    { destruct (has _ RETIRED); [lia|]. destruct Hpe as [(_&_&?)|?]; [done|lia]. }
    split; [intros j _ _; unfold v_nf, v_seq, with_phase; destruct (j =? 0); proj; lia|].
    unfold with_phase. proj. done.
Qed.
(** ** The check of a stored record *)
Lemma key_typed_octets r : record_typed r → octets (view_of r).
Proof. intros [_ B]. split; by apply rd_is_u8. Qed.
Lemma key_valid_fine r : record_typed r → (valid_record r 112 = true ↔ fine (view_of r)).
Proof. intros Ht. rewrite key_view_valid by done. by apply key_fine, key_typed_octets. Qed.

(** C40: [valid_record], the octet checks by which the owner accepts a stored record, is the
    logical well-formedness of the record's fields: configuration, key slots and flags, addresses, the
    pending or retired link key, and the phase. *)
Theorem key_record_check r : record_typed r → (valid_record r 112 = true ↔ fine (view_of r)).
Proof. apply key_valid_fine. Qed.

Definition sample_config : security_keys_config_t := {|
  own_ieee := [1; 2; 3; 4; 5; 6; 7; 8]; tc_ieee := [11; 12; 13; 14; 15; 16; 17; 18];
  extended_pan := replicate 8 9; pan := 0x1a62; address := 0xffff; channel := 15; update_id := 0 |}.
(** A verified record: network key 7 in slot 0, the replaced link key kept as retired. *)
Definition sample_network : bytes := seqZ 140 16.
Definition sample_verified : bytes :=
  let r := write_le16 (configured sample_config (replicate 112 0)) ADDR 0x1234 in
  let r := blit (blit (blit r LK (seqZ 100 16)) PK (seqZ 120 16)) NK sample_network in
  let r := wr (wr r MAGIC 75) (MAGIC + 1) 2 in
  let r := wr (wr r SEQ 7) FLAGS (Z.lor 1 (Z.lor WAS_VERIFIED RETIRED)) in
  wr r PHASE SECURITY_KEYS_VERIFIED.
Lemma key_sample_typed : record_typed sample_verified.
Proof. split; [reflexivity|concrete]. Qed.
Lemma key_record_check_witness : fine (view_of sample_verified).
Proof. apply key_record_check; [apply key_sample_typed|vm_compute; reflexivity]. Defined.
End KeyLife.
