(* ===== verification/KeyWrites.v ===== *)
(** The record writes of the key store as steps of the life cycle: what each accepted command and
    each call writes is one step of KeyLife.v, on the structure of KeyView.v. *)
From S2P Require Import Prelude NwkFrame Security EdWire SecurityKeys KeyView KeyLife.

Module KeyWrites.
Import Security EdWire SecurityKeys KeyView KeyLife.

(** ** Written records are records *)
Lemma key_typed_wr r i v : record_typed r → is_u8 v → record_typed (wr r i v).
Proof. intros [L B] Hv. split; [by rewrite blen_wr|by apply is_bytes_wr]. Qed.
Lemma key_typed_blit r p x : record_typed r → is_bytes x → record_typed (blit r p x).
Proof. intros [L B] Hx. split; [by rewrite blen_blit|by apply is_bytes_blit]. Qed.
Lemma key_typed_put32 r p v : record_typed r → record_typed (put32 r p v).
Proof. intros H. apply key_typed_blit; [done|apply security_counter_bytes]. Qed.
Lemma key_typed_le16 r p v : record_typed r → record_typed (write_le16 r p v).
Proof. intros H. apply key_typed_wr; [apply key_typed_wr; [done|]|]; apply u8_range. Qed.
Lemma key_rd_u8 r i : record_typed r → is_u8 (rd r i).
Proof. intros [_ B]. by apply rd_is_u8. Qed.
Create HintDb record discriminated.
#[local] Hint Resolve key_typed_wr key_typed_blit key_typed_put32 key_typed_le16 key_rd_u8 key_lor_u8
  key_without_u8 u8_range is_bytes_slice : record.

(** ** The phase octet *)
Lemma key_set_phase r value :
  blen r = 112 → set_phase r value = wr r PHASE (phase_octet (rd r PHASE) value).
Proof.
  intros L. assert (∀ a b, wr (wr r PHASE a) PHASE b = wr r PHASE b) as Hw.
  { intros a b. unfold wr. by rewrite list_insert_insert_eq. }
  assert (∀ a, rd (wr r PHASE a) PHASE = a) as Hr
    by (intros a; rewrite rd_wr by (unfold PHASE; lia); done).
  unfold set_phase, phase_octet. destruct (value <=? SECURITY_KEYS_ASSOCIATED); [done|]. cbv zeta.
  destruct (value =? SECURITY_KEYS_REJOINING); rewrite ?Hr, ?Hw;
    destruct (_ || _); by rewrite ?Hr, ?Hw, ?Hr, ?Hw.
Qed.
Lemma key_view_set_phase r value :
  blen r = 112 → view_of (set_phase r value) = with_phase (view_of r) value.
Proof. intros L. rewrite key_set_phase by done. by rewrite key_view_phase. Qed.
Lemma key_typed_set_phase r value :
  record_typed r → 2 <= value <= 10 → record_typed (set_phase r value).
Proof.
  intros H Hv. rewrite key_set_phase by apply H. apply key_typed_wr; [done|].
  apply key_phase_octet; [by apply key_rd_u8|by apply key_phases].
Qed.
(** A step: the new record and its structure. *)
Definition writes (r r' : bytes) : Prop := record_typed r' ∧ change (view_of r) (view_of r').

Section Writes.
Variable r : bytes.
Hypothesis Hr : record_typed r.
Let L : blen r = 112 := proj1 Hr.

Lemma key_write_request :
  phase r = 4 ∨ phase r = 5 ∨ phase r = 8 → writes r (set_phase r SECURITY_KEYS_REQUESTED).
Proof.
  intros H. split; [by apply key_typed_set_phase|]. rewrite key_view_set_phase by done.
  apply Request. exact H.
Qed.
Lemma key_write_verify :
  phase r = 6 ∨ phase r = 7 → writes r (set_phase r SECURITY_KEYS_WAIT_CONFIRM).
Proof.
  intros H. split; [by apply key_typed_set_phase|]. rewrite key_view_set_phase by done.
  apply Verify. exact H.
Qed.
Lemma key_write_leave (rejoin : bool) :
  network r = true ∨ rejoin = false →
  let r1 := set_phase r SECURITY_KEYS_LEFT in
  writes r (wr r1 FLAGS (if rejoin then Z.lor (rd r1 FLAGS) REJOIN_ALLOWED
                         else without (rd r1 FLAGS) REJOIN_ALLOWED)).
Proof.
  intros H r1. assert (record_typed r1) as H1 by by apply key_typed_set_phase.
  split.
  { apply key_typed_wr; [done|]. destruct rejoin; auto with record. by apply key_lor_u8; [apply key_rd_u8|]. }
  assert (view_of r1 = with_phase (view_of r) SECURITY_KEYS_LEFT) as E by by apply key_view_set_phase.
  rewrite key_view_flags by apply H1. change (rd r1 FLAGS) with (v_flags (view_of r1)). rewrite E.
  change (v_flags (with_phase (view_of r) SECURITY_KEYS_LEFT)) with (v_flags (view_of r)).
  exact (Leave (view_of r) rejoin H).
Qed.
Lemma key_write_rejoin :
  verified r = true → has (rd r FLAGS) RETIRED = true ∨ all (at_ r PK) 16 0 = true →
  writes r (set_phase (wr r PHASE (without (rd r PHASE) (Z.lor PARENT_MASK TIMEOUT_PENDING)))
                      SECURITY_KEYS_REJOINING).
Proof.
  intros Hv H. set (r1 := wr r PHASE _).
  assert (record_typed r1) as H1 by (apply key_typed_wr; auto with record).
  split; [by apply key_typed_set_phase|]. rewrite key_view_set_phase by apply H1.
  unfold r1. rewrite key_view_phase by done. apply Rejoin; [done|]. destruct H as [H|H]; [by left|right].
  rewrite key_all in H by (unfold PK; lia). by apply bool_decide_eq_true in H.
Qed.
Lemma key_write_ask :
  network r = true → phase r ≠ 9 → phase r ≠ 10 →
  writes r (wr r PHASE (Z.lor (rd r PHASE) TIMEOUT_PENDING)).
Proof.
  intros Hn H9 H10. split; [apply key_typed_wr; [done|by apply key_lor_u8; [apply key_rd_u8|]]|].
  rewrite key_view_phase by done. by apply Ask.
Qed.
Lemma key_write_associate a :
  phase r = 2 → 0 < a < 0xfff8 →
  writes r (set_phase (write_le16 r ADDR a) SECURITY_KEYS_ASSOCIATED).
Proof.
  intros Hp Ha. pose proof (key_typed_le16 r ADDR a Hr) as H1.
  split; [by apply key_typed_set_phase|]. rewrite key_view_set_phase by apply H1.
  rewrite key_view_put_addr by (done || unfold is_u16; lia). by apply Associate.
Qed.

(** ** Replay floors and the active key *)
Lemma key_write_admit n :
  is_u32 n → u32_at r AF <= n → writes r (put32 r AF n).
Proof.
  intros Hn Ha. split; [by apply key_typed_put32|]. rewrite key_view_af by done. by apply Admit.
Qed.
Lemma key_write_advance i n :
  i = 0 ∨ i = 1 → has (rd r FLAGS) (Z.shiftl 1 i) = true → is_u32 n → u32_at r (NF + 4 * i) <= n →
  writes r (put32 r (NF + 4 * i) n).
Proof.
  intros Hi Hp Hn Hf. split; [by apply key_typed_put32|].
  assert (view_of (put32 r (NF + 4 * i) n) = set_nf i n (view_of r)) as ->
    by (destruct Hi as [-> | ->]; [by apply key_view_nf0|by apply key_view_nf1]).
  apply Advance; [done|exact Hp|]. destruct Hi as [-> | ->]; exact Hf.
Qed.
Lemma key_write_adopt i :
  i = 0 ∨ i = 1 → has (rd r FLAGS) NEWER = true → writes r (adopt r i).
Proof.
  intros Hi Hn. split.
  - apply key_typed_wr; [done|]. apply key_adopted_u8. by apply key_rd_u8.
  - unfold adopt. rewrite key_view_flags by done. exact (Adopt (view_of r) i Hi Hn).
Qed.

(** ** Keys *)
Lemma key_fresh p :
  blen p = 82 → reused r (at_ p 2) = false → fresh (view_of r) (slice p 2 16).
Proof.
  intros Hp. unfold reused, LK, PK, NK.
  rewrite (key_same p 2 r 48), (key_same p 2 r 64), !key_all by lia.
  cbn [existsb]. rewrite (key_same p 2 r (16 + 16 * 0)), (key_same p 2 r (16 + 16 * 1)) by lia.
  destruct (bool_decide (slice p 2 16 = replicate _ 0)) eqn:E0; cbn [orb]; [done|].
  destruct (bool_decide (slice p 2 16 = slice r 48 16)) eqn:E1; cbn [orb]; [done|].
  intros H. apply bool_decide_eq_false in E0, E1.
  destruct (negb _ && _) eqn:E2 in H; [done|]. rewrite orb_false_r in H.
  apply orb_false_iff in H as [H3 H4]. split; [exact E0|]. split; [exact E1|]. split.
  - apply andb_false_iff in E2 as [E2|E2].
    + apply negb_false_iff, bool_decide_eq_true in E2. change (v_pk (view_of r)) with (slice r 64 16).
      by rewrite E2.
    + by apply bool_decide_eq_false in E2.
  - intros i Hi Hpr. destruct Hi as [-> | ->]; unfold present in Hpr; cbn [v_flags view_of] in Hpr.
    + rewrite Hpr in H3. cbn [andb] in H3. by apply bool_decide_eq_false in H3.
    + rewrite Hpr in H4. cbn [andb] in H4. by apply bool_decide_eq_false in H4.
Qed.
Lemma key_view_store r1 i p q :
  record_typed r1 → blen p = 82 → i = 0 ∨ i = 1 →
  view_of (store_key r1 i p q) = set_key i (slice p 2 16) q (view_of r1).
Proof.
  intros [L1 _] Hp Hi. unfold store_key. assert (blen (slice p 2 16) = 16) as Ls by (apply blen_slice; lia).
  assert (is_u32 0) as U by done. destruct Hi as [-> | ->].
  - rewrite key_view_seq0 by (unfold put32; rewrite !blen_blit; done).
    change (NF + 4 * 0) with NF. rewrite key_view_nf0 by (rewrite ?blen_blit; done).
    change (NK + 16 * 0) with NK. by rewrite key_view_nk0.
  - rewrite key_view_seq1 by (unfold put32; rewrite !blen_blit; done).
    change (NF + 4 * 1) with (NF + 4). rewrite key_view_nf1 by (rewrite ?blen_blit; done).
    change (NK + 16 * 1) with (NK + 16). by rewrite key_view_nk1.
Qed.
Lemma key_typed_store r1 i p q :
  record_typed r1 → is_bytes p → is_u8 q → record_typed (store_key r1 i p q).
Proof.
  intros H1 Hp Hq. apply key_typed_wr; [|done]. apply key_typed_put32, key_typed_blit; [done|].
  by apply is_bytes_slice.
Qed.
Lemma key_write_first p q :
  phase r = 3 → network r = false → blen p = 82 → is_bytes p → is_u8 q → reused r (at_ p 2) = false →
  writes r (store_key (set_phase (wr r FLAGS 1) SECURITY_KEYS_RECEIVED) 0 p q).
Proof.
  intros Hph Hn Lp Bp Hq Hre. assert (record_typed (wr r FLAGS 1)) as H1 by by apply key_typed_wr.
  assert (record_typed (set_phase (wr r FLAGS 1) SECURITY_KEYS_RECEIVED)) as H2 by by apply key_typed_set_phase.
  split; [by apply key_typed_store|]. rewrite key_view_store by auto.
  rewrite key_view_set_phase by apply H1. rewrite key_view_flags by done.
  apply First; [exact Hph|exact Hn|by apply key_fresh].
Qed.
Lemma key_write_next p q :
  let i := Z.lxor (active_slot r) 1 in
  network r = true → verified r = true → blen p = 82 → is_bytes p → is_u8 q →
  reused r (at_ p 2) = false → (∀ j, j = 0 ∨ j = 1 → has (rd r FLAGS) (Z.shiftl 1 j) = true → q ≠ rd r (SEQ + j)) →
  writes r (store_key (wr r FLAGS (Z.lor (rd r FLAGS) (u8 (Z.lor (Z.shiftl 1 i) NEWER)))) i p q).
Proof.
  intros i Hn Hv Lp Bp Hq Hre Hs.
  assert (record_typed (wr r FLAGS (Z.lor (rd r FLAGS) (u8 (Z.lor (Z.shiftl 1 i) NEWER))))) as H1
    by (apply key_typed_wr; [done|]; apply key_lor_u8; [by apply key_rd_u8|apply u8_range]).
  assert (i = 0 ∨ i = 1) as Hi
    by (unfold i, active_slot; destruct (has (rd r FLAGS) ACTIVE); [by left|by right]).
  split; [by apply key_typed_store|]. rewrite key_view_store by done. rewrite key_view_flags by done.
  apply (Next (view_of r)); [exact Hn|exact Hv|by apply key_fresh|].
  intros j Hj Hp. specialize (Hs j Hj Hp). by destruct Hj as [-> | ->].
Qed.
Lemma key_write_offer p :
  phase r = 5 → blen p = 82 → is_bytes p → reused r (at_ p 2) = false →
  let r1 := blit r PK (slice p 2 16) in
  writes r (set_phase (wr r1 FLAGS (without (rd r1 FLAGS) RETIRED)) SECURITY_KEYS_PROVISIONAL).
Proof.
  intros Hph Lp Bp Hre r1. assert (record_typed r1) as H1 by (apply key_typed_blit; auto with record).
  assert (record_typed (wr r1 FLAGS (without (rd r1 FLAGS) RETIRED))) as H2
    by (apply key_typed_wr; [done|]; apply key_without_u8; by apply key_rd_u8).
  assert (view_of r1 = view_of r <| v_pk := slice p 2 16 |>) as E
    by (apply key_view_pk; [done|apply blen_slice; lia]).
  split; [by apply key_typed_set_phase|].
  rewrite key_view_set_phase by apply H2. rewrite key_view_flags by apply H1.
  change (rd r1 FLAGS) with (v_flags (view_of r1)). rewrite E.
  exact (Offer (view_of r) _ Hph (key_fresh p Lp Hre)).
Qed.
Lemma key_write_confirmed n :
  phase r = 7 → writes r (confirmed r n) ∧ v_lk (view_of (confirmed r n)) = v_pk (view_of r).
Proof.
  intros Hph. unfold confirmed. set (old := slice r LK 16).
  set (r1 := blit r LK (slice r PK 16)). set (r2 := blit r1 PK old).
  set (r3 := put32 r2 AF (u32 (n + 1))). set (r4 := wr r3 FLAGS _).
  assert (blen (slice r PK 16) = 16 ∧ blen old = 16) as [Lp Lo]
    by (split; apply blen_slice; unfold PK, LK; lia).
  assert (is_bytes (slice r PK 16) ∧ is_bytes old) as [Bp Bo] by (split; apply is_bytes_slice, Hr).
  assert (record_typed r1) as H1 by by apply key_typed_blit.
  assert (record_typed r2) as H2 by by apply key_typed_blit.
  assert (record_typed r3) as H3 by by apply key_typed_put32.
  assert (record_typed r4) as H4.
  { apply key_typed_wr; [done|]. apply key_lor_u8; [by apply key_rd_u8|done]. }
  unfold writes. enough (change (view_of r) (view_of (set_phase r4 SECURITY_KEYS_VERIFIED)) ∧
    v_lk (view_of (set_phase r4 SECURITY_KEYS_VERIFIED)) = v_pk (view_of r)) as [H5 H6]
    by (split; [split; [by apply key_typed_set_phase|done]|done]).
  assert (view_of r3 = view_of r <| v_lk := slice r PK 16 |> <| v_pk := old |> <| v_af := u32 (n + 1) |>) as E.
  { unfold r3. rewrite key_view_af by (apply H2 || apply u32_range). unfold r2.
    rewrite key_view_pk by (done || apply H1). unfold r1. by rewrite key_view_lk. }
  rewrite key_view_set_phase by apply H4. unfold r4. rewrite key_view_flags by apply H3.
  change (rd r3 FLAGS) with (v_flags (view_of r3)). rewrite E.
  split; [exact (Confirm (view_of r) (u32 (n + 1)) Hph)|done].
Qed.
Lemma key_write_confirm n : phase r = 7 → writes r (confirmed r n).
Proof. intros Hph. by apply key_write_confirmed. Qed.
Lemma key_confirm_changes n :
  fine (view_of r) → phase r = 7 → v_lk (view_of (confirmed r n)) ≠ v_lk (view_of r).
Proof.
  intros (_&_&_&Hpe&_) Hph. destruct (key_write_confirmed n Hph) as [_ ->].
  unfold pending_fine in Hpe. change (v_state (view_of r)) with (phase r) in Hpe. rewrite Hph in Hpe.
  destruct (has _ RETIRED); [lia|]. destruct Hpe as [(_&_&?)|?]; [done|lia].
Qed.

(** ** Commands of the network layer *)
Lemma key_write_update u p :
  is_u8 u → is_bytes p → blen p = 82 → read_le16 p 11 ≠ 0xffff →
  writes r (blit (wr r UPDATE u) PAN (slice p 11 2)).
Proof.
  intros Hu Bp Lp Hpan. assert (record_typed (wr r UPDATE u)) as H1 by by apply key_typed_wr.
  assert (blen (slice p 11 2) = 2) as Ls by (apply blen_slice; lia).
  split; [apply key_typed_blit; [done|by apply is_bytes_slice]|].
  rewrite key_view_pan by (done || apply H1). rewrite key_view_update by done.
  assert (read_le16 (slice p 11 2) 0 = read_le16 p 11) as ->
    by (unfold read_le16; rewrite !rd_slice by lia; done).
  by apply Update.
Qed.
Lemma key_write_rejoined p :
  phase r = 10 → is_bytes p → blen p = 82 → 0 < read_le16 p 1 < 0xfff8 →
  let r1 := set_phase (blit r ADDR (slice p 1 2)) SECURITY_KEYS_VERIFIED in
  writes r (wr r1 FLAGS (without (rd r1 FLAGS) REJOIN_ALLOWED)).
Proof.
  intros Hph Bp Lp Ha r1. assert (blen (slice p 1 2) = 2) as Ls by (apply blen_slice; lia).
  assert (record_typed (blit r ADDR (slice p 1 2))) as H0 by (apply key_typed_blit; [done|by apply is_bytes_slice]).
  assert (record_typed r1) as H1 by by apply key_typed_set_phase.
  assert (view_of r1 = with_phase (view_of r <| v_addr := read_le16 p 1 |>) SECURITY_KEYS_VERIFIED) as E.
  { unfold r1. rewrite key_view_set_phase by apply H0. rewrite key_view_addr by done.
    assert (read_le16 (slice p 1 2) 0 = read_le16 p 1) as ->
      by (unfold read_le16; rewrite !rd_slice by lia; done). done. }
  split; [apply key_typed_wr; [done|]; apply key_without_u8; by apply key_rd_u8|].
  rewrite key_view_flags by apply H1. change (rd r1 FLAGS) with (v_flags (view_of r1)). rewrite E.
  exact (Rejoined (view_of r) _ Hph Ha).
Qed.
Lemma key_answer_octet x y :
  is_u8 x → 0 <= y <= 7 →
  let a := without x TIMEOUT_PENDING in let b := Z.lor (without a PARENT_MASK) (u8 (Z.shiftl y 4)) in
  is_u8 a ∧ is_u8 b ∧ Z.land a PHASE_MASK = Z.land x PHASE_MASK ∧ Z.land b PHASE_MASK = Z.land x PHASE_MASK ∧
  has a TIMEOUT_PENDING = false ∧ has b TIMEOUT_PENDING = false.
Proof.
  intros Hx Hy. cbv zeta.
  assert (Forall (λ y, ∀ x, is_u8 x →
    let a := without x TIMEOUT_PENDING in let b := Z.lor (without a PARENT_MASK) (u8 (Z.shiftl y 4)) in
    bool_decide (is_u8 a) && bool_decide (is_u8 b) && (Z.land a PHASE_MASK =? Z.land x PHASE_MASK)
    && (Z.land b PHASE_MASK =? Z.land x PHASE_MASK) && negb (has a TIMEOUT_PENDING)
    && negb (has b TIMEOUT_PENDING) = true) (seqZ 0 8)) as H.
  { change (seqZ 0 8) with [0; 1; 2; 3; 4; 5; 6; 7]. clear.
    repeat (apply Forall_cons_2; [cbv zeta; intros x Hx; by_u8 x|]). by apply Forall_nil. }
  rewrite list.Forall_forall in H. specialize (H y ltac:(apply elem_of_seqZ; lia) x Hx). cbv zeta in H.
  rewrite !andb_true_iff, !bool_decide_eq_true, !Z.eqb_eq, !negb_true_iff in H. tauto.
Qed.
Lemma key_write_answer (p : bytes) (answered : bool) :
  has (rd r PHASE) TIMEOUT_PENDING = true →
  let r1 := wr r PHASE (without (rd r PHASE) TIMEOUT_PENDING) in
  let r2 := if answered
            then wr r1 PHASE (Z.lor (without (rd r1 PHASE) PARENT_MASK) (u8 (Z.shiftl (Z.land (rd p 2) 7) 4)))
            else r1 in
  writes r r2 ∧ phase r2 = phase r ∧ ∀ i, 0 <= i < 112 → i ≠ PHASE → rd r2 i = rd r i.
Proof.
  intros Ht r1 r2.
  assert (0 <= Z.land (rd p 2) 7 <= 7) as Hy.
  { pose proof (Z.land_ones (rd p 2) 3 ltac:(done)) as E. change (Z.ones 3) with 7 in E.
    change (2 ^ 3) with 8 in E. pose proof (Z.mod_pos_bound (rd p 2) 8 ltac:(done)). lia. }
  destruct (key_answer_octet (rd r PHASE) _ (key_rd_u8 r PHASE Hr) Hy) as (A1&A2&A3&A4&A5&A6).
  assert (rd r1 PHASE = without (rd r PHASE) TIMEOUT_PENDING) as E1
    by (unfold r1; rewrite rd_wr by (unfold PHASE; lia); by rewrite Z.eqb_refl).
  set (x := if answered then Z.lor (without (without (rd r PHASE) TIMEOUT_PENDING) PARENT_MASK)
                               (u8 (Z.shiftl (Z.land (rd p 2) 7) 4))
            else without (rd r PHASE) TIMEOUT_PENDING).
  assert (r2 = wr r PHASE x) as ->.
  { unfold r2, x. destruct answered; [|done]. rewrite E1. unfold r1, wr. by rewrite list_insert_insert_eq. }
  assert (is_u8 x ∧ Z.land x PHASE_MASK = Z.land (rd r PHASE) PHASE_MASK ∧ has x TIMEOUT_PENDING = false)
    as (X1&X2&X3) by (unfold x; by destruct answered).
  split; [split; [by apply key_typed_wr|]|split].
  - rewrite key_view_phase by done. by apply Answer.
  - unfold phase. rewrite rd_wr by (unfold PHASE; lia). by rewrite Z.eqb_refl.
  - intros i Hi Hne. rewrite rd_wr by (unfold PHASE; lia). by replace (i =? PHASE) with false by lia.
Qed.
End Writes.
End KeyWrites.
