(* ===== verification/KeyCalls.v ===== *)
(** The computations of SecurityKeys.v as steps of KeyLife.v: what each part of a call does to
    the statics, to the working record and to what the counter service holds. *)
From stdpp Require Import relations.
From S2P Require Import Prelude Flash ApsFrame NwkFrame BlockCipher Mmo Ccm Security EdWire Counter.
From S2P Require Import CounterService SecurityKeys KeyView KeyLife.

Module KeyCalls.
Import Security EdWire CounterService SecurityKeys KeyView KeyLife.

#[local] Existing Instance SecurityKeys.state_fields.

Section Calls.
Context {M C D : Type} `{SC : !CounterService M C} `{BC : !BlockCipher.BlockCipher D}.
Abbreviation state := (state (C := C) (D := D)).
Abbreviation E := (E (M := M) (C := C) (D := D)).

(** ** Outcomes

    [wp m s Q L]: from [s] the computation ends in [Q], or the supply fails in [L]. *)
Definition wp {A} (m : E A) (s : state) (Q : security_keys_result_t + A → state → Prop)
    (L : M → Prop) : Prop :=
  match m s with Ret (x, s') => Q x s' | Lost d => L d end.
Lemma key_wp_bind {A B} (m : E A) (f : A → E B) s Q L :
  wp m s (λ x s', match x with inl e => Q (inl e) s' | inr a => wp (f a) s' Q L end) L →
  wp (bind m f) s Q L.
Proof. unfold wp, bind. by destruct (m s) as [[[e|a] s']|d]. Qed.
Lemma key_wp_mono {A} (m : E A) s (Q Q' : _ → _ → Prop) (L L' : M → Prop) :
  wp m s Q L → (∀ x s', Q x s' → Q' x s') → (∀ d, L d → L' d) → wp m s Q' L'.
Proof. unfold wp. intros H HQ HL. destruct (m s) as [[x s']|d]; auto. Qed.
Lemma key_wp_attempt {A} (m : E A) s Q L :
  wp m s (λ x s', Q (inr x) s') L → wp (attempt m) s Q L.
Proof. unfold wp, attempt. by destruct (m s) as [[x s']|d]. Qed.

(** ** Parts of a call that leave the record alone

    [ready_work]: the working record holds octets, and a key that is fit for the cipher.  The
    flag asks for it, in the paths that open frames. *)
Definition fit_key (k : zigbee_security_key_t) : Prop := key_typed k ∧ Ccm.usable_limits (limits k).
Definition buffer (b : bytes) : Prop := blen b = 116 ∧ is_bytes b.
Definition ready_work (x : work) : Prop :=
  buffer (w_a x) ∧ buffer (w_b x) ∧ record_typed (record x) ∧ Ccm.usable_limits (w_limits x) ∧
  (level (w_key x) = 5 → fit_key (w_key x)).
Definition keeps_holds (c c' : C) : Prop :=
  (∀ P, holds c P → holds c' P) ∧ (∀ P, holds c P → staged c = false → staged c' = false).
Definition same_statics (s s' : state) : Prop :=
  security_keys_phase s' = security_keys_phase s ∧ floor_cache s' = floor_cache s ∧
  phase_cache s' = phase_cache s.
Definition steady (o : bool) (s s' : state) : Prop :=
  same_statics s s' ∧ record (w s') = record (w s) ∧ keeps_holds (counters s) (counters s') ∧
  (o = true → ready_work (w s) → ready_work (w s')).
Definition broken (s' : state) : Prop :=
  security_keys_phase s' = SECURITY_KEYS_FAILED ∧ security_keys_result s' = SECURITY_KEYS_STORAGE.
Definition crashed (c : C) (d : M) : Prop := ∀ P, holds c P → holds (service_restart d) P.
Definition calm (o : bool) {A} (m : E A) : Prop := ∀ s,
  wp m s (λ x s', steady o s s' ∨
    (x = inl SECURITY_KEYS_STORAGE ∧ broken s' ∧ keeps_holds (counters s) (counters s')))
    (crashed (counters s)).

Lemma key_holds_refl c : keeps_holds c c.
Proof. done. Qed.
Lemma key_holds_trans c1 c2 c3 : keeps_holds c1 c2 → keeps_holds c2 c3 → keeps_holds c1 c3.
Proof. intros [A1 A2] [B1 B2]. split; [auto|]. intros P HP H. apply (B2 P); [auto|]. by apply (A2 P). Qed.
Lemma key_steady_set o s f :
  (∀ x, record (f x) = record x) → (o = true → ∀ x, ready_work x → ready_work (f x)) →
  steady o s (s <| w := f (w s) |>).
Proof. intros H1 H2. split; [done|]. split; [apply H1|]. split; [apply key_holds_refl|]. intros Ho. by apply H2. Qed.
Lemma key_steady_cipher o s d : steady o s (s <| cipher := d |>).
Proof. split; [done|]. split; [done|]. split; [apply key_holds_refl|done]. Qed.
Lemma key_steady_refl o s : steady o s s.
Proof. split; [done|]. split; [done|]. split; [apply key_holds_refl|done]. Qed.
Lemma key_steady_trans o s1 s2 s3 : steady o s1 s2 → steady o s2 s3 → steady o s1 s3.
Proof.
  intros ((A1&A2&A3)&A4&A5&A6) ((B1&B2&B3)&B4&B5&B6). split; [|split; [congruence|]].
  - split; [congruence|]. split; congruence.
  - split; [by eapply key_holds_trans|auto].
Qed.

Lemma key_calm_ret o {A} (a : A) : calm o (ret a).
Proof. intros s. left. apply key_steady_refl. Qed.
Lemma key_calm_throw o {A} r : calm o (throw (A := A) r).
Proof. intros s. left. apply key_steady_refl. Qed.
Lemma key_calm_get o : calm o get.
Proof. intros s. left. apply key_steady_refl. Qed.
Lemma key_calm_gets o {A} (f : work → A) : calm o (gets f).
Proof. intros s. left. apply key_steady_refl. Qed.
Lemma key_calm_set o f :
  (∀ x, record (f x) = record x) → (o = true → ∀ x, ready_work x → ready_work (f x)) → calm o (set f).
Proof. intros H1 H2 s. left. by apply key_steady_set. Qed.
Lemma key_calm_bind o {A B} (m : E A) (f : A → E B) :
  calm o m → (∀ a, calm o (f a)) → calm o (bind m f).
Proof.
  intros Hm Hf s. apply key_wp_bind. eapply key_wp_mono; [apply Hm| |done].
  intros [e|a] s1 [H|(E&H)]; [by left|right; by injection E as ->| |done].
  eapply key_wp_mono; [apply (Hf a)|..].
  - intros x s2 [H2|(->&H2&H3)]; [left; by eapply key_steady_trans|right].
    split; [done|]. split; [done|]. eapply key_holds_trans; [apply H|done].
  - intros d Hd P HP. apply Hd. by apply H.
Qed.
Lemma key_calm_if o {A} (b : bool) (m n : E A) : calm o m → calm o n → calm o (if b then m else n).
Proof. by destruct b. Qed.
Lemma key_calm_check o r : calm o (check r).
Proof. unfold check. destruct (decide _); [apply key_calm_ret|apply key_calm_throw]. Qed.
Lemma key_calm_wire o {A} (x : zigbee_security_result_t * option A) : calm o (wire x).
Proof.
  apply key_calm_bind; [apply key_calm_check|]. intros _. destruct x.2; [apply key_calm_ret|apply key_calm_throw].
Qed.
Lemma key_calm_fault o {A} : calm o (fault (A := A) SECURITY_KEYS_STORAGE).
Proof. intros s. right. split; [done|]. split; [done|]. apply key_holds_refl. Qed.

(** The keyed hash of 16 octets has 16 octets. *)
Lemma key_hash_len (k : bytes) p s :
  wp (keyed_hash k p) s (λ x s', steady true s s' ∧ ∀ h, x = inr h →
    blen k = 16 → p = Mmo.ZIGBEE_HASH_TRANSPORT ∨ p = Mmo.ZIGBEE_HASH_LOAD ∨ p = Mmo.ZIGBEE_HASH_VERIFY →
    Ccm.usable_limits (w_limits (w s)) → blen h = 16) (λ _, False).
Proof.
  unfold wp, keyed_hash. destruct (Mmo.zigbee_key_hash _ _ _ _ _ _ _) as [[[r out] i] d] eqn:E.
  assert (∀ h, r = Mmo.ZIGBEE_MMO_OK → out = Some h → blen k = 16 →
    p = Mmo.ZIGBEE_HASH_TRANSPORT ∨ p = Mmo.ZIGBEE_HASH_LOAD ∨ p = Mmo.ZIGBEE_HASH_VERIFY →
    Ccm.usable_limits (w_limits (w s)) → blen h = 16) as H.
  { intros h -> -> Hk Hp [Ht Hl]. pose proof (Mmo.zigbee_key_hash_correct (cipher s) k p _ _ Hk Hp Ht Hl) as H.
    rewrite E in H. destruct H as (inf&_&[(_&[= ->]&_)|(?&_)]); [|done]. apply Mmo.mmo_digest_len. }
  destruct r, out as [h|]; (split; [apply key_steady_cipher|]); try done. intros ? [= <-]. by apply H.
Qed.
Lemma key_calm_hash o k p : calm o (keyed_hash k p).
Proof.
  intros s. eapply key_wp_mono; [apply key_hash_len| |done]. intros x s' [(H1&H2&H3&H4) _].
  left. split; [done|]. split; [done|]. split; [done|auto].
Qed.

Lemma key_fit_blank (r : bytes) q l i :
  record_typed r → 0 <= q <= 8 → is_u8 i → Ccm.usable_limits l →
  fit_key (zero_key <| limits := l |> <| level := 5 |> <| extended_nonce := 1 |>
             <| key_identifier := i |> <| source := slice r q 8 |>).
Proof.
  intros [L B] Hq Hi Hl. split; [|done]. split; [done|]. split; [apply blen_slice; lia|].
  split; [by apply is_bytes_slice|]. done.
Qed.
Lemma key_ready_material x m :
  ready_work x → blen m = 16 → ready_work (x <| w_key := w_key x <| Security.key := m |> |>).
Proof.
  intros (H1&H2&H3&H4&H5) Hm. do 4 (split; [done|]). intros Hl.
  destruct (H5 Hl) as [(_&H6) H7]. split; [by split|done].
Qed.
Lemma key_ready_blank x q i :
  ready_work x → 0 <= q <= 8 → is_u8 i →
  ready_work (x <| w_key := zero_key <| limits := w_limits x |> <| level := 5 |>
                <| extended_nonce := 1 |> <| key_identifier := i |> <| source := slice (record x) q 8 |> |>).
Proof.
  intros (H1&H2&H3&H4&H5) Hq Hi. do 4 (split; [done|]). intros _. by apply key_fit_blank.
Qed.
Lemma key_steady_key offset i b s :
  0 <= offset <= 96 → is_u8 i →
  wp (key offset i b) s (λ _ s', steady true s s') (λ _, False).
Proof.
  intros Hoff Hi. unfold key. apply key_wp_bind. unfold set at 1, put at 1, wp at 1.
  set (s1 := s <| w := _ |>).
  assert (steady true s s1) as S1.
  { split; [done|]. split; [done|]. split; [apply key_holds_refl|]. intros _ Hr.
    apply key_ready_blank; [done| |done]. destruct b; unfold OWN, TC; lia. }
  clearbody s1. apply (key_wp_mono _ _ (λ _ s', steady true s1 s') _ (λ _, False));
    [|intros x s' H; by eapply key_steady_trans|done].
  clear s S1. rename s1 into s.
  assert (∀ m s2, steady true s s2 → (ready_work (w s) → blen m = 16) →
    steady true s (s2 <| w := w s2 <| w_key := w_key (w s2) <| Security.key := m |> |> |>)) as Hset.
  { intros m s2 (A1&A2&A3&A4) Hm. split; [done|]. split; [done|]. split; [done|]. intros _ Hr.
    apply key_ready_material; auto. }
  assert (ready_work (w s) → blen (slice (record (w s)) offset 16) = 16) as Hlen.
  { intros (_&_&[L _]&_). apply blen_slice; lia. }
  destruct ((i =? 2) || (i =? 3)); [|by apply (Hset _ s), Hlen; apply key_steady_refl].
  apply key_wp_bind. unfold set at 1, put at 1, wp at 1.
  apply key_wp_bind. unfold gets at 1, wp at 1. apply key_wp_bind. cbv beta.
  eapply key_wp_mono; [apply key_hash_len| |done].
  intros x s3 [S3 Hh].
  assert (steady true s s3) as S3' by exact S3. destruct x as [e|h]; [done|].
  apply Hset; [done|]. intros Hr. specialize (Hh h eq_refl (Hlen Hr)).
  apply Hh; [destruct (i =? 2); unfold Mmo.ZIGBEE_HASH_TRANSPORT; auto|apply Hr].
Qed.
Lemma key_calm_weaken o {A} (m : E A) : calm true m → calm o m.
Proof.
  intros H s. eapply key_wp_mono; [apply H| |done]. intros x s' [(H1&H2&H3&H4)|?]; [left|by right].
  split; [done|]. split; [done|]. split; [done|auto].
Qed.
Lemma key_calm_key o offset i b : 0 <= offset <= 96 → is_u8 i → calm o (key offset i b).
Proof.
  intros Ho Hi. apply key_calm_weaken. intros s. eapply key_wp_mono; [by apply key_steady_key| |done].
  intros x s' H. by left.
Qed.
Lemma key_calm_limits l p : calm false (limits_ok l p).
Proof.
  unfold limits_ok. destruct l as [l|]; [|apply key_calm_ret].
  apply key_calm_if; [apply key_calm_ret|]. apply key_calm_bind; [by apply key_calm_set|].
  intros _. apply key_calm_ret.
Qed.
Lemma key_calm_take domain : 0 <= domain <= 1 → calm false (take domain).
Proof.
  intros Hd. apply key_calm_bind.
  - intros s. unfold wp, take_counter.
    pose proof (λ P HP, take_law (counters s) P _ (polls (w s)) HP Hd) as H.
    pose proof (λ P HP, staged_take (counters s) P _ (polls (w s)) HP Hd) as H2.
    destruct (service_take (counters s) domain (polls (w s))) as [[[r v] c]|d] eqn:E.
    + left. split; [done|]. split; [done|]. split; [|done]. split; [intros P HP; by apply H|intros P HP; by apply (H2 P)].
    + intros P HP. by apply H.
  - intros [r v]. apply key_calm_bind; [by apply key_calm_set|]. intros _.
    apply key_calm_if; [apply key_calm_throw|]. apply key_calm_if; [apply key_calm_fault|].
    by apply key_calm_set.
Qed.
(** Sealing, and opening of octets. *)
Lemma key_crypt_ok (d : D) op layer k f n cap r out i d' :
  ed_wire_crypt d op layer (Some k) (Some f) n true cap true = (r, Some out, i, d') →
  r = ZIGBEE_SECURITY_OK ∧ level k = 5.
Proof.
  unfold ed_wire_crypt. cbn [negb orb].
  destruct ((1 <? op) || (1 <? layer)); cbn [orb]; [done|].
  destruct (negb (level k =? 5)) eqn:El; cbn [orb]; [done|]. destruct (extended_nonce k =? 1); [|done].
  match goal with |- context [if ?c then (ZIGBEE_SECURITY_SELECTOR, _, _, _) else _] => destruct c end; [done|].
  cbv zeta. destruct (if negb (op =? 0) then _ else _) as [e|c]; [done|].
  intros Hc. split; [|lia]. revert Hc. unfold crypt_frame.
  destruct (_ && _); [done|]. destruct (cap <? c_total c); [done|].
  destruct (Ccm.ccm_star_crypt _ _ _ _ _ _ _ _ _ _ _ _ _ _) as [[[[r1 t1] n1] i1] d1].
  by destruct r1; intros [=].
Qed.
Definition goes_into (into : bytes → work → work) : Prop := ∀ b x i,
  record (into b x) = record x ∧
  (is_bytes b → ready_work x → ready_work (into b x <| w_info := i |>)).
Lemma key_into_a : goes_into into_a.
Proof.
  intros b x i. split; [done|]. intros Hb ([L B]&H). split; [|exact H].
  split; [|by apply is_bytes_blit]. change (blen (blit (w_a x) 0 b) = 116). by rewrite blen_blit.
Qed.
Lemma key_into_b : goes_into into_b.
Proof.
  intros b x i. split; [done|]. intros Hb (H1&[L B]&H). split; [exact H1|]. split; [|exact H].
  split; [|by apply is_bytes_blit]. change (blen (blit (w_b x) 0 b) = 116). by rewrite blen_blit.
Qed.
Lemma key_steady_crypt into o op layer f n s :
  goes_into into → (o = true → op = 1 ∧ is_bytes f ∧ n <= blen f ∧ 0 <= layer) →
  wp (crypt_into into op layer f n) s (λ x s', steady o s s') (λ _, False).
Proof.
  intros Hinto Ho. unfold wp, crypt_into. destruct (ed_wire_crypt _ _ _ _ _ _ _ _ _) as [[[r out] i] d] eqn:E.
  destruct out as [b|], i as [i|]; try (unfold check; destruct (decide _); apply key_steady_cipher).
  destruct (Hinto b (w s) i) as [Hrec Hrdy].
  split; [done|]. split; [exact Hrec|]. split; [apply key_holds_refl|]. intros Hot Hr.
  destruct (Ho Hot) as (->&Hf&Hn&Hl). pose proof Hr as (_&_&_&_&H5).
  destruct (key_crypt_ok _ _ _ _ _ _ _ _ _ _ _ E) as [-> Hlv].
  destruct (H5 Hlv) as [Hk Hlim].
  destruct (ed_wire_opened _ _ _ _ _ _ _ _ _ Hk Hlim Hf Hn Hl E) as (H&P&_&B&_).
  by apply Hrdy.
Qed.
Lemma key_calm_crypt o op layer f n :
  (o = true → op = 1 ∧ is_bytes f ∧ n <= blen f ∧ 0 <= layer) → calm o (crypt op layer f n).
Proof.
  intros Ho s. eapply key_wp_mono; [by apply key_steady_crypt, Ho; apply key_into_b| |done]. intros x s' H. by left.
Qed.

(** ** Composite parts *)
Create HintDb calm discriminated.
#[local] Hint Resolve key_calm_ret key_calm_throw key_calm_get key_calm_gets key_calm_check key_calm_wire
  key_calm_fault key_calm_hash key_calm_limits : calm.
(** [calmly]: a composite of calm parts. *)
Ltac calmly :=
  repeat first
    [ progress intros
    | progress cbv zeta
    | solve [auto with calm nocore]
    | apply key_calm_take; unfold SECURITY_COUNTER_APS, SECURITY_COUNTER_NWK; lia
    | apply key_calm_key; [unfold LK, PK, NK in *; lia|done]
    | apply key_calm_crypt; [done]
    | apply key_calm_bind
    | apply key_calm_if
    | apply key_calm_set; done
    | match goal with |- calm _ (match ?x with _ => _ end) => destruct x end ].
Lemma key_calm_publish capacity : calm false (publish capacity).
Proof. unfold publish. calmly. Qed.
Lemma key_calm_seal_aps : calm false seal_aps.
Proof. unfold seal_aps. calmly. Qed.
Lemma key_calm_command n a : calm false (command_packet n a).
Proof. unfold command_packet. calmly. Qed.
Lemma key_calm_payload l x : calm false (payload_put l x).
Proof. unfold payload_put. calmly. Qed.
Lemma key_calm_leave n : calm false (leave_packet n).
Proof. unfold leave_packet. calmly. Qed.
Lemma key_active_slot r : active_slot r = 0 ∨ active_slot r = 1.
Proof. unfold active_slot. destruct (has _ _); [by right|by left]. Qed.
(** A read of the working record, whose value a later part uses. *)
Lemma key_calm_read o {A B} (g : work → A) (f : A → E B) :
  (∀ x, calm o (f (g x))) → calm o (bind (gets g) f).
Proof. intros H s. apply key_wp_bind. apply H. Qed.
Lemma key_calm_seal b : calm false (seal b).
Proof.
  unfold seal. apply key_calm_read. intros x. pose proof (key_active_slot (record x)) as Ha.
  assert (calm false (key (NK + 16 * active_slot (record x)) 1 true)) as Hk
    by (apply key_calm_key; [unfold NK; lia|done]).
  pose proof key_calm_seal_aps. revert Hk. generalize (active_slot (record x)). intros i Hk.
  destruct b; calmly.
Qed.
End Calls.
End KeyCalls.
