(* ===== verification/KeyLive.v ===== *)
(** The record that a state of the key store stands for, and the operations that load, store and
    keep it. *)
From stdpp Require Import relations.
From S2P Require Import Prelude Flash BlockCipher Timebase Ccm Security Counter CounterService.
From S2P Require Import SecurityKeys KeyView KeyLife KeyCalls.

Module KeyLive.
Import Security CounterService SecurityKeys KeyView KeyLife KeyCalls.
#[local] Existing Instance SecurityKeys.state_fields.

(** ** Valid records and the life cycle between them *)
Definition good (r : bytes) : Prop := record_typed r ∧ valid_record r 112 = true.
Definition reaches (r0 r : bytes) : Prop :=
  record_typed r ∧ rtc change (view_of r0) (view_of r) ∧ moves (view_of r0) (view_of r).
Lemma key_good r : good r ↔ record_typed r ∧ fine (view_of r).
Proof. unfold good. pose proof (key_valid_fine r). tauto. Qed.
Lemma key_good_phase r : good r → 2 <= phase r <= 10.
Proof. intros [_ ((_&_&_&_&H&_)&_)]%key_good. exact H. Qed.
Lemma key_steps_fine v v' : octets v → fine v → rtc change v v' → octets v' ∧ fine v'.
Proof.
  intros Ho Hf H. revert Ho Hf. induction H as [v|v v1 v2 H _ IH]; [done|]. intros Ho Hf.
  apply IH; [by eapply key_change_octets|by eapply key_change_fine].
Qed.
Lemma key_reaches_good r0 r : good r0 → reaches r0 r → good r.
Proof.
  rewrite !key_good. intros [Ht Hf] (Hr&Hs&_). split; [done|].
  by destruct (key_steps_fine _ _ (key_typed_octets _ Ht) Hf Hs).
Qed.
Lemma key_reaches_refl r : record_typed r → reaches r r.
Proof. intros H. split; [done|]. split; [done|]. apply key_moves_refl. Qed.
Lemma key_reaches_trans r0 r1 r2 :
  keeps (view_of r0) (view_of r1) → reaches r0 r1 → reaches r1 r2 → reaches r0 r2.
Proof.
  intros K (_&S1&M1) (T&S2&M2). split; [done|]. split; [by etrans|]. by eapply key_moves_trans.
Qed.
Lemma key_reaches_step r0 r :
  good r0 → record_typed r → change (view_of r0) (view_of r) → reaches r0 r.
Proof.
  rewrite key_good. intros [T F] Hr H. split; [done|]. split; [by apply rtc_once|].
  apply key_change_moves; [by apply key_typed_octets|done|done].
Qed.

(** Records that differ at most in the replay floors of the network layer and in the phase octet,
    with the same phase: what the code keeps in memory only. *)
Definition volatile (i : Z) : Prop := NF <= i < NF + 8 ∨ i = PHASE.
Definition lags (b r : bytes) : Prop := ∀ i, 0 <= i < 112 → ¬ volatile i → rd b i = rd r i.
Lemma key_lags_refl r : lags r r.
Proof. done. Qed.
Lemma key_lags_trans a b c : lags a b → lags b c → lags a c.
Proof. intros H1 H2 i Hi Hv. rewrite H1; [by apply H2|done|done]. Qed.

Section Live.
Context {M C D : Type} `{SC : !CounterService M C} `{BC : !BlockCipher.BlockCipher D}.
Abbreviation state := (state (C := C) (D := D)).
Abbreviation E := (E (M := M) (C := C) (D := D)).

(** ** The record of a state

    The stored record [b] and the cached octets make the record [r] of the next call. *)
Definition overlay (s : state) (b : bytes) : bytes :=
  let r := blit b NF (floor_cache s) in
  if phase_cache s =? 0 then r else wr r PHASE (phase_cache s).
Definition base (b r : bytes) (s : state) : Prop :=
  good b ∧ good r ∧ phase b = security_keys_phase s ∧ phase r = security_keys_phase s ∧
  holds (counters s) (λ x, x = b) ∧ blen (floor_cache s) = 8 ∧
  (phase_cache s = 0 ∨ security_keys_phase s ≠ SECURITY_KEYS_PROVISIONED ∨
   staged (counters s) = false) ∧ overlay s b = r.
Definition idle (s : state) : Prop := w s = zero_work.
Definition live (s : state) (r : bytes) : Prop := ∃ b, base b r s.

Lemma key_base_steady o b r s s' : base b r s → steady o s s' → base b r s'.
Proof.
  intros (G1&G2&P1&P2&Hh&Lf&Hc&Ho) ((E1&E2&E3)&_&[K1 K2]&_).
  unfold base, overlay. rewrite E1, E2, E3. do 4 (split; [done|]). split; [by apply K1|].
  split; [done|]. split; [|done]. destruct Hc as [?|[?|?]]; [by left|by right; left|].
  right; right. by eapply K2.
Qed.
Lemma key_overlay_lags s b : blen (floor_cache s) = 8 → record_typed b → lags b (overlay s b).
Proof.
  intros Lf [Lb _] i Hi Hv. unfold overlay, volatile, NF, PHASE in *.
  assert (rd (blit b 80 (floor_cache s)) i = rd b i) as E by (apply key_rd_blit; lia).
  destruct (phase_cache s =? 0); [done|]. rewrite wr_blit, key_rd_blit; [done|..]; rewrite ?blen_blit, ?blen_cons, ?blen_nil; lia.
Qed.
Lemma key_base_lags b r s : base b r s → lags b r.
Proof. intros ([G _]&_&_&_&_&Lf&_&<-). by apply key_overlay_lags. Qed.

(** ** Loading *)
Lemma key_wp_read s b :
  w s = zero_work → blen b = 112 → holds (counters s) (λ x, x = b) →
  wp read_record s (λ x (s' : state),
    (x = inr tt ∧ ∃ c, keeps_holds (counters s) c ∧
       s' = s <| counters := c |> <| w := zero_work <| record := b |> <| size := 112 |> |>) ∨
    (x = inl SECURITY_KEYS_STORAGE ∧ broken s' ∧ keeps_holds (counters s) (counters s')))
    (λ _, False).
Proof.
  intros Hw Hb Hh. unfold wp, read_record.
  pose proof (λ P HP, read_law (counters s) P SECURITY_KEYS_RECORD_MAX HP) as H.
  pose proof (staged_read (counters s) SECURITY_KEYS_RECORD_MAX) as Hst.
  destruct (service_read (counters s) SECURITY_KEYS_RECORD_MAX) as [[[r d] n] c] eqn:Er.
  cbn [snd] in Hst.
  assert (keeps_holds (counters s) c) as K
    by (split; [intros P HP; by apply H|intros P _ E; by rewrite Hst]).
  destruct (bool_decide (r ≠ Counter.SECURITY_COUNTER_OK)) eqn:E; [by right|left].
  apply bool_decide_eq_false, dec_stable in E as ->. split; [done|]. exists c. split; [done|].
  destruct (H _ Hh) as [_ H']. destruct (H' eq_refl) as (b'&->&->&_&_&->&_).
  rewrite <- Hw. unfold set, put. cbn [default from_option id]. proj. rewrite Hw.
  rewrite Hb. rewrite blit_0 by (change (record zero_work) with (replicate 112 0); rewrite blen_replicate; lia).
  rewrite drop_ge by (unfold blen in Hb; change (record zero_work) with (replicate 112 0); rewrite length_replicate; lia).
  by rewrite app_nil_r.
Qed.

(** Inside a call: the statics stand for [r0], the working record is [r]. *)
Definition mid (b r0 : bytes) (o : bool) (r : bytes) (s : state) : Prop :=
  base b r0 s ∧ record (w s) = r ∧ (o = true → ready_work (w s)).
Definition loaded (r : bytes) : work := zero_work <| record := r |> <| size := 112 |>.

Lemma key_wp_load s b r :
  idle s → base b r s →
  wp load s (λ x (s' : state),
    (x = inr tt ∧ base b r s' ∧ w s' = loaded r) ∨
    (x = inl SECURITY_KEYS_STORAGE ∧ broken s' ∧ keeps_holds (counters s) (counters s')))
    (λ _, False).
Proof.
  intros Hw Hb. pose proof Hb as (G1&G2&P1&P2&Hh&Lf&Hc&Ho).
  pose proof (key_good_phase b G1) as Hp. unfold load. apply key_wp_bind. unfold get, wp at 1.
  replace (security_keys_phase s =? SECURITY_KEYS_FAILED) with false by (unfold SECURITY_KEYS_FAILED; lia).
  replace (security_keys_phase s <? SECURITY_KEYS_PROVISIONED) with false by (unfold SECURITY_KEYS_PROVISIONED; lia).
  apply key_wp_bind. eapply key_wp_mono; [by apply (key_wp_read s b); [|apply G1|]| |done].
  intros x s1 [(->&c&K&->)|H]; [|destruct H as (->&?&?); by right].
  set (s1 := s <| counters := c |> <| w := _ |>).
  assert (base b r s1) as Hb1.
  { do 4 (split; [done|]). split; [by apply K|]. split; [done|]. split; [|done].
    destruct Hc as [?|[?|?]]; [by left|by right; left|]. right; right. by apply (proj2 K _ Hh). }
  apply key_wp_bind. unfold gets at 1, wp at 1. apply key_wp_bind. unfold gets at 1, wp at 1.
  change (record (w s1)) with b. change (size (w s1)) with 112.
  destruct G1 as [Ht Hv]. rewrite Hv, P1, Z.eqb_refl. cbn [negb orb].
  apply key_wp_bind. unfold set at 1, put at 1, wp at 1. cbv beta iota.
  change (floor_cache s1) with (floor_cache s). change (phase_cache s1) with (phase_cache s).
  unfold overlay in Ho. destruct (phase_cache s =? 0); unfold wp; left.
  - split; [done|]. split; [exact Hb1|]. unfold loaded. by rewrite <- Ho.
  - split; [done|]. split; [exact Hb1|]. unfold loaded. by rewrite <- Ho.
Qed.

(** ** Storing *)
Definition lost (b r0 : bytes) (d : M) : Prop :=
  holds (service_restart d) (λ x, x = b ∨ reaches r0 x).
Definition failed {A} (b r0 : bytes) (x : security_keys_result_t + A) (s : state) : Prop :=
  x = inl SECURITY_KEYS_STORAGE ∧ broken s ∧ holds (counters s) (λ x, x = b ∨ reaches r0 x).
Definition settled (r : bytes) (s : state) : Prop := live s r ∧ record (w s) = r.
Lemma key_overlay_kept (s : state) b r :
  blen b = 112 → good r → lags b r → floor_cache s = slice r NF 8 → phase_cache s = rd r PHASE →
  overlay s b = r.
Proof.
  intros Lb G Hl E1 E2. pose proof (key_good_phase r G) as Hp. destruct G as [[L B] _].
  unfold overlay. rewrite E1, E2. destruct (rd r PHASE =? 0) eqn:Ez.
  { unfold phase in Hp. replace (rd r PHASE) with 0 in Hp by lia. rewrite Z.land_0_l in Hp. lia. }
  unfold lags, volatile, NF, PHASE in *.
  assert (blen (slice r 80 8) = 8) as Ls by (apply blen_slice; lia).
  apply bytes_ext; [rewrite blen_wr, blen_blit; lia|]. intros i Hi. rewrite blen_wr, blen_blit in Hi.
  rewrite rd_wr by (rewrite ?blen_blit; lia). destruct (i =? 109) eqn:Ei; [by replace i with 109 by lia|].
  rewrite rd_blit, Ls by lia. destruct ((80 <=? i) && (i <? 80 + 8)) eqn:E.
  - rewrite rd_slice by lia. f_equal. lia.
  - apply Hl; lia.
Qed.
Lemma key_slice_112 r : blen r = 112 → slice r 0 112 = r.
Proof. intros L. by apply slice_all'. Qed.
Lemma key_wp_save b r0 o r s :
  mid b r0 o r s → reaches r0 r →
  wp save s (λ x s', (x = inr tt ∧ settled r s' ∧ w s' = w s) ∨ failed b r0 x s') (lost b r0).
Proof.
  intros (Hb&Hr&_) Hre. pose proof Hb as (G1&G2&P1&P2&Hh&Lf&Hc&Ho).
  pose proof (key_reaches_good r0 r G2 Hre) as G. pose proof G as [[L B] _].
  unfold save. apply key_wp_bind. unfold wp at 1, store. rewrite Hr.
  pose proof (save_law (counters s) _ r 112 (polls (w s)) Hh B ltac:(done) ltac:(lia)) as Hs.
  pose proof (staged_save (counters s) _ r 112 (polls (w s)) Hh B ltac:(done) ltac:(lia)) as Hst.
  rewrite key_slice_112 in Hs by done.
  assert (∀ x, x = b ∨ x = r → x = b ∨ reaches r0 x) as Hor by (intros x [-> | ->]; [by left|by right]).
  destruct (service_save _ _ _ _) as [[rc c]|d].
  2: { unfold lost. eapply holds_weaken; [|exact Hs]. exact Hor. }
  destruct (decide (rc = Counter.SECURITY_COUNTER_OK)) as [->|Hne].
  2: { rewrite bool_decide_eq_true_2 by done. right. split; [done|]. split; [done|].
       eapply holds_weaken; [|exact Hs]. exact Hor. }
  rewrite bool_decide_eq_false_2 by (by intros []). left.
  set (s' := _ <| phase_cache := _ |>).
  assert (security_keys_phase s' = phase r ∧ floor_cache s' = slice r NF 8 ∧ phase_cache s' = rd r PHASE ∧
          counters s' = c) as (E1&E2&E3&E4) by (rewrite <- Hr; done).
  split; [done|]. split; [|done]. split; [|exact Hr]. exists r. unfold base. rewrite E1, E2, E4.
  do 5 (split; [done|]). split; [unfold NF; apply blen_slice; lia|]. split; [right; right; auto|].
  apply key_overlay_kept; try done.
Qed.
(** Keeping the volatile octets: nothing is stored. *)
Lemma key_wp_keep b r0 o r s :
  mid b r0 o r s → good r → lags r0 r → phase r = phase r0 → phase r0 ≠ SECURITY_KEYS_PROVISIONED →
  wp keep_volatile s (λ x s', x = inr tt ∧ base b r s' ∧ w s' = w s) (λ _ : M, False).
Proof.
  intros (Hb&Hr&_) G Hl Hp Hne. pose proof Hb as (G1&G2&P1&P2&Hh&Lf&Hc&Ho). unfold wp, keep_volatile, put.
  set (s' := _ <| phase_cache := _ |>). split; [done|]. split; [|done].
  assert (floor_cache s' = slice r NF 8 ∧ phase_cache s' = rd r PHASE) as (E2&E3)
    by (rewrite <- Hr; done).
  unfold base. rewrite E2. change (security_keys_phase s') with (security_keys_phase s).
  pose proof G as [[L B] _]. do 3 (split; [done|]). split; [congruence|]. split; [done|].
  split; [unfold NF; apply blen_slice; lia|]. split; [right; left; congruence|].
  apply key_overlay_kept; try done; [apply G1|].
  eapply key_lags_trans; [by eapply key_base_lags|done].
Qed.

(** ** The end of a call

    It leaves a record that the life cycle reaches, of which [V] holds with the result; or the
    store has failed, or the supply was lost, and the stored record is an old or a reached one. *)
Definition ended {A} (b r0 : bytes) (V : security_keys_result_t + A → bytes → Prop)
    (x : security_keys_result_t + A) (s : state) : Prop :=
  (∃ r, live s r ∧ reaches r0 r ∧ V x r) ∨ failed b r0 x s.
Definition ends {A} (b r0 : bytes) V (m : E A) (s : state) : Prop := wp m s (ended b r0 V) (lost b r0).

Lemma key_holds_or c c' b r0 :
  holds c (λ x, x = b) → keeps_holds c c' → holds c' (λ x, x = b ∨ reaches r0 x).
Proof. intros H K. eapply holds_weaken; [|by apply K]. by left. Qed.
Lemma key_crashed_lost c b r0 d : holds c (λ x, x = b) → crashed c d → lost b r0 d.
Proof. intros H K. unfold lost. eapply holds_weaken; [|by apply K]. by left. Qed.
Lemma key_mid_base b r0 o r s : mid b r0 o r s → base b r0 s.
Proof. by intros []. Qed.
Lemma key_mid_steady b r0 o r s s' : mid b r0 o r s → steady o s s' → mid b r0 o r s'.
Proof.
  intros (Hb&Hr&Ho) St. split; [by eapply key_base_steady|]. destruct St as (_&E&_&Hk).
  split; [congruence|auto].
Qed.
Lemma key_mid_weaken b r0 o r s : mid b r0 o r s → mid b r0 false r s.
Proof. intros (H1&H2&_). by split. Qed.
Lemma key_ended_here {A} b r0 V (x : security_keys_result_t + A) s :
  base b r0 s → V x r0 → ended b r0 V x s.
Proof.
  intros Hb HV. left. exists r0. split; [by exists b|]. split; [|done]. apply key_reaches_refl, Hb.
Qed.
Lemma key_ends_throw {A} b r0 (V : security_keys_result_t + A → bytes → Prop) o r s e :
  mid b r0 o r s → V (inl e) r0 → ends b r0 V (throw e) s.
Proof. intros Hm HV. apply key_ended_here; [by eapply key_mid_base|done]. Qed.
Lemma key_ends_calm {A B} b r0 (V : security_keys_result_t + B → bytes → Prop) o r s (m : E A) (f : A → E B) :
  calm o m → mid b r0 o r s → (∀ e, V (inl e) r0) →
  (∀ a s', mid b r0 o r s' → ends b r0 V (f a) s') → ends b r0 V (bind m f) s.
Proof.
  intros Hc Hm HV Hf. apply key_wp_bind. eapply key_wp_mono; [apply Hc|..].
  - intros x s' [St|(->&Hbr&K)].
    + pose proof (key_mid_steady _ _ _ _ _ _ Hm St) as Hm'. destruct x as [e|a]; [|by apply Hf].
      by eapply key_ended_here; [eapply key_mid_base|].
    + right. split; [done|]. split; [done|]. eapply key_holds_or; [apply Hm|done].
  - intros d Hd. eapply key_crashed_lost; [apply Hm|done].
Qed.
Lemma key_ends_wire {A B} b r0 (V : security_keys_result_t + B → bytes → Prop) o r s
    (x : zigbee_security_result_t * option A) (f : A → E B) :
  mid b r0 o r s → (∀ e, V (inl e) r0) →
  (∀ a, x.2 = Some a → ends b r0 V (f a) s) → ends b r0 V (bind (wire x) f) s.
Proof.
  intros Hm HV Hf. unfold wire, check. destruct (decide _); [|by apply key_ended_here; [eapply key_mid_base|]].
  destruct x.2 as [a|] eqn:E; [by apply Hf|by apply key_ended_here; [eapply key_mid_base|]].
Qed.
Lemma key_ends_set {B} b r0 (V : security_keys_result_t + B → bytes → Prop) o r r' s g (f : () → E B) :
  mid b r0 o r s → record (g (w s)) = r' → (o = true → ready_work (w s) → ready_work (g (w s))) →
  (∀ s', mid b r0 o r' s' → w s' = g (w s) → ends b r0 V (f tt) s') → ends b r0 V (bind (set g) f) s.
Proof.
  intros (Hb&Hr&Ho) Hg Hw Hf. apply Hf; [|done]. split; [exact Hb|]. split; [exact Hg|]. auto.
Qed.
Lemma key_ends_save {B} b r0 (V : security_keys_result_t + B → bytes → Prop) o r s (f : () → E B) :
  mid b r0 o r s → reaches r0 r →
  (∀ s', settled r s' → w s' = w s → ends b r0 V (f tt) s') → ends b r0 V (bind save f) s.
Proof.
  intros Hm Hr Hf. apply key_wp_bind. eapply key_wp_mono; [by eapply key_wp_save| |done].
  intros x s' [(->&Hs&Hw)|(->&H)]; [by apply Hf|by right].
Qed.
(** A computation that ends where it is. *)
Lemma key_ends_pure {A} b r0 (V : security_keys_result_t + A → bytes → Prop) r s (m : E A) x :
  m s = Ret (x, s) → live s r → reaches r0 r → V x r → ends b r0 V m s.
Proof. unfold ends, wp. intros -> Hl Hr HV. left. by exists r. Qed.
Lemma key_ends_publish b r0 V r s capacity :
  live s r → reaches r0 r → (∀ x, V x r) → ends b r0 V (publish capacity) s.
Proof.
  intros Hl Hr HV. unfold ends, wp, publish, bind, gets.
  destruct (capacity <? _); (left; by exists r).
Qed.
Lemma key_ends_assoc {A B A'} b r0 (V : security_keys_result_t + B → bytes → Prop)
    (m : E A') (g : A' → E A) (f : A → E B) s :
  ends b r0 V (bind m (λ a, bind (g a) f)) s → ends b r0 V (bind (bind m g) f) s.
Proof. unfold ends, wp, bind. by destruct (m s) as [[[e|a] s']|d]. Qed.
Lemma key_ends_gets {A B} b r0 (V : security_keys_result_t + B → bytes → Prop) (g : work → A) (f : A → E B) s :
  ends b r0 V (f (g (w s))) s → ends b r0 V (bind (gets g) f) s.
Proof. done. Qed.
Lemma key_ends_load {B} b r0 (V : security_keys_result_t + B → bytes → Prop) s (f : () → E B) :
  idle s → base b r0 s →
  (∀ s', mid b r0 false r0 s' → w s' = loaded r0 → ends b r0 V (f tt) s') → ends b r0 V (bind load f) s.
Proof.
  intros Hi Hb Hf. apply key_wp_bind. eapply key_wp_mono; [by apply key_wp_load| |done].
  intros x s' [(->&Hb'&Hw)|(->&Hbr&K)].
  - apply Hf; [|done]. split; [done|]. split; [by rewrite Hw|done].
  - right. split; [done|]. split; [done|]. eapply key_holds_or; [apply Hb|done].
Qed.
Definition limits_typed (l : option Ccm.ccm_star_limits_t) : Prop :=
  match l with
  | Some l => is_u32 (Ccm.block_timeout l) ∧ is_u32 (Ccm.block_polls l)
  | None => True
  end.
Lemma key_ends_limits {B} b r0 (V : security_keys_result_t + B → bytes → Prop) o r s l p (f : bool → E B) :
  mid b r0 o r s → limits_typed l →
  (∀ s' l', Ccm.usable_limits l' → base b r0 s' → w s' = w s <| w_limits := l' |> <| polls := p |> →
   ends b r0 V (f true) s') →
  ends b r0 V (f false) s → ends b r0 V (bind (limits_ok l p) f) s.
Proof.
  intros (Hb&Hr&_) Hl Ht Hf. unfold limits_ok. destruct l as [l|]; [|done]. destruct Hl as [H1 H2].
  destruct (_ || _ || _ || _) eqn:E; [done|].
  unfold is_u32, Ccm.usable_limits in *. rewrite !orb_false_iff in E.
  apply (Ht _ l); [unfold Timebase.TIMEBASE_HALF_RANGE in *; lia|exact Hb|done].
Qed.
End Live.
End KeyLive.
