(* ===== verification/KeyStore.v ===== *)
(** The calls of the key store, each as steps of the life cycle on the record of its state. *)
From stdpp Require Import relations.
From S2P Require Import Prelude Flash NwkFrame BlockCipher Ccm Security EdWire Counter CounterService.
From S2P Require Import SecurityKeys KeyView KeyLife KeyWrites KeyCalls KeyLive.

Module KeyStore.
Import Security EdWire CounterService SecurityKeys KeyView KeyLife KeyWrites KeyCalls KeyLive.
#[local] Existing Instance SecurityKeys.state_fields.

Section Store.
Context {M C D : Type} `{SC : !CounterService M C} `{BC : !BlockCipher.BlockCipher D}.
Abbreviation state := (state (C := C) (D := D)).
Abbreviation E := (E (M := M) (C := C) (D := D)).

Definition any {A} (_ : security_keys_result_t + A) (_ : bytes) : Prop := True.

Lemma key_writes_reaches r r' : good r → writes r r' → reaches r r'.
Proof. intros G [H1 H2]. by apply key_reaches_step. Qed.
Lemma key_ends_refused {A} b r0 o r (s : state) e : mid b r0 o r s → ends b r0 any (throw (A := A) e) s.
Proof. intros H. by eapply key_ends_throw. Qed.
Lemma key_ends_ready {B} b r0 (s : state) out written l p (f : () → E B) :
  idle s → base b r0 s →
  (∀ s', mid b r0 false r0 s' → ends b r0 any (f tt) s') →
  ends b r0 any (bind (ready out written l p) f) s.
Proof.
  intros Hi Hb Hf. unfold ready. apply key_ends_assoc, key_ends_load; [done..|]. intros s1 H1 _.
  destruct (negb out || negb written); [by eapply key_ends_refused|].
  apply key_ends_assoc. eapply key_ends_calm; [apply key_calm_limits|done|done|].
  intros ok s2 H2. destruct (negb ok); [by eapply key_ends_refused|by apply Hf].
Qed.
(** A written record, then stored. *)
Lemma key_ends_write {B} b r0 r (s : state) g (f : () → E B) :
  mid b r0 false r0 s → (∀ x, record x = r0 → record (g x) = r) → writes r0 r →
  (∀ s', live s' r → ends b r0 any (f tt) s') → ends b r0 any (bind (set g) (λ _, bind save f)) s.
Proof.
  intros Hm Hg Hw Hf. eapply (key_ends_set _ _ _ _ _ r); [exact Hm|apply Hg, Hm|done|].
  intros s1 H1 _. eapply key_ends_save; [exact H1| |].
  - apply key_writes_reaches; [apply Hm|done].
  - intros s2 [H2 _] _. by apply Hf.
Qed.
Lemma key_ends_next b r0 (s : state) value capacity :
  mid b r0 false r0 s → writes r0 (set_phase r0 value) →
  ends b r0 any (bind (next_phase value) (λ _, publish capacity)) s.
Proof.
  intros Hm Hw. unfold next_phase. apply key_ends_assoc.
  eapply key_ends_write; [done| |exact Hw|].
  - by intros x <-.
  - intros s' Hl. apply (key_ends_publish _ _ _ (set_phase r0 value)); [done| |done].
    apply key_writes_reaches; [apply Hm|done].
Qed.
Ltac calm_step := eapply key_ends_calm; [|eassumption|done|intros ? ? ?].
Ltac reject := match goal with |- ends _ _ _ (if ?c then _ else _) _ =>
  destruct c eqn:?; [by eapply key_ends_refused|] end.


(** ** Calls *)
Definition served {A} (b r0 : bytes) (V : security_keys_result_t + A → bytes → Prop)
    (y : outcome M (security_keys_result_t * option A * state)) : Prop :=
  match y with
  | Ret (res, v, s') =>
      idle s' ∧ ∃ x, res = code x ∧ v = value x ∧
      ((∃ r, live s' r ∧ reaches r0 r ∧ V x r) ∨
       (res = SECURITY_KEYS_STORAGE ∧ broken s' ∧ holds (counters s') (λ y, y = b ∨ reaches r0 y)))
  | Lost d => lost b r0 d
  end.
Lemma key_live_finish (s : state) r e : live s r → live (finish s e) r.
Proof.
  intros (b&G1&G2&P1&P2&H). exists b. unfold finish.
  destruct (security_keys_phase _ =? _); by do 4 (split; [done|]).
Qed.
Lemma key_served {A} b r0 V (m : E A) s : ends b r0 V m s → served b r0 V (call m s).
Proof.
  unfold ends, wp, served, call. destruct (m s) as [[x s']|d]; [|done]. intros H.
  split; [unfold idle, finish; by destruct (_ =? _)|]. exists x. split; [done|]. split; [done|].
  destruct H as [(r&Hl&Hr&HV)|(->&[H1 H2]&H3)].
  - left. exists r. split; [by apply key_live_finish|done].
  - right. split; [done|]. unfold finish, broken. proj. rewrite H1. done.
Qed.


(** The phase of a valid record is one of nine. *)
Lemma key_phase_cases r :
  good r → phase r = 2 ∨ phase r = 3 ∨ phase r = 4 ∨ phase r = 5 ∨ phase r = 6 ∨ phase r = 7 ∨
           phase r = 8 ∨ phase r = 9 ∨ phase r = 10.
Proof. intros H%key_good_phase. lia. Qed.
Ltac by_phase r G Ep :=
  let H := fresh "Hp" in pose proof (key_phase_cases r G) as H;
  repeat destruct H as [H|H]; rewrite H in *; try (exfalso; revert Ep; vm_compute; discriminate); auto.
Lemma key_request_served nwk_seq aps_counter out capacity written l p b r0 s :
  idle s → base b r0 s →
  served b r0 any (security_keys_request nwk_seq aps_counter out capacity written l p s).
Proof.
  intros Hi Hb. apply key_served, key_ends_ready; [done..|]. intros s1 H1.
  apply key_ends_gets. rewrite (proj1 (proj2 H1)). destruct (_ && negb _) eqn:Ep; [by eapply key_ends_refused|].
  reject.
  do 3 (calm_step; [first [apply key_calm_command|apply key_calm_payload|apply key_calm_seal]|]).
  eapply key_ends_next; [eassumption|]. apply key_write_request; [apply Hb|].
  pose proof (proj1 (proj2 Hb)) as G. by_phase r0 G Ep.
Qed.
Lemma key_verify_served nwk_seq aps_counter out capacity written l p b r0 s :
  idle s → base b r0 s →
  served b r0 any (security_keys_verify nwk_seq aps_counter out capacity written l p s).
Proof.
  intros Hi Hb. apply key_served, key_ends_ready; [done..|]. intros s1 H1.
  apply key_ends_gets. rewrite (proj1 (proj2 H1)). destruct (1 <? u8 _) eqn:Ep; [by eapply key_ends_refused|].
  reject.
  do 3 (calm_step; [first [apply key_calm_command|apply key_calm_payload|apply key_calm_hash]|]).
  calm_step; [by apply key_calm_set|]. calm_step; [apply key_calm_seal|].
  eapply key_ends_next; [eassumption|]. apply key_write_verify; [apply Hb|].
  pose proof (proj1 (proj2 Hb)) as G. by_phase r0 G Ep.
Qed.
Lemma key_leave_served nwk_seq out capacity written l p b r0 s :
  idle s → base b r0 s →
  served b r0 any (security_keys_leave nwk_seq out capacity written l p s).
Proof.
  intros Hi Hb. apply key_served, key_ends_ready; [done..|]. intros s1 H1.
  apply key_ends_gets. rewrite (proj1 (proj2 H1)).
  calm_step.
  { apply key_calm_if; [apply key_calm_ret|]. apply key_calm_if; [apply key_calm_throw|].
    apply key_calm_bind; [apply key_calm_leave|]. intros _. apply key_calm_seal. }
  assert (writes r0 (wr (set_phase r0 SECURITY_KEYS_LEFT) FLAGS
    (without (rd (set_phase r0 SECURITY_KEYS_LEFT) FLAGS) REJOIN_ALLOWED))) as Hw
    by (apply (key_write_leave r0 ltac:(apply Hb) false); by right).
  eapply key_ends_write; [eassumption| |exact Hw|].
  - by intros x <-.
  - intros s3 Hl. assert (reaches r0 _) as Hr by (apply key_writes_reaches; [apply Hb|exact Hw]).
    destruct (network r0); [by eapply key_ends_publish|by eapply key_ends_pure].
Qed.
Lemma key_status_served out b r0 s :
  idle s → base b r0 s → served b r0 any (security_keys_status out s).
Proof.
  intros Hi Hb. apply key_served. unfold ends, wp, bind, get at 1. cbv beta iota zeta.
  pose proof (key_good_phase r0 (proj1 (proj2 Hb))) as Hp. pose proof Hb as (_&_&_&P2&_).
  destruct (negb out); [by apply (key_ended_here b r0)|].
  replace ((security_keys_phase s <? SECURITY_KEYS_PROVISIONED) || (security_keys_phase s =? SECURITY_KEYS_FAILED))
    with false by (unfold SECURITY_KEYS_PROVISIONED, SECURITY_KEYS_FAILED; lia).
  apply (key_ends_load (M := M)); [done..|]. intros s1 H1 _. by apply (key_ended_here b r0); [eapply key_mid_base|].
Qed.

(** The replies that [security_keys_open] and the first calls give outside these phases. *)
Lemma key_set_phase_state r value :
  record_typed r → 2 <= value <= 10 → phase (set_phase r value) = value.
Proof.
  intros Hr Hv. change (v_state (view_of (set_phase r value)) = value).
  rewrite key_view_set_phase by apply Hr.
  apply key_phase_octet; [by apply key_rd_u8|by apply key_phases].
Qed.
(** Without a cached phase octet, a record with the cached floors is its own overlay. *)
Lemma key_overlay_floors (s : state) b r :
  phase_cache s = 0 → blen (floor_cache s) = 8 → blen b = 112 → blen r = 112 →
  (∀ i, NF <= i < NF + 8 → rd r i = rd (overlay s b) i) → overlay s r = r.
Proof.
  unfold overlay, NF. intros -> Lf Lb Lr H. cbn [Z.eqb] in *.
  apply bytes_ext; [by rewrite blen_blit|]. intros i Hi. rewrite blen_blit in Hi.
  rewrite rd_blit, Lf by lia. destruct ((80 <=? i) && (i <? 80 + 8)) eqn:E; [|done].
  rewrite H by lia. rewrite rd_blit, Lf by lia. by rewrite E.
Qed.
Lemma key_associate_served a l b r0 s :
  idle s → base b r0 s → is_u16 a → served b r0 any (security_keys_associate a l s).
Proof.
  intros Hi Hb Ha. apply key_served, key_ends_load; [done..|]. intros s1 H1 Hw1.
  apply key_ends_gets. rewrite (proj1 (proj2 H1)). do 3 reject.
  assert (writes r0 (set_phase (write_le16 r0 ADDR a) SECURITY_KEYS_ASSOCIATED)) as Hwr
    by (apply key_write_associate; [apply Hb|..]; unfold SECURITY_KEYS_PROVISIONED, is_u16 in *; lia).
  pose proof Hb as (_&[Ht _]&_).
  assert (phase (set_phase (write_le16 r0 ADDR a) SECURITY_KEYS_ASSOCIATED) = SECURITY_KEYS_ASSOCIATED) as Hph
    by (by apply key_set_phase_state; [apply key_typed_le16|]).
  assert (∀ i, NF <= i < NF + 8 →
    rd (set_phase (write_le16 r0 ADDR a) SECURITY_KEYS_ASSOCIATED) i = rd r0 i) as Hnf.
  { intros i Hi'. pose proof (proj1 (key_typed_le16 r0 ADDR a Ht)) as L1.
    rewrite key_set_phase by done. unfold NF in Hi'. rewrite rd_wr by (unfold PHASE; lia).
    replace (i =? PHASE) with false by (unfold PHASE; lia). unfold write_le16, ADDR.
    pose proof (proj1 Ht) as L0. rewrite !rd_wr by (rewrite ?blen_wr; lia).
    replace (i =? 102 + 1) with false by lia. by replace (i =? 102) with false by lia. }
  set (r := set_phase (write_le16 r0 ADDR a) SECURITY_KEYS_ASSOCIATED) in *.
  pose proof Hb as (G1&G2&_). assert (reaches r0 r) as Hre by by apply key_writes_reaches.
  pose proof (key_reaches_good r0 r G2 Hre) as G.
  eapply (key_ends_set _ _ _ _ _ r); [exact H1|unfold r; by rewrite <- (proj1 (proj2 H1))|done|].
  intros s2 H2 _. destruct H2 as (Hb2&Hr2&_). pose proof Hb2 as (_&_&P1&P2&Hh&Lf&Hc&Ho).
  pose proof G as [[L B] _].
  apply key_wp_bind. unfold wp at 1. rewrite Hr2.
  pose proof (restage_law (counters s2) _ r 112 Hh B ltac:(done) ltac:(lia)) as Hlaw.
  pose proof (staged_restage (counters s2) r 112) as Hst.
  rewrite key_slice_112 in Hlaw by done.
  destruct (service_restage (counters s2) r 112) as [rc c]. cbn [fst snd] in Hst.
  destruct (decide (rc = Counter.SECURITY_COUNTER_OK)) as [->|Hne].
  - rewrite bool_decide_eq_true_2 by done. unfold wp, put. left. exists r. split; [|done]. exists r.
    assert (phase_cache s2 = 0) as Hpc.
    { destruct Hc as [?|[?|Hs]]; [done| |by apply Hst in Hs as [? _]].
      unfold SECURITY_KEYS_PROVISIONED in *. lia. }
    unfold base. proj. rewrite Hph. do 5 (split; [done|]). split; [done|]. split; [by left|].
    apply (key_overlay_floors s2 b); try done; [apply G1|]. intros i Hi2. by rewrite Ho, Hnf.
  - rewrite bool_decide_eq_false_2 by done.
    assert (base b r0 (s2 <| counters := c |>)) as Hb3.
    { do 4 (split; [done|]). split; [done|]. split; [done|]. split; [|done].
      destruct Hc as [?|[?|Hs]]; [by left|by right; left|]. right; right. by apply Hst. }
    eapply key_wp_mono; [by eapply (key_wp_save b r0 false r)| |done].
    intros x s3 [(->&[H3 _]&_)|H3]; [|by right]. left. by exists r.
Qed.

(** ** Sending *)
Definition asks (pk : ed_packet_t) : bool :=
  (Nwk.type (nwk pk) =? ED_NWK_COMMAND) && (rd (p_payload pk) 0 =? 11).
Lemma key_sendable_command r pk a t :
  sendable_command r pk a = inr t →
  (t = SECURITY_KEYS_LEFT ∧ rd (p_payload pk) 0 = 4) ∨ (t = 0 ∧ rd (p_payload pk) 0 = 11) ∨
  (t = SECURITY_KEYS_REJOINING ∧ rd (p_payload pk) 0 = 6 ∧ verified r = true ∧
   (has (rd r FLAGS) RETIRED = true ∨ all (at_ r PK) 16 0 = true)).
Proof.
  unfold sendable_command. destruct (a || _); [done|].
  destruct (rd (p_payload pk) 0 =? 6) eqn:E6.
  - destruct (negb (verified r)) eqn:Ev; cbn [orb]; [done|].
    destruct (_ || _ || _ || _); [done|].
    destruct (has (rd r FLAGS) RETIRED) eqn:Er; cbn [negb andb].
    + destruct (_ && _ && _); [done|]. intros [= <-]. right; right. apply negb_false_iff in Ev. auto with lia.
    + destruct (all (at_ r PK) 16 0) eqn:Ea; cbn [negb]; [|done].
      destruct (_ && _ && _); [done|]. intros [= <-]. right; right. apply negb_false_iff in Ev. auto with lia.
  - destruct (rd (p_payload pk) 0 =? 4) eqn:E4.
    + destruct (_ || _ || _ || _ || _); [done|]. intros [= <-]. left. auto with lia.
    + destruct (_ || _ || _ || _ || _) eqn:E; [done|]. intros [= <-]. right; left. split; [done|].
      destruct (rd (p_payload pk) 0 =? 11) eqn:E11; [lia|done].
Qed.
Lemma key_sendable r pk a t :
  sendable r pk a = inr t →
  (t = 0 ∧ phase r ≠ 9 ∧ phase r ≠ 10) ∨
  (asks pk = false ∧ (t = SECURITY_KEYS_LEFT ∨
     (t = SECURITY_KEYS_REJOINING ∧ verified r = true ∧
      (has (rd r FLAGS) RETIRED = true ∨ all (at_ r PK) 16 0 = true)))).
Proof.
  unfold sendable, asks. destruct (negb _); [done|].
  assert (∀ t', (if (((phase r =? SECURITY_KEYS_LEFT) || (phase r =? SECURITY_KEYS_REJOINING)) && (t' =? 0))
                 then inl SECURITY_KEYS_STATE else inr t') = (inr t : security_keys_result_t + Z) →
    t' = t ∧ (t = 0 → phase r ≠ 9 ∧ phase r ≠ 10)) as H.
  { intros t'. destruct (_ && _) eqn:E; [done|]. intros [= <-]. split; [done|].
    unfold SECURITY_KEYS_LEFT, SECURITY_KEYS_REJOINING in *. lia. }
  destruct (Nwk.type (nwk pk) =? ED_NWK_COMMAND).
  - destruct (sendable_command r pk a) as [e|t'] eqn:E; [done|].
    intros [-> H2]%H. apply key_sendable_command in E as [(->&->)|[(->&_)|(->&->&?)]].
    + right. auto.
    + left. by split; [|apply H2].
    + right. auto.
  - destruct (sendable_aps r pk a) as [e|t'] eqn:E; [done|]. intros [-> H2]%H.
    assert (t = 0) as ->; [|left; by split; [|apply H2]].
    revert E. unfold sendable_aps.
    repeat match goal with |- (if ?c then _ else _) = _ → _ => destruct c; [done|] end. by intros [= <-].
Qed.
Lemma key_ends_value {A B} b r0 V (x : A) (f : A → E B) s :
  ends b r0 V (f x) s → ends b r0 V (bind (ret x) f) s.
Proof. done. Qed.
(** The last part of a transmission that stores a step, and of one that does not. *)
Lemma key_ends_sent b r0 r1 capacity t pk (s : state) :
  mid b r0 false r1 s → t ≠ 0 → asks pk = false → (∀ p, writes r0 (sent t r1 p)) →
  ends b r0 any
    (bind (if t =? 0 then ret tt
           else bind (set (λ w, w <| record := sent t (record w) (p_payload (packet w)) |>)) (λ _, save))
      (λ _, bind (if asks pk
                  then bind (set (λ w, w <| record := wr (record w) PHASE (Z.lor (rd (record w) PHASE) TIMEOUT_PENDING) |>))
                            (λ _, keep_volatile) else ret tt)
        (λ _, publish capacity))) s.
Proof.
  intros Hm Ht Ha Hw. replace (t =? 0) with false by lia. rewrite Ha.
  apply key_ends_assoc. pose proof Hm as (Hb&Hr1&_).
  pose proof (Hw (p_payload (packet (w s)))) as Hw1.
  eapply (key_ends_set _ _ _ _ _ (sent t r1 (p_payload (packet (w s))))); [exact Hm|by rewrite <- Hr1|done|].
  intros s2 H2 _. assert (reaches r0 (sent t r1 (p_payload (packet (w s))))) as Hre
    by (apply key_writes_reaches; [apply Hb|done]).
  eapply key_ends_save; [exact H2|done|]. intros s3 [H3 _] _. apply key_ends_value.
  by eapply key_ends_publish.
Qed.
Lemma key_ends_asked b r0 capacity pk (s : state) :
  mid b r0 false r0 s → network r0 = true → phase r0 ≠ 9 → phase r0 ≠ 10 →
  ends b r0 any
    (bind (if asks pk
           then bind (set (λ w, w <| record := wr (record w) PHASE (Z.lor (rd (record w) PHASE) TIMEOUT_PENDING) |>))
                     (λ _, keep_volatile) else ret tt)
       (λ _, publish capacity)) s.
Proof.
  intros Hm Hn H9 H10. pose proof Hm as (Hb&Hr&_). pose proof Hb as (_&G&_). pose proof G as [Ht _].
  destruct (asks pk).
  2: { apply key_ends_value. eapply key_ends_publish; [by exists b| |done]. by apply key_reaches_refl. }
  pose proof (key_write_ask r0 Ht Hn H9 H10) as Hw.
  apply key_ends_assoc.
  eapply (key_ends_set _ _ _ _ _ (wr r0 PHASE (Z.lor (rd r0 PHASE) TIMEOUT_PENDING))); [exact Hm|by rewrite <- Hr|done|].
  intros s2 H2 _. set (r := wr r0 PHASE _) in *.
  assert (reaches r0 r) as Hre by by apply key_writes_reaches.
  assert (phase r = phase r0) as Hp.
  { unfold phase, r. rewrite rd_wr by (unfold PHASE; pose proof (proj1 Ht); lia). rewrite Z.eqb_refl, Z.land_lor_distr_l.
    change (Z.land TIMEOUT_PENDING PHASE_MASK) with 0. apply Z.lor_0_r. }
  apply key_wp_bind. eapply key_wp_mono; [apply (key_wp_keep b r0 false r s2 H2)| |done].
  - by eapply key_reaches_good.
  - intros i Hi' Hv. unfold r. rewrite rd_wr by (unfold PHASE; pose proof (proj1 Ht); lia).
    unfold volatile in Hv. by replace (i =? PHASE) with false by lia.
  - done.
  - intros Hp2. pose proof (key_networked (view_of r0)) as _. destruct (key_network_address (view_of r0)) as [_ H4].
    + by apply key_good.
    + exact Hn.
    + change (v_state (view_of r0)) with (phase r0) in H4. unfold SECURITY_KEYS_PROVISIONED in *. lia.
  - intros x s3 (->&Hb3&_). eapply key_ends_publish; [by exists b|done|done].
Qed.
Lemma key_send_served pk a out capacity written l p b r0 s :
  idle s → base b r0 s →
  served b r0 any (security_keys_send pk a out capacity written l p s).
Proof.
  intros Hi Hb. apply key_served, key_ends_load; [done..|]. intros s1 H1 Hw1.
  destruct pk as [pk|]; [|by eapply key_ends_refused]. reject.
  calm_step; [apply key_calm_limits|]. reject.
  apply key_ends_gets. match goal with H : mid _ _ _ _ ?s |- context [record (w ?s)] =>
    rewrite (proj1 (proj2 H)) end.
  destruct (negb (network r0)) eqn:En; [by eapply key_ends_refused|]. apply negb_false_iff in En.
  calm_step; [by apply key_calm_set|].
  pose proof Hb as (_&G&_). pose proof G as [Ht _].
  destruct (sendable r0 pk (negb (a =? 0))) as [e|t] eqn:Es; [by apply key_ends_refused with false r0|].
  apply key_ends_value. apply key_sendable in Es as [(->&H9&H10)|(Ha&Ht')].
  - apply key_ends_value. calm_step; [apply key_calm_seal|]. apply key_ends_gets. reject.
    apply key_ends_value. by apply key_ends_asked.
  - destruct Ht' as [->|(->&Hv&Hret)].
    + apply key_ends_value. calm_step; [apply key_calm_seal|]. apply key_ends_gets. reject.
      eapply key_ends_sent; [eassumption|done|done|]. intros q.
      apply (key_write_leave r0 Ht (has (rd q 1) 0x20)). by left.
    + eapply (key_ends_set _ _ _ _ _ (wr r0 PHASE (without (rd r0 PHASE) (Z.lor PARENT_MASK TIMEOUT_PENDING))));
        [eassumption| |done|].
      { match goal with H : mid _ _ _ _ ?s |- context [w ?s] => by rewrite <- (proj1 (proj2 H)) end. }
      intros s5 H5 _. calm_step; [apply key_calm_seal|]. apply key_ends_gets. reject.
      eapply key_ends_sent; [eassumption|done|done|]. intros q. by apply key_write_rejoin.
Qed.
End Store.
End KeyStore.
