(* ===== verification/KeyReceive.v ===== *)
(** Reception by the key store as steps of the life cycle: the network layer, the application
    layer, the commands, and what a call keeps of them. *)
From stdpp Require Import relations.
From S2P Require Import Prelude Flash ApsFrame NwkFrame BlockCipher Mmo Ccm Security EdWire Counter.
From S2P Require Import CounterService SecurityKeys KeyView KeyLife KeyWrites KeyCalls KeyLive KeyStore.

Module KeyReceive.
Import Security EdWire CounterService SecurityKeys KeyView KeyLife KeyWrites KeyCalls KeyLive KeyStore.
#[local] Existing Instance SecurityKeys.state_fields.

(** ** Typed packets *)
Definition packet_octets (p : ed_packet_t) : Prop := blen (p_payload p) = 82 ∧ is_bytes (p_payload p).
Lemma key_decode_octets f n p : is_bytes f → ed_wire_decode (Some f) n true = (ZIGBEE_SECURITY_OK, Some p) → packet_octets p.
Proof.
  intros Hf. unfold ed_wire_decode, published. cbn [negb].
  destruct (decode f n) as [e|q] eqn:E; [done|]. intros [= <-]. revert E. unfold decode.
  destruct (read_nwk (Some f) n true) as [|i]; [done|]. destruct (has _ _); [done|]. cbv zeta.
  assert (∀ x o z, p_payload x = replicate 82 0 → packet_body f x o z = inr q → packet_octets q) as H.
  { intros x o z Hx. unfold packet_body. destruct (ED_PAYLOAD_MAX <? z); [done|]. intros [= <-].
    split; cbn [p_payload]; rewrite Hx; [by rewrite blen_blit|].
    apply is_bytes_blit; [by concrete|by apply is_bytes_slice]. }
  destruct (Nwk.type _ =? 0).
  - destruct (read_aps _ _ true) as [|a]; [done|].
    repeat match goal with |- (if ?c then inl _ else _) = _ → _ => destruct c; [done|] end. by apply H.
  - destruct (Nwk.payload_length i =? 0); [done|]. by apply H.
Qed.
Lemma key_inspect_meta layer f n m :
  is_bytes f → n <= blen f → 0 <= layer → ed_wire_inspect layer (Some f) n true = (ZIGBEE_SECURITY_OK, Some m) →
  is_u32 (m_counter m) ∧ m_counter m ≠ 0xffffffff ∧ m_extended_nonce m = 1.
Proof.
  intros Hf Hn Hl. unfold ed_wire_inspect. cbn [negb].
  destruct (inspect layer f n) as [r|[m' t]] eqn:E; [done|]. intros [= <-].
  destruct (ed_inspect_nonce layer f n m' t E Hf) as [H1 H2]. split; [|done].
  unfold inspect in E. destruct (header layer f n) as [|[h t']] eqn:Eh; [done|].
  destruct (ed_header_local layer f n h t' Eh Hl Hf Hn) as (_&Hh&_&_).
  destruct (negb _); [done|]. destruct (n <? h + 5) eqn:E5; [done|].
  assert (m_counter m' = read_counter f (h + 1)) as ->.
  { revert E. repeat match goal with |- (if ?c then inl _ else _) = _ → _ => destruct c; [done|] end.
    by intros [= <- _]. }
  apply security_counter_read; [done|lia..].
Qed.

Section Reception.
Context {M C D : Type} `{SC : !CounterService M C} `{BC : !BlockCipher.BlockCipher D}.
Abbreviation state := (state (C := C) (D := D)).
Abbreviation E := (E (M := M) (C := C) (D := D)).
Variables b r0 : bytes.
Implicit Types s : state.

(** ** Commands

    Of a command that is read from the working record [r]: a refusal writes nothing; an accepted
    one is a step, or leaves the record. *)
Definition kept (r r' : bytes) : Prop := lags r r' ∧ phase r' = phase r.
Definition reads (s s' : state) : Prop :=
  w_secured (w s') = w_secured (w s) ∧ aps_secured (w s') = aps_secured (w s) ∧ pending (w s') = pending (w s).
Definition commanded (r : bytes) (s : state) (x : security_keys_result_t + ()) (s' : state) : Prop :=
  reads s s' ∧
  match x with
  | inl _ => mid b r0 true r s'
  | inr _ => ∃ r', mid b r0 true r' s' ∧ (r' = r ∨ writes r r') ∧ 0 <= event (w s') <= 9 ∧
      (event (w s') <= SECURITY_KEYS_EVENT_MANAGEMENT → kept r r') ∧
      (pending (w s) ≠ 0 → v_lk (view_of r') ≠ v_lk (view_of r))
  end.
Definition command_ok (r : bytes) (m : E ()) (s : state) : Prop := wp m s (commanded r s) (λ _, False).

Lemma key_kept_refl r : kept r r.
Proof. done. Qed.
Lemma key_kept_trans r1 r2 r3 : kept r1 r2 → kept r2 r3 → kept r1 r3.
Proof. intros [A1 A2] [B1 B2]. split; [by eapply key_lags_trans|congruence]. Qed.
Lemma key_ready_record x r e : ready_work x → record_typed r → ready_work (x <| record := r |> <| event := e |>).
Proof. intros (H1&H2&_&H4&H5) Hr. by do 3 (split; [done|]). Qed.
Lemma key_mid_record (r r' : bytes) s e :
  mid b r0 true r s → record_typed r' →
  mid b r0 true r' (s <| w := w s <| record := r' |> <| event := e |> |>).
Proof.
  intros (Hb&_&Hw) Hr'. split; [exact Hb|]. split; [done|]. intros Ho. apply key_ready_record; [by apply Hw|done].
Qed.
Lemma key_command_throw r s e : mid b r0 true r s → command_ok r (throw e) s.
Proof. intros H. by split. Qed.
Lemma key_command_event r s e :
  mid b r0 true r s → 0 <= e <= 9 → pending (w s) = 0 → command_ok r (set (λ w, w <| event := e |>)) s.
Proof.
  intros Hm He Hp. split; [done|]. exists r. pose proof Hm as (Hb&Hr&Hw).
  split; [|split; [by left|]; split; [done|]; split; [|done]; intros _; apply key_kept_refl].
  split; [exact Hb|]. split; [exact Hr|]. exact Hw.
Qed.
Lemma key_command_accept r r' s e :
  mid b r0 true r s → writes r r' → 2 <= e <= 9 →
  pending (w s) = 0 ∨ v_lk (view_of r') ≠ v_lk (view_of r) → command_ok r (accept r' e) s.
Proof.
  intros Hm Hw He Hp. split; [done|]. exists r'. split; [by apply (key_mid_record r); [|apply Hw]|].
  split; [by right|]. unfold SECURITY_KEYS_EVENT_MANAGEMENT. proj. split; [lia|]. split; [lia|].
  intros Hne. by destruct Hp.
Qed.
Lemma key_command_stay r s e :
  mid b r0 true r s → record_typed r → 0 <= e <= 9 → pending (w s) = 0 → command_ok r (accept r e) s.
Proof.
  intros Hm Hr He Hp. split; [done|]. exists r. split; [by apply (key_mid_record r)|].
  split; [by left|]. split; [done|]. split; [|done]. intros _. apply key_kept_refl.
Qed.
Lemma key_command_keep r r' s e :
  mid b r0 true r s → writes r r' → kept r r' → 0 <= e <= 9 → pending (w s) = 0 → command_ok r (accept r' e) s.
Proof.
  intros Hm Hw Hk He Hp. split; [done|]. exists r'. split; [by apply (key_mid_record r); [|apply Hw]|].
  split; [by right|]. done.
Qed.
Lemma key_command_if r (c : bool) (m n : E ()) s :
  command_ok r m s → command_ok r n s → command_ok r (if c then m else n) s.
Proof. by destruct c. Qed.

(** Refusals, one after the other. *)
Ltac refuse := match goal with
  | |- command_ok _ (if ?c then throw _ else _) _ => destruct c eqn:?; [by eapply key_command_throw|]
  | |- command_ok _ (if ?c then _ else _) _ => destruct c eqn:?
  end.
Section commands.
Variables (r : bytes) (s : state).
Hypothesis Hm : mid b r0 true r s.
Hypothesis Hp : packet_octets (packet (w s)).
Hypothesis G : good r.
Let p := p_payload (packet (w s)).
Let Lp : blen p = 82 := proj1 Hp.
Let Bp : is_bytes p := proj2 Hp.
Let Hr : record_typed r := proj1 G.

Lemma key_slot_of i q :
  slot_of r q = Some i → (i = 0 ∨ i = 1) ∧ has (rd r FLAGS) (Z.shiftl 1 i) = true ∧ rd r (SEQ + i) = q.
Proof.
  unfold slot_of. destruct (_ && (rd r (SEQ + 0) =? q)) eqn:E0.
  - intros [= <-]. apply andb_true_iff in E0 as [? ?]. split; [by left|]. split; [done|lia].
  - destruct (_ && (rd r (SEQ + 1) =? q)) eqn:E1; [|done]. intros [= <-].
    apply andb_true_iff in E1 as [? ?]. split; [by right|]. split; [done|lia].
Qed.
Lemma key_slot_none q :
  slot_of r q = None → ∀ j, j = 0 ∨ j = 1 → has (rd r FLAGS) (Z.shiftl 1 j) = true → q ≠ rd r (SEQ + j).
Proof.
  unfold slot_of. destruct (_ && (rd r (SEQ + 0) =? q)) eqn:E0; [done|].
  destruct (_ && (rd r (SEQ + 1) =? q)) eqn:E1; [done|]. intros _ j Hj Hpr.
  destruct Hj as [-> | ->]; rewrite Hpr in *; cbn [andb] in *; lia.
Qed.
Lemma key_network_key : pending (w s) = 0 → command_ok r (network_key r p) s.
Proof.
  intros Hpd.
  unfold network_key. cbv zeta. destruct (slot_of r (rd p 18)) as [i|] eqn:Es.
  - refuse. by apply key_command_event.
  - pose proof (key_slot_none _ Es) as Hq. pose proof (rd_is_u8 p 18 Bp) as H18.
    refuse. refuse.
    + refuse. apply key_command_accept; [done| |done|by left].
      apply key_write_first; try done; [|by apply negb_true_iff].
      by apply Z.eqb_eq, negb_false_iff.
    + refuse. refuse. apply key_command_accept; [done| |done|by left].
      apply key_write_next; try done; by apply negb_false_iff.
Qed.
Lemma key_command_get (f : work → E ()) : command_ok r (f (w s)) s → command_ok r (bind (gets id) f) s.
Proof. done. Qed.
Let Hrec : record (w s) = r := proj1 (proj2 Hm).
Lemma key_transport : command_ok r transport s.
Proof.
  unfold transport. apply key_command_get. cbv zeta. rewrite Hrec. fold p.
  refuse. assert (pending (w s) = 0) as Hpd.
  { rewrite !orb_false_iff, negb_false_iff, Z.eqb_eq in *. tauto. }
  refuse. refuse. refuse. refuse.
  destruct (rd p 1 =? 4) eqn:E4; [|by apply key_network_key]. refuse. refuse.
  apply key_command_accept; [done| |done|by left]. apply key_write_offer; try done.
  by apply Z.eqb_eq, negb_false_iff.
Qed.
Lemma key_aps_command : command_ok r aps_command s.
Proof.
  unfold aps_command. apply key_command_get. cbv zeta. rewrite Hrec. fold p. refuse.
  destruct (rd p 0 =? 5) eqn:E5; [apply key_transport|].
  destruct (rd p 0 =? 16) eqn:E16.
  - refuse. refuse. refuse. apply orb_false_iff in Heqb1 as [_ Hph].
    assert (writes r (confirmed r (m_counter (w_meta (w s))))) as Hw
      by (apply key_write_confirm; [done|]; by apply Z.eqb_eq, negb_false_iff).
    set (s1 := s <| w := w s <| w_key := w_key (w s) <| Security.key := slice r LK 16 |> |> |>).
    assert (mid b r0 true r s1) as Hm1.
    { pose proof Hm as (Hb&_&Hrw). split; [exact Hb|]. split; [exact Hrec|]. intros Ho.
      apply key_ready_material; [by apply Hrw|]. apply blen_slice; unfold LK; [lia..|]. pose proof (proj1 Hr). lia. }
    assert (v_lk (view_of (confirmed r (m_counter (w_meta (w s))))) ≠ v_lk (view_of r)) as Hlk
      by (apply key_confirm_changes; [done|by apply key_good|]; by apply Z.eqb_eq, negb_false_iff).
    exact (key_command_accept r (confirmed r (m_counter (w_meta (w s)))) s1 SECURITY_KEYS_EVENT_VERIFIED Hm1 Hw
      ltac:(done) (or_intror Hlk)).
  - destruct (rd p 0 =? 9) eqn:E9; [|by eapply key_command_throw].
    refuse. assert (pending (w s) = 0) as Hpd.
    { rewrite !orb_false_iff, negb_false_iff, Z.eqb_eq in *. tauto. }
    refuse. destruct (rd p 1 =? _) eqn:E1; [by apply key_command_event|].
    refuse. apply key_command_accept; [done| |done|by left].
    apply orb_false_iff in Heqb3 as [Hn _]. apply key_write_adopt; [done|..].
    + destruct (key_active_slot r) as [-> | ->]; [by right|by left].
    + by apply negb_false_iff.
Qed.
Lemma key_answer_kept (q : bytes) (answered : bool) :
  has (rd r PHASE) TIMEOUT_PENDING = true →
  let r1 := wr r PHASE (without (rd r PHASE) TIMEOUT_PENDING) in
  let r2 := if answered
            then wr r1 PHASE (Z.lor (without (rd r1 PHASE) PARENT_MASK) (u8 (Z.shiftl (Z.land (rd q 2) 7) 4)))
            else r1 in writes r r2 ∧ kept r r2.
Proof.
  intros H r1 r2. destruct (key_write_answer r Hr q answered H) as (H1&H2&H3). split; [exact H1|].
  split; [|exact H2]. intros i Hi Hv. symmetry. apply H3; [done|]. intros ->. apply Hv. by right.
Qed.
Lemma key_nwk_command :
  (w_secured (w s) ≠ 0 → network r = true) → pending (w s) = 0 → command_ok r nwk_command s.
Proof.
  intros Hnet Hpd.
  unfold nwk_command. apply key_command_get. cbv zeta. rewrite Hrec. fold p.
  refuse. refuse. refuse.
  destruct (rd p 0 =? 4).
  { refuse. refuse. apply key_command_accept; [done| |done|by left].
    apply (key_write_leave r Hr (has (rd p 1) 0x20)). left. apply Hnet.
    apply orb_false_iff in Heqb0 as [H0 _]. lia. }
  destruct (rd p 0 =? 10).
  { refuse. refuse. refuse. destruct (u8 (rd p 10 - rd r UPDATE) =? 0); [by apply key_command_stay|].
    apply key_command_accept; [done| |done|by left]. apply key_write_update; [done|by apply rd_is_u8|done|done|].
    apply orb_false_iff in Heqb4 as [_ H4]. lia. }
  destruct (rd p 0 =? 7).
  { refuse. refuse. refuse. refuse; [refuse; by apply key_command_event|]. refuse.
    apply key_command_accept; [done| |done|by left]. pose proof (read_le16_range p 1 Bp).
    rewrite ?orb_false_iff, ?negb_false_iff, ?Z.eqb_eq in *.
    apply key_write_rejoined; try done. unfold is_u16 in *. lia. }
  destruct (rd p 0 =? 12).
  { refuse. refuse. destruct (key_answer_kept p (rd p 1 =? 0) ltac:(by apply negb_false_iff)) as [Hw Hk].
    by apply key_command_keep. }
  destruct (rd p 0 =? 3); [|by eapply key_command_throw]. refuse. by apply key_command_event.
Qed.
End commands.

(** ** Opening a layer

    The parts that only prepare the key and run the cipher. *)
Definition rest (x : work) :=
  (w_a x, packet x, w_nwk x, w_meta x, event x, (pending x, slot x, w_secured x), aps_secured x, key_id x, size x).
Definition still {A} (m : E A) : Prop := ∀ s,
  wp m s (λ _ s', steady true s s' ∧ rest (w s') = rest (w s)) (λ _, False).
Lemma key_still_key offset i d : 0 <= offset <= 96 → is_u8 i → still (key offset i d).
Proof.
  intros Ho Hi s. pose proof (key_steady_key offset i d s Ho Hi) as H.
  assert (wp (key offset i d) s (λ _ s', rest (w s') = rest (w s)) (λ _ : M, False)) as H2.
  { unfold key, wp, bind, set, put, gets, keyed_hash. destruct (_ || _); [|done]. cbv zeta.
    destruct (Mmo.zigbee_key_hash _ _ _ _ _ _ _) as [[[r out] inf] dev]. by destruct r, out. }
  unfold wp in *. destruct (key offset i d s) as [[x s']|dd]; [done|done].
Qed.
Lemma key_still_crypt layer f n :
  is_bytes f → n <= blen f → 0 <= layer → still (crypt 1 layer f n).
Proof.
  intros Hf Hn Hl s. pose proof (key_steady_crypt into_b true 1 layer f n s key_into_b (λ _, conj eq_refl (conj Hf (conj Hn Hl)))) as H.
  assert (wp (crypt 1 layer f n) s (λ _ s', rest (w s') = rest (w s)) (λ _ : M, False)) as H2.
  { unfold crypt, crypt_into, wp. destruct (ed_wire_crypt _ _ _ _ _ _ _ _ _) as [[[r out] inf] dev].
    destruct out, inf; try done; unfold check; by destruct (decide _). }
  unfold wp, crypt in *. destruct (crypt_into into_b 1 layer f n s) as [[x s']|dd]; [done|done].
Qed.
Lemma key_still_bind {A B} (m : E A) (f : A → E B) r s Q L :
  still m → mid b r0 true r s →
  (∀ e s', mid b r0 true r s' → rest (w s') = rest (w s) → Q (inl e) s') →
  (∀ a s', mid b r0 true r s' → rest (w s') = rest (w s) → wp (f a) s' Q L) → wp (bind m f) s Q L.
Proof.
  intros Hs Hm He Hf. apply key_wp_bind. eapply key_wp_mono; [apply Hs| |done].
  intros x s' [H1 H2]. pose proof (key_mid_steady _ _ _ _ _ _ Hm H1) as Hm'. destruct x; [by apply He|by apply Hf].
Qed.
Lemma key_crypt_bind {B} into layer raw n (f : () → E B) r s Q L :
  goes_into into → is_bytes raw → n <= blen raw → 0 <= layer → mid b r0 true r s →
  (∀ e s', mid b r0 true r s' → Q (inl e) s') →
  (∀ s', mid b r0 true r s' → wp (f tt) s' Q L) → wp (bind (crypt_into into 1 layer raw n) f) s Q L.
Proof.
  intros Hinto Hf Hn Hl Hm He Hk. apply key_wp_bind. eapply key_wp_mono; [by apply (key_steady_crypt into true 1 layer raw n s Hinto)| |done].
  intros x s' H. pose proof (key_mid_steady _ _ _ _ _ _ Hm H) as Hm'. destruct x as [e|[]]; [by apply He|by apply Hk].
Qed.
Lemma key_set_bind {B} g (f : () → E B) r r' s Q L :
  mid b r0 true r s → record (g (w s)) = r' → (ready_work (w s) → ready_work (g (w s))) →
  (∀ s', mid b r0 true r' s' → w s' = g (w s) → wp (f tt) s' Q L) → wp (bind (set g) f) s Q L.
Proof.
  intros (Hb&Hr&Ho) Hg Hw Hf. apply Hf; [|done]. split; [exact Hb|]. split; [exact Hg|]. intros E. apply Hw. by apply Ho.
Qed.
Lemma key_wire_bind {A B} (x : zigbee_security_result_t * option A) (f : A → E B) s Q L :
  (∀ e, Q (inl e) s) → (∀ a, x.2 = Some a → wp (f a) s Q L) → wp (bind (wire x) f) s Q L.
Proof.
  intros He Hf. unfold wire, check. destruct (decide _); [|by apply He].
  destruct x.2 as [a|] eqn:Ex; [by apply Hf|by apply He].
Qed.
Lemma key_inspect_ok layer f n m : (ed_wire_inspect layer f n true).2 = Some m →
  ed_wire_inspect layer f n true = (ZIGBEE_SECURITY_OK, Some m).
Proof.
  unfold ed_wire_inspect. destruct f as [g|]; [|done]. cbn [negb]. destruct (inspect layer g n) as [|[m' t]]; [done|].
  by intros [= ->].
Qed.
Definition authenticated (raw : bytes) (n : Z) (r1 : bytes) (q : Z) : Prop :=
  ∃ m i, ed_wire_inspect ZIGBEE_SECURITY_NWK (Some raw) n true = (ZIGBEE_SECURITY_OK, Some m) ∧
    slot_of r0 (m_key_sequence m) = Some i ∧ u32_at r0 (NF + 4 * i) <= m_counter m ∧
    u32_at r1 (NF + 4 * i) = m_counter m + 1 ∧ keeps (view_of r0) (view_of r1) ∧ reaches r0 r1 ∧
    (q = 2 ∨ kept r0 r1) ∧ network r1 = true.
Definition opened_nwk raw n (x : security_keys_result_t + ()) (s' : state) : Prop :=
  match x with
  | inl _ => mid b r0 true r0 s'
  | inr _ => ∃ r1, mid b r0 true r1 s' ∧ authenticated raw n r1 (w_secured (w s'))
  end.
Lemma key_put_other (r : bytes) i n j :
  record_typed r → i = 0 ∨ i = 1 → 0 <= j < 112 → ¬ (NF <= j < NF + 8) →
  rd (put32 r (NF + 4 * i) n) j = rd r j.
Proof.
  intros [L _] Hi Hj Hnf. unfold put32, NF in *. pose proof (security_counter_len n) as Ln.
  apply key_rd_blit; lia.
Qed.
Lemma key_put_kept (r : bytes) i n :
  record_typed r → i = 0 ∨ i = 1 → kept r (put32 r (NF + 4 * i) n).
Proof.
  intros Hr Hi. split.
  - intros j Hj Hv. symmetry. apply key_put_other; [done..|]. intros H. apply Hv. by left.
  - unfold phase. by rewrite key_put_other by (done || (unfold NF, PHASE; lia)).
Qed.
Lemma key_put_keeps (r : bytes) i n :
  record_typed r → i = 0 ∨ i = 1 → is_u32 n → keeps (view_of r) (view_of (put32 r (NF + 4 * i) n)).
Proof.
  intros [L _] Hi Hn. destruct Hi as [-> | ->].
  - change (NF + 4 * 0) with NF. by rewrite key_view_nf0.
  - change (NF + 4 * 1) with (NF + 4). by rewrite key_view_nf1.
Qed.
Lemma key_adopted_network f i : i = 0 ∨ i = 1 → has (adopted f i) 3 = has f 3.
Proof. intros Hi. unfold adopted. rewrite !key_any. destruct Hi as [-> | ->]; by bits. Qed.
Lemma key_open_nwk raw n s :
  is_bytes raw → n <= blen raw → mid b r0 true r0 s → good r0 →
  wp (open_nwk raw n) s (opened_nwk raw n) (λ _ : M, False).
Proof.
  intros Braw Hn Hm G. unfold open_nwk. apply key_wire_bind; [done|]. intros m Em.
  apply key_inspect_ok in Em. destruct (key_inspect_meta _ _ _ _ Braw Hn ltac:(done) Em) as (U&Umax&_).
  eapply key_set_bind; [exact Hm|apply Hm|done|]. intros s1 H1 _. clear s Hm.
  unfold gets at 1. apply key_wp_bind. unfold wp at 1. rewrite (proj1 (proj2 H1)).
  destruct (negb (same (m_source m) (at_ r0 TC) 8)); [done|].
  destruct (slot_of r0 (m_key_sequence m)) as [i|] eqn:Es; [|done].
  pose proof (key_slot_of r0 i _ Es) as (Hi&Hpr&Hq).
  eapply key_set_bind; [exact H1|apply H1|done|]. intros s2 H2 _. clear s1 H1.
  destruct ((m_counter m =? 0xffffffff) || (m_counter m <? u32_at r0 (NF + 4 * i))) eqn:Ec; [done|].
  apply orb_false_iff in Ec as [Ec1 Ec2].
  eapply key_still_bind; [apply key_still_key; [unfold NK; lia|done]|exact H2|done|]. intros _ s3 H3 _.
  eapply key_set_bind; [exact H3|apply H3| |].
  { intros (A1&A2&A3&A4&A5). do 4 (split; [done|]). intros Hl. destruct (A5 Hl) as [K1 K2]. split; [|done].
    destruct K1 as (B1&B2&B3&B4&B5&B6&_&B8). do 6 (split; [done|]). split; [|done]. apply key_rd_u8, G. }
  intros s4 H4 _. clear s2 H2 s3 H3.
  eapply key_crypt_bind; [apply key_into_a|done|done|done|exact H4|done|]. intros s5 H5. clear s4 H4.
  pose proof G as [Ht _]. assert (is_u32 (u32 (m_counter m + 1))) as U1 by apply u32_range.
  assert (u32 (m_counter m + 1) = m_counter m + 1) as E1 by (apply u32_id; unfold is_u32 in *; lia).
  assert (writes r0 (put32 r0 (NF + 4 * i) (u32 (m_counter m + 1)))) as Hw
    by (apply key_write_advance; [done|done|done|done|lia]).
  set (r1 := put32 r0 _ _) in *.
  eapply (key_set_bind _ _ _ r1); [exact H5|by rewrite (proj1 (proj2 H5))| |].
  { intros (A1&A2&A3&A4&A5). do 2 (split; [done|]). split; [by apply key_typed_put32|by split]. }
  intros s6 H6 _. clear s5 H5. unfold gets at 1. apply key_wp_bind. unfold wp at 1. rewrite (proj1 (proj2 H6)).
  assert (∀ q, authenticated raw n r1 q) as Ha1.
  { intros q. exists m, i. split; [done|]. split; [done|]. split; [lia|].
    split; [by rewrite <- E1; apply key_u32_put; [unfold NF; lia|unfold NF; rewrite (proj1 Ht); lia|]|].
    split; [by apply key_put_keeps|]. split; [by apply key_writes_reaches|].
    split; [right; by apply key_put_kept|].
    unfold network, r1. rewrite key_put_other by (done || (unfold NF, FLAGS; lia)).
    by apply (key_present_network (view_of r0) i). }
  destruct (has (rd r1 FLAGS) NEWER && negb (i =? active_slot r1)) eqn:Ead; [|by exists r1].
  apply andb_true_iff in Ead as [Hnew _].
  assert (record_typed r1) as Ht1 by apply Hw.
  pose proof (key_write_adopt r1 Ht1 i Hi Hnew) as Hw2. exists (adopt r1 i).
  split.
  { pose proof H6 as (Hb&_&Hr6). split; [exact Hb|]. split; [done|]. intros _.
    destruct (Hr6 eq_refl) as (A1&A2&_&A4&A5). do 2 (split; [done|]). split; [apply Hw2|done]. }
  destruct (Ha1 2) as (m'&i'&B1&B2&B3&B4&B5&B6&_&B8). exists m', i'. do 3 (split; [done|]).
  assert (∀ j, 0 <= j < 112 → j ≠ FLAGS → rd (adopt r1 i) j = rd r1 j) as Had.
  { intros j Hj Hne. unfold adopt. rewrite rd_wr by (unfold FLAGS; pose proof (proj1 Ht1); lia).
    by replace (j =? FLAGS) with false by lia. }
  pose proof (key_slot_of r0 i' _ B2) as (Hi'&_&_).
  split; [unfold u32_at, read_counter; rewrite !Had by (unfold NF, FLAGS; lia); exact B4|].
  assert (keeps (view_of r1) (view_of (adopt r1 i))) as Hk2
    by (unfold adopt; by rewrite key_view_flags by apply Ht1).
  split; [by eapply key_keeps_trans|]. split.
  { eapply key_reaches_trans; [exact B5|exact B6|]. apply key_writes_reaches; [|done].
    by eapply key_reaches_good. }
  split; [by left|]. revert B8. unfold network, adopt. rewrite rd_wr by (unfold FLAGS; pose proof (proj1 Ht1); lia).
  rewrite Z.eqb_refl. intros <-. by apply (key_adopted_network (rd r1 FLAGS) i).
Qed.

Definition received (raw : bytes) (n : Z) (r1 : bytes) (q : Z) : Prop :=
  authenticated raw n r1 q ∨ (r1 = r0 ∧ q = 0 ∧ network r0 = false).
Lemma key_receive_nwk raw n s :
  is_bytes raw → n <= blen raw → mid b r0 true r0 s → good r0 →
  wp (receive_nwk raw n) s (λ x s',
    match x with
    | inl _ => mid b r0 true r0 s'
    | inr _ => ∃ r1, mid b r0 true r1 s' ∧ received raw n r1 (w_secured (w s')) ∧
        aps_secured (w s') = 0 ∧ pending (w s') = 0
    end) (λ _ : M, False).
Proof.
  intros Braw Hn Hm G. unfold receive_nwk. apply key_wire_bind; [done|]. intros i _.
  eapply key_set_bind; [exact Hm|apply Hm|done|]. intros s1 H1 _. clear s Hm.
  unfold gets at 1. apply key_wp_bind. unfold wp at 1. rewrite (proj1 (proj2 H1)).
  destruct (negb (admissible_nwk r0 (Nwk.header i))); [done|]. cbv zeta.
  set (f := has _ Nwk.NWK_FLAG_SECURITY).
  eapply key_set_bind; [exact H1|apply H1|done|]. intros s2 H2 E2.
  assert (w_secured (w s2) = flag f) as Eq by (by rewrite E2). clear s1 H1 E2.
  apply key_wp_bind.
  assert (wp (if f then open_nwk raw n
              else if network r0 || (116 <? n) then throw SECURITY_KEYS_CONTEXT
                   else set (λ w, w <| w_a := blit (w_a w) 0 (slice raw 0 n) |> <| size := u8 n |>)) s2
    (λ x s', match x with
             | inl _ => mid b r0 true r0 s'
             | inr _ => ∃ r1, mid b r0 true r1 s' ∧ received raw n r1 (w_secured (w s'))
             end) (λ _ : M, False)) as Hwp.
  { destruct f.
    - eapply key_wp_mono; [by apply key_open_nwk| |done]. intros [e|u] s' H; [done|].
      destruct H as (r1&H&Ha). exists r1. split; [done|by left].
    - destruct (network r0 || (116 <? n)) eqn:En; [done|]. apply orb_false_iff in En as [En _].
      exists r0. split; [|by right]. pose proof H2 as (Hb&Hr&Hrw). split; [exact Hb|]. split; [exact Hr|].
      intros Ho. destruct (Hrw Ho) as ([L1 B1]&A2). split; [|exact A2].
      split; [etrans; [apply blen_blit|exact L1]|]. apply is_bytes_blit; [done|by apply is_bytes_slice]. }
  eapply key_wp_mono; [exact Hwp| |done]. intros [e|u] s3 H; [done|].
  destruct H as (r1&(Hb&Hr&Hrw)&Ha). exists r1. split; [split; [exact Hb|by split]|]. done.
Qed.

(** ** The application layer *)
Definition frame_rest (x : work) :=
  (w_a x, w_nwk x, w_meta x, w_secured x, aps_secured x, key_id x, size x).
Lemma key_rest_frame s s' : rest (w s') = rest (w s) → frame_rest (w s') = frame_rest (w s) ∧ pending (w s') = pending (w s).
Proof. unfold rest, frame_rest. intros [=]. split; congruence. Qed.
Lemma key_try_pending r apdu n s :
  mid b r0 true r s → is_bytes apdu → n <= blen apdu →
  wp (try_pending apdu n) s (λ x s', mid b r0 true r s' ∧ frame_rest (w s') = frame_rest (w s) ∧
    (pending (w s') = pending (w s) ∨ pending (w s') = 1)) (λ _ : M, False).
Proof.
  intros Hm Hf Hn. unfold try_pending. apply key_wp_bind. unfold wp at 1, gets at 1.
  destruct (negb _); [split; [done|split; [done|by left]]|].
  eapply key_still_bind; [apply key_still_key; [unfold PK; lia|done]|exact Hm|..].
  { intros e s1 H1 E1. apply key_rest_frame in E1 as [E1 E2]. split; [done|split; [done|by left]]. }
  intros _ s1 H1 E1. apply key_rest_frame in E1 as [E1 E1'].
  apply key_wp_bind, key_wp_attempt. eapply key_wp_mono; [by apply key_still_crypt| |done].
  intros x s2 [St E2]. pose proof (key_mid_steady _ _ _ _ _ _ H1 St) as H2.
  apply key_rest_frame in E2 as [E2 E2'].
  destruct x as [e|u].
  - assert (mid b r0 true r s2 ∧ frame_rest (w s2) = frame_rest (w s) ∧
      (pending (w s2) = pending (w s) ∨ pending (w s2) = 1)) as Hout
      by (split; [done|split; [congruence|left; congruence]]).
    by destruct e.
  - pose proof H2 as (Hb&Hr&Hrw). split; [split; [exact Hb|by split]|]. split; [|by right].
    change (frame_rest (w s2) = frame_rest (w s)). congruence.
Qed.
Lemma key_open_current r apdu n s :
  mid b r0 true r s → good r → is_bytes apdu → n <= blen apdu → is_u8 (key_id (w s)) →
  is_u32 (m_counter (w_meta (w s))) → m_counter (w_meta (w s)) ≠ 0xffffffff → m_extended_nonce (w_meta (w s)) = 1 →
  wp (open_current apdu n) s (λ x s',
    w_secured (w s') = w_secured (w s) ∧ pending (w s') = pending (w s) ∧ w_a (w s') = w_a (w s) ∧
    match x with
    | inl _ => mid b r0 true r s'
    | inr _ => ∃ r', mid b r0 true r' s' ∧ aps_secured (w s') = 2 ∧ writes r r' ∧
        keeps (view_of r) (view_of r') ∧ v_af (view_of r) < v_af (view_of r') ∧
        (∀ j, 0 <= j < 112 → j < AF ∨ AF + 4 <= j → rd r' j = rd r j)
    end) (λ _ : M, False).
Proof.
  intros Hm G Hf Hn Hid U Umax Hx. unfold open_current. apply key_wp_bind.
  change (wp (gets id) s ?Q ?L) with (Q (inr (w s)) s). cbv beta iota. rewrite (proj1 (proj2 Hm)).
  destruct (m_counter (w_meta (w s)) <? u32_at r AF) eqn:Ec; [done|].
  eapply key_set_bind; [exact Hm|apply Hm|done|]. intros s1 H1 E1.
  assert (frame_rest (w s1) = frame_rest (w s) ∧ pending (w s1) = pending (w s)) as [F1 P1] by (by rewrite E1).
  eapply key_still_bind; [apply key_still_key; [unfold LK; lia|done]|exact H1|..].
  { intros e s2 H2 E2. apply key_rest_frame in E2 as [E2 E2']. injection E2; injection F1; intros.
    split; [congruence|]. split; [congruence|]. by split; [congruence|]. }
  intros _ s2 H2 E2. apply key_rest_frame in E2 as [F2 P2]. rewrite F1 in F2. rewrite P1 in P2.
  clear s1 H1 E1 F1 P1.
  eapply key_set_bind; [exact H2|apply H2| |].
  { intros (A1&A2&A3&A4&A5). do 4 (split; [done|]). intros Hl. destruct (A5 Hl) as [K1 K2]. split; [|done].
    destruct K1 as (B1&B2&B3&B4&B5&B6&B7&_). do 7 (split; [done|]).
    assert (m_extended_nonce (w_meta (w s2)) = 1) as Hx2 by (injection F2; intros; congruence).
    fields. by rewrite Hx2. }
  intros s3 H3 E3.
  assert (frame_rest (w s3) = frame_rest (w s) ∧ pending (w s3) = pending (w s)) as [F3 P3]
    by (rewrite <- F2, <- P2; by rewrite E3).
  clear s2 H2 E3 F2 P2.
  eapply key_still_bind; [by apply key_still_crypt|exact H3|..].
  { intros e s4 H4 E4. apply key_rest_frame in E4 as [E4 E4']. injection E4; injection F3; intros.
    split; [congruence|]. split; [congruence|]. by split; [congruence|]. }
  intros _ s4 H4 E4. apply key_rest_frame in E4 as [F4 P4]. rewrite F3 in F4. rewrite P3 in P4.
  clear s3 H3 F3 P3. injection F4 as Ea En Em Ew Eaps Eid Esz.
  set (c := m_counter (w_meta (w s))) in *.
  assert (u32 (c + 1) = c + 1) as E1 by (apply u32_id; unfold is_u32 in *; lia).
  pose proof G as [Ht _]. assert (is_u32 (u32 (c + 1))) as U1 by apply u32_range.
  assert (writes r (put32 r AF (u32 (c + 1)))) as Hw by (apply key_write_admit; [done|done|lia]).
  assert (view_of (put32 r AF (u32 (c + 1))) = view_of r <| v_af := u32 (c + 1) |>) as Ev
    by (apply key_view_af; [apply Ht|done]).
  unfold wp, set, put. rewrite Em. fold c.
  split; [done|]. split; [done|]. split; [done|]. exists (put32 r AF (u32 (c + 1))).
  pose proof H4 as (Hb&Hr&Hrw). split.
  { split; [exact Hb|]. split; [by rewrite <- Hr|]. intros Ho. destruct (Hrw Ho) as (A1&A2&A3&A4).
    do 2 (split; [done|]). split; [by apply key_typed_put32|done]. }
  split; [done|]. split; [exact Hw|]. rewrite Ev. split; [done|].
  split; [change (u32_at r AF < u32 (c + 1)); lia|].
  intros j Hj Hout. unfold put32. pose proof (security_counter_len (u32 (c + 1))). pose proof (proj1 Ht).
  unfold AF in *. apply key_rd_blit; lia.
Qed.

(** What the security of an accepted application frame did: nothing, the pending key opened it, or
    the link key did and its replay floor moved. *)
Definition admitted (r r' : bytes) (x : work) : Prop :=
  (aps_secured x = 0 ∧ pending x = 0 ∧ r' = r) ∨ (aps_secured x = 1 ∧ pending x = 1 ∧ r' = r) ∨
  (aps_secured x = 2 ∧ pending x = 0 ∧ writes r r' ∧ keeps (view_of r) (view_of r') ∧
   v_af (view_of r) < v_af (view_of r') ∧ ∀ j, 0 <= j < 112 → j < AF ∨ AF + 4 <= j → rd r' j = rd r j).
Lemma key_at_bytes (f : bytes) o : is_bytes f → is_bytes (at_ f o).
Proof. intros Hf. by apply Forall_drop. Qed.
Lemma key_at_len (f : bytes) o : 0 <= o <= blen f → blen (at_ f o) = blen f - o.
Proof. intros H. unfold at_, blen in *. rewrite length_drop. lia. Qed.
Lemma key_blit_before (d : bytes) p x i : i < p → 0 <= i → rd (blit d p x) i = rd d i.
Proof.
  revert d p. induction x as [|v x IH]; intros d p H0 Hi; [done|]. cbn [blit]. rewrite IH by lia.
  unfold rd, wr. by rewrite list_lookup_insert_ne by lia.
Qed.
Lemma key_ready_frame x o n z :
  ready_work x → ready_work (x <| w_a := blit (w_a x) o (slice (w_b x) 0 n) |> <| size := z |>).
Proof.
  intros ([L1 B1]&[L2 B2]&A). split; [|by split]. split; [etrans; [apply blen_blit|exact L1]|].
  apply is_bytes_blit; [done|by apply is_bytes_slice].
Qed.
Lemma key_open_aps r s :
  let o := Nwk.payload_offset (w_nwk (w s)) in let l := Nwk.payload_length (w_nwk (w s)) in
  mid b r0 true r s → good r → pending (w s) = 0 → 0 < o → 0 <= l → o + l <= 116 →
  wp open_aps s (λ x s', w_secured (w s') = w_secured (w s) ∧
    match x with
    | inl _ => mid b r0 true r s'
    | inr _ => rd (w_a (w s')) 0 = rd (w_a (w s)) 0 ∧ ∃ r', mid b r0 true r' s' ∧ admitted r r' (w s')
    end) (λ _ : M, False).
Proof.
  intros o l Hm G Hp Ho Hl Hol. unfold open_aps. apply key_wp_bind.
  change (wp (gets id) s ?Q ?L) with (Q (inr (w s)) s). cbv beta iota zeta.
  change (w (?s)) with (w s). fold o l.
  set (apdu := at_ (w_a (w s)) o). set (f := has (rd apdu 0) Aps.APS_FLAG_SECURITY).
  assert (is_bytes apdu ∧ l <= blen apdu) as [Bf Lf].
  { destruct Hm as (_&_&Hrw). destruct (Hrw eq_refl) as ([L1 B1]&_).
    split; [by apply key_at_bytes|]. unfold apdu. rewrite key_at_len; lia. }
  eapply key_set_bind; [exact Hm|apply Hm|done|]. intros s1 H1 E1.
  destruct (negb f) eqn:Ef.
  { split; [by rewrite E1|]. split; [by rewrite E1|]. exists r. split; [done|]. left. rewrite E1.
    destruct f; [done|]. done. }
  assert (f = true) as Eft by by destruct f.
  apply key_wire_bind; [intros e; by split; [rewrite E1|]|]. intros m Em. apply key_inspect_ok in Em.
  destruct (key_inspect_meta ZIGBEE_SECURITY_APS _ _ _ Bf Lf ltac:(done) Em) as (U&Umax&Hx).
  eapply key_set_bind; [exact H1|apply H1|done|]. intros s2 H2 E2.
  destruct (m_counter m =? 0xffffffff); [by split; [rewrite E2, E1|]|].
  eapply key_set_bind; [exact H2|apply H2|done|]. intros s3 H3 E3.
  destruct (negb (m_key_identifier m =? 0) && negb (m_key_identifier m =? 2) && negb (m_key_identifier m =? 3)) eqn:Eid;
    [by split; [rewrite E3, E2, E1|]|].
  destruct (negb (m_extended_nonce m =? 0) && _); [by split; [rewrite E3, E2, E1|]|].
  eapply key_set_bind; [exact H3|apply H3|done|]. intros s4 H4 E4.
  assert (w_secured (w s4) = w_secured (w s) ∧ aps_secured (w s4) = 1 ∧ pending (w s4) = 0 ∧
          w_meta (w s4) = m ∧ key_id (w s4) = m_key_identifier m ∧ w_a (w s4) = w_a (w s)) as (Q1&Q2&Q3&Q4&Q5&Q6)
    by (rewrite E4, E3, E2, E1, Eft; done).
  clear s1 H1 E1 s2 H2 E2 s3 H3 E3 E4.
  apply key_wp_bind. eapply key_wp_mono; [by apply key_try_pending| |done].
  intros x s5 (H5&F5&P5). injection F5 as Ea En Em5 Ew Eaps Ekid Esz.
  destruct x as [e|u]; [split; [congruence|done]|].
  apply key_wp_bind. change (wp (gets pending) s5 ?Q ?L) with (Q (inr (pending (w s5))) s5). cbv beta iota.
  apply key_wp_bind.
  destruct P5 as [P5|P5]; rewrite P5.
  - rewrite Q3. cbn [Z.eqb]. eapply key_wp_mono; [apply (key_open_current r)|..|done]; try done.
    + rewrite Ekid, Q5. unfold is_u8. lia.
    + by rewrite Em5, Q4.
    + by rewrite Em5, Q4.
    + by rewrite Em5, Q4.
    + intros [e|u6] s6 (W6&P6&A6&H6); [split; [congruence|done]|].
      destruct H6 as (r'&H6&S6&Hw&Hk&Haf&Hout).
      unfold wp, set, put. split; [change (w_secured (w s6) = w_secured (w s)); congruence|].
      split; [etrans; [apply key_blit_before; lia|]; by rewrite A6, Ea, Q6|]. exists r'.
      destruct H6 as (Hb&Hr&Hrw). split; [split; [exact Hb|split; [exact Hr|intros E; by apply key_ready_frame, Hrw]]|].
      right; right. split; [exact S6|]. split; [change (pending (w s6) = 0); congruence|done].
  - cbn [Z.eqb Pos.eqb]. unfold wp, ret, set, put.
    split; [change (w_secured (w s5) = w_secured (w s)); congruence|].
    split; [etrans; [apply key_blit_before; lia|]; by rewrite Ea, Q6|]. exists r.
    destruct H5 as (Hb&Hr&Hrw). split; [split; [exact Hb|split; [exact Hr|intros E; by apply key_ready_frame, Hrw]]|].
    right; left. split; [change (aps_secured (w s5) = 1); congruence|].
    split; [change (pending (w s5) = 1); congruence|done].
Qed.

(** ** A packet *)
Definition packet_read (r : bytes) (s : state) (x : security_keys_result_t + ()) (s' : state) : Prop :=
  w_secured (w s') = w_secured (w s) ∧ ∃ r', mid b r0 true r' s' ∧ reaches r r' ∧
  match x with
  | inl _ => r' = r ∨ aps_secured (w s') = 2
  | inr _ => 0 <= event (w s') <= 9 ∧
      (event (w s') <= SECURITY_KEYS_EVENT_MANAGEMENT → aps_secured (w s') = 0 → kept r r') ∧
      (aps_secured (w s') ≠ 0 → v_lk (view_of r') = v_lk (view_of r) → v_af (view_of r) < v_af (view_of r'))
  end.
(** The command or the data of an opened packet. *)
Lemma key_packet_command r r1 s q x (m : E ()) :
  good r → mid b r0 true r1 s → admitted r r1 x → w_secured x = q → aps_secured (w s) = aps_secured x →
  pending (w s) = pending x → w_secured (w s) = q → command_ok r1 m s →
  wp m s (λ y s', w_secured (w s') = q ∧ ∃ r', mid b r0 true r' s' ∧ reaches r r' ∧
    match y with
    | inl _ => r' = r ∨ aps_secured (w s') = 2
    | inr _ => 0 <= event (w s') <= 9 ∧
      (event (w s') <= SECURITY_KEYS_EVENT_MANAGEMENT → aps_secured (w s') = 0 → kept r r') ∧
      (aps_secured (w s') ≠ 0 → v_lk (view_of r') = v_lk (view_of r) → v_af (view_of r) < v_af (view_of r'))
    end) (λ _ : M, False).
Proof.
  intros G Hm Had Eq Ea Ep Es Hc. eapply key_wp_mono; [exact Hc| |done]. intros y s' [(W&A&P) H].
  split; [congruence|].
  assert (good r1 ∧ reaches r r1 ∧ keeps (view_of r) (view_of r1) ∧ v_af (view_of r) <= v_af (view_of r1)) as (G1&R1&K1&AF1).
  { destruct Had as [(_&_&->)|[(_&_&->)|(_&_&Hw&Hk&Haf&_)]].
    - split; [done|]. split; [by apply key_reaches_refl, G|]. split; [apply key_keeps_refl|lia].
    - split; [done|]. split; [by apply key_reaches_refl, G|]. split; [apply key_keeps_refl|lia].
    - pose proof (key_writes_reaches r r1 G Hw) as Hr. split; [by eapply key_reaches_good|].
      split; [done|]. split; [done|lia]. }
  destruct y as [e|u].
  - exists r1. split; [done|]. split; [done|]. rewrite A, Ea.
    destruct Had as [(_&_&->)|[(_&_&->)|(->&_)]]; [by left|by left|by right].
  - destruct H as (r2&H2&Hw&He&Hk&Hlk). exists r2. split; [done|].
    assert (reaches r1 r2) as R2 by (destruct Hw as [->|Hw]; [apply key_reaches_refl, G1|by apply key_writes_reaches]).
    split; [by eapply key_reaches_trans|]. split; [done|]. rewrite A, Ea. split.
    + intros Hev Ha0. destruct Had as [(_&_&->)|[(E&_)|(E&_)]]; [by apply Hk|congruence|congruence].
    + intros Hne Hl. destruct Had as [(E&_)|[(_&E&->)|(_&_&_&[_ Kl]&Haf&_)]]; [congruence| |].
      * destruct Hlk; [congruence|done].
      * destruct R2 as (_&_&_&Hmv). specialize (Hmv ltac:(congruence)). lia.
Qed.

Lemma key_nwk_read (f : bytes) n i :
  buffer f → (ed_wire_nwk (Some f) n true).2 = Some i →
  8 <= Nwk.payload_offset i ∧ 0 <= Nwk.payload_length i ∧
  Nwk.payload_offset i + Nwk.payload_length i <= 116 ∧ Nwk.type (Nwk.header i) = Z.land (rd f 0) 3.
Proof.
  intros [L B]. unfold ed_wire_nwk, published. destruct (read_nwk (Some f) n true) as [|j] eqn:Er; [done|].
  intros [= <-].
  assert (n <= 116) as Hn.
  { revert Er. unfold read_nwk, Nwk.NWK_FRAME_MAX_BODY. cbn [negb].
    destruct ((n <? 8) || (116 <? n)) eqn:E; [done|]. apply orb_false_iff in E. lia. }
  destruct (ed_read_nwk_range f n j Er B ltac:(lia)) as (H1&H2&H3&H4). rewrite H3. repeat split; lia || done.
Qed.
Lemma key_decoded (f : bytes) n pk :
  buffer f → (ed_wire_decode (Some f) n true).2 = Some pk →
  packet_octets pk ∧ Nwk.type (nwk pk) = Z.land (rd f 0) 3.
Proof.
  intros [L B] H. assert (ed_wire_decode (Some f) n true = (ZIGBEE_SECURITY_OK, Some pk)) as E.
  { revert H. unfold ed_wire_decode, published. cbn [negb]. destruct (decode f n); [done|]. by intros [= ->]. }
  split; [by eapply key_decode_octets|].
  revert E. unfold ed_wire_decode, published. cbn [negb].
  destruct (decode f n) as [e|q] eqn:E; [done|]. intros [= <-]. revert E. unfold decode.
  destruct (read_nwk (Some f) n true) as [|i] eqn:Ei; [done|].
  assert (n <= 116) as Hn.
  { revert Ei. unfold read_nwk, Nwk.NWK_FRAME_MAX_BODY. cbn [negb].
    destruct ((n <? 8) || (116 <? n)) eqn:En; [done|]. apply orb_false_iff in En. lia. }
  destruct (ed_read_nwk_range f n i Ei B ltac:(lia)) as (_&_&_&Et).
  assert (∀ x o z, nwk x = Nwk.header i → packet_body f x o z = inr q → Nwk.type (nwk q) = Z.land (rd f 0) 3) as Hx.
  { intros x o z Hx. unfold packet_body. destruct (ED_PAYLOAD_MAX <? z); [done|]. intros [= <-].
    by rewrite <- Et, <- Hx. }
  destruct (has _ _); [done|]. cbv zeta. destruct (Nwk.type _ =? 0).
  - destruct (read_aps _ _ true) as [|a]; [done|].
    repeat match goal with |- (if ?c then inl _ else _) = _ → _ => destruct c; [done|] end. by apply Hx.
  - destruct (Nwk.payload_length i =? 0); [done|]. by apply Hx.
Qed.
Lemma key_receive_packet r s :
  mid b r0 true r s → good r → aps_secured (w s) = 0 → pending (w s) = 0 →
  (w_secured (w s) ≠ 0 → network r = true) →
  wp receive_packet s (packet_read r s) (λ _ : M, False).
Proof.
  intros Hm G Ha Hp Hnet. unfold receive_packet. apply key_wp_bind.
  change (wp (gets id) s ?Q ?L) with (Q (inr (w s)) s). cbv beta iota.
  assert (∀ s' e, mid b r0 true r s' → w_secured (w s') = w_secured (w s) →
    packet_read r s (inl e) s') as Hrej.
  { intros s' e H1 H2. split; [done|]. exists r. split; [done|]. split; [by apply key_reaches_refl, G|by left]. }
  assert (buffer (w_a (w s))) as Hbuf by (destruct Hm as (_&_&Hrw); by apply Hrw).
  apply key_wire_bind; [intros e; by apply Hrej|]. intros i Ei.
  destruct (key_nwk_read _ _ _ Hbuf Ei) as (Ho&Hl&Hol&Hty).
  eapply key_set_bind; [exact Hm|apply Hm|done|]. intros s1 H1 E1.
  assert (w_secured (w s1) = w_secured (w s) ∧ aps_secured (w s1) = 0 ∧ pending (w s1) = 0 ∧
          w_a (w s1) = w_a (w s) ∧ w_nwk (w s1) = i) as (S1&A1&P1&B1&N1) by (rewrite E1; done).
  clear E1. apply key_wp_bind.
  (* the application layer *)
  assert (wp (if Nwk.type (Nwk.header i) =? ED_NWK_COMMAND then ret tt
              else if Nwk.payload_length i =? 0 then throw SECURITY_KEYS_FORMAT else open_aps) s1
    (λ x s', w_secured (w s') = w_secured (w s) ∧
      match x with
      | inl _ => mid b r0 true r s'
      | inr _ => rd (w_a (w s')) 0 = rd (w_a (w s)) 0 ∧ ∃ r1, mid b r0 true r1 s' ∧ admitted r r1 (w s') ∧
          (Nwk.type (Nwk.header i) = ED_NWK_COMMAND → pending (w s') = 0)
      end) (λ _ : M, False)) as Hopen.
  { destruct (Nwk.type (Nwk.header i) =? ED_NWK_COMMAND) eqn:Ec.
    - split; [done|]. split; [by rewrite B1|]. exists r. split; [done|]. split; [by left|done].
    - destruct (Nwk.payload_length i =? 0); [done|].
      eapply key_wp_mono; [apply (key_open_aps r s1 H1 G P1); rewrite N1; lia| |done].
      intros x s' [W H]. split; [congruence|]. destruct x as [e|u]; [done|].
      destruct H as [Hrd (r1&H2&H3)]. split; [congruence|]. exists r1. split; [done|]. split; [done|].
      intros E. lia. }
  eapply key_wp_mono; [exact Hopen| |done]. intros x s2 [S2 H2]. destruct x as [e|u]; [by apply Hrej|].
  destruct H2 as [Hrd (r1&H2&Had&Hpc)].
  assert (good r1 ∧ reaches r r1) as [G1 R1].
  { destruct Had as [(_&_&->)|[(_&_&->)|(_&_&Hw&_)]].
    - split; [done|]. by apply key_reaches_refl, G.
    - split; [done|]. by apply key_reaches_refl, G.
    - pose proof (key_writes_reaches r r1 G Hw) as Hr. split; [by eapply key_reaches_good|done]. }
  assert (∀ s' e, mid b r0 true r1 s' → w_secured (w s') = w_secured (w s) →
    aps_secured (w s') = aps_secured (w s2) → packet_read r s (inl e) s') as Hrej2.
  { intros s' e B2 B3 B4. split; [done|]. exists r1. split; [done|]. split; [done|]. rewrite B4.
    destruct Had as [(_&_&->)|[(_&_&->)|(->&_)]]; [by left|by left|by right]. }
  assert (network r = true → network r1 = true) as Hnet1.
  { destruct Had as [(_&_&->)|[(_&_&->)|(_&_&_&_&_&Hout)]]; [done|done|].
    unfold network. by rewrite Hout by (unfold FLAGS, AF; lia). }
  apply key_wp_bind. change (wp (gets id) s2 ?Q ?L) with (Q (inr (w s2)) s2). cbv beta iota.
  assert (buffer (w_a (w s2))) as Hbuf2 by (destruct H2 as (_&_&Hrw); by apply Hrw).
  apply key_wire_bind; [intros e; by apply Hrej2|]. intros pk Epk.
  destruct (key_decoded _ _ _ Hbuf2 Epk) as [Hoct Hty2].
  eapply key_set_bind; [exact H2|apply H2|done|]. intros s3 H3 E3.
  assert (w_secured (w s3) = w_secured (w s) ∧ aps_secured (w s3) = aps_secured (w s2) ∧
          pending (w s3) = pending (w s2) ∧ packet (w s3) = pk) as (S3&A3&P3&K3) by (by rewrite E3).
  clear E3. cbv zeta.
  set (command := Nwk.type (nwk pk) =? ED_NWK_COMMAND).
  destruct (negb command && negb (aps_addressing pk false)); [by apply Hrej2|].
  destruct (_ && negb command); [by apply Hrej2|].
  destruct ((w_secured (w s2) =? 0) && _); [by apply Hrej2|].
  eapply key_set_bind; [exact H3|apply H3|done|]. intros s4 H4 E4.
  assert (w_secured (w s4) = w_secured (w s) ∧ aps_secured (w s4) = aps_secured (w s2) ∧
          pending (w s4) = pending (w s2) ∧ packet (w s4) = pk ∧ event (w s4) = 0) as (S4&A4&P4&K4&V4)
    by (by rewrite E4).
  clear E4 s3 H3 S3 A3 P3 K3.
  assert (∀ m, command_ok r1 m s4 → wp m s4 (packet_read r s) (λ _ : M, False)) as Hcmd.
  { intros m Hc. by eapply (key_packet_command r r1 s4 (w_secured (w s)) (w s2) m). }
  destruct command eqn:Ecmd.
  - apply Hcmd, key_nwk_command; [done|by rewrite K4|done| |].
    + rewrite S4. intros Hne. by apply Hnet1, Hnet.
    + rewrite P4. apply Hpc. rewrite Hty. unfold command in Ecmd. rewrite Hty2, Hrd in Ecmd. lia.
  - destruct (Aps.type (aps pk) =? ED_APS_COMMAND).
    { apply Hcmd, key_aps_command; [done|by rewrite K4|done]. }
    destruct (negb (pending (w s2) =? 0) || _) eqn:Epd; [by apply Hrej2|].
    apply orb_false_iff in Epd as [Epd _]. assert (pending (w s4) = 0) as P4' by lia.
    destruct (join_management pk); [by apply Hcmd, key_command_event|].
    destruct (negb (verified _)); [by apply Hrej2|].
    apply Hcmd. split; [done|]. exists r1. split; [done|]. split; [by left|]. rewrite V4.
    split; [done|]. split; [|done]. intros _. apply key_kept_refl.
Qed.

(** ** The call *)
Lemma key_received_facts raw n r1 q :
  good r0 → received raw n r1 q →
  good r1 ∧ reaches r0 r1 ∧ keeps (view_of r0) (view_of r1) ∧ (q = 2 ∨ kept r0 r1) ∧ (q ≠ 0 → network r1 = true).
Proof.
  intros G [(m&i&_&_&_&_&K&R&Hk&Hn)|(->&->&_)].
  - split; [by eapply key_reaches_good|]. done.
  - split; [done|]. split; [by apply key_reaches_refl, G|]. split; [apply key_keeps_refl|].
    split; [right; apply key_kept_refl|done].
Qed.
(** What an accepted frame leaves: the record that its network layer reached, and the floors from
    there on. *)
Definition accepted (raw : bytes) (n : Z) (x : security_keys_result_t + ed_packet_t * Z) (r : bytes) : Prop :=
  ∀ pk ev, x = inr (pk, ev) → ∃ r1 q, received raw n r1 q ∧ moves (view_of r1) (view_of r) ∧
    (SECURITY_KEYS_EVENT_APS_SECURED <= ev → v_lk (view_of r) = v_lk (view_of r1) →
     v_af (view_of r1) < v_af (view_of r)).
(** The end of a reception: stored, or kept in memory. *)
Lemma key_ends_finish {B} (V : security_keys_result_t + B → bytes → Prop) o r s (c : bool) (m : E B) :
  mid b r0 o r s → reaches r0 r → (c = false → kept r0 r) → phase r0 ≠ SECURITY_KEYS_PROVISIONED →
  (∀ s', w s' = w s → live s' r → ends b r0 V m s') →
  ends b r0 V (bind (if c then save else keep_volatile) (λ _, m)) s.
Proof.
  intros Hm R Hk Hph Hf. pose proof Hm as ((_&G0&_)&_). destruct c.
  - eapply key_ends_save; [exact Hm|done|]. intros s' [Hl _] Hw. by apply Hf.
  - destruct (Hk eq_refl) as [K1 K2]. apply key_wp_bind.
    eapply key_wp_mono; [eapply (key_wp_keep b r0 o r s Hm); [by eapply key_reaches_good|done|done|done]| |done].
    intros x s' (->&Hb&Hw). apply Hf; [done|by exists b].
Qed.
Lemma key_receive_rejected {B} (V : security_keys_result_t + B → bytes → Prop) r s e :
  mid b r0 true r s → reaches r0 r → (w_secured (w s) = 2 ∨ aps_secured (w s) = 2 ∨ kept r0 r) →
  phase r0 ≠ SECURITY_KEYS_PROVISIONED → V (inl e) r → ends b r0 V (receive_rejected (A := B) e) s.
Proof.
  intros Hm R Hk Hph HV. unfold receive_rejected. apply key_ends_gets.
  eapply key_ends_finish; [exact Hm|done| |done|].
  - intros Hc. apply orb_false_iff in Hc as [C1 C2]. unfold APS_CURRENT_ADMITTED in C1.
    change (id (w s)) with (w s) in *. destruct Hk as [?|[?|?]]; [lia|lia|done].
  - intros s' _ Hl. by eapply key_ends_pure.
Qed.
Lemma key_u8_or_event e : 0 <= e <= 9 → SECURITY_KEYS_EVENT_APS_SECURED <= u8 (Z.lor e 0) → False.
Proof.
  intros He. rewrite Z.lor_0_r, u8_id by (unfold is_u8; lia). unfold SECURITY_KEYS_EVENT_APS_SECURED. lia.
Qed.
Lemma key_receive_done (V : security_keys_result_t + ed_packet_t * Z → bytes → Prop) r s :
  mid b r0 true r s → reaches r0 r →
  (event (w s) <= SECURITY_KEYS_EVENT_MANAGEMENT → aps_secured (w s) = 0 → w_secured (w s) ≠ 2 → kept r0 r) →
  phase r0 ≠ SECURITY_KEYS_PROVISIONED → 0 <= event (w s) <= 9 →
  (∀ pk ev, (SECURITY_KEYS_EVENT_APS_SECURED <= ev → aps_secured (w s) ≠ 0) → V (inr (pk, ev)) r) →
  ends b r0 V receive_done s.
Proof.
  intros Hm R Hk Hph Hev HV. unfold receive_done.
  eapply key_ends_set; [exact Hm|apply Hm|done|]. intros s1 H1 E1. apply key_ends_gets.
  assert (event (w s1) = event (w s) ∧ aps_secured (w s1) = aps_secured (w s) ∧ w_secured (w s1) = w_secured (w s))
    as (V1&A1&W1) by (by rewrite E1).
  eapply key_ends_finish; [exact H1|done| |done|].
  - change (id (w s1)) with (w s1). rewrite V1, A1, W1. intros Hc.
    apply orb_false_iff in Hc as [Hc C3]. apply orb_false_iff in Hc as [C1 C2]. apply Hk; lia.
  - intros s' _ Hl. eapply key_ends_pure; [done|done|done|]. apply HV. change (id (w s1)) with (w s1).
    rewrite V1, A1. intros Hle Ha. rewrite Ha in Hle. cbn [Z.eqb] in Hle. by eapply key_u8_or_event.
Qed.
End Reception.

Section Call.
Context {M C D : Type} `{SC : !CounterService M C} `{BC : !BlockCipher.BlockCipher D}.
Lemma key_receive_served raw n out ev l p b r0 (s : state (C := C) (D := D)) :
  idle s → base b r0 s → limits_typed l → is_bytes (default [] raw) → n <= blen (default [] raw) →
  served b r0 (accepted r0 (default [] raw) n) (security_keys_receive raw n out ev l p s).
Proof.
  intros Hi Hb Hl Braw Hn. apply key_served, key_ends_load; [done..|]. intros s1 H1 Hw1.
  assert (∀ e r, accepted r0 (default [] raw) n (inl e) r) as Hacc by done.
  destruct raw as [raw|]; [|by eapply key_ends_throw]. cbn [default from_option id] in *.
  destruct (negb out || negb ev); [by eapply key_ends_throw|].
  eapply key_ends_limits; [exact H1|done| |by eapply key_ends_throw].
  intros s2 l' Hlim Hb2 Hw2. cbn [negb].
  pose proof Hb2 as (_&G&_&P2&_).
  assert (mid b r0 true r0 s2) as H2.
  { split; [done|]. split; [by rewrite Hw2, Hw1|]. intros _. rewrite Hw2, Hw1.
    split; [split; [done|concrete]|]. split; [split; [done|concrete]|]. split; [apply G|]. by split. }
  apply key_wp_bind. change (wp get s2 ?Q ?L) with (Q (inr s2) s2). cbv beta iota.
  destruct (_ || _) eqn:Eph; [by eapply key_ends_throw|]. apply orb_false_iff in Eph as [Eph _].
  assert (phase r0 ≠ SECURITY_KEYS_PROVISIONED) as Hph
    by (unfold SECURITY_KEYS_PROVISIONED, SECURITY_KEYS_ASSOCIATED in *; lia).
  apply key_wp_bind. eapply key_wp_mono; [by apply (key_receive_nwk b r0 raw n s2)| |done].
  intros [e|u] s3 H3; [by eapply key_ended_here; [eapply key_mid_base|]|].
  destruct H3 as (r1&H3&Hrc&A3&Q3).
  destruct (key_received_facts r0 raw n r1 _ G Hrc) as (G1&R1&K1&Hk1&Hn1).
  apply key_wp_bind, key_wp_attempt.
  eapply key_wp_mono; [by apply (key_receive_packet b r0 r1 s3)| |done].
  intros x s4 (W4&r2&H4&R2&Hx). assert (reaches r0 r2) as R02 by by eapply key_reaches_trans.
  destruct x as [e|v].
  - apply (key_receive_rejected b r0 _ r2); [done|done| |done|done]. rewrite W4.
    destruct Hx as [->|Hx]; [|by right; left]. destruct Hk1; [by left|by right; right].
  - destruct Hx as (He&Hkeep&Haf). apply (key_receive_done b r0 _ r2); [done|done| |done|done|].
    + rewrite W4. intros Hev Ha Hs. destruct Hk1 as [?|Hk1]; [done|].
      eapply key_kept_trans; [exact Hk1|by apply Hkeep].
    + intros pk e Hev' pk' ev' [= <- <-]. exists r1, (w_secured (w s3)). split; [done|].
      split; [apply R2|]. intros Hle Hlk. apply Haf; [by apply Hev'|done].
Qed.
End Call.
End KeyReceive.
