(* ===== verification/KeyEvents.v ===== *)
(** The key store over its events: provisioning and opening, every call and every reset, and the
    invariant of its states. *)
From stdpp Require Import relations.
From S2P Require Import Prelude Flash NwkFrame BlockCipher Timebase Mmo Ccm Security EdWire Counter.
From S2P Require Import CounterService SecurityKeys KeyView KeyLife KeyWrites KeyCalls KeyLive KeyStore.
From S2P Require Import KeyReceive.

Module KeyEvents.
Import Security EdWire CounterService SecurityKeys KeyView KeyLife KeyWrites KeyCalls KeyLive KeyStore KeyReceive.
#[local] Existing Instance SecurityKeys.state_fields.

(** ** The first record *)
Definition config_typed (c : security_keys_config_t) : Prop :=
  blen (own_ieee c) = 8 ∧ is_bytes (own_ieee c) ∧ blen (tc_ieee c) = 8 ∧ is_bytes (tc_ieee c) ∧
  blen (extended_pan c) = 8 ∧ is_bytes (extended_pan c) ∧ is_u16 (pan c) ∧ is_u16 (address c) ∧
  is_u8 (channel c) ∧ is_u8 (update_id c).
Definition blank : bytes := replicate 112 0.
Definition first_record (c : security_keys_config_t) (k : bytes) : bytes :=
  set_phase (wr (wr (blit (configured c blank) LK k) MAGIC 75) (MAGIC + 1) 2) SECURITY_KEYS_PROVISIONED.
Lemma key_configured c :
  config_typed c →
  record_typed (configured c blank) ∧
  view_of (configured c blank) = view_of blank <| v_own := own_ieee c |> <| v_tc := tc_ieee c |>
    <| v_ep := extended_pan c |> <| v_pan := pan c |> <| v_addr := address c |>
    <| v_channel := channel c |> <| v_update := update_id c |>.
Proof.
  intros (L1&B1&L2&B2&L3&B3&U1&U2&U3&U4). unfold configured. rewrite !slice_all' by done.
  assert (record_typed blank) as T0 by (split; [done|concrete]).
  pose proof (key_typed_blit _ OWN _ T0 B1) as T1. pose proof (key_typed_blit _ TC _ T1 B2) as T2.
  pose proof (key_typed_blit _ EP _ T2 B3) as T3. pose proof (key_typed_le16 _ PAN (pan c) T3) as T4.
  pose proof (key_typed_le16 _ ADDR (address c) T4) as T5.
  pose proof (key_typed_wr _ CHANNEL _ T5 U3) as T6.
  split; [by apply key_typed_wr|].
  rewrite key_view_update by apply T6. rewrite key_view_channel by apply T5.
  rewrite key_view_put_addr by (apply T4 || done). rewrite key_view_put_pan by (apply T3 || done).
  rewrite key_view_ep by (apply T2 || done). rewrite key_view_tc by (apply T1 || done).
  by rewrite key_view_own by (apply T0 || done).
Qed.
Lemma key_first_good c k :
  config_typed c → blen k = 16 → is_bytes k → k ≠ zeros 16 → valid_config (configured c blank) = true →
  good (first_record c k).
Proof.
  intros Hc Lk Bk Hk Hv. destruct (key_configured c Hc) as [T V].
  assert (record_typed (blit (configured c blank) LK k)) as T1 by by apply key_typed_blit.
  assert (record_typed (wr (blit (configured c blank) LK k) MAGIC 75)) as T2 by by apply key_typed_wr.
  assert (record_typed (wr (wr (blit (configured c blank) LK k) MAGIC 75) (MAGIC + 1) 2)) as T3 by by apply key_typed_wr.
  apply key_good. split; [by apply key_typed_set_phase|].
  unfold first_record. rewrite key_view_set_phase by apply T3. rewrite key_view_magic1 by apply T2.
  rewrite key_view_magic0 by apply T1. rewrite key_view_lk by (apply T || done).
  rewrite key_view_config in Hv by done.
  set (v := view_of (configured c blank)) in *.
  assert (v_flags v = 0 ∧ v_phase v = 0 ∧ v_nk0 v = zeros 16 ∧ v_nk1 v = zeros 16 ∧ v_pk v = zeros 16 ∧
    v_nf0 v = 0 ∧ v_nf1 v = 0 ∧ v_seq0 v = 0 ∧ v_seq1 v = 0) as (F1&F2&F3&F4&F5&F6&F7&F8&F9) by (by rewrite V).
  set (v' := v <| v_lk := k |> <| v_magic0 := 75 |> <| v_magic1 := 2 |>).
  assert (v_phase (with_phase v' SECURITY_KEYS_PROVISIONED) = 2) as Eph by done.
  assert (v_state (with_phase v' SECURITY_KEYS_PROVISIONED) = 2) as Est by (unfold v_state; by rewrite Eph).
  assert (v_flags (with_phase v' SECURITY_KEYS_PROVISIONED) = 0) as Efl by exact F1.
  split; [|split; [|split; [|split]]].
  - split; [done|]. split; [done|]. split; [exact Hv|]. split; [by rewrite Efl|]. split; [rewrite Est; lia|done].
  - replace (v_bootstrap _) with true by (unfold v_bootstrap; by rewrite Est).
    split; [done|]. repeat (split; [done|]). by rewrite Eph.
  - by left.
  - unfold pending_fine. rewrite Efl, Est. change (has 0 RETIRED) with false. right.
    split; [lia|]. split; [lia|done].
  - unfold phase_fine, v_verified. rewrite Efl, Est, Eph.
    split; [done|]. split; [lia|]. split; [done|]. done.
Qed.

Lemma key_first_phase c k :
  config_typed c → is_bytes k → phase (first_record c k) = SECURITY_KEYS_PROVISIONED.
Proof.
  intros Hc Bk. destruct (key_configured c Hc) as [T _].
  apply key_set_phase_state; [|done]. apply key_typed_wr; [|done]. apply key_typed_wr; [|done].
  by apply key_typed_blit.
Qed.
(** Before the first network key the replay floors of the record are zero. *)
Lemma key_boot_floors r i :
  good r → phase r <= SECURITY_KEYS_ASSOCIATED → NF <= i < NF + 8 → rd r i = 0.
Proof.
  intros G Hp Hi. apply key_good in G as [[L _] (_&Hs&_)].
  replace (v_bootstrap (view_of r)) with true in Hs.
  2: { symmetry. unfold v_bootstrap. change (v_state (view_of r)) with (phase r).
       unfold SECURITY_KEYS_ASSOCIATED in *. by replace (phase r <=? 3) with true by lia. }
  destruct Hs as (_&_&_&_&H0&H1&_). cbn [view_of v_nf0 v_nf1] in *.
  assert ((u32_at r NF =? 0) = true) as E0 by lia. assert ((u32_at r (NF + 4) =? 0) = true) as E1 by lia.
  rewrite key_u32_zero in E0, E1 by (unfold NF; lia). rewrite key_all_iff in E0, E1.
  destruct (decide (i < NF + 4)).
  - specialize (E0 (i - NF) ltac:(lia)). rewrite key_rd_at in E0 by (unfold NF in *; lia). rewrite <- E0. f_equal. lia.
  - specialize (E1 (i - (NF + 4)) ltac:(lia)). rewrite key_rd_at in E1 by (unfold NF in *; lia). rewrite <- E1. f_equal. lia.
Qed.

Section Events.
Context {M C D : Type} `{SC : !CounterService M C} `{BC : !BlockCipher.BlockCipher D}.
Abbreviation state := (state (C := C) (D := D)).
Abbreviation E := (E (M := M) (C := C) (D := D)).
Implicit Types s : state.

(** ** The install code *)
Lemma key_digest_bytes m : is_bytes m → blen m <= 32 → is_bytes (Mmo.mmo_digest m).
Proof.
  intros Bm Lm. unfold Mmo.mmo_digest. pose proof (Mmo.mmo_padded_len m) as L. pose proof (blen_nonneg m) as Hm0.
  assert (is_bytes (Mmo.padded m)) as Bp.
  { unfold Mmo.padded. rewrite !is_bytes_app. split; [done|]. split; [concrete|].
    split; [apply Forall_replicate; done|].
    apply Forall_cons_2; [|apply Forall_cons_2; [|by apply Forall_nil]]; unfold is_u8; [|width].
    split; [by apply Z.div_pos; lia|]. apply Z.div_lt_upper_bound; lia. }
  assert (∀ n b h, blen h = 16 → is_bytes h → is_bytes b → 16 * Z.of_nat n <= blen b →
    is_bytes (foldl Mmo.mmo_step h (BlockCipher.blocks16 n b))) as H; [|apply H; [done|concrete|done|lia]].
  intros n. induction n as [|n IH]; intros b h Lh Bh Bb Hb; [done|]. cbn [BlockCipher.blocks16 foldl].
  assert (blen (firstn 16 b) = 16) as Lt by (unfold blen in *; rewrite length_firstn; lia).
  assert (is_bytes (firstn 16 b)) as Bt by by apply Forall_take.
  destruct (BlockCipher.aes_block h (firstn 16 b) Lh Lt) as [La Ba].
  apply IH; [unfold Mmo.mmo_step; rewrite BlockCipher.cipher_xors_len; lia|
    by apply BlockCipher.cipher_xors_bytes|by apply Forall_drop|unfold blen in *; rewrite length_drop; lia].
Qed.
Lemma key_install a s :
  blen a = 116 → Ccm.usable_limits (w_limits (w s)) →
  wp (install_code a) s (λ x s', steady false s s' ∧ w s' = w s ∧
    ∀ k, x = inr k → k = Mmo.mmo_digest (slice a 0 18)) (λ _ : M, False).
Proof.
  intros La [Ht Hl]. unfold wp, install_code, Mmo.install_code_derive. rewrite Z.eqb_refl. cbn [negb]. cbv zeta.
  destruct (_ || _); [split; [apply key_steady_cipher|done]|].
  pose proof (Mmo.mmo_hash_spec (cipher s) (Some a) 18 _ _ ltac:(repeat split; [done|cbn; lia|done|done|apply Ht|apply Ht|exact Hl])) as H.
  cbv zeta in H. cbn [default from_option id] in H.
  destruct (Mmo.zigbee_mmo_hash _ _ _ _ _ _ _) as [[[r out] i] d].
  destruct H as (inf&_&[(->&->&_)|(->&->&_)]).
  - split; [apply key_steady_cipher|]. split; [done|]. by intros k [= <-].
  - split; [apply key_steady_cipher|done].
Qed.

(** ** States *)
Definition unopened s : Prop :=
  (security_keys_phase s = SECURITY_KEYS_COLD ∨ security_keys_phase s = SECURITY_KEYS_UNPROVISIONED) ∧
  floor_cache s = replicate 8 0 ∧ phase_cache s = 0 ∧ holds (counters s) good.
Definition placed s : Prop := unopened s ∨ (broken s ∧ holds (counters s) good) ∨ ∃ r, live s r.
Definition sane s : Prop := idle s ∧ placed s.
Definition recovers (d : M) : Prop := holds (service_restart d) good.
(** A call from any of these states. *)
Definition sane_after {A} (y : outcome M (security_keys_result_t * option A * state)) : Prop :=
  match y with Ret (_, _, s') => sane s' | Lost d => recovers d end.
Lemma key_live_holds s r : live s r → holds (counters s) good.
Proof. intros (b&G&_&_&_&H&_). eapply holds_weaken; [|exact H]. by intros x ->. Qed.
Lemma key_sane_holds s : sane s → holds (counters s) good.
Proof. intros (_&[(_&_&_&H)|[[_ H]|[r H]]]); [done|done|by eapply key_live_holds]. Qed.
Lemma key_reached_good b r0 x : good b → good r0 → x = b ∨ reaches r0 x → good x.
Proof. intros G0 G1 [-> |H]; [done|by eapply key_reaches_good]. Qed.
Lemma key_served_sane {A} b r0 V (y : outcome M (security_keys_result_t * option A * state)) :
  good b → good r0 → served b r0 V y → sane_after y.
Proof.
  intros G0 G1. destruct y as [[[res v] s']|d]; cbn.
  - intros (Hi&x&_&_&[(r&Hl&_)|(_&Hb&Hh)]); (split; [done|]); [right; right; by exists r|right; left].
    split; [done|]. eapply holds_weaken; [|exact Hh]. intros z Hz. by eapply (key_reached_good b r0).
  - intros Hh. eapply holds_weaken; [|exact Hh]. intros z Hz. by eapply (key_reached_good b r0).
Qed.

(** ** Calls that are refused before they do anything *)
Definition closed s : Prop :=
  security_keys_phase s = SECURITY_KEYS_FAILED ∨ security_keys_phase s < SECURITY_KEYS_PROVISIONED.
Lemma key_load_closed s : closed s → ∃ e, load (M := M) s = Ret (inl e, s).
Proof.
  intros H. unfold load, bind, get. unfold closed, SECURITY_KEYS_FAILED, SECURITY_KEYS_PROVISIONED in *.
  destruct (security_keys_phase s =? 11) eqn:E1; [by eexists|].
  destruct (security_keys_phase s <? 2) eqn:E2; [by eexists|]. lia.
Qed.
Lemma key_finish_sane s e : placed s → sane (finish s e).
Proof.
  intros H. split; [unfold idle, finish; by destruct (_ =? _)|].
  destruct H as [(H1&H2&H3&H4)|[[[H1 H2] H3]|[r H]]].
  - left. unfold finish. destruct (_ =? _); done.
  - right; left. unfold finish. proj. by rewrite H1.
  - right; right. exists r. by apply key_live_finish.
Qed.
Lemma key_refused_sane {A} (m : E A) s e : m s = Ret (inl e, s) → sane s → sane_after (call m s).
Proof. intros H Hs. unfold call. rewrite H. cbn. apply key_finish_sane, Hs. Qed.
Lemma key_closed_sane {A} (f : () → E A) s : closed s → sane s → sane_after (call (bind load f) s).
Proof.
  intros Hc Hs. destruct (key_load_closed s Hc) as [e He]. apply (key_refused_sane _ _ e); [|done].
  unfold bind. by rewrite He.
Qed.
Lemma key_closed_ready {A} (f : () → E A) o w l p s :
  closed s → sane s → sane_after (call (bind (ready o w l p) f) s).
Proof.
  intros Hc Hs. destruct (key_load_closed s Hc) as [e He]. apply (key_refused_sane _ _ e); [|done].
  unfold ready, bind. by rewrite He.
Qed.

(** ** Opening and provisioning *)
Lemma key_wp_first s :
  w s = zero_work → holds (counters s) good →
  wp read_record s (λ x (s' : state),
    (x = inr tt ∧ ∃ b c, good b ∧ holds c (λ y, y = b) ∧ staged c = staged (counters s) ∧
       s' = s <| counters := c |> <| w := loaded b |>) ∨
    (x = inl SECURITY_KEYS_STORAGE ∧ broken s' ∧ holds (counters s') good))
    (λ _, False).
Proof.
  intros Hw Hh. unfold wp, read_record.
  pose proof (read_law (counters s) good SECURITY_KEYS_RECORD_MAX Hh) as H.
  pose proof (staged_read (counters s) SECURITY_KEYS_RECORD_MAX) as Hst.
  destruct (service_read (counters s) SECURITY_KEYS_RECORD_MAX) as [[[r d] n] c] eqn:Er.
  cbn [snd] in Hst.
  destruct (bool_decide (r ≠ Counter.SECURITY_COUNTER_OK)) eqn:E; [right|left].
  { split; [done|]. split; [done|]. apply H. }
  apply bool_decide_eq_false, dec_stable in E as ->. split; [done|].
  destruct H as [_ H]. destruct (H eq_refl) as (b&->&->&_&_&G&Hb). exists b, c.
  split; [done|]. split; [done|]. split; [done|]. clear H. pose proof G as [[L _] _].
  unfold loaded. rewrite <- Hw. unfold set, put. cbn [default from_option id]. proj. rewrite Hw.
  rewrite L. rewrite blit_0 by (change (record zero_work) with (replicate 112 0); rewrite blen_replicate; lia).
  rewrite drop_ge by (unfold blen in L; change (record zero_work) with (replicate 112 0); rewrite length_replicate; lia).
  by rewrite app_nil_r.
Qed.
Lemma key_open_sane s : sane s → sane_after (security_keys_open s).
Proof.
  intros Hs. unfold security_keys_open.
  destruct (negb (security_keys_phase s =? SECURITY_KEYS_COLD)) eqn:Ec.
  { apply (key_refused_sane _ _ SECURITY_KEYS_STATE); [|done]. unfold bind, get. by rewrite Ec. }
  pose proof Hs as [Hi H]. assert (unopened s) as (_&Hf&Hp&Hh).
  { unfold SECURITY_KEYS_COLD in Ec. destruct H as [?|[[[H1 _] _]|(r&b&G&_&P1&_)]]; [done| |].
    - rewrite H1 in Ec. done.
    - pose proof (key_good_phase b G). lia. }
  clear H. unfold call, bind at 1, get. rewrite Ec. unfold bind at 1, set at 1, put at 1.
  set (s0 := s <| w := zero_work |>). unfold bind at 1. change (counters s0) with (counters s).
  pose proof (open_law (counters s) good Hh) as Hop. pose proof (staged_open (counters s) good Hh) as Hst.
  destruct (service_open (counters s)) as [[r c]|d]; [|exact Hop].
  set (s1 := s0 <| counters := c |>).
  destruct (bool_decide (r = Counter.SECURITY_COUNTER_EMPTY)) eqn:Ee.
  { change (sane (finish (s1 <| security_keys_phase := SECURITY_KEYS_UNPROVISIONED |>) SECURITY_KEYS_EMPTY)).
    apply key_finish_sane. left. split; [by right|]. done. }
  destruct (bool_decide (r ≠ Counter.SECURITY_COUNTER_OK)) eqn:Er.
  { change (sane (finish (s1 <| security_keys_phase := SECURITY_KEYS_FAILED |>
                             <| security_keys_result := SECURITY_KEYS_STORAGE |>) SECURITY_KEYS_STORAGE)).
    apply key_finish_sane. right; left. done. }
  apply bool_decide_eq_false, dec_stable in Er as ->. specialize (Hst eq_refl).
  pose proof (key_wp_first s1 eq_refl Hop) as Hrd. unfold wp in Hrd. unfold bind at 1.
  destruct (read_record s1) as [[x s2]|d]; [|done].
  destruct Hrd as [(->&b&c'&G&Hb&Hst'&->)|(->&Hbr&Hh2)].
  2: { apply key_finish_sane. right; by left. }
  unfold bind at 1, gets. cbv beta iota. change (id (w ?x)) with (w x).
  set (s3 := s1 <| counters := c' |> <| w := loaded b |>).
  change (record (w s3)) with b. change (size (w s3)) with 112. rewrite (proj2 G). cbn [negb].
  set (s4 := s3 <| security_keys_phase := phase b |> <| floor_cache := slice b NF 8 |>
                <| phase_cache := rd b PHASE |>).
  change (sane (finish s4 SECURITY_KEYS_OK)).
  apply key_finish_sane. right; right. exists b, b. pose proof G as [[L _] _].
  do 5 (split; [done|]). split; [change (blen (slice b 80 8) = 8); rewrite blen_slice by lia; done|].
  split; [right; right; change (staged c' = false); by rewrite Hst'|]. by apply key_overlay_kept.
Qed.

Lemma key_bind_value {A B} (m : E A) (f : A → E B) s a s1 Q L :
  m s = Ret (inr a, s1) → wp (f a) s1 Q L → wp (bind m f) s Q L.
Proof. intros H1 H2. unfold wp, bind in *. by rewrite H1. Qed.
(** The arguments of a provisioning are of their C types; and the condition that the code does not
    test: the link key that security_keys_provision derives from the install code is not zero. *)
Definition provision_octets (config : option security_keys_config_t) (code : option bytes)
    (f g : Z) (l : option Ccm.ccm_star_limits_t) : Prop :=
  is_u32 f ∧ is_u32 g ∧ limits_typed l ∧
  match config, code with
  | Some c, Some code => config_typed c ∧ blen code = 18 ∧ is_bytes code
  | _, _ => True
  end.
Definition link_key_usable (config : option security_keys_config_t) (code : option bytes) : Prop :=
  match config, code with
  | Some _, Some code => Mmo.mmo_digest (slice code 0 18) ≠ zeros 16
  | _, _ => True
  end.
Definition provision_typed (config : option security_keys_config_t) (code : option bytes)
    (f g : Z) (l : option Ccm.ccm_star_limits_t) : Prop :=
  provision_octets config code f g l ∧ link_key_usable config code.
Lemma key_first_staged f g k c s l :
  config_typed c → is_bytes k →
  unopened s → security_keys_phase s = SECURITY_KEYS_UNPROVISIONED → is_u32 f → is_u32 g →
  good (first_record c k) → record (w s) = first_record c k →
  wp (bind ((λ s, let '(r, c) := service_create (counters s) f g (record (w s)) 112 (polls (w s)) in
                 Ret (inr r, s <| counters := c |>)) : E _)
        (λ r, if bool_decide (r ≠ Counter.SECURITY_COUNTER_OK) then fault SECURITY_KEYS_STORAGE
              else put (λ s, s <| security_keys_phase := SECURITY_KEYS_PROVISIONED |>))) s
    (λ (_ : security_keys_result_t + ()) s', placed s') l.
Proof.
  intros Hc Bk (_&Hf&Hp&Hh) Hun Uf Ug G Hr. pose proof G as [[L B] _]. unfold bind, wp. rewrite Hr.
  set (r := first_record c k) in *.
  pose proof (create_law (counters s) good f g r 112 (polls (w s)) Hh Uf Ug B ltac:(done) ltac:(lia)) as Hlaw.
  rewrite key_slice_112 in Hlaw by done.
  destruct (service_create (counters s) f g r 112 (polls (w s))) as [rc c'].
  destruct (decide (rc = Counter.SECURITY_COUNTER_OK)) as [->|Hne].
  2: { rewrite bool_decide_eq_true_2 by done. right; left. done. }
  rewrite bool_decide_eq_false_2 by (by intros []). right; right. exists r, r.
  assert (phase r = SECURITY_KEYS_PROVISIONED) as Eph by by apply key_first_phase.
  split; [done|]. split; [done|]. split; [exact Eph|]. split; [exact Eph|]. split; [exact Hlaw|].
  split; [change (blen (floor_cache s) = 8); by rewrite Hf|]. split; [by left|].
  match goal with |- overlay ?x _ = _ => unfold overlay;
    change (phase_cache x) with (phase_cache s); change (floor_cache x) with (floor_cache s) end.
  rewrite Hf, Hp. cbn [Z.eqb]. apply bytes_ext; [by rewrite blen_blit|]. intros i Hi. rewrite blen_blit in Hi.
  unfold NF. rewrite rd_blit by (rewrite ?blen_replicate; lia). rewrite blen_replicate.
  change (Z.of_nat 8) with 8. destruct ((80 <=? i) && (i <? 80 + 8)) eqn:E; [|done].
  rewrite rd_replicate by lia. symmetry. apply key_boot_floors; [done|by rewrite Eph|unfold NF; lia].
Qed.
Lemma key_provision_sane config code f g l p s :
  sane s → provision_typed config code f g l → sane_after (security_keys_provision config code f g l p s).
Proof.
  intros Hs [(Uf&Ug&Hl&Ht) Hne]. unfold security_keys_provision.
  destruct (negb (security_keys_phase s =? SECURITY_KEYS_UNPROVISIONED)) eqn:Ec.
  { apply (key_refused_sane _ _ SECURITY_KEYS_STATE); [|done]. unfold bind, get. by rewrite Ec. }
  pose proof Hs as [Hi H]. assert (unopened s) as Hun.
  { unfold SECURITY_KEYS_UNPROVISIONED in Ec. destruct H as [?|[[[H1 _] _]|(r&b&G&_&P1&_)]]; [done| |].
    - rewrite H1 in Ec. done.
    - pose proof (key_good_phase b G). lia. }
  clear H.
  assert (∀ m : E (), wp m s (λ _ s', placed s') (λ _, False) → sane_after (call m s)) as Hcall.
  { intros m Hm. unfold wp in Hm. unfold call. destruct (m s) as [[x s']|d]; [|done]. by apply key_finish_sane. }
  assert (∀ s', same_statics s s' → counters s' = counters s → placed s' ∧ unopened s') as Hpl.
  { intros s' (E1&E2&E3) E4. assert (unopened s') as Hu; [|split; [by left|done]].
    unfold unopened. by rewrite E1, E2, E3, E4. }
  apply Hcall. apply key_wp_bind. change (wp get s ?Q ?L) with (Q (inr s) s). cbv beta iota. rewrite Ec.
  destruct config as [c|], code as [code|]; try by left.
  destruct Ht as (Hc&Lc&Bc). cbn [link_key_usable] in Hne.
  destruct l as [l|]; [|by left].
  destruct ((Ccm.block_timeout l =? 0) || (Timebase.TIMEBASE_HALF_RANGE <=? Ccm.block_timeout l)
            || (Ccm.block_polls l =? 0) || (p =? 0)) eqn:El.
  { eapply key_bind_value; [by unfold limits_ok; rewrite El|]. by left. }
  assert (Ccm.usable_limits l) as Hlim.
  { rewrite !orb_false_iff in El. destruct Hl. unfold is_u32, Ccm.usable_limits, Timebase.TIMEBASE_HALF_RANGE in *. lia. }
  set (s1 := s <| w := w s <| w_limits := l |> <| polls := p |> |>).
  eapply (key_bind_value _ _ _ true s1); [by unfold limits_ok; rewrite El|]. cbn [negb orb].
  destruct ((f =? 0xffffffff) || (g =? 0xffffffff)) eqn:Efg; [apply Hpl; done|].
  set (r1 := configured c blank).
  set (s2 := s1 <| w := w s1 <| record := r1 |> |>).
  assert (record (w s1) = blank) as Eb by (change (record (w s1)) with (record (w s)); by rewrite Hi).
  eapply (key_bind_value _ _ _ tt s2); [unfold s2, r1; by rewrite <- Eb|].
  eapply (key_bind_value _ _ _ r1 s2); [done|].
  destruct (negb (valid_config r1)) eqn:Evc; [apply Hpl; done|]. apply negb_false_iff in Evc.
  set (a := blit (w_a (w s2)) 0 (slice code 0 18)). set (s3 := s2 <| w := w s2 <| w_a := a |> |>).
  eapply (key_bind_value _ _ _ tt s3); [done|]. eapply (key_bind_value _ _ _ a s3); [done|].
  assert (blen a = 116) as La.
  { unfold a. rewrite blen_blit. change (w_a (w s2)) with (w_a (w s)). by rewrite Hi. }
  assert (slice a 0 18 = code) as Ea.
  { unfold a. rewrite (slice_all' code) by done. apply key_slice_blit_same; [done|done|].
    change (w_a (w s2)) with (w_a (w s)). by rewrite Hi. }
  apply key_wp_bind. eapply key_wp_mono; [by apply (key_install a s3)| |done].
  intros x s4 (((E1&E2&E3)&_&[Hh _]&_)&Hw4&Hk).
  assert (unopened s4) as Hun4.
  { destruct Hun as (U1&U2&U3&U4). unfold unopened. rewrite E1, E2, E3.
    split; [exact U1|]. split; [exact U2|]. split; [exact U3|]. by apply Hh. }
  destruct x as [e|k]; [by left|]. specialize (Hk k eq_refl). rewrite Ea in Hk.
  rewrite slice_all' in Hne by done.
  assert (blen k = 16 ∧ is_bytes k ∧ k ≠ zeros 16) as (Lk&Bk&Nk).
  { rewrite Hk. split; [apply Mmo.mmo_digest_len|]. split; [by apply key_digest_bytes; [|lia]|done]. }
  assert (record (w s4) = r1) as Er4 by (by rewrite Hw4).
  set (s5 := s4 <| w := w s4 <| record := first_record c k |> |>).
  eapply (key_bind_value _ _ _ tt s5); [unfold s5, first_record; fold r1; by rewrite <- Er4|].
  apply (key_first_staged f g k c); try done.
  - change (security_keys_phase s5) with (security_keys_phase s4). rewrite E1.
    change (security_keys_phase s = SECURITY_KEYS_UNPROVISIONED). lia.
  - by apply key_first_good.
Qed.
End Events.
End KeyEvents.
