(* ===== verification/KeyHistory.v ===== *)
(** Histories of the key store: every call and every loss of supply, the invariant of the stored
    record, the life cycle as an abstract specification, and replay protection. *)
From stdpp Require Import relations.
From S2P Require Import Prelude Flash NvRecord NvScan Journal ApsFrame NwkFrame BlockCipher Timebase Mmo Ccm.
From S2P Require Import Security EdWire Counter CounterService SecurityKeys KeyView KeyLife KeyWrites.
From S2P Require Import KeyCalls KeyLive KeyStore KeyReceive KeyEvents.

Module KeyHistory.
Import Security EdWire CounterService SecurityKeys KeyView KeyLife KeyWrites KeyCalls KeyLive KeyStore KeyReceive
  KeyEvents.
#[local] Existing Instance SecurityKeys.state_fields.

(** ** Events: the public calls of include/security_keys.h, and the loss of supply *)
Inductive event :=
  | CallOpen
  | CallProvision (config : option security_keys_config_t) (code : option bytes) (nwk_floor aps_floor : Z)
      (limits : option Ccm.ccm_star_limits_t) (nv_polls : Z)
  | CallAssociate (short_address nv_polls : Z)
  | CallReceive (raw : option bytes) (length : Z) (output event_out : bool)
      (limits : option Ccm.ccm_star_limits_t) (nv_polls : Z)
  | CallRequest (nwk_seq aps_counter : Z) (out : bool) (capacity : Z) (written : bool)
      (limits : option Ccm.ccm_star_limits_t) (nv_polls : Z)
  | CallVerify (nwk_seq aps_counter : Z) (out : bool) (capacity : Z) (written : bool)
      (limits : option Ccm.ccm_star_limits_t) (nv_polls : Z)
  | CallLeave (nwk_seq : Z) (out : bool) (capacity : Z) (written : bool)
      (limits : option Ccm.ccm_star_limits_t) (nv_polls : Z)
  | CallSend (p : option ed_packet_t) (aps_secure : Z) (out : bool) (capacity : Z) (written : bool)
      (limits : option Ccm.ccm_star_limits_t) (nv_polls : Z)
  | CallStatus (output : bool)
  | PowerLoss.
(** The arguments are of their C types; every provisioning derives a usable link key (a condition on
    the caller's install code, which the code does not test). *)
Definition event_octets (e : event) : Prop :=
  match e with
  | CallProvision config code f g l _ => provision_octets config code f g l
  | CallAssociate a _ => is_u16 a
  | CallReceive raw n _ _ l _ =>
      limits_typed l ∧ is_bytes (default [] raw) ∧ n <= blen (default [] raw)
  | _ => True
  end.
Definition link_key_derived {D : Type} `{!BlockCipher.BlockCipher D} (e : event) : Prop :=
  match e with CallProvision config code _ _ _ _ => link_key_usable (D := D) config code | _ => True end.
Definition event_typed {D : Type} `{!BlockCipher.BlockCipher D} (e : event) : Prop :=
  event_octets e ∧ link_key_derived (D := D) e.

Section History.
Context {M C D : Type} `{SC : !CounterService M C} `{BC : !BlockCipher.BlockCipher D}.
Abbreviation state := (state (C := C) (D := D)).
Implicit Types s : state.

(** The result code and the next state; after a loss, the medium and the device as they are. *)
Definition plain {A} (y : outcome M (security_keys_result_t * option A * state))
    : outcome M (security_keys_result_t * state) :=
  match y with Ret (r, _, s) => Ret (r, s) | Lost d => Lost d end.
Definition perform (e : event) (s : state) : outcome M (security_keys_result_t * state) :=
  match e with
  | CallOpen => plain (security_keys_open s)
  | CallProvision config code f g l p => plain (security_keys_provision config code f g l p s)
  | CallAssociate a p => plain (security_keys_associate a p s)
  | CallReceive raw n o v l p => plain (security_keys_receive raw n o v l p s)
  | CallRequest n a o c w l p => plain (security_keys_request n a o c w l p s)
  | CallVerify n a o c w l p => plain (security_keys_verify n a o c w l p s)
  | CallLeave n o c w l p => plain (security_keys_leave n o c w l p s)
  | CallSend k a o c w l p => plain (security_keys_send k a o c w l p s)
  | CallStatus o => plain (security_keys_status o s)
  | PowerLoss => Lost (service_medium (counters s))
  end.
Definition next (e : event) (s : state) : state :=
  match perform e s with
  | Ret (_, s') => s'
  | Lost d => reset_state (service_restart d) (cipher s)
  end.
Definition history (es : list event) (s : state) : state := foldl (λ s e, next e s) s es.

(** ** The invariant *)
Definition reply_ok (y : outcome M (security_keys_result_t * state)) : Prop :=
  match y with Ret (_, s') => sane s' | Lost d => recovers d end.
Lemma key_plain_ok {A} (y : outcome M (security_keys_result_t * option A * state)) :
  sane_after y → reply_ok (plain y).
Proof. by destruct y as [[[r v] s']|d]. Qed.
Lemma key_placed_cases s : placed s → closed s ∨ ∃ b r, base b r s.
Proof.
  intros [(Hp&_)|[[[Hp _] _]|(r&b&H)]].
  - left. right. unfold SECURITY_KEYS_COLD, SECURITY_KEYS_UNPROVISIONED, SECURITY_KEYS_PROVISIONED in *. lia.
  - left. by left.
  - right. by exists b, r.
Qed.
Lemma key_perform_ok e s : sane s → event_typed (D := D) e → reply_ok (perform e s).
Proof.
  intros Hs [He Hk]. pose proof Hs as [Hi Hp].
  assert (∀ b r, base b r s → good b ∧ good r) as Hg by (by intros b r (G1&G2&_)).
  destruct e as [|config code f g l p|a p|raw n o v l p|n a o c w l p|n a o c w l p|n o c w l p|k a o c w l p|o|];
    cbn [perform]; try apply key_plain_ok; cbn [event_octets link_key_derived] in He, Hk.
  - by apply key_open_sane.
  - by apply key_provision_sane.
  - destruct (key_placed_cases s Hp) as [Hc|(b&r&Hb)]; [by apply key_closed_sane|].
    destruct (Hg _ _ Hb). apply (key_served_sane b r any); [done..|]. by apply key_associate_served.
  - destruct (key_placed_cases s Hp) as [Hc|(b&r&Hb)]; [by apply key_closed_sane|].
    destruct (Hg _ _ Hb). destruct He as (H1&H2&H3).
    apply (key_served_sane b r (accepted r (default [] raw) n)); [done..|]. by apply key_receive_served.
  - destruct (key_placed_cases s Hp) as [Hc|(b&r&Hb)]; [by apply key_closed_ready|].
    destruct (Hg _ _ Hb). apply (key_served_sane b r any); [done..|]. by apply key_request_served.
  - destruct (key_placed_cases s Hp) as [Hc|(b&r&Hb)]; [by apply key_closed_ready|].
    destruct (Hg _ _ Hb). apply (key_served_sane b r any); [done..|]. by apply key_verify_served.
  - destruct (key_placed_cases s Hp) as [Hc|(b&r&Hb)]; [by apply key_closed_ready|].
    destruct (Hg _ _ Hb). apply (key_served_sane b r any); [done..|]. by apply key_leave_served.
  - destruct (key_placed_cases s Hp) as [Hc|(b&r&Hb)]; [by apply key_closed_sane|].
    destruct (Hg _ _ Hb). apply (key_served_sane b r any); [done..|]. by apply key_send_served.
  - destruct (key_placed_cases s Hp) as [Hc|(b&r&Hb)]; [|destruct (Hg _ _ Hb);
      apply (key_served_sane b r any); [done..|]; by apply key_status_served].
    unfold security_keys_status, call, bind, get. cbv zeta.
    destruct (negb o); [by apply key_finish_sane|].
    replace ((security_keys_phase s <? SECURITY_KEYS_PROVISIONED) || (security_keys_phase s =? SECURITY_KEYS_FAILED))
      with true by (symmetry; apply orb_true_iff; destruct Hc; [right|left]; lia).
    by apply key_finish_sane.
  - cbn. unfold recovers. apply restart_law. by apply key_sane_holds.
Qed.
Lemma key_reset_sane c (d : D) : holds c good → sane (reset_state c d).
Proof. intros H. split; [done|]. left. split; [by left|]. done. Qed.
Lemma key_next_sane e s : sane s → event_typed (D := D) e → sane (next e s).
Proof.
  intros Hs He. pose proof (key_perform_ok e s Hs He) as H. unfold next.
  destruct (perform e s) as [[r s']|d]; [done|]. by apply key_reset_sane.
Qed.
Lemma key_history_sane es s :
  sane s → Forall (event_typed (D := D)) es → sane (history es s).
Proof.
  intros Hs He. unfold history. revert s Hs. induction He as [|e es He _ IH]; intros s Hs; [done|].
  cbn [foldl]. apply IH. by apply key_next_sane.
Qed.

(** ** The abstract life cycle: what one event does to the record *)
Definition refined (b r : bytes) (y : outcome M (security_keys_result_t * state)) : Prop :=
  match y with
  | Ret (res, s') =>
      idle s' ∧
      ((∃ r', live s' r' ∧ reaches r r') ∨
       (res = SECURITY_KEYS_STORAGE ∧ broken s' ∧ holds (counters s') (λ x, x = b ∨ reaches r x)))
  | Lost d => holds (service_restart d) (λ x, x = b ∨ reaches r x)
  end.
Lemma key_served_refined {A} b r V (y : outcome M (security_keys_result_t * option A * state)) :
  served b r V y → refined b r (plain y).
Proof.
  destruct y as [[[res v] s']|d]; [|done]. intros (Hi&x&_&_&H). split; [done|].
  destruct H as [(r'&Hl&Hr&_)|H]; [left; by exists r'|by right].
Qed.
Lemma key_refused_refined {A} b r (m : E (M := M) (C := C) (D := D) A) s e :
  base b r s → m s = Ret (inl e, s) → refined b r (plain (call m s)).
Proof.
  intros Hb Hm. unfold call. rewrite Hm. split; [unfold idle, finish; by destruct (_ =? _)|].
  left. exists r. split; [apply key_live_finish; by exists b|]. apply key_reaches_refl, Hb.
Qed.
Lemma key_perform_refined e b r s :
  idle s → base b r s → event_octets e → refined b r (perform e s).
Proof.
  intros Hi Hb He. pose proof Hb as (_&G&P1&P2&Hh&_). pose proof (key_good_phase r G) as Hp.
  destruct e as [|config code f g l p|a p|raw n o v l p|n a o c w l p|n a o c w l p|n o c w l p|k a o c w l p|o|];
    cbn [perform event_octets] in *.
  - apply (key_refused_refined b r _ s SECURITY_KEYS_STATE); [done|]. unfold bind, get.
    by replace (security_keys_phase s =? SECURITY_KEYS_COLD) with false by (unfold SECURITY_KEYS_COLD; lia).
  - apply (key_refused_refined b r _ s SECURITY_KEYS_STATE); [done|]. unfold bind, get.
    by replace (security_keys_phase s =? SECURITY_KEYS_UNPROVISIONED) with false
      by (unfold SECURITY_KEYS_UNPROVISIONED; lia).
  - apply (key_served_refined b r any). by apply key_associate_served.
  - destruct He as (H1&H2&H3). apply (key_served_refined b r (accepted r (default [] raw) n)).
    by apply key_receive_served.
  - apply (key_served_refined b r any). by apply key_request_served.
  - apply (key_served_refined b r any). by apply key_verify_served.
  - apply (key_served_refined b r any). by apply key_leave_served.
  - apply (key_served_refined b r any). by apply key_send_served.
  - apply (key_served_refined b r any). by apply key_status_served.
  - apply restart_law. eapply holds_weaken; [|exact Hh]. intros x ->. by left.
Qed.

(** ** The record that a call loads *)
Definition loads s : option bytes :=
  match load (M := M) s with Ret (inr _, s') => Some (record (w s')) | _ => None end.
Lemma key_loads_base b r r' s : idle s → base b r s → loads s = Some r' → r' = r.
Proof.
  intros Hi Hb. pose proof (key_wp_load s b r Hi Hb) as H. unfold loads, wp in *.
  destruct (load (M := M) s) as [[[e|u] s']|d]; [done| |done]. intros [= <-].
  destruct H as [(_&_&->)|(?&_)]; done.
Qed.
Lemma key_loads_closed s : closed s → loads s = None.
Proof. intros H. unfold loads. by destruct (key_load_closed s H) as [e ->]. Qed.
Lemma key_loads s r : sane s → loads s = Some r → ∃ b, base b r s.
Proof.
  intros [Hi Hp] Hl. destruct (key_placed_cases s Hp) as [Hc|(b&r'&Hb)].
  - by rewrite key_loads_closed in Hl.
  - exists b. by rewrite (key_loads_base b r' r s).
Qed.
(** Where a call loads a record, provisioning is refused, whatever its install code. *)
Lemma key_loaded_sane e s r : sane s → loads s = Some r → event_octets e → sane (next e s).
Proof.
  intros Hs Hl He. destruct e as [|config code f g l p| | | | | | | |]; try (by apply key_next_sane).
  destruct (key_loads s r Hs Hl) as [b Hb]. pose proof Hb as (_&G&P1&P2&_).
  pose proof (key_good_phase r G) as Hp.
  assert (sane_after (security_keys_provision config code f g l p s)) as H.
  { apply (key_refused_sane _ _ SECURITY_KEYS_STATE); [|done]. unfold bind, get.
    by replace (security_keys_phase s =? SECURITY_KEYS_UNPROVISIONED) with false
      by (unfold SECURITY_KEYS_UNPROVISIONED; lia). }
  apply key_plain_ok in H. unfold next, perform. by destruct (plain _) as [[x s']|d]; [|apply key_reset_sane].
Qed.
Lemma key_next_moves e s r r' :
  sane s → event_octets e → loads s = Some r → loads (next e s) = Some r' → reaches r r'.
Proof.
  intros Hs He Hl Hl'. destruct (key_loads s r Hs Hl) as [b Hb].
  pose proof (key_perform_refined e b r s (proj1 Hs) Hb He) as H. unfold next in Hl'.
  destruct (perform e s) as [[res s']|d].
  - destruct H as [Hi [(r1&(b'&Hb')&Hr)|(_&[Hf _]&_)]].
    + by rewrite (key_loads_base b' r1 r' s').
    + rewrite key_loads_closed in Hl'; [done|]. by left.
  - rewrite key_loads_closed in Hl'; [done|]. by right.
Qed.

(** ** Histories under one network key: slot [i] of every record holds the key [k] *)
Definition slot_key (r : bytes) (i : Z) : bytes := v_nk (view_of r) i.
Fixpoint keyed (i : Z) (k : bytes) (es : list event) (s : state) : bool :=
  match loads s with
  | Some r => bool_decide (slot_key r i = k) &&
      match es with [] => true | e :: es => keyed i k es (next e s) end
  | None => false
  end.
Lemma key_keyed_loads i k es s :
  keyed i k es s = true → ∃ r, loads s = Some r ∧ slot_key r i = k.
Proof.
  destruct es; cbn [keyed]; destruct (loads s) as [r|]; try done; intros [H _]%andb_true_iff;
    exists r; (split; [done|by apply bool_decide_eq_true in H]).
Qed.
Lemma key_keyed_sane i k es s :
  sane s → Forall event_octets es → keyed i k es s = true → sane (history es s).
Proof.
  intros Hs He. revert s Hs. induction He as [|e es He _ IH]; intros s Hs Hk; [done|].
  cbn [keyed] in Hk. destruct (loads s) as [r|] eqn:Hl; [|done]. apply andb_true_iff in Hk as [_ Hk].
  apply IH; [by eapply key_loaded_sane|done].
Qed.
(** Along such a history the replay floor of the slot never sinks and its sequence number stays. *)
Lemma key_keyed_floor i k es s r r' :
  i = 0 ∨ i = 1 → sane s → Forall event_octets es → keyed i k es s = true →
  loads s = Some r → loads (history es s) = Some r' →
  v_nf (view_of r) i <= v_nf (view_of r') i ∧ v_seq (view_of r') i = v_seq (view_of r) i ∧ slot_key r' i = k.
Proof.
  intros Hi Hs He. revert s r Hs. induction He as [|e es He Hes IH]; intros s r Hs Hk Hl Hl'.
  - unfold history in Hl'. cbn [foldl] in Hl'. rewrite Hl in Hl'. injection Hl' as <-.
    destruct (key_keyed_loads i k [] s Hk) as (r1&Hr1&Hk1). rewrite Hl in Hr1. by injection Hr1 as <-.
  - cbn [keyed] in Hk. rewrite Hl in Hk. apply andb_true_iff in Hk as [Hk1 Hk2].
    apply bool_decide_eq_true in Hk1.
    destruct (key_keyed_loads i k es _ Hk2) as (r1&Hr1&Hkr).
    destruct (IH (next e s) r1 (key_loaded_sane e s r Hs Hl He) Hk2 Hr1 Hl') as (A1&A2&A3).
    destruct (key_next_moves e s r r1 Hs He Hl Hr1) as (_&_&M1&_).
    destruct (M1 i Hi ltac:(unfold slot_key in *; congruence)) as [B1 B2].
    split; [lia|]. split; [congruence|done].
Qed.
End History.
End KeyHistory.

Module KeyReplay.
Import Security EdWire CounterService SecurityKeys KeyView KeyLife KeyWrites KeyCalls KeyLive KeyStore KeyReceive
  KeyEvents KeyHistory.
#[local] Existing Instance SecurityKeys.state_fields.

(** ** An accepted frame and the floor of its slot *)
Lemma key_floor_at r i : i = 0 ∨ i = 1 → v_nf (view_of r) i = u32_at r (NF + 4 * i).
Proof. by intros [-> | ->]. Qed.
Lemma key_slot_key_present r i :
  good r → i = 0 ∨ i = 1 → slot_key r i ≠ zeros 16 → present (view_of r) i = true.
Proof.
  unfold slot_key. rewrite key_good. intros [_ (_&H&_)] Hi Hk. destruct (v_bootstrap _).
  - destruct H as (_&H0&H1&_). exfalso. apply Hk. by destruct Hi as [-> | ->].
  - destruct H as (_&_&_&S0&S1).
    assert (slot_fine (view_of r) i) as [[E _]|(_&E&_)] by (by destruct Hi as [-> | ->]); [done|congruence].
Qed.
Lemma key_slot_material r q i :
  good r → slot_of r q = Some i →
  (i = 0 ∨ i = 1) ∧ slot_key r i ≠ zeros 16 ∧ network r = true ∧ v_seq (view_of r) i = q.
Proof.
  intros G (Hi&Hp&Hq)%key_slot_of. split; [done|].
  pose proof (key_present_network (view_of r) i Hi Hp) as Hn.
  apply key_good in G as [T F]. destruct (key_networked _ F Hn) as [_ (_&_&_&S0&S1)].
  assert (slot_fine (view_of r) i) as S by (by destruct Hi as [-> | ->]).
  split; [|split; [exact Hn|by destruct Hi as [-> | ->]]].
  destruct S as [(_&?&_)|(E&_)]; [done|]. unfold present in E. change (v_flags (view_of r)) with (rd r FLAGS) in E.
  congruence.
Qed.
(** The slot with the sequence number of a held key is the slot of that key. *)
Lemma key_slot_unique r q i j :
  good r → i = 0 ∨ i = 1 → slot_key r i ≠ zeros 16 → v_seq (view_of r) i = q → slot_of r q = Some j → j = i.
Proof.
  intros G Hi Hk Hq Hj. pose proof (key_slot_key_present r i G Hi Hk) as Hp.
  pose proof (key_slot_material r q j G Hj) as (Hj'&Hkj&Hn&Hqj).
  pose proof (key_slot_key_present r j G Hj' Hkj) as Hpj.
  apply key_good in G as [T F]. destruct (key_networked _ F Hn) as [_ (_&_&Hd&_)].
  destruct Hi as [-> | ->], Hj' as [-> | ->]; try done; exfalso;
    destruct (Hd ltac:(assumption) ltac:(assumption)) as [Hs _]; apply Hs; unfold v_seq in *; cbn [Z.eqb] in *; congruence.
Qed.
Lemma key_accepted_floor r0 raw n pk ev r q :
  good r0 → accepted r0 raw n (inr (pk, ev)) r → network r0 = true →
  ed_wire_inspect ZIGBEE_SECURITY_NWK (Some raw) n true = (ZIGBEE_SECURITY_OK, Some q) →
  ∃ i, slot_of r0 (m_key_sequence q) = Some i ∧ v_nf (view_of r0) i <= m_counter q ∧
    (slot_key r i = slot_key r0 i →
     m_counter q < v_nf (view_of r) i ∧ v_seq (view_of r) i = m_key_sequence q).
Proof.
  intros G Ha Hn Hq. destruct (Ha pk ev eq_refl) as (r1&x&[Hr|(_&_&E)]&[Hm _]&_); [|congruence].
  destruct Hr as (m&i&Hi&Hs&Hlo&Hhi&[Hk _]&(_&_&[Hm1 _])&_). rewrite Hq in Hi. injection Hi as <-.
  exists i. pose proof (key_slot_material r0 _ i G Hs) as (Hi&_&_&Hseq).
  split; [done|]. rewrite key_floor_at by done. split; [done|]. intros E.
  specialize (Hk i Hi). destruct (Hm1 i Hi Hk) as [_ S1].
  destruct (Hm i Hi ltac:(unfold slot_key in E; congruence)) as [F2 S2].
  rewrite (key_floor_at r1 i Hi) in F2. split; [lia|congruence].
Qed.

Section Replay.
Context {M C D : Type} `{SC : !CounterService M C} `{BC : !BlockCipher.BlockCipher D}.
Abbreviation state := (state (C := C) (D := D)).
Implicit Types s : state.

Lemma key_receive_accepted raw n o v l p s s1 r b pk ev res :
  sane s → base b r s → event_octets (CallReceive (Some raw) n o v l p) →
  security_keys_receive (Some raw) n o v l p s = Ret (res, Some (pk, ev), s1) →
  ∃ r1, live s1 r1 ∧ accepted r raw n (inr (pk, ev)) r1.
Proof.
  intros [Hi _] Hb (H1&H2&H3) E.
  pose proof (key_receive_served (Some raw) n o v l p b r s Hi Hb H1 H2 H3) as H. rewrite E in H.
  destruct H as (_&x&->&Hv&H). destruct x as [e|x]; [done|]. injection Hv as <-.
  destruct H as [(r1&Hl&_&Ha)|(Hc&_)]; [by exists r1|done].
Qed.
(** Once a frame of a network key was delivered, no frame with its counter or a lower one is while
    the key stays in its slot. *)
Lemma key_no_replay raw n o v l p raw' n' o' v' l' p' es s s1 r i res pk ev q q' :
  sane s → loads s = Some r →
  event_octets (CallReceive (Some raw) n o v l p) →
  event_octets (CallReceive (Some raw') n' o' v' l' p') →
  Forall event_octets es →
  ed_wire_inspect ZIGBEE_SECURITY_NWK (Some raw) n true = (ZIGBEE_SECURITY_OK, Some q) →
  ed_wire_inspect ZIGBEE_SECURITY_NWK (Some raw') n' true = (ZIGBEE_SECURITY_OK, Some q') →
  slot_of r (m_key_sequence q) = Some i →
  security_keys_receive (Some raw) n o v l p s = Ret (res, Some (pk, ev), s1) →
  keyed i (slot_key r i) es s1 = true →
  m_key_sequence q' = m_key_sequence q → m_counter q' <= m_counter q →
  match security_keys_receive (Some raw') n' o' v' l' p' (history es s1) with
  | Ret (_, delivered, _) => delivered = None
  | Lost _ => True
  end.
Proof.
  intros Hs Hl He He' Hes Hq Hq' Hi Hrun Hk Eseq Ecnt. destruct (key_loads s r Hs Hl) as [b Hb].
  pose proof Hb as (_&G&_). pose proof (key_slot_material r _ i G Hi) as (Hi'&Hne&Hnet&_).
  destruct (key_receive_accepted raw n o v l p s s1 r b pk ev res Hs Hb He Hrun) as (r1&(b1&Hb1)&Ha).
  assert (sane s1) as Hs1.
  { pose proof (key_loaded_sane (CallReceive (Some raw) n o v l p) s r Hs Hl He) as H.
    unfold next, perform in H. by rewrite Hrun in H. }
  destruct (key_keyed_loads i _ es s1 Hk) as (r1'&Hl1&Hk1).
  pose proof (key_loads_base b1 r1 r1' s1 (proj1 Hs1) Hb1 Hl1) as ->.
  destruct (key_accepted_floor r raw n pk ev r1 q G Ha Hnet Hq) as (i'&Hi2&_&Hf).
  rewrite Hi in Hi2. injection Hi2 as <-. destruct (Hf Hk1) as [Hlt Hseq].
  pose proof (key_keyed_sane i _ es s1 Hs1 Hes Hk) as Hs2.
  destruct (security_keys_receive (Some raw') n' o' v' l' p' (history es s1)) as [[[res' d] s3]|] eqn:Hrun'; [|done].
  destruct d as [[pk' ev']|]; [exfalso|done].
  destruct (key_placed_cases _ (proj2 Hs2)) as [Hc|(b2&r2&Hb2)].
  { unfold security_keys_receive, call, bind in Hrun'. destruct (key_load_closed (M := M) _ Hc) as [e Hle].
    by rewrite Hle in Hrun'. }
  pose proof Hb2 as (_&G2&_).
  destruct (key_receive_accepted raw' n' o' v' l' p' _ s3 r2 b2 pk' ev' res' Hs2 Hb2 He' Hrun') as (r3&_&Ha3).
  assert (loads (history es s1) = Some r2) as Hl2.
  { unfold loads. unfold security_keys_receive, call, bind in Hrun'.
    pose proof (key_wp_load (history es s1) b2 r2 (proj1 Hs2) Hb2) as Hld. unfold wp in Hld.
    destruct (load (M := M) (history es s1)) as [[[e|u] s4]|]; [done| |done].
    by destruct Hld as [(_&_&->)|(?&_)]. }
  destruct (key_keyed_floor i _ es s1 r1 r2 Hi' Hs1 Hes Hk Hl1 Hl2) as (F1&F2&F3).
  assert (slot_key r2 i ≠ zeros 16) as Hne2 by (by rewrite F3).
  assert (network r2 = true) as Hnet2
    by (apply (key_present_network (view_of r2) i Hi'), key_slot_key_present; done).
  destruct (key_accepted_floor r2 raw' n' pk' ev' r3 q' G2 Ha3 Hnet2 Hq') as (j&Hj&Hlow&_).
  assert (j = i) as -> by (eapply (key_slot_unique r2 (m_key_sequence q') i j); try done; congruence).
  lia.
Qed.

Lemma key_history_states es c (d : D) :
  holds c good → Forall (event_typed (D := D)) es →
  let s := history es (reset_state c d) in
  idle s ∧ holds (counters s) good ∧ (unopened s ∨ broken s ∨ ∃ b r, base b r s) ∧
  ∀ r, loads s = Some r → good r ∧ phase r = security_keys_phase s.
Proof.
  intros Hc He s. assert (sane s) as Hs by (apply key_history_sane; [by apply key_reset_sane|done]).
  split; [apply Hs|]. split; [by apply key_sane_holds|]. split.
  - destruct (proj2 Hs) as [?|[[? _]|(r&b&?)]]; [by left|right; by left|right; right; by exists b, r].
  - intros r (b&_&G&_&P&_)%key_loads; done.
Qed.
Lemma key_event_refined e s r :
  sane s → loads s = Some r → event_octets e →
  ∃ b, good b ∧ lags b r ∧ phase b = phase r ∧ refined b r (perform e s).
Proof.
  intros Hs Hl He. destruct (key_loads s r Hs Hl) as [b Hb]. exists b.
  pose proof Hb as (G&_&P1&P2&_). split; [done|]. split; [by eapply key_base_lags|].
  split; [congruence|]. by apply key_perform_refined; [apply Hs|..].
Qed.

(** ** The theorems *)

(** C1: security_keys.c keeps its stored record valid: after any sequence of public calls and
    losses of supply (provisioning, association, joining, key rotation, leaving and rejoining
    included), from a reset whose medium holds nothing or valid records, and on the condition that
    every install code provisioned on the way derives a link key other than zero, the working memory
    is wiped, whatever payload the counter service can still give back passes [valid_record], the
    owner is not yet opened, failed with a storage result, or stands for a valid record; and a record
    that the next call loads is valid and has the phase that the owner publishes.  The condition is
    the caller's: security_keys_provision does not test the derived key, while [valid_record] refuses
    a zero one; [key_zero_link_refused] below shows what follows where it fails. *)
Theorem key_history_valid es c (d : D) :
  holds c good → Forall event_octets es → Forall (link_key_derived (D := D)) es →
  let s := history es (reset_state c d) in
  idle s ∧ holds (counters s) good ∧ (unopened s ∨ broken s ∨ ∃ b r, base b r s) ∧
  ∀ r, loads s = Some r → good r ∧ phase r = security_keys_phase s.
Proof. intros Hc Ho Hk. apply key_history_states; [done|]. by apply Forall_and. Qed.

(** C2: every public call of the key store refines the life cycle [change]: from a state whose calls
    load the record [r], it ends with the working memory wiped and either in a state that stands
    for a record reached from [r] by steps of the life cycle, along which no replay floor sinks
    under a key that stays, or failed with the storage result, the medium holding the stored record
    or a reached one; a loss of supply at any write leaves the stored record or a reached one.
    The stored record differs from [r] at most in the network floors and the parent bits.  Opening
    and provisioning are refused in such a state; where they are served, C1 says what they leave. *)
Theorem key_event_refines e s r :
  sane s → loads s = Some r → event_octets e →
  ∃ b, good b ∧ lags b r ∧ phase b = phase r ∧ refined b r (perform e s).
Proof. apply key_event_refined. Qed.

(** C3: replay protection of the network layer: once security_keys_receive delivered a secured
    frame (key sequence number and frame counter as inspected), then after any further calls during
    which that slot keeps its network key and the supply stays up, a frame with the same key
    sequence number and the same or a lower counter is never delivered, whatever its octets. *)
Theorem key_replay_refused raw n o v l p raw' n' o' v' l' p' es s s1 r i res pk ev q q' :
  sane s → loads s = Some r →
  event_octets (CallReceive (Some raw) n o v l p) →
  event_octets (CallReceive (Some raw') n' o' v' l' p') →
  Forall event_octets es →
  ed_wire_inspect ZIGBEE_SECURITY_NWK (Some raw) n true = (ZIGBEE_SECURITY_OK, Some q) →
  ed_wire_inspect ZIGBEE_SECURITY_NWK (Some raw') n' true = (ZIGBEE_SECURITY_OK, Some q') →
  slot_of r (m_key_sequence q) = Some i →
  security_keys_receive (Some raw) n o v l p s = Ret (res, Some (pk, ev), s1) →
  keyed i (slot_key r i) es s1 = true →
  m_key_sequence q' = m_key_sequence q → m_counter q' <= m_counter q →
  match security_keys_receive (Some raw') n' o' v' l' p' (history es s1) with
  | Ret (_, delivered, _) => delivered = None
  | Lost _ => True
  end.
Proof. apply key_no_replay. Qed.
End Replay.

(** ** Concrete runs, over the toy cipher and the ideal journal *)
#[local] Existing Instance Journal.ideal_journal.
#[local] Existing Instance BlockCipher.toy_cipher.
#[local] Instance sample_service : CounterService Journal.contents (Journal.ideal * Counter.counter) :=
  counter_service 300 0 200 400 600.
Abbreviation store := (Journal.ideal * Counter.counter)%type.
Definition sample_blank : store := service_restart (M := Journal.contents) Journal.Blank.
Definition kept_store (x : outcome Journal.contents (Counter.security_counter_result_t * store)) : store :=
  match x with Ret (_, c) => c | Lost m => service_restart m end.
Definition sample_created : store :=
  (service_create (kept_store (service_open sample_blank)) 0 0 sample_verified 112 10).2.
Definition sample_stored : store := kept_store (service_save sample_created sample_verified 112 10).
Definition sample_reset (c : store) : SecurityKeys.state (C := store) (D := BlockCipher.toy_device) :=
  reset_state (service_restart (service_medium c)) [].
Definition sample_start := next CallOpen (sample_reset sample_stored).
Lemma key_sample_good : good sample_verified.
Proof. split; [apply key_sample_typed|vm_compute; reflexivity]. Qed.
Lemma key_sample_blank P : holds sample_blank P.
Proof. by apply service_after_reset. Qed.
Lemma key_sample_stored : holds sample_stored good.
Proof.
  assert (holds sample_created (λ b, b = sample_verified)) as Hc.
  { pose proof (open_law sample_blank good (key_sample_blank good)) as Ho.
    pose proof (create_law (kept_store (service_open sample_blank)) good 0 0 sample_verified 112 10) as H.
    unfold sample_created. assert (holds (kept_store (service_open sample_blank)) good) as Hk
      by (destruct (service_open sample_blank) as [[? ?]|]; exact Ho).
    specialize (H Hk ltac:(done) ltac:(done) (proj2 (proj1 key_sample_good)) ltac:(done) ltac:(done)).
    rewrite key_slice_112 in H by done.
    destruct (service_create _ 0 0 sample_verified 112 10) as [rc c] eqn:E.
    assert (rc = Counter.SECURITY_COUNTER_OK) as ->; [|exact H].
    apply (f_equal fst) in E. cbn [fst] in E. rewrite <- E. vm_compute. reflexivity. }
  pose proof (save_law sample_created _ sample_verified 112 10 Hc (proj2 (proj1 key_sample_good)) ltac:(done) ltac:(done)) as H.
  rewrite key_slice_112 in H by done. unfold sample_stored.
  assert (∀ c, holds c (λ b, b = sample_verified ∨ b = sample_verified) → holds c good) as Hw.
  { intros c. apply holds_weaken. intros x [-> | ->]; apply key_sample_good. }
  destruct (service_save _ _ _ _) as [[rc c]|m]; cbn [kept_store]; [|by apply Hw].
  apply Hw. destruct (decide _); [|done]. eapply holds_weaken; [|exact H]. by left.
Qed.
Lemma key_sample_sane : sane sample_start.
Proof. apply key_next_sane; [|done]. apply key_reset_sane, restart_law, key_sample_stored. Qed.

Definition sample_history : list event := [
  CallOpen; CallProvision (Some sample_config) (Some Mmo.sample_code) 10 20 (Some Ccm.sample_limits) 10;
  CallAssociate 0x1234 10; CallStatus true; CallLeave 5 true 100 true (Some Ccm.sample_limits) 10;
  PowerLoss; CallOpen].
Definition phases_along (es : list event) (s : SecurityKeys.state (C := store) (D := BlockCipher.toy_device)) : list Z :=
  (λ n, security_keys_phase (history (M := Journal.contents) (firstn n es) s)) <$> seq 1 (length es).
Example key_sample_phases : phases_along sample_history (sample_reset sample_blank) = [1; 2; 3; 3; 9; 0; 9].
Proof. vm_compute. reflexivity. Qed.
Lemma key_sample_octets : Forall event_octets sample_history.
Proof.
  unfold sample_history. apply Forall_cons_2; [done|]. apply Forall_cons_2.
  { split; [done|]. split; [done|]. split; [by split|]. split; [by repeat split; try concrete|].
    split; [vm_compute; reflexivity|concrete]. }
  apply Forall_cons_2; [done|]. by repeat apply Forall_cons_2.
Qed.
Lemma key_sample_derived : Forall (link_key_derived (D := BlockCipher.toy_device)) sample_history.
Proof.
  unfold sample_history. apply Forall_cons_2; [done|]. apply Forall_cons_2; [by vm_compute|].
  by repeat apply Forall_cons_2.
Qed.
Lemma key_history_valid_witness :
  holds (sample_blank) good ∧ Forall event_octets sample_history ∧
  Forall (link_key_derived (D := BlockCipher.toy_device)) sample_history ∧
  let s := history (M := Journal.contents) sample_history (reset_state sample_blank ([] : BlockCipher.toy_device)) in
  security_keys_phase s = SECURITY_KEYS_LEFT ∧ (∃ r, loads s = Some r) ∧
  ∀ r, loads s = Some r → good r ∧ phase r = SECURITY_KEYS_LEFT.
Proof.
  split; [apply key_sample_blank|]. split; [apply key_sample_octets|]. split; [apply key_sample_derived|]. intros s.
  assert (security_keys_phase s = SECURITY_KEYS_LEFT) as E by (vm_compute; reflexivity). split; [done|].
  split; [eexists; vm_compute; reflexivity|].
  rewrite <- E. exact (proj2 (proj2 (proj2
    (key_history_valid sample_history sample_blank [] (key_sample_blank good) key_sample_octets key_sample_derived)))).
Defined.

Definition sample_parent (counter : Z) : zigbee_security_key_t := {|
  Security.key := sample_network; source := tc_ieee sample_config; Security.counter := counter; level := 5;
  key_identifier := 1; key_sequence := 7; extended_nonce := 1; limits := Ccm.sample_limits |}.
Definition sample_data : ed_packet_t := {|
  nwk := Nwk.Build_nwk_header_t 0 2 0 0 0x1234 0 30 7 (replicate 8 0) (replicate 8 0);
  aps := Aps.Build_aps_header_t 0 0 0 1 0x0402 0x0104 1 77; p_length := 3; p_payload := seqZ 10 82 |}.
Definition sample_plain : bytes := default [] (ed_wire_encode (Some sample_data) true 116 true).2.
Definition sample_air (counter : Z) : bytes :=
  default [] (ed_wire_crypt (D := BlockCipher.toy_device) [] 0 ZIGBEE_SECURITY_NWK (Some (sample_parent counter))
    (Some sample_plain) (blen sample_plain) true 116 true).1.1.2.
Definition sample_receive (counter : Z) : event :=
  CallReceive (Some (sample_air counter)) 37 true true (Some Ccm.sample_limits) 10.
Lemma key_sample_receive counter :
  bool_decide (is_bytes (sample_air counter)) && (37 <=? blen (sample_air counter)) = true →
  event_octets (sample_receive counter).
Proof.
  intros [H1%bool_decide_eq_true H2]%andb_true_iff. split; [by split|]. split; [exact H1|].
  cbn [default from_option id]. lia.
Qed.
Definition sample_loaded : bytes := default [] (loads (M := Journal.contents) sample_start).
Lemma key_event_refines_witness :
  ∃ b, good b ∧ lags b sample_loaded ∧ phase b = phase sample_loaded ∧
    refined (M := Journal.contents) b sample_loaded (perform (sample_receive 5) sample_start).
Proof.
  apply (key_event_refines (sample_receive 5) sample_start sample_loaded key_sample_sane).
  - vm_compute. reflexivity.
  - apply key_sample_receive. vm_compute. reflexivity.
Defined.

(** A frame with counter 5, another with counter 6, a status and an association refused; the first
    frame again. *)
Definition sample_meta (counter : Z) : zigbee_security_meta_t :=
  default zero_meta (ed_wire_inspect ZIGBEE_SECURITY_NWK (Some (sample_air counter)) 37 true).2.
Definition sample_between : list event := [sample_receive 6; CallStatus true; CallAssociate 0x1234 10].
Definition sample_first := security_keys_receive (M := Journal.contents) (Some (sample_air 5)) 37 true true (Some Ccm.sample_limits) 10 sample_start.
Definition sample_after : SecurityKeys.state (C := store) (D := BlockCipher.toy_device) :=
  match sample_first with Ret (_, _, s) => s | Lost _ => sample_start end.
Definition sample_delivered : ed_packet_t * Z :=
  match sample_first with Ret (_, Some x, _) => x | _ => (sample_data, 0) end.
Lemma key_replay_refused_witness :
  match security_keys_receive (M := Journal.contents) (Some (sample_air 5)) 37 true true (Some Ccm.sample_limits) 10
          (history (M := Journal.contents) sample_between sample_after) with
  | Ret (_, delivered, _) => delivered = None
  | Lost _ => True
  end.
Proof.
  assert (∀ c, c = 5 ∨ c = 6 → event_octets (sample_receive c)) as Ht
    by (intros c [-> | ->]; apply key_sample_receive; vm_compute; reflexivity).
  apply (key_replay_refused (sample_air 5) 37 true true (Some Ccm.sample_limits) 10
    (sample_air 5) 37 true true (Some Ccm.sample_limits) 10 sample_between sample_start sample_after sample_loaded 0
    SECURITY_KEYS_OK sample_delivered.1 sample_delivered.2 (sample_meta 5) (sample_meta 5)).
  - apply key_sample_sane.
  - vm_compute. reflexivity.
  - apply (Ht 5). by left.
  - apply (Ht 5). by left.
  - apply Forall_cons_2; [apply Ht; by right|]. by repeat apply Forall_cons_2.
  - vm_compute. reflexivity.
  - vm_compute. reflexivity.
  - vm_compute. reflexivity.
  - vm_compute. reflexivity.
  - vm_compute. reflexivity.
  - reflexivity.
  - apply Z.le_refl.
Defined.

(** ** A link key of zero

    Over a cipher that maps every block to itself each Matyas-Meyer-Oseas digest is zero, and so is
    the derived link key.  (For AES no such install code is known; the code relies on that.)  The
    provisioning succeeds; the next call that loads the record (a status or an association here)
    finds it invalid, reports FORMAT and stops the owner. *)
Definition still_device : Type := unit.
Definition still (k b : bytes) : bytes := (λ i, u8 (rd b i)) <$> seqZ 0 16.
#[local] Program Instance still_cipher : BlockCipher.BlockCipher still_device := {|
  BlockCipher.aes := still;
  BlockCipher.aes128_encrypt_block d k b _ _ p := (BlockCipher.AES_OK, still k b, 3, d)
|}.
Next Obligation.
  intros. unfold still. split; [unfold blen; by rewrite length_fmap, length_seqZ|].
  apply Forall_fmap, Forall_true. intros i. simpl. apply u8_range.
Qed.
Next Obligation. intros. simpl in *. by simplify_eq. Qed.
Definition zero_link_calls : list event := [
  CallOpen; CallProvision (Some sample_config) (Some Mmo.sample_code) 10 20 (Some Ccm.sample_limits) 10].
Definition zero_link : SecurityKeys.state (C := store) (D := still_device) :=
  history (M := Journal.contents) zero_link_calls (reset_state sample_blank ()).
Definition replies_of (e : event) : option (security_keys_result_t * Z) :=
  match perform (M := Journal.contents) e zero_link with
  | Ret (res, s) => Some (res, security_keys_phase s)
  | Lost _ => None
  end.
Lemma key_zero_link_refused :
  Forall event_octets zero_link_calls ∧
  (∃ s, perform (M := Journal.contents) (CallProvision (Some sample_config) (Some Mmo.sample_code) 10 20
     (Some Ccm.sample_limits) 10) (next (M := Journal.contents) CallOpen (reset_state sample_blank ())) =
     Ret (SECURITY_KEYS_OK, s) ∧ s = zero_link) ∧
  security_keys_phase zero_link = SECURITY_KEYS_PROVISIONED ∧
  replies_of (CallStatus true) = Some (SECURITY_KEYS_FORMAT, SECURITY_KEYS_FAILED) ∧
  replies_of (CallAssociate 0x1234 10) = Some (SECURITY_KEYS_FORMAT, SECURITY_KEYS_FAILED) ∧
  ¬ Forall (link_key_derived (D := still_device)) zero_link_calls.
Proof.
  split.
  { pose proof key_sample_octets as H. unfold sample_history in H.
    apply Forall_cons_1 in H as [H1 H]. apply Forall_cons_1 in H as [H2 _]. by repeat apply Forall_cons_2. }
  split; [eexists; split; vm_compute; reflexivity|].
  split; [vm_compute; reflexivity|]. split; [vm_compute; reflexivity|]. split; [vm_compute; reflexivity|].
  intros H. apply Forall_cons_1 in H as [_ H]. apply Forall_cons_1 in H as [H _]. apply H. vm_compute. reflexivity.
Qed.
End KeyReplay.
