(* ===== verification/ZclTemperature.v ===== *)
(** * The Temperature Measurement server (src/zcl_temperature.c, include/zcl_temperature.h)

    One reportable attribute.  A configuration of minimum and maximum intervals and of a change
    threshold decides when a report is due on a 32-bit clock of seconds; a report is prepared,
    and finished when the link has issued it or given up.  Signed 16-bit values are integers of
    their range; the static [next_age] is only read after [advance] of the same call wrote it, so
    it is passed along. *)
From S2P Require Import Prelude ZclWire ZclAttributes ZclWrite ZclDispatch.

Module ZclTemperature.
Import Zcl ZclAttributes ZclWrite ZclDispatch.

Definition CONFIGURE := 0x06.
Definition CONFIG_RESPONSE := 0x07.
Definition READ_CONFIG := 0x08.
Definition READ_RESPONSE := 0x09.
Definition REPORT := 0x0a.
Definition ZCL_STATUS_INVALID_VALUE := 0x87.
Definition NOT_FOUND := 0x8b.
Definition UNREPORTABLE := 0x8c.
Definition ZCL_TEMP_UNKNOWN := -32768.
Definition ZCL_TEMP_FAULT_TIME := 1.
Definition ZCL_TEMP_FAULT_TOKEN := 2.
Definition ZCL_TEMP_PENDING_LIMIT := 65535.

Record zcl_temp_cfg_t := { cfg_minimum : Z; cfg_maximum : Z; change : Z }.
Record zcl_temp_t := {
  stamp : Z; pending_at : Z; age : Z; serial : Z; low : Z; high : Z; temperature : Z; baseline : Z;
  pending_value : Z; defaults : zcl_temp_cfg_t; reporting : zcl_temp_cfg_t; configured : Z;
  pending : Z; fault : Z
}.
#[export] Instance zcl_temp_fields : Fields zcl_temp_t := λ c, {|
  stamp := stamp c; pending_at := pending_at c; age := age c; serial := serial c; low := low c;
  high := high c; temperature := temperature c; baseline := baseline c;
  pending_value := pending_value c; defaults := defaults c; reporting := reporting c;
  configured := configured c; pending := pending c; fault := fault c |}.
Record zcl_temp_report_t := { token : Z; is_ready : Z; report_length : Z }.
Definition no_report : zcl_temp_report_t := {| token := 0; is_ready := 0; report_length := 0 |}.

Definition le16 (v : Z) : bytes := [u8 v; u8 (Z.shiftr (u16 v) 8)].
Definition int16 (raw : Z) : Z := if raw <=? 32767 then raw else -1 - (0xffff - raw).
Definition valid_cfg (c : zcl_temp_cfg_t) : bool :=
  (cfg_maximum c =? 0xffff)
  || (((cfg_maximum c =? 0) || (cfg_minimum c <=? cfg_maximum c)) && negb (change c =? ZCL_TEMP_UNKNOWN)).

(** ** The clock: the age to publish, or a refusal, which may latch the time fault *)
Definition advance (ctx : zcl_temp_t) (now : Z) : zcl_temp_t + Z :=
  let elapsed := u32 (now - stamp ctx) in
  if! negb (fault ctx =? 0) return inl ctx ;;
  if! (0x80000000 <=? elapsed)
      || (negb (pending ctx =? 0) && (ZCL_TEMP_PENDING_LIMIT <? u32 (now - pending_at ctx)))
    return inl (ctx <| fault := ZCL_TEMP_FAULT_TIME |>) ;;
  let elapsed := u32 (elapsed + age ctx) in
  inr (if 65535 <? elapsed then 65535 else elapsed).
Definition silenced (c : zcl_temp_cfg_t) : zcl_temp_cfg_t :=
  {| cfg_minimum := cfg_minimum c; cfg_maximum := cfg_maximum c; change := 0 |}.
Definition configure (ctx : zcl_temp_t) (cfg : zcl_temp_cfg_t) : zcl_temp_t :=
  let off := cfg_maximum cfg =? 0xffff in
  ctx <| reporting := if off then silenced cfg else cfg |> <| configured := if off then 0 else 1 |>
      <| age := 0 |> <| baseline := temperature ctx |>.

Definition zcl_temp_init (ctx : option zcl_temp_t) (now minimum maximum : Z)
    (defaults : option zcl_temp_cfg_t) : zcl_codec_result_t * option zcl_temp_t :=
  match ctx, defaults with
  | Some _, Some d =>
      if! (negb (minimum =? ZCL_TEMP_UNKNOWN) && ((minimum <? -27315) || (32766 <? minimum)))
          || (negb (maximum =? ZCL_TEMP_UNKNOWN) && (maximum <? -27314))
          || (negb (minimum =? ZCL_TEMP_UNKNOWN) && negb (maximum =? ZCL_TEMP_UNKNOWN)
              && (maximum <=? minimum))
          || ((cfg_minimum d =? 0xffff) && (cfg_maximum d =? 0)) || negb (valid_cfg d)
        return (ZCL_CODEC_INVALID_VALUE, ctx) ;;
      let d' := if cfg_maximum d =? 0xffff then silenced d else d in
      let c := {| stamp := now; pending_at := 0; age := 0; serial := 0; low := minimum;
                  high := maximum; temperature := ZCL_TEMP_UNKNOWN; baseline := 0;
                  pending_value := 0; defaults := d'; reporting := Build_zcl_temp_cfg_t 0 0 0;
                  configured := 0; pending := 0; fault := 0 |} in
      (ZCL_CODEC_OK, Some (configure c d'))
  | _, _ => (ZCL_CODEC_INVALID_ARGUMENT, ctx)
  end.

Definition zcl_temp_sample (ctx : option zcl_temp_t) (now value : Z)
    : zcl_codec_result_t * option zcl_temp_t :=
  match ctx with
  | None => (ZCL_CODEC_INVALID_ARGUMENT, None)
  | Some c =>
      match advance c now with
      | inl c => (ZCL_CODEC_INVALID_VALUE, Some c)
      | inr next_age =>
          if! negb (value =? ZCL_TEMP_UNKNOWN)
              && ((value <? -27315) || (negb (low c =? ZCL_TEMP_UNKNOWN) && (value <? low c))
                  || (negb (high c =? ZCL_TEMP_UNKNOWN) && (high c <? value)))
            return (ZCL_CODEC_INVALID_VALUE, ctx) ;;
          (ZCL_CODEC_OK, Some (c <| temperature := value |> <| stamp := now |> <| age := next_age |>))
      end
  end.

(** ** Configure Reporting and Read Reporting Configuration *)
Definition change_width (type : Z) : Z :=
  if! (0x20 <=? type) && (type <=? 0x2f) return Z.land type 7 + 1 ;;
  if! (0x38 <=? type) && (type <=? 0x3a) return u8 (Z.shiftl 2 (type - 0x38)) ;;
  if! (0xe0 <=? type) && (type <=? 0xe2) return 4 ;;
  if! zcl_value_type_supported type || (type =? 0x43) || (type =? 0x44) || (type =? 0x48)
      || (type =? 0x4c) || (type =? 0x50) || (type =? 0x51) || ((0xe8 <=? type) && (type <=? 0xea))
      || (type =? 0xf0) || (type =? 0xf1) return 0 ;;
  0xff.
Definition known (id : Z) : bool := (id <=? 2) || (id =? 0xfffd).

(** The status of one record to report by, and the configuration it asks for. *)
Definition judged (next : zcl_temp_t) (id type : Z) (cfg : zcl_temp_cfg_t) : Z * zcl_temp_cfg_t :=
  if! negb (known id) return (ZCL_STATUS_UNSUPPORTED_ATTRIBUTE, cfg) ;;
  if! negb (id =? 0) || (type =? 0x48) || (type =? 0x4c) || (type =? 0x50) || (type =? 0x51)
    return (UNREPORTABLE, cfg) ;;
  if! negb (type =? ZCL_TYPE_INT16) return (ZCL_STATUS_INVALID_DATA_TYPE, cfg) ;;
  if! (cfg_minimum cfg =? 0xffff) && (cfg_maximum cfg =? 0) return (ZCL_STATUS_SUCCESS, defaults next) ;;
  (if valid_cfg cfg then ZCL_STATUS_SUCCESS else ZCL_STATUS_INVALID_VALUE, cfg).

(** The loop over the records, its outputs gathered in [progress]. *)
Record progress := {
  reply_body : bytes; count_ : Z; returned : Z; full : bool; accepted : option zcl_temp_cfg_t
}.
#[export] Instance progress_fields : Fields progress := λ s, {|
  reply_body := reply_body s; count_ := count_ s; returned := returned s; full := full s;
  accepted := accepted s |}.
Definition put (s : progress) (b : bytes) : progress :=
  s <| reply_body := reply_body s ++ b |> <| returned := u8 (returned s + 1) |>.
Inductive record := Unsupported | Malformed | Record (width status : Z) (cfg : zcl_temp_cfg_t).
Definition configure_record (next : zcl_temp_t) (direction id : Z) (p : bytes) (size : Z) : record :=
  let width := if direction =? 0 then 5 else 2 in
  if! size <? width return Malformed ;;
  if! negb (direction =? 0) return Record width UNREPORTABLE (Build_zcl_temp_cfg_t 0 0 0) ;;
  let type := rd p 0 in
  let width := change_width type in
  if! width =? 0xff return Unsupported ;;
  let width := u8 (width + 5) in
  if! size <? width return Malformed ;;
  let cfg := {| cfg_minimum := read_le16 p 1; cfg_maximum := read_le16 p 3;
                change := if type =? ZCL_TYPE_INT16 then int16 (read_le16 p 5) else 0 |} in
  let '(status, cfg) := judged next id type cfg in
  Record width status cfg.
Definition configured_step (s : progress) (direction id status : Z) (cfg : zcl_temp_cfg_t) : progress :=
  if status =? ZCL_STATUS_SUCCESS then s <| accepted := Some cfg |>
  else put s ([status; direction] ++ le16 id).
Definition read_config_step (next : zcl_temp_t) (budget : Z) (s : progress) (direction id : Z) : progress :=
  let status := if (direction =? 0) && known id
                then (if negb (id =? 0) then UNREPORTABLE
                      else if configured next =? 0 then NOT_FOUND else ZCL_STATUS_SUCCESS)
                else ZCL_STATUS_UNSUPPORTED_ATTRIBUTE in
  let size := if status =? ZCL_STATUS_SUCCESS then 11 else 4 in
  let s := if budget - blen (reply_body s) <? size then s <| full := true |> else s in
  if! full s return s ;;
  put s ([status; direction] ++ le16 id ++
         (if status =? ZCL_STATUS_SUCCESS
          then [ZCL_TYPE_INT16] ++ le16 (cfg_minimum (reporting next))
               ++ le16 (cfg_maximum (reporting next)) ++ le16 (change (reporting next))
          else [])).
Fixpoint records (fuel : nat) (next : zcl_temp_t) (command budget : Z) (p : bytes) (size : Z)
    (s : progress) : zcl_codec_result_t + progress * bool :=
  match fuel with
  | O => inr (s, false)
  | S fuel =>
      if! size =? 0 return inr (s, false) ;;
      if! (size <? 3) || (1 <? rd p 0) return inr (s, true) ;;
      let direction := rd p 0 in let id := read_le16 p 1 in
      let p := drop 3 p in let size := size - 3 in
      if command =? CONFIGURE then
        match configure_record next direction id p size with
        | Unsupported => inl ZCL_CODEC_UNSUPPORTED_DATA_TYPE
        | Malformed => inr (s, true)
        | Record width status cfg =>
            let s := configured_step s direction id status cfg in
            records fuel next command budget (drop (Z.to_nat width) p) (size - width)
              (s <| count_ := u8 (count_ s + 1) |>)
        end
      else
        let s := read_config_step next budget s direction id in
        records fuel next command budget p size (s <| count_ := u8 (count_ s + 1) |>)
  end.

Definition reporting_reply (h : zcl_header_t) (command : Z) : zcl_header_t := {|
  type := type h; flags := Z.lor ZCL_FLAG_SERVER_TO_CLIENT ZCL_FLAG_DISABLE_DEFAULT_RESPONSE;
  manufacturer_code := manufacturer_code h; sequence := sequence h; command_id := command |}.
(** The result code, the next context and age, the response and its description. *)
Definition reporting_answer : Type :=
  zcl_codec_result_t * zcl_temp_t * Z * option bytes * zcl_dispatch_info_t.
Definition respond (next : zcl_temp_t) (next_age : Z) (h : zcl_header_t) (body : bytes)
    (accepted : option zcl_temp_cfg_t) (info : zcl_dispatch_info_t) (response : option bytes)
    (capacity : Z) : reporting_answer :=
  match zcl_frame_encode (Some h) (Some body) (blen body) response capacity (Some 0) with
  | (ZCL_CODEC_OK, response, Some encoded) =>
      let info := info <| d_length := encoded |> <| d_command := command_id h |> in
      match accepted with
      | Some cfg => (ZCL_CODEC_OK, configure next cfg, 0, response, info)
      | None => (ZCL_CODEC_OK, next, next_age, response, info)
      end
  | (rc, response, _) => (rc, next, next_age, response, info)
  end.
Definition report_budget (capacity : Z) : Z :=
  let budget := if capacity <? ZCL_FRAME_MAX_BODY then u8 capacity else ZCL_FRAME_MAX_BODY in
  if 3 <=? budget then budget - 3 else 0.
Definition reporting_command (next : zcl_temp_t) (next_age : Z) (frame : zcl_frame_info_t)
    (p : bytes) (response : option bytes) (capacity : Z) : reporting_answer :=
  let h := header frame in
  let command := command_id h in let size := payload_length frame in
  if! (command =? CONFIGURE) && negb (pending next =? 0)
    return (ZCL_CODEC_UNSUPPORTED_CONTEXT, next, next_age, response, zero_dispatch) ;;
  let budget := report_budget capacity in
  match records (Z.to_nat size) next command budget p size (Build_progress [] 0 0 false None) with
  | inl rc => (rc, next, next_age, response, zero_dispatch)
  | inr (s, malformed) =>
      let info := zero_dispatch <| d_sequence := sequence h |> in
      if! (size =? 0) || malformed
        return respond next next_age (reporting_reply h ZCL_COMMAND_DEFAULT_RESPONSE)
                 [command; ZCL_STATUS_MALFORMED_COMMAND] None
                 (info <| default_command := command |> <| default_status := ZCL_STATUS_MALFORMED_COMMAND |>
                       <| default_raw_status := ZCL_STATUS_MALFORMED_COMMAND |>) response capacity ;;
      let done := (command =? CONFIGURE) && (blen (reply_body s) =? 0) in
      let s := if done then s <| reply_body := [ZCL_STATUS_SUCCESS] |> <| returned := 1 |> else s in
      if! blen (reply_body s) =? 0
        return (ZCL_CODEC_BUFFER_TOO_SMALL, next, next_age, response, info) ;;
      respond next next_age
        (reporting_reply h (if command =? CONFIGURE then CONFIG_RESPONSE else READ_RESPONSE))
        (reply_body s) (accepted s)
        (info <| d_requested := count_ s |> <| d_returned := returned s |>) response capacity
  end.

(** ** Requests: those two commands, or the dispatcher over a transient table *)
Definition temperature_attribute (id type value : Z) : zcl_attribute_t := {|
  attribute_id := id; readable := 1;
  value := {| value_type := type; string_non_value := 0; data := Some (le16 value); data_length := 2 |} |}.
Definition temperature_set (c : zcl_temp_t) : zcl_attribute_set_t := {|
  attributes := Some [
    temperature_attribute 0 ZCL_TYPE_INT16 (temperature c);
    temperature_attribute 1 ZCL_TYPE_INT16 (low c);
    temperature_attribute 2 ZCL_TYPE_INT16 (high c);
    temperature_attribute 0xfffd ZCL_TYPE_UINT16 3];
  count := 4; side := 0; manufacturer_specific := 0; set_manufacturer := 0 |}.
Definition zcl_temp_rx (ctx : option zcl_temp_t) (now : Z) (request : option bytes) (length : Z)
    (response : option bytes) (capacity : Z) (info : option zcl_dispatch_info_t)
    : zcl_codec_result_t * option zcl_temp_t * option bytes * option zcl_dispatch_info_t :=
  match ctx, request, response, info with
  | Some c, Some q, Some _, Some _ =>
      match advance c now with
      | inl c => (ZCL_CODEC_INVALID_VALUE, Some c, response, info)
      | inr next_age =>
          match zcl_frame_decode request length (Some zero_frame) with
          | (ZCL_CODEC_OK, Some frame) =>
              let h := header frame in
              if! has (flags h) ZCL_FLAG_SERVER_TO_CLIENT
                return (ZCL_CODEC_UNSUPPORTED_CONTEXT, ctx, response, info) ;;
              let '(rc, next, next_age, response, candidate) :=
                if (type h =? ZCL_FRAME_GLOBAL) && negb (has (flags h) ZCL_FLAG_MANUFACTURER_SPECIFIC)
                   && ((command_id h =? CONFIGURE) || (command_id h =? READ_CONFIG))
                then reporting_command c next_age frame (drop (Z.to_nat (payload_offset frame)) q)
                       response capacity
                else
                  let '(rc, response, candidate) :=
                    zcl_dispatch_unicast (Some (temperature_set c)) request length response capacity
                      (Some zero_dispatch) in
                  (rc, c, next_age, response, default zero_dispatch candidate) in
              if! bool_decide (rc ≠ ZCL_CODEC_OK) return (rc, Some next, response, info) ;;
              (rc, Some (next <| stamp := now |> <| age := next_age |>), response, Some candidate)
          | (rc, _) => (rc, ctx, response, info)
          end
      end
  | _, _, _, _ => (ZCL_CODEC_INVALID_ARGUMENT, ctx, response, info)
  end.

(** ** Reports *)
Definition due (ctx : zcl_temp_t) (next_age : Z) : bool :=
  if! (configured ctx =? 0) || (next_age <? cfg_minimum (reporting ctx)) return false ;;
  if! negb (cfg_maximum (reporting ctx) =? 0) && (cfg_maximum (reporting ctx) <=? next_age) return true ;;
  if! temperature ctx =? baseline ctx return false ;;
  if! (temperature ctx =? ZCL_TEMP_UNKNOWN) || (baseline ctx =? ZCL_TEMP_UNKNOWN) return true ;;
  Z.abs (change (reporting ctx)) <=? Z.abs (temperature ctx - baseline ctx).
Definition report_header (sequence : Z) : zcl_header_t := {|
  type := 0; flags := Z.lor ZCL_FLAG_SERVER_TO_CLIENT ZCL_FLAG_DISABLE_DEFAULT_RESPONSE;
  manufacturer_code := 0; sequence := sequence; command_id := REPORT |}.
(** The report command: attribute identifier 0, its type, its value. *)
Definition report_frame (c : zcl_temp_t) (sequence : Z) (response : option bytes) (capacity : Z)
    : zcl_codec_result_t * option bytes * Z :=
  let value := {| value_type := ZCL_TYPE_INT16; string_non_value := 0;
                  data := Some (le16 (temperature c)); data_length := 2 |} in
  match zcl_value_encode (Some value) (Some [0; 0]) 2 (Some 0) with
  | (ZCL_CODEC_OK, Some v, _) =>
      let '(rc, response, encoded) :=
        zcl_frame_encode (Some (report_header sequence)) (Some ([0; 0; ZCL_TYPE_INT16] ++ v)) 5
          response capacity (Some 0) in
      (rc, response, default 0 encoded)
  | (rc, _, _) => (rc, response, 0)
  end.
Definition zcl_temp_prepare (ctx : option zcl_temp_t) (now sequence routes : Z)
    (response : option bytes) (capacity : Z) (report : option zcl_temp_report_t)
    : zcl_codec_result_t * option zcl_temp_t * option bytes * option zcl_temp_report_t :=
  match ctx, response, report with
  | Some c, Some _, Some _ =>
      if! 1 <? routes return (ZCL_CODEC_INVALID_VALUE, ctx, response, report) ;;
      match advance c now with
      | inl c => (ZCL_CODEC_INVALID_VALUE, Some c, response, report)
      | inr next_age =>
          if! negb (pending c =? 0) return (ZCL_CODEC_UNSUPPORTED_CONTEXT, ctx, response, report) ;;
          if negb (routes =? 0) && due c next_age then
            if! serial c =? 0xffff
              return (ZCL_CODEC_INVALID_VALUE, Some (c <| fault := ZCL_TEMP_FAULT_TOKEN |>), response, report) ;;
            let '(rc, response, encoded) := report_frame c sequence response capacity in
            if! bool_decide (rc ≠ ZCL_CODEC_OK) return (rc, ctx, response, report) ;;
            let serial' := u16 (serial c + 1) in
            (ZCL_CODEC_OK,
             Some (c <| serial := serial' |> <| pending := 1 |> <| pending_at := now |>
                     <| pending_value := temperature c |> <| stamp := now |> <| age := next_age |>),
             response, Some {| token := serial'; is_ready := 1; report_length := encoded |})
          else
            (ZCL_CODEC_OK, Some (c <| stamp := now |> <| age := next_age |>), response, Some no_report)
      end
  | _, _, _ => (ZCL_CODEC_INVALID_ARGUMENT, ctx, response, report)
  end.
Definition zcl_temp_finish (ctx : option zcl_temp_t) (now token sent issued_at : Z)
    : zcl_codec_result_t * option zcl_temp_t :=
  match ctx with
  | None => (ZCL_CODEC_INVALID_ARGUMENT, None)
  | Some c =>
      if! (1 <? sent) || ((sent =? 0) && negb (issued_at =? 0)) || (pending c =? 0)
          || negb (token =? serial c) return (ZCL_CODEC_INVALID_VALUE, ctx) ;;
      match advance c now with
      | inl c => (ZCL_CODEC_INVALID_VALUE, Some c)
      | inr next_age =>
          if! negb (sent =? 0) && (u32 (now - pending_at c) <? u32 (issued_at - pending_at c))
            return (ZCL_CODEC_INVALID_VALUE, ctx) ;;
          let '(c, next_age) := if sent =? 0 then (c, next_age)
                                else (c <| baseline := pending_value c |>, u16 (now - issued_at)) in
          (ZCL_CODEC_OK,
           Some (c <| pending := 0 |> <| pending_at := 0 |> <| pending_value := 0 |>
                   <| stamp := now |> <| age := next_age |>))
      end
  end.

(** ** Specification of Configure Reporting: parse the records, then judge each

    Nothing of the handler is used here.  A record to report by carries a threshold of the size of
    its attribute type if the type is analog, and none if it is discrete. *)
Definition thresholds : list (Z * Z) :=
  [(0x20, 1); (0x21, 2); (0x22, 3); (0x23, 4); (0x24, 5); (0x25, 6); (0x26, 7); (0x27, 8);
   (0x28, 1); (0x29, 2); (0x2a, 3); (0x2b, 4); (0x2c, 5); (0x2d, 6); (0x2e, 7); (0x2f, 8);
   (0x38, 2); (0x39, 4); (0x3a, 8); (0xe0, 4); (0xe1, 4); (0xe2, 4)].
Definition composite_types : list Z := [0x48; 0x4c; 0x50; 0x51].
Definition discrete_types : list Z :=
  [0x00; 0x08; 0x09; 0x0a; 0x0b; 0x0c; 0x0d; 0x0e; 0x0f; 0x10; 0x18; 0x19; 0x1a; 0x1b; 0x1c; 0x1d;
   0x1e; 0x1f; 0x30; 0x31; 0x41; 0x42; 0x43; 0x44; 0xe8; 0xe9; 0xea; 0xf0; 0xf1] ++ composite_types.
Definition threshold_size (type : Z) : option Z :=
  match find (λ p, p.1 =? type) thresholds with
  | Some (_, size) => Some size
  | None => if decide (type ∈ discrete_types) then Some 0 else None
  end.
Definition two_octets (lo hi : Z) : Z := lo + 256 * hi.
Definition signed (raw : Z) : Z := if raw <? 0x8000 then raw else raw - 0x10000.
Inductive asking :=
  | AskTimeout (id : Z)
  | AskReport (id type : Z) (cfg : zcl_temp_cfg_t).
Inductive parsed := Broken | Unknown_type | Asked (l : list asking).
Definition ask (a : asking) (r : parsed) : parsed :=
  match r with Asked l => Asked (a :: l) | r => r end.
Fixpoint parse_asks (fuel : nat) (b : bytes) : parsed :=
  match fuel, b with
  | _, [] => Asked []
  | S fuel, d :: i0 :: i1 :: b =>
      let id := two_octets i0 i1 in
      if d =? 1 then match b with
        | _ :: _ :: b => ask (AskTimeout id) (parse_asks fuel b)
        | _ => Broken
        end
      else if d =? 0 then match b with
        | type :: m0 :: m1 :: x0 :: x1 :: b =>
            match threshold_size type with
            | None => Unknown_type
            | Some size =>
                if! blen b <? size return Broken ;;
                ask (AskReport id type
                       {| cfg_minimum := two_octets m0 m1; cfg_maximum := two_octets x0 x1;
                          change := if type =? 0x29
                                    then match b with c0 :: c1 :: _ => signed (two_octets c0 c1) | _ => 0 end
                                    else 0 |})
                    (parse_asks fuel (drop (Z.to_nat size) b))
            end
        | _ => Broken
        end
      else Broken
  | _, _ => Broken
  end.
(** What can be reported by: nothing, at no interval; or at an interval that is open or not
    empty, by a threshold that is a number. *)
Definition sensible (cfg : zcl_temp_cfg_t) : Prop :=
  cfg_maximum cfg = 0xffff ∨
  ((cfg_maximum cfg = 0 ∨ cfg_minimum cfg <= cfg_maximum cfg) ∧ change cfg ≠ -0x8000).
#[export] Instance sensible_dec cfg : Decision (sensible cfg).
Proof. unfold sensible. apply _. Defined.
(** The status of a record, and the configuration it is granted: only the measured value is
    reported, with its own type; minimum 0xffff with maximum 0 asks for the defaults. *)
Definition verdict (c : zcl_temp_t) (a : asking) : Z * option zcl_temp_cfg_t :=
  match a with
  | AskTimeout id => (0x8c, None)
  | AskReport id type cfg =>
      if decide (id ∉ [0x0000; 0x0001; 0x0002; 0xfffd]) then (0x86, None)
      else if decide (id ≠ 0x0000 ∨ type ∈ composite_types) then (0x8c, None)
      else if decide (type ≠ 0x29) then (0x8d, None)
      else if decide (cfg_minimum cfg = 0xffff ∧ cfg_maximum cfg = 0) then (0x00, Some (defaults c))
      else if decide (sensible cfg) then (0x00, Some cfg)
      else (0x87, None)
  end.
Definition granted (c : zcl_temp_t) (a : asking) : option zcl_temp_cfg_t := (verdict c a).2.
Definition refusal (c : zcl_temp_t) (a : asking) : bytes :=
  match verdict c a, a with
  | (_, Some _), _ => []
  | (status, None), AskTimeout id => [status; 1; id mod 256; id / 256]
  | (status, None), AskReport id _ _ => [status; 0; id mod 256; id / 256]
  end.
(** The configuration that the records ask for: that of the last granted one. *)
Definition granted_last (c : zcl_temp_t) (l : list asking) : option zcl_temp_cfg_t :=
  list.last (omap (granted c) l).

(** *** The loop is the two phases in one *)
Lemma temp_threshold_size t :
  is_u8 t → match threshold_size t with
            | Some w => change_width t = w ∧ 0 <= w <= 8
            | None => change_width t = 255
            end.
Proof.
  intros Ht. assert (match threshold_size t with
    | Some w => (change_width t =? w) && (0 <=? w) && (w <=? 8) | None => change_width t =? 255 end = true) as H by by_u8 t.
  destruct (threshold_size t) as [w|]; [|lia].
  apply andb_true_iff in H as [[H1 H2]%andb_true_iff H3]. lia.
Qed.
Lemma temp_two_octets a b l : is_u8 a → is_u8 b → read_le16 (a :: b :: l) 0 = two_octets a b.
Proof. unfold is_u8. intros Ha Hb. apply lor_shift8; [done|exact (proj1 Hb)]. Qed.
Lemma temp_signed raw : is_u16 raw → int16 raw = signed raw.
Proof.
  unfold is_u16, int16, signed. intros H.
  destruct (Z.leb_spec raw 32767), (Z.ltb_spec raw 0x8000); lia.
Qed.
Lemma temp_le16 id : is_u16 id → le16 id = [id mod 256; id / 256].
Proof.
  unfold is_u16, le16, u8, u16. intros H. rewrite Z.shiftr_div_pow2 by lia. change (2 ^ 8) with 256.
  f_equal. f_equal. Z.div_mod_to_equations. lia.
Qed.
Lemma temp_two_u16 a b : is_u8 a → is_u8 b → is_u16 (two_octets a b).
Proof. unfold is_u8, is_u16, two_octets. lia. Qed.
Definition cfg_typed (d : zcl_temp_cfg_t) : Prop := is_u16 (cfg_minimum d) ∧ is_u16 (cfg_maximum d).
Definition ask_typed (a : asking) : Prop :=
  match a with AskTimeout id => is_u16 id | AskReport id _ cfg => is_u16 id ∧ cfg_typed cfg end.
Lemma temp_asks_typed fuel : ∀ p l, is_bytes p → parse_asks fuel p = Asked l → Forall ask_typed l.
Proof.
  induction fuel as [|fuel IH]; intros p l Hp; cbn [parse_asks];
    (destruct p as [|d p]; [by intros [= <-]; constructor|]); [done|].
  destruct p as [|i0 [|i1 p]]; [done|done|]. do 3 (apply Forall_cons_1 in Hp as [? Hp]).
  destruct (d =? 1).
  - destruct p as [|a [|b p]]; [done|done|]. do 2 (apply Forall_cons_1 in Hp as [_ Hp]).
    destruct (parse_asks fuel p) eqn:E; [done|done|]. intros [= <-]. constructor; [by apply temp_two_u16|]. by eapply IH.
  - destruct (d =? 0); [|done]. destruct p as [|ty [|m0 [|m1 [|x0 [|x1 p]]]]]; try done.
    do 5 (apply Forall_cons_1 in Hp as [? Hp]).
    destruct (threshold_size ty); [|done]. destruct (_ <? _); [done|].
    destruct (parse_asks fuel _) eqn:E; [done|done|]. intros [= <-]. constructor; [|eapply IH; [|exact E]; by apply Forall_drop].
    split; [by apply temp_two_u16|]. split; by apply temp_two_u16.
Qed.
Lemma temp_known id : 0 <= id → known id = true ↔ id ∈ [0x0000; 0x0001; 0x0002; 0xfffd].
Proof.
  intros H. unfold known. rewrite orb_true_iff, Z.leb_le, Z.eqb_eq, !elem_of_cons, elem_of_nil. lia.
Qed.
Lemma temp_composite t :
  (t =? 0x48) || (t =? 0x4c) || (t =? 0x50) || (t =? 0x51) = true ↔ t ∈ composite_types.
Proof.
  unfold composite_types. rewrite !orb_true_iff, !Z.eqb_eq, !elem_of_cons, elem_of_nil. tauto.
Qed.
Lemma temp_valid_cfg cfg : valid_cfg cfg = true ↔ sensible cfg.
Proof.
  unfold valid_cfg, sensible, ZCL_TEMP_UNKNOWN.
  rewrite orb_true_iff, andb_true_iff, orb_true_iff, negb_true_iff, !Z.eqb_eq, Z.leb_le, Z.eqb_neq. done.
Qed.
(** The handler's judgement is the verdict. *)
Lemma temp_judged c id type cfg :
  0 <= id →
  let '(status, cfg') := judged c id type cfg in
  verdict c (AskReport id type cfg) = (status, if status =? 0 then Some cfg' else None).
Proof.
  intros H0. unfold judged, verdict. pose proof (temp_known id H0) as Hk. pose proof (temp_valid_cfg cfg) as Hv.
  destruct (known id); cbn [negb].
  2: { by rewrite decide_True by (intros H; by apply Hk in H). }
  rewrite decide_False by (intros H; by apply H, Hk). pose proof (temp_composite type) as Hc.
  destruct (Z.eqb_spec id 0) as [->|Hid]; cbn [negb orb]; [|by rewrite decide_True by (by left)].
  destruct ((type =? 0x48) || (type =? 0x4c) || (type =? 0x50) || (type =? 0x51));
    [rewrite decide_True by (right; by apply Hc); done|].
  rewrite decide_False by (intros [?|H]; [done|by apply Hc in H]). change ZCL_TYPE_INT16 with 0x29.
  destruct (Z.eqb_spec type 0x29) as [->|Ht]; cbn [negb]; [|by rewrite decide_True].
  rewrite decide_False by (intros []; done).
  destruct (Z.eqb_spec (cfg_minimum cfg) 0xffff), (Z.eqb_spec (cfg_maximum cfg) 0); cbn [andb];
    first [rewrite decide_True by done; done | rewrite decide_False by tauto];
    (destruct (valid_cfg cfg); [by rewrite decide_True by by apply Hv|rewrite decide_False by (intros H; by apply Hv in H); done]).
Qed.
(** What the loop makes of one record. *)
Definition after (next : zcl_temp_t) (s : progress) (a : asking) : progress :=
  let s := match a with
           | AskTimeout id => configured_step s 1 id UNREPORTABLE (Build_zcl_temp_cfg_t 0 0 0)
           | AskReport id type cfg =>
               let '(status, cfg) := judged next id type cfg in configured_step s 0 id status cfg
           end in
  s <| count_ := u8 (count_ s + 1) |>.
Lemma temp_records next budget fuel : ∀ p rest s,
  is_bytes p → (length p <= fuel)%nat →
  let y := records fuel next CONFIGURE budget (p ++ rest) (blen p) s in
  match parse_asks fuel p with
  | Broken => ∃ s', y = inr (s', true)
  | Unknown_type => y = inl ZCL_CODEC_UNSUPPORTED_DATA_TYPE
  | Asked l => y = inr (foldl (after next) s l, false)
  end.
Proof.
  induction fuel as [|fuel IH]; intros p rest s Hp Hl y.
  { destruct p; [done|simpl in Hl; lia]. }
  destruct p as [|d p]; [done|]. apply Forall_cons_1 in Hp as [Hd Hp]. unfold y. cbn [records app].
  rewrite blen_cons, rd_0. pose proof (blen_nonneg p). replace (blen p + 1 =? 0) with false by lia.
  destruct p as [|i0 [|i1 p]]; [by eexists|by eexists|]. rewrite !blen_cons in *. pose proof (blen_nonneg p).
  replace (blen p + 1 + 1 + 1 <? 3) with false by lia. cbn [orb parse_asks app].
  change (CONFIGURE =? CONFIGURE) with true. cbn [skipn].
  replace (blen p + 1 + 1 + 1 - 3) with (blen p) by lia.
  apply Forall_cons_1 in Hp as [Hi0 Hp]. apply Forall_cons_1 in Hp as [Hi1 Hp]. simpl in Hl.
  replace (read_le16 (d :: i0 :: i1 :: p ++ rest) 1) with (two_octets i0 i1) by (symmetry; exact (temp_two_octets i0 i1 (p ++ rest) Hi0 Hi1)).
  set (id := two_octets i0 i1).
  destruct (Z.eqb_spec d 1) as [->|Hd1].
  { cbn [Z.ltb Z.compare Pos.compare Pos.compare_cont]. unfold configure_record. cbn [Z.eqb negb].
    destruct p as [|a [|b p]]; [by eexists|by eexists|]. rewrite !blen_cons. pose proof (blen_nonneg p).
    replace (blen p + 1 + 1 <? 2) with false by lia. replace (blen p + 1 + 1 - 2) with (blen p) by lia.
    change (Z.to_nat 2) with 2%nat. cbn [skipn app].
    apply Forall_cons_1 in Hp as [_ Hp]. apply Forall_cons_1 in Hp as [_ Hp]. simpl in Hl.
    set (s' := _ <| count_ := _ |>).
    specialize (IH p rest s' Hp ltac:(lia)). cbv zeta in IH. destruct (parse_asks fuel p); [done|done|exact IH]. }
  destruct (Z.eqb_spec d 0) as [->|Hd0].
  2: { replace (1 <? d) with true by (unfold is_u8 in Hd; lia). by eexists. }
  cbn [Z.ltb Z.compare]. unfold configure_record. cbn [Z.eqb negb].
  destruct p as [|type [|m0 [|m1 [|x0 [|x1 p]]]]]; try by eexists. rewrite !blen_cons in *. pose proof (blen_nonneg p).
  replace (blen p + 1 + 1 + 1 + 1 + 1 <? 5) with false by lia. cbn [app].
  rewrite ?drop_0. change (rd (type :: m0 :: m1 :: x0 :: x1 :: p ++ rest) 0) with type.
  apply Forall_cons_1 in Hp as [Ht Hp]. apply Forall_cons_1 in Hp as [Hm0 Hp]. apply Forall_cons_1 in Hp as [Hm1 Hp].
  apply Forall_cons_1 in Hp as [Hx0 Hp]. apply Forall_cons_1 in Hp as [Hx1 Hp].
  pose proof (temp_threshold_size type Ht) as Hw. destruct (threshold_size type) as [w|]; [|by rewrite Hw].
  destruct Hw as [Ew Hw]. rewrite Ew. replace (w =? 255) with false by lia. rewrite u8_id by (unfold is_u8; lia).
  replace (blen p + 1 + 1 + 1 + 1 + 1 <? w + 5) with (blen p <? w) by lia.
  destruct (blen p <? w) eqn:El; [by eexists|].
  assert ((if type =? ZCL_TYPE_INT16 then int16 (read_le16 (type :: m0 :: m1 :: x0 :: x1 :: p ++ rest) 5) else 0)
    = (if type =? 0x29 then match p with c0 :: c1 :: _ => signed (two_octets c0 c1) | _ => 0 end else 0)) as Ec.
  { change ZCL_TYPE_INT16 with 0x29. destruct (Z.eqb_spec type 0x29) as [->|]; [|done]. vm_compute in Ew. subst w.
    destruct p as [|c0 [|c1 p]]; [done|done|]. apply Forall_cons_1 in Hp as [Hc0 [Hc1 _]%Forall_cons_1].
    change (read_le16 _ 5) with (read_le16 (c0 :: c1 :: p ++ rest) 0). rewrite temp_two_octets by done.
    apply temp_signed. unfold is_u8, is_u16, two_octets in *. lia. }
  rewrite Ec. change (read_le16 (type :: m0 :: m1 :: x0 :: x1 :: p ++ rest) 1) with (read_le16 (m0 :: m1 :: x0 :: x1 :: p ++ rest) 0).
  change (read_le16 (type :: m0 :: m1 :: x0 :: x1 :: p ++ rest) 3) with (read_le16 (x0 :: x1 :: p ++ rest) 0).
  rewrite !temp_two_octets by done.
  set (cfg := Build_zcl_temp_cfg_t _ _ _). simpl in Hl.
  assert (drop (Z.to_nat (w + 5)) (type :: m0 :: m1 :: x0 :: x1 :: p ++ rest)
    = drop (Z.to_nat w) p ++ rest) as Ed.
  { replace (Z.to_nat (w + 5)) with (Z.to_nat w + 5)%nat by lia.
    rewrite <- skipn_skipn. cbn [skipn]. rewrite drop_0. apply drop_app_le. unfold blen in El; lia. }
  set (q := drop (Z.to_nat w) p) in *.
  assert (blen p + 1 + 1 + 1 + 1 + 1 - (w + 5) = blen q) as El2
    by (unfold q, blen in *; rewrite length_drop; lia).
  destruct (judged next id type cfg) as [status cfg'] eqn:Ej.
  set (s' := _ <| count_ := _ |>).
  specialize (IH q rest s' ltac:(by apply Forall_drop) ltac:(unfold q; rewrite length_drop; lia)). cbv zeta in IH.
  rewrite Ed, El2. destruct (parse_asks fuel q) as [| |l]; [done|done|]. rewrite IH. cbn [ask foldl].
  assert (after next s (AskReport id type cfg) = s') as ->; [|done]. unfold after, s'. by rewrite Ej.
Qed.
(** One record, judged as the verdict says. *)
Lemma temp_after_one c s a :
  ask_typed a →
  let s' := after c s a in
  reply_body s' = reply_body s ++ refusal c a ∧
  accepted s' = match granted c a with Some cfg => Some cfg | None => accepted s end ∧
  count_ s' = u8 (count_ s + 1) ∧
  returned s' = match granted c a with Some _ => returned s | None => u8 (returned s + 1) end.
Proof.
  intros Ha. unfold after, refusal, granted. destruct a as [id|id type cfg].
  - rewrite <- !temp_le16 by done. cbn [verdict snd]. unfold configured_step, put.
    change (UNREPORTABLE =? ZCL_STATUS_SUCCESS) with false. cbv iota. by fields.
  - destruct Ha as [Hid _]. pose proof (temp_judged c id type cfg (proj1 Hid)) as Hj.
    destruct (judged c id type cfg) as [status cfg']. rewrite Hj. cbn [snd]. unfold configured_step.
    change ZCL_STATUS_SUCCESS with 0. rewrite <- !temp_le16 by done.
    destruct (status =? 0); [rewrite app_nil_r|unfold put]; by fields.
Qed.
Lemma temp_after c l : ∀ s, Forall ask_typed l →
  let s' := foldl (after c) s l in
  reply_body s' = reply_body s ++ mjoin (refusal c <$> l) ∧
  accepted s' = match granted_last c l with Some cfg => Some cfg | None => accepted s end ∧
  (is_u8 (count_ s) → count_ s' = u8 (count_ s + Z.of_nat (length l))) ∧
  (is_u8 (returned s) → returned s' = u8 (returned s + Z.of_nat (length (filter (λ a, granted c a = None) l)))).
Proof.
  unfold granted_last. induction l as [|a l IH]; intros s Hl; cbv zeta.
  { cbn. rewrite app_nil_r, !Z.add_0_r. split; [done|]. split; [done|]. split; intros; by rewrite u8_id. }
  apply Forall_cons_1 in Hl as [Ha Hl]. cbn [foldl fmap list_fmap]. cbv zeta in IH.
  specialize (IH (after c s a) Hl). destruct (temp_after_one c s a Ha) as (E1&E2&E3&E4).
  set (s' := foldl (after c) (after c s a) l) in *. destruct IH as (->&->&H3&H4). rewrite E1, E2.
  cbn [mjoin list_join omap list_omap]. rewrite <- app_assoc. split; [done|]. split; [|split].
  - destruct (granted c a) as [cfg|]; [|done]. rewrite list.last_cons. by destruct (list.last _).
  - intros Hc. rewrite H3 by (rewrite E3; apply u8_range). rewrite E3. cbn [length]. width.
  - intros Hr. rewrite filter_cons. rewrite E4 in H4. destruct (granted c a) as [cfg|] eqn:Eg.
    + rewrite decide_False by done. by apply H4.
    + rewrite decide_True by done. rewrite H4 by apply u8_range. cbn [length]. width.
Qed.
(** Reading the configuration accepts nothing. *)
Lemma temp_read_records next command budget fuel : command ≠ CONFIGURE → ∀ p size s s' m,
  records fuel next command budget p size s = inr (s', m) → accepted s' = accepted s.
Proof.
  intros Hc. induction fuel as [|fuel IH]; intros p size s s' m; cbn [records]; [by intros [= <- _]|].
  destruct (size =? 0); [by intros [= <- _]|]. destruct (_ || _); [by intros [= <- _]|].
  replace (command =? CONFIGURE) with false by (symmetry; by apply Z.eqb_neq).
  intros ->%IH. unfold read_config_step. destruct (_ <? _); destruct (full _); done.
Qed.

(** *** A Configure Reporting command *)
Definition asks_by (q : bytes) (frame : zcl_frame_info_t) : parsed :=
  let p := slice q (payload_offset frame) (payload_length frame) in parse_asks (length p) p.
(** What a request makes of the configuration, if it succeeds. *)
Definition asked (c : zcl_temp_t) (q : bytes) (n : Z) : option zcl_temp_cfg_t :=
  match zcl_frame_decode (Some q) n (Some zero_frame) with
  | (ZCL_CODEC_OK, Some frame) =>
      let h := header frame in
      if (type h =? ZCL_FRAME_GLOBAL) && negb (has (flags h) ZCL_FLAG_MANUFACTURER_SPECIFIC)
         && (command_id h =? CONFIGURE)
      then match asks_by q frame with Asked l => granted_last c l | _ => None end else None
  | _ => None
  end.
Lemma temp_payload q n frame :
  is_bytes q → 0 <= n <= blen q →
  zcl_frame_decode (Some q) n (Some zero_frame) = (ZCL_CODEC_OK, Some frame) →
  let p := slice q (payload_offset frame) (payload_length frame) in
  ∃ rest, drop (Z.to_nat (payload_offset frame)) q = p ++ rest ∧ blen p = payload_length frame ∧
    is_bytes p ∧ 0 <= payload_length frame <= 97 ∧ 3 <= payload_offset frame.
Proof.
  intros Hq Hn Ed p. destruct (zcl_frame_decode_facts _ _ _ _ Hq (proj1 Hn) Ed) as (_&_&_&_&Eo&Ho&El).
  pose proof (zcl_header_size_range (flags (header frame))).
  exists (drop (Z.to_nat (payload_length frame)) (drop (Z.to_nat (payload_offset frame)) q)).
  split; [unfold p, slice; by rewrite take_drop|]. split; [apply blen_slice; lia|].
  split; [by apply is_bytes_slice|lia].
Qed.
Lemma temp_respond next a h body acc info response capacity rc next' a' r i :
  respond next a h body acc info response capacity = (rc, next', a', r, i) →
  if bool_decide (rc = ZCL_CODEC_OK)
  then match acc with Some cfg => next' = configure next cfg ∧ a' = 0 | None => next' = next ∧ a' = a end
  else next' = next.
Proof.
  unfold respond. destruct (zcl_frame_encode _ _ _ _ _ _) as [[[] o] [n|]] eqn:E; try (by intros [= <- <- <- _ _]).
  - destruct acc; by intros [= <- <- <- _ _].
  - pose proof (zcl_frame_encode_length (Some h) (Some body) (blen body) response capacity 0) as (?&?&?&E').
    by rewrite E in E'.
Qed.
Lemma temp_reporting_effect c a q n frame response capacity rc next' a' r i :
  is_bytes q → 0 <= n <= blen q →
  zcl_frame_decode (Some q) n (Some zero_frame) = (ZCL_CODEC_OK, Some frame) →
  reporting_command c a frame (drop (Z.to_nat (payload_offset frame)) q) response capacity
    = (rc, next', a', r, i) →
  if bool_decide (rc = ZCL_CODEC_OK)
  then match (if command_id (header frame) =? CONFIGURE
              then match asks_by q frame with Asked l => granted_last c l | _ => None end else None) with
       | Some cfg => next' = configure c cfg ∧ a' = 0 ∧ pending c = 0
       | None => next' = c ∧ a' = a
       end
  else next' = c.
Proof.
  intros Hq Hn Ed. destruct (temp_payload q n frame Hq Hn Ed) as (rest&Ep&Lp&Bp&Hl&_).
  unfold reporting_command. cbv zeta. destruct ((command_id _ =? CONFIGURE) && negb (pending c =? 0)) eqn:Epd;
    [by intros [= <- <- <- _ _]|].
  unfold asks_by. set (p := slice q _ _) in *. rewrite Ep, <- Lp.
  replace (Z.to_nat (blen p)) with (length p) by (unfold blen; lia).
  destruct (Z.eqb_spec (command_id (header frame)) CONFIGURE) as [Ec|Ec].
  - cbn [andb] in Epd. apply negb_false_iff in Epd. rewrite Ec.
    pose proof (temp_records c (report_budget capacity) (length p) p rest
      (Build_progress [] 0 0 false None) Bp ltac:(lia)) as H. cbv zeta in H.
    destruct (parse_asks (length p) p) as [| |l] eqn:Ea.
    + destruct H as [s' ->]. rewrite orb_true_r. intros H%temp_respond. by case_bool_decide.
    + rewrite H. by intros [= <- <- <- _ _].
    + rewrite H, orb_false_r. destruct (temp_after c l (Build_progress [] 0 0 false None) (temp_asks_typed _ _ _ Bp Ea)) as (_&A2&_&_).
      cbn [accepted] in A2. set (s' := foldl _ _ _) in *.
      destruct (blen p =? 0) eqn:E0.
      { assert (p = []) as E by (destruct p; [done|unfold blen in E0; simpl in E0; lia]).
        rewrite E in Ea. cbn in Ea. injection Ea as <-. cbn. intros H'%temp_respond. by case_bool_decide. }
      change (CONFIGURE =? CONFIGURE) with true. cbn [andb]. set (s2 := if _ =? 0 then _ else s').
      assert (accepted s2 = granted_last c l) as E2.
      { unfold s2. destruct (blen (reply_body s') =? 0); fields; cbn [accepted]; rewrite A2; by destruct (granted_last c l). }
      destruct (blen (reply_body s2) =? 0); [by intros [= <- <- <- _ _]|].
      rewrite E2. intros H'%temp_respond. case_bool_decide; [|done]. destruct (granted_last c l); [|done].
      destruct H' as [-> ->]. split; [done|]. split; [done|lia].
  - cbn [andb]. destruct (records _ _ _ _ _ _ _) as [e|[s' m]] eqn:Er; [intros [= <- <- <- _ _]; by case_bool_decide|].
    pose proof (temp_read_records _ _ _ _ Ec _ _ _ _ _ Er) as Ha. cbn [accepted] in Ha.
    destruct (_ || m); [intros H%temp_respond; by case_bool_decide|].
    destruct (blen (reply_body s') =? 0); [by intros [= <- <- <- _ _]|].
    rewrite Ha. intros H%temp_respond. by case_bool_decide.
Qed.

(** ** Specification in true time

    Unbounded seconds: [instant] of the last successful call, [since] when the age counts (the last
    configuration, or the issue of the last report), the value [reported] then, and the report
    that is [awaiting] its end: when it was prepared, and its value. *)
Record truth := { instant : Z; since : Z; reported : Z; awaiting : option (Z * Z) }.
#[export] Instance truth_fields : Fields truth := λ g, {|
  instant := instant g; since := since g; reported := reported g; awaiting := awaiting g |}.
Definition tracks (c : zcl_temp_t) (g : truth) : Prop :=
  fault c = 0 ∧ stamp c = u32 (instant g) ∧ age c = Z.min 65535 (instant g - since g) ∧
  baseline c = reported g ∧ since g <= instant g ∧ cfg_typed (reporting c) ∧ cfg_typed (defaults c) ∧
  match awaiting g with
  | None => pending c = 0
  | Some (P, v) => pending c = 1 ∧ pending_at c = u32 P ∧ pending_value c = v ∧
                   since g <= P <= instant g ∧ instant g - P <= 65535
  end.
Definition timely (g : truth) (t : Z) : bool :=
  (t - instant g <? 2 ^ 31) &&
  match awaiting g with Some (P, _) => t - P <=? 65535 | None => true end.
Definition in_order (g : truth) (t : Z) : Prop := instant g <= t < instant g + 2 ^ 32.

Lemma temp_elapsed a b : b <= a < b + 4294967296 → u32 (u32 a - u32 b) = a - b.
Proof. intros H. unfold u32. rewrite <- Zminus_mod. apply Z.mod_small. lia. Qed.
Lemma temp_advance c g t :
  tracks c g → in_order g t →
  advance c (u32 t) = if timely g t then inr (Z.min 65535 (t - since g))
                      else inl (c <| fault := ZCL_TEMP_FAULT_TIME |>).
Proof.
  intros (H1&H2&H3&_&H5&_&_&H6) [Ho1 Ho2]. change (2 ^ 32) with 4294967296 in Ho2.
  unfold advance, timely, ZCL_TEMP_PENDING_LIMIT. rewrite H1, H2, H3. change (2 ^ 31) with 2147483648.
  assert (u32 (u32 t - u32 (instant g)) = t - instant g) as -> by (apply temp_elapsed; lia).
  cbn [Z.eqb negb]. destruct (Z.ltb_spec (t - instant g) 2147483648) as [Hlt|Hlt].
  2: { by replace (0x80000000 <=? t - instant g) with true by lia. }
  replace (0x80000000 <=? t - instant g) with false by lia. cbn [orb andb].
  destruct (awaiting g) as [[P v]|].
  - destruct H6 as (->&->&_&HP1&HP2). cbn [Z.eqb negb andb].
    assert (u32 (u32 t - u32 P) = t - P) as -> by (apply temp_elapsed; lia).
    destruct (Z.leb_spec (t - P) 65535); [|by replace (65535 <? t - P) with true by lia].
    replace (65535 <? t - P) with false by lia. rewrite u32_id by (unfold is_u32; lia).
    f_equal. case_match; lia.
  - rewrite H6. cbn [Z.eqb negb andb]. rewrite u32_id by (unfold is_u32; lia).
    f_equal. case_match; lia.
Qed.
Lemma temp_configure_tracks c g t cfg :
  tracks c g → awaiting g = None → cfg_typed cfg →
  tracks (configure c cfg <| stamp := u32 t |> <| age := 0 |>) (Build_truth t t (temperature c) None).
Proof.
  intros (H1&_&_&_&_&_&H7&H8) E Hc. rewrite E in H8. unfold tracks, configure. cbv zeta.
  proj. cbn [instant since reported awaiting].
  split; [done|]. split; [done|]. split; [lia|]. split; [done|]. split; [lia|].
  split; [by destruct (_ =? 0xffff)|]. done.
Qed.
Lemma temp_granted_typed c fuel p l cfg :
  is_bytes p → cfg_typed (defaults c) → parse_asks fuel p = Asked l → granted_last c l = Some cfg →
  cfg_typed cfg.
Proof.
  intros Hb Hd Hl Hg. pose proof (temp_asks_typed fuel p l Hb Hl) as Hp. unfold granted_last in Hg.
  apply list.last_Some_elem_of, list_elem_of_omap in Hg as (a&Hin&Ha).
  rewrite list.Forall_forall in Hp. specialize (Hp a Hin).
  unfold granted, verdict in Ha. destruct a as [|id ty d]; [done|]. destruct Hp as [_ Hp].
  repeat case_decide; by simplify_eq/=.
Qed.
Lemma temp_asked_typed c q n cfg :
  is_bytes q → cfg_typed (defaults c) → asked c q n = Some cfg → cfg_typed cfg.
Proof.
  intros Hq Hd. unfold asked, asks_by. destruct (zcl_frame_decode _ _ _) as [[] [frame|]]; try done.
  destruct (_ && _); [|done]. destruct (parse_asks _ _) eqn:E; try done.
  intros H. eapply temp_granted_typed; [|exact Hd|exact E|exact H]. by apply is_bytes_slice.
Qed.
Lemma temp_rx_effect c now a q n b capacity info0 rc c' response info :
  advance c now = inr a → is_bytes q → 0 <= n <= blen q →
  zcl_temp_rx (Some c) now (Some q) n (Some b) capacity (Some info0) = (rc, Some c', response, info) →
  if bool_decide (rc = ZCL_CODEC_OK)
  then match asked c q n with
       | Some cfg => c' = configure c cfg <| stamp := now |> <| age := 0 |> ∧ pending c = 0
       | None => c' = c <| stamp := now |> <| age := a |>
       end
  else c' = c.
Proof.
  intros Ha Hq Hn. unfold zcl_temp_rx, asked. rewrite Ha.
  destruct (zcl_frame_decode (Some q) n (Some zero_frame)) as [e [frame|]] eqn:Ed.
  2: { destruct e; try (intros [= <- <- _ _]; by case_bool_decide).
       unfold zcl_frame_decode in Ed. by repeat case_match. }
  destruct e; try (by intros [= <- <- _ _]).
  destruct (has (flags (header frame)) ZCL_FLAG_SERVER_TO_CLIENT); [by intros [= <- <- _ _]|].
  destruct ((type (header frame) =? ZCL_FRAME_GLOBAL)
    && negb (has (flags (header frame)) ZCL_FLAG_MANUFACTURER_SPECIFIC)); cbn [andb].
  2: { destruct (zcl_dispatch_unicast _ _ _ _ _ _) as [[e r] i]. case_bool_decide as E; intros [= <- <- _ _].
       - by rewrite bool_decide_eq_false_2.
       - subst e. done. }
  destruct ((command_id (header frame) =? CONFIGURE) || (command_id (header frame) =? READ_CONFIG)) eqn:Ec.
  - destruct (reporting_command _ _ _ _ _ _) as [[[[e nx] a'] r] i] eqn:Er.
    apply (temp_reporting_effect _ _ _ _ _ _ _ _ _ _ _ _ Hq Hn Ed) in Er.
    destruct (decide (e = ZCL_CODEC_OK)) as [->|E].
    + rewrite bool_decide_eq_false_2 by (by intros []). rewrite bool_decide_eq_true_2 in Er by done.
      intros [= <- <- _ _]. rewrite bool_decide_eq_true_2 by done.
      destruct (if _ =? _ then _ else _) as [cfg|]; [by destruct Er as (->&->&?)|by destruct Er as [-> ->]].
    + rewrite bool_decide_eq_true_2 by done. rewrite bool_decide_eq_false_2 in Er by done.
      intros [= <- <- _ _]. by rewrite bool_decide_eq_false_2.
  - apply orb_false_iff in Ec as [-> _]. destruct (zcl_dispatch_unicast _ _ _ _ _ _) as [[e r] i].
    case_bool_decide as E; intros [= <- <- _ _].
    + by rewrite bool_decide_eq_false_2.
    + subst e. done.
Qed.

(** The histories of one context, every call in the order of true time and less than 2^32 seconds
    after the last successful one.  What a call does to the truth, if it succeeds: *)
Inductive history : zcl_temp_t → truth → Prop :=
  | history_init t c0 minimum maximum d c :
      cfg_typed d →
      zcl_temp_init (Some c0) (u32 t) minimum maximum (Some d) = (ZCL_CODEC_OK, Some c) →
      history c (Build_truth t t ZCL_TEMP_UNKNOWN None)
  | history_sample c g t v rc c' :
      history c g → in_order g t → zcl_temp_sample (Some c) (u32 t) v = (rc, Some c') →
      history c' (if bool_decide (rc = ZCL_CODEC_OK) then g <| instant := t |> else g)
  | history_rx c g t q n b capacity rc c' response info info0 :
      history c g → in_order g t → is_bytes q → 0 <= n <= blen q →
      zcl_temp_rx (Some c) (u32 t) (Some q) n (Some b) capacity (Some info0)
        = (rc, Some c', response, info) →
      history c'
        (if bool_decide (rc = ZCL_CODEC_OK)
         then match asked c q n with
              | Some _ => Build_truth t t (temperature c) None
              | None => g <| instant := t |>
              end
         else g)
  | history_prepare c g t sequence routes b capacity rc c' response rep rep0 :
      history c g → in_order g t →
      zcl_temp_prepare (Some c) (u32 t) sequence routes (Some b) capacity (Some rep0)
        = (rc, Some c', response, Some rep) →
      history c'
        (if bool_decide (rc = ZCL_CODEC_OK)
         then if is_ready rep =? 0 then g <| instant := t |>
              else Build_truth t (since g) (reported g) (Some (t, temperature c))
         else g)
  | history_cancel c g t token rc c' :
      history c g → in_order g t → zcl_temp_finish (Some c) (u32 t) token 0 0 = (rc, Some c') →
      history c' (if bool_decide (rc = ZCL_CODEC_OK)
                  then Build_truth t (since g) (reported g) None else g)
  | history_sent c g t token issued rc c' :
      history c g → in_order g t →
      (∀ P v, awaiting g = Some (P, v) → P <= issued <= t) →
      zcl_temp_finish (Some c) (u32 t) token 1 (u32 issued) = (rc, Some c') →
      history c'
        (if bool_decide (rc = ZCL_CODEC_OK)
         then Build_truth t issued (match awaiting g with Some (_, v) => v | None => reported g end) None
         else g).

Lemma temp_faulted c t : fault c ≠ 0 → advance c t = inl c.
Proof. intros H. unfold advance. by replace (fault c =? 0) with false by lia. Qed.
Lemma temp_init_tracks t c0 minimum maximum d c :
  cfg_typed d → zcl_temp_init (Some c0) (u32 t) minimum maximum (Some d) = (ZCL_CODEC_OK, Some c) →
  tracks c (Build_truth t t ZCL_TEMP_UNKNOWN None).
Proof.
  intros Hd. unfold zcl_temp_init. destruct (_ || _); [done|]. cbv zeta. intros [= <-].
  assert (cfg_typed (silenced d)) by done. set (d' := if _ =? _ then _ else d).
  assert (cfg_typed d') as Hd' by (unfold d'; by destruct (_ =? _)). clearbody d'.
  unfold tracks, configure. cbv zeta. proj. cbn [instant since reported awaiting].
  split; [done|]. split; [done|]. split; [cbn; lia|]. split; [done|]. split; [lia|].
  split; [by destruct (_ =? 0xffff)|]. done.
Qed.

Definition sound (c : zcl_temp_t) (g : truth) : Prop := fault c ≠ 0 ∨ tracks c g.
(** A call that publishes the age. *)
Lemma temp_stamped c g t :
  tracks c g → in_order g t → timely g t = true →
  tracks (c <| stamp := u32 t |> <| age := Z.min 65535 (t - since g) |>) (g <| instant := t |>).
Proof.
  intros (H1&_&_&H4&H5&H6&H7&H8) [Ho1 Ho2] [Ht1 Ht2]%andb_true_iff. unfold tracks. proj.
  do 4 (split; [done|]). split; [lia|]. do 2 (split; [done|]).
  destruct (awaiting g) as [[P v]|]; [|done]. destruct H8 as (?&?&?&?&?). do 3 (split; [done|]). lia.
Qed.
Lemma temp_sound_advance c g t :
  sound c g → in_order g t →
  match advance c (u32 t) with
  | inr a => tracks c g ∧ timely g t = true ∧ a = Z.min 65535 (t - since g)
  | inl c' => fault c' ≠ 0
  end.
Proof.
  intros [H|H] Ho; [by rewrite temp_faulted|]. rewrite (temp_advance c g t H Ho).
  by destruct (timely g t).
Qed.
Lemma temp_sample_sound c g t v rc c' :
  sound c g → in_order g t → zcl_temp_sample (Some c) (u32 t) v = (rc, Some c') →
  sound c' (if bool_decide (rc = ZCL_CODEC_OK) then g <| instant := t |> else g).
Proof.
  intros Hs Ho. unfold zcl_temp_sample. pose proof (temp_sound_advance c g t Hs Ho) as H.
  destruct (advance c (u32 t)) as [c1|a]; [intros [= <- <-]; by left|]. destruct H as (Ht&Hti&->).
  destruct (_ && _); intros [= <- <-]; [done|]. right.
  exact (temp_stamped (c <| temperature := v |>) g t Ht Ho Hti).
Qed.
Lemma temp_rx_sound c g t q n b capacity rc c' response info info0 :
  sound c g → in_order g t → is_bytes q → 0 <= n <= blen q →
  zcl_temp_rx (Some c) (u32 t) (Some q) n (Some b) capacity (Some info0) = (rc, Some c', response, info) →
  sound c' (if bool_decide (rc = ZCL_CODEC_OK)
            then match asked c q n with
                 | Some _ => Build_truth t t (temperature c) None
                 | None => g <| instant := t |>
                 end
            else g).
Proof.
  intros Hs Ho Hq Hn Hrx. pose proof (temp_sound_advance c g t Hs Ho) as H.
  destruct (advance c (u32 t)) as [c1|a] eqn:Ea.
  { unfold zcl_temp_rx in Hrx. rewrite Ea in Hrx. injection Hrx as <- <- _ _. by left. }
  destruct H as (Ht&Hti&->). apply (temp_rx_effect _ _ _ _ _ _ _ _ _ _ _ _ Ea Hq Hn) in Hrx.
  destruct (bool_decide _); [|by subst]. pose proof Ht as (_&_&_&_&_&_&Hd&Hp).
  destruct (asked c q n) as [cfg|] eqn:Eq; [destruct Hrx as [-> Hp0]|subst c'].
  - right. apply (temp_configure_tracks c g); [done| |by eapply temp_asked_typed].
    destruct (awaiting g) as [[P v]|]; [lia|done].
  - right. by apply temp_stamped.
Qed.
Lemma temp_prepare_sound c g t sequence routes b capacity rc c' response rep rep0 :
  sound c g → in_order g t →
  zcl_temp_prepare (Some c) (u32 t) sequence routes (Some b) capacity (Some rep0)
    = (rc, Some c', response, Some rep) →
  sound c' (if bool_decide (rc = ZCL_CODEC_OK)
            then if is_ready rep =? 0 then g <| instant := t |>
                 else Build_truth t (since g) (reported g) (Some (t, temperature c))
            else g).
Proof.
  intros Hs Ho. unfold zcl_temp_prepare. destruct (1 <? routes); [by intros [= <- <- _ _]|].
  pose proof (temp_sound_advance c g t Hs Ho) as H.
  destruct (advance c (u32 t)) as [c1|a]; [intros [= <- <- _ _]; by left|]. destruct H as (Ht&Hti&->).
  destruct (negb (pending c =? 0)); [by intros [= <- <- _ _]|].
  destruct (negb (routes =? 0) && due c _); [|intros [= <- <- _ <-]; right; by apply temp_stamped].
  destruct (serial c =? 0xffff); [intros [= <- <- _ _]; by left|].
  destruct (report_frame c sequence (Some b) capacity) as [[e r] k].
  case_bool_decide as E; [intros [= <- <- _ _]; by rewrite bool_decide_eq_false_2|].
  intros [= <- <- _ <-]. subst e. rewrite bool_decide_eq_true_2 by done. cbn [is_ready Z.eqb].
  right. pose proof Ht as (F1&_&_&F4&F5&F6&F7&_). unfold tracks. proj.
  cbn [instant since reported awaiting]. destruct Ho.
  do 4 (split; [done|]). split; [lia|]. do 2 (split; [done|]). do 3 (split; [done|]). lia.
Qed.
Lemma temp_finish_sound c g t token sent issued rc c' :
  sound c g → in_order g t → sent = 0 ∨ sent = 1 →
  (sent = 1 → ∀ P v, awaiting g = Some (P, v) → P <= issued <= t) →
  zcl_temp_finish (Some c) (u32 t) token sent (if sent =? 0 then 0 else u32 issued) = (rc, Some c') →
  sound c'
    (if bool_decide (rc = ZCL_CODEC_OK)
     then if sent =? 0 then Build_truth t (since g) (reported g) None
          else Build_truth t issued (match awaiting g with Some (_, v) => v | None => reported g end) None
     else g).
Proof.
  intros Hs Ho Hsent Hi. unfold zcl_temp_finish.
  destruct ((1 <? sent) || _ || (pending c =? 0) || _) eqn:Eg; [by intros [= <- <-]|].
  apply orb_false_iff in Eg as [[_ Ep]%orb_false_iff _].
  pose proof (temp_sound_advance c g t Hs Ho) as H.
  destruct (advance c (u32 t)) as [c1|a]; [intros [= <- <-]; by left|]. destruct H as (Ht&Hti&->).
  pose proof Ht as (F1&_&_&F4&F5&F6&F7&F8). apply andb_true_iff in Hti as [_ Hti].
  destruct (awaiting g) as [[P v]|]; [|lia]. destruct F8 as (G1&G2&G3&G4&G5). destruct Ho as [Ho _].
  destruct Hsent as [-> | ->]; cbn [Z.eqb negb andb].
  - intros [= <- <-]. rewrite bool_decide_eq_true_2 by done. right. unfold tracks. proj.
    cbn [instant since reported awaiting]. do 4 (split; [done|]). split; [lia|done].
  - specialize (Hi eq_refl P v eq_refl). rewrite G2.
    rewrite !temp_elapsed by lia. replace (t - P <? issued - P) with false by lia. intros [= <- <-].
    rewrite bool_decide_eq_true_2 by done. right. unfold tracks. proj.
    cbn [instant since reported awaiting]. split; [done|]. split; [done|].
    split; [|split; [done|split; [lia|done]]].
    unfold u16. assert (u32 t - u32 issued = t - issued + 4294967296 * ((issued / 4294967296) - (t / 4294967296))) as ->.
    { unfold u32. clear. rewrite !Z.mod_eq by done. ring. }
    rewrite Z.add_mod, (Z.mul_mod 4294967296) by done. change (4294967296 mod 65536) with 0.
    rewrite Z.mul_0_l, Zmod_0_l, Z.add_0_r, Zmod_mod, Z.mod_small by lia. cbn [age]. lia.
Qed.
Lemma temp_history_sound c g : history c g → sound c g.
Proof.
  induction 1.
  - right. by eapply temp_init_tracks.
  - by eapply temp_sample_sound.
  - by eapply temp_rx_sound.
  - by eapply temp_prepare_sound.
  - eapply (temp_finish_sound _ _ _ _ 0 0); eauto; done.
  - eapply (temp_finish_sound _ _ _ _ 1); eauto.
Qed.

(** C32: after any history of samples, requests, prepared, cancelled and issued reports, whatever they
    held and whichever of them failed, a context that has not latched a fault is the one of true
    time: the age is the true time since the last configuration or issued report, kept below
    2^16, across every wrap of the 32-bit clock; the baseline is the value reported then; and a
    report is pending exactly when one was prepared and not ended.  Calls whose order in time the
    32-bit clock cannot represent latch the fault. *)
Theorem zcl_temp_tracks_time c g : history c g → fault c = 0 → tracks c g.
Proof. intros H Hf. by destruct (temp_history_sound c g H). Qed.

(** *** Reports *)
Definition changed_enough (c : zcl_temp_t) (g : truth) : Prop :=
  temperature c ≠ reported g ∧
  (temperature c = ZCL_TEMP_UNKNOWN ∨ reported g = ZCL_TEMP_UNKNOWN ∨
   Z.abs (change (reporting c)) <= Z.abs (temperature c - reported g)).
Definition report_due (c : zcl_temp_t) (g : truth) (t : Z) : Prop :=
  configured c ≠ 0 ∧ cfg_minimum (reporting c) <= t - since g ∧
  (0 < cfg_maximum (reporting c) <= t - since g ∨ changed_enough c g).
Lemma temp_due c g t :
  tracks c g → since g <= t → due c (Z.min 65535 (t - since g)) = true ↔ report_due c g t.
Proof.
  intros (_&_&_&Hb&_&[Hm HM]&_) Ht. unfold due, report_due, changed_enough. rewrite Hb.
  unfold is_u16 in *. set (e := t - since g) in *.
  destruct (Z.eqb_spec (configured c) 0) as [E|E]; cbn [orb]; [by split; [|lia]|].
  destruct (Z.ltb_spec (Z.min 65535 e) (cfg_minimum (reporting c))) as [Em|Em]; [by split; [|lia]|].
  destruct (Z.eqb_spec (cfg_maximum (reporting c)) 0) as [EM|EM]; cbn [negb andb];
    [|destruct (Z.leb_spec (cfg_maximum (reporting c)) (Z.min 65535 e)) as [EM2|EM2]; [split; [lia|done]|]];
    (destruct (Z.eqb_spec (temperature c) (reported g)) as [Ev|Ev]; [split; [done|lia]|];
     destruct (Z.eqb_spec (temperature c) ZCL_TEMP_UNKNOWN) as [Eu|Eu]; cbn [orb]; [split; [lia|done]|];
     destruct (Z.eqb_spec (reported g) ZCL_TEMP_UNKNOWN) as [Er|Er]; [split; [lia|done]|];
     rewrite Z.leb_le; lia).
Qed.
Lemma temp_report_frame c sequence b capacity r0 :
  is_u8 sequence → 8 <= capacity <= blen b →
  ∃ body, report_frame c sequence (Some b) capacity = (ZCL_CODEC_OK, Some body, 8) ∧
    zcl_frame_decode (Some body) 8 (Some r0)
      = (ZCL_CODEC_OK,
         Some {| header := report_header sequence; ignored_control_bits := 0;
                 payload_offset := 3; payload_length := 5 |}) ∧
    slice body 3 5 = [0; 0; ZCL_TYPE_INT16] ++ le16 (temperature c).
Proof.
  intros Hs Hc. unfold report_frame.
  assert (zcl_value_encode (Some {| value_type := ZCL_TYPE_INT16; string_non_value := 0;
    data := Some (le16 (temperature c)); data_length := 2 |}) (Some [0; 0]) 2 (Some 0)
    = (ZCL_CODEC_OK, Some (le16 (temperature c)), Some 2)) as -> by reflexivity.
  destruct (zcl_frame_reply (report_header sequence) ([0; 0; ZCL_TYPE_INT16] ++ le16 (temperature c)) b capacity r0)
    as (body&n&E&->&Ed&Es); try done.
  - change (header_size (flags (report_header sequence))) with 3. change (blen (_ ++ _)) with 5. lia.
  - lia.
  - exists body. change (blen ([0; 0; ZCL_TYPE_INT16] ++ le16 (temperature c))) with 5 in *. rewrite E.
    split; [done|]. split; [exact Ed|exact Es].
Qed.
(** C33: a report goes out exactly when it is due in true time: the attribute is configured, the minimum
    interval is over, and either the maximum interval is (unless it is 0) or the value moved by
    the threshold from the one last reported (any move from or to the unknown value counts).  The
    frame is the Report Attributes command of the current value, with the next token; otherwise
    nothing is written.  In particular a report that the maximum interval demands is never
    withheld. *)
Theorem zcl_temp_report_when_due c g t sequence b capacity rep0 :
  history c g → fault c = 0 → in_order g t → timely g t = true → awaiting g = None →
  serial c ≠ 0xffff → is_u8 sequence → 8 <= capacity <= blen b →
  let y := zcl_temp_prepare (Some c) (u32 t) sequence 1 (Some b) capacity (Some rep0) in
  (report_due c g t ∧ ∃ c' body,
     y = (ZCL_CODEC_OK, Some c', Some body,
          Some {| token := u16 (serial c + 1); is_ready := 1; report_length := 8 |}) ∧
     pending c' = 1 ∧ pending_value c' = temperature c ∧
     zcl_frame_decode (Some body) 8 (Some zero_frame)
       = (ZCL_CODEC_OK, Some {| header := report_header sequence; ignored_control_bits := 0;
                                payload_offset := 3; payload_length := 5 |}) ∧
     slice body 3 5 = [0; 0; ZCL_TYPE_INT16] ++ le16 (temperature c)) ∨
  (¬ report_due c g t ∧ ∃ c', y = (ZCL_CODEC_OK, Some c', Some b, Some no_report) ∧ pending c' = 0).
Proof.
  intros Hh Hf Ho Hti Hw Hser Hs Hc y. destruct (temp_history_sound c g Hh) as [?|Ht]; [done|].
  pose proof (temp_due c g t Ht) as Hd. pose proof Ht as (_&_&_&_&H5&_&_&Hp). rewrite Hw in Hp.
  destruct Ho as [Ho1 Ho2]. specialize (Hd ltac:(lia)). unfold y, zcl_temp_prepare.
  rewrite (temp_advance c g t Ht) by done. rewrite Hti, Hp. cbn [Z.ltb Z.compare Pos.compare Pos.compare_cont Z.eqb negb andb].
  replace (serial c =? 0xffff) with false by lia.
  destruct (due c _).
  - left. split; [by apply Hd|]. destruct (temp_report_frame c sequence b capacity zero_frame Hs Hc) as (body&->&Ed&Es).
    rewrite bool_decide_eq_false_2 by (by intros []). eexists _, body. split; [done|]. by proj.
  - right. split; [intros H; apply Hd in H; done|]. eexists. split; [done|]. by proj.
Qed.

(** *** Configure Reporting *)
Lemma temp_refusals_size fuel : ∀ p l,
  parse_asks fuel p = Asked l → 5 * Z.of_nat (length l) <= blen p.
Proof.
  induction fuel as [|fuel IH]; intros p l; (destruct p as [|d p]; [by intros [= <-]|]); [done|]. cbn [parse_asks].
  destruct p as [|i0 [|i1 p]]; [done|done|]. rewrite !blen_cons. destruct (d =? 1).
  - destruct p as [|a [|b p]]; [done|done|]. rewrite !blen_cons.
    destruct (parse_asks fuel p) eqn:E; [done|done|]. intros [= <-]. apply IH in E. cbn [length]. lia.
  - destruct (d =? 0); [|done]. destruct p as [|ty [|m0 [|m1 [|x0 [|x1 p]]]]]; try done. rewrite !blen_cons.
    destruct (threshold_size ty) as [w|]; [|done]. destruct (blen p <? w); [done|].
    destruct (parse_asks fuel _) eqn:E; [done|done|]. intros [= <-]. apply IH in E. cbn [length].
    assert (blen (drop (Z.to_nat w) p) <= blen p) by (unfold blen; rewrite length_drop; lia). lia.
Qed.
Lemma temp_asked_nothing fuel p : parse_asks fuel p = Asked [] → p = [].
Proof.
  assert (∀ a r, ask a r ≠ Asked []) as H by (intros a []; done).
  destruct fuel, p as [|d [|i0 [|i1 p]]]; try done. cbn [parse_asks].
  destruct (d =? 1); [destruct p as [|x [|y p]]; try done; by intros ?%H|].
  destruct (d =? 0); [|done]. destruct p as [|ty [|m0 [|m1 [|x0 [|x1 p]]]]]; try done.
  destruct (threshold_size ty); [|done]. destruct (_ <? _); [done|]. by intros ?%H.
Qed.
Lemma temp_refusals_len c l : blen (mjoin (refusal c <$> l)) <= 4 * Z.of_nat (length l).
Proof.
  induction l as [|a l IH]; [done|]. cbn [length].
  change (mjoin (refusal c <$> (a :: l))) with (refusal c a ++ mjoin (refusal c <$> l)). rewrite blen_app.
  assert (blen (refusal c a) <= 4); [|lia].
  unfold refusal. destruct (verdict c a) as [st [cfg|]], a; done.
Qed.
(** Success with an answer: the context [c'], and a frame that the client decodes to this command and
    payload, back to it and asking for no default response, described by [i]. *)
Definition answered (h : zcl_header_t) (command : Z) (payload : bytes) (c' : zcl_temp_t)
    (i : zcl_dispatch_info_t)
    (y : zcl_codec_result_t * option zcl_temp_t * option bytes * option zcl_dispatch_info_t) : Prop :=
  ∃ body, y = (ZCL_CODEC_OK, Some c', Some body, Some i) ∧
    zcl_frame_decode (Some body) (3 + blen payload) (Some zero_frame)
      = (ZCL_CODEC_OK,
         Some {| header := {| type := 0; flags := 0x18; manufacturer_code := 0; sequence := sequence h;
                              command_id := command |};
                 ignored_control_bits := 0; payload_offset := 3; payload_length := blen payload |}) ∧
    slice body 3 (blen payload) = payload.
Definition description (h : zcl_header_t) (payload : bytes) (command requested returned culprit status : Z)
    : zcl_dispatch_info_t := {|
  kind := 0; d_length := 3 + blen payload; d_command := command; d_sequence := sequence h;
  d_requested := requested; d_returned := returned; discovery_complete := 0;
  default_command := culprit; default_status := status; default_raw_status := status |}.
Lemma temp_respond_ok next a h command payload acc info b capacity :
  header_typed h → type h <= 1 → manufacturer_code h = 0 → is_u8 command →
  blen payload <= 97 → 100 <= capacity <= blen b →
  ∃ body, respond next a (reporting_reply h command) payload acc info (Some b) capacity
    = (ZCL_CODEC_OK, match acc with Some cfg => configure next cfg | None => next end,
       match acc with Some _ => 0 | None => a end, Some body,
       info <| d_length := 3 + blen payload |> <| d_command := command |>) ∧
    zcl_frame_decode (Some body) (3 + blen payload) (Some zero_frame)
      = (ZCL_CODEC_OK, Some {| header := reporting_reply h command; ignored_control_bits := 0;
                               payload_offset := 3; payload_length := blen payload |}) ∧
    slice body 3 (blen payload) = payload.
Proof.
  intros (T1&_&_&T4&_) Ht Hm Hc Hp Hcap.
  assert (header_size (flags (reporting_reply h command)) = 3) as E3 by done.
  destruct (zcl_frame_reply (reporting_reply h command) payload b capacity zero_frame) as (body&n&E&->&Ed&Es);
    rewrite ?E3; try done; try lia.
  { split; [done|]. split; [done|]. split; [cbn [manufacturer_code reporting_reply]; by rewrite Hm|done]. }
  rewrite E3 in *. unfold respond. rewrite E.
  assert (normalise (reporting_reply h command) = reporting_reply h command) as En.
  { unfold normalise, reporting_reply. cbn [flags type manufacturer_code sequence command_id]. rewrite Hm. done. }
  rewrite En in Ed. exists body. destruct acc; (split; [done|]; split; [exact Ed|exact Es]).
Qed.
Definition configures (frame : zcl_frame_info_t) : Prop :=
  type (header frame) = ZCL_FRAME_GLOBAL ∧ command_id (header frame) = CONFIGURE ∧
  has (flags (header frame)) ZCL_FLAG_MANUFACTURER_SPECIFIC = false ∧
  has (flags (header frame)) ZCL_FLAG_SERVER_TO_CLIENT = false.
(** The context of a successful call that configures nothing, and of one that grants [cfg]. *)
Definition stamped (c : zcl_temp_t) (now a : Z) : zcl_temp_t := c <| stamp := now |> <| age := a |>.
Definition reconfigured (c : zcl_temp_t) (now : Z) (cfg : zcl_temp_cfg_t) : zcl_temp_t := {|
  stamp := now; pending_at := pending_at c; age := 0; serial := serial c; low := low c; high := high c;
  temperature := temperature c; baseline := temperature c; pending_value := pending_value c;
  defaults := defaults c;
  reporting := {| cfg_minimum := cfg_minimum cfg; cfg_maximum := cfg_maximum cfg;
                  change := if cfg_maximum cfg =? 0xffff then 0 else change cfg |};
  configured := if cfg_maximum cfg =? 0xffff then 0 else 1;
  pending := pending c; fault := fault c |}.
Lemma temp_reconfigured c now cfg : stamped (configure c cfg) now 0 = reconfigured c now cfg.
Proof. unfold stamped, configure, reconfigured, silenced. cbv zeta. destruct cfg as [mi ma ch]. cbn [cfg_maximum]. by destruct (ma =? 0xffff). Qed.
(** What [zcl_temp_rx] makes of an answered response. *)
Lemma temp_respond_answered c now a h command payload acc info b capacity info0 :
  header_typed h → type h = ZCL_FRAME_GLOBAL → manufacturer_code h = 0 → is_u8 command →
  blen payload <= 97 → 100 <= capacity <= blen b →
  answered h command payload (match acc with Some cfg => reconfigured c now cfg | None => stamped c now a end)
    (info <| d_length := 3 + blen payload |> <| d_command := command |>)
    (let '(rc, next, next_age, response, candidate) :=
       respond c a (reporting_reply h command) payload acc info (Some b) capacity in
     if! bool_decide (rc ≠ ZCL_CODEC_OK) return (rc, Some next, response, Some info0) ;;
     (rc, Some (next <| stamp := now |> <| age := next_age |>), response, Some candidate)).
Proof.
  intros Hh Ht Hm Hcm Hp Hcap.
  destruct (temp_respond_ok c a h command payload acc info b capacity Hh ltac:(by rewrite Ht) Hm Hcm Hp Hcap)
    as (body&->&E2&E3). rewrite bool_decide_eq_false_2 by (by intros []).
  exists body. unfold reporting_reply in E2. rewrite Ht, Hm in E2. split; [|by split].
  destruct acc as [cfg|]; [|done]. by rewrite <- temp_reconfigured.
Qed.
Lemma temp_none_refused c l :
  mjoin (refusal c <$> l) = [] ↔ length (filter (λ x, granted c x = None) l) = 0%nat.
Proof.
  induction l as [|a l IH]; [done|]. cbn [fmap list_fmap mjoin list_join]. rewrite filter_cons.
  unfold refusal at 1. destruct (verdict c a) as [st [cfg|]] eqn:E.
  - rewrite decide_False by (unfold granted; by rewrite E). exact IH.
  - rewrite decide_True by (unfold granted; by rewrite E). by destruct a.
Qed.
Lemma temp_counted c l :
  Forall ask_typed l → 5 * Z.of_nat (length l) <= 97 →
  let s' := foldl (after c) (Build_progress [] 0 0 false None) l in
  reply_body s' = mjoin (refusal c <$> l) ∧ accepted s' = granted_last c l ∧
  count_ s' = Z.of_nat (length l) ∧ returned s' = Z.of_nat (length (filter (λ x, granted c x = None) l)).
Proof.
  intros Hl Hn s'. destruct (temp_after c l (Build_progress [] 0 0 false None) Hl) as (E1&E2&E3&E4).
  fold s' in E1, E2, E3, E4. cbn [reply_body accepted count_ returned app] in *.
  pose proof (length_filter (λ x, granted c x = None) l) as Hf.
  rewrite E3, E4 by done. split; [done|]. split; [rewrite E2; by destruct (granted_last c l)|].
  rewrite !u8_id by (unfold is_u8; lia). done.
Qed.
(** C34: a Configure Reporting command is taken as one: its records are parsed first, and nothing is
    configured or answered but by the outcome of all of them.  A record of an unknown type refuses
    the command without an answer; a truncated one, or none at all, is answered as malformed;
    otherwise the last granted record becomes the configuration (its reporting starting afresh), and the response
    lists the refused records in their order with their status, or is the single success octet. *)
Theorem zcl_temp_configure_judged c now a q n frame b capacity info0 :
  advance c now = inr a → is_bytes q → 0 <= n <= blen q →
  zcl_frame_decode (Some q) n (Some zero_frame) = (ZCL_CODEC_OK, Some frame) →
  configures frame → pending c = 0 → 100 <= capacity <= blen b →
  let h := header frame in
  let y := zcl_temp_rx (Some c) now (Some q) n (Some b) capacity (Some info0) in
  match asks_by q frame with
  | Unknown_type => y = (ZCL_CODEC_UNSUPPORTED_DATA_TYPE, Some c, Some b, Some info0)
  | Broken | Asked [] =>
      answered h 0x0b [0x06; 0x80] (stamped c now a) (description h [0x06; 0x80] 0x0b 0 0 0x06 0x80) y
  | Asked l =>
      let refused := mjoin (refusal c <$> l) in
      let payload := if decide (refused = []) then [0x00] else refused in
      let returned := Z.max 1 (Z.of_nat (length (filter (λ x, granted c x = None) l))) in
      answered h 0x07 payload
        (match granted_last c l with Some cfg => reconfigured c now cfg | None => stamped c now a end)
        (description h payload 0x07 (Z.of_nat (length l)) returned 0 0) y
  end.
Proof.
  intros Ha Hq Hn Ed (F1&F2&F3&F4) Hpd Hcap h y. unfold h, y. clear h y.
  destruct (zcl_frame_decode_facts _ _ _ _ Hq (proj1 Hn) Ed) as (Hh&Hty&_&Hnm&_).
  assert (manufacturer_code (header frame) = 0) as Hm.
  { rewrite <- Hnm. unfold normalise. cbn [manufacturer_code]. by rewrite F3. }
  destruct (temp_payload q n frame Hq Hn Ed) as (rest&Ep&Lp&Bp&Hl&_).
  unfold zcl_temp_rx. rewrite Ha, Ed, F4, F1, F3, F2. cbn [Z.eqb Pos.eqb andb orb negb].
  unfold reporting_command. cbv zeta. rewrite F2, Hpd. cbn [Z.eqb Pos.eqb andb negb].
  unfold asks_by. set (p := slice q _ _) in *. rewrite Ep, <- Lp.
  replace (Z.to_nat (blen p)) with (length p) by (unfold blen; lia).
  pose proof (temp_records c (report_budget capacity) (length p) p rest
    (Build_progress [] 0 0 false None) Bp ltac:(lia)) as H. cbv zeta in H.
  pose proof (λ payload acc info command Hp Hc, temp_respond_answered c now a (header frame) command payload acc
    info b capacity info0 Hh F1 Hm Hc Hp Hcap) as Hresp.
  destruct (parse_asks (length p) p) as [| |l] eqn:El.
  - destruct H as [s' ->]. rewrite orb_true_r. by apply (Hresp _ None).
  - by rewrite H.
  - rewrite H, orb_false_r. pose proof (temp_refusals_size _ _ _ El) as Hsz.
    destruct l as [|x l].
    { apply temp_asked_nothing in El as ->. change (blen [] =? 0) with true. cbn [orb].
      by apply (Hresp _ None). }
    set (l' := x :: l) in *. cbn [length] in Hsz. replace (blen p =? 0) with false by (unfold l' in *; cbn [length] in *; lia).
    destruct (temp_counted c l' (temp_asks_typed _ _ _ Bp El) ltac:(lia)) as (A1&A2&A3&A4).
    set (s' := foldl _ _ _) in *. pose proof (temp_refusals_len c l') as Hrl. rewrite A1.
    change (CONFIGURE =? CONFIGURE) with true. cbn [andb]. pose proof (temp_none_refused c l') as Hnr.
    set (k := length (filter _ l')) in *. clearbody k.
    destruct (decide (mjoin (refusal c <$> l') = [])) as [E|E].
    + rewrite E. change (blen [] =? 0) with true. cbv iota. rewrite (proj1 Hnr E).
      set (s2 := s' <| reply_body := _ |> <| returned := 1 |>).
      change (blen (reply_body s2) =? 0) with false. change (accepted s2) with (accepted s').
      change (count_ s2) with (count_ s'). cbv iota. rewrite A2, A3.
      apply (Hresp [0x00] (granted_last c l')); done.
    + assert (0 < blen (mjoin (refusal c <$> l'))) as Hpos.
      { destruct (mjoin (refusal c <$> l')) as [|z u]; [done|]. rewrite blen_cons. pose proof (blen_nonneg u). lia. }
      replace (blen (mjoin (refusal c <$> l')) =? 0) with false by lia. cbv iota. rewrite A1.
      replace (blen (mjoin (refusal c <$> l')) =? 0) with false by lia. rewrite A2, A3, A4.
      assert (k ≠ 0%nat) by (intros Ek; by apply E, Hnr). rewrite Z.max_r by lia.
      apply (Hresp (mjoin (refusal c <$> l')) (granted_last c l')); [lia|done].
Qed.

(** *** Witnesses: across a wrap of the clock *)
Definition sample_defaults : zcl_temp_cfg_t := {| cfg_minimum := 5; cfg_maximum := 60; change := 50 |}.
Definition sample_start : zcl_temp_t := {|
  stamp := 4294967246; pending_at := 0; age := 50; serial := 0; low := ZCL_TEMP_UNKNOWN;
  high := ZCL_TEMP_UNKNOWN; temperature := 2000; baseline := ZCL_TEMP_UNKNOWN; pending_value := 0;
  defaults := sample_defaults; reporting := sample_defaults; configured := 1; pending := 0; fault := 0 |}.
Lemma temp_sample_started : history sample_start (Build_truth 4294967246 4294967196 ZCL_TEMP_UNKNOWN None).
Proof.
  pose proof (history_init 4294967196 sample_start ZCL_TEMP_UNKNOWN ZCL_TEMP_UNKNOWN sample_defaults _
    ltac:(done) eq_refl) as H.
  exact (history_sample _ _ 4294967246 2000 ZCL_CODEC_OK sample_start H ltac:(done) eq_refl).
Qed.
Definition sample_sent : zcl_temp_t :=
  sample_start <| stamp := 4 |> <| age := 3 |> <| serial := 1 |> <| baseline := 2000 |>.
Lemma temp_sample_sent : history sample_sent (Build_truth 4294967300 4294967297 2000 None).
Proof.
  pose proof temp_sample_started as H.
  epose proof (history_prepare _ _ 4294967290 7 1 (replicate 10 0) 10 ZCL_CODEC_OK _ _ _ no_report
    H ltac:(done) eq_refl) as H1.
  epose proof (history_sent _ _ 4294967300 1 4294967297 ZCL_CODEC_OK _ H1 ltac:(done)) as H2.
  apply H2; [|vm_compute; reflexivity]. intros P v [= <- <-]. lia.
Qed.
Theorem zcl_temp_tracks_time_witness :
  age sample_sent = 3 ∧ tracks sample_sent (Build_truth 4294967300 4294967297 2000 None).
Proof. split; [reflexivity|]. apply zcl_temp_tracks_time; [exact temp_sample_sent|reflexivity]. Defined.
Theorem zcl_temp_report_when_due_witness :
  let g := Build_truth 4294967300 4294967297 2000 None in
  let y t := zcl_temp_prepare (Some sample_sent) (u32 t) 7 1 (Some (replicate 8 0)) 8 (Some no_report) in
  (y 4294967357).2 = Some {| token := 2; is_ready := 1; report_length := 8 |} ∧
  (¬ report_due sample_sent g 4294967356 ∧
   ∃ c', y 4294967356 = (ZCL_CODEC_OK, Some c', Some (replicate 8 0), Some no_report) ∧ pending c' = 0).
Proof.
  intros g y. split; [reflexivity|].
  destruct (zcl_temp_report_when_due sample_sent g 4294967356 7 (replicate 8 0) 8 no_report
    temp_sample_sent eq_refl ltac:(done) eq_refl eq_refl ltac:(done) ltac:(done) ltac:(done)) as [[_ (c'&body&E&_)]|H];
    [discriminate E|exact H].
Defined.
(** A granted record, one whose threshold is no number, one of the wrong type, and a timeout. *)
Definition sample_configure : bytes :=
  [0x00; 9; CONFIGURE] ++ [0; 0; 0; 0x29; 1; 0; 100; 0; 25; 0] ++ [0; 0; 0; 0x29; 1; 0; 100; 0; 0; 0x80]
  ++ [0; 0; 0; 0xe2; 1; 0; 100; 0; 25; 0; 0; 0] ++ [1; 2; 0; 5; 0].
Theorem zcl_temp_configure_judged_witness :
  ∃ frame c' i, configures frame ∧ asks_by sample_configure frame = Asked
      [AskReport 0 0x29 {| cfg_minimum := 1; cfg_maximum := 100; change := 25 |};
       AskReport 0 0x29 {| cfg_minimum := 1; cfg_maximum := 100; change := -32768 |};
       AskReport 0 0xe2 {| cfg_minimum := 1; cfg_maximum := 100; change := 0 |}; AskTimeout 2] ∧
    answered (header frame) 0x07 [0x87; 0; 0; 0; 0x8d; 0; 0; 0; 0x8c; 1; 2; 0] c' i
      (zcl_temp_rx (Some sample_sent) 10 (Some sample_configure) 40 (Some (replicate 100 0)) 100
         (Some zero_dispatch)) ∧
    reporting c' = {| cfg_minimum := 1; cfg_maximum := 100; change := 25 |} ∧
    d_requested i = 4 ∧ d_returned i = 3.
Proof.
  eexists _, _, _. split; [|split; [|split]]; cycle 2.
  - refine (zcl_temp_configure_judged sample_sent 10 9 sample_configure 40
      {| header := {| type := 0; flags := 0; manufacturer_code := 0; sequence := 9; command_id := CONFIGURE |};
         ignored_control_bits := 0; payload_offset := 3; payload_length := 37 |}
      (replicate 100 0) 100 zero_dispatch eq_refl _ _ eq_refl _ eq_refl _); done || by repeat constructor.
  - done.
  - done.
  - reflexivity.
Defined.
End ZclTemperature.
