(* ===== verification/Zdo.v ===== *)
(** * The ZDO server of the end device (src/zdo_node.c, src/zdo_srv.c and their headers)

    The node descriptor messages, and the server that answers descriptor, endpoint and match
    requests, in the profile of one fixed application endpoint (without CC2530_ZDO_DESCRIPTORS).
    The private buffer [staged] of the server is an argument: it may hold anything, and no octet of
    it that the call did not write reaches the response. *)
From S2P Require Import Prelude ApsFrame.

Module ZdoNode.

Definition ZDO_NODE_REQUEST_CLUSTER := 0x0002.
Definition ZDO_NODE_MAX_BODY := 100.
Definition ZDO_NODE_SUCCESS := 0x00.
Definition ZDO_NODE_INVALID_REQUEST := 0x80.
Definition ZDO_NODE_DEVICE_NOT_FOUND := 0x81.
Definition ZDO_NODE_NOT_SUPPORTED := 0x84.
Definition ZDO_NODE_NO_DESCRIPTOR := 0x89.

Inductive zdo_node_result_t :=
  | ZDO_NODE_OK
  | ZDO_NODE_INVALID_ARGUMENT
  | ZDO_NODE_TRUNCATED
  | ZDO_NODE_TOO_LONG
  | ZDO_NODE_SPACE
  | ZDO_NODE_INVALID_DESCRIPTOR
  | ZDO_NODE_UNSUPPORTED_STATUS.
#[export] Instance zdo_node_result_eq : EqDecision zdo_node_result_t.
Proof. solve_decision. Defined.

Record zdo_node_descriptor_t := {
  manufacturer : Z; max_incoming : Z; max_outgoing : Z;
  logical_type : Z; available : Z; frequency_band : Z; mac_capability : Z;
  max_buffer : Z; server_flags : Z; stack_revision : Z; descriptor_capability : Z
}.
Definition zero_descriptor : zdo_node_descriptor_t := {|
  manufacturer := 0; max_incoming := 0; max_outgoing := 0; logical_type := 0; available := 0;
  frequency_band := 0; mac_capability := 0; max_buffer := 0; server_flags := 0;
  stack_revision := 0; descriptor_capability := 0 |}.
Record zdo_node_request_t := { q_address : Z; q_sequence : Z; q_consumed : Z }.
Record zdo_node_response_t := {
  descriptor : zdo_node_descriptor_t; r_address : Z; r_sequence : Z; r_status : Z;
  has_address : Z; r_consumed : Z
}.

Definition response_size (status : Z) : Z :=
  if! status =? ZDO_NODE_SUCCESS return 17 ;;
  if! (status =? ZDO_NODE_INVALID_REQUEST) || (status =? ZDO_NODE_DEVICE_NOT_FOUND)
      || (status =? ZDO_NODE_NO_DESCRIPTOR) return 4 ;;
  if! status =? ZDO_NODE_NOT_SUPPORTED return 2 ;;
  0.
Definition descriptor_valid (d : zdo_node_descriptor_t) : bool :=
  (logical_type d <=? 2) && (available d <=? 3)
  && negb (has (frequency_band d) 0xe2) && negb (has (mac_capability d) 0x30)
  && (max_buffer d <=? 0x7f) && (max_incoming d <=? 0x7fff)
  && (max_outgoing d <=? 0x7fff) && (server_flags d <=? 0x7f)
  && (stack_revision d <=? 0x7f) && (descriptor_capability d <=? 3).
Definition read_descriptor (b : bytes) (p : Z) : zdo_node_descriptor_t := {|
  logical_type := Z.land (rd b p) 7;
  available := Z.land (Z.shiftr (rd b p) 3) 3;
  frequency_band := Z.shiftr (rd b (p + 1)) 3;
  mac_capability := rd b (p + 2);
  manufacturer := read_le16 b (p + 3);
  max_buffer := rd b (p + 5);
  max_incoming := read_le16 b (p + 6);
  server_flags := Z.land (rd b (p + 8)) 0x7f;
  stack_revision := Z.shiftr (rd b (p + 9)) 1;
  max_outgoing := read_le16 b (p + 10);
  descriptor_capability := rd b (p + 12) |}.
Definition write_descriptor (d : zdo_node_descriptor_t) (b : bytes) (p : Z) : bytes :=
  let b := wr b p (u8 (Z.lor (logical_type d) (Z.shiftl (available d) 3))) in
  let b := wr b (p + 1) (u8 (Z.shiftl (frequency_band d) 3)) in
  let b := wr b (p + 2) (mac_capability d) in
  let b := write_le16 b (p + 3) (manufacturer d) in
  let b := wr b (p + 5) (max_buffer d) in
  let b := write_le16 b (p + 6) (max_incoming d) in
  let b := write_le16 b (p + 8) (u16 (Z.lor (server_flags d) (Z.shiftl (stack_revision d) 9))) in
  let b := write_le16 b (p + 10) (max_outgoing d) in
  wr b (p + 12) (descriptor_capability d).

Definition zdo_node_req_decode (body : option bytes) (size : Z) (output : option zdo_node_request_t)
    : zdo_node_result_t * option zdo_node_request_t :=
  match body, output with
  | Some b, Some _ =>
      if! ZDO_NODE_MAX_BODY <? size return (ZDO_NODE_TOO_LONG, output) ;;
      if! size <? 3 return (ZDO_NODE_TRUNCATED, output) ;;
      (ZDO_NODE_OK, Some {| q_sequence := rd b 0; q_address := read_le16 b 1; q_consumed := 3 |})
  | _, _ => (ZDO_NODE_INVALID_ARGUMENT, output)
  end.
Definition zdo_node_req_encode (request : option zdo_node_request_t) (body : option bytes)
    (capacity : Z) (size : option Z) : zdo_node_result_t * option bytes * option Z :=
  match request, body, size with
  | Some q, Some b, Some _ =>
      if! capacity <? 3 return (ZDO_NODE_SPACE, body, size) ;;
      (ZDO_NODE_OK, Some (write_le16 (wr b 0 (q_sequence q)) 1 (q_address q)), Some 3)
  | _, _, _ => (ZDO_NODE_INVALID_ARGUMENT, body, size)
  end.
Definition zdo_node_rsp_decode (body : option bytes) (size : Z) (output : option zdo_node_response_t)
    : zdo_node_result_t * option zdo_node_response_t :=
  match body, output with
  | Some b, Some _ =>
      if! ZDO_NODE_MAX_BODY <? size return (ZDO_NODE_TOO_LONG, output) ;;
      if! size <? 2 return (ZDO_NODE_TRUNCATED, output) ;;
      let needed := response_size (rd b 1) in
      if! needed =? 0 return (ZDO_NODE_UNSUPPORTED_STATUS, output) ;;
      if! size <? needed return (ZDO_NODE_TRUNCATED, output) ;;
      let success := rd b 1 =? ZDO_NODE_SUCCESS in
      let d := if success then read_descriptor b 4 else zero_descriptor in
      if! success && (has (rd b 4) 0xe0 || has (rd b 5) 7 || has (rd b 12) 0x80 || has (rd b 13) 1)
        return (ZDO_NODE_INVALID_DESCRIPTOR, output) ;;
      if! success && negb (descriptor_valid d) return (ZDO_NODE_INVALID_DESCRIPTOR, output) ;;
      (ZDO_NODE_OK,
       Some {| descriptor := d; r_address := if 4 <=? needed then read_le16 b 2 else 0;
               r_sequence := rd b 0; r_status := rd b 1;
               has_address := if 4 <=? needed then 1 else 0; r_consumed := needed |})
  | _, _ => (ZDO_NODE_INVALID_ARGUMENT, output)
  end.
Definition zdo_node_rsp_encode (response : option zdo_node_response_t) (body : option bytes)
    (capacity : Z) (size : option Z) : zdo_node_result_t * option bytes * option Z :=
  match response, body, size with
  | Some r, Some b, Some _ =>
      let needed := response_size (r_status r) in
      if! needed =? 0 return (ZDO_NODE_UNSUPPORTED_STATUS, body, size) ;;
      let success := r_status r =? ZDO_NODE_SUCCESS in
      if! success && negb (descriptor_valid (descriptor r)) return (ZDO_NODE_INVALID_DESCRIPTOR, body, size) ;;
      if! capacity <? needed return (ZDO_NODE_SPACE, body, size) ;;
      let b := wr (wr b 0 (r_sequence r)) 1 (r_status r) in
      let b := if 4 <=? needed then write_le16 b 2 (r_address r) else b in
      let b := if success then write_descriptor (descriptor r) b 4 else b in
      (ZDO_NODE_OK, Some b, Some needed)
  | _, _, _ => (ZDO_NODE_INVALID_ARGUMENT, body, size)
  end.

(** ** The octets of a response *)
Definition descriptor_typed (d : zdo_node_descriptor_t) : Prop :=
  is_u16 (manufacturer d) ∧ is_u16 (max_incoming d) ∧ is_u16 (max_outgoing d) ∧
  is_u8 (logical_type d) ∧ is_u8 (available d) ∧ is_u8 (frequency_band d) ∧
  is_u8 (mac_capability d) ∧ is_u8 (max_buffer d) ∧ is_u8 (server_flags d) ∧
  is_u8 (stack_revision d) ∧ is_u8 (descriptor_capability d).
Definition le16 (v : Z) : bytes := [u8 v; u8 (Z.shiftr v 8)].
Definition descriptor_wire (d : zdo_node_descriptor_t) : bytes :=
  [logical_type d + 8 * available d; 8 * frequency_band d; mac_capability d] ++ le16 (manufacturer d)
  ++ [max_buffer d] ++ le16 (max_incoming d) ++ [server_flags d; 2 * stack_revision d]
  ++ le16 (max_outgoing d) ++ [descriptor_capability d].
Definition response_wire (r : zdo_node_response_t) : bytes :=
  [r_sequence r; r_status r]
  ++ (if r_status r =? ZDO_NODE_NOT_SUPPORTED then [] else le16 (r_address r))
  ++ (if r_status r =? ZDO_NODE_SUCCESS then descriptor_wire (descriptor r) else []).
(** What a receiver can know of a response. *)
Definition received (r : zdo_node_response_t) : zdo_node_response_t :=
  let addressed := negb (r_status r =? ZDO_NODE_NOT_SUPPORTED) in {|
  descriptor := if r_status r =? ZDO_NODE_SUCCESS then descriptor r else zero_descriptor;
  r_address := if addressed then r_address r else 0; r_sequence := r_sequence r;
  r_status := r_status r; has_address := if addressed then 1 else 0;
  r_consumed := response_size (r_status r) |}.
(** *** Bit fields *)
Lemma node_type_octet lt av :
  0 <= lt <= 2 → 0 <= av <= 3 →
  u8 (Z.lor lt (Z.shiftl av 3)) = lt + 8 * av ∧ has (lt + 8 * av) 0xe0 = false ∧
  Z.land (lt + 8 * av) 7 = lt ∧ Z.land (Z.shiftr (lt + 8 * av) 3) 3 = av.
Proof.
  intros Hl Ha. assert (lt = 0 ∨ lt = 1 ∨ lt = 2) as [->|[->| ->]] by lia;
    assert (av = 0 ∨ av = 1 ∨ av = 2 ∨ av = 3) as [->|[->|[->| ->]]] by lia; by vm_compute.
Qed.
Lemma node_band_octet fb :
  is_u8 fb → has fb 0xe2 = false →
  u8 (Z.shiftl fb 3) = 8 * fb ∧ has (8 * fb) 7 = false ∧ Z.shiftr (8 * fb) 3 = fb.
Proof.
  intros Hf H. assert (implb (negb (has fb 0xe2)) ((u8 (Z.shiftl fb 3) =? 8 * fb) && negb (has (8 * fb) 7)
    && (Z.shiftr (8 * fb) 3 =? fb)) = true) as E by by_u8 fb.
  rewrite H in E. apply andb_true_iff in E as [[E1%Z.eqb_eq E2%negb_true_iff]%andb_true_iff E3%Z.eqb_eq]. done.
Qed.
Lemma node_mask_octet x :
  is_u8 x → x <= 0x7f →
  Z.land x 0x7f = x ∧ has x 0x80 = false ∧ has (2 * x) 1 = false ∧ Z.shiftr (2 * x) 1 = x.
Proof.
  intros Hf H. assert (implb (x <=? 0x7f) ((Z.land x 0x7f =? x) && negb (has x 0x80) && negb (has (2 * x) 1)
    && (Z.shiftr (2 * x) 1 =? x)) = true) as E by by_u8 x.
  replace (x <=? 0x7f) with true in E by lia.
  apply andb_true_iff in E as
    [[[E1%Z.eqb_eq E2%negb_true_iff]%andb_true_iff E3%negb_true_iff]%andb_true_iff E4%Z.eqb_eq]. done.
Qed.
Lemma node_mask_word s r :
  is_u8 s → s <= 0x7f → is_u8 r → r <= 0x7f →
  le16 (u16 (Z.lor s (Z.shiftl r 9))) = [s; 2 * r].
Proof.
  unfold is_u8. intros Hs Hs' Hr Hr'. replace (Z.shiftl r 9) with (Z.shiftl (2 * r) 8)
    by (rewrite !Z.shiftl_mul_pow2 by lia; lia).
  rewrite lor_shift8 by (unfold is_u8; lia). unfold le16. rewrite u16_id by (unfold is_u16; lia).
  rewrite Z.shiftr_div_pow2 by lia. unfold u8. change (2 ^ 8) with 256.
  f_equal; [|f_equal]; Z.div_mod_to_equations; lia.
Qed.
(** The same from the octets back. *)
Lemma node_type_back x :
  is_u8 x → has x 0xe0 = false →
  Z.land x 7 + 8 * Z.land (Z.shiftr x 3) 3 = x ∧ is_u8 (Z.land x 7) ∧ is_u8 (Z.land (Z.shiftr x 3) 3).
Proof.
  intros Hx H. assert (implb (negb (has x 0xe0)) (Z.land x 7 + 8 * Z.land (Z.shiftr x 3) 3 =? x) = true) as E
    by by_u8 x. rewrite H in E. split; [by apply Z.eqb_eq in E|].
  split; apply is_u8_land; try apply Z.shiftr_nonneg; unfold is_u8 in *; lia.
Qed.
Lemma node_shift_back x k m :
  is_u8 x → k = 3 ∧ m = 7 ∨ k = 1 ∧ m = 1 → has x m = false → 2 ^ k * Z.shiftr x k = x ∧ is_u8 (Z.shiftr x k).
Proof.
  intros Hx Hk H.
  assert (implb (negb (has x 7)) (8 * Z.shiftr x 3 =? x) && implb (negb (has x 1)) (2 * Z.shiftr x 1 =? x) = true)
    as [E1 E2]%andb_true_iff by by_u8 x.
  split; [destruct Hk as [[-> ->]|[-> ->]]; rewrite H in *; cbn [negb implb] in *; lia|].
  unfold is_u8 in *. rewrite Z.shiftr_div_pow2 by lia.
  destruct Hk as [[-> ->]|[-> ->]]; [change (2 ^ 3) with 8|change (2 ^ 1) with 2]; Z.div_mod_to_equations; lia.
Qed.
Lemma node_mask_back x : is_u8 x → has x 0x80 = false → Z.land x 0x7f = x.
Proof.
  intros Hx H. assert (implb (negb (has x 0x80)) (Z.land x 0x7f =? x) = true) as E by by_u8 x.
  rewrite H in E. by apply Z.eqb_eq in E.
Qed.
Lemma node_valid d :
  descriptor_valid d = true ↔
  logical_type d <= 2 ∧ available d <= 3 ∧ has (frequency_band d) 0xe2 = false ∧
  has (mac_capability d) 0x30 = false ∧ max_buffer d <= 0x7f ∧ max_incoming d <= 0x7fff ∧
  max_outgoing d <= 0x7fff ∧ server_flags d <= 0x7f ∧ stack_revision d <= 0x7f ∧
  descriptor_capability d <= 3.
Proof. unfold descriptor_valid. rewrite !andb_true_iff, !negb_true_iff, !Z.leb_le. tauto. Qed.

(** *** Writing *)
Lemma node_write_descriptor d b p :
  descriptor_typed d → descriptor_valid d = true →
  write_descriptor d b p = blit b p (descriptor_wire d).
Proof.
  intros (_&_&_&T4&T5&T6&_&_&T9&T10&_) (V1&V2&V3&_&_&_&_&V8&V9&_)%node_valid.
  unfold is_u8 in *. unfold write_descriptor, descriptor_wire.
  destruct (node_type_octet (logical_type d) (available d)) as [-> _]; [lia..|].
  destruct (node_band_octet (frequency_band d)) as [-> _]; [done..|].
  rewrite <- (node_mask_word (server_flags d) (stack_revision d)) by done.
  rewrite !write_le16_blit, !wr_blit. do 8 (rewrite (blit_blit' b p) by (unfold blen; simpl length; lia)). done.
Qed.
Definition response_typed (r : zdo_node_response_t) : Prop :=
  descriptor_typed (descriptor r) ∧ is_u16 (r_address r) ∧ is_u8 (r_sequence r) ∧ is_u8 (r_status r).
Lemma node_status r (Q : Prop) :
  response_size (r_status r) ≠ 0 →
  (r_status r = ZDO_NODE_SUCCESS ∨ r_status r = ZDO_NODE_INVALID_REQUEST ∨
   r_status r = ZDO_NODE_DEVICE_NOT_FOUND ∨ r_status r = ZDO_NODE_NO_DESCRIPTOR ∨
   r_status r = ZDO_NODE_NOT_SUPPORTED → Q) → Q.
Proof.
  unfold response_size. intros H HQ. apply HQ. revert H. clear HQ.
  destruct (Z.eqb_spec (r_status r) ZDO_NODE_SUCCESS); [tauto|].
  destruct (Z.eqb_spec (r_status r) ZDO_NODE_INVALID_REQUEST); [tauto|].
  destruct (Z.eqb_spec (r_status r) ZDO_NODE_DEVICE_NOT_FOUND); [tauto|].
  destruct (Z.eqb_spec (r_status r) ZDO_NODE_NO_DESCRIPTOR); [tauto|].
  destruct (Z.eqb_spec (r_status r) ZDO_NODE_NOT_SUPPORTED); [tauto|]. by intros [].
Qed.
Lemma node_encode r b capacity n0 :
  response_typed r → response_size (r_status r) ≠ 0 →
  (r_status r = ZDO_NODE_SUCCESS → descriptor_valid (descriptor r) = true) →
  response_size (r_status r) <= capacity →
  zdo_node_rsp_encode (Some r) (Some b) capacity (Some n0)
    = (ZDO_NODE_OK, Some (blit b 0 (response_wire r)), Some (response_size (r_status r))) ∧
  blen (response_wire r) = response_size (r_status r).
Proof.
  intros (Td&_) H0 Hv Hc. unfold zdo_node_rsp_encode, response_wire.
  replace (response_size (r_status r) =? 0) with false by lia.
  replace (capacity <? response_size (r_status r)) with false by lia.
  rewrite !wr_blit, (blit_blit' b 0) by done.
  apply (node_status r _ H0). intros [E|[E|[E|[E|E]]]]; rewrite E in *; cbn [Z.eqb Pos.eqb andb negb];
    try (split; [|done]; cbn; by rewrite ?write_le16_blit, ?(blit_blit' b 0) by done).
  specialize (Hv eq_refl). split; [|done]. rewrite Hv. cbv iota beta zeta delta [andb negb].
  change (ZDO_NODE_SUCCESS =? ZDO_NODE_SUCCESS) with true. change (4 <=? response_size ZDO_NODE_SUCCESS) with true.
  change (ZDO_NODE_SUCCESS =? ZDO_NODE_NOT_SUPPORTED) with false. cbv iota.
  rewrite write_le16_blit, (blit_blit' b 0), node_write_descriptor, (blit_blit' b 0) by done. by rewrite <- app_assoc.
Qed.
(** *** Reading *)
Lemma node_read_wire d a0 a1 a2 a3 t :
  descriptor_typed d → descriptor_valid d = true →
  let b := a0 :: a1 :: a2 :: a3 :: descriptor_wire d ++ t in
  read_descriptor b 4 = d ∧ has (rd b 4) 0xe0 = false ∧ has (rd b 5) 7 = false ∧
  has (rd b 12) 0x80 = false ∧ has (rd b 13) 1 = false.
Proof.
  intros (T1&T2&T3&T4&T5&T6&T7&_&T9&T10&_) (V1&V2&V3&_&_&_&_&V8&V9&_)%node_valid b.
  unfold is_u8 in T4, T5. pose proof (node_band_octet (frequency_band d) T6 V3) as (_&B1&B2).
  destruct (node_type_octet (logical_type d) (available d)) as (_&C1&C2&C3); [lia..|].
  destruct (node_mask_octet (server_flags d) T9 V8) as (D1&D2&_).
  destruct (node_mask_octet (stack_revision d) T10 V9) as (_&_&E1&E2).
  split; [|done]. unfold read_descriptor.
  rewrite (read_le16_bytes b (4 + 3) (manufacturer d)), (read_le16_bytes b (4 + 6) (max_incoming d)),
    (read_le16_bytes b (4 + 10) (max_outgoing d)) by done.
  change (rd b 4) with (logical_type d + 8 * available d). change (rd b (4 + 1)) with (8 * frequency_band d).
  change (rd b (4 + 8)) with (server_flags d). change (rd b (4 + 9)) with (2 * stack_revision d).
  rewrite C2, C3, B2, D1, E2. by destruct d.
Qed.
Lemma node_decode r t n prior :
  response_typed r → response_size (r_status r) ≠ 0 →
  (r_status r = ZDO_NODE_SUCCESS → descriptor_valid (descriptor r) = true) →
  response_size (r_status r) <= n <= ZDO_NODE_MAX_BODY →
  zdo_node_rsp_decode (Some (response_wire r ++ t)) n (Some prior) = (ZDO_NODE_OK, Some (received r)).
Proof.
  intros (Td&Ta&_) H0 Hv Hn. unfold zdo_node_rsp_decode.
  replace (ZDO_NODE_MAX_BODY <? n) with false by lia.
  assert (2 <= response_size (r_status r)) as H2.
  { by apply (node_status r _ H0); intros [E|[E|[E|[E|E]]]]; rewrite E. }
  replace (n <? 2) with false by lia. cbv zeta. change (rd (response_wire r ++ t) 1) with (r_status r).
  change (rd (response_wire r ++ t) 0) with (r_sequence r).
  replace (response_size (r_status r) =? 0) with false by lia.
  replace (n <? response_size (r_status r)) with false by lia.
  unfold response_wire, received.
  apply (node_status r _ H0). intros [E|[E|[E|[E|E]]]]; rewrite E in *;
    try (cbn; by rewrite ?(read_le16_bytes _ 2 (r_address r)) by done).
  specialize (Hv eq_refl). change (ZDO_NODE_SUCCESS =? ZDO_NODE_SUCCESS) with true.
  change (ZDO_NODE_SUCCESS =? ZDO_NODE_NOT_SUPPORTED) with false. cbv iota.
  match goal with |- context [read_descriptor ?b 4] => change b with
    (r_sequence r :: ZDO_NODE_SUCCESS :: le16 (r_address r) ++ descriptor_wire (descriptor r) ++ t) end.
  cbn [app le16].
  destruct (node_read_wire (descriptor r) (r_sequence r) ZDO_NODE_SUCCESS (u8 (r_address r)) (u8 (Z.shiftr (r_address r) 8)) t Td Hv)
    as (->&->&->&->&->). rewrite Hv. cbn [orb andb negb].
  by rewrite (read_le16_bytes _ 2 (r_address r)) by done.
Qed.
Lemma node_le16_back b i : is_bytes b → 0 <= i → le16 (read_le16 b i) = [rd b i; rd b (i + 1)].
Proof. intros Hb Hi. unfold le16. by destruct (read_le16_split b i) as [-> ->]. Qed.
Lemma node_read_back b :
  is_bytes b →
  has (rd b 4) 0xe0 = false → has (rd b 5) 7 = false → has (rd b 12) 0x80 = false → has (rd b 13) 1 = false →
  descriptor_wire (read_descriptor b 4)
    = [rd b 4; rd b 5; rd b 6; rd b 7; rd b 8; rd b 9; rd b 10; rd b 11; rd b 12; rd b 13; rd b 14; rd b 15; rd b 16] ∧
  descriptor_typed (read_descriptor b 4).
Proof.
  intros Hb H1 H2 H3 H4. pose proof (λ i, rd_is_u8 b i Hb) as Hr.
  destruct (node_type_back (rd b 4)) as (E1&T1&T1'); [done..|].
  destruct (node_shift_back (rd b 5) 3 7) as (E2&T2); [auto..|].
  destruct (node_shift_back (rd b 13) 1 1) as (E4&T4); [auto..|].
  change (2 ^ 3) with 8 in E2. change (2 ^ 1) with 2 in E4.
  pose proof (node_mask_back (rd b 12) (Hr _) H3) as E3.
  unfold descriptor_wire, read_descriptor, descriptor_typed.
  cbn [logical_type available frequency_band mac_capability manufacturer max_buffer max_incoming
       server_flags stack_revision max_outgoing descriptor_capability].
  change (4 + 1) with 5. change (4 + 8) with 12. change (4 + 9) with 13.
  rewrite !node_le16_back by (done || lia). rewrite E1, E2, E3, E4. split; [done|].
  pose proof (λ i, read_le16_range b i Hb). repeat match goal with |- _ ∧ _ => split end; auto.
Qed.
Lemma node_accepts b n prior r :
  is_bytes b → 0 <= n <= blen b →
  zdo_node_rsp_decode (Some b) n (Some prior) = (ZDO_NODE_OK, Some r) →
  response_typed r ∧ response_size (r_status r) ≠ 0 ∧
  (r_status r = ZDO_NODE_SUCCESS → descriptor_valid (descriptor r) = true) ∧
  r_consumed r = response_size (r_status r) ∧ r_consumed r <= n ∧
  slice b 0 (r_consumed r) = response_wire r.
Proof.
  intros Hb Hn. unfold zdo_node_rsp_decode. destruct (_ <? n); [done|]. destruct (n <? 2); [done|].
  cbv zeta. destruct (Z.eqb_spec (response_size (rd b 1)) 0) as [|H0]; [done|].
  destruct (Z.ltb_spec n (response_size (rd b 1))) as [|Hs]; [done|].
  destruct (_ && (_ || _)) eqn:R; [done|]. destruct (_ && negb _) eqn:V; [done|]. intros [= <-].
  pose proof (λ i, rd_is_u8 b i Hb) as Hr. pose proof (λ i, read_le16_range b i Hb) as Hl.
  unfold response_typed, response_wire. cbn [descriptor r_address r_sequence r_status r_consumed].
  set (r0 := Build_zdo_node_response_t zero_descriptor 0 0 (rd b 1) 0 0).
  revert R V. apply (node_status r0 _ H0). cbn [r0 r_status].
  intros [E|[E|[E|[E|E]]]]; rewrite E in *; intros R V.
  2-5: (split; [by split; [|split; [first [apply Hl|done]|split; [apply Hr|done]]]|];
    split; [done|]; split; [done|]; split; [done|]; split; [done|]).
  2-4: match goal with |- slice _ 0 ?k = _ => change k with 4 end; change (4 <= n) in Hs; slice_list;
    rewrite E; cbn -[le16 rd read_le16]; by rewrite (node_le16_back b 2) by (done || lia).
  2: { match goal with |- slice _ 0 ?k = _ => change k with 2 end. change (2 <= n) in Hs. slice_list. by rewrite E. }
  cbn [andb negb] in R, V. change (ZDO_NODE_SUCCESS =? ZDO_NODE_SUCCESS) with true in *. cbn [andb] in R, V.
  apply orb_false_iff in R as [[[R1 R2]%orb_false_iff R3]%orb_false_iff R4]. apply negb_false_iff in V.
  destruct (node_read_back b Hb R1 R2 R3 R4) as [Ew Tw].
  split; [split; [done|split; [apply Hl|split; [apply Hr|done]]]|].
  split; [done|]. split; [done|]. split; [done|]. split; [done|].
  match goal with |- slice _ 0 ?k = _ => change k with 17 end. change (17 <= n) in Hs. slice_list.
  cbv iota. rewrite Ew. change (ZDO_NODE_SUCCESS =? ZDO_NODE_NOT_SUPPORTED) with false.
  change (4 <=? 17) with true. cbv iota.
  rewrite (node_le16_back b 2) by (done || lia). by rewrite E.
Qed.
(** C35: a node descriptor response that the encoder emits is read back by the decoder as the same
    response, less what its status does not carry, within any longer body; the octets after it
    are not touched.  Conversely a body is accepted only when its recognised prefix is what the
    encoder emits for the response that the decoder reports. *)
Theorem zdo_node_rsp_roundtrip r b capacity n0 m prior :
  response_typed r → is_bytes b → capacity <= blen b → m <= ZDO_NODE_MAX_BODY →
  (∀ b' n, zdo_node_rsp_encode (Some r) (Some b) capacity (Some n0) = (ZDO_NODE_OK, Some b', Some n) → n <= m →
    zdo_node_rsp_decode (Some b') m (Some prior) = (ZDO_NODE_OK, Some (received r)) ∧
    drop (Z.to_nat n) b' = drop (Z.to_nat n) b ∧ blen b' = blen b) ∧
  (0 <= m <= blen b → ∀ r', zdo_node_rsp_decode (Some b) m (Some prior) = (ZDO_NODE_OK, Some r') →
    ∃ b', zdo_node_rsp_encode (Some r') (Some b) m (Some n0) = (ZDO_NODE_OK, Some b', Some (r_consumed r')) ∧
          slice b' 0 (r_consumed r') = slice b 0 (r_consumed r') ∧ received r' = r').
Proof.
  intros Ht Hb Hc Hm. split.
  - intros b' n E Hn. assert (response_size (r_status r) ≠ 0 ∧
      (r_status r = ZDO_NODE_SUCCESS → descriptor_valid (descriptor r) = true) ∧
      response_size (r_status r) <= capacity) as (H0&Hv&Hs).
    { revert E. unfold zdo_node_rsp_encode.
      destruct (Z.eqb_spec (response_size (r_status r)) 0) as [|?]; [done|].
      destruct (Z.eqb_spec (r_status r) ZDO_NODE_SUCCESS), (descriptor_valid (descriptor r)); try done;
        destruct (Z.ltb_spec capacity (response_size (r_status r))); done || lia. }
    destruct (node_encode r b capacity n0 Ht H0 Hv Hs) as [E' El]. rewrite E in E'.
    assert (b' = blit b 0 (response_wire r) ∧ n = response_size (r_status r)) as [-> ->] by (split; congruence).
    rewrite blen_blit. rewrite blit_spec by lia. rewrite take_0, El. split; [|split; [|done]].
    + apply node_decode; done || lia.
    + cbn [app]. rewrite drop_app_length'; [by rewrite Z.add_0_l|]. unfold blen in El. lia.
  - intros Hm' r' E. destruct (node_accepts b m prior r' Hb Hm' E) as (Tr&H0&Hv&Ec&Hs&Ew).
    destruct (node_encode r' b m n0 Tr H0 Hv) as [E' El]; [lia|]. exists (blit b 0 (response_wire r')).
    rewrite Ec in *. split; [done|]. split.
    + rewrite blit_spec by lia. rewrite slice_0, take_0. cbn [app].
      rewrite Ew, take_app_length'; [done|unfold blen in El; lia].
    + pose proof (node_decode r' (drop (Z.to_nat (r_consumed r')) b) m prior Tr H0 Hv ltac:(lia)) as Ed.
      rewrite <- Ew, <- Ec, slice_0, take_drop, E in Ed. congruence.
Qed.
Definition sample_descriptor : zdo_node_descriptor_t := {|
  manufacturer := 0x1234; max_incoming := 0x80; max_outgoing := 0x80; logical_type := 2; available := 0;
  frequency_band := 8; mac_capability := 0x80; max_buffer := 0x50; server_flags := 0;
  stack_revision := 22; descriptor_capability := 0 |}.
Definition sample_response : zdo_node_response_t := {|
  descriptor := sample_descriptor; r_address := 0x8001; r_sequence := 7; r_status := ZDO_NODE_SUCCESS;
  has_address := 0; r_consumed := 0 |}.
Theorem zdo_node_rsp_roundtrip_witness :
  ∃ b', zdo_node_rsp_encode (Some sample_response) (Some (replicate 20 0xaa)) 20 (Some 0)
    = (ZDO_NODE_OK, Some b', Some 17) ∧
  zdo_node_rsp_decode (Some b') 20 (Some sample_response) = (ZDO_NODE_OK, Some (received sample_response)) ∧
  drop 17 b' = [0xaa; 0xaa; 0xaa] ∧ blen b' = 20.
Proof.
  eexists. split; [reflexivity|].
  refine (proj1 (zdo_node_rsp_roundtrip sample_response (replicate 20 0xaa) 20 0 20 sample_response _ _ _ _) _ 17 _ _);
    try reflexivity; try (vm_compute; discriminate); try by apply Forall_replicate.
  by repeat split.
Defined.
End ZdoNode.

Module ZdoSrv.
Import Aps ZdoNode.

Definition ZDO_SRV_DEVICE_ANNCE := 0x0013.
Definition ZDO_SRV_PARENT_ANNCE := 0x001f.
Definition ZDO_SRV_UPDATE_NOTIFY := 0x003b.
Definition ZDO_SRV_POWER_DESC_REQUEST := 0x0003.
Definition ZDO_SRV_SIMPLE_DESC_REQUEST := 0x0004.
Definition ZDO_SRV_ACTIVE_EP_REQUEST := 0x0005.
Definition ZDO_SRV_MATCH_DESC_REQUEST := 0x0006.
Definition ZDO_SRV_INVALID_EP := 0x82.
Definition ZDO_SRV_NOT_ACTIVE := 0x83.
Definition ZDO_SRV_POWER_DESCRIPTOR_0 := 0x40.
Definition ZDO_SRV_POWER_DESCRIPTOR_1 := 0xc4.
Definition ZDO_SRV_BASIC_CLUSTER := 0x0000.
Definition ZDO_SRV_POWER_CLUSTER := 0x0001.
Definition ZDO_SRV_DEVICE_TEMPERATURE_CLUSTER := 0x0002.
Definition ZDO_SRV_IDENTIFY_CLUSTER := 0x0003.
Definition ZDO_SRV_TEMPERATURE_CLUSTER := 0x0402.
Definition ZDO_SRV_HUMIDITY_CLUSTER := 0x0405.
Definition ZDO_SRV_INPUT_CLUSTERS := 6.
Definition ZDO_SRV_DEVICE := 0xffff.
Definition ZDO_SRV_DEVICE_VERSION := 0.
Definition ZDO_SRV_STAGED := 25.

Inductive zdo_srv_result_t :=
  | ZDO_SRV_OK
  | ZDO_SRV_ARGUMENT
  | ZDO_SRV_CONTEXT
  | ZDO_SRV_LOCAL
  | ZDO_SRV_TRUNCATED
  | ZDO_SRV_TOO_LONG
  | ZDO_SRV_SPACE
  | ZDO_SRV_NOT_REQUEST
  | ZDO_SRV_NOTIFICATION.
#[export] Instance zdo_srv_result_eq : EqDecision zdo_srv_result_t.
Proof. solve_decision. Defined.
Definition ZDO_SRV_REPLY := 1.
Definition ZDO_SRV_DROP_BROADCAST := 2.
Definition ZDO_SRV_DROP_PARENT := 3.

Record zdo_srv_local_t := {
  l_descriptor : zdo_node_descriptor_t; l_address : Z; l_profile : Z; l_endpoint : Z
}.
Record zdo_srv_rx_t := { rx_header : aps_header_t; rx_broadcast : Z }.
Record zdo_srv_info_t := {
  i_cluster_id : Z; i_kind : Z; i_endpoint : Z; i_sequence : Z; i_status : Z; i_length : Z; i_consumed : Z
}.

(** ** The local variables that a branch leaves: the staged octets and their number, the status,
    the recognised prefix, and whether a broadcast goes unanswered *)
Record work := { staged : bytes; size : Z; status : Z; consumed : Z; drop_ : bool }.
Definition address_of (b : bytes) : Z := Z.lor (rd b 1) (Z.shiftl (rd b 2) 8).
(** [staged[0] = body[0]; staged[2] = body[1]; staged[3] = body[2];] *)
Definition echo (staged body : bytes) : bytes :=
  wr (wr (wr staged 0 (rd body 0)) 2 (rd body 1)) 3 (rd body 2).

Definition power_desc (local : zdo_srv_local_t) (staged body : bytes) (length : Z)
    : zdo_srv_result_t + work :=
  if! length <? 3 return inl ZDO_SRV_TRUNCATED ;;
  let staged := echo staged body in
  if! negb (address_of body =? l_address local)
    return inr {| staged := wr staged 1 ZDO_NODE_INVALID_REQUEST; size := 4;
                  status := ZDO_NODE_INVALID_REQUEST; consumed := 3; drop_ := false |} ;;
  let staged := wr (wr staged 4 ZDO_SRV_POWER_DESCRIPTOR_0) 5 ZDO_SRV_POWER_DESCRIPTOR_1 in
  inr {| staged := wr staged 1 ZDO_NODE_SUCCESS; size := 6; status := ZDO_NODE_SUCCESS;
         consumed := 3; drop_ := false |}.

Definition served (cluster : Z) : bool :=
  (cluster =? ZDO_SRV_BASIC_CLUSTER) || (cluster =? ZDO_SRV_POWER_CLUSTER)
  || (cluster =? ZDO_SRV_DEVICE_TEMPERATURE_CLUSTER) || (cluster =? ZDO_SRV_IDENTIFY_CLUSTER)
  || (cluster =? ZDO_SRV_TEMPERATURE_CLUSTER) || (cluster =? ZDO_SRV_HUMIDITY_CLUSTER).
(** The loop that goes from the last input cluster, which ends at [end], to the first. *)
Fixpoint match_loop (fuel : nat) (body : bytes) (end_ simple : Z) : Z :=
  match fuel with
  | O => simple
  | S fuel =>
      if! end_ <=? 6 return simple ;;
      let cluster := Z.lor (rd body (end_ - 2)) (Z.shiftl (rd body (end_ - 1)) 8) in
      match_loop fuel body (end_ - 2) (if served cluster then 1 else simple)
  end.
Definition match_desc (local : zdo_srv_local_t) (broadcast : bool) (staged body : bytes) (length : Z)
    : zdo_srv_result_t + work :=
  if! length <? 3 return inl ZDO_SRV_TRUNCATED ;;
  let staged := echo staged body in
  if! length <? 6 return inl ZDO_SRV_TRUNCATED ;;
  let end_ := u16 (6 + 2 * rd body 5) in
  if! (length <=? end_) || (length <? end_ + 1 + 2 * rd body end_) return inl ZDO_SRV_TRUNCATED ;;
  let consumed := u8 (end_ + 1 + 2 * rd body end_) in
  let address := address_of body in
  if! negb (address =? l_address local) && (address <? 0xfffb)
    return inr {| staged := wr (wr staged 2 0) 1 ZDO_NODE_INVALID_REQUEST; size := 3;
                  status := ZDO_NODE_INVALID_REQUEST; consumed := consumed; drop_ := broadcast |} ;;
  let cluster := Z.lor (rd body 3) (Z.shiftl (rd body 4) 8) in
  let simple :=
    if negb (l_endpoint local =? 0) && ((cluster =? l_profile local) || (cluster =? 0xffff))
    then match_loop (Z.to_nat (rd body 5)) body end_ 0 else 0 in
  let staged := wr (wr staged 4 simple) 5 (l_endpoint local) in
  inr {| staged := wr staged 1 ZDO_NODE_SUCCESS; size := u8 (5 + simple); status := ZDO_NODE_SUCCESS;
         consumed := consumed; drop_ := (simple =? 0) && broadcast |}.

Definition simple_desc (local : zdo_srv_local_t) (staged : bytes) : bytes :=
  let s := wr (wr staged 4 20) 5 (l_endpoint local) in
  let s := wr (wr s 6 (u8 (l_profile local))) 7 (u8 (Z.shiftr (l_profile local) 8)) in
  let s := wr (wr s 8 (u8 ZDO_SRV_DEVICE)) 9 (u8 (Z.shiftr ZDO_SRV_DEVICE 8)) in
  let s := wr (wr s 10 ZDO_SRV_DEVICE_VERSION) 11 ZDO_SRV_INPUT_CLUSTERS in
  let s := wr (wr s 12 (u8 ZDO_SRV_BASIC_CLUSTER)) 13 (u8 (Z.shiftr ZDO_SRV_BASIC_CLUSTER 8)) in
  let s := wr (wr s 14 (u8 ZDO_SRV_POWER_CLUSTER)) 15 (u8 (Z.shiftr ZDO_SRV_POWER_CLUSTER 8)) in
  let s := wr s 16 (u8 ZDO_SRV_DEVICE_TEMPERATURE_CLUSTER) in
  let s := wr s 17 (u8 (Z.shiftr ZDO_SRV_DEVICE_TEMPERATURE_CLUSTER 8)) in
  let s := wr (wr s 18 (u8 ZDO_SRV_IDENTIFY_CLUSTER)) 19 (u8 (Z.shiftr ZDO_SRV_IDENTIFY_CLUSTER 8)) in
  let s := wr (wr s 20 (u8 ZDO_SRV_TEMPERATURE_CLUSTER)) 21 (u8 (Z.shiftr ZDO_SRV_TEMPERATURE_CLUSTER 8)) in
  let s := wr (wr s 22 (u8 ZDO_SRV_HUMIDITY_CLUSTER)) 23 (u8 (Z.shiftr ZDO_SRV_HUMIDITY_CLUSTER 8)) in
  wr s 24 0.
Definition endpoints (local : zdo_srv_local_t) (simple : bool) (staged body : bytes) (length : Z)
    : zdo_srv_result_t + work :=
  if! length <? (if simple then 4 else 3) return inl ZDO_SRV_TRUNCATED ;;
  let consumed := if simple then 4 else 3 in
  let staged := wr (echo staged body) 4 0 in
  let '(status, staged, size) :=
    if! simple && ((rd body 3 =? 0) || (rd body 3 =? 0xff)) return (ZDO_SRV_INVALID_EP, staged, 5) ;;
    if! negb (rd body 1 =? u8 (l_address local))
        || negb (rd body 2 =? u8 (Z.shiftr (l_address local) 8))
      return (ZDO_NODE_INVALID_REQUEST, staged, 5) ;;
    if! negb simple
      return (if negb (l_endpoint local =? 0)
              then (ZDO_NODE_SUCCESS, wr (wr staged 4 1) 5 (l_endpoint local), 6)
              else (ZDO_NODE_SUCCESS, staged, 5)) ;;
    if! negb (rd body 3 =? l_endpoint local) return (ZDO_SRV_NOT_ACTIVE, staged, 5) ;;
    (ZDO_NODE_SUCCESS, simple_desc local staged, 25) in
  inr {| staged := wr staged 1 status; size := size; status := status; consumed := consumed;
         drop_ := false |}.
Definition node_or_unsupported (reply : zdo_node_response_t) (local : zdo_srv_local_t) (cluster : Z)
    (staged body : bytes) (length : Z) : zdo_srv_result_t + work :=
  let encoded (reply : zdo_node_response_t) (consumed : Z) :=
    match zdo_node_rsp_encode (Some reply) (Some staged) ZDO_SRV_STAGED (Some 0) with
    | (ZDO_NODE_OK, Some staged, Some size) =>
        inr {| staged := staged; size := size; status := r_status reply; consumed := consumed;
               drop_ := false |}
    | _ => inl ZDO_SRV_LOCAL
    end in
  if cluster =? ZDO_NODE_REQUEST_CLUSTER then
    match zdo_node_req_decode (Some body) length (Some (Build_zdo_node_request_t 0 0 0)) with
    | (ZDO_NODE_OK, Some request) =>
        encoded {| descriptor := descriptor reply; r_address := q_address request;
                   r_sequence := r_sequence reply;
                   r_status := if negb (q_address request =? l_address local)
                               then ZDO_NODE_INVALID_REQUEST else r_status reply;
                   has_address := 0; r_consumed := 0 |} (q_consumed request)
    | _ => inl ZDO_SRV_TRUNCATED
    end
  else
    encoded {| descriptor := descriptor reply; r_address := r_address reply;
               r_sequence := r_sequence reply; r_status := ZDO_NODE_NOT_SUPPORTED;
               has_address := 0; r_consumed := 0 |} 1.

Definition context_refused (rx : zdo_srv_rx_t) : bool :=
  let h := rx_header rx in
  (1 <? rx_broadcast rx) || negb (type h =? APS_FRAME_DATA)
  || negb (profile_id h =? 0) || negb (destination_endpoint h =? 0)
  || (source_endpoint h =? 0xff)
  || negb (Z.land (flags h) (u8 (Z.lnot APS_FLAG_ACK_REQUEST)) =? 0)
  || (negb (delivery_mode h =? APS_DELIVERY_UNICAST) && negb (delivery_mode h =? APS_DELIVERY_BROADCAST))
  || ((delivery_mode h =? APS_DELIVERY_BROADCAST) && negb (flags h =? 0)).
Definition local_refused (l : zdo_srv_local_t) : bool :=
  (l_address l =? 0) || (0xfff8 <=? l_address l) || negb (logical_type (l_descriptor l) =? 2)
  || (0xf0 <? l_endpoint l) || (negb (l_endpoint l =? 0) && (l_profile l =? 0)).
Definition dropped (kind sequence consumed : Z) : zdo_srv_info_t := {|
  i_cluster_id := 0; i_kind := kind; i_endpoint := 0; i_sequence := sequence; i_status := 0;
  i_length := 0; i_consumed := consumed |}.
Definition zdo_srv_handle (staged0 : bytes) (local : option zdo_srv_local_t) (rx : option zdo_srv_rx_t)
    (body : option bytes) (length : Z) (response : option bytes) (capacity : Z)
    (info : option zdo_srv_info_t)
    : zdo_srv_result_t * option bytes * option zdo_srv_info_t :=
  match local, rx, body, response, info with
  | Some l, Some x, Some b, Some out, Some _ =>
      let error rc := (rc, response, info) in
      if! context_refused x return error ZDO_SRV_CONTEXT ;;
      if! local_refused l return error ZDO_SRV_LOCAL ;;
      if! ZDO_NODE_MAX_BODY <? length return error ZDO_SRV_TOO_LONG ;;
      if! length =? 0 return error ZDO_SRV_TRUNCATED ;;
      let reply := {| descriptor := l_descriptor l; r_address := l_address l; r_sequence := rd b 0;
                      r_status := 0; has_address := 0; r_consumed := 0 |} in
      match zdo_node_rsp_encode (Some reply) (Some staged0) ZDO_SRV_STAGED (Some 0) with
      | (ZDO_NODE_OK, Some staged1, Some _) =>
          let cluster := cluster_id (rx_header x) in
          if! has cluster 0x8000 return error ZDO_SRV_NOT_REQUEST ;;
          if! (cluster =? ZDO_SRV_DEVICE_ANNCE) || (cluster =? ZDO_SRV_UPDATE_NOTIFY)
            return error ZDO_SRV_NOTIFICATION ;;
          let broadcast :=
            negb (rx_broadcast x =? 0) || (delivery_mode (rx_header x) =? APS_DELIVERY_BROADCAST) in
          let drop_as kind consumed := (ZDO_SRV_OK, response, Some (dropped kind (rd b 0) consumed)) in
          if! cluster =? ZDO_SRV_PARENT_ANNCE return drop_as ZDO_SRV_DROP_PARENT 1 ;;
          if! broadcast && negb (cluster =? ZDO_SRV_MATCH_DESC_REQUEST)
            return drop_as ZDO_SRV_DROP_BROADCAST 1 ;;
          let done :=
            if cluster =? ZDO_SRV_POWER_DESC_REQUEST then power_desc l staged1 b length
            else if cluster =? ZDO_SRV_MATCH_DESC_REQUEST then match_desc l broadcast staged1 b length
            else if cluster =? ZDO_SRV_ACTIVE_EP_REQUEST then endpoints l false staged1 b length
            else if cluster =? ZDO_SRV_SIMPLE_DESC_REQUEST then endpoints l true staged1 b length
            else node_or_unsupported reply l cluster staged1 b length in
          match done with
          | inl rc => error rc
          | inr w =>
              if! drop_ w return drop_as ZDO_SRV_DROP_BROADCAST (consumed w) ;;
              if! capacity <? size w return error ZDO_SRV_SPACE ;;
              (ZDO_SRV_OK, Some (blit out 0 (slice (staged w) 0 (size w))),
               Some {| i_cluster_id := Z.lor cluster 0x8000; i_kind := ZDO_SRV_REPLY;
                       i_endpoint := source_endpoint (rx_header x); i_sequence := rd b 0;
                       i_status := status w; i_length := size w; i_consumed := consumed w |})
          end
      | _ => error ZDO_SRV_LOCAL
      end
  | _, _, _, _, _ => (ZDO_SRV_ARGUMENT, response, info)
  end.
(** ** Specification: the request that a body holds, and the reaction to it *)
Inductive zdo_request :=
  | Node_Desc (address : Z)
  | Power_Desc (address : Z)
  | Simple_Desc (address endpoint : Z)
  | Active_EP (address : Z)
  | Match_Desc (address profile : Z) (inputs outputs : list Z)
  | Unsupported_request.
Fixpoint le_words (n : nat) (b : bytes) : option (list Z * bytes) :=
  match n, b with
  | O, b => Some ([], b)
  | S n, x :: y :: b =>
      match le_words n b with Some (l, rest) => Some (x + 256 * y :: l, rest) | None => None end
  | _, _ => None
  end.
(** The request and the length of its recognised prefix. *)
Definition parse_request (cluster : Z) (p : bytes) : option (zdo_request * Z) :=
  if cluster =? ZDO_NODE_REQUEST_CLUSTER then
    match p with _ :: a0 :: a1 :: _ => Some (Node_Desc (a0 + 256 * a1), 3) | _ => None end
  else if cluster =? ZDO_SRV_POWER_DESC_REQUEST then
    match p with _ :: a0 :: a1 :: _ => Some (Power_Desc (a0 + 256 * a1), 3) | _ => None end
  else if cluster =? ZDO_SRV_ACTIVE_EP_REQUEST then
    match p with _ :: a0 :: a1 :: _ => Some (Active_EP (a0 + 256 * a1), 3) | _ => None end
  else if cluster =? ZDO_SRV_SIMPLE_DESC_REQUEST then
    match p with _ :: a0 :: a1 :: ep :: _ => Some (Simple_Desc (a0 + 256 * a1) ep, 4) | _ => None end
  else if cluster =? ZDO_SRV_MATCH_DESC_REQUEST then
    match p with
    | _ :: a0 :: a1 :: f0 :: f1 :: n :: p =>
        match le_words (Z.to_nat n) p with
        | Some (ins, m :: p) =>
            match le_words (Z.to_nat m) p with
            | Some (outs, _) => Some (Match_Desc (a0 + 256 * a1) (f0 + 256 * f1) ins outs, 7 + 2 * n + 2 * m)
            | None => None
            end
        | _ => None
        end
    | _ => None
    end
  else Some (Unsupported_request, 1).

Definition served_clusters : list Z := [0x0000; 0x0001; 0x0002; 0x0003; 0x0402; 0x0405].
Definition simple_descriptor (endpoint profile : Z) : bytes :=
  [endpoint] ++ le16 profile ++ le16 0xffff ++ [0] ++ [Z.of_nat (length served_clusters)]
  ++ mjoin (le16 <$> served_clusters) ++ [0].
Definition interested (l : zdo_srv_local_t) (address : Z) : bool :=
  (address =? l_address l) || (0xfffb <=? address).
Definition matching (l : zdo_srv_local_t) (profile : Z) (inputs : list Z) : bytes :=
  if bool_decide (l_endpoint l ≠ 0 ∧ (profile = l_profile l ∨ profile = 0xffff) ∧
                  Exists (λ c, c ∈ served_clusters) inputs) then [l_endpoint l] else [].
(** The status of the answer, and the octets after it. *)
Definition answer (l : zdo_srv_local_t) (req : zdo_request) : Z * bytes :=
  match req with
  | Node_Desc a =>
      if a =? l_address l then (ZDO_NODE_SUCCESS, le16 a ++ descriptor_wire (l_descriptor l))
      else (ZDO_NODE_INVALID_REQUEST, le16 a)
  | Power_Desc a =>
      if a =? l_address l
      then (ZDO_NODE_SUCCESS, le16 a ++ [ZDO_SRV_POWER_DESCRIPTOR_0; ZDO_SRV_POWER_DESCRIPTOR_1])
      else (ZDO_NODE_INVALID_REQUEST, le16 a)
  | Simple_Desc a ep =>
      if (ep =? 0) || (ep =? 0xff) then (ZDO_SRV_INVALID_EP, le16 a ++ [0])
      else if negb (a =? l_address l) then (ZDO_NODE_INVALID_REQUEST, le16 a ++ [0])
      else if negb (ep =? l_endpoint l) then (ZDO_SRV_NOT_ACTIVE, le16 a ++ [0])
      else let d := simple_descriptor ep (l_profile l) in (ZDO_NODE_SUCCESS, le16 a ++ [blen d] ++ d)
  | Active_EP a =>
      if negb (a =? l_address l) then (ZDO_NODE_INVALID_REQUEST, le16 a ++ [0])
      else (ZDO_NODE_SUCCESS, le16 a ++ (if l_endpoint l =? 0 then [0] else [1; l_endpoint l]))
  | Match_Desc a profile ins _ =>
      if interested l a
      then (ZDO_NODE_SUCCESS, le16 a ++ [blen (matching l profile ins)] ++ matching l profile ins)
      else (ZDO_NODE_INVALID_REQUEST, [0])
  | Unsupported_request => (ZDO_NODE_NOT_SUPPORTED, [])
  end.
(** A broadcast is answered only by a device that matches. *)
Definition silent (l : zdo_srv_local_t) (req : zdo_request) : bool :=
  match req with
  | Match_Desc a profile ins _ => negb (interested l a) || (blen (matching l profile ins) =? 0)
  | _ => false
  end.
Inductive reaction :=
  | Refused (rc : zdo_srv_result_t)
  | Dropped (kind consumed : Z)
  | Replied (status : Z) (octets : bytes) (consumed : Z).
Definition broadcast_to (x : zdo_srv_rx_t) : bool :=
  negb (rx_broadcast x =? 0) || (delivery_mode (rx_header x) =? APS_DELIVERY_BROADCAST).
Definition react (l : zdo_srv_local_t) (x : zdo_srv_rx_t) (p : bytes) : reaction :=
  let cluster := cluster_id (rx_header x) in
  if! 0x8000 <=? cluster return Refused ZDO_SRV_NOT_REQUEST ;;
  if! (cluster =? ZDO_SRV_DEVICE_ANNCE) || (cluster =? ZDO_SRV_UPDATE_NOTIFY)
    return Refused ZDO_SRV_NOTIFICATION ;;
  if! cluster =? ZDO_SRV_PARENT_ANNCE return Dropped ZDO_SRV_DROP_PARENT 1 ;;
  if! broadcast_to x && negb (cluster =? ZDO_SRV_MATCH_DESC_REQUEST)
    return Dropped ZDO_SRV_DROP_BROADCAST 1 ;;
  match parse_request cluster p with
  | None => Refused ZDO_SRV_TRUNCATED
  | Some (req, consumed) =>
      if! broadcast_to x && silent l req return Dropped ZDO_SRV_DROP_BROADCAST consumed ;;
      let '(status, octets) := answer l req in Replied status octets consumed
  end.

Definition local_typed (l : zdo_srv_local_t) : Prop :=
  descriptor_typed (l_descriptor l) ∧ is_u16 (l_address l) ∧ is_u16 (l_profile l) ∧ is_u8 (l_endpoint l).
(** What a branch leaves is the answer. *)
Definition finished (l : zdo_srv_local_t) (broadcast : bool) (seq : Z) (req : zdo_request) (k : Z)
    (w : work) : Prop :=
  let '(st, rest) := answer l req in
  slice (staged w) 0 (size w) = seq :: st :: rest ∧ size w = blen rest + 2 ∧ status w = st ∧
  consumed w = k ∧ drop_ w = broadcast && silent l req.
Definition carried_out (l : zdo_srv_local_t) (broadcast : bool) (cluster : Z) (p : bytes)
    (y : zdo_srv_result_t + work) : Prop :=
  match parse_request cluster p with
  | None => y = inl ZDO_SRV_TRUNCATED
  | Some (req, k) => ∃ w, y = inr w ∧ finished l broadcast (rd p 0) req k w
  end.

Lemma srv_address a0 a1 : is_u8 a0 → is_u8 a1 → Z.lor a0 (Z.shiftl a1 8) = a0 + 256 * a1.
Proof. unfold is_u8. intros H0 H1. apply lor_shift8; [done|lia]. Qed.
Lemma srv_le16 a0 a1 : is_u8 a0 → is_u8 a1 → le16 (a0 + 256 * a1) = [a0; a1].
Proof.
  unfold is_u8, le16, u8. intros H0 H1. rewrite Z.shiftr_div_pow2 by lia. change (2 ^ 8) with 256.
  f_equal; [|f_equal]; Z.div_mod_to_equations; lia.
Qed.
Lemma srv_own a0 a1 a :
  is_u8 a0 → is_u8 a1 → is_u16 a →
  negb (a0 =? u8 a) || negb (a1 =? u8 (Z.shiftr a 8)) = negb (a0 + 256 * a1 =? a).
Proof.
  unfold is_u8, is_u16, u8. intros H0 H1 H. rewrite Z.shiftr_div_pow2 by lia. change (2 ^ 8) with 256.
  destruct (Z.eqb_spec a0 (a mod 256)), (Z.eqb_spec a1 (a / 256 mod 256)), (Z.eqb_spec (a0 + 256 * a1) a);
    cbn; try done; exfalso; Z.div_mod_to_equations; lia.
Qed.
(** A private buffer, octet by octet. *)
Ltac open_staged s := do 25 (destruct s as [|? s]; [discriminate|]); destruct s; [|unfold blen in *; cbn in *; lia].

Lemma srv_power l broadcast s p t :
  local_typed l → blen s = 25 → is_bytes p →
  carried_out l broadcast ZDO_SRV_POWER_DESC_REQUEST p
    (power_desc l s (p ++ t) (blen p)).
Proof.
  intros (_&Ta&_) Hs Hp. unfold carried_out, power_desc, parse_request. cbn [Z.eqb Pos.eqb].
  destruct p as [|q [|a0 [|a1 p]]]; [done..|]. change (ZDO_SRV_POWER_DESC_REQUEST =? _) with false at 1.
  change (ZDO_SRV_POWER_DESC_REQUEST =? ZDO_SRV_POWER_DESC_REQUEST) with true. cbv iota.
  replace (blen (q :: a0 :: a1 :: p) <? 3) with false by (rewrite !blen_cons; pose proof (blen_nonneg p); lia).
  apply Forall_cons_1 in Hp as [_ [H0 [H1 _]%Forall_cons_1]%Forall_cons_1].
  unfold address_of. cbn [app]. change (rd (q :: a0 :: a1 :: p ++ t) 1) with a0.
  change (rd (q :: a0 :: a1 :: p ++ t) 2) with a1. rewrite srv_address by done.
  open_staged s. unfold finished, answer. destruct (_ =? l_address l); cbn [negb];
    (eexists; split; [done|]); rewrite srv_le16 by done; by rewrite andb_false_r.
Qed.
Lemma srv_endpoints l broadcast (simple : bool) s p t :
  local_typed l → blen s = 25 → is_bytes p →
  carried_out l broadcast (if simple then ZDO_SRV_SIMPLE_DESC_REQUEST else ZDO_SRV_ACTIVE_EP_REQUEST) p
    (endpoints l simple s (p ++ t) (blen p)).
Proof.
  intros (_&Ta&_) Hs Hp. unfold carried_out, endpoints.
  destruct p as [|q [|a0 [|a1 p]]]; [by destruct simple..|].
  apply Forall_cons_1 in Hp as [_ [H0 [H1 _]%Forall_cons_1]%Forall_cons_1].
  pose proof (srv_own a0 a1 (l_address l) H0 H1 Ta) as Eo. pose proof (srv_le16 a0 a1 H0 H1) as El.
  destruct simple.
  - destruct p as [|ep p]; [done|].
    replace (blen (q :: a0 :: a1 :: ep :: p) <? 4) with false
      by (rewrite !blen_cons; pose proof (blen_nonneg p); lia).
    cbn [app andb negb]. change (rd (q :: a0 :: a1 :: ep :: p ++ t) 3) with ep.
    change (rd (q :: a0 :: a1 :: ep :: p ++ t) 1) with a0. change (rd (q :: a0 :: a1 :: ep :: p ++ t) 2) with a1.
    rewrite Eo. change (parse_request ZDO_SRV_SIMPLE_DESC_REQUEST (q :: a0 :: a1 :: ep :: p))
      with (Some (Simple_Desc (a0 + 256 * a1) ep, 4)).
    open_staged s. unfold finished, answer. rewrite El.
    destruct ((ep =? 0) || (ep =? 255)); [eexists; split; [done|]; by rewrite andb_false_r|].
    destruct (negb (a0 + _ =? _)); [eexists; split; [done|]; by rewrite andb_false_r|].
    destruct (Z.eqb_spec ep (l_endpoint l)) as [->|]; cbn [negb]; eexists; (split; [done|]); by rewrite andb_false_r.
  - replace (blen (q :: a0 :: a1 :: p) <? 3) with false by (rewrite !blen_cons; pose proof (blen_nonneg p); lia).
    cbn [app andb negb]. change (rd (q :: a0 :: a1 :: p ++ t) 1) with a0.
    change (rd (q :: a0 :: a1 :: p ++ t) 2) with a1. rewrite Eo.
    change (parse_request ZDO_SRV_ACTIVE_EP_REQUEST (q :: a0 :: a1 :: p)) with (Some (Active_EP (a0 + 256 * a1), 3)).
    open_staged s. unfold finished, answer. rewrite El.
    destruct (negb (a0 + _ =? _)); [eexists; split; [done|]; by rewrite andb_false_r|].
    destruct (l_endpoint l =? 0); cbn [negb]; eexists; (split; [done|]); by rewrite andb_false_r.
Qed.

(** *** Match_Desc: the lists of clusters *)
Definition words (n : nat) (b : bytes) : list Z :=
  (λ k, rd b (2 * Z.of_nat k) + 256 * rd b (2 * Z.of_nat k + 1)) <$> seq 0 n.
Lemma srv_le_words n : ∀ b,
  le_words n b = if decide (2 * n <= length b)%nat then Some (words n b, drop (2 * n) b) else None.
Proof.
  induction n as [|n IH]; intros b; [done|]. cbn [le_words].
  destruct b as [|x [|y b]]; [by rewrite decide_False by (simpl; lia)..|]. rewrite IH.
  destruct (decide (2 * n <= length b)%nat); [|by rewrite decide_False by (simpl; lia)].
  rewrite decide_True by (simpl; lia). f_equal. f_equal; [|by replace (2 * S n)%nat with (S (S (2 * n))) by lia].
  unfold words. cbn [seq fmap list_fmap]. f_equal. rewrite <- seq_shift, map_map. apply map_ext. intros k.
  rewrite (rd_cons x _ (2 * _)), (rd_cons y _ (_ - 1)), (rd_cons x _ (_ + 1)), (rd_cons y _ (_ + 1 - 1)) by lia.
  f_equal; [f_equal; lia|]. do 2 f_equal. lia.
Qed.
Lemma srv_served c : served c = true ↔ c ∈ served_clusters.
Proof.
  unfold served, served_clusters. rewrite !orb_true_iff, !Z.eqb_eq, !elem_of_cons, elem_of_nil.
  change ZDO_SRV_BASIC_CLUSTER with 0. change ZDO_SRV_POWER_CLUSTER with 1.
  change ZDO_SRV_DEVICE_TEMPERATURE_CLUSTER with 2. change ZDO_SRV_IDENTIFY_CLUSTER with 3.
  change ZDO_SRV_TEMPERATURE_CLUSTER with 0x402. change ZDO_SRV_HUMIDITY_CLUSTER with 0x405. tauto.
Qed.
Lemma srv_match_loop n : ∀ a b t simple,
  blen a = 6 → is_bytes b → (2 * n <= length b)%nat →
  match_loop n (a ++ b ++ t) (6 + 2 * Z.of_nat n) simple
    = if bool_decide (Exists (λ c, c ∈ served_clusters) (words n b)) then 1 else simple.
Proof.
  induction n as [|n IH]; intros a b t simple Ha Hb Hn; [by rewrite bool_decide_eq_false_2 by inversion 1|].
  cbn [match_loop]. rewrite (proj2 (Z.leb_gt _ _)) by lia.
  rewrite !(rd_app_r a) by lia. rewrite Ha.
  replace (6 + 2 * Z.of_nat (S n) - 2 - 6) with (2 * Z.of_nat n) by lia.
  replace (6 + 2 * Z.of_nat (S n) - 1 - 6) with (2 * Z.of_nat n + 1) by lia.
  replace (6 + 2 * Z.of_nat (S n) - 2) with (6 + 2 * Z.of_nat n) by lia.
  rewrite !(rd_app_l b) by (unfold blen; lia).
  rewrite srv_address by (apply rd_is_u8; done). rewrite IH by (done || lia).
  assert (words (S n) b = words n b ++ [rd b (2 * Z.of_nat n) + 256 * rd b (2 * Z.of_nat n + 1)]) as ->.
  { unfold words. by rewrite seq_S, fmap_app. }
  set (c := _ + 256 * _). pose proof (srv_served c) as Hc. set (P := λ c, c ∈ served_clusters).
  assert (Exists P (words n b ++ [c]) ↔ Exists P (words n b) ∨ served c = true) as He.
  { rewrite Exists_app, Hc. split; (intros [H|H]; [by left|right]); [by inversion H as [? ? H'|? ? H']; [|inversion H']|by constructor]. }
  destruct (decide (Exists P (words n b))) as [E|E].
  - by rewrite !bool_decide_eq_true_2 by tauto.
  - rewrite (bool_decide_eq_false_2 (Exists P (words n b))) by done. destruct (served c).
    + by rewrite bool_decide_eq_true_2 by tauto.
    + by rewrite bool_decide_eq_false_2 by (intros [?|?]%He; done).
Qed.
(** The octets of a Match_Desc request, and the lengths that the code compares. *)
Lemma srv_match_parse q a0 a1 f0 f1 c r t :
  is_u8 c → is_bytes r →
  let body := q :: a0 :: a1 :: f0 :: f1 :: c :: r ++ t in
  let m := rd body (6 + 2 * c) in
  parse_request ZDO_SRV_MATCH_DESC_REQUEST (q :: a0 :: a1 :: f0 :: f1 :: c :: r)
  = if (blen r <=? 2 * c) || (blen r <? 2 * c + 1 + 2 * m) then None
    else Some (Match_Desc (a0 + 256 * a1) (f0 + 256 * f1) (words (Z.to_nat c) r)
                 (words (Z.to_nat m) (drop (Z.to_nat (2 * c + 1)) r)), 7 + 2 * c + 2 * m).
Proof.
  intros Hc Hr body m. unfold is_u8 in Hc.
  change (parse_request _ _) with
    (match le_words (Z.to_nat c) r with
     | Some (ins, m :: p) =>
         match le_words (Z.to_nat m) p with
         | Some (outs, _) => Some (Match_Desc (a0 + 256 * a1) (f0 + 256 * f1) ins outs, 7 + 2 * c + 2 * m)
         | None => None
         end
     | _ => None
     end).
  assert (2 * c < blen r → m = rd r (2 * c)) as Hm.
  { intros H. unfold m, body. rewrite !rd_cons by lia. rewrite rd_app_l by lia. f_equal. lia. }
  clearbody m. rewrite srv_le_words. unfold blen in *.
  destruct (decide (2 * Z.to_nat c <= length r)%nat) as [Hl|Hl].
  2: { by replace (Z.of_nat (length r) <=? 2 * c) with true by (symmetry; apply Z.leb_le; lia). }
  destruct (drop (2 * Z.to_nat c) r) as [|m' r2] eqn:E.
  { apply (f_equal length) in E. rewrite length_drop in E. cbn [length] in E.
    by replace (Z.of_nat (length r) <=? 2 * c) with true by (symmetry; apply Z.leb_le; lia). }
  pose proof (f_equal length E) as El. rewrite length_drop in El. cbn [length] in El.
  assert (m = m') as <-.
  { rewrite Hm by lia. unfold rd. replace (Z.to_nat (2 * c)) with (2 * Z.to_nat c + 0)%nat by lia.
    by rewrite <- lookup_drop, E. }
  assert (drop (Z.to_nat (2 * c + 1)) r = r2) as ->.
  { replace (Z.to_nat (2 * c + 1)) with (2 * Z.to_nat c + 1)%nat by lia. by rewrite <- drop_drop, E. }
  rewrite (proj2 (Z.leb_gt _ _)) by lia. cbn [orb]. rewrite srv_le_words.
  assert (is_u8 m) as Hm8 by (rewrite Hm by lia; by apply rd_is_u8). unfold is_u8 in Hm8.
  destruct (decide (2 * Z.to_nat m <= length r2)%nat);
    [rewrite (proj2 (Z.ltb_ge _ _)) by lia|rewrite (proj2 (Z.ltb_lt _ _)) by lia]; done.
Qed.
Lemma srv_matching l profile ins :
  matching l profile ins
  = if negb (l_endpoint l =? 0) && ((profile =? l_profile l) || (profile =? 0xffff))
       && bool_decide (Exists (λ c, c ∈ served_clusters) ins) then [l_endpoint l] else [].
Proof.
  unfold matching.
  destruct (Z.eqb_spec (l_endpoint l) 0), (Z.eqb_spec profile (l_profile l)), (Z.eqb_spec profile 0xffff);
    cbn [negb andb orb]; try (by rewrite bool_decide_eq_false_2 by tauto).
  all: by rewrite (bool_decide_ext _ (Exists (λ c, c ∈ served_clusters) ins)) by tauto.
Qed.
Lemma srv_match l broadcast s p t :
  local_typed l → blen s = 25 → is_bytes p → blen p <= 100 →
  carried_out l broadcast ZDO_SRV_MATCH_DESC_REQUEST p
    (match_desc l broadcast s (p ++ t) (blen p)).
Proof.
  intros (_&Ta&_&Te) Hs Hp Hl. unfold carried_out, match_desc.
  destruct p as [|q [|a0 [|a1 [|f0 [|f1 [|c r]]]]]]; [done..|].
  apply Forall_cons_1 in Hp as [_ [H0 [H1 [Hf0 [Hf1 [Hc Hr]%Forall_cons_1]%Forall_cons_1]%Forall_cons_1]%Forall_cons_1]%Forall_cons_1].
  rewrite (srv_match_parse q a0 a1 f0 f1 c r t Hc Hr). rewrite !blen_cons in *. pose proof (blen_nonneg r).
  rewrite !(proj2 (Z.ltb_ge (blen r + 1 + 1 + 1 + 1 + 1 + 1) _)) by lia. cbn [app].
  set (body := q :: a0 :: a1 :: f0 :: f1 :: c :: r ++ t). change (rd body 5) with c.
  unfold is_u8 in Hc. rewrite (u16_id (6 + 2 * c)) by (unfold is_u16; lia).
  set (m := rd body (6 + 2 * c)).
  replace (blen r + 1 + 1 + 1 + 1 + 1 + 1 <=? 6 + 2 * c) with (blen r <=? 2 * c)
    by (apply eq_true_iff_eq; rewrite !Z.leb_le; lia).
  replace (blen r + 1 + 1 + 1 + 1 + 1 + 1 <? 6 + 2 * c + 1 + 2 * m) with (blen r <? 2 * c + 1 + 2 * m)
    by (apply eq_true_iff_eq; rewrite !Z.ltb_lt; lia).
  destruct (Z.leb_spec (blen r) (2 * c)) as [|Hl1]; [done|].
  destruct (Z.ltb_spec (blen r) (2 * c + 1 + 2 * m)) as [|Hl2]; [done|]. cbn [orb].
  assert (0 <= m) as Hm.
  { unfold m, body. rewrite !rd_cons by lia. rewrite rd_app_l by lia. apply (rd_is_u8 r _ Hr). }
  rewrite (u8_id (6 + 2 * c + 1 + 2 * m)) by (unfold is_u8; lia).
  unfold address_of. change (rd body 1) with a0. change (rd body 2) with a1.
  change (rd body 3) with f0. change (rd body 4) with f1. rewrite !srv_address by done.
  assert (match_loop (Z.to_nat c) body (6 + 2 * c) 0
    = if bool_decide (Exists (λ c, c ∈ served_clusters) (words (Z.to_nat c) r)) then 1 else 0) as ->.
  { unfold blen in Hl1, Hl2. replace (6 + 2 * c) with (6 + 2 * Z.of_nat (Z.to_nat c)) by lia.
    by apply (srv_match_loop (Z.to_nat c) [q; a0; a1; f0; f1; c] r t 0); [|done|lia]. }
  unfold finished, answer, silent, interested. rewrite srv_matching, Z.leb_antisym. set (E := bool_decide _). clearbody E.
  set (T := negb (l_endpoint l =? 0) && _). clearbody T.
  rewrite (srv_le16 a0 a1) by done. unfold echo.
  change (rd body 0) with q. change (rd body 1) with a0. change (rd body 2) with a1. clearbody m body.
  open_staged s.
  destruct (a0 + 256 * a1 =? l_address l), (a0 + 256 * a1 <? 0xfffb); cbn [negb andb orb]; destruct T, E;
    (eexists; split; [done|]; do 3 (split; [done|]); split; [cbn [consumed]; lia|by destruct broadcast]).
Qed.
Lemma srv_encoded s r :
  response_typed r → response_size (r_status r) ≠ 0 →
  (r_status r = ZDO_NODE_SUCCESS → descriptor_valid (descriptor r) = true) → blen s = 25 →
  ∃ s' n, zdo_node_rsp_encode (Some r) (Some s) ZDO_SRV_STAGED (Some 0) = (ZDO_NODE_OK, Some s', Some n) ∧
    blen s' = 25 ∧ n = blen (response_wire r) ∧ slice s' 0 n = response_wire r.
Proof.
  intros Ht H0 Hv Hs. assert (response_size (r_status r) <= 17).
  { apply (node_status r _ H0). by intros [E|[E|[E|[E|E]]]]; rewrite E. }
  destruct (node_encode r s ZDO_SRV_STAGED 0 Ht H0 Hv) as [-> El]; [unfold ZDO_SRV_STAGED; lia|].
  eexists _, _. split; [done|]. rewrite blen_blit, <- El. split; [done|]. split; [done|].
  rewrite blit_spec by lia. rewrite slice_0, take_0. cbn [app]. rewrite take_app_length'; [done|unfold blen; lia].
Qed.
Lemma srv_node reply l broadcast cluster s p t :
  local_typed l → descriptor_valid (l_descriptor l) = true → blen s = 25 → is_bytes p → 1 <= blen p <= 100 →
  cluster ≠ ZDO_SRV_POWER_DESC_REQUEST → cluster ≠ ZDO_SRV_MATCH_DESC_REQUEST →
  cluster ≠ ZDO_SRV_ACTIVE_EP_REQUEST → cluster ≠ ZDO_SRV_SIMPLE_DESC_REQUEST →
  reply = {| descriptor := l_descriptor l; r_address := l_address l; r_sequence := rd p 0;
             r_status := 0; has_address := 0; r_consumed := 0 |} →
  carried_out l broadcast cluster p (node_or_unsupported reply l cluster s (p ++ t) (blen p)).
Proof.
  intros (Td&Ta&_) Hv Hs Hp Hl N1 N2 N3 N4 ->. pose proof (rd_is_u8 p 0 Hp) as Hq.
  unfold carried_out, node_or_unsupported, parse_request.
  cbn [descriptor r_address r_sequence r_status]. cbv zeta.
  destruct (Z.eqb_spec cluster ZDO_NODE_REQUEST_CLUSTER) as [->|_].
  2: { rewrite !(proj2 (Z.eqb_neq _ _)) by done.
    match goal with |- context [zdo_node_rsp_encode (Some ?r)] =>
      destruct (srv_encoded s r) as (s'&n&->&_&->&E) end; try done.
    eexists. split; [done|]. split; [exact E|]. done || (do 3 (split; [done|])). by rewrite andb_false_r. }
  unfold zdo_node_req_decode. unfold ZDO_NODE_MAX_BODY. rewrite (proj2 (Z.ltb_ge 100 _)) by lia.
  destruct p as [|q [|a0 [|a1 p]]]; [done..|].
  apply Forall_cons_1 in Hp as [_ [H0 [H1 _]%Forall_cons_1]%Forall_cons_1].
  rewrite (proj2 (Z.ltb_ge _ 3)) by (rewrite !blen_cons; pose proof (blen_nonneg p); lia).
  assert (read_le16 ((q :: a0 :: a1 :: p) ++ t) 1 = a0 + 256 * a1) as Ea by by apply srv_address.
  cbn [q_address q_consumed]. rewrite Ea. unfold finished, answer.
  assert (is_u16 (a0 + 256 * a1)) by (unfold is_u8, is_u16 in *; lia).
  destruct (Z.eqb_spec (a0 + 256 * a1) (l_address l)) as [Eo|Eo]; cbn [negb];
  match goal with |- context [zdo_node_rsp_encode (Some ?r)] =>
      destruct (srv_encoded s r) as (s'&n&->&_&->&E) end; try done;
    (eexists; split; [done|]; split; [exact E|]; do 3 (split; [done|]); by rewrite andb_false_r).
Qed.
Lemma srv_request_bit c : is_u16 c → has c 0x8000 = (0x8000 <=? c).
Proof. intros Hc. apply eqb_true_iff. by_u16 c. Qed.
Lemma srv_finished l broadcast q req k w :
  finished l broadcast q req k w →
  let '(st, rest) := answer l req in
  size w = blen (q :: st :: rest) ∧ slice (staged w) 0 (size w) = q :: st :: rest ∧
  status w = st ∧ consumed w = k ∧ drop_ w = broadcast && silent l req.
Proof.
  unfold finished. destruct (answer l req) as [st rest]. intros (E1&E2&E3). rewrite !blen_cons.
  split; [lia|]. by split.
Qed.
(** C36: the server is the reaction of its specification.  In a context it accepts, whatever its
    private buffer held, it parses the request, judges it on its own, and answers with exactly
    the octets of the answer: the node descriptor, the power descriptor, the one endpoint, its simple
    descriptor, or the endpoint that serves one of the clusters asked for.  Responses,
    notifications and truncated requests are errors, a broadcast is answered only when
    it matches, and a buffer that is too small is left as it was. *)
Theorem zdo_srv_handle_reacts staged0 l x b n out capacity info0 :
  context_refused x = false → local_refused l = false → header_typed (rx_header x) → local_typed l →
  descriptor_valid (l_descriptor l) = true → blen staged0 = ZDO_SRV_STAGED →
  is_bytes b → 1 <= n <= ZDO_NODE_MAX_BODY → n <= blen b →
  zdo_srv_handle staged0 (Some l) (Some x) (Some b) n (Some out) capacity (Some info0)
  = match react l x (take (Z.to_nat n) b) with
    | Refused rc => (rc, Some out, Some info0)
    | Dropped kind k => (ZDO_SRV_OK, Some out, Some (dropped kind (rd b 0) k))
    | Replied st rest k =>
        let m := rd b 0 :: st :: rest in
        if capacity <? blen m then (ZDO_SRV_SPACE, Some out, Some info0)
        else (ZDO_SRV_OK, Some (blit out 0 m),
              Some {| i_cluster_id := Z.lor (cluster_id (rx_header x)) 0x8000; i_kind := ZDO_SRV_REPLY;
                      i_endpoint := source_endpoint (rx_header x); i_sequence := rd b 0;
                      i_status := st; i_length := blen m; i_consumed := k |})
    end.
Proof.
  intros Hc Hl (_&_&_&_&Tc&_) Tl Hv Hs Hb Hn Hn'. unfold zdo_srv_handle. rewrite Hc, Hl.
  unfold ZDO_NODE_MAX_BODY in *. rewrite (proj2 (Z.ltb_ge 100 _)) by lia. rewrite (proj2 (Z.eqb_neq n 0)) by lia.
  cbv zeta. set (reply := Build_zdo_node_response_t _ _ _ _ _ _).
  pose proof (rd_is_u8 b 0 Hb) as Hq.
  destruct (srv_encoded staged0 reply) as (s'&n1&->&Hs'&_&_); try done.
  { destruct Tl as (?&?&_). by split. }
  unfold react. rewrite srv_request_bit by done. destruct (0x8000 <=? _); [done|].
  destruct ((_ =? ZDO_SRV_DEVICE_ANNCE) || _); [done|].
  destruct (cluster_id _ =? ZDO_SRV_PARENT_ANNCE); [done|]. unfold broadcast_to.
  set (bc := negb (rx_broadcast x =? 0) || _). clearbody bc. destruct (bc && negb _); [done|].
  assert (take (Z.to_nat n) b ++ drop (Z.to_nat n) b = b) as Eb by apply take_drop.
  set (p := take (Z.to_nat n) b) in *. set (t := drop _ b) in *.
  assert (blen p = n) as Hp by (unfold p, blen in *; rewrite length_take; lia).
  assert (is_bytes p) as Bp by by apply Forall_take.
  assert (rd p 0 = rd b 0) as E0 by (unfold p; apply rd_take; lia).
  set (c := cluster_id (rx_header x)) in *.
  match goal with |- match ?y with _ => _ end = _ => assert (carried_out l bc c p y) as H end.
  { rewrite <- Eb, <- Hp.
    destruct (Z.eqb_spec c ZDO_SRV_POWER_DESC_REQUEST) as [->|N1]; [by apply srv_power|].
    destruct (Z.eqb_spec c ZDO_SRV_MATCH_DESC_REQUEST) as [->|N2]; [apply srv_match; done || lia|].
    destruct (Z.eqb_spec c ZDO_SRV_ACTIVE_EP_REQUEST) as [->|N3]; [by apply (srv_endpoints l bc false)|].
    destruct (Z.eqb_spec c ZDO_SRV_SIMPLE_DESC_REQUEST) as [->|N4]; [by apply (srv_endpoints l bc true)|].
    apply srv_node; try done; [lia|]. unfold reply. by rewrite E0. }
  clearbody p t. unfold carried_out in H. destruct (parse_request c p) as [[req k]|]; [|by rewrite H].
  destruct H as (w&->&Hw). apply srv_finished in Hw. rewrite E0 in Hw.
  destruct (answer l req) as [st rest]. destruct Hw as (Ez&Es&->&->&->).
  destruct (bc && silent l req); [done|]. by rewrite Es, Ez.
Qed.
Lemma srv_response_refused s l x b n out capacity info :
  has (cluster_id (rx_header x)) 0x8000 = true →
  (zdo_srv_handle s l (Some x) b n out capacity info).1.1 ≠ ZDO_SRV_OK.
Proof.
  intros H. unfold zdo_srv_handle. destruct l as [l|]; [|done]. destruct b as [b|]; [|done].
  destruct out as [out|]; [|done]. destruct info as [info|]; [|done].
  destruct (context_refused x); [done|]. destruct (local_refused l); [done|].
  destruct (_ <? n); [done|]. destruct (n =? 0); [done|]. cbv zeta.
  destruct (zdo_node_rsp_encode _ _ _ _) as [[[] [?|]] [?|]]; try done. by rewrite H.
Qed.
Lemma srv_response_cluster c : has (Z.lor c 0x8000) 0x8000 = true.
Proof.
  unfold has. rewrite Z.land_lor_distr_l. destruct (Z.eqb_spec (Z.lor (Z.land c 0x8000) (Z.land 0x8000 0x8000)) 0)
    as [[_ ?]%Z.lor_eq_0_iff|]; done.
Qed.
(** The branches fail for a reason. *)
Lemma srv_branch_fails l broadcast simple reply cluster s b n :
  power_desc l s b n ≠ inl ZDO_SRV_OK ∧ match_desc l broadcast s b n ≠ inl ZDO_SRV_OK ∧
  endpoints l simple s b n ≠ inl ZDO_SRV_OK ∧ node_or_unsupported reply l cluster s b n ≠ inl ZDO_SRV_OK.
Proof.
  unfold power_desc, match_desc, endpoints, node_or_unsupported. repeat split; repeat (case_match; try done).
Qed.
(** C37: no answer is answered.  Whatever the arguments, an error leaves the response and the
    description alone, a drop leaves the response alone and describes nothing to send, and a
    reply was asked for by a request, by broadcast only if it is Match_Desc, fits the
    buffer, and goes to a cluster that no server in any state and context replies to. *)
Theorem zdo_srv_no_storm s l x b n out capacity info rc out' info' :
  zdo_srv_handle s l x b n out capacity info = (rc, out', info') →
  if decide (rc = ZDO_SRV_OK)
  then ∃ i x0, info' = Some i ∧ x = Some x0 ∧
    if decide (i_kind i = ZDO_SRV_REPLY)
    then has (cluster_id (rx_header x0)) 0x8000 = false ∧ i_length i <= capacity ∧
      (broadcast_to x0 = true → cluster_id (rx_header x0) = ZDO_SRV_MATCH_DESC_REQUEST) ∧
      ∀ s2 l2 x2 b2 n2 out2 capacity2 info2, cluster_id (rx_header x2) = i_cluster_id i →
        (zdo_srv_handle s2 l2 (Some x2) b2 n2 out2 capacity2 info2).1.1 ≠ ZDO_SRV_OK
    else out' = out ∧ i_length i = 0 ∧ i_cluster_id i = 0
  else out' = out ∧ info' = info.
Proof.
  unfold zdo_srv_handle at 1. destruct l as [l|], x as [x|], b as [b|], out as [out|], info as [info|];
    try (by intros [= <- <- <-]).
  destruct (context_refused x); [by intros [= <- <- <-]|]. destruct (local_refused l); [by intros [= <- <- <-]|].
  destruct (_ <? n); [by intros [= <- <- <-]|]. destruct (n =? 0); [by intros [= <- <- <-]|]. cbv zeta.
  set (reply := Build_zdo_node_response_t _ _ _ _ _ _).
  destruct (zdo_node_rsp_encode _ _ _ _) as [[[] [s1|]] [?|]]; try (by intros [= <- <- <-]).
  destruct (has _ _) eqn:Eh; [by intros [= <- <- <-]|].
  destruct ((_ =? ZDO_SRV_DEVICE_ANNCE) || _); [by intros [= <- <- <-]|].
  assert (∀ kind k, kind ≠ ZDO_SRV_REPLY →
    ∃ i x0, Some (dropped kind (rd b 0) k) = Some i ∧ Some x = Some x0 ∧
      if decide (i_kind i = ZDO_SRV_REPLY) then has (cluster_id (rx_header x0)) 0x8000 = false ∧ i_length i <= capacity ∧
        (broadcast_to x0 = true → cluster_id (rx_header x0) = ZDO_SRV_MATCH_DESC_REQUEST) ∧
        ∀ s2 l2 x2 b2 n2 out2 capacity2 info2, cluster_id (rx_header x2) = i_cluster_id i →
          (zdo_srv_handle s2 l2 (Some x2) b2 n2 out2 capacity2 info2).1.1 ≠ ZDO_SRV_OK
      else Some out = Some out ∧ i_length i = 0 ∧ i_cluster_id i = 0) as Hd.
  { intros kind k Hk. eexists _, _. split; [done|]. split; [done|]. by rewrite decide_False. }
  destruct (_ =? ZDO_SRV_PARENT_ANNCE); [intros [= <- <- <-]; rewrite decide_True by done; by apply Hd|].
  fold (broadcast_to x). destruct (broadcast_to x && negb _) eqn:Eb;
    [intros [= <- <- <-]; rewrite decide_True by done; by apply Hd|].
  match goal with |- match ?y with _ => _ end = _ → _ => assert (y ≠ inl ZDO_SRV_OK) as Hy end.
  { destruct (srv_branch_fails l (broadcast_to x) true reply (cluster_id (rx_header x)) s1 b n) as (?&?&?&?).
    destruct (srv_branch_fails l (broadcast_to x) false reply (cluster_id (rx_header x)) s1 b n) as (_&_&?&_).
    by repeat (case_match; try done). }
  match goal with |- match ?y with _ => _ end = _ → _ => destruct y as [e|w] end.
  { intros [= <- <- <-]. by rewrite decide_False by congruence. }
  destruct (drop_ w); [intros [= <- <- <-]; rewrite decide_True by done; by apply Hd|].
  destruct (Z.ltb_spec capacity (size w)); [by intros [= <- <- <-]|]. intros [= <- <- <-].
  rewrite decide_True by done. eexists _, _. split; [done|]. split; [done|]. rewrite decide_True by done.
  cbn [i_length i_cluster_id]. split; [done|]. split; [done|]. split.
  - intros E. rewrite E in Eb. cbn [andb] in Eb. apply negb_false_iff in Eb. by apply Z.eqb_eq in Eb.
  - intros s2 l2 x2 b2 n2 out2 capacity2 info2 E2. apply srv_response_refused. rewrite E2. apply srv_response_cluster.
Qed.
(** A broadcast Match_Desc request for the temperature cluster. *)
Definition sample_local : zdo_srv_local_t := {|
  l_descriptor := sample_descriptor; l_address := 0x8001; l_profile := 0x0104; l_endpoint := 1 |}.
Definition sample_rx : zdo_srv_rx_t := {|
  rx_header := {| type := APS_FRAME_DATA; delivery_mode := APS_DELIVERY_BROADCAST; flags := 0;
                  destination_endpoint := 0; cluster_id := ZDO_SRV_MATCH_DESC_REQUEST; profile_id := 0;
                  source_endpoint := 0; counter := 0 |};
  rx_broadcast := 1 |}.
Definition sample_body : bytes := [9; 0xfd; 0xff; 0x04; 0x01; 2; 0x06; 0x00; 0x02; 0x04; 1; 0x19; 0x00].
Definition sample_info : zdo_srv_info_t := {|
  i_cluster_id := 0; i_kind := 0; i_endpoint := 0; i_sequence := 0; i_status := 0; i_length := 0; i_consumed := 0 |}.
Definition sample_reply : zdo_srv_info_t := {|
  i_cluster_id := 0x8006; i_kind := ZDO_SRV_REPLY; i_endpoint := 0; i_sequence := 9; i_status := 0;
  i_length := 6; i_consumed := 13 |}.
Theorem zdo_srv_handle_reacts_witness :
  react sample_local sample_rx sample_body = Replied ZDO_NODE_SUCCESS [0xfd; 0xff; 1; 1] 13 ∧
  zdo_srv_handle (replicate 25 0xee) (Some sample_local) (Some sample_rx) (Some sample_body) 13
    (Some (replicate 7 0)) 7 (Some sample_info)
  = (ZDO_SRV_OK, Some [9; 0; 0xfd; 0xff; 1; 1; 0], Some sample_reply).
Proof.
  split; [vm_compute; reflexivity|].
  rewrite (zdo_srv_handle_reacts (replicate 25 0xee) sample_local sample_rx sample_body 13);
    [reflexivity|done..| | | | | |]; try done; by repeat split || by repeat constructor.
Defined.
Theorem zdo_srv_no_storm_witness :
  ∃ i x0, Some sample_reply = Some i ∧ Some sample_rx = Some x0 ∧
    ∀ s2 l2 x2 b2 n2 out2 capacity2 info2, cluster_id (rx_header x2) = 0x8006 →
      (zdo_srv_handle s2 l2 (Some x2) b2 n2 out2 capacity2 info2).1.1 ≠ ZDO_SRV_OK.
Proof.
  pose proof (zdo_srv_no_storm (replicate 25 0xee) (Some sample_local) (Some sample_rx) (Some sample_body) 13
    (Some (replicate 7 0)) 7 (Some sample_info) ZDO_SRV_OK _ _ eq_refl) as H.
  destruct H as (i&x0&[= <-]&[= <-]&_&_&_&H). eexists _, _. split; [reflexivity|]. split; [reflexivity|]. exact H.
Defined.
End ZdoSrv.
